(* ===== verification/_CoqProject ===== *)
-Q . S2P
Prelude.v
PyStr.v
IpAddress.v
Hash.v
PyTime.v
Base64.v
Codec.v
JsonText.v
Regex.v
Conf.v
ClientIp.v
Redis.v
Http.v
RateLimiter.v
Fingerprint.v
Models.v
AutoRule.v
RuleEngine.v
RuleEngineProofs.v
RuleCacheProofs.v
Challenge.v
SignedCookies.v
FormTokens.v
FormDefences.v
FormProtection.v
FormRender.v
Middleware.v
Detectors.v
Tasks.v
AccessLog.v
Patterns.v
ThreatFeed.v
RuleTransfer.v
FlushProbe.v
DetectorProbe.v
DetectorOutcomes.v
Blocklist.v
Views.v
FormReplay.v
Settings.v
RedisClient.v
Checks.v
GeoIpInstall.v
Logging.v
AdminApi.v
Commands.v
Handlers.v
Citations.v
Schema.v
