(* ===== verification/Prelude.v ===== *)
(** * django-waf: a verification library

    django-waf is a web application firewall for Django.  A middleware decides
    on every request, from rules kept in the database and cached in Redis, from
    rate limits, and from scores of the request's headers; challenged clients
    solve a proof of work; forms carry their own defences; periodic tasks turn
    the request log into new rules.  This library models that code (under
    [src/src/django_waf]) as executable definitions and proves what makes each
    part correct.

    ** Conventions

    A Python call returns a value or raises ([res]); code that changes state is
    a computation in the monad [M S A := S → res A * S], where an exception
    keeps the changes made before it.  [try_except] and [try_finally] are
    Python's.  Text is a sequence of code points below 256 ([String.string]),
    so code that works on UTF-8 octets is modelled on octets.  Times are
    integer microseconds since the epoch; scores are rationals (the code's
    floats are multiples of 0.5 on the shipped weights).  Settings are one
    record, [Conf].

    What is outside the sources is a parameter behind a class with its law, and
    every theorem that uses a law has a witness at an instance:
    - Redis: [RedisClient]/[RedisSpec] (a command that returns did what is
      documented; it may always raise), with [MemRedis] and [DownRedis];
    - Python's [re]: [ReEngine]; the built-in patterns are terms of [Regex] and
      the engine [LiteRe] interprets a subset of the syntax;
    - DNS ([Dns]), [TimestampSigner] ([Signer]/[SignerSpec]), GeoIP ([GeoIp]),
      and the Django site: views, URLs, hooks, templates, randomness ([Site]).

    ** Files, parts of the program, and what is shown

    Support (the language and its library):
    - [Prelude]: results, the monad, [preserves] and [total], sorting, tactics,
      the hint database [waf];
    - [PyStr] (str methods, [int]), [IpAddress] ([ipaddress]), [Hash] (SHA-256,
      SHA-1, HMAC), [PyTime] ([isoformat]), [Base64] (base64url, UTF-8),
      [Codec] (JSON, UUID), [Regex], [Redis], [Http] (requests, responses,
      cookies).

    Components:
    - [Conf]: conf.py, enums.py.
    - [ClientIp]: services/client_ip.py.  A client cannot choose the address it
      is judged by.
    - [RateLimiter]: services/rate_limiter.py.  The sliding windows count
      exactly; the whole check refines its specification.
    - [Fingerprint]: services/fingerprint.py, services/ua_analyser.py.
    - [Models]: models.py, handlers.py; [World], the state the services share.
    - [AutoRule]: the rule store of services/anomaly_detector.py.  Review
      decisions survive re-detection; automatic rules stay unique; a lost race
      merges.
    - [RuleEngine], [RuleEngineProofs]: services/rule_engine.py.  Which rule
      applies, the cache round trip, expiry, confirmed reverse DNS, and that
      every challenge passes the escalation gate.
    - [Challenge]: services/challenge_service.py.  Soundness and solvability of
      the proof of work, its state machine, the pass cookie.
    - [SignedCookies]: services/site_password_service.py,
      services/trusted_user_service.py, receivers.py.
    - [Middleware]: middleware.py, services/geoip.py.  An enforced verdict or a
      locked gate never reaches the view; outages fail open.
    - [FormTokens]: forms/services/tokens.py, forms/services/markers.py.
    - [FormDefences]: forms/defences, forms/services/counters.py,
      forms/credentials.py.
    - [FormProtection]: forms/protection.py, forms/mixin.py.  The verdict, the
      token rules, and that a person gets through.
    - [Detectors]: the detectors of services/anomaly_detector.py.  A full run
      never reopens or overrides an operator's decision.
    - [Tasks], [AccessLog]: tasks.py.  No hit is lost or counted twice; reading
      a log again adds nothing; reputation scores are between 0 and 1.
    - [Patterns]: services/pattern_validation.py.  The validator accepts
      exactly the patterns without the two shapes it looks for, which do not
      cover deeper nesting.
    - [ThreatFeed]: services/threat_feed.py.  A sync mirrors the feed,
      leaves the other rules alone and, with quarantine on, activates no allow rule;
      telemetry reveals networks only.
    - [Blocklist]: services/blocklist_generator.py.  Activation keeps the old
      file or installs a tested one.
    - [JsonText], [RuleTransfer]: the rule commands of management/commands, the
      data migrations.  Export and import are inverse, but for what the export
      leaves out.
    - [FlushProbe], [DetectorProbe], [DetectorOutcomes]: the probes over the
      real producer, consumer and detectors; the report accounts for every rule.
    - [Views]: views.py.  A solver gets in, nobody else gets a cookie, a
      rejection is final.
    - [FormReplay]: forms/decorators.py, forms/services/replay.py.
    - [Settings]: conf.py as dynamically typed settings; [Conf] is what the
      defaults resolve to.
    - [RedisClient], [Checks]: services/redis_client.py, checks.py.  What
      settings that pass the checks guarantee the code the checks guard.
    - [GeoIpInstall]: services/geoip.py.  The installed database is the old one
      or one that verified.
    - [Logging]: logging.py, forms/logging.py.
    - [AdminApi]: admin.py, api/.  An edit through the API keeps the table's
      invariants; the admin's score tiers are on another scale than the scores.
    - [RuleCacheProofs]: loading the rule cache ends, whoever holds the lock.
    - [Commands]: the commands that call one service, the telemetry's
      submission.  Telemetry discloses its anonymised view and nothing more.
    - [FormRender]: the render_fields of forms/, templatetags.  For form ids
      and users without a vertical bar, a page holds what a person needs to pass
      and no input adds markup to it.
    - [Handlers]: handlers.py on either cache backend.  [Citations]:
      scripts/check_br_citations.py; the guard passes exactly when it should.
    - [Schema]: models.py, migrations/.  The migrations build the declared models;
      every logged row fits its columns, but for a long method.

    ** Bounds and fuel

    Loops over data are structural.  Fuel appears where Python's loop is not:
    decimal digits ([dec_fuel], the bit length), the JSON parser (twice the
    length of the text), [replace] (the length), and the rebuild lock, whose
    waits the code bounds itself.  Each
    bound is proved enough ([dec_fuel_enough], [loads_any_fuel], the round
    trips; [cache_load_terminates] for the waits).

    ** Not modelled

    Left out for good: display configuration of the admin, the templates with their
    HTML and JavaScript, URL wiring (presentation and declarative
    configuration); the JavaScript in rendered fields is text, not run; the SQL of a migration; the signals
    rules emit to a consumer's code; test factories.  Column widths are enforced
    only where [Schema] speaks of them, the failures of copies and renames of
    the block list not at all, and [int] reads more than 4300 digits.  JSON numbers with a
    fraction, imported values outside a field's choices and the rounding of
    displayed ratios are outside the models that meet them, each said there. *)

From Stdlib Require Import ZArith Lia Sorted.
From stdpp Require Import base tactics option list strings gmap numbers.


(** ** Results: a Python call returns a value or raises *)

Inductive exn : Type :=
| ValueError
| KeyError
| ReError
| RedisError
| DbError
| IntegrityError
| MultipleObjectsReturned
| DoesNotExist
| NoReverseMatch
| ChallengeExpiredError (message : string)
| ChallengeMismatchError (message : string)
| ChallengeInvalidError (message : string)
| OtherError (what : string).

#[export] Instance exn_eq_dec : EqDecision exn.
Proof. solve_decision. Defined.

Inductive res (A : Type) : Type :=
| Ok (a : A)
| Raise (e : exn).
Arguments Ok {A} a.
Arguments Raise {A} e.

#[export] Instance res_eq_dec {A} `{EqDecision A} : EqDecision (res A).
Proof. solve_decision. Defined.

Definition is_Ok {A} (r : res A) : bool :=
  match r with Ok _ => true | Raise _ => false end.

Definition res_bind {A B} (r : res A) (k : A → res B) : res B :=
  match r with Ok a => k a | Raise e => Raise e end.

(** ** State and exceptions: a call changes the state, then returns or raises *)

Definition M (S A : Type) : Type := S → res A * S.

Section Monad.
Context {S : Type}.

Definition ret {A} (a : A) : M S A := λ s, (Ok a, s).
Definition raise {A} (e : exn) : M S A := λ s, (Raise e, s).

Definition bind {A B} (m : M S A) (k : A → M S B) : M S B := λ s,
  match m s with
  | (Ok a, s') => k a s'
  | (Raise e, s') => (Raise e, s')
  end.

(** [try m except h]: what [m] did to the state before it raised stays. *)
Definition try_except {A} (m : M S A) (h : exn → M S A) : M S A := λ s,
  match m s with
  | (Ok a, s') => (Ok a, s')
  | (Raise e, s') => h e s'
  end.

(** [try m finally f]: [f] runs on both exits; its own exception wins. *)
Definition try_finally {A} (m : M S A) (f : M S unit) : M S A := λ s,
  match m s with
  | (r, s') =>
      match f s' with
      | (Ok _, s'') => (r, s'')
      | (Raise e, s'') => (Raise e, s'')
      end
  end.

Definition gets {A} (f : S → A) : M S A := λ s, (Ok (f s), s).
Definition modify (f : S → S) : M S unit := λ s, (Ok tt, f s).
Definition lift_res {A} (r : res A) : M S A := λ s, (r, s).
End Monad.

Declare Scope py_scope.
Delimit Scope py_scope with py.
Notation "x <- m ;; k" := (bind m (λ x, k))
  (at level 100, m at next level, right associativity) : py_scope.
Notation "m ;;; k" := (bind m (λ _, k))
  (at level 100, right associativity) : py_scope.
Open Scope py_scope.

(** ** Lemmas on the monad *)

Section MonadLemmas.
Context {S A B : Type}.
Implicit Types (m : M S A) (k : A → M S B) (s : S).

Lemma bind_Ok m k s a s' : m s = (Ok a, s') → bind m k s = k a s'.
Proof. unfold bind. by intros ->. Qed.

Lemma bind_Raise m k s e s' : m s = (Raise e, s') → bind m k s = (Raise e, s').
Proof. unfold bind. by intros ->. Qed.

Lemma bind_inv_Ok m k s b s' :
  bind m k s = (Ok b, s') → ∃ a s1, m s = (Ok a, s1) ∧ k a s1 = (Ok b, s').
Proof. unfold bind. destruct (m s) as [[a|e] s1]; [eauto|done]. Qed.

Lemma bind_inv m k s r s' :
  bind m k s = (r, s') →
  (∃ a s1, m s = (Ok a, s1) ∧ k a s1 = (r, s')) ∨ (∃ e, m s = (Raise e, s') ∧ r = Raise e).
Proof. unfold bind. destruct (m s) as [[a|e] s1]; [|intros [= <- <-]]; eauto 6. Qed.

Lemma try_except_Ok m h s a s' :
  m s = (Ok a, s') → try_except m h s = (Ok a, s').
Proof. unfold try_except. by intros ->. Qed.

(** A handler that never raises makes the whole [try] total. *)
Lemma try_except_total m h s :
  (∀ e s1, is_Ok (h e s1).1 = true) → is_Ok (try_except m h s).1 = true.
Proof. intros Hh. unfold try_except. destruct (m s) as [[a|e] s1]; [done|]. apply Hh. Qed.
End MonadLemmas.

(** ** Invariants of computations

    [preserves I m]: whatever [m] does (return or raise), [I] still holds. *)

Definition preserves {S A} (I : S → Prop) (m : M S A) : Prop :=
  ∀ s, I s → I (m s).2.

Section Preserves.
Context {S : Type} (I : S → Prop).

Lemma preserves_ret {A} (a : A) : preserves I (ret a).
Proof. by intros s. Qed.

Lemma preserves_raise {A} e : preserves I (@raise S A e).
Proof. by intros s. Qed.

Lemma preserves_gets {A} (f : S → A) : preserves I (gets f).
Proof. by intros s. Qed.

Lemma preserves_lift {A} (r : res A) : preserves I (lift_res r).
Proof. by intros s. Qed.

Lemma preserves_modify (f : S → S) : (∀ s, I s → I (f s)) → preserves I (modify f).
Proof. intros Hf s. apply Hf. Qed.

Lemma preserves_bind {A B} (m : M S A) (k : A → M S B) :
  preserves I m → (∀ a, preserves I (k a)) → preserves I (bind m k).
Proof.
  intros Hm Hk s Hs. unfold bind. specialize (Hm s Hs).
  destruct (m s) as [[a|e] s1]; [by apply Hk|done].
Qed.

Lemma preserves_try {A} (m : M S A) (h : exn → M S A) :
  preserves I m → (∀ e, preserves I (h e)) → preserves I (try_except m h).
Proof.
  intros Hm Hh s Hs. unfold try_except. specialize (Hm s Hs).
  destruct (m s) as [[a|e] s1]; [done|by apply Hh].
Qed.

Lemma preserves_finally {A} (m : M S A) (f : M S unit) :
  preserves I m → preserves I f → preserves I (try_finally m f).
Proof.
  intros Hm Hf s Hs. unfold try_finally. specialize (Hm s Hs).
  destruct (m s) as [r s1]. specialize (Hf s1 Hm). destruct (f s1) as [[u|e] s2]; done.
Qed.

Lemma preserves_Ok {A} (m : M S A) s r s' : preserves I m → I s → m s = (r, s') → I s'.
Proof. intros Hm Hs E. specialize (Hm s Hs). by rewrite E in Hm. Qed.
End Preserves.

(** [total m]: [m] never raises. *)
Definition total {S A} (m : M S A) : Prop := ∀ s, is_Ok (m s).1 = true.

Section Total.
Context {S : Type}.

Lemma total_ret {A} (a : A) : total (@ret S A a).
Proof. done. Qed.

Lemma total_gets {A} (f : S → A) : total (gets f).
Proof. done. Qed.

Lemma total_bind {A B} (m : M S A) (k : A → M S B) :
  total m → (∀ a, total (k a)) → total (bind m k).
Proof.
  intros Hm Hk s. specialize (Hm s). unfold bind.
  destruct (m s) as [[a|e] s1]; [apply Hk|done].
Qed.

Lemma total_try {A} (m : M S A) (h : exn → M S A) :
  (∀ e, total (h e)) → total (try_except m h).
Proof. intros Hh s. unfold try_except. destruct (m s) as [[a|e] s1]; [done|apply Hh]. Qed.

Lemma total_inv {A} (m : M S A) s : total m → ∃ a s', m s = (Ok a, s').
Proof. intros Hm. specialize (Hm s). destruct (m s) as [[a|e] s']; [by eexists _, _|done]. Qed.
End Total.

(** ** Generic lemmas shared by the components *)

Lemma bool_decide_eq {A} `{EqDecision A} (x y : A) :
  bool_decide (x = y) = true ↔ x = y.
Proof. apply bool_decide_eq_true. Qed.

Lemma existsb_false_iff {A} (f : A → bool) l :
  existsb f l = false ↔ ∀ x, In x l → f x = false.
Proof.
  induction l as [|y l IH]; simpl; [done|].
  rewrite orb_false_iff, IH. naive_solver.
Qed.

Lemma filter_filter {A} (p q : A → bool) l : List.filter p (List.filter q l) = List.filter (λ x, q x && p x) l.
Proof.
  induction l as [|x l IH]; [done|]. cbn [List.filter]. destruct (q x); cbn [andb List.filter]; by rewrite IH.
Qed.

Lemma find_app {A} (f : A → bool) l1 l2 :
  List.find f (l1 ++ l2) =
  match List.find f l1 with Some x => Some x | None => List.find f l2 end.
Proof. induction l1 as [|x l1 IH]; simpl; [done|]. by destruct (f x). Qed.

Lemma last_cons {A} (a d : A) l : List.last (a :: l) d = List.last l a.
Proof.
  revert a d. induction l as [|b l IH]; intros a d; [done|].
  change (List.last (a :: b :: l) d) with (List.last (b :: l) d). by rewrite !IH.
Qed.

Lemma StronglySorted_app_inv {A} (R : A → A → Prop) l1 l2 :
  StronglySorted R (l1 ++ l2) →
  StronglySorted R l1 ∧ ∀ x y, In x l1 → In y l2 → R x y.
Proof.
  induction l1 as [|a l1 IH]; simpl; [split; [constructor|done]|].
  intros Hs. inversion Hs as [|? ? Hs' HF]; subst. apply Forall_app in HF as [HF1 HF2].
  destruct (IH Hs') as [Hs1 Hall]. split; [by constructor|].
  intros x y [->|Hx] Hy; [|by apply Hall]. rewrite List.Forall_forall in HF2. by apply HF2.
Qed.

Lemma last_In {A} (a : A) l : In (List.last l a) (a :: l).
Proof.
  revert a. induction l as [|b l IH]; intros a; [by left|]. rewrite last_cons. right. apply IH.
Qed.

(** Stable insertion sort ([order_by], [sorted]). *)
Section SortBy.
Context {A : Type} (le : A → A → bool).

Fixpoint insert_by (x : A) (l : list A) : list A :=
  match l with
  | [] => [x]
  | y :: l' => if le x y then x :: l else y :: insert_by x l'
  end.

Definition sort_by (l : list A) : list A := foldr insert_by [] l.

Lemma insert_by_perm x l : Permutation (insert_by x l) (x :: l).
Proof.
  induction l as [|y l IH]; simpl; [done|]. destruct (le x y); [done|].
  rewrite IH. apply Permutation_swap.
Qed.

Lemma sort_by_perm l : Permutation (sort_by l) l.
Proof. induction l as [|x l IH]; simpl; [done|]. by rewrite insert_by_perm, IH. Qed.

Lemma sort_by_In x l : In x (sort_by l) ↔ In x l.
Proof.
  split; apply Permutation_in; [apply sort_by_perm|symmetry; apply sort_by_perm].
Qed.

Definition ordered : A → A → Prop := λ x y, le x y = true.
Hypothesis le_total : ∀ x y, le x y = false → le y x = true.
Hypothesis le_trans : ∀ x y z, le x y = true → le y z = true → le x z = true.

Lemma insert_by_sorted x l : StronglySorted ordered l → StronglySorted ordered (insert_by x l).
Proof.
  induction 1 as [|y l Hl IH HF]; simpl; [by repeat constructor|].
  rewrite List.Forall_forall in HF.
  destruct (le x y) eqn:E.
  - constructor; [constructor; [done|by rewrite List.Forall_forall]|].
    rewrite List.Forall_forall. intros z [<-|Hz]; [done|]. by eapply le_trans, HF.
  - constructor; [done|]. rewrite List.Forall_forall. intros z Hz.
    apply (Permutation_in _ (insert_by_perm x l)) in Hz as [<-|Hz]; [by apply le_total|by apply HF].
Qed.

Lemma sort_by_sorted l : StronglySorted ordered (sort_by l).
Proof. induction l as [|x l IH]; simpl; [constructor|by apply insert_by_sorted]. Qed.
End SortBy.

(** ** Tactics *)

(** Split every conjunction of booleans in the hypotheses. *)
Ltac bool_hyps :=
  repeat match goal with
  | H : andb _ _ = true |- _ => apply andb_true_iff in H; destruct H
  | H : orb _ _ = false |- _ => apply orb_false_iff in H; destruct H
  | H : negb _ = true |- _ => apply negb_true_iff in H
  | H : negb _ = false |- _ => apply negb_false_iff in H
  | H : bool_decide _ = true |- _ => apply bool_decide_eq_true in H
  | H : bool_decide _ = false |- _ => apply bool_decide_eq_false in H
  | H : Z.leb _ _ = true |- _ => apply Z.leb_le in H
  | H : Z.leb _ _ = false |- _ => apply Z.leb_gt in H
  | H : Z.ltb _ _ = true |- _ => apply Z.ltb_lt in H
  | H : Z.ltb _ _ = false |- _ => apply Z.ltb_ge in H
  | H : Z.eqb _ _ = true |- _ => apply Z.eqb_eq in H
  | H : Z.eqb _ _ = false |- _ => apply Z.eqb_neq in H
  end.

(** Case analysis on the scrutinees of the goal, closing what closes. *)
Ltac case_all :=
  repeat (case_match; simplify_eq/=; try done).

Create HintDb waf discriminated.
#[export] Hint Resolve preserves_ret preserves_raise preserves_gets preserves_lift
  preserves_bind preserves_try preserves_finally : waf.
#[export] Hint Resolve total_ret total_gets total_bind total_try : waf.

(** Structural proofs of [preserves] and [total]: descend through the monad. *)
Ltac monadic :=
  repeat first
    [ assumption
    | progress intros
    | solve [eauto with waf nocore]
    | apply preserves_bind | apply preserves_try | apply preserves_finally
    | apply total_bind | apply total_try
    | match goal with
      | |- preserves _ (match ?x with _ => _ end) => destruct x
      | |- total (match ?x with _ => _ end) => destruct x
      end ].

