(* ===== verification/PyStr.v ===== *)
(** * Python strings and integers

    The [str] operations the sources use, on Stdlib's [string]: a character is
    a code point below 256 (WSGI hands header values to Django as Latin-1
    strings, so every header, path and cookie is of this form).  Splitting,
    joining, stripping, case folding, substring tests, and the decimal
    conversions [str(int)] and [int(str)]. *)

From Stdlib Require Import ZArith Lia Ascii String.
From stdpp Require Import base tactics option list strings numbers.
From S2P Require Import Prelude.

Open Scope Z_scope.

#[global] Arguments String.append !s1 s2 : simpl nomatch.

(** ** Characters *)

Definition code (c : ascii) : Z := Z.of_nat (nat_of_ascii c).
Definition chr (z : Z) : ascii := ascii_of_nat (Z.to_nat z).

Definition is_digit (c : ascii) : bool := (48 <=? code c) && (code c <=? 57).
Definition is_hex (c : ascii) : bool :=
  is_digit c || ((97 <=? code c) && (code c <=? 102)) || ((65 <=? code c) && (code c <=? 70)).

(** [str.isspace] on Latin-1: also what [str.strip()] removes and [\s] matches. *)
Definition is_space (c : ascii) : bool :=
  let z := code c in
  ((9 <=? z) && (z <=? 13)) || ((28 <=? z) && (z <=? 32)) || (z =? 133) || (z =? 160).

(** [str.lower] on Latin-1. *)
Definition lower_char (c : ascii) : ascii :=
  let z := code c in
  if ((65 <=? z) && (z <=? 90)) || ((192 <=? z) && (z <=? 222) && negb (z =? 215))
  then chr (z + 32) else c.

(** [str.upper] on the ASCII range (HTTP methods and country codes). *)
Definition upper_char (c : ascii) : ascii :=
  let z := code c in
  if (97 <=? z) && (z <=? 122) then chr (z - 32) else c.

Fixpoint str_map (f : ascii → ascii) (s : string) : string :=
  match s with EmptyString => EmptyString | String c s => String (f c) (str_map f s) end.

Definition lower : string → string := str_map lower_char.
Definition upper : string → string := str_map upper_char.

Fixpoint str_forall (p : ascii → bool) (s : string) : bool :=
  match s with EmptyString => true | String c s => p c && str_forall p s end.

Definition str_empty (s : string) : bool :=
  match s with EmptyString => true | _ => false end.

(** ** Prefixes, suffixes, substrings *)

Definition starts_with (p s : string) : bool := String.prefix p s.

Fixpoint str_rev_app (s acc : string) : string :=
  match s with EmptyString => acc | String c s => str_rev_app s (String c acc) end.
Definition str_rev (s : string) : string := str_rev_app s EmptyString.

Definition ends_with (p s : string) : bool := starts_with (str_rev p) (str_rev s).

(** [sub in s]. *)
Fixpoint str_in (sub s : string) : bool :=
  starts_with sub s ||
  match s with EmptyString => false | String _ s' => str_in sub s' end.

Fixpoint char_in (c : ascii) (s : string) : bool :=
  match s with EmptyString => false | String d s' => bool_decide (c = d) || char_in c s' end.

Fixpoint str_take (n : nat) (s : string) : string :=
  match n, s with
  | S n, String c s' => String c (str_take n s')
  | _, _ => EmptyString
  end.

Fixpoint str_drop (n : nat) (s : string) : string :=
  match n, s with
  | S n, String _ s' => str_drop n s'
  | _, _ => s
  end.

(** [a <= b]: lexicographic by code point. *)
Fixpoint str_leb (a b : string) : bool :=
  match a, b with
  | EmptyString, _ => true
  | String _ _, EmptyString => false
  | String c a', String d b' => (code c <? code d) || ((code c =? code d) && str_leb a' b')
  end.

(** ** Stripping *)

Fixpoint lstrip_with (p : ascii → bool) (s : string) : string :=
  match s with
  | String c s' => if p c then lstrip_with p s' else s
  | EmptyString => EmptyString
  end.
Definition rstrip_with (p : ascii → bool) (s : string) : string :=
  str_rev (lstrip_with p (str_rev s)).
Definition strip (s : string) : string := rstrip_with is_space (lstrip_with is_space s).

(** ** Splitting and joining on one character *)

(** [s.split(c)]: always at least one part. *)
Fixpoint split_on (c : ascii) (s : string) : list string :=
  match s with
  | EmptyString => [EmptyString]
  | String d s' =>
      if bool_decide (c = d) then EmptyString :: split_on c s'
      else match split_on c s' with
           | p :: ps => String d p :: ps
           | [] => [String d EmptyString]
           end
  end.

(** [s.split(c, n)]: at most [n] splits, from the left. *)
Fixpoint split_max (c : ascii) (n : nat) (s : string) {struct s} : list string :=
  match s with
  | EmptyString => [EmptyString]
  | String d s' =>
      match n with
      | O => [s]
      | S n' =>
          if bool_decide (c = d) then EmptyString :: split_max c n' s'
          else match split_max c n s' with
               | p :: ps => String d p :: ps
               | [] => [String d EmptyString]
               end
      end
  end.

(** [s.partition(c)]: the part before the first [c], and the part after it
    when there is one. *)
Fixpoint partition_on (c : ascii) (s : string) : string * option string :=
  match s with
  | EmptyString => (EmptyString, None)
  | String d s' =>
      if bool_decide (c = d) then (EmptyString, Some s')
      else let '(a, b) := partition_on c s' in (String d a, b)
  end.

(** [s.rsplit(c, 1)] / [s.rfind(c)]: split at the last [c], if there is one. *)
Fixpoint rsplit1 (c : ascii) (s : string) : option (string * string) :=
  match s with
  | EmptyString => None
  | String d s' =>
      match rsplit1 c s' with
      | Some (a, b) => Some (String d a, b)
      | None => if bool_decide (c = d) then Some (EmptyString, s') else None
      end
  end.

Fixpoint join (sep : string) (ps : list string) : string :=
  match ps with
  | [] => EmptyString
  | [p] => p
  | p :: ps => (p +:+ sep +:+ join sep ps)
  end.

(** ** Decimal integers *)

Definition digit_char (d : Z) : ascii := chr (48 + d).

(** Digits of a non-negative integer, most significant first. *)
Fixpoint dec_digits (fuel : nat) (n : Z) (acc : string) : string :=
  match fuel with
  | O => acc
  | S fuel =>
      let acc' := String (digit_char (n mod 10)) acc in
      if n <? 10 then acc' else dec_digits fuel (n / 10) acc'
  end.

(** The number of binary digits bounds the number of decimal ones. *)
Definition dec_fuel (n : Z) : nat := S (Z.to_nat (Z.log2 n)).

(** [str(z)]. *)
Definition str_of_Z (z : Z) : string :=
  if z <? 0 then String "-" (dec_digits (dec_fuel (- z)) (- z) EmptyString)
  else dec_digits (dec_fuel z) z EmptyString.

Fixpoint dec_value (acc : Z) (s : string) : Z :=
  match s with
  | EmptyString => acc
  | String c s => dec_value (10 * acc + (code c - 48)) s
  end.

(** The digits of an integer literal of [int()]: decimal digits, with single
    underscores between digits. *)
Fixpoint int_body (prev_digit : bool) (acc : Z) (s : string) : option Z :=
  match s with
  | EmptyString => if prev_digit then Some acc else None
  | String c s' =>
      if is_digit c then int_body true (10 * acc + (code c - 48)) s'
      else if bool_decide (c = "_"%char) && prev_digit then int_body false acc s'
      else None
  end.

(** [int(s)]; [None] is [ValueError].  The limit of 4300 digits Python puts on
    the conversion is not part of it: it is modelled where a client chooses the
    text ([int_of_digits] in Fingerprint, [status_int] in AccessLog); the other
    texts are numbers this package wrote or signed itself. *)
Definition py_int (s : string) : option Z :=
  match strip s with
  | String "-" s' => Z.opp <$> int_body false 0 s'
  | String "+" s' => int_body false 0 s'
  | s' => int_body false 0 s'
  end.

(** ** Append and membership *)

Lemma str_app_nil_r s : s +:+ "" = s.
Proof. induction s as [|c s IH]; simpl; [done|]. by rewrite IH. Qed.

Lemma str_app_assoc s1 s2 s3 : (s1 +:+ s2) +:+ s3 = s1 +:+ (s2 +:+ s3).
Proof. induction s1 as [|c s1 IH]; simpl; [done|]. by rewrite IH. Qed.

Lemma str_app_length s1 s2 :
  String.length (s1 +:+ s2) = (String.length s1 + String.length s2)%nat.
Proof. induction s1 as [|c s1 IH]; simpl; [done|]. by rewrite IH. Qed.

Lemma str_app_inv_same_length a1 a2 b1 b2 :
  String.length a1 = String.length a2 → a1 +:+ b1 = a2 +:+ b2 → a1 = a2 ∧ b1 = b2.
Proof.
  revert a2. induction a1 as [|c a1 IH]; intros [|d a2]; simpl; try done.
  intros [= Hl] [= -> Heq]. by destruct (IH a2 Hl Heq) as [-> ->].
Qed.

Lemma char_in_app c s1 s2 : char_in c (s1 +:+ s2) = char_in c s1 || char_in c s2.
Proof. induction s1 as [|d s1 IH]; simpl; [done|]. by rewrite IH, orb_assoc. Qed.

Lemma str_forall_app p s1 s2 : str_forall p (s1 +:+ s2) = str_forall p s1 && str_forall p s2.
Proof. induction s1 as [|d s1 IH]; simpl; [done|]. by rewrite IH, andb_assoc. Qed.

Lemma str_forall_not_char p c s :
  p c = false → str_forall p s = true → char_in c s = false.
Proof.
  intros Hc. induction s as [|d s IH]; simpl; [done|].
  intros [Hd Hs]%andb_true_iff. rewrite IH by done. rewrite orb_false_r.
  apply bool_decide_eq_false. by intros ->; rewrite Hc in Hd.
Qed.

Lemma str_forall_impl (p q : ascii → bool) s :
  (∀ c, p c = true → q c = true) → str_forall p s = true → str_forall q s = true.
Proof.
  intros Hpq. induction s as [|c s IH]; simpl; [done|].
  intros [Hc Hs]%andb_true_iff. by rewrite (Hpq _ Hc), IH.
Qed.

Lemma str_rev_app_spec s acc : str_rev_app s acc = str_rev s +:+ acc.
Proof.
  unfold str_rev. revert acc. induction s as [|c s IH]; intros acc; simpl; [done|].
  rewrite IH, (IH (String c "")), str_app_assoc. done.
Qed.

Lemma str_rev_cons c s : str_rev (String c s) = str_rev s +:+ String c "".
Proof. unfold str_rev at 1. simpl. by rewrite str_rev_app_spec. Qed.

Lemma str_rev_app_distr s1 s2 : str_rev (s1 +:+ s2) = str_rev s2 +:+ str_rev s1.
Proof.
  induction s1 as [|c s1 IH]; simpl; [by rewrite str_app_nil_r|].
  by rewrite !str_rev_cons, IH, str_app_assoc.
Qed.

Lemma str_rev_involutive s : str_rev (str_rev s) = s.
Proof.
  induction s as [|c s IH]; [done|]. by rewrite str_rev_cons, str_rev_app_distr, IH.
Qed.

Lemma str_forall_rev p s : str_forall p (str_rev s) = str_forall p s.
Proof.
  induction s as [|c s IH]; [done|].
  rewrite str_rev_cons, str_forall_app, IH. simpl. rewrite andb_true_r. apply andb_comm.
Qed.

(** A string without the stripped characters is left alone. *)
Lemma lstrip_with_id p s : str_forall (λ c, negb (p c)) s = true → lstrip_with p s = s.
Proof. destruct s as [|c s]; simpl; [done|]. by intros [->%negb_true_iff _]%andb_true_iff. Qed.

Lemma strip_id s : str_forall (λ c, negb (is_space c)) s = true → strip s = s.
Proof.
  intros H. unfold strip, rstrip_with.
  rewrite (lstrip_with_id _ s H), lstrip_with_id by by rewrite str_forall_rev.
  apply str_rev_involutive.
Qed.

(** ** Splitting undoes joining *)

Lemma split_on_no c s : char_in c s = false → split_on c s = [s].
Proof.
  induction s as [|d s IH]; simpl; [done|].
  intros [Hd Hs]%orb_false_iff. by rewrite Hd, (IH Hs).
Qed.

Lemma split_on_nonempty c s : split_on c s ≠ [].
Proof. destruct s as [|d s]; simpl; [done|]. by repeat case_match. Qed.

Lemma split_on_app c p s :
  char_in c p = false → split_on c (p +:+ String c s) = p :: split_on c s.
Proof.
  induction p as [|d p IH]; simpl; intros Hp.
  - by rewrite bool_decide_true by done.
  - apply orb_false_iff in Hp as [Hd Hp]. by rewrite Hd, (IH Hp).
Qed.

(** Splitting an appended string: the part around the seam is shared. *)
Lemma split_on_app_gen c s1 s2 :
  split_on c (s1 +:+ String c s2) = split_on c s1 ++ split_on c s2.
Proof.
  induction s1 as [|d s1 IH]; simpl.
  - by rewrite bool_decide_true by done.
  - case_bool_decide; [by rewrite IH|].
    rewrite IH. pose proof (split_on_nonempty c s1).
    by destruct (split_on c s1).
Qed.

Lemma split_on_parts c s p : In p (split_on c s) → char_in c p = false.
Proof.
  revert p. induction s as [|d s IH]; simpl; intros p.
  - intros [<-|[]]. done.
  - case_bool_decide as Hd; simpl.
    + intros [<-|Hin]; [done|by apply IH].
    + pose proof (split_on_nonempty c s) as Hne.
      destruct (split_on c s) as [|q qs]; [done|]. simpl.
      intros [<-|Hin]; simpl.
      * rewrite bool_decide_false by done. apply IH. by left.
      * apply IH. by right.
Qed.

Lemma split_on_join c ps :
  ps ≠ [] → (∀ p, In p ps → char_in c p = false) →
  split_on c (join (String c "") ps) = ps.
Proof.
  induction ps as [|p ps IH]; [done|]. intros _ Hps.
  destruct ps as [|q ps].
  - simpl. apply split_on_no, Hps. by left.
  - change (join (String c "") (p :: q :: ps))
      with (p +:+ String c (join (String c "") (q :: ps))).
    rewrite split_on_app by (apply Hps; by left).
    f_equal. apply IH; [done|]. intros r Hr. apply Hps. by right.
Qed.

Lemma join_cons_char c s q qs :
  join s (String c q :: qs) = String c (join s (q :: qs)).
Proof. by destruct qs. Qed.

Lemma join_split_on c s : join (String c "") (split_on c s) = s.
Proof.
  induction s as [|d s IH]; [done|]. cbn [split_on]. pose proof (split_on_nonempty c s) as Hne.
  case_bool_decide as Hd.
  - subst. destruct (split_on d s) as [|p ps]; [done|].
    change (join (String d "") (EmptyString :: p :: ps)) with (String d (join (String d "") (p :: ps))).
    by rewrite IH.
  - destruct (split_on c s) as [|p ps]; [done|]. by rewrite join_cons_char, IH.
Qed.

Lemma split_max_0 c s : split_max c 0 s = [s].
Proof. by destruct s. Qed.

Lemma split_max_no c n s : char_in c s = false → split_max c n s = [s].
Proof.
  revert n. induction s as [|d s IH]; intros n; simpl; [done|].
  intros [Hd Hs]%orb_false_iff. destruct n as [|n]; [done|]. by rewrite Hd, (IH _ Hs).
Qed.

Lemma split_max_app c n p s :
  char_in c p = false → split_max c (S n) (p +:+ String c s) = p :: split_max c n s.
Proof.
  induction p as [|d p IH]; simpl; intros Hp.
  - by rewrite bool_decide_true by done.
  - apply orb_false_iff in Hp as [Hd Hp]. by rewrite Hd, (IH Hp).
Qed.

Lemma rsplit1_app c a b : char_in c b = false → rsplit1 c (a +:+ String c b) = Some (a, b).
Proof.
  assert (Hno : ∀ s, char_in c s = false → rsplit1 c s = None).
  { induction s as [|d s IH]; simpl; [done|].
    intros [Hd Hs]%orb_false_iff. by rewrite (IH Hs), Hd. }
  intros Hb. induction a as [|d a IH]; simpl.
  - by rewrite (Hno _ Hb), bool_decide_true by done.
  - by rewrite IH.
Qed.

Lemma rsplit1_Some c s a b :
  rsplit1 c s = Some (a, b) → s = a +:+ String c b ∧ char_in c b = false.
Proof.
  assert (Hno : ∀ s, rsplit1 c s = None → char_in c s = false).
  { induction s0 as [|d s0 IH]; simpl; [done|].
    destruct (rsplit1 c s0) as [[??]|]; [done|].
    case_bool_decide; [done|]. intros _. by rewrite IH. }
  revert a b. induction s as [|d s IH]; simpl; [done|]. intros a b.
  destruct (rsplit1 c s) as [[a' b']|] eqn:E.
  - intros [= <- <-]. destruct (IH _ _ eq_refl) as [-> Hb]. done.
  - case_bool_decide; [|done]. intros [= <- <-]. subst. split; [done|by apply Hno].
Qed.

Lemma partition_on_app c p s :
  char_in c p = false → partition_on c (p +:+ String c s) = (p, Some s).
Proof.
  induction p as [|d p IH]; simpl; intros Hp.
  - by rewrite bool_decide_true by done.
  - apply orb_false_iff in Hp as [Hd Hp]. by rewrite Hd, (IH Hp).
Qed.

Lemma str_empty_false s : s ≠ "" → str_empty s = false.
Proof. by destruct s. Qed.

Lemma partition_on_inv c s a b :
  partition_on c s = (a, b) → s = match b with Some b => a +:+ String c b | None => a end.
Proof.
  revert a b. induction s as [|d s IH]; intros a b; simpl; [by intros [= <- <-]|].
  case_bool_decide as Hd; [by intros [= <- <-]; subst|].
  destruct (partition_on c s) as [a' b'] eqn:E. intros [= <- <-].
  specialize (IH _ _ eq_refl). by destruct b'; subst.
Qed.

(** ** Prefixes *)

Lemma str_drop_app a b : str_drop (String.length a) (a +:+ b) = b.
Proof. induction a as [|c a IH]; [by destruct b|]. cbn. apply IH. Qed.

Lemma starts_with_app p s : starts_with p (p +:+ s) = true.
Proof.
  unfold starts_with. induction p as [|c p IH]; simpl; [by destruct s|].
  destruct (Ascii.ascii_dec c c); [done|congruence].
Qed.

Lemma starts_with_spec p s : starts_with p s = true ↔ ∃ t, s = p +:+ t.
Proof.
  split; [|intros [t ->]; apply starts_with_app].
  unfold starts_with. revert s. induction p as [|c p IH]; intros s; simpl; [by eauto|].
  destruct s as [|d s]; simpl; [done|].
  destruct (Ascii.ascii_dec c d) as [->|]; [|done].
  intros [t ->]%IH. by exists t.
Qed.

(** ** Decimal conversions *)

Lemma code_chr z : 0 <= z < 256 → code (chr z) = z.
Proof.
  intros Hz. unfold code, chr. rewrite nat_ascii_embedding by lia. lia.
Qed.

Lemma is_digit_digit_char d : 0 <= d < 10 → is_digit (digit_char d) = true.
Proof.
  intros Hd. unfold is_digit, digit_char. rewrite code_chr by lia.
  apply andb_true_iff; split; apply Z.leb_le; lia.
Qed.

Lemma dec_digits_forall (p : ascii → bool) fuel n acc :
  (∀ c, is_digit c = true → p c = true) →
  0 <= n → str_forall p acc = true → str_forall p (dec_digits fuel n acc) = true.
Proof.
  intros Hp. revert n acc. induction fuel as [|fuel IH]; intros n acc Hn Hacc; simpl; [done|].
  assert (Hd : 0 <= n mod 10 < 10) by (apply Z.mod_pos_bound; lia).
  assert (Hacc' : str_forall p (String (digit_char (n mod 10)) acc) = true).
  { simpl. by rewrite (Hp _ (is_digit_digit_char _ Hd)), Hacc. }
  destruct (n <? 10); [done|]. apply IH; [apply Z.div_pos; lia|done].
Qed.

Lemma int_body_dec fuel n acc k b :
  0 <= n → n < 10 ^ Z.of_nat fuel → 0 < Z.of_nat fuel →
  (∀ a, int_body true a acc = Some (a * 10 ^ k + b)) → 0 <= k →
  ∃ k', 0 <= k' ∧ ∀ a pd,
    int_body pd a (dec_digits fuel n acc) = Some (a * 10 ^ k' + (n * 10 ^ k + b)).
Proof.
  revert n acc k b. induction fuel as [|fuel IH]; intros n acc k b Hn Hlt Hf Hacc Hk; [lia|].
  assert (Hd : 0 <= n mod 10 < 10) by (apply Z.mod_pos_bound; lia).
  assert (Hstep : ∀ a pd, int_body pd a (String (digit_char (n mod 10)) acc)
                  = Some (a * 10 ^ (k + 1) + ((n mod 10) * 10 ^ k + b))).
  { intros a pd. simpl. rewrite is_digit_digit_char by done.
    rewrite Hacc. unfold digit_char. rewrite code_chr by lia.
    f_equal. rewrite Z.pow_add_r by lia. lia. }
  simpl. destruct (Z.ltb_spec n 10) as [Hs|Hs].
  - exists (k + 1). split; [lia|]. intros a pd. rewrite Hstep.
    by rewrite Z.mod_small by lia.
  - destruct (IH (n / 10) (String (digit_char (n mod 10)) acc) (k + 1)
               ((n mod 10) * 10 ^ k + b)) as (k' & Hk' & IHk).
    + apply Z.div_pos; lia.
    + apply Z.div_lt_upper_bound; [lia|].
      rewrite Nat2Z.inj_succ, Z.pow_succ_r in Hlt by lia. lia.
    + destruct fuel; [|lia]. simpl in Hlt. lia.
    + intros a. apply Hstep.
    + lia.
    + exists k'. split; [done|]. intros a pd. rewrite IHk. f_equal.
      rewrite Z.pow_add_r by lia. change (10 ^ 1) with 10.
      pose proof (Z.div_mod n 10). nia.
Qed.

Lemma dec_fuel_enough n : 0 <= n → n < 10 ^ Z.of_nat (dec_fuel n).
Proof.
  intros Hn. unfold dec_fuel.
  destruct (decide (n = 0)) as [->|]; [simpl; lia|].
  destruct (Z.log2_spec n) as [_ Hl]; [lia|].
  rewrite Nat2Z.inj_succ, Z2Nat.id by apply Z.log2_nonneg.
  eapply Z.lt_le_trans; [exact Hl|].
  apply Z.pow_le_mono_l. lia.
Qed.

Lemma int_body_str n : 0 <= n → int_body false 0 (dec_digits (dec_fuel n) n "") = Some n.
Proof.
  intros Hn.
  destruct (int_body_dec (dec_fuel n) n "" 0 0) as (k' & _ & H).
  - done.
  - by apply dec_fuel_enough.
  - unfold dec_fuel. lia.
  - intros a. simpl. f_equal. lia.
  - lia.
  - rewrite H. f_equal. lia.
Qed.

Lemma dec_digits_head fuel n acc :
  0 <= n → str_forall is_digit acc = true → (0 < fuel)%nat →
  ∃ c s, dec_digits fuel n acc = String c s ∧ is_digit c = true.
Proof.
  intros Hn Hacc Hf.
  assert (H : str_forall is_digit (dec_digits fuel n acc) = true)
    by (by apply dec_digits_forall).
  destruct (dec_digits fuel n acc) as [|c s] eqn:E.
  - exfalso. revert n acc Hn Hacc H E. induction fuel as [|fuel IH]; intros n acc Hn Hacc _ E; [lia|].
    simpl in E. destruct (n <? 10); [done|].
    destruct fuel as [|fuel]; [done|].
    eapply (IH ltac:(lia) (n / 10)); [| | |exact E]; [apply Z.div_pos; lia| |].
    + simpl. rewrite is_digit_digit_char by (apply Z.mod_pos_bound; lia). done.
    + done.
  - exists c, s. simpl in H. by apply andb_true_iff in H as [? _].
Qed.

Lemma is_digit_not_space c : is_digit c = true → negb (is_space c) = true.
Proof.
  unfold is_digit, is_space. intros [H1%Z.leb_le H2%Z.leb_le]%andb_true_iff.
  apply negb_true_iff.
  repeat (apply orb_false_iff; split);
    try (apply andb_false_iff; first [left; apply Z.leb_gt; lia | right; apply Z.leb_gt; lia]);
    apply Z.eqb_neq; lia.
Qed.

#[global] Arguments dec_digits : simpl never.

(** [int(str(z)) = z]. *)
Lemma py_int_str_of_Z z : py_int (str_of_Z z) = Some z.
Proof.
  unfold py_int, str_of_Z. destruct (Z.ltb_spec z 0) as [Hz|Hz].
  - rewrite strip_id.
    + rewrite int_body_str by lia. simpl. f_equal. lia.
    + simpl. apply dec_digits_forall; [apply is_digit_not_space|lia|done].
  - rewrite strip_id by (apply dec_digits_forall; [apply is_digit_not_space|lia|done]).
    destruct (dec_digits_head (dec_fuel z) z "") as (c & s & E & Hc);
      [done|done|unfold dec_fuel; lia|].
    rewrite E. rewrite <- (int_body_str z Hz), E.
    destruct c as [[] [] [] [] [] [] [] []]; try done.
Qed.

Lemma str_of_Z_inj z1 z2 : str_of_Z z1 = str_of_Z z2 → z1 = z2.
Proof.
  intros H. apply (f_equal py_int) in H. rewrite !py_int_str_of_Z in H. congruence.
Qed.

(** Only digits and a sign: in particular no delimiter of the formats below. *)
Lemma str_of_Z_no_char c z : is_digit c = false → c ≠ "-"%char → char_in c (str_of_Z z) = false.
Proof.
  intros Hd Hm. unfold str_of_Z. destruct (Z.ltb_spec z 0).
  - simpl. rewrite bool_decide_false by done. simpl.
    apply (str_forall_not_char is_digit); [done|apply dec_digits_forall; [done|lia|done]].
  - apply (str_forall_not_char is_digit); [done|apply dec_digits_forall; [done|lia|done]].
Qed.

(** ** The order of strings *)

Lemma str_leb_total a b : str_leb a b = false → str_leb b a = true.
Proof.
  revert b. induction a as [|c a IH]; intros [|d b]; simpl; [done|done|done|].
  intros [Hlt Heq]%orb_false_iff. apply orb_true_iff. bool_hyps.
  destruct (Z.eqb_spec (code c) (code d)) as [E|E].
  - right. apply andb_true_iff. split; [by rewrite E, Z.eqb_refl|]. simpl in Heq. by apply IH.
  - left. apply Z.ltb_lt. lia.
Qed.

Lemma str_leb_trans a b c : str_leb a b = true → str_leb b c = true → str_leb a c = true.
Proof.
  revert b c. induction a as [|x a IH]; intros [|y b] [|z c]; simpl; try done.
  rewrite !orb_true_iff, !andb_true_iff, !Z.ltb_lt, !Z.eqb_eq.
  intros [H1|[H1 H1']] [H2|[H2 H2']]; [left; lia..|]. right. split; [lia|by eapply IH].
Qed.

Lemma str_forall_join p sep ps :
  str_forall p sep = true → Forall (λ s, str_forall p s = true) ps → str_forall p (join sep ps) = true.
Proof.
  intros Hs. induction 1 as [|x l Hx Hl IH]; [done|]. destruct l as [|y l]; [done|].
  change (join sep (x :: y :: l)) with (x +:+ sep +:+ join sep (y :: l)). by rewrite !str_forall_app, Hx, Hs, IH.
Qed.

Lemma str_of_Z_nat_digits z : 0 <= z → str_forall is_digit (str_of_Z z) = true.
Proof.
  intros Hz. unfold str_of_Z. destruct (Z.ltb_spec z 0); [lia|].
  by apply dec_digits_forall.
Qed.
