(* ===== verification/IpAddress.v ===== *)
(** * The [ipaddress] module

    What the sources use of Python's [ipaddress]: parsing an address, parsing a
    network with [strict=False], membership of an address in a network, equality
    and the compressed printed form (the 3.11/3.12 behaviour).  [None] is the
    [ValueError] (or one of its subclasses) the module raises. *)

From Stdlib Require Import ZArith Lia Ascii String.
From stdpp Require Import base tactics option list strings numbers.
From S2P Require Import Prelude PyStr.

Open Scope Z_scope.

(** ** Addresses *)

Inductive ip_addr : Type :=
| IPv4 (n : Z)
| IPv6 (n : Z) (scope : option string).

#[export] Instance ip_addr_eq_dec : EqDecision ip_addr.
Proof. solve_decision. Defined.

Definition ip_int (a : ip_addr) : Z :=
  match a with IPv4 n => n | IPv6 n _ => n end.
Definition ip_version (a : ip_addr) : Z :=
  match a with IPv4 _ => 4 | IPv6 _ _ => 6 end.

(** ** IPv4 text *)

(** [_parse_octet]: ASCII digits, at most three, no leading zero, at most 255. *)
Definition parse_octet (s : string) : option Z :=
  if str_empty s then None
  else if negb (str_forall is_digit s) then None
  else if (3 <? String.length s)%nat then None
  else if negb (bool_decide (s = "0")) && starts_with "0" s then None
  else let v := dec_value 0 s in if 255 <? v then None else Some v.

Definition parse_ipv4_int (s : string) : option Z :=
  match split_on "." s with
  | [a; b; c; d] =>
      a ← parse_octet a; b ← parse_octet b; c ← parse_octet c; d ← parse_octet d;
      Some (((a * 256 + b) * 256 + c) * 256 + d)
  | _ => None
  end.

(** The four octets in decimal. *)
Definition print_ipv4 (n : Z) : string :=
  join "." [str_of_Z (n / 2 ^ 24 mod 256); str_of_Z (n / 2 ^ 16 mod 256);
            str_of_Z (n / 2 ^ 8 mod 256); str_of_Z (n mod 256)].

(** ** IPv6 text *)

Definition hex_digit (c : ascii) : Z :=
  if is_digit c then code c - 48
  else if code c <=? 70 then code c - 55 else code c - 87.

Fixpoint hex_value (acc : Z) (s : string) : Z :=
  match s with EmptyString => acc | String c s => hex_value (16 * acc + hex_digit c) s end.

Definition hex_char (d : Z) : ascii := if d <? 10 then chr (48 + d) else chr (87 + d).

(** ['%x' % n] for a 16-bit [n]. *)
Definition hextet (n : Z) : string :=
  if n <? 16 then String (hex_char n) ""
  else if n <? 256 then String (hex_char (n / 16)) (String (hex_char (n mod 16)) "")
  else if n <? 4096 then
    String (hex_char (n / 256)) (String (hex_char (n / 16 mod 16)) (String (hex_char (n mod 16)) ""))
  else String (hex_char (n / 4096)) (String (hex_char (n / 256 mod 16))
         (String (hex_char (n / 16 mod 16)) (String (hex_char (n mod 16)) ""))).

(** [_parse_hextet]. *)
Definition parse_hextet (s : string) : option Z :=
  if negb (str_forall is_hex s) then None
  else if (4 <? String.length s)%nat then None
  else if str_empty s then None
  else Some (hex_value 0 s).

(** The last part may be a dotted IPv4 address: it becomes two hextets. *)
Definition expand_last (parts : list string) : option (list string) :=
  match list.last parts with
  | Some l =>
      if char_in "." l then
        n ← parse_ipv4_int l;
        Some (removelast parts ++ [hextet (n / 65536 mod 65536); hextet (n mod 65536)])
      else Some parts
  | None => Some parts
  end.

(** Indices of the empty parts strictly between the first and the last. *)
Definition empty_inner (parts : list string) : list nat :=
  filter (λ i, parts !! i = Some "") (seq 1 (length parts - 2)).

Fixpoint combine_hextets (acc : Z) (ps : list string) : option Z :=
  match ps with
  | [] => Some acc
  | p :: ps => v ← parse_hextet p; combine_hextets (acc * 65536 + v) ps
  end.

(** [_ip_int_from_string] of [_BaseV6], once the parts are split. *)
Definition ipv6_of_parts (parts : list string) : option Z :=
  let n := length parts in
  if (9 <? n)%nat then None else
  match empty_inner parts with
  | _ :: _ :: _ => None
  | [i] =>
      let lead := bool_decide (parts !! 0%nat = Some "") in
      let trail := bool_decide (list.last parts = Some "") in
      let hi := if lead then (i - 1)%nat else i in
      let lo := if trail then (n - i - 2)%nat else (n - i - 1)%nat in
      if lead && negb (hi =? 0)%nat then None
      else if trail && negb (lo =? 0)%nat then None
      else if (8 <=? hi + lo)%nat then None
      else
        h ← combine_hextets 0 (take hi parts);
        combine_hextets (h * 65536 ^ Z.of_nat (8 - (hi + lo))) (drop (n - lo) parts)
  | [] =>
      if negb (n =? 8)%nat then None
      else combine_hextets 0 parts
  end.

Definition parse_ipv6_int (s : string) : option Z :=
  if str_empty s then None else
  let parts := split_on ":" s in
  if (length parts <? 3)%nat then None else
  parts ← expand_last parts; ipv6_of_parts parts.

(** [_split_scope_id]. *)
Definition split_scope_id (s : string) : option (string * option string) :=
  match partition_on "%" s with
  | (a, None) => Some (a, None)
  | (a, Some sc) => if str_empty sc || char_in "%" sc then None else Some (a, Some sc)
  end.

Definition parse_ipv6 (s : string) : option ip_addr :=
  if char_in "/" s then None else
  '(a, sc) ← split_scope_id s; n ← parse_ipv6_int a; Some (IPv6 n sc).

(** [ipaddress.ip_address]. *)
Definition ip_address (s : string) : option ip_addr :=
  match parse_ipv4_int s with
  | Some n => Some (IPv4 n)
  | None => parse_ipv6 s
  end.

(** ** The compressed form *)

(** The longest run of zero hextets, the first of the longest: a scan carrying
    (current start, current length, best start, best length). *)
Fixpoint zero_run (i : nat) (hs : list string) (cs cl bs bl : nat) : nat * nat :=
  match hs with
  | [] => (bs, bl)
  | h :: hs =>
      if bool_decide (h = "0") then
        let cs' := if (cl =? 0)%nat then i else cs in
        let cl' := S cl in
        if (bl <? cl')%nat then zero_run (S i) hs cs' cl' cs' cl'
        else zero_run (S i) hs cs' cl' bs bl
      else zero_run (S i) hs 0 0 bs bl
  end.

(** [_compress_hextets]. *)
Definition compress_hextets (hs : list string) : list string :=
  let '(bs, bl) := zero_run 0 hs 0 0 0 0 in
  if (1 <? bl)%nat then
    let hs' := if (bs + bl =? length hs)%nat then hs ++ [""] else hs in
    let cut := take bs hs' ++ [""] ++ drop (bs + bl) hs' in
    if (bs =? 0)%nat then "" :: cut else cut
  else hs.

Definition ipv6_hextets (n : Z) : list string :=
  map (λ k, hextet (n / 65536 ^ k mod 65536)) [7; 6; 5; 4; 3; 2; 1; 0].

Definition print_ipv6 (n : Z) : string := join ":" (compress_hextets (ipv6_hextets n)).

(** [str(address)], which is also [address.compressed]. *)
Definition ip_str (a : ip_addr) : string :=
  match a with
  | IPv4 n => print_ipv4 n
  | IPv6 n None => print_ipv6 n
  | IPv6 n (Some sc) => print_ipv6 n +:+ "%" +:+ sc
  end.

(** ** Networks *)

Record ip_network : Type := { net_addr : ip_addr; net_prefixlen : Z }.

Definition max_prefixlen (version : Z) : Z := if version =? 4 then 32 else 128.

(** [_ip_int_from_prefix]. *)
Definition netmask (version prefixlen : Z) : Z :=
  let w := max_prefixlen version in
  Z.lxor (Z.ones w) (Z.shiftr (Z.ones w) prefixlen).

(** [_prefix_from_prefix_string]. *)
Definition prefix_from_string (version : Z) (s : string) : option Z :=
  if str_empty s || negb (str_forall is_digit s) then None
  else let p := dec_value 0 s in
       if p <=? max_prefixlen version then Some p else None.

(** [_prefix_from_ip_int] on 32 bits: a mask of leading ones. *)
Definition prefix_from_mask (m : Z) : option Z :=
  List.find (λ p, m =? netmask 4 p) (map Z.of_nat (seq 0 33)).

(** [_prefix_from_ip_string]: a dotted netmask, or a dotted hostmask. *)
Definition prefix_from_ip_string (s : string) : option Z :=
  m ← parse_ipv4_int s;
  match prefix_from_mask m with
  | Some p => Some p
  | None => prefix_from_mask (Z.lxor m (Z.ones 32))
  end.

(** The address part and the optional mask part; [None] on a second slash. *)
Definition split_optional_netmask (s : string) : option (string * option string) :=
  match split_on "/" s with
  | [a] => Some (a, None)
  | [a; m] => Some (a, Some m)
  | _ => None
  end.

(** With [strict=False] the host bits are masked out (and then the scope id of
    the address is lost). *)
Definition mask_network (a : ip_addr) (p : Z) : ip_network :=
  let m := netmask (ip_version a) p in
  let n := Z.land (ip_int a) m in
  {| net_addr := if n =? ip_int a then a
                 else match a with IPv4 _ => IPv4 n | IPv6 _ _ => IPv6 n None end;
     net_prefixlen := p |}.

Definition ipv4_network (s : string) : option ip_network :=
  '(a, m) ← split_optional_netmask s;
  n ← parse_ipv4_int a;
  p ← match m with
      | None => Some 32
      | Some m => match prefix_from_string 4 m with
                  | Some p => Some p
                  | None => prefix_from_ip_string m
                  end
      end;
  Some (mask_network (IPv4 n) p).

Definition ipv6_network (s : string) : option ip_network :=
  '(a, m) ← split_optional_netmask s;
  a ← parse_ipv6 a;
  p ← match m with None => Some 128 | Some m => prefix_from_string 6 m end;
  Some (mask_network a p).

(** [ipaddress.ip_network(s, strict=False)]. *)
Definition ip_network_of (s : string) : option ip_network :=
  match ipv4_network s with Some n => Some n | None => ipv6_network s end.

(** [address in network]. *)
Definition in_network (a : ip_addr) (n : ip_network) : bool :=
  (ip_version a =? ip_version (net_addr n)) &&
  (Z.land (ip_int a) (netmask (ip_version a) (net_prefixlen n)) =? ip_int (net_addr n)).

Definition network_str (n : ip_network) : string :=
  ip_str (net_addr n) +:+ "/" +:+ str_of_Z (net_prefixlen n).

(** ** Sanity checks on documented values *)

Example ip_examples :
  map (λ s, ip_str <$> ip_address s)
    ["192.0.2.1"; "192.0.2.01"; "256.1.1.1"; "1.2.3"; "2001:0db8:0000::0001"; "::"; "::1";
     "1::"; "fe80::1%eth0"; "::ffff:1.2.3.4"; "1:2:3:4:5:6:7:8"; "1:2:3:4:5:6:7"; "1::2::3";
     ":1:2:3:4:5:6:7"; "0:0:1:0:0:0:1:0"; "fe80::1%"; ""]
  = [Some "192.0.2.1"; None; None; None; Some "2001:db8::1"; Some "::"; Some "::1";
     Some "1::"; Some "fe80::1%eth0"; Some "::ffff:102:304"; Some "1:2:3:4:5:6:7:8"; None; None;
     None; Some "0:0:1::1:0"; None; None].
Proof. vm_compute. reflexivity. Qed.

Example net_examples :
  map (λ s, network_str <$> ip_network_of s)
    ["192.0.2.77/24"; "10.0.0.0/255.0.0.0"; "10.0.0.0/0.255.255.255"; "2001:db8:1:2::3/48";
     "1.2.3.4"; "1.2.3.4/33"; "1.2.3.4/24/1"; "10.0.0.0/255.0.255.0"]
  = [Some "192.0.2.0/24"; Some "10.0.0.0/8"; Some "10.0.0.0/8"; Some "2001:db8:1::/48";
     Some "1.2.3.4/32"; None; None; None].
Proof. vm_compute. reflexivity. Qed.
