(* ===== verification/Hash.v ===== *)
(** * Digests: what the sources use of [hashlib] and [hmac]

    SHA-256 and SHA-1 (FIPS 180-4) on lists of octets, HMAC-SHA256 (RFC 2104),
    hexadecimal digests, and UTF-8 encoding of Latin-1 strings.  The round
    constants are computed from their definition (fractional parts of square
    and cube roots of the first primes) instead of being listed. *)

From Stdlib Require Import ZArith Lia Ascii String.
From stdpp Require Import base tactics option list strings numbers.
From S2P Require Import Prelude PyStr IpAddress.

Open Scope Z_scope.

(** ** Octets and words *)

Definition mask32 : Z := 2 ^ 32 - 1.
Definition w32 (x : Z) : Z := Z.land x mask32.
Definition rotr (n x : Z) : Z := Z.lor (Z.shiftr x n) (w32 (Z.shiftl x (32 - n))).
Definition rotl (n x : Z) : Z := rotr (32 - n) x.

(** Big-endian octets of a word, and back. *)
Definition be32 (x : Z) : list Z :=
  [Z.land (Z.shiftr x 24) 255; Z.land (Z.shiftr x 16) 255; Z.land (Z.shiftr x 8) 255; Z.land x 255].
Definition be64 (x : Z) : list Z := be32 (w32 (Z.shiftr x 32)) ++ be32 (w32 x).

Fixpoint words (bs : list Z) : list Z :=
  match bs with
  | a :: b :: c :: d :: bs => (((a * 256 + b) * 256 + c) * 256 + d) :: words bs
  | _ => []
  end.

(** [str.encode()]: UTF-8 of code points below 256. *)
Fixpoint encode (s : string) : list Z :=
  match s with
  | EmptyString => []
  | String c s =>
      let z := code c in
      (if z <? 128 then [z] else [Z.lor 192 (Z.shiftr z 6); Z.lor 128 (Z.land z 63)]) ++ encode s
  end.

(** ** Constants *)

Definition is_prime (n : nat) : bool :=
  (1 <? n)%nat && forallb (λ d, negb (n mod d =? 0)%nat) (seq 2 (n - 2)).
Definition primes : list Z := map Z.of_nat (List.filter is_prime (seq 2 310)).

Definition cbrt (n : Z) : Z :=
  fold_left (λ r b, let r' := r + 2 ^ b in if r' * r' * r' <=? n then r' else r)
    (map Z.of_nat (rev (seq 0 36))) 0.

Definition K256 : list Z := Eval vm_compute in map (λ p, w32 (cbrt (p * 2 ^ 96))) primes.
Definition H256 : list Z := Eval vm_compute in map (λ p, w32 (Z.sqrt (p * 2 ^ 64))) (take 8 primes).

(** ** Padding: a one bit, zeros, and the bit length, to blocks of 64 octets *)

Definition pad (m : list Z) : list Z :=
  let n := length m in
  let zeros := Nat.modulo (119 - Nat.modulo n 64) 64 in
  m ++ [128] ++ replicate zeros 0 ++ be64 (8 * Z.of_nat n).

Fixpoint blocks (fuel : nat) (ws : list Z) : list (list Z) :=
  match fuel, ws with
  | S fuel, _ :: _ => take 16 ws :: blocks fuel (drop 16 ws)
  | _, _ => []
  end.

(** ** SHA-256 *)

Definition ch (x y z : Z) : Z := Z.lxor (Z.land x y) (Z.land (Z.lxor x mask32) z).
Definition maj (x y z : Z) : Z := Z.lxor (Z.lxor (Z.land x y) (Z.land x z)) (Z.land y z).
Definition bsig0 (x : Z) : Z := Z.lxor (Z.lxor (rotr 2 x) (rotr 13 x)) (rotr 22 x).
Definition bsig1 (x : Z) : Z := Z.lxor (Z.lxor (rotr 6 x) (rotr 11 x)) (rotr 25 x).
Definition ssig0 (x : Z) : Z := Z.lxor (Z.lxor (rotr 7 x) (rotr 18 x)) (Z.shiftr x 3).
Definition ssig1 (x : Z) : Z := Z.lxor (Z.lxor (rotr 17 x) (rotr 19 x)) (Z.shiftr x 10).

(** The schedule, most recent word first. *)
Fixpoint schedule256 (n : nat) (ws : list Z) : list Z :=
  match n with
  | O => ws
  | S n => schedule256 n
      (w32 (ssig1 (nth 1 ws 0) + nth 6 ws 0 + ssig0 (nth 14 ws 0) + nth 15 ws 0) :: ws)
  end.

Definition round256 (st : list Z) (kw : Z * Z) : list Z :=
  match st with
  | [a; b; c; d; e; f; g; h] =>
      let t1 := h + bsig1 e + ch e f g + kw.1 + kw.2 in
      let t2 := bsig0 a + maj a b c in
      [w32 (t1 + t2); a; b; c; w32 (d + t1); e; f; g]
  | _ => st
  end.

Definition compress256 (st : list Z) (block : list Z) : list Z :=
  let ws := rev (schedule256 48 (rev block)) in
  zip_with (λ x y, w32 (x + y)) st (fold_left round256 (zip K256 ws) st).

Definition sha256 (m : list Z) : list Z :=
  let ws := words (pad m) in
  flat_map be32 (fold_left compress256 (blocks (length ws) ws) H256).

(** ** SHA-1 *)

Definition H1 : list Z := [0x67452301; 0xEFCDAB89; 0x98BADCFE; 0x10325476; 0xC3D2E1F0].

Fixpoint schedule1 (n : nat) (ws : list Z) : list Z :=
  match n with
  | O => ws
  | S n => schedule1 n
      (rotl 1 (Z.lxor (Z.lxor (nth 2 ws 0) (nth 7 ws 0)) (Z.lxor (nth 13 ws 0) (nth 15 ws 0))) :: ws)
  end.

Definition round1 (st : list Z) (tw : Z * Z) : list Z :=
  match st with
  | [a; b; c; d; e] =>
      let t := tw.1 in
      let '(f, k) :=
        if t <? 20 then (ch b c d, Z.sqrt (2 * 2 ^ 60))
        else if t <? 40 then (Z.lxor (Z.lxor b c) d, Z.sqrt (3 * 2 ^ 60))
        else if t <? 60 then (maj b c d, Z.sqrt (5 * 2 ^ 60))
        else (Z.lxor (Z.lxor b c) d, Z.sqrt (10 * 2 ^ 60)) in
      [w32 (rotl 5 a + f + e + k + tw.2); a; rotl 30 b; c; d]
  | _ => st
  end.

Definition compress1 (st : list Z) (block : list Z) : list Z :=
  let ws := rev (schedule1 64 (rev block)) in
  zip_with (λ x y, w32 (x + y)) st
    (fold_left round1 (zip (map Z.of_nat (seq 0 80)) ws) st).

Definition sha1 (m : list Z) : list Z :=
  let ws := words (pad m) in
  flat_map be32 (fold_left compress1 (blocks (length ws) ws) H1).

(** ** HMAC and hexadecimal *)

Definition hmac_sha256 (key m : list Z) : list Z :=
  let key := if (64 <? length key)%nat then sha256 key else key in
  let key := key ++ replicate (64 - length key) 0 in
  sha256 (map (Z.lxor 92) key ++ sha256 (map (Z.lxor 54) key ++ m)).

(** [bytes.hex()] / [hexdigest()]. *)
Fixpoint hexdigest (bs : list Z) : string :=
  match bs with
  | [] => EmptyString
  | b :: bs => String (hex_char (Z.shiftr b 4)) (String (hex_char (Z.land b 15)) (hexdigest bs))
  end.

(** ** Published test vectors *)

Example sha256_abc : hexdigest (sha256 (encode "abc")) =
  "ba7816bf8f01cfea414140de5dae2223b00361a396177a9cb410ff61f20015ad".
Proof. vm_compute. reflexivity. Qed.

Example sha256_two_blocks :
  hexdigest (sha256 (encode "abcdbcdecdefdefgefghfghighijhijkijkljklmklmnlmnomnopnopq")) =
  "248d6a61d20638b8e5c026930c3e6039a33ce45964ff2167f6ecedd419db06c1".
Proof. vm_compute. reflexivity. Qed.

Example sha1_abc : hexdigest (sha1 (encode "abc")) = "a9993e364706816aba3e25717850c26c9cd0d89d".
Proof. vm_compute. reflexivity. Qed.

Example hmac_rfc4231_2 :
  hexdigest (hmac_sha256 (encode "Jefe") (encode "what do ya want for nothing?")) =
  "5bdcc146bf60754e6a042426089575c75a003f089d2739839dec58b964ec3843".
Proof. vm_compute. reflexivity. Qed.

(** ** Shape of digests *)

Lemma round256_length st kw : length st = 8%nat → length (round256 st kw) = 8%nat.
Proof. intros H. do 9 (destruct st as [|? st]; [done|]). done. Qed.

Lemma fold_left_length {A B} (f : list A → B → list A) n bs st :
  (∀ st b, length st = n → length (f st b) = n) → length st = n →
  length (fold_left f bs st) = n.
Proof. intros Hf. revert st. induction bs as [|b bs IH]; simpl; auto. Qed.

Lemma compress256_length st b : length st = 8%nat → length (compress256 st b) = 8%nat.
Proof.
  intros H. unfold compress256. rewrite length_zip_with, H.
  rewrite (fold_left_length _ 8); [done|apply round256_length|done].
Qed.

Lemma flat_map_be32_length ws : length (flat_map be32 ws) = (4 * length ws)%nat.
Proof. induction ws as [|w ws IH]; simpl in *; lia. Qed.

Lemma sha256_length m : length (sha256 m) = 32%nat.
Proof.
  unfold sha256. rewrite flat_map_be32_length, (fold_left_length _ 8); [done| |done].
  apply compress256_length.
Qed.

Definition octet (b : Z) : Prop := 0 <= b < 256.

Lemma land_255_octet x : octet (Z.land x 255).
Proof.
  unfold octet. change 255 with (Z.ones 8). rewrite Z.land_ones by lia.
  apply Z.mod_pos_bound. lia.
Qed.

Lemma be32_octets ws : Forall octet (flat_map be32 ws).
Proof. induction ws as [|w ws IH]; simpl; repeat constructor; try apply land_255_octet; done. Qed.

Lemma sha256_octets m : Forall octet (sha256 m).
Proof. apply be32_octets. Qed.

Lemma hmac_octets k m : Forall octet (hmac_sha256 k m).
Proof. apply be32_octets. Qed.

Lemma hex_char_is_hex d : 0 <= d < 16 → is_hex (hex_char d) = true.
Proof.
  intros Hd.
  assert (Hall : forallb (λ n, is_hex (hex_char (Z.of_nat n))) (seq 0 16) = true)
    by (vm_compute; reflexivity).
  rewrite forallb_forall in Hall. specialize (Hall (Z.to_nat d)).
  rewrite Z2Nat.id in Hall by lia. apply Hall, in_seq. lia.
Qed.

Lemma hexdigest_hex bs : Forall octet bs → str_forall is_hex (hexdigest bs) = true.
Proof.
  induction 1 as [|b bs Hb _ IH]; simpl; [done|]. unfold octet in Hb.
  rewrite !hex_char_is_hex, IH; [done| |].
  - change 15 with (Z.ones 4). rewrite Z.land_ones by lia. apply Z.mod_pos_bound. lia.
  - rewrite Z.shiftr_div_pow2 by lia. split; [apply Z.div_pos; lia|apply Z.div_lt_upper_bound; lia].
Qed.

Lemma hexdigest_length bs : String.length (hexdigest bs) = (2 * length bs)%nat.
Proof. induction bs as [|b bs IH]; simpl; [done|]. rewrite IH. lia. Qed.

Lemma hexdigest_no_char c bs : is_hex c = false → Forall octet bs → char_in c (hexdigest bs) = false.
Proof. intros Hc Hb. by apply (str_forall_not_char is_hex), hexdigest_hex. Qed.

#[global] Opaque sha256 sha1.
