(* ===== verification/PyTime.v ===== *)
(** * Aware datetimes: [isoformat] and [fromisoformat]

    A timestamp is an integer number of microseconds since the epoch (UTC, as
    [timezone.now()] returns with [USE_TZ]).  The rule cache and the form
    tokens store timestamps as ISO 8601 text; [fromisoformat] models the two
    forms [isoformat] writes for an aware UTC value (with and without a
    fraction), every other text being a [ValueError]. *)

From Stdlib Require Import ZArith Lia Ascii String.
From stdpp Require Import base tactics option list strings numbers.
From S2P Require Import Prelude PyStr.

Open Scope Z_scope.

Definition usec : Z := 1000000.
Definition day_us : Z := 86400 * usec.

(** ** Civil dates (proleptic Gregorian, eras of 400 years from 1 March 0000) *)

Definition date : Type := Z * Z * Z.

(** Year of era, month and day of a day of era. *)
Definition year_of_doe (doe : Z) : Z * Z :=
  let c := Z.min (doe / 36524) 3 in
  let doc := doe - 36524 * c in
  let q := doc / 1461 in
  let doq := doc - 1461 * q in
  let y := Z.min (doq / 365) 3 in
  (100 * c + 4 * q + y, doq - 365 * y).

Definition civil_of_doe (doe : Z) : Z * Z * Z :=
  let '(yoe, doy) := year_of_doe doe in
  let mp := (5 * doy + 2) / 153 in
  (yoe, (if mp <? 10 then mp + 3 else mp - 9), doy - (153 * mp + 2) / 5 + 1).

Definition doe_of_civil (yoe m d : Z) : Z :=
  yoe * 365 + yoe / 4 - yoe / 100 + (153 * (if 2 <? m then m - 3 else m + 9) + 2) / 5 + d - 1.

Definition civil_of_days (days : Z) : date :=
  let z := days + 719468 in
  let '(yoe, m, d) := civil_of_doe (z mod 146097) in
  (yoe + z / 146097 * 400 + (if m <=? 2 then 1 else 0), m, d).

Definition days_of_civil (c : date) : Z :=
  let '(y, m, d) := c in
  let y := if m <=? 2 then y - 1 else y in
  y / 400 * 146097 + doe_of_civil (y mod 400) m d - 719468.

(** ** Fixed-width decimals *)

Fixpoint pad_digits (n : nat) (z : Z) (acc : string) : string :=
  match n with
  | O => acc
  | S n => pad_digits n (z / 10) (String (digit_char (z mod 10)) acc)
  end.

(** [n] digits at the head of a string. *)
Fixpoint take_digits (n : nat) (acc : Z) (s : string) : option (Z * string) :=
  match n with
  | O => Some (acc, s)
  | S n => match s with
           | String c s => if is_digit c then take_digits n (10 * acc + (code c - 48)) s else None
           | EmptyString => None
           end
  end.

Definition eat (c : ascii) (s : string) : option string :=
  match s with String d s => if bool_decide (c = d) then Some s else None | EmptyString => None end.

(** ** [datetime.isoformat()] *)

Definition isoformat (t : Z) : string :=
  let '(y, m, d) := civil_of_days (t / day_us) in
  let r := t mod day_us in
  let sec := r / usec in
  let us := r mod usec in
  pad_digits 4 y (String "-" (pad_digits 2 m (String "-" (pad_digits 2 d (String "T"
    (pad_digits 2 (sec / 3600) (String ":" (pad_digits 2 (sec / 60 mod 60) (String ":"
      (pad_digits 2 (sec mod 60)
         (if us =? 0 then "+00:00" else String "." (pad_digits 6 us "+00:00")))))))))))).

(** ** [datetime.fromisoformat()] *)

Definition take_fraction (s : string) : option (Z * string) :=
  match s with
  | String "." s' => take_digits 6 0 s'
  | _ => Some (0, s)
  end.

Definition fromisoformat (s : string) : option Z :=
  '(y, s) ← take_digits 4 0 s; s ← eat "-" s;
  '(m, s) ← take_digits 2 0 s; s ← eat "-" s;
  '(d, s) ← take_digits 2 0 s; s ← eat "T" s;
  '(hh, s) ← take_digits 2 0 s; s ← eat ":" s;
  '(mm, s) ← take_digits 2 0 s; s ← eat ":" s;
  '(ss, s) ← take_digits 2 0 s;
  '(us, s) ← take_fraction s;
  let days := days_of_civil (y, m, d) in
  if bool_decide (s = "+00:00") && (1 <=? y) && bool_decide (civil_of_days days = (y, m, d))
     && (hh <? 24) && (mm <? 60) && (ss <? 60)
  then Some (days * day_us + (hh * 3600 + mm * 60 + ss) * usec + us)
  else None.

(** [MINYEAR] and [MAXYEAR]. *)
Definition valid_datetime (t : Z) : bool :=
  let '(y, _, _) := civil_of_days (t / day_us) in (1 <=? y) && (y <=? 9999).

Example isoformat_examples :
  isoformat 0 = "1970-01-01T00:00:00+00:00" ∧
  isoformat 1709210096123456 = "2024-02-29T12:34:56.123456+00:00" ∧
  fromisoformat "2024-02-29T12:34:56.123456+00:00" = Some 1709210096123456 ∧
  fromisoformat "2023-02-29T12:34:56+00:00" = None.
Proof. vm_compute. done. Qed.

(** ** Round trips *)

(** [lia] with division and remainder by constants. *)
Ltac dlia := Z.to_euclidean_division_equations; lia.

Lemma year_of_doe_spec doe yoe doy :
  0 <= doe < 146097 → year_of_doe doe = (yoe, doy) →
  0 <= yoe < 400 ∧ 0 <= doy < 366 ∧ yoe * 365 + yoe / 4 - yoe / 100 + doy = doe.
Proof.
  intros Hd. unfold year_of_doe.
  assert (Hc : 0 <= Z.min (doe / 36524) 3 <= 3) by dlia.
  assert (Hdoc : 0 <= doe - 36524 * Z.min (doe / 36524) 3 <= 36524) by dlia.
  revert Hc Hdoc. generalize (Z.min (doe / 36524) 3). intros c Hc Hdoc.
  assert (Hq : 0 <= (doe - 36524 * c) / 1461 <= 24) by dlia.
  pose proof (Z.mod_pos_bound (doe - 36524 * c) 1461 ltac:(lia)) as Hdoq.
  rewrite Z.mod_eq in Hdoq by dlia.
  revert Hq Hdoq. generalize ((doe - 36524 * c) / 1461). intros q Hq Hdoq.
  set (doq := doe - 36524 * c - 1461 * q) in *.
  assert (Hy : 0 <= Z.min (doq / 365) 3 <= 3) by dlia.
  assert (Hdoy : 0 <= doq - 365 * Z.min (doq / 365) 3 < 366) by dlia.
  revert Hy Hdoy. generalize (Z.min (doq / 365) 3). intros y Hy Hdoy [= <- <-].
  assert (Hq4 : (100 * c + 4 * q + y) / 4 = 25 * c + q) by dlia.
  assert (Hq100 : (100 * c + 4 * q + y) / 100 = c) by dlia.
  rewrite Hq4, Hq100. lia.
Qed.

Lemma civil_of_doe_spec doe yoe m d :
  0 <= doe < 146097 → civil_of_doe doe = (yoe, m, d) →
  0 <= yoe < 400 ∧ 1 <= m <= 12 ∧ 1 <= d <= 31 ∧ doe_of_civil yoe m d = doe.
Proof.
  intros Hd. unfold civil_of_doe, doe_of_civil.
  destruct (year_of_doe doe) as [y doy] eqn:E.
  destruct (year_of_doe_spec _ _ _ Hd E) as (Hy & Hdoy & <-). clear E Hd.
  intros [= <- <- <-].
  assert (Hmp : 0 <= (5 * doy + 2) / 153 <= 11) by dlia.
  assert (Hday : 0 <= doy - (153 * ((5 * doy + 2) / 153) + 2) / 5 <= 30) by dlia.
  revert Hmp Hday. generalize ((5 * doy + 2) / 153). intros mp Hmp Hday.
  destruct (Z.ltb_spec mp 10); [destruct (Z.ltb_spec 2 (mp + 3))|destruct (Z.ltb_spec 2 (mp - 9))];
    try lia.
  - replace (mp + 3 - 3) with mp by dlia. lia.
  - replace (mp - 9 + 9) with mp by dlia. lia.
Qed.

Lemma civil_of_days_spec days y m d :
  civil_of_days days = (y, m, d) →
  1 <= m <= 12 ∧ 1 <= d <= 31 ∧ days_of_civil (y, m, d) = days.
Proof.
  unfold civil_of_days, days_of_civil. set (z := days + 719468).
  pose proof (Z.mod_pos_bound z 146097 ltac:(lia)) as Hz.
  destruct (civil_of_doe (z mod 146097)) as [[yoe m'] d'] eqn:E.
  destruct (civil_of_doe_spec _ _ _ _ Hz E) as (Hy & Hm & Hd & Hdoe).
  intros [= <- <- <-]. split; [lia|]. split; [lia|].
  replace (if m' <=? 2 then yoe + z / 146097 * 400 + (if m' <=? 2 then 1 else 0) - 1
           else yoe + z / 146097 * 400 + (if m' <=? 2 then 1 else 0))
    with (yoe + z / 146097 * 400) by (destruct (m' <=? 2); lia).
  rewrite Z.div_add, Z.mod_add, Z.div_small, Z.mod_small by lia.
  pose proof (Z.div_mod z 146097 ltac:(lia)). lia.
Qed.

Lemma take_pad_digits n z k acc s :
  0 <= z < 10 ^ Z.of_nat n →
  take_digits n k (pad_digits n z acc +:+ s) = Some (k * 10 ^ Z.of_nat n + z, acc +:+ s).
Proof.
  assert (Hgen : ∀ n z k j acc s, 0 <= z < 10 ^ Z.of_nat n →
    take_digits (n + j) k (pad_digits n z acc +:+ s)
    = take_digits j (k * 10 ^ Z.of_nat n + z) (acc +:+ s)).
  { clear. induction n as [|n IH]; intros z k j acc s Hz.
    - simpl in *. f_equal. lia.
    - cbn [pad_digits]. rewrite Nat2Z.inj_succ, Z.pow_succ_r in * by lia.
      pose proof (Z.div_mod z 10 ltac:(lia)). pose proof (Z.mod_pos_bound z 10 ltac:(lia)).
      replace (S n + j)%nat with (n + S j)%nat by lia.
      rewrite IH by (split; [apply Z.div_pos; lia|apply Z.div_lt_upper_bound; lia]).
      simpl. rewrite is_digit_digit_char by lia. unfold digit_char. rewrite code_chr by lia.
      f_equal. lia. }
  intros Hz. specialize (Hgen n z k 0%nat acc s Hz). rewrite Nat.add_0_r in Hgen. exact Hgen.
Qed.

Lemma take_pad n z acc :
  0 <= z < 10 ^ Z.of_nat n → take_digits n 0 (pad_digits n z acc) = Some (z, acc).
Proof.
  intros Hz. pose proof (take_pad_digits n z 0 acc "" Hz) as H.
  rewrite !str_app_nil_r in H. exact H.
Qed.

Lemma eat_hd c s : eat c (String c s) = Some s.
Proof. simpl. by rewrite bool_decide_true. Qed.

Lemma take_fraction_iso us :
  0 <= us < usec →
  take_fraction (if us =? 0 then "+00:00" else String "." (pad_digits 6 us "+00:00"))
  = Some (us, "+00:00").
Proof.
  intros Hus. destruct (Z.eqb_spec us 0) as [->|]; [done|].
  unfold take_fraction. rewrite take_pad; [done|]. unfold usec in *. simpl Z.of_nat. lia.
Qed.

(** Every timestamp Python can represent survives [isoformat]. *)
Lemma fromisoformat_isoformat t : valid_datetime t = true → fromisoformat (isoformat t) = Some t.
Proof.
  unfold valid_datetime, isoformat, fromisoformat.
  destruct (civil_of_days (t / day_us)) as [[y m] d] eqn:Ec. intros Hy. bool_hyps.
  destruct (civil_of_days_spec _ _ _ _ Ec) as (Hm & Hd & Hdays).
  pose proof (Z.mod_pos_bound t day_us ltac:(unfold day_us, usec; lia)) as Hr.
  pose proof (Z.div_mod t day_us ltac:(unfold day_us, usec; lia)) as Ht.
  set (r := t mod day_us) in *.
  pose proof (Z.mod_pos_bound r usec ltac:(unfold usec; lia)) as Hus.
  pose proof (Z.div_mod r usec ltac:(unfold usec; lia)) as Hrd.
  set (sec := r / usec) in *. set (us := r mod usec) in *.
  assert (Hsec : 0 <= sec < 86400) by (unfold day_us, usec in *; lia).
  pose proof (Z.div_mod sec 3600 ltac:(lia)). pose proof (Z.mod_pos_bound sec 3600 ltac:(lia)).
  pose proof (Z.div_mod sec 60 ltac:(lia)). pose proof (Z.mod_pos_bound sec 60 ltac:(lia)).
  pose proof (Z.div_mod (sec / 60) 60 ltac:(lia)).
  pose proof (Z.mod_pos_bound (sec / 60) 60 ltac:(lia)).
  assert (Hh : sec / 3600 = sec / 60 / 60) by (rewrite Z.div_div by lia; done).
  assert (0 <= sec / 3600 < 24) by (split; [apply Z.div_pos; lia|apply Z.div_lt_upper_bound; lia]).
  repeat (rewrite take_pad by (simpl Z.of_nat; lia); cbn [mbind option_bind];
          rewrite ?eat_hd; cbn [mbind option_bind]).
  rewrite take_fraction_iso by done.
  cbn [mbind option_bind]. rewrite Hdays, Ec, !bool_decide_true by done.
  repeat match goal with |- context [?a <=? ?b] => rewrite (proj2 (Z.leb_le a b)) by lia end.
  repeat match goal with |- context [?a <? ?b] => rewrite (proj2 (Z.ltb_lt a b)) by lia end.
  simpl. f_equal.
  replace (sec / 3600 * 3600 + sec / 60 mod 60 * 60 + sec mod 60) with sec by lia.
  clear - Ht Hrd. unfold usec, day_us in *. lia.
Qed.

#[export] Hint Resolve fromisoformat_isoformat : waf.
#[global] Arguments isoformat : simpl never.
#[global] Arguments fromisoformat : simpl never.
#[global] Arguments valid_datetime : simpl never.
