(* ===== verification/Base64.v ===== *)
(** * Base64 and UTF-8 text

    What the form tokens use of [base64.urlsafe_b64encode] (padding stripped),
    [base64.urlsafe_b64decode] (which ignores characters outside the alphabet
    and stops at complete padding, as [binascii.a2b_base64] does) and of
    [bytes.decode].  The model's text is Latin-1: a code point above 255 in a
    decoded text reads as a placeholder outside ASCII. *)

From Stdlib Require Import ZArith Lia Ascii String.
From stdpp Require Import base tactics option list strings numbers.
From S2P Require Import Prelude PyStr Hash PyTime.

Open Scope Z_scope.

(** ** Encoding *)

(** The URL-safe alphabet. *)
Definition b64_char (d : Z) : ascii :=
  if d <? 26 then chr (65 + d)
  else if d <? 52 then chr (71 + d)
  else if d <? 62 then chr (d - 4)
  else if d =? 62 then "-" else "_".

(** [urlsafe_b64encode(bs).rstrip("=")]. *)
Fixpoint b64_encode (bs : list Z) : string :=
  match bs with
  | [] => EmptyString
  | [a] => String (b64_char (a / 4)) (String (b64_char (a mod 4 * 16)) EmptyString)
  | [a; b] =>
      String (b64_char (a / 4)) (String (b64_char (a mod 4 * 16 + b / 16))
        (String (b64_char (b mod 16 * 4)) EmptyString))
  | a :: b :: c :: bs =>
      String (b64_char (a / 4)) (String (b64_char (a mod 4 * 16 + b / 16))
        (String (b64_char (b mod 16 * 4 + c / 64)) (String (b64_char (c mod 64)) (b64_encode bs))))
  end.

(** ** Decoding *)

(** A character of the alphabet after [-_] are translated to [+/]. *)
Definition b64_value (c : ascii) : option Z :=
  let z := code c in
  if (65 <=? z) && (z <=? 90) then Some (z - 65)
  else if (97 <=? z) && (z <=? 122) then Some (z - 71)
  else if (48 <=? z) && (z <=? 57) then Some (z + 4)
  else if (z =? 43) || (z =? 45) then Some 62
  else if (z =? 47) || (z =? 95) then Some 63
  else None.

(** [binascii.a2b_base64], not strict: the position in the quad, the bits left
    over from the last character, and the padding seen. *)
Fixpoint a2b (s : string) (quad_pos : nat) (leftchar : Z) (pads : nat) : option (list Z) :=
  match s with
  | EmptyString => if (quad_pos =? 0)%nat then Some [] else None
  | String c s =>
      if bool_decide (c = "="%char) then
        if (2 <=? quad_pos)%nat && (4 <=? quad_pos + S pads)%nat then Some []
        else a2b s quad_pos leftchar (if (2 <=? quad_pos)%nat then S pads else pads)
      else
        match b64_value c with
        | None => a2b s quad_pos leftchar pads
        | Some d =>
            match quad_pos with
            | 0%nat => a2b s 1 d 0
            | 1%nat => bs ← a2b s 2 (d mod 16) 0; Some (leftchar * 4 + d / 16 :: bs)
            | 2%nat => bs ← a2b s 3 (d mod 4) 0; Some (leftchar * 16 + d / 4 :: bs)
            | _ => bs ← a2b s 0 0 0; Some (leftchar * 64 + d :: bs)
            end
        end
  end.

Fixpoint pad_signs (n : nat) : string :=
  match n with O => EmptyString | S n => String "=" (pad_signs n) end.

(** [urlsafe_b64decode((token + padding).encode("ascii"))]: [None] is a
    [ValueError] (or one of its subclasses). *)
Definition b64_decode (token : string) : option (list Z) :=
  if str_forall (λ c, code c <? 128) token then
    a2b (token +:+ pad_signs (Z.to_nat (- Z.of_nat (String.length token) mod 4))) 0 0 0
  else None.

(** ** UTF-8 *)

Definition cont (b : Z) : bool := (128 <=? b) && (b <=? 191).

(** A code point that the model's text does not hold. *)
Definition placeholder : ascii := chr 191.

Definition code_point (z : Z) : ascii := if z <? 256 then chr z else placeholder.

(** [bytes.decode("utf-8")], strict. *)
Fixpoint utf8_decode (bs : list Z) : option string :=
  match bs with
  | [] => Some EmptyString
  | a :: bs =>
      if (0 <=? a) && (a <? 128) then String (chr a) <$> utf8_decode bs
      else if (194 <=? a) && (a <=? 223) then
        match bs with
        | b :: bs => if cont b then String (code_point ((a - 192) * 64 + (b - 128))) <$> utf8_decode bs
                     else None
        | _ => None
        end
      else if (224 <=? a) && (a <=? 239) then
        match bs with
        | b :: c :: bs =>
            if cont b && cont c && negb ((a =? 224) && (b <? 160)) && negb ((a =? 237) && (159 <? b))
            then String (code_point ((a - 224) * 4096 + (b - 128) * 64 + (c - 128))) <$> utf8_decode bs
            else None
        | _ => None
        end
      else if (240 <=? a) && (a <=? 244) then
        match bs with
        | b :: c :: d :: bs =>
            if cont b && cont c && cont d && negb ((a =? 240) && (b <? 144))
               && negb ((a =? 244) && (143 <? b))
            then String placeholder <$> utf8_decode bs
            else None
        | _ => None
        end
      else None
  end.

Example base64_examples :
  b64_encode (encode "light work.") = "bGlnaHQgd29yay4" ∧
  b64_decode "bGlnaHQgd29yay4" = Some (encode "light work.") ∧
  b64_decode "bGln!aHQg" = Some (encode "light ") ∧ b64_decode "bGlna" = None ∧
  b64_decode "bGk=xx" = Some (encode "li") ∧ b64_encode [251; 255] = "-_8".
Proof. vm_compute. done. Qed.

(** ** What is encoded is read back *)

Lemma octet_div b : octet b → 0 <= b / 4 < 64 ∧ 0 <= b / 16 < 16 ∧ 0 <= b / 64 < 4.
Proof. unfold octet. intros. dlia. Qed.

Lemma b64_value_char d : 0 <= d < 64 → b64_value (b64_char d) = Some d ∧ b64_char d ≠ "="%char ∧
  code (b64_char d) <? 128 = true.
Proof.
  intros Hd.
  assert (Hall : forallb (λ n, let d := Z.of_nat n in
    bool_decide (b64_value (b64_char d) = Some d) && negb (bool_decide (b64_char d = "="%char))
    && (code (b64_char d) <? 128)) (seq 0 64) = true) by (vm_compute; reflexivity).
  rewrite forallb_forall in Hall. specialize (Hall (Z.to_nat d)). cbv zeta in Hall.
  rewrite Z2Nat.id in Hall by lia. specialize (Hall ltac:(apply in_seq; lia)).
  apply andb_true_iff in Hall as [Hall Hc]. apply andb_true_iff in Hall as [Hv He].
  apply bool_decide_eq_true in Hv. apply negb_true_iff, bool_decide_eq_false in He. done.
Qed.

Lemma a2b_char d s q l p : 0 <= d < 64 →
  a2b (String (b64_char d) s) q l p =
  match q with
  | 0%nat => a2b s 1 d 0
  | 1%nat => bs ← a2b s 2 (d mod 16) 0; Some (l * 4 + d / 16 :: bs)
  | 2%nat => bs ← a2b s 3 (d mod 4) 0; Some (l * 16 + d / 4 :: bs)
  | _ => bs ← a2b s 0 0 0; Some (l * 64 + d :: bs)
  end.
Proof.
  intros Hd. destruct (b64_value_char d Hd) as (Hv & He & _). cbn [a2b].
  by rewrite bool_decide_false, Hv by done.
Qed.

(** Induction three elements at a time. *)
Lemma triple_ind (P : list Z → Prop) :
  P [] → (∀ a, P [a]) → (∀ a b, P [a; b]) → (∀ a b c bs, P bs → P (a :: b :: c :: bs)) → ∀ bs, P bs.
Proof.
  intros H0 H1 H2 H3. fix IH 1. intros [|a [|b [|c bs]]]; [done|apply H1|apply H2|].
  apply H3, IH.
Qed.

Definition b64_pads (bs : list Z) : nat := Z.to_nat (- Z.of_nat (String.length (b64_encode bs)) mod 4).

Lemma b64_pads_step a b c bs : b64_pads (a :: b :: c :: bs) = b64_pads bs.
Proof. unfold b64_pads. cbn [b64_encode String.length]. f_equal. dlia. Qed.

Lemma b64_char_ascii d : 0 <= d < 64 → code (b64_char d) <? 128 = true.
Proof. intros Hd. by destruct (b64_value_char d Hd) as (_ & _ & ?). Qed.

Lemma a2b_pads l : a2b ("" +:+ pad_signs 2) 2 l 0 = Some [] ∧ a2b ("" +:+ pad_signs 1) 3 l 0 = Some [].
Proof. by vm_compute. Qed.

Lemma a2b_encode bs : Forall octet bs →
  a2b (b64_encode bs +:+ pad_signs (b64_pads bs)) 0 0 0 = Some bs ∧
  str_forall (λ c, code c <? 128) (b64_encode bs) = true.
Proof.
  induction bs as [|a|a b|a b c bs IH] using triple_ind; intros HF; [done| | |].
  - inversion HF as [|? ? Ha _]; subst. change (b64_pads [a]) with 2%nat.
    pose proof (octet_div a Ha). unfold octet in Ha.
    assert (0 <= a mod 4 * 16 < 64) by dlia. split.
    + cbn [b64_encode]. change (String ?c ?s +:+ ?t) with (String c (s +:+ t)).
      change (String ?c ?s +:+ ?t) with (String c (s +:+ t)).
      rewrite !a2b_char by lia. rewrite (proj1 (a2b_pads _)). cbn -[Z.div Z.modulo Z.mul Z.add]. do 2 f_equal. dlia.
    + cbn [b64_encode str_forall]. rewrite !b64_char_ascii by lia. done.
  - inversion HF as [|? ? Ha HF']; subst. inversion HF' as [|? ? Hb _]; subst.
    change (b64_pads [a; b]) with 1%nat.
    pose proof (octet_div a Ha). pose proof (octet_div b Hb). unfold octet in *.
    assert (0 <= a mod 4 * 16 + b / 16 < 64) by dlia. assert (0 <= b mod 16 * 4 < 64) by dlia. split.
    + cbn [b64_encode]. do 3 change (String ?c ?s +:+ ?t) with (String c (s +:+ t)).
      rewrite !a2b_char by lia. rewrite (proj2 (a2b_pads _)). cbn -[Z.div Z.modulo Z.mul Z.add].
      f_equal. f_equal; [|f_equal]; dlia.
    + cbn [b64_encode str_forall]. rewrite !b64_char_ascii by lia. done.
  - inversion HF as [|? ? Ha HF1]; subst. inversion HF1 as [|? ? Hb HF2]; subst.
    inversion HF2 as [|? ? Hc HF3]; subst. destruct (IH HF3) as [IH1 IH2]. rewrite b64_pads_step.
    pose proof (octet_div a Ha). pose proof (octet_div b Hb). pose proof (octet_div c Hc).
    unfold octet in *.
    assert (0 <= a mod 4 * 16 + b / 16 < 64) by dlia.
    assert (0 <= b mod 16 * 4 + c / 64 < 64) by dlia. assert (0 <= c mod 64 < 64) by dlia. split.
    + cbn [b64_encode]. do 4 change (String ?c ?s +:+ ?t) with (String c (s +:+ t)).
      rewrite !a2b_char by lia. rewrite IH1. cbn -[Z.div Z.modulo Z.mul Z.add]. f_equal. f_equal; [|f_equal; [|f_equal]]; dlia.
    + cbn [b64_encode str_forall]. rewrite !b64_char_ascii by lia. done.
Qed.

Lemma b64_decode_encode bs : Forall octet bs → b64_decode (b64_encode bs) = Some bs.
Proof.
  intros HF. destruct (a2b_encode bs HF) as [H1 H2]. unfold b64_decode. by rewrite H2.
Qed.

Lemma code_bound c : 0 <= code c < 256.
Proof. unfold code. pose proof (nat_ascii_bounded c). lia. Qed.

Lemma chr_code c : chr (code c) = c.
Proof. unfold chr, code. by rewrite Nat2Z.id, ascii_nat_embedding. Qed.

(** The octets of one character. *)
Lemma encode_octets s : Forall octet (encode s).
Proof.
  induction s as [|c s IH]; simpl; [done|]. pose proof (code_bound c). apply Forall_app. split; [|done].
  unfold octet. destruct (Z.ltb_spec (code c) 128); [constructor; [lia|constructor]|].
  assert (Hall : forallb (λ n, let z := Z.of_nat n in
    (0 <=? Z.lor 192 (Z.shiftr z 6)) && (Z.lor 192 (Z.shiftr z 6) <? 256)
    && (0 <=? Z.lor 128 (Z.land z 63)) && (Z.lor 128 (Z.land z 63) <? 256)) (seq 0 256) = true)
    by (vm_compute; reflexivity).
  rewrite forallb_forall in Hall. specialize (Hall (Z.to_nat (code c)) ltac:(apply in_seq; lia)).
  cbv zeta in Hall. rewrite Z2Nat.id in Hall by lia. bool_hyps.
  constructor; [lia|]. constructor; [lia|constructor].
Qed.

Lemma utf8_decode_encode s : utf8_decode (encode s) = Some s.
Proof.
  induction s as [|c s IH]; [done|]. pose proof (code_bound c). cbn [encode].
  destruct (Z.ltb_spec (code c) 128) as [Hc|Hc].
  - cbn [app utf8_decode]. rewrite (proj2 (Z.leb_le 0 _)), (proj2 (Z.ltb_lt _ _) Hc) by lia.
    cbn [andb]. by rewrite IH, chr_code.
  - assert (Hall : forallb (λ n, let z := Z.of_nat n in
      let a := Z.lor 192 (Z.shiftr z 6) in let b := Z.lor 128 (Z.land z 63) in
      negb (128 <=? z) ||
      (negb (a <? 128) && ((194 <=? a) && (a <=? 223)) && cont b && ((a - 192) * 64 + (b - 128) =? z)))
      (seq 0 256) = true) by (vm_compute; reflexivity).
    rewrite forallb_forall in Hall. specialize (Hall (Z.to_nat (code c)) ltac:(apply in_seq; lia)).
    cbv zeta in Hall. rewrite Z2Nat.id in Hall by lia.
    rewrite (proj2 (Z.leb_le 128 (code c))) in Hall by lia. cbn [negb orb] in Hall.
    set (a := Z.lor 192 _) in *. set (b := Z.lor 128 _) in *. cbn [app utf8_decode].
    apply andb_true_iff in Hall as [Hall Hz]. apply andb_true_iff in Hall as [Hall Hb].
    apply andb_true_iff in Hall as [Ha1 Ha2]. apply negb_true_iff in Ha1. apply Z.eqb_eq in Hz.
    rewrite Ha1, andb_false_r, Ha2, Hb, IH, Hz. unfold code_point.
    rewrite (proj2 (Z.ltb_lt (code c) 256)), chr_code by lia. done.
Qed.

(** ** Octet strings split at a bar *)

(** [raw.rfind("|")]: what precedes the last bar, and what follows it.  Octet
    124 occurs in UTF-8 text only as the bar. *)
Fixpoint rsplit_bar (bs : list Z) : option (list Z * list Z) :=
  match bs with
  | [] => None
  | b :: bs' =>
      match rsplit_bar bs' with
      | Some (x, y) => Some (b :: x, y)
      | None => if b =? 124 then Some ([], bs') else None
      end
  end.

Lemma rsplit_bar_no bs : ¬ In 124 bs → rsplit_bar bs = None.
Proof.
  induction bs as [|b bs IH]; intros Hn; [done|]. simpl in *.
  rewrite IH by naive_solver. destruct (Z.eqb_spec b 124); naive_solver.
Qed.

Lemma rsplit_bar_app a b : ¬ In 124 b → rsplit_bar (a ++ 124 :: b) = Some (a, b).
Proof.
  intros Hn. induction a as [|x a IH]; simpl; [by rewrite rsplit_bar_no|]. by rewrite IH.
Qed.

Lemma rsplit_bar_Some bs a b : rsplit_bar bs = Some (a, b) → bs = a ++ 124 :: b.
Proof.
  revert a b. induction bs as [|x bs IH]; intros a b; [done|]. simpl.
  destruct (rsplit_bar bs) as [[a' b']|] eqn:E.
  - intros [= <- <-]. by rewrite (IH a' b') at 1.
  - destruct (Z.eqb_spec x 124) as [->|]; [|done]. by intros [= <- <-].
Qed.

Lemma encode_app a b : encode (a +:+ b) = encode a ++ encode b.
Proof. induction a as [|c a IH]; [done|]. simpl. by rewrite IH, app_assoc. Qed.

Lemma encode_no_bar s : char_in "|" s = false → ¬ In 124 (encode s).
Proof.
  induction s as [|c s IH]; [by intros _ []|]. cbn [char_in]. intros [Hc Hs]%orb_false_iff.
  apply bool_decide_eq_false in Hc. pose proof (code_bound c). cbn [encode].
  intros [Hin|Hin]%in_app_iff; [|by apply IH]. destruct (Z.ltb_spec (code c) 128) as [|Hge].
  - destruct Hin as [E|[]]. apply Hc. change "|"%char with (chr 124). rewrite <- E. apply chr_code.
  - assert (Hall : forallb (λ n, let z := Z.of_nat n in
      negb (Z.lor 192 (Z.shiftr z 6) =? 124) && negb (Z.lor 128 (Z.land z 63) =? 124)) (seq 0 256) = true)
      by (vm_compute; reflexivity).
    rewrite forallb_forall in Hall. specialize (Hall (Z.to_nat (code c)) ltac:(apply in_seq; lia)).
    cbv zeta in Hall. rewrite Z2Nat.id in Hall by lia. bool_hyps. destruct Hin as [E|[E|[]]]; congruence.
Qed.

Lemma encode_hex s : str_forall is_hex s = true → ¬ In 124 (encode s).
Proof. intros Hs. apply encode_no_bar. by apply (str_forall_not_char is_hex). Qed.

(** Text that decodes to ASCII is its own encoding. *)
Lemma utf8_decode_ascii bs s :
  utf8_decode bs = Some s → str_forall (λ c, code c <? 128) s = true → bs = encode s.
Proof.
  remember (length bs) as n eqn:En. revert bs s En.
  induction n as [n IH] using lt_wf_ind. intros bs s ->. destruct bs as [|a bs]; cbn [utf8_decode]; [by intros [= <-]|].
  assert (Hno : ∀ z (o : option string), 128 <= z → String (code_point z) <$> o = Some s →
    str_forall (λ c, code c <? 128) s = true → False).
  { intros z o Hz. destruct o as [s'|]; [|done]. intros [= <-]. cbn [str_forall]. unfold code_point, placeholder.
    destruct (Z.ltb_spec z 256); rewrite code_chr by lia; intros Hs; bool_hyps; lia. }
  assert (Hpl : ∀ o : option string, String placeholder <$> o = Some s →
    str_forall (λ c, code c <? 128) s = true → False).
  { intros o. apply (Hno 256). lia. }
  destruct ((0 <=? a) && (a <? 128)) eqn:Ea; bool_hyps.
  { destruct (utf8_decode bs) as [s'|] eqn:E; [|done]. intros [= <-]. cbn [str_forall encode].
    rewrite code_chr by lia. intros Hs. bool_hyps. rewrite (proj2 (Z.ltb_lt a 128)) by lia.
    cbn [app]. f_equal. apply (IH (length bs)); [cbn; lia|done|done|done]. }
  destruct ((194 <=? a) && (a <=? 223)) eqn:E2; bool_hyps.
  { destruct bs as [|b bs]; [done|]. unfold cont. destruct ((128 <=? b) && _) eqn:Eb; [|done].
    bool_hyps. intros Hd Hs. exfalso. eapply Hno; [|exact Hd|done]. lia. }
  destruct ((224 <=? a) && (a <=? 239)) eqn:E3; bool_hyps.
  { destruct bs as [|b [|c bs]]; [done|done|]. unfold cont.
    match goal with |- (if ?x then _ else _) = _ → _ => destruct x eqn:Eb; [|done] end.
    bool_hyps. intros Hd Hs. exfalso. eapply Hno; [|exact Hd|done].
    destruct (Z.eqb_spec a 224) as [->|]; [|lia].
    match goal with H : true && _ = false |- _ => cbn [andb] in H end. bool_hyps. lia. }
  destruct ((240 <=? a) && (a <=? 244)) eqn:E4; [|done].
  destruct bs as [|b [|c [|d bs]]]; [done|done|done|].
  match goal with |- (if ?x then _ else _) = _ → _ => destruct x; [|done] end.
  intros Hd Hs. exfalso. by eapply Hpl.
Qed.
