(* ===== verification/Codec.v ===== *)
(** * JSON and UUID text

    [json.dumps] with its default arguments and [json.loads] (integers,
    strings, booleans, null, arrays, objects: the values the rule cache holds;
    a number with a fraction or an exponent is refused by the model), and
    [str(UUID)] / [UUID(text)]. *)

From Stdlib Require Import ZArith Lia Ascii String.
From stdpp Require Import base tactics option list strings numbers.
From S2P Require Import Prelude PyStr IpAddress PyTime.

Open Scope Z_scope.

(** ** Values *)

Inductive json : Type :=
| JNull
| JBool (b : bool)
| JInt (z : Z)
| JStr (s : string)
| JArr (l : list json)
| JObj (kvs : list (string * json)).

Section JsonInd.
Variable P : json → Prop.
Hypothesis Hnull : P JNull.
Hypothesis Hbool : ∀ b, P (JBool b).
Hypothesis Hint : ∀ z, P (JInt z).
Hypothesis Hstr : ∀ s, P (JStr s).
Hypothesis Harr : ∀ l, Forall P l → P (JArr l).
Hypothesis Hobj : ∀ kvs, Forall (λ kv, P kv.2) kvs → P (JObj kvs).

Fixpoint json_nested_ind (v : json) : P v :=
  match v with
  | JNull => Hnull
  | JBool b => Hbool b
  | JInt z => Hint z
  | JStr s => Hstr s
  | JArr l => Harr l ((fix go (l : list json) : Forall P l :=
      match l with
      | [] => List.Forall_nil P
      | v :: l => @List.Forall_cons _ P v l (json_nested_ind v) (go l)
      end) l)
  | JObj kvs => Hobj kvs ((fix go (l : list (string * json)) : Forall (λ kv, P kv.2) l :=
      match l with
      | [] => List.Forall_nil _
      | kv :: l => @List.Forall_cons _ (λ kv, P kv.2) kv l (json_nested_ind kv.2) (go l)
      end) kvs)
  end.
End JsonInd.

(** A [dict] built from JSON text: the last occurrence of a key wins. *)
Definition jfind (k : string) (kvs : list (string * json)) : option json :=
  snd <$> List.find (λ kv, bool_decide (kv.1 = k)) (rev kvs).

(** [d[k]]. *)
Definition jget (v : json) (k : string) : res json :=
  match v with
  | JObj kvs => match jfind k kvs with Some w => Ok w | None => Raise KeyError end
  | _ => Raise (OtherError "TypeError")
  end.

(** [d.get(k, d0)]. *)
Definition jget_default (v : json) (k : string) (d0 : json) : res json :=
  match v with
  | JObj kvs => Ok (default d0 (jfind k kvs))
  | _ => Raise (OtherError "AttributeError")
  end.

(** Python truth. *)
Definition jtruthy (v : json) : bool :=
  match v with
  | JNull => false
  | JBool b => b
  | JInt z => negb (z =? 0)
  | JStr s => negb (str_empty s)
  | JArr l => match l with [] => false | _ => true end
  | JObj l => match l with [] => false | _ => true end
  end.

Definition jstr (v : json) : res string :=
  match v with JStr s => Ok s | _ => Raise (OtherError "TypeError") end.

(** ** [json.dumps] *)

Definition hex2 (z : Z) : string :=
  String (hex_char (z / 16)) (String (hex_char (z mod 16)) "").

Definition escape_char (c : ascii) : string :=
  let z := code c in
  if z =? 34 then "\"+:+ String (chr 34) ""
  else if z =? 92 then "\\"
  else if z =? 10 then "\n"
  else if z =? 13 then "\r"
  else if z =? 9 then "\t"
  else if z =? 12 then "\f"
  else if z =? 8 then "\b"
  else if (32 <=? z) && (z <=? 126) then String c ""
  else "\u00" +:+ hex2 z.

Fixpoint escape (s : string) : string :=
  match s with EmptyString => EmptyString | String c s => escape_char c +:+ escape s end.

Definition quote : ascii := chr 34.
Definition jquote (s : string) : string := String quote (escape s +:+ String quote "").

Fixpoint dumps (v : json) : string :=
  match v with
  | JNull => "null"
  | JBool true => "true"
  | JBool false => "false"
  | JInt z => str_of_Z z
  | JStr s => jquote s
  | JArr l => "[" +:+ join ", " (map dumps l) +:+ "]"
  | JObj kvs => "{" +:+ join ", " (map (λ kv, jquote kv.1 +:+ ": " +:+ dumps kv.2) kvs) +:+ "}"
  end.

(** ** [json.loads]; [None] is [JSONDecodeError] *)

Definition is_ws (c : ascii) : bool :=
  (code c =? 32) || (code c =? 9) || (code c =? 10) || (code c =? 13).
Definition skip_ws : string → string := lstrip_with is_ws.

(** The body of a string literal after its opening quote. *)
Fixpoint parse_str (s : string) : option (string * string) :=
  match s with
  | EmptyString => None
  | String c s1 =>
      if code c =? 34 then Some (EmptyString, s1)
      else if code c <? 32 then None
      else if code c =? 92 then
        match s1 with
        | EmptyString => None
        | String e s2 =>
            let simple z := '(t, r) ← parse_str s2; Some (String (chr z) t, r) in
            if code e =? 34 then simple 34
            else if code e =? 92 then simple 92
            else if code e =? 47 then simple 47
            else if code e =? 98 then simple 8
            else if code e =? 102 then simple 12
            else if code e =? 110 then simple 10
            else if code e =? 114 then simple 13
            else if code e =? 116 then simple 9
            else if code e =? 117 then
              match s2 with
              | String h1 (String h2 (String h3 (String h4 s3))) =>
                  let hs := String h1 (String h2 (String h3 (String h4 ""))) in
                  if str_forall is_hex hs && (hex_value 0 hs <? 256)
                  then '(t, r) ← parse_str s3; Some (String (chr (hex_value 0 hs)) t, r)
                  else None
              | _ => None
              end
            else None
        end
      else '(t, r) ← parse_str s1; Some (String c t, r)
  end.

(** The longest run of digits at the head. *)
Fixpoint take_while (p : ascii → bool) (s : string) : string * string :=
  match s with
  | String c s' => if p c then let '(a, b) := take_while p s' in (String c a, b) else (EmptyString, s)
  | EmptyString => (EmptyString, EmptyString)
  end.

Definition number_tail (s : string) : bool :=
  match s with
  | String c _ => (code c =? 46) || (code c =? 101) || (code c =? 69)
  | EmptyString => false
  end.

(** An unsigned integer literal: no superfluous leading zero, no fraction. *)
Definition parse_nat (s : string) : option (Z * string) :=
  let '(ds, r) := take_while is_digit s in
  if str_empty ds || (starts_with "0" ds && negb (bool_decide (ds = "0"))) || number_tail r
  then None else Some (dec_value 0 ds, r).

Definition parse_literal (s : string) : option (json * string) :=
  if starts_with "null" s then Some (JNull, str_drop 4 s)
  else if starts_with "true" s then Some (JBool true, str_drop 4 s)
  else if starts_with "false" s then Some (JBool false, str_drop 5 s)
  else match s with
       | String "-" s' => '(z, r) ← parse_nat s'; Some (JInt (- z), r)
       | _ => '(z, r) ← parse_nat s; Some (JInt z, r)
       end.

Fixpoint parse_value (fuel : nat) (s : string) : option (json * string) :=
  match fuel with
  | O => None
  | S fuel =>
      match skip_ws s with
      | EmptyString => None
      | String c r as s1 =>
          if code c =? 34 then '(t, r) ← parse_str r; Some (JStr t, r)
          else if code c =? 91 then
            match eat "]" (skip_ws r) with
            | Some r1 => Some (JArr [], r1)
            | None => '(l, r2) ← parse_items fuel r; Some (JArr l, r2)
            end
          else if code c =? 123 then
            match eat "}" (skip_ws r) with
            | Some r1 => Some (JObj [], r1)
            | None => '(l, r2) ← parse_pairs fuel r; Some (JObj l, r2)
            end
          else parse_literal s1
      end
  end
with parse_items (fuel : nat) (s : string) : option (list json * string) :=
  match fuel with
  | O => None
  | S fuel =>
      '(v, r) ← parse_value fuel s;
      match eat "," (skip_ws r) with
      | Some r1 => '(l, r2) ← parse_items fuel r1; Some (v :: l, r2)
      | None => r1 ← eat "]" (skip_ws r); Some ([v], r1)
      end
  end
with parse_pairs (fuel : nat) (s : string) : option (list (string * json) * string) :=
  match fuel with
  | O => None
  | S fuel =>
      r ← eat (chr 34) (skip_ws s);
      '(k, r0) ← parse_str r;
      r1 ← eat ":" (skip_ws r0);
      '(v, r2) ← parse_value fuel r1;
      match eat "," (skip_ws r2) with
      | Some r3 => '(l, r4) ← parse_pairs fuel r3; Some ((k, v) :: l, r4)
      | None => r3 ← eat "}" (skip_ws r2); Some ([(k, v)], r3)
      end
  end.

(** Twice the length of the text bounds the depth of the calls
    ([loads_any_fuel]: more gives the same). *)
Definition loads (s : string) : option json :=
  '(v, r) ← parse_value (2 * String.length s + 2) s;
  if str_empty (skip_ws r) then Some v else None.

Example loads_examples :
  loads " { } " = Some (JObj []) ∧
  loads "[1, -20 ,null,true]" = Some (JArr [JInt 1; JInt (-20); JNull; JBool true]) ∧
  loads "[01]" = None ∧ loads "[1,]" = None ∧ loads "1.5" = None ∧
  dumps (JObj [("a", JArr [JInt 1; JStr "x"])])
  = "{" +:+ jquote "a" +:+ ": [1, " +:+ jquote "x" +:+ "]}".
Proof. vm_compute. done. Qed.

(** ** [str()] of a value *)

(** A key written again keeps its first place and takes the last value. *)
Fixpoint dict_put (k v : string) (d : list (string * string)) : list (string * string) :=
  match d with
  | [] => [(k, v)]
  | (k', v') :: d => if bool_decide (k' = k) then (k, v) :: d else (k', v') :: dict_put k v d
  end.

(** [repr] of a [str]: single quotes, unless the text has some and no double
    quotes; what is not printable is escaped. *)
Definition repr_char (q : ascii) (c : ascii) : string :=
  let z := code c in
  if bool_decide (c = q) || (z =? 92) then String (chr 92) (String c "")
  else if z =? 10 then "\n" else if z =? 13 then "\r" else if z =? 9 then "\t"
  else if (z <? 32) || ((127 <=? z) && (z <=? 160)) || (z =? 173) then "\x" +:+ hex2 z
  else String c "".

Definition repr_str (s : string) : string :=
  let apostrophe := chr 39 in
  let q := if char_in apostrophe s && negb (char_in quote s) then quote else apostrophe in
  String q (foldr (λ c acc, repr_char q c +:+ acc) (String q "") (list_ascii_of_string s)).

Fixpoint py_repr (v : json) : string :=
  match v with
  | JNull => "None"
  | JBool b => if b then "True" else "False"
  | JInt z => str_of_Z z
  | JStr s => repr_str s
  | JArr l => "[" +:+ join ", " (map py_repr l) +:+ "]"
  | JObj kvs =>
      let items := map (λ kv, (repr_str kv.1, py_repr kv.2)) kvs in
      "{" +:+ join ", " (map (λ kv, kv.1 +:+ ": " +:+ kv.2)
                           (fold_left (λ d kv, dict_put kv.1 kv.2 d) items [])) +:+ "}"
  end.

(** [str(v)], and what an f-string shows. *)
Definition py_str (v : json) : string := match v with JStr s => s | _ => py_repr v end.

Example py_str_examples :
  py_str (JStr "it's") = "it's" ∧ py_str (JInt (-7)) = "-7" ∧
  py_str (JObj [("a", JNull); ("b", JStr "it's"); ("a", JArr [JBool true; JStr "\"])])
  = "{'a': [True, '\\'], 'b': " +:+ jquote "it's" +:+ "}".
Proof. vm_compute. done. Qed.

(** ** Round trip *)

Lemma parse_escape_char c s :
  parse_str (escape_char c +:+ s) = '(t, r) ← parse_str s; Some (String c t, r).
Proof. destruct c as [[] [] [] [] [] [] [] []]; reflexivity. Qed.

Lemma parse_str_escape s r : parse_str (escape s +:+ String quote r) = Some (s, r).
Proof.
  induction s as [|c s IH]; [reflexivity|].
  cbn [escape]. rewrite str_app_assoc, parse_escape_char, IH. reflexivity.
Qed.

Lemma take_while_app p a b :
  str_forall p a = true → match b with String c _ => p c = false | EmptyString => True end →
  take_while p (a +:+ b) = (a, b).
Proof.
  induction a as [|c a IH]; simpl.
  - intros _ Hb. destruct b as [|c b]; [done|]. simpl. by rewrite Hb.
  - intros [Hc Ha]%andb_true_iff Hb. by rewrite Hc, IH.
Qed.

Lemma dec_value_int_body ds a pd :
  str_forall is_digit ds = true → ds ≠ "" → int_body pd a ds = Some (dec_value a ds).
Proof.
  revert a pd. induction ds as [|c ds IH]; intros a pd; [done|]. simpl.
  intros [Hc Hds]%andb_true_iff _. rewrite Hc. destruct ds as [|d ds]; [done|]. by apply IH.
Qed.

(** A positive number is not printed with a leading zero. *)
Lemma dec_digits_lead fuel n acc :
  0 < n → n < 10 ^ Z.of_nat fuel →
  ∃ d s, 0 < d < 10 ∧ dec_digits fuel n acc = String (digit_char d) s.
Proof.
  revert n acc. induction fuel as [|fuel IH]; intros n acc Hn Hlt; [simpl in Hlt; lia|].
  rewrite Nat2Z.inj_succ, Z.pow_succ_r in Hlt by lia.
  change (dec_digits (S fuel) n acc) with
    (if n <? 10 then String (digit_char (n mod 10)) acc
     else dec_digits fuel (n / 10) (String (digit_char (n mod 10)) acc)).
  destruct (Z.ltb_spec n 10) as [Hs|Hs].
  - exists n, acc. rewrite Z.mod_small by lia. split; [lia|done].
  - apply IH; [apply Z.div_str_pos; lia|apply Z.div_lt_upper_bound; lia].
Qed.

(** What may follow a number in a document. *)
Definition tail_ok (s : string) : bool :=
  match s with
  | String c _ => negb (is_digit c) && negb (number_tail s)
  | EmptyString => true
  end.

Lemma parse_nat_dec n rest :
  0 <= n → tail_ok rest = true →
  parse_nat (dec_digits (dec_fuel n) n "" +:+ rest) = Some (n, rest).
Proof.
  intros Hn Ht. unfold parse_nat.
  assert (Hall : str_forall is_digit (dec_digits (dec_fuel n) n "") = true)
    by (by apply dec_digits_forall).
  rewrite take_while_app; [|done|].
  2:{ destruct rest; [done|]. simpl in Ht. bool_hyps. done. }
  assert (Htail : number_tail rest = false) by (destruct rest; [done|]; cbn [tail_ok] in Ht; bool_hyps; done).
  pose proof (int_body_str n Hn) as Hv.
  destruct (dec_digits_head (dec_fuel n) n "") as (c & s & E & Hc);
    [done|done|unfold dec_fuel; lia|].
  rewrite (dec_value_int_body _ _ _ Hall ltac:(by rewrite E)) in Hv.
  assert (Hlead : starts_with "0" (dec_digits (dec_fuel n) n "")
                  && negb (bool_decide (dec_digits (dec_fuel n) n "" = "0")) = false).
  { destruct (decide (n = 0)) as [->|Hnz]; [reflexivity|].
    destruct (dec_digits_lead (dec_fuel n) n "") as (d & s' & Hd & ->);
      [lia|by apply dec_fuel_enough|].
    apply andb_false_iff. left. unfold starts_with. cbn [String.prefix].
    destruct (ascii_dec "0" (digit_char d)) as [Heq|]; [|done].
    apply (f_equal code) in Heq. unfold digit_char in Heq. rewrite code_chr in Heq by lia.
    change (code "0") with 48 in Heq. lia. }
  rewrite Hlead, Htail. rewrite E in *. simpl. by injection Hv as ->.
Qed.

(** Fuel enough to read back a value. *)
Fixpoint jfuel (v : json) : nat :=
  match v with
  | JArr l => S (fold_right (λ v n, S (jfuel v + n)) O l)
  | JObj kvs => S (fold_right (λ kv n, S (jfuel kv.2 + n)) O kvs)
  | _ => 1
  end.

(** The text of a value starts with a character that no separator starts
    with, so reading it is not affected by skipping spaces. *)
Definition value_head (c : ascii) : bool :=
  negb (is_ws c) && negb (bool_decide (c = "]"%char)) && negb (bool_decide (c = "}"%char)).

Lemma dumps_head v : ∃ c s, dumps v = String c s ∧ value_head c = true.
Proof.
  destruct v as [|[]|z|s|l|kvs]; try (by eexists _, _).
  cbn [dumps]. unfold str_of_Z. destruct (Z.ltb_spec z 0); [by eexists _, _|].
  destruct (dec_digits_head (dec_fuel z) z "") as (c & s & -> & Hc);
    [done|done|unfold dec_fuel; lia|].
  exists c, s. split; [done|]. destruct c as [[] [] [] [] [] [] [] []]; try done.
Qed.

Lemma skip_ws_dumps v s : skip_ws (dumps v +:+ s) = dumps v +:+ s.
Proof.
  destruct (dumps_head v) as (c & t & -> & Hc). unfold value_head in Hc. bool_hyps.
  unfold skip_ws. simpl. by rewrite H.
Qed.

Lemma parse_literal_int z rest :
  tail_ok rest = true → parse_literal (str_of_Z z +:+ rest) = Some (JInt z, rest).
Proof.
  intros Ht. unfold str_of_Z. destruct (Z.ltb_spec z 0) as [Hz|Hz].
  - unfold parse_literal. simpl. rewrite parse_nat_dec by (done || lia). simpl.
    do 3 f_equal. lia.
  - pose proof (parse_nat_dec z rest Hz Ht) as Hp.
    destruct (dec_digits_head (dec_fuel z) z "") as (c & s & E & Hc);
      [done|done|unfold dec_fuel; lia|].
    rewrite E in *. simpl in *. unfold parse_literal.
    destruct c as [[] [] [] [] [] [] [] []]; try done; simpl; rewrite Hp; done.
Qed.

Lemma skip_ws_head c s : is_ws c = false → skip_ws (String c s) = String c s.
Proof. unfold skip_ws. simpl. by intros ->. Qed.

Lemma eat_other c d s : d ≠ c → eat c (String d s) = None.
Proof. intros Hne. simpl. by rewrite bool_decide_false. Qed.

Lemma parse_items_space fuel s : parse_items fuel (String " " s) = parse_items fuel s.
Proof. destruct fuel as [|[|fuel]]; reflexivity. Qed.

Lemma parse_pairs_space fuel s : parse_pairs fuel (String " " s) = parse_pairs fuel s.
Proof. destruct fuel; reflexivity. Qed.

Lemma parse_value_space fuel s : parse_value fuel (String " " s) = parse_value fuel s.
Proof. destruct fuel; reflexivity. Qed.

Definition reads_back (v : json) : Prop := ∀ fuel rest,
  (jfuel v <= fuel)%nat → tail_ok rest = true → parse_value fuel (dumps v +:+ rest) = Some (v, rest).

Lemma parse_items_dumps l : Forall reads_back l → l ≠ [] → ∀ fuel rest,
  (fold_right (λ v n, S (jfuel v + n)) O l <= fuel)%nat →
  parse_items fuel (join ", " (map dumps l) +:+ String "]" rest) = Some (l, rest).
Proof.
  induction 1 as [|v l Hv Hl IH]; [done|]. intros _ fuel rest Hf.
  destruct fuel as [|fuel]; [simpl in Hf; lia|].
  cbn [fold_right] in Hf. destruct l as [|w l].
  - cbn [map join parse_items]. rewrite Hv by (done || lia). reflexivity.
  - change (join ", " (map dumps (v :: w :: l)))
      with (dumps v +:+ ", " +:+ join ", " (map dumps (w :: l))).
    rewrite !str_app_assoc. cbn [parse_items]. rewrite Hv by (done || lia).
    cbn [mbind option_bind String.append]. rewrite skip_ws_head, eat_hd by done.
    rewrite parse_items_space, IH by (done || lia). reflexivity.
Qed.

Definition dump_pair (kv : string * json) : string := jquote kv.1 +:+ ": " +:+ dumps kv.2.

Lemma parse_pair_head fuel k s :
  parse_pairs (S fuel) (jquote k +:+ ": " +:+ s) =
  '(v, r2) ← parse_value fuel s;
  match eat "," (skip_ws r2) with
  | Some r3 => '(l, r4) ← parse_pairs fuel r3; Some ((k, v) :: l, r4)
  | None => r3 ← eat "}" (skip_ws r2); Some ([(k, v)], r3)
  end.
Proof.
  unfold jquote. cbn [parse_pairs String.append]. rewrite skip_ws_head, eat_hd by done.
  cbn [mbind option_bind]. rewrite str_app_assoc. cbn [String.append]. rewrite parse_str_escape.
  cbn [mbind option_bind]. rewrite skip_ws_head, eat_hd by done. cbn [mbind option_bind].
  by rewrite parse_value_space.
Qed.

Lemma parse_pairs_dumps kvs : Forall (λ kv, reads_back kv.2) kvs → kvs ≠ [] → ∀ fuel rest,
  (fold_right (λ kv n, S (jfuel kv.2 + n)) O kvs <= fuel)%nat →
  parse_pairs fuel (join ", " (map dump_pair kvs) +:+ String "}" rest) = Some (kvs, rest).
Proof.
  induction 1 as [|[k v] l Hv Hl IH]; [done|]. intros _ fuel rest Hf.
  destruct fuel as [|fuel]; [simpl in Hf; lia|].
  cbn [fold_right snd] in Hf. simpl in Hv. destruct l as [|w l].
  - cbn [map join]. unfold dump_pair. cbn [fst snd]. rewrite !str_app_assoc, parse_pair_head.
    rewrite Hv by (done || lia). reflexivity.
  - change (join ", " (map dump_pair ((k, v) :: w :: l)))
      with (dump_pair (k, v) +:+ ", " +:+ join ", " (map dump_pair (w :: l))).
    unfold dump_pair at 1. cbn [fst snd]. rewrite !str_app_assoc, parse_pair_head.
    rewrite Hv by (done || lia).
    cbn [mbind option_bind String.append]. rewrite skip_ws_head, eat_hd by done.
    rewrite parse_pairs_space, IH by (done || lia). reflexivity.
Qed.

(** The first character of a joined list is the first one of its head. *)
Lemma join_head sep p ps c s : p = String c s → ∃ t, join sep (p :: ps) = String c t.
Proof. intros ->. destruct ps; simpl; eauto. Qed.

Lemma parse_value_dumps v : reads_back v.
Proof.
  induction v as [|b|z|s|l IH|kvs IH] using json_nested_ind; intros fuel rest Hf Ht;
    (destruct fuel as [|fuel]; [cbn [jfuel] in Hf; lia|]).
  - by destruct rest.
  - by destruct b, rest.
  - cbn [parse_value]. rewrite skip_ws_dumps. cbn [dumps].
    rewrite <- (parse_literal_int z rest Ht).
    unfold str_of_Z. destruct (z <? 0) eqn:Ez; [reflexivity|].
    destruct (dec_digits_head (dec_fuel z) z "") as (c & s & -> & Hc);
      [bool_hyps; lia|done|unfold dec_fuel; lia|]. cbn [String.append].
    by destruct c as [[] [] [] [] [] [] [] []].
  - cbn [parse_value dumps]. unfold jquote. cbn [String.append]. rewrite skip_ws_head by done.
    change (code quote =? 34) with true. cbn iota.
    rewrite str_app_assoc. cbn [String.append]. by rewrite parse_str_escape.
  - cbn [dumps jfuel] in *. cbn [String.append parse_value]. rewrite skip_ws_head by done.
    change (code "[" =? 34) with false. change (code "[" =? 91) with true. cbn iota.
    rewrite str_app_assoc. destruct l as [|v l]; [reflexivity|].
    assert (Hi := parse_items_dumps (v :: l) IH ltac:(done) fuel rest ltac:(lia)).
    destruct (dumps_head v) as (c & s & E & Hc).
    destruct (join_head ", " (dumps v) (map dumps l) c s E) as [t Et].
    cbn [map String.append] in *. rewrite Et in *. cbn [String.append] in *.
    unfold value_head in Hc. bool_hyps.
    rewrite skip_ws_head, eat_other, Hi by done. reflexivity.
  - cbn [dumps jfuel] in *. cbn [String.append parse_value]. rewrite skip_ws_head by done.
    change (code "{" =? 34) with false. change (code "{" =? 91) with false.
    change (code "{" =? 123) with true. cbn iota.
    rewrite str_app_assoc. destruct kvs as [|[k v] l]; [reflexivity|].
    assert (Hi := parse_pairs_dumps ((k, v) :: l) IH ltac:(done) fuel rest ltac:(lia)).
    change (map _ ((k, v) :: l)) with (map dump_pair ((k, v) :: l)).
    destruct (join_head ", " (dump_pair (k, v)) (map dump_pair l) quote
                (escape k +:+ String quote "" +:+ ": " +:+ dumps v)) as [t Et].
    { unfold dump_pair, jquote. cbn [fst snd String.append]. by rewrite str_app_assoc. }
    cbn [map String.append] in *. rewrite Et in *. cbn [String.append] in *.
    rewrite skip_ws_head, eat_other, Hi by done. reflexivity.
Qed.

(** ** Fuel *)

Lemma join_length sep ps :
  (foldr (λ p n, String.length p + n) 0 ps + length ps * String.length sep
   <= String.length (join sep ps) + String.length sep)%nat.
Proof.
  induction ps as [|p [|q ps] IH]; [simpl; lia|simpl; lia|].
  change (join sep (p :: q :: ps)) with (p +:+ sep +:+ join sep (q :: ps)).
  rewrite !str_app_length. cbn [foldr length] in *. lia.
Qed.

Lemma jfuel_bound v : (jfuel v <= 2 * String.length (dumps v))%nat.
Proof.
  induction v as [|b|z|s|l IH|kvs IH] using json_nested_ind.
  - simpl. lia.
  - destruct b; simpl; lia.
  - destruct (dumps_head (JInt z)) as (c & s & E & _). rewrite E. simpl. lia.
  - simpl. lia.
  - cbn [dumps jfuel]. rewrite !str_app_length. pose proof (join_length ", " (map dumps l)) as Hj.
    rewrite length_map in Hj. change (String.length ", ") with 2%nat in Hj.
    assert (Hs : (fold_right (λ v n, S (jfuel v + n)) 0 l
                  <= 2 * foldr (λ p n, String.length p + n) 0 (map dumps l) + length l)%nat).
    { clear Hj. induction IH; simpl; lia. }
    destruct l; cbn [String.length length map foldr] in *; lia.
  - cbn [dumps jfuel]. rewrite !str_app_length.
    change (map _ kvs) with (map dump_pair kvs).
    pose proof (join_length ", " (map dump_pair kvs)) as Hj.
    rewrite length_map in Hj. change (String.length ", ") with 2%nat in Hj.
    assert (Hs : (fold_right (λ kv n, S (jfuel kv.2 + n)) 0 kvs
                  <= 2 * foldr (λ p n, String.length p + n) 0 (map dump_pair kvs) + length kvs)%nat).
    { clear Hj. induction IH as [|[k v] l Hv _ IH]; simpl in *; [lia|].
      change (dump_pair (k, v)) with (jquote k +:+ ": " +:+ dumps v).
      rewrite !str_app_length. cbn [String.length]. lia. }
    assert (Hn : kvs = [] ∨ (1 <= length kvs)%nat) by (destruct kvs; [by left|right; simpl; lia]).
    destruct Hn as [->|Hn]; [simpl; lia|]. cbn [String.length]. lia.
Qed.

(** [json.loads(json.dumps(v)) == v]. *)
Lemma loads_dumps v : loads (dumps v) = Some v.
Proof.
  unfold loads. pose proof (parse_value_dumps v (2 * String.length (dumps v) + 2)%nat "") as Hp.
  rewrite str_app_nil_r in Hp. rewrite Hp; [reflexivity| |reflexivity].
  pose proof (jfuel_bound v). lia.
Qed.

#[export] Hint Rewrite loads_dumps : waf.

(** ** UUIDs: 128-bit integers *)

(** [int(s, 16)]. *)
Fixpoint int16_body (prev_digit : bool) (acc : Z) (s : string) : option Z :=
  match s with
  | EmptyString => if prev_digit then Some acc else None
  | String c s' =>
      if is_hex c then int16_body true (16 * acc + hex_digit c) s'
      else if bool_decide (c = "_"%char) && prev_digit then int16_body false acc s'
      else None
  end.

Definition int16_prefixed (s : string) : option Z :=
  match s with
  | String "0" (String x s') =>
      if (code x =? 120) || (code x =? 88) then
        match s' with
        | String "_" s'' => int16_body false 0 s''
        | _ => int16_body false 0 s'
        end
      else int16_body false 0 s
  | _ => int16_body false 0 s
  end.

Definition py_int16 (s : string) : option Z :=
  match strip s with
  | String "-" s' => Z.opp <$> int16_prefixed s'
  | String "+" s' => int16_prefixed s'
  | s' => int16_prefixed s'
  end.

(** [s.replace(sub, "")] for a non-empty [sub]. *)
Fixpoint remove_sub (fuel : nat) (sub s : string) : string :=
  match fuel with
  | O => s
  | S fuel =>
      if starts_with sub s then remove_sub fuel sub (str_drop (String.length sub) s)
      else match s with
           | EmptyString => EmptyString
           | String c s' => String c (remove_sub fuel sub s')
           end
  end.
Definition replace_none (sub s : string) : string := remove_sub (S (String.length s)) sub s.

Definition is_brace (c : ascii) : bool := (code c =? 123) || (code c =? 125).

(** [UUID(text)]; [None] is [ValueError]. *)
Definition uuid_of (text : string) : option Z :=
  let hex := replace_none "uuid:" (replace_none "urn:" text) in
  let hex := replace_none "-" (rstrip_with is_brace (lstrip_with is_brace hex)) in
  if negb (String.length hex =? 32)%nat then None
  else n ← py_int16 hex; if (0 <=? n) && (n <? 2 ^ 128) then Some n else None.

Fixpoint hex_digits (n : nat) (z : Z) (acc : string) : string :=
  match n with
  | O => acc
  | S n => hex_digits n (z / 16) (String (hex_char (z mod 16)) acc)
  end.

(** [str(uuid)]: groups of 8, 4, 4, 4 and 12 hexadecimal digits. *)
Definition uuid_str (u : Z) : string :=
  join "-" [hex_digits 8 (u / 2 ^ 96) ""; hex_digits 4 (u / 2 ^ 80) ""; hex_digits 4 (u / 2 ^ 64) "";
            hex_digits 4 (u / 2 ^ 48) ""; hex_digits 12 u ""].

Example uuid_examples :
  uuid_str 0x550e8400e29b41d4a716446655440000 = "550e8400-e29b-41d4-a716-446655440000" ∧
  uuid_of "550e8400-e29b-41d4-a716-446655440000" = Some 0x550e8400e29b41d4a716446655440000 ∧
  uuid_of "{urn:uuid:550E8400E29B41D4A716446655440000}" = Some 0x550e8400e29b41d4a716446655440000 ∧
  uuid_of "1" = None.
Proof. vm_compute. done. Qed.

Lemma hex_digits_length n z acc :
  String.length (hex_digits n z acc) = (n + String.length acc)%nat.
Proof. revert z acc. induction n as [|n IH]; intros z acc; simpl; [done|]. rewrite IH. simpl. lia. Qed.

Lemma hex_char_code d : 0 <= d < 16 → is_hex (hex_char d) = true ∧ hex_digit (hex_char d) = d.
Proof.
  intros Hd.
  assert (Hall : forallb (λ n, is_hex (hex_char (Z.of_nat n)) &&
                    (hex_digit (hex_char (Z.of_nat n)) =? Z.of_nat n)) (seq 0 16) = true)
    by (vm_compute; reflexivity).
  rewrite forallb_forall in Hall. specialize (Hall (Z.to_nat d) ltac:(apply in_seq; lia)).
  rewrite Z2Nat.id in Hall by lia. bool_hyps. done.
Qed.

Lemma hex_digits_hex n z acc :
  str_forall is_hex acc = true → str_forall is_hex (hex_digits n z acc) = true.
Proof.
  revert z acc. induction n as [|n IH]; intros z acc Ha; simpl; [done|]. apply IH. simpl.
  rewrite (proj1 (hex_char_code _ (Z.mod_pos_bound z 16 ltac:(lia)))). done.
Qed.

(** Reading [n] hexadecimal digits appended to a value. *)
Lemma int16_body_hex n z a pd s :
  (0 < n)%nat → int16_body pd a (hex_digits n z s)
  = int16_body true (a * 16 ^ Z.of_nat n + z mod 16 ^ Z.of_nat n) s.
Proof.
  assert (Hgen : ∀ n z a pd s, int16_body pd a (hex_digits n z s)
    = int16_body (match n with O => pd | _ => true end)
        (a * 16 ^ Z.of_nat n + z mod 16 ^ Z.of_nat n) s).
  { clear. induction n as [|n IH]; intros z a pd s.
    - change (16 ^ Z.of_nat 0) with 1. rewrite Z.mod_1_r. simpl. f_equal. lia.
    - cbn [hex_digits]. rewrite IH.
      destruct (hex_char_code (z mod 16) (Z.mod_pos_bound z 16 ltac:(lia))) as [Hh Hv].
      cbn [int16_body]. rewrite Hh, Hv. f_equal.
      rewrite Nat2Z.inj_succ, Z.pow_succ_r by lia.
      rewrite (Z.rem_mul_r z 16 (16 ^ Z.of_nat n)) by lia. lia. }
  intros Hn. rewrite Hgen. by destruct n; [lia|].
Qed.

Lemma remove_sub_absent fuel c sub s :
  char_in c s = false → remove_sub fuel (String c sub) s = s.
Proof.
  revert s. induction fuel as [|fuel IH]; intros s Hs; [done|].
  destruct s as [|d s]; [done|]. simpl in Hs. bool_hyps.
  cbn [remove_sub]. unfold starts_with. cbn [String.prefix].
  destruct (ascii_dec c d); [done|]. by rewrite IH.
Qed.

Lemma remove_dash fuel a b :
  char_in "-" a = false → (String.length a < fuel)%nat →
  ∃ fuel', (fuel' = fuel - S (String.length a))%nat ∧
  remove_sub fuel "-" (a +:+ String "-" b) = a +:+ remove_sub fuel' "-" b.
Proof.
  revert fuel. induction a as [|c a IH]; intros fuel Ha Hf; (destruct fuel as [|fuel]; [simpl in Hf; lia|]).
  - exists fuel. split; [simpl; lia|]. by destruct b.
  - simpl in Ha. bool_hyps. destruct (IH fuel) as (f' & Hf' & E); [done|simpl in Hf; lia|].
    exists f'. split; [simpl; lia|]. cbn [String.append remove_sub]. unfold starts_with.
    cbn [String.prefix]. destruct (ascii_dec "-" c); [done|]. by rewrite E.
Qed.

Lemma is_hex_not (c : ascii) s : is_hex c = false → str_forall is_hex s = true → char_in c s = false.
Proof. apply str_forall_not_char. Qed.

Lemma int16_prefixed_hex s :
  str_forall is_hex s = true → int16_prefixed s = int16_body false 0 s.
Proof.
  destruct s as [|c [|x s]]; intros Hs; [done| |].
  - destruct c as [[] [] [] [] [] [] [] []]; reflexivity.
  - simpl in Hs. bool_hyps.
    assert (Hx : (code x =? 120) || (code x =? 88) = false).
    { destruct ((code x =? 120) || (code x =? 88)) eqn:E; [exfalso|done].
      apply orb_true_iff in E. unfold is_hex, is_digit in *.
      destruct E as [E|E]; apply Z.eqb_eq in E; rewrite E in *; done. }
    unfold int16_prefixed. rewrite Hx. destruct c as [[] [] [] [] [] [] [] []]; reflexivity.
Qed.

Lemma hex_not_space c : is_hex c = true → negb (is_space c) = true.
Proof. destruct c as [[] [] [] [] [] [] [] []]; done. Qed.

Lemma py_int16_hex s : str_forall is_hex s = true → py_int16 s = int16_body false 0 s.
Proof.
  intros Hs. rewrite <- int16_prefixed_hex by done. unfold py_int16.
  rewrite strip_id by (eapply str_forall_impl; [apply hex_not_space|done]).
  destruct s as [|c s]; [done|]. simpl in Hs. bool_hyps.
  destruct c as [[] [] [] [] [] [] [] []]; done.
Qed.

(** Five groups of hexadecimal digits are read as one number. *)
Lemma uuid_of_groups a b c d e :
  forallb (str_forall is_hex) [a; b; c; d; e] = true →
  map String.length [a; b; c; d; e] = [8; 4; 4; 4; 12]%nat →
  uuid_of (join "-" [a; b; c; d; e]) =
  n ← int16_body false 0 (a +:+ b +:+ c +:+ d +:+ e); if (0 <=? n) && (n <? 2 ^ 128) then Some n else None.
Proof.
  intros Hh Hl. simpl in Hh. apply andb_true_iff in Hh as [Ha Hh].
  apply andb_true_iff in Hh as [Hb Hh]. apply andb_true_iff in Hh as [Hc Hh].
  apply andb_true_iff in Hh as [Hd Hh]. apply andb_true_iff in Hh as [He _].
  simpl in Hl. injection Hl as La Lb Lc Ld Le.
  set (s := join "-" [a; b; c; d; e]).
  assert (Hno : ∀ x, is_hex x = false → x ≠ "-"%char → char_in x s = false).
  { intros x Hx Hdash. unfold s. simpl.
    repeat (rewrite char_in_app; cbn [char_in]). rewrite !bool_decide_false by done.
    by rewrite !is_hex_not. }
  assert (Hlen : String.length s = 36%nat).
  { unfold s. simpl. repeat (rewrite str_app_length; cbn [String.length]). lia. }
  assert (Hbr : str_forall (λ c, negb (is_brace c)) s = true).
  { apply (str_forall_impl (λ c, is_hex c || bool_decide (c = "-"%char))).
    - intros x. destruct x as [[] [] [] [] [] [] [] []]; done.
    - unfold s. simpl. repeat (rewrite str_forall_app; cbn [str_forall]).
      assert (Hi : ∀ g, str_forall is_hex g = true →
                str_forall (λ c, is_hex c || bool_decide (c = "-"%char)) g = true).
      { intros g. apply str_forall_impl. by intros x ->. }
      by rewrite !Hi. }
  assert (Hrep : ∀ c t, is_hex c = false → c ≠ "-"%char → replace_none (String c t) s = s).
  { intros x t Hx Hdash. unfold replace_none. by rewrite remove_sub_absent by by apply Hno. }
  unfold uuid_of. rewrite !Hrep by done.
  unfold rstrip_with. rewrite (lstrip_with_id is_brace s) by exact Hbr.
  rewrite (lstrip_with_id is_brace (str_rev s)) by (rewrite str_forall_rev; exact Hbr). rewrite str_rev_involutive.
  assert (Hhex : replace_none "-" s = a +:+ b +:+ c +:+ d +:+ e).
  { unfold replace_none. rewrite Hlen. unfold s. simpl join.
    do 4 (match goal with |- context [remove_sub ?f _ (?g +:+ String "-" ?t)] =>
      destruct (remove_dash f g t) as (? & -> & ->); [by apply is_hex_not|lia|] end).
    rewrite remove_sub_absent by (by apply is_hex_not). done. }
  rewrite Hhex, !str_app_length, La, Lb, Lc, Ld, Le. cbn [Nat.eqb Nat.add negb].
  rewrite py_int16_hex; [done|]. rewrite !str_forall_app. 
  by rewrite Ha, Hb, Hc, Hd, He.
Qed.

(** [UUID(str(u)) == u]. *)
Lemma uuid_of_str u : 0 <= u < 2 ^ 128 → uuid_of (uuid_str u) = Some u.
Proof.
  intros Hu. unfold uuid_str. rewrite uuid_of_groups.
  - replace (int16_body false 0 _) with (Some u); [|symmetry].
    + simpl. rewrite (proj2 (Z.leb_le 0 u)), (proj2 (Z.ltb_lt u (2 ^ 128))) by lia. done.
    + assert (Happ : ∀ n z s, hex_digits n z s = hex_digits n z "" +:+ s).
      { clear. induction n as [|n IH]; intros z s; [done|]. cbn [hex_digits].
        rewrite IH, (IH _ (String _ "")), str_app_assoc. done. }
      rewrite <- !Happ. rewrite !int16_body_hex by lia. cbn [int16_body]. f_equal.
      change (Z.of_nat 8) with 8. change (Z.of_nat 4) with 4. change (Z.of_nat 12) with 12.
      change (16 ^ 8) with (2 ^ 32). change (16 ^ 4) with (2 ^ 16). change (16 ^ 12) with (2 ^ 48).
      rewrite (Z.mod_small (u / 2 ^ 96)) by (split; [apply Z.div_pos; lia|apply Z.div_lt_upper_bound; lia]).
      assert (Hs : ∀ k, 0 <= k → u / 2 ^ (k + 16) * 2 ^ 16 + (u / 2 ^ k) mod 2 ^ 16 = u / 2 ^ k).
      { intros k Hk. rewrite Z.pow_add_r, <- Z.div_div by lia.
        pose proof (Z.div_mod (u / 2 ^ k) (2 ^ 16) ltac:(lia)). lia. }
      rewrite Z.mul_0_l, Z.add_0_l.
      pose proof (Hs 80 ltac:(lia)) as H80. pose proof (Hs 64 ltac:(lia)) as H64.
      pose proof (Hs 48 ltac:(lia)) as H48.
      change (80 + 16) with 96 in H80. change (64 + 16) with 80 in H64.
      change (48 + 16) with 64 in H48. rewrite H80, H64, H48. pose proof (Z.div_mod u (2 ^ 48) ltac:(lia)). lia.
  - cbn [forallb]. by rewrite !hex_digits_hex.
  - cbn [map]. by rewrite !hex_digits_length.
Qed.

(** ** The fuel of [loads] is enough *)

#[local] Notation len := String.length.

Lemma skip_ws_length s : (len (skip_ws s) <= len s)%nat.
Proof. unfold skip_ws. induction s as [|c s IH]; cbn; [done|]. destruct (is_ws c); cbn; lia. Qed.

Lemma eat_length c s r : eat c s = Some r → len s = S (len r).
Proof. destruct s as [|d s]; cbn; [done|]. case_bool_decide; [|done]. by intros [= ->]. Qed.

Lemma parse_str_length s t r : parse_str s = Some (t, r) → (len r < len s)%nat.
Proof.
  remember (len s) as n eqn:En. assert (Hn : (len s <= n)%nat) by lia. clear En. intros Hp.
  enough ((len r < len s)%nat) by lia. revert s t r Hn Hp.
  induction n as [|n IH]; intros [|c s] t r Hn Hp; cbn in Hn; try lia; [done..|]. cbn [parse_str] in Hp.
  assert (Hrec : ∀ (x : string) (f : string → string), (len x <= n)%nat → (len x <= len s)%nat →
    ('(t, r) ← parse_str x; Some (f t, r)) = Some (t, r) → (len r < S (len s))%nat).
  { intros x f Hx Hxs E. destruct (parse_str x) as [[t0 r0]|] eqn:Ex; cbn in E; [|done].
    injection E as <- <-. apply IH in Ex; lia. }
  cbn [String.length]. destruct (code c =? 34); [injection Hp as <- <-; lia|]. destruct (code c <? 32); [done|].
  destruct (code c =? 92); [|by apply (Hrec s (String c)) in Hp; [|lia|lia]].
  destruct s as [|e s2]; [done|]. cbn [String.length] in *. cbv zeta in Hp.
  repeat (match type of Hp with (if code e =? ?k then _ else _) = _ => destruct (code e =? k) end;
          [first [apply (Hrec s2 (String _)) in Hp; [exact Hp|lia|lia]|idtac]|]); [|done].
  destruct s2 as [|h1 [|h2 [|h3 [|h4 s3]]]]; try done. destruct (_ && _); [|done].
  apply (Hrec s3 (String _)) in Hp; [exact Hp|cbn in *; lia|cbn in *; lia].
Qed.

Lemma take_while_length p s : (len (take_while p s).1 + len (take_while p s).2)%nat = len s.
Proof. induction s as [|c s IH]; [done|]. cbn. destruct (p c); [|done]. destruct (take_while p s). cbn in *. lia. Qed.

Lemma parse_nat_length s z r : parse_nat s = Some (z, r) → (len r < len s)%nat.
Proof.
  unfold parse_nat. pose proof (take_while_length is_digit s) as Hl. destruct (take_while is_digit s) as [ds x]. cbn in Hl.
  destruct ds; [done|]. cbn in *. destruct (_ || _); [done|]. intros [= <- <-]. lia.
Qed.

Lemma str_drop_length n s : len (str_drop n s) = (len s - n)%nat.
Proof. revert n. induction s as [|c s IH]; intros [|n]; cbn; try done; try lia; by rewrite IH. Qed.

Lemma starts_with_length p s : starts_with p s = true → (len p <= len s)%nat.
Proof.
  unfold starts_with. revert s. induction p as [|c p IH]; intros [|d s] H; cbn in *; try lia; try discriminate.
  destruct (ascii_dec c d); [|discriminate]. apply IH in H. lia.
Qed.

Lemma parse_literal_length s v r : parse_literal s = Some (v, r) → (len r < len s)%nat.
Proof.
  unfold parse_literal.
  destruct (starts_with "null" s) eqn:E1; [|destruct (starts_with "true" s) eqn:E2; [|destruct (starts_with "false" s) eqn:E3]].
  1-3: match goal with |- context [str_drop ?n ?x] => pose proof (str_drop_length n x) as Hl; destruct (str_drop n x) as [|? ?] eqn:Ed
       end; intros [= <- <-]; cbn [String.length] in *; (apply starts_with_length in E1 || apply starts_with_length in E2 || apply starts_with_length in E3); cbn [String.length] in *; lia.
  assert (Hnat : ∀ x f, ('(z, r) ← parse_nat x; Some (f z, r)) = Some (v, r) → (len r < len x)%nat).
  { intros x f H. destruct (parse_nat x) as [[z r0]|] eqn:E; cbn in H; [|done]. injection H as <- <-.
    by eapply parse_nat_length. }
  destruct s as [|c s]; [done|].
  destruct (decide (c = "-"%char)) as [->|Hc].
  - intros H. apply (Hnat s (λ z, JInt (- z))) in H. cbn. lia.
  - intros H. apply (Hnat (String c s) JInt). rewrite <- H. destruct c as [[] [] [] [] [] [] [] []]; try reflexivity. by destruct Hc.
Qed.

(** What is left is shorter. *)
Lemma parse_length fuel :
  (∀ s v r, parse_value fuel s = Some (v, r) → (len r < len s)%nat) ∧
  (∀ s l r, parse_items fuel s = Some (l, r) → (len r < len s)%nat) ∧
  (∀ s l r, parse_pairs fuel s = Some (l, r) → (len r < len s)%nat).
Proof.
  induction fuel as [|fuel (IHv & IHi & IHp)]; [done|]. split_and!.
  - intros s v r Hp. cbn [parse_value] in Hp. pose proof (skip_ws_length s) as Hs.
    destruct (skip_ws s) as [|c x] eqn:Ex; [done|]. cbn in Hs. pose proof (skip_ws_length x) as Hx.
    destruct (code c =? 34).
    { destruct (parse_str x) as [[t r0]|] eqn:E; [|done]. injection Hp as <- <-. apply parse_str_length in E. lia. }
    destruct (code c =? 91).
    { destruct (eat "]" (skip_ws x)) as [r1|] eqn:E; [injection Hp as <- <-; apply eat_length in E; lia|].
      destruct (parse_items fuel x) as [[l r0]|] eqn:E2; [|done]. injection Hp as <- <-. apply IHi in E2. lia. }
    destruct (code c =? 123).
    { destruct (eat "}" (skip_ws x)) as [r1|] eqn:E; [injection Hp as <- <-; apply eat_length in E; lia|].
      destruct (parse_pairs fuel x) as [[l r0]|] eqn:E2; [|done]. injection Hp as <- <-. apply IHp in E2. lia. }
    apply parse_literal_length in Hp. cbn in Hp. lia.
  - intros s l r Hp. cbn [parse_items] in Hp. destruct (parse_value fuel s) as [[v x]|] eqn:E; [|done].
    apply IHv in E. cbn in Hp. pose proof (skip_ws_length x). destruct (eat "," (skip_ws x)) as [r1|] eqn:Ec.
    + apply eat_length in Ec. destruct (parse_items fuel r1) as [[l' r2]|] eqn:E2; [|done]. injection Hp as <- <-.
      apply IHi in E2. lia.
    + destruct (eat "]" (skip_ws x)) as [r1|] eqn:E2; [|done]. injection Hp as <- <-. apply eat_length in E2. lia.
  - intros s l r Hp. cbn [parse_pairs] in Hp. pose proof (skip_ws_length s).
    destruct (eat (chr 34) (skip_ws s)) as [s1|] eqn:E1; [|done]. apply eat_length in E1. cbn [mbind option_bind] in Hp.
    destruct (parse_str s1) as [[k r0]|] eqn:Ek; [|done]. apply parse_str_length in Ek. cbn [mbind option_bind] in Hp.
    pose proof (skip_ws_length r0). destruct (eat ":" (skip_ws r0)) as [r1|] eqn:E2; [|done]. apply eat_length in E2.
    cbn [mbind option_bind] in Hp. destruct (parse_value fuel r1) as [[v r2]|] eqn:Ev; [|done]. apply IHv in Ev.
    cbn [mbind option_bind] in Hp. pose proof (skip_ws_length r2). destruct (eat "," (skip_ws r2)) as [r3|] eqn:Ec.
    + apply eat_length in Ec. destruct (parse_pairs fuel r3) as [[l' r4]|] eqn:E4; [|done]. injection Hp as <- <-.
      apply IHp in E4. lia.
    + destruct (eat "}" (skip_ws r2)) as [r3|] eqn:E4; [|done]. injection Hp as <- <-. apply eat_length in E4. lia.
Qed.

(** More fuel does not change the result. *)
Lemma parse_fuel f1 f2 s :
  ((2 * len s + 1 <= f1)%nat → (2 * len s + 1 <= f2)%nat → parse_value f1 s = parse_value f2 s) ∧
  ((2 * len s + 2 <= f1)%nat → (2 * len s + 2 <= f2)%nat → parse_items f1 s = parse_items f2 s) ∧
  ((2 * len s + 2 <= f1)%nat → (2 * len s + 2 <= f2)%nat → parse_pairs f1 s = parse_pairs f2 s).
Proof.
  revert f2 s. induction f1 as [|f1 IH]; intros [|f2] s; split_and!; intros H1 H2; try lia.
  - cbn [parse_value]. pose proof (skip_ws_length s) as Hs. destruct (skip_ws s) as [|c x]; [done|]. cbn in Hs.
    destruct (IH f2 x) as (_ & Hi & Hp). rewrite Hi, Hp by lia. done.
  - cbn [parse_items]. destruct (IH f2 s) as (Hv & _ & _). rewrite Hv by lia.
    destruct (parse_value f2 s) as [[v x]|] eqn:E; [|done]. apply parse_length in E. cbn. pose proof (skip_ws_length x).
    destruct (eat "," (skip_ws x)) as [r1|] eqn:Ec; [|done]. apply eat_length in Ec.
    destruct (IH f2 r1) as (_ & Hi & _). by rewrite Hi by lia.
  - cbn [parse_pairs]. pose proof (skip_ws_length s).
    destruct (eat (chr 34) (skip_ws s)) as [s1|] eqn:E1; [|done]. apply eat_length in E1. cbn [mbind option_bind].
    destruct (parse_str s1) as [[k r0]|] eqn:Ek; [|done]. apply parse_str_length in Ek. cbn [mbind option_bind].
    pose proof (skip_ws_length r0). destruct (eat ":" (skip_ws r0)) as [r1|] eqn:E2; [|done]. apply eat_length in E2.
    cbn [mbind option_bind]. destruct (IH f2 r1) as (Hv & _ & _). rewrite Hv by lia.
    destruct (parse_value f2 r1) as [[v r2]|] eqn:Ev; [|done]. apply parse_length in Ev.
    cbn [mbind option_bind]. pose proof (skip_ws_length r2). destruct (eat "," (skip_ws r2)) as [r3|] eqn:Ec; [|done].
    apply eat_length in Ec. destruct (IH f2 r3) as (_ & _ & Hp). by rewrite Hp by lia.
Qed.

Lemma loads_any_fuel fuel s :
  (2 * len s + 1 <= fuel)%nat →
  loads s = ('(v, r) ← parse_value fuel s; if str_empty (skip_ws r) then Some v else None).
Proof. intros Hf. unfold loads. destruct (parse_fuel (2 * len s + 2) fuel s) as (Hv & _). by rewrite Hv by lia. Qed.
