(* ===== verification/JsonText.v ===== *)
(** * Indented JSON: [json.dumps(v, indent=2)]

    The layout the rule export writes, and the round trip through
    [json.loads]. *)

From Stdlib Require Import ZArith Lia Ascii String.
From stdpp Require Import base tactics option list strings numbers.
From S2P Require Import Prelude PyStr PyTime Codec.

Open Scope Z_scope.

Fixpoint blanks (n : nat) : string := match n with O => "" | S n => String " " (String " " (blanks n)) end.
(** A new line at nesting level [n]. *)
Definition line_break (n : nat) : string := String "010" (blanks n).

Fixpoint pretty (n : nat) (v : json) : string :=
  match v with
  | JArr ((_ :: _) as l) =>
      "[" +:+ line_break (S n) +:+ join ("," +:+ line_break (S n)) (map (pretty (S n)) l)
      +:+ line_break n +:+ "]"
  | JObj ((_ :: _) as kvs) =>
      "{" +:+ line_break (S n)
      +:+ join ("," +:+ line_break (S n)) (map (λ kv, jquote kv.1 +:+ ": " +:+ pretty (S n) kv.2) kvs)
      +:+ line_break n +:+ "}"
  | v => dumps v
  end.

(** [json.dumps(v, indent=2)]. *)
Definition dumps_indent (v : json) : string := pretty O v.

Lemma skip_blanks n s : skip_ws (blanks n +:+ s) = skip_ws s.
Proof. induction n as [|n IH]; [done|]. exact IH. Qed.

Lemma skip_break n s : skip_ws (line_break n +:+ s) = skip_ws s.
Proof. exact (skip_blanks n s). Qed.

Lemma parse_value_break fuel n s : parse_value fuel (line_break n +:+ s) = parse_value fuel s.
Proof. destruct fuel; [done|]. cbn [parse_value]. by rewrite skip_break. Qed.

Lemma parse_items_break fuel n s : parse_items fuel (line_break n +:+ s) = parse_items fuel s.
Proof. destruct fuel; [done|]. cbn [parse_items]. by rewrite parse_value_break. Qed.

Lemma parse_pairs_break fuel n s : parse_pairs fuel (line_break n +:+ s) = parse_pairs fuel s.
Proof. destruct fuel; [done|]. cbn [parse_pairs]. by rewrite skip_break. Qed.

Lemma tail_break n s : tail_ok (line_break n +:+ s) = true.
Proof. done. Qed.

Lemma pretty_head n v : ∃ c s, pretty n v = String c s ∧ value_head c = true.
Proof.
  destruct v as [|b|z|s|[|v l]|[|kv l]]; cbn [pretty]; try apply dumps_head; by eexists _, _.
Qed.

Definition reads_pretty (v : json) : Prop := ∀ n fuel rest,
  (jfuel v <= fuel)%nat → tail_ok rest = true → parse_value fuel (pretty n v +:+ rest) = Some (v, rest).

Lemma join_cons sep p q ps : join sep (p :: q :: ps) = p +:+ sep +:+ join sep (q :: ps).
Proof. done. Qed.

(** A value that ends its list, before the closing bracket. *)
Lemma eat_close c d n s : c ≠ d → is_ws d = false →
  eat c (skip_ws (line_break n +:+ String d s)) = None ∧
  eat d (skip_ws (line_break n +:+ String d s)) = Some s.
Proof.
  intros Hcd Hd. rewrite skip_break, skip_ws_head by done.
  split; [by rewrite eat_other|by rewrite eat_hd].
Qed.

Lemma parse_items_pretty m k l : Forall reads_pretty l → l ≠ [] → ∀ fuel rest,
  (fold_right (λ v n, S (jfuel v + n)) O l <= fuel)%nat →
  parse_items fuel (join ("," +:+ line_break m) (map (pretty m) l) +:+ line_break k +:+ String "]" rest)
  = Some (l, rest).
Proof.
  induction 1 as [|v l Hv Hl IH]; [done|]. intros _ fuel rest Hf.
  destruct fuel as [|fuel]; [simpl in Hf; lia|]. cbn [fold_right] in Hf.
  destruct (eat_close "," "]" k rest) as [Hn Hs]; [done|done|]. destruct l as [|w l].
  - cbn [map join parse_items]. rewrite Hv by (apply tail_break || lia).
    cbn [mbind option_bind]. by rewrite Hn, Hs.
  - cbn [map]. rewrite join_cons, !str_app_assoc. cbn [parse_items]. rewrite Hv by (done || lia).
    cbn [mbind option_bind String.append]. rewrite skip_ws_head, eat_hd by done.
    rewrite parse_items_break. cbn [map] in IH. rewrite IH by (done || lia). reflexivity.
Qed.

Definition pretty_pair (n : nat) (kv : string * json) : string := jquote kv.1 +:+ ": " +:+ pretty n kv.2.

Lemma parse_pairs_pretty m k kvs : Forall (λ kv, reads_pretty kv.2) kvs → kvs ≠ [] → ∀ fuel rest,
  (fold_right (λ kv n, S (jfuel kv.2 + n)) O kvs <= fuel)%nat →
  parse_pairs fuel (join ("," +:+ line_break m) (map (pretty_pair m) kvs) +:+ line_break k +:+ String "}" rest)
  = Some (kvs, rest).
Proof.
  induction 1 as [|[key v] l Hv Hl IH]; [done|]. intros _ fuel rest Hf.
  destruct fuel as [|fuel]; [simpl in Hf; lia|]. cbn [fold_right snd] in Hf. cbn [snd] in Hv.
  destruct (eat_close "," "}" k rest) as [Hn Hs]; [done|done|]. destruct l as [|w l].
  - cbn [map join]. unfold pretty_pair. cbn [fst snd]. rewrite !str_app_assoc, parse_pair_head.
    rewrite Hv by (apply tail_break || lia). cbn [mbind option_bind]. by rewrite Hn, Hs.
  - cbn [map]. rewrite join_cons. unfold pretty_pair at 1. cbn [fst snd].
    rewrite !str_app_assoc, parse_pair_head. rewrite Hv by (done || lia).
    cbn [mbind option_bind String.append]. rewrite skip_ws_head, eat_hd by done.
    rewrite parse_pairs_break. cbn [map] in IH. rewrite IH by (done || lia). reflexivity.
Qed.

Lemma parse_value_pretty v : reads_pretty v.
Proof.
  induction v as [|b|z|s|l IH|kvs IH] using json_nested_ind; intros n fuel rest Hf Ht;
    try (cbn [pretty]; by apply parse_value_dumps).
  - destruct l as [|v l]; [cbn [pretty]; by apply parse_value_dumps|].
    destruct fuel as [|fuel]; [cbn [jfuel] in Hf; lia|]. cbn [jfuel] in Hf.
    pose proof (parse_items_pretty (S n) n (v :: l) IH ltac:(done) fuel rest ltac:(lia)) as Hi.
    cbn [pretty]. rewrite !str_app_assoc. cbn [String.append parse_value]. rewrite skip_ws_head by done.
    change (code "[" =? 34) with false. change (code "[" =? 91) with true. cbn iota.
    rewrite skip_break. destruct (pretty_head (S n) v) as (c & s & E & Hc).
    destruct (join_head ("," +:+ line_break (S n)) (pretty (S n) v) (map (pretty (S n)) l) c s E) as [t Et].
    rewrite parse_items_break. cbn [map String.append] in *. rewrite Et in *. cbn [String.append] in *.
    unfold value_head in Hc. bool_hyps. by rewrite skip_ws_head, eat_other, Hi by done.
  - destruct kvs as [|[k v] l]; [cbn [pretty]; by apply parse_value_dumps|].
    destruct fuel as [|fuel]; [cbn [jfuel] in Hf; lia|]. cbn [jfuel] in Hf.
    pose proof (parse_pairs_pretty (S n) n ((k, v) :: l) IH ltac:(done) fuel rest ltac:(lia)) as Hi.
    cbn [pretty]. change (map _ ((k, v) :: l)) with (map (pretty_pair (S n)) ((k, v) :: l)).
    rewrite !str_app_assoc. cbn [String.append parse_value]. rewrite skip_ws_head by done.
    change (code "{" =? 34) with false. change (code "{" =? 91) with false.
    change (code "{" =? 123) with true. cbn iota.
    rewrite skip_break, parse_pairs_break.
    destruct (join_head ("," +:+ line_break (S n)) (pretty_pair (S n) (k, v)) (map (pretty_pair (S n)) l) quote
                (escape k +:+ String quote "" +:+ ": " +:+ pretty (S n) v)) as [t Et].
    { unfold pretty_pair, jquote. cbn [fst snd String.append]. by rewrite str_app_assoc. }
    cbn [map String.append] in *. rewrite Et in *. cbn [String.append] in *. by rewrite skip_ws_head, eat_other, Hi by done.
Qed.

(** ** Fuel *)

Lemma join_length_2 sep ps : (2 <= String.length sep)%nat →
  (foldr (λ p n, String.length p + n) 0 ps + 2 * length ps <= String.length (join sep ps) + String.length sep)%nat.
Proof. intros Hs. pose proof (join_length sep ps). nia. Qed.

Lemma jfuel_bound_pretty n v : (jfuel v <= 2 * String.length (pretty n v))%nat.
Proof.
  revert n. induction v as [|b|z|s|l IH|kvs IH] using json_nested_ind; intros n;
    try (cbn [pretty]; apply jfuel_bound).
  - destruct l as [|v0 l0]; [cbn [pretty]; apply jfuel_bound|].
    set (l := v0 :: l0) in *. assert (Hl : l ≠ []) by done. cbn [jfuel].
    replace (pretty n (JArr l)) with ("[" +:+ line_break (S n) +:+
      join ("," +:+ line_break (S n)) (map (pretty (S n)) l) +:+ line_break n +:+ "]") by done.
    rewrite !str_app_length.
    pose proof (join_length_2 ("," +:+ line_break (S n)) (map (pretty (S n)) l) ltac:(cbn; lia)) as Hj.
    rewrite length_map, str_app_length in Hj.
    assert (Hs : (fold_right (λ v n, S (jfuel v + n)) 0 l
                  <= 2 * foldr (λ p n, String.length p + n) 0 (map (pretty (S n)) l) + length l)%nat).
    { clear Hj Hl. induction IH as [|v l' Hv _ IH']; cbn [fold_right foldr map length]; [lia|].
      specialize (Hv (S n)). lia. }
    cbn [String.length] in *. lia.
  - destruct kvs as [|kv0 l0]; [cbn [pretty]; apply jfuel_bound|].
    set (l := kv0 :: l0) in *. assert (Hl : l ≠ []) by done. cbn [jfuel].
    replace (pretty n (JObj l)) with ("{" +:+ line_break (S n) +:+
      join ("," +:+ line_break (S n)) (map (pretty_pair (S n)) l) +:+ line_break n +:+ "}") by done.
    rewrite !str_app_length.
    pose proof (join_length_2 ("," +:+ line_break (S n)) (map (pretty_pair (S n)) l) ltac:(cbn; lia)) as Hj.
    rewrite length_map, str_app_length in Hj.
    assert (Hs : (fold_right (λ kv n, S (jfuel kv.2 + n)) 0 l
                  <= 2 * foldr (λ p n, String.length p + n) 0 (map (pretty_pair (S n)) l) + length l)%nat).
    { clear Hj Hl. induction IH as [|[k v] l' Hv _ IH']; cbn [fold_right foldr map length snd]; [lia|].
      specialize (Hv (S n)). cbn [snd] in Hv.
      change (pretty_pair (S n) (k, v)) with (jquote k +:+ ": " +:+ pretty (S n) v).
      rewrite !str_app_length. lia. }
    cbn [String.length] in *. lia.
Qed.

(** [json.loads(json.dumps(v, indent=2)) == v]. *)
Lemma loads_dumps_indent v : loads (dumps_indent v) = Some v.
Proof.
  unfold loads, dumps_indent.
  pose proof (parse_value_pretty v O (2 * String.length (pretty O v) + 2)%nat "") as Hp.
  rewrite str_app_nil_r in Hp. rewrite Hp; [reflexivity| |reflexivity].
  pose proof (jfuel_bound_pretty O v). lia.
Qed.

#[export] Hint Rewrite loads_dumps_indent : waf.

Example pretty_example :
  dumps_indent (JObj [("a", JArr [JInt 1; JInt 2]); ("b", JArr [])]) =
  let nl := String "010" "" in
  "{" +:+ nl +:+ "  " +:+ jquote "a" +:+ ": [" +:+ nl +:+ "    1," +:+ nl +:+ "    2" +:+ nl +:+ "  ],"
  +:+ nl +:+ "  " +:+ jquote "b" +:+ ": []" +:+ nl +:+ "}".
Proof. reflexivity. Qed.
