(* ===== verification/Regex.v ===== *)
(** * Regular expressions

    [re.search] for the fixed patterns of [ua_analyser.py] and
    [fingerprint.py]: a pattern is a syntax tree, searching is by derivatives,
    and [re_search_spec] says the search finds a match exactly when one exists
    in the usual denotation.  All patterns are used with [IGNORECASE].

    Patterns the operator writes (rules, suspicious paths, rDNS) go through
    [ReEngine], the interface of the [re] module the rule engine is written
    against; [LiteRe] is a small concrete engine for the witnesses. *)

From Stdlib Require Import ZArith Lia Ascii String.
From stdpp Require Import base tactics option list strings numbers.
From S2P Require Import Prelude PyStr.

Open Scope Z_scope.

(** [\w] on Latin-1: letters, digits, the numeric signs, underscore. *)
Definition is_word (c : ascii) : bool :=
  let z := code c in
  is_digit c || ((65 <=? z) && (z <=? 90)) || (z =? 95) || ((97 <=? z) && (z <=? 122))
  || (z =? 170) || (z =? 178) || (z =? 179) || (z =? 181) || (z =? 185) || (z =? 186)
  || ((188 <=? z) && (z <=? 190))
  || ((192 <=? z) && negb (z =? 215) && negb (z =? 247)).

(** Character classes. *)
Inductive cls : Type :=
| CaseInsensitive (d : ascii)     (* one letter, ignoring case *)
| OneOf (cs : string)
| Digit                           (* \d *)
| DigitOrDot                      (* [\d.] *)
| Space                           (* \s *)
| Word                            (* \w *)
| NotWord
| Dot                             (* anything but a newline *)
| Nul.

Definition cls_mem (p : cls) (c : ascii) : bool :=
  match p with
  | CaseInsensitive d => bool_decide (lower_char c = lower_char d)
  | OneOf cs => char_in c cs
  | Digit => is_digit c
  | DigitOrDot => is_digit c || (code c =? 46)
  | Space => is_space c
  | Word => is_word c
  | NotWord => negb (is_word c)
  | Dot => negb (code c =? 10)
  | Nul => code c =? 0
  end.

Inductive regex : Type :=
| Empty
| Eps
| Chr (p : cls)
| Cat (r1 r2 : regex)
| Alt (r1 r2 : regex)
| Star (r : regex).

(** ** Denotation *)

Inductive matches : regex → string → Prop :=
| MEps : matches Eps ""
| MChr p c : cls_mem p c = true → matches (Chr p) (String c "")
| MCat r1 r2 s1 s2 : matches r1 s1 → matches r2 s2 → matches (Cat r1 r2) (s1 +:+ s2)
| MAltL r1 r2 s : matches r1 s → matches (Alt r1 r2) s
| MAltR r1 r2 s : matches r2 s → matches (Alt r1 r2) s
| MStar0 r : matches (Star r) ""
| MStarS r s1 s2 : matches r s1 → matches (Star r) s2 → matches (Star r) (s1 +:+ s2).

(** ** Derivatives *)

Fixpoint nullable (r : regex) : bool :=
  match r with
  | Empty | Chr _ => false
  | Eps | Star _ => true
  | Cat r1 r2 => nullable r1 && nullable r2
  | Alt r1 r2 => nullable r1 || nullable r2
  end.

Definition cat (r1 r2 : regex) : regex :=
  match r1 with Empty => Empty | Eps => r2 | _ => match r2 with Empty => Empty | _ => Cat r1 r2 end end.
Definition alt (r1 r2 : regex) : regex :=
  match r1 with Empty => r2 | _ => match r2 with Empty => r1 | _ => Alt r1 r2 end end.

Fixpoint deriv (c : ascii) (r : regex) : regex :=
  match r with
  | Empty | Eps => Empty
  | Chr p => if cls_mem p c then Eps else Empty
  | Cat r1 r2 =>
      if nullable r1 then alt (cat (deriv c r1) r2) (deriv c r2) else cat (deriv c r1) r2
  | Alt r1 r2 => alt (deriv c r1) (deriv c r2)
  | Star r => cat (deriv c r) (Star r)
  end.

(** A match that starts here. *)
Fixpoint match_prefix (r : regex) (s : string) : bool :=
  nullable r || match s with String c s' => match_prefix (deriv c r) s' | EmptyString => false end.

(** [pattern.search(s)]. *)
Fixpoint re_search (r : regex) (s : string) : bool :=
  match_prefix r s || match s with String _ s' => re_search r s' | EmptyString => false end.

(** ** The search finds exactly the matches *)

Lemma nullable_spec r : nullable r = true ↔ matches r "".
Proof.
  induction r as [| |p|r1 IH1 r2 IH2|r1 IH1 r2 IH2|r IH]; simpl.
  - split; [done|]. inversion 1.
  - split; [constructor|done].
  - split; [done|]. inversion 1.
  - rewrite andb_true_iff, IH1, IH2. split.
    + intros [H1 H2]. by apply (MCat r1 r2 "" "").
    + inversion 1 as [| |? ? s1 s2 H1 H2 Ha He| | | |]; subst.
      destruct s1; [|done]. destruct s2; [|done]. done.
  - rewrite orb_true_iff, IH1, IH2. split.
    + intros [?|?]; [by apply MAltL|by apply MAltR].
    + inversion 1; subst; auto.
  - split; [constructor|done].
Qed.

Lemma matches_cat r1 r2 s : matches (cat r1 r2) s ↔ matches (Cat r1 r2) s.
Proof.
  unfold cat. destruct r1; try (destruct r2); try done; split; try (by inversion 1);
    try (inversion 1; subst; match goal with H : matches Empty _ |- _ => inversion H end).
  all: try (intros Hm; by apply (MCat Eps _ ""); [constructor|]).
  all: inversion 1 as [| |? ? s1 s2 H1 H2| | | |]; subst; inversion H1; subst; done.
Qed.

Lemma matches_alt r1 r2 s : matches (alt r1 r2) s ↔ matches (Alt r1 r2) s.
Proof.
  unfold alt.
  destruct r1; try (split; [by constructor|inversion 1; subst; try done;
    match goal with H : matches Empty _ |- _ => inversion H end]);
  destruct r2; try done; (split; [by constructor|inversion 1; subst; try done;
    match goal with H : matches Empty _ |- _ => inversion H end]).
Qed.

Lemma matches_star_cons r c s :
  matches (Star r) (String c s) →
  ∃ s1 s2, s = s1 +:+ s2 ∧ matches r (String c s1) ∧ matches (Star r) s2.
Proof.
  remember (Star r) as r0 eqn:Er. remember (String c s) as s0 eqn:Es.
  intros Hm. revert s Es. induction Hm as [| | | | | |r' s1 s2 H1 _ H2 IH2]; intros t Es; simplify_eq/=.
  destruct s1 as [|d s1]; simpl in Es.
  - by apply IH2.
  - simplify_eq. exists s1, s2. done.
Qed.

Lemma deriv_spec c r s : matches (deriv c r) s ↔ matches r (String c s).
Proof.
  revert s. induction r as [| |p|r1 IH1 r2 IH2|r1 IH1 r2 IH2|r IH]; intros s; simpl.
  - split; inversion 1.
  - split; inversion 1.
  - destruct (cls_mem p c) eqn:Ep; split.
    + inversion 1; subst. by constructor.
    + inversion 1; subst. constructor.
    + inversion 1.
    + inversion 1; subst. congruence.
  - assert (Hcat : matches (cat (deriv c r1) r2) s ↔
              ∃ s1 s2, s = s1 +:+ s2 ∧ matches r1 (String c s1) ∧ matches r2 s2).
    { rewrite matches_cat. split.
      - inversion 1 as [| |? ? s1 s2 H1 H2| | | |]; subst. exists s1, s2. by rewrite <- IH1.
      - intros (s1 & s2 & -> & H1 & H2). constructor; [by apply IH1|done]. }
    assert (Hinv : matches (Cat r1 r2) (String c s) ↔
              (∃ s1 s2, s = s1 +:+ s2 ∧ matches r1 (String c s1) ∧ matches r2 s2) ∨
              (matches r1 "" ∧ matches r2 (String c s))).
    { split.
      - inversion 1 as [| |? ? s1 s2 H1 H2 He| | | |]; subst.
        destruct s1 as [|d s1]; simpl in *; simplify_eq; [by right|].
        left. by exists s1, s2.
      - intros [(s1 & s2 & -> & H1 & H2)|[H1 H2]];
          [by apply (MCat r1 r2 (String c s1))|by apply (MCat r1 r2 "")]. }
    rewrite Hinv. destruct (nullable r1) eqn:En.
    + rewrite matches_alt. rewrite nullable_spec in En. split.
      * inversion 1; subst; [left; by apply Hcat|right; by rewrite <- IH2].
      * intros [H|[_ H]]; [apply MAltL; by apply Hcat|apply MAltR; by apply IH2].
    + rewrite Hcat. split; [by left|]. intros [H|[H _]]; [done|].
      apply nullable_spec in H. congruence.
  - rewrite matches_alt. split.
    + inversion 1; subst; [apply MAltL; by apply IH1|apply MAltR; by apply IH2].
    + inversion 1; subst; [apply MAltL; by apply IH1|apply MAltR; by apply IH2].
  - rewrite matches_cat. split.
    + inversion 1 as [| |? ? s1 s2 H1 H2| | | |]; subst.
      apply (MStarS r (String c s1)); [by apply IH|done].
    + intros (s1 & s2 & -> & H1 & H2)%matches_star_cons. constructor; [by apply IH|done].
Qed.

Lemma match_prefix_spec r s :
  match_prefix r s = true ↔ ∃ a b, s = a +:+ b ∧ matches r a.
Proof.
  revert r. induction s as [|c s IH]; intros r; simpl; rewrite orb_true_iff, nullable_spec.
  - split.
    + intros [H|]; [|done]. by exists "", "".
    + intros (a & b & E & H). destruct a; [by left|done].
  - rewrite IH. split.
    + intros [H|(a & b & -> & H%deriv_spec)]; [by exists "", (String c s)|by exists (String c a), b].
    + intros ([|d a] & b & E & H); simplify_eq/=; [by left|].
      right. exists a, b. by rewrite deriv_spec.
Qed.

Lemma re_search_spec r s :
  re_search r s = true ↔ ∃ a b c, s = a +:+ b +:+ c ∧ matches r b.
Proof.
  induction s as [|c s IH]; cbn [re_search]; rewrite orb_true_iff, match_prefix_spec.
  - split.
    + intros [(a & b & E & H)|]; [by exists "", a, b|done].
    + intros (a & b & d & E & H). destruct a; [|done]. left. by exists b, d.
  - rewrite IH. split.
    + intros [(a & b & E & H)|(a & b & d & -> & H)]; [by exists "", a, b|by exists (String c a), b, d].
    + intros ([|e a] & b & d & E & H); simplify_eq/=; [left; by exists b, d|right; by exists a, b, d].
Qed.

(** ** Pattern pieces *)

Definition any_char : regex := Chr Dot.
Definition char_i (d : ascii) : regex := Chr (CaseInsensitive d).
Definition one_of (cs : string) : regex := Chr (OneOf cs).
Definition digit : regex := Chr Digit.
Definition plus (r : regex) : regex := Cat r (Star r).

(** A literal, ignoring case. *)
Fixpoint lit (s : string) : regex :=
  match s with EmptyString => Eps | String c s => Cat (char_i c) (lit s) end.

Fixpoint alts (rs : list regex) : regex :=
  match rs with [] => Empty | [r] => r | r :: rs => Alt r (alts rs) end.
Definition lits (ws : list string) : regex := alts (map lit ws).

Fixpoint cats (rs : list regex) : regex :=
  match rs with [] => Eps | [r] => r | r :: rs => Cat r (cats rs) end.

(** [\bw\b]: the word with a non-word character (or the end) on each side. *)
Definition search_word (w : string) (s : string) : bool :=
  re_search (cats [Chr NotWord; lit w; Chr NotWord])
    (String " " (s +:+ " ")).

(** ** Operator patterns: the [re] module as an interface *)

(** [re.compile(pattern, re.IGNORECASE)] ([None] is [re.error]) and [search]. *)
Class ReEngine (P : Type) := {
  re_compile : string → option P;
  re_find : P → string → bool;
}.

(** [re.escape]: every special character is preceded by a backslash. *)
Definition is_special (c : ascii) : bool :=
  char_in c "()[]{}?*+-|^$\.&~# " || ((9 <=? code c) && (code c <=? 13)).
Fixpoint re_escape (s : string) : string :=
  match s with
  | EmptyString => EmptyString
  | String c s => if is_special c then String "\" (String c (re_escape s)) else String c (re_escape s)
  end.

(** What the code relies on: an escaped text is a valid pattern, also anchored. *)
Class ReEscapes (P : Type) `{ReEngine P} : Prop := {
  compile_escaped : ∀ s, is_Some (re_compile (re_escape s));
  compile_anchored : ∀ s, is_Some (re_compile (String "^" (re_escape s +:+ "$")));
}.

(** A concrete engine: literals, escaped characters, [.], [*] and the anchors;
    a class, a group or another operator is refused. *)
Record LiteRe : Type := { lr_start : bool; lr_body : regex; lr_end : bool }.

(** The atoms of a pattern, then whether it ends with [$]. *)
Fixpoint lite_atoms (s : string) : option (list regex * bool) :=
  match s with
  | EmptyString => Some ([], false)
  | String c s' =>
      let push a := '(l, e) ← lite_atoms s'; Some (a :: l, e) in
      if code c =? 92 then
        match s' with
        | String d s'' => '(l, e) ← lite_atoms s''; Some (char_i d :: l, e)
        | EmptyString => None
        end
      else if (code c =? 36) && str_empty s' then Some ([], true)
      else if char_in c "()[]{}?+|^$*" then None
      else match s' with
           | String "*" s'' =>
               '(l, e) ← lite_atoms s'';
               Some (Star (if code c =? 46 then any_char else char_i c) :: l, e)
           | _ => push (if code c =? 46 then any_char else char_i c)
           end
  end.

#[export] Instance lite_engine : ReEngine LiteRe := {|
  re_compile s :=
    let '(st, body) := match s with String "^" s' => (true, s') | _ => (false, s) end in
    '(l, e) ← lite_atoms body; Some {| lr_start := st; lr_body := cats l; lr_end := e |};
  re_find p s :=
    let body := if lr_end p then Cat (lr_body p) (Chr Nul) else lr_body p in
    let text := if lr_end p then s +:+ String (chr 0) "" else s in
    if lr_start p then match_prefix body text else re_search body text;
|}.

Example lite_examples :
  (p ← re_compile "alfa.*\.php"; Some (re_find (P:=LiteRe) p "/x/ALFAshell.php")) = Some true ∧
  (p ← re_compile "\.pem$"; Some (re_find (P:=LiteRe) p "/a.pem.txt")) = Some false ∧
  (p ← re_compile "\.pem$"; Some (re_find (P:=LiteRe) p "/a.pem")) = Some true ∧
  re_compile (P:=LiteRe) "(a" = None.
Proof. vm_compute. done. Qed.

(** The concrete engine compiles every escaped text. *)
Definition star_head (s : string) : bool :=
  match s with String c _ => bool_decide (c = "*"%char) | EmptyString => false end.

Lemma star_head_escape s t : star_head t = false → star_head (re_escape s +:+ t) = false.
Proof.
  destruct s as [|c s]; [done|]. intros _. cbn [re_escape].
  destruct (is_special c) eqn:E; [done|]. simpl.
  apply bool_decide_eq_false. intros ->. done.
Qed.

Lemma lite_atoms_plain c s :
  is_special c = false → star_head s = false → is_Some (lite_atoms s) →
  is_Some (lite_atoms (String c s)).
Proof.
  intros Hc Hs [[l e] Hl]. cbn [lite_atoms].
  destruct (code c =? 92) eqn:E1; [exfalso; revert Hc E1; destruct c as [[] [] [] [] [] [] [] []]; done|].
  destruct (code c =? 36) eqn:E2; [exfalso; revert Hc E2; destruct c as [[] [] [] [] [] [] [] []]; done|].
  cbn [andb].
  destruct (char_in c "()[]{}?+|^$*") eqn:E3;
    [exfalso; revert Hc E3; destruct c as [[] [] [] [] [] [] [] []]; done|].
  rewrite Hl. simpl. destruct s as [|d s]; [by eexists|]. simpl in Hs. bool_hyps.
  destruct d as [[] [] [] [] [] [] [] []]; done || by eexists.
Qed.

Lemma lite_atoms_escape s t :
  star_head t = false → is_Some (lite_atoms t) → is_Some (lite_atoms (re_escape s +:+ t)).
Proof.
  intros Ht Hl. induction s as [|c s IH]; [done|]. cbn [re_escape].
  destruct (is_special c) eqn:E.
  - destruct IH as [[l e] IH]. cbn [String.append lite_atoms]. change (code "\" =? 92) with true.
    cbn iota. rewrite IH. by eexists.
  - apply lite_atoms_plain; [done|by apply star_head_escape|done].
Qed.

Lemma lite_compile st body :
  is_Some (lite_atoms body) →
  is_Some ('(l, e) ← lite_atoms body; Some {| lr_start := st; lr_body := cats l; lr_end := e |}).
Proof. intros [[l e] ->]. by eexists. Qed.

#[export] Instance lite_escapes : ReEscapes LiteRe.
Proof.
  split; intros s; cbn [re_compile lite_engine].
  - pose proof (lite_atoms_escape s "" eq_refl ltac:(by eexists)) as Hs.
    rewrite str_app_nil_r in Hs.
    assert (Hh : ∀ t, re_escape s ≠ String "^" t).
    { destruct s as [|c s]; [done|]. cbn [re_escape]. intros t.
      destruct (is_special c) eqn:E; [done|]. intros [= ->]. done. }
    destruct (re_escape s) as [|c u] eqn:E; [by eexists|].
    destruct c as [[] [] [] [] [] [] [] []]; try (by apply lite_compile).
    by destruct (Hh u).
  - apply lite_compile, lite_atoms_escape; [done|]. by eexists.
Qed.
