(* ===== verification/Conf.v ===== *)
(** * Settings and enumerations

    [conf.py]: the settings the modelled code reads, as one record passed to
    every definition (the code resolves each name at call time, so one call
    sees one value of it), with the documented defaults.  [enums.py]: the
    [TextChoices] classes, with the string values stored in rows and Redis.

    Scores and thresholds are exact rationals; the code's floats are multiples
    of 0.5 on the built-in weights.  Durations are whole seconds as configured. *)

From Stdlib Require Import ZArith QArith Lia Ascii String.
From stdpp Require Import base tactics option list strings numbers gmap.
From S2P Require Import Prelude PyStr.

Open Scope Z_scope.

(** ** [enums.py] *)

Inductive RuleAction := RuleAction_BLOCK | RuleAction_CHALLENGE | RuleAction_THROTTLE | RuleAction_LOG_ONLY.
Inductive RuleType := RuleType_UA | RuleType_IP | RuleType_CIDR | RuleType_COMPOSITE.
Inductive MatchType := MatchType_EXACT | MatchType_REGEX | MatchType_CONTAINS | MatchType_CIDR.
Inductive RuleSource := RuleSource_ADMIN | RuleSource_AUTO | RuleSource_FEED.
Inductive ReviewStatus :=
  NOT_APPLICABLE | PENDING_REVIEW | CONFIRMED | REJECTED | EXPIRED_UNREVIEWED.
Inductive Verdict := ALLOWED | BLOCKED | CHALLENGED | THROTTLED | PASSED | LOGGED.
Inductive ChallengeStatus :=
  ChallengeStatus_PENDING | ChallengeStatus_SOLVED | ChallengeStatus_EXPIRED | ChallengeStatus_FAILED.
Inductive RequestLogSource := MIDDLEWARE | NGINX_LOG.

#[export] Instance RequestLogSource_eq_dec : EqDecision RequestLogSource.
Proof. solve_decision. Defined.
#[export] Instance RuleAction_eq_dec : EqDecision RuleAction.
Proof. solve_decision. Defined.
#[export] Instance RuleType_eq_dec : EqDecision RuleType.
Proof. solve_decision. Defined.
#[export] Instance MatchType_eq_dec : EqDecision MatchType.
Proof. solve_decision. Defined.
#[export] Instance RuleSource_eq_dec : EqDecision RuleSource.
Proof. solve_decision. Defined.
#[export] Instance ReviewStatus_eq_dec : EqDecision ReviewStatus.
Proof. solve_decision. Defined.
#[export] Instance Verdict_eq_dec : EqDecision Verdict.
Proof. solve_decision. Defined.
#[export] Instance ChallengeStatus_eq_dec : EqDecision ChallengeStatus.
Proof. solve_decision. Defined.

Definition RuleAction_value (a : RuleAction) : string :=
  match a with
  | RuleAction_BLOCK => "block" | RuleAction_CHALLENGE => "challenge"
  | RuleAction_THROTTLE => "throttle" | RuleAction_LOG_ONLY => "log_only"
  end.

Definition RuleType_value (t : RuleType) : string :=
  match t with
  | RuleType_UA => "ua" | RuleType_IP => "ip"
  | RuleType_CIDR => "cidr" | RuleType_COMPOSITE => "composite"
  end.

Definition MatchType_value (t : MatchType) : string :=
  match t with
  | MatchType_EXACT => "exact" | MatchType_REGEX => "regex"
  | MatchType_CONTAINS => "contains" | MatchType_CIDR => "cidr"
  end.

(** ** Per-path rate limits: [(max, window)] or [(max, window, methods)] *)

Record path_limit : Type := {
  pl_max : Z;
  pl_window : Z;
  pl_methods : option (list string);
}.

(** ** [conf.py] *)

(** Settings of the anomaly detectors. *)
Record DetectorConf : Type := {
  DJANGO_WAF_ANOMALY_THRESHOLD_DISTINCT_UAS : Z;
  DJANGO_WAF_AUTO_RULE_EXPIRY_HOURS : Z;
  DJANGO_WAF_CLOUD_SPRAY_MIN_IPS : Z;
  DJANGO_WAF_CLOUD_SPRAY_MAX_REQUESTS_PER_IP : Z;
  DJANGO_WAF_CLOUD_SPRAY_TOP_N : Z;
  DJANGO_WAF_CLOUD_SPRAY_UA_RULE : bool;
  DJANGO_WAF_ANOMALY_THRESHOLD_SUBNET_BURST_MIN_COUNT : Z;
  DJANGO_WAF_UNSOLVED_MIN_CHALLENGED : Z;
  DJANGO_WAF_UNSOLVED_REFERER_RATIO : Q;
  DJANGO_WAF_UNSOLVED_SOLVE_EXEMPTION_WINDOW_HOURS : Z;
  DJANGO_WAF_UNSOLVED_SUBNET_MIN_CHALLENGED : Z;
  DJANGO_WAF_UNSOLVED_SUBNET_MIN_IPS : Z;
  DJANGO_WAF_UNSOLVED_SUBNET_WINDOW_MINUTES : Z;
  DJANGO_WAF_SCRAPER_404_MIN_REQUESTS : Z;
  DJANGO_WAF_SCRAPER_404_RATIO : Q;
  DJANGO_WAF_SCRAPER_404_WINDOW_MINUTES : Z;
  DJANGO_WAF_SCRAPER_404_ACTION_BLOCK : bool;
}.

Definition default_detector_conf : DetectorConf := {|
  DJANGO_WAF_ANOMALY_THRESHOLD_DISTINCT_UAS := 20;
  DJANGO_WAF_AUTO_RULE_EXPIRY_HOURS := 24;
  DJANGO_WAF_CLOUD_SPRAY_MIN_IPS := 20;
  DJANGO_WAF_CLOUD_SPRAY_MAX_REQUESTS_PER_IP := 3;
  DJANGO_WAF_CLOUD_SPRAY_TOP_N := 5;
  DJANGO_WAF_CLOUD_SPRAY_UA_RULE := false;
  DJANGO_WAF_ANOMALY_THRESHOLD_SUBNET_BURST_MIN_COUNT := 30;
  DJANGO_WAF_UNSOLVED_MIN_CHALLENGED := 3;
  DJANGO_WAF_UNSOLVED_REFERER_RATIO := 8 # 10;
  DJANGO_WAF_UNSOLVED_SOLVE_EXEMPTION_WINDOW_HOURS := 24;
  DJANGO_WAF_UNSOLVED_SUBNET_MIN_CHALLENGED := 30;
  DJANGO_WAF_UNSOLVED_SUBNET_MIN_IPS := 10;
  DJANGO_WAF_UNSOLVED_SUBNET_WINDOW_MINUTES := 360;
  DJANGO_WAF_SCRAPER_404_MIN_REQUESTS := 20;
  DJANGO_WAF_SCRAPER_404_RATIO := 85 # 100;
  DJANGO_WAF_SCRAPER_404_WINDOW_MINUTES := 1440;
  DJANGO_WAF_SCRAPER_404_ACTION_BLOCK := false;
|}.

(** Settings of the periodic tasks, the threat feed and the nginx export. *)
Record MaintenanceConf : Type := {
  DJANGO_WAF_NGINX_BLOCKLIST_PATH : string;
  DJANGO_WAF_ACCESS_LOG_PATH : string;
  DJANGO_WAF_FEED_ENABLED : bool;
  DJANGO_WAF_FEED_URL : string;
  DJANGO_WAF_FEED_MIN_CONFIDENCE : Q;
  DJANGO_WAF_FEED_REPORT : bool;
  DJANGO_WAF_FEED_REPORT_URL : string;
  DJANGO_WAF_FEED_API_KEY : string;
  DJANGO_WAF_FEED_QUARANTINE_ALLOW_RULES : bool;
  DJANGO_WAF_LOG_RETENTION_DAYS : Z;
  DJANGO_WAF_RULE_RETENTION_DAYS : Z;
  DJANGO_WAF_RULE_PRUNE_ENABLED : bool;
  DJANGO_WAF_NGINX_PID_PATH : string;
  DJANGO_WAF_NGINX_VALIDATE : bool;
}.

Definition default_maintenance_conf : MaintenanceConf := {|
  DJANGO_WAF_NGINX_BLOCKLIST_PATH := "/etc/nginx/conf.d/django-waf-blocklist.conf";
  DJANGO_WAF_ACCESS_LOG_PATH := "/var/log/nginx/access.log";
  DJANGO_WAF_FEED_ENABLED := true;
  DJANGO_WAF_FEED_URL := "https://threats.drystane.com/v1/feed.json";
  DJANGO_WAF_FEED_MIN_CONFIDENCE := 8 # 10;
  DJANGO_WAF_FEED_REPORT := false;
  DJANGO_WAF_FEED_REPORT_URL := "https://threats.drystane.com/v1/report";
  DJANGO_WAF_FEED_API_KEY := "";
  DJANGO_WAF_FEED_QUARANTINE_ALLOW_RULES := true;
  DJANGO_WAF_LOG_RETENTION_DAYS := 30;
  DJANGO_WAF_RULE_RETENTION_DAYS := 90;
  DJANGO_WAF_RULE_PRUNE_ENABLED := false;
  DJANGO_WAF_NGINX_PID_PATH := "/run/nginx.pid";
  DJANGO_WAF_NGINX_VALIDATE := true;
|}.

Record Conf : Type := {
  (* core *)
  DJANGO_WAF_ENABLED : bool;
  DJANGO_WAF_SIGNING_KEY : string;
  SECRET_KEY : string;
  DJANGO_WAF_EXEMPT_PATHS : list string;
  DJANGO_WAF_EXEMPT_HOSTS : list string;
  DJANGO_WAF_ALLOWED_METHODS : option (list string);
  DJANGO_WAF_BLOCKED_COUNTRIES : list string;
  DJANGO_WAF_LOG_SAMPLE_RATE : Q;
  DJANGO_WAF_BLOCK_RESPONSE_HANDLER : string;
  DJANGO_WAF_THROTTLE_RESPONSE_HANDLER : string;
  (* client IP *)
  DJANGO_WAF_TRUSTED_PROXIES : list string;
  DJANGO_WAF_TRUSTED_UNIX_SOCKET : bool;
  DJANGO_WAF_TRUST_X_FORWARDED_FOR : bool;
  (* rate limits *)
  DJANGO_WAF_RATE_LIMIT_BURST : Z;
  DJANGO_WAF_RATE_LIMIT_PER_MINUTE : Z;
  DJANGO_WAF_RATE_LIMIT_PER_5MIN : Z;
  DJANGO_WAF_RATE_LIMIT_PATHS : list (string * path_limit);
  DJANGO_WAF_VERIFY_RATE_LIMIT_MAX : Z;
  DJANGO_WAF_VERIFY_RATE_LIMIT_WINDOW_SECONDS : Z;
  (* rule engine *)
  DJANGO_WAF_RDNS_FAILURE_CACHE_TTL : Z;
  DJANGO_WAF_CHALLENGE_NO_REFERER : bool;
  DJANGO_WAF_NO_REFERER_EXEMPT_PATHS : list string;
  DJANGO_WAF_SUSPICIOUS_PATH_PATTERNS : list string;
  DJANGO_WAF_SUSPICIOUS_PATH_SCORE : Q;
  DJANGO_WAF_SCORE_THRESHOLD_LOG : Q;
  DJANGO_WAF_SCORE_THRESHOLD_CHALLENGE : Q;
  DJANGO_WAF_SCORE_THRESHOLD_BLOCK : Q;
  DJANGO_WAF_CHALLENGE_ESCALATION_THRESHOLD : Z;
  DJANGO_WAF_ESCALATION_BLOCK_TTL : Z;
  (* challenges *)
  DJANGO_WAF_CHALLENGE_DIFFICULTY : Z;
  DJANGO_WAF_CHALLENGE_DIFFICULTY_DESKTOP : option Z;
  DJANGO_WAF_CHALLENGE_DIFFICULTY_MOBILE : option Z;
  DJANGO_WAF_CHALLENGE_COOKIE_TTL : Z;
  DJANGO_WAF_CHALLENGE_URL : string;
  DJANGO_WAF_VERIFY_URL : string;
  (* site password *)
  DJANGO_WAF_SITE_PASSWORD : string;
  DJANGO_WAF_SITE_PASSWORD_ENABLED : bool;
  DJANGO_WAF_SITE_PASSWORD_TTL : Z;
  DJANGO_WAF_SITE_PASSWORD_EXEMPT_PATHS : list string;
  DJANGO_WAF_SITE_PASSWORD_VERIFY_PATH : string;
  DJANGO_WAF_SITE_PASSWORD_COOKIE_DOMAIN : option string;
  (* trusted-user cookie *)
  DJANGO_WAF_TRUSTED_COOKIE_ENABLED : bool;
  DJANGO_WAF_TRUSTED_COOKIE_TRUST_LEVEL : string;
  DJANGO_WAF_TRUSTED_COOKIE_TTL : Z;
  DJANGO_WAF_TRUSTED_COOKIE_DOMAIN : option string;
  SESSION_COOKIE_DOMAIN : option string;
  (* anomaly rules *)
  DJANGO_WAF_ANOMALY_QUARANTINE_AUTO_RULES : bool;
  DJANGO_WAF_ANOMALY_OBSERVE_ONLY_DETECTORS : list string;
  (* forms *)
  DJANGO_WAF_FORM_PROTECTION_ENABLED : bool;
  DJANGO_WAF_FORM_FLAG_THRESHOLD : Q;
  DJANGO_WAF_FORM_BLOCK_THRESHOLD : Q;
  DJANGO_WAF_FORM_CHALLENGE_ON_FLAG : bool;
  DJANGO_WAF_FORM_TOKEN_TTL : Z;
  DJANGO_WAF_FORM_HONEYPOT_FIELD_NAMES : list string;
  DJANGO_WAF_FORM_TIME_TRAP_MIN_SECONDS : Q;
  DJANGO_WAF_FORM_TIME_TRAP_MAX_SECONDS : Q;
  DJANGO_WAF_FORM_CREDENTIAL_THROTTLE_WINDOW : Z;
  DJANGO_WAF_FORM_CREDENTIAL_THROTTLE_LIMIT : Z;
  DJANGO_WAF_FORM_CREDENTIAL_IP_LIMIT : Z;
  DJANGO_WAF_FORM_SIGNUP_VELOCITY_WINDOW : Z;
  DJANGO_WAF_FORM_SIGNUP_VELOCITY_LIMIT : Z;
  DJANGO_WAF_FORM_POW_DIFFICULTY : Z;
  DJANGO_WAF_FORM_DEFENCE_WEIGHTS : list (string * Q);
  (* Django's DEBUG *)
  DEBUG : bool;
  conf_detectors :> DetectorConf;
  conf_maintenance :> MaintenanceConf;
}.

(** The default of [DJANGO_WAF_SUSPICIOUS_PATH_PATTERNS]. *)
Definition default_suspicious_paths : list string :=
  ["\.env"; "\.aws"; "\.ssh"; "id_rsa"; "id_dsa"; "\.pem$"; "\.key$"; "credentials";
   "\.bash_history"; "\.zsh_history";
   "wp-config\.php"; "config\.php"; "settings\.py"; "/admin/config"; "\.yml$"; "\.yaml$";
   "\.git"; "\.svn"; "\.hg";
   "\.sql$"; "\.sql\.gz$"; "\.bak$"; "\.backup$"; "dump\.sql"; "backup\.zip"; "db\.sqlite";
   "wp-admin"; "wp-login"; "xmlrpc\.php";
   "shell\.php"; "alfa.*\.php"; "r57\.php"; "c99\.php"; "filemanager\.php"; "webshell";
   "cmd\.php"; "/eval\.php";
   "phpinfo"; "phpmyadmin"; "/server-status"; "/server-info";
   "/onvif/"; "/boaform/"; "/HNAP1"; "/goform/"].

(** The default of [DJANGO_WAF_NO_REFERER_EXEMPT_PATHS]. *)
Definition default_no_referer_exempt_paths : list string :=
  ["/"; "/search/"; "/robots.txt"; "/sitemap.xml"; "/favicon.ico"].

(** The default of [DJANGO_WAF_FORM_DEFENCE_WEIGHTS]. *)
Definition default_defence_weights : list (string * Q) :=
  [("honeypot", 5); ("time_trap", 2); ("render_token", 5); ("ua_consistency", 2);
   ("js_touch", 3 # 2); ("credential_throttle", 5); ("signup_velocity", 5); ("pow_gate", 5)]%Q.

(** Every setting at its documented default (Django's [SECRET_KEY] is the
    project's). *)
Definition default_conf (secret : string) : Conf := {|
  DJANGO_WAF_ENABLED := true;
  DJANGO_WAF_SIGNING_KEY := "";
  SECRET_KEY := secret;
  DJANGO_WAF_EXEMPT_PATHS := ["/static/"; "/media/"; "/health/"; "/favicon.ico"];
  DJANGO_WAF_EXEMPT_HOSTS := [];
  DJANGO_WAF_ALLOWED_METHODS := None;
  DJANGO_WAF_BLOCKED_COUNTRIES := [];
  DJANGO_WAF_LOG_SAMPLE_RATE := 1 # 100;
  DJANGO_WAF_BLOCK_RESPONSE_HANDLER := "";
  DJANGO_WAF_THROTTLE_RESPONSE_HANDLER := "";
  DJANGO_WAF_TRUSTED_PROXIES := [];
  DJANGO_WAF_TRUSTED_UNIX_SOCKET := false;
  DJANGO_WAF_TRUST_X_FORWARDED_FOR := false;
  DJANGO_WAF_RATE_LIMIT_BURST := 10;
  DJANGO_WAF_RATE_LIMIT_PER_MINUTE := 120;
  DJANGO_WAF_RATE_LIMIT_PER_5MIN := 600;
  DJANGO_WAF_RATE_LIMIT_PATHS := [];
  DJANGO_WAF_VERIFY_RATE_LIMIT_MAX := 20;
  DJANGO_WAF_VERIFY_RATE_LIMIT_WINDOW_SECONDS := 300;
  DJANGO_WAF_RDNS_FAILURE_CACHE_TTL := 300;
  DJANGO_WAF_CHALLENGE_NO_REFERER := false;
  DJANGO_WAF_NO_REFERER_EXEMPT_PATHS := default_no_referer_exempt_paths;
  DJANGO_WAF_SUSPICIOUS_PATH_PATTERNS := default_suspicious_paths;
  DJANGO_WAF_SUSPICIOUS_PATH_SCORE := 3;
  DJANGO_WAF_SCORE_THRESHOLD_LOG := 3;
  DJANGO_WAF_SCORE_THRESHOLD_CHALLENGE := 5;
  DJANGO_WAF_SCORE_THRESHOLD_BLOCK := 7;
  DJANGO_WAF_CHALLENGE_ESCALATION_THRESHOLD := 10;
  DJANGO_WAF_ESCALATION_BLOCK_TTL := 3600;
  DJANGO_WAF_CHALLENGE_DIFFICULTY := 16;
  DJANGO_WAF_CHALLENGE_DIFFICULTY_DESKTOP := None;
  DJANGO_WAF_CHALLENGE_DIFFICULTY_MOBILE := None;
  DJANGO_WAF_CHALLENGE_COOKIE_TTL := 86400;
  DJANGO_WAF_CHALLENGE_URL := "";
  DJANGO_WAF_VERIFY_URL := "";
  DJANGO_WAF_SITE_PASSWORD := "";
  DJANGO_WAF_SITE_PASSWORD_ENABLED := false;
  DJANGO_WAF_SITE_PASSWORD_TTL := 43200;
  DJANGO_WAF_SITE_PASSWORD_EXEMPT_PATHS :=
    ["/health/"; "/.well-known/"; "/robots.txt"; "/waf/challenge/"; "/waf/verify/"];
  DJANGO_WAF_SITE_PASSWORD_VERIFY_PATH := "/waf/site-password/";
  DJANGO_WAF_SITE_PASSWORD_COOKIE_DOMAIN := None;
  DJANGO_WAF_TRUSTED_COOKIE_ENABLED := false;
  DJANGO_WAF_TRUSTED_COOKIE_TRUST_LEVEL := "staff";
  DJANGO_WAF_TRUSTED_COOKIE_TTL := 3600;
  DJANGO_WAF_TRUSTED_COOKIE_DOMAIN := None;
  SESSION_COOKIE_DOMAIN := None;
  DJANGO_WAF_ANOMALY_QUARANTINE_AUTO_RULES := false;
  DJANGO_WAF_ANOMALY_OBSERVE_ONLY_DETECTORS := [];
  DJANGO_WAF_FORM_PROTECTION_ENABLED := true;
  DJANGO_WAF_FORM_FLAG_THRESHOLD := 2;
  DJANGO_WAF_FORM_BLOCK_THRESHOLD := 5;
  DJANGO_WAF_FORM_CHALLENGE_ON_FLAG := true;
  DJANGO_WAF_FORM_TOKEN_TTL := 3600;
  DJANGO_WAF_FORM_HONEYPOT_FIELD_NAMES := ["url"; "website"; "homepage"; "email_confirm"];
  DJANGO_WAF_FORM_TIME_TRAP_MIN_SECONDS := 3 # 2;
  DJANGO_WAF_FORM_TIME_TRAP_MAX_SECONDS := 3600;
  DJANGO_WAF_FORM_CREDENTIAL_THROTTLE_WINDOW := 900;
  DJANGO_WAF_FORM_CREDENTIAL_THROTTLE_LIMIT := 5;
  DJANGO_WAF_FORM_CREDENTIAL_IP_LIMIT := 20;
  DJANGO_WAF_FORM_SIGNUP_VELOCITY_WINDOW := 86400;
  DJANGO_WAF_FORM_SIGNUP_VELOCITY_LIMIT := 5;
  DJANGO_WAF_FORM_POW_DIFFICULTY := 12;
  DJANGO_WAF_FORM_DEFENCE_WEIGHTS := default_defence_weights;
  DEBUG := false;
  conf_detectors := default_detector_conf;
  conf_maintenance := default_maintenance_conf;
|}.

(** [request.META]: header and server variables by name. *)
Abbreviation Meta := (gmap string string).

(** [meta.get(name, "")]. *)
Definition meta_get (meta : Meta) (name : string) : string := default "" (meta !! name).
