(* ===== verification/ClientIp.v ===== *)
(** * Client IP resolution ([services/client_ip.py])

    Which address the whole firewall treats as the client: the direct peer,
    the right-to-left walk of [X-Forwarded-For] behind trusted proxies, or the
    legacy leftmost entry. *)

From Stdlib Require Import ZArith Lia Ascii String.
From stdpp Require Import base tactics option list strings numbers gmap.
From S2P Require Import Prelude PyStr IpAddress Conf.

(** [_is_valid_ip]. *)
Definition is_valid_ip (s : string) : bool :=
  match ip_address s with Some _ => true | None => false end.

(** [_is_trusted_proxy]: invalid configured entries are skipped. *)
Definition is_trusted_proxy (ip_str : string) (trusted_proxies : list string) : bool :=
  if str_empty ip_str then false else
  match ip_address ip_str with
  | None => false
  | Some address =>
      existsb (λ cidr, match ip_network_of cidr with
                       | Some network => in_network address network
                       | None => false
                       end) trusted_proxies
  end.

(** The loop of [_resolve_from_forwarded_chain] over the reversed hops. *)
Fixpoint first_untrusted_hop (hops : list string) (trusted_proxies : list string) : string :=
  match hops with
  | [] => ""
  | hop :: hops =>
      if str_empty hop || negb (is_valid_ip hop) then first_untrusted_hop hops trusted_proxies
      else if is_trusted_proxy hop trusted_proxies then first_untrusted_hop hops trusted_proxies
      else hop
  end.

Definition resolve_from_forwarded_chain (forwarded_for : string) (trusted_proxies : list string)
  : string :=
  if str_empty forwarded_for then ""
  else first_untrusted_hop (rev (map strip (split_on "," forwarded_for))) trusted_proxies.

(** [resolve_client_ip]. *)
Definition resolve_client_ip (conf : Conf) (meta : Meta) : string :=
  let remote_addr := meta_get meta "REMOTE_ADDR" in
  let trusted_proxies := DJANGO_WAF_TRUSTED_PROXIES conf in
  let trusted_unix_socket := DJANGO_WAF_TRUSTED_UNIX_SOCKET conf && str_empty remote_addr in
  let forwarded_for := meta_get meta "HTTP_X_FORWARDED_FOR" in
  if is_trusted_proxy remote_addr trusted_proxies || trusted_unix_socket then
    let resolved := resolve_from_forwarded_chain forwarded_for trusted_proxies in
    if str_empty resolved then remote_addr else resolved
  else if DJANGO_WAF_TRUST_X_FORWARDED_FOR conf && negb (str_empty forwarded_for) then
    let candidate := strip (hd "" (split_on "," forwarded_for)) in
    if is_valid_ip candidate then candidate else remote_addr
  else remote_addr.

(** ** Lemmas *)

Lemma first_untrusted_hop_app hs1 hs2 tp :
  first_untrusted_hop (hs1 ++ hs2) tp =
  if str_empty (first_untrusted_hop hs1 tp) then first_untrusted_hop hs2 tp
  else first_untrusted_hop hs1 tp.
Proof.
  induction hs1 as [|h hs1 IH]; simpl; [done|].
  destruct (str_empty h) eqn:Eh, (is_valid_ip h) eqn:Ev; simpl; try exact IH.
  destruct (is_trusted_proxy h tp); [exact IH|]. by rewrite Eh.
Qed.

(** The walk returns nothing, or a hop that is a valid untrusted address. *)
Lemma first_untrusted_hop_spec hs tp :
  let h := first_untrusted_hop hs tp in
  h = "" ∨ (In h hs ∧ is_valid_ip h = true ∧ is_trusted_proxy h tp = false).
Proof.
  induction hs as [|h hs IH]; simpl; [by left|].
  destruct (str_empty h) eqn:Eh, (is_valid_ip h) eqn:Ev; simpl;
    try (destruct IH as [->|(?&?&?)]; [by left|by right; auto]).
  destruct (is_trusted_proxy h tp) eqn:Et.
  - destruct IH as [->|(?&?&?)]; [by left|by right; auto].
  - right. auto.
Qed.

(** The chain walk depends only on the hops right of any comma once those
    already yield an address: whatever a client writes to the left is inert. *)
Lemma resolve_chain_suffix spoofed chain tp :
  str_empty (resolve_from_forwarded_chain chain tp) = false →
  resolve_from_forwarded_chain (spoofed +:+ String "," chain) tp =
  resolve_from_forwarded_chain chain tp.
Proof.
  unfold resolve_from_forwarded_chain.
  destruct (str_empty chain) eqn:Ec; [done|]. intros Hne.
  destruct (str_empty (spoofed +:+ String "," chain)) eqn:E.
  { by destruct spoofed. }
  rewrite split_on_app_gen, map_app, rev_app_distr, first_untrusted_hop_app.
  by rewrite Hne.
Qed.

(** ** Properties *)

Module ClientIpProps.

(** C6: behind trusted proxies the resolved address cannot be spoofed: text a
    client puts in front of the [X-Forwarded-For] chain (everything left of a
    comma) never changes the result once the hops the proxies appended contain
    a valid address outside the trusted ranges. *)
Theorem forwarded_prefix_cannot_spoof conf meta meta' spoofed chain :
  meta !! "HTTP_X_FORWARDED_FOR" = Some chain →
  meta' = <["HTTP_X_FORWARDED_FOR" := spoofed +:+ String "," chain]> meta →
  is_trusted_proxy (meta_get meta "REMOTE_ADDR") (DJANGO_WAF_TRUSTED_PROXIES conf) = true →
  resolve_from_forwarded_chain chain (DJANGO_WAF_TRUSTED_PROXIES conf) ≠ "" →
  resolve_client_ip conf meta' = resolve_client_ip conf meta.
Proof.
  intros Hx -> Ht Hne. unfold resolve_client_ip, meta_get in *.
  rewrite lookup_insert_ne by done. rewrite Ht, lookup_insert_eq, Hx. simpl.
  rewrite resolve_chain_suffix; [done|].
  by destruct (resolve_from_forwarded_chain _ _).
Qed.

(** With the hardened configuration (no legacy trust of the leftmost hop)
    the result is the direct peer, or a syntactically valid address that
    occurs in the header and is not itself a trusted proxy. *)
Lemma resolved_ip_is_peer_or_untrusted_hop conf meta :
  DJANGO_WAF_TRUST_X_FORWARDED_FOR conf = false →
  let ip := resolve_client_ip conf meta in
  ip = meta_get meta "REMOTE_ADDR" ∨
  (is_valid_ip ip = true ∧
   is_trusted_proxy ip (DJANGO_WAF_TRUSTED_PROXIES conf) = false ∧
   In ip (map strip (split_on "," (meta_get meta "HTTP_X_FORWARDED_FOR")))).
Proof.
  intros Hlegacy. unfold resolve_client_ip. rewrite Hlegacy. simpl.
  destruct (_ || _); [|by left].
  unfold resolve_from_forwarded_chain.
  destruct (str_empty (meta_get meta "HTTP_X_FORWARDED_FOR")); [by left|].
  destruct (first_untrusted_hop_spec
    (rev (map strip (split_on "," (meta_get meta "HTTP_X_FORWARDED_FOR"))))
    (DJANGO_WAF_TRUSTED_PROXIES conf)) as [->|(Hin & Hv & Ht)]; [by left|].
  destruct (str_empty _); [by left|]. right. split_and!; [done|done|].
  by apply in_rev.
Qed.

(** A request that does not come through a trusted peer is identified by
    its direct peer address, whatever headers it carries. *)
Lemma untrusted_peer_ignores_headers conf meta :
  DJANGO_WAF_TRUST_X_FORWARDED_FOR conf = false →
  is_trusted_proxy (meta_get meta "REMOTE_ADDR") (DJANGO_WAF_TRUSTED_PROXIES conf) = false →
  meta_get meta "REMOTE_ADDR" ≠ "" →
  resolve_client_ip conf meta = meta_get meta "REMOTE_ADDR".
Proof.
  intros Hl Ht Hne. unfold resolve_client_ip. rewrite Ht, Hl. simpl.
  destruct (meta_get meta "REMOTE_ADDR") eqn:E; [done|]. simpl. by rewrite andb_false_r.
Qed.

(** *** Witnesses *)

Definition proxied_conf : Conf :=
  {| (default_conf "k") with DJANGO_WAF_TRUSTED_PROXIES := ["10.0.0.0/8"] |}.

Definition proxied_meta : Meta :=
  {["REMOTE_ADDR" := "10.0.0.1"; "HTTP_X_FORWARDED_FOR" := "203.0.113.9, 10.1.2.3"]}.

Lemma forwarded_prefix_cannot_spoof_witness :
  resolve_client_ip proxied_conf
    (<["HTTP_X_FORWARDED_FOR" := "8.8.8.8" +:+ String "," "203.0.113.9, 10.1.2.3"]> proxied_meta)
  = "203.0.113.9".
Proof.
  rewrite (forwarded_prefix_cannot_spoof proxied_conf proxied_meta _ "8.8.8.8"
             "203.0.113.9, 10.1.2.3" eq_refl eq_refl);
    [vm_compute; reflexivity | vm_compute; reflexivity | vm_compute; discriminate].
Defined.

Lemma resolved_ip_is_peer_or_untrusted_hop_witness :
  is_valid_ip (resolve_client_ip proxied_conf proxied_meta) = true.
Proof.
  destruct (resolved_ip_is_peer_or_untrusted_hop proxied_conf proxied_meta eq_refl) as [H|(H & _)];
    [vm_compute in H; discriminate | exact H].
Defined.

Lemma untrusted_peer_ignores_headers_witness :
  resolve_client_ip proxied_conf
    {["REMOTE_ADDR" := "198.51.100.7"; "HTTP_X_FORWARDED_FOR" := "10.0.0.5"]} = "198.51.100.7".
Proof.
  rewrite untrusted_peer_ignores_headers;
    [reflexivity | reflexivity | vm_compute; reflexivity | vm_compute; discriminate].
Defined.

End ClientIpProps.
