(* ===== verification/Redis.v ===== *)
(** * The Redis interface

    Redis is a service outside the sources: the model takes a client as a
    parameter.  [step] states the documented effect of each command the code
    sends (redis.io command reference), [RedisClient] is what the code calls,
    and [RedisSpec] is the hypothesis the theorems use: a command that returns
    did what the documentation says.  A command may always raise instead; the
    interface promises nothing about the keyspace then.  [MemRedis] (a working
    server) and [DownRedis] (an outage) are the two witnesses.

    Times are microseconds; [ttl] arguments are seconds, as in the code. *)

From Stdlib Require Import ZArith Lia.
From stdpp Require Import base tactics option list strings numbers gmap fin_maps.
From S2P Require Import Prelude PyStr.

Open Scope Z_scope.

Definition second : Z := 1000000.

(** ** Keyspace *)

Inductive rval : Type :=
| VString (s : string)
| VZset (z : gmap string Z)
| VHash (h : gmap string Z).

Record entry : Type := { e_val : rval; e_exp : option Z }.

Abbreviation keyspace := (gmap string entry).

(** A key is visible until its expiry time is reached. *)
Definition live (now : Z) (e : entry) : bool :=
  match e_exp e with None => true | Some t => now <? t end.

Definition peek (now : Z) (ks : keyspace) (k : string) : option entry :=
  e ← ks !! k; if live now e then Some e else None.

(** The value seen by [GET], and the sorted set seen by the [Z] commands. *)
Definition peek_str (now : Z) (ks : keyspace) (k : string) : option string :=
  e ← peek now ks k; match e_val e with VString s => Some s | _ => None end.

Definition peek_zset (now : Z) (ks : keyspace) (k : string) : gmap string Z :=
  match peek now ks k with
  | Some e => match e_val e with VZset z => z | _ => ∅ end
  | None => ∅
  end.

(** ** Commands and replies *)

Inductive cmd : Type :=
| GET (k : string)
| SETEX (k : string) (ttl : Z) (v : string)
| SETNX (k : string) (v : string) (ttl : Z)      (* SET k v NX EX ttl *)
| DEL (k : string)
| EXISTS (k : string)
| INCR (k : string)
| EXPIRE (k : string) (ttl : Z)
| HINCRBY (k f : string) (n : Z)
| ZADD (k m : string) (score : Z)
| ZREMRANGEBYSCORE (k : string) (lo hi : Z)
| ZCARD (k : string)
| ZRANGE_FIRST (k : string)                      (* ZRANGE k 0 0 WITHSCORES *)
| ZCOUNT (k : string) (lo : Z)                   (* ZCOUNT k lo +inf *)
| HGETALL (k : string)
| KEYS (prefix : string).                        (* the pattern: [prefix] and a star *)

Inductive reply : Type :=
| RNil
| ROk
| RInt (n : Z)
| RBulk (s : string)
| RPairs (l : list (string * Z))
| RKeys (l : list string)
| RHash (h : gmap string Z).

(** The member with the lowest score (ties broken by member, as Redis orders
    equal scores lexicographically). *)
Definition pair_le (a b : string * Z) : bool :=
  (a.2 <? b.2) || ((a.2 =? b.2) && String.leb a.1 b.1).

Definition zmin (z : gmap string Z) : option (string * Z) :=
  foldr (λ p acc, match acc with
                  | Some q => if pair_le p q then Some p else Some q
                  | None => Some p
                  end) None (map_to_list z).

(** [zset_put]: an empty sorted set does not exist. *)
Definition zset_put (ks : keyspace) (k : string) (z : gmap string Z) (exp : option Z) : keyspace :=
  if decide (z = ∅) then delete k ks else <[k := {| e_val := VZset z; e_exp := exp |}]> ks.

(** ** Documented effect; [None] is an error reply (for example WRONGTYPE) *)

Definition step (now : Z) (c : cmd) (ks : keyspace) : option (reply * keyspace) :=
  match c with
  | GET k =>
      match peek now ks k with
      | None => Some (RNil, ks)
      | Some e => match e_val e with VString s => Some (RBulk s, ks) | _ => None end
      end
  | SETEX k ttl v =>
      if 0 <? ttl
      then Some (ROk, <[k := {| e_val := VString v; e_exp := Some (now + ttl * second) |}]> ks)
      else None
  | SETNX k v ttl =>
      match peek now ks k with
      | Some _ => Some (RNil, ks)
      | None =>
          if 0 <? ttl
          then Some (ROk, <[k := {| e_val := VString v; e_exp := Some (now + ttl * second) |}]> ks)
          else None
      end
  | DEL k => Some (RInt (if peek now ks k then 1 else 0), delete k ks)
  | EXISTS k => Some (RInt (if peek now ks k then 1 else 0), ks)
  | INCR k =>
      match peek now ks k with
      | None => Some (RInt 1, <[k := {| e_val := VString "1"; e_exp := None |}]> ks)
      | Some e =>
          match e_val e with
          | VString s =>
              match py_int s with
              | Some n => Some (RInt (n + 1),
                  <[k := {| e_val := VString (str_of_Z (n + 1)); e_exp := e_exp e |}]> ks)
              | None => None
              end
          | _ => None
          end
      end
  | EXPIRE k ttl =>
      match peek now ks k with
      | None => Some (RInt 0, ks)
      | Some e =>
          if 0 <? ttl
          then Some (RInt 1, <[k := {| e_val := e_val e; e_exp := Some (now + ttl * second) |}]> ks)
          else Some (RInt 1, delete k ks)
      end
  | HINCRBY k f n =>
      match peek now ks k with
      | None => Some (RInt n, <[k := {| e_val := VHash {[f := n]}; e_exp := None |}]> ks)
      | Some e =>
          match e_val e with
          | VHash h => let v := default 0 (h !! f) + n in
              Some (RInt v, <[k := {| e_val := VHash (<[f := v]> h); e_exp := e_exp e |}]> ks)
          | _ => None
          end
      end
  | ZADD k m score =>
      match peek now ks k with
      | None => Some (RInt 1, <[k := {| e_val := VZset {[m := score]}; e_exp := None |}]> ks)
      | Some e =>
          match e_val e with
          | VZset z => Some (RInt (if z !! m then 0 else 1),
              <[k := {| e_val := VZset (<[m := score]> z); e_exp := e_exp e |}]> ks)
          | _ => None
          end
      end
  | ZREMRANGEBYSCORE k lo hi =>
      match peek now ks k with
      | None => Some (RInt 0, ks)
      | Some e =>
          match e_val e with
          | VZset z =>
              let z' := filter (λ p, ¬ (lo ≤ p.2 ∧ p.2 ≤ hi)) z in
              Some (RInt (Z.of_nat (size z - size z')), zset_put ks k z' (e_exp e))
          | _ => None
          end
      end
  | ZCARD k =>
      match peek now ks k with
      | None => Some (RInt 0, ks)
      | Some e => match e_val e with VZset z => Some (RInt (Z.of_nat (size z)), ks) | _ => None end
      end
  | ZRANGE_FIRST k =>
      match peek now ks k with
      | None => Some (RPairs [], ks)
      | Some e =>
          match e_val e with
          | VZset z => Some (RPairs (match zmin z with Some p => [p] | None => [] end), ks)
          | _ => None
          end
      end
  | ZCOUNT k lo =>
      match peek now ks k with
      | None => Some (RInt 0, ks)
      | Some e =>
          match e_val e with
          | VZset z => Some (RInt (Z.of_nat (size (filter (λ p, lo ≤ p.2) z))), ks)
          | _ => None
          end
      end
  | HGETALL k =>
      match peek now ks k with
      | None => Some (RHash ∅, ks)
      | Some e => match e_val e with VHash h => Some (RHash h, ks) | _ => None end
      end
  | KEYS prefix =>
      Some (RKeys (List.filter (λ k, starts_with prefix k && bool_decide (is_Some (peek now ks k)))
                     (map fst (map_to_list ks))), ks)
  end.

(** A [pipeline()] runs its commands in order as one transaction. *)
Fixpoint steps (now : Z) (cs : list cmd) (ks : keyspace) : option (list reply * keyspace) :=
  match cs with
  | [] => Some ([], ks)
  | c :: cs =>
      '(v, ks1) ← step now c ks; '(vs, ks2) ← steps now cs ks1; Some (v :: vs, ks2)
  end.

(** ** The client the code is given *)

Class RedisClient (R : Type) := {
  r_view : R → keyspace;
  r_exec : Z → cmd → R → res reply * R;
  r_pipe : Z → list cmd → R → res (list reply) * R;
}.

(** What the code relies on: a call that returns had the documented effect. *)
Class RedisSpec (R : Type) `{RedisClient R} : Prop := {
  exec_documented : ∀ now c r v r',
    r_exec now c r = (Ok v, r') → step now c (r_view r) = Some (v, r_view r');
  pipe_documented : ∀ now cs r vs r',
    r_pipe now cs r = (Ok vs, r') → steps now cs (r_view r) = Some (vs, r_view r');
}.

(** ** A working in-memory server, and a server that is down *)

Record MemRedis : Type := { mem : keyspace }.

#[export] Instance mem_redis : RedisClient MemRedis := {|
  r_view := mem;
  r_exec now c r :=
    match step now c (mem r) with
    | Some (v, ks) => (Ok v, {| mem := ks |})
    | None => (Raise RedisError, r)
    end;
  r_pipe now cs r :=
    match steps now cs (mem r) with
    | Some (vs, ks) => (Ok vs, {| mem := ks |})
    | None => (Raise RedisError, r)
    end;
|}.

#[export] Instance mem_redis_spec : RedisSpec MemRedis.
Proof.
  split; intros *; simpl.
  - destruct (step _ _ _) as [[??]|]; intros; simplify_eq/=; done.
  - destruct (steps _ _ _) as [[??]|]; intros; simplify_eq/=; done.
Qed.

Record DownRedis : Type := { frozen : keyspace }.

#[export] Instance down_redis : RedisClient DownRedis := {|
  r_view := frozen;
  r_exec now c r := (Raise RedisError, r);
  r_pipe now cs r := (Raise RedisError, r);
|}.

#[export] Instance down_redis_spec : RedisSpec DownRedis.
Proof. split; intros *; simpl; done. Qed.

(** ** Client calls as the code writes them *)

Section Calls.
Context {R : Type} `{RedisClient R}.

Definition exec (now : Z) (c : cmd) : M R reply := r_exec now c.
Definition exec_pipe (now : Z) (cs : list cmd) : M R (list reply) := r_pipe now cs.

(** [client.get(k)]: the stored string, or Python's [None]. *)
Definition redis_get (now : Z) (k : string) : M R (option string) :=
  v <- exec now (GET k) ;; ret match v with RBulk s => Some s | _ => None end.
End Calls.

(** ** Lemmas on [peek] *)

Lemma peek_insert_eq now ks k e : peek now (<[k:=e]> ks) k = if live now e then Some e else None.
Proof. unfold peek. by rewrite lookup_insert_eq. Qed.

Lemma peek_insert_ne now ks k k' e : k ≠ k' → peek now (<[k:=e]> ks) k' = peek now ks k'.
Proof. intros Hne. unfold peek. by rewrite lookup_insert_ne. Qed.

Lemma peek_delete_eq now ks k : peek now (delete k ks) k = None.
Proof. unfold peek. by rewrite lookup_delete_eq. Qed.

Lemma peek_delete_ne now ks k k' : k ≠ k' → peek now (delete k ks) k' = peek now ks k'.
Proof. intros Hne. unfold peek. by rewrite lookup_delete_ne. Qed.

Lemma peek_zset_put_ne now ks k k' z exp :
  k ≠ k' → peek now (zset_put ks k z exp) k' = peek now ks k'.
Proof.
  intros Hne. unfold zset_put. case_decide; [by apply peek_delete_ne|by apply peek_insert_ne].
Qed.

(** The key a command touches. *)
Definition cmd_key (c : cmd) : string :=
  match c with
  | GET k | SETEX k _ _ | SETNX k _ _ | DEL k | EXISTS k | INCR k | EXPIRE k _
  | HINCRBY k _ _ | ZADD k _ _ | ZREMRANGEBYSCORE k _ _ | ZCARD k | ZRANGE_FIRST k | ZCOUNT k _
  | HGETALL k => k
  | KEYS prefix => prefix
  end.

(** A command leaves every other key alone. *)
Lemma step_frame now c ks v ks' k' :
  step now c ks = Some (v, ks') → cmd_key c ≠ k' → ks' !! k' = ks !! k'.
Proof.
  intros Hs Hne. destruct c; simpl in *; unfold zset_put in *;
    repeat case_match; simplify_eq/=;
    rewrite ?lookup_insert_ne, ?lookup_delete_ne by done; try done.
Qed.

Lemma steps_frame now cs ks vs ks' k' :
  steps now cs ks = Some (vs, ks') → Forall (λ c, cmd_key c ≠ k') cs → ks' !! k' = ks !! k'.
Proof.
  revert ks vs. induction cs as [|c cs IH]; intros ks vs Hs HF; simplify_eq/=; [done|].
  destruct (step now c ks) as [[v ks1]|] eqn:E; simplify_eq/=.
  destruct (steps now cs ks1) as [[vs2 ks2]|] eqn:E2; simplify_eq/=.
  inversion HF; subst. rewrite (IH _ _ E2) by done. by eapply step_frame.
Qed.

Lemma peek_ext now ks ks' k : ks !! k = ks' !! k → peek now ks k = peek now ks' k.
Proof. unfold peek. by intros ->. Qed.

Section CallLemmas.
Context {R : Type} `{RedisSpec R}.

Lemma redis_get_Ok now k (r r' : R) v :
  redis_get now k r = (Ok v, r') → v = peek_str now (r_view r) k ∧ r_view r' = r_view r.
Proof.
  unfold redis_get, bind, exec, ret. destruct (r_exec _ _ _) as [[rep|] r1] eqn:E; [|done].
  intros [= <- <-]. apply exec_documented in E. simpl in E.
  unfold peek_str. destruct (peek _ _ _) as [e|]; simplify_eq/=; [|done].
  destruct (e_val e); by simplify_eq/=.
Qed.
End CallLemmas.
