(* ===== verification/Http.v ===== *)
(** * Requests, responses, and signed cookies

    What the code uses of Django's request and response objects, of
    [hmac.compare_digest], and of [django.core.signing.TimestampSigner].  The
    signer is outside the sources: [Signer] is the interface, [SignerSpec] what
    the code relies on (a value signed with a key and salt is read back until
    its age exceeds [max_age], and nothing else is), [HmacSigner] an instance. *)

From Stdlib Require Import ZArith QArith Lia Ascii String.
From stdpp Require Import base tactics option list strings numbers gmap.
From S2P Require Import Prelude PyStr IpAddress Hash PyTime Conf.

Open Scope Z_scope.

Record User : Type := {
  u_is_authenticated : bool;
  u_is_staff : bool;
  u_is_superuser : bool;
  u_pk : option string;                     (* str(user.pk) *)
}.

Record Request : Type := {
  rq_path_info : string;
  rq_full_path : string;
  rq_method : string;
  rq_meta : Meta;
  rq_cookies : gmap string string;
  rq_post : gmap string string;
  rq_get : gmap string string;
  rq_content_type : string;
  rq_body : string;
  rq_host : res string;                     (* get_host() *)
  rq_is_secure : bool;
  rq_user : option User;                    (* None: no request.user attribute *)
  rq_blocked_country : option string;       (* request.waf_blocked_country *)
}.

Record Cookie : Type := {
  ck_name : string;
  ck_value : string;
  ck_max_age : Z;
  ck_domain : option string;
  ck_httponly : bool;
  ck_secure : bool;
  ck_samesite : string;
}.

Record Response : Type := {
  rs_status : Z;
  rs_body : string;
  rs_headers : gmap string string;
  rs_cookies : list Cookie;
}.

(** [HttpResponse(body, status=...)]. *)
Definition http_response (status : Z) (body : string) : Response :=
  {| rs_status := status; rs_body := body; rs_headers := ∅; rs_cookies := [] |}.

(** [response[name] = value]. *)
Definition set_header (name value : string) (r : Response) : Response :=
  {| r with rs_headers := <[name := value]> (rs_headers r) |}.

Definition set_cookie (c : Cookie) (r : Response) : Response :=
  {| r with rs_cookies := rs_cookies r ++ [c] |}.

(** [HttpResponseRedirect(url)]. *)
Definition redirect (url : string) : Response := set_header "Location" url (http_response 302 "").

(** The value a client sends back for the last cookie of that name. *)
Definition cookie_value (name : string) (r : Response) : option string :=
  ck_value <$> List.find (λ c, bool_decide (ck_name c = name)) (rev (rs_cookies r)).

(** [hmac.compare_digest] on [str]: [TypeError] unless both are ASCII. *)
Definition is_ascii (c : ascii) : bool := code c <? 128.
Definition compare_digest (a b : string) : res bool :=
  if str_forall is_ascii a && str_forall is_ascii b
  then Ok (bool_decide (a = b)) else Raise (OtherError "TypeError").

Lemma hex_ascii s : str_forall is_hex s = true → str_forall is_ascii s = true.
Proof.
  apply str_forall_impl. intros c Hc. destruct (is_ascii c) eqn:E; [done|].
  by destruct c as [[] [] [] [] [] [] [] []].
Qed.

Lemma compare_digest_hex a b :
  str_forall is_hex a = true → compare_digest a b = Ok true → a = b.
Proof.
  unfold compare_digest. intros _. destruct (_ && _); [|done]. intros [= E]. by bool_hyps.
Qed.

(** ** [TimestampSigner] *)

Class Signer := {
  sign : list Z → string → Z → string → string;                     (* key salt now value *)
  unsign : list Z → string → Z → string → Z → option string;        (* ... signed max_age *)
}.

(** [None] is [BadSignature] (or its subclass [SignatureExpired]).  The
    signature carries whole seconds. *)
Class SignerSpec `{Signer} : Prop := {
  unsign_sign : ∀ key salt t v t' max_age,
    unsign key salt t' (sign key salt t v) max_age =
    if t' - t / usec * usec <=? max_age * usec then Some v else None;
  unsign_sound : ∀ key salt t' c max_age v,
    unsign key salt t' c max_age = Some v →
    ∃ t, c = sign key salt t v ∧ t' - t / usec * usec <= max_age * usec;
}.

(** A signer built from HMAC-SHA256: [value:timestamp:signature]. *)
Section HmacSigner.
Definition hm_message (t : Z) (v : string) : string := v +:+ String ":" (str_of_Z (t / usec)).
Definition hm_sig (key : list Z) (salt m : string) : string :=
  hexdigest (hmac_sha256 (encode salt ++ [0] ++ key) (encode m)).
Definition hm_sign (key : list Z) (salt : string) (t : Z) (v : string) : string :=
  hm_message t v +:+ String ":" (hm_sig key salt (hm_message t v)).

Definition hm_unsign (key : list Z) (salt : string) (t' : Z) (c : string) (max_age : Z)
  : option string :=
  '(m, s) ← rsplit1 ":" c;
  '(v, ts) ← rsplit1 ":" m;
  n ← py_int ts;
  if bool_decide (s = hm_sig key salt m) && bool_decide (str_of_Z n = ts)
     && (t' - n * usec <=? max_age * usec)
  then Some v else None.

Lemma hm_sig_no_colon key salt m : char_in ":" (hm_sig key salt m) = false.
Proof. apply hexdigest_no_char; [done|apply hmac_octets]. Qed.

Lemma hm_unsign_sign key salt t v t' max_age :
  hm_unsign key salt t' (hm_sign key salt t v) max_age =
  if t' - t / usec * usec <=? max_age * usec then Some v else None.
Proof.
  unfold hm_unsign, hm_sign. rewrite rsplit1_app by apply hm_sig_no_colon. cbn [mbind option_bind].
  replace (rsplit1 ":" (hm_message t v)) with (Some (v, str_of_Z (t / usec)))
    by (symmetry; apply rsplit1_app; by apply str_of_Z_no_char).
  cbn [mbind option_bind].
  rewrite py_int_str_of_Z. cbn [mbind option_bind]. by rewrite !bool_decide_true.
Qed.

Lemma hm_unsign_sound key salt t' c max_age v :
  hm_unsign key salt t' c max_age = Some v →
  ∃ t, c = hm_sign key salt t v ∧ t' - t / usec * usec <= max_age * usec.
Proof.
  unfold hm_unsign. destruct (rsplit1 ":" c) as [[m s]|] eqn:Ec; [|done]. cbn [mbind option_bind].
  destruct (rsplit1 ":" m) as [[v' ts]|] eqn:Em; [|done]. cbn [mbind option_bind].
  destruct (py_int ts) as [n|]; [|done]. cbn [mbind option_bind].
  destruct (_ && _) eqn:E; [|done]. intros [= ->]. bool_hyps.
  apply rsplit1_Some in Ec as [-> _]. apply rsplit1_Some in Em as [-> _].
  exists (n * usec). rewrite Z.div_mul by done. split; [|done].
  unfold hm_sign, hm_message. rewrite Z.div_mul by done. subst. done.
Qed.
End HmacSigner.

#[export] Instance hmac_signer : Signer | 100 := {| sign := hm_sign; unsign := hm_unsign |}.

#[export] Instance hmac_signer_spec : SignerSpec.
Proof. split; [apply hm_unsign_sign|apply hm_unsign_sound]. Qed.
