(* ===== verification/RateLimiter.v ===== *)
(** * Sliding-window rate limits ([services/rate_limiter.py])

    One sorted set per (IP, window) key: a call adds its timestamp, drops the
    entries that left the window, counts the rest and refreshes the key's
    expiry, in one pipeline.  The main result is that this Redis implementation
    refines the obvious specification: a request is over the limit exactly when
    the number of distinct request times in the last [w] seconds exceeds the
    threshold; in particular the key's expiry never drops a counted event. *)

From Stdlib Require Import ZArith Lia Sorted String.
From stdpp Require Import base tactics option list strings numbers gmap fin_maps fin_sets.
From S2P Require Import Prelude PyStr Hash Conf Redis.

Open Scope Z_scope.

Record RateLimitResult : Type := {
  exceeded : bool;
  rl_window : option string;
  rl_retry_after : option Z;
}.

Definition not_exceeded : RateLimitResult :=
  {| exceeded := false; rl_window := None; rl_retry_after := None |}.

(** [_WINDOWS]. *)
Definition WINDOWS : list (string * Z) := [("1s", 1); ("1m", 60); ("5m", 300)].

(** [_retry_after_from_oldest]: [int(...)] truncates towards zero. *)
Definition retry_after_from_oldest (oldest_in_window : list (string * Z))
    (window_seconds now : Z) : Z :=
  match oldest_in_window with
  | [] => Z.max 1 window_seconds
  | (_, oldest_timestamp) :: _ =>
      Z.max 1 (Z.quot (oldest_timestamp + window_seconds * second - now) second)
  end.

(** [_entry_applies_to_method]. *)
Definition entry_applies_to_method (entry : path_limit) (method : string) : bool :=
  match pl_methods entry with
  | None => true
  | Some methods => if str_empty method then false
                    else existsb (λ m, bool_decide (upper m = method)) methods
  end.

(** [sorted(prefixes, key=len, reverse=True)]: longest first, stable. *)
Fixpoint insert_longest (p : string * path_limit) (l : list (string * path_limit)) :=
  match l with
  | [] => [p]
  | q :: l' => if (String.length q.1 <=? String.length p.1)%nat then p :: l
               else q :: insert_longest p l'
  end.
Definition sort_longest (l : list (string * path_limit)) : list (string * path_limit) :=
  foldr insert_longest [] l.

(** The prefix whose limit governs a request: the longest matching one whose
    method scope covers the request. *)
Definition matched_prefix (paths : list (string * path_limit)) (path method : string)
  : option (string * path_limit) :=
  List.find (λ p, entry_applies_to_method p.2 method)
    (sort_longest (List.filter (λ p, starts_with p.1 path) paths)).

(** ** The pipeline *)

Definition window_cmds (key : string) (window_seconds ttl now : Z) : list cmd :=
  [ZADD key (str_of_Z now) now;
   ZREMRANGEBYSCORE key 0 (now - window_seconds * second);
   ZCARD key;
   ZRANGE_FIRST key;
   EXPIRE key ttl].

Section RateLimiter.
Context {R : Type} `{RedisClient R}.

(** The block every check repeats: run the pipeline, read [results[2]] and
    [results[3]], compare the count with the limit. *)
Definition check_window (key name : string) (window_seconds ttl max_requests now : Z)
  : M R (option RateLimitResult) :=
  results <- exec_pipe now (window_cmds key window_seconds ttl now) ;;
  match results !! 2%nat, results !! 3%nat with
  | Some (RInt count), Some (RPairs oldest) =>
      if max_requests <? count
      then ret (Some {| exceeded := true; rl_window := Some name;
                        rl_retry_after := Some (retry_after_from_oldest oldest window_seconds now) |})
      else ret None
  | _, _ => raise (OtherError "pipeline result")
  end.

Definition path_key (ip prefix : string) : string :=
  "waf:rate:" +:+ ip +:+ ":path:" +:+ str_take 12 (hexdigest (sha1 (encode prefix))).

(** [_check_path_rate_limit]. *)
Definition check_path_rate_limit (conf : Conf) (ip path : string) (now : Z) (method : string)
  : M R (option RateLimitResult) :=
  let rate_limit_paths := DJANGO_WAF_RATE_LIMIT_PATHS conf in
  if str_empty path || bool_decide (length rate_limit_paths = 0%nat) then ret None else
  match matched_prefix rate_limit_paths path (upper method) with
  | None => ret None
  | Some (prefix, entry) =>
      check_window (path_key ip prefix) "path" (pl_window entry) (pl_window entry + 10)
        (pl_max entry) now
  end.

(** [check_verify_rate_limit]. *)
Definition check_verify_rate_limit (conf : Conf) (ip : string) (now : Z) : M R RateLimitResult :=
  let max_requests := DJANGO_WAF_VERIFY_RATE_LIMIT_MAX conf in
  let window_seconds := DJANGO_WAF_VERIFY_RATE_LIMIT_WINDOW_SECONDS conf in
  res <- check_window ("waf:rate:verify:" +:+ ip) "verify" window_seconds (window_seconds + 10)
           max_requests now ;;
  ret (default not_exceeded res).

Definition threshold_of (conf : Conf) (name : string) : Z :=
  if bool_decide (name = "1s") then DJANGO_WAF_RATE_LIMIT_BURST conf
  else if bool_decide (name = "1m") then DJANGO_WAF_RATE_LIMIT_PER_MINUTE conf
  else DJANGO_WAF_RATE_LIMIT_PER_5MIN conf.

Definition ttl_buffer (name : string) : Z := if bool_decide (name = "1s") then 2 else 10.

Definition ip_key (ip window : string) : string := "waf:rate:" +:+ ip +:+ ":" +:+ window.

(** The loop over [_WINDOWS] in [check_rate_limit]: the first exceeded window
    returns, and the later ones are then not touched. *)
Fixpoint check_windows (conf : Conf) (ip : string) (now : Z) (ws : list (string * Z))
  : M R RateLimitResult :=
  match ws with
  | [] => ret not_exceeded
  | (name, window_seconds) :: ws =>
      res <- check_window (ip_key ip name) name window_seconds
               (window_seconds + ttl_buffer name) (threshold_of conf name) now ;;
      match res with
      | Some result => ret result
      | None => check_windows conf ip now ws
      end
  end.

(** [check_rate_limit]. *)
Definition check_rate_limit (conf : Conf) (ip path method : string) (now : Z)
  : M R RateLimitResult :=
  path_result <- check_path_rate_limit conf ip path now method ;;
  match path_result with
  | Some result => ret result
  | None => check_windows conf ip now WINDOWS
  end.

(** [get_request_count]: read-only; unknown window names count a minute. *)
Definition get_request_count (ip window : string) (now : Z) : M R Z :=
  let window_seconds := if bool_decide (window = "1s") then 1
                        else if bool_decide (window = "5m") then 300 else 60 in
  v <- exec now (ZCOUNT (ip_key ip window) (now - window_seconds * second)) ;;
  match v with RInt n => ret n | _ => raise (OtherError "zcount") end.
End RateLimiter.

(** ** Prefix selection *)

Lemma In_insert_longest p q l : In q (insert_longest p l) ↔ q = p ∨ In q l.
Proof.
  induction l as [|x l IH]; simpl; [naive_solver|].
  destruct (_ <=? _)%nat; simpl; rewrite ?IH; naive_solver.
Qed.

Lemma In_sort_longest q l : In q (sort_longest l) ↔ In q l.
Proof.
  induction l as [|p l IH]; simpl; [done|]. rewrite In_insert_longest, IH. naive_solver.
Qed.

Definition longer (p q : string * path_limit) : Prop := (String.length q.1 <= String.length p.1)%nat.

Lemma insert_longest_sorted p l : StronglySorted longer l → StronglySorted longer (insert_longest p l).
Proof.
  induction 1 as [|q l Hl IH HF]; simpl; [by repeat constructor|].
  destruct (Nat.leb_spec (String.length q.1) (String.length p.1)) as [Hle|Hlt].
  - constructor; [by constructor|]. constructor; [done|].
    eapply List.Forall_impl; [|exact HF]. unfold longer. intros; simpl in *; lia.
  - constructor; [done|]. apply List.Forall_forall. intros x [->|Hx]%In_insert_longest.
    + unfold longer. lia.
    + rewrite List.Forall_forall in HF. by apply HF.
Qed.

Lemma sort_longest_sorted l : StronglySorted longer (sort_longest l).
Proof. induction l as [|p l IH]; simpl; [constructor|by apply insert_longest_sorted]. Qed.

Lemma find_sorted_first {A} (R : A → A → Prop) (f : A → bool) l x y :
  StronglySorted R l → List.find f l = Some x → In y l → f y = true → x = y ∨ R x y.
Proof.
  induction 1 as [|z l Hl IH HF]; simpl; [done|].
  destruct (f z) eqn:Ez.
  - intros [= <-] [->|Hy] Hf; [by left|]. right. rewrite List.Forall_forall in HF. by apply HF.
  - intros Hfind [->|Hy] Hf; [congruence|by apply IH].
Qed.

(** ** What a window key records *)

Definition in_window (w now : Z) (ev : gset Z) : gset Z := filter (λ t, now - w * second < t) ev.

(** [tracks last ks key w ev]: from time [last] on, the sorted set at [key]
    holds, for every event of [ev] still inside the window, its timestamp under
    its own member, and nothing that is not an event. *)
Definition tracks (last : Z) (ks : keyspace) (key : string) (w : Z) (ev : gset Z) : Prop :=
  (∀ t, t ∈ ev → 0 <= t <= last) ∧
  ∀ t, last <= t →
    (∀ e, peek t ks key = Some e → ∃ z, e_val e = VZset z) ∧
    (∀ m s, peek_zset t ks key !! m = Some s → s ∈ ev ∧ m = str_of_Z s) ∧
    (∀ s, s ∈ ev → t - w * second < s → peek_zset t ks key !! str_of_Z s = Some s).

Lemma tracks_absent last ks key w : ks !! key = None → tracks last ks key w ∅.
Proof.
  intros Hk. unfold tracks, peek_zset, peek. rewrite Hk. simpl.
  split; [set_solver|]. intros t _. split_and!; [done|set_solver|set_solver].
Qed.

Lemma tracks_frame last last' ks ks' key w ev :
  ks' !! key = ks !! key → last <= last' → tracks last ks key w ev → tracks last' ks' key w ev.
Proof.
  intros Hk Hl [Hev Ht]. split; [intros t Hin; specialize (Hev t Hin); lia|].
  intros t Hlt. specialize (Ht t ltac:(lia)).
  unfold peek_zset in *. by rewrite (peek_ext t ks' ks key Hk).
Qed.

(** ** The lowest entry of a sorted set *)

Lemma pair_le_score a b : pair_le a b = true → a.2 <= b.2.
Proof.
  unfold pair_le. intros [?%Z.ltb_lt|[?%Z.eqb_eq _]%andb_true_iff]%orb_true_iff; lia.
Qed.

Lemma pair_le_false a b : pair_le a b = false → b.2 <= a.2.
Proof.
  unfold pair_le. intros [?%Z.ltb_ge _]%orb_false_iff. lia.
Qed.

Lemma zmin_fold l p :
  foldr (λ p acc, match acc with
                  | Some q => if pair_le p q then Some p else Some q
                  | None => Some p
                  end) None l = Some p →
  p ∈ l ∧ ∀ q : string * Z, q ∈ l → p.2 <= q.2.
Proof.
  revert p. induction l as [|x l IH]; intros p; simpl; [done|].
  destruct (foldr _ None l) as [q|] eqn:E.
  - destruct (IH q eq_refl) as [Hin Hmin].
    destruct (pair_le x q) eqn:Ep; intros [= <-].
    + split; [set_solver|]. apply pair_le_score in Ep.
      intros y [->|Hy]%elem_of_cons; [lia|]. specialize (Hmin y Hy). lia.
    + split; [set_solver|]. apply pair_le_false in Ep.
      intros y [->|Hy]%elem_of_cons; [lia|]. by apply Hmin.
  - intros [= <-]. split; [set_solver|].
    destruct l as [|y l]; [set_solver|]. simpl in E. by repeat case_match.
Qed.

Lemma zmin_Some z p :
  zmin z = Some p → z !! p.1 = Some p.2 ∧ ∀ m s, z !! m = Some s → p.2 <= s.
Proof.
  unfold zmin. intros [Hin Hmin]%zmin_fold. destruct p as [m s]; simpl in *.
  split; [by apply elem_of_map_to_list|].
  intros m' s' Hs. by apply (Hmin (m', s')), elem_of_map_to_list.
Qed.

Lemma zmin_None z : zmin z = None → z = ∅.
Proof.
  unfold zmin. destruct (map_to_list z) as [|p l] eqn:E; simpl.
  - intros _. by apply map_to_list_empty_iff.
  - destruct (foldr _ None l); [|done]. by case_match.
Qed.

(** A sorted set that stores each event under its own member has as many
    entries as there are events. *)
Lemma zset_size (z : gmap string Z) (S : gset Z) :
  (∀ m s, z !! m = Some s ↔ s ∈ S ∧ m = str_of_Z s) → size z = size S.
Proof.
  intros Hz. rewrite <- length_map_to_list. unfold size, set_size. simpl.
  rewrite <- (length_fmap snd (map_to_list z)). apply Permutation_length, NoDup_Permutation.
  - apply NoDup_fmap_2_strong; [|apply NoDup_map_to_list].
    intros [m1 s1] [m2 s2] H1%elem_of_map_to_list H2%elem_of_map_to_list Heq; simpl in Heq.
    apply Hz in H1 as [_ ->]. apply Hz in H2 as [_ ->]. by subst.
  - apply NoDup_elements.
  - intros s. rewrite elem_of_elements, list_elem_of_fmap. split.
    + intros ([m s'] & -> & Hin%elem_of_map_to_list). simpl. by apply Hz in Hin as [? _].
    + intros Hs. exists (str_of_Z s, s). split; [done|].
      apply elem_of_map_to_list, Hz. done.
Qed.

(** ** One pipeline refines one step of the specification *)

(** The sorted set after [ZADD] and [ZREMRANGEBYSCORE] holds exactly the events
    of the window. *)
Lemma window_zset now w ev (z : gmap string Z) :
  0 <= now → (∀ t, t ∈ ev → 0 <= t) → 0 < w →
  (∀ m s, z !! m = Some s → s ∈ ev ∧ m = str_of_Z s) →
  (∀ s, s ∈ ev → now - w * second < s → z !! str_of_Z s = Some s) →
  ∀ m s, filter (λ p : string * Z, ¬ (0 ≤ p.2 ∧ p.2 ≤ now - w * second))
           (<[str_of_Z now := now]> z) !! m = Some s
         ↔ s ∈ in_window w now ({[now]} ∪ ev) ∧ m = str_of_Z s.
Proof.
  intros Hnow Hev Hw Hz1 Hz2 m s. unfold in_window.
  rewrite map_lookup_filter_Some, elem_of_filter, elem_of_union, elem_of_singleton. simpl.
  destruct (decide (str_of_Z now = m)) as [<-|Hm].
  - rewrite lookup_insert_eq. split.
    + intros [[= <-] Hc]. unfold second in *. split; [split; [lia|by left]|done].
    + intros [[Hc _] Heq%str_of_Z_inj]. subst. split; [done|lia].
  - rewrite lookup_insert_ne by done. split.
    + intros [Hs Hc]. destruct (Hz1 _ _ Hs) as [Hin ->]. specialize (Hev _ Hin).
      split; [split; [lia|by right]|done].
    + intros [[Hc Hin] ->]. destruct Hin as [->|Hin]; [done|].
      split; [by apply Hz2|lia].
Qed.

(** [ZADD] on a tracked key writes into the sorted set seen before, keeping the
    expiry. *)
Lemma zadd_tracked now ks key :
  (∀ e, peek now ks key = Some e → ∃ z, e_val e = VZset z) →
  ∃ exp b, step now (ZADD key (str_of_Z now) now) ks
    = Some (b, <[key := {| e_val := VZset (<[str_of_Z now := now]> (peek_zset now ks key));
                           e_exp := exp |}]> ks)
    ∧ ∀ v, live now {| e_val := v; e_exp := exp |} = true.
Proof.
  intros Htype. unfold peek_zset. simpl. destruct (peek now ks key) as [e|] eqn:Ep.
  - destruct (Htype _ eq_refl) as [z Hv]. rewrite Hv.
    exists (e_exp e). eexists. split; [reflexivity|].
    unfold peek in Ep. destruct (ks !! key) as [e'|]; simplify_eq/=.
    destruct (live now e') eqn:El; simplify_eq/=. done.
  - exists None. eexists. split; [reflexivity|done].
Qed.

(** A key holding exactly the window's events and refreshed for at least the
    window length goes on tracking: when it expires, every event is out. *)
Lemma tracks_refreshed now ks key w ttl ev (z : gmap string Z) :
  (∀ t, t ∈ ev → 0 <= t <= now) → 0 < w → w <= ttl →
  (∀ m s, z !! m = Some s ↔ s ∈ in_window w now ev ∧ m = str_of_Z s) →
  tracks now (<[key := {| e_val := VZset z; e_exp := Some (now + ttl * second) |}]> ks) key w ev.
Proof.
  intros Hev Hw Httl Hz. split; [done|]. intros t Hlt.
  unfold peek_zset. rewrite peek_insert_eq. unfold live. simpl.
  destruct (Z.ltb_spec t (now + ttl * second)) as [Hin|Hout]; simpl; split_and!; try done.
  - intros e [= <-]. by eexists.
  - intros m s [Hs ->]%Hz. split; [|done]. unfold in_window in Hs. set_solver.
  - intros s Hs Hc. apply Hz. split; [|done]. apply elem_of_filter. split; [lia|done].
  - intros s Hs Hc. exfalso. specialize (Hev _ Hs). unfold second in *. nia.
Qed.

Lemma window_steps last ks key w ttl now ev vs ks' :
  tracks last ks key w ev → 0 <= now → last <= now → 0 < w → w <= ttl →
  steps now (window_cmds key w ttl now) ks = Some (vs, ks') →
  (∃ a b c oldest,
     vs = [a; b; RInt (Z.of_nat (size (in_window w now ({[now]} ∪ ev))));
           RPairs [(str_of_Z oldest, oldest)]; c] ∧
     oldest ∈ in_window w now ({[now]} ∪ ev) ∧
     ∀ s, s ∈ in_window w now ({[now]} ∪ ev) → oldest <= s) ∧
  tracks now ks' key w ({[now]} ∪ ev).
Proof.
  intros [Hev Ht] Hnow Hle Hw Httl Hs.
  destruct (Ht now Hle) as (Htype & Hz1 & Hz2).
  destruct (zadd_tracked now ks key Htype) as (exp & b & Hadd & Hlive).
  set (z2 := filter (λ p : string * Z, ¬ (0 ≤ p.2 ∧ p.2 ≤ now - w * second))
               (<[str_of_Z now := now]> (peek_zset now ks key))).
  assert (Hz2spec : ∀ m s, z2 !! m = Some s ↔
            s ∈ in_window w now ({[now]} ∪ ev) ∧ m = str_of_Z s).
  { apply window_zset; [done|by apply Hev|done|done|done]. }
  assert (Hne : z2 ≠ ∅).
  { intros E. assert (z2 !! str_of_Z now = Some now) as H0.
    { apply Hz2spec. split; [|done]. unfold in_window, second. set_solver by lia. }
    by rewrite E in H0. }
  cbn [window_cmds steps] in Hs. rewrite Hadd in Hs. cbn [mbind option_bind step] in Hs.
  rewrite peek_insert_eq, Hlive in Hs. cbn [e_val e_exp mbind option_bind] in Hs. fold z2 in Hs.
  unfold zset_put in Hs. rewrite decide_False in Hs by done.
  repeat (rewrite insert_insert_eq in Hs || rewrite peek_insert_eq in Hs || rewrite Hlive in Hs
          || cbn [e_val e_exp mbind option_bind] in Hs).
  destruct (Z.ltb_spec 0 ttl) as [Hpos|]; [|lia].
  cbn [mbind option_bind] in Hs. simplify_eq.
  destruct (zmin z2) as [[m o]|] eqn:Emin; [|by apply zmin_None in Emin].
  apply zmin_Some in Emin as [Hmem Hmin]. simpl in *. apply Hz2spec in Hmem as [Ho ->].
  split.
  - eexists _, _, _, o. rewrite (zset_size z2 _ Hz2spec). split; [done|]. split; [done|].
    intros s Hs. apply (Hmin (str_of_Z s)), Hz2spec. done.
  - apply tracks_refreshed; [|done|done|done].
    intros t [->%elem_of_singleton|Hin%Hev]%elem_of_union; lia.
Qed.

(** ** The specification: a log of request times *)

(** The specified answer of one window at time [now], given the set [ev] of
    request times including this one. *)
Definition oldest_of (w now : Z) (ev : gset Z) : Z :=
  foldr Z.min now (elements (in_window w now ev)).

Definition spec_window (name : string) (w max now : Z) (ev : gset Z) : option RateLimitResult :=
  if max <? Z.of_nat (size (in_window w now ev))
  then Some {| exceeded := true; rl_window := Some name;
               rl_retry_after := Some (Z.max 1 (Z.quot (oldest_of w now ev + w * second - now) second)) |}
  else None.

Lemma foldr_min_spec l d :
  (∀ x : Z, In x l → foldr Z.min d l <= x) ∧ foldr Z.min d l <= d ∧
  (foldr Z.min d l = d ∨ In (foldr Z.min d l) l).
Proof.
  induction l as [|y l (IH1 & IH2 & IH3)]; simpl; [split_and!; [done|lia|by left]|].
  split_and!.
  - intros x [->|Hx]; [lia|]. specialize (IH1 x Hx). lia.
  - lia.
  - destruct (Z.min_spec y (foldr Z.min d l)) as [[_ ->]|[_ ->]]; [by right; left|].
    destruct IH3 as [E|Hin]; [left; done|right; by right].
Qed.

Lemma oldest_of_unique w now ev o :
  now ∈ in_window w now ev → o ∈ in_window w now ev →
  (∀ s, s ∈ in_window w now ev → o <= s) → oldest_of w now ev = o.
Proof.
  intros Hnow Ho Hmin. unfold oldest_of.
  destruct (foldr_min_spec (elements (in_window w now ev)) now) as (H1 & H2 & H3).
  assert (Hin : ∀ x, In x (elements (in_window w now ev)) ↔ x ∈ in_window w now ev).
  { intros x. by rewrite <- list_elem_of_In, elem_of_elements. }
  specialize (H1 o (proj2 (Hin o) Ho)).
  destruct H3 as [E|E%Hin].
  - specialize (Hmin _ Hnow). lia.
  - specialize (Hmin _ E). lia.
Qed.

Lemma now_in_window w now ev : 0 < w → now ∈ in_window w now ({[now]} ∪ ev).
Proof. intros Hw. unfold in_window, second. apply elem_of_filter. split; [lia|set_solver]. Qed.

Section Refinement.
Context {R : Type} `{RedisSpec R}.

(** One check against Redis answers what the log specifies, and leaves the
    key tracking the extended log and every other key alone. *)
Lemma check_window_refines last (r r' : R) key name w ttl max now ev o :
  tracks last (r_view r) key w ev → 0 <= now → last <= now → 0 < w → w <= ttl →
  check_window key name w ttl max now r = (Ok o, r') →
  o = spec_window name w max now ({[now]} ∪ ev) ∧
  tracks now (r_view r') key w ({[now]} ∪ ev) ∧
  ∀ k, k ≠ key → r_view r' !! k = r_view r !! k.
Proof.
  intros Htr Hnow Hle Hw Httl Hrun. unfold check_window, bind, exec_pipe in Hrun.
  destruct (r_pipe now (window_cmds key w ttl now) r) as [[vs|] r1] eqn:Hp; [|done].
  apply pipe_documented in Hp.
  assert (Hframe : ∀ k, k ≠ key → r_view r1 !! k = r_view r !! k).
  { intros k Hk. eapply steps_frame; [exact Hp|]. repeat constructor; simpl; congruence. }
  destruct (window_steps _ _ _ _ _ _ _ _ _ Htr Hnow Hle Hw Httl Hp)
    as [(a & b & c & old & -> & Hold & Hmin) Htr'].
  cbn [lookup list_lookup] in Hrun. unfold spec_window.
  rewrite (oldest_of_unique _ _ _ old (now_in_window _ _ _ Hw) Hold Hmin).
  destruct (Z.ltb_spec max (Z.of_nat (size (in_window w now ({[now]} ∪ ev)))));
    unfold ret in Hrun; simplify_eq; split_and!; done.
Qed.

(** A run of checks on one key, at the given times. *)
Fixpoint check_each (key name : string) (w ttl max : Z) (times : list Z) : M R unit :=
  match times with
  | [] => ret tt
  | t :: times => check_window key name w ttl max t ;;; check_each key name w ttl max times
  end.

Lemma check_each_tracks last (r r' : R) key name w ttl max times ev :
  tracks last (r_view r) key w ev → 0 <= last → 0 < w → w <= ttl →
  StronglySorted Z.le (last :: times) →
  check_each key name w ttl max times r = (Ok tt, r') →
  tracks (List.last times last) (r_view r') key w (list_to_set times ∪ ev).
Proof.
  revert last r ev. induction times as [|t times IH]; intros last r ev Htr Hl Hw Httl Hs Hrun.
  - unfold check_each, ret in Hrun. simplify_eq. by rewrite list_to_set_nil, union_empty_l_L.
  - simpl in Hrun. apply bind_inv_Ok in Hrun as (o & r1 & H1 & H2).
    inversion Hs as [|? ? Hs' HF]; subst. inversion HF as [|? ? Hlt]; subst.
    assert (Ht : 0 <= t) by lia.
    destruct (check_window_refines _ _ _ _ _ _ _ _ _ _ _ Htr Ht Hlt Hw Httl H1)
      as (_ & Htr1 & _).
    specialize (IH t r1 _ Htr1 Ht Hw Httl Hs' H2).
    rewrite list_to_set_cons.
    replace ({[t]} ∪ list_to_set times ∪ ev) with (list_to_set times ∪ ({[t]} ∪ ev)) by set_solver.
    by rewrite last_cons.
Qed.
End Refinement.

(** ** The whole check as a list of window checks *)

(** The keys a request is counted against, in the order they are tried. *)
Record wcheck : Type := {
  wc_key : string; wc_name : string; wc_window : Z; wc_ttl : Z; wc_max : Z;
}.

Definition path_checks (conf : Conf) (ip path method : string) : list wcheck :=
  if str_empty path || bool_decide (length (DJANGO_WAF_RATE_LIMIT_PATHS conf) = 0%nat) then [] else
  match matched_prefix (DJANGO_WAF_RATE_LIMIT_PATHS conf) path (upper method) with
  | None => []
  | Some (prefix, e) =>
      [{| wc_key := path_key ip prefix; wc_name := "path"; wc_window := pl_window e;
          wc_ttl := pl_window e + 10; wc_max := pl_max e |}]
  end.

Definition global_checks (conf : Conf) (ip : string) : list wcheck :=
  map (λ '(name, w), {| wc_key := ip_key ip name; wc_name := name; wc_window := w;
                        wc_ttl := w + ttl_buffer name; wc_max := threshold_of conf name |}) WINDOWS.

Definition all_checks (conf : Conf) (ip path method : string) : list wcheck :=
  path_checks conf ip path method ++ global_checks conf ip.

(** The specification: per key, the set of times of the requests counted there.
    The first exceeded window answers; later windows do not see the request. *)
Definition log_add (log : string → gset Z) (key : string) (now : Z) : string → gset Z :=
  λ k, if decide (k = key) then {[now]} ∪ log k else log k.

Fixpoint spec_checks (now : Z) (cs : list wcheck) (log : string → gset Z)
  : RateLimitResult * (string → gset Z) :=
  match cs with
  | [] => (not_exceeded, log)
  | c :: cs =>
      let log' := log_add log (wc_key c) now in
      match spec_window (wc_name c) (wc_window c) (wc_max c) now (log' (wc_key c)) with
      | Some result => (result, log')
      | None => spec_checks now cs log'
      end
  end.

(** Redis tracks the log of every key of the list. *)
Definition tracks_all (last : Z) (ks : keyspace) (cs : list wcheck) (log : string → gset Z) : Prop :=
  ∀ c, In c cs → tracks last ks (wc_key c) (wc_window c) (log (wc_key c)).

Section WholeCheck.
Context {R : Type} `{RedisClient R}.

Fixpoint run_checks (now : Z) (cs : list wcheck) : M R RateLimitResult :=
  match cs with
  | [] => ret not_exceeded
  | c :: cs =>
      res <- check_window (wc_key c) (wc_name c) (wc_window c) (wc_ttl c) (wc_max c) now ;;
      match res with Some result => ret result | None => run_checks now cs end
  end.

Lemma check_windows_run conf ip now (r : R) :
  check_windows conf ip now WINDOWS r = run_checks now (global_checks conf ip) r.
Proof. reflexivity. Qed.

Lemma check_rate_limit_run conf ip path method now (r : R) :
  check_rate_limit conf ip path method now r = run_checks now (all_checks conf ip path method) r.
Proof.
  unfold check_rate_limit, all_checks, path_checks, check_path_rate_limit.
  destruct (str_empty path || _); [apply check_windows_run|].
  destruct (matched_prefix _ _ _) as [[p e]|]; [|apply check_windows_run].
  simpl. unfold bind. destruct (check_window _ _ _ _ _ _ r) as [[[res|]|] r1]; try done.
Qed.
End WholeCheck.

(** The log of a key that is not checked does not change. *)
Lemma spec_checks_keep now cs log k :
  k ∉ map wc_key cs → (spec_checks now cs log).2 k = log k.
Proof.
  revert log. induction cs as [|c cs IH]; intros log Hk; [done|]. cbn [spec_checks].
  assert (Hl : log_add log (wc_key c) now k = log k).
  { unfold log_add. rewrite decide_False; [done|]. set_solver. }
  destruct (spec_window _ _ _ _ _); [exact Hl|]. rewrite IH; [exact Hl|]. set_solver.
Qed.

Lemma run_checks_refines {R} `{RedisSpec R} last now (r r' : R) cs log res :
  0 <= now → last <= now →
  NoDup (map wc_key cs) → (∀ c, In c cs → 0 < wc_window c <= wc_ttl c) →
  tracks_all last (r_view r) cs log →
  run_checks now cs r = (Ok res, r') →
  res = (spec_checks now cs log).1 ∧
  tracks_all now (r_view r') cs (spec_checks now cs log).2 ∧
  ∀ k, k ∉ map wc_key cs → r_view r' !! k = r_view r !! k.
Proof.
  intros Hnow Hle. revert r log.
  induction cs as [|c cs IH]; intros r log Hnd Hw Htr Hrun.
  { unfold run_checks, ret in Hrun. simplify_eq. split_and!; [done|done|done]. }
  cbn [map] in Hnd. apply NoDup_cons in Hnd as [Hfresh Hnd].
  apply bind_inv_Ok in Hrun as (o & r1 & H1 & H2).
  destruct (Hw c (or_introl eq_refl)) as [Hw1 Hw2].
  destruct (check_window_refines last r r1 _ _ _ _ _ now _ o (Htr c (or_introl eq_refl))
              Hnow Hle Hw1 Hw2 H1) as (-> & Htr1 & Hf1).
  assert (Hother : ∀ c', In c' cs → wc_key c' ≠ wc_key c).
  { intros c' Hin Heq. apply Hfresh. rewrite <- Heq. apply list_elem_of_In, in_map. done. }
  set (log' := log_add log (wc_key c) now).
  assert (Hlog : log' (wc_key c) = {[now]} ∪ log (wc_key c)).
  { unfold log', log_add. by rewrite decide_True. }
  assert (Htr' : tracks_all now (r_view r1) (c :: cs) log').
  { intros c' [<-|Hin]; [by rewrite Hlog|].
    unfold log', log_add. rewrite decide_False by by apply Hother.
    eapply tracks_frame; [apply Hf1, Hother, Hin|exact Hle|]. apply Htr. by right. }
  cbn [spec_checks]. fold log'. rewrite Hlog.
  destruct (spec_window _ _ _ _ _) as [result|].
  - unfold ret in H2. simplify_eq. split_and!; [done|exact Htr'|].
    intros k Hk. apply Hf1. set_solver.
  - assert (Htr2 : tracks_all last (r_view r1) cs log').
    { intros c' Hin. unfold log', log_add. rewrite decide_False by by apply Hother.
      eapply tracks_frame; [apply Hf1, Hother, Hin|apply Z.le_refl|]. apply Htr. by right. }
    destruct (IH r1 log' Hnd (λ c' Hin, Hw c' (or_intror Hin)) Htr2 H2) as (-> & Htr3 & Hf3).
    split_and!; [done| |].
    + intros c' [<-|Hin]; [|by apply Htr3].
      rewrite spec_checks_keep by done.
      eapply tracks_frame; [apply Hf3, Hfresh|apply Z.le_refl|]. apply Htr'. by left.
    + intros k Hk. rewrite Hf3 by set_solver. apply Hf1. set_solver.
Qed.

(** The keys of one request are pairwise distinct. *)
Lemma all_checks_NoDup conf ip path method : NoDup (map wc_key (all_checks conf ip path method)).
Proof.
  assert (Hinj : ∀ a b : string, "waf:rate:" +:+ ip +:+ a = "waf:rate:" +:+ ip +:+ b → a = b).
  { intros a b E. do 2 apply (inj (String.append _)) in E. exact E. }
  assert (Hpath : ∀ p n w, In (n, w) WINDOWS → path_key ip p ≠ ip_key ip n).
  { unfold path_key, ip_key. intros p n w Hin E%Hinj. simpl in Hin.
    destruct Hin as [[= <- <-]|[[= <- <-]|[[= <- <-]|[]]]]; discriminate. }
  unfold all_checks. rewrite map_app. apply NoDup_app. split_and!.
  - unfold path_checks. repeat case_match; simpl; repeat constructor; set_solver.
  - intros k Hk Hg. unfold path_checks in Hk. repeat case_match; simpl in Hk; try by inversion Hk.
    apply list_elem_of_singleton in Hk as ->. unfold global_checks in Hg.
    apply list_elem_of_In in Hg. rewrite map_map in Hg.
    apply in_map_iff in Hg as ([n w] & E & Hin). simpl in E. by apply (Hpath s n w Hin).
  - simpl. repeat constructor; unfold ip_key;
      rewrite ?not_elem_of_cons; split_and?; try (intros E%Hinj; discriminate); apply not_elem_of_nil.
Qed.

(** Path windows are configured by the operator; the built-in ones are positive. *)
Definition path_windows_positive (conf : Conf) : Prop :=
  ∀ p e, In (p, e) (DJANGO_WAF_RATE_LIMIT_PATHS conf) → 0 < pl_window e.

Lemma matched_prefix_In paths path method p :
  matched_prefix paths path method = Some p →
  In p paths ∧ starts_with p.1 path = true ∧ entry_applies_to_method p.2 method = true.
Proof.
  unfold matched_prefix. intros Hf. apply find_some in Hf as [Hin Happ].
  apply In_sort_longest, filter_In in Hin as [Hin Hst]. done.
Qed.

Lemma all_checks_windows conf ip path method c :
  path_windows_positive conf → In c (all_checks conf ip path method) →
  0 < wc_window c <= wc_ttl c.
Proof.
  intros Hpos Hin. unfold all_checks in Hin. apply in_app_or in Hin as [Hin|Hin].
  - unfold path_checks in Hin. repeat case_match; simpl in Hin; try done.
    destruct Hin as [<-|[]]. simpl.
    match goal with H : matched_prefix _ _ _ = Some (?p, ?e) |- _ =>
      apply matched_prefix_In in H as (Hp & _); specialize (Hpos p e Hp); lia end.
  - simpl in Hin. destruct Hin as [<-|[<-|[<-|[]]]]; simpl; unfold ttl_buffer; simpl; lia.
Qed.

(** ** Properties *)

Module RateLimiterProps.

(** The Redis sliding window is exact.  Starting from a key that does not
    exist, after any run of calls at non-decreasing times the next call reports
    the limit exceeded exactly when the number of distinct call times in the
    last [w] seconds (this call included) is above the limit, and its
    retry-after is the time until the oldest of them leaves the window. *)
Lemma sliding_window_exact {R} `{RedisSpec R} (r r1 r2 : R) key name w ttl max times now o :
  0 < w → w <= ttl → r_view r !! key = None →
  StronglySorted Z.le (0 :: times ++ [now]) →
  check_each key name w ttl max times r = (Ok tt, r1) →
  check_window key name w ttl max now r1 = (Ok o, r2) →
  o = spec_window name w max now (list_to_set (times ++ [now])).
Proof.
  intros Hw Httl Hfresh Hs H1 H2.
  change (0 :: times ++ [now]) with ((0 :: times) ++ [now]) in Hs.
  apply StronglySorted_app_inv in Hs as [Hs Hlt].
  pose proof (check_each_tracks 0 r r1 key name w ttl max times ∅
                (tracks_absent 0 _ key w Hfresh) (Z.le_refl 0) Hw Httl Hs H1) as Htr.
  assert (Hle : List.last times 0 <= now ∧ 0 <= now).
  { split; apply Hlt; [apply last_In|by left|by left|by left]. }
  destruct (check_window_refines _ _ _ _ _ _ _ _ _ _ _ Htr (proj2 Hle) (proj1 Hle) Hw Httl H2)
    as (-> & _ & _).
  f_equal. rewrite list_to_set_app_L. simpl. set_solver.
Qed.

Lemma sliding_window_exact_witness :
  let t := 1000 * second in
  ∃ r1 r2 : MemRedis,
    check_each "k" "1s" 1 3 1 [t; t + 400000] {| mem := ∅ |} = (Ok tt, r1) ∧
    check_window "k" "1s" 1 3 1 (t + 1100000) r1
    = (Ok (Some {| exceeded := true; rl_window := Some "1s"; rl_retry_after := Some 1 |}), r2) ∧
    Some {| exceeded := true; rl_window := Some "1s"; rl_retry_after := Some 1 |}
    = spec_window "1s" 1 1 (t + 1100000) (list_to_set ([t; t + 400000] ++ [t + 1100000])).
Proof.
  intros t.
  set (r1 := (check_each "k" "1s" 1 3 1 [t; t + 400000] {| mem := ∅ |}).2).
  set (r2 := (check_window "k" "1s" 1 3 1 (t + 1100000) r1).2).
  assert (H1 : check_each "k" "1s" 1 3 1 [t; t + 400000] {| mem := ∅ |} = (Ok tt, r1))
    by (vm_compute; reflexivity).
  assert (H2 : check_window "k" "1s" 1 3 1 (t + 1100000) r1
    = (Ok (Some {| exceeded := true; rl_window := Some "1s"; rl_retry_after := Some 1 |}), r2))
    by (vm_compute; reflexivity).
  exists r1, r2. split; [exact H1|]. split; [exact H2|].
  apply (sliding_window_exact (R:=MemRedis) {| mem := ∅ |} r1 r2 "k" "1s" 1 3 1
           [t; t + 400000] (t + 1100000)); [lia|lia|reflexivity| |exact H1|exact H2].
  unfold t, second. repeat constructor; lia.
Defined.

(** C3: [check_rate_limit] refines the log specification.  When Redis tracks,
    for each key of the request (the governing path limit, then the three
    global windows), the times of the requests counted there, a call that
    returns answers what the specification answers on those logs (the first
    window over its limit, or not exceeded), Redis then tracks the extended
    logs, and no other key changes. *)
Theorem check_rate_limit_refines {R} `{RedisSpec R} conf ip path method last now (r r' : R) log res :
  0 <= now → last <= now → path_windows_positive conf →
  tracks_all last (r_view r) (all_checks conf ip path method) log →
  check_rate_limit conf ip path method now r = (Ok res, r') →
  let spec := spec_checks now (all_checks conf ip path method) log in
  res = spec.1 ∧
  tracks_all now (r_view r') (all_checks conf ip path method) spec.2 ∧
  ∀ k, k ∉ map wc_key (all_checks conf ip path method) → r_view r' !! k = r_view r !! k.
Proof.
  intros Hnow Hle Hpos Htr Hrun spec. rewrite check_rate_limit_run in Hrun.
  apply (run_checks_refines last now r r' _ log res); [done|done|apply all_checks_NoDup| |done|done].
  intros c Hin. by eapply all_checks_windows.
Qed.

(** The configuration of the witnesses: a login form limited for [POST], and a
    shorter prefix for every method. *)
Definition sample_conf : Conf :=
  {| (default_conf "s") with DJANGO_WAF_RATE_LIMIT_PATHS :=
       [("/acc", {| pl_max := 1; pl_window := 60; pl_methods := None |});
        ("/account/login/", {| pl_max := 0; pl_window := 60; pl_methods := Some ["post"] |})] |}.

Lemma check_rate_limit_refines_witness :
  let t := 1000 * second in
  let cs := all_checks sample_conf "192.0.2.1" "/account/login/" "POST" in
  ∃ r' : MemRedis,
    check_rate_limit sample_conf "192.0.2.1" "/account/login/" "POST" t {| mem := ∅ |}
    = (Ok {| exceeded := true; rl_window := Some "path"; rl_retry_after := Some 60 |}, r') ∧
    {| exceeded := true; rl_window := Some "path"; rl_retry_after := Some 60 |}
    = (spec_checks t cs (λ _, ∅)).1 ∧
    tracks_all t (r_view r') cs (spec_checks t cs (λ _, ∅)).2 ∧
    ∀ k, k ∉ map wc_key cs → r_view r' !! k = r_view {| mem := ∅ |} !! k.
Proof.
  intros t cs.
  set (r' := (check_rate_limit sample_conf "192.0.2.1" "/account/login/" "POST" t {| mem := ∅ |}).2).
  assert (H1 : check_rate_limit sample_conf "192.0.2.1" "/account/login/" "POST" t {| mem := ∅ |}
    = (Ok {| exceeded := true; rl_window := Some "path"; rl_retry_after := Some 60 |}, r'))
    by (vm_compute; reflexivity).
  exists r'. split; [exact H1|].
  apply (check_rate_limit_refines (R:=MemRedis) sample_conf "192.0.2.1" "/account/login/" "POST" 0 t
           {| mem := ∅ |} r' (λ _, ∅)); [unfold t, second; lia|unfold t, second; lia| | |exact H1].
  - intros p e Hin. simpl in Hin. destruct Hin as [[= <- <-]|[[= <- <-]|[]]]; reflexivity.
  - intros c _. apply tracks_absent. reflexivity.
Defined.

(** The path limit that governs a request is a configured one whose prefix
    starts the path and whose methods cover the request, no applicable prefix
    is longer, and there is one whenever any configured prefix applies (a
    longer prefix scoped to other methods never shadows it). *)
Lemma governing_prefix_longest paths path method p e :
  In (p, e) paths → starts_with p path = true → entry_applies_to_method e method = true →
  ∃ q f, matched_prefix paths path method = Some (q, f) ∧
    In (q, f) paths ∧ starts_with q path = true ∧ entry_applies_to_method f method = true ∧
    (String.length p <= String.length q)%nat.
Proof.
  intros Hin Hst Hm.
  assert (Hs : In (p, e) (sort_longest (List.filter (λ x, starts_with x.1 path) paths))).
  { apply In_sort_longest, filter_In. done. }
  destruct (matched_prefix paths path method) as [[q f]|] eqn:Ef.
  - exists q, f. split; [done|]. destruct (matched_prefix_In _ _ _ _ Ef) as (? & ? & ?).
    split_and!; [done|done|done|].
    destruct (find_sorted_first longer _ _ _ _ (sort_longest_sorted _) Ef Hs Hm) as [[= -> ->]|Hl];
      [lia|exact Hl].
  - pose proof (find_none _ _ Ef _ Hs) as Hn. simpl in Hn. congruence.
Qed.

Lemma governing_prefix_longest_witness :
  ∃ q f, matched_prefix (DJANGO_WAF_RATE_LIMIT_PATHS sample_conf) "/account/login/" "GET" = Some (q, f) ∧
    In (q, f) (DJANGO_WAF_RATE_LIMIT_PATHS sample_conf) ∧
    starts_with q "/account/login/" = true ∧ entry_applies_to_method f "GET" = true ∧
    (String.length "/acc" <= String.length q)%nat.
Proof.
  apply (governing_prefix_longest _ _ _ "/acc" {| pl_max := 1; pl_window := 60; pl_methods := None |});
    [left; reflexivity|reflexivity|reflexivity].
Defined.

End RateLimiterProps.
