(* ===== verification/Fingerprint.v ===== *)
(** * User-agent and header fingerprints
      ([services/ua_analyser.py], [services/fingerprint.py])

    Pure scores of a request: how odd the User-Agent string is, how far it
    disagrees with the other headers, and the registry of fingerprints that
    have solved a challenge.  Scores are exact rationals. *)

From Stdlib Require Import ZArith QArith Lia Lqa Ascii String.
From stdpp Require Import base tactics option list strings numbers gmap.
From S2P Require Import Prelude PyStr Hash Regex Conf Redis.

Open Scope Z_scope.

(** Python's [min] and the comparison [>=] on scores. *)
Definition qmin (a b : Q) : Q := if Qle_bool a b then a else b.
Definition qge (a b : Q) : bool := Qle_bool b a.

(** ** [ua_analyser.py] *)

Definition RE_SCRAPER_LIBS : regex :=
  lits ["python-requests"; "Go-http-client"; "libwww-perl"; "Wget/"; "curl/"; "urllib"; "scrapy";
        "mechanize"; "aiohttp"; "httpx/"].

Definition RE_ANCIENT_BROWSER : regex :=
  alts [cats [lit "MSIE"; plus (Chr Space); one_of "1234567"; lit "."];
        cats [lit "Firefox/"; one_of "123"; lit "."; digit];
        cats [lit "Opera/"; one_of "123456789"; lit "."; digit]].

Definition RE_IMPOSSIBLE_COMBO_IOS_WINDOWS : regex :=
  cats [lits ["iPhone"; "iPad"; "iOS"]; Star any_char; lit "Windows NT"].
Definition RE_IMPOSSIBLE_COMBO_ANDROID_IOS : regex :=
  alts [cats [lit "Android"; Star any_char; lit "iPhone"];
        cats [lit "iPhone"; Star any_char; lit "Android"]].
Definition RE_IMPOSSIBLE_COMBO_ANDROID_WINDOWS : regex :=
  cats [lit "Android"; Star any_char; lit "Windows NT"].

(** [\w+/[\d.]+]; the only pattern compiled without [IGNORECASE]. *)
Definition RE_VERSION_TOKEN : regex :=
  cats [plus (Chr Word); lit "/"; plus (Chr DigitOrDot)].

Definition RE_CRAWLER : regex :=
  lits ["Googlebot"; "Bingbot"; "Slurp"; "DuckDuckBot"; "Baiduspider"; "YandexBot";
        "facebookexternalhit"; "Twitterbot"; "LinkedInBot"; "WhatsApp"; "Applebot";
        "AhrefsBot"; "SemrushBot"; "MJ12bot"; "DotBot"; "rogerbot"; "SeznamBot";
        "PetalBot"; "CCBot"; "ia_archiver"].

Definition RE_BROWSER : regex :=
  cats [lit "Mozilla/5.0"; Star any_char;
        lits ["Chrome"; "Firefox"; "Safari"; "Edge"; "OPR"; "Trident"; "MSIE"]].

Definition RE_BOT (s : string) : bool :=
  search_word "bot" s || search_word "spider" s || search_word "crawler" s || search_word "scraper" s.

Definition score_user_agent (user_agent : string) : Q :=
  if str_empty user_agent then qmin 1 10 else
  let impossible :=
    re_search RE_IMPOSSIBLE_COMBO_IOS_WINDOWS user_agent
    || re_search RE_IMPOSSIBLE_COMBO_ANDROID_IOS user_agent
    || re_search RE_IMPOSSIBLE_COMBO_ANDROID_WINDOWS user_agent in
  let score := (0 + (if impossible then 3 else 0))%Q in
  let score := (score + (if re_search RE_ANCIENT_BROWSER user_agent then 2 else 0))%Q in
  let score := (score + (if negb (re_search RE_VERSION_TOKEN user_agent) then 3 # 2 else 0))%Q in
  let score := (score + (if (String.length user_agent <? 15)%nat then 1 else 0))%Q in
  qmin score 10.

Definition classify_ua (user_agent : string) : string :=
  if str_empty user_agent then "unknown"
  else if re_search RE_CRAWLER user_agent then "crawler"
  else if re_search RE_SCRAPER_LIBS user_agent then "library"
  else if RE_BOT user_agent then "bot"
  else if re_search RE_BROWSER user_agent then "browser"
  else "unknown".

(** ** [fingerprint.py] *)

Definition FINGERPRINT_HEADERS : list string :=
  ["HTTP_ACCEPT"; "HTTP_ACCEPT_LANGUAGE"; "HTTP_ACCEPT_ENCODING"; "HTTP_SEC_CH_UA";
   "HTTP_SEC_CH_UA_MOBILE"; "HTTP_SEC_CH_UA_PLATFORM"; "HTTP_SEC_FETCH_SITE";
   "HTTP_SEC_FETCH_MODE"; "HTTP_SEC_FETCH_DEST"; "HTTP_SEC_FETCH_USER"; "HTTP_CONNECTION";
   "HTTP_UPGRADE_INSECURE_REQUESTS"].

(** [_CHROMIUM_UA_RE.search(ua)]: the digits of the leftmost ["Chrome/"]
    followed by a digit ([group(1)], greedy). *)
Fixpoint chromium_match (ua : string) : option string :=
  match
    (if starts_with "chrome/" (lower (str_take 7 ua))
     then let ds := str_drop 7 ua in
          (fix digits (s : string) : string :=
             match s with
             | String c s' => if is_digit c then String c (digits s') else EmptyString
             | EmptyString => EmptyString
             end) ds
     else EmptyString)
  with
  | EmptyString => match ua with String _ ua' => chromium_match ua' | EmptyString => None end
  | ds => Some ds
  end.

Definition SEC_FETCH_BROWSERS_RE : regex :=
  cats [lits ["Chrome"; "Firefox"; "Safari"; "Edge"; "Opera"]; lit "/"; plus digit].

Definition CHROMIUM_MIN_VERSION_FOR_CH : Z := 89.

(** [int()] of a run of digits: Python 3.11+ refuses more than 4300 of them
    with [ValueError] ([sys.int_info.default_max_str_digits]). *)
Definition INT_MAX_STR_DIGITS : nat := Z.to_nat 4300.
Definition int_of_digits (ds : string) : res Z :=
  if (INT_MAX_STR_DIGITS <? String.length ds)%nat then Raise ValueError else Ok (dec_value 0 ds).

Definition compute_fingerprint (meta : Meta) : string :=
  let parts := map (λ header, let value := meta_get meta header in
                              if str_empty value then "" else lower (strip value))
                 FINGERPRINT_HEADERS in
  hexdigest (sha256 (encode (join "|" parts))).

(** [meta.get(h)] is truthy. *)
Definition has_header (meta : Meta) (h : string) : bool := negb (str_empty (meta_get meta h)).

Definition score_fingerprint_mismatch (user_agent : string) (meta : Meta) : res Q :=
  if str_empty user_agent then Ok 0%Q else
  res_bind
    (match chromium_match user_agent with
     | None => Ok 0%Q
     | Some digits =>
         res_bind (int_of_digits digits) (λ chrome_version,
           Ok (if (CHROMIUM_MIN_VERSION_FOR_CH <=? chrome_version)
                  && negb (has_header meta "HTTP_SEC_CH_UA") then 2 else 0)%Q)
     end)
    (λ score : Q,
      let browser := re_search SEC_FETCH_BROWSERS_RE user_agent in
      let has_sec_fetch := has_header meta "HTTP_SEC_FETCH_SITE"
                           || has_header meta "HTTP_SEC_FETCH_MODE"
                           || has_header meta "HTTP_SEC_FETCH_DEST" in
      let score := (score + (if browser && negb has_sec_fetch then 3 # 2 else 0))%Q in
      let accept_lang := strip (meta_get meta "HTTP_ACCEPT_LANGUAGE") in
      let score := (score + (if browser && (str_empty accept_lang || bool_decide (accept_lang = "*"))
                             then 1 else 0))%Q in
      let accept := strip (meta_get meta "HTTP_ACCEPT") in
      let score := (score + (if browser && (bool_decide (accept = "*/*") || str_empty accept)
                             then 1 # 2 else 0))%Q in
      Ok (qmin score 5)).

Definition classify_fingerprint (user_agent : string) (meta : Meta) : res string :=
  res_bind (score_fingerprint_mismatch user_agent meta) (λ mismatch,
    Ok (if qge mismatch 3 then "bot"
        else if qge mismatch (3 # 2) then "suspicious"
        else if str_empty user_agent then "unknown"
        else if negb (match chromium_match user_agent with Some _ => true | None => false end
                      || re_search SEC_FETCH_BROWSERS_RE user_agent) then "unknown"
        else "browser")).

(** ** The registry of known-good fingerprints *)

Definition known_fp_key (fp_hash : string) : string := "waf:known_fp:" +:+ fp_hash.
Definition KNOWN_FP_TTL : Z := 86400 * 30.

Section Registry.
Context {R : Type} `{RedisClient R}.

Definition register_known_fingerprint (fp_hash : string) (now : Z) : M R unit :=
  if str_empty fp_hash then ret tt else
  try_except
    (exec now (INCR (known_fp_key fp_hash)) ;;;
     exec now (EXPIRE (known_fp_key fp_hash) KNOWN_FP_TTL) ;;; ret tt)
    (λ _, ret tt).

Definition is_known_fingerprint (fp_hash : string) (now : Z) : M R bool :=
  if str_empty fp_hash then ret false else
  try_except
    (v <- redis_get now (known_fp_key fp_hash) ;;
     ret (match v with Some s => negb (str_empty s) | None => false end))
    (λ _, ret false).
End Registry.

Example chromium_examples :
  chromium_match "Mozilla chrome/x Chrome/120.0" = Some "120" ∧
  chromium_match "Chrome/" = None ∧
  match score_fingerprint_mismatch "Mozilla/5.0 Chrome/120.0 Safari/537.36" ∅ with
  | Ok q => Qeq_bool q 5 | Raise _ => false end = true ∧
  classify_fingerprint "curl/8.0" ∅ = Ok "unknown" ∧
  classify_ua "my bot" = "bot" ∧ classify_ua "robot" = "unknown" ∧
  Qeq_bool (score_user_agent "curl/7.68.0") 1 = true.
Proof. vm_compute. done. Qed.

(** ** Bounds *)

Lemma qmin_le_r a b : (qmin a b <= b)%Q.
Proof.
  unfold qmin. destruct (Qle_bool a b) eqn:E; [by apply Qle_bool_iff|apply Qle_refl].
Qed.

Lemma qmin_nonneg a b : (0 <= a)%Q → (0 <= b)%Q → (0 <= qmin a b)%Q.
Proof. intros. unfold qmin. by destruct (Qle_bool a b). Qed.

Lemma qge_spec a b : qge a b = true ↔ (b <= a)%Q.
Proof. apply Qle_bool_iff. Qed.

Lemma qge_false a b : qge a b = false ↔ (a < b)%Q.
Proof.
  rewrite <- not_true_iff_false, qge_spec. split; [apply Qnot_le_lt|apply Qlt_not_le].
Qed.

(** Scores are sums of guarded weights. *)
Ltac weights :=
  repeat match goal with |- context [if ?b then _ else _] => destruct b end; lra.

Lemma res_bind_Ok {A B} (r : res A) (k : A → res B) b :
  res_bind r k = Ok b → ∃ a, r = Ok a ∧ k a = Ok b.
Proof. destruct r; simpl; [eauto|done]. Qed.

Lemma score_user_agent_bounds ua : (0 <= score_user_agent ua <= 10)%Q.
Proof.
  unfold score_user_agent. destruct (str_empty ua); [vm_compute; split; discriminate|].
  split; [apply qmin_nonneg; weights|apply qmin_le_r].
Qed.

(** The score is defined whenever the version digits are convertible. *)
Lemma score_mismatch_Ok ua meta :
  (∀ ds, chromium_match ua = Some ds → (String.length ds <= INT_MAX_STR_DIGITS)%nat) →
  is_Ok (score_fingerprint_mismatch ua meta) = true.
Proof.
  intros Hd. unfold score_fingerprint_mismatch. destruct (str_empty ua); [done|].
  destruct (chromium_match ua) as [ds|]; [|done]. unfold int_of_digits.
  destruct (Nat.ltb_spec INT_MAX_STR_DIGITS (String.length ds)) as [Hlt|]; [|done].
  specialize (Hd ds eq_refl). lia.
Qed.

Lemma score_mismatch_bounds ua meta q :
  score_fingerprint_mismatch ua meta = Ok q → (0 <= q <= 5)%Q.
Proof.
  unfold score_fingerprint_mismatch. destruct (str_empty ua).
  - intros [= <-]. lra.
  - intros (v & Hv & [= <-])%res_bind_Ok. split; [|apply qmin_le_r].
    apply qmin_nonneg; [|lra].
    assert (0 <= v)%Q.
    { destruct (chromium_match ua); [|simplify_eq; lra].
      apply res_bind_Ok in Hv as (n & _ & [= <-]). weights. }
    weights.
Qed.

(** A version longer than the conversion limit raises: the leading
    ["Chrome/"] of a User-Agent is where [chromium_match] stops. *)
Lemma chromium_match_digits (ds : string) :
  str_forall is_digit ds = true → ds ≠ "" → chromium_match ("Chrome/" +:+ ds) = Some ds.
Proof.
  intros Hds Hne. cbn [String.append chromium_match str_take str_drop].
  change (starts_with "chrome/" (lower "Chrome/")) with true. cbn iota.
  assert (Hfix : ∀ s, str_forall is_digit s = true →
    (fix digits (s : string) : string :=
       match s with
       | String c s' => if is_digit c then String c (digits s') else EmptyString
       | EmptyString => EmptyString
       end) s = s).
  { induction s as [|c s IH]; [done|]. simpl. intros [-> Hs]%andb_true_iff. by rewrite IH. }
  rewrite Hfix by done. by destruct ds.
Qed.

(** ** Properties *)

Module FingerprintProps.

(** The scores stay in their documented ranges: the User-Agent score in
    [0, 10], and the header-mismatch score, when it is computed, in [0, 5]. *)
Lemma scores_in_range ua meta :
  (0 <= score_user_agent ua <= 10)%Q ∧
  ∀ q, score_fingerprint_mismatch ua meta = Ok q → (0 <= q <= 5)%Q.
Proof. split; [apply score_user_agent_bounds|intros q; apply score_mismatch_bounds]. Qed.

Lemma scores_in_range_witness :
  ∃ q, score_fingerprint_mismatch "Mozilla/5.0 Chrome/120.0" ∅ = Ok q ∧ (0 <= q <= 5)%Q.
Proof.
  eexists. split; [vm_compute; reflexivity|].
  apply (proj2 (scores_in_range "Mozilla/5.0 Chrome/120.0" ∅)). vm_compute. reflexivity.
Defined.

(** A client that claims no browser is never called one.  Without a
    ["Chrome/<digits>"] or ["<browser>/<digits>"] token the mismatch score is
    zero whatever the other headers say, and the verdict is ["unknown"]. *)
Lemma no_browser_claim_unknown ua meta :
  chromium_match ua = None → re_search SEC_FETCH_BROWSERS_RE ua = false →
  (∃ q, score_fingerprint_mismatch ua meta = Ok q ∧ q == 0)%Q ∧
  classify_fingerprint ua meta = Ok "unknown".
Proof.
  intros Hc Hb. unfold classify_fingerprint, score_fingerprint_mismatch.
  destruct (str_empty ua) eqn:E; [split; [by exists 0%Q|reflexivity]|].
  rewrite Hc, Hb. split; [eexists; split; [reflexivity|reflexivity]|reflexivity].
Qed.

Lemma no_browser_claim_unknown_witness :
  classify_fingerprint "curl/7.68.0" {["HTTP_ACCEPT" := "*/*"]} = Ok "unknown".
Proof.
  apply (no_browser_claim_unknown "curl/7.68.0" {["HTTP_ACCEPT" := "*/*"]}); vm_compute; reflexivity.
Defined.

End FingerprintProps.
