(* ===== verification/Models.v ===== *)
(** * Database rows and their managers ([models.py], [handlers.py])

    A table is the list of its rows in insertion order; a queryset is a
    filtered (and possibly sorted) list.  [World] is everything the services
    share: the clock, Redis, the tables, and the process-level caches of the
    rule engine.  The ORM is outside the sources; the helpers below state what
    the code uses of it: a query reads the table or raises when the database
    is down, [save()] writes one row and sends [post_save]. *)

From Stdlib Require Import ZArith QArith Lia Ascii String Sorted.
From stdpp Require Import base tactics option list strings numbers gmap.
From S2P Require Import Prelude PyStr Codec PyTime Regex Conf Redis.

Open Scope Z_scope.

(** ** Rows *)

(** [BlockRule]; timestamps in microseconds, [confidence] in hundredths. *)
Record BlockRule : Type := {
  br_id : Z;
  br_name : string;
  br_rule_type : RuleType;
  br_match_type : MatchType;
  br_pattern : string;
  br_action : RuleAction;
  br_priority : Z;
  br_is_active : bool;
  br_source : RuleSource;
  br_expires_at : option Z;
  br_hit_count : Z;
  br_last_hit_at : option Z;
  br_confidence : Z;
  br_feed_first_seen : option Z;
  br_feed_reporters : Z;
  br_notes : string;
  br_review_status : ReviewStatus;
  br_reviewed_at : option Z;
  br_detectors : string;
  br_created_at : Z;
  br_updated_at : Z;
}.

(** [AllowRule]. *)
Record AllowRule : Type := {
  ar_id : Z;
  ar_name : string;
  ar_rule_type : RuleType;
  ar_match_type : MatchType;
  ar_pattern : string;
  ar_verify_rdns : bool;
  ar_rdns_pattern : string;
  ar_is_active : bool;
  ar_source : RuleSource;
  ar_expires_at : option Z;
  ar_confidence : Z;
  ar_feed_first_seen : option Z;
  ar_feed_reporters : Z;
  ar_notes : string;
}.

(** [RequestLog]. *)
Record RequestLog : Type := {
  rl_timestamp : Z;
  rl_ip_address : string;
  rl_user_agent : string;
  rl_path : string;
  rl_method : string;
  rl_verdict : Verdict;
  rl_matched_rule_id : option Z;
  rl_matched_rule_type : string;
  rl_anomaly_score : option Q;
  rl_response_code : option Z;
  rl_referer : string;
  rl_http_fingerprint : string;
  rl_fingerprint_verdict : string;
  rl_country_code : string;
  rl_source : RequestLogSource;
  rl_source_event_id : string;
}.

(** [ChallengeToken]. *)
Record ChallengeToken : Type := {
  ct_token : string;
  ct_ip_address : string;
  ct_difficulty : Z;
  ct_nonce : string;
  ct_status : ChallengeStatus;
  ct_issued_at : Z;
  ct_expires_at : Z;
  ct_solved_at : option Z;
}.

(** [IPReputation]; [threat_score] in hundredths. *)
Record IPReputation : Type := {
  ir_ip_address : string;
  ir_total_requests : Z;
  ir_blocked_requests : Z;
  ir_challenged_requests : Z;
  ir_challenge_passes : Z;
  ir_challenge_failures : Z;
  ir_distinct_ua_count : Z;
  ir_threat_score : Z;
  ir_last_seen_at : option Z;
  ir_window_start : option Z;
  ir_window_end : option Z;
}.

(** ** [BlockRuleManager] *)

(** [Q(expires_at__isnull=True) | Q(expires_at__gt=now)]. *)
Definition not_expired (now : Z) (expires_at : option Z) : bool :=
  match expires_at with None => true | Some t => now <? t end.

(** [expires_at__lte=now]: not satisfied by NULL. *)
Definition past (now : Z) (expires_at : option Z) : bool :=
  match expires_at with None => false | Some t => t <=? now end.

(** [order_by("priority")], stable. *)
Definition order_by_priority : list BlockRule → list BlockRule :=
  sort_by (λ a b, br_priority a <=? br_priority b).

Module BlockRuleManager.
Definition active (now : Z) (rows : list BlockRule) : list BlockRule :=
  order_by_priority
    (List.filter (λ r, br_is_active r && not_expired now (br_expires_at r)) rows).

Definition for_nginx (now : Z) (rows : list BlockRule) : list BlockRule :=
  List.filter (λ r, bool_decide (br_rule_type r ∈ [RuleType_IP; RuleType_CIDR; RuleType_UA])
                    && bool_decide (br_action r ∈ [RuleAction_BLOCK; RuleAction_THROTTLE]))
    (active now rows).

Definition auto_generated (now : Z) (rows : list BlockRule) : list BlockRule :=
  List.filter (λ r, bool_decide (br_source r = RuleSource_AUTO)) (active now rows).

Definition feed_sourced (now : Z) (rows : list BlockRule) : list BlockRule :=
  List.filter (λ r, bool_decide (br_source r = RuleSource_FEED)) (active now rows).

Definition is_expired (now : Z) (r : BlockRule) : bool :=
  br_is_active r && past now (br_expires_at r).

Definition expired (now : Z) (rows : list BlockRule) : list BlockRule :=
  List.filter (is_expired now) rows.

Definition is_stale (now days : Z) (r : BlockRule) : bool :=
  bool_decide (br_source r = RuleSource_AUTO)
  && negb (br_is_active r)
  && match br_expires_at r with Some t => t <? now - days * day_us | None => false end
  && bool_decide (br_review_status r ∈ [NOT_APPLICABLE; EXPIRED_UNREVIEWED]).

Definition stale (now days : Z) (rows : list BlockRule) : list BlockRule :=
  List.filter (is_stale now days) rows.
End BlockRuleManager.

(** ** [AllowRuleManager] *)

Module AllowRuleManager.
Definition active (now : Z) (rows : list AllowRule) : list AllowRule :=
  List.filter (λ r, ar_is_active r && not_expired now (ar_expires_at r)) rows.

Definition requiring_rdns (now : Z) (rows : list AllowRule) : list AllowRule :=
  List.filter ar_verify_rdns (active now rows).

Definition feed_sourced (now : Z) (rows : list AllowRule) : list AllowRule :=
  List.filter (λ r, bool_decide (ar_source r = RuleSource_FEED)) (active now rows).

Definition is_expired (now : Z) (r : AllowRule) : bool :=
  ar_is_active r && past now (ar_expires_at r).

Definition expired (now : Z) (rows : list AllowRule) : list AllowRule :=
  List.filter (is_expired now) rows.
End AllowRuleManager.

(** ** [RequestLogManager] *)

Module RequestLogManager.
Definition hour_us : Z := 3600 * usec.
Definition recent (now hours : Z) (rows : list RequestLog) : list RequestLog :=
  List.filter (λ r, now - hours * hour_us <=? rl_timestamp r) rows.
Definition for_ip (ip : string) (rows : list RequestLog) : list RequestLog :=
  List.filter (λ r, bool_decide (rl_ip_address r = ip)) rows.
Definition blocked (rows : list RequestLog) : list RequestLog :=
  List.filter (λ r, bool_decide (rl_verdict r = BLOCKED)) rows.
Definition from_middleware (rows : list RequestLog) : list RequestLog :=
  List.filter (λ r, bool_decide (rl_source r = MIDDLEWARE)) rows.
Definition is_purgeable (now days : Z) (r : RequestLog) : bool := rl_timestamp r <? now - days * day_us.
Definition purgeable (now days : Z) (rows : list RequestLog) : list RequestLog :=
  List.filter (is_purgeable now days) rows.
End RequestLogManager.

(** The partial unique constraint [django_waf_br_auto_key_uniq]. *)
Definition auto_key (r : BlockRule) : option (RuleType * string * RuleAction) :=
  if bool_decide (br_source r = RuleSource_AUTO)
  then Some (br_rule_type r, br_pattern r, br_action r) else None.

Definition auto_keys_unique (rows : list BlockRule) : Prop := NoDup (omap auto_key rows).

(** ** The shared state *)

(** [RuleCache]: rules are the JSON dictionaries the cache stores. *)
Record RuleCache (P : Type) : Type := {
  rc_version : Z;
  rc_allow_rules : list json;
  rc_block_rules : list json;
  rc_ua_regex_set : list (P * json);
}.
Arguments rc_version {P}. Arguments rc_allow_rules {P}.
Arguments rc_block_rules {P}. Arguments rc_ua_regex_set {P}.

Record World (R P : Type) : Type := {
  w_now : Z;                                  (* the clock; only [sleep] moves it *)
  w_redis : R;
  w_db_up : bool;
  w_block_rules : list BlockRule;
  w_allow_rules : list AllowRule;
  w_request_log : list RequestLog;
  w_tokens : list ChallengeToken;
  w_reputation : list IPReputation;
  w_fresh : nat;                              (* number of random values drawn *)
  w_concurrent : list (list BlockRule → list BlockRule);
                                              (* commits of other transactions, in order *)
  w_process_cache : option (RuleCache P);     (* rule_engine._process_cache *)
  w_process_cache_version : Z;
  w_ua_pattern_cache : gmap string (option P);  (* _ua_pattern_cache[(p, "regex")] *)
}.
Arguments w_now {R P}. Arguments w_redis {R P}. Arguments w_db_up {R P}.
Arguments w_block_rules {R P}. Arguments w_allow_rules {R P}. Arguments w_request_log {R P}.
Arguments w_tokens {R P}. Arguments w_reputation {R P}. Arguments w_fresh {R P}. Arguments w_concurrent {R P}.
Arguments w_process_cache {R P}.
Arguments w_process_cache_version {R P}. Arguments w_ua_pattern_cache {R P}.

Section WorldOps.
Context {R P : Type}.
Implicit Types w : World R P.

(** Run a Redis computation at the current time. *)
Definition on_redis {A} (m : Z → M R A) : M (World R P) A := λ w,
  match m (w_now w) (w_redis w) with
  | (r, rd) => (r, {| w with w_redis := rd |})
  end.

Definition clock : M (World R P) Z := gets w_now.

Definition sleep (us : Z) : M (World R P) unit :=
  modify (λ w, {| w with w_now := w_now w + us |}).

(** A query: reads, or raises when the database is unreachable. *)
Definition db_read {A} (f : World R P → A) : M (World R P) A := λ w,
  if w_db_up w then (Ok (f w), w) else (Raise DbError, w).

Definition db_write (f : World R P → World R P) : M (World R P) unit := λ w,
  if w_db_up w then (Ok tt, f w) else (Raise DbError, w).

Definition set_block_rules (rows : list BlockRule) : M (World R P) unit :=
  db_write (λ w, {| w with w_block_rules := rows |}).

(** Another transaction commits, if one is due at this point. *)
Definition interleave : M (World R P) unit := modify (λ w,
  match w_concurrent w with
  | [] => w
  | f :: fs => {| {| w with w_block_rules := f (w_block_rules w) |} with w_concurrent := fs |}
  end).

(** [with transaction.atomic()]: an exception, or [set_rollback(True)], puts
    the tables back; Redis, the clock and the process caches keep what the
    block did to them. *)
Definition with_tables_of (w0 w : World R P) : World R P :=
  {| w_now := w_now w; w_redis := w_redis w; w_db_up := w_db_up w;
     w_block_rules := w_block_rules w0; w_allow_rules := w_allow_rules w0;
     w_request_log := w_request_log w0; w_tokens := w_tokens w0; w_reputation := w_reputation w0;
     w_fresh := w_fresh w; w_concurrent := w_concurrent w; w_process_cache := w_process_cache w;
     w_process_cache_version := w_process_cache_version w; w_ua_pattern_cache := w_ua_pattern_cache w |}.

Definition atomic {A} (set_rollback : bool) (m : M (World R P) A) : M (World R P) A := λ w,
  match m w with
  | (Ok a, w') => (Ok a, if set_rollback then with_tables_of w w' else w')
  | (Raise e, w') => (Raise e, with_tables_of w w')
  end.

(** The rows of every table. *)
Definition stored_rows (w : World R P) :=
  (w_block_rules w, w_allow_rules w, w_request_log w, w_tokens w, w_reputation w).

(** A random value ([uuid4], [secrets]) from the source [rand]. *)
Definition draw {A} (rand : nat → A) : M (World R P) A := λ w,
  (Ok (rand (w_fresh w)), {| w with w_fresh := S (w_fresh w) |}).
End WorldOps.

(** With the database up, a query reads and a write writes. *)
Lemma db_read_up {R P A} (f : World R P → A) w : w_db_up w = true → db_read f w = (Ok (f w), w).
Proof. unfold db_read. by intros ->. Qed.

Lemma db_write_up {R P} (f : World R P → World R P) w :
  w_db_up w = true → db_write f w = (Ok tt, f w).
Proof. unfold db_write. by intros ->. Qed.

(** A rolled-back block leaves the tables alone. *)
Lemma atomic_rolls_back {R P A} (m : M (World R P) A) w : stored_rows (atomic true m w).2 = stored_rows w.
Proof. unfold atomic. by destruct (m w) as [[a|e] w']. Qed.

(** ** [handlers.py]: every saved or deleted rule bumps the rules version *)

Definition RULES_VERSION_KEY : string := "waf:rules:version".

Section Handlers.
Context {R P : Type} `{RedisClient R}.

(** [_invalidate_rule_cache] on a Redis backend: failures are logged only. *)
Definition invalidate_rule_cache : M (World R P) unit :=
  try_except (on_redis (λ t, exec t (INCR RULES_VERSION_KEY)) ;;; ret tt) (λ _, ret tt).

(** [on_block_rule_save], [on_block_rule_delete] (the consumer signal they
    emit is not part of the model). *)
Definition on_block_rule_save : M (World R P) unit := invalidate_rule_cache.
Definition on_block_rule_delete : M (World R P) unit := invalidate_rule_cache.
Definition on_allow_rule_save : M (World R P) unit := invalidate_rule_cache.
Definition on_allow_rule_delete : M (World R P) unit := invalidate_rule_cache.
End Handlers.

(** ** Lemmas *)

Lemma filter_NoDup {A} (p : A → bool) l : NoDup l → NoDup (List.filter p l).
Proof.
  induction 1 as [|x l Hni Hnd IH]; cbn; [apply NoDup_nil_2|]. destruct (p x); [|done].
  apply NoDup_cons. split; [|done]. rewrite list_elem_of_In, filter_In. intros [Hin _].
  by apply list_elem_of_In in Hin.
Qed.

Lemma NoDup_map_filter {A B} (f : A → B) (p : A → bool) l :
  NoDup (map f l) → NoDup (map f (List.filter p l)).
Proof.
  induction l as [|x l IH]; cbn; [done|]. intros [Hni Hnd]%NoDup_cons. destruct (p x); cbn; [|by apply IH].
  apply NoDup_cons. split; [|by apply IH]. rewrite list_elem_of_In in Hni |- *. intros (y & Hf & Hy)%in_map_iff.
  apply Hni, in_map_iff. apply filter_In in Hy as [Hy _]. eauto.
Qed.

Lemma NoDup_key_inj {A B} (f : A → B) (l : list A) x y :
  NoDup (map f l) → In x l → In y l → f x = f y → x = y.
Proof.
  induction l as [|a l IH]; [done|]. cbn. intros [Hni Hnd]%NoDup_cons.
  assert (Hno : ∀ z, In z l → f z ≠ f a) by (intros z Hz E; apply Hni, list_elem_of_In, in_map_iff; eauto).
  intros [<-|Hx] [<-|Hy] E; [done|by apply Hno in Hy|by apply Hno in Hx|auto].
Qed.

Lemma filter_none {A} (p : A → bool) l : (∀ x, In x l → p x = false) → List.filter p l = [].
Proof.
  induction l as [|x l IH]; intros Hp; [done|]. cbn. rewrite (Hp x (or_introl eq_refl)).
  apply IH. intros y Hy. apply Hp. by right.
Qed.

Lemma filter_all {A} (p : A → bool) l : (∀ x, In x l → p x = true) → List.filter p l = l.
Proof.
  induction l as [|x l IH]; intros Hp; [done|]. cbn. rewrite (Hp x (or_introl eq_refl)). f_equal.
  apply IH. intros y Hy. apply Hp. by right.
Qed.

Lemma order_by_priority_sorted l :
  StronglySorted (ordered (λ a b, br_priority a <=? br_priority b)) (order_by_priority l).
Proof. apply sort_by_sorted; intros *; rewrite ?Z.leb_le, ?Z.leb_gt; lia. Qed.

Lemma active_In now r rows :
  In r (BlockRuleManager.active now rows) ↔
  In r rows ∧ br_is_active r = true ∧ not_expired now (br_expires_at r) = true.
Proof.
  unfold BlockRuleManager.active. unfold order_by_priority. rewrite sort_by_In, filter_In, andb_true_iff. done.
Qed.
