(* ===== verification/AutoRule.v ===== *)
(** * Auto-generated rules ([services/anomaly_detector.py], internal helpers)

    The one guarded path on which detectors and the challenge escalation write
    [BlockRule] rows: read the existing row, drop what an operator has decided,
    merge the detector names, then update or create; duplicates are removed
    and a lost insert race is merged into the winning row. *)

From Stdlib Require Import ZArith QArith Qround Lqa Lia Ascii String Sorted.
From stdpp Require Import base tactics option list strings numbers gmap.
From S2P Require Import Prelude PyStr IpAddress PyTime Codec Regex Conf Redis.
From S2P Require Import Models.

Open Scope Z_scope.

(** ** Pure helpers *)

(** [_get_subnet_prefix]. *)
Definition get_subnet_prefix (ip : string) : res string :=
  match ip_address ip with
  | None => Raise ValueError
  | Some parsed =>
      let prefix_length := if ip_version parsed =? 4 then "24" else "48" in
      match ip_network_of (ip +:+ "/" +:+ prefix_length) with
      | Some n => Ok (network_str n)
      | None => Raise ValueError
      end
  end.

(** [_scaled_confidence], in hundredths; [ROUND_HALF_UP] of a non-negative value. *)
Definition scaled_confidence (observed threshold span : Q) : Z :=
  let safe_span := if negb (Qle_bool span 0) then span else 1%Q in
  let raw := ((1 # 2) + (observed - threshold) / safe_span)%Q in
  let raised := if Qle_bool raw (1 # 2) then (1 # 2)%Q else raw in      (* max(0.5, raw) *)
  let clamped := if Qle_bool (984 # 1000) raised then (984 # 1000)%Q else raised in
  Qfloor (clamped * 100 + (1 # 2)).

(** [sorted] on a set of names. *)
Definition sort_names : list string → list string := sort_by str_leb.

(** [_merge_detector_names]. *)
Definition merge_detector_names (existing_value detector_name : string) : string :=
  let names := List.filter (λ n, negb (str_empty n)) (split_on "," existing_value) in
  let names := if str_empty detector_name then names else detector_name :: names in
  join "," (sort_names (remove_dups names)).

(** ** The key and the values of one write *)

Record Lookup : Type := {
  lk_rule_type : RuleType;
  lk_pattern : string;
  lk_action : RuleAction;
}.

(** [filter(rule_type=..., pattern=..., source=AUTO, action=...)]. *)
Definition lookup_matches (lk : Lookup) (r : BlockRule) : bool :=
  bool_decide (br_source r = RuleSource_AUTO)
  && bool_decide (br_rule_type r = lk_rule_type lk)
  && bool_decide (br_pattern r = lk_pattern lk)
  && bool_decide (br_action r = lk_action lk).

(** The [defaults] dictionary; [None] is an absent key. *)
Record Defaults : Type := {
  df_name : string;
  df_match_type : MatchType;
  df_is_active : option bool;
  df_review_status : option ReviewStatus;
  df_expires_at : option Z;
  df_confidence : option Z;
  df_notes : option string;
  df_detectors : string;
}.

(** [setattr] of every default, then [save()]. *)
Definition apply_defaults (now : Z) (df : Defaults) (r : BlockRule) : BlockRule := {|
  br_id := br_id r; br_name := df_name df; br_rule_type := br_rule_type r;
  br_match_type := df_match_type df; br_pattern := br_pattern r; br_action := br_action r;
  br_priority := br_priority r;
  br_is_active := default (br_is_active r) (df_is_active df);
  br_source := br_source r; br_expires_at := df_expires_at df;
  br_hit_count := br_hit_count r; br_last_hit_at := br_last_hit_at r;
  br_confidence := default (br_confidence r) (df_confidence df);
  br_feed_first_seen := br_feed_first_seen r; br_feed_reporters := br_feed_reporters r;
  br_notes := default (br_notes r) (df_notes df);
  br_review_status := default (br_review_status r) (df_review_status df);
  br_reviewed_at := br_reviewed_at r; br_detectors := df_detectors df;
  br_created_at := br_created_at r; br_updated_at := now;
|}.

(** A [BlockRule] built from the lookup and the defaults, with the field defaults of the model. *)
Definition new_row (now id : Z) (lk : Lookup) (df : Defaults) : BlockRule := {|
  br_id := id; br_name := df_name df; br_rule_type := lk_rule_type lk;
  br_match_type := df_match_type df; br_pattern := lk_pattern lk; br_action := lk_action lk;
  br_priority := 100; br_is_active := default true (df_is_active df);
  br_source := RuleSource_AUTO; br_expires_at := df_expires_at df;
  br_hit_count := 0; br_last_hit_at := None;
  br_confidence := default 100 (df_confidence df);
  br_feed_first_seen := None; br_feed_reporters := 0;
  br_notes := default "" (df_notes df);
  br_review_status := default NOT_APPLICABLE (df_review_status df);
  br_reviewed_at := None; br_detectors := df_detectors df;
  br_created_at := now; br_updated_at := now;
|}.

(** [Meta.ordering] of [BlockRule]: by priority, newest first. *)
Definition meta_order (a b : BlockRule) : bool :=
  (br_priority a <? br_priority b)
  || ((br_priority a =? br_priority b) && (br_created_at b <=? br_created_at a)).

Definition first_row (rows : list BlockRule) : option BlockRule := hd_error (sort_by meta_order rows).

Definition reviewed (s : ReviewStatus) : bool :=
  bool_decide (s = CONFIRMED) || bool_decide (s = REJECTED).

Section AutoRule.
Context {R P : Type} `{RedisClient R} (uuid4 : nat → Z).

Definition select (lk : Lookup) : M (World R P) (list BlockRule) :=
  db_read (λ w, List.filter (lookup_matches lk) (w_block_rules w)).

(** [BlockRule.objects.update_or_create] on the lookup with [defaults=df]: zero, one or
    several rows match.  Another transaction may commit between the read and
    the insert; the partial unique constraint then refuses the insert. *)
Definition update_or_create (lk : Lookup) (df : Defaults) : M (World R P) (BlockRule * bool) :=
  found <- select lk ;;
  t <- clock ;;
  match found with
  | [] =>
      interleave ;;;
      id <- draw uuid4 ;;
      rows <- db_read w_block_rules ;;
      if existsb (lookup_matches lk) rows then raise IntegrityError else
      let row := new_row t id lk df in
      set_block_rules (rows ++ [row]) ;;;
      on_block_rule_save ;;;
      ret (row, true)
  | [old] =>
      let row := apply_defaults t df old in
      rows <- db_read w_block_rules ;;
      set_block_rules (map (λ r, if lookup_matches lk r then row else r) rows) ;;;
      on_block_rule_save ;;;
      ret (row, false)
  | _ => raise MultipleObjectsReturned
  end.

(** [_auto_rule_write_defaults]. *)
Definition auto_rule_write_defaults (lk : Lookup) (df : Defaults) (detector_name : string)
  : M (World R P) (option BlockRule * Defaults) :=
  found <- select lk ;;
  let existing := first_row found in
  let guarded := match existing with Some e => reviewed (br_review_status e) | None => false end in
  ret (existing, {|
    df_name := df_name df; df_match_type := df_match_type df;
    df_is_active := if guarded then None else df_is_active df;
    df_review_status := if guarded then None else df_review_status df;
    df_expires_at := df_expires_at df; df_confidence := df_confidence df;
    df_notes := df_notes df;
    df_detectors := merge_detector_names
      (match existing with Some e => br_detectors e | None => "" end) detector_name |}).

(** [_update_or_create_auto_rule]: only [IntegrityError] is caught. *)
Definition update_or_create_auto_rule (lk : Lookup) (df : Defaults) (detector_name : string)
  : M (World R P) (BlockRule * bool) :=
  prepared <- auto_rule_write_defaults lk df detector_name ;;
  try_except (update_or_create lk prepared.2) (λ e,
    if negb (bool_decide (e = IntegrityError)) then raise e else
    retry <- auto_rule_write_defaults lk df detector_name ;;
    match retry.1 with
    | None => raise DoesNotExist
    | Some _ => update_or_create lk retry.2
    end).

(** [_deduplicate_block_rules]: keep the newest row, delete the others
    (each deletion sends [post_delete]). *)
Definition deduplicate_block_rules (lk : Lookup) : M (World R P) Z :=
  found <- select lk ;;
  if (length found <=? 1)%nat then ret 0 else
  match sort_by (λ a b, br_created_at b <=? br_created_at a) found with
  | [] => ret 0
  | newest :: _ =>
      rows <- db_read w_block_rules ;;
      let doomed r := lookup_matches lk r && negb (br_id r =? br_id newest) in
      set_block_rules (List.filter (λ r, negb (doomed r)) rows) ;;;
      foldr (λ _ k, on_block_rule_delete ;;; k) (ret tt) (List.filter doomed rows) ;;;
      ret (Z.of_nat (length (List.filter doomed rows)))
  end.

(** The values every write starts from. *)
Definition auto_defaults (conf : Conf) (name : string) (match_type : MatchType)
    (expiry : option Z) (detector_name : string) (confidence : option Z)
    (evidence : option (list (string * string))) : Defaults :=
  let quarantine := DJANGO_WAF_ANOMALY_QUARANTINE_AUTO_RULES conf in
  let observe_only := DJANGO_WAF_ANOMALY_OBSERVE_ONLY_DETECTORS conf in
  let is_active_on_create := negb (quarantine || bool_decide (detector_name ∈ observe_only)) in
  {| df_name := name; df_match_type := match_type;
     df_is_active := Some is_active_on_create;
     df_review_status := Some (if is_active_on_create then NOT_APPLICABLE else PENDING_REVIEW);
     df_expires_at := expiry; df_confidence := confidence;
     df_notes := (λ ev, join (String (chr 10) "") (map (λ '(k, v), k +:+ ": " +:+ v) ev)) <$> evidence;
     df_detectors := "" |}.

(** [_get_or_create_auto_rule]. *)
Definition get_or_create_auto_rule (conf : Conf) (name : string) (rule_type : RuleType)
    (match_type : MatchType) (pattern : string) (action : RuleAction) (expiry : option Z)
    (dry_run : bool) (detector_name : string) (confidence : option Z)
    (evidence : option (list (string * string))) (count_refresh_as_created : bool)
  : M (World R P) (BlockRule * bool) :=
  let lk := {| lk_rule_type := rule_type; lk_pattern := pattern; lk_action := action |} in
  let df := auto_defaults conf name match_type expiry detector_name confidence evidence in
  if dry_run then
    found <- select lk ;;
    match first_row found with
    | Some existing => ret (existing, count_refresh_as_created)
    | None =>
        t <- clock ;;
        id <- draw uuid4 ;;
        ret (new_row t id lk {| df with df_detectors := merge_detector_names "" detector_name |}, true)
    end
  else
    try_except (update_or_create_auto_rule lk df detector_name) (λ e,
      if bool_decide (e = MultipleObjectsReturned) then
        deduplicate_block_rules lk ;;;
        update_or_create_auto_rule lk df detector_name
      else raise e).
End AutoRule.

(** ** What each step does to the state *)

Section Steps.
Context {R P : Type} `{RedisClient R} (uuid4 : nat → Z).
Implicit Types w : World R P.

Lemma on_redis_total {A} (m : Z → M R A) : (∀ t, total (m t)) → total (on_redis (P:=P) m).
Proof.
  intros Hm w. unfold on_redis. specialize (Hm (w_now w) (w_redis w)).
  destruct (m _ _) as [[a|e] r]; done.
Qed.

Lemma invalidate_total : total (invalidate_rule_cache (R:=R) (P:=P)).
Proof. apply total_try. intros e. apply total_ret. Qed.

(** Bumping the version touches Redis only. *)
Lemma invalidate_eq w :
  ∃ rd, invalidate_rule_cache w = (Ok tt, {| w with w_redis := rd |}).
Proof.
  unfold invalidate_rule_cache, try_except, bind, on_redis, ret.
  destruct (exec _ _ _) as [[v|e] rd]; by exists rd.
Qed.

Lemma update_or_create_update lk df w old :
  w_db_up w = true → List.filter (lookup_matches lk) (w_block_rules w) = [old] →
  ∃ rd, update_or_create uuid4 lk df w =
    (Ok (apply_defaults (w_now w) df old, false),
     {| {| w with w_block_rules :=
          map (λ r, if lookup_matches lk r then apply_defaults (w_now w) df old else r)
            (w_block_rules w) |} with w_redis := rd |}).
Proof.
  intros Hup Hf. unfold update_or_create, select, db_read, set_block_rules, db_write, clock, gets, bind.
  rewrite Hup, Hf. cbn. rewrite Hup. cbn. rewrite Hup. cbn. unfold on_block_rule_save.
  match goal with |- context [invalidate_rule_cache ?w1] =>
    destruct (invalidate_eq w1) as [rd ->] end.
  by exists rd.
Qed.

(** No row matches, no other transaction intervenes: a new row. *)
Lemma update_or_create_insert lk df w :
  w_db_up w = true → w_concurrent w = [] →
  List.filter (lookup_matches lk) (w_block_rules w) = [] →
  let row := new_row (w_now w) (uuid4 (w_fresh w)) lk df in
  ∃ rd, update_or_create uuid4 lk df w = (Ok (row, true),
    {| {| {| w with w_fresh := S (w_fresh w) |} with w_block_rules := w_block_rules w ++ [row] |}
       with w_redis := rd |}).
Proof.
  intros Hup Hc Hf row.
  assert (He : existsb (lookup_matches lk) (w_block_rules w) = false).
  { apply existsb_false_iff. intros x Hx. destruct (lookup_matches lk x) eqn:E; [|done].
    assert (Hin : In x (List.filter (lookup_matches lk) (w_block_rules w))) by by apply filter_In.
    by rewrite Hf in Hin. }
  unfold update_or_create, select, db_read, set_block_rules, db_write, clock, gets, bind,
    interleave, modify, draw.
  rewrite Hup, Hf. cbn. rewrite Hc. cbn. rewrite ?Hup. cbn. rewrite He. cbn. rewrite ?Hup. cbn.
  unfold on_block_rule_save.
  match goal with |- context [invalidate_rule_cache ?w1] =>
    destruct (invalidate_eq w1) as [rd ->] end.
  exists rd. by rewrite ?Hc.
Qed.

(** Another transaction wins the race between the read and the insert: the
    constraint refuses the insert, and the other rows are there. *)
Lemma update_or_create_race lk df w f fs :
  w_db_up w = true → w_concurrent w = f :: fs →
  List.filter (lookup_matches lk) (w_block_rules w) = [] →
  existsb (lookup_matches lk) (f (w_block_rules w)) = true →
  ∃ w', update_or_create uuid4 lk df w = (Raise IntegrityError, w') ∧
        w_block_rules w' = f (w_block_rules w) ∧ w_concurrent w' = fs ∧
        w_db_up w' = true ∧ w_now w' = w_now w.
Proof.
  intros Hup Hc Hf He.
  unfold update_or_create, select, db_read, set_block_rules, db_write, clock, gets, bind,
    interleave, modify, draw.
  rewrite Hup, Hf. cbn. rewrite Hc. cbn. rewrite ?Hup. cbn. rewrite He. cbn.
  eexists. split_and!; [reflexivity|done|done|done|done].
Qed.

Lemma write_defaults_eq lk df d w :
  w_db_up w = true →
  let existing := first_row (List.filter (lookup_matches lk) (w_block_rules w)) in
  let guarded := match existing with Some e => reviewed (br_review_status e) | None => false end in
  auto_rule_write_defaults lk df d w = (Ok (existing, {|
    df_name := df_name df; df_match_type := df_match_type df;
    df_is_active := if guarded then None else df_is_active df;
    df_review_status := if guarded then None else df_review_status df;
    df_expires_at := df_expires_at df; df_confidence := df_confidence df;
    df_notes := df_notes df;
    df_detectors := merge_detector_names
      (match existing with Some e => br_detectors e | None => "" end) d |}), w).
Proof.
  intros Hup. unfold auto_rule_write_defaults, select, db_read, bind. rewrite Hup. reflexivity.
Qed.
End Steps.

Lemma lookup_matches_apply lk t df r :
  lookup_matches lk (apply_defaults t df r) = lookup_matches lk r.
Proof. reflexivity. Qed.

Lemma filter_replace lk t df old rows :
  List.filter (lookup_matches lk) rows = [old] →
  List.filter (lookup_matches lk)
    (map (λ r, if lookup_matches lk r then apply_defaults t df old else r) rows)
  = [apply_defaults t df old].
Proof.
  intros Hf. assert (Hold : lookup_matches lk old = true).
  { assert (Hin : In old (List.filter (lookup_matches lk) rows)) by (rewrite Hf; by left).
    by apply filter_In in Hin as [_ ?]. }
  assert (Hnone : ∀ l, List.filter (lookup_matches lk) l = [] →
    List.filter (lookup_matches lk)
      (map (λ r, if lookup_matches lk r then apply_defaults t df old else r) l) = []).
  { induction l as [|x l IH]; simpl; [done|]. destruct (lookup_matches lk x) eqn:E; [done|].
    rewrite E. apply IH. }
  revert Hf. induction rows as [|x rows IH]; simpl; [done|].
  destruct (lookup_matches lk x) eqn:E.
  - intros [= -> Hf]. rewrite lookup_matches_apply, Hold. f_equal. by apply Hnone.
  - rewrite E. apply IH.
Qed.

Lemma filter_insert lk t id df rows :
  List.filter (lookup_matches lk) rows = [] →
  List.filter (lookup_matches lk) (rows ++ [new_row t id lk df]) = [new_row t id lk df].
Proof.
  intros Hf. rewrite List.filter_app, Hf. simpl. unfold lookup_matches. simpl.
  by rewrite !bool_decide_true.
Qed.

(** ** The set of detector names *)

(** The names a stored value stands for. *)
Definition names_of (value : string) : list string :=
  List.filter (λ n, negb (str_empty n)) (split_on "," value).

Lemma names_of_join ps :
  (∀ p, In p ps → char_in "," p = false ∧ p ≠ "") → names_of (join "," ps) = ps.
Proof.
  intros Hps. unfold names_of. destruct ps as [|p ps]; [reflexivity|].
  change "," with (String "," "") at 1. rewrite split_on_join; [|done|intros q Hq; by apply Hps].
  induction (p :: ps) as [|q l IH]; [done|]. simpl.
  destruct (Hps q (or_introl eq_refl)) as [_ Hne].
  destruct q; [done|]. simpl. f_equal. apply IH. intros x Hx. apply Hps. by right.
Qed.

(** A detector name as the code writes them. *)
Definition plain_name (d : string) : Prop := char_in "," d = false.

Lemma merge_detector_names_spec old d :
  plain_name d →
  (∀ n, In n (names_of (merge_detector_names old d)) ↔ In n (names_of old) ∨ (n = d ∧ d ≠ "")) ∧
  NoDup (names_of (merge_detector_names old d)) ∧
  StronglySorted (ordered str_leb) (names_of (merge_detector_names old d)).
Proof.
  intros Hd. unfold merge_detector_names. fold (names_of old).
  set (names := if str_empty d then names_of old else d :: names_of old).
  assert (Hin : ∀ n, In n names ↔ In n (names_of old) ∨ (n = d ∧ d ≠ "")).
  { intros n. unfold names. destruct d; simpl; naive_solver. }
  assert (Hall : ∀ n, In n (sort_names (remove_dups names)) ↔ In n names).
  { intros n. unfold sort_names. rewrite sort_by_In, <- !list_elem_of_In. apply elem_of_remove_dups. }
  rewrite names_of_join.
  - split_and!.
    + intros n. by rewrite Hall, Hin.
    + unfold sort_names. rewrite sort_by_perm. apply NoDup_remove_dups.
    + apply sort_by_sorted.
      * apply str_leb_total.
      * apply str_leb_trans.
  - intros p Hp%Hall%Hin. destruct Hp as [Hp|[-> Hne]]; [|done].
    unfold names_of in Hp. apply filter_In in Hp as [Hp Hne].
    split; [by eapply split_on_parts|]. by destruct p.
Qed.

(** ** The unique key of auto-generated rules *)

Lemma lookup_matches_key lk r :
  lookup_matches lk r = true ↔
  auto_key r = Some (lk_rule_type lk, lk_pattern lk, lk_action lk).
Proof.
  unfold lookup_matches, auto_key. split.
  - intros Hm. bool_hyps. rewrite bool_decide_true by done. congruence.
  - case_bool_decide; [|done]. intros [= -> -> ->]. by rewrite !bool_decide_true.
Qed.

Lemma unique_replace lk row rows :
  lookup_matches lk row = true → auto_keys_unique rows →
  auto_keys_unique (map (λ r, if lookup_matches lk r then row else r) rows).
Proof.
  intros Hrow. unfold auto_keys_unique.
  replace (omap auto_key (map _ rows)) with (omap auto_key rows); [done|].
  induction rows as [|r rows IH]; [done|]. simpl.
  destruct (lookup_matches lk r) eqn:E.
  - apply lookup_matches_key in E, Hrow. rewrite E, Hrow. f_equal. exact IH.
  - destruct (auto_key r); [f_equal|]; exact IH.
Qed.

Lemma unique_insert rows lk t id df :
  existsb (lookup_matches lk) rows = false → auto_keys_unique rows →
  auto_keys_unique (rows ++ [new_row t id lk df]).
Proof.
  unfold auto_keys_unique. intros He Hu. rewrite omap_app. apply NoDup_app. split_and!; [done| |].
  - intros k Hk Hin. rewrite list_elem_of_omap in Hk. destruct Hk as (r & Hr & Hkey).
    simpl in Hin. apply list_elem_of_singleton in Hin as ->.
    rewrite existsb_false_iff in He. apply list_elem_of_In in Hr. specialize (He r Hr).
    assert (Hm : lookup_matches lk r = true) by by apply lookup_matches_key. congruence.
  - simpl. apply NoDup_singleton.
Qed.

Lemma unique_filter p rows : auto_keys_unique rows → auto_keys_unique (List.filter p rows).
Proof.
  unfold auto_keys_unique. intros Hu.
  assert (Hs : omap auto_key (List.filter p rows) `sublist_of` omap auto_key rows).
  { clear Hu. induction rows as [|r rows IH]; [done|]. simpl.
    destruct (p r); simpl; destruct (auto_key r); by auto using sublist_skip, sublist_cons. }
  by eapply sublist_NoDup.
Qed.

(** The table is well formed, and the other transactions keep it so. *)
Definition db_ok {R P} (w : World R P) : Prop :=
  auto_keys_unique (w_block_rules w) ∧
  Forall (λ f, ∀ rows, auto_keys_unique rows → auto_keys_unique (f rows)) (w_concurrent w).

Section Invariant.
Context {R P : Type} `{RedisClient R} (uuid4 : nat → Z).
Notation ok := (@db_ok R P).

Lemma db_ok_on_redis {A} (m : Z → M R A) : preserves ok (on_redis m).
Proof. intros w Hw. unfold on_redis. by destruct (m _ _). Qed.

Lemma db_ok_read {A} (f : World R P → A) : preserves ok (db_read f).
Proof. intros w Hw. unfold db_read. by destruct (w_db_up w). Qed.

Lemma db_ok_draw {A} (f : nat → A) : preserves ok (draw f).
Proof. by intros w Hw. Qed.

Lemma db_ok_interleave : preserves ok interleave.
Proof.
  intros w [Hu Hc]. unfold interleave, modify. cbn. destruct (w_concurrent w) as [|f fs] eqn:E.
  - split; [done|]. by rewrite E.
  - inversion Hc; subst. split; cbn; [auto|done].
Qed.

Lemma db_ok_save : preserves ok on_block_rule_save.
Proof. apply preserves_try; [|intros; apply preserves_ret]. 
  apply preserves_bind; [apply db_ok_on_redis|intros; apply preserves_ret]. Qed.

(** Read the table, then refuse or replace it by something well formed. *)
Lemma db_ok_update {A} (c : list BlockRule → bool) e (g : list BlockRule → list BlockRule)
    (k : M (World R P) A) :
  (∀ rows, auto_keys_unique rows → c rows = false → auto_keys_unique (g rows)) →
  preserves ok k →
  preserves ok (rows <- db_read w_block_rules ;;
                if c rows then raise e else set_block_rules (g rows) ;;; k).
Proof.
  intros Hg Hk w [Hu Hc]. unfold bind, db_read, set_block_rules, db_write.
  destruct (w_db_up w) eqn:E; cbn; [|done].
  destruct (c (w_block_rules w)) eqn:Ec; [done|]. rewrite E. cbn. apply Hk. split; cbn; auto.
Qed.

Lemma db_ok_update_or_create lk df : preserves ok (update_or_create uuid4 lk df).
Proof.
  intros w Hw. unfold update_or_create, bind at 1, select, db_read at 1.
  destruct (w_db_up w); [|done].
  destruct (List.filter (lookup_matches lk) (w_block_rules w)) as [|old [|? ?]] eqn:Ef.
  - revert w Hw Ef. intros w Hw _. revert w Hw.
    apply preserves_bind; [apply preserves_gets|intros t].
    apply preserves_bind; [apply db_ok_interleave|intros _].
    apply preserves_bind; [apply db_ok_draw|intros id].
    apply (db_ok_update (existsb (lookup_matches lk))).
    + intros rows Hu He. by apply unique_insert.
    + apply preserves_bind; [apply db_ok_save|intros; apply preserves_ret].
  - assert (Hold : lookup_matches lk old = true).
    { assert (Hin : In old (List.filter (lookup_matches lk) (w_block_rules w)))
        by (rewrite Ef; by left). by apply filter_In in Hin as [_ ?]. }
    revert w Hw Ef. intros w Hw _. revert w Hw.
    apply preserves_bind; [apply preserves_gets|intros t].
    apply (db_ok_update (λ _, false) IntegrityError).
    + intros rows Hu _. by apply unique_replace.
    + apply preserves_bind; [apply db_ok_save|intros; apply preserves_ret].
  - revert w Hw Ef. intros w Hw _. revert w Hw.
    apply preserves_bind; [apply preserves_gets|intros t; apply preserves_raise].
Qed.

Lemma db_ok_write_defaults lk df d : preserves ok (auto_rule_write_defaults lk df d).
Proof. apply preserves_bind; [apply db_ok_read|intros; apply preserves_ret]. Qed.

Lemma db_ok_update_or_create_auto lk df d : preserves ok (update_or_create_auto_rule uuid4 lk df d).
Proof.
  apply preserves_bind; [apply db_ok_write_defaults|intros p].
  apply preserves_try; [apply db_ok_update_or_create|intros e].
  destruct (negb _); [apply preserves_raise|].
  apply preserves_bind; [apply db_ok_write_defaults|intros [[old|] df']].
  - apply db_ok_update_or_create.
  - apply preserves_raise.
Qed.

Lemma db_ok_deduplicate lk : preserves ok (deduplicate_block_rules lk).
Proof.
  apply preserves_bind; [apply db_ok_read|intros found].
  destruct (_ <=? _)%nat; [apply preserves_ret|].
  destruct (sort_by _ found) as [|newest l]; [apply preserves_ret|].
  intros w Hw. unfold bind at 1, db_read. destruct (w_db_up w) eqn:E; [|done].
  unfold bind at 1, set_block_rules, db_write. rewrite E.
  match goal with |- ok (bind ?m ?k ?w1).2 => assert (Hp : preserves ok (bind m k)) end.
  - apply preserves_bind; [|intros; apply preserves_ret].
    induction (List.filter _ (w_block_rules w)) as [|x l' IH]; simpl; [apply preserves_ret|].
    apply preserves_bind; [apply db_ok_save|intros _; apply IH].
  - apply Hp. destruct Hw as [Hu Hc]. split; cbn; [by apply unique_filter|done].
Qed.

Lemma db_ok_get_or_create conf name rt mt pat act expiry dry d confidence ev cr :
  preserves ok (get_or_create_auto_rule uuid4 conf name rt mt pat act expiry dry d confidence ev cr).
Proof.
  unfold get_or_create_auto_rule. destruct dry.
  - apply preserves_bind; [apply db_ok_read|intros found].
    destruct (first_row found); [apply preserves_ret|].
    apply preserves_bind; [apply preserves_gets|intros t].
    apply preserves_bind; [apply db_ok_draw|intros id; apply preserves_ret].
  - apply preserves_try; [apply db_ok_update_or_create_auto|intros e].
    case_bool_decide; [|apply preserves_raise].
    apply preserves_bind; [apply db_ok_deduplicate|intros _; apply db_ok_update_or_create_auto].
Qed.
End Invariant.

(** ** The guarded write, in one equation *)

Section Guard.
Context {R P : Type} `{RedisClient R} (uuid4 : nat → Z).
Implicit Types w : World R P.

(** What a write leaves of the row [old]. *)
Definition refreshed (now : Z) (df : Defaults) (d : string) (old : BlockRule) : BlockRule :=
  let guarded := reviewed (br_review_status old) in
  apply_defaults now {|
    df_name := df_name df; df_match_type := df_match_type df;
    df_is_active := if guarded then None else df_is_active df;
    df_review_status := if guarded then None else df_review_status df;
    df_expires_at := df_expires_at df; df_confidence := df_confidence df;
    df_notes := df_notes df;
    df_detectors := merge_detector_names (br_detectors old) d |} old.

Lemma first_row_one r : first_row [r] = Some r.
Proof. reflexivity. Qed.

Lemma auto_rule_refresh lk df d w old :
  w_db_up w = true → List.filter (lookup_matches lk) (w_block_rules w) = [old] →
  ∃ rd, let w' := {| {| w with w_block_rules :=
            map (λ r, if lookup_matches lk r then refreshed (w_now w) df d old else r)
              (w_block_rules w) |} with w_redis := rd |} in
    update_or_create_auto_rule uuid4 lk df d w = (Ok (refreshed (w_now w) df d old, false), w') ∧
    List.filter (lookup_matches lk) (w_block_rules w') = [refreshed (w_now w) df d old].
Proof.
  intros Hup Hf. unfold update_or_create_auto_rule, bind.
  rewrite write_defaults_eq by done. rewrite Hf, first_row_one. cbn [fst snd].
  unfold try_except.
  match goal with |- context [update_or_create uuid4 lk ?df' w] =>
    destruct (update_or_create_update uuid4 lk df' w old Hup Hf) as [rd ->] end.
  exists rd. split; [reflexivity|]. cbn. by apply filter_replace.
Qed.

Lemma auto_rule_race lk df d w f fs winner :
  w_db_up w = true → w_concurrent w = f :: fs →
  List.filter (lookup_matches lk) (w_block_rules w) = [] →
  List.filter (lookup_matches lk) (f (w_block_rules w)) = [winner] →
  ∃ w', update_or_create_auto_rule uuid4 lk df d w
        = (Ok (refreshed (w_now w) df d winner, false), w') ∧
    List.filter (lookup_matches lk) (w_block_rules w') = [refreshed (w_now w) df d winner].
Proof.
  intros Hup Hc Hf Hw. unfold update_or_create_auto_rule, bind.
  rewrite write_defaults_eq by done. rewrite Hf. cbn [fst snd]. unfold try_except.
  assert (He : existsb (lookup_matches lk) (f (w_block_rules w)) = true).
  { apply existsb_exists. exists winner. apply filter_In. rewrite Hw. by left. }
  match goal with |- context [update_or_create uuid4 lk ?df' w] =>
    destruct (update_or_create_race uuid4 lk df' w f fs Hup Hc Hf He)
      as (w1 & -> & Hr1 & Hc1 & Hup1 & Hn1) end.
  rewrite bool_decide_true by done. cbn [negb].
  rewrite write_defaults_eq by done. rewrite Hr1, Hw, first_row_one. cbn [fst snd].
  match goal with |- context [update_or_create uuid4 lk ?df' w1] =>
    destruct (update_or_create_update uuid4 lk df' w1 winner Hup1 ltac:(by rewrite Hr1)) as [rd ->] end.
  rewrite <- Hn1. eexists. split; [reflexivity|]. cbn. rewrite Hr1. by apply filter_replace.
Qed.
End Guard.

(** ** Properties *)

Module AutoRuleProps.

(** An operator's decision survives re-detection.  When the one stored row
    of the key has been confirmed or rejected, a run (by any detector, in any
    quarantine mode) reports an existing rule and leaves [is_active] and
    [review_status] as the operator set them, both in the returned rule and in
    the table, while the expiry is refreshed. *)
Lemma review_decision_survives {R P} `{RedisClient R} uuid4 conf name rt mt pat act expiry d
    confidence ev cr (w : World R P) old :
  let lk := {| lk_rule_type := rt; lk_pattern := pat; lk_action := act |} in
  w_db_up w = true → List.filter (lookup_matches lk) (w_block_rules w) = [old] →
  reviewed (br_review_status old) = true →
  ∃ row w',
    get_or_create_auto_rule uuid4 conf name rt mt pat act expiry false d confidence ev cr w
    = (Ok (row, false), w') ∧
    List.filter (lookup_matches lk) (w_block_rules w') = [row] ∧
    br_is_active row = br_is_active old ∧ br_review_status row = br_review_status old ∧
    br_expires_at row = expiry.
Proof.
  intros lk Hup Hf Hrev. unfold get_or_create_auto_rule. fold lk. unfold try_except.
  match goal with |- context [update_or_create_auto_rule uuid4 lk ?df d w] =>
    destruct (auto_rule_refresh uuid4 lk df d w old Hup Hf) as (rd & -> & Hw') end.
  eexists _, _. split; [reflexivity|]. split; [exact Hw'|].
  unfold refreshed, apply_defaults. rewrite Hrev. done.
Qed.

(** No run ever breaks the uniqueness of auto-generated rules: whatever
    it returns or raises, and whatever well-behaved transactions commit in
    between, two AUTO rows never share a (type, pattern, action) key. *)
Lemma auto_keys_stay_unique {R P} `{RedisClient R} uuid4 conf name rt mt pat act expiry dry d
    confidence ev cr (w w' : World R P) r :
  db_ok w →
  get_or_create_auto_rule uuid4 conf name rt mt pat act expiry dry d confidence ev cr w = (r, w') →
  auto_keys_unique (w_block_rules w').
Proof. intros Hok Hrun. by apply (preserves_Ok _ _ _ _ _ (db_ok_get_or_create uuid4 _ _ _ _ _ _ _ _ _ _ _ _) Hok) in Hrun as [? _]. Qed.

(** A lost insert race is merged into the winner.  When no row exists at
    the read and another transaction commits the row before the insert, the
    call still succeeds, reports an existing rule, applies the review guard to
    the winning row and adds this detector to the names already there. *)
Lemma lost_race_merges {R P} `{RedisClient R} uuid4 conf name rt mt pat act expiry d
    confidence ev cr (w : World R P) f fs winner :
  let lk := {| lk_rule_type := rt; lk_pattern := pat; lk_action := act |} in
  w_db_up w = true → w_concurrent w = f :: fs →
  List.filter (lookup_matches lk) (w_block_rules w) = [] →
  List.filter (lookup_matches lk) (f (w_block_rules w)) = [winner] →
  plain_name d → d ≠ "" →
  ∃ row w',
    get_or_create_auto_rule uuid4 conf name rt mt pat act expiry false d confidence ev cr w
    = (Ok (row, false), w') ∧
    List.filter (lookup_matches lk) (w_block_rules w') = [row] ∧
    br_id row = br_id winner ∧
    (reviewed (br_review_status winner) = true → br_is_active row = br_is_active winner) ∧
    In d (names_of (br_detectors row)) ∧
    (∀ n, In n (names_of (br_detectors winner)) → In n (names_of (br_detectors row))).
Proof.
  intros lk Hup Hc Hf Hw Hd Hne. unfold get_or_create_auto_rule. fold lk. unfold try_except.
  match goal with |- context [update_or_create_auto_rule uuid4 lk ?df d w] =>
    destruct (auto_rule_race uuid4 lk df d w f fs winner Hup Hc Hf Hw) as (w' & -> & Hw') end.
  destruct (merge_detector_names_spec (br_detectors winner) d Hd) as (Hnames & _ & _).
  eexists _, w'. split; [reflexivity|]. split; [exact Hw'|].
  split; [reflexivity|]. split; [|split].
  - intros Hrev. unfold refreshed, apply_defaults. by rewrite Hrev.
  - apply Hnames. by right.
  - intros n Hn. apply Hnames. by left.
Qed.

(** The confidence of an auto-generated rule lies in [0.50, 0.98] for
    every observation, threshold and span, degenerate spans included: it never
    reaches the 0.99 ceiling nor the 1.00 of hand-written rules. *)
Lemma scaled_confidence_bounds observed threshold span :
  50 <= scaled_confidence observed threshold span <= 98.
Proof.
  unfold scaled_confidence.
  set (raw := ((1 # 2) + _)%Q). clearbody raw.
  set (raised := if Qle_bool raw (1 # 2) then _ else _).
  assert (Hr : (1 # 2 <= raised)%Q).
  { unfold raised. destruct (Qle_bool raw (1 # 2)) eqn:E; [apply Qle_refl|].
    apply Qlt_le_weak, Qnot_le_lt. intros Hle. apply Qle_bool_iff in Hle. congruence. }
  clearbody raised.
  assert (Hc : (1 # 2 <= (if Qle_bool (984 # 1000) raised then (984 # 1000) else raised) <= 984 # 1000)%Q).
  { destruct (Qle_bool (984 # 1000) raised) eqn:E; [split; [discriminate|apply Qle_refl]|].
    split; [done|]. apply Qlt_le_weak, Qnot_le_lt. intros Hle. apply Qle_bool_iff in Hle. congruence. }
  set (c := if Qle_bool (984 # 1000) raised then _ else _) in *. clearbody c.
  split.
  - change 50 with (Qfloor (101 # 2)). apply Qfloor_resp_le. lra.
  - change 98 with (Qfloor (989 # 10)). apply Qfloor_resp_le. lra.
Qed.

(** *** Witnesses *)

Definition sample_rule : BlockRule := {|
  br_id := 7; br_name := "Auto"; br_rule_type := RuleType_IP; br_match_type := MatchType_EXACT;
  br_pattern := "192.0.2.1"; br_action := RuleAction_BLOCK; br_priority := 100;
  br_is_active := false; br_source := RuleSource_AUTO; br_expires_at := Some 5;
  br_hit_count := 0; br_last_hit_at := None; br_confidence := 100; br_feed_first_seen := None;
  br_feed_reporters := 0; br_notes := ""; br_review_status := REJECTED; br_reviewed_at := Some 4;
  br_detectors := "detect_ua_rotation"; br_created_at := 1; br_updated_at := 1 |}.

Definition sample_world (rules : list BlockRule)
    (others : list (list BlockRule → list BlockRule)) : World MemRedis LiteRe := {|
  w_now := 1000 * usec; w_redis := {| mem := ∅ |}; w_db_up := true; w_block_rules := rules;
  w_allow_rules := []; w_request_log := []; w_tokens := []; w_reputation := []; w_fresh := 0; w_concurrent := others;
  w_process_cache := None; w_process_cache_version := -1; w_ua_pattern_cache := ∅ |}.

Definition sample_call := get_or_create_auto_rule (R:=MemRedis) (P:=LiteRe) Z.of_nat (default_conf "s") "x" RuleType_IP
  MatchType_EXACT "192.0.2.1" RuleAction_BLOCK (Some 9) false "challenge_escalation" None None false.

Lemma review_decision_survives_witness :
  ∃ row w', sample_call (sample_world [sample_rule] []) = (Ok (row, false), w') ∧
    br_is_active row = false ∧ br_review_status row = REJECTED ∧ br_expires_at row = Some 9.
Proof.
  destruct (review_decision_survives Z.of_nat (default_conf "s") "x" RuleType_IP MatchType_EXACT
    "192.0.2.1" RuleAction_BLOCK (Some 9) "challenge_escalation" None None false
    (sample_world [sample_rule] []) sample_rule eq_refl) as (row & w' & H1 & H2 & H3 & H4 & H5);
    [reflexivity|reflexivity|].
  exists row, w'. split; [exact H1|]. split; [exact H3|]. split; [exact H4|exact H5].
Defined.

Lemma auto_keys_stay_unique_witness :
  auto_keys_unique (w_block_rules (sample_call (sample_world [sample_rule] [])).2).
Proof.
  destruct (sample_call (sample_world [sample_rule] [])) as [r w'] eqn:E.
  assert (Hok : db_ok (sample_world [sample_rule] [])).
  { split; [apply NoDup_singleton|constructor]. }
  exact (auto_keys_stay_unique _ _ _ _ _ _ _ _ _ _ _ _ _ _ w' r Hok E).
Defined.

Lemma lost_race_merges_witness :
  ∃ row w', sample_call (sample_world [] [λ rows, rows ++ [sample_rule]]) = (Ok (row, false), w') ∧
    br_is_active row = false ∧ In "challenge_escalation" (names_of (br_detectors row)) ∧
    In "detect_ua_rotation" (names_of (br_detectors row)).
Proof.
  destruct (lost_race_merges Z.of_nat (default_conf "s") "x" RuleType_IP MatchType_EXACT
    "192.0.2.1" RuleAction_BLOCK (Some 9) "challenge_escalation" None None false
    (sample_world [] [λ rows, rows ++ [sample_rule]]) (λ rows, rows ++ [sample_rule]) [] sample_rule
    eq_refl eq_refl eq_refl eq_refl eq_refl) as (row & w' & H1 & H2 & H3 & H4 & H5 & H6);
    [discriminate|].
  exists row, w'. split; [exact H1|]. split; [apply H4; reflexivity|].
  split; [exact H5|]. apply H6. left. reflexivity.
Defined.

End AutoRuleProps.
