(* ===== verification/RuleEngine.v ===== *)
(** * The rule engine ([services/rule_engine.py])

    The decision taken on every request: the rule cache (process cache, Redis
    copy, rebuild from the database under a lock), allow rules with
    forward-confirmed reverse DNS, the blocked-IP fast path, block rules, rate
    limits, the no-referer challenge, the scores, and the escalation gate every
    challenge goes through. *)

From Stdlib Require Import ZArith QArith Lia Ascii String.
From stdpp Require Import base tactics option list strings numbers gmap.
From S2P Require Import Prelude PyStr IpAddress Hash PyTime Codec Regex Conf.
From S2P Require Import Redis RateLimiter Fingerprint Models AutoRule.

Open Scope Z_scope.

Record EvaluationResult : Type := {
  er_verdict : Verdict;
  er_action : option string;
  er_matched_rule_id : option Z;
  er_matched_rule_type : string;
  er_anomaly_score : option Q;
  er_retry_after : option Z;
  er_window : option string;
}.

(** A result without rule, score or throttle data. *)
Definition plain_result (v : Verdict) (action : option string) : EvaluationResult :=
  {| er_verdict := v; er_action := action; er_matched_rule_id := None; er_matched_rule_type := "";
     er_anomaly_score := None; er_retry_after := None; er_window := None |}.

(** DNS: [None] is any resolver error. *)
Class Dns := {
  gethostbyaddr : string → option string;
  getaddrinfo : string → option (list string);
}.

(** ** Keys and constants *)

Definition rules_cache_key (version : Z) : string := "waf:rules:cache:" +:+ str_of_Z version.
Definition blocked_ip_key (ip : string) : string := "waf:blocked:" +:+ ip.
Definition challenged_key (ip : string) : string := "waf:challenged:" +:+ ip.
Definition solved_key (ip : string) : string := "waf:solved:" +:+ ip.
Definition rule_hits_key (rule_id : string) : string := "waf:rule_hits:" +:+ rule_id.
Definition STATS_KEY : string := "waf:stats:today".
Definition CACHE_TTL : Z := 600.
Definition FCRDNS_POSITIVE_CACHE_TTL : Z := 86400.
Definition REBUILD_LOCK_KEY : string := "waf:rule_cache:lock".
Definition REBUILD_LOCK_TTL : Z := 5.
Definition REBUILD_LOCK_RETRIES : nat := 3.
Definition REBUILD_LOCK_RETRY_DELAY : Z := 100000.

Definition JSONDecodeError : exn := OtherError "JSONDecodeError".

(** A JSON value equal to the string [s]. *)
Definition jis (s : string) (v : json) : bool :=
  match v with JStr t => bool_decide (t = s) | _ => false end.

(** Iterating over a value: a non-list raises. *)
Definition jlist (v : json) : res (list json) :=
  match v with JArr l => Ok l | _ => Raise (OtherError "TypeError") end.

(** ** Rule dictionaries *)

Definition json_of_expiry (t : option Z) : json :=
  match t with Some t => JStr (isoformat t) | None => JNull end.

Definition json_of_block_rule (r : BlockRule) : json := JObj
  [("id", JStr (uuid_str (br_id r))); ("rule_type", JStr (RuleType_value (br_rule_type r)));
   ("match_type", JStr (MatchType_value (br_match_type r))); ("pattern", JStr (br_pattern r));
   ("action", JStr (RuleAction_value (br_action r))); ("priority", JInt (br_priority r));
   ("expires_at", json_of_expiry (br_expires_at r))].

Definition json_of_allow_rule (r : AllowRule) : json := JObj
  [("id", JStr (uuid_str (ar_id r))); ("rule_type", JStr (RuleType_value (ar_rule_type r)));
   ("match_type", JStr (MatchType_value (ar_match_type r))); ("pattern", JStr (ar_pattern r));
   ("verify_rdns", JBool (ar_verify_rdns r)); ("rdns_pattern", JStr (ar_rdns_pattern r));
   ("expires_at", json_of_expiry (ar_expires_at r))].

(** [AllowRule.Meta.ordering]. *)
Definition order_by_name : list AllowRule → list AllowRule :=
  sort_by (λ a b, str_leb (ar_name a) (ar_name b)).

(** [_is_cached_rule_expired]. *)
Definition is_cached_rule_expired (now : Z) (rule : json) : res bool :=
  res_bind (jget_default rule "expires_at" JNull) (λ expires_at,
    if negb (jtruthy expires_at) then Ok false else
    res_bind (jstr expires_at) (λ s,
      match fromisoformat s with
      | Some expiry => Ok (expiry <=? now)
      | None => Raise ValueError
      end)).

(** ** Address matching *)

(** [_match_ip]. *)
Definition match_ip (ip_addr pattern : string) (match_type : json) : bool :=
  if jis "exact" match_type || jis "cidr" match_type then bool_decide (ip_addr = pattern) else false.

(** [_match_cidr]. *)
Definition match_cidr (ip cidr_pattern : string) : bool :=
  match ip_address ip, ip_network_of cidr_pattern with
  | Some a, Some n => in_network a n
  | _, _ => false
  end.

(** [pattern.split("||", 1)] when the separator occurs. *)
Fixpoint split_bars (s : string) : option (string * string) :=
  if starts_with "||" s then Some (EmptyString, str_drop 2 s)
  else match s with
       | EmptyString => None
       | String c s' => '(a, b) ← split_bars s'; Some (String c a, b)
       end.

(** [_action_to_verdict]. *)
Definition action_to_verdict (action : string) : Verdict :=
  if bool_decide (action = RuleAction_value RuleAction_BLOCK) then BLOCKED
  else if bool_decide (action = RuleAction_value RuleAction_CHALLENGE) then CHALLENGED
  else if bool_decide (action = RuleAction_value RuleAction_THROTTLE) then THROTTLED
  else if bool_decide (action = RuleAction_value RuleAction_LOG_ONLY) then LOGGED
  else BLOCKED.

(** [_score_to_verdict]. *)
Definition score_to_verdict (conf : Conf) (score : Q) : Verdict * option string :=
  if qge score (DJANGO_WAF_SCORE_THRESHOLD_BLOCK conf)
  then (BLOCKED, Some (RuleAction_value RuleAction_BLOCK))
  else if qge score (DJANGO_WAF_SCORE_THRESHOLD_CHALLENGE conf)
  then (CHALLENGED, Some (RuleAction_value RuleAction_CHALLENGE))
  else if qge score (DJANGO_WAF_SCORE_THRESHOLD_LOG conf)
  then (LOGGED, Some (RuleAction_value RuleAction_LOG_ONLY))
  else (ALLOWED, None).

(** [_fcrdns_cache_key]. *)
Definition fcrdns_cache_key (ip rdns_pattern : string) : string :=
  "waf:bot_fcrdns:" +:+ ip +:+ ":" +:+ str_take 12 (hexdigest (sha1 (encode rdns_pattern))).

Section Engine.
Context {R P : Type} `{RedisClient R} `{ReEngine P} `{Dns} (uuid4 : nat → Z) (conf : Conf).
Abbreviation W := (World R P).

Definition get_key (k : string) : M W (option string) := on_redis (λ t, redis_get t k).
Definition send (c : cmd) : M W reply := on_redis (λ t, exec t c).

Definition memoise (pattern : string) (c : option P) : M W unit :=
  modify (λ w, {| w with w_ua_pattern_cache := <[pattern := c]> (w_ua_pattern_cache w) |}).

(** ** The rule cache *)

(** The body of the loop of [_compile_ua_patterns]: the compiled entry of
    one rule, if it has one. *)
Definition compile_ua_rule (rule : json) : M W (list (P * json)) :=
  rule_type <- lift_res (jget rule "rule_type") ;;
  if negb (jis "ua" rule_type) then ret [] else
  pattern <- lift_res (res_bind (jget rule "pattern") jstr) ;;
  match_type <- lift_res (jget rule "match_type") ;;
  if jis "regex" match_type then
    match re_compile pattern with
    | Some c => memoise pattern (Some c) ;;; ret [(c, rule)]
    | None => memoise pattern None ;;; ret []
    end
  else
    let text := if jis "contains" match_type then Some (re_escape pattern)
                else if jis "exact" match_type then Some (String "^" (re_escape pattern +:+ "$"))
                else None in
    match text with
    | None => ret []
    | Some text =>
        match re_compile text with
        | Some c => ret [(c, rule)]
        | None => memoise pattern None ;;; ret []
        end
    end.

Fixpoint compile_ua_patterns (block_rules : list json) : M W (list (P * json)) :=
  match block_rules with
  | [] => ret []
  | rule :: rules =>
      c <- compile_ua_rule rule ;; cs <- compile_ua_patterns rules ;; ret (c ++ cs)
  end.

(** [_acquire_rebuild_lock]: [attempts] more tries. *)
Fixpoint acquire_lock_loop (attempts : nat) : M W bool :=
  r <- try_except
         (v <- send (SETNX REBUILD_LOCK_KEY "1" REBUILD_LOCK_TTL) ;;
          match v with ROk => ret (Some true) | _ => ret None end)
         (λ _, ret (Some false)) ;;
  match r with
  | Some b => ret b
  | None =>
      match attempts with
      | O => ret false
      | S n => sleep REBUILD_LOCK_RETRY_DELAY ;;; acquire_lock_loop n
      end
  end.
Definition acquire_rebuild_lock : M W bool := acquire_lock_loop REBUILD_LOCK_RETRIES.

Definition release_rebuild_lock : M W unit :=
  try_except (send (DEL REBUILD_LOCK_KEY) ;;; ret tt) (λ _, ret tt).

(** [_rebuild_rule_cache_from_db]. *)
Definition rebuild_rule_cache_from_db (version : Z) (cache_key : string) : M W (RuleCache P) :=
  t <- clock ;;
  block_rules <- db_read (λ w, map json_of_block_rule (BlockRuleManager.active t (w_block_rules w))) ;;
  allow_rules <- db_read (λ w, map json_of_allow_rule
                                 (order_by_name (AllowRuleManager.active t (w_allow_rules w)))) ;;
  let data := JObj [("allow_rules", JArr allow_rules); ("block_rules", JArr block_rules)] in
  send (SETEX cache_key CACHE_TTL (dumps data)) ;;;
  ua_regex_set <- compile_ua_patterns block_rules ;;
  ret {| rc_version := version; rc_allow_rules := allow_rules; rc_block_rules := block_rules;
         rc_ua_regex_set := ua_regex_set |}.

(** [_rebuild_rule_cache]. *)
Definition rebuild_rule_cache (version : Z) (cache_key : string) : M W (RuleCache P) :=
  lock_acquired <- acquire_rebuild_lock ;;
  try_finally (rebuild_rule_cache_from_db version cache_key)
    (if lock_acquired then release_rebuild_lock else ret tt).

(** The [try] block that reads the Redis copy. *)
Definition read_cached (version : Z) (cached : string) : M W (RuleCache P) :=
  match loads cached with
  | None => raise JSONDecodeError
  | Some data =>
      allow_rules <- lift_res (res_bind (jget_default data "allow_rules" (JArr [])) jlist) ;;
      block_rules <- lift_res (res_bind (jget_default data "block_rules" (JArr [])) jlist) ;;
      ua_regex_set <- compile_ua_patterns block_rules ;;
      ret {| rc_version := version; rc_allow_rules := allow_rules;
             rc_block_rules := block_rules; rc_ua_regex_set := ua_regex_set |}
  end.

Definition set_process_cache (result : RuleCache P) (version : Z) : M W unit :=
  modify (λ w, {| {| w with w_process_cache := Some result |} with
                  w_process_cache_version := version |}).

(** [load_rule_cache]. *)
Definition load_rule_cache : M W (RuleCache P) :=
  raw_version <- get_key RULES_VERSION_KEY ;;
  version <- lift_res (match raw_version with
                       | Some s => if str_empty s then Ok 0
                                   else match py_int s with Some v => Ok v | None => Raise ValueError end
                       | None => Ok 0
                       end) ;;
  current <- gets (λ w, match w_process_cache w with
                        | Some c => if w_process_cache_version w =? version then Some c else None
                        | None => None
                        end) ;;
  match current with
  | Some c => ret c
  | None =>
      let cache_key := rules_cache_key version in
      cached <- get_key cache_key ;;
      from_redis <-
        (match cached with
         | Some s =>
             if str_empty s then ret None else
             try_except (result <- read_cached version s ;; ret (Some result))
               (λ e, if bool_decide (e = JSONDecodeError) || bool_decide (e = KeyError)
                     then ret None else raise e)
         | None => ret None
         end) ;;
      result <- (match from_redis with
                 | Some result => ret result
                 | None => rebuild_rule_cache version cache_key
                 end) ;;
      set_process_cache result version ;;; ret result
  end.

(** ** Matching *)

(** [_get_compiled_ua_regex]. *)
Definition get_compiled_ua_regex (pattern : string) : M W (option P) :=
  hit <- gets (λ w, w_ua_pattern_cache w !! pattern) ;;
  match hit with
  | Some c => ret c
  | None => let c := re_compile pattern in memoise pattern c ;;; ret c
  end.

(** [_match_ua]. *)
Definition match_ua (user_agent pattern : string) (match_type : json) : M W bool :=
  if jis "exact" match_type then ret (bool_decide (user_agent = pattern))
  else if jis "contains" match_type then ret (str_in (lower pattern) (lower user_agent))
  else if jis "regex" match_type then
    compiled <- get_compiled_ua_regex pattern ;;
    match compiled with
    | None => ret false
    | Some c => ret (re_find c user_agent)
    end
  else ret false.

(** [_rule_matches]. *)
Definition rule_matches (rule : json) (ip user_agent : string) : M W bool :=
  rule_type <- lift_res (jget rule "rule_type") ;;
  match_type <- lift_res (jget rule "match_type") ;;
  pattern <- lift_res (res_bind (jget rule "pattern") jstr) ;;
  if jis "ua" rule_type then match_ua user_agent pattern match_type
  else if jis "ip" rule_type then ret (match_ip ip pattern match_type)
  else if jis "cidr" rule_type then ret (match_cidr ip pattern)
  else if jis "composite" rule_type then
    match split_bars pattern with
    | None => ret false
    | Some (ua_part, ip_part) =>
        ua_match <- match_ua user_agent (strip ua_part) match_type ;;
        let ip_match := match_ip ip (strip ip_part) match_type || match_cidr ip (strip ip_part) in
        ret (ua_match && ip_match)
    end
  else ret false.

(** [_record_rule_hit]. *)
Definition record_rule_hit (rule_id : string) : M W unit :=
  try_except (send (INCR (rule_hits_key rule_id)) ;;;
              send (EXPIRE (rule_hits_key rule_id) (86400 * 2)) ;;; ret tt) (λ _, ret tt).

(** [_resolve_and_confirm_rdns]. *)
Definition resolve_and_confirm_rdns (ip rdns_pattern : string) : bool :=
  match gethostbyaddr ip with
  | None => false
  | Some hostname =>
      if str_empty hostname then false else
      match re_compile rdns_pattern with
      | None => false
      | Some c =>
          if negb (re_find c hostname) then false else
          match getaddrinfo hostname with
          | None => false
          | Some forward_addresses =>
              match ip_address ip with
              | None => false
              | Some target =>
                  existsb (λ candidate, match ip_address candidate with
                                        | Some a => bool_decide (a = target)
                                        | None => false
                                        end) forward_addresses
              end
          end
      end
  end.

(** [_verify_rdns]. *)
Definition verify_rdns (ip rdns_pattern : string) : M W bool :=
  let cache_key := fcrdns_cache_key ip rdns_pattern in
  cached_verdict <- get_key cache_key ;;
  match cached_verdict with
  | Some v => ret (bool_decide (v = "1"))
  | None =>
      let verdict := resolve_and_confirm_rdns ip rdns_pattern in
      let ttl := if verdict then FCRDNS_POSITIVE_CACHE_TTL else DJANGO_WAF_RDNS_FAILURE_CACHE_TTL conf in
      send (SETEX cache_key ttl (if verdict then "1" else "0")) ;;; ret verdict
  end.

Definition rule_id (rule : json) : M W string := lift_res (res_bind (jget rule "id") jstr).

(** The rDNS condition of an allow rule that matched. *)
Definition rdns_satisfied (rule : json) (ip : string) : M W bool :=
  verify <- lift_res (jget_default rule "verify_rdns" JNull) ;;
  if negb (jtruthy verify) then ret true else
  pattern <- lift_res (jget_default rule "rdns_pattern" JNull) ;;
  if negb (jtruthy pattern) then ret true else
  p <- lift_res (jstr pattern) ;; verify_rdns ip p.

(** [_check_allow_rules]. *)
Fixpoint check_allow_rules (ip user_agent : string) (rules : list json) : M W (option string) :=
  match rules with
  | [] => ret None
  | rule :: rules =>
      t <- clock ;;
      expired <- lift_res (is_cached_rule_expired t rule) ;;
      if expired then check_allow_rules ip user_agent rules else
      m <- rule_matches rule ip user_agent ;;
      if negb m then check_allow_rules ip user_agent rules else
      ok <- rdns_satisfied rule ip ;;
      if negb ok then check_allow_rules ip user_agent rules else
      id <- rule_id rule ;; ret (Some id)
  end.

(** [_check_block_rules]. *)
Fixpoint check_block_rules (ip user_agent : string) (rules : list json)
  : M W (option (string * json)) :=
  match rules with
  | [] => ret None
  | rule :: rules =>
      t <- clock ;;
      expired <- lift_res (is_cached_rule_expired t rule) ;;
      if expired then check_block_rules ip user_agent rules else
      m <- rule_matches rule ip user_agent ;;
      if negb m then check_block_rules ip user_agent rules else
      id <- rule_id rule ;;
      record_rule_hit id ;;; ret (Some (id, rule))
  end.

(** [_score_path]: the loop, with the score so far. *)
Fixpoint score_path_loop (path : string) (patterns : list string) (score : Q) : Q :=
  match patterns with
  | [] => score
  | pattern :: patterns =>
      match re_compile (P:=P) pattern with
      | None => score_path_loop path patterns score
      | Some c =>
          if re_find c path then
            let score := (score + DJANGO_WAF_SUSPICIOUS_PATH_SCORE conf)%Q in
            if qge score 10 then 10%Q else score_path_loop path patterns score
          else score_path_loop path patterns score
      end
  end.
Definition score_path (path : string) : Q :=
  score_path_loop path (DJANGO_WAF_SUSPICIOUS_PATH_PATTERNS conf) 0.

(** ** Escalation *)

(** [_get_unsolved_challenge_count]. *)
Definition get_unsolved_challenge_count (ip fingerprint_verdict : string) : M W Z :=
  try_except
    (count <- get_key (challenged_key ip) ;;
     match count with
     | None => ret 0
     | Some s =>
         if str_empty s then ret 0 else
         n <- lift_res (match py_int s with Some n => Ok n | None => Raise ValueError end) ;;
         if bool_decide (fingerprint_verdict = "bot") then ret n else
         solved <- get_key (solved_key ip) ;;
         match solved with
         | Some s' => if str_empty s' then ret n else send (DEL (challenged_key ip)) ;;; ret 0
         | None => ret n
         end
     end)
    (λ _, ret 0).

(** [_create_escalation_rule]. *)
Definition create_escalation_rule (ip : string) : M W (option BlockRule) :=
  try_except
    (t <- clock ;;
     created <- get_or_create_auto_rule uuid4 conf
       ("Auto: escalated from repeated challenges (" +:+ ip +:+ ")") RuleType_IP MatchType_EXACT ip
       RuleAction_BLOCK (Some (t + DJANGO_WAF_ESCALATION_BLOCK_TTL conf * usec)) false
       "challenge_escalation" None None false ;;
     ret (Some created.1))
    (λ _, ret None).

(** [record_block_verdict]. *)
Definition record_block_verdict (ip : string) (ttl : Z) (rule : option string) : M W unit :=
  let value := match rule with Some r => if str_empty r then "1" else r | None => "1" end in
  send (SETEX (blocked_ip_key ip) ttl value) ;;;
  send (HINCRBY STATS_KEY "blocked" 1) ;;; ret tt.

(** [_gate_challenge_or_escalate]. *)
Definition gate_challenge_or_escalate (ip : string) (challenge_result : EvaluationResult)
    (fingerprint_verdict : string) : M W EvaluationResult :=
  challenged_count <- get_unsolved_challenge_count ip fingerprint_verdict ;;
  if challenged_count <? DJANGO_WAF_CHALLENGE_ESCALATION_THRESHOLD conf then ret challenge_result else
  escalation_rule <- create_escalation_rule ip ;;
  record_block_verdict ip (DJANGO_WAF_ESCALATION_BLOCK_TTL conf)
    ((λ r, uuid_str (br_id r)) <$> escalation_rule) ;;;
  ret (plain_result BLOCKED (Some (RuleAction_value RuleAction_BLOCK))).

(** ** [evaluate_request], step by step *)

Definition parse_uuid (s : string) : M W Z :=
  lift_res (match uuid_of s with Some u => Ok u | None => Raise ValueError end).

(** Step 4: allow rules. *)
Definition step_allow (ip user_agent : string) (cache : RuleCache P) : M W (option EvaluationResult) :=
  allow_result <- check_allow_rules ip user_agent (rc_allow_rules cache) ;;
  match allow_result with
  | None => ret None
  | Some matched_id =>
      u <- parse_uuid matched_id ;;
      ret (Some {| er_verdict := PASSED; er_action := None; er_matched_rule_id := Some u;
                   er_matched_rule_type := "allow"; er_anomaly_score := None;
                   er_retry_after := None; er_window := None |})
  end.

(** Step 5: the blocked-IP fast path, with the attribution of the entry. *)
Definition step_blocked_ip (ip : string) : M W (option EvaluationResult) :=
  cached_value <- get_key (blocked_ip_key ip) ;;
  match cached_value with
  | None => ret None
  | Some v =>
      if str_empty v then ret None else
      matched_rule_id <-
        (if bool_decide (v = "1") then ret None else
         match uuid_of v with
         | Some u => record_rule_hit v ;;; ret (Some u)
         | None => ret None
         end) ;;
      ret (Some {| er_verdict := BLOCKED; er_action := Some (RuleAction_value RuleAction_BLOCK);
                   er_matched_rule_id := matched_rule_id;
                   er_matched_rule_type := match matched_rule_id with Some _ => "block" | None => "" end;
                   er_anomaly_score := None; er_retry_after := None; er_window := None |})
  end.

(** Step 6: block rules; a challenge goes through the gate. *)
Definition step_block_rules (ip user_agent : string) (cache : RuleCache P)
    (fingerprint_verdict : string) : M W (option EvaluationResult) :=
  block_result <- check_block_rules ip user_agent (rc_block_rules cache) ;;
  match block_result with
  | None => ret None
  | Some (matched_id, rule) =>
      action <- lift_res (res_bind (jget rule "action") jstr) ;;
      let verdict := action_to_verdict action in
      u <- parse_uuid matched_id ;;
      let result := {| er_verdict := verdict; er_action := Some action;
                       er_matched_rule_id := Some u; er_matched_rule_type := "block";
                       er_anomaly_score := None; er_retry_after := None; er_window := None |} in
      if bool_decide (verdict = CHALLENGED)
      then r <- gate_challenge_or_escalate ip result fingerprint_verdict ;; ret (Some r)
      else ret (Some result)
  end.

(** Step 7: rate limits. *)
Definition step_rate_limit (ip path method : string) : M W (option EvaluationResult) :=
  rate_result <- on_redis (check_rate_limit conf ip path method) ;;
  ret (if exceeded rate_result then
         Some {| er_verdict := THROTTLED; er_action := Some (RuleAction_value RuleAction_THROTTLE);
                 er_matched_rule_id := None; er_matched_rule_type := ""; er_anomaly_score := None;
                 er_retry_after := rl_retry_after rate_result; er_window := rl_window rate_result |}
       else None).

(** Step 8: the no-referer challenge. *)
Definition no_referer_exempt (path : string) : bool :=
  existsb (λ p, bool_decide (path = p) || starts_with p path)
    (DJANGO_WAF_NO_REFERER_EXEMPT_PATHS conf).

Definition step_no_referer (ip path referer fingerprint_verdict : string)
  : M W (option EvaluationResult) :=
  if DJANGO_WAF_CHALLENGE_NO_REFERER conf && str_empty referer && negb (no_referer_exempt path) then
    r <- gate_challenge_or_escalate ip
           (plain_result CHALLENGED (Some (RuleAction_value RuleAction_CHALLENGE)))
           fingerprint_verdict ;;
    ret (Some r)
  else ret None.

(** Steps 9 to 11: path, header and User-Agent scores. *)
Definition fingerprint_score (user_agent : string) (request_meta : Meta) : M W Q :=
  if bool_decide (request_meta = ∅) then ret 0%Q else
  let fp_hash := compute_fingerprint request_meta in
  known <- on_redis (is_known_fingerprint fp_hash) ;;
  if known then ret 0%Q else lift_res (score_fingerprint_mismatch user_agent request_meta).

Definition user_agent_score (ip user_agent : string) : M W Q :=
  recent_count <- on_redis (get_request_count ip "5m") ;;
  ret (if 10 <? recent_count then score_user_agent user_agent else 0%Q).

Definition step_scores (ip user_agent path : string) (request_meta : Meta)
    (fingerprint_verdict : string) : M W EvaluationResult :=
  let path_score := score_path path in
  fp_score <- fingerprint_score user_agent request_meta ;;
  ua_score <- user_agent_score ip user_agent ;;
  let total_score := (ua_score + path_score + fp_score)%Q in
  if Qle_bool total_score 0 then ret (plain_result ALLOWED None) else
  let '(verdict, action) := score_to_verdict conf total_score in
  let result := {| er_verdict := verdict; er_action := action; er_matched_rule_id := None;
                   er_matched_rule_type := ""; er_anomaly_score := Some total_score;
                   er_retry_after := None; er_window := None |} in
  if bool_decide (verdict = CHALLENGED)
  then gate_challenge_or_escalate ip result fingerprint_verdict
  else ret result.

(** [return] from a step that answered, or go on. *)
Definition or_else (m : M W (option EvaluationResult)) (k : M W EvaluationResult)
  : M W EvaluationResult :=
  r <- m ;; match r with Some result => ret result | None => k end.

Definition evaluate_request (ip user_agent path method referer : string) (request_meta : Meta)
  : M W EvaluationResult :=
  fingerprint_verdict <- lift_res (classify_fingerprint user_agent request_meta) ;;
  cache <- load_rule_cache ;;
  or_else (step_allow ip user_agent cache)
    (or_else (step_blocked_ip ip)
      (or_else (step_block_rules ip user_agent cache fingerprint_verdict)
        (or_else (step_rate_limit ip path method)
          (or_else (step_no_referer ip path referer fingerprint_verdict)
            (step_scores ip user_agent path request_meta fingerprint_verdict))))).
End Engine.
