(* ===== verification/RuleEngineProofs.v ===== *)
(** * Theorems on the rule engine

    Memoised pattern compilation is transparent; the cached rule dictionaries
    carry expiry faithfully and survive the trip through Redis; rules are
    matched first-come and never after they expire; reverse DNS is
    forward-confirmed and its verdict cached; every challenge goes through the
    escalation gate; and the two ways the decision is skipped that the code
    does not intend. *)

From Stdlib Require Import ZArith QArith Lqa Lia Ascii String.
From stdpp Require Import base tactics option list strings numbers gmap.
From S2P Require Import Prelude PyStr IpAddress Hash PyTime Codec Regex Conf.
From S2P Require Import Redis RateLimiter Fingerprint Models AutoRule RuleEngine.
Import AutoRuleProps.

Open Scope Z_scope.

(** ** Memoised compilation *)

Section Memo.
Context {R P : Type} `{RedisClient R} `{ReEngine P}.
Abbreviation W := (World R P).

(** Every memoised entry is what compiling its pattern gives. *)
Definition memo_ok (w : W) : Prop :=
  ∀ p c, w_ua_pattern_cache w !! p = Some c → c = re_compile p.

(** The states differ in the memo at most. *)
Definition memo_only (w w' : W) : Prop :=
  w' = {| w with w_ua_pattern_cache := w_ua_pattern_cache w' |}.

Lemma memo_only_refl w : memo_only w w.
Proof. by destruct w. Qed.

Lemma memo_only_trans w1 w2 w3 : memo_only w1 w2 → memo_only w2 w3 → memo_only w1 w3.
Proof. unfold memo_only. intros -> ->. by destruct w1. Qed.

Local Ltac same_state w :=
  solve [exists w; split_and!; [reflexivity|assumption|apply memo_only_refl]].

(** The reference: a match without any cache. *)
Definition ua_matches (user_agent pattern : string) (match_type : json) : bool :=
  if jis "exact" match_type then bool_decide (user_agent = pattern)
  else if jis "contains" match_type then str_in (lower pattern) (lower user_agent)
  else if jis "regex" match_type then
    match re_compile pattern with None => false | Some c => re_find c user_agent end
  else false.

Definition rule_matches_spec (rule : json) (ip user_agent : string) : res bool :=
  res_bind (jget rule "rule_type") (λ rule_type,
  res_bind (jget rule "match_type") (λ match_type,
  res_bind (res_bind (jget rule "pattern") jstr) (λ pattern,
    Ok (if jis "ua" rule_type then ua_matches user_agent pattern match_type
        else if jis "ip" rule_type then match_ip ip pattern match_type
        else if jis "cidr" rule_type then match_cidr ip pattern
        else if jis "composite" rule_type then
          match split_bars pattern with
          | None => false
          | Some (ua_part, ip_part) =>
              ua_matches user_agent (strip ua_part) match_type &&
              (match_ip ip (strip ip_part) match_type || match_cidr ip (strip ip_part))
          end
        else false)))).

Lemma match_ua_spec user_agent pattern mt w :
  memo_ok w →
  ∃ w', match_ua user_agent pattern mt w = (Ok (ua_matches user_agent pattern mt), w') ∧
        memo_ok w' ∧ memo_only w w'.
Proof.
  intros Hm. unfold match_ua, ua_matches.
  destruct (jis "exact" mt); [same_state w|].
  destruct (jis "contains" mt); [same_state w|].
  destruct (jis "regex" mt); [|same_state w].
  unfold get_compiled_ua_regex, bind, gets, memoise, modify, ret.
  destruct (w_ua_pattern_cache w !! pattern) as [c|] eqn:E.
  - pose proof (Hm _ _ E) as Hc. exists w. cbn. rewrite <- Hc. split_and!; [by destruct c|done|apply memo_only_refl].
  - exists {| w with w_ua_pattern_cache := <[pattern := re_compile pattern]> (w_ua_pattern_cache w) |}.
    cbn. split; [by destruct (re_compile pattern)|]. split.
    + intros p c. cbn. destruct (decide (pattern = p)) as [<-|].
      * rewrite lookup_insert_eq. congruence.
      * rewrite lookup_insert_ne by done. apply Hm.
    + done.
Qed.

Lemma rule_matches_refines rule ip ua w :
  memo_ok w →
  ∃ w', rule_matches rule ip ua w = (rule_matches_spec rule ip ua, w') ∧
        memo_ok w' ∧ memo_only w w'.
Proof.
  intros Hm. unfold rule_matches, rule_matches_spec, bind, lift_res.
  destruct (jget rule "rule_type") as [rt|e]; simpl; [|same_state w].
  destruct (jget rule "match_type") as [mt|e]; simpl; [|same_state w].
  destruct (res_bind (jget rule "pattern") jstr) as [p|e]; simpl;
    [|same_state w].
  destruct (jis "ua" rt); [by apply match_ua_spec|].
  destruct (jis "ip" rt); [same_state w|].
  destruct (jis "cidr" rt); [same_state w|].
  destruct (jis "composite" rt); [|same_state w].
  destruct (split_bars p) as [[a b]|]; [|same_state w].
  destruct (match_ua_spec ua (strip a) mt w Hm) as (w' & -> & Hm' & Ho).
  exists w'. done.
Qed.
End Memo.

(** Compiling a rule set keeps the memo right: an escaped text always compiles,
    so only an invalid regex is memoised as invalid. *)
Section MemoKept.
Context {R P : Type} `{RedisClient R} `{ReEscapes P} `{Dns}.
Abbreviation W := (World R P).

Lemma memo_ok_memoise p : preserves (memo_ok (R:=R) (P:=P)) (memoise p (re_compile p)).
Proof.
  intros w Hw q c. cbn. destruct (decide (p = q)) as [<-|].
  - rewrite lookup_insert_eq. congruence.
  - rewrite lookup_insert_ne by done. apply Hw.
Qed.

Lemma memo_ok_compile_rule rule : preserves (memo_ok (R:=R) (P:=P)) (compile_ua_rule rule).
Proof.
  unfold compile_ua_rule.
  apply preserves_bind; [apply preserves_lift|intros rt].
  destruct (negb (jis "ua" rt)); [apply preserves_ret|].
  apply preserves_bind; [apply preserves_lift|intros p].
  apply preserves_bind; [apply preserves_lift|intros mt].
  destruct (jis "regex" mt).
  - pose proof (memo_ok_memoise p) as Hp. destruct (re_compile p);
      (apply preserves_bind; [exact Hp|intros; apply preserves_ret]).
  - destruct (jis "contains" mt).
    { destruct (compile_escaped p) as [c ->]. apply preserves_ret. }
    destruct (jis "exact" mt); [|apply preserves_ret].
    destruct (compile_anchored p) as [c ->]. apply preserves_ret.
Qed.

Lemma memo_ok_compile rules : preserves (memo_ok (R:=R) (P:=P)) (compile_ua_patterns rules).
Proof.
  induction rules as [|r rules IH]; simpl; [apply preserves_ret|].
  apply preserves_bind; [apply memo_ok_compile_rule|intros c].
  apply preserves_bind; [apply IH|intros; apply preserves_ret].
Qed.
End MemoKept.

(** ** Expiry of cached rules *)

Lemma jfind_cons k v kvs :
  jfind k ((k, v) :: kvs) = match jfind k kvs with Some w => Some w | None => Some v end.
Proof.
  unfold jfind. simpl. rewrite find_app. destruct (List.find _ (rev kvs)); [done|].
  simpl. by rewrite bool_decide_true.
Qed.

Lemma cached_block_rule_expiry now r :
  (∀ t, br_expires_at r = Some t → valid_datetime t = true) →
  is_cached_rule_expired now (json_of_block_rule r) = Ok (negb (not_expired now (br_expires_at r))).
Proof.
  intros Hv.
  change (is_cached_rule_expired now (json_of_block_rule r)) with
    (let e := json_of_expiry (br_expires_at r) in
     if negb (jtruthy e) then Ok false else
     res_bind (jstr e) (λ s, match fromisoformat s with
       | Some expiry => Ok (expiry <=? now) | None => Raise ValueError end)).
  unfold not_expired. destruct (br_expires_at r) as [t|]; [|done].
  cbn [json_of_expiry jtruthy jstr res_bind].
  assert (Hne : str_empty (isoformat t) = false).
  { destruct (isoformat t) eqn:E; [|done].
    pose proof (fromisoformat_isoformat t (Hv t eq_refl)) as Hr. by rewrite E in Hr. }
  rewrite Hne. cbn [negb]. rewrite fromisoformat_isoformat by auto. f_equal. by rewrite Z.leb_antisym.
Qed.

(** ** First match *)

Section Matching.
Context {R P : Type} `{RedisClient R} `{ReEngine P} `{Dns}.
Abbreviation W := (World R P).

(** A rule applies now: not expired, and it matches. *)
Definition applies (now : Z) (ip ua : string) (rule : json) : Prop :=
  is_cached_rule_expired now rule = Ok false ∧ rule_matches_spec rule ip ua = Ok true.

Definition skipped (now : Z) (ip ua : string) (rule : json) : Prop :=
  is_cached_rule_expired now rule = Ok true ∨
  (is_cached_rule_expired now rule = Ok false ∧ rule_matches_spec rule ip ua = Ok false).

Lemma record_rule_hit_total id : total (record_rule_hit (R:=R) (P:=P) id).
Proof. apply total_try. intros. apply total_ret. Qed.

Lemma record_rule_hit_frame id w :
  ∃ rd, record_rule_hit id w = (Ok tt, ({| w with w_redis := rd |} : W)).
Proof.
  unfold record_rule_hit, try_except, bind, send, on_redis, ret.
  destruct (exec _ (INCR _) _) as [[v|e] rd]; cbn; [|by exists rd].
  destruct (exec _ (EXPIRE _ _) _) as [[v'|e'] rd']; cbn; by exists rd'.
Qed.

(** One rule of the scan: the clock and the memo aside, nothing changes. *)
Lemma check_rule_step {A} now ip ua rule w (no yes : M W A) r w' :
  memo_ok w → w_now w = now →
  (t <- clock ;;
   expired <- lift_res (is_cached_rule_expired t rule) ;;
   if expired then no else
   m <- rule_matches rule ip ua ;; if negb m then no else yes) w = (Ok r, w') →
  ∃ w1, memo_ok w1 ∧ memo_only w w1 ∧
    ((skipped now ip ua rule ∧ no w1 = (Ok r, w')) ∨ (applies now ip ua rule ∧ yes w1 = (Ok r, w'))).
Proof.
  intros Hm Hn Hrun.
  apply bind_inv_Ok in Hrun as (t & w0 & Ht & Hrun). unfold clock, gets in Ht. simplify_eq.
  apply bind_inv_Ok in Hrun as (ex & w1 & Hex & Hrun). unfold lift_res in Hex.
  injection Hex as Hex ->. destruct ex.
  { exists w1. split; [done|]. split; [apply memo_only_refl|]. left. split; [by left|done]. }
  apply bind_inv_Ok in Hrun as (m & w2 & Hmt & Hrun).
  destruct (rule_matches_refines rule ip ua w1 Hm) as (w3 & Heq & Hm3 & Ho3).
  rewrite Heq in Hmt. injection Hmt as Hs ->.
  exists w2. split; [done|]. split; [done|].
  destruct m; cbn [negb] in Hrun; [by right|]. left. split; [by right|done].
Qed.

Lemma memo_only_now (w w' : W) : memo_only w w' → w_now w' = w_now w.
Proof. by intros ->. Qed.

Lemma check_block_rules_spec ip ua rules (w w' : W) found :
  memo_ok w → check_block_rules ip ua rules w = (Ok found, w') →
  match found with
  | None => Forall (skipped (w_now w) ip ua) rules
  | Some (id, rule) => ∃ pre post, rules = pre ++ rule :: post ∧
      Forall (skipped (w_now w) ip ua) pre ∧ applies (w_now w) ip ua rule ∧
      res_bind (jget rule "id") jstr = Ok id
  end.
Proof.
  revert w. induction rules as [|rule rules IH]; intros w Hm Hrun.
  { unfold check_block_rules, ret in Hrun. by simplify_eq. }
  cbn [check_block_rules] in Hrun.
  apply (check_rule_step (w_now w)) in Hrun
    as (w1 & Hm1 & Ho & [[Hskip Hrun]|[Happ Hrun]]); [| |done|done].
  - specialize (IH w1 Hm1 Hrun). rewrite (memo_only_now _ _ Ho) in IH.
    destruct found as [[id r]|]; [|by constructor].
    destruct IH as (pre & post & -> & Hpre & Hr). exists (rule :: pre), post.
    split; [done|]. split; [by constructor|done].
  - unfold rule_id, bind, lift_res in Hrun.
    destruct (res_bind (jget rule "id") jstr) as [id|] eqn:Eid; [|done]. cbn in Hrun.
    destruct (record_rule_hit_frame id w1) as [rd Hrd]. rewrite Hrd in Hrun.
    unfold ret in Hrun. simplify_eq. exists [], rules. by split_and!.
Qed.

Lemma memo_ok_on_redis {A} (m : Z → M R A) : preserves (memo_ok (P:=P)) (on_redis m).
Proof. intros w Hw. unfold on_redis. by destruct (m _ _). Qed.

Lemma memo_ok_rdns (conf : Conf) rule ip :
  preserves (memo_ok (R:=R) (P:=P)) (rdns_satisfied conf rule ip).
Proof.
  unfold rdns_satisfied.
  apply preserves_bind; [apply preserves_lift|intros v].
  destruct (negb (jtruthy v)); [apply preserves_ret|].
  apply preserves_bind; [apply preserves_lift|intros p].
  destruct (negb (jtruthy p)); [apply preserves_ret|].
  apply preserves_bind; [apply preserves_lift|intros q]. unfold verify_rdns.
  apply preserves_bind; [apply memo_ok_on_redis|intros [c|]]; [apply preserves_ret|].
  apply preserves_bind; [apply memo_ok_on_redis|intros _; apply preserves_ret].
Qed.

Lemma check_allow_rules_spec (conf : Conf) ip ua rules (w w' : W) id :
  memo_ok w → check_allow_rules conf ip ua rules w = (Ok (Some id), w') →
  ∃ rule w1 w2 t, In rule rules ∧ applies t ip ua rule ∧
    rdns_satisfied conf rule ip w1 = (Ok true, w2) ∧ res_bind (jget rule "id") jstr = Ok id.
Proof.
  intros Hm. 
  assert (Hgen : ∀ w, memo_ok w → check_allow_rules conf ip ua rules w = (Ok (Some id), w') →
    ∃ rule w1 w2 t, In rule rules ∧ applies t ip ua rule ∧
      rdns_satisfied conf rule ip w1 = (Ok true, w2) ∧ res_bind (jget rule "id") jstr = Ok id);
    [clear w Hm|by apply Hgen].
  induction rules as [|rule rules IH]; intros w Hm Hrun; [done|].
  cbn [check_allow_rules] in Hrun.
  apply (check_rule_step (w_now w)) in Hrun
    as (w1 & Hm1 & Ho & [[Hskip Hrun]|[Happ Hrun]]); [| |done|done].
  - destruct (IH w1 Hm1 Hrun) as (r & w2 & w3 & t & Hin & Hr). exists r, w2, w3, t.
    split; [by right|done].
  - apply bind_inv_Ok in Hrun as (ok & w2 & Hrd & Hrun). destruct ok; cbn [negb] in Hrun.
    + unfold rule_id, bind, lift_res in Hrun.
      destruct (res_bind (jget rule "id") jstr) as [id'|] eqn:Eid; [|done].
      unfold ret in Hrun. simplify_eq. exists rule, w1, w', (w_now w). split; [by left|done].
    + assert (Hm2 : memo_ok w2).
      { by apply (preserves_Ok _ _ _ _ _ (memo_ok_rdns conf rule ip) Hm1 Hrd). }
      destruct (IH w2 Hm2 Hrun) as (r & w3 & w4 & t & Hin & Hr). exists r, w3, w4, t.
      split; [by right|done].
Qed.
End Matching.

(** ** Every challenge is gated *)

Section Gate.
Context {R P : Type} `{RedisClient R} `{ReEngine P} `{Dns} (uuid4 : nat → Z) (conf : Conf).
Abbreviation W := (World R P).

(** A result [r] left the engine in [w']: if it challenges, the last thing
    that happened was a count below the escalation threshold. *)
Definition gated_at (ip : string) (r : EvaluationResult) (w' : W) : Prop :=
  er_verdict r = CHALLENGED →
  ∃ fv w1 n, get_unsolved_challenge_count ip fv w1 = (Ok n, w') ∧
             n < DJANGO_WAF_CHALLENGE_ESCALATION_THRESHOLD conf.

Definition gated (ip : string) (m : M W EvaluationResult) : Prop :=
  ∀ w r w', m w = (Ok r, w') → gated_at ip r w'.
Definition gated_opt (ip : string) (m : M W (option EvaluationResult)) : Prop :=
  ∀ w r w', m w = (Ok (Some r), w') → gated_at ip r w'.

Lemma gate_gated ip r fv : gated ip (gate_challenge_or_escalate uuid4 conf ip r fv).
Proof.
  intros w r' w' Hrun. apply bind_inv_Ok in Hrun as (n & w1 & Hn & Hrun).
  destruct (Z.ltb_spec n (DJANGO_WAF_CHALLENGE_ESCALATION_THRESHOLD conf)) as [Hlt|Hge].
  - unfold ret in Hrun. simplify_eq. intros _. by exists fv, w, n.
  - apply bind_inv_Ok in Hrun as (row & w2 & _ & Hrun).
    apply bind_inv_Ok in Hrun as (u & w3 & _ & Hrun).
    unfold ret in Hrun. simplify_eq. done.
Qed.

Lemma gated_not_challenged ip r w : er_verdict r ≠ CHALLENGED → gated_at ip r w.
Proof. by intros Hne Hc. Qed.

Lemma gated_or_else ip m k : gated_opt ip m → gated ip k → gated ip (or_else m k).
Proof.
  intros Hm Hk w r w' Hrun. apply bind_inv_Ok in Hrun as ([r1|] & w1 & H1 & Hrun).
  - unfold ret in Hrun. simplify_eq. by apply (Hm _ _ _ H1).
  - by apply (Hk _ _ _ Hrun).
Qed.

Lemma gated_bind {A} ip (m : M W A) k : (∀ a, gated ip (k a)) → gated ip (bind m k).
Proof. intros Hk w r w' Hrun. apply bind_inv_Ok in Hrun as (a & w1 & _ & Hrun). by apply (Hk a _ _ _ Hrun). Qed.

Lemma gated_opt_bind {A} ip (m : M W A) k : (∀ a, gated_opt ip (k a)) → gated_opt ip (bind m k).
Proof. intros Hk w r w' Hrun. apply bind_inv_Ok in Hrun as (a & w1 & _ & Hrun). by apply (Hk a _ _ _ Hrun). Qed.

Lemma gated_opt_some ip (m : M W EvaluationResult) :
  gated ip m → gated_opt ip (r <- m ;; ret (Some r)).
Proof.
  intros Hm w r w' Hrun. apply bind_inv_Ok in Hrun as (r1 & w1 & H1 & Hrun).
  unfold ret in Hrun. simplify_eq. by apply (Hm _ _ _ H1).
Qed.

Lemma gated_opt_ret ip o :
  (∀ r, o = Some r → er_verdict r ≠ CHALLENGED) → gated_opt ip (ret o).
Proof. intros Ho w r w' Hrun. unfold ret in Hrun. simplify_eq. by apply gated_not_challenged, Ho. Qed.

Lemma gated_step_allow ip ua cache : gated_opt ip (step_allow conf ip ua cache).
Proof.
  apply gated_opt_bind. intros [id|]; [|by apply gated_opt_ret].
  apply gated_opt_bind. intros u. apply gated_opt_ret. by intros r [= <-].
Qed.

Lemma gated_step_blocked_ip ip : gated_opt ip (step_blocked_ip ip).
Proof.
  apply gated_opt_bind. intros [v|]; [|by apply gated_opt_ret].
  destruct (str_empty v); [by apply gated_opt_ret|].
  apply gated_opt_bind. intros u. apply gated_opt_ret. by intros r [= <-].
Qed.

Lemma gated_step_block_rules ip ua cache fv :
  gated_opt ip (step_block_rules uuid4 conf ip ua cache fv).
Proof.
  apply gated_opt_bind. intros [[id rule]|]; [|by apply gated_opt_ret].
  apply gated_opt_bind. intros action. apply gated_opt_bind. intros u.
  case_bool_decide as Hc; [apply gated_opt_some, gate_gated|].
  apply gated_opt_ret. by intros r [= <-].
Qed.

Lemma gated_step_rate_limit ip path method : gated_opt ip (step_rate_limit conf ip path method).
Proof.
  apply gated_opt_bind. intros rr. apply gated_opt_ret. intros r.
  destruct (exceeded rr); [by intros [= <-]|done].
Qed.

Lemma gated_step_no_referer ip path referer fv :
  gated_opt ip (step_no_referer uuid4 conf ip path referer fv).
Proof.
  unfold step_no_referer. destruct (_ && _); [|by apply gated_opt_ret].
  apply gated_opt_some, gate_gated.
Qed.

Lemma gated_step_scores ip ua path meta fv : gated ip (step_scores uuid4 conf ip ua path meta fv).
Proof.
  apply gated_bind. intros fp. apply gated_bind. intros uas.
  set (total := (uas + score_path _ _ + fp)%Q). cbv zeta. destruct (Qle_bool total 0).
  - intros w r w' Hrun. unfold ret in Hrun. simplify_eq. by apply gated_not_challenged.
  - destruct (score_to_verdict conf total) as [v a]. case_bool_decide as Hc; [apply gate_gated|].
    intros w r w' Hrun. unfold ret in Hrun. simplify_eq. by apply gated_not_challenged.
Qed.

Lemma evaluate_gated ip ua path method referer meta :
  gated ip (evaluate_request uuid4 conf ip ua path method referer meta).
Proof.
  apply gated_bind. intros fv. apply gated_bind. intros cache.
  apply gated_or_else; [apply gated_step_allow|].
  apply gated_or_else; [apply gated_step_blocked_ip|].
  apply gated_or_else; [apply gated_step_block_rules|].
  apply gated_or_else; [apply gated_step_rate_limit|].
  apply gated_or_else; [apply gated_step_no_referer|apply gated_step_scores].
Qed.
End Gate.

(** ** Scores *)

Lemma qge_trans_le a b t : (a <= b)%Q → qge a t = true → qge b t = true.
Proof. rewrite !qge_spec. intros; lra. Qed.

(** Severity of a score verdict. *)
Definition severity (v : Verdict) : Z :=
  match v with BLOCKED => 3 | CHALLENGED => 2 | LOGGED => 1 | _ => 0 end.

Lemma score_to_verdict_monotone conf a b :
  (a <= b)%Q → severity (score_to_verdict conf a).1 <= severity (score_to_verdict conf b).1.
Proof.
  intros Hab. unfold score_to_verdict.
  destruct (qge a (DJANGO_WAF_SCORE_THRESHOLD_BLOCK conf)) eqn:E1.
  { by rewrite (qge_trans_le _ _ _ Hab E1). }
  destruct (qge b (DJANGO_WAF_SCORE_THRESHOLD_BLOCK conf)); [simpl; repeat case_match; simpl; lia|].
  destruct (qge a (DJANGO_WAF_SCORE_THRESHOLD_CHALLENGE conf)) eqn:E2.
  { by rewrite (qge_trans_le _ _ _ Hab E2). }
  destruct (qge b (DJANGO_WAF_SCORE_THRESHOLD_CHALLENGE conf)); [simpl; repeat case_match; simpl; lia|].
  destruct (qge a (DJANGO_WAF_SCORE_THRESHOLD_LOG conf)) eqn:E3.
  { by rewrite (qge_trans_le _ _ _ Hab E3). }
  repeat case_match; simpl; lia.
Qed.

Lemma score_path_loop_bounds {P} `{ReEngine P} conf path patterns score :
  (0 <= DJANGO_WAF_SUSPICIOUS_PATH_SCORE conf)%Q → (0 <= score <= 10)%Q →
  (0 <= score_path_loop (P:=P) conf path patterns score <= 10)%Q.
Proof.
  intros Hw. revert score. induction patterns as [|p patterns IH]; intros score Hs; [exact Hs|].
  cbn [score_path_loop]. destruct (re_compile p) as [c|]; [|by apply IH].
  destruct (re_find c path); [|by apply IH].
  destruct (qge _ 10) eqn:E; [split; discriminate|].
  apply IH. apply qge_false in E. split; lra.
Qed.

(** ** Redis steps of the engine *)

Section RedisSteps.
Context {R P : Type} `{RedisSpec R}.
Abbreviation W := (World R P).
Implicit Types w : W.

(** What Redis holds in a state. *)
Definition ks (w : W) : keyspace := r_view (w_redis w).

(** Only the Redis connection may differ. *)
Definition redis_only (w w' : W) : Prop := w' = {| w with w_redis := w_redis w' |}.

Lemma redis_only_refl w : redis_only w w.
Proof. by destruct w. Qed.

Lemma redis_only_trans w1 w2 w3 : redis_only w1 w2 → redis_only w2 w3 → redis_only w1 w3.
Proof. unfold redis_only. intros -> ->. by destruct w1. Qed.

Lemma redis_only_fields w w' :
  redis_only w w' → w_now w' = w_now w ∧ w_db_up w' = w_db_up w ∧
  w_block_rules w' = w_block_rules w ∧ w_ua_pattern_cache w' = w_ua_pattern_cache w.
Proof. by intros ->. Qed.

Lemma on_redis_only {A} (m : Z → M R A) w r w' : on_redis m w = (r, w') → redis_only w w'.
Proof. unfold on_redis. destruct (m _ _) as [r1 rd]. intros [= <- <-]. done. Qed.

Lemma send_Ok c w v w' :
  send c w = (Ok v, w') → step (w_now w) c (ks w) = Some (v, ks w') ∧ redis_only w w'.
Proof.
  intros Hs. split; [|by apply (on_redis_only (λ t, exec t c)) in Hs].
  unfold send, on_redis, exec in Hs. destruct (r_exec _ _ _) as [r1 rd] eqn:E.
  simplify_eq. by apply exec_documented in E.
Qed.

Lemma get_key_Ok k w v w' :
  get_key k w = (Ok v, w') → v = peek_str (w_now w) (ks w) k ∧ ks w' = ks w ∧ redis_only w w'.
Proof.
  intros Hs. pose proof (on_redis_only (λ t, redis_get t k) _ _ _ Hs) as Ho.
  unfold get_key, on_redis in Hs. destruct (redis_get _ _ _) as [r1 rd] eqn:E.
  simplify_eq. by apply redis_get_Ok in E as [-> Hv].
Qed.

Lemma setex_Ok k ttl s w v w' :
  send (SETEX k ttl s) w = (Ok v, w') →
  redis_only w w' ∧ 0 < ttl ∧
  ks w' = <[k := {| e_val := VString s; e_exp := Some (w_now w + ttl * second) |}]> (ks w).
Proof.
  intros [Hs Ho]%send_Ok. simpl in Hs. destruct (Z.ltb_spec 0 ttl); [|done].
  by simplify_eq.
Qed.

Lemma peek_str_setex t k s exp (m : keyspace) :
  t < exp → peek_str t (<[k := {| e_val := VString s; e_exp := Some exp |}]> m) k = Some s.
Proof.
  intros Ht. unfold peek_str. rewrite peek_insert_eq. unfold live. simpl.
  by rewrite (proj2 (Z.ltb_lt t exp)).
Qed.

Lemma record_block_verdict_Ok ip ttl rule w u w' :
  record_block_verdict ip ttl rule w = (Ok u, w') →
  redis_only w w' ∧ ∀ t, t < w_now w + ttl * second →
    peek_str t (ks w') (blocked_ip_key ip)
    = Some (match rule with Some r => if str_empty r then "1" else r | None => "1" end).
Proof.
  unfold record_block_verdict. intros Hrun.
  apply bind_inv_Ok in Hrun as (v1 & w1 & H1 & Hrun).
  apply bind_inv_Ok in Hrun as (v2 & w2 & H2 & Hrun). unfold ret in Hrun. simplify_eq.
  apply setex_Ok in H1 as (Ho1 & Hpos & Hk1). apply send_Ok in H2 as [H2 Ho2].
  split; [by eapply redis_only_trans|]. intros t Ht.
  assert (Hf : ks w' !! blocked_ip_key ip = ks w1 !! blocked_ip_key ip).
  { by eapply step_frame. }
  unfold peek_str. rewrite (peek_ext t _ _ _ Hf). fold (peek_str t (ks w1) (blocked_ip_key ip)).
  rewrite Hk1. by apply peek_str_setex.
Qed.
End RedisSteps.

(** ** Forward-confirmed reverse DNS *)

Section Rdns.
Context {R P : Type} `{RedisSpec R} `{ReEngine P} `{Dns}.
Abbreviation W := (World R P).

(** The address vouched for by the owner of a host name matching the pattern. *)
Definition forward_confirmed (ip rdns_pattern : string) : Prop :=
  ∃ hostname c addrs candidate a,
    gethostbyaddr ip = Some hostname ∧ re_compile rdns_pattern = Some c ∧
    re_find c hostname = true ∧ getaddrinfo hostname = Some addrs ∧ In candidate addrs ∧
    ip_address candidate = Some a ∧ ip_address ip = Some a.

Lemma resolve_and_confirm_spec ip p :
  resolve_and_confirm_rdns (P:=P) ip p = true → forward_confirmed ip p.
Proof.
  unfold resolve_and_confirm_rdns, forward_confirmed.
  destruct (gethostbyaddr ip) as [hn|]; [|done]. destruct (str_empty hn); [done|].
  destruct (re_compile p) as [c|]; [|done].
  destruct (re_find c hn) eqn:Ef; [|done]. cbn [negb].
  destruct (getaddrinfo hn) as [addrs|] eqn:Ea; [|done].
  destruct (ip_address ip) as [a|] eqn:Ei; [|done].
  intros (cand & Hin & Hc)%existsb_exists.
  destruct (ip_address cand) as [a'|] eqn:Ec; [|done]. bool_hyps. subst a'.
  by exists hn, c, addrs, cand, a.
Qed.

Lemma verify_rdns_cold conf ip p (w w' : W) b :
  peek_str (w_now w) (ks w) (fcrdns_cache_key ip p) = None →
  verify_rdns conf ip p w = (Ok b, w') →
  b = resolve_and_confirm_rdns (P:=P) ip p ∧ redis_only w w' ∧
  ∀ t, t < w_now w + (if b then FCRDNS_POSITIVE_CACHE_TTL
                      else DJANGO_WAF_RDNS_FAILURE_CACHE_TTL conf) * second →
    peek_str t (ks w') (fcrdns_cache_key ip p) = Some (if b then "1" else "0").
Proof.
  intros Hcold Hrun. unfold verify_rdns in Hrun.
  apply bind_inv_Ok in Hrun as (v & w1 & E1 & Hrun).
  apply get_key_Ok in E1 as (-> & Hk1 & Ho1). rewrite Hcold in Hrun.
  apply bind_inv_Ok in Hrun as (v & w2 & E2 & Hrun). unfold ret in Hrun. simplify_eq.
  apply setex_Ok in E2 as (Ho2 & _ & Hk2).
  split; [done|]. split; [by eapply redis_only_trans|]. intros t Ht.
  rewrite Hk2. apply peek_str_setex. destruct (redis_only_fields _ _ Ho1) as (-> & _). done.
Qed.

Lemma verify_rdns_warm conf ip p (w w' : W) b s :
  peek_str (w_now w) (ks w) (fcrdns_cache_key ip p) = Some s →
  verify_rdns conf ip p w = (Ok b, w') → b = bool_decide (s = "1").
Proof.
  intros Hw Hrun. unfold verify_rdns in Hrun.
  apply bind_inv_Ok in Hrun as (v & w1 & E1 & Hrun).
  apply get_key_Ok in E1 as (-> & _ & _). rewrite Hw in Hrun. unfold ret in Hrun. by simplify_eq.
Qed.
End Rdns.

(** ** The Redis copy of the rules *)

Section Cache.
Context {R P : Type} `{RedisSpec R} `{ReEngine P}.
Abbreviation W := (World R P).

Lemma compile_rule_redis (rd : R) rule :
  preserves (λ w : W, w_redis w = rd) (compile_ua_rule rule).
Proof.
  unfold compile_ua_rule.
  apply preserves_bind; [apply preserves_lift|intros rt].
  destruct (negb (jis "ua" rt)); [apply preserves_ret|].
  apply preserves_bind; [apply preserves_lift|intros p].
  apply preserves_bind; [apply preserves_lift|intros mt].
  assert (Hm : ∀ c, preserves (λ w : W, w_redis w = rd) (memoise p c)) by (by intros c w Hw).
  destruct (jis "regex" mt).
  - destruct (re_compile p); (apply preserves_bind; [apply Hm|intros; apply preserves_ret]).
  - destruct (if jis "contains" mt then _ else _); [|apply preserves_ret].
    destruct (re_compile s); [apply preserves_ret|].
    apply preserves_bind; [apply Hm|intros; apply preserves_ret].
Qed.

Lemma compile_redis (rd : R) rules : preserves (λ w : W, w_redis w = rd) (compile_ua_patterns rules).
Proof.
  induction rules as [|r rules IH]; simpl; [apply preserves_ret|].
  apply preserves_bind; [apply compile_rule_redis|intros c].
  apply preserves_bind; [apply IH|intros; apply preserves_ret].
Qed.

(** The dictionaries built from rows have every key the compiler reads. *)
Lemma compile_rows_total rows : total (compile_ua_patterns (R:=R) (P:=P) (map json_of_block_rule rows)).
Proof.
  induction rows as [|r rows IH]; simpl; [apply total_ret|].
  apply total_bind; [|intros c; apply total_bind; [apply IH|intros; apply total_ret]].
  unfold compile_ua_rule.
  assert (Hm : ∀ p c, total (S := W) (memoise p c)) by done.
  change (jget (json_of_block_rule r) "rule_type") with (Ok (JStr (RuleType_value (br_rule_type r)))).
  change (jget (json_of_block_rule r) "match_type") with (Ok (JStr (MatchType_value (br_match_type r)))).
  change (res_bind (jget (json_of_block_rule r) "pattern") jstr) with (Ok (br_pattern r)).
  apply total_bind; [done|intros rt]. destruct (negb _); [apply total_ret|].
  apply total_bind; [done|intros p]. apply total_bind; [done|intros mt].
  destruct (jis "regex" mt).
  - destruct (re_compile p); (apply total_bind; [apply Hm|intros; apply total_ret]).
  - destruct (if jis "contains" mt then _ else _); [|apply total_ret].
    destruct (re_compile s); [apply total_ret|].
    apply total_bind; [apply Hm|intros; apply total_ret].
Qed.

Lemma read_back version rows arows (w : W) :
  let data := JObj [("allow_rules", JArr (map json_of_allow_rule arows));
                    ("block_rules", JArr (map json_of_block_rule rows))] in
  ∃ c w', read_cached version (dumps data) w = (Ok c, w') ∧
    rc_version c = version ∧ rc_allow_rules c = map json_of_allow_rule arows ∧
    rc_block_rules c = map json_of_block_rule rows.
Proof.
  intros data. unfold read_cached. rewrite loads_dumps. unfold data.
  change (jget_default (JObj [("allow_rules", ?a); ("block_rules", ?b)]) "allow_rules" ?d) with (Ok a).
  change (jget_default (JObj [("allow_rules", ?a); ("block_rules", ?b)]) "block_rules" ?d) with (Ok b).
  unfold bind, lift_res. cbn [res_bind jlist].
  destruct (total_inv _ w (compile_rows_total rows)) as (cs & w' & ->).
  unfold ret. by eexists _, w'.
Qed.
End Cache.

Section FastPath.
Context {R P : Type} `{RedisSpec R}.
Abbreviation W := (World R P).

Lemma step_blocked_ip_hit ip v (w w' : W) o :
  peek_str (w_now w) (ks w) (blocked_ip_key ip) = Some v → v ≠ "" →
  step_blocked_ip ip w = (Ok o, w') →
  o = Some {| er_verdict := BLOCKED; er_action := Some "block";
              er_matched_rule_id := if bool_decide (v = "1") then None else uuid_of v;
              er_matched_rule_type :=
                match (if bool_decide (v = "1") then None else uuid_of v) with
                | Some _ => "block" | None => "" end;
              er_anomaly_score := None; er_retry_after := None; er_window := None |}.
Proof.
  intros Hv Hne Hrun. unfold step_blocked_ip in Hrun.
  apply bind_inv_Ok in Hrun as (g & w1 & Hg & Hrun).
  apply get_key_Ok in Hg as (-> & _ & _). rewrite Hv in Hrun.
  replace (str_empty v) with false in Hrun by (by destruct v).
  apply bind_inv_Ok in Hrun as (m & w2 & Hm & Hrun). unfold ret in Hrun. simplify_eq.
  case_bool_decide; [unfold ret in Hm; by simplify_eq|].
  destruct (uuid_of v) as [u|]; [|unfold ret in Hm; by simplify_eq].
  apply bind_inv_Ok in Hm as (? & w3 & _ & Hm). unfold ret in Hm. by simplify_eq.
Qed.

Lemma uuid_str_not_1 u : uuid_str u ≠ "1".
Proof.
  intros E. apply (f_equal String.length) in E. unfold uuid_str in E. cbn [join] in E.
  rewrite !str_app_length, !hex_digits_length in E. simpl in E. lia.
Qed.

Lemma uuid_str_nonempty u : str_empty (uuid_str u) = false.
Proof.
  destruct (uuid_str u) eqn:E; [exfalso|done].
  apply (f_equal String.length) in E. unfold uuid_str in E. cbn [join] in E.
  rewrite !str_app_length, !hex_digits_length in E. simpl in E. lia.
Qed.

Lemma unsolved_count_redis_only ip fv (w : W) : redis_only w (get_unsolved_challenge_count ip fv w).2.
Proof.
  assert (Hp : ∀ {A} (m : M W A), (∀ w0, redis_only w0 (m w0).2) →
    ∀ B (k : A → M W B), (∀ a w0, redis_only w0 (k a w0).2) → ∀ w0, redis_only w0 (bind m k w0).2).
  { intros A m Hm B k Hk w0. unfold bind. specialize (Hm w0).
    destruct (m w0) as [[a|e] w1]; [|done]. by eapply redis_only_trans, Hk. }
  assert (Hr : ∀ A (m : Z → M R A) w0, redis_only w0 (on_redis (P:=P) m w0).2).
  { intros A m w0. unfold on_redis. by destruct (m _ _). }
  unfold get_unsolved_challenge_count, try_except.
  match goal with |- context [bind ?m ?k w] =>
    assert (Hb : redis_only w (bind m k w).2); [|by destruct (bind m k w) as [[?|?] ?]] end.
  apply Hp; [apply Hr|]. intros [s|] w0; [|apply redis_only_refl].
  destruct (str_empty s); [apply redis_only_refl|].
  apply Hp; [intros; apply redis_only_refl|]. intros n w1.
  case_bool_decide; [apply redis_only_refl|].
  apply Hp; [apply Hr|]. intros [s'|] w2; [|apply redis_only_refl].
  destruct (str_empty s'); [apply redis_only_refl|].
  apply Hp; [apply Hr|]. intros; apply redis_only_refl.
Qed.
End FastPath.

(** A version number longer than Python converts makes evaluation raise
    before any rule is consulted: for a User-Agent of ["Chrome/"] and more than
    4300 digits, [evaluate_request] raises [ValueError] in every state, whether
    or not the address is blocked. *)
Lemma long_chrome_version_raises {R P} `{RedisClient R} `{ReEngine P} `{Dns} uuid4 conf
    ip ds path method referer meta (w : World R P) :
  str_forall is_digit ds = true → (INT_MAX_STR_DIGITS < String.length ds)%nat →
  evaluate_request uuid4 conf ip ("Chrome/" +:+ ds) path method referer meta w = (Raise ValueError, w).
Proof.
  intros Hd Hlen. unfold evaluate_request, bind, lift_res.
  assert (Hs : score_fingerprint_mismatch ("Chrome/" +:+ ds) meta = Raise ValueError).
  { unfold score_fingerprint_mismatch. cbn [str_empty String.append]. change (String "C" ?x) with (String "C" x).
    assert (Hne : ds ≠ "") by (intros ->; simpl in Hlen; lia).
    pose proof (chromium_match_digits ds Hd Hne) as Hm. cbn [String.append] in Hm. rewrite Hm.
    unfold int_of_digits. by rewrite (proj2 (Nat.ltb_lt _ _) Hlen). }
  unfold classify_fingerprint. by rewrite Hs.
Qed.

(** The exempt paths of the no-referer challenge are the default ones. *)
Definition default_exemptions (conf : Conf) : Prop :=
  DJANGO_WAF_NO_REFERER_EXEMPT_PATHS conf = default_no_referer_exempt_paths.

(** ** Properties *)

Module RuleEngineProps.

(** The compiled-pattern cache is transparent.  From a right cache, also
    after any rule set has been compiled into it, matching a rule gives exactly
    what matching without a cache gives (errors included), and the cache stays
    right. *)
Lemma matching_ignores_pattern_cache {R P} `{RedisClient R} `{ReEscapes P} rules rule ip ua
    (w : World R P) :
  memo_ok w →
  let w1 := (compile_ua_patterns rules w).2 in
  (rule_matches rule ip ua w1).1 = rule_matches_spec (P:=P) rule ip ua ∧
  memo_ok (rule_matches rule ip ua w1).2.
Proof.
  intros Hm w1. assert (Hm1 : memo_ok w1) by by apply memo_ok_compile.
  destruct (rule_matches_refines rule ip ua w1 Hm1) as (w' & -> & Hm' & _). done.
Qed.

(** C7: block rules are matched first-come.  The rule reported is unexpired
    and matches, and every rule before it in the cache order has expired or
    does not match; when none is reported, no rule applies. *)
Theorem first_applicable_block_rule {R P} `{RedisClient R} `{ReEngine P} ip ua rules
    (w w' : World R P) found :
  memo_ok w → check_block_rules ip ua rules w = (Ok found, w') →
  match found with
  | Some (id, rule) => ∃ pre post, rules = pre ++ rule :: post ∧
      applies (P:=P) (w_now w) ip ua rule ∧ Forall (λ r, ¬ applies (P:=P) (w_now w) ip ua r) pre
  | None => Forall (λ r, ¬ applies (P:=P) (w_now w) ip ua r) rules
  end.
Proof.
  intros Hm Hrun.
  assert (Hs : ∀ l, Forall (skipped (P:=P) (w_now w) ip ua) l →
                    Forall (λ r, ¬ applies (P:=P) (w_now w) ip ua r) l).
  { intros l Hl. eapply Forall_impl; [exact Hl|]. unfold skipped, applies.
    intros r [Hr|[_ Hr]] [E1 E2]; congruence. }
  pose proof (check_block_rules_spec ip ua rules w w' found Hm Hrun) as Hc.
  destruct found as [[id rule]|]; [|by apply Hs].
  destruct Hc as (pre & post & -> & Hpre & Happ & _). exists pre, post. auto.
Qed.

(** An expired rule is never enforced, however stale the cache: the
    dictionary built from a row whose expiry has passed does not apply to any
    request, and the expiry survives its text form exactly. *)
Lemma expired_rule_never_applies {P} `{ReEngine P} now ip ua r t :
  br_expires_at r = Some t → valid_datetime t = true → t <= now →
  ¬ applies (P:=P) now ip ua (json_of_block_rule r) ∧
  ∀ now', is_cached_rule_expired now' (json_of_block_rule r) = Ok (t <=? now').
Proof.
  intros Ht Hv Hle.
  assert (He : ∀ now', is_cached_rule_expired now' (json_of_block_rule r) = Ok (t <=? now')).
  { intros now'. rewrite cached_block_rule_expiry by (intros t'; congruence).
    unfold not_expired. rewrite Ht. f_equal. by rewrite Z.leb_antisym. }
  split; [|exact He]. intros [Happ _]. rewrite He in Happ.
  rewrite (proj2 (Z.leb_le t now) Hle) in Happ. done.
Qed.

(** What a rebuild stores is what other workers read.  For ten minutes
    after a rebuild, the Redis copy is there, and parsing it in any process
    state yields the same version, allow rules and block rules. *)
Lemma rebuilt_cache_read_back {R P} `{RedisSpec R} `{ReEngine P} version key
    (w w' : World R P) cache t (w2 : World R P) :
  rebuild_rule_cache_from_db version key w = (Ok cache, w') →
  t < w_now w + 600 * second →
  ∃ text c2 w3, peek_str t (ks w') key = Some text ∧
    read_cached version text w2 = (Ok c2, w3) ∧ rc_version c2 = rc_version cache ∧
    rc_allow_rules c2 = rc_allow_rules cache ∧ rc_block_rules c2 = rc_block_rules cache.
Proof.
  intros Hrun Ht. unfold rebuild_rule_cache_from_db in Hrun.
  apply bind_inv_Ok in Hrun as (t0 & w0 & E0 & Hrun). unfold clock, gets in E0. simplify_eq.
  apply bind_inv_Ok in Hrun as (rows & wa & Ea & Hrun). unfold db_read in Ea.
  destruct (w_db_up w0) eqn:Eup; [|done]. injection Ea as <- <-.
  apply bind_inv_Ok in Hrun as (arows & wb & Eb & Hrun). unfold db_read in Eb.
  rewrite Eup in Eb. injection Eb as <- <-.
  apply bind_inv_Ok in Hrun as (v & wc & Ec & Hrun).
  apply setex_Ok in Ec as (Ho & _ & Hks).
  apply bind_inv_Ok in Hrun as (cs & wd & Ed & Hrun). unfold ret in Hrun. simplify_eq.
  pose proof (preserves_Ok _ _ _ _ _ (compile_redis (w_redis wc) _) eq_refl Ed) as Hrd.
  destruct (read_back version (BlockRuleManager.active (w_now w0) (w_block_rules w0))
              (order_by_name (AllowRuleManager.active (w_now w0) (w_allow_rules w0))) w2)
    as (c2 & w3 & Hread & Hv & Ha & Hb).
  eexists _, c2, w3. split; [|split; [exact Hread|]].
  - unfold ks in *. rewrite Hrd, Hks. by apply peek_str_setex.
  - cbn. by rewrite Hv, Ha, Hb.
Qed.

(** Reverse DNS is forward-confirmed and remembered.  With no cached
    verdict, a positive answer means that the PTR name matches the pattern and
    resolves back to the same address; the verdict (of either sign) is then in
    Redis for its TTL, and any further check in that time repeats it without
    consulting DNS again. *)
Lemma rdns_verdict_confirmed_and_cached {R P} `{RedisSpec R} `{ReEngine P} `{Dns} conf ip p
    (w w' w2 w3 : World R P) b b2 :
  peek_str (w_now w) (ks w) (fcrdns_cache_key ip p) = None →
  verify_rdns conf ip p w = (Ok b, w') →
  (b = true → forward_confirmed (P:=P) ip p) ∧
  (ks w2 = ks w' →
   w_now w2 < w_now w + (if b then 86400 else DJANGO_WAF_RDNS_FAILURE_CACHE_TTL conf) * second →
   verify_rdns conf ip p w2 = (Ok b2, w3) → b2 = b).
Proof.
  intros Hcold Hrun. destruct (verify_rdns_cold conf ip p w w' b Hcold Hrun) as (Hb & _ & Hcache).
  split.
  - intros ->. by apply resolve_and_confirm_spec.
  - intros Hks Ht Hrun2. specialize (Hcache _ Ht). rewrite <- Hks in Hcache.
    rewrite (verify_rdns_warm conf ip p w2 w3 b2 _ Hcache Hrun2). by destruct b.
Qed.

(** C2: no challenge escapes escalation.  Whatever produced it (a rule, the
    missing referer or the scores), a CHALLENGED result is returned only when
    the last step counted fewer unsolved challenges of the address than the
    escalation threshold. *)
Theorem every_challenge_is_gated {R P} `{RedisClient R} `{ReEngine P} `{Dns} uuid4 conf
    ip ua path method referer meta (w w' : World R P) r :
  evaluate_request uuid4 conf ip ua path method referer meta w = (Ok r, w') →
  gated_at conf ip r w'.
Proof. intros Hrun. by apply (evaluate_gated uuid4 conf ip ua path method referer meta w). Qed.

(** A recorded block is attributed.  After a block verdict is recorded for
    a rule, the fast path blocks the address until the TTL passes and reports
    that very rule, in every process that sees the same Redis. *)
Lemma recorded_block_is_attributed {R P} `{RedisSpec R} ip ttl u
    (w w' w2 w3 : World R P) x o :
  0 <= u < 2 ^ 128 →
  record_block_verdict ip ttl (Some (uuid_str u)) w = (Ok x, w') →
  ks w2 = ks w' → w_now w2 < w_now w + ttl * second →
  step_blocked_ip ip w2 = (Ok o, w3) →
  ∃ r, o = Some r ∧ er_verdict r = BLOCKED ∧ er_matched_rule_id r = Some u ∧
       er_matched_rule_type r = "block".
Proof.
  intros Hu Hrec Hks Ht Hstep.
  apply record_block_verdict_Ok in Hrec as [_ Hpeek]. specialize (Hpeek _ Ht).
  rewrite uuid_str_nonempty, <- Hks in Hpeek.
  rewrite (step_blocked_ip_hit ip (uuid_str u) w2 w3 o Hpeek) by
    (done || (intros E; pose proof (uuid_str_nonempty u); by rewrite E in *)).
  rewrite bool_decide_false by apply uuid_str_not_1. rewrite uuid_of_str by done.
  eexists. split; [reflexivity|done].
Qed.

(** More suspicion never gives a milder verdict, for any thresholds, and
    the path score is within [0, 10] for a non-negative weight. *)
Lemma score_verdict_monotone {P} `{ReEngine P} conf path a b :
  (a <= b)%Q → (0 <= DJANGO_WAF_SUSPICIOUS_PATH_SCORE conf)%Q →
  severity (score_to_verdict conf a).1 <= severity (score_to_verdict conf b).1 ∧
  (0 <= score_path (P:=P) conf path <= 10)%Q.
Proof.
  intros Hab Hw. split; [by apply score_to_verdict_monotone|].
  apply score_path_loop_bounds; [done|split; discriminate].
Qed.

(** Escalation does not consult the review.  When an address has reached
    the threshold and its escalation rule was rejected by an operator, the
    rule stays inactive in the table, yet the gate blocks the request and puts
    the address on the fast path under that rule's id. *)
Lemma rejected_escalation_still_blocks {R P} `{RedisSpec R} `{ReEngine P} uuid4 conf ip fv r0
    (w w1 w' : World R P) old n r :
  let lk := {| lk_rule_type := RuleType_IP; lk_pattern := ip; lk_action := RuleAction_BLOCK |} in
  w_db_up w = true → List.filter (lookup_matches lk) (w_block_rules w) = [old] →
  br_review_status old = REJECTED → br_is_active old = false →
  get_unsolved_challenge_count ip fv w = (Ok n, w1) →
  DJANGO_WAF_CHALLENGE_ESCALATION_THRESHOLD conf <= n →
  gate_challenge_or_escalate uuid4 conf ip r0 fv w = (Ok r, w') →
  er_verdict r = BLOCKED ∧
  ∃ row, List.filter (lookup_matches lk) (w_block_rules w') = [row] ∧
    br_is_active row = false ∧ br_review_status row = REJECTED ∧
    (0 < DJANGO_WAF_ESCALATION_BLOCK_TTL conf →
     peek_str (w_now w') (ks w') (blocked_ip_key ip) = Some (uuid_str (br_id row))).
Proof.
  intros lk Hup Hf Hrej Hact Hn Hle Hrun.
  pose proof (unsolved_count_redis_only ip fv w) as Ho. rewrite Hn in Ho. cbn in Ho.
  destruct (redis_only_fields _ _ Ho) as (_ & Hup1 & Hrows & _).
  unfold gate_challenge_or_escalate, bind at 1 in Hrun. rewrite Hn in Hrun.
  destruct (Z.ltb_spec n (DJANGO_WAF_CHALLENGE_ESCALATION_THRESHOLD conf)); [lia|].
  apply bind_inv_Ok in Hrun as (er & w2 & Hc & Hrun).
  apply bind_inv_Ok in Hrun as (u & w3 & Hrec & Hrun). unfold ret in Hrun. simplify_eq.
  split; [done|].
  unfold create_escalation_rule, try_except, get_or_create_auto_rule, clock, gets in Hc.
  unfold bind, try_except in Hc. fold lk in Hc.
  match type of Hc with context [update_or_create_auto_rule uuid4 lk ?df ?d w1] =>
    destruct (auto_rule_refresh uuid4 lk df d w1 old ltac:(by rewrite Hup1) ltac:(by rewrite Hrows))
      as (rd & Hx & Hfx); rewrite Hx in Hc end.
  unfold ret in Hc. simplify_eq. cbn [fmap option_fmap option_map fst] in Hrec.
  apply record_block_verdict_Ok in Hrec as [Ho3 Hpeek].
  destruct (redis_only_fields _ _ Ho3) as (Hnow3 & _ & Hrows3 & _).
  eexists. rewrite Hrows3. split; [exact Hfx|].
  unfold refreshed, apply_defaults. rewrite Hrej. split; [done|]. split; [done|].
  intros Httl. specialize (Hpeek (w_now w')). rewrite Hnow3 in Hpeek.
  rewrite Hnow3. rewrite Hpeek by (unfold second; lia). by rewrite uuid_str_nonempty.
Qed.

(** The no-referer challenge is inert under the default exemptions: they
    contain ["/"], which every request path starts with, so with the challenge
    switched on no request without a referer is ever challenged for it. *)
Lemma default_exemptions_disable_no_referer {R P} `{RedisClient R} `{ReEngine P} `{Dns} uuid4 conf
    ip path referer fv (w : World R P) :
  default_exemptions conf → starts_with "/" path = true →
  step_no_referer uuid4 conf ip path referer fv w = (Ok None, w).
Proof.
  intros Hx Hp. unfold step_no_referer, no_referer_exempt. rewrite Hx.
  cbn [default_no_referer_exempt_paths existsb].
  rewrite Hp, orb_true_r. cbn [orb negb]. by rewrite andb_false_r.
Qed.

(** *** Witnesses: a working server, one challenge rule on a User-Agent *)

Definition curl_rule : BlockRule := {|
  br_id := 42; br_name := "curl"; br_rule_type := RuleType_UA; br_match_type := MatchType_REGEX;
  br_pattern := "curl.*7"; br_action := RuleAction_CHALLENGE; br_priority := 10;
  br_is_active := true; br_source := RuleSource_ADMIN; br_expires_at := Some (2000 * usec);
  br_hit_count := 0; br_last_hit_at := None; br_confidence := 100; br_feed_first_seen := None;
  br_feed_reporters := 0; br_notes := ""; br_review_status := NOT_APPLICABLE;
  br_reviewed_at := None; br_detectors := ""; br_created_at := 1; br_updated_at := 1 |}.

Definition sample_engine : World MemRedis LiteRe := sample_world [curl_rule] [].

#[local] Instance sample_dns : Dns := {|
  gethostbyaddr ip := if bool_decide (ip = "66.249.66.1") then Some "crawl-1.googlebot.com" else None;
  getaddrinfo h := if bool_decide (h = "crawl-1.googlebot.com") then Some ["66.249.66.1"] else None |}.

Lemma sample_memo_ok : memo_ok sample_engine.
Proof. intros p c E. discriminate E. Defined.

Lemma matching_ignores_pattern_cache_witness :
  (rule_matches (json_of_block_rule curl_rule) "192.0.2.1" "curl/7.1"
     (compile_ua_patterns [json_of_block_rule curl_rule] sample_engine).2).1 = Ok true.
Proof.
  destruct (matching_ignores_pattern_cache [json_of_block_rule curl_rule]
    (json_of_block_rule curl_rule) "192.0.2.1" "curl/7.1" sample_engine sample_memo_ok) as [H _].
  rewrite H. vm_compute. reflexivity.
Defined.

Lemma first_applicable_block_rule_witness :
  ∃ pre post, [json_of_block_rule sample_rule; json_of_block_rule curl_rule]
              = pre ++ json_of_block_rule curl_rule :: post ∧
    applies (P:=LiteRe) (w_now sample_engine) "192.0.2.1" "curl/7.1" (json_of_block_rule curl_rule).
Proof.
  set (run := check_block_rules "192.0.2.1" "curl/7.1"
                [json_of_block_rule sample_rule; json_of_block_rule curl_rule] sample_engine).
  assert (E : run = (Ok (Some (uuid_str 42, json_of_block_rule curl_rule)), run.2))
    by (vm_compute; reflexivity).
  destruct (first_applicable_block_rule _ _ _ _ _ _ sample_memo_ok E) as (pre & post & H1 & H2 & _).
  exists pre, post. split; [exact H1|exact H2].
Defined.

Lemma expired_rule_never_applies_witness :
  ¬ applies (P:=LiteRe) (3000 * usec) "192.0.2.1" "curl/7.1" (json_of_block_rule curl_rule).
Proof.
  apply (expired_rule_never_applies (3000 * usec) "192.0.2.1" "curl/7.1" curl_rule (2000 * usec));
    [reflexivity|vm_compute; reflexivity|vm_compute; discriminate].
Defined.

Lemma rebuilt_cache_read_back_witness :
  ∃ text c2 w3,
    peek_str (1500 * usec) (ks (rebuild_rule_cache_from_db 0 "k" sample_engine).2) "k" = Some text ∧
    read_cached 0 text sample_engine = (Ok c2, w3) ∧
    rc_block_rules c2 = [json_of_block_rule curl_rule].
Proof.
  set (run := rebuild_rule_cache_from_db 0 "k" sample_engine).
  set (cache := match run.1 with Ok c => c | Raise _ =>
                  {| rc_version := 0; rc_allow_rules := []; rc_block_rules := []; rc_ua_regex_set := [] |} end).
  assert (E : run = (Ok cache, run.2)) by (vm_compute; reflexivity).
  assert (Ht : 1500 * usec < w_now sample_engine + 600 * second) by (vm_compute; reflexivity).
  destruct (rebuilt_cache_read_back 0 "k" sample_engine run.2 cache (1500 * usec) sample_engine E Ht)
    as (text & c2 & w3 & H1 & H2 & _ & _ & H4).
  exists text, c2, w3. split; [exact H1|]. split; [exact H2|]. rewrite H4. vm_compute. reflexivity.
Defined.

Lemma rdns_verdict_confirmed_and_cached_witness :
  forward_confirmed (P:=LiteRe) "66.249.66.1" "\.googlebot\.com$".
Proof.
  set (run := verify_rdns (default_conf "s") "66.249.66.1" "\.googlebot\.com$" sample_engine).
  assert (E : verify_rdns (default_conf "s") "66.249.66.1" "\.googlebot\.com$" sample_engine
              = (Ok true, run.2)) by (vm_compute; reflexivity).
  assert (Hcold : peek_str (w_now sample_engine) (ks sample_engine)
            (fcrdns_cache_key "66.249.66.1" "\.googlebot\.com$") = None) by (vm_compute; reflexivity).
  destruct (rdns_verdict_confirmed_and_cached (default_conf "s") "66.249.66.1" "\.googlebot\.com$"
    sample_engine run.2 run.2 run.2 true true Hcold E) as [H _].
  apply H. reflexivity.
Defined.

Lemma every_challenge_is_gated_witness :
  let run := evaluate_request Z.of_nat (default_conf "s") "192.0.2.1" "curl/7.1" "/" "GET" "" ∅ sample_engine in
  ∃ fv w1 n, get_unsolved_challenge_count "192.0.2.1" fv w1 = (Ok n, run.2) ∧ n < 10.
Proof.
  intros run.
  set (r := match run.1 with Ok r => r | Raise _ => plain_result CHALLENGED None end).
  assert (E : run = (Ok r, run.2)) by (vm_compute; reflexivity).
  assert (Hc : er_verdict r = CHALLENGED) by (vm_compute; reflexivity).
  exact (every_challenge_is_gated _ _ _ _ _ _ _ _ _ _ _ E Hc).
Defined.

Lemma recorded_block_is_attributed_witness :
  ∃ r, (step_blocked_ip "192.0.2.1"
          (record_block_verdict "192.0.2.1" 300 (Some (uuid_str 42)) sample_engine).2).1 = Ok (Some r) ∧
       er_verdict r = BLOCKED ∧ er_matched_rule_id r = Some 42.
Proof.
  set (rec := record_block_verdict "192.0.2.1" 300 (Some (uuid_str 42)) sample_engine).
  assert (E : rec = (Ok tt, rec.2)) by (vm_compute; reflexivity).
  destruct (step_blocked_ip "192.0.2.1" rec.2) as [[o|e] w3] eqn:Es; [|vm_compute in Es; discriminate Es].
  assert (Hu : 0 <= 42 < 2 ^ 128) by (split; [discriminate|reflexivity]).
  assert (Ht : w_now rec.2 < w_now sample_engine + 300 * second) by (vm_compute; reflexivity).
  destruct (recorded_block_is_attributed "192.0.2.1" 300 42 sample_engine rec.2 rec.2 w3 tt o Hu E
              eq_refl Ht Es) as (r & -> & H1 & H2 & _).
  exists r. split; [reflexivity|]. split; [exact H1|exact H2].
Defined.

Lemma score_verdict_monotone_witness :
  severity (score_to_verdict (default_conf "s") 4).1 <= severity (score_to_verdict (default_conf "s") 8).1.
Proof.
  apply (score_verdict_monotone (P:=LiteRe) (default_conf "s") "/.env" 4 8); discriminate.
Defined.

(** An address challenged ten times, whose escalation rule was rejected. *)
Definition escalated_world : World MemRedis LiteRe :=
  {| (sample_world [sample_rule] []) with w_redis :=
       {| mem := {[challenged_key "192.0.2.1" := {| e_val := VString "10"; e_exp := None |}]} |} |}.

Lemma rejected_escalation_still_blocks_witness :
  let run := gate_challenge_or_escalate Z.of_nat (default_conf "s") "192.0.2.1"
               (plain_result CHALLENGED None) "unknown" escalated_world in
  ∃ r row, run.1 = Ok r ∧ er_verdict r = BLOCKED ∧ br_is_active row = false ∧
    peek_str (w_now run.2) (ks run.2) (blocked_ip_key "192.0.2.1") = Some (uuid_str (br_id row)).
Proof.
  intros run.
  set (cnt := get_unsolved_challenge_count "192.0.2.1" "unknown" escalated_world).
  set (r := match run.1 with Ok r => r | Raise _ => plain_result CHALLENGED None end).
  assert (E1 : cnt = (Ok 10, cnt.2)) by (vm_compute; reflexivity).
  assert (E2 : run = (Ok r, run.2)) by (vm_compute; reflexivity).
  destruct (rejected_escalation_still_blocks Z.of_nat (default_conf "s") "192.0.2.1" "unknown"
    (plain_result CHALLENGED None) escalated_world cnt.2 run.2 sample_rule 10 r
    eq_refl eq_refl eq_refl eq_refl E1 ltac:(vm_compute; discriminate) E2)
    as (H1 & row & _ & H2 & _ & H3).
  exists r, row. split; [vm_compute; reflexivity|]. split; [exact H1|]. split; [exact H2|].
  apply H3. reflexivity.
Defined.

Lemma default_exemptions_disable_no_referer_witness :
  let conf := {| (default_conf "s") with DJANGO_WAF_CHALLENGE_NO_REFERER := true |} in
  step_no_referer Z.of_nat conf "192.0.2.1" "/login/" "" "unknown" sample_engine = (Ok None, sample_engine).
Proof. intros conf. apply default_exemptions_disable_no_referer; reflexivity. Defined.

(** 4301 digits. *)
Fixpoint nines (n : nat) : string := match n with O => EmptyString | S n => String "9" (nines n) end.

Lemma nines_digits n : str_forall is_digit (nines n) = true ∧ String.length (nines n) = n.
Proof.
  induction n as [|n [IH1 IH2]]; [split; reflexivity|]. split; simpl; [exact IH1|by rewrite IH2].
Defined.

End RuleEngineProps.
