(* ===== verification/RuleCacheProofs.v ===== *)
(** * Loading the rule cache ends, whoever holds the rebuild lock
    ([_load_rule_cache] and [_acquire_rebuild_lock] of [services/rule_engine.py])

    The load waits for another worker's rebuild for a bounded time and then
    rebuilds by itself.  Two levels: for any client of Redis, answering or
    failing as it likes, the wait is bounded and no row changes; on a working
    server the load returns the active rules, whether the lock is free, held or
    left behind by a worker that died. *)

From Stdlib Require Import ZArith QArith Lia Ascii String Sorted.
From stdpp Require Import base tactics option list strings numbers gmap.
From S2P Require Import Prelude PyStr PyTime Codec Regex Conf Redis Models AutoRule RuleEngine RuleEngineProofs.

Open Scope Z_scope.

Definition REBUILD_WAIT : Z := Z.of_nat REBUILD_LOCK_RETRIES * REBUILD_LOCK_RETRY_DELAY.

(** ** Any client *)

Section AnyClient.
Context {R P : Type} `{RedisClient R} `{ReEngine P}.
Implicit Types w : World R P.

(** The clock reads [t] and the tables hold [rows]. *)
Definition still (t : Z) rows w : Prop := w_now w = t ∧ stored_rows w = rows.

Lemma still_on_redis {A} t rows (m : Z → M R A) : preserves (still t rows) (on_redis m).
Proof. intros w [Ht Hr]. unfold on_redis. destruct (m _ _) as [r rd]. by split. Qed.

Lemma still_memoise t rows p c : preserves (still t rows) (memoise p c).
Proof. intros w [Ht Hr]. by split. Qed.

Lemma still_db_read {A} t rows (f : World R P → A) : preserves (still t rows) (db_read f).
Proof. intros w Hw. unfold db_read. by destruct (w_db_up w). Qed.

Lemma still_compile t rows rules : preserves (still t rows) (compile_ua_patterns rules).
Proof.
  induction rules as [|r rules IH]; cbn [compile_ua_patterns]; [apply preserves_ret|].
  apply preserves_bind; [|intros c; apply preserves_bind; [exact IH|intros; apply preserves_ret]].
  unfold compile_ua_rule. apply preserves_bind; [apply preserves_lift|intros rt].
  destruct (negb _); [apply preserves_ret|].
  apply preserves_bind; [apply preserves_lift|intros p]. apply preserves_bind; [apply preserves_lift|intros mt].
  destruct (jis "regex" mt).
  - destruct (re_compile p); (apply preserves_bind; [apply still_memoise|intros; apply preserves_ret]).
  - destruct (if jis "contains" mt then _ else _) as [text|]; [|apply preserves_ret].
    destruct (re_compile text); [apply preserves_ret|].
    apply preserves_bind; [apply still_memoise|intros; apply preserves_ret].
Qed.

Lemma still_rebuild t rows version key : preserves (still t rows) (rebuild_rule_cache_from_db version key).
Proof.
  unfold rebuild_rule_cache_from_db. apply preserves_bind; [apply preserves_gets|intros now].
  apply preserves_bind; [apply still_db_read|intros blocks].
  apply preserves_bind; [apply still_db_read|intros allows]. cbv zeta.
  apply preserves_bind; [apply still_on_redis|intros v].
  apply preserves_bind; [apply still_compile|intros; apply preserves_ret].
Qed.

Lemma still_release t rows : preserves (still t rows) release_rebuild_lock.
Proof.
  apply preserves_try; [|intros; apply preserves_ret].
  apply preserves_bind; [apply still_on_redis|intros; apply preserves_ret].
Qed.

Lemma acquire_loop_waits n w :
  ∃ b w', acquire_lock_loop n w = (Ok b, w') ∧ stored_rows w' = stored_rows w ∧
    w_now w <= w_now w' <= w_now w + Z.of_nat n * REBUILD_LOCK_RETRY_DELAY.
Proof.
  revert w. induction n as [|n IH]; intros w; cbn [acquire_lock_loop]; unfold bind at 1, try_except, bind at 1, send, on_redis.
  all: destruct (exec _ _ _) as [[v|e] rd].
  all: try (eexists _, _; split; [reflexivity|]; cbn; split; [done|unfold REBUILD_LOCK_RETRY_DELAY; lia]).
  - destruct v; (eexists _, _; split; [reflexivity|]; cbn; split; [done|lia]).
  - set (w1 := {| w with w_redis := rd |}).
    destruct (IH {| w1 with w_now := w_now w1 + REBUILD_LOCK_RETRY_DELAY |}) as (b & w' & Hrun & Hrows & Hb).
    cbn [w_now] in Hb. unfold REBUILD_LOCK_RETRY_DELAY in *.
    destruct v; cbn beta iota; unfold ret; try (eexists _, _; split; [reflexivity|]; cbn; split; [done|lia]).
    all: unfold bind, sleep, modify; rewrite Hrun; eexists _, _; (split; [reflexivity|]); (split; [exact Hrows|]);
         subst w1; cbn in Hb; lia.
Qed.

(** The [try] around the copy in Redis. *)
Lemma still_read_copy t rows version cached : preserves (still t rows)
  (match cached with
   | Some s => if str_empty s then ret None else
       try_except (result <- read_cached version s ;; ret (Some result))
         (λ e, if bool_decide (e = JSONDecodeError) || bool_decide (e = KeyError) then ret None else raise e)
   | None => ret None
   end).
Proof.
  destruct cached as [s|]; [|apply preserves_ret]. destruct (str_empty s); [apply preserves_ret|].
  apply preserves_try; [|intros e; destruct (_ || _); [apply preserves_ret|apply preserves_raise]].
  apply preserves_bind; [|intros; apply preserves_ret]. unfold read_cached.
  destruct (loads s); [|apply preserves_raise]. apply preserves_bind; [apply preserves_lift|intros a].
  apply preserves_bind; [apply preserves_lift|intros b].
  apply preserves_bind; [apply still_compile|intros; apply preserves_ret].
Qed.

Lemma rebuild_waits version key w :
  stored_rows (rebuild_rule_cache version key w).2 = stored_rows w ∧
  w_now w <= w_now (rebuild_rule_cache version key w).2 <= w_now w + REBUILD_WAIT.
Proof.
  unfold rebuild_rule_cache, acquire_rebuild_lock.
  destruct (acquire_loop_waits REBUILD_LOCK_RETRIES w) as (b & w1 & Ha & Hr & Ht). rewrite (bind_Ok _ _ _ _ _ Ha).
  assert (Hfin : preserves (still (w_now w1) (stored_rows w1)) (try_finally
    (rebuild_rule_cache_from_db version key) (if b then release_rebuild_lock else ret tt))).
  { apply preserves_finally; [apply still_rebuild|]. destruct b; [apply still_release|apply preserves_ret]. }
  specialize (Hfin w1 (conj eq_refl eq_refl)). destruct (try_finally _ _ w1) as [c w2].
  destruct Hfin as [Ht2 Hr2]. cbn [snd] in *. split; [congruence|]. unfold REBUILD_WAIT. lia.
Qed.

(** A load that finds nothing current waits once, and for a bounded time. *)
Lemma load_waits w r w' :
  load_rule_cache w = (r, w') →
  stored_rows w' = stored_rows w ∧ w_now w <= w_now w' <= w_now w + REBUILD_WAIT.
Proof.
  set (I := still (w_now w) (stored_rows w)).
  assert (Hdone : ∀ w', I w' → stored_rows w' = stored_rows w ∧ w_now w <= w_now w' <= w_now w + REBUILD_WAIT).
  { intros v [Ht Hr]. unfold REBUILD_WAIT, REBUILD_LOCK_RETRIES, REBUILD_LOCK_RETRY_DELAY. split; [done|lia]. }
  assert (Hw : I w) by done. unfold load_rule_cache. cbv zeta. intros Hrun.
  apply bind_inv in Hrun as [(rv & w1 & Hg & Hrun)|(e & Hg & ->)].
  2: { apply Hdone. eapply preserves_Ok; [apply still_on_redis|exact Hw|exact Hg]. }
  apply (preserves_Ok I) in Hg; [|apply still_on_redis|exact Hw].
  apply bind_inv in Hrun as [(version & w1' & Hv & Hrun)|(e & Hv & ->)]; unfold lift_res in Hv; simplify_eq.
  2: by apply Hdone.
  unfold bind at 1, gets at 1 in Hrun. destruct (match w_process_cache w1' with Some c => _ | None => _ end) as [c|].
  { unfold ret in Hrun. simplify_eq. by apply Hdone. }
  apply bind_inv in Hrun as [(cached & w2 & Hc & Hrun)|(e & Hc & ->)].
  2: { apply Hdone. eapply preserves_Ok; [apply still_on_redis|exact Hg|exact Hc]. }
  apply (preserves_Ok I) in Hc; [|apply still_on_redis|exact Hg].
  apply bind_inv in Hrun as [(found & w3 & Hf & Hrun)|(e & Hf & ->)].
  2: { apply Hdone. eapply preserves_Ok; [apply still_read_copy|exact Hc|exact Hf]. }
  apply (preserves_Ok I) in Hf; [|apply still_read_copy|exact Hc].
  destruct found as [c|].
  { unfold bind, ret, set_process_cache, modify in Hrun. simplify_eq. by apply Hdone. }
  destruct (rebuild_waits version (rules_cache_key version) w3) as (Hr4 & Ht4).
  destruct Hf as [Ht3 Hr3]. rewrite Ht3, Hr3 in *.
  apply bind_inv in Hrun as [(c & w4 & Hb & Hrun)|(e & Hb & ->)]; rewrite Hb in Hr4, Ht4; cbn [snd] in *; [|done].
  unfold bind, ret, set_process_cache, modify in Hrun. injection Hrun as <- <-. exact (conj Hr4 Ht4).
Qed.
End AnyClient.

(** ** A working server *)

Section Working.
Context {P : Type} `{ReEngine P}.
Abbreviation W := (World MemRedis P).
Implicit Types w : W.
Definition ks (w : W) : keyspace := mem (w_redis w).

(** [w] at another time with another keyspace. *)
Definition moved (w : W) (t : Z) (m : keyspace) : W := {| {| w with w_now := t |} with w_redis := {| mem := m |} |}.

Lemma moved_same w : moved w (w_now w) (ks w) = w.
Proof. destruct w as [? [m] ? ? ? ? ? ? ? ? ? ? ?]. reflexivity. Qed.

Lemma send_on_mem c w v m :
  step (w_now w) c (ks w) = Some (v, m) → send c w = (Ok v, moved w (w_now w) m).
Proof. unfold ks. intros Hs. unfold send, on_redis, exec. cbn. by rewrite Hs. Qed.

Lemma get_absent k w : peek (w_now w) (ks w) k = None → get_key k w = (Ok None, w).
Proof.
  unfold ks. intros Hk. unfold get_key, on_redis, redis_get, bind, exec. cbn. rewrite Hk. cbn.
  f_equal. apply moved_same.
Qed.

Definition taken_lock (t : Z) : entry := {| e_val := VString "1"; e_exp := Some (t + REBUILD_LOCK_TTL * second) |}.

(** [j] waits; the lock taken if it was free then, and still held if not. *)
Lemma acquire_mem n w :
  ∃ (b : bool) j, (j <= n)%nat ∧
    let t := w_now w + Z.of_nat j * REBUILD_LOCK_RETRY_DELAY in
    acquire_lock_loop n w = (Ok b, moved w t (if b then <[REBUILD_LOCK_KEY := taken_lock t]> (ks w) else ks w)) ∧
    (peek (w_now w) (ks w) REBUILD_LOCK_KEY = None → j = O) ∧
    (if b then peek t (ks w) REBUILD_LOCK_KEY = None else j = n ∧ is_Some (peek t (ks w) REBUILD_LOCK_KEY)).
Proof.
  revert w. induction n as [|n IH]; intros w; cbn [acquire_lock_loop];
    (destruct (peek (w_now w) (ks w) REBUILD_LOCK_KEY) as [e|] eqn:Ep;
     [|exists true, O; split; [lia|]; cbv zeta; rewrite Z.add_0_r;
       unfold bind at 1, try_except, bind at 1; erewrite send_on_mem by (cbn [step]; rewrite Ep; reflexivity);
       by split_and!]).
  - exists false, O. split; [lia|]. cbv zeta. rewrite Z.add_0_r.
    unfold bind at 1, try_except, bind at 1. erewrite send_on_mem by (cbn [step]; rewrite Ep; reflexivity).
    split_and!; [done|done|done|by rewrite Ep].
  - unfold bind at 1, try_except, bind at 1. erewrite send_on_mem by (cbn [step]; rewrite Ep; reflexivity).
    rewrite moved_same. cbn beta iota. unfold ret at 1. unfold bind at 1, sleep, modify.
    set (w1 := {| w with w_now := w_now w + REBUILD_LOCK_RETRY_DELAY |}).
    destruct (IH w1) as (b & j & Hj & Hrun & _ & Hb). exists b, (S j). split; [lia|]. cbv zeta in *.
    replace (w_now w1 + Z.of_nat j * REBUILD_LOCK_RETRY_DELAY)
      with (w_now w + Z.of_nat (S j) * REBUILD_LOCK_RETRY_DELAY) in * by (cbn [w1 w_now]; lia).
    split; [exact Hrun|]. split; [done|]. destruct b; [exact Hb|]. destruct Hb as [-> Hb]. by split.
Qed.

Lemma peek_earlier t t' m k : t <= t' → is_Some (peek t' m k) → is_Some (peek t m k).
Proof.
  intros Ht. unfold peek. destruct (m !! k) as [e|]; cbn; [|done]. unfold live.
  destruct (e_exp e) as [x|]; [|done]. destruct (Z.ltb_spec t' x), (Z.ltb_spec t x); try done; try lia.
Qed.

Lemma lock_is_no_copy version : rules_cache_key version ≠ REBUILD_LOCK_KEY.
Proof. unfold rules_cache_key, REBUILD_LOCK_KEY. discriminate. Qed.

Lemma rebuild_mem version w :
  w_db_up w = true →
  ∃ c w', rebuild_rule_cache_from_db version (rules_cache_key version) w = (Ok c, w') ∧
    rc_block_rules c = map json_of_block_rule (BlockRuleManager.active (w_now w) (w_block_rules w)) ∧
    rc_allow_rules c = map json_of_allow_rule (order_by_name (AllowRuleManager.active (w_now w) (w_allow_rules w))) ∧
    w_now w' = w_now w ∧ (ks w') !! REBUILD_LOCK_KEY = (ks w) !! REBUILD_LOCK_KEY.
Proof.
  intros Hup. unfold rebuild_rule_cache_from_db. unfold bind at 1, clock, gets.
  rewrite !(bind_Ok _ _ _ _ _ (db_read_up _ w Hup)). cbv zeta.
  set (rows := BlockRuleManager.active (w_now w) (w_block_rules w)).
  match goal with |- context [send (SETEX ?k ?t ?v)] =>
    rewrite (bind_Ok _ _ _ _ _ (send_on_mem (SETEX k t v) w ROk
      (<[k := {| e_val := VString v; e_exp := Some (w_now w + t * second) |}]> (ks w)) eq_refl)) end.
  match goal with |- context [moved w ?t ?m] => set (w1 := moved w t m) end.
  destruct (total_inv _ w1 (compile_rows_total rows)) as (cs & w2 & Hc). rewrite (bind_Ok _ _ _ _ _ Hc).
  pose proof (still_compile (w_now w1) (stored_rows w1) (map json_of_block_rule rows) w1 (conj eq_refl eq_refl)) as Hs.
  pose proof (compile_redis (w_redis w1) (map json_of_block_rule rows) w1 eq_refl) as Hr.
  rewrite Hc in Hs, Hr. cbn [snd] in Hs, Hr. destruct Hs as [Ht _].
  eexists _, w2. split; [reflexivity|]. split; [done|]. split; [done|]. split; [exact Ht|].
  unfold ks at 1. rewrite Hr. cbn. rewrite lookup_insert_ne; [done|]. apply lock_is_no_copy.
Qed.

Lemma load_mem w :
  w_db_up w = true → w_process_cache w = None →
  peek (w_now w) (ks w) RULES_VERSION_KEY = None → peek (w_now w) (ks w) (rules_cache_key 0) = None →
  ∃ c w' (b : bool) j, load_rule_cache w = (Ok c, w') ∧ (j <= REBUILD_LOCK_RETRIES)%nat ∧
    w_now w' = w_now w + Z.of_nat j * REBUILD_LOCK_RETRY_DELAY ∧
    rc_block_rules c = map json_of_block_rule (BlockRuleManager.active (w_now w') (w_block_rules w)) ∧
    rc_allow_rules c = map json_of_allow_rule (order_by_name (AllowRuleManager.active (w_now w') (w_allow_rules w))) ∧
    w_process_cache w' = Some c ∧
    (peek (w_now w) (ks w) REBUILD_LOCK_KEY = None → j = O) ∧
    (if b then peek (w_now w') (ks w) REBUILD_LOCK_KEY = None ∧ ks w' !! REBUILD_LOCK_KEY = None
     else j = REBUILD_LOCK_RETRIES ∧ ks w' !! REBUILD_LOCK_KEY = ks w !! REBUILD_LOCK_KEY).
Proof.
  intros Hup Hnone Hv Hk. unfold load_rule_cache. rewrite (bind_Ok _ _ _ _ _ (get_absent _ w Hv)).
  unfold bind at 1, lift_res at 1. unfold bind at 1, gets at 1. rewrite Hnone. cbv zeta.
  rewrite (bind_Ok _ _ _ _ _ (get_absent _ w Hk)). unfold bind at 1, ret at 1.
  unfold rebuild_rule_cache, acquire_rebuild_lock.
  destruct (acquire_mem REBUILD_LOCK_RETRIES w) as (b & j & Hj & Ha & Hfree & Hb). cbv zeta in *.
  set (t := w_now w + Z.of_nat j * REBUILD_LOCK_RETRY_DELAY) in *.
  set (m := if b then <[REBUILD_LOCK_KEY := taken_lock t]> (ks w) else ks w) in *.
  destruct (rebuild_mem 0 (moved w t m) Hup) as (c & w2 & Hrun & Hbl & Hal & Ht & Hlock).
  change (w_now (moved w t m)) with t in *. change (ks (moved w t m)) with m in Hlock.
  assert (Hfin : ∃ w3, bind (acquire_lock_loop REBUILD_LOCK_RETRIES) (λ lock_acquired,
      try_finally (rebuild_rule_cache_from_db 0 (rules_cache_key 0))
        (if lock_acquired then release_rebuild_lock else ret tt)) w = (Ok c, w3) ∧ w_now w3 = t ∧
      (if b then ks w3 !! REBUILD_LOCK_KEY = None else ks w3 !! REBUILD_LOCK_KEY = ks w !! REBUILD_LOCK_KEY)).
  { rewrite (bind_Ok _ _ _ _ _ Ha). unfold try_finally. rewrite Hrun. destruct b.
    - unfold release_rebuild_lock, try_except, bind.
      rewrite (send_on_mem (DEL REBUILD_LOCK_KEY) w2 _ _ eq_refl). unfold ret. eexists. split; [reflexivity|].
      split; [exact Ht|]. apply lookup_delete_eq.
    - unfold ret. exists w2. split; [reflexivity|]. split; [exact Ht|exact Hlock]. }
  destruct Hfin as (w3 & Hw3 & Ht3 & Hl3). rewrite (bind_Ok _ _ _ _ _ Hw3). unfold bind, set_process_cache, modify, ret.
  eexists _, _, b, j. split; [reflexivity|]. cbn [w_now w_process_cache]. rewrite Ht3.
  split_and!; [exact Hj|done|exact Hbl|exact Hal|done|exact Hfree|].
  destruct b; [by split|]. destruct Hb as [-> _]. by split.
Qed.
End Working.

Module RuleCacheProps.

(** C35: loading the rules terminates, whoever holds the rebuild lock.  Under any
    Redis, answering or failing at every call, a load waits at most three
    tenths of a second and changes no row.  On a working server and database,
    with nothing cached and no version counter yet, it returns the rules active at the time it read them
    and caches them: at once when the lock is free, which it then gives back,
    and after the full wait when another worker keeps it (or died holding
    it), whose lock it leaves alone. *)
Theorem cache_load_terminates {R P} `{RedisClient R} `{ReEngine P} (v : World R P) (w : World MemRedis P) :
  (let (_, v') := load_rule_cache v in
   stored_rows v' = stored_rows v ∧ w_now v <= w_now v' <= w_now v + 300000) ∧
  (w_db_up w = true → w_process_cache w = None →
   peek (w_now w) (ks w) RULES_VERSION_KEY = None → peek (w_now w) (ks w) (rules_cache_key 0) = None →
   ∃ c w', load_rule_cache w = (Ok c, w') ∧ w_process_cache w' = Some c ∧
     rc_block_rules c = map json_of_block_rule (BlockRuleManager.active (w_now w') (w_block_rules w)) ∧
     rc_allow_rules c = map json_of_allow_rule (order_by_name (AllowRuleManager.active (w_now w') (w_allow_rules w))) ∧
     (peek (w_now w) (ks w) REBUILD_LOCK_KEY = None →
      w_now w' = w_now w ∧ ks w' !! REBUILD_LOCK_KEY = None) ∧
     (is_Some (peek (w_now w + 300000) (ks w) REBUILD_LOCK_KEY) →
      w_now w' = w_now w + 300000 ∧ ks w' !! REBUILD_LOCK_KEY = ks w !! REBUILD_LOCK_KEY)).
Proof.
  split.
  { destruct (load_rule_cache v) as [r v'] eqn:E. by apply load_waits in E. }
  intros Hup Hnone Hv Hk. destruct (load_mem w Hup Hnone Hv Hk) as (c & w' & b & j & Hrun & Hj & Ht & Hbl & Hal & Hc & Hfree & Hb).
  exists c, w'. split_and!; [exact Hrun|done|done|done| |].
  - intros Hf. specialize (Hfree Hf). subst j. split; [lia|]. destruct b; [by destruct Hb|by destruct Hb].
  - intros Hheld. destruct b.
    + destruct Hb as [Hb _]. exfalso. apply (peek_earlier (w_now w')) in Hheld.
      * rewrite Hb in Hheld. by destruct Hheld.
      * rewrite Ht. unfold REBUILD_LOCK_RETRIES, REBUILD_LOCK_RETRY_DELAY in *. lia.
    + destruct Hb as [-> Hb]. split; [rewrite Ht; reflexivity|exact Hb].
Qed.

(** *** Witness: a worker died one second ago, its lock lives four more. *)
Definition stuck : World MemRedis LiteRe :=
  let w := AutoRuleProps.sample_world [{| {| AutoRuleProps.sample_rule with br_is_active := true |} with br_expires_at := None |}] [] in
  moved w (w_now w) {[ REBUILD_LOCK_KEY := taken_lock (w_now w - usec) ]}.

Lemma cache_load_terminates_witness :
  ∃ c w', load_rule_cache stuck = (Ok c, w') ∧ length (rc_block_rules c) = 1%nat ∧
    w_now w' = w_now stuck + 300000.
Proof.
  destruct (cache_load_terminates stuck stuck) as [_ Hload].
  destruct Hload as (c & w' & Hrun & _ & Hbl & _ & _ & Hheld);
    [reflexivity|reflexivity|reflexivity|reflexivity|].
  exists c, w'. split; [exact Hrun|]. destruct Hheld as [Ht _]; [eexists; reflexivity|].
  split; [rewrite Hbl, Ht; vm_compute; reflexivity|exact Ht].
Defined.
End RuleCacheProps.
