(* ===== verification/Challenge.v ===== *)
(** * Proof-of-work challenges ([services/challenge_service.py])

    Issuing a token, verifying a solution (a state machine on the token's
    status), and the signed cookie that lets a solver pass. *)

From Stdlib Require Import ZArith Lia Ascii String.
From stdpp Require Import base tactics option list strings numbers gmap.
From S2P Require Import Prelude PyStr IpAddress Hash PyTime Codec Regex Conf.
From S2P Require Import Redis Http Models AutoRule RuleEngine RuleEngineProofs.

Open Scope Z_scope.

(** ** Difficulty *)

(** [_is_mobile_user_agent]. *)
Definition is_mobile_user_agent (user_agent : string) : bool :=
  if str_empty user_agent then false else
  let ua := lower user_agent in
  str_in "mobi" ua || str_in "iphone" ua || str_in "ipod" ua.

(** [_pick_difficulty]. *)
Definition pick_difficulty (conf : Conf) (user_agent : string) : Z :=
  let value := if is_mobile_user_agent user_agent then DJANGO_WAF_CHALLENGE_DIFFICULTY_MOBILE conf
               else DJANGO_WAF_CHALLENGE_DIFFICULTY_DESKTOP conf in
  default (DJANGO_WAF_CHALLENGE_DIFFICULTY conf) value.

(** [_digest_has_leading_zero_bits]. *)
Definition digest_has_leading_zero_bits (digest : list Z) (bits : Z) : bool :=
  if bits <=? 0 then true else
  let full_bytes := bits / 8 in
  let remainder := bits mod 8 in
  if Z.of_nat (length digest) <? full_bytes + (if remainder =? 0 then 0 else 1) then false
  else if existsb (λ b, negb (b =? 0)) (take (Z.to_nat full_bytes) digest) then false
  else if remainder =? 0 then true
  else
    let mask := Z.land (Z.shiftl 255 (8 - remainder)) 255 in
    Z.land (nth (Z.to_nat full_bytes) digest 0) mask =? 0.

(** ** The token life cycle *)

Definition challenge_key (token : string) : string := "waf:challenge:" +:+ token.

(** [int(data["difficulty"])]. *)
Definition json_int (v : json) : res Z :=
  match v with
  | JInt z => Ok z
  | JBool b => Ok (if b then 1 else 0)
  | JStr s => match py_int s with Some z => Ok z | None => Raise ValueError end
  | _ => Raise (OtherError "TypeError")
  end.

Definition challenge_payload (ip : string) (difficulty expires_at : Z) : json :=
  JObj [("ip", JStr ip); ("difficulty", JInt difficulty); ("expires", JStr (isoformat expires_at))].

(** The [try] block on the Redis copy: [Ok None] when it is absent or corrupt. *)
Definition cached_challenge (raw : option string) : res (option (json * Z)) :=
  match raw with
  | None => Ok None
  | Some s =>
      if str_empty s then Ok None else
      match loads s with
      | None => Ok None                          (* JSONDecodeError *)
      | Some data =>
          match res_bind (jget data "ip") (λ stored_ip,
                res_bind (res_bind (jget data "difficulty") json_int) (λ difficulty,
                Ok (stored_ip, difficulty))) with
          | Ok p => Ok (Some p)
          | Raise e => if bool_decide (e = KeyError) then Ok None else Raise e
          end
      end
  end.

Section Challenge.
Context {R P : Type} `{RedisClient R} (token_hex : nat → string) (conf : Conf).
Abbreviation W := (World R P).

(** [ChallengeToken.objects.get(token=token)]. *)
Definition get_token (token : string) : M W ChallengeToken :=
  found <- db_read (λ w, List.find (λ c, bool_decide (ct_token c = token)) (w_tokens w)) ;;
  match found with Some c => ret c | None => raise DoesNotExist end.

(** [token_obj.save(update_fields=...)]: the row of this token is replaced.
    The width of the [nonce] column (128) is not enforced: a database that does
    (PostgreSQL) raises on a longer nonce, SQLite stores it. *)
Definition save_token (c : ChallengeToken) : M W unit :=
  db_write (λ w, {| w with w_tokens :=
    map (λ d, if bool_decide (ct_token d = ct_token c) then c else d) (w_tokens w) |}).

(** [issue_challenge]; the signal is not part of the model. *)
Definition issue_challenge (ip user_agent : string) : M W ChallengeToken :=
  token <- draw token_hex ;;
  let difficulty := pick_difficulty conf user_agent in
  let ttl := DJANGO_WAF_CHALLENGE_COOKIE_TTL conf in
  t <- clock ;;
  let expires_at := t + ttl * usec in
  let challenge_token := {| ct_token := token; ct_ip_address := ip; ct_difficulty := difficulty;
    ct_nonce := ""; ct_status := ChallengeStatus_PENDING; ct_issued_at := t;
    ct_expires_at := expires_at; ct_solved_at := None |} in
  existing <- db_read (λ w, existsb (λ c, bool_decide (ct_token c = token)) (w_tokens w)) ;;
  if existing then raise IntegrityError else
  db_write (λ w, {| w with w_tokens := w_tokens w ++ [challenge_token] |}) ;;;
  send (SETEX (challenge_key token) ttl (dumps (challenge_payload ip difficulty expires_at))) ;;;
  ret challenge_token.

(** The part after the look-ups: status, expiry, address, proof of work. *)
Definition check_solution (token nonce ip : string) (stored_ip : json) (difficulty : Z)
    (obj : ChallengeToken) : M W bool :=
  if bool_decide (ct_status obj = ChallengeStatus_EXPIRED)
     || bool_decide (ct_status obj = ChallengeStatus_SOLVED)
     || bool_decide (ct_status obj = ChallengeStatus_FAILED)
  then raise (ChallengeExpiredError "Challenge token is no longer valid.") else
  t <- clock ;;
  if ct_expires_at obj <? t then
    save_token {| obj with ct_status := ChallengeStatus_EXPIRED |} ;;;
    raise (ChallengeExpiredError "Challenge token has expired.")
  else if negb (jis ip stored_ip) then
    raise (ChallengeMismatchError
             ("Challenge was issued to " +:+ py_str stored_ip +:+ ", not " +:+ ip +:+ "."))
  else if negb (digest_has_leading_zero_bits (sha256 (encode (token +:+ nonce))) difficulty) then
    save_token {| obj with ct_status := ChallengeStatus_FAILED |} ;;;
    raise (ChallengeInvalidError "Nonce does not satisfy proof-of-work requirement.")
  else
    save_token {| {| {| obj with ct_status := ChallengeStatus_SOLVED |}
                     with ct_solved_at := Some t |} with ct_nonce := nonce |} ;;;
    send (DEL (challenge_key token)) ;;; ret true.

(** [verify_challenge_solution]. *)
Definition verify_challenge_solution (token nonce ip : string) : M W bool :=
  raw <- get_key (challenge_key token) ;;
  cached <- lift_res (cached_challenge raw) ;;
  match cached with
  | Some (stored_ip, difficulty) =>
      obj <- get_token token ;; check_solution token nonce ip stored_ip difficulty obj
  | None =>
      obj <- try_except (get_token token) (λ e,
               if bool_decide (e = DoesNotExist)
               then raise (ChallengeInvalidError "Challenge token not found.") else raise e) ;;
      check_solution token nonce ip (JStr (ct_ip_address obj)) (ct_difficulty obj) obj
  end.
End Challenge.

(** ** The pass cookie *)

(** [_normalise_ip]. *)
Definition normalise_ip (ip : string) : string :=
  match ip_address ip with Some a => ip_str a | None => ip end.

(** [_hmac_sign]. *)
Definition hmac_sign (conf : Conf) (value : string) : string :=
  hexdigest (hmac_sha256 (encode (SECRET_KEY conf)) (encode value)).

Definition bar : ascii := "|".

Definition pass_cookie_prefix (token ip expiry : string) : string :=
  join "|" ["v2"; token; ip; expiry].

(** The value [issue_pass_cookie] builds at time [now]. *)
Definition pass_cookie_value (conf : Conf) (now : Z) (token ip : string) : string :=
  let expiry_ts := now / usec + DJANGO_WAF_CHALLENGE_COOKIE_TTL conf in
  let value_prefix := pass_cookie_prefix token (normalise_ip ip) (str_of_Z expiry_ts) in
  value_prefix +:+ "|" +:+ hmac_sign conf value_prefix.

(** [issue_pass_cookie]. *)
Definition issue_pass_cookie (conf : Conf) (now : Z) (token ip : string) (secure : bool)
    (response : Response) : Response :=
  set_cookie {| ck_name := "waf_pass"; ck_value := pass_cookie_value conf now token ip;
                ck_max_age := DJANGO_WAF_CHALLENGE_COOKIE_TTL conf; ck_domain := None;
                ck_httponly := true; ck_secure := secure; ck_samesite := "Lax" |} response.

(** The [try] block of [validate_pass_cookie]; every error it can raise is one
    of those caught.  [int] also refuses more than 4300 digits, which the model
    reads; the signature is compared first, so such an expiry is one the site
    itself signed. *)
Definition validate_pass_cookie_body (conf : Conf) (now : Z) (cookie ip : string) : res bool :=
  match rsplit1 bar cookie with
  | None => Raise ValueError
  | Some (value_prefix, signature) =>
      res_bind (compare_digest (hmac_sign conf value_prefix) signature) (λ same,
        if negb same then Ok false else
        match split_max bar 3 value_prefix with
        | [version; _token; cookie_ip; expiry_str] =>
            if negb (bool_decide (version = "v2")) then Ok false else
            match py_int expiry_str with
            | None => Raise ValueError
            | Some expiry_ts =>
                if expiry_ts * usec <? now then Ok false
                else Ok (bool_decide (cookie_ip = normalise_ip ip))
            end
        | _ => Raise ValueError
        end)
  end.

(** [validate_pass_cookie]. *)
Definition validate_pass_cookie (conf : Conf) (now : Z) (cookie ip : string) : bool :=
  match validate_pass_cookie_body conf now cookie ip with Ok b => b | Raise _ => false end.

Example leading_zero_examples :
  digest_has_leading_zero_bits [0; 15; 255] 12 = true ∧
  digest_has_leading_zero_bits [0; 16; 255] 12 = false ∧
  digest_has_leading_zero_bits [0; 0] 17 = false ∧ digest_has_leading_zero_bits [0; 0] 16 = true.
Proof. vm_compute. done. Qed.

(** ** Leading zero bits as a numeric bound *)

(** A digest as a big-endian number. *)
Definition be_value (bs : list Z) : Z := fold_left (λ acc b, acc * 256 + b) bs 0.

Lemma be_value_acc bs acc :
  fold_left (λ acc b, acc * 256 + b) bs acc = acc * 256 ^ Z.of_nat (length bs) + be_value bs.
Proof.
  revert acc. induction bs as [|b bs IH]; intros acc; [unfold be_value; simpl; lia|].
  unfold be_value. cbn [fold_left length]. rewrite IH, (IH (0 * 256 + b)).
  rewrite Nat2Z.inj_succ, Z.pow_succ_r by lia. lia.
Qed.

Lemma be_value_app a b : be_value (a ++ b) = be_value a * 256 ^ Z.of_nat (length b) + be_value b.
Proof. unfold be_value at 1. rewrite fold_left_app. apply be_value_acc. Qed.

Lemma be_value_cons b bs : be_value (b :: bs) = b * 256 ^ Z.of_nat (length bs) + be_value bs.
Proof. unfold be_value at 1. cbn [fold_left]. rewrite be_value_acc. lia. Qed.

Lemma be_value_bound bs : Forall octet bs → 0 <= be_value bs < 256 ^ Z.of_nat (length bs).
Proof.
  induction 1 as [|b bs Hb Hbs IH]; [unfold be_value; simpl; lia|].
  rewrite be_value_cons. cbn [length]. rewrite Nat2Z.inj_succ, Z.pow_succ_r by lia.
  unfold octet in Hb. nia.
Qed.

Lemma be_value_zero bs :
  Forall octet bs → existsb (λ b, negb (b =? 0)) bs = false ↔ be_value bs = 0.
Proof.
  induction 1 as [|b bs Hb Hbs IH]; [done|].
  rewrite be_value_cons. simpl. rewrite orb_false_iff, negb_false_iff, Z.eqb_eq, IH.
  pose proof (be_value_bound bs Hbs). unfold octet in Hb.
  assert (0 < 256 ^ Z.of_nat (length bs)) by (apply Z.pow_pos_nonneg; lia). nia.
Qed.

(** The top [r] bits of an octet. *)
Lemma top_bits_zero b r :
  octet b → 1 <= r <= 7 →
  (Z.land b (Z.land (Z.shiftl 255 (8 - r)) 255) =? 0) = (b <? 2 ^ (8 - r)).
Proof.
  intros Hb Hr.
  assert (Hall : forallb (λ r, forallb (λ b, Bool.eqb
      (Z.land (Z.of_nat b) (Z.land (Z.shiftl 255 (8 - Z.of_nat r)) 255) =? 0)
      (Z.of_nat b <? 2 ^ (8 - Z.of_nat r))) (seq 0 256)) (seq 1 7) = true)
    by (vm_compute; reflexivity).
  rewrite forallb_forall in Hall. specialize (Hall (Z.to_nat r) ltac:(apply in_seq; lia)).
  rewrite forallb_forall in Hall. unfold octet in Hb.
  specialize (Hall (Z.to_nat b) ltac:(apply in_seq; lia)).
  rewrite !Z2Nat.id in Hall by lia. by apply Bool.eqb_prop.
Qed.

Lemma leading_zero_bits_bound digest bits :
  Forall octet digest → 0 <= bits →
  digest_has_leading_zero_bits digest bits = true ↔
  bits <= 8 * Z.of_nat (length digest) ∧
  be_value digest < 2 ^ (8 * Z.of_nat (length digest) - bits).
Proof.
  intros Ho Hbits. set (n := Z.of_nat (length digest)).
  assert (Hp : ∀ k, 0 <= k → 256 ^ k = 2 ^ (8 * k)) by (intros k Hk; by rewrite Z.pow_mul_r by lia).
  unfold digest_has_leading_zero_bits. destruct (Z.leb_spec bits 0) as [Hz|Hpos].
  { assert (bits = 0) as -> by lia. pose proof (be_value_bound digest Ho) as Hb. fold n in Hb.
    rewrite Hp in Hb by lia. rewrite Z.sub_0_r. split; [intros _; split; lia|done]. }
  pose proof (Z.div_mod bits 8 ltac:(lia)) as Hdm. pose proof (Z.mod_pos_bound bits 8 ltac:(lia)) as Hr.
  set (q := bits / 8) in *. set (r := bits mod 8) in *.
  assert (Hq : 0 <= q) by (apply Z.div_pos; lia).
  set (hd := take (Z.to_nat q) digest). set (tl := drop (Z.to_nat q) digest).
  assert (Hd : digest = hd ++ tl) by (symmetry; apply take_drop).
  assert (Hhd : Forall octet hd) by by apply Forall_take.
  assert (Htl : Forall octet tl) by by apply Forall_drop.
  fold n. destruct (Z.ltb_spec n (q + (if r =? 0 then 0 else 1))) as [Hlt|Hge].
  { split; [done|]. intros [Hle _]. destruct (Z.eqb_spec r 0); lia. }
  assert (Hlen : Z.of_nat (length tl) = n - q).
  { unfold tl. rewrite length_drop. unfold n in *. destruct (r =? 0); lia. }
  assert (Hv : be_value digest = be_value hd * 256 ^ (n - q) + be_value tl)
    by (rewrite Hd at 1; by rewrite be_value_app, Hlen).
  pose proof (be_value_bound hd Hhd) as [Hh0 _]. pose proof (be_value_bound tl Htl) as Ht.
  rewrite Hlen in Ht. assert (0 < 256 ^ (n - q)) by (apply Z.pow_pos_nonneg; destruct (r =? 0); lia).
  destruct (existsb (λ b, negb (b =? 0)) hd) eqn:Ee.
  { split; [done|]. intros [Hle Hb]. exfalso.
    assert (be_value hd ≠ 0) by (intros E; apply be_value_zero in E; [congruence|done]).
    assert (2 ^ (8 * n - bits) <= 256 ^ (n - q)).
    { rewrite Hp by lia. apply Z.pow_le_mono_r; lia. }
    nia. }
  apply be_value_zero in Ee; [|done]. rewrite Ee, Z.mul_0_l, Z.add_0_l in Hv. rewrite Hv.
  destruct (Z.eqb_spec r 0) as [Hr0|Hr0].
  { split; [intros _|done]. split; [lia|]. rewrite Hp in Ht by lia.
    replace (8 * n - bits) with (8 * (n - q)) by lia. lia. }
  assert (Hnth : ∃ b rest, tl = b :: rest).
  { destruct tl as [|b rest]; [simpl in Hlen; lia|eauto]. }
  destruct Hnth as (b & rest & Etl).
  assert (Hb : nth (Z.to_nat q) digest 0 = b).
  { rewrite Hd, app_nth2; unfold hd; rewrite length_take_le by (unfold n in *; lia); [|lia].
    by rewrite Nat.sub_diag, Etl. }
  rewrite Etl in Htl, Hlen. apply Forall_cons_1 in Htl as [Hob Hrest].
  rewrite Hb, top_bits_zero by (done || lia). rewrite Etl, be_value_cons.
  cbn [length] in Hlen. replace (Z.of_nat (length rest)) with (n - q - 1) by lia.
  pose proof (be_value_bound rest Hrest) as Hrb.
  replace (Z.of_nat (length rest)) with (n - q - 1) in Hrb by lia.
  replace (8 * n - bits) with ((8 - r) + 8 * (n - q - 1)) by lia.
  rewrite Z.pow_add_r, <- Hp by lia. rewrite Z.ltb_lt.
  assert (0 < 256 ^ (n - q - 1)) by (apply Z.pow_pos_nonneg; lia).
  split; [intros Hlt; split; [lia|nia]|intros [_ Hlt]; nia].
Qed.

(** ** The token machine *)

(** What one verification may do to the row of its token. *)
Inductive token_step (now : Z) (token nonce : string) : ChallengeToken → ChallengeToken → Prop :=
| step_stays c : token_step now token nonce c c
| step_expires c :
    ct_token c = token → ct_status c = ChallengeStatus_PENDING → ct_expires_at c < now →
    token_step now token nonce c {| c with ct_status := ChallengeStatus_EXPIRED |}
| step_fails c :
    ct_token c = token → ct_status c = ChallengeStatus_PENDING → now <= ct_expires_at c →
    token_step now token nonce c {| c with ct_status := ChallengeStatus_FAILED |}
| step_solves c :
    ct_token c = token → ct_status c = ChallengeStatus_PENDING → now <= ct_expires_at c →
    token_step now token nonce c
      {| {| {| c with ct_status := ChallengeStatus_SOLVED |} with ct_solved_at := Some now |}
         with ct_nonce := nonce |}.

Definition find_token (token : string) (rows : list ChallengeToken) : option ChallengeToken :=
  List.find (λ c, bool_decide (ct_token c = token)) rows.

Definition replace_token (c : ChallengeToken) (rows : list ChallengeToken) : list ChallengeToken :=
  map (λ d, if bool_decide (ct_token d = ct_token c) then c else d) rows.

Lemma find_token_Some token rows c : find_token token rows = Some c → In c rows ∧ ct_token c = token.
Proof. intros Hf. apply List.find_some in Hf as [Hi Ht]. by bool_hyps. Qed.

Lemma find_replace_token token c rows obj :
  find_token token rows = Some obj → ct_token c = token →
  find_token token (replace_token c rows) = Some c.
Proof.
  intros Hf Hc. unfold find_token, replace_token in *. induction rows as [|d rows IH]; [done|].
  simpl in *. rewrite Hc in *. destruct (decide (ct_token d = token)) as [Hd|Hd].
  - rewrite !(bool_decide_true (ct_token d = token)) in * by done. by rewrite bool_decide_true.
  - rewrite !(bool_decide_false (ct_token d = token)) in * by done. by apply IH.
Qed.

(** The tokens are unique, so replacing a row is a step of that row alone. *)
Lemma replace_token_steps now token nonce obj c rows :
  NoDup (map ct_token rows) → find_token token rows = Some obj →
  ct_token c = token → token_step now token nonce obj c →
  Forall2 (token_step now token nonce) rows (replace_token c rows).
Proof.
  intros Hnd Hf Hc Hs. unfold find_token, replace_token in *.
  induction rows as [|d rows IH]; [done|]. simpl in *. apply NoDup_cons in Hnd as [Hni Hnd].
  rewrite Hc in *. destruct (decide (ct_token d = token)) as [Hd|Hd].
  - rewrite !(bool_decide_true (ct_token d = token)) in * by done. injection Hf as ->.
    constructor; [done|]. rewrite (map_ext_in _ id), map_id.
    { apply Forall2_same_length_lookup_2; [done|]. intros i x y Hx Hy. rewrite Hx in Hy.
      injection Hy as ->. constructor. }
    intros e He. rewrite bool_decide_false; [done|]. intros Ee. apply Hni.
    rewrite Hd, <- Ee. apply list_elem_of_In, in_map, He.
  - rewrite !(bool_decide_false (ct_token d = token)) in * by done. constructor; [constructor|].
    by apply IH.
Qed.

(** ** What a verification does *)

Section Verify.
Context {R P : Type} `{RedisSpec R}.
Abbreviation W := (World R P).

(** The address and difficulty a verification checks against: the Redis copy
    when it is usable, else the row. *)
Definition checked_against (w : W) (token : string) (obj : ChallengeToken)
    (stored_ip : json) (difficulty : Z) : Prop :=
  match cached_challenge (peek_str (w_now w) (ks w) (challenge_key token)) with
  | Ok (Some (i, d)) => stored_ip = i ∧ difficulty = d
  | _ => stored_ip = JStr (ct_ip_address obj) ∧ difficulty = ct_difficulty obj
  end.

Lemma get_token_inv token (w w' : W) r :
  get_token token w = (r, w') →
  w' = w ∧ ∀ obj, r = Ok obj → find_token token (w_tokens w) = Some obj.
Proof.
  unfold get_token, bind, db_read, ret, raise. destruct (w_db_up w); [|by intros [= <- <-]].
  fold (find_token token (w_tokens w)).
  destruct (find_token _ _) as [c|]; intros [= <- <-]; split; try done. by intros obj [= ->].
Qed.

Lemma save_token_inv c (w w' : W) r :
  save_token c w = (r, w') →
  (w' = w ∧ is_Ok r = false) ∨
  (w' = {| w with w_tokens := replace_token c (w_tokens w) |} ∧ r = Ok tt).
Proof.
  unfold save_token, db_write. destruct (w_db_up w); intros [= <- <-]; [by right|by left].
Qed.

(** Every run reaches [check_solution] on the row of the token, or raises
    and leaves the tokens alone. *)
Lemma verify_reaches_check token nonce ip (w w' : W) r :
  verify_challenge_solution token nonce ip w = (r, w') →
  (is_Ok r = false ∧ w_tokens w' = w_tokens w) ∨
  ∃ w1 obj stored difficulty, redis_only w w1 ∧
    find_token token (w_tokens w) = Some obj ∧
    checked_against w token obj stored difficulty ∧
    check_solution token nonce ip stored difficulty obj w1 = (r, w').
Proof.
  unfold verify_challenge_solution, bind at 1. intros Hrun.
  destruct (get_key _ w) as [[raw|e] w1] eqn:Eg.
  2:{ left. apply (on_redis_only (λ t, redis_get t _)) in Eg. injection Hrun as <- <-.
      split; [done|by rewrite Eg]. }
  pose proof Eg as Eg'. apply get_key_Ok in Eg' as (-> & Hk & Ho).
  assert (Htok : w_tokens w1 = w_tokens w) by (by rewrite Ho).
  unfold bind at 1, lift_res in Hrun.
  destruct (cached_challenge _) as [cached|e] eqn:Ec; [|left; injection Hrun as <- <-; done].
  assert (Hgo : ∀ obj i d, get_token token w1 = (Ok obj, w1) →
    checked_against w token obj i d → check_solution token nonce ip i d obj w1 = (r, w') →
    ∃ w1 obj stored difficulty, redis_only w w1 ∧
      find_token token (w_tokens w) = Some obj ∧ checked_against w token obj stored difficulty ∧
      check_solution token nonce ip stored difficulty obj w1 = (r, w')).
  { intros obj i d Hg Hch Hc. exists w1, obj, i, d. split_and!; try done.
    rewrite <- Htok. by apply (get_token_inv token w1 w1 (Ok obj) Hg). }
  destruct cached as [[i d]|].
  - unfold bind in Hrun. destruct (get_token token w1) as [[obj|e] w2] eqn:Et;
      pose proof (get_token_inv _ _ _ _ Et) as [-> _].
    + right. eapply Hgo; [done| |done]. unfold checked_against. by rewrite Ec.
    + left. injection Hrun as <- <-. done.
  - unfold bind, try_except in Hrun. destruct (get_token token w1) as [[obj|e] w2] eqn:Et;
      pose proof (get_token_inv _ _ _ _ Et) as [-> _].
    + right. eapply Hgo; [done| |done]. unfold checked_against. by rewrite Ec.
    + left. case_bool_decide; unfold raise in Hrun; injection Hrun as <- <-; done.
Qed.

Lemma check_solution_steps token nonce ip stored d obj (w w' : W) r :
  NoDup (map ct_token (w_tokens w)) → find_token token (w_tokens w) = Some obj →
  check_solution token nonce ip stored d obj w = (r, w') →
  Forall2 (token_step (w_now w) token nonce) (w_tokens w) (w_tokens w').
Proof.
  intros Hnd Hf. pose proof (find_token_Some _ _ _ Hf) as [_ Ht]. unfold check_solution.
  assert (Hrefl : Forall2 (token_step (w_now w) token nonce) (w_tokens w) (w_tokens w)).
  { apply Reflexive_instance_0. intros c. constructor. }
  destruct (_ || _) eqn:Es; [by intros [= <- <-]|]. bool_hyps.
  assert (Hp : ct_status obj = ChallengeStatus_PENDING) by (destruct (ct_status obj); done).
  unfold bind at 1, clock, gets. destruct (Z.ltb_spec (ct_expires_at obj) (w_now w)) as [Hlt|Hge].
  { unfold bind. destruct (save_token _ w) as [r1 w1] eqn:E1.
    apply save_token_inv in E1 as [[-> Hr]|[-> ->]]; [destruct r1; by intros [= <- <-]|].
    intros [= <- <-]. cbn [w_tokens]. eapply replace_token_steps; [done..|]. by constructor. }
  destruct (negb (jis ip stored)); [by intros [= <- <-]|].
  destruct (negb _).
  { unfold bind. destruct (save_token _ w) as [r1 w1] eqn:E1.
    apply save_token_inv in E1 as [[-> Hr]|[-> ->]]; [destruct r1; by intros [= <- <-]|].
    intros [= <- <-]. cbn [w_tokens]. eapply replace_token_steps; [done..|]. by constructor. }
  unfold bind at 1. destruct (save_token _ w) as [r1 w1] eqn:E1.
  apply save_token_inv in E1 as [[-> Hr]|[-> ->]]; [destruct r1; [done|by intros [= <- <-]]|].
  unfold bind. destruct (send _ _) as [r2 w2] eqn:E2.
  apply (on_redis_only (λ t, exec t _)) in E2.
  assert (w_tokens w2 = replace_token _ (w_tokens w)) as Ew by (by rewrite E2).
  intros Hrun. assert (w' = w2) as -> by (destruct r2; injection Hrun; done).
  rewrite Ew. eapply replace_token_steps; [done..|]. by constructor.
Qed.

(** An accepting check: everything it established. *)
Lemma check_solution_Ok token nonce ip stored d obj (w w' : W) b :
  find_token token (w_tokens w) = Some obj →
  check_solution token nonce ip stored d obj w = (Ok b, w') →
  b = true ∧ ct_status obj = ChallengeStatus_PENDING ∧ w_now w <= ct_expires_at obj ∧
  stored = JStr ip ∧ digest_has_leading_zero_bits (sha256 (encode (token +:+ nonce))) d = true ∧
  ∃ c, find_token token (w_tokens w') = Some c ∧ ct_status c = ChallengeStatus_SOLVED.
Proof.
  intros Hf. pose proof (find_token_Some _ _ _ Hf) as [_ Ht]. unfold check_solution.
  destruct (_ || _) eqn:Es; [done|]. bool_hyps.
  assert (Hp : ct_status obj = ChallengeStatus_PENDING) by (destruct (ct_status obj); done).
  unfold bind at 1, clock, gets. destruct (Z.ltb_spec (ct_expires_at obj) (w_now w)) as [Hlt|Hge].
  { unfold bind. by destruct (save_token _ w) as [[?|?] ?]. }
  destruct (jis ip stored) eqn:Ei; cbn [negb]; [|done].
  destruct (digest_has_leading_zero_bits _ d); cbn [negb];
    [|unfold bind; by destruct (save_token _ w) as [[?|?] ?]].
  unfold bind at 1. destruct (save_token _ w) as [r1 w1] eqn:E1.
  apply save_token_inv in E1 as [[-> Hr]|[-> ->]]; [by destruct r1|].
  unfold bind. destruct (send _ _) as [r2 w2] eqn:E2.
  apply (on_redis_only (λ t, exec t _)) in E2. destruct r2 as [v|]; [|done].
  intros [= <- <-]. split_and!; try done.
  - destruct stored; simpl in Ei; try done. by bool_hyps; subst.
  - rewrite E2. cbn [w_tokens]. eexists. split; [by eapply find_replace_token|done].
Qed.
(** An accepting verification: everything it established. *)
Lemma verify_Ok_inv token nonce ip (w w' : W) b :
  verify_challenge_solution token nonce ip w = (Ok b, w') →
  b = true ∧
  (∃ obj difficulty, find_token token (w_tokens w) = Some obj ∧
     ct_status obj = ChallengeStatus_PENDING ∧ w_now w <= ct_expires_at obj ∧
     checked_against w token obj (JStr ip) difficulty ∧
     digest_has_leading_zero_bits (sha256 (encode (token +:+ nonce))) difficulty = true) ∧
  ∃ c, find_token token (w_tokens w') = Some c ∧ ct_status c = ChallengeStatus_SOLVED.
Proof.
  intros Hrun. apply verify_reaches_check in Hrun
    as [[? _]|(w1 & obj & stored & d & Ho & Hf & Hc & Hrun)]; [done|].
  assert (Ht : w_tokens w1 = w_tokens w) by (by rewrite Ho).
  assert (Hn : w_now w1 = w_now w) by (by rewrite Ho).
  apply check_solution_Ok in Hrun as (-> & Hp & He & -> & Hd & Hs); [|by rewrite Ht].
  rewrite Hn in He. split; [done|]. split; [by exists obj, d|done].
Qed.
(** Every verification moves the rows along the token machine. *)
Lemma verify_steps token nonce ip (w w' : W) r :
  NoDup (map ct_token (w_tokens w)) →
  verify_challenge_solution token nonce ip w = (r, w') →
  Forall2 (token_step (w_now w) token nonce) (w_tokens w) (w_tokens w').
Proof.
  intros Hnd Hrun. apply verify_reaches_check in Hrun
    as [[_ ->]|(w1 & obj & stored & d & Ho & Hf & _ & Hrun)].
  { apply Reflexive_instance_0. intros c. constructor. }
  assert (Ht : w_tokens w1 = w_tokens w) by (by rewrite Ho).
  assert (Hn : w_now w1 = w_now w) by (by rewrite Ho).
  rewrite <- Ht, <- Hn. rewrite <- Ht in Hnd, Hf. by eapply check_solution_steps.
Qed.

(** Issuing adds one pending row for the address, or none. *)
Lemma issue_challenge_tokens token_hex conf ip ua (w w' : W) r :
  issue_challenge token_hex conf ip ua w = (r, w') →
  w_tokens w' = w_tokens w ∨
  ∃ c, w_tokens w' = w_tokens w ++ [c] ∧ ct_status c = ChallengeStatus_PENDING ∧ ct_ip_address c = ip.
Proof.
  unfold issue_challenge, bind, draw, clock, gets, db_read, db_write. cbn [w_db_up].
  destruct (w_db_up w) eqn:Hup; cbn [w_db_up]; [|intros [= <- <-]; by left].
  destruct (existsb _ _); [intros [= <- <-]; by left|].
  cbn [w_db_up]. destruct (send _ _) as [r1 w1] eqn:Es. apply (on_redis_only (λ t, exec t _)) in Es.
  intros Hrun. assert (w' = w1) as -> by (destruct r1; injection Hrun; done).
  right. rewrite Es. cbn. eexists. split_and!; done.
Qed.

End Verify.

(** ** The cookie text *)

Lemma join_split_max c n s : join (String c "") (split_max c n s) = s.
Proof.
  revert n. induction s as [|d s IH]; intros n; [done|]. simpl. destruct n as [|n]; [done|].
  case_bool_decide as Hcd.
  - subst d. specialize (IH n). destruct (split_max c n s) as [|p ps] eqn:E.
    + by destruct s, n; simpl in E; repeat case_match.
    + simpl in *. by rewrite IH.
  - specialize (IH (S n)). destruct (split_max c (S n) s) as [|p ps]; simpl in IH; [by subst|].
    simpl. destruct ps; simpl in *; by rewrite IH.
Qed.

(** Every part but the last is free of the separator. *)
Lemma split_max_4 c s a b d e :
  split_max c 3 s = [a; b; d; e] →
  char_in c a = false ∧ char_in c b = false ∧ char_in c d = false.
Proof.
  assert (Hone : ∀ n s p ps, split_max c n s = p :: ps → ps ≠ [] →
    char_in c p = false ∧ ∃ n' s', n = S n' ∧ split_max c n' s' = ps).
  { clear. intros n s. revert n. induction s as [|x s IH]; intros n p ps; simpl.
    { intros [= <- <-]. done. }
    destruct n as [|n]; [by intros [= <- <-]|]. case_bool_decide as Hx.
    - intros [= <- <-] _. split; [done|]. by exists n, s.
    - destruct (split_max c (S n) s) as [|q qs] eqn:E; intros [= <- <-] Hne; [done|].
      destruct (IH _ _ _ E Hne) as (Hq & n' & s' & Hn & Hs). split; [|by exists n', s'].
      simpl. by rewrite Hq, bool_decide_false by done. }
  intros Hs. apply Hone in Hs as (Ha & n1 & s1 & [= <-] & Hs); [|done].
  apply Hone in Hs as (Hb & n2 & s2 & [= <-] & Hs); [|done].
  apply Hone in Hs as (Hd & _); [|done]. done.
Qed.

Lemma split_prefix token ip expiry :
  char_in bar token = false → char_in bar ip = false →
  split_max bar 3 (pass_cookie_prefix token ip expiry) = ["v2"; token; ip; expiry].
Proof.
  intros Ht Hi. unfold pass_cookie_prefix, bar in *. cbn [join].
  change ("v2" +:+ "|" +:+ ?x) with ("v2" +:+ String "|" x). rewrite split_max_app by done.
  change (token +:+ "|" +:+ ?x) with (token +:+ String "|" x). rewrite split_max_app by done.
  change (ip +:+ "|" +:+ ?x) with (ip +:+ String "|" x). rewrite split_max_app by done.
  by rewrite split_max_0.
Qed.

Lemma hmac_sign_no_bar conf v : char_in bar (hmac_sign conf v) = false.
Proof. by apply hexdigest_no_char, hmac_octets. Qed.

Lemma hmac_sign_ascii conf v : str_forall is_ascii (hmac_sign conf v) = true.
Proof. apply hex_ascii, hexdigest_hex, hmac_octets. Qed.

(** The tests on a signed value, without the exceptions. *)
Lemma validate_signed conf now prefix ip :
  validate_pass_cookie conf now (prefix +:+ "|" +:+ hmac_sign conf prefix) ip =
  match split_max bar 3 prefix with
  | [version; _; cookie_ip; expiry_str] =>
      bool_decide (version = "v2") &&
      match py_int expiry_str with
      | Some n => (now <=? n * usec) && bool_decide (cookie_ip = normalise_ip ip)
      | None => false
      end
  | _ => false
  end.
Proof.
  unfold validate_pass_cookie, validate_pass_cookie_body.
  change (prefix +:+ "|" +:+ ?x) with (prefix +:+ String bar x).
  rewrite rsplit1_app by apply hmac_sign_no_bar.
  unfold compare_digest. rewrite hmac_sign_ascii, bool_decide_true by done. cbn [andb res_bind negb].
  destruct (split_max bar 3 prefix) as [|v [|t [|i [|e [|? ?]]]]]; try done.
  case_bool_decide; [|done]. cbn [negb andb]. destruct (py_int e) as [n|]; [|done].
  rewrite Z.ltb_antisym. by destruct (now <=? n * usec).
Qed.

(** An accepted cookie carries the signature of its prefix. *)
Lemma validate_is_signed conf now cookie ip :
  validate_pass_cookie conf now cookie ip = true →
  ∃ prefix, cookie = prefix +:+ "|" +:+ hmac_sign conf prefix.
Proof.
  unfold validate_pass_cookie, validate_pass_cookie_body.
  destruct (rsplit1 bar cookie) as [[prefix sig]|] eqn:Er; [|done].
  apply rsplit1_Some in Er as [-> _].
  destruct (compare_digest _ _) as [[|]|] eqn:Ec; try done.
  intros _. exists prefix. unfold compare_digest in Ec. destruct (_ && _); [|done].
  injection Ec as Ec. apply bool_decide_eq_true in Ec. by rewrite Ec.
Qed.

(** A printed address without scope is hexadecimal digits and separators. *)
Definition addr_char (c : ascii) : bool := is_hex c || bool_decide (c = "."%char) || bool_decide (c = ":"%char).

Lemma addr_char_hex c : is_hex c = true → addr_char c = true.
Proof. unfold addr_char. by intros ->. Qed.

Lemma addr_char_digits z : 0 <= z → str_forall addr_char (str_of_Z z) = true.
Proof.
  intros Hz. apply (str_forall_impl is_digit); [|by apply str_of_Z_nat_digits].
  intros c Hc. apply addr_char_hex. unfold is_hex. by rewrite Hc.
Qed.

Lemma hextet_hex n : 0 <= n < 65536 → str_forall addr_char (hextet n) = true.
Proof.
  intros Hn. assert (Hd : ∀ d, 0 <= d < 16 → addr_char (hex_char d) = true)
    by (intros; by apply addr_char_hex, hex_char_is_hex).
  unfold hextet. repeat case_match; bool_hyps; cbn [str_forall]; rewrite !Hd by dlia; done.
Qed.

Lemma Forall_compress (p : string → Prop) hs : p "" → Forall p hs → Forall p (compress_hextets hs).
Proof.
  intros H0 Hf. unfold compress_hextets. destruct (zero_run _ _ _ _ _ _) as [bs bl].
  assert (Hx : Forall p (hs ++ [""])) by (apply Forall_app; split; [done|by repeat constructor]).
  repeat case_match; repeat first [apply Forall_cons_2 | apply Forall_app_2 | apply Forall_take
    | apply Forall_drop | constructor | assumption].
Qed.

Lemma ip_str_chars a :
  match a with IPv6 _ (Some _) => False | _ => True end → str_forall addr_char (ip_str a) = true.
Proof.
  assert (Hm : ∀ n k, 0 < k → 0 <= n mod k < k) by (intros; by apply Z.mod_pos_bound).
  destruct a as [n|n [sc|]]; [intros _|done|intros _].
  - apply str_forall_join; [done|]. repeat constructor; apply addr_char_digits; by apply Hm.
  - apply str_forall_join; [done|]. apply Forall_compress; [done|].
    unfold ipv6_hextets. cbn [map]. repeat constructor; apply hextet_hex; by apply Hm.
Qed.

(** The addresses the middleware sees: those without a scope id. *)
Definition plain_ip (ip : string) : bool :=
  match ip_address ip with Some (IPv4 _) | Some (IPv6 _ None) => true | _ => false end.

Lemma normalise_ip_no_bar ip : plain_ip ip = true → char_in bar (normalise_ip ip) = false.
Proof.
  unfold plain_ip, normalise_ip. destruct (ip_address ip) as [a|]; [|done]. intros Ha.
  apply (str_forall_not_char addr_char); [done|]. apply ip_str_chars.
  by destruct a as [|? [|]].
Qed.

Lemma validate_issued conf now later token ip ip' :
  char_in bar token = false → plain_ip ip = true →
  validate_pass_cookie conf later (pass_cookie_value conf now token ip) ip' =
  (later <=? (now / usec + DJANGO_WAF_CHALLENGE_COOKIE_TTL conf) * usec) &&
  bool_decide (normalise_ip ip = normalise_ip ip').
Proof.
  intros Ht Hip. unfold pass_cookie_value. rewrite validate_signed.
  rewrite split_prefix by (done || by apply normalise_ip_no_bar).
  rewrite py_int_str_of_Z. by rewrite bool_decide_true.
Qed.

(** ** Properties *)

Module ChallengeProps.

(** The Redis copy of an issued challenge reads back as what was issued. *)
Lemma cached_challenge_payload ip d e :
  cached_challenge (Some (dumps (challenge_payload ip d e))) = Ok (Some (JStr ip, d)).
Proof.
  unfold cached_challenge.
  assert (Hne : str_empty (dumps (challenge_payload ip d e)) = false) by done.
  by rewrite Hne, loads_dumps.
Qed.

Section Props.
Context {R P : Type} `{RedisSpec R}.
Abbreviation W := (World R P).

(** C4: what an accepted solution proves: the token's row was PENDING and
    unexpired, the client's address is the one the challenge was issued to
    (as the Redis copy or the row states it), and the digest of token and
    nonce meets the difficulty.  Afterwards no verification of that token
    succeeds again, whatever the nonce, the address, the time and the state
    of Redis, as long as the tokens are those this call left. *)
Theorem accepted_solution_is_sound token nonce ip (w w' : W) b :
  verify_challenge_solution token nonce ip w = (Ok b, w') →
  b = true ∧
  (∃ obj difficulty, find_token token (w_tokens w) = Some obj ∧
     ct_status obj = ChallengeStatus_PENDING ∧ w_now w <= ct_expires_at obj ∧
     checked_against w token obj (JStr ip) difficulty ∧
     digest_has_leading_zero_bits (sha256 (encode (token +:+ nonce))) difficulty = true) ∧
  ∀ nonce2 ip2 (w2 : W), w_tokens w2 = w_tokens w' →
    is_Ok (verify_challenge_solution token nonce2 ip2 w2).1 = false.
Proof.
  intros Hrun. apply verify_Ok_inv in Hrun as (-> & Hpast & c & Hc & Hs).
  split; [done|]. split; [exact Hpast|].
  intros nonce2 ip2 w2 Hw2. destruct (verify_challenge_solution _ _ _ w2) as [r w3] eqn:E.
  destruct r as [b|]; [|done]. apply verify_Ok_inv in E as (_ & (obj & _ & Hf & Hp & _) & _).
  rewrite Hw2 in Hf. congruence.
Qed.

(** C8: the token state machine.  Whatever a verification returns or
    raises, it moves the row of its own token only, only out of PENDING,
    to EXPIRED only after the expiry time and to FAILED or SOLVED only
    before it, and leaves every other row and field alone. *)
Theorem verification_follows_token_machine token nonce ip (w w' : W) r :
  NoDup (map ct_token (w_tokens w)) →
  verify_challenge_solution token nonce ip w = (r, w') →
  Forall2 (token_step (w_now w) token nonce) (w_tokens w) (w_tokens w').
Proof. apply verify_steps. Qed.
End Props.

Section Live.
Context {P : Type} (token_hex : nat → string) (conf : Conf).
Abbreviation W := (World MemRedis P).

Lemma mem_setex k ttl v (w : W) :
  0 < ttl → send (SETEX k ttl v) w =
    (Ok ROk, {| w with w_redis := {| mem := <[k := {| e_val := VString v;
                 e_exp := Some (w_now w + ttl * second) |}]> (mem (w_redis w)) |} |}).
Proof.
  intros Ht. unfold send, on_redis, exec. cbn [r_exec mem_redis step].
  by rewrite (proj2 (Z.ltb_lt 0 ttl)).
Qed.

Lemma mem_get k (w : W) e :
  mem (w_redis w) !! k = Some e → (∃ s, e_val e = VString s) →
  get_key k w = (Ok (peek_str (w_now w) (mem (w_redis w)) k), w).
Proof.
  intros Hk [s Hs]. unfold get_key, on_redis, redis_get, bind, exec. cbn [r_exec mem_redis step].
  unfold peek_str, peek. rewrite Hk. cbn [mbind option_bind].
  destruct (live (w_now w) e); cbn [mbind option_bind]; rewrite ?Hs; by destruct w as [? []].
Qed.

Lemma get_token_up token c (w : W) :
  w_db_up w = true → find_token token (w_tokens w) = Some c → get_token token w = (Ok c, w).
Proof.
  intros Hup Hf. unfold get_token. erewrite bind_Ok; [|by apply db_read_up].
  change (List.find _ (w_tokens w)) with (find_token token (w_tokens w)). by rewrite Hf.
Qed.

Lemma check_solution_accepts token nonce ip d c (w : W) :
  w_db_up w = true → ct_status c = ChallengeStatus_PENDING → w_now w <= ct_expires_at c →
  digest_has_leading_zero_bits (sha256 (encode (token +:+ nonce))) d = true →
  ∃ w2, check_solution token nonce ip (JStr ip) d c w = (Ok true, w2) ∧ w_now w2 = w_now w.
Proof.
  intros Hup Hs He Hd. unfold check_solution. rewrite Hs, !bool_decide_false by done. cbn [orb].
  erewrite bind_Ok; [|reflexivity]. rewrite (proj2 (Z.ltb_ge _ _)) by done.
  cbn [jis]. rewrite bool_decide_true, Hd by done. cbn [negb].
  erewrite bind_Ok; [|by apply db_write_up]. eexists. split; reflexivity.
Qed.

(** The entry of an issued challenge in Redis. *)
Definition challenge_entry (c : ChallengeToken) (dropped_at : Z) : entry :=
  {| e_val := VString (dumps (challenge_payload (ct_ip_address c) (ct_difficulty c) (ct_expires_at c)));
     e_exp := Some dropped_at |}.

(** Issuing with everything up and a fresh token: the row and its Redis copy. *)
Lemma issue_challenge_up ip ua (w : W) :
  let token := token_hex (w_fresh w) in
  let expires := w_now w + DJANGO_WAF_CHALLENGE_COOKIE_TTL conf * usec in
  w_db_up w = true → 0 < DJANGO_WAF_CHALLENGE_COOKIE_TTL conf → find_token token (w_tokens w) = None →
  ∃ c w1, issue_challenge token_hex conf ip ua w = (Ok c, w1) ∧
    ct_token c = token ∧ ct_ip_address c = ip ∧ ct_status c = ChallengeStatus_PENDING ∧
    ct_expires_at c = expires ∧
    w_now w1 = w_now w ∧ w_db_up w1 = true ∧ find_token token (w_tokens w1) = Some c ∧
    mem (w_redis w1) !! challenge_key token = Some (challenge_entry c expires).
Proof.
  intros token expires Hup Httl Hfresh.
  assert (Hex : existsb (λ c, bool_decide (ct_token c = token)) (w_tokens w) = false).
  { apply existsb_false_iff. intros c Hc. by apply (List.find_none _ _ Hfresh). }
  unfold issue_challenge.
  erewrite bind_Ok; [|reflexivity]. fold token. erewrite bind_Ok; [|reflexivity].
  erewrite bind_Ok; [|by apply db_read_up]. cbn [w_tokens]. rewrite Hex.
  erewrite bind_Ok; [|by apply db_write_up].
  erewrite bind_Ok; [|by apply mem_setex]. cbn [w_now].
  eexists _, _. split; [reflexivity|]. cbn. split_and!; try done.
  - unfold find_token in *. rewrite find_app, Hfresh. simpl. by rewrite bool_decide_true.
  - apply lookup_insert_eq.
Qed.

(** Verifying against an issued challenge, before and after Redis dropped
    its copy. *)
Lemma verify_accepts c nonce e (w : W) :
  w_db_up w = true → find_token (ct_token c) (w_tokens w) = Some c →
  ct_status c = ChallengeStatus_PENDING → w_now w <= ct_expires_at c →
  mem (w_redis w) !! challenge_key (ct_token c) = Some (challenge_entry c e) →
  digest_has_leading_zero_bits (sha256 (encode (ct_token c +:+ nonce))) (ct_difficulty c) = true →
  ∃ w2, verify_challenge_solution (ct_token c) nonce (ct_ip_address c) w = (Ok true, w2) ∧ w_now w2 = w_now w.
Proof.
  intros Hup Hf Hs He Hm Hpow. unfold verify_challenge_solution.
  erewrite bind_Ok; [|eapply mem_get; [exact Hm|by eexists]].
  unfold peek_str, peek. rewrite Hm. cbn [mbind option_bind].
  destruct (live (w_now w) _); cbn [mbind option_bind challenge_entry e_val].
  - rewrite cached_challenge_payload. erewrite bind_Ok; [|reflexivity]. cbv beta iota.
    erewrite bind_Ok; [|by apply get_token_up]. by apply check_solution_accepts.
  - erewrite bind_Ok; [|reflexivity]. cbv beta iota.
    erewrite bind_Ok; [|by apply try_except_Ok, get_token_up]. by apply check_solution_accepts.
Qed.

(** An issued challenge can be solved.  With the database and Redis up
    and a fresh token, issuing succeeds, and until the issued expiry time
    (also at the instant where Redis has already dropped its copy) a nonce
    that meets the difficulty, sent from the same address, is accepted. *)
Lemma issued_challenge_is_solvable ip ua (w : W) :
  w_db_up w = true → 0 < DJANGO_WAF_CHALLENGE_COOKIE_TTL conf →
  find_token (token_hex (w_fresh w)) (w_tokens w) = None →
  ∃ c w1, issue_challenge token_hex conf ip ua w = (Ok c, w1) ∧
    ∀ dt nonce, 0 <= dt <= DJANGO_WAF_CHALLENGE_COOKIE_TTL conf * usec →
      digest_has_leading_zero_bits (sha256 (encode (ct_token c +:+ nonce))) (ct_difficulty c) = true →
      ∃ w2, verify_challenge_solution (ct_token c) nonce ip
              {| w1 with w_now := w_now w1 + dt |} = (Ok true, w2).
Proof.
  intros Hup Httl Hfresh.
  destruct (issue_challenge_up ip ua w Hup Httl Hfresh)
    as (c & w1 & Hi & Ht & Hip & Hs & He & Hn & Hup1 & Hf & Hm).
  exists c, w1. split; [exact Hi|]. intros dt nonce Hdt Hpow. rewrite <- Ht in Hf, Hm.
  destruct (verify_accepts c nonce (w_now w + DJANGO_WAF_CHALLENGE_COOKIE_TTL conf * usec)
    {| w1 with w_now := w_now w1 + dt |}) as (w2 & Hv & _); cbn; try done; [lia|].
  exists w2. by rewrite <- Hip.
Qed.
End Live.

(** The difficulty is a number of leading zero bits: for a digest of
    octets read as a big-endian number, the test holds exactly when the digest
    is long enough and the number is below two to the remaining bits. *)
Lemma leading_zero_bits_is_numeric_bound digest bits :
  Forall octet digest → 0 <= bits →
  digest_has_leading_zero_bits digest bits = true ↔
  bits <= 8 * Z.of_nat (length digest) ∧
  be_value digest < 2 ^ (8 * Z.of_nat (length digest) - bits).
Proof. apply leading_zero_bits_bound. Qed.

(** C9: a cookie is accepted exactly when it is a version-2 value that the
    secret key signed, for the client's canonical address, with an expiry that
    has not passed; so it cannot be transferred to another address, extended,
    or altered. *)
Theorem pass_cookie_accepted_exactly conf now cookie ip :
  plain_ip ip = true →
  validate_pass_cookie conf now cookie ip = true ↔
  ∃ token expiry n, char_in bar token = false ∧ py_int expiry = Some n ∧ now <= n * usec ∧
    let prefix := pass_cookie_prefix token (normalise_ip ip) expiry in
    cookie = prefix +:+ "|" +:+ hmac_sign conf prefix.
Proof.
  intros Hip. split.
  - intros Hv. pose proof (validate_is_signed _ _ _ _ Hv) as [prefix ->].
    rewrite validate_signed in Hv.
    destruct (split_max bar 3 prefix) as [|v [|t [|i [|e [|? ?]]]]] eqn:Es; try done.
    pose proof (join_split_max bar 3 prefix) as Hj. rewrite Es in Hj.
    apply split_max_4 in Es as (_ & Ht & _).
    destruct (py_int e) as [n|] eqn:En; [|by rewrite andb_false_r in Hv]. bool_hyps. subst.
    exists t, e, n. by split_and!.
  - intros (token & expiry & n & Ht & Hn & Hnow & ->). rewrite validate_signed.
    rewrite split_prefix by (done || by apply normalise_ip_no_bar).
    rewrite Hn, !bool_decide_true by done. by rewrite (proj2 (Z.leb_le _ _)).
Qed.

(** The round trip.  A cookie issued at [now] for a token (hexadecimal,
    so without the delimiter) and an address is accepted at a later time, for
    any spelling of an address, exactly when the whole-second expiry has not
    passed and the two addresses have the same canonical form. *)
Lemma pass_cookie_round_trip conf now later token ip ip' :
  char_in bar token = false → plain_ip ip = true →
  validate_pass_cookie conf later (pass_cookie_value conf now token ip) ip' =
  (later <=? (now / usec + DJANGO_WAF_CHALLENGE_COOKIE_TTL conf) * usec) &&
  bool_decide (normalise_ip ip = normalise_ip ip').
Proof. by apply validate_issued. Qed.

(** ** Witnesses *)

(** A configuration of low difficulty, and tokens drawn as ["a1"]. *)
Definition demo_conf : Conf :=
  {| {| (default_conf "s3cret") with DJANGO_WAF_CHALLENGE_DIFFICULTY_DESKTOP := Some 4 |}
     with DJANGO_WAF_CHALLENGE_DIFFICULTY_MOBILE := Some 4 |}.
Definition demo_token : nat → string := λ _, "a1".
Definition demo_world : World MemRedis LiteRe := AutoRuleProps.sample_world [] [].

Definition demo_issued : World MemRedis LiteRe :=
  (issue_challenge demo_token demo_conf "192.0.2.1" "" demo_world).2.

(** The first nonce that solves ["a1"] with four zero bits. *)
Definition demo_nonce : string :=
  default "" (List.find (λ n, digest_has_leading_zero_bits (sha256 (encode ("a1" +:+ n))) 4)
                (map (λ n, str_of_Z (Z.of_nat n)) (seq 0 64))).

Definition demo_verify (w : World MemRedis LiteRe) :=
  verify_challenge_solution "a1" demo_nonce "192.0.2.1" w.
Definition demo_solved : World MemRedis LiteRe := (demo_verify demo_issued).2.

Lemma demo_verify_Ok : demo_verify demo_issued = (Ok true, demo_solved).
Proof.
  assert (E : (demo_verify demo_issued).1 = Ok true) by (vm_compute; reflexivity).
  unfold demo_solved. destruct (demo_verify demo_issued). cbn in *. by rewrite E.
Defined.

Lemma accepted_solution_is_sound_witness :
  (demo_verify demo_issued).1 = Ok true ∧
  is_Ok (verify_challenge_solution "a1" "7" "198.51.100.9"
           {| demo_solved with w_now := 0 |}).1 = false.
Proof.
  split; [by rewrite demo_verify_Ok|].
  apply (accepted_solution_is_sound "a1" demo_nonce "192.0.2.1" demo_issued demo_solved true
           demo_verify_Ok). reflexivity.
Defined.

Lemma verification_follows_token_machine_witness :
  Forall2 (token_step (w_now demo_issued) "a1" demo_nonce) (w_tokens demo_issued) (w_tokens demo_solved).
Proof.
  apply (verification_follows_token_machine "a1" demo_nonce "192.0.2.1" demo_issued demo_solved (Ok true));
    [|exact demo_verify_Ok].
  change (NoDup ["a1"]). repeat constructor. set_solver.
Defined.

Lemma issued_challenge_is_solvable_witness :
  ∃ w2, verify_challenge_solution "a1" demo_nonce "192.0.2.1"
    {| demo_issued with w_now := w_now demo_issued + 86400 * usec |} = (Ok true, w2).
Proof.
  destruct (issued_challenge_is_solvable demo_token demo_conf "192.0.2.1" "" demo_world
    eq_refl eq_refl eq_refl) as (c & w1 & Hi & Hv).
  assert (Hc : issue_challenge demo_token demo_conf "192.0.2.1" "" demo_world =
    (Ok (List.hd c (w_tokens demo_issued)), demo_issued)) by (vm_compute; reflexivity).
  rewrite Hc in Hi. injection Hi as Hi <-.
  assert (Ht : ct_token c = "a1") by (rewrite <- Hi; vm_compute; reflexivity).
  assert (Hd : ct_difficulty c = 4) by (rewrite <- Hi; vm_compute; reflexivity).
  rewrite Ht, Hd in Hv. apply Hv; [split; vm_compute; discriminate|vm_compute; reflexivity].
Defined.

Lemma leading_zero_bits_is_numeric_bound_witness :
  digest_has_leading_zero_bits [0; 15; 255] 12 = true ∧ be_value [0; 15; 255] < 2 ^ 12.
Proof.
  assert (Ho : Forall octet [0; 15; 255]) by (repeat constructor; unfold octet; lia).
  split; [reflexivity|].
  apply (proj1 (leading_zero_bits_is_numeric_bound [0; 15; 255] 12 Ho ltac:(lia))). reflexivity.
Defined.

(** A cookie for an IPv6 client, and the same client spelled in full. *)
Definition demo_cookie : string := pass_cookie_value demo_conf 5500000 "a1" "2001:db8::1".
Definition demo_long_ip : string := "2001:0db8:0000:0000:0000:0000:0000:0001".

Lemma pass_cookie_accepted_exactly_witness :
  ∃ token expiry n, char_in bar token = false ∧ py_int expiry = Some n ∧ 6 <= n * usec ∧
    let prefix := pass_cookie_prefix token (normalise_ip demo_long_ip) expiry in
    demo_cookie = prefix +:+ "|" +:+ hmac_sign demo_conf prefix.
Proof.
  apply (pass_cookie_accepted_exactly demo_conf 6 demo_cookie demo_long_ip);
    [vm_compute; reflexivity|vm_compute; reflexivity].
Defined.

Lemma pass_cookie_round_trip_witness :
  validate_pass_cookie demo_conf (86405 * usec) demo_cookie demo_long_ip = true ∧
  validate_pass_cookie demo_conf (86405 * usec + 1) demo_cookie demo_long_ip = false ∧
  validate_pass_cookie demo_conf 0 demo_cookie "2001:db8::2" = false.
Proof.
  unfold demo_cookie. rewrite !(pass_cookie_round_trip demo_conf 5500000) by (vm_compute; reflexivity).
  split_and!; vm_compute; reflexivity.
Defined.

End ChallengeProps.
