(* ===== verification/SignedCookies.v ===== *)
(** * The site password and the trusted-user cookie
    ([services/site_password_service.py], [services/trusted_user_service.py],
    [get_signing_key] of [forms/services/tokens.py], [receivers.py])

    Two signed flags the middleware reads on every request.  Both are proved
    against the [Signer] interface, for any signer that keeps its law. *)

From Stdlib Require Import ZArith Lia Ascii String.
From stdpp Require Import base tactics option list strings numbers gmap.
From S2P Require Import Prelude PyStr IpAddress Hash PyTime Conf ClientIp Redis.
From S2P Require Import RateLimiter Http.

Open Scope Z_scope.

(** [get_signing_key]. *)
Definition get_signing_key (conf : Conf) : list Z :=
  if negb (str_empty (DJANGO_WAF_SIGNING_KEY conf)) then encode (DJANGO_WAF_SIGNING_KEY conf)
  else sha256 (encode "django-waf:signing:v1|" ++ encode (SECRET_KEY conf)).

(** A configured cookie domain, else the session's. *)
Definition cookie_domain_or_session (conf : Conf) (own : option string) : option string :=
  match own with Some d => Some d | None => SESSION_COOKIE_DOMAIN conf end.

(** ** [site_password_service] *)

Module SitePassword.
Definition SITE_PASSWORD_COOKIE : string := "waf_site_password".
Definition SIGNING_SALT : string := "django_waf.site_password".
Definition VERIFIED_MARKER : string := "verified".

Definition is_gate_enabled (conf : Conf) : bool := DJANGO_WAF_SITE_PASSWORD_ENABLED conf.

Definition is_misconfigured (conf : Conf) : bool :=
  DJANGO_WAF_SITE_PASSWORD_ENABLED conf && str_empty (DJANGO_WAF_SITE_PASSWORD conf).

Definition is_exempt_path (conf : Conf) (path : string) : bool :=
  existsb (λ prefix, starts_with prefix path) (DJANGO_WAF_SITE_PASSWORD_EXEMPT_PATHS conf).

(** [check_password]: [compare_digest] raises on a non-ASCII string. *)
Definition check_password (conf : Conf) (submitted : string) : res bool :=
  let stored := DJANGO_WAF_SITE_PASSWORD conf in
  if str_empty stored || str_empty submitted then Ok false
  else compare_digest submitted stored.

Section Cookie.
Context `{Signer}.

Definition has_valid_cookie (conf : Conf) (now : Z) (rq : Request) : bool :=
  match rq_cookies rq !! SITE_PASSWORD_COOKIE with
  | None => false
  | Some cookie_value =>
      if str_empty cookie_value then false else
      match unsign (get_signing_key conf) SIGNING_SALT now cookie_value
              (DJANGO_WAF_SITE_PASSWORD_TTL conf) with
      | None => false
      | Some payload => bool_decide (payload = VERIFIED_MARKER)
      end
  end.

Definition set_verified_cookie (conf : Conf) (now : Z) (rq : Request) (rs : Response) : Response :=
  set_cookie {| ck_name := SITE_PASSWORD_COOKIE;
                ck_value := sign (get_signing_key conf) SIGNING_SALT now VERIFIED_MARKER;
                ck_max_age := DJANGO_WAF_SITE_PASSWORD_TTL conf;
                ck_domain := cookie_domain_or_session conf (DJANGO_WAF_SITE_PASSWORD_COOKIE_DOMAIN conf);
                ck_httponly := true; ck_secure := rq_is_secure rq; ck_samesite := "Lax" |} rs.
End Cookie.

(** [record_guess_throttle_hit_detailed]; [has_redis] is false when there is
    no client. *)
Definition record_guess_throttle_hit_detailed {R} `{RedisClient R} (conf : Conf) (has_redis : bool)
    (ip : string) (now : Z) : M R RateLimitResult :=
  if negb has_redis then ret not_exceeded else
  try_except (check_rate_limit conf ip (DJANGO_WAF_SITE_PASSWORD_VERIFY_PATH conf) "" now)
    (λ _, ret not_exceeded).
End SitePassword.

(** ** [trusted_user_service] *)

Module TrustedUser.
Definition TRUSTED_USER_COOKIE : string := "waf_trusted".
Definition SIGNING_SALT : string := "django_waf.trusted_user".
Definition TRUSTED_MARKER : string := "trusted".

Definition is_feature_enabled (conf : Conf) : bool := DJANGO_WAF_TRUSTED_COOKIE_ENABLED conf.

Definition get_trust_level (conf : Conf) : string :=
  if bool_decide (DJANGO_WAF_TRUSTED_COOKIE_TRUST_LEVEL conf = "authenticated")
  then "authenticated" else "staff".

Definition user_meets_trust_level (conf : Conf) (user : User) : bool :=
  if negb (u_is_authenticated user) then false
  else if bool_decide (get_trust_level conf = "authenticated") then true
  else u_is_staff user || u_is_superuser user.

(** [receivers.set_trusted_cookie_flag_on_login]: the flag it leaves. *)
Definition set_trusted_cookie_flag_on_login (conf : Conf) (user : User) : bool :=
  if negb (is_feature_enabled conf) then false else user_meets_trust_level conf user.

Definition build_payload (ip : string) : string := TRUSTED_MARKER +:+ ":" +:+ ip.

Section Cookie.
Context `{Signer}.

Definition set_trusted_cookie (conf : Conf) (now : Z) (rq : Request) (rs : Response) : Response :=
  let ip := resolve_client_ip conf (rq_meta rq) in
  set_cookie {| ck_name := TRUSTED_USER_COOKIE;
                ck_value := sign (get_signing_key conf) SIGNING_SALT now (build_payload ip);
                ck_max_age := DJANGO_WAF_TRUSTED_COOKIE_TTL conf;
                ck_domain := cookie_domain_or_session conf (DJANGO_WAF_TRUSTED_COOKIE_DOMAIN conf);
                ck_httponly := true; ck_secure := rq_is_secure rq; ck_samesite := "Lax" |} rs.

Definition has_valid_trusted_cookie (conf : Conf) (now : Z) (rq : Request) : bool :=
  if negb (is_feature_enabled conf) then false else
  match rq_cookies rq !! TRUSTED_USER_COOKIE with
  | None => false
  | Some cookie_value =>
      if str_empty cookie_value then false else
      match unsign (get_signing_key conf) SIGNING_SALT now cookie_value
              (DJANGO_WAF_TRUSTED_COOKIE_TTL conf) with
      | None => false
      | Some payload =>
          let '(marker, bound_ip) := partition_on ":" payload in
          if negb (bool_decide (marker = TRUSTED_MARKER)) then false
          else bool_decide (default "" bound_ip = resolve_client_ip conf (rq_meta rq))
      end
  end.
End Cookie.
End TrustedUser.

(** ** Properties *)

Module SignedCookiesProps.
Import SitePassword TrustedUser.

(** The trusted-user cookie grants the bypass exactly to a non-empty value
    that the package's own key signed under its own salt, recently enough, for
    the address the request comes from, and only while the feature is on: a
    copy used from another address, an expired one, a value signed for another
    purpose or one kept from before the feature was turned off grants nothing. *)
Lemma trusted_cookie_bound_to_address `{SignerSpec} conf now rq :
  resolve_client_ip conf (rq_meta rq) ≠ "" →
  has_valid_trusted_cookie conf now rq = true ↔
  DJANGO_WAF_TRUSTED_COOKIE_ENABLED conf = true ∧
  ∃ t cookie, rq_cookies rq !! "waf_trusted" = Some cookie ∧ cookie ≠ "" ∧
    cookie = sign (get_signing_key conf) "django_waf.trusted_user" t
               ("trusted:" +:+ resolve_client_ip conf (rq_meta rq)) ∧
    now - t / usec * usec <= DJANGO_WAF_TRUSTED_COOKIE_TTL conf * usec.
Proof.
  unfold has_valid_trusted_cookie, is_feature_enabled, TRUSTED_USER_COOKIE.
  set (ip := resolve_client_ip conf (rq_meta rq)). intros Hip.
  destruct (DJANGO_WAF_TRUSTED_COOKIE_ENABLED conf); [|by split; [|intros [? _]]]. cbn [negb].
  split.
  - intros Hv. split; [done|]. destruct (_ !! _) as [c|]; [|done].
    destruct (str_empty c) eqn:Ec; [done|].
    destruct (unsign _ _ _ _ _) as [payload|] eqn:Eu; [|done].
    apply unsign_sound in Eu as (t & -> & Ht).
    exists t, (sign (get_signing_key conf) SIGNING_SALT t payload).
    split; [done|]. split; [by intros E; rewrite E in Ec|].
    split; [|done]. f_equal.
    destruct (partition_on ":" payload) as [m b] eqn:Ep.
    apply partition_on_inv in Ep. destruct (bool_decide (m = _)) eqn:Em; [|done].
    cbn [negb] in Hv. bool_hyps. subst m. destruct b as [b|]; cbn in Hv; [by rewrite Ep, Hv|by rewrite <- Hv in Hip].
  - intros (_ & t & cookie & -> & Hne & Hc & Ht). rewrite (str_empty_false _ Hne), Hc.
    rewrite unsign_sign, (proj2 (Z.leb_le _ _)) by done.
    change ("trusted:" +:+ ip) with ("trusted" +:+ String ":" ip).
    rewrite partition_on_app by done. by rewrite !bool_decide_true.
Qed.

(** The site-password flag.  The cookie the gate sets for a correct
    password opens it again, on any later request that sends it back, until the
    configured lifetime is over, counted from the whole second of issue. *)
Lemma verified_cookie_opens_gate_until_ttl `{SignerSpec} conf now later rq rq' rs c :
  cookie_value SITE_PASSWORD_COOKIE (set_verified_cookie conf now rq rs) = Some c → c ≠ "" →
  rq_cookies rq' !! SITE_PASSWORD_COOKIE = Some c →
  has_valid_cookie conf later rq' =
    (later - now / usec * usec <=? DJANGO_WAF_SITE_PASSWORD_TTL conf * usec).
Proof.
  unfold set_verified_cookie, cookie_value, set_cookie. cbn [rs_cookies].
  rewrite rev_app_distr. cbn [rev app List.find ck_name]. rewrite bool_decide_true by done.
  intros [= <-] Hne Hrq. unfold has_valid_cookie. rewrite Hrq.
  rewrite str_empty_false, unsign_sign by done. destruct (_ <=? _); [by rewrite bool_decide_true|done].
Qed.

(** ** Witnesses *)

Definition staff_conf : Conf :=
  {| {| (default_conf "s3cret") with DJANGO_WAF_TRUSTED_COOKIE_ENABLED := true |}
     with DJANGO_WAF_SITE_PASSWORD := "open" |}.

Definition request_with (cookies : gmap string string) : Request := {|
  rq_path_info := "/"; rq_full_path := "/"; rq_method := "GET";
  rq_meta := {["REMOTE_ADDR" := "192.0.2.1"]}; rq_cookies := cookies; rq_post := ∅; rq_get := ∅;
  rq_content_type := ""; rq_body := ""; rq_host := Ok "example.com"; rq_is_secure := true;
  rq_user := None; rq_blocked_country := None |}.

Definition staff_cookie : string :=
  hm_sign (get_signing_key staff_conf) "django_waf.trusted_user" (100 * usec) "trusted:192.0.2.1".

Lemma trusted_cookie_bound_to_address_witness :
  has_valid_trusted_cookie staff_conf (3700 * usec) (request_with {["waf_trusted" := staff_cookie]}) = true.
Proof.
  apply (trusted_cookie_bound_to_address staff_conf (3700 * usec)
    (request_with {["waf_trusted" := staff_cookie]})); [vm_compute; discriminate|].
  split; [reflexivity|]. exists (100 * usec), staff_cookie.
  split; [reflexivity|]. split; [intros E; apply (f_equal String.length) in E; vm_compute in E; discriminate|].
  split; [vm_compute; reflexivity|vm_compute; discriminate].
Defined.

Definition gate_cookie : string :=
  hm_sign (get_signing_key staff_conf) SitePassword.SIGNING_SALT 5 VERIFIED_MARKER.

Lemma verified_cookie_opens_gate_until_ttl_witness :
  has_valid_cookie staff_conf (43200 * usec) (request_with {[SITE_PASSWORD_COOKIE := gate_cookie]}) = true ∧
  has_valid_cookie staff_conf (43200 * usec + 1) (request_with {[SITE_PASSWORD_COOKIE := gate_cookie]}) = false.
Proof.
  assert (Hc : cookie_value SITE_PASSWORD_COOKIE
    (set_verified_cookie staff_conf 5 (request_with ∅) (redirect "/")) = Some gate_cookie) by reflexivity.
  assert (Hne : gate_cookie ≠ "")
    by (intros E; apply (f_equal String.length) in E; vm_compute in E; discriminate).
  set (rq := request_with {[SITE_PASSWORD_COOKIE := gate_cookie]}).
  assert (Hrq : rq_cookies rq !! SITE_PASSWORD_COOKIE = Some gate_cookie) by reflexivity.
  split.
  - rewrite (verified_cookie_opens_gate_until_ttl staff_conf 5 (43200 * usec) (request_with ∅) rq
      (redirect "/") gate_cookie Hc Hne Hrq). reflexivity.
  - rewrite (verified_cookie_opens_gate_until_ttl staff_conf 5 (43200 * usec + 1) (request_with ∅) rq
      (redirect "/") gate_cookie Hc Hne Hrq). reflexivity.
Defined.

End SignedCookiesProps.
