(* ===== verification/FormTokens.v ===== *)
(** * Render tokens and their one-shot markers
    ([forms/services/tokens.py], [forms/services/markers.py])

    A token is the base64url text of [payload|HMAC-SHA256(payload)].  Signing
    and splitting are done on octets, so the model is exact on any submitted
    text.  The random nonce and the clock are arguments; the marker store is
    the Redis client. *)

From Stdlib Require Import ZArith Lia Ascii String.
From stdpp Require Import base tactics option list strings numbers gmap.
From S2P Require Import Prelude PyStr IpAddress Hash PyTime Base64 Conf Redis.
From S2P Require Import Http SignedCookies Challenge.

Open Scope Z_scope.

(** ** [TokenPayload] *)

Record TokenPayload : Type := {
  tp_form_id : string;
  tp_ip : string;
  tp_user_id : string;
  tp_render_time : Z;
  tp_nonce : string;
  tp_ua_hash : string;
}.

#[export] Instance TokenPayload_eq_dec : EqDecision TokenPayload.
Proof. solve_decision. Defined.

(** [TokenPayload.encode]. *)
Definition payload_encode (p : TokenPayload) : string :=
  join "|" [tp_form_id p; tp_ip p; tp_user_id p; isoformat (tp_render_time p); tp_nonce p; tp_ua_hash p].

(** [TokenPayload.decode]. *)
Definition payload_decode (raw : string) : res TokenPayload :=
  match split_on bar raw with
  | [form_id; ip; user_id; render_time_iso; nonce; ua_hash] =>
      match fromisoformat render_time_iso with
      | Some render_time =>
          Ok {| tp_form_id := form_id; tp_ip := ip; tp_user_id := user_id;
                tp_render_time := render_time; tp_nonce := nonce; tp_ua_hash := ua_hash |}
      | None => Raise ValueError
      end
  | _ => Raise ValueError
  end.

(** [hash_user_agent]. *)
Definition hash_user_agent (user_agent : string) : string := hexdigest (sha256 (encode user_agent)).

(** The signature of the octets of a payload. *)
Definition token_signature (conf : Conf) (payload : list Z) : string :=
  hexdigest (hmac_sha256 (get_signing_key conf) payload).

(** [issue_token]; [nonce] is what [secrets.token_hex(16)] returned. *)
Definition issue_token (conf : Conf) (form_id ip user_id user_agent nonce : string)
    (render_time : Z) : string * TokenPayload :=
  let payload := {| tp_form_id := form_id; tp_ip := ip; tp_user_id := user_id;
                    tp_render_time := render_time; tp_nonce := nonce;
                    tp_ua_hash := hash_user_agent user_agent |} in
  let payload_str := payload_encode payload in
  let signature := token_signature conf (encode payload_str) in
  (b64_encode (encode (payload_str +:+ "|" +:+ signature)), payload).

(** [verify_token]: [ValueError] on what it rejects, [TypeError] from
    [compare_digest] on a signature outside ASCII. *)
Definition verify_token (conf : Conf) (token : string) : res TokenPayload :=
  match b64_decode token with
  | None => Raise ValueError
  | Some raw =>
      match utf8_decode raw, rsplit_bar raw with
      | Some _, Some (payload, signature) =>
          match utf8_decode payload, utf8_decode signature with
          | Some payload_str, Some signature =>
              res_bind (compare_digest (token_signature conf payload) signature) (λ same,
                if same then payload_decode payload_str else Raise ValueError)
          | _, _ => Raise ValueError
          end
      | _, _ => Raise ValueError
      end
  end.

(** ** Markers *)

Definition marker_key (nonce : string) : string := "waf:form:token:" +:+ nonce.

Section Markers.
Context {R : Type} `{RedisClient R}.

Definition issue_marker (now : Z) (nonce : string) (ttl_seconds : Z) : M R unit :=
  exec now (SETEX (marker_key nonce) ttl_seconds "1") ;;; ret tt.

Definition marker_exists (now : Z) (nonce : string) : M R bool :=
  v <- exec now (EXISTS (marker_key nonce)) ;;
  ret match v with RInt n => negb (n =? 0) | _ => false end.

Definition consume_marker (now : Z) (nonce : string) : M R unit :=
  exec now (DEL (marker_key nonce)) ;;; ret tt.
End Markers.

(** ** Lemmas *)

Lemma token_signature_hex conf m : str_forall is_hex (token_signature conf m) = true.
Proof. apply hexdigest_hex, hmac_octets. Qed.

Lemma token_signature_ascii conf m : str_forall is_ascii (token_signature conf m) = true.
Proof. apply hex_ascii, token_signature_hex. Qed.

(** Verification of a token that decodes to text with a bar. *)
Lemma verify_signed conf payload_str :
  verify_token conf (b64_encode (encode (payload_str +:+ "|" +:+ token_signature conf (encode payload_str))))
  = payload_decode payload_str.
Proof.
  unfold verify_token. rewrite b64_decode_encode by apply encode_octets.
  rewrite utf8_decode_encode, encode_app.
  change (encode ("|" +:+ ?s)) with (124 :: encode s).
  rewrite rsplit_bar_app by apply encode_hex, token_signature_hex.
  rewrite !utf8_decode_encode. unfold compare_digest.
  by rewrite token_signature_ascii, bool_decide_true by done.
Qed.

(** What a verified token must be. *)
Lemma verify_token_inv conf token p :
  verify_token conf token = Ok p →
  ∃ payload payload_str,
    b64_decode token = Some (payload ++ 124 :: encode (token_signature conf payload)) ∧
    utf8_decode payload = Some payload_str ∧ payload_decode payload_str = Ok p.
Proof.
  unfold verify_token. destruct (b64_decode token) as [raw|]; [|done].
  destruct (utf8_decode raw); [|done]. destruct (rsplit_bar raw) as [[pl sg]|] eqn:Er; [|done].
  destruct (utf8_decode pl) as [ps|] eqn:Ep; [|done].
  destruct (utf8_decode sg) as [ss|] eqn:Es; [|done].
  destruct (compare_digest _ _) as [[|]|] eqn:Ec; try done. intros Hd.
  exists pl, ps. split; [|done]. apply rsplit_bar_Some in Er as ->. do 3 f_equal.
  unfold compare_digest in Ec. destruct (_ && _) eqn:Ea; [|done]. injection Ec as Ec.
  apply bool_decide_eq_true in Ec as <-. bool_hyps. by rewrite (utf8_decode_ascii _ _ Es).
Qed.

(** ** Splitting a payload *)

Lemma split_on_two c s : char_in c s = true → (2 <= length (split_on c s))%nat.
Proof.
  induction s as [|d s IH]; [done|]. cbn [split_on char_in]. case_bool_decide as Hd.
  - intros _. pose proof (split_on_nonempty c s). destruct (split_on c s); simpl in *; [done|lia].
  - cbn [orb]. intros Hc. specialize (IH Hc). destruct (split_on c s) as [|p ps]; simpl in *; lia.
Qed.

Lemma pad_digits_no_char c n z acc :
  is_digit c = false → char_in c (pad_digits n z acc) = char_in c acc.
Proof.
  intros Hc. revert z acc. induction n as [|n IH]; intros z acc; [done|]. cbn [pad_digits].
  rewrite IH. cbn [char_in]. rewrite bool_decide_false; [done|].
  intros ->. rewrite is_digit_digit_char in Hc; [done|]. pose proof (Z.mod_pos_bound z 10). lia.
Qed.

Lemma isoformat_no_bar t : char_in bar (isoformat t) = false.
Proof.
  unfold isoformat. destruct (civil_of_days _) as [[y m] d].
  repeat (rewrite pad_digits_no_char by done; cbn [char_in]; rewrite ?bool_decide_false by done;
          cbn [orb]).
  destruct (_ =? 0); [done|]. cbn [char_in]. rewrite bool_decide_false by done. cbn [orb].
  by rewrite pad_digits_no_char.
Qed.

Lemma split_payload p :
  split_on bar (payload_encode p) =
  split_on bar (tp_form_id p) ++ split_on bar (tp_ip p) ++ split_on bar (tp_user_id p) ++
  [isoformat (tp_render_time p)] ++ split_on bar (tp_nonce p) ++ split_on bar (tp_ua_hash p).
Proof.
  unfold payload_encode. cbn [join].
  do 5 change (?a +:+ "|" +:+ ?b) with (a +:+ String bar b).
  rewrite !split_on_app_gen. by rewrite (split_on_no bar (isoformat _)) by apply isoformat_no_bar.
Qed.

Lemma payload_decode_encode p :
  valid_datetime (tp_render_time p) = true → char_in bar (tp_ua_hash p) = false →
  payload_decode (payload_encode p) =
  if char_in bar (tp_form_id p) || char_in bar (tp_ip p) || char_in bar (tp_user_id p)
     || char_in bar (tp_nonce p)
  then Raise ValueError else Ok p.
Proof.
  intros Ht Hu. unfold payload_decode. rewrite split_payload, (split_on_no bar (tp_ua_hash p)) by done.
  assert (Hlen : ∀ s, (1 <= length (split_on bar s))%nat).
  { intros s. pose proof (split_on_nonempty bar s). destruct (split_on bar s); simpl; [done|lia]. }
  destruct (char_in bar (tp_form_id p) || _ || _ || _) eqn:E.
  - match goal with |- match ?l with _ => _ end = _ => assert (Hl : (7 <= length l)%nat) end.
    { rewrite !length_app. cbn [length].
      pose proof (Hlen (tp_form_id p)). pose proof (Hlen (tp_ip p)).
      pose proof (Hlen (tp_user_id p)). pose proof (Hlen (tp_nonce p)).
      rewrite !orb_true_iff in E. destruct E as [[[E|E]|E]|E]; apply split_on_two in E; lia. }
    match type of Hl with (_ <= length ?l)%nat => generalize dependent l end.
    intros l Hl. do 7 (destruct l as [|? l]; [cbn in Hl; lia|]). done.
  - bool_hyps. rewrite !split_on_no by done. cbn [app].
    rewrite fromisoformat_isoformat by done. by destruct p.
Qed.

(** ** Properties *)

Module FormTokensProps.

(** C12: a token the form rendered is read back on submission to exactly the
    payload it was issued with (form, address, user, render time, nonce and
    User-Agent hash), for every time Python can represent; if the form
    identifier, the address, the user's key or the nonce contains the field
    separator, the token is never accepted, so such a form rejects every
    submission. *)
Theorem issued_token_verifies conf form_id ip user_id user_agent nonce t :
  valid_datetime t = true →
  let '(token, payload) := issue_token conf form_id ip user_id user_agent nonce t in
  verify_token conf token =
    if char_in "|" form_id || char_in "|" ip || char_in "|" user_id || char_in "|" nonce
    then Raise ValueError else Ok payload.
Proof.
  intros Ht. unfold issue_token. rewrite verify_signed.
  rewrite payload_decode_encode; [done|done|]. by apply hexdigest_no_char, sha256_octets.
Qed.

(** No token is accepted but one whose octets end in the HMAC-SHA256,
    under the package's key, of everything before the last separator; the
    payload it yields is what those signed octets spell, so no field of a
    payload the defences read can be chosen by the client. *)
Lemma accepted_token_is_signed conf token p :
  verify_token conf token = Ok p →
  ∃ payload fields,
    b64_decode token =
      Some (payload ++ encode ("|" +:+ hexdigest (hmac_sha256 (get_signing_key conf) payload))) ∧
    utf8_decode payload =
      Some (join "|" fields) ∧
    ∃ iso, fields = [tp_form_id p; tp_ip p; tp_user_id p; iso; tp_nonce p; tp_ua_hash p] ∧
    fromisoformat iso = Some (tp_render_time p).
Proof.
  intros Hv. destruct (verify_token_inv _ _ _ Hv) as (pl & ps & Hb & Hu & Hd).
  exists pl. unfold payload_decode in Hd.
  destruct (split_on bar ps) as [|a [|b [|c [|d [|e [|f [|? ?]]]]]]] eqn:Es; try done.
  destruct (fromisoformat d) as [t|] eqn:Et; [|done]. injection Hd as <-.
  exists [a; b; c; d; e; f]. split; [exact Hb|]. split; [|by exists d].
  rewrite Hu. f_equal. rewrite <- Es. symmetry. apply join_split_on.
Qed.

(** ** Witnesses *)

Definition token_conf : Conf := default_conf "k".
Definition demo_issue : string * TokenPayload :=
  issue_token token_conf "contact" "192.0.2.1" "7" "curl/8" "00ff" (86400 * usec).

Lemma issued_token_verifies_witness : verify_token token_conf demo_issue.1 = Ok demo_issue.2.
Proof.
  exact (issued_token_verifies token_conf "contact" "192.0.2.1" "7" "curl/8" "00ff" (86400 * usec)
    eq_refl).
Defined.

Lemma accepted_token_is_signed_witness :
  ∃ payload, b64_decode demo_issue.1 =
    Some (payload ++ encode ("|" +:+ hexdigest (hmac_sha256 (get_signing_key token_conf) payload))).
Proof.
  assert (Hv : verify_token token_conf demo_issue.1 = Ok demo_issue.2) by (vm_compute; reflexivity).
  destruct (accepted_token_is_signed token_conf demo_issue.1 demo_issue.2 Hv) as (pl & _ & Hb & _).
  exists pl. exact Hb.
Defined.

End FormTokensProps.
