(* ===== verification/FormDefences.v ===== *)
(** * The form defences ([forms/defences/], [forms/services/counters.py],
    [forms/credentials.py])

    Each defence inspects one submission and returns an [Outcome].  Those that
    read Redis are computations on the client's state; a client that is down
    raises, as a missing one does ([None] has no attributes). *)

From Stdlib Require Import ZArith QArith Lia Ascii String.
From stdpp Require Import base tactics option list strings numbers gmap.
From S2P Require Import Prelude PyStr IpAddress Hash PyTime Base64 Conf Redis.
From S2P Require Import ClientIp Http SignedCookies Challenge FormTokens.

Open Scope Z_scope.

(** ** [defences/base.py] *)

(** The literal type [Verdict]. *)
Inductive DefenceVerdict : Type := pass | flag | block.

#[export] Instance DefenceVerdict_eq_dec : EqDecision DefenceVerdict.
Proof. solve_decision. Defined.

Record Outcome : Type := {
  oc_verdict : DefenceVerdict;
  oc_score : Q;
  oc_reason : string;
  oc_public_message : string;
}.

Definition passed : Outcome :=
  {| oc_verdict := pass; oc_score := 0; oc_reason := ""; oc_public_message := "" |}.
Definition flagged (score : Q) (reason : string) : Outcome :=
  {| oc_verdict := flag; oc_score := score; oc_reason := reason; oc_public_message := "" |}.
Definition blocked (reason : string) (score : Q) : Outcome :=
  {| oc_verdict := block; oc_score := score; oc_reason := reason; oc_public_message := "" |}.

(** The per-form configuration: the keys the defences read from [ctx.config]. *)
Record FormConfig : Type := {
  fc_token_ttl : option Z;
  fc_field_names : option (list string);
  fc_min_fill_seconds : option Q;
  fc_max_fill_seconds : option Q;
  fc_ip_limit : option Z;
  fc_limit : option Z;
  fc_difficulty : option Z;
  fc_token_nonce : option string;
}.

Definition no_config : FormConfig := {|
  fc_token_ttl := None; fc_field_names := None; fc_min_fill_seconds := None;
  fc_max_fill_seconds := None; fc_ip_limit := None; fc_limit := None; fc_difficulty := None;
  fc_token_nonce := None |}.

(** Form data after [scalarise_submitted_data]: one string per name. *)
Abbreviation Data := (gmap string string).

(** [data.get(name) or ""]. *)
Definition data_get (d : Data) (name : string) : string := default "" (d !! name).

Record EvaluateContext : Type := {
  ec_form_id : string;
  ec_request : Request;
  ec_submitted_data : Data;
  ec_config : FormConfig;
  ec_token_payload : option TokenPayload;
}.

Definition Qltb (a b : Q) : bool := negb (Qle_bool b a).

(** A duration in microseconds as seconds ([timedelta.total_seconds()]). *)
Definition total_seconds (us : Z) : Q := us # 1000000.

(** ** Counters *)

Definition hash_identifier (identifier : string) : string := hexdigest (sha256 (encode identifier)).
Definition cred_account_key (identifier : string) : string :=
  "waf:form:cred_fail:account:" +:+ hash_identifier identifier.
Definition cred_ip_key (ip : string) : string := "waf:form:cred_fail:ip:" +:+ ip.
Definition signup_ip_key (ip : string) : string := "waf:form:signup:" +:+ ip.

Section Counters.
Context {R : Type} `{RedisClient R}.

(** [int(results[i])]. *)
Definition int_reply (v : reply) : res Z :=
  match v with
  | RInt n => Ok n
  | RBulk s => match py_int s with Some n => Ok n | None => Raise ValueError end
  | _ => Raise (OtherError "TypeError")
  end.

Definition record_credential_failure (now : Z) (identifier ip : string) (window_seconds : Z)
  : M R (Z * Z) :=
  if str_empty identifier || str_empty ip then ret (0, 0) else
  try_except
    (results <- exec_pipe now
       [INCR (cred_account_key identifier); EXPIRE (cred_account_key identifier) window_seconds;
        INCR (cred_ip_key ip); EXPIRE (cred_ip_key ip) window_seconds] ;;
     match results with
     | a :: _ :: b :: _ =>
         account_count <- lift_res (int_reply a) ;;
         ip_count <- lift_res (int_reply b) ;;
         ret (account_count, ip_count)
     | _ => ret (0, 0)
     end)
    (λ _, ret (0, 0)).

(** What [credential_ip_count], [credential_account_count] and [signup_count]
    share: read a counter, 0 on any failure. *)
Definition read_counter (now : Z) (key : string) : M R Z :=
  try_except
    (raw <- redis_get now key ;;
     match raw with
     | None => ret 0
     | Some s => match py_int s with Some n => ret n | None => raise ValueError end
     end)
    (λ _, ret 0).

Definition credential_ip_count (now : Z) (ip : string) : M R Z :=
  if str_empty ip then ret 0 else read_counter now (cred_ip_key ip).
Definition credential_account_count (now : Z) (identifier : string) : M R Z :=
  if str_empty identifier then ret 0 else read_counter now (cred_account_key identifier).
Definition signup_count (now : Z) (ip : string) : M R Z :=
  if str_empty ip then ret 0 else read_counter now (signup_ip_key ip).

Definition record_signup (now : Z) (ip : string) (window_seconds : Z) : M R Z :=
  if str_empty ip then ret 0 else
  try_except
    (results <- exec_pipe now [INCR (signup_ip_key ip); EXPIRE (signup_ip_key ip) window_seconds] ;;
     match results with a :: _ => lift_res (int_reply a) | [] => ret 0 end)
    (λ _, ret 0).

(** [waf_record_credential_failure]: the counts, and whether
    [credential_attack_observed] is sent. *)
Definition waf_record_credential_failure (conf : Conf) (has_redis : bool) (now : Z) (rq : Request)
    (identifier : string) : M R ((Z * Z) * bool) :=
  let ip := resolve_client_ip conf (rq_meta rq) in
  if str_empty identifier || str_empty ip || negb has_redis then ret ((0, 0), false) else
  counts <- record_credential_failure now identifier ip
              (DJANGO_WAF_FORM_CREDENTIAL_THROTTLE_WINDOW conf) ;;
  ret (counts, (0 <? counts.1)
               && (counts.1 =? DJANGO_WAF_FORM_CREDENTIAL_THROTTLE_LIMIT conf)).
End Counters.

(** ** The defences *)

Definition TOKEN_FIELD_NAME : string := "waf_token".
Definition MARKER_GRACE_SECONDS : Z := 5.
Definition IP_CHANGED_SCORE : Q := 3.

Definition extract_ip (conf : Conf) (rq : Request) : string := resolve_client_ip conf (rq_meta rq).

(** [_user_id]. *)
Definition user_id (rq : Request) : string :=
  match rq_user rq with
  | Some u => if u_is_authenticated u then default "" (u_pk u) else ""
  | None => ""
  end.

Definition user_agent_of (rq : Request) : string := meta_get (rq_meta rq) "HTTP_USER_AGENT".

(** [_pick_field_names]. *)
Definition pick_field_names (form_id : string) (pool : list string) (count : nat) : list string :=
  match pool with
  | [] => []
  | _ =>
      let len := length pool in
      let offset := Z.to_nat (be_value (take 4 (sha256 (encode form_id))) mod Z.of_nat len) in
      map (λ i, nth ((offset + i) mod len) pool "") (seq 0 (Nat.min count len))
  end.

Definition FIELDS_PER_FORM : nat := 2.

Definition honeypot_names (conf : Conf) (form_id : string) (config : FormConfig) : list string :=
  pick_field_names form_id
    (default (DJANGO_WAF_FORM_HONEYPOT_FIELD_NAMES conf) (fc_field_names config)) FIELDS_PER_FORM.

Definition honeypot_evaluate (conf : Conf) (ctx : EvaluateContext) : Outcome :=
  match List.find (λ name, negb (str_empty (data_get (ec_submitted_data ctx) name)))
          (honeypot_names conf (ec_form_id ctx) (ec_config ctx)) with
  | Some name => blocked ("honeypot:" +:+ name) 5
  | None => passed
  end.

Definition TOO_FAST_THRESHOLD_SECONDS : Q := 1 # 2.

Definition time_trap_evaluate (conf : Conf) (now : Z) (ctx : EvaluateContext) : Outcome :=
  match ec_token_payload ctx with
  | None => passed
  | Some payload =>
      let min_seconds :=
        default (DJANGO_WAF_FORM_TIME_TRAP_MIN_SECONDS conf) (fc_min_fill_seconds (ec_config ctx)) in
      let max_seconds :=
        default (DJANGO_WAF_FORM_TIME_TRAP_MAX_SECONDS conf) (fc_max_fill_seconds (ec_config ctx)) in
      let delta := total_seconds (now - tp_render_time payload) in
      if Qltb delta TOO_FAST_THRESHOLD_SECONDS then blocked "time_trap:too_fast" 5
      else if Qltb delta min_seconds then flagged 2 "time_trap:fast"
      else if Qltb max_seconds delta then flagged 2 "time_trap:expired"
      else passed
  end.

Definition ua_consistency_evaluate (ctx : EvaluateContext) : Outcome :=
  match ec_token_payload ctx with
  | None => passed
  | Some payload =>
      if negb (bool_decide (hash_user_agent (user_agent_of (ec_request ctx)) = tp_ua_hash payload))
      then flagged 2 "ua_consistency:changed" else passed
  end.

(** [js_touch._expected_value]. *)
Definition js_expected_value (conf : Conf) (token_nonce : string) : string :=
  str_take 16 (hexdigest (hmac_sha256 (get_signing_key conf) (encode ("js_touch:" +:+ token_nonce)))).

Definition JS_TOUCH_FIELD : string := "waf_js_touch".

Definition js_touch_evaluate (conf : Conf) (ctx : EvaluateContext) : Outcome :=
  let value := data_get (ec_submitted_data ctx) JS_TOUCH_FIELD in
  if bool_decide (value = "unset") then flagged (3 # 2) "js_touch:not_set"
  else if str_empty value then flagged (3 # 2) "js_touch:missing"
  else
    let nonce := match ec_token_payload ctx with
                 | Some payload => tp_nonce payload
                 | None => default (ec_form_id ctx) (fc_token_nonce (ec_config ctx))
                 end in
    if negb (bool_decide (value = js_expected_value conf nonce))
    then flagged (3 # 2) "js_touch:invalid" else passed.

Definition NONCE_FIELD : string := "waf_pow_nonce".
Definition TOKEN_BIND_FIELD : string := "waf_pow_token".

(** [pow_gate._verify_nonce]. *)
Definition verify_nonce (token_nonce candidate_nonce : string) (difficulty : Z) : bool :=
  digest_has_leading_zero_bits (sha256 (encode (token_nonce +:+ ":" +:+ candidate_nonce))) difficulty.

Definition pow_gate_evaluate (conf : Conf) (ctx : EvaluateContext) : Outcome :=
  let difficulty := default (DJANGO_WAF_FORM_POW_DIFFICULTY conf) (fc_difficulty (ec_config ctx)) in
  let candidate := data_get (ec_submitted_data ctx) NONCE_FIELD in
  if str_empty candidate then blocked "pow_gate:missing" 5 else
  let token_nonce :=
    match ec_token_payload ctx with
    | Some payload => tp_nonce payload
    | None =>
        let bind := data_get (ec_submitted_data ctx) TOKEN_BIND_FIELD in
        if str_empty bind then ec_form_id ctx else bind
    end in
  if negb (verify_nonce token_nonce candidate difficulty) then blocked "pow_gate:invalid" 5 else passed.

Section RedisDefences.
Context {R : Type} `{RedisClient R}.
Context (conf : Conf) (now : Z).
Implicit Types ctx : EvaluateContext.

Definition render_token_evaluate ctx : M R Outcome :=
  let raw := data_get (ec_submitted_data ctx) TOKEN_FIELD_NAME in
  if str_empty raw then ret (blocked "render_token:missing" 5) else
  match verify_token conf raw with
  | Raise ValueError => ret (blocked "render_token:invalid" 5)
  | Raise e => raise e
  | Ok payload =>
      let ttl := default (DJANGO_WAF_FORM_TOKEN_TTL conf) (fc_token_ttl (ec_config ctx)) in
      let rt := tp_render_time payload in
      (* rt + timedelta(seconds=ttl) past year 9999 *)
      if negb (valid_datetime (rt + ttl * usec)) then raise (OtherError "OverflowError") else
      if rt + ttl * usec <? now then ret (blocked "render_token:expired" 5) else
      present <- try_except (marker_exists now (tp_nonce payload)) (λ _, ret true) ;;
      if negb present && (MARKER_GRACE_SECONDS * usec <? now - rt)
      then ret (blocked "render_token:replayed" 5)
      else if negb (str_empty (tp_ip payload))
              && negb (bool_decide (tp_ip payload = extract_ip conf (ec_request ctx)))
      then ret (flagged IP_CHANGED_SCORE "render_token:ip_changed")
      else ret passed
  end.

(** [parse_submitted_payload]: only [ValueError] is caught. *)
Definition parse_submitted_payload (data : Data) : res (option TokenPayload) :=
  let raw := data_get data TOKEN_FIELD_NAME in
  if str_empty raw then Ok None else
  match verify_token conf raw with
  | Ok payload => Ok (Some payload)
  | Raise ValueError => Ok None
  | Raise e => Raise e
  end.

Definition credential_throttle_evaluate ctx : M R Outcome :=
  let ip := resolve_client_ip conf (rq_meta (ec_request ctx)) in
  if str_empty ip then ret passed else
  let limit := default (DJANGO_WAF_FORM_CREDENTIAL_IP_LIMIT conf) (fc_ip_limit (ec_config ctx)) in
  count <- credential_ip_count now ip ;;
  if limit <=? count then ret (flagged 5 "credential_throttle:ip") else ret passed.

Definition signup_velocity_evaluate ctx : M R Outcome :=
  let ip := resolve_client_ip conf (rq_meta (ec_request ctx)) in
  if str_empty ip then ret passed else
  let limit := default (DJANGO_WAF_FORM_SIGNUP_VELOCITY_LIMIT conf) (fc_limit (ec_config ctx)) in
  count <- signup_count now ip ;;
  if limit <=? count then ret (flagged 5 "signup_velocity:ip") else ret passed.
End RedisDefences.
