(* ===== verification/FormProtection.v ===== *)
(** * The form-protection orchestrator and its entry points
    ([forms/protection.py], [forms/mixin.py], [forms/decorators.py])

    [FormProtection.evaluate] runs the configured defences in canonical order,
    stops at a block, threads the token payload to later defences, and turns
    the weighted score into a verdict.  The form mixin and the view decorator
    act on it. *)

From Stdlib Require Import ZArith QArith Lia Ascii String.
From stdpp Require Import base tactics option list strings numbers gmap.
From S2P Require Import Prelude PyStr IpAddress Hash PyTime Base64 Conf Redis.
From S2P Require Import ClientIp Http SignedCookies Challenge FormTokens FormDefences.

Open Scope Z_scope.

(** ** The chain *)

Inductive Defence : Type :=
| RenderTokenDefence | HoneypotDefence | TimeTrapDefence | UaConsistencyDefence
| JsTouchDefence | CredentialThrottleDefence | SignupVelocityDefence | PowGateDefence.

#[export] Instance Defence_eq_dec : EqDecision Defence.
Proof. solve_decision. Defined.

(** The class attribute [name]. *)
Definition defence_name (d : Defence) : string :=
  match d with
  | RenderTokenDefence => "render_token" | HoneypotDefence => "honeypot"
  | TimeTrapDefence => "time_trap" | UaConsistencyDefence => "ua_consistency"
  | JsTouchDefence => "js_touch" | CredentialThrottleDefence => "credential_throttle"
  | SignupVelocityDefence => "signup_velocity" | PowGateDefence => "pow_gate"
  end.

Definition CANONICAL_ORDER : list string :=
  ["render_token"; "honeypot"; "time_trap"; "ua_consistency"; "js_touch"; "credential_throttle";
   "signup_velocity"; "pow_gate"].

(** [_build_defence] (the Redis factory is always given). *)
Definition build_defence (name : string) : res Defence :=
  if bool_decide (name = "render_token") then Ok RenderTokenDefence
  else if bool_decide (name = "honeypot") then Ok HoneypotDefence
  else if bool_decide (name = "time_trap") then Ok TimeTrapDefence
  else if bool_decide (name = "ua_consistency") then Ok UaConsistencyDefence
  else if bool_decide (name = "js_touch") then Ok JsTouchDefence
  else if bool_decide (name = "credential_throttle") then Ok CredentialThrottleDefence
  else if bool_decide (name = "signup_velocity") then Ok SignupVelocityDefence
  else if bool_decide (name = "pow_gate") then Ok PowGateDefence
  else Raise ValueError.

Definition order_defences (names : list string) : list string :=
  List.filter (λ n, bool_decide (n ∈ names)) CANONICAL_ORDER.

Fixpoint build_all (names : list string) : res (list Defence) :=
  match names with
  | [] => Ok []
  | n :: names => res_bind (build_defence n) (λ d, res_bind (build_all names) (λ ds, Ok (d :: ds)))
  end.

(** A constructed [FormProtection]; [fp_defences] is both [_defence_names] and
    the dict [_defences] (its keys in the same order). *)
Record FormProtection : Type := {
  fp_form_id : string;
  fp_defences : list Defence;
  fp_weights : list (string * Q);
  fp_skip_for_authenticated : bool;
  fp_per_form_config : FormConfig;
}.

(** [FormProtection.__init__]. *)
Definition FormProtection_init (form_id : string) (defences : list string)
    (defence_weights : list (string * Q)) (skip_for_authenticated : bool) (per_form_config : FormConfig)
  : res FormProtection :=
  if existsb (λ n, negb (bool_decide (n ∈ CANONICAL_ORDER))) defences then Raise ValueError else
  res_bind (build_all (order_defences defences)) (λ ds,
    Ok {| fp_form_id := form_id; fp_defences := ds; fp_weights := defence_weights;
          fp_skip_for_authenticated := skip_for_authenticated;
          fp_per_form_config := per_form_config |}).

Inductive FormVerdict : Type := FORM_PASSED | FORM_FLAGGED | FORM_BLOCKED.

#[export] Instance FormVerdict_eq_dec : EqDecision FormVerdict.
Proof. solve_decision. Defined.

Record FormEvaluationResult : Type := {
  fe_verdict : FormVerdict;
  fe_total_score : Q;
  fe_outcomes : list Outcome;
  fe_token_payload : option TokenPayload;
}.

(** [_config_for]. *)
Definition config_for (fp : FormProtection) (token_nonce : option string) : FormConfig :=
  match token_nonce with
  | Some n => {| (fp_per_form_config fp) with fc_token_nonce := Some n |}
  | None => fp_per_form_config fp
  end.

Definition is_authenticated (rq : Request) : bool :=
  match rq_user rq with Some u => u_is_authenticated u | None => false end.

Definition assoc {A} (k : string) (l : list (string * A)) : option A :=
  snd <$> List.find (λ kv, bool_decide (kv.1 = k)) l.

Section Evaluate.
Context {R : Type} `{RedisClient R}.
Context (conf : Conf) (now : Z).

(** The merged weight table: the form's entry wins. *)
Definition weight (fp : FormProtection) (name : string) : option Q :=
  match assoc name (fp_weights fp) with
  | Some q => Some q
  | None => assoc name (DJANGO_WAF_FORM_DEFENCE_WEIGHTS conf)
  end.

(** What one outcome adds to the score. *)
Definition contribution (fp : FormProtection) (o : Outcome) (d : Defence) : Q :=
  match oc_verdict o with
  | pass => 0
  | _ => default (oc_score o) (weight fp (defence_name d))
  end.

(** [_aggregate_score]: outcomes are paired with the configured names. *)
Definition aggregate_score (fp : FormProtection) (outcomes : list Outcome) : Q :=
  fold_left Qplus (zip_with (contribution fp) outcomes (fp_defences fp)) 0%Q.

(** [_resolve_verdict]. *)
Definition resolve_verdict (total_score : Q) : FormVerdict :=
  if Qle_bool (DJANGO_WAF_FORM_BLOCK_THRESHOLD conf) total_score then FORM_BLOCKED
  else if Qle_bool (DJANGO_WAF_FORM_FLAG_THRESHOLD conf) total_score then FORM_FLAGGED
  else FORM_PASSED.

Definition evaluate_defence (d : Defence) (ctx : EvaluateContext) : M R Outcome :=
  match d with
  | RenderTokenDefence => render_token_evaluate conf now ctx
  | HoneypotDefence => ret (honeypot_evaluate conf ctx)
  | TimeTrapDefence => ret (time_trap_evaluate conf now ctx)
  | UaConsistencyDefence => ret (ua_consistency_evaluate ctx)
  | JsTouchDefence => ret (js_touch_evaluate conf ctx)
  | CredentialThrottleDefence => credential_throttle_evaluate conf now ctx
  | SignupVelocityDefence => signup_velocity_evaluate conf now ctx
  | PowGateDefence => ret (pow_gate_evaluate conf ctx)
  end.

Definition context (fp : FormProtection) (rq : Request) (data : Data) (payload : option TokenPayload)
  : EvaluateContext :=
  {| ec_form_id := fp_form_id fp; ec_request := rq; ec_submitted_data := data;
     ec_config := config_for fp (tp_nonce <$> payload); ec_token_payload := payload |}.

(** The loop of [evaluate]: the outcomes so far, the payload once known, and
    whether a block cut it short. *)
Fixpoint run_chain (fp : FormProtection) (rq : Request) (data : Data) (ds : list Defence)
    (outcomes : list Outcome) (payload : option TokenPayload)
  : M R (bool * list Outcome * option TokenPayload) :=
  match ds with
  | [] => ret (false, outcomes, payload)
  | d :: ds =>
      outcome <- try_except (evaluate_defence d (context fp rq data payload)) (λ _, ret passed) ;;
      let outcomes := outcomes ++ [outcome] in
      if bool_decide (oc_verdict outcome = block) then ret (true, outcomes, payload) else
      payload <- (if bool_decide (d = RenderTokenDefence) && negb (bool_decide (is_Some payload))
                  then lift_res (parse_submitted_payload conf data) else ret payload) ;;
      run_chain fp rq data ds outcomes payload
  end.

(** The defences that run for this request. *)
Definition active_defences (fp : FormProtection) (rq : Request) : list Defence :=
  if fp_skip_for_authenticated fp && is_authenticated rq
  then List.filter (λ d, bool_decide (d = RenderTokenDefence)) (fp_defences fp)
  else fp_defences fp.

(** [FormProtection.evaluate]. *)
Definition evaluate (fp : FormProtection) (rq : Request) (data : Data) : M R FormEvaluationResult :=
  if negb (DJANGO_WAF_FORM_PROTECTION_ENABLED conf)
  then ret {| fe_verdict := FORM_PASSED; fe_total_score := 0; fe_outcomes := [];
              fe_token_payload := None |}
  else
  r <- run_chain fp rq data (active_defences fp rq) [] None ;;
  let '(cut, outcomes, payload) := r in
  let total := aggregate_score fp outcomes in
  ret {| fe_verdict := if cut : bool then FORM_BLOCKED else resolve_verdict total;
         fe_total_score := total; fe_outcomes := outcomes; fe_token_payload := payload |}.

(** [consume_token_marker]. *)
Definition consume_token_marker (payload : option TokenPayload) : M R unit :=
  match payload with
  | None => ret tt
  | Some p => try_except (consume_marker now (tp_nonce p)) (λ _, ret tt)
  end.

(** [ProtectedForm.clean], after Django's own cleaning: the result stored as
    [waf_result], and whether [ValidationError] is raised. *)
Definition form_clean (fp : FormProtection) (rq : Request) (data : Data)
  : M R (FormEvaluationResult * bool) :=
  result <- evaluate fp rq data ;;
  (if bool_decide (fe_verdict result = FORM_PASSED)
   then consume_token_marker (fe_token_payload result) else ret tt) ;;;
  ret (result, bool_decide (fe_verdict result = FORM_BLOCKED)).

(** [RenderTokenDefence.render_fields]: the token, its payload, and the marker
    (errors suppressed). *)
Definition render_token_fields (fp : FormProtection) (rq : Request) (nonce : string)
  : M R (string * TokenPayload) :=
  let ttl := default (DJANGO_WAF_FORM_TOKEN_TTL conf) (fc_token_ttl (config_for fp None)) in
  let '(token, payload) := issue_token conf (fp_form_id fp) (extract_ip conf rq) (user_id rq)
                             (user_agent_of rq) nonce now in
  try_except (issue_marker now (tp_nonce payload) ttl) (λ _, ret tt) ;;;
  ret (token, payload).
End Evaluate.

(** ** The shape of a run *)

Definition not_block (o : Outcome) : Prop := oc_verdict o ≠ block.

(** What a run appends: everything before a cut lets the chain go on, and
    without a cut every defence had its say. *)
Definition complete_run (cut : bool) (n : nat) (new : list Outcome) : Prop :=
  if cut
  then ∃ pre o, new = pre ++ [o] ∧ Forall not_block pre ∧ oc_verdict o = block ∧ (length new <= n)%nat
  else Forall not_block new ∧ length new = n.

Section Runs.
Context {R : Type} `{RedisClient R}.
Context (conf : Conf) (now : Z).
Implicit Types (fp : FormProtection) (s : R).

Lemma run_chain_complete fp rq data ds outs pl s cut outs' pl' s' :
  run_chain conf now fp rq data ds outs pl s = (Ok (cut, outs', pl'), s') →
  ∃ new, outs' = outs ++ new ∧ complete_run cut (length ds) new.
Proof.
  revert outs pl s. induction ds as [|d ds IH]; intros outs pl s.
  { intros [= <- <- <- <-]. exists []. by rewrite app_nil_r. }
  cbn [run_chain]. intros E. apply bind_inv_Ok in E as (o & s1 & _ & E). case_bool_decide as Hb.
  - injection E as <- <- <- <-. exists [o]. split; [done|]. exists [], o. cbn. split; [done|].
    split; [constructor|]. split; [done|lia].
  - apply bind_inv_Ok in E as (pl1 & s2 & _ & E). apply IH in E as (new & -> & Hnew).
    exists (o :: new). rewrite <- app_assoc. split; [done|].
    destruct cut; cbn in *.
    + destruct Hnew as (pre & o' & -> & Hpre & Ho & Hl). exists (o :: pre), o'.
      split; [done|]. split; [by constructor|]. split; [done|]. cbn in *. lia.
    + destruct Hnew as [HF Hl]. split; [by constructor|]. lia.
Qed.

(** The first step of a chain that starts with the render token. *)
Lemma run_chain_render_token fp rq data ds s :
  let first := try_except (render_token_evaluate conf now (context fp rq data None)) (λ _, ret passed) in
  run_chain conf now fp rq data (RenderTokenDefence :: ds) [] None s =
  bind first (λ o,
    if bool_decide (oc_verdict o = block) then ret (true, [o], None) else
    payload <- lift_res (parse_submitted_payload conf data) ;;
    run_chain conf now fp rq data ds [o] payload) s.
Proof. done. Qed.

(** A chain whose every defence passes on the payload at hand. *)
Lemma run_chain_all_pass fp rq data ds outs p s :
  ¬ In RenderTokenDefence ds →
  (∀ d s1, In d ds → ∃ s2, evaluate_defence conf now d (context fp rq data (Some p)) s1 = (Ok passed, s2)) →
  ∃ s', run_chain conf now fp rq data ds outs (Some p) s
        = (Ok (false, outs ++ replicate (length ds) passed, Some p), s').
Proof.
  revert outs s. induction ds as [|d ds IH]; intros outs s Hrt Hall.
  { exists s. cbn. by rewrite app_nil_r. }
  cbn [run_chain]. destruct (Hall d s (or_introl eq_refl)) as (s1 & E).
  rewrite (bind_Ok _ _ s passed s1) by by apply try_except_Ok. cbn [oc_verdict passed].
  rewrite (bool_decide_false (pass = block)) by done.
  rewrite (bool_decide_false (d = RenderTokenDefence)) by (intros ->; apply Hrt; by left). cbn [andb].
  rewrite (bind_Ok _ _ s1 (Some p) s1) by done.
  destruct (IH (outs ++ [passed]) s1) as (s' & E'); [intros Hin; apply Hrt; by right|
    intros d' s2 Hd; apply Hall; by right|].
  exists s'. rewrite E'. rewrite <- app_assoc. done.
Qed.
End Runs.

(** ** The render token *)

Lemma str_take_length n s : (n <= String.length s)%nat → String.length (str_take n s) = n.
Proof.
  revert s. induction n as [|n IH]; intros [|c s] Hl; cbn in *; [done|done|lia|].
  rewrite IH; [done|lia].
Qed.

Lemma js_expected_length conf nonce : String.length (js_expected_value conf nonce) = 16%nat.
Proof.
  unfold js_expected_value. apply str_take_length. rewrite hexdigest_length.
  unfold hmac_sha256. rewrite sha256_length. lia.
Qed.

Lemma Qltb_false a b : Qltb a b = false ↔ (b <= a)%Q.
Proof. unfold Qltb. by rewrite negb_false_iff, Qle_bool_iff. Qed.

Section RenderToken.
Context {R : Type} `{RedisSpec R}.
Context (conf : Conf) (now : Z).
Implicit Types (fp : FormProtection) (s : R).

Definition token_ttl fp : Z := default (DJANGO_WAF_FORM_TOKEN_TTL conf) (fc_token_ttl (fp_per_form_config fp)).

(** The marker of a token is there as far as the client can tell. *)
Definition marker_live (s : R) (nonce : string) : Prop := is_Some (peek now (r_view s) (marker_key nonce)).

Lemma marker_exists_live nonce s :
  ∃ b s1, try_except (marker_exists now nonce) (λ _, ret true) s = (Ok b, s1) ∧
    (marker_live s nonce → b = true) ∧
    (∀ v s2, r_exec now (EXISTS (marker_key nonce)) s = (Ok v, s2) → b = true → marker_live s nonce).
Proof.
  unfold try_except, marker_exists, bind, exec, marker_live.
  destruct (r_exec now _ s) as [[v|e] s1] eqn:E.
  - pose proof (exec_documented _ _ _ _ _ E) as Hd. cbn in Hd.
    eexists _, s1. split; [reflexivity|]. destruct (peek _ _ _) as [en|]; injection Hd as <- _; cbn.
    + split; [done|]. intros; by eexists.
    + split; [by intros [? [=]]|done].
  - eexists true, s1. split; [done|]. split; [done|]. by intros v s2 [=].
Qed.

(** A submission the render token lets through carries a token that this
    server signed, not past its lifetime, and not spent. *)
Definition admitted_token fp (data : Data) (s : R) (p : TokenPayload) : Prop :=
  verify_token conf (data_get data TOKEN_FIELD_NAME) = Ok p ∧
  (valid_datetime (tp_render_time p + token_ttl fp * usec) = true →
   now <= tp_render_time p + token_ttl fp * usec ∧
   (∀ v s2, r_exec now (EXISTS (marker_key (tp_nonce p))) s = (Ok v, s2) →
    marker_live s (tp_nonce p) ∨ now - tp_render_time p <= MARKER_GRACE_SECONDS * usec)).

Lemma render_token_admits fp rq data s o s1 pl :
  try_except (render_token_evaluate conf now (context fp rq data None)) (λ _, ret passed) s = (Ok o, s1) →
  oc_verdict o ≠ block → parse_submitted_payload conf data = Ok pl →
  ∃ p, pl = Some p ∧ admitted_token fp data s p.
Proof.
  unfold render_token_evaluate, parse_submitted_payload. cbn [context ec_submitted_data ec_config].
  destruct (str_empty _); [intros [= <- <-]; by intros []|].
  destruct (verify_token conf _) as [p|e] eqn:Ev.
  2: { destruct e; [intros [= <- <-]; by intros []|..]; by intros _ _ [=]. }
  unfold admitted_token, token_ttl. change (config_for fp (tp_nonce <$> None)) with (fp_per_form_config fp).
  set (ttl := default _ _). intros Hev Hnb [= <-]. exists p. split; [done|]. split; [done|].
  intros Hvd. rewrite Hvd in Hev. cbn [negb] in Hev.
  destruct (Z.ltb_spec (tp_render_time p + ttl * usec) now) as [Hlt|Hge].
  { injection Hev as <- <-. by destruct Hnb. }
  split; [done|]. intros v s2 Hx.
  destruct (marker_exists_live (tp_nonce p) s) as (b & s3 & Em & _ & Hlive).
  specialize (Hlive v s2 Hx). unfold try_except at 1 in Hev. rewrite (bind_Ok _ _ _ _ _ Em) in Hev.
  destruct b; [left; by apply Hlive|]. cbn [negb andb] in Hev.
  destruct (Z.ltb_spec (MARKER_GRACE_SECONDS * usec) (now - tp_render_time p)); [|by right].
  injection Hev as <- <-. by destruct Hnb.
Qed.

(** What the render token answers on a verified token that has not expired. *)
Lemma render_token_on_verified fp rq data s p :
  data_get data TOKEN_FIELD_NAME ≠ "" → verify_token conf (data_get data TOKEN_FIELD_NAME) = Ok p →
  valid_datetime (tp_render_time p + token_ttl fp * usec) = true →
  now <= tp_render_time p + token_ttl fp * usec →
  marker_live s (tp_nonce p) →
  ∃ s1, render_token_evaluate conf now (context fp rq data None) s =
    (Ok (if negb (str_empty (tp_ip p)) && negb (bool_decide (tp_ip p = extract_ip conf rq))
         then flagged IP_CHANGED_SCORE "render_token:ip_changed" else passed), s1) ∧
  parse_submitted_payload conf data = Ok (Some p).
Proof.
  intros Hne Hv Hvd Hnow Hm. unfold render_token_evaluate, parse_submitted_payload.
  cbn [context ec_submitted_data ec_config ec_request]. rewrite (str_empty_false _ Hne), Hv.
  unfold token_ttl in *. change (config_for fp (tp_nonce <$> None)) with (fp_per_form_config fp).
  rewrite Hvd. cbn [negb]. rewrite (proj2 (Z.ltb_ge _ _) Hnow).
  destruct (marker_exists_live (tp_nonce p) s) as (b & s1 & Em & Hb & _).
  rewrite (Hb Hm) in Em. rewrite (bind_Ok _ _ _ _ _ Em). cbn [negb andb].
  exists s1. destruct (negb (str_empty _) && _); done.
Qed.

(** A spent token, past the grace window, with Redis answering. *)
Lemma render_token_on_spent fp rq data s p v s2 :
  data_get data TOKEN_FIELD_NAME ≠ "" → verify_token conf (data_get data TOKEN_FIELD_NAME) = Ok p →
  valid_datetime (tp_render_time p + token_ttl fp * usec) = true →
  ¬ marker_live s (tp_nonce p) → r_exec now (EXISTS (marker_key (tp_nonce p))) s = (Ok v, s2) →
  MARKER_GRACE_SECONDS * usec < now - tp_render_time p →
  ∃ s1 why, render_token_evaluate conf now (context fp rq data None) s = (Ok (blocked why 5), s1) ∧
    why = if tp_render_time p + token_ttl fp * usec <? now then "render_token:expired"
          else "render_token:replayed".
Proof.
  intros Hne Hv Hvd Hm Hx Hgrace. unfold render_token_evaluate.
  cbn [context ec_submitted_data ec_config ec_request]. rewrite (str_empty_false _ Hne), Hv.
  unfold token_ttl in *. change (config_for fp (tp_nonce <$> None)) with (fp_per_form_config fp).
  rewrite Hvd. cbn [negb]. destruct (_ <? now); [by eexists _, _|].
  destruct (marker_exists_live (tp_nonce p) s) as (b & s1 & Em & _ & Hb).
  destruct b; [by destruct Hm; eapply Hb|]. rewrite (bind_Ok _ _ _ _ _ Em). cbn [negb andb].
  rewrite (proj2 (Z.ltb_lt _ _) Hgrace). by eexists _, _.
Qed.
End RenderToken.

(** ** Whole runs *)

Section WholeRuns.
Context {R : Type} `{RedisSpec R}.
Context (conf : Conf) (now : Z).
Implicit Types (fp : FormProtection) (s : R).

Lemma active_defences_head fp rq ds :
  fp_defences fp = RenderTokenDefence :: ds →
  ∃ ds', active_defences fp rq = RenderTokenDefence :: ds' ∧ (∀ d, In d ds' → In d ds).
Proof.
  intros E. unfold active_defences. rewrite E. case_match; [|by exists ds].
  cbn [List.filter]. rewrite bool_decide_true by done. eexists. split; [done|].
  intros d Hd%filter_In. tauto.
Qed.

Lemma run_chain_keeps_payload fp rq data ds outs p s cut outs' pl s' :
  run_chain conf now fp rq data ds outs (Some p) s = (Ok (cut, outs', pl), s') → pl = Some p.
Proof.
  revert outs s. induction ds as [|d ds IH]; intros outs s; [by intros [= _ _ <- _]|].
  cbn [run_chain]. intros E. apply bind_inv_Ok in E as (o & s1 & _ & E).
  case_bool_decide; [by injection E as _ _ <- _|].
  rewrite (bool_decide_true (is_Some (Some p))), andb_false_r in E by by eexists.
  rewrite (bind_Ok _ _ s1 (Some p) s1) in E by done. by eapply IH.
Qed.

(** [evaluate] on a chain that starts with the render token. *)
Lemma evaluate_inv fp rq data ds s r s' :
  DJANGO_WAF_FORM_PROTECTION_ENABLED conf = true → fp_defences fp = RenderTokenDefence :: ds →
  evaluate conf now fp rq data s = (Ok r, s') →
  ∃ o s1, try_except (render_token_evaluate conf now (context fp rq data None)) (λ _, ret passed) s
          = (Ok o, s1) ∧
    ((oc_verdict o = block ∧ fe_verdict r = FORM_BLOCKED) ∨
     (oc_verdict o ≠ block ∧ parse_submitted_payload conf data = Ok (fe_token_payload r)) ∨
     (oc_verdict o ≠ block ∧ parse_submitted_payload conf data = Ok None)).
Proof.
  intros Hen Hds. destruct (active_defences_head fp rq ds Hds) as (ds' & Ha & _).
  unfold evaluate. rewrite Hen, Ha. cbn [negb]. intros E.
  apply bind_inv_Ok in E as ([[cut outs] pl] & s2 & E & Er). injection Er as <- _.
  rewrite run_chain_render_token in E. apply bind_inv_Ok in E as (o & s1 & E1 & E).
  exists o, s1. split; [done|]. case_bool_decide as Hb.
  - left. by injection E as <- <- <- _.
  - right. apply bind_inv_Ok in E as (pl1 & s3 & E3 & E). unfold lift_res in E3. injection E3 as E3 _.
    destruct pl1 as [p|]; [|by right]. left. apply run_chain_keeps_payload in E as ->. by rewrite E3.
Qed.

Lemma evaluate_blocked fp rq data ds s why s1 :
  DJANGO_WAF_FORM_PROTECTION_ENABLED conf = true → fp_defences fp = RenderTokenDefence :: ds →
  render_token_evaluate conf now (context fp rq data None) s = (Ok (blocked why 5), s1) →
  ∃ r s', evaluate conf now fp rq data s = (Ok r, s') ∧ fe_verdict r = FORM_BLOCKED ∧
    fe_outcomes r = [blocked why 5].
Proof.
  intros Hen Hds E. destruct (active_defences_head fp rq ds Hds) as (ds' & Ha & _).
  assert (Er : run_chain conf now fp rq data (RenderTokenDefence :: ds') [] None s
    = (Ok (true, [blocked why 5], None), s1)).
  { rewrite run_chain_render_token. by rewrite (bind_Ok _ _ _ _ _ (try_except_Ok _ _ _ _ _ E)). }
  unfold evaluate. rewrite Hen, Ha. cbn [negb]. rewrite (bind_Ok _ _ _ _ _ Er). by eexists _, _.
Qed.

(** A browser that left the trap fields alone, took its time and ran the
    script. *)
Definition filled_by_human fp (data : Data) (p : TokenPayload) : Prop :=
  (∀ name, In name (honeypot_names conf (fp_form_id fp) (fp_per_form_config fp)) →
     data_get data name = "") ∧
  (let delta := total_seconds (now - tp_render_time p) in
   (1 # 2 <= delta)%Q ∧
   (default (DJANGO_WAF_FORM_TIME_TRAP_MIN_SECONDS conf)
      (fc_min_fill_seconds (fp_per_form_config fp)) <= delta)%Q ∧
   (delta <= default (DJANGO_WAF_FORM_TIME_TRAP_MAX_SECONDS conf)
      (fc_max_fill_seconds (fp_per_form_config fp)))%Q) ∧
  data_get data JS_TOUCH_FIELD = js_expected_value conf (tp_nonce p).

Definition browser_defences : list Defence :=
  [HoneypotDefence; TimeTrapDefence; UaConsistencyDefence; JsTouchDefence].

Lemma human_passes fp rq data p d s :
  In d browser_defences → filled_by_human fp data p →
  tp_ua_hash p = hash_user_agent (user_agent_of rq) →
  evaluate_defence conf now d (context fp rq data (Some p)) s = (Ok passed, s).
Proof.
  intros Hd (Hhoney & (Hhalf & Hmin & Hmax) & Hjs) Hua.
  destruct Hd as [<-|[<-|[<-|[<-|[]]]]]; cbn [evaluate_defence]; unfold ret; do 2 f_equal.
  - unfold honeypot_evaluate. cbn [context ec_submitted_data ec_form_id ec_config].
    change (honeypot_names conf (fp_form_id fp) (config_for fp (tp_nonce <$> Some p)))
      with (honeypot_names conf (fp_form_id fp) (fp_per_form_config fp)).
    destruct (List.find _ _) as [n|] eqn:E; [|done].
    apply List.find_some in E as [Hin He]. by rewrite (Hhoney _ Hin) in He.
  - unfold time_trap_evaluate, TOO_FAST_THRESHOLD_SECONDS. cbn [context ec_token_payload ec_config config_for fmap option_fmap option_map
      fc_min_fill_seconds fc_max_fill_seconds].
    by rewrite (proj2 (Qltb_false _ _) Hhalf), (proj2 (Qltb_false _ _) Hmin), (proj2 (Qltb_false _ _) Hmax).
  - unfold ua_consistency_evaluate. cbn [context ec_token_payload ec_request].
    by rewrite bool_decide_true.
  - unfold js_touch_evaluate. cbn [context ec_token_payload ec_submitted_data]. rewrite Hjs.
    pose proof (js_expected_length conf (tp_nonce p)) as Hl.
    rewrite bool_decide_false by (intros E; by rewrite E in Hl).
    rewrite str_empty_false by (intros E; by rewrite E in Hl).
    by rewrite bool_decide_true.
Qed.

Lemma aggregate_all_passed fp n : aggregate_score conf fp (replicate n passed) = 0%Q.
Proof.
  unfold aggregate_score. revert n. induction (fp_defences fp) as [|d ds IH]; intros [|n]; try done.
  cbn [replicate zip_with fold_left]. change (0 + contribution conf fp passed d)%Q with 0%Q. apply IH.
Qed.

Lemma fold_plus_passed fp ds n q :
  (fold_left Qplus (zip_with (contribution conf fp) (replicate n passed) ds) q == q)%Q.
Proof.
  revert n q. induction ds as [|d ds IH]; intros [|n] q; try done. cbn [replicate zip_with fold_left].
  rewrite IH. change (contribution conf fp passed d) with 0%Q. apply Qplus_0_r.
Qed.

(** A run whose other defences all pass, behind a given first outcome. *)
Lemma passing_run fp rq data ds p o s s1 :
  DJANGO_WAF_FORM_PROTECTION_ENABLED conf = true →
  fp_defences fp = RenderTokenDefence :: ds → ¬ In RenderTokenDefence ds →
  render_token_evaluate conf now (context fp rq data None) s = (Ok o, s1) →
  oc_verdict o ≠ block → parse_submitted_payload conf data = Ok (Some p) →
  (∀ d s2, In d ds → ∃ s3, evaluate_defence conf now d (context fp rq data (Some p)) s2 = (Ok passed, s3)) →
  ∃ n s', evaluate conf now fp rq data s =
    (Ok {| fe_verdict := resolve_verdict conf (aggregate_score conf fp (o :: replicate n passed));
           fe_total_score := aggregate_score conf fp (o :: replicate n passed);
           fe_outcomes := o :: replicate n passed; fe_token_payload := Some p |}, s').
Proof.
  intros Hen Hds Hrt E Hnb Hp Hall.
  destruct (active_defences_head fp rq ds Hds) as (ds' & Ha & Hsub).
  destruct (run_chain_all_pass conf now fp rq data ds' [o] p s1) as (s' & E').
  { intros Hin. by apply Hrt, Hsub. }
  { intros d s2 Hd. by apply Hall, Hsub. }
  assert (Er : run_chain conf now fp rq data (RenderTokenDefence :: ds') [] None s
    = (Ok (false, [o] ++ replicate (length ds') passed, Some p), s')).
  { rewrite run_chain_render_token, (bind_Ok _ _ _ _ _ (try_except_Ok _ _ _ _ _ E)).
    rewrite bool_decide_false by done. unfold lift_res. rewrite Hp. exact E'. }
  exists (length ds'), s'. unfold evaluate. rewrite Hen, Ha. cbn [negb].
  by rewrite (bind_Ok _ _ _ _ _ Er).
Qed.

Lemma human_passes_all fp rq data ds p :
  (∀ d, In d ds → In d browser_defences) → filled_by_human fp data p →
  tp_ua_hash p = hash_user_agent (user_agent_of rq) →
  ¬ In RenderTokenDefence ds ∧
  (∀ d s2, In d ds → ∃ s3, evaluate_defence conf now d (context fp rq data (Some p)) s2 = (Ok passed, s3)).
Proof.
  intros Hall Hh Hua. split; [intros Hin%Hall; cbn in Hin; naive_solver|].
  intros d s2 Hd. exists s2. by apply human_passes; [apply Hall| |].
Qed.

(** A token accepted and nothing else to object to: the form passes. *)
Lemma passing_clean fp rq data ds p s s1 :
  DJANGO_WAF_FORM_PROTECTION_ENABLED conf = true →
  (0 < DJANGO_WAF_FORM_FLAG_THRESHOLD conf)%Q → (0 < DJANGO_WAF_FORM_BLOCK_THRESHOLD conf)%Q →
  fp_defences fp = RenderTokenDefence :: ds → ¬ In RenderTokenDefence ds →
  render_token_evaluate conf now (context fp rq data None) s = (Ok passed, s1) →
  parse_submitted_payload conf data = Ok (Some p) →
  (∀ d s2, In d ds → ∃ s3, evaluate_defence conf now d (context fp rq data (Some p)) s2 = (Ok passed, s3)) →
  ∃ r s', form_clean conf now fp rq data s = (Ok (r, false), s') ∧
    fe_verdict r = FORM_PASSED ∧ (fe_total_score r == 0)%Q ∧ Forall (eq passed) (fe_outcomes r).
Proof.
  intros Hen Hf Hb Hds Hrt E Hparse Hall.
  destruct (passing_run fp rq data ds p passed s s1 Hen Hds Hrt E) as (n & s3 & Er); [done..|].
  change (passed :: replicate n passed) with (replicate (S n) passed) in Er.
  rewrite aggregate_all_passed in Er. unfold resolve_verdict in Er.
  assert (Hle : ∀ q, (0 < q)%Q → Qle_bool q 0 = false).
  { intros q Hq. destruct (Qle_bool q 0) eqn:E0; [|done]. apply Qle_bool_iff in E0.
    by apply Qlt_not_le in Hq. }
  rewrite !Hle in Er by done.
  destruct (total_inv (consume_token_marker now (Some p)) s3) as ([] & s4 & Ec).
  { by apply total_try. }
  eexists _, s4. split.
  { unfold form_clean. rewrite (bind_Ok _ _ _ _ _ Er). cbn [fe_verdict fe_token_payload].
    rewrite bool_decide_true by done. by rewrite (bind_Ok _ _ _ _ _ Ec). }
  split; [done|]. split; [done|]. cbn [fe_outcomes]. apply Forall_replicate. done.
Qed.
End WholeRuns.

(** What rendering hands out. *)
Lemma rendered_token {R} `{RedisClient R} conf t0 fp rq nonce (s s1 : R) token p :
  render_token_fields conf t0 fp rq nonce s = (Ok (token, p), s1) →
  forallb (λ s, negb (char_in "|" s)) [fp_form_id fp; extract_ip conf rq; user_id rq; nonce] = true →
  valid_datetime t0 = true →
  verify_token conf token = Ok p ∧
  tp_ip p = extract_ip conf rq ∧ tp_render_time p = t0 ∧ tp_nonce p = nonce ∧
  tp_ua_hash p = hash_user_agent (user_agent_of rq).
Proof.
  unfold render_token_fields. intros E Hbars Ht. apply bind_inv_Ok in E as (u & s2 & _ & [= <- <-]).
  split; [|done]. rewrite verify_signed. cbn [forallb] in Hbars. bool_hyps.
  rewrite payload_decode_encode; [|done|by apply hexdigest_no_char, sha256_octets].
  cbn [tp_form_id tp_ip tp_user_id tp_nonce]. unfold bar.
  repeat match goal with H : char_in _ _ = false |- _ => rewrite H; clear H end. done.
Qed.

(** The token names its form and its user. *)
Lemma rendered_scope {R} `{RedisClient R} conf t0 fp rq nonce (s s1 : R) token p :
  render_token_fields conf t0 fp rq nonce s = (Ok (token, p), s1) →
  tp_form_id p = fp_form_id fp ∧ tp_user_id p = user_id rq.
Proof.
  unfold render_token_fields. intros E. destruct (issue_token _ _ _ _ _ _ _) as [tk pl] eqn:Ei.
  apply bind_inv_Ok in E as (? & s2 & _ & E). unfold ret in E. simplify_eq. unfold issue_token in Ei. by simplify_eq.
Qed.

Lemma fold_left_right_Qplus l q :
  (fold_left Qplus l q == fold_right (λ q acc, q + acc) 0 l + q)%Q.
Proof.
  revert q. induction l as [|x l IH]; intros q; cbn [fold_left fold_right]; [ring|].
  rewrite IH. ring.
Qed.

(** ** Properties *)

Module FormProtectionProps.

Lemma verify_nonempty conf token p : verify_token conf token = Ok p → token ≠ "".
Proof. by intros Hv ->. Qed.

(** The payload of an accepted submission. *)
Lemma accepted_form_payload {R} `{RedisSpec R} conf now fp ds rq data (s s' : R) r :
  DJANGO_WAF_FORM_PROTECTION_ENABLED conf = true →
  fp_defences fp = RenderTokenDefence :: ds →
  evaluate conf now fp rq data s = (Ok r, s') → fe_verdict r ≠ FORM_BLOCKED →
  ∃ p, fe_token_payload r = Some p ∧ admitted_token conf now fp data s p.
Proof.
  intros Hen Hds E Hv. destruct (evaluate_inv conf now fp rq data ds s r s' Hen Hds E)
    as (o & s1 & E1 & [[_ Hb]|[[Ho Hp]|[Ho Hp]]]); [done| |];
    destruct (render_token_admits conf now fp rq data s o s1 _ E1 Ho Hp) as (p & Hp' & Ha).
  - by exists p.
  - done.
Qed.

(** The verdict, on every chain and every submission.  Outcomes stop at
    the first block, which is always decisive; without one every active defence
    has been asked, and the verdict is read off the weighted sum: blocked
    exactly at or above the block threshold, else flagged exactly at or above
    the flag threshold, else passed.  A submission is never passed with a
    blocking outcome on record, and an exception inside a defence never counts
    against the submission. *)
Lemma verdict_is_block_or_threshold {R} `{RedisClient R} conf now fp rq data (s s' : R) r :
  DJANGO_WAF_FORM_PROTECTION_ENABLED conf = true →
  evaluate conf now fp rq data s = (Ok r, s') →
  let total := fold_right (λ q acc, q + acc)%Q 0%Q
                 (zip_with (contribution conf fp) (fe_outcomes r) (fp_defences fp)) in
  (∃ pre o, fe_outcomes r = pre ++ [o] ∧ Forall not_block pre ∧ oc_verdict o = block ∧
     fe_verdict r = FORM_BLOCKED) ∨
  (Forall not_block (fe_outcomes r) ∧ length (fe_outcomes r) = length (active_defences fp rq) ∧
   (fe_verdict r = FORM_BLOCKED ↔ (DJANGO_WAF_FORM_BLOCK_THRESHOLD conf <= total)%Q) ∧
   (fe_verdict r = FORM_FLAGGED ↔
      (DJANGO_WAF_FORM_FLAG_THRESHOLD conf <= total < DJANGO_WAF_FORM_BLOCK_THRESHOLD conf)%Q)).
Proof.
  intros Hen E. unfold evaluate in E. rewrite Hen in E. cbn [negb] in E.
  apply bind_inv_Ok in E as ([[cut outs] pl] & s2 & E & Er). injection Er as <- _.
  apply run_chain_complete in E as (new & -> & Hnew). cbn [app fe_outcomes fe_verdict].
  destruct cut; cbn in Hnew.
  { left. destruct Hnew as (pre & o & -> & Hpre & Ho & _). by exists pre, o. }
  right. destruct Hnew as [HF Hl]. split; [done|]. split; [done|].
  set (l := zip_with _ _ _).
  assert (Hsum : (aggregate_score conf fp new == fold_right (λ q acc, q + acc) 0 l)%Q)
    by (unfold aggregate_score; rewrite fold_left_right_Qplus; apply Qplus_0_r).
  unfold resolve_verdict. rewrite <- Hsum. set (q := aggregate_score _ _ _).
  destruct (Qle_bool (DJANGO_WAF_FORM_BLOCK_THRESHOLD conf) q) eqn:Eb.
  { apply Qle_bool_iff in Eb. split; [done|]. split; [done|]. intros [_ Hlt].
    by apply Qlt_not_le in Hlt. }
  assert (Hb : ¬ (DJANGO_WAF_FORM_BLOCK_THRESHOLD conf <= q)%Q)
    by (intros Hle; apply Qle_bool_iff in Hle; congruence).
  destruct (Qle_bool (DJANGO_WAF_FORM_FLAG_THRESHOLD conf) q) eqn:Ef.
  - apply Qle_bool_iff in Ef. split; [by split|]. split; [|done]. intros _. split; [done|].
    by apply Qnot_le_lt.
  - split; [by split|]. split; [done|]. intros [Hle _]. apply Qle_bool_iff in Hle. congruence.
Qed.

(** On a form whose chain holds the render token, a submission that is
    not blocked carries a token this server signed, whose lifetime has not
    ended, and, when Redis answers, whose marker is still there unless at most
    five seconds have passed since the render; that payload is what the other
    defences were given. *)
Lemma accepted_submission_has_live_token {R} `{RedisSpec R} conf now fp ds rq data (s s' : R) r :
  DJANGO_WAF_FORM_PROTECTION_ENABLED conf = true →
  fp_defences fp = RenderTokenDefence :: ds →
  evaluate conf now fp rq data s = (Ok r, s') → fe_verdict r ≠ FORM_BLOCKED →
  ∃ p, fe_token_payload r = Some p ∧ admitted_token conf now fp data s p.
Proof. apply accepted_form_payload. Qed.

(** What lets a token in is its signature, address, browser, lifetime and
    marker.  Neither the form nor the user of the submission is compared with
    those of the token, so a token rendered for one form of the site to one user
    passes on another form and under another session. *)
Lemma any_token_of_the_site_passes {R} `{RedisSpec R} conf t0 t1 fp0 fp ds rq0 rq nonce data token p
    (s0 s1 s : R) :
  DJANGO_WAF_FORM_PROTECTION_ENABLED conf = true →
  (0 < DJANGO_WAF_FORM_FLAG_THRESHOLD conf)%Q → (0 < DJANGO_WAF_FORM_BLOCK_THRESHOLD conf)%Q →
  fp_defences fp = RenderTokenDefence :: ds → (∀ d, In d ds → In d browser_defences) →
  render_token_fields conf t0 fp0 rq0 nonce s0 = (Ok (token, p), s1) →
  forallb (λ s, negb (char_in "|" s)) [fp_form_id fp0; extract_ip conf rq0; user_id rq0; nonce] = true →
  valid_datetime t0 = true → valid_datetime (t0 + token_ttl conf fp * usec) = true →
  t1 <= t0 + token_ttl conf fp * usec → marker_live t1 s nonce →
  extract_ip conf rq = extract_ip conf rq0 → user_agent_of rq = user_agent_of rq0 →
  data_get data TOKEN_FIELD_NAME = token → filled_by_human conf t1 fp data p →
  ∃ r s', form_clean conf t1 fp rq data s = (Ok (r, false), s') ∧
    fe_verdict r = FORM_PASSED ∧ (fe_total_score r == 0)%Q ∧ Forall (eq passed) (fe_outcomes r).
Proof.
  intros Hen Hf Hb Hds Hall Hrender Hbars Ht0 Hvd Ht1 Hlive Hip Hua Hdata Hh.
  destruct (rendered_token conf t0 fp0 rq0 nonce s0 s1 token p Hrender Hbars Ht0)
    as (Hv & Hpip & Hpt & Hpn & Hpu). subst t0 nonce. rewrite <- Hdata in Hv.
  pose proof (verify_nonempty _ _ _ Hv) as Hne.
  destruct (render_token_on_verified conf t1 fp rq data s p Hne Hv Hvd Ht1 Hlive) as (s2 & E & Hparse).
  rewrite Hpip, Hip, bool_decide_true, andb_false_r in E by done.
  destruct (human_passes_all conf t1 (R := R) fp rq data ds p Hall Hh) as [Hrt Hrest]; [by rewrite Hpu, Hua|].
  by apply (passing_clean conf t1 fp rq data ds p s s2).
Qed.

(** C13: a person gets through.  A form rendered to a user, and submitted by
    that user to that form from the same address and browser while the marker
    and the lifetime of its token last, with the trap fields empty, the script's
    value in place and a plausible delay, passes every chain of the browser-side
    defences behind the token with score zero, and the form does not raise.
    Redis answers as documented, both score thresholds are positive, and none of
    the form id, the address, the key of the user and the nonce holds the
    token's separator, a vertical bar. *)
Theorem human_submission_passes {R} `{RedisSpec R} conf t0 t1 fp ds rq0 rq nonce data token p (s0 s1 s : R) :
  DJANGO_WAF_FORM_PROTECTION_ENABLED conf = true →
  (0 < DJANGO_WAF_FORM_FLAG_THRESHOLD conf)%Q → (0 < DJANGO_WAF_FORM_BLOCK_THRESHOLD conf)%Q →
  fp_defences fp = RenderTokenDefence :: ds → (∀ d, In d ds → In d browser_defences) →
  render_token_fields conf t0 fp rq0 nonce s0 = (Ok (token, p), s1) →
  forallb (λ s, negb (char_in "|" s)) [fp_form_id fp; extract_ip conf rq0; user_id rq0; nonce] = true →
  valid_datetime t0 = true → valid_datetime (t0 + token_ttl conf fp * usec) = true →
  t1 <= t0 + token_ttl conf fp * usec → marker_live t1 s nonce →
  user_id rq = user_id rq0 → extract_ip conf rq = extract_ip conf rq0 → user_agent_of rq = user_agent_of rq0 →
  data_get data TOKEN_FIELD_NAME = token → filled_by_human conf t1 fp data p →
  ∃ r s', form_clean conf t1 fp rq data s = (Ok (r, false), s') ∧
    fe_verdict r = FORM_PASSED ∧ (fe_total_score r == 0)%Q ∧ Forall (eq passed) (fe_outcomes r) ∧
    fe_token_payload r = Some p ∧ tp_form_id p = fp_form_id fp ∧ tp_user_id p = user_id rq.
Proof.
  intros Hen Hf Hb Hds Hall Hrender Hbars Ht0 Hvd Ht1 Hlive Hu Hip Hua Hdata Hh.
  destruct (any_token_of_the_site_passes conf t0 t1 fp fp ds rq0 rq nonce data token p s0 s1 s
    Hen Hf Hb Hds Hall Hrender Hbars Ht0 Hvd Ht1 Hlive Hip Hua Hdata Hh) as (r & s' & E & Hv & Hq & Ho).
  exists r, s'. split; [exact E|]. do 3 (split; [done|]).
  destruct (rendered_scope _ _ _ _ _ _ _ _ _ Hrender) as [Hform Huser]. split; [|by rewrite Hu].
  destruct (rendered_token conf t0 fp rq0 nonce s0 s1 token p Hrender Hbars Ht0) as (Hver & _).
  unfold form_clean in E. apply bind_inv_Ok in E as (r1 & s2 & E1 & E).
  apply bind_inv_Ok in E as (? & s3 & E2 & E3). injection E3 as -> _ _.
  destruct (accepted_form_payload conf t1 fp ds rq data s s2 r Hen Hds E1) as (p' & Hp' & Hv' & _);
    [by rewrite Hv|]. by rewrite Hp', <- Hdata, Hv' in *; simplify_eq.
Qed.

(** C14: on a working Redis a token is good for one passed submission.  Once a
    submission of it has passed a form with the token defence, and Redis
    answered, every form with that defence blocks the token later than five
    seconds after it was rendered, from whatever client, with whatever other
    fields and whatever Redis holds besides, as long as nobody writes its marker
    back.  Forms without the token defence do not look at tokens, and while Redis
    is down a spent token is accepted ([outage_forgets_spent_tokens]). *)
Theorem passed_token_is_single_use conf t1 t2 fp ds fp' ds' rq rq' data data' (s s1 s2 : MemRedis) r p :
  DJANGO_WAF_FORM_PROTECTION_ENABLED conf = true →
  fp_defences fp = RenderTokenDefence :: ds → fp_defences fp' = RenderTokenDefence :: ds' →
  form_clean conf t1 fp rq data s = (Ok (r, false), s1) → fe_verdict r = FORM_PASSED →
  fe_token_payload r = Some p →
  mem s2 !! marker_key (tp_nonce p) = mem s1 !! marker_key (tp_nonce p) →
  data_get data' TOKEN_FIELD_NAME = data_get data TOKEN_FIELD_NAME →
  valid_datetime (tp_render_time p + token_ttl conf fp' * usec) = true →
  MARKER_GRACE_SECONDS * usec < t2 - tp_render_time p →
  ∃ r' s', form_clean conf t2 fp' rq' data' s2 = (Ok (r', true), s') ∧ fe_verdict r' = FORM_BLOCKED.
Proof.
  intros Hen Hds Hds' E Hpass Hp Hmem Hdata Hvd Hgrace. unfold form_clean in E.
  apply bind_inv_Ok in E as (r1 & s3 & E1 & E). apply bind_inv_Ok in E as ([] & s4 & E2 & E3).
  injection E3 as -> _ ->. rewrite Hpass, bool_decide_true, Hp in E2 by done.
  assert (Hgone : mem s1 !! marker_key (tp_nonce p) = None)
    by (injection E2 as <-; apply lookup_delete_eq).
  destruct (accepted_form_payload conf t1 fp ds rq data s s3 r Hen Hds E1) as (p' & Hp' & Hv & _);
    [by rewrite Hpass|]. rewrite Hp in Hp'. injection Hp' as <-.
  rewrite <- Hdata in Hv. pose proof (verify_nonempty _ _ _ Hv) as Hne.
  assert (Hdead : ¬ marker_live t2 s2 (tp_nonce p)).
  { unfold marker_live, peek. cbn [r_view mem_redis]. rewrite Hmem, Hgone. by intros [? [=]]. }
  destruct (render_token_on_spent conf t2 fp' rq' data' s2 p (RInt (if peek t2 (mem s2) (marker_key (tp_nonce p)) then 1 else 0))
    {| mem := mem s2 |} Hne Hv Hvd Hdead eq_refl Hgrace) as (s5 & why & Er & _).
  destruct (evaluate_blocked conf t2 fp' rq' data' ds' s2 why s5 Hen Hds' Er) as (r' & s6 & Ee & Hb & _).
  exists r', s6. split; [|done]. unfold form_clean. rewrite (bind_Ok _ _ _ _ _ Ee), Hb.
  by rewrite bool_decide_false.
Qed.

(** A change of address between render and submit is blocking, not a
    flag: on every form and setting where the configured weight of
    [render_token] reaches the block threshold, as it does by default, the
    submission that passes from the rendering address (same token, browser,
    delay and fields) is rejected from any other. *)
Lemma ip_change_alone_blocks {R} `{RedisSpec R} conf t0 t1 fp0 fp ds rq0 rq nonce data token p w
    (s0 s1 s : R) :
  DJANGO_WAF_FORM_PROTECTION_ENABLED conf = true →
  weight conf fp "render_token" = Some w → (DJANGO_WAF_FORM_BLOCK_THRESHOLD conf <= w)%Q →
  fp_defences fp = RenderTokenDefence :: ds → (∀ d, In d ds → In d browser_defences) →
  render_token_fields conf t0 fp0 rq0 nonce s0 = (Ok (token, p), s1) →
  forallb (λ s, negb (char_in "|" s)) [fp_form_id fp0; extract_ip conf rq0; user_id rq0; nonce] = true →
  valid_datetime t0 = true → valid_datetime (t0 + token_ttl conf fp * usec) = true →
  t1 <= t0 + token_ttl conf fp * usec → marker_live t1 s nonce →
  extract_ip conf rq0 ≠ "" → extract_ip conf rq ≠ extract_ip conf rq0 →
  user_agent_of rq = user_agent_of rq0 →
  data_get data TOKEN_FIELD_NAME = token → filled_by_human conf t1 fp data p →
  ∃ r s', form_clean conf t1 fp rq data s = (Ok (r, true), s') ∧
    fe_verdict r = FORM_BLOCKED ∧ Forall not_block (fe_outcomes r).
Proof.
  intros Hen Hw Hthr Hds Hall Hrender Hbars Ht0 Hvd Ht1 Hlive Hne0 Hip Hua Hdata Hh.
  destruct (rendered_token conf t0 fp0 rq0 nonce s0 s1 token p Hrender Hbars Ht0)
    as (Hv & Hpip & Hpt & Hpn & Hpu). subst t0 nonce. rewrite <- Hdata in Hv.
  pose proof (verify_nonempty _ _ _ Hv) as Hne.
  destruct (render_token_on_verified conf t1 fp rq data s p Hne Hv Hvd Ht1 Hlive) as (s2 & E & Hparse).
  rewrite Hpip, (str_empty_false _ Hne0), bool_decide_false in E by congruence. cbn [negb andb] in E.
  destruct (human_passes_all conf t1 (R := R) fp rq data ds p Hall Hh) as [Hrt Hrest]; [by rewrite Hpu, Hua|].
  destruct (passing_run conf t1 fp rq data ds p _ s s2 Hen Hds Hrt E) as (n & s3 & Er); [done..|].
  set (o := flagged IP_CHANGED_SCORE "render_token:ip_changed") in *.
  assert (Hq : (aggregate_score conf fp (o :: replicate n passed) == w)%Q).
  { unfold aggregate_score. rewrite Hds. cbn [zip_with fold_left]. rewrite fold_plus_passed.
    unfold contribution. cbn [oc_verdict o flagged defence_name]. rewrite Hw. cbn. apply Qplus_0_l. }
  unfold resolve_verdict in Er. rewrite (proj2 (Qle_bool_iff _ _)) in Er by by rewrite Hq.
  eexists _, s3. split.
  { unfold form_clean. rewrite (bind_Ok _ _ _ _ _ Er). cbn [fe_verdict].
    by rewrite (bool_decide_false (FORM_BLOCKED = FORM_PASSED)). }
  split; [done|]. cbn [fe_outcomes]. constructor; [done|]. by apply Forall_replicate.
Qed.

(** A form rendered while Redis is down is rejected once Redis is back:
    no marker was written for its token, which reads as a replay from five
    seconds after the render until the token expires, whoever submits it. *)
Lemma rendered_in_outage_is_rejected conf t0 t1 fp0 fp ds rq0 rq nonce data token p
    (s0 s1 : DownRedis) (s : MemRedis) :
  DJANGO_WAF_FORM_PROTECTION_ENABLED conf = true → fp_defences fp = RenderTokenDefence :: ds →
  render_token_fields conf t0 fp0 rq0 nonce s0 = (Ok (token, p), s1) →
  forallb (λ s, negb (char_in "|" s)) [fp_form_id fp0; extract_ip conf rq0; user_id rq0; nonce] = true →
  valid_datetime t0 = true → valid_datetime (t0 + token_ttl conf fp * usec) = true →
  MARKER_GRACE_SECONDS * usec < t1 - t0 → t1 <= t0 + token_ttl conf fp * usec →
  mem s !! marker_key nonce = None → data_get data TOKEN_FIELD_NAME = token →
  ∃ r s', form_clean conf t1 fp rq data s = (Ok (r, true), s') ∧
    fe_outcomes r = [blocked "render_token:replayed" 5].
Proof.
  intros Hen Hds Hrender Hbars Ht0 Hvd Hgrace Ht1 Hno Hdata.
  destruct (rendered_token conf t0 fp0 rq0 nonce s0 s1 token p Hrender Hbars Ht0)
    as (Hv & _ & Hpt & Hpn & _). subst t0 nonce. rewrite <- Hdata in Hv.
  pose proof (verify_nonempty _ _ _ Hv) as Hne.
  assert (Hdead : ¬ marker_live t1 s (tp_nonce p)).
  { unfold marker_live, peek. cbn [r_view mem_redis]. rewrite Hno. by intros [? [=]]. }
  destruct (render_token_on_spent conf t1 fp rq data s p (RInt (if peek t1 (mem s) (marker_key (tp_nonce p)) then 1 else 0))
    {| mem := mem s |} Hne Hv Hvd Hdead eq_refl Hgrace) as (s5 & why & Er & ->).
  rewrite (proj2 (Z.ltb_ge _ _) Ht1) in Er.
  destruct (evaluate_blocked conf t1 fp rq data ds s _ s5 Hen Hds Er) as (r' & s6 & Ee & Hb & Ho).
  exists r', s6. split; [|done]. unfold form_clean. rewrite (bind_Ok _ _ _ _ _ Ee), Hb.
  by rewrite bool_decide_false.
Qed.

(** A forged token can crash the submission.  On a form whose chain
    starts with the render token, a token whose signature part is text outside
    ASCII makes the form raise, whatever the rest of the submission: the
    defence's own exception is swallowed, but parsing the payload again is not
    guarded. *)
Lemma non_ascii_signature_raises {R} `{RedisClient R} conf now fp ds rq data payload signature (s : R) :
  DJANGO_WAF_FORM_PROTECTION_ENABLED conf = true → fp_defences fp = RenderTokenDefence :: ds →
  data_get data TOKEN_FIELD_NAME = b64_encode (encode (payload +:+ "|" +:+ signature)) →
  char_in "|" signature = false → str_forall is_ascii signature = false →
  (form_clean conf now fp rq data s).1 = Raise (OtherError "TypeError").
Proof.
  intros Hen Hds Hdata Hbar Hasc.
  assert (Hv : verify_token conf (data_get data TOKEN_FIELD_NAME) = Raise (OtherError "TypeError")).
  { rewrite Hdata. unfold verify_token. rewrite b64_decode_encode, utf8_decode_encode by apply encode_octets.
    rewrite encode_app. change (encode ("|" +:+ ?s)) with (124 :: encode s).
    rewrite rsplit_bar_app by by apply encode_no_bar. rewrite !utf8_decode_encode.
    unfold compare_digest. by rewrite Hasc, andb_false_r. }
  assert (Hne : str_empty (data_get data TOKEN_FIELD_NAME) = false)
    by (apply str_empty_false; intros E; by rewrite E in Hv).
  destruct (active_defences_head fp rq ds Hds) as (ds' & Ha & _).
  unfold form_clean, evaluate. rewrite Hen, Ha. cbn [negb].
  assert (Er : run_chain conf now fp rq data (RenderTokenDefence :: ds') [] None s
    = (Raise (OtherError "TypeError"), s)).
  { rewrite run_chain_render_token. unfold bind, try_except, render_token_evaluate.
    cbn [context ec_submitted_data]. rewrite Hne, Hv. unfold raise, ret, lift_res. cbn.
    unfold parse_submitted_payload. by rewrite Hne, Hv. }
  by rewrite (bind_Raise _ _ _ _ _ (bind_Raise _ _ _ _ _ Er)).
Qed.

(** ** Witnesses *)

Definition form_conf : Conf := default_conf "k".
Definition contact_form : FormProtection := {|
  fp_form_id := "contact"; fp_defences := [RenderTokenDefence; HoneypotDefence; TimeTrapDefence; JsTouchDefence];
  fp_weights := []; fp_skip_for_authenticated := false; fp_per_form_config := no_config |}.
Definition form_request (ip : string) : Request :=
  {| (SignedCookiesProps.request_with ∅) with rq_meta := {["REMOTE_ADDR" := ip; "HTTP_USER_AGENT" := "curl/8"]} |}.
Definition home : Request := form_request "192.0.2.1".
Definition away : Request := form_request "192.0.2.9".
Definition render_at : Z := 86400 * usec.
Definition submit_at : Z := 86407 * usec.
Definition empty_store : MemRedis := {| mem := ∅ |}.

Definition rendered : (string * TokenPayload) * MemRedis :=
  match render_token_fields form_conf render_at contact_form home "00ff" empty_store with
  | (Ok r, s) => (r, s)
  | (Raise _, s) => (("", (issue_token form_conf "" "" "" "" "" 0).2), s)
  end.
Definition form_token : string := rendered.1.1.
Definition form_payload : TokenPayload := rendered.1.2.
Definition form_store : MemRedis := rendered.2.
Definition form_data : Data :=
  {["waf_token" := form_token; "waf_js_touch" := js_expected_value form_conf "00ff"]}.

Lemma rendered_Ok : render_token_fields form_conf render_at contact_form home "00ff" empty_store
  = (Ok (form_token, form_payload), form_store).
Proof. vm_compute. reflexivity. Qed.

Lemma form_data_human : filled_by_human form_conf submit_at contact_form form_data form_payload.
Proof.
  split; [|split].
  - intros name Hin.
    assert (Hall : forallb (λ n, str_empty (data_get form_data n))
      (honeypot_names form_conf (fp_form_id contact_form) (fp_per_form_config contact_form)) = true)
      by (vm_compute; reflexivity).
    rewrite forallb_forall in Hall. specialize (Hall name Hin). by destruct (data_get form_data name).
  - vm_compute. split; [discriminate|]. split; discriminate.
  - vm_compute. reflexivity.
Qed.

Definition submitted (rq : Request) := form_clean form_conf submit_at contact_form rq form_data form_store.
Definition submission : FormEvaluationResult * MemRedis :=
  match submitted home with
  | (Ok (r, _), s) => (r, s)
  | (Raise _, s) => ({| fe_verdict := FORM_BLOCKED; fe_total_score := 0; fe_outcomes := [];
                        fe_token_payload := None |}, s)
  end.

Lemma submitted_Ok : submitted home = (Ok (submission.1, false), submission.2).
Proof. vm_compute. reflexivity. Qed.

Lemma evaluated_Ok : evaluate form_conf submit_at contact_form home form_data form_store
  = (Ok submission.1, form_store).
Proof. vm_compute. reflexivity. Qed.

Lemma verdict_is_block_or_threshold_witness :
  Forall not_block (fe_outcomes submission.1) ∧ length (fe_outcomes submission.1) = 4%nat.
Proof.
  destruct (verdict_is_block_or_threshold form_conf submit_at contact_form home form_data form_store
    form_store submission.1 eq_refl evaluated_Ok) as [(pre & o & _ & _ & _ & Hv)|(HF & Hl & _)].
  - assert (E : fe_verdict submission.1 = FORM_PASSED) by (vm_compute; reflexivity).
    rewrite E in Hv. discriminate Hv.
  - split; [exact HF|exact Hl].
Defined.

Lemma accepted_submission_has_live_token_witness :
  ∃ p, fe_token_payload submission.1 = Some p ∧
    admitted_token form_conf submit_at contact_form form_data form_store p.
Proof.
  apply (accepted_submission_has_live_token form_conf submit_at contact_form
    [HoneypotDefence; TimeTrapDefence; JsTouchDefence] home form_data form_store form_store submission.1
    eq_refl eq_refl evaluated_Ok). vm_compute. discriminate.
Defined.

Lemma form_marker_live : marker_live submit_at form_store "00ff".
Proof. eexists. vm_compute. reflexivity. Qed.

Lemma contact_defences d : In d [HoneypotDefence; TimeTrapDefence; JsTouchDefence] → In d browser_defences.
Proof. cbn. naive_solver. Qed.

Lemma human_submission_passes_witness :
  ∃ r s', submitted home = (Ok (r, false), s') ∧ fe_verdict r = FORM_PASSED.
Proof.
  destruct (human_submission_passes form_conf render_at submit_at contact_form
    [HoneypotDefence; TimeTrapDefence; JsTouchDefence] home home "00ff" form_data form_token form_payload
    empty_store form_store form_store eq_refl eq_refl eq_refl eq_refl contact_defences rendered_Ok)
    as (r & s' & E & Hv & _);
    [vm_compute; reflexivity|vm_compute; reflexivity|vm_compute; reflexivity|vm_compute; discriminate
    |exact form_marker_live|reflexivity|reflexivity|reflexivity|vm_compute; reflexivity|exact form_data_human|].
  exists r, s'. split; [exact E|exact Hv].
Defined.

Lemma passed_token_is_single_use_witness :
  ∃ r' s', form_clean form_conf (submit_at + usec) contact_form away form_data submission.2
    = (Ok (r', true), s').
Proof.
  destruct (passed_token_is_single_use form_conf submit_at (submit_at + usec) contact_form
    [HoneypotDefence; TimeTrapDefence; JsTouchDefence] contact_form
    [HoneypotDefence; TimeTrapDefence; JsTouchDefence] home away form_data form_data form_store
    submission.2 submission.2 submission.1 form_payload eq_refl eq_refl eq_refl submitted_Ok)
    as (r' & s' & E & _);
    [vm_compute; reflexivity|vm_compute; reflexivity|reflexivity|reflexivity|vm_compute; reflexivity
    |vm_compute; reflexivity|].
  exists r', s'. exact E.
Defined.

(** With Redis down the marker cannot be looked up, and the spent token of the
    witness above passes again. *)
Example outage_forgets_spent_tokens :
  match form_clean form_conf (submit_at + usec) contact_form home form_data ({| frozen := ∅ |} : DownRedis) with
  | (Ok (r, raised), _) => fe_verdict r = FORM_PASSED ∧ raised = false
  | _ => False
  end.
Proof. vm_compute. split; reflexivity. Qed.

Lemma ip_change_alone_blocks_witness :
  ∃ r s', submitted away = (Ok (r, true), s') ∧ Forall not_block (fe_outcomes r).
Proof.
  destruct (ip_change_alone_blocks form_conf render_at submit_at contact_form contact_form
    [HoneypotDefence; TimeTrapDefence; JsTouchDefence] home away "00ff" form_data form_token form_payload
    5%Q empty_store form_store form_store eq_refl eq_refl (Qle_refl 5) eq_refl contact_defences rendered_Ok)
    as (r & s' & E & _ & HF);
    [vm_compute; reflexivity|vm_compute; reflexivity|vm_compute; reflexivity|vm_compute; discriminate
    |exact form_marker_live|vm_compute; discriminate|vm_compute; discriminate|reflexivity
    |vm_compute; reflexivity|exact form_data_human|].
  exists r, s'. split; [exact E|exact HF].
Defined.

Lemma rendered_in_outage_is_rejected_witness :
  ∃ r s', form_clean form_conf submit_at contact_form home form_data empty_store = (Ok (r, true), s') ∧
    fe_outcomes r = [blocked "render_token:replayed" 5].
Proof.
  apply (rendered_in_outage_is_rejected form_conf render_at submit_at contact_form contact_form
    [HoneypotDefence; TimeTrapDefence; JsTouchDefence] home home "00ff" form_data form_token form_payload
    {| frozen := ∅ |} {| frozen := ∅ |} empty_store eq_refl eq_refl);
    [vm_compute; reflexivity|vm_compute; reflexivity|vm_compute; reflexivity|vm_compute; reflexivity
    |vm_compute; reflexivity|vm_compute; discriminate|reflexivity|vm_compute; reflexivity].
Defined.

Definition forged_token : string := b64_encode (encode ("x" +:+ "|" +:+ String (chr 233) "")).

Lemma non_ascii_signature_raises_witness :
  (form_clean form_conf submit_at contact_form home {["waf_token" := forged_token]} empty_store).1
  = Raise (OtherError "TypeError").
Proof.
  apply (non_ascii_signature_raises form_conf submit_at contact_form
    [HoneypotDefence; TimeTrapDefence; JsTouchDefence] home {["waf_token" := forged_token]} "x"
    (String (chr 233) "") empty_store eq_refl eq_refl);
    [vm_compute; reflexivity|vm_compute; reflexivity|vm_compute; reflexivity].
Defined.

End FormProtectionProps.
