(* ===== verification/FormRender.v ===== *)
(** * What a protected form renders ([render_fields] of [forms/defences/] and
    [forms/protection.py], [ProtectedForm] of [forms/mixin.py], the tag of
    [templatetags/waf_form_tags.py] and the registry of [forms/decorators.py])

    Each defence gives HTML fragments under synthetic keys; the orchestrator
    renders the token first, reads its nonce back from the HTML and threads it
    to the others; the page shows the fragments in the order of their keys.
    Fragments are the text itself.  In the templates a backquote stands for the
    double quote ([html] puts the quotes in). *)

From Stdlib Require Import ZArith QArith Lia Ascii String.
From stdpp Require Import base tactics option list strings numbers gmap.
From S2P Require Import Regex.
From S2P Require Import Prelude PyStr IpAddress Hash PyTime Base64 Codec Conf Redis.
From S2P Require Import ClientIp Http SignedCookies Challenge FormTokens FormDefences FormProtection.

Open Scope Z_scope.

Definition html : string → string := str_map (λ c, if bool_decide (c = "`"%char) then quote else c).

(** [dict[str, str]] in insertion order. *)
Abbreviation Fragments := (list (string * string)).
Definition dict_update (d fragments : Fragments) : Fragments :=
  fold_left (λ d kv, dict_put kv.1 kv.2 d) fragments d.

Definition HIDDEN_STYLE : string :=
  "position:absolute;left:-9999px;width:1px;height:1px;overflow:hidden;".

(** [RenderContext]. *)
Record RenderContext : Type := {
  rx_form_id : string;
  rx_request : Request;
  rx_config : FormConfig;
}.

(** ** The honeypot *)

(** [str.isalnum] of one character: a word character that is no underscore. *)
Definition is_alnum (c : ascii) : bool := is_word c && negb (bool_decide (c = "_"%char)).

Definition name_char (c : ascii) : bool := is_alnum c || char_in c "_-".

Fixpoint str_filter (p : ascii → bool) (s : string) : string :=
  match s with
  | EmptyString => EmptyString
  | String c s => if p c then String c (str_filter p s) else str_filter p s
  end.

(** [_render_field]. *)
Definition honeypot_render_field (name : string) : string :=
  let safe_name := str_filter name_char name in
  if str_empty safe_name then "" else
  html "<input type=`text` name=`" +:+ safe_name +:+ html "` value=`` " +:+
  html "autocomplete=`off` tabindex=`-1` " +:+
  html "aria-label=`Leave this field empty (anti-spam check)` " +:+
  html "style=`" +:+ HIDDEN_STYLE +:+ html "`>".

Definition honeypot_render_fields (conf : Conf) (ctx : RenderContext) : Fragments :=
  let names := honeypot_names conf (rx_form_id ctx) (rx_config ctx) in
  match names with
  | [] => []
  | _ => [("_waf_honeypot", String.concat "" (map honeypot_render_field names))]
  end.

(** ** The script-set field ([js_touch.py]) *)

Definition js_render_html (conf : Conf) (nonce : string) : string :=
  let expected := js_expected_value conf nonce in
  html "<input type=`hidden` name=`" +:+ JS_TOUCH_FIELD +:+ html "` id=`_waf_js_touch_input` " +:+
  html "value=`unset` aria-hidden=`true` tabindex=`-1` " +:+
  html "style=`" +:+ HIDDEN_STYLE +:+ html "`>" +:+
  html "<script type=`text/javascript`>" +:+
  html "(function(){var el=document.getElementById(`_waf_js_touch_input`);" +:+
  html "if(el){el.value=`" +:+ expected +:+ html "`;}})();" +:+
  "</script>".

Definition js_touch_render_fields (conf : Conf) (ctx : RenderContext) : Fragments :=
  let nonce := default (rx_form_id ctx) (fc_token_nonce (rx_config ctx)) in
  [(JS_TOUCH_FIELD, js_render_html conf nonce)].

(** ** The proof of work ([pow_gate.py]) *)

(** The JavaScript SHA-256 the solver runs. *)
Definition SHA256_JS : string :=
  ("function sha256(msg){" +:+
   "var b=new TextEncoder().encode(msg);" +:+
   "var K=[0x428a2f98,0x71374491,0xb5c0fbcf,0xe9b5dba5,0x3956c25b,0x59f111f1,0x923f82a4,0xab1c5ed5," +:+
   "0xd807aa98,0x12835b01,0x243185be,0x550c7dc3,0x72be5d74,0x80deb1fe,0x9bdc06a7,0xc19bf174," +:+
   "0xe49b69c1,0xefbe4786,0x0fc19dc6,0x240ca1cc,0x2de92c6f,0x4a7484aa,0x5cb0a9dc,0x76f988da," +:+
   "0x983e5152,0xa831c66d,0xb00327c8,0xbf597fc7,0xc6e00bf3,0xd5a79147,0x06ca6351,0x14292967," +:+
   "0x27b70a85,0x2e1b2138,0x4d2c6dfc,0x53380d13,0x650a7354,0x766a0abb,0x81c2c92e,0x92722c85," +:+
   "0xa2bfe8a1,0xa81a664b,0xc24b8b70,0xc76c51a3,0xd192e819,0xd6990624,0xf40e3585,0x106aa070," +:+
   "0x19a4c116,0x1e376c08,0x2748774c,0x34b0bcb5,0x391c0cb3,0x4ed8aa4a,0x5b9cca4f,0x682e6ff3," +:+
   "0x748f82ee,0x78a5636f,0x84c87814,0x8cc70208,0x90befffa,0xa4506ceb,0xbef9a3f7,0xc67178f2];" +:+
   "var H=[0x6a09e667,0xbb67ae85,0x3c6ef372,0xa54ff53a,0x510e527f,0x9b05688c,0x1f83d9ab,0x5be0cd19];" +:+
   "var bl=b.length*8,w1=b.length+1,pl=((w1+8+63)&~63)-w1-8,tot=w1+pl+8;" +:+
   "var buf=new Uint8Array(tot);buf.set(b,0);buf[b.length]=0x80;" +:+
   "var hi=Math.floor(bl/0x100000000),lo=bl>>>0;" +:+
   "var dv=new DataView(buf.buffer);dv.setUint32(tot-8,hi,false);dv.setUint32(tot-4,lo,false);" +:+
   "var w=new Int32Array(64);" +:+
   "for(var o=0;o<tot;o+=64){" +:+
   "  for(var i=0;i<16;i++){ w[i]=dv.getInt32(o+i*4,false); }" +:+
   "  for(i=16;i<64;i++){" +:+
   "    var s0v=w[i-15],s0=((s0v>>>7)|(s0v<<25))^((s0v>>>18)|(s0v<<14))^(s0v>>>3);" +:+
   "    var s1v=w[i-2],s1=((s1v>>>17)|(s1v<<15))^((s1v>>>19)|(s1v<<13))^(s1v>>>10);" +:+
   "    w[i]=(w[i-16]+s0+w[i-7]+s1)|0;" +:+
   "  }" +:+
   "  var a=H[0],b2=H[1],c=H[2],d=H[3],e=H[4],f=H[5],g=H[6],h=H[7];" +:+
   "  for(i=0;i<64;i++){" +:+
   "    var S1=((e>>>6)|(e<<26))^((e>>>11)|(e<<21))^((e>>>25)|(e<<7));" +:+
   "    var ch=(e&f)^(~e&g);" +:+
   "    var t1=(h+S1+ch+K[i]+w[i])|0;" +:+
   "    var S0=((a>>>2)|(a<<30))^((a>>>13)|(a<<19))^((a>>>22)|(a<<10));" +:+
   "    var maj=(a&b2)^(a&c)^(b2&c);" +:+
   "    var t2=(S0+maj)|0;" +:+
   "    h=g;g=f;f=e;e=(d+t1)|0;d=c;c=b2;b2=a;a=(t1+t2)|0;" +:+
   "  }" +:+
   "  H[0]=(H[0]+a)|0;H[1]=(H[1]+b2)|0;H[2]=(H[2]+c)|0;H[3]=(H[3]+d)|0;" +:+
   "  H[4]=(H[4]+e)|0;H[5]=(H[5]+f)|0;H[6]=(H[6]+g)|0;H[7]=(H[7]+h)|0;" +:+
   "}" +:+
   "var out=new Uint8Array(32),ov=new DataView(out.buffer);" +:+
   "for(i=0;i<8;i++){ ov.setInt32(i*4,H[i],false); }" +:+
   "return out;" +:+
   "}").

(** [_solver_script]. *)
Definition solver_script (token_nonce : string) (difficulty : Z) : string :=
  html "<script type=`text/javascript`>" +:+
  "(function(){" +:+
  "var token=" +:+ repr_str token_nonce +:+ ";" +:+
  "var difficulty=" +:+ str_of_Z difficulty +:+ ";" +:+ SHA256_JS +:+ "function leadingZeroBits(bytes,bits){" +:+
  "  var full=bits>>>3, rem=bits&7;" +:+
  "  for(var i=0;i<full;i++){ if(bytes[i]!==0) return false; }" +:+
  "  if(rem===0) return true;" +:+
  "  var mask=(0xFF<<(8-rem))&0xFF;" +:+
  "  return (bytes[full]&mask)===0;" +:+
  "}" +:+
  "var n=0;" +:+
  "var maxN=Math.pow(2," +:+ str_of_Z difficulty +:+ ")*64;" +:+
  "function step(){" +:+
  "  var batchEnd=n+2000;" +:+
  "  while(n<batchEnd){" +:+
  html "    var hash=sha256(token+`:`+n);" +:+
  "    if(leadingZeroBits(hash,difficulty)){" +:+
  html "      var nonceEl=document.querySelector('input[name=`" +:+ NONCE_FIELD +:+ html "`]');" +:+
  "      if(nonceEl) nonceEl.value=n.toString();" +:+
  "      var form=nonceEl ? nonceEl.form : null;" +:+
  html "      if(form) form.setAttribute(`data-waf-pow-ready`,`true`);" +:+
  "      return;" +:+
  "    }" +:+
  "    n++;" +:+
  "    if(n>maxN){ return; }" +:+
  "  }" +:+
  "  setTimeout(step,0);" +:+
  "}" +:+
  "step();" +:+
  "})();" +:+
  "</script>".

(** The fragment of [PowGateDefence.render_fields]. *)
Definition pow_html (token_nonce : string) (difficulty : Z) : string :=
  html "<input type=`hidden` name=`" +:+ NONCE_FIELD +:+ html "` value=`` " +:+
  html "style=`" +:+ HIDDEN_STYLE +:+ html "`>" +:+
  html "<input type=`hidden` name=`" +:+ TOKEN_BIND_FIELD +:+ html "` value=`" +:+ token_nonce +:+ html "` " +:+
  html "style=`" +:+ HIDDEN_STYLE +:+ html "`>" +:+ solver_script token_nonce difficulty.

Definition pow_difficulty (conf : Conf) (config : FormConfig) : Z :=
  default (DJANGO_WAF_FORM_POW_DIFFICULTY conf) (fc_difficulty config).

Definition pow_gate_render_fields (conf : Conf) (ctx : RenderContext) : Fragments :=
  let difficulty := pow_difficulty conf (rx_config ctx) in
  let token_nonce := default (rx_form_id ctx) (fc_token_nonce (rx_config ctx)) in
  [(NONCE_FIELD, pow_html token_nonce difficulty)].

(** ** The orchestrator *)

(** [_extract_token_value]: the first value attribute that is closed. *)
Definition VALUE_ATTR : string := html "value=`".
Fixpoint extract_token_value (fragment : string) : string :=
  match fragment with
  | EmptyString => ""
  | String _ rest =>
      if starts_with VALUE_ATTR fragment then
        match partition_on quote (str_drop (String.length VALUE_ATTR) fragment) with
        | (value, Some _) => value
        | (_, None) => extract_token_value rest
        end
      else extract_token_value rest
  end.

Section Render.
Context {R : Type} `{RedisClient R}.
(** Django's [conditional_escape], as [format_html] applies it. *)
Context (escape : string → string).
Context (conf : Conf) (now : Z).

(** The fragment of the token. *)
Definition token_html (token : string) : string :=
  html "<input type=`hidden` name=`" +:+ escape TOKEN_FIELD_NAME +:+ html "` value=`" +:+ escape token +:+ html "`>".

Definition render_context (fp : FormProtection) (rq : Request) (token_nonce : option string) : RenderContext :=
  {| rx_form_id := fp_form_id fp; rx_request := rq; rx_config := config_for fp token_nonce |}.

(** [RenderTokenDefence.render_fields], whose context is the form's; [fresh] is
    what [secrets.token_hex] returned. *)
Definition render_token_render_fields (fp : FormProtection) (rq : Request) (fresh : string) : M R Fragments :=
  issued <- render_token_fields conf now fp rq fresh ;;
  ret [(TOKEN_FIELD_NAME, token_html issued.1)].

(** [defence.render_fields(ctx)] of the others. *)
Definition render_defence (d : Defence) (ctx : RenderContext) : M R Fragments :=
  match d with
  | HoneypotDefence => ret (honeypot_render_fields conf ctx)
  | JsTouchDefence => ret (js_touch_render_fields conf ctx)
  | PowGateDefence => ret (pow_gate_render_fields conf ctx)
  | _ => ret []
  end.

(** The nonce read back from the rendered token; what the parser raises is
    caught by the [try] around it. *)
Definition read_back_nonce (fragments : Fragments) : option string :=
  let fragment := default "" (assoc TOKEN_FIELD_NAME fragments) in
  let token_str := extract_token_value fragment in
  if str_empty token_str then None else
  match parse_submitted_payload conf {[ TOKEN_FIELD_NAME := token_str ]} with
  | Ok (Some payload) => Some (tp_nonce payload)
  | _ => None
  end.

(** The second pass. *)
Fixpoint render_others (fp : FormProtection) (rq : Request) (token_nonce : option string)
    (names : list Defence) (all_fields : Fragments) : M R Fragments :=
  match names with
  | [] => ret all_fields
  | d :: names =>
      if bool_decide (d = RenderTokenDefence) then render_others fp rq token_nonce names all_fields else
      all_fields <- try_except
        (fragments <- render_defence d (render_context fp rq token_nonce) ;;
         ret (dict_update all_fields fragments))
        (λ _, ret all_fields) ;;
      render_others fp rq token_nonce names all_fields
  end.

(** [FormProtection.render_fields]. *)
Definition render_fields (fp : FormProtection) (rq : Request) (fresh : string) : M R Fragments :=
  if negb (DJANGO_WAF_FORM_PROTECTION_ENABLED conf) then ret [] else
  let names := active_defences fp rq in
  first <- (if bool_decide (RenderTokenDefence ∈ names) then
              try_except
                (fragments <- render_token_render_fields fp rq fresh ;;
                 ret (dict_update [] fragments, read_back_nonce fragments))
                (λ _, ret ([], None))
            else ret ([], None)) ;;
  render_others fp rq first.2 names first.1.

(** [fields[k] for k in sorted(fields)], joined. *)
Definition join_sorted (fields : Fragments) : string :=
  String.concat "" (map snd (sort_by (λ a b, str_leb a.1 b.1) fields)).

(** [ProtectedForm.waf_fields]. *)
Definition waf_fields (fp : FormProtection) (rq : Request) (fresh : string) : M R string :=
  fields <- render_fields fp rq fresh ;; ret (join_sorted fields).

(** [_PROTECTIONS]. *)
Abbreviation Registry := (gmap string FormProtection).
Definition registry_get (reg : Registry) (form_id : string) : option FormProtection := reg !! form_id.
Definition registry_set (reg : Registry) (form_id : string) (p : FormProtection) : Registry := <[form_id := p]> reg.

(** What decorating a view with [waf_protect_post] does at import time. *)
Definition register_form (reg : Registry) (form_id : string) (defences : list string)
    (weights : list (string * Q)) (skip : bool) (config : FormConfig) : res (FormProtection * Registry) :=
  res_bind (FormProtection_init form_id defences weights skip config) (λ p,
    Ok (p, registry_set reg form_id p)).

(** The tag [waf_protect]; [request] is the context's. *)
Definition waf_protect (reg : Registry) (request : option Request) (form_id fresh : string) : M R string :=
  match registry_get reg form_id, request with
  | Some protection, Some rq => fields <- render_fields protection rq fresh ;; ret (join_sorted fields)
  | _, _ => ret ""
  end.
End Render.

(** ** [ProtectedForm] *)

Definition ImproperlyConfigured : exn := OtherError "ImproperlyConfigured".

(** [__init_subclass__]: the class attribute [waf]. *)
Definition init_subclass (waf : option FormProtection) : res FormProtection :=
  match waf with Some p => Ok p | None => Raise ImproperlyConfigured end.

(** [__init__]: the request the form keeps. *)
Definition form_init (request : option Request) : res Request :=
  match request with Some rq => Ok rq | None => Raise ImproperlyConfigured end.

(** ** Markup *)

(** The characters that end an attribute, a JavaScript string or open a tag. *)
Definition markup_char (c : ascii) : bool := char_in c "<>&'" || bool_decide (c = quote).

(** The markup of a text: what is left without the inert characters. *)
Definition markup : string → string := str_filter markup_char.
Definition inert : string → bool := str_forall (λ c, negb (markup_char c)).

Lemma markup_app a b : markup (a +:+ b) = markup a +:+ markup b.
Proof. unfold markup. induction a as [|c a IH]; cbn; [done|]. rewrite IH. by destruct (markup_char c). Qed.

Lemma markup_inert s : inert s = true → markup s = "".
Proof.
  unfold markup. induction s as [|c s IH]; cbn; [done|]. intros [Hc Hs]%andb_true_iff.
  apply negb_true_iff in Hc. rewrite Hc. by apply IH.
Qed.

Lemma inert_of (p : ascii → bool) s :
  (∀ c, p c = true → markup_char c = false) → str_forall p s = true → inert s = true.
Proof. intros Hp. apply str_forall_impl. intros c Hc. by rewrite Hp. Qed.

(** A fact about every character, by inspection of the 256. *)
Lemma every_ascii (p : ascii → bool) :
  forallb (λ n, p (ascii_of_nat n)) (seq 0 256) = true → ∀ c, p c = true.
Proof.
  intros H c. rewrite forallb_forall in H. rewrite <- (ascii_nat_embedding c). apply H, in_seq.
  pose proof (nat_ascii_bounded c). lia.
Qed.

Lemma disjoint_ascii (p q : ascii → bool) :
  forallb (λ n, negb (p (ascii_of_nat n) && q (ascii_of_nat n))) (seq 0 256) = true →
  ∀ c, p c = true → q c = false.
Proof.
  intros H c Hp. pose proof (every_ascii (λ c, negb (p c && q c)) H c) as Hc. cbn in Hc. rewrite Hp in Hc.
  by apply negb_true_iff in Hc.
Qed.

Lemma hex_inert s : str_forall is_hex s = true → inert s = true.
Proof. apply inert_of, disjoint_ascii. by vm_compute. Qed.

Lemma inert_no_quote s : inert s = true → char_in quote s = false ∧ char_in "'" s = false.
Proof. intros Hs. split; by apply (str_forall_not_char (λ c, negb (markup_char c))). Qed.

Lemma str_filter_forall p s : str_forall p (str_filter p s) = true.
Proof. induction s as [|c s IH]; cbn; [done|]. destruct (p c) eqn:E; [cbn; by rewrite E|done]. Qed.

Lemma name_inert s : inert (str_filter name_char s) = true.
Proof. eapply inert_of, str_filter_forall. apply disjoint_ascii. by vm_compute. Qed.

Lemma number_inert z : inert (str_of_Z z) = true.
Proof.
  assert (Hd : ∀ c, is_digit c = true → negb (markup_char c) = true).
  { intros c Hc. rewrite (disjoint_ascii is_digit markup_char); [done|by vm_compute|done]. }
  unfold inert, str_of_Z. destruct (Z.ltb_spec z 0); [cbn [str_forall]; apply andb_true_iff; split; [done|]|];
    apply dec_digits_forall; done || lia.
Qed.

Lemma b64_char_inert d : 0 <= d < 64 → negb (markup_char (b64_char d)) = true.
Proof.
  intros Hd.
  assert (Hall : forallb (λ n, negb (markup_char (b64_char (Z.of_nat n)))) (seq 0 64) = true) by by vm_compute.
  rewrite forallb_forall in Hall. specialize (Hall (Z.to_nat d)). rewrite Z2Nat.id in Hall by lia.
  apply Hall, in_seq. lia.
Qed.

Lemma b64_inert bs : Forall octet bs → inert (b64_encode bs) = true.
Proof.
  induction bs as [|a|a b|a b c bs IH] using triple_ind; intros Hbs; [done|..];
    repeat match goal with H : Forall octet (_ :: _) |- _ => apply Forall_cons in H as [? H] end;
    unfold octet in *;
    unfold inert; cbn [b64_encode str_forall]; rewrite ?b64_char_inert by dlia; try done.
  by apply IH.
Qed.

(** [repr] of an inert text keeps it between two apostrophes. *)
Lemma repr_markup s : inert s = true → markup (repr_str s) = "''".
Proof.
  intros Hs. destruct (inert_no_quote s Hs) as [_ Ha]. unfold repr_str. cbv zeta.
  change (chr 39) with "'"%char. rewrite Ha. cbn [andb]. change (markup (String "'" ?r)) with (String "'" (markup r)). f_equal.
  clear Ha. induction s as [|c s IH]; [done|]. cbn in Hs. apply andb_true_iff in Hs as [Hc Hs].
  cbn [list_ascii_of_string foldr]. rewrite markup_app, IH by done.
  assert (Hq : ∀ c, implb (negb (markup_char c)) (str_empty (markup (repr_char "'" c))) = true)
    by (apply every_ascii; by vm_compute).
  specialize (Hq c). rewrite Hc in Hq. cbn [implb] in Hq. by destruct (markup (repr_char "'" c)).
Qed.

Lemma str_forall_take p n s : str_forall p s = true → str_forall p (str_take n s) = true.
Proof.
  revert s. induction n as [|n IH]; intros [|c s]; cbn; try done. intros [Hc Hs]%andb_true_iff.
  by rewrite Hc, IH.
Qed.

Lemma js_expected_hex conf nonce : str_forall is_hex (js_expected_value conf nonce) = true.
Proof. apply str_forall_take, hexdigest_hex, hmac_octets. Qed.

(** Two scripts, two solvers, two tokens differ in inert text only. *)
Lemma markup_cong a a' b b' : markup a = markup a' → markup b = markup b' → markup (a +:+ b) = markup (a' +:+ b').
Proof. intros Ha Hb. by rewrite !markup_app, Ha, Hb. Qed.

Lemma inert_same a b : inert a = true → inert b = true → markup a = markup b.
Proof. intros Ha Hb. by rewrite !markup_inert. Qed.

Lemma repr_same a b : inert a = true → inert b = true → markup (repr_str a) = markup (repr_str b).
Proof. intros Ha Hb. by rewrite !repr_markup. Qed.

#[local] Hint Resolve inert_same repr_same name_inert number_inert hex_inert js_expected_hex : waf.

(** Templates with the same literals, hole by hole. *)
Ltac same_markup :=
  repeat (apply markup_cong; [solve [reflexivity | auto with waf]|]); solve [reflexivity | auto with waf].

Lemma js_markup conf nonce conf' nonce' :
  markup (js_render_html conf nonce) = markup (js_render_html conf' nonce').
Proof. unfold js_render_html. cbv zeta. same_markup. Qed.

Lemma pow_markup n d n' d' :
  inert n = true → inert n' = true → markup (pow_html n d) = markup (pow_html n' d').
Proof. intros Hn Hn'. unfold pow_html, solver_script. same_markup. Qed.

Lemma token_markup (escape : string → string) token token' :
  (∀ s, inert s = true → escape s = s) → inert token = true → inert token' = true →
  markup (token_html escape token) = markup (token_html (λ s, s) token').
Proof. intros He Ht Ht'. unfold token_html. rewrite !He by done. same_markup. Qed.

Lemma honeypot_markup name :
  markup (honeypot_render_field name)
  = if str_empty (str_filter name_char name) then "" else markup (honeypot_render_field "x").
Proof.
  unfold honeypot_render_field. destruct (str_empty (str_filter name_char name)); [done|]. cbv zeta.
  change (str_empty (str_filter name_char "x")) with false. cbv iota.
  same_markup.
Qed.

(** ** The pages of constructed forms *)

(** The order of the chain. *)
Definition CHAIN : list Defence :=
  [RenderTokenDefence; HoneypotDefence; TimeTrapDefence; UaConsistencyDefence; JsTouchDefence;
   CredentialThrottleDefence; SignupVelocityDefence; PowGateDefence].

Lemma build_all_names P ds :
  build_all (List.filter P (map defence_name ds)) = Ok (List.filter (λ d, P (defence_name d)) ds).
Proof.
  induction ds as [|d ds IH]; [done|]. cbn [map List.filter]. destruct (P (defence_name d)); [|done].
  cbn [build_all]. rewrite IH. by destruct d.
Qed.

Lemma init_chain form_id names weights skip cfg fp :
  FormProtection_init form_id names weights skip cfg = Ok fp →
  fp = {| fp_form_id := form_id;
          fp_defences := List.filter (λ d, bool_decide (defence_name d ∈ names)) CHAIN;
          fp_weights := weights; fp_skip_for_authenticated := skip; fp_per_form_config := cfg |}.
Proof.
  unfold FormProtection_init. destruct (existsb _ names); [done|]. unfold order_defences.
  change CANONICAL_ORDER with (map defence_name CHAIN). rewrite build_all_names. cbn [res_bind].
  by intros [= <-].
Qed.

(** The fragments in the order they are put in, and the text in the order of
    the keys. *)
Definition when {A} (b : bool) (x y : A) : A := if b then x else y.

Definition chain_fragments (h : option string) (j w : string) (d : Defence) : Fragments :=
  match d with
  | HoneypotDefence => match h with Some t => [("_waf_honeypot", t)] | None => [] end
  | JsTouchDefence => [(JS_TOUCH_FIELD, j)]
  | PowGateDefence => [(NONCE_FIELD, w)]
  | _ => []
  end.
Definition not_token (d : Defence) : bool := negb (bool_decide (d = RenderTokenDefence)).

Lemma page_fields (P : Defence → bool) h j w tok :
  fold_left dict_update (map (chain_fragments h j w) (List.filter not_token (List.filter P CHAIN)))
    [(TOKEN_FIELD_NAME, tok)]
  = (TOKEN_FIELD_NAME, tok) :: when (P HoneypotDefence) (chain_fragments h j w HoneypotDefence) []
    ++ when (P JsTouchDefence) (chain_fragments h j w JsTouchDefence) []
    ++ when (P PowGateDefence) (chain_fragments h j w PowGateDefence) [].
Proof.
  unfold CHAIN. cbn [List.filter].
  destruct h, (P RenderTokenDefence), (P HoneypotDefence), (P TimeTrapDefence), (P UaConsistencyDefence),
    (P JsTouchDefence), (P CredentialThrottleDefence), (P SignupVelocityDefence), (P PowGateDefence); reflexivity.
Qed.

Lemma page_text (bh bj bw : bool) h j w tok :
  join_sorted ((TOKEN_FIELD_NAME, tok) :: when bh (chain_fragments h j w HoneypotDefence) []
    ++ when bj (chain_fragments h j w JsTouchDefence) [] ++ when bw (chain_fragments h j w PowGateDefence) [])
  = when bh (default "" h) "" +:+ when bj j "" +:+ when bw w "" +:+ tok.
Proof. destruct h, bh, bj, bw; reflexivity. Qed.

Lemma extract_skip pre s :
  char_in "v" pre = false → extract_token_value (pre +:+ s) = extract_token_value s.
Proof.
  induction pre as [|c pre IH]; [done|]. cbn [char_in]. intros [Hc Hp]%orb_false_iff. rewrite <- (IH Hp).
  change (String c pre +:+ s) with (String c (pre +:+ s)). cbn [extract_token_value].
  assert (Hs : starts_with VALUE_ATTR (String c (pre +:+ s)) = false).
  { destruct (starts_with _ _) eqn:E; [|done]. apply starts_with_spec in E as (t & E).
    change (VALUE_ATTR +:+ t) with (String "v" (str_drop 1 VALUE_ATTR +:+ t)) in E.
    injection E as -> _. by rewrite bool_decide_true in Hc. }
  by rewrite Hs.
Qed.

Lemma extract_here v rest :
  char_in quote v = false → extract_token_value (VALUE_ATTR +:+ v +:+ String quote rest) = v.
Proof.
  intros Hv. assert (Hs : starts_with VALUE_ATTR (VALUE_ATTR +:+ v +:+ String quote rest) = true)
    by apply starts_with_app.
  pose proof (str_drop_app VALUE_ATTR (v +:+ String quote rest)) as Hd.
  destruct (VALUE_ATTR +:+ v +:+ String quote rest) as [|c s] eqn:E; [discriminate E|].
  cbn [extract_token_value]. rewrite Hs, Hd. by rewrite partition_on_app.
Qed.

Section Pages.
Context {R : Type} `{RedisClient R}.
Context (escape : string → string) (escape_inert : ∀ s, inert s = true → escape s = s).
Context (conf : Conf) (now : Z).
Implicit Types (fp : FormProtection) (s : R).

Lemma extract_from_token token : inert token = true → extract_token_value (token_html escape token) = token.
Proof.
  intros Ht. destruct (inert_no_quote token Ht) as [Hq _]. unfold token_html.
  rewrite !escape_inert by done. rewrite !extract_skip by reflexivity.
  change (html "` value=`" +:+ token +:+ html "`>")
    with (String quote " " +:+ VALUE_ATTR +:+ token +:+ String quote ">").
  rewrite extract_skip by reflexivity. by apply extract_here.
Qed.

(** What [defence.render_fields] gives, the token's apart. *)
Definition honeypot_text fp : option string :=
  match honeypot_names conf (fp_form_id fp) (fp_per_form_config fp) with
  | [] => None
  | names => Some (String.concat "" (map honeypot_render_field names))
  end.

Definition fragments_of fp (n : string) : Defence → Fragments :=
  chain_fragments (honeypot_text fp) (js_render_html conf n)
    (pow_html n (pow_difficulty conf (fp_per_form_config fp))).

Lemma render_defence_run fp rq n d s :
  render_defence conf d (render_context fp rq (Some n)) s = (Ok (fragments_of fp n d), s).
Proof.
  destruct d; try reflexivity. unfold render_defence, ret, fragments_of, chain_fragments, honeypot_text.
  unfold honeypot_render_fields. cbn [render_context rx_form_id rx_config].
  change (honeypot_names conf (fp_form_id fp) (config_for fp (Some n)))
    with (honeypot_names conf (fp_form_id fp) (fp_per_form_config fp)).
  by destruct (honeypot_names _ _ _).
Qed.

Lemma render_others_run fp rq n ds fields s :
  render_others conf fp rq (Some n) ds fields s
  = (Ok (fold_left dict_update (map (fragments_of fp n) (List.filter not_token ds)) fields), s).
Proof.
  revert fields. induction ds as [|d ds IH]; intros fields; [done|]. cbn [render_others List.filter].
  unfold not_token at 1. case_bool_decide; [apply IH|]. cbn [negb map fold_left]. rewrite <- IH.
  eapply bind_Ok, try_except_Ok. by rewrite (bind_Ok _ _ _ _ _ (render_defence_run fp rq n d s)).
Qed.

Lemma render_token_run fp rq fresh s :
  ∃ token p s1, render_token_fields conf now fp rq fresh s = (Ok (token, p), s1) ∧ inert token = true.
Proof.
  unfold render_token_fields, issue_token. cbv zeta.
  match goal with |- context [try_except ?m ?h] =>
    destruct (total_inv (try_except m h) s (total_try m h (λ _, total_ret tt))) as ([] & s1 & E) end.
  eexists _, _, s1. split; [by rewrite (bind_Ok _ _ _ _ _ E)|]. apply b64_inert, encode_octets.
Qed.

(** The text a token's payload must be free of bars for. *)
Definition no_bars fp rq : Prop :=
  forallb (λ x, negb (char_in "|" x)) [fp_form_id fp; extract_ip conf rq; user_id rq] = true.

(** The whole rendering of a form with a token. *)
Lemma render_fields_run fp rq fresh s P :
  DJANGO_WAF_FORM_PROTECTION_ENABLED conf = true →
  active_defences fp rq = List.filter P CHAIN → P RenderTokenDefence = true →
  no_bars fp rq → str_forall is_hex fresh = true → valid_datetime now = true →
  ∃ token p s1, inert token = true ∧ verify_token conf token = Ok p ∧
    (tp_form_id p = fp_form_id fp ∧ tp_user_id p = user_id rq) ∧
    tp_ip p = extract_ip conf rq ∧ tp_render_time p = now ∧ tp_nonce p = fresh ∧
    tp_ua_hash p = hash_user_agent (user_agent_of rq) ∧
    render_fields escape conf now fp rq fresh s =
      (Ok ((TOKEN_FIELD_NAME, token_html escape token)
           :: when (P HoneypotDefence) (fragments_of fp fresh HoneypotDefence) []
           ++ when (P JsTouchDefence) (fragments_of fp fresh JsTouchDefence) []
           ++ when (P PowGateDefence) (fragments_of fp fresh PowGateDefence) []), s1).
Proof.
  intros Hen Hact HP Hbars Hhex Hnow.
  destruct (render_token_run fp rq fresh s) as (token & p & s1 & Et & Hi).
  destruct (rendered_token conf now fp rq fresh s s1 token p Et) as (Hv & Hip & Ht & Hn & Hua); [|done|].
  { revert Hbars. unfold no_bars. cbn [forallb]. intros Hbars. bool_hyps.
    repeat match goal with H : char_in _ _ = false |- _ => rewrite H; clear H end.
    by rewrite (str_forall_not_char is_hex) by done. }
  pose proof (rendered_scope _ _ _ _ _ _ _ _ _ Et) as Hscope.
  exists token, p, s1. do 7 (split; [done|]).
  unfold render_fields. rewrite Hen, Hact. cbn [negb].
  rewrite bool_decide_true by (apply list_elem_of_In, filter_In; split; [by left|done]).
  assert (Hread : read_back_nonce conf [(TOKEN_FIELD_NAME, token_html escape token)] = Some fresh).
  { unfold read_back_nonce. change (default "" (assoc TOKEN_FIELD_NAME [(TOKEN_FIELD_NAME, ?f)])) with f.
    rewrite extract_from_token by done.
    assert (Hne : str_empty token = false) by (apply str_empty_false; intros ->; discriminate Hv).
    rewrite Hne. unfold parse_submitted_payload, data_get. rewrite lookup_singleton_eq. cbn [default from_option].
    unfold id. by rewrite Hne, Hv, Hn. }
  set (F := [(TOKEN_FIELD_NAME, token_html escape token)]) in *.
  assert (Hfirst : try_except
    (fragments <- render_token_render_fields escape conf now fp rq fresh ;;
     ret (dict_update [] fragments, read_back_nonce conf fragments))
    (λ _, ret ([], None)) s = (Ok (F, Some fresh), s1)).
  { apply try_except_Ok. unfold render_token_render_fields.
    rewrite (bind_Ok _ _ s F s1) by by rewrite (bind_Ok _ _ _ _ _ Et). by rewrite Hread. }
  rewrite (bind_Ok _ _ _ _ _ Hfirst). cbn [fst snd]. rewrite render_others_run.
  subst F. unfold fragments_of. by rewrite page_fields.
Qed.
End Pages.

(** The defences that run, of a form as it is constructed. *)
Lemma active_chain form_id names weights skip cfg fp rq :
  FormProtection_init form_id names weights skip cfg = Ok fp → In "render_token" names →
  ∃ P, active_defences fp rq = List.filter P CHAIN ∧ P RenderTokenDefence = true ∧
    ∀ d, P d = bool_decide (d ∈ active_defences fp rq).
Proof.
  intros Hi%init_chain Hin%list_elem_of_In. subst fp. unfold active_defences. cbn [fp_skip_for_authenticated fp_defences].
  set (Q d := bool_decide (defence_name d ∈ names)).
  assert (HQ : Q RenderTokenDefence = true) by by apply bool_decide_true.
  assert (Hall : ∀ d, In d CHAIN) by (intros []; cbn; tauto).
  assert (Hmem : ∀ P d, P d = bool_decide (d ∈ List.filter P CHAIN)).
  { intros P d. symmetry. destruct (P d) eqn:E; [apply bool_decide_true|apply bool_decide_false];
      rewrite list_elem_of_In, filter_In; [by split|intros [_ Ht]; congruence]. }
  destruct (skip && is_authenticated rq).
  - rewrite filter_filter. eexists. split; [reflexivity|]. split; [cbn; by rewrite HQ|apply Hmem].
  - exists Q. by split.
Qed.

Lemma init_head form_id names weights skip cfg fp :
  FormProtection_init form_id names weights skip cfg = Ok fp → In "render_token" names →
  fp_form_id fp = form_id ∧ fp_per_form_config fp = cfg ∧
  ∃ ds, fp_defences fp = RenderTokenDefence :: ds ∧ ¬ In RenderTokenDefence ds ∧
    ∀ d, In d ds → In (defence_name d) names.
Proof.
  intros Hi%init_chain Hin%list_elem_of_In. subst fp. split; [done|]. split; [done|]. cbn [fp_defences].
  change CHAIN with (RenderTokenDefence :: tail CHAIN). cbn [List.filter].
  rewrite bool_decide_true by done. eexists. split; [reflexivity|].
  split; [intros [Hd _]%filter_In; cbn in Hd; naive_solver|].
  intros d [_ Hd]%filter_In. by apply bool_decide_eq_true, list_elem_of_In in Hd.
Qed.

(** What the pages of every form with a token look like. *)
Definition visible (name : string) : bool := negb (str_empty (str_filter name_char name)).

Definition sample_page (honeypots : nat) (js pow : bool) : string :=
  String.concat "" (repeat (honeypot_render_field "x") honeypots) +:+
  when js (js_render_html (default_conf "k") "x") "" +:+ when pow (pow_html "x" 0) "" +:+
  token_html (λ s, s) "x".

Lemma concat_cons a l : String.concat "" (a :: l) = a +:+ String.concat "" l.
Proof. destruct l; cbn; [by rewrite str_app_nil_r|done]. Qed.

Lemma honeypots_markup names :
  markup (String.concat "" (map honeypot_render_field names))
  = markup (String.concat "" (repeat (honeypot_render_field "x") (length (List.filter visible names)))).
Proof.
  induction names as [|n names IH]; [done|]. cbn [map List.filter]. rewrite concat_cons, markup_app, IH, honeypot_markup.
  unfold visible at 2. destruct (str_empty (str_filter name_char n)); [done|]. cbn [negb length repeat].
  by rewrite concat_cons, markup_app.
Qed.

Lemma when_same b x x' : markup x = markup x' → markup (when b x "") = markup (when b x' "").
Proof. by destruct b. Qed.

(** The pow gate on a solution of the page's puzzle. *)
Lemma solution_passes {R} `{RedisClient R} conf now fp rq data p (s : R) :
  data_get data NONCE_FIELD ≠ "" →
  verify_nonce (tp_nonce p) (data_get data NONCE_FIELD) (pow_difficulty conf (fp_per_form_config fp)) = true →
  evaluate_defence conf now PowGateDefence (context fp rq data (Some p)) s = (Ok passed, s).
Proof.
  intros Hne Hv. cbn [evaluate_defence]. unfold ret. do 2 f_equal. unfold pow_gate_evaluate.
  cbn [context ec_submitted_data ec_token_payload ec_config]. rewrite (str_empty_false _ Hne).
  change (default _ (fc_difficulty _)) with (pow_difficulty conf (fp_per_form_config fp)). by rewrite Hv.
Qed.

Module FormRenderProps.

(** C37: behind a readable token nothing a client or a setting supplies can add
    markup to a rendered form.  Whatever the honeypot pool and the request's
    headers, and whether Redis answers, the hidden fields of a form with a token
    render without raising, and every quote, angle bracket, ampersand and
    apostrophe of the page comes from the templates: the page has the markup of
    a sample with as many honeypot inputs as there are visible names.  The form
    id, the key of the user and the address hold no vertical bar: with one the
    token cannot be read back, and the form id itself reaches the page
    unescaped ([bar_in_form_id_breaks_the_markup]). *)
Theorem rendered_markup_is_fixed {R} `{RedisClient R} escape conf now form_id names weights skip cfg fp rq
    fresh (s : R) :
  (∀ x, inert x = true → escape x = x) →
  DJANGO_WAF_FORM_PROTECTION_ENABLED conf = true →
  FormProtection_init form_id names weights skip cfg = Ok fp → In "render_token" names →
  no_bars conf fp rq → str_forall is_hex fresh = true → valid_datetime now = true →
  let runs d := bool_decide (d ∈ active_defences fp rq) in
  ∃ page s', waf_fields escape conf now fp rq fresh s = (Ok page, s') ∧
    markup page = markup (sample_page
      (if runs HoneypotDefence then length (List.filter visible (honeypot_names conf form_id cfg)) else O)
      (runs JsTouchDefence) (runs PowGateDefence)).
Proof.
  intros Hesc Hen Hinit Hin Hbars Hhex Hnow runs.
  destruct (active_chain _ _ _ _ _ fp rq Hinit Hin) as (P & Ha & HP & Hruns).
  destruct (init_head _ _ _ _ _ _ Hinit Hin) as (Hid & Hcfg & _).
  destruct (render_fields_run escape Hesc conf now fp rq fresh s P Hen Ha HP Hbars Hhex Hnow)
    as (token & p & s1 & Hi & _ & _ & _ & _ & _ & _ & E).
  eexists _, s1. split; [unfold waf_fields; by rewrite (bind_Ok _ _ _ _ _ E)|].
  unfold fragments_of. rewrite page_text. unfold sample_page, runs. rewrite <- !Hruns.
  apply markup_cong; [|apply markup_cong; [|apply markup_cong]].
  - unfold honeypot_text. rewrite Hid, Hcfg. destruct (P HoneypotDefence); [|done]. cbn [when].
    rewrite <- honeypots_markup. by destruct (honeypot_names conf form_id cfg).
  - apply when_same, js_markup.
  - by apply when_same, pow_markup; [apply hex_inert|].
  - by apply token_markup.
Qed.

(** C38: the page holds everything a person needs.  A form with a token, on any
    chain of the browser-side defences and the proof of work, renders without
    raising when its form id, the key of the user and the address hold no
    vertical bar; the token read from its HTML is one the server verifies, for
    this form and this user, the script and the puzzle carry that token's nonce;
    and a submission of that token with the value the script writes, a solution
    of that puzzle, the trap fields empty and a plausible delay, by the same user
    from the same address and browser while the marker and the lifetime last,
    passes with score zero on a Redis that answers, both score thresholds being
    positive. *)
Theorem rendered_form_is_solvable {R} `{RedisSpec R} escape conf t0 form_id names weights skip cfg fp rq0
    fresh (s0 : R) :
  (∀ x, inert x = true → escape x = x) →
  DJANGO_WAF_FORM_PROTECTION_ENABLED conf = true →
  (0 < DJANGO_WAF_FORM_FLAG_THRESHOLD conf)%Q → (0 < DJANGO_WAF_FORM_BLOCK_THRESHOLD conf)%Q →
  FormProtection_init form_id names weights skip cfg = Ok fp → In "render_token" names →
  ¬ In "credential_throttle" names → ¬ In "signup_velocity" names →
  no_bars conf fp rq0 → str_forall is_hex fresh = true → valid_datetime t0 = true →
  ∃ fields s1 p, render_fields escape conf t0 fp rq0 fresh s0 = (Ok fields, s1) ∧
    let token := extract_token_value (default "" (assoc TOKEN_FIELD_NAME fields)) in
    verify_token conf token = Ok p ∧ tp_form_id p = form_id ∧ tp_user_id p = user_id rq0 ∧
    tp_nonce p = fresh ∧ tp_render_time p = t0 ∧
    (JsTouchDefence ∈ active_defences fp rq0 → assoc JS_TOUCH_FIELD fields = Some (js_render_html conf fresh)) ∧
    (PowGateDefence ∈ active_defences fp rq0 →
       assoc NONCE_FIELD fields = Some (pow_html fresh (pow_difficulty conf cfg))) ∧
    ∀ t1 rq data (s : R),
      valid_datetime (t0 + token_ttl conf fp * usec) = true → t1 <= t0 + token_ttl conf fp * usec →
      marker_live t1 s fresh → user_id rq = user_id rq0 → extract_ip conf rq = extract_ip conf rq0 →
      user_agent_of rq = user_agent_of rq0 →
      data_get data TOKEN_FIELD_NAME = token → filled_by_human conf t1 fp data p →
      (In "pow_gate" names →
         data_get data NONCE_FIELD ≠ "" ∧
         verify_nonce fresh (data_get data NONCE_FIELD) (pow_difficulty conf cfg) = true) →
      ∃ r s', form_clean conf t1 fp rq data s = (Ok (r, false), s') ∧
        fe_verdict r = FORM_PASSED ∧ (fe_total_score r == 0)%Q.
Proof.
  intros Hesc Hen Hf Hb Hinit Hin Hno_ct Hno_sv Hbars Hhex Ht0.
  destruct (active_chain _ _ _ _ _ fp rq0 Hinit Hin) as (P & Ha & HP & Hruns).
  destruct (init_head _ _ _ _ _ _ Hinit Hin) as (Hid & Hcfg & ds & Hds & Hrt & Hsub).
  destruct (render_fields_run escape Hesc conf t0 fp rq0 fresh s0 P Hen Ha HP Hbars Hhex Ht0)
    as (token & p & s1 & Hi & Hv & [Hfid Huid] & Hip & Ht & Hn & Hua & E). rewrite Hid in Hfid.
  eexists _, s1, p. split; [exact E|]. cbv zeta.
  change (default "" (assoc TOKEN_FIELD_NAME ((TOKEN_FIELD_NAME, ?f) :: _))) with f.
  rewrite extract_from_token by done. do 5 (split; [done|]).
  rewrite <- Hcfg. unfold fragments_of. split; [|split].
  1-2: intros Hr%(bool_decide_eq_true_2 _); rewrite <- Hruns in Hr; rewrite Hr; clear;
    destruct (honeypot_text conf fp), (P HoneypotDefence), (P JsTouchDefence); reflexivity.
  intros t1 rq data s Hvd Ht1 Hlive _ Hip' Hua' Hdata Hh Hpow. subst t0 fresh. rewrite <- Hdata in Hv.
  pose proof (FormProtectionProps.verify_nonempty _ _ _ Hv) as Hne.
  destruct (render_token_on_verified conf t1 fp rq data s p Hne Hv Hvd Ht1 Hlive) as (s2 & Er & Hparse).
  rewrite Hip, Hip', bool_decide_true, andb_false_r in Er by done.
  destruct (passing_clean conf t1 fp rq data ds p s s2 Hen Hf Hb Hds Hrt Er Hparse) as (r & s' & Ec & Hr & Hq & _);
    [|by exists r, s'].
  intros d s3 Hd. exists s3. pose proof (Hsub d Hd) as Hname.
  destruct d; try (apply human_passes; [cbn; tauto|done|by rewrite Hua, Hua']).
  destruct (Hpow Hname) as [H1 H2]. by apply solution_passes.
Qed.

(** The tag renders what the form would, for the form decorated last under the
    name, and nothing for an unknown name or without a request. *)
Lemma tag_renders_the_form {R} `{RedisClient R} escape conf now reg form_id names weights skip cfg p reg' rq
    fresh (s : R) :
  register_form reg form_id names weights skip cfg = Ok (p, reg') →
  waf_protect escape conf now reg' (Some rq) form_id fresh s = waf_fields escape conf now p rq fresh s ∧
  waf_protect escape conf now reg' None form_id fresh s = (Ok "", s) ∧
  ∀ other, other ≠ form_id →
    waf_protect escape conf now reg' (Some rq) other fresh s = waf_protect escape conf now reg (Some rq) other fresh s.
Proof.
  unfold register_form. destruct (FormProtection_init _ _ _ _ _) as [q|]; [|done]. intros [= <- <-].
  unfold waf_protect, registry_get, registry_set. rewrite lookup_insert_eq. split; [done|]. split; [done|].
  intros other Hne. by rewrite lookup_insert_ne.
Qed.

(** ** Witnesses *)

(** [html.escape]. *)
Fixpoint escape_html (s : string) : string :=
  match s with
  | EmptyString => ""
  | String c s =>
      (if bool_decide (c = "&"%char) then "&amp;" else if bool_decide (c = "<"%char) then "&lt;"
       else if bool_decide (c = ">"%char) then "&gt;" else if bool_decide (c = quote) then "&quot;"
       else if bool_decide (c = "'"%char) then "&#x27;" else String c "") +:+ escape_html s
  end.

Lemma escape_html_inert x : inert x = true → escape_html x = x.
Proof.
  induction x as [|c x IH]; [done|]. unfold inert. cbn [str_forall]. intros [Hc Hx]%andb_true_iff.
  cbn [escape_html]. rewrite IH by done.
  pose proof (every_ascii (λ c, implb (negb (markup_char c)) (negb (bool_decide (c = "&"%char)) &&
    negb (bool_decide (c = "<"%char)) && negb (bool_decide (c = ">"%char)) && negb (bool_decide (c = quote)) &&
    negb (bool_decide (c = "'"%char)))) ltac:(by vm_compute) c) as Ha.
  cbn beta in Ha. rewrite Hc in Ha. cbn [implb] in Ha. bool_hyps.
  by rewrite !bool_decide_false.
Qed.

Definition all_browser : list string := ["pow_gate"; "js_touch"; "time_trap"; "render_token"; "honeypot"].
Definition hostile_pool : list string := [String quote "><script>"; "<>"; "web site"].
Definition demo_config : FormConfig :=
  {| {| no_config with fc_field_names := Some hostile_pool |} with fc_difficulty := Some 3 |}.
Definition demo_form : FormProtection :=
  match FormProtection_init "contact" all_browser [] false demo_config with
  | Ok fp => fp | Raise _ => FormProtectionProps.contact_form end.
Definition hostile_request : Request :=
  {| FormProtectionProps.home with
     rq_meta := {["REMOTE_ADDR" := "192.0.2.1"; "HTTP_USER_AGENT" := String quote "><script>"]} |}.

Lemma rendered_markup_is_fixed_witness :
  ∃ page s', waf_fields escape_html FormProtectionProps.form_conf FormProtectionProps.render_at demo_form
      hostile_request "00ff" FormProtectionProps.empty_store = (Ok page, s') ∧
    markup page = markup (sample_page 1 true true).
Proof.
  destruct (rendered_markup_is_fixed escape_html FormProtectionProps.form_conf FormProtectionProps.render_at
    "contact" all_browser [] false demo_config demo_form hostile_request "00ff" FormProtectionProps.empty_store
    escape_html_inert eq_refl eq_refl) as (page & s' & E & Hm);
    [cbn; tauto|vm_compute; reflexivity|vm_compute; reflexivity|vm_compute; reflexivity|].
  exists page, s'. split; [exact E|]. rewrite Hm. vm_compute. reflexivity.
Defined.

(** The submission of a browser that holds the page [fields]. *)
Definition browser_data (fields : Fragments) : Data :=
  {["waf_token" := extract_token_value (default "" (assoc TOKEN_FIELD_NAME fields));
    "waf_js_touch" := js_expected_value FormProtectionProps.form_conf "00ff"; "waf_pow_nonce" := "9"]}.

Lemma rendered_form_is_solvable_witness :
  ∃ fields s1 r s', render_fields escape_html FormProtectionProps.form_conf FormProtectionProps.render_at demo_form
      FormProtectionProps.home "00ff" FormProtectionProps.empty_store = (Ok fields, s1) ∧
    form_clean FormProtectionProps.form_conf FormProtectionProps.submit_at demo_form FormProtectionProps.home
      (browser_data fields) FormProtectionProps.form_store = (Ok (r, false), s') ∧ fe_verdict r = FORM_PASSED.
Proof.
  destruct (rendered_form_is_solvable escape_html FormProtectionProps.form_conf FormProtectionProps.render_at
    "contact" all_browser [] false demo_config demo_form FormProtectionProps.home "00ff"
    FormProtectionProps.empty_store escape_html_inert eq_refl eq_refl eq_refl eq_refl)
    as (fields & s1 & p & E & Hv & _ & _ & Hn & Ht & _ & _ & Hsubmit);
    [cbn; tauto|cbn; intuition discriminate|cbn; intuition discriminate|vm_compute; reflexivity
    |vm_compute; reflexivity|vm_compute; reflexivity|].
  destruct (Hsubmit FormProtectionProps.submit_at FormProtectionProps.home (browser_data fields)
    FormProtectionProps.form_store) as (r & s' & Er & Hr & _);
    [vm_compute; reflexivity|vm_compute; discriminate|exact FormProtectionProps.form_marker_live|reflexivity
    |reflexivity|reflexivity|reflexivity| |intros _; split; [vm_compute; discriminate|vm_compute; reflexivity]|].
  - split; [|split].
    + intros name Hname. repeat destruct Hname as [<-|Hname]; reflexivity || destruct Hname.
    + rewrite Ht. vm_compute. split; [discriminate|]. split; discriminate.
    + rewrite Hn. vm_compute. reflexivity.
  - exists fields, s1, r, s'. split; [exact E|]. split; [exact Er|exact Hr].
Defined.

(** A pool name with a character outside the allowed ones is rendered without
    it and looked for with it: filling the field shown is not noticed. *)
Example honeypot_looks_for_another_name :
  str_in (html "name=`website`") (honeypot_render_field "web site") = true ∧
  honeypot_evaluate FormProtectionProps.form_conf
    {| ec_form_id := "contact"; ec_request := FormProtectionProps.home; ec_submitted_data := {["website" := "bot"]};
       ec_config := {| no_config with fc_field_names := Some ["web site"] |}; ec_token_payload := None |} = passed.
Proof. vm_compute. split; reflexivity. Qed.

(** With the token's separator in the form id the token does not verify, the
    nonce falls back to the form id, and the proof of work prints it as it is. *)
Example bar_in_form_id_breaks_the_markup :
  match FormProtection_init "a|<b>" ["render_token"; "pow_gate"] [] false no_config with
  | Ok fp =>
      match (waf_fields escape_html FormProtectionProps.form_conf 0 fp FormProtectionProps.home "00ff"
               FormProtectionProps.empty_store).1 with
      | Ok page => str_in "<b>" page
      | Raise _ => false
      end
  | Raise _ => false
  end = true.
Proof. vm_compute. reflexivity. Qed.

(** Without a token in the chain the proof of work shows the form id as it is. *)
Example form_id_is_not_escaped :
  match FormProtection_init "<b>" ["pow_gate"] [] false no_config with
  | Ok fp =>
      match (waf_fields escape_html FormProtectionProps.form_conf 0 fp FormProtectionProps.home "00ff"
               FormProtectionProps.empty_store).1 with
      | Ok page => str_in "<b>" page
      | Raise _ => false
      end
  | Raise _ => false
  end = true.
Proof. vm_compute. reflexivity. Qed.
End FormRenderProps.
