(* ===== verification/Middleware.v ===== *)
(** * The middleware ([middleware.py], [services/geoip.py: lookup_country])

    The whole request path: kill switch, exemptions, the site-password gate,
    method filter, client address, country block, staff bypass, pass cookie,
    evaluation, and the response to each verdict. *)

From Stdlib Require Import ZArith QArith Lia Ascii String.
From stdpp Require Import base tactics option list strings numbers gmap.
From S2P Require Import Prelude PyStr IpAddress Hash PyTime Codec Regex Conf.
From S2P Require Import ClientIp Redis Http RateLimiter Fingerprint Models AutoRule RuleEngine.
From S2P Require Import RuleEngineProofs Challenge SignedCookies.

Open Scope Z_scope.

(** ** What the middleware is given *)

(** The GeoIP reader ([geoip2]), when a path is configured, the package is
    installed and the database opens. *)
Class GeoIp := { geoip_reader : option (string → res (option string)) }.

(** Django and the project around the middleware. *)
Class Site (R P : Type) := {
  has_redis : bool;                                (* [_get_redis_client()] is not [None] *)
  reverse : string → res string;
  import_string : string → res (Request → EvaluationResult → M (World R P) (option Response));
                                                   (* [None]: not an [HttpResponse] *)
  render_prompt : option string → string → string → string;    (* error, next_url, verify_path *)
  url_has_allowed_host_and_scheme : string → string → bool → bool;   (* url, host, https *)
  random : nat → Q;
  get_response : Request → M (World R P) (Response * option User);
                                                   (* the user who logged in meanwhile *)
}.

(** [lookup_country]. *)
Definition lookup_country `{GeoIp} (ip : string) : string :=
  match geoip_reader with
  | None => ""
  | Some reader => match reader ip with Ok (Some iso_code) => iso_code | _ => "" end
  end.

(** [_is_exempt_host]. *)
Definition is_exempt_host (rq : Request) (exempt_hosts : list string) : bool :=
  let host := match rq_host rq with Ok h => h | Raise _ => meta_get (rq_meta rq) "HTTP_HOST" end in
  let host := if starts_with "[" host
              then lstrip_with (λ c, bool_decide (c = "["%char)) (partition_on "]" host).1
              else match rsplit1 ":" host with Some (h, _) => h | None => host end in
  let host := lower host in
  existsb (λ entry,
    let entry := lower entry in
    if starts_with "." entry then bool_decide (host = str_drop 1 entry) || ends_with entry host
    else bool_decide (host = entry)) exempt_hosts.

(** [_is_staff_user]. *)
Definition is_staff_user `{Signer} (conf : Conf) (now : Z) (rq : Request) : bool :=
  if TrustedUser.has_valid_trusted_cookie conf now rq then true else
  match rq_user rq with
  | Some u => u_is_authenticated u && (u_is_staff u || u_is_superuser u)
  | None => false
  end.

Definition NOINDEX : string := "noindex, nofollow, noarchive".
Definition INCORRECT_ERROR : string := "Incorrect password. Please try again.".
Definition MISCONFIGURED_ERROR : string := "This site is temporarily unavailable.".

(** [_default_block_response], [_default_throttle_response]. *)
Definition default_block_response : Response := http_response 403 "Access denied.".
Definition retry_after_header (r : option Z) : string :=
  match r with Some z => str_of_Z z | None => "60" end.
Definition default_throttle_response (result : EvaluationResult) : Response :=
  set_header "Retry-After" (retry_after_header (er_retry_after result))
    (http_response 429 "Too many requests. Please retry later.").

Section Middleware.
Context {R P : Type} `{RedisClient R} `{ReEngine P} `{Dns} `{Signer} `{GeoIp} {site : Site R P}.
Context (uuid4 : nat → Z) (conf : Conf).
Abbreviation W := (World R P).

(** [_get_challenge_paths]. *)
Definition get_challenge_paths : res (string * string) :=
  let path_of setting name := if str_empty setting then reverse name else Ok setting in
  res_bind (path_of (DJANGO_WAF_CHALLENGE_URL conf) "django_waf:challenge") (λ challenge,
  res_bind (path_of (DJANGO_WAF_VERIFY_URL conf) "django_waf:verify") (λ verify,
  Ok (challenge, verify))).

(** [_get_response]: the view, then the trusted-user cookie if a user the
    receiver flags logged in during it. *)
Definition respond (rq : Request) : M W Response :=
  r <- get_response rq ;;
  let '(response, login) := r in
  let flag := match login with
              | Some u => TrustedUser.set_trusted_cookie_flag_on_login conf u
              | None => false
              end in
  if flag then t <- clock ;; ret (TrustedUser.set_trusted_cookie conf t rq response)
  else ret response.

(** [_build_block_response] and [_build_throttle_response]: the configured
    handler, or the default when it does not import, raises, or returns
    something else. *)
Definition build_hooked_response (dotted_path : string) (fallback : Response) (rq : Request)
    (result : EvaluationResult) : M W Response :=
  if str_empty dotted_path then ret fallback else
  match import_string dotted_path with
  | Raise _ => ret fallback
  | Ok handler =>
      response <- try_except (handler rq result) (λ _, ret None) ;;
      match response with Some r => ret r | None => ret fallback end
  end.
Definition build_block_response (rq : Request) (result : EvaluationResult) : M W Response :=
  build_hooked_response (DJANGO_WAF_BLOCK_RESPONSE_HANDLER conf) default_block_response rq result.
Definition build_throttle_response (rq : Request) (result : EvaluationResult) : M W Response :=
  build_hooked_response (DJANGO_WAF_THROTTLE_RESPONSE_HANDLER conf)
    (default_throttle_response result) rq result.

(** A [RequestLog] row, and [objects.create] with its errors swallowed. *)
Definition request_log_row (rq : Request) (t : Z) (ip user_agent path : string)
    (result : EvaluationResult) (response_code : Z) (country : string) : RequestLog :=
  {| rl_timestamp := t; rl_ip_address := ip; rl_user_agent := str_take 1024 user_agent;
     rl_path := str_take 2048 path; rl_method := rq_method rq; rl_verdict := er_verdict result;
     rl_matched_rule_id := er_matched_rule_id result;
     rl_matched_rule_type := er_matched_rule_type result;
     rl_anomaly_score := er_anomaly_score result; rl_response_code := Some response_code;
     rl_referer := str_take 2048 (meta_get (rq_meta rq) "HTTP_REFERER");
     rl_http_fingerprint := compute_fingerprint (rq_meta rq);
     rl_fingerprint_verdict :=
       match classify_fingerprint (meta_get (rq_meta rq) "HTTP_USER_AGENT") (rq_meta rq) with
       | Ok v => v | Raise _ => "" end;
     rl_country_code := country; rl_source := MIDDLEWARE; rl_source_event_id := "" |}.

Definition create_log (row : Z → RequestLog) : M W unit :=
  try_except (t <- clock ;;
              db_write (λ w, {| w with w_request_log := w_request_log w ++ [row t] |}))
    (λ _, ret tt).

(** [_check_country_block]. *)
Definition blocked_result : EvaluationResult :=
  plain_result BLOCKED (Some (RuleAction_value RuleAction_BLOCK)).

Definition check_country_block (rq : Request) (ip user_agent path : string)
  : M W (option Response) :=
  try_except
    (let country := lookup_country ip in
     if str_empty country then ret None else
     if negb (bool_decide (upper country ∈ map upper (DJANGO_WAF_BLOCKED_COUNTRIES conf)))
     then ret None else
     create_log (λ t, request_log_row rq t ip user_agent path (plain_result BLOCKED None) 403 country) ;;;
     r <- build_block_response {| rq with rq_blocked_country := Some country |} blocked_result ;;
     ret (Some r))
    (λ _, ret None).

(** [_render_site_password_prompt]. *)
Definition render_site_password_prompt (rq : Request) (error next_url : option string) : Response :=
  set_header "X-Robots-Tag" NOINDEX
    (http_response 401 (render_prompt (R:=R) (P:=P) error (default (rq_full_path rq) next_url)
       (DJANGO_WAF_SITE_PASSWORD_VERIFY_PATH conf))).

Definition post_param (rq : Request) (name : string) : string := default "" (rq_post rq !! name).

(** The redirect target of a correct guess. *)
Definition safe_next (rq : Request) (next_param : string) : res string :=
  if str_empty next_param then Ok "/" else
  res_bind (rq_host rq) (λ host,
    Ok (if url_has_allowed_host_and_scheme (R:=R) (P:=P) next_param host (rq_is_secure rq)
        then next_param else "/")).

(** [_handle_site_password_verify]. *)
Definition handle_site_password_verify (rq : Request) : M W Response :=
  let submitted := post_param rq "password" in
  let next_param := post_param rq "next" in
  correct <- lift_res (SitePassword.check_password conf submitted) ;;
  if correct then
    url <- lift_res (safe_next rq next_param) ;;
    t <- clock ;;
    ret (SitePassword.set_verified_cookie conf t rq (redirect url))
  else
    let ip := resolve_client_ip conf (rq_meta rq) in
    let ip := if str_empty ip then "0.0.0.0" else ip in
    throttle <- on_redis (SitePassword.record_guess_throttle_hit_detailed conf has_redis ip) ;;
    if exceeded throttle then
      ret (set_header "X-Robots-Tag" NOINDEX
             (set_header "Retry-After" (retry_after_header (rl_retry_after throttle))
                (http_response 429 "Too many attempts. Please retry later.")))
    else ret (render_site_password_prompt rq (Some INCORRECT_ERROR) (Some next_param)).

(** [_check_site_password]. *)
Definition check_site_password (rq : Request) (path : string) : M W (option Response) :=
  if negb (SitePassword.is_gate_enabled conf) then ret None
  else if SitePassword.is_exempt_path conf path then ret None
  else if SitePassword.is_misconfigured conf
  then ret (Some (render_site_password_prompt rq (Some MISCONFIGURED_ERROR) None))
  else
    t <- clock ;;
    if SitePassword.has_valid_cookie conf t rq then ret None
    else if bool_decide (rq_method rq = "POST")
            && bool_decide (path = DJANGO_WAF_SITE_PASSWORD_VERIFY_PATH conf)
    then r <- handle_site_password_verify rq ;; ret (Some r)
    else ret (Some (render_site_password_prompt rq None None)).

(** The challenge counter of an address. *)
Definition count_challenge (ip : string) : M W unit :=
  try_except (send (INCR (challenged_key ip)) ;;; send (EXPIRE (challenged_key ip) 3600) ;;; ret tt)
    (λ _, ret tt).

(** [_handle_verdict]; [record_block_verdict] with its default [ttl]. *)
Definition handle_verdict (rq : Request) (result : EvaluationResult) (ip path : string)
  : M W Response :=
  match er_verdict result with
  | BLOCKED =>
      try_except (record_block_verdict ip 300 (uuid_str <$> er_matched_rule_id result))
        (λ _, ret tt) ;;;
      build_block_response rq result
  | THROTTLED => build_throttle_response rq result
  | CHALLENGED =>
      match get_challenge_paths with
      | Raise NoReverseMatch => respond rq
      | Raise e => raise e
      | Ok (challenge_path, verify_path) =>
          if starts_with challenge_path path || starts_with verify_path path then respond rq else
          count_challenge ip ;;;
          ret (redirect (challenge_path +:+ "?next=" +:+ path))
      end
  | _ => respond rq
  end.

(** [_log_request]. *)
Definition log_request (rq : Request) (result : EvaluationResult) (ip user_agent path : string)
    (response_code : Z) : M W unit :=
  let row t := request_log_row rq t ip user_agent path result response_code (lookup_country ip) in
  if bool_decide (er_verdict result ∈ [BLOCKED; CHALLENGED; THROTTLED; LOGGED]) then create_log row else
  r <- draw random ;;
  if qge r (DJANGO_WAF_LOG_SAMPLE_RATE conf) then ret tt else create_log row.

(** ** [__call__] *)

(** [if response is not None: return response]. *)
Definition or_answer (m : M W (option Response)) (k : M W Response) : M W Response :=
  r <- m ;; match r with Some response => ret response | None => k end.

Definition method_not_allowed (rq : Request) : option Response :=
  match DJANGO_WAF_ALLOWED_METHODS conf with
  | None => None
  | Some allowed =>
      if bool_decide (rq_method rq ∈ allowed) then None
      else Some (set_header "Allow" (join ", " allowed) (http_response 405 "Method not allowed."))
  end.

(** The pass cookie; the view runs inside the [try]. *)
Definition try_pass_cookie (rq : Request) (ip : string) : M W (option Response) :=
  try_except
    (t <- clock ;;
     let cookie := default "" (rq_cookies rq !! "waf_pass") in
     if negb (str_empty cookie) && validate_pass_cookie conf t cookie ip
     then r <- respond rq ;; ret (Some r) else ret None)
    (λ _, ret None).

(** Evaluation, the response to the verdict, and the log. *)
Definition evaluate_and_answer (rq : Request) (ip user_agent path : string) : M W Response :=
  result <- try_except
    (r <- evaluate_request uuid4 conf ip user_agent path (rq_method rq)
            (meta_get (rq_meta rq) "HTTP_REFERER") (rq_meta rq) ;; ret (Some r))
    (λ _, ret None) ;;
  match result with
  | None => respond rq
  | Some result =>
      response <- handle_verdict rq result ip path ;;
      log_request rq result ip user_agent path (rs_status response) ;;;
      ret response
  end.

(** After the gate and the method filter. *)
Definition screen (rq : Request) (path : string) : M W Response :=
  let ip := resolve_client_ip conf (rq_meta rq) in
  if str_empty ip then respond rq else
  let user_agent := meta_get (rq_meta rq) "HTTP_USER_AGENT" in
  or_answer (match DJANGO_WAF_BLOCKED_COUNTRIES conf with
             | [] => ret None
             | _ => check_country_block rq ip user_agent path
             end)
    (t <- clock ;;
     if is_staff_user conf t rq then respond rq else
     if negb (has_redis (R:=R) (P:=P)) then respond rq else
     or_answer (try_pass_cookie rq ip) (evaluate_and_answer rq ip user_agent path)).

(** [WafMiddleware.__call__]. *)
Definition waf_call (rq : Request) : M W Response :=
  if negb (DJANGO_WAF_ENABLED conf) then respond rq else
  let path := rq_path_info rq in
  if existsb (λ prefix, starts_with prefix path) (DJANGO_WAF_EXEMPT_PATHS conf) then respond rq else
  if match DJANGO_WAF_EXEMPT_HOSTS conf with [] => false | hosts => is_exempt_host rq hosts end
  then respond rq else
  or_answer (check_site_password rq path)
    (match method_not_allowed rq with
     | Some response => ret response
     | None => screen rq path
     end).
End Middleware.

(** ** The view as a variable *)

(** The same site with another view. *)
Definition with_view {R P} (v : Request → M (World R P) (Response * option User)) (s : Site R P)
  : Site R P :=
  {| has_redis := has_redis; reverse := reverse (R:=R) (P:=P); import_string := import_string;
     render_prompt := render_prompt (R:=R) (P:=P);
     url_has_allowed_host_and_scheme := url_has_allowed_host_and_scheme (R:=R) (P:=P);
     random := random (R:=R) (P:=P); get_response := v |}.

(** A computation over a site that gives the same run whatever the view is:
    the request never reached it. *)
Definition view_unreached {R P A} (s : Site R P) (f : Site R P → M (World R P) A) (w : World R P)
  : Prop := ∀ v, f (with_view v s) w = f s w.

(** ** Lemmas *)

Section Lemmas.
Context {R P : Type} `{RedisClient R} `{ReEngine P} `{Dns} `{Signer} `{GeoIp} {site : Site R P}.
Context (uuid4 : nat → Z) (conf : Conf).
Abbreviation W := (World R P).
Implicit Types (w : W) (rq : Request).

Lemma hooked_total dotted fallback rq result :
  total (build_hooked_response (site:=site) dotted fallback rq result).
Proof.
  unfold build_hooked_response. destruct (str_empty dotted); [done|].
  destruct (import_string dotted) as [h|e]; [|done].
  apply total_bind; [by apply total_try|]. by intros [r|].
Qed.

(** What the configured hook answers in a state, and the state it leaves; in
    each of the four other cases the built-in response. *)
Inductive hook_answers (dotted : string) (fallback : Response) rq result w : Response → W → Prop :=
| hook_not_configured : dotted = "" → hook_answers dotted fallback rq result w fallback w
| hook_not_importable e : dotted ≠ "" → import_string dotted = Raise e →
    hook_answers dotted fallback rq result w fallback w
| hook_responded handler rs w' : dotted ≠ "" → import_string dotted = Ok handler →
    handler rq result w = (Ok (Some rs), w') → hook_answers dotted fallback rq result w rs w'
| hook_no_response handler w' : dotted ≠ "" → import_string dotted = Ok handler →
    handler rq result w = (Ok None, w') → hook_answers dotted fallback rq result w fallback w'
| hook_raised handler e w' : dotted ≠ "" → import_string dotted = Ok handler →
    handler rq result w = (Raise e, w') → hook_answers dotted fallback rq result w fallback w'.

Lemma hooked_answers dotted fallback rq result w :
  ∃ rs w', build_hooked_response dotted fallback rq result w = (Ok rs, w') ∧
    hook_answers dotted fallback rq result w rs w'.
Proof.
  unfold build_hooked_response. destruct (str_empty dotted) eqn:Ed.
  { exists fallback, w. split; [done|]. apply hook_not_configured. by destruct dotted. }
  assert (Hd : dotted ≠ "") by (by intros ->).
  destruct (import_string dotted) as [h|e] eqn:Ei; [|exists fallback, w; split; [done|by eapply hook_not_importable]].
  unfold bind, try_except. destruct (h rq result w) as [[[rs|]|e] w'] eqn:Eh.
  - exists rs, w'. split; [done|]. by eapply hook_responded.
  - exists fallback, w'. split; [done|]. by eapply hook_no_response.
  - exists fallback, w'. split; [done|]. by eapply hook_raised.
Qed.

(** The cases exclude one another: in each state there is one answer. *)
Lemma hook_answers_unique dotted fallback rq result w rs1 w1 rs2 w2 :
  hook_answers dotted fallback rq result w rs1 w1 → hook_answers dotted fallback rq result w rs2 w2 →
  rs1 = rs2 ∧ w1 = w2.
Proof.
  intros Ha Hb. destruct Ha, Hb; try done;
    repeat match goal with
    | E1 : import_string dotted = _, E2 : import_string dotted = _ |- _ => rewrite E1 in E2; simplify_eq
    | E1 : ?h rq result w = _, E2 : ?h rq result w = _ |- _ => rewrite E1 in E2; simplify_eq
    end; done.
Qed.

Lemma create_log_total row : total (create_log (R:=R) (P:=P) row).
Proof. by apply total_try. Qed.

Lemma log_request_total rq result ip ua path code :
  total (log_request conf rq result ip ua path code).
Proof.
  unfold log_request. case_bool_decide; [apply create_log_total|].
  apply total_bind; [done|intros r]. destruct (qge _ _); [done|apply create_log_total].
Qed.

Lemma create_log_up row w :
  w_db_up w = true →
  create_log row w = (Ok tt, {| w with w_request_log := w_request_log w ++ [row (w_now w)] |}).
Proof.
  intros Hup. unfold create_log. apply try_except_Ok. unfold bind, clock, gets.
  rewrite db_write_up by done. reflexivity.
Qed.

Lemma or_answer_Some (m : M W (option Response)) k w rs w' :
  m w = (Ok (Some rs), w') → or_answer m k w = (Ok rs, w').
Proof. intros E. unfold or_answer. by rewrite (bind_Ok _ _ _ _ _ E). Qed.

Lemma or_answer_None (m : M W (option Response)) k w w' :
  m w = (Ok None, w') → or_answer m k w = k w'.
Proof. intros E. unfold or_answer. by rewrite (bind_Ok _ _ _ _ _ E). Qed.

(** [try: a = m() except: a = None]. *)
Lemma attempt_run {A} (m : M W A) w :
  try_except (a <- m ;; ret (Some a)) (λ _, ret None) w =
  match m w with (Ok a, w') => (Ok (Some a), w') | (Raise _, w') => (Ok None, w') end.
Proof. unfold try_except, bind. by destruct (m w) as [[a|e] w']. Qed.

(** When evaluation raises, the view answers. *)
Lemma evaluation_error_fails_open rq ip ua path w e w1 :
  evaluate_request uuid4 conf ip ua path (rq_method rq) (meta_get (rq_meta rq) "HTTP_REFERER")
    (rq_meta rq) w = (Raise e, w1) →
  evaluate_and_answer uuid4 conf rq ip ua path w = respond conf rq w1.
Proof.
  intros E. unfold evaluate_and_answer. unfold bind at 1. rewrite attempt_run, E. reflexivity.
Qed.

Lemma evaluation_answer rq ip ua path w r w1 :
  evaluate_request uuid4 conf ip ua path (rq_method rq) (meta_get (rq_meta rq) "HTTP_REFERER")
    (rq_meta rq) w = (Ok r, w1) →
  evaluate_and_answer uuid4 conf rq ip ua path w =
  (response <- handle_verdict conf rq r ip path ;;
   log_request conf rq r ip ua path (rs_status response) ;;; ret response) w1.
Proof.
  intros E. unfold evaluate_and_answer. unfold bind at 1. rewrite attempt_run, E. reflexivity.
Qed.

(** A swallowed Redis computation leaves everything but Redis alone. *)
Lemma swallowed_redis_only (ip : string) ttl rule w (r : res unit) :
  ∀ w', try_except (record_block_verdict ip ttl rule) (λ _, ret tt) w = (r, w') → redis_only w w'.
Proof.
  intros w'. unfold record_block_verdict, try_except, bind.
  destruct (send (SETEX _ _ _) w) as [r1 w1] eqn:E1. apply (on_redis_only (λ t, exec t _)) in E1.
  destruct r1 as [v|e]; [|by intros [= <- <-]].
  destruct (send (HINCRBY _ _ _) w1) as [r2 w2] eqn:E2. apply (on_redis_only (λ t, exec t _)) in E2.
  destruct r2; intros [= <- <-]; by eapply redis_only_trans.
Qed.

Lemma respond_total rq : (∀ rq, total (get_response rq)) → total (respond conf rq).
Proof.
  intros Hv. unfold respond. apply total_bind; [apply Hv|]. intros [r [u|]]; [|done].
  destruct (TrustedUser.set_trusted_cookie_flag_on_login conf u); [|done].
  apply total_bind; [done|]. intros t. apply total_ret.
Qed.

(** Nothing but the firewall's own evaluation is configured. *)
Definition evaluation_only : Prop :=
  DJANGO_WAF_SITE_PASSWORD_ENABLED conf = false ∧ DJANGO_WAF_ALLOWED_METHODS conf = None ∧
  DJANGO_WAF_BLOCKED_COUNTRIES conf = [].

(** The pass-cookie step: the view's answer, or nothing happened. *)
Lemma try_pass_cookie_runs rq ip w rs w' :
  respond conf rq w = (Ok rs, w') →
  try_pass_cookie conf rq ip w = (Ok (Some rs), w') ∨ try_pass_cookie conf rq ip w = (Ok None, w).
Proof.
  intros Er. unfold try_pass_cookie, try_except.
  rewrite (bind_Ok clock _ w (w_now w) w eq_refl). destruct (negb _ && _); [left|by right].
  by rewrite (bind_Ok _ _ _ _ _ Er).
Qed.

(** Then a request whose evaluation raises gets what the view answers. *)
Lemma waf_call_fails_open rq w e :
  evaluation_only → (∀ rq, total (get_response rq)) →
  evaluate_request uuid4 conf (resolve_client_ip conf (rq_meta rq))
    (meta_get (rq_meta rq) "HTTP_USER_AGENT") (rq_path_info rq) (rq_method rq)
    (meta_get (rq_meta rq) "HTTP_REFERER") (rq_meta rq) w = (Raise e, w) →
  waf_call uuid4 conf rq w = respond conf rq w.
Proof.
  intros (Hgate & Hmeth & Hctry) Hview E.
  destruct (total_inv _ w (respond_total rq Hview)) as (rs & w' & Er).
  unfold waf_call. destruct (negb _); [done|]. destruct (existsb _ _); [done|].
  destruct (match DJANGO_WAF_EXEMPT_HOSTS conf with [] => _ | _ => _ end); [done|].
  rewrite (or_answer_None _ _ w w)
    by (unfold check_site_password, SitePassword.is_gate_enabled; by rewrite Hgate).
  unfold method_not_allowed. rewrite Hmeth. unfold screen. destruct (str_empty _); [done|].
  rewrite Hctry, (or_answer_None _ _ w w) by done.
  rewrite (bind_Ok clock _ w (w_now w) w eq_refl).
  destruct (is_staff_user _ _ _); [done|]. destruct (negb _); [done|].
  destruct (try_pass_cookie_runs rq (resolve_client_ip conf (rq_meta rq)) w rs w' Er) as [Ec|Ec].
  - by rewrite (or_answer_Some _ _ _ _ _ Ec).
  - rewrite (or_answer_None _ _ _ _ Ec). by rewrite (evaluation_error_fails_open _ _ _ _ _ _ _ E).
Qed.
End Lemmas.

(** ** Properties *)

Module MiddlewareProps.

Section Props.
Context {R P : Type} `{RedisClient R} `{ReEngine P} `{Dns} `{Signer} `{GeoIp} {site : Site R P}.
Context (uuid4 : nat → Z) (conf : Conf).
Abbreviation W := (World R P).
Implicit Types (w : W) (rq : Request).

(** The Redis record of a block, tried before the hook runs; a throttle makes
    none. *)
Definition after_record ip (r : EvaluationResult) w : W :=
  if bool_decide (er_verdict r = BLOCKED)
  then (try_except (record_block_verdict ip 300 (uuid_str <$> er_matched_rule_id r)) (λ _, ret tt) w).2
  else w.

(** C1: a block or a throttle is answered by the hook, or by the built-in
    response, and never by the view.  When evaluation answers BLOCKED or
    THROTTLED the request does not reach the view and nothing is raised: the
    handler configured for that verdict runs once, on the request and the
    result, after the block was offered to Redis; what it returns is the answer
    exactly when it imports, returns, and returns a response, and otherwise the
    answer is the built-in 403 or 429; then the request is logged with the status
    of that answer. *)
Theorem enforced_verdict_never_reaches_view rq ip ua path w r w1 :
  evaluate_request uuid4 conf ip ua path (rq_method rq) (meta_get (rq_meta rq) "HTTP_REFERER")
    (rq_meta rq) w = (Ok r, w1) →
  er_verdict r = BLOCKED ∨ er_verdict r = THROTTLED →
  view_unreached site (λ s, evaluate_and_answer (site:=s) uuid4 conf rq ip ua path) w ∧
  ∃ rs wh,
    (if bool_decide (er_verdict r = BLOCKED)
     then hook_answers (DJANGO_WAF_BLOCK_RESPONSE_HANDLER conf) default_block_response rq r (after_record ip r w1) rs wh
     else hook_answers (DJANGO_WAF_THROTTLE_RESPONSE_HANDLER conf) (default_throttle_response r) rq r w1 rs wh) ∧
    evaluate_and_answer uuid4 conf rq ip ua path w
      = (Ok rs, (log_request conf rq r ip ua path (rs_status rs) wh).2).
Proof.
  intros E Hv. split.
  { intros v. rewrite !(evaluation_answer _ _ _ _ _ _ _ _ _ E). unfold handle_verdict.
    destruct Hv as [-> | ->]; reflexivity. }
  rewrite (evaluation_answer _ _ _ _ _ _ _ _ _ E).
  enough (∃ rs wh, handle_verdict conf rq r ip path w1 = (Ok rs, wh) ∧
    if bool_decide (er_verdict r = BLOCKED)
    then hook_answers (DJANGO_WAF_BLOCK_RESPONSE_HANDLER conf) default_block_response rq r (after_record ip r w1) rs wh
    else hook_answers (DJANGO_WAF_THROTTLE_RESPONSE_HANDLER conf) (default_throttle_response r) rq r w1 rs wh)
    as (rs & wh & Eh & Hh).
  { exists rs, wh. split; [exact Hh|]. rewrite (bind_Ok _ _ _ _ _ Eh).
    destruct (total_inv (log_request conf rq r ip ua path (rs_status rs)) wh) as ([] & w3 & E3);
      [apply log_request_total|]. by rewrite (bind_Ok _ _ _ _ _ E3), E3. }
  unfold handle_verdict. destruct Hv as [Hv | Hv]; rewrite Hv.
  - rewrite bool_decide_true by done. unfold after_record. rewrite Hv, bool_decide_true by done.
    destruct (total_inv (try_except (record_block_verdict ip 300 (uuid_str <$> er_matched_rule_id r))
      (λ _, ret tt)) w1) as ([] & w2 & E2); [by apply total_try|].
    rewrite (bind_Ok _ _ _ _ _ E2), E2. apply hooked_answers.
  - rewrite bool_decide_false by done. apply hooked_answers.
Qed.

(** C5: the site-password gate fails closed.  When it is on and the path is
    exempt from neither the firewall nor the gate, a request without a valid
    verified cookie, and every request when no password is configured, never
    reaches the view; it gets the 401 prompt or a 429, or, only for a POST of
    exactly the configured password to the verify path, the redirect. *)
Theorem locked_gate_never_reaches_view rq w :
  let path := rq_path_info rq in
  DJANGO_WAF_ENABLED conf = true →
  existsb (λ prefix, starts_with prefix path) (DJANGO_WAF_EXEMPT_PATHS conf) = false →
  is_exempt_host rq (DJANGO_WAF_EXEMPT_HOSTS conf) = false →
  DJANGO_WAF_SITE_PASSWORD_ENABLED conf = true →
  SitePassword.is_exempt_path conf path = false →
  SitePassword.is_misconfigured conf = true ∨
    SitePassword.has_valid_cookie conf (w_now w) rq = false →
  view_unreached site (λ s, waf_call (site:=s) uuid4 conf rq) w ∧
  ∀ rs w', waf_call uuid4 conf rq w = (Ok rs, w') →
    rs_status rs = 401 ∨ rs_status rs = 429 ∨
    (rs_status rs = 302 ∧ rq_method rq = "POST" ∧ path = DJANGO_WAF_SITE_PASSWORD_VERIFY_PATH conf ∧
     DJANGO_WAF_SITE_PASSWORD conf ≠ "" ∧ post_param rq "password" = DJANGO_WAF_SITE_PASSWORD conf).
Proof.
  intros path Hen Hex Hhost Hgate Hpath Hlock.
  assert (Hh : match DJANGO_WAF_EXEMPT_HOSTS conf with [] => false | hosts => is_exempt_host rq hosts end
    = false) by (by destruct (DJANGO_WAF_EXEMPT_HOSTS conf)).
  assert (Hcall : ∀ s : Site R P, waf_call (site:=s) uuid4 conf rq w =
    or_answer (check_site_password (site:=s) conf rq path)
      (match method_not_allowed conf rq with
       | Some response => ret response | None => screen (site:=s) uuid4 conf rq path end) w).
  { intros s. unfold waf_call. rewrite Hen, Hh. fold path. by rewrite Hex. }
  assert (Hsite : ∀ s : Site R P, check_site_password (site:=s) conf rq path w =
    if SitePassword.is_misconfigured conf
    then (Ok (Some (render_site_password_prompt (site:=s) conf rq (Some MISCONFIGURED_ERROR) None)), w)
    else if bool_decide (rq_method rq = "POST")
            && bool_decide (path = DJANGO_WAF_SITE_PASSWORD_VERIFY_PATH conf)
    then (r <- handle_site_password_verify (site:=s) conf rq ;; ret (Some r)) w
    else (Ok (Some (render_site_password_prompt (site:=s) conf rq None None)), w)).
  { intros s. unfold check_site_password, SitePassword.is_gate_enabled. rewrite Hgate, Hpath.
    destruct (SitePassword.is_misconfigured conf); [done|]. destruct Hlock as [|Hc]; [done|].
    cbn [negb]. rewrite (bind_Ok clock _ w (w_now w) w eq_refl), Hc. by destruct (_ && _). }
  assert (Hnever : ∀ s : Site R P, waf_call (site:=s) uuid4 conf rq w =
    match check_site_password (site:=s) conf rq path w with
    | (Ok (Some r), w') => (Ok r, w') | (Raise e, w') => (Raise e, w')
    | (Ok None, w') => (Raise ValueError, w') end).
  { intros s. rewrite Hcall. unfold or_answer, bind at 1. rewrite Hsite.
    destruct (SitePassword.is_misconfigured conf); [done|]. destruct (_ && _); [|done].
    unfold bind. by destruct (handle_site_password_verify _ _ _) as [[?|?] ?]. }
  split.
  { intros v. rewrite !Hnever, !Hsite. reflexivity. }
  intros rs w'. rewrite Hnever, Hsite.
  destruct (SitePassword.is_misconfigured conf) eqn:Hm; [intros [= <- <-]; by left|].
  destruct (_ && _) eqn:Epost; [|intros [= <- <-]; by left].
  unfold bind. destruct (handle_site_password_verify conf rq w) as [[r|e] w2] eqn:Ev; [|done].
  intros [= <- <-]. unfold handle_site_password_verify in Ev.
  apply bind_inv_Ok in Ev as (correct & w3 & Ec & Ev). unfold lift_res in Ec. injection Ec as Ec ->.
  destruct correct.
  - apply bind_inv_Ok in Ev as (url & w4 & _ & Ev). apply bind_inv_Ok in Ev as (t & w5 & _ & Ev).
    unfold ret in Ev. simplify_eq. right; right. bool_hyps. split; [done|]. split; [done|].
    split; [done|]. unfold SitePassword.check_password in Ec.
    destruct (str_empty (DJANGO_WAF_SITE_PASSWORD conf)) eqn:Es; [done|].
    split; [by intros E; rewrite E in Es|].
    cbn [orb] in Ec. destruct (str_empty (post_param rq "password")); [done|]. unfold compare_digest in Ec.
    destruct (_ && _); [|done]. injection Ec as Ec. by bool_hyps.
  - apply bind_inv_Ok in Ev as (throttle & w4 & _ & Ev). destruct (exceeded throttle);
      unfold ret in Ev; simplify_eq; [by right; left|by left].
Qed.

(** Answers and log.  With no hook configured and the database up, a
    BLOCKED verdict is answered with the built-in 403, a THROTTLED one with a
    429 whose [Retry-After] is the limiter's value, or 60 when it gave none;
    and each leaves exactly one more row in the request log, with the verdict,
    the rule and the status that was sent. *)
Lemma enforced_verdict_answered_and_logged rq ip ua path w r w1 :
  evaluate_request uuid4 conf ip ua path (rq_method rq) (meta_get (rq_meta rq) "HTTP_REFERER")
    (rq_meta rq) w = (Ok r, w1) →
  er_verdict r = BLOCKED ∨ er_verdict r = THROTTLED → w_db_up w1 = true →
  DJANGO_WAF_BLOCK_RESPONSE_HANDLER conf = "" → DJANGO_WAF_THROTTLE_RESPONSE_HANDLER conf = "" →
  let rs := if bool_decide (er_verdict r = BLOCKED) then http_response 403 "Access denied."
            else set_header "Retry-After" (retry_after_header (er_retry_after r))
                   (http_response 429 "Too many requests. Please retry later.") in
  ∃ w2, evaluate_and_answer uuid4 conf rq ip ua path w = (Ok rs, w2) ∧
    w_request_log w2 = w_request_log w1 ++
      [request_log_row rq (w_now w1) ip ua path r (rs_status rs) (lookup_country ip)].
Proof.
  intros E Hv Hup Hb Ht rs. rewrite (evaluation_answer _ _ _ _ _ _ _ _ _ E).
  assert (Hh : ∃ w2, handle_verdict conf rq r ip path w1 = (Ok rs, w2) ∧ redis_only w1 w2).
  { unfold handle_verdict, rs. destruct Hv as [Hv | Hv]; rewrite Hv.
    - rewrite bool_decide_true by done.
      set (m := try_except (record_block_verdict ip 300 (uuid_str <$> er_matched_rule_id r)) (λ _, ret tt)).
      destruct (total_inv m w1) as ([] & w2 & E2); [by apply total_try|].
      rewrite (bind_Ok _ _ _ _ _ E2). exists w2. unfold build_block_response, build_hooked_response.
      rewrite Hb. split; [done|]. by eapply swallowed_redis_only, E2.
    - rewrite bool_decide_false by done. exists w1. unfold build_throttle_response, build_hooked_response.
      rewrite Ht. split; [done|apply redis_only_refl]. }
  destruct Hh as (w2 & E2 & Ho). rewrite (bind_Ok _ _ _ _ _ E2).
  assert (Hl : log_request conf rq r ip ua path (rs_status rs) w2 =
    create_log (λ t, request_log_row rq t ip ua path r (rs_status rs) (lookup_country ip)) w2).
  { unfold log_request. rewrite bool_decide_true; [done|]. destruct Hv as [-> | ->]; set_solver. }
  rewrite create_log_up in Hl by (by rewrite Ho). rewrite (bind_Ok _ _ _ _ _ Hl).
  eexists. split; [reflexivity|]. cbn [w_request_log]. by rewrite Ho.
Qed.
End Props.

Section Outage.
Context {P : Type} `{ReEngine P} `{Dns} `{Signer} `{GeoIp} {site : Site DownRedis P}.
Context (uuid4 : nat → Z) (conf : Conf).

(** C11: a Redis outage fails open.  While every Redis command raises, and
    with nothing configured but evaluation, any request gets exactly what the
    view answers, whatever its address, User-Agent, cookies and path. *)
Theorem redis_outage_fails_open rq (w : World DownRedis P) :
  evaluation_only conf → (∀ rq, total (get_response rq)) →
  waf_call uuid4 conf rq w = respond conf rq w.
Proof.
  intros Hc Hview.
  assert (Hload : load_rule_cache w = (Raise RedisError, w)) by (by destruct w).
  set (ua := meta_get (rq_meta rq) "HTTP_USER_AGENT").
  destruct (classify_fingerprint ua (rq_meta rq)) as [fv|e] eqn:Ef.
  - apply (waf_call_fails_open uuid4 conf rq w RedisError Hc Hview).
    unfold evaluate_request. fold ua. rewrite Ef. unfold bind, lift_res. by rewrite Hload.
  - apply (waf_call_fails_open uuid4 conf rq w e Hc Hview).
    unfold evaluate_request. fold ua. rewrite Ef. done.
Qed.
End Outage.

(** Any client can make evaluation raise.  With a User-Agent of
    ["Chrome/"] and more than 4300 digits, in every state, and so also for an
    address on the block list, the request gets what the view answers: every
    block rule, rate limit and challenge is skipped. *)
Lemma long_chrome_version_bypasses_waf {R P} `{RedisClient R} `{ReEngine P} `{Dns} `{Signer} `{GeoIp}
    {site : Site R P} uuid4 conf rq ds (w : World R P) :
  evaluation_only conf → (∀ rq, total (get_response rq)) →
  meta_get (rq_meta rq) "HTTP_USER_AGENT" = "Chrome/" +:+ ds →
  str_forall is_digit ds = true → (INT_MAX_STR_DIGITS < String.length ds)%nat →
  waf_call uuid4 conf rq w = respond conf rq w.
Proof.
  intros Hc Hview Hua Hd Hlen. apply (waf_call_fails_open uuid4 conf rq w ValueError Hc Hview).
  rewrite Hua. by apply long_chrome_version_raises.
Qed.

Section Memory.
Context {P : Type} `{ReEngine P} `{Dns} `{Signer} `{GeoIp} {site : Site MemRedis P}.
Context (uuid4 : nat → Z) (conf : Conf).
Abbreviation W := (World MemRedis P).
Implicit Types (w : W).

(** [n] challenges are counted for the address, none if there is no counter. *)
Definition counted (ip : string) (n : Z) w : Prop :=
  match peek (w_now w) (mem (w_redis w)) (challenged_key ip) with
  | Some e => e_val e = VString (str_of_Z n)
  | None => n = 0
  end.

Lemma count_challenge_counts ip n w :
  counted ip n w →
  count_challenge ip w = (Ok tt, {| w with w_redis := {| mem :=
    <[challenged_key ip := {| e_val := VString (str_of_Z (n + 1));
                              e_exp := Some (w_now w + 3600 * second) |}]> (mem (w_redis w)) |} |}).
Proof.
  intros Hc. unfold count_challenge, counted in *. apply try_except_Ok.
  set (k := challenged_key ip) in *.
  assert (Hi : ∃ ex, live (w_now w) {| e_val := VString (str_of_Z (n + 1)); e_exp := ex |} = true ∧
    send (INCR k) w = (Ok (RInt (n + 1)), {| w with w_redis := {| mem :=
      <[k := {| e_val := VString (str_of_Z (n + 1)); e_exp := ex |}]> (mem (w_redis w)) |} |})).
  { unfold send, on_redis, exec. cbn [r_exec mem_redis step].
    destruct (peek _ _ k) as [e|] eqn:Ep; [|subst n; by exists None].
    rewrite Hc, py_int_str_of_Z. exists (e_exp e). split; [|done].
    unfold peek in Ep. destruct (mem (w_redis w) !! k) as [e'|]; [|done]. cbn in Ep.
    destruct (live (w_now w) e') eqn:El; [|done]. by injection Ep as ->. }
  destruct Hi as (ex & Hl & Hi). rewrite (bind_Ok _ _ _ _ _ Hi).
  unfold bind, send, on_redis, exec. cbn [r_exec mem_redis step w_redis w_now mem].
  rewrite peek_insert_eq, Hl. cbn [Z.ltb Z.compare]. unfold ret. by rewrite insert_insert_eq.
Qed.

(** While nothing was solved the gate reads the counter. *)
Lemma unsolved_count_is ip fv n w :
  get_key (challenged_key ip) w = (Ok (Some (str_of_Z n)), w) →
  peek (w_now w) (mem (w_redis w)) (solved_key ip) = None →
  get_unsolved_challenge_count ip fv w = (Ok n, w).
Proof.
  intros Hg Hs. unfold get_unsolved_challenge_count, try_except. rewrite (bind_Ok _ _ _ _ _ Hg).
  replace (str_empty (str_of_Z n)) with false
    by (symmetry; apply str_empty_false; intros E; pose proof (py_int_str_of_Z n) as Hz; by rewrite E in Hz).
  rewrite py_int_str_of_Z. unfold bind at 1, lift_res. case_bool_decide; [done|].
  unfold bind, get_key, on_redis, redis_get, bind, exec. cbn [r_exec mem_redis step]. rewrite Hs. by destruct w as [? []].
Qed.

(** The Redis hash of today's counts can count one more block: it is a hash, or
    not there. *)
Definition counts_blocks (w : W) : Prop :=
  match peek (w_now w) (mem (w_redis w)) STATS_KEY with
  | Some e => ∃ h, e_val e = VHash h
  | None => True
  end.

(** One clock, one entry under the key of today's counts. *)
Definition stats_at (t : Z) (s : option entry) (w : W) : Prop :=
  w_now w = t ∧ mem (w_redis w) !! STATS_KEY = s.

Lemma invalidate_keeps_stats t s : preserves (stats_at t s) (invalidate_rule_cache (R:=MemRedis) (P:=P)).
Proof.
  unfold invalidate_rule_cache. apply preserves_try; [|intros; apply preserves_ret].
  apply preserves_bind; [|intros; apply preserves_ret]. intros w [Ht Hs]. unfold on_redis, exec.
  cbn [r_exec mem_redis]. destruct (step _ _ _) as [[v m]|] eqn:E; [|done].
  split; [done|]. cbn. rewrite <- Hs. by eapply step_frame.
Qed.

Lemma db_keeps_stats t s {A} (f : W → A) : preserves (stats_at t s) (db_read f).
Proof. intros w Hw. unfold db_read. by destruct (w_db_up w). Qed.

Lemma rows_keep_stats t s rows : preserves (stats_at t s) (set_block_rules (R:=MemRedis) (P:=P) rows).
Proof. intros w Hw. unfold set_block_rules, db_write. by destruct (w_db_up w). Qed.

(** Writing the escalation rule leaves the counts alone. *)
Lemma escalation_rule_keeps_stats t s ip :
  preserves (stats_at t s) (create_escalation_rule uuid4 conf ip).
Proof.
  assert (Hi : preserves (stats_at t s) interleave).
  { intros w [Ht Hs]. unfold interleave, modify. by destruct (w_concurrent w). }
  assert (Hd : preserves (stats_at t s) (draw uuid4)) by (intros w Hw; exact Hw).
  assert (Hu : ∀ lk df, preserves (stats_at t s) (update_or_create uuid4 lk df)).
  { intros lk df. unfold update_or_create, select, on_block_rule_save, clock.
    repeat first [apply preserves_bind | apply db_keeps_stats | apply rows_keep_stats | apply invalidate_keeps_stats
      | apply Hi | apply Hd | apply preserves_gets | apply preserves_ret | apply preserves_raise
      | match goal with |- preserves _ (match ?x with _ => _ end) => destruct x end | intro]. }
  assert (Ha : ∀ lk df d, preserves (stats_at t s) (auto_rule_write_defaults (R:=MemRedis) (P:=P) lk df d)).
  { intros. unfold auto_rule_write_defaults, select. apply preserves_bind; [apply db_keeps_stats|].
    intros. apply preserves_ret. }
  assert (Ho : ∀ lk df d, preserves (stats_at t s) (update_or_create_auto_rule uuid4 lk df d)).
  { intros. unfold update_or_create_auto_rule. apply preserves_bind; [apply Ha|]. intros pr.
    apply preserves_try; [apply Hu|]. intros e. destruct (negb _); [apply preserves_raise|].
    apply preserves_bind; [apply Ha|]. intros rt. destruct (rt.1); [apply Hu|apply preserves_raise]. }
  assert (Hk : ∀ (l : list BlockRule) (k : M W unit), preserves (stats_at t s) k →
    preserves (stats_at t s) (foldr (λ _ k, on_block_rule_delete ;;; k) k l)).
  { intros l k Hk. induction l as [|r l IH]; [done|]. cbn [foldr].
    apply preserves_bind; [apply invalidate_keeps_stats|]. by intros. }
  assert (Hx : ∀ lk, preserves (stats_at t s) (deduplicate_block_rules (R:=MemRedis) (P:=P) lk)).
  { intros. unfold deduplicate_block_rules, select. apply preserves_bind; [apply db_keeps_stats|]. intros found.
    destruct (_ <=? _)%nat; [apply preserves_ret|]. destruct (sort_by _ _); [apply preserves_ret|].
    apply preserves_bind; [apply db_keeps_stats|]. intros rows.
    apply preserves_bind; [apply rows_keep_stats|]. intros _.
    apply preserves_bind; [apply Hk, preserves_ret|]. intros. apply preserves_ret. }
  unfold create_escalation_rule. apply preserves_try; [|intros; apply preserves_ret].
  apply preserves_bind; [apply preserves_gets|]. intros now.
  apply preserves_bind; [|intros; apply preserves_ret]. unfold get_or_create_auto_rule.
  apply preserves_try; [apply Ho|]. intros e. case_bool_decide; [|apply preserves_raise].
  apply preserves_bind; [apply Hx|]. intros. apply Ho.
Qed.

(** A block verdict is recorded, for its lifetime. *)
Lemma record_block_verdict_runs ip ttl rule w :
  0 < ttl → counts_blocks w →
  ∃ w', record_block_verdict ip ttl rule w = (Ok tt, w') ∧
    ∀ t, t < w_now w + ttl * second → ∃ v, peek_str t (mem (w_redis w')) (blocked_ip_key ip) = Some v.
Proof.
  intros Httl Hc. unfold record_block_verdict.
  set (v := match rule with Some r => if str_empty r then "1" else r | None => "1" end).
  unfold bind, send, on_redis, exec. cbn [r_exec mem_redis step w_redis mem].
  rewrite (proj2 (Z.ltb_lt 0 ttl) Httl). cbn [w_redis mem w_now].
  set (m := <[blocked_ip_key ip := _]> (mem (w_redis w))).
  assert (Hs : peek (w_now w) m STATS_KEY = peek (w_now w) (mem (w_redis w)) STATS_KEY)
    by (apply peek_ext, lookup_insert_ne; discriminate).
  unfold counts_blocks in Hc. rewrite <- Hs in Hc.
  assert (Hb : ∀ e t, t < w_now w + ttl * second →
    peek_str t (<[STATS_KEY := e]> m) (blocked_ip_key ip) = Some v).
  { intros e t Ht. unfold peek_str. rewrite (peek_ext t _ m) by (apply lookup_insert_ne; discriminate).
    subst m. by apply peek_str_setex. }
  destruct (peek (w_now w) m STATS_KEY) as [e|].
  - destruct Hc as [h ->]. eexists. split; [reflexivity|]. intros t Ht. exists v. by apply Hb.
  - eexists. split; [reflexivity|]. intros t Ht. exists v. by apply Hb.
Qed.

(** C10: unsolved challenges escalate.  A CHALLENGED verdict redirects to the
    challenge page and adds one to the address's counter.  From then on, for an
    hour, while the address has solved nothing, the gate of every challenge
    returns, and does not raise: below the threshold the challenge that was
    asked for, with nothing changed; from the threshold on BLOCKED, whether or
    not the rule could be written (the database may be down), with the address
    on the blocked fast path for the lifetime of an escalation.  The lifetime is
    positive and the Redis entry of today's counts is a hash or missing. *)
Theorem unsolved_challenges_escalate rq result ip path challenge verify n w :
  er_verdict result = CHALLENGED → get_challenge_paths conf = Ok (challenge, verify) →
  starts_with challenge path = false → starts_with verify path = false → counted ip n w →
  ∃ w', handle_verdict conf rq result ip path w =
          (Ok (redirect (challenge +:+ "?next=" +:+ path)), w') ∧
    ∀ dt fv asked, 0 <= dt < 3600 * second →
      let later := {| w' with w_now := w_now w + dt |} in
      peek (w_now later) (mem (w_redis later)) (solved_key ip) = None →
      0 < DJANGO_WAF_ESCALATION_BLOCK_TTL conf → counts_blocks later →
      if n + 1 <? DJANGO_WAF_CHALLENGE_ESCALATION_THRESHOLD conf
      then gate_challenge_or_escalate uuid4 conf ip asked fv later = (Ok asked, later)
      else ∃ w3, gate_challenge_or_escalate uuid4 conf ip asked fv later
                 = (Ok (plain_result BLOCKED (Some "block")), w3) ∧
           ∀ t, t < w_now later + DJANGO_WAF_ESCALATION_BLOCK_TTL conf * second →
             ∃ v, peek_str t (mem (w_redis w3)) (blocked_ip_key ip) = Some v.
Proof.
  intros Hv Hp Hc1 Hc2 Hn. unfold handle_verdict. rewrite Hv, Hp, Hc1, Hc2. cbn [orb].
  rewrite (bind_Ok _ _ _ _ _ (count_challenge_counts _ _ _ Hn)). eexists. split; [reflexivity|].
  intros dt fv asked Hdt Hsolved Httl Hstats.
  match type of Hstats with counts_blocks ?x => set (w2 := x) in * end.
  assert (Hk : mem (w_redis w2) !! challenged_key ip = Some {| e_val := VString (str_of_Z (n + 1));
    e_exp := Some (w_now w + 3600 * second) |}) by apply lookup_insert_eq.
  assert (Hg : get_key (challenged_key ip) w2 = (Ok (Some (str_of_Z (n + 1))), w2)).
  { erewrite ChallengeProps.mem_get; [|exact Hk|by eexists].
    unfold peek_str, peek. rewrite Hk. cbn. unfold live. cbn.
    rewrite (proj2 (Z.ltb_lt _ _)) by lia. done. }
  pose proof (unsolved_count_is ip fv (n + 1) w2 Hg Hsolved) as Hcount.
  unfold gate_challenge_or_escalate. rewrite (bind_Ok _ _ _ _ _ Hcount).
  destruct (_ <? _); [done|].
  destruct (total_inv (create_escalation_rule uuid4 conf ip) w2) as (row & w4 & E4);
    [by apply total_try|].
  rewrite (bind_Ok _ _ _ _ _ E4).
  pose proof (preserves_Ok _ _ _ _ _ (escalation_rule_keeps_stats (w_now w2) _ ip) (conj eq_refl eq_refl) E4)
    as [Ht4 Hs4].
  destruct (record_block_verdict_runs ip (DJANGO_WAF_ESCALATION_BLOCK_TTL conf)
    ((λ r, uuid_str (br_id r)) <$> row) w4 Httl) as (w5 & E5 & Hb).
  { unfold counts_blocks in *. by rewrite Ht4, (peek_ext _ _ _ _ Hs4). }
  rewrite (bind_Ok _ _ _ _ _ E5). exists w5. split; [reflexivity|]. intros t Ht. apply Hb. by rewrite Ht4.
Qed.
End Memory.

(** ** Behaviours the documentation does not describe *)

Section Guesses.
Context {R P : Type} `{RedisClient R} `{Signer} {site : Site R P}.

(** The throttle is consulted after a wrong guess only: the right password is
    accepted in every state, however many guesses the address has made. *)
Lemma right_guess_is_never_throttled conf rq url (w : World R P) :
  SitePassword.check_password conf (post_param rq "password") = Ok true →
  safe_next (R:=R) (P:=P) rq (post_param rq "next") = Ok url →
  handle_site_password_verify conf rq w =
    (Ok (SitePassword.set_verified_cookie conf (w_now w) rq (redirect url)), w).
Proof.
  intros Hc Hs. unfold handle_site_password_verify, bind, lift_res. by rewrite Hc, Hs.
Qed.

(** A guess outside ASCII raises instead of being refused. *)
Lemma non_ascii_guess_raises conf rq (w : World R P) :
  DJANGO_WAF_SITE_PASSWORD conf ≠ "" → post_param rq "password" ≠ "" →
  str_forall is_ascii (post_param rq "password") = false →
  handle_site_password_verify conf rq w = (Raise (OtherError "TypeError"), w).
Proof.
  intros Hp Hs Ha. unfold handle_site_password_verify, bind, lift_res, SitePassword.check_password.
  rewrite !str_empty_false by done. cbn [orb]. unfold compare_digest. by rewrite Ha.
Qed.
End Guesses.

(** The entry an escalation wrote (for its own lifetime, naming its rule) is
    gone 300 seconds after the middleware answered: it rewrites the entry with
    the default lifetime and without the rule. *)
Lemma escalation_entry_rewritten {P} (w w1 w2 : World MemRedis P) ip ttl rule u1 u2 t :
  record_block_verdict ip ttl (Some (uuid_str rule)) w = (Ok u1, w1) →
  record_block_verdict ip 300 (uuid_str <$> er_matched_rule_id (plain_result BLOCKED None)) w1 = (Ok u2, w2) →
  w_now w <= t →
  peek_str t (mem (w_redis w2)) (blocked_ip_key ip) = if t <? w_now w + 300 * second then Some "1" else None.
Proof.
  intros E1 E2 Ht. apply record_block_verdict_Ok in E1 as [Ho _].
  assert (Hn : w_now w1 = w_now w) by (by rewrite Ho).
  unfold record_block_verdict in E2. apply bind_inv_Ok in E2 as (v1 & w3 & S1 & E2).
  apply bind_inv_Ok in E2 as (v2 & w4 & S2 & E2). unfold ret in E2. simplify_eq.
  apply setex_Ok in S1 as (_ & _ & Hk). apply send_Ok in S2 as [S2 _].
  assert (Hf : mem (w_redis w2) !! blocked_ip_key ip = ks w3 !! blocked_ip_key ip)
    by (by eapply step_frame).
  unfold peek_str. rewrite (peek_ext t _ _ _ Hf), Hk, peek_insert_eq, Hn. unfold live. cbn [e_exp].
  by destruct (t <? _).
Qed.

(** ** Witnesses *)

(** A site whose hooks do not import, and one that has no challenge URLs but the
    configured ones; the view answers 200. *)
Definition demo_view {R P} : Request → M (World R P) (Response * option User) :=
  λ _, ret (http_response 200 "view", None).

#[local] Instance demo_site {R P} : Site R P := {|
  has_redis := true; reverse := λ _, Raise NoReverseMatch;
  import_string := λ _, Raise (OtherError "ImportError");
  render_prompt := λ _ next_url _, next_url; url_has_allowed_host_and_scheme := λ _ _ _, true;
  random := λ _, 0%Q; get_response := demo_view |}.
#[local] Instance demo_geoip : GeoIp := {| geoip_reader := None |}.
#[local] Existing Instance RuleEngineProps.sample_dns.

Definition hooked_conf : Conf :=
  {| {| (default_conf "s3cret") with DJANGO_WAF_BLOCK_RESPONSE_HANDLER := "app.missing" |}
     with DJANGO_WAF_CHALLENGE_URL := "/waf/challenge/" |}.

Definition teapot_conf : Conf :=
  {| (default_conf "s3cret") with DJANGO_WAF_BLOCK_RESPONSE_HANDLER := "app.teapot" |}.

Definition demo_request (user_agent : string) : Request :=
  {| (SignedCookiesProps.request_with ∅) with
     rq_meta := <["HTTP_USER_AGENT" := user_agent]> {["REMOTE_ADDR" := "192.0.2.1"]} |}.

(** The address is on the fast block list. *)
Definition blocked_world : World MemRedis LiteRe :=
  {| (AutoRuleProps.sample_world [] []) with w_redis :=
       {| mem := {[blocked_ip_key "192.0.2.1" := {| e_val := VString "1"; e_exp := None |}]} |} |}.

Definition demo_evaluate (conf : Conf) (w : World MemRedis LiteRe) :=
  evaluate_request Z.of_nat conf "192.0.2.1" "curl/8" "/" "GET"
    (meta_get (rq_meta (demo_request "curl/8")) "HTTP_REFERER") (rq_meta (demo_request "curl/8")) w.

Lemma demo_evaluated conf :
  conf = hooked_conf ∨ conf = default_conf "s3cret" ∨ conf = teapot_conf →
  demo_evaluate conf blocked_world = (Ok (plain_result BLOCKED (Some "block")), (demo_evaluate conf blocked_world).2).
Proof.
  assert (E : ∀ c, c = hooked_conf ∨ c = default_conf "s3cret" ∨ c = teapot_conf →
    (demo_evaluate c blocked_world).1 = Ok (plain_result BLOCKED (Some "block")))
    by (intros c [-> | [-> | ->]]; vm_compute; reflexivity).
  intros Hc. specialize (E conf Hc). destruct (demo_evaluate conf blocked_world) as [r w]. cbn in *. by rewrite E.
Defined.

(** A site whose block hook imports and answers 418. *)
Definition teapot : Response := http_response 418 "short and stout".
Definition teapot_site : Site MemRedis LiteRe := {|
  has_redis := true; reverse := λ _, Raise NoReverseMatch;
  import_string := λ p, if bool_decide (p = "app.teapot") then Ok (λ _ _, ret (Some teapot))
                        else Raise (OtherError "ImportError");
  render_prompt := λ _ next_url _, next_url; url_has_allowed_host_and_scheme := λ _ _ _, true;
  random := λ _, 0%Q; get_response := demo_view |}.

Lemma enforced_verdict_never_reaches_view_witness :
  ∃ w2, evaluate_and_answer (site:=teapot_site) Z.of_nat teapot_conf (demo_request "curl/8") "192.0.2.1" "curl/8" "/"
    blocked_world = (Ok teapot, w2) ∧ length (w_request_log w2) = 1%nat.
Proof.
  assert (Ev : demo_evaluate teapot_conf blocked_world
    = (Ok (plain_result BLOCKED (Some "block")), (demo_evaluate teapot_conf blocked_world).2))
    by (apply demo_evaluated; right; right; reflexivity).
  destruct (enforced_verdict_never_reaches_view (site:=teapot_site) Z.of_nat teapot_conf (demo_request "curl/8")
    "192.0.2.1" "curl/8" "/" blocked_world _ _ Ev (or_introl eq_refl)) as (_ & rs & wh & Hh & E).
  rewrite E. cbn [er_verdict plain_result] in Hh. rewrite bool_decide_true in Hh by reflexivity.
  assert (Ht : rs = teapot ∧ wh = after_record "192.0.2.1" (plain_result BLOCKED (Some "block"))
    (demo_evaluate teapot_conf blocked_world).2).
  { eapply (hook_answers_unique (site:=teapot_site)); [exact Hh|]. eapply hook_responded; [discriminate|reflexivity|reflexivity]. }
  destruct Ht as [-> ->]. eexists. split; [reflexivity|]. vm_compute. reflexivity.
Defined.

Definition gated_conf : Conf :=
  {| {| (default_conf "s3cret") with DJANGO_WAF_SITE_PASSWORD := "open" |}
     with DJANGO_WAF_SITE_PASSWORD_ENABLED := true |}.

Lemma locked_gate_never_reaches_view_witness :
  view_unreached (R:=MemRedis) (P:=LiteRe) demo_site
    (λ s, waf_call (site:=s) Z.of_nat gated_conf (demo_request "curl/8")) blocked_world.
Proof.
  apply (locked_gate_never_reaches_view Z.of_nat gated_conf (demo_request "curl/8") blocked_world);
    try reflexivity. right. reflexivity.
Defined.

Lemma enforced_verdict_answered_and_logged_witness :
  ∃ w2, evaluate_and_answer Z.of_nat (default_conf "s3cret") (demo_request "curl/8") "192.0.2.1" "curl/8" "/"
    blocked_world = (Ok (http_response 403 "Access denied."), w2) ∧
    length (w_request_log w2) = 1%nat.
Proof.
  assert (Hup : w_db_up (demo_evaluate (default_conf "s3cret") blocked_world).2 = true) by (vm_compute; reflexivity).
  assert (Hl : w_request_log (demo_evaluate (default_conf "s3cret") blocked_world).2 = []) by (vm_compute; reflexivity).
  destruct (enforced_verdict_answered_and_logged Z.of_nat (default_conf "s3cret") (demo_request "curl/8")
    "192.0.2.1" "curl/8" "/" blocked_world _ _ (demo_evaluated (default_conf "s3cret") (or_intror (or_introl eq_refl)))
    (or_introl eq_refl) Hup eq_refl eq_refl) as (w2 & E & Hlog).
  exists w2. split; [exact E|]. rewrite Hlog, Hl. reflexivity.
Defined.

Lemma redis_outage_fails_open_witness :
  let w := {| w_now := 0; w_redis := {| frozen := ∅ |}; w_db_up := true; w_block_rules := [];
    w_allow_rules := []; w_request_log := []; w_tokens := []; w_reputation := []; w_fresh := 0; w_concurrent := [];
    w_process_cache := None; w_process_cache_version := -1; w_ua_pattern_cache := ∅ |}
    : World DownRedis LiteRe in
  waf_call Z.of_nat (default_conf "s3cret") (demo_request "curl/8") w = (Ok (http_response 200 "view"), w).
Proof.
  intros w. rewrite (redis_outage_fails_open Z.of_nat (default_conf "s3cret") (demo_request "curl/8") w);
    [reflexivity|split_and!; reflexivity|intros rq s; reflexivity].
Defined.

Lemma long_chrome_version_bypasses_waf_witness :
  waf_call Z.of_nat (default_conf "s3cret")
    (demo_request ("Chrome/" +:+ RuleEngineProps.nines (S INT_MAX_STR_DIGITS))) blocked_world
  = (Ok (http_response 200 "view"), blocked_world).
Proof.
  rewrite (long_chrome_version_bypasses_waf Z.of_nat (default_conf "s3cret") _
    (RuleEngineProps.nines (S INT_MAX_STR_DIGITS)) blocked_world).
  - reflexivity.
  - split_and!; reflexivity.
  - intros rq s. reflexivity.
  - cbn [demo_request rq_meta]. unfold meta_get. by rewrite lookup_insert_eq.
  - apply (RuleEngineProps.nines_digits (S INT_MAX_STR_DIGITS)).
  - rewrite (proj2 (RuleEngineProps.nines_digits (S INT_MAX_STR_DIGITS))). apply Nat.lt_succ_diag_r.
Defined.

Definition urls_conf : Conf := {| hooked_conf with DJANGO_WAF_VERIFY_URL := "/waf/verify/" |}.

Lemma unsolved_challenges_escalate_witness :
  let r := plain_result CHALLENGED (Some "challenge") in
  let w := {| (AutoRuleProps.sample_world [] []) with w_redis := {| mem :=
    {[challenged_key "192.0.2.1" := {| e_val := VString "9"; e_exp := None |}]} |} |} in
  ∃ w' w3, handle_verdict urls_conf (demo_request "curl/8") r "192.0.2.1" "/shop" w =
          (Ok (redirect "/waf/challenge/?next=/shop"), w') ∧
    gate_challenge_or_escalate (P:=LiteRe) Z.of_nat urls_conf "192.0.2.1" r "unknown"
      {| w' with w_now := w_now w + 0 |} = (Ok (plain_result BLOCKED (Some "block")), w3).
Proof.
  intros r w.
  destruct (unsolved_challenges_escalate Z.of_nat urls_conf (demo_request "curl/8") r "192.0.2.1" "/shop"
    "/waf/challenge/" "/waf/verify/" 9 w eq_refl eq_refl eq_refl eq_refl eq_refl) as (w' & E & Hg).
  assert (Ew : w' = (handle_verdict urls_conf (demo_request "curl/8") r "192.0.2.1" "/shop" w).2)
    by (rewrite E; reflexivity).
  destruct (Hg 0 "unknown" r ltac:(split; [reflexivity|reflexivity])) as (w3 & Hgate & _).
  - rewrite Ew. vm_compute. reflexivity.
  - reflexivity.
  - rewrite Ew. vm_compute. exact I.
  - exists w', w3. split; [exact E|exact Hgate].
Defined.

End MiddlewareProps.
