(* ===== verification/Detectors.v ===== *)
(** * The anomaly detectors ([services/anomaly_detector.py])

    Each detector reads the request log (or the reputation and challenge
    tables) over a time window, groups it, and writes one automatic rule per
    finding through [get_or_create_auto_rule].  A grouped query returns one row
    per group; SQL leaves the order of groups open, and the model takes one.
    The [anomaly_detected] signal is not part of the model. *)

From Stdlib Require Import ZArith QArith Qround Lia Ascii String Sorted.
From stdpp Require Import base tactics option list strings numbers gmap.
From S2P Require Import Prelude PyStr IpAddress Hash PyTime Codec Regex Conf.
From S2P Require Import ClientIp Redis Models AutoRule RuleEngine.

Open Scope Z_scope.

Definition minute_us : Z := 60 * usec.
Definition hour_us : Z := 3600 * usec.

(** ** Grouping *)

(** [COUNT] of the rows that satisfy a condition. *)
Definition count_if {A} (p : A → bool) (l : list A) : Z := Z.of_nat (length (List.filter p l)).

(** [COUNT(DISTINCT f)]. *)
Definition count_distinct {A} (f : A → string) (l : list A) : Z :=
  Z.of_nat (length (remove_dups (map f l))).

(** The groups of [values(f)]. *)
Definition groups {A} (f : A → string) (l : list A) : list string := remove_dups (map f l).

Definition of_ip (ip : string) (r : RequestLog) : bool := bool_decide (rl_ip_address r = ip).
Definition since (cutoff : Z) (r : RequestLog) : bool := cutoff <=? rl_timestamp r.

(** ** Evidence values as they are printed in the rule's notes *)

Inductive num : Type := PyInt (z : Z) | PyFloat (q : Q).

Definition num_Q (n : num) : Q := match n with PyInt z => inject_Z z | PyFloat q => q end.

(** [round(q, 2)], half to even, in hundredths. *)
Definition round2 (q : Q) : Z :=
  let x := (q * 100)%Q in
  let f := Qfloor x in
  let r := (x - inject_Z f)%Q in
  match (r ?= 1 # 2)%Q with
  | Lt => f
  | Gt => f + 1
  | Eq => if Z.even f then f else f + 1
  end.

(** [str] of a non-negative float with at most two decimals. *)
Definition show_hundredths (k : Z) : string :=
  str_of_Z (k / 100) +:+ "." +:+
  (if k mod 10 =? 0 then pad_digits 1 (k mod 100 / 10) "" else pad_digits 2 (k mod 100) "").

Definition show_num (n : num) : string :=
  match n with PyInt z => str_of_Z z | PyFloat q => show_hundredths (round2 q) end.

Example show_num_examples :
  show_num (PyInt 7) = "7" ∧ show_num (PyFloat (7 # 2)) = "3.5" ∧ show_num (PyFloat 1) = "1.0" ∧
  show_num (PyFloat (7 # 8)) = "0.88" ∧ show_num (PyFloat (1 # 8)) = "0.12" ∧
  show_num (PyFloat (5 # 100)) = "0.05".
Proof. vm_compute. done. Qed.

(** [statistics.median]: an int when the middle value is unique. *)
Definition median (values : list Z) : num :=
  let sorted := sort_by Z.leb values in
  let n := length values in
  if Nat.odd n then PyInt (nth (n / 2) sorted 0)
  else PyFloat (inject_Z (nth (n / 2 - 1) sorted 0 + nth (n / 2) sorted 0) / 2).

Definition num_scale (k : Z) (n : num) : num :=
  match n with PyInt z => PyInt (z * k) | PyFloat q => PyFloat (q * inject_Z k) end.

(** ** Counting by subnet: insertion-ordered dictionaries *)

(** [d[k] = d.get(k, 0) + n]. *)
Fixpoint add_count (k : string) (n : Z) (d : list (string * Z)) : list (string * Z) :=
  match d with
  | [] => [(k, n)]
  | (k', m) :: d => if bool_decide (k' = k) then (k', m + n) :: d else (k', m) :: add_count k n d
  end.

(** The subnet of each address, those that do not parse skipped. *)
Definition subnet_counts (ips : list (string * Z)) : list (string * Z) :=
  fold_left (λ d '(ip, n), match get_subnet_prefix ip with
                           | Ok subnet => add_count subnet n d
                           | Raise _ => d
                           end) ips [].

(** [subnet_ips[subnet]]: the distinct contributing addresses. *)
Definition subnet_members (ips : list (string * Z)) (subnet : string) : list string :=
  remove_dups (List.filter (λ ip, bool_decide (get_subnet_prefix ip = Ok subnet)) (map fst ips)).

(** [for x in l: ...], collecting what each round creates. *)
Fixpoint for_each {S A B} (l : list A) (body : A → M S (list B)) : M S (list B) :=
  match l with
  | [] => ret []
  | x :: l => r <- body x ;; rs <- for_each l body ;; ret (r ++ rs)
  end.

(** [Q(referer="") | Q(referer__regex=BARE_ORIGIN_REFERER_RE)]: no referer, or
    an origin with nothing after the host. *)
Definition bare_origin (referer : string) : bool :=
  existsb (λ scheme, starts_with scheme referer &&
                     let rest := str_drop (String.length scheme) referer in
                     negb (str_empty rest) && negb (char_in "/" rest))
    ["http://"; "https://"].
Definition no_referer (r : RequestLog) : bool := str_empty (rl_referer r) || bare_origin (rl_referer r).

(** [Verdict.ALLOWED] or [Verdict.LOGGED]. *)
Definition reached_app (r : RequestLog) : bool :=
  bool_decide (rl_verdict r = ALLOWED) || bool_decide (rl_verdict r = LOGGED).

Definition challenged_row (r : RequestLog) : bool :=
  bool_decide (rl_verdict r = CHALLENGED) && bool_decide (rl_source r = MIDDLEWARE).

Section Detectors.
Context {R P : Type} `{RedisClient R} `{ReEngine P} `{Dns} (uuid4 : nat → Z) (conf : Conf).
Context (dry_run count_refresh_as_created : bool).
Abbreviation W := (World R P).

(** The tail every detector shares: write the rule, and report it if it is new. *)
Definition create_rule (detector_name name : string) (rule_type : RuleType) (match_type : MatchType)
    (pattern : string) (action : RuleAction) (expiry confidence : Z) (details : list (string * string))
  : M W (list BlockRule) :=
  rc <- get_or_create_auto_rule uuid4 conf name rule_type match_type pattern action (Some expiry) dry_run
          detector_name (Some confidence) (Some details) count_refresh_as_created ;;
  ret (if rc.2 : bool then [rc.1] else []).

Definition expiry_of (now : Z) : Z := now + DJANGO_WAF_AUTO_RULE_EXPIRY_HOURS conf * hour_us.

(** *** [detect_ua_rotation] *)

Definition ua_rotation_suspects (threshold cutoff : Z) (log : list RequestLog) : list (string * Z) :=
  let rows := List.filter (since cutoff) log in
  List.filter (λ '(_, n), threshold <? n)
    (map (λ ip, (ip, count_distinct rl_user_agent (List.filter (of_ip ip) rows)))
       (groups rl_ip_address rows)).

Definition detect_ua_rotation (window_minutes : Z) (threshold : option Z) : M W (list BlockRule) :=
  let effective_threshold := default (DJANGO_WAF_ANOMALY_THRESHOLD_DISTINCT_UAS conf) threshold in
  now <- clock ;;
  qs <- db_read (λ w, ua_rotation_suspects effective_threshold (now - window_minutes * minute_us)
                        (w_request_log w)) ;;
  for_each qs (λ '(ip, distinct_ua_count),
    create_rule "detect_ua_rotation" ("Auto: UA rotation from " +:+ ip) RuleType_IP MatchType_EXACT ip
      RuleAction_CHALLENGE (expiry_of now)
      (scaled_confidence (inject_Z distinct_ua_count) (inject_Z effective_threshold)
         (inject_Z (effective_threshold * 2)))
      [("distinct_ua_count", str_of_Z distinct_ua_count); ("window_minutes", str_of_Z window_minutes)]).

(** *** [detect_subnet_burst] *)

(** The condition of the loop, as written: skipped when below both bars. *)
Definition burst (min_count : Z) (burst_threshold : num) (count : Z) : bool :=
  negb ((count <? min_count) && Qle_bool (inject_Z count) (num_Q burst_threshold)).

Definition detect_subnet_burst (window_minutes : Z) : M W (list BlockRule) :=
  now <- clock ;;
  logs <- db_read (λ w, map rl_ip_address
                          (List.filter (since (now - window_minutes * minute_us)) (w_request_log w))) ;;
  let counts := subnet_counts (map (λ ip, (ip, 1)) logs) in
  match counts with
  | [] => ret []
  | _ =>
      let median_count := median (map snd counts) in
      let burst_threshold := num_scale 3 median_count in
      let min_count := DJANGO_WAF_ANOMALY_THRESHOLD_SUBNET_BURST_MIN_COUNT conf in
      for_each counts (λ '(subnet, count),
        if negb (burst min_count burst_threshold count) then ret [] else
        create_rule "detect_subnet_burst" ("Auto: subnet burst from " +:+ subnet) RuleType_CIDR
          MatchType_CIDR subnet RuleAction_CHALLENGE (expiry_of now)
          (scaled_confidence (inject_Z count) (num_Q burst_threshold) (num_Q burst_threshold * 2))
          [("count", str_of_Z count); ("median", show_num median_count);
           ("threshold", show_num burst_threshold); ("min_count", str_of_Z min_count)])
  end.

(** *** [detect_challenge_farms] *)

Definition farm_suspect (cutoff : Z) (rep : IPReputation) : bool :=
  match ir_last_seen_at rep with Some t => cutoff <=? t | None => false end
  && (10 <? ir_challenge_failures rep) && (ir_challenge_passes rep <? 2).

Definition detect_challenge_farms (window_hours : Z) : M W (list BlockRule) :=
  now <- clock ;;
  suspects <- db_read (λ w, List.filter (farm_suspect (now - window_hours * hour_us)) (w_reputation w)) ;;
  for_each suspects (λ rep,
    let ip := ir_ip_address rep in
    create_rule "detect_challenge_farms" ("Auto: challenge farm from " +:+ ip) RuleType_IP MatchType_EXACT
      ip RuleAction_BLOCK (expiry_of now)
      (scaled_confidence (inject_Z (ir_challenge_failures rep)) 10 20)
      [("challenge_failures", str_of_Z (ir_challenge_failures rep));
       ("challenge_passes", str_of_Z (ir_challenge_passes rep))]).

(** *** [detect_unsolved_challenges] *)

(** Challenged verdicts of the middleware per address. *)
Definition challenged_counts (cutoff : Z) (log : list RequestLog) : list (string * Z) :=
  let rows := List.filter (λ r, since cutoff r && challenged_row r) log in
  map (λ ip, (ip, count_if (of_ip ip) rows)) (groups rl_ip_address rows).

(** Addresses with a token solved since the cutoff. *)
Definition solved_since (cutoff : Z) (tokens : list ChallengeToken) : list string :=
  map ct_ip_address
    (List.filter (λ t, bool_decide (ct_status t = ChallengeStatus_SOLVED) &&
                       match ct_solved_at t with Some s => cutoff <=? s | None => false end) tokens).

Definition detect_unsolved_per_ip (challenged_by_ip : list (string * Z)) (solved_ips : list string)
    (now cutoff window_minutes min_challenged : Z) (referer_ratio : Q) : M W (list BlockRule) :=
  let candidates := List.filter (λ '(_, n), min_challenged <=? n) challenged_by_ip in
  match candidates with
  | [] => ret []
  | _ =>
      rows <- db_read (λ w, List.filter (λ r, since cutoff r && negb (bool_decide (rl_path r = "/")))
                              (w_request_log w)) ;;
      for_each candidates (λ '(ip, challenged_count),
        if bool_decide (ip ∈ solved_ips) then ret [] else
        let non_root_count := count_if (of_ip ip) rows in
        if non_root_count =? 0 then ret [] else
        let empty_count := count_if (λ r, of_ip ip r && str_empty (rl_referer r)) rows in
        let empty_referer_ratio := (inject_Z empty_count / inject_Z non_root_count)%Q in
        if negb (Qle_bool referer_ratio empty_referer_ratio) then ret [] else
        create_rule "detect_unsolved_challenges" ("Auto: unsolved challenges from " +:+ ip) RuleType_IP
          MatchType_EXACT ip RuleAction_BLOCK (expiry_of now)
          (scaled_confidence empty_referer_ratio referer_ratio (1 - referer_ratio)%Q)
          [("challenged_count", str_of_Z challenged_count);
           ("empty_referer_ratio", show_num (PyFloat empty_referer_ratio));
           ("non_root_requests", str_of_Z non_root_count);
           ("window_minutes", str_of_Z window_minutes)])
  end.

(** The rule of an earlier crossing: the first active CHALLENGE rule of the subnet. *)
Definition already_challenged (subnet : string) (rows : list BlockRule) : bool :=
  match first_row (List.filter (λ r,
          lookup_matches {| lk_rule_type := RuleType_CIDR; lk_pattern := subnet;
                            lk_action := RuleAction_CHALLENGE |} r && br_is_active r) rows) with
  | Some r => bool_decide ("detect_unsolved_challenges" ∈ split_on "," (br_detectors r))
  | None => false
  end.

Definition detect_unsolved_by_subnet (challenged_by_ip : list (string * Z)) (solved_ips : list string)
    (now window_minutes : Z) : M W (list BlockRule) :=
  let min_subnet_challenged := DJANGO_WAF_UNSOLVED_SUBNET_MIN_CHALLENGED conf in
  let min_subnet_ips := DJANGO_WAF_UNSOLVED_SUBNET_MIN_IPS conf in
  for_each (subnet_counts challenged_by_ip) (λ '(subnet, total),
    let distinct_ips := subnet_members challenged_by_ip subnet in
    let n := Z.of_nat (length distinct_ips) in
    if (total <? min_subnet_challenged) || (n <? min_subnet_ips) then ret [] else
    if existsb (λ ip, bool_decide (ip ∈ solved_ips)) distinct_ips then ret [] else
    already <- db_read (λ w, already_challenged subnet (w_block_rules w)) ;;
    create_rule "detect_unsolved_challenges"
      ("Auto: unsolved challenges from " +:+ subnet +:+ " (" +:+ str_of_Z n +:+ " IPs)")
      RuleType_CIDR MatchType_CIDR subnet
      (if already : bool then RuleAction_BLOCK else RuleAction_CHALLENGE) (expiry_of now)
      (scaled_confidence (inject_Z total) (inject_Z min_subnet_challenged)
         (inject_Z (min_subnet_challenged * 2)))
      [("subnet_challenged_count", str_of_Z total); ("distinct_ips", str_of_Z n);
       ("window_minutes", str_of_Z window_minutes)]).

Definition detect_unsolved_challenges (window_minutes : Z) (min_challenged : option Z)
    (referer_ratio : option Q) (subnet_window_minutes : option Z) : M W (list BlockRule) :=
  let effective_min_challenged := default (DJANGO_WAF_UNSOLVED_MIN_CHALLENGED conf) min_challenged in
  let effective_referer_ratio := default (DJANGO_WAF_UNSOLVED_REFERER_RATIO conf) referer_ratio in
  let effective_subnet_window_minutes :=
    default (DJANGO_WAF_UNSOLVED_SUBNET_WINDOW_MINUTES conf) subnet_window_minutes in
  now <- clock ;;
  let cutoff := now - window_minutes * minute_us in
  let solve_exemption_cutoff := now - DJANGO_WAF_UNSOLVED_SOLVE_EXEMPTION_WINDOW_HOURS conf * hour_us in
  by_ip <- db_read (λ w, challenged_counts cutoff (w_request_log w)) ;;
  by_ip_for_subnet <- db_read (λ w, challenged_counts (now - effective_subnet_window_minutes * minute_us)
                                      (w_request_log w)) ;;
  solved_ips <- db_read (λ w, solved_since solve_exemption_cutoff (w_tokens w)) ;;
  a <- detect_unsolved_per_ip by_ip solved_ips now cutoff window_minutes effective_min_challenged
         effective_referer_ratio ;;
  b <- detect_unsolved_by_subnet by_ip_for_subnet solved_ips now effective_subnet_window_minutes ;;
  ret (a ++ b).

(** *** [detect_cloud_spray] *)

(** Step 1: User-Agents seen without referer from many addresses, widest first. *)
Definition spray_uas (cutoff min_ips top_n : Z) (log : list RequestLog) : list string :=
  let rows := List.filter (λ r, since cutoff r && no_referer r && negb (str_empty (rl_user_agent r))) log in
  let counted := map (λ ua, (ua, count_distinct rl_ip_address
                                   (List.filter (λ r, bool_decide (rl_user_agent r = ua)) rows)))
                   (groups rl_user_agent rows) in
  map fst (take (Z.to_nat top_n)
    (sort_by (λ a b, b.2 <=? a.2) (List.filter (λ '(_, n), min_ips <=? n) counted))).

(** Step 2: the addresses that sent it only a few times. *)
Definition suspicious_ips (cutoff max_per_ip : Z) (ua : string) (log : list RequestLog) : list string :=
  let rows := List.filter (λ r, since cutoff r && bool_decide (rl_user_agent r = ua) && no_referer r) log in
  List.filter (λ ip, count_if (of_ip ip) rows <=? max_per_ip) (groups rl_ip_address rows).

Definition cloud_spray_ua (now window_minutes : Z) (ua : string) (ips : list string)
  : M W (list BlockRule) :=
  let min_ips := DJANGO_WAF_CLOUD_SPRAY_MIN_IPS conf in
  let n := Z.of_nat (length ips) in
  a <- (if DJANGO_WAF_CLOUD_SPRAY_UA_RULE conf
        then create_rule "detect_cloud_spray"
               ("Auto: cloud spray UA (" +:+ str_of_Z n +:+ " IPs, UA: " +:+ str_take 40 ua +:+ ")")
               RuleType_UA MatchType_EXACT ua RuleAction_CHALLENGE (expiry_of now)
               (scaled_confidence (inject_Z n) (inject_Z min_ips) (inject_Z (min_ips * 2)))
               [("distinct_ips", str_of_Z n); ("user_agent", str_take 200 ua);
                ("window_minutes", str_of_Z window_minutes)]
        else ret []) ;;
  b <- for_each (subnet_counts (map (λ ip, (ip, 1)) ips)) (λ '(subnet, count),
         if count <? 2 then ret [] else
         create_rule "detect_cloud_spray"
           ("Auto: cloud spray from " +:+ subnet +:+ " (" +:+ str_of_Z count +:+ " IPs, UA: "
              +:+ str_take 40 ua +:+ ")")
           RuleType_CIDR MatchType_CIDR subnet RuleAction_CHALLENGE (expiry_of now)
           (scaled_confidence (inject_Z count) (inject_Z min_ips) (inject_Z (min_ips * 2)))
           [("subnet", subnet); ("ip_count", str_of_Z count); ("total_spray_ips", str_of_Z n);
            ("user_agent", str_take 200 ua); ("window_minutes", str_of_Z window_minutes)]) ;;
  ret (a ++ b).

Definition detect_cloud_spray (window_minutes : Z) : M W (list BlockRule) :=
  let min_ips := DJANGO_WAF_CLOUD_SPRAY_MIN_IPS conf in
  now <- clock ;;
  let cutoff := now - window_minutes * minute_us in
  uas <- db_read (λ w, spray_uas cutoff min_ips (DJANGO_WAF_CLOUD_SPRAY_TOP_N conf) (w_request_log w)) ;;
  for_each uas (λ ua,
    ips <- db_read (λ w, suspicious_ips cutoff (DJANGO_WAF_CLOUD_SPRAY_MAX_REQUESTS_PER_IP conf) ua
                           (w_request_log w)) ;;
    if Z.of_nat (length ips) <? min_ips then ret [] else cloud_spray_ua now window_minutes ua ips).

(** *** [detect_scraper_404_ratio] *)

(** Rows (address, total, 404s) over both gates. *)
Definition scraper_candidates (cutoff min_requests : Z) (ratio_floor : Q) (log : list RequestLog)
  : list (string * (Z * Z)) :=
  let rows := List.filter (λ r, reached_app r && since cutoff r) log in
  let counted := map (λ ip, (ip, (count_if (of_ip ip) rows,
                   count_if (λ r, of_ip ip r && bool_decide (rl_response_code r = Some 404)) rows)))
                   (groups rl_ip_address rows) in
  List.filter (λ '(_, (total, n404)), (min_requests <=? total) &&
                 Qle_bool ratio_floor (inject_Z n404 / inject_Z total)%Q) counted.

(** The User-Agents an address presented in the window. *)
Definition user_agents_of (cutoff : Z) (ip : string) (log : list RequestLog) : list string :=
  groups rl_user_agent (List.filter (λ r, of_ip ip r && since cutoff r) log).

(** [_scraper_candidate_matches_allow_rule]: an exception counts as a match. *)
Fixpoint scraper_candidate_matches_allow_rule (ip : string) (user_agents : list string)
    (rules : list json) : M W bool :=
  match user_agents with
  | [] => ret false
  | ua :: uas =>
      m <- try_except (r <- check_allow_rules conf ip ua rules ;; ret (bool_decide (is_Some r)))
             (λ _, ret true) ;;
      if m : bool then ret true else scraper_candidate_matches_allow_rule ip uas rules
  end.

(** The rules to check against; [None] when they cannot be had. *)
Definition allow_rules_for_run (has_redis : bool) (candidates : list (string * (Z * Z)))
  : M W (option (list json)) :=
  match candidates with
  | [] => ret (Some [])
  | _ =>
      if negb has_redis then ret None else
      try_except (cache <- load_rule_cache ;; ret (Some (rc_allow_rules cache))) (λ _, ret None)
  end.

Definition detect_scraper_404_ratio (has_redis : bool) (window_minutes : option Z)
  : M W (list BlockRule) :=
  let effective_window_minutes := default (DJANGO_WAF_SCRAPER_404_WINDOW_MINUTES conf) window_minutes in
  let ratio_floor := DJANGO_WAF_SCRAPER_404_RATIO conf in
  let action := if DJANGO_WAF_SCRAPER_404_ACTION_BLOCK conf then RuleAction_BLOCK
                else RuleAction_CHALLENGE in
  now <- clock ;;
  let cutoff := now - effective_window_minutes * minute_us in
  qualifying <- db_read (λ w, scraper_candidates cutoff (DJANGO_WAF_SCRAPER_404_MIN_REQUESTS conf)
                                ratio_floor (w_request_log w)) ;;
  rules <- allow_rules_for_run has_redis qualifying ;;
  log <- db_read w_request_log ;;
  for_each qualifying (λ '(ip, (total, count_404)),
    match rules with
    | None => ret []
    | Some rules =>
        excluded <- scraper_candidate_matches_allow_rule ip (user_agents_of cutoff ip log) rules ;;
        if excluded : bool then ret [] else
        let ratio := (inject_Z count_404 / inject_Z total)%Q in
        create_rule "detect_scraper_404_ratio" ("Auto: scraper 404 ratio from " +:+ ip) RuleType_IP
          MatchType_EXACT ip action (expiry_of now)
          (scaled_confidence ratio ratio_floor (1 - ratio_floor)%Q)
          [("total_requests", str_of_Z total); ("count_404", str_of_Z count_404);
           ("ratio", show_num (PyFloat ratio)); ("window_minutes", str_of_Z effective_window_minutes)]
    end).

(** *** [run_all_detectors] *)

Definition ceil_hours (window_minutes : Z) : Z := Z.max 1 (- (- window_minutes / 60)).

(** The counts of the summary, in its order; their sum is the total. *)
Definition run_all_detectors (has_redis : bool) (window_minutes : option Z) : M W (list Z * Z) :=
  let minutes d := default d window_minutes in
  ua <- detect_ua_rotation (minutes 5) None ;;
  subnet <- detect_subnet_burst (minutes 15) ;;
  farm <- detect_challenge_farms (match window_minutes with Some m => ceil_hours m | None => 24 end) ;;
  unsolved <- detect_unsolved_challenges (minutes 60) None None None ;;
  spray <- detect_cloud_spray (minutes 30) ;;
  scraper <- detect_scraper_404_ratio has_redis window_minutes ;;
  let counts := map (λ l, Z.of_nat (length l)) [ua; subnet; farm; unsolved; spray; scraper] in
  ret (counts, foldr Z.add 0 counts).
End Detectors.

(** *** [auto_rule_review_outcomes] *)

Definition auto_rule_review_outcomes (now window_hours : Z) (rows : list BlockRule)
  : list (ReviewStatus * Z) * Z :=
  let rows := List.filter (λ r, (bool_decide (br_source r = RuleSource_AUTO)
                                 || negb (bool_decide (br_review_status r = NOT_APPLICABLE)))
                                && (now - window_hours * hour_us <=? br_created_at r)) rows in
  let count s := count_if (λ r, bool_decide (br_review_status r = s)) rows in
  let counts := map (λ s, (s, count s))
    [PENDING_REVIEW; CONFIRMED; REJECTED; EXPIRED_UNREVIEWED; NOT_APPLICABLE] in
  (counts, foldr Z.add 0 (map snd counts)).

(** ** Invariants of the tables *)

Section Tables.
Context {R P : Type}.
Abbreviation W := (World R P).

(** The part of the world the database holds. *)
Definition tables (w : W) :=
  (w_block_rules w, w_allow_rules w, w_request_log w, w_tokens w, w_reputation w, w_concurrent w,
   w_db_up w).

(** An invariant that looks at the tables only. *)
Definition on_tables (I : W → Prop) : Prop := ∀ w w', tables w' = tables w → I w → I w'.

Lemma count_if_nonneg {A} (p : A → bool) l : 0 <= count_if p l.
Proof. unfold count_if. lia. Qed.

Lemma on_tables_modify (I : W → Prop) f : on_tables I → (∀ w, tables (f w) = tables w) → preserves I (modify f).
Proof. intros HI Hf. apply preserves_modify. intros w. by apply HI. Qed.

Lemma on_tables_redis (I : W → Prop) {A} (m : Z → M R A) : on_tables I → preserves I (on_redis m).
Proof. intros HI w Hw. unfold on_redis. destruct (m _ _) as [r rd]. by apply (HI w). Qed.

Lemma on_tables_read (I : W → Prop) {A} (f : W → A) : preserves I (db_read f).
Proof. intros w Hw. unfold db_read. by destruct (w_db_up w). Qed.

Lemma on_tables_draw (I : W → Prop) {A} (f : nat → A) : on_tables I → preserves I (draw f).
Proof. intros HI w Hw. by apply (HI w). Qed.

Lemma preserves_clock (I : W → Prop) : preserves I clock.
Proof. apply preserves_gets. Qed.

Lemma preserves_for_each {S A B} (I : S → Prop) (l : list A) (body : A → M S (list B)) :
  (∀ x, In x l → preserves I (body x)) → preserves I (for_each l body).
Proof.
  induction l as [|x l IH]; intros Hb; cbn [for_each]; [apply preserves_ret|].
  apply preserves_bind; [apply Hb; by left|intros r].
  apply preserves_bind; [apply IH; intros y Hy; apply Hb; by right|intros rs; apply preserves_ret].
Qed.
End Tables.

#[export] Hint Resolve on_tables_redis on_tables_read on_tables_draw preserves_clock : waf.

Section EngineTables.
Context {R P : Type} `{RedisClient R} `{ReEngine P} `{Dns} (conf : Conf).
Abbreviation W := (World R P).
Variable I : W → Prop.
Hypothesis HI : on_tables I.

Lemma memoise_tables p c : preserves I (memoise p c).
Proof. by apply on_tables_modify. Qed.

Lemma sleep_tables us : preserves I (sleep us).
Proof. by apply on_tables_modify. Qed.

Lemma set_process_cache_tables c v : preserves I (set_process_cache c v).
Proof. by apply on_tables_modify. Qed.

Lemma send_tables c : preserves I (send c).
Proof. by apply on_tables_redis. Qed.

Lemma get_key_tables k : preserves I (get_key k).
Proof. by apply on_tables_redis. Qed.

Hint Resolve memoise_tables sleep_tables set_process_cache_tables send_tables get_key_tables : waf.

Lemma compile_rule_tables rule : preserves I (compile_ua_rule rule).
Proof. unfold compile_ua_rule. monadic. Qed.
Hint Resolve compile_rule_tables : waf.

Lemma compile_tables rules : preserves I (compile_ua_patterns rules).
Proof. induction rules; simpl; monadic. Qed.
Hint Resolve compile_tables : waf.

Lemma lock_tables n : preserves I (acquire_lock_loop n).
Proof. induction n; cbn [acquire_lock_loop]; monadic. Qed.
Hint Resolve lock_tables : waf.

Lemma rebuild_tables v k : preserves I (rebuild_rule_cache v k).
Proof. unfold rebuild_rule_cache, acquire_rebuild_lock, rebuild_rule_cache_from_db, release_rebuild_lock. monadic. Qed.
Hint Resolve rebuild_tables : waf.

Lemma load_tables : preserves I load_rule_cache.
Proof. unfold load_rule_cache, read_cached. monadic. Qed.

Lemma rule_matches_tables rule ip ua : preserves I (rule_matches rule ip ua).
Proof. unfold rule_matches, match_ua, get_compiled_ua_regex. monadic. Qed.
Hint Resolve rule_matches_tables : waf.

Lemma rdns_tables rule ip : preserves I (rdns_satisfied conf rule ip).
Proof. unfold rdns_satisfied, verify_rdns. monadic. Qed.
Hint Resolve rdns_tables : waf.

Lemma check_allow_tables ip ua rules : preserves I (check_allow_rules conf ip ua rules).
Proof. induction rules; cbn [check_allow_rules]; unfold rule_id; monadic. Qed.

Lemma scraper_check_tables ip uas rules :
  preserves I (scraper_candidate_matches_allow_rule conf ip uas rules).
Proof.
  induction uas as [|ua uas IH]; cbn [scraper_candidate_matches_allow_rule]; [apply preserves_ret|].
  apply preserves_bind; [|intros []; [apply preserves_ret|done]].
  apply preserves_try; [|intros; apply preserves_ret].
  apply preserves_bind; [apply check_allow_tables|intros; apply preserves_ret].
Qed.
End EngineTables.

(** ** What one rule write does, without concurrent transactions *)

Lemma unique_lookup lk rows :
  auto_keys_unique rows →
  List.filter (lookup_matches lk) rows = [] ∨ ∃ old, List.filter (lookup_matches lk) rows = [old].
Proof.
  unfold auto_keys_unique. induction rows as [|r rows IH]; simpl; [by left|]. intros Hu.
  destruct (lookup_matches lk r) eqn:E.
  - right. exists r. f_equal. apply lookup_matches_key in E. rewrite E in Hu.
    apply NoDup_cons in Hu as [Hni _].
    destruct (List.filter _ rows) as [|x l] eqn:Ef; [done|]. exfalso. apply Hni.
    assert (Hx : In x (List.filter (lookup_matches lk) rows)) by (rewrite Ef; by left).
    apply filter_In in Hx as [Hx Hm]. apply lookup_matches_key in Hm.
    rewrite list_elem_of_omap. exists x. by rewrite list_elem_of_In.
  - apply IH. destruct (auto_key r); [by apply NoDup_cons in Hu as [_ ?]|done].
Qed.

Section WriteEffect.
Context {R P : Type} `{RedisClient R} (uuid4 : nat → Z).
Implicit Types w : World R P.

(** The three outcomes of [get_or_create_auto_rule]. *)
Inductive write_effect (lk : Lookup) (df : Defaults) (d : string) w (r : res (BlockRule * bool)) w' : Prop :=
| write_failed e :
    w_db_up w = false → r = Raise e → tables w' = tables w → write_effect lk df d w r w'
| write_refreshed old :
    List.filter (lookup_matches lk) (w_block_rules w) = [old] →
    r = Ok (refreshed (w_now w) df d old, false) →
    tables w' = tables {| w with w_block_rules :=
      map (λ x, if lookup_matches lk x then refreshed (w_now w) df d old else x) (w_block_rules w) |} →
    write_effect lk df d w r w'
| write_inserted row :
    List.filter (lookup_matches lk) (w_block_rules w) = [] →
    row = new_row (w_now w) (uuid4 (w_fresh w)) lk
            {| df with df_detectors := merge_detector_names "" d |} →
    r = Ok (row, true) →
    tables w' = tables {| w with w_block_rules := w_block_rules w ++ [row] |} →
    write_effect lk df d w r w'.

Lemma update_or_create_auto_effect lk df d w :
  w_concurrent w = [] → auto_keys_unique (w_block_rules w) →
  let o := update_or_create_auto_rule uuid4 lk df d w in
  write_effect lk df d w o.1 o.2 ∧ o.1 ≠ Raise MultipleObjectsReturned.
Proof.
  intros Hc Hu. destruct (w_db_up w) eqn:Hup.
  - destruct (unique_lookup lk _ Hu) as [Hf|[old Hf]].
    + unfold update_or_create_auto_rule, bind. rewrite write_defaults_eq by done.
      rewrite Hf. cbn [first_row hd_error sort_by foldr fst snd]. unfold try_except.
      match goal with |- context [update_or_create uuid4 lk ?df' w] =>
        destruct (update_or_create_insert uuid4 lk df' w Hup Hc Hf) as [rd ->] end.
      split; [|done]. by eapply write_inserted.
    + destruct (auto_rule_refresh uuid4 lk df d w old Hup Hf) as (rd & -> & _).
      split; [|done]. by eapply write_refreshed.
  - unfold update_or_create_auto_rule, auto_rule_write_defaults, select, db_read, bind. rewrite Hup.
    split; [|done]. by eapply write_failed.
Qed.

Lemma get_or_create_effect conf name rt mt pat act expiry d confidence ev cr w :
  w_concurrent w = [] → auto_keys_unique (w_block_rules w) →
  let o := get_or_create_auto_rule uuid4 conf name rt mt pat act expiry false d confidence ev cr w in
  write_effect {| lk_rule_type := rt; lk_pattern := pat; lk_action := act |}
    (auto_defaults conf name mt expiry d confidence ev) d w o.1 o.2.
Proof.
  intros Hc Hu. unfold get_or_create_auto_rule, try_except.
  match goal with |- context [update_or_create_auto_rule uuid4 ?lk ?df d w] =>
    destruct (update_or_create_auto_effect lk df d w Hc Hu) as [He Hne] end.
  destruct (update_or_create_auto_rule _ _ _ _ _) as [[a|e] w1]; [exact He|]. cbn in He, Hne.
  rewrite bool_decide_false by congruence. exact He.
Qed.
End WriteEffect.

(** ** The run as a whole *)

Section Run.
Context {R P : Type} `{RedisClient R} `{ReEngine P} `{Dns} (uuid4 : nat → Z) (conf : Conf).
Context (dry_run cr : bool).
Abbreviation W := (World R P).
Variable I : W → Prop.
Hypothesis HI : on_tables I.
Hypothesis Hwrite : ∀ d name rt mt pat act expiry confidence ev,
  preserves I (create_rule uuid4 conf dry_run cr d name rt mt pat act expiry confidence ev).

Lemma for_each_tables {A B} (l : list A) (body : A → M W (list B)) :
  (∀ x, preserves I (body x)) → preserves I (for_each l body).
Proof. intros Hb. apply preserves_for_each. intros; apply Hb. Qed.

Hint Resolve for_each_tables Hwrite scraper_check_tables load_tables : waf.

Lemma allow_rules_tables b c : preserves I (allow_rules_for_run b c).
Proof. unfold allow_rules_for_run. monadic. Qed.
Hint Resolve allow_rules_tables : waf.

(** Whatever one rule write preserves, a whole run preserves. *)
Lemma run_preserves has_redis window :
  preserves I (run_all_detectors uuid4 conf dry_run cr has_redis window).
Proof.
  unfold run_all_detectors, detect_ua_rotation, detect_subnet_burst, detect_challenge_farms,
    detect_unsolved_challenges, detect_unsolved_per_ip, detect_unsolved_by_subnet,
    detect_cloud_spray, cloud_spray_ua, detect_scraper_404_ratio.
  repeat first [progress monadic | apply for_each_tables].
Qed.
End Run.

(** ** Operator decisions *)

(** [r] is [r0] refreshed, with the operator's decision on it unchanged. *)
Definition same_decision (r0 r : BlockRule) : Prop :=
  br_id r = br_id r0 ∧ auto_key r = auto_key r0 ∧ br_is_active r = br_is_active r0 ∧
  br_review_status r = br_review_status r0.

Definition decisions_kept (rows0 rows : list BlockRule) : Prop :=
  ∀ r0, In r0 rows0 → reviewed (br_review_status r0) = true → ∃ r, In r rows ∧ same_decision r0 r.

(** The rows no detector owns: manual and feed rules. *)
Definition not_auto (r : BlockRule) : bool := negb (bool_decide (br_source r = RuleSource_AUTO)).

Lemma lookup_matches_auto lk r : lookup_matches lk r = true → not_auto r = false.
Proof. unfold lookup_matches, not_auto. intros Hm. bool_hyps. by rewrite bool_decide_true. Qed.

Lemma not_auto_replace lk row rows :
  not_auto row = false →
  List.filter not_auto (map (λ x, if lookup_matches lk x then row else x) rows)
  = List.filter not_auto rows.
Proof.
  intros Hrow. induction rows as [|x rows IH]; [done|]. simpl.
  destruct (lookup_matches lk x) eqn:E.
  - rewrite Hrow, (lookup_matches_auto _ _ E). exact IH.
  - destruct (not_auto x); [f_equal|]; exact IH.
Qed.

Lemma decisions_refresh lk now df d old rows0 rows :
  List.filter (lookup_matches lk) rows = [old] → decisions_kept rows0 rows →
  decisions_kept rows0 (map (λ x, if lookup_matches lk x then refreshed now df d old else x) rows).
Proof.
  intros Hf Hk r0 Hr0 Hrev. destruct (Hk r0 Hr0 Hrev) as (r & Hr & Hs).
  exists (if lookup_matches lk r then refreshed now df d old else r).
  split; [by apply in_map_iff; exists r|]. destruct (lookup_matches lk r) eqn:E; [|done].
  assert (Hin : In r (List.filter (lookup_matches lk) rows)) by by apply filter_In.
  rewrite Hf in Hin. destruct Hin as [<-|[]].
  destruct Hs as (? & Hk' & ? & Hst). unfold same_decision, refreshed, apply_defaults, auto_key in *.
  cbn. rewrite Hst, Hrev. done.
Qed.

Section RunInvariant.
Context {R P : Type} `{RedisClient R} `{ReEngine P} `{Dns} (uuid4 : nat → Z) (conf : Conf).
Context (dry_run cr : bool) (rows0 : list BlockRule).
Abbreviation W := (World R P).

(** What a run keeps, started on the rows [rows0]. *)
Definition run_inv (w : W) : Prop :=
  w_concurrent w = [] ∧ auto_keys_unique (w_block_rules w) ∧
  decisions_kept rows0 (w_block_rules w) ∧
  List.filter not_auto (w_block_rules w) = List.filter not_auto rows0.

Lemma run_inv_tables : on_tables run_inv.
Proof. intros w w' Ht. unfold run_inv, tables in *. injection Ht as -> _ _ _ _ -> _. done. Qed.

Lemma create_rule_dry d name rt mt pat act expiry confidence ev (w : W) :
  tables (create_rule uuid4 conf true cr d name rt mt pat act expiry confidence ev w).2 = tables w.
Proof.
  unfold create_rule, get_or_create_auto_rule, select, db_read, clock, gets, draw, bind, ret.
  by destruct (w_db_up w); [|done]; destruct (first_row _).
Qed.

Lemma create_rule_inv d name rt mt pat act expiry confidence ev :
  preserves run_inv (create_rule uuid4 conf dry_run cr d name rt mt pat act expiry confidence ev).
Proof.
  destruct dry_run.
  { intros w Hw. eapply run_inv_tables; [apply create_rule_dry|done]. }
  apply preserves_bind; [|intros; apply preserves_ret]. intros w (Hc & Hu & Hd & Hn).
  pose proof (get_or_create_effect uuid4 conf name rt mt pat act (Some expiry) d (Some confidence)
                (Some ev) cr w Hc Hu) as He.
  destruct (get_or_create_auto_rule _ _ _ _ _ _ _ _ _ _ _ _ _ w) as [r w'].
  destruct He as [e _ _ Ht|old Hf _ Ht|row Hf -> _ Ht]; eapply run_inv_tables; try exact Ht; [done| |];
    (split; [done|]); cbn.
  - assert (Hold : lookup_matches {| lk_rule_type := rt; lk_pattern := pat; lk_action := act |} old = true).
    { apply (filter_In _ _ (w_block_rules w)). rewrite Hf. by left. }
    split_and!; [by apply unique_replace|by apply decisions_refresh|].
    rewrite <- Hn. apply not_auto_replace. by eapply lookup_matches_auto, Hold.
  - split_and!.
    + apply unique_insert; [|done]. apply existsb_false_iff. intros x Hx.
      destruct (lookup_matches _ x) eqn:E; [|done].
      assert (Hin : In x (List.filter (lookup_matches
        {| lk_rule_type := rt; lk_pattern := pat; lk_action := act |}) (w_block_rules w)))
        by by apply filter_In.
      by rewrite Hf in Hin.
    + intros r0 Hr0 Hrev. destruct (Hd r0 Hr0 Hrev) as (r1 & Hr & Hs). exists r1.
      split; [apply in_app_iff; by left|done].
    + rewrite List.filter_app, Hn. apply app_nil_r.
Qed.
End RunInvariant.

(** ** Counting by subnet *)

(** What the addresses of [subnet] add up to. *)
Fixpoint subnet_weight (subnet : string) (ips : list (string * Z)) : Z :=
  match ips with
  | [] => 0
  | (ip, n) :: ips =>
      (if bool_decide (get_subnet_prefix ip = Ok subnet) then n else 0) + subnet_weight subnet ips
  end.

(** The sum of the values of a key. *)
Fixpoint dict_sum (k : string) (d : list (string * Z)) : Z :=
  match d with
  | [] => 0
  | (k', n) :: d => (if bool_decide (k' = k) then n else 0) + dict_sum k d
  end.

Lemma dict_sum_fresh k d : k ∉ map fst d → dict_sum k d = 0.
Proof.
  induction d as [|[k' m] d IH]; simpl; [done|].
  rewrite elem_of_cons. intros Hni. apply Decidable.not_or in Hni as [Hne Hni].
  rewrite bool_decide_false by congruence. by rewrite IH.
Qed.

Lemma dict_sum_In k n d : NoDup (map fst d) → In (k, n) d → dict_sum k d = n.
Proof.
  induction d as [|[k' m] d IH]; simpl; [done|]. intros [Hni Hnd]%NoDup_cons [[= -> ->]|Hin].
  - rewrite bool_decide_true by done. rewrite dict_sum_fresh by done. lia.
  - rewrite bool_decide_false; [by rewrite IH|]. intros ->. apply Hni.
    apply list_elem_of_In, in_map_iff. by exists (k, n).
Qed.

Lemma add_count_sum k k' n d :
  dict_sum k (add_count k' n d) = dict_sum k d + (if bool_decide (k' = k) then n else 0).
Proof.
  induction d as [|[k1 m] d IH]; simpl; [lia|].
  destruct (bool_decide_reflect (k1 = k')) as [->|Hne]; simpl; [case_bool_decide; lia|rewrite IH; lia].
Qed.

Lemma add_count_keys k n d x : x ∈ map fst (add_count k n d) ↔ x = k ∨ x ∈ map fst d.
Proof.
  induction d as [|[k1 m] d IH]; simpl; [set_solver|].
  destruct (bool_decide_reflect (k1 = k)) as [->|Hne]; simpl; rewrite ?elem_of_cons, ?IH; set_solver.
Qed.

Lemma add_count_NoDup k n d : NoDup (map fst d) → NoDup (map fst (add_count k n d)).
Proof.
  induction d as [|[k1 m] d IH]; simpl; [intros _; apply NoDup_singleton|].
  destruct (bool_decide_reflect (k1 = k)) as [->|Hne]; simpl; [done|].
  intros [Hni Hnd]%NoDup_cons. apply NoDup_cons. rewrite add_count_keys. naive_solver.
Qed.

Section SubnetCounts.
Let add := λ (d : list (string * Z)) '(ip, n),
  match get_subnet_prefix ip with Ok subnet => add_count subnet n d | Raise _ => d end.

Lemma subnet_fold ips d :
  (∀ k, dict_sum k (fold_left add ips d) = dict_sum k d + subnet_weight k ips) ∧
  (NoDup (map fst d) → NoDup (map fst (fold_left add ips d))) ∧
  (∀ k, k ∈ map fst (fold_left add ips d) ↔
        k ∈ map fst d ∨ ∃ ip n, In (ip, n) ips ∧ get_subnet_prefix ip = Ok k).
Proof.
  revert d. induction ips as [|[ip n] ips IH]; intros d;
    cbn [fold_left subnet_weight In].
  { split_and!; [intros; lia|done|naive_solver]. }
  destruct (IH (add d (ip, n))) as (Hsum & Hnd & Hkeys).
  split_and!.
  - intros k. rewrite Hsum. unfold add. destruct (get_subnet_prefix ip) as [s|e] eqn:E.
    + rewrite add_count_sum. destruct (bool_decide_reflect (s = k)) as [->|Hne].
      * rewrite bool_decide_true by done. lia.
      * rewrite bool_decide_false by congruence. lia.
    + rewrite bool_decide_false by congruence. lia.
  - intros Hd. apply Hnd. unfold add. destruct (get_subnet_prefix ip); [by apply add_count_NoDup|done].
  - intros k. rewrite Hkeys. unfold add. destruct (get_subnet_prefix ip) as [s|e] eqn:E.
    + rewrite add_count_keys. split.
      * intros [[->|Hk]|(ip' & m & Hin & Hp)]; [right; exists ip, n; auto|by left|right; exists ip', m; auto].
      * intros [Hk|(ip' & m & [[= <- <-]|Hin] & Hp)]; [auto|left; left; congruence|right; eauto].
    + split; [naive_solver|]. intros [Hk|(ip' & m & [[= <- <-]|Hin] & Hp)]; [auto|congruence|right; eauto].
Qed.
End SubnetCounts.

(** The dictionary holds each subnet once, with the total of its addresses. *)
Lemma subnet_counts_NoDup ips : NoDup (map fst (subnet_counts ips)).
Proof. unfold subnet_counts. apply subnet_fold. apply NoDup_nil_2. Qed.

Lemma subnet_counts_total ips s n : In (s, n) (subnet_counts ips) → n = subnet_weight s ips.
Proof.
  intros Hin. rewrite <- (dict_sum_In s n (subnet_counts ips)); [|apply subnet_counts_NoDup|done].
  unfold subnet_counts. destruct (subnet_fold ips []) as (-> & _ & _). done.
Qed.

Lemma subnet_counts_keys ips s :
  s ∈ map fst (subnet_counts ips) ↔ ∃ ip n, In (ip, n) ips ∧ get_subnet_prefix ip = Ok s.
Proof.
  unfold subnet_counts. destruct (subnet_fold ips []) as (_ & _ & ->). simpl.
  split; [|naive_solver]. intros [Hn|?]; [by apply elem_of_nil in Hn|done].
Qed.

(** The dictionary of subnets holds every subnet with a positive weight. *)
Lemma subnet_In s n (ips : list (string * Z)) :
  subnet_weight s ips = n → 0 < n → In (s, n) (subnet_counts ips).
Proof.
  intros Hw Hpos. assert (Hk : s ∈ map fst (subnet_counts ips)).
  { apply subnet_counts_keys. revert n Hw Hpos.
    induction ips as [|[ip m] ips IH]; cbn [subnet_weight]; intros n Hw Hpos; [lia|].
    case_bool_decide; [exists ip, m; by split; [left|]|].
    destruct (IH n) as (ip' & m' & ? & ?); [lia..|]. exists ip', m'. split; [by right|done]. }
  apply list_elem_of_In, in_map_iff in Hk as ([s' m] & [= ->] & Hm).
  by rewrite <- Hw, <- (subnet_counts_total _ _ _ Hm).
Qed.

Definition in_subnet (subnet : string) (r : RequestLog) : bool :=
  bool_decide (get_subnet_prefix (rl_ip_address r) = Ok subnet).

Lemma count_if_cons {A} (p : A → bool) x l : count_if p (x :: l) = (if p x then 1 else 0) + count_if p l.
Proof. unfold count_if. simpl. destruct (p x); cbn [length]; lia. Qed.

Lemma count_if_filter {A} (p q : A → bool) l :
  count_if p (List.filter q l) = count_if (λ x, q x && p x) l.
Proof.
  induction l as [|x l IH]; [done|]. rewrite count_if_cons. cbn [List.filter].
  destruct (q x); [rewrite count_if_cons|]; rewrite IH; simpl; lia.
Qed.

Lemma weight_cons s r rows gs :
  subnet_weight s (map (λ ip, (ip, count_if (of_ip ip) (r :: rows))) gs) =
  subnet_weight s (map (λ ip, (ip, count_if (of_ip ip) rows)) gs) +
  subnet_weight s (map (λ ip, (ip, if of_ip ip r then 1 else 0)) gs).
Proof.
  induction gs as [|g gs IH]; [done|]. cbn [map subnet_weight]. rewrite IH, count_if_cons.
  case_bool_decide; lia.
Qed.

Lemma weight_one s r gs :
  NoDup gs → rl_ip_address r ∈ gs →
  subnet_weight s (map (λ ip, (ip, if of_ip ip r then 1 else 0)) gs) = if in_subnet s r then 1 else 0.
Proof.
  assert (Hz : ∀ l, rl_ip_address r ∉ l →
    subnet_weight s (map (λ ip, (ip, if of_ip ip r then 1 else 0)) l) = 0).
  { induction l as [|g l IH]; [done|]. rewrite not_elem_of_cons. intros [Hne Hni].
    cbn [map subnet_weight]. rewrite IH by done. unfold of_ip. rewrite (bool_decide_false (_ = g)) by done.
    by case_bool_decide. }
  induction gs as [|g gs IH]; [by intros _ ?%elem_of_nil|]. intros [Hni Hnd]%NoDup_cons Hin.
  cbn [map subnet_weight]. destruct (decide (rl_ip_address r = g)) as [<-|Hne].
  - rewrite Hz by done. unfold of_ip, in_subnet. rewrite (bool_decide_true (_ = rl_ip_address r)) by done. lia.
  - apply elem_of_cons in Hin as [?|Hin]; [done|]. rewrite IH by done.
    unfold of_ip. rewrite (bool_decide_false (_ = g)) by done. by case_bool_decide.
Qed.

(** Summing the per-address counts of a subnet counts its rows. *)
Lemma weight_groups s rows :
  subnet_weight s (map (λ ip, (ip, count_if (of_ip ip) rows)) (groups rl_ip_address rows))
  = count_if (in_subnet s) rows.
Proof.
  assert (Hgen : ∀ gs, NoDup gs → (∀ r, In r rows → rl_ip_address r ∈ gs) →
    subnet_weight s (map (λ ip, (ip, count_if (of_ip ip) rows)) gs) = count_if (in_subnet s) rows).
  { intros gs Hnd. induction rows as [|r rows IH]; intros Hall.
    - clear. induction gs as [|g gs IH]; [done|]. cbn [map subnet_weight]. rewrite IH. by case_bool_decide.
    - rewrite weight_cons, count_if_cons, weight_one by (done || apply Hall; by left).
      rewrite IH; [lia|]. intros x Hx. apply Hall. by right. }
  apply Hgen; unfold groups; [apply NoDup_remove_dups|].
  intros r Hr. rewrite elem_of_remove_dups. apply list_elem_of_In, in_map_iff. by exists r.
Qed.

Lemma weight_challenged s cutoff log :
  subnet_weight s (challenged_counts cutoff log)
  = count_if (λ r, since cutoff r && challenged_row r && in_subnet s r) log.
Proof. unfold challenged_counts. by rewrite weight_groups, count_if_filter. Qed.

Lemma weight_ones s rows :
  subnet_weight s (map (λ ip, (ip, 1)) (map rl_ip_address rows)) = count_if (in_subnet s) rows.
Proof.
  induction rows as [|r rows IH]; [done|]. rewrite count_if_cons. cbn [map subnet_weight].
  rewrite IH. done.
Qed.

(** ** Loops *)

Section ForEach.
Context {S A B : Type}.

(** What a round adds comes from one element, in a state the loop reaches. *)
Lemma for_each_In (I : S → Prop) (l : list A) (body : A → M S (list B)) s rs s' b :
  (∀ x, In x l → preserves I (body x)) → I s →
  for_each l body s = (Ok rs, s') → In b rs →
  ∃ x s1 s2 bs, In x l ∧ I s1 ∧ body x s1 = (Ok bs, s2) ∧ In b bs.
Proof.
  revert s rs. induction l as [|x l IH]; intros s rs Hp Hs; cbn [for_each].
  { unfold ret. intros [= <- <-] []. }
  intros Hrun Hb. apply bind_inv_Ok in Hrun as (r & s1 & Hx & Hrun).
  apply bind_inv_Ok in Hrun as (rest & s2 & Hl & Hrun). unfold ret in Hrun. simplify_eq.
  apply in_app_iff in Hb as [Hb|Hb].
  - exists x, s, s1, r. auto with datatypes.
  - destruct (IH s1 rest) as (y & sy & sy' & bs & Hy & ?); try done.
    + intros y Hy. apply Hp. by right.
    + exact (preserves_Ok _ _ _ _ _ (Hp x (or_introl eq_refl)) Hs Hx).
    + exists y, sy, sy', bs. naive_solver.
Qed.

(** The same with an invariant per key that the rounds of other keys keep. *)
Lemma for_each_In_key {K} (key : A → K) (I : K → S → Prop) (l : list A) (body : A → M S (list B)) s rs s' b :
  NoDup (map key l) →
  (∀ k y, In y l → key y ≠ k → preserves (I k) (body y)) → (∀ k, In k (map key l) → I k s) →
  for_each l body s = (Ok rs, s') → In b rs →
  ∃ x s1 s2 bs, In x l ∧ I (key x) s1 ∧ body x s1 = (Ok bs, s2) ∧ In b bs.
Proof.
  revert s rs. induction l as [|x l IH]; intros s rs Hnd Hp Hs; cbn [for_each].
  { unfold ret. intros [= <- <-] []. }
  intros Hrun Hb. apply bind_inv_Ok in Hrun as (r & s1 & Hx & Hrun).
  apply bind_inv_Ok in Hrun as (rest & s2 & Hl & Hrun). unfold ret in Hrun. simplify_eq.
  cbn [map] in *. apply NoDup_cons in Hnd as [Hni Hnd]. apply in_app_iff in Hb as [Hb|Hb].
  - exists x, s, s1, r. auto with datatypes.
  - destruct (IH s1 rest) as (y & sy & sy' & bs & Hy & ?); try done.
    + intros k y Hy. apply Hp. by right.
    + intros k Hk. eapply preserves_Ok; [|apply Hs; by right|exact Hx].
      apply Hp; [by left|]. intros <-. by rewrite list_elem_of_In in Hni.
    + exists y, sy, sy', bs. naive_solver.
Qed.

(** A loop whose rounds succeed under an invariant succeeds. *)
Lemma for_each_Ok (I : S → Prop) (l : list A) (body : A → M S (list B)) s :
  (∀ x s, In x l → I s → ∃ bs s', body x s = (Ok bs, s') ∧ I s') → I s →
  ∃ rs s', for_each l body s = (Ok rs, s') ∧ I s'.
Proof.
  revert s. induction l as [|x l IH]; intros s Hb Hs; cbn [for_each].
  { by exists [], s. }
  destruct (Hb x s (or_introl eq_refl) Hs) as (bs & s1 & Hx & H1).
  destruct (IH s1 (λ y s Hy, Hb y s (or_intror Hy)) H1) as (rs & s2 & Hl & H2).
  exists (bs ++ rs), s2. by rewrite (bind_Ok _ _ _ _ _ Hx), (bind_Ok _ _ _ _ _ Hl).
Qed.

(** ... and establishes what one of its rounds establishes and the others keep. *)
Lemma for_each_reaches (I Q : S → Prop) (l : list A) (body : A → M S (list B)) x0 s :
  (∀ x s, In x l → I s →
     ∃ bs s', body x s = (Ok bs, s') ∧ I s' ∧ (Q s → Q s') ∧ (x = x0 → Q s')) →
  In x0 l → I s →
  ∃ rs s', for_each l body s = (Ok rs, s') ∧ I s' ∧ Q s'.
Proof.
  revert s. induction l as [|x l IH]; intros s Hb Hin Hs; [done|]. destruct Hin as [->|Hin];
    cbn [for_each].
  - destruct (Hb x0 s (or_introl eq_refl) Hs) as (bs & s1 & Hx & H1 & _ & HQ).
    destruct (for_each_Ok (λ s, I s ∧ Q s) l body s1) as (rs & s2 & Hl & H2).
    + intros y sy Hy [HI HQy]. destruct (Hb y sy (or_intror Hy) HI) as (b & s' & ? & ? & ? & _). eauto 6.
    + auto.
    + exists (bs ++ rs), s2. by rewrite (bind_Ok _ _ _ _ _ Hx), (bind_Ok _ _ _ _ _ Hl).
  - destruct (Hb x s (or_introl eq_refl) Hs) as (bs & s1 & Hx & H1 & _ & _).
    destruct (IH s1) as (rs & s2 & Hl & H2); [|done..|].
    + intros y sy Hy. apply Hb. by right.
    + exists (bs ++ rs), s2. by rewrite (bind_Ok _ _ _ _ _ Hx), (bind_Ok _ _ _ _ _ Hl).
Qed.
End ForEach.

(** ** The rule a round reports, and the rules it leaves *)

Lemma first_row_In rows r : first_row rows = Some r → In r rows.
Proof.
  unfold first_row. intros Hh. apply (sort_by_In meta_order). destruct (sort_by meta_order rows); [done|].
  injection Hh as ->. by left.
Qed.

Section Rounds.
Context {R P : Type} `{RedisClient R} (uuid4 : nat → Z) (conf : Conf).
Implicit Types w : World R P.

Lemma new_row_matches t id lk df : lookup_matches lk (new_row t id lk df) = true.
Proof. unfold lookup_matches. cbn. by rewrite !bool_decide_true. Qed.

Lemma update_or_create_matches lk df w row b w' :
  update_or_create uuid4 lk df w = (Ok (row, b), w') → lookup_matches lk row = true.
Proof.
  intros Hrun. unfold update_or_create in Hrun. apply bind_inv_Ok in Hrun as (found & w1 & Hsel & Hrun).
  unfold select, db_read in Hsel. destruct (w_db_up w); [|done]. injection Hsel as <- <-.
  apply bind_inv_Ok in Hrun as (t & w2 & _ & Hrun).
  destruct (List.filter (lookup_matches lk) (w_block_rules w)) as [|old [|? ?]] eqn:Ef; [| |done].
  - apply bind_inv_Ok in Hrun as (u & w3 & _ & Hrun). apply bind_inv_Ok in Hrun as (id & w4 & _ & Hrun).
    apply bind_inv_Ok in Hrun as (rows & w5 & _ & Hrun). destruct (existsb _ rows); [done|].
    apply bind_inv_Ok in Hrun as (? & w6 & _ & Hrun). apply bind_inv_Ok in Hrun as (? & w7 & _ & Hrun).
    unfold ret in Hrun. simplify_eq. apply new_row_matches.
  - apply bind_inv_Ok in Hrun as (rows & w5 & _ & Hrun).
    apply bind_inv_Ok in Hrun as (? & w6 & _ & Hrun). apply bind_inv_Ok in Hrun as (? & w7 & _ & Hrun).
    unfold ret in Hrun. simplify_eq. rewrite lookup_matches_apply.
    apply (filter_In _ _ (w_block_rules w)). rewrite Ef. by left.
Qed.

Lemma update_or_create_auto_matches lk df d w row b w' :
  update_or_create_auto_rule uuid4 lk df d w = (Ok (row, b), w') → lookup_matches lk row = true.
Proof.
  intros Hrun. unfold update_or_create_auto_rule in Hrun. apply bind_inv_Ok in Hrun as (p & w1 & _ & Hrun).
  unfold try_except in Hrun. destruct (update_or_create uuid4 lk p.2 w1) as [[[r c]|e] w2] eqn:E.
  - simplify_eq. by eapply update_or_create_matches.
  - destruct (negb _); [done|]. apply bind_inv_Ok in Hrun as ([[o|] q] & w3 & _ & Hrun); [|done].
    cbn in Hrun. by eapply update_or_create_matches.
Qed.

(** What a round reports is a rule of its key, dry run or not. *)
Lemma create_rule_matches dry cr d name rt mt pat act expiry confidence ev w l w' r :
  create_rule uuid4 conf dry cr d name rt mt pat act expiry confidence ev w = (Ok l, w') → In r l →
  lookup_matches {| lk_rule_type := rt; lk_pattern := pat; lk_action := act |} r = true.
Proof.
  unfold create_rule. intros Hrun Hin. apply bind_inv_Ok in Hrun as ([row b] & w1 & Hg & Hrun).
  unfold ret in Hrun. cbn in Hrun. destruct b; injection Hrun as <- <-; [|done].
  destruct Hin as [<-|[]].
  unfold get_or_create_auto_rule in Hg. destruct dry.
  - apply bind_inv_Ok in Hg as (found & w2 & Hsel & Hg). unfold select, db_read in Hsel.
    destruct (w_db_up w); [|done]. injection Hsel as <- <-.
    destruct (first_row _) as [e|] eqn:Ef.
    + unfold ret in Hg. simplify_eq. by apply first_row_In, filter_In in Ef as [_ ?].
    + apply bind_inv_Ok in Hg as (t & w3 & _ & Hg). apply bind_inv_Ok in Hg as (id & w4 & _ & Hg).
      unfold ret in Hg. simplify_eq. apply new_row_matches.
  - unfold try_except in Hg.
    match type of Hg with context [update_or_create_auto_rule uuid4 ?lk ?df d w] =>
      destruct (update_or_create_auto_rule uuid4 lk df d w) as [[[r c]|e] w2] eqn:E end.
    + simplify_eq. by eapply update_or_create_auto_matches.
    + case_bool_decide; [|done]. apply bind_inv_Ok in Hg as (n & w3 & _ & Hg).
      by eapply update_or_create_auto_matches.
Qed.

(** The database is up, undisturbed, and its automatic keys are unique. *)
Definition calm (w : World R P) : Prop :=
  w_db_up w = true ∧ w_concurrent w = [] ∧ auto_keys_unique (w_block_rules w).

Definition has_rule (lk : Lookup) (w : World R P) : Prop :=
  ∃ r, In r (w_block_rules w) ∧ lookup_matches lk r = true.

Lemma create_rule_calm cr d name rt mt pat act expiry confidence ev w :
  let lk := {| lk_rule_type := rt; lk_pattern := pat; lk_action := act |} in
  calm w →
  ∃ l w', create_rule uuid4 conf false cr d name rt mt pat act expiry confidence ev w = (Ok l, w') ∧
    calm w' ∧ has_rule lk w' ∧ (∀ lk', has_rule lk' w → has_rule lk' w').
Proof.
  intros lk (Hup & Hc & Hu).
  pose proof (create_rule_inv uuid4 conf false cr (w_block_rules w) d name rt mt pat act expiry
                confidence ev w) as Hinv.
  destruct Hinv as (_ & Hu' & _).
  { split_and!; [done..|intros r0 Hr0 _; exists r0; by split|done]. }
  unfold create_rule, bind in *. unfold ret in *.
  pose proof (get_or_create_effect uuid4 conf name rt mt pat act (Some expiry) d (Some confidence)
                (Some ev) cr w Hc Hu) as He.
  destruct (get_or_create_auto_rule _ _ _ _ _ _ _ _ _ _ _ _ _ w) as [r w']. cbn [fst snd] in He. fold lk in He.
  destruct He as [e Hdown _ _|old Hf -> Ht|row Hf Hrow -> Ht]; [congruence| |]; cbn in *;
    injection Ht as Hrows _ _ _ _ Hc' Hup'; eexists _, w'; (split; [reflexivity|]);
    (split; [by unfold calm; rewrite Hc', Hup'|]); unfold has_rule; rewrite Hrows.
  - assert (Hold : In old (List.filter (lookup_matches lk) (w_block_rules w))) by (rewrite Hf; by left).
    apply filter_In in Hold as [Hold Hm]. split.
    + eexists. split; [apply in_map_iff; exists old; split; [by rewrite Hm|done]|]. exact Hm.
    + intros lk' (x & Hx & Hmx). eexists. split; [apply in_map_iff; exists x; by split|].
      destruct (lookup_matches lk x) eqn:E; [|done].
      assert (Hin : In x (List.filter (lookup_matches lk) (w_block_rules w))) by by apply filter_In.
      rewrite Hf in Hin. destruct Hin as [<-|[]]. exact Hmx.
  - split.
    + exists row. split; [apply in_app_iff; right; by left|]. rewrite Hrow. apply new_row_matches.
    + intros lk' (x & Hx & Hmx). exists x. split; [apply in_app_iff; by left|done].
Qed.
End Rounds.

(** ** Rows of other keys *)

Lemma filter_and {A} (p q : A → bool) l :
  List.filter (λ x, p x && q x) l = List.filter q (List.filter p l).
Proof.
  induction l as [|x l IH]; [done|]. simpl. destruct (p x); simpl; [|done]. by rewrite IH.
Qed.

Lemma lookup_matches_other lk lk' r :
  lk ≠ lk' → lookup_matches lk r = true → lookup_matches lk' r = false.
Proof.
  intros Hne Hm. destruct (lookup_matches lk' r) eqn:E; [|done]. exfalso. apply Hne.
  apply lookup_matches_key in Hm, E. destruct lk, lk'. cbn in *. congruence.
Qed.

Section OtherKeys.
Context {R P : Type} `{RedisClient R} (uuid4 : nat → Z) (conf : Conf) (dry cr : bool).

(** The rows of the key [lk] are still [rows]. *)
Definition key_rows (lk : Lookup) (rows : list BlockRule) (w : World R P) : Prop :=
  w_concurrent w = [] ∧ auto_keys_unique (w_block_rules w) ∧
  List.filter (lookup_matches lk) (w_block_rules w) = rows.

Lemma create_rule_frame lk rows d name rt mt pat act expiry confidence ev :
  {| lk_rule_type := rt; lk_pattern := pat; lk_action := act |} ≠ lk →
  preserves (key_rows lk rows)
    (create_rule uuid4 conf dry cr d name rt mt pat act expiry confidence ev).
Proof.
  intros Hne w (Hc & Hu & Hf).
  destruct (create_rule_inv uuid4 conf dry cr (w_block_rules w) d name rt mt pat act expiry
              confidence ev w) as (Hc' & Hu' & _).
  { split_and!; [done..|intros r0 Hr0 _; exists r0; by split|done]. }
  split_and!; [done|done|]. rewrite <- Hf. clear Hc' Hu'. destruct dry.
  { pose proof (create_rule_dry uuid4 conf cr d name rt mt pat act expiry confidence ev w) as Ht.
    injection Ht as -> _. done. }
  unfold create_rule, bind, ret.
  pose proof (get_or_create_effect uuid4 conf name rt mt pat act (Some expiry) d (Some confidence)
                (Some ev) cr w Hc Hu) as He.
  set (lk1 := {| lk_rule_type := rt; lk_pattern := pat; lk_action := act |}) in *.
  destruct (get_or_create_auto_rule _ _ _ _ _ _ _ _ _ _ _ _ _ w) as [r w']. cbn [fst snd] in He.
  destruct He as [e _ -> Ht|old Hf1 -> Ht|row Hf1 Hrow -> Ht]; injection Ht as Hrows _; cbn; rewrite Hrows;
    [done| |].
  - assert (Hold : lookup_matches lk1 old = true).
    { apply (filter_In _ _ (w_block_rules w)). rewrite Hf1. by left. }
    clear Hf Hf1 Hrows Hu. induction (w_block_rules w) as [|x l IH]; [done|]. simpl.
    destruct (lookup_matches lk1 x) eqn:E.
    + change (lookup_matches lk (refreshed _ _ _ old)) with (lookup_matches lk old).
      by rewrite (lookup_matches_other _ _ _ Hne E), (lookup_matches_other _ _ _ Hne Hold), IH.
    + rewrite IH; done.
  - rewrite List.filter_app. simpl.
    rewrite (lookup_matches_other lk1 lk row Hne); [by rewrite app_nil_r|].
    rewrite Hrow. apply new_row_matches.
Qed.
End OtherKeys.

(** ** The escalation of a subnet, and the exclusion of scrapers *)

Definition subnet_challenge (subnet : string) : Lookup :=
  {| lk_rule_type := RuleType_CIDR; lk_pattern := subnet; lk_action := RuleAction_CHALLENGE |}.

Lemma already_challenged_rows subnet rows rows' :
  List.filter (lookup_matches (subnet_challenge subnet)) rows =
  List.filter (lookup_matches (subnet_challenge subnet)) rows' →
  already_challenged subnet rows = already_challenged subnet rows'.
Proof.
  intros Hf. unfold already_challenged. fold (subnet_challenge subnet). rewrite !filter_and. by rewrite Hf.
Qed.

Section Escalation.
Context {R P : Type} `{RedisClient R} (uuid4 : nat → Z) (conf : Conf) (dry cr : bool).
Implicit Types w : World R P.

Lemma per_ip_frame subnet rows ips solved now cutoff window min_challenged ratio :
  preserves (key_rows (R:=R) (P:=P) (subnet_challenge subnet) rows)
    (detect_unsolved_per_ip uuid4 conf dry cr ips solved now cutoff window min_challenged ratio).
Proof.
  unfold detect_unsolved_per_ip. destruct (List.filter _ ips); [apply preserves_ret|].
  apply preserves_bind; [apply on_tables_read|intros log]. apply preserves_for_each. intros [ip n] _.
  repeat (case_match; try apply preserves_ret). by apply create_rule_frame.
Qed.

Lemma per_ip_reports ips solved now cutoff window min_challenged ratio w l w' r :
  detect_unsolved_per_ip uuid4 conf dry cr ips solved now cutoff window min_challenged ratio w = (Ok l, w') →
  In r l → br_rule_type r = RuleType_IP.
Proof.
  unfold detect_unsolved_per_ip. destruct (List.filter _ ips); [by intros [= <- _]|].
  intros Hrun Hin. apply bind_inv_Ok in Hrun as (log & w1 & _ & Hrun).
  eapply (for_each_In (λ _, True)) in Hrun as ([ip n] & s1 & s2 & bs & _ & _ & Hb & Hr); [|done..].
  repeat (case_match; try (unfold ret in Hb; injection Hb as <- _; done)).
  eapply create_rule_matches in Hb; [|done]. by apply lookup_matches_key in Hb; unfold auto_key in Hb;
    case_bool_decide; simplify_eq.
Qed.

(** What a rule reported by the subnet pass says about the tables it was made from. *)
Lemma by_subnet_reports ips solved now window w l w' r :
  w_concurrent w = [] → auto_keys_unique (w_block_rules w) →
  detect_unsolved_by_subnet uuid4 conf dry cr ips solved now window w = (Ok l, w') → In r l →
  let s := br_pattern r in
  DJANGO_WAF_UNSOLVED_SUBNET_MIN_CHALLENGED conf <= subnet_weight s ips ∧
  DJANGO_WAF_UNSOLVED_SUBNET_MIN_IPS conf <= Z.of_nat (length (subnet_members ips s)) ∧
  (∀ ip, ip ∈ subnet_members ips s → ip ∉ solved) ∧
  br_action r = if already_challenged s (w_block_rules w) then RuleAction_BLOCK else RuleAction_CHALLENGE.
Proof.
  intros Hc Hu Hrun Hin. unfold detect_unsolved_by_subnet in Hrun.
  eapply (for_each_In_key fst (λ s, key_rows (subnet_challenge s)
    (List.filter (lookup_matches (subnet_challenge s)) (w_block_rules w)))) in Hrun
    as ([s n] & w1 & w2 & bs & Hs & Hk & Hb & Hr); [|apply subnet_counts_NoDup| |done|exact Hin].
  - repeat (case_match; try (unfold ret in Hb; injection Hb as <- _; done)).
    apply bind_inv_Ok in Hb as (already & w3 & Hread & Hb). unfold db_read in Hread.
    destruct (w_db_up w1); [|done]. injection Hread as <- <-.
    eapply create_rule_matches in Hb; [|done]. apply lookup_matches_key in Hb. unfold auto_key in Hb.
    case_bool_decide; [|done]. injection Hb as _ Hpat Hact. rewrite Hpat. cbn [fst] in Hk.
    bool_hyps. rewrite (subnet_counts_total _ _ _ Hs) in *. split_and!; [done|done| |].
    + intros ip Hip Hsol.
      match goal with He : existsb _ _ = false |- _ => rewrite existsb_false_iff in He;
        specialize (He ip ltac:(by apply list_elem_of_In)); by apply bool_decide_eq_false in He end.
    + rewrite Hact. destruct Hk as (_ & _ & Hk). by rewrite (already_challenged_rows s _ _ Hk).
  - intros s [s' n'] _ Hne. cbn [fst] in Hne.
    repeat (case_match; try apply preserves_ret). apply preserves_bind; [apply on_tables_read|intros b].
    apply create_rule_frame. unfold subnet_challenge. congruence.
Qed.
End Escalation.

Section ScraperLemmas.
Context {R P : Type} `{RedisClient R} `{ReEngine P} `{Dns} (conf : Conf).

Lemma scraper_not_excluded ip uas rules (w w' : World R P) :
  scraper_candidate_matches_allow_rule conf ip uas rules w = (Ok false, w') →
  ∀ ua, In ua uas → ∃ s s', check_allow_rules conf ip ua rules s = (Ok None, s').
Proof.
  revert w. induction uas as [|u uas IH]; intros w Hrun ua Hin; [done|].
  cbn [scraper_candidate_matches_allow_rule] in Hrun.
  apply bind_inv_Ok in Hrun as (m & w1 & Hm & Hrun). destruct m; [done|].
  destruct Hin as [<-|Hin]; [|by eapply IH].
  unfold try_except, bind, ret in Hm. destruct (check_allow_rules conf ip u rules w) as [[o|e] w2] eqn:E; [|done].
  injection Hm as Ho <-. exists w, w2. rewrite E. destruct o; [|done].
  rewrite bool_decide_true in Ho; [done|]. by eexists.
Qed.
End ScraperLemmas.

(** ** Properties *)

Module DetectorsProps.

(** C15: a detector run never overturns an operator.  Whatever the log holds and
    however the run ends, the automatic keys stay unique, every rule an
    operator confirmed or rejected is still there with the same identity, key,
    active flag and review status, and manual and feed rules are untouched.  The
    run is taken by itself: no other process writes a rule meanwhile. *)
Theorem detectors_respect_decisions {R P} `{RedisClient R} `{ReEngine P} `{Dns} uuid4 conf dry cr
    has_redis window (w w' : World R P) res :
  w_concurrent w = [] → auto_keys_unique (w_block_rules w) →
  run_all_detectors uuid4 conf dry cr has_redis window w = (res, w') →
  auto_keys_unique (w_block_rules w') ∧
  decisions_kept (w_block_rules w) (w_block_rules w') ∧
  List.filter not_auto (w_block_rules w') = List.filter not_auto (w_block_rules w).
Proof.
  intros Hc Hu Hrun.
  assert (Hp : preserves (run_inv (w_block_rules w)) (run_all_detectors uuid4 conf dry cr has_redis window)).
  { apply run_preserves; [apply run_inv_tables|intros; apply create_rule_inv]. }
  assert (Hw : run_inv (w_block_rules w) w).
  { split_and!; [done|done|intros r0 Hr0 _; exists r0; done|done]. }
  by destruct (preserves_Ok _ _ _ _ _ Hp Hw Hrun) as (_ & ? & ? & ?).
Qed.

(** A dry run writes nothing: all tables are as before, whatever the run
    reports, and whether it returns or raises. *)
Lemma dry_run_writes_nothing {R P} `{RedisClient R} `{ReEngine P} `{Dns} uuid4 conf cr
    has_redis window (w : World R P) :
  tables (run_all_detectors uuid4 conf true cr has_redis window w).2 = tables w.
Proof.
  apply (run_preserves uuid4 conf true cr (λ w', tables w' = tables w)); [| |done].
  - intros w1 w2 -> Hw1. exact Hw1.
  - intros * w1 Hw1. rewrite create_rule_dry. exact Hw1.
Qed.

(** The floor of the subnet-burst detector cannot be diluted.  A subnet
    with at least the configured number of requests in the window gets its
    CHALLENGE rule in that run, whatever the other subnets did (the median
    plays no part), and the run succeeds. *)
Lemma subnet_floor_always_fires {R P} `{RedisClient R} uuid4 (conf : Conf) cr window s (w : World R P) :
  let n := count_if (λ r, since (w_now w - window * minute_us) r && in_subnet s r) (w_request_log w) in
  calm w → 0 < n → DJANGO_WAF_ANOMALY_THRESHOLD_SUBNET_BURST_MIN_COUNT conf <= n →
  ∃ created w', detect_subnet_burst uuid4 conf false cr window w = (Ok created, w') ∧ calm w' ∧
    has_rule {| lk_rule_type := RuleType_CIDR; lk_pattern := s; lk_action := RuleAction_CHALLENGE |} w'.
Proof.
  intros n Hcalm Hpos Hmin. unfold detect_subnet_burst. unfold bind at 1, clock, gets.
  rewrite (bind_Ok _ _ _ _ _ (db_read_up _ w ltac:(by destruct Hcalm))).
  set (logs := map rl_ip_address _). set (counts := subnet_counts _).
  assert (Hw : subnet_weight s (map (λ ip, (ip, 1)) logs) = n).
  { unfold logs. by rewrite weight_ones, count_if_filter. }
  assert (Hin : In (s, n) counts) by exact (subnet_In s n _ Hw Hpos).
  destruct counts as [|c0 counts0] eqn:Ec; [done|]. rewrite <- Ec in *. clear Ec.
  eapply (for_each_reaches calm _ _ _ (s, n)); [|done|done].
  intros [s' m] w1 Hs' Hw1. set (thr := num_scale 3 _). destruct (burst _ thr m) eqn:Eb; cbn [negb].
  - match goal with |- context [create_rule uuid4 conf false cr ?d ?nm ?rt ?mt ?pa ?ac ?ex ?co ?ev w1] =>
      destruct (create_rule_calm uuid4 conf cr d nm rt mt pa ac ex co ev w1 Hw1) as (l & w2 & E & ? & ? & ?) end.
    exists l, w2. split; [exact E|]. split_and!; [done|auto|]. intros [= -> ->]. done.
  - exists [], w1. split; [done|]. split_and!; [done|done|]. intros [= -> ->]. exfalso.
    unfold burst in Eb. apply negb_false_iff, andb_true_iff in Eb as [Hlt _]. bool_hyps. lia.
Qed.

(** A subnet is escalated only on evidence, and in two steps.  Each CIDR
    rule [detect_unsolved_challenges] reports is for a subnet with at least the
    configured number of challenged requests in the window and of distinct
    challenged addresses, none of which solved a challenge in the exemption
    window; it is a BLOCK exactly when the table at the start of the run holds
    an active CHALLENGE rule of this detector for the subnet, else a CHALLENGE. *)
Lemma subnet_escalation_justified {R P} `{RedisClient R} uuid4 (conf : Conf) dry cr window minc ratio
    swin (w w' : World R P) created r :
  w_concurrent w = [] → auto_keys_unique (w_block_rules w) →
  detect_unsolved_challenges uuid4 conf dry cr window minc ratio swin w = (Ok created, w') →
  In r created → br_rule_type r = RuleType_CIDR →
  let s := br_pattern r in
  let cutoff := w_now w - default (DJANGO_WAF_UNSOLVED_SUBNET_WINDOW_MINUTES conf) swin * minute_us in
  let ips := subnet_members (challenged_counts cutoff (w_request_log w)) s in
  DJANGO_WAF_UNSOLVED_SUBNET_MIN_CHALLENGED conf
    <= count_if (λ x, since cutoff x && challenged_row x && in_subnet s x) (w_request_log w) ∧
  DJANGO_WAF_UNSOLVED_SUBNET_MIN_IPS conf <= Z.of_nat (length ips) ∧
  (∀ ip, ip ∈ ips → ip ∉ solved_since
     (w_now w - DJANGO_WAF_UNSOLVED_SOLVE_EXEMPTION_WINDOW_HOURS conf * hour_us) (w_tokens w)) ∧
  br_action r = if already_challenged s (w_block_rules w) then RuleAction_BLOCK else RuleAction_CHALLENGE.
Proof.
  intros Hc Hu Hrun Hin Hcidr. unfold detect_unsolved_challenges, bind at 1, clock, gets in Hrun.
  destruct (w_db_up w) eqn:Hup; [|by unfold bind, db_read in Hrun; rewrite Hup in Hrun].
  do 3 rewrite (bind_Ok _ _ _ _ _ (db_read_up _ w Hup)) in Hrun.
  apply bind_inv_Ok in Hrun as (a & w1 & Ha & Hrun). apply bind_inv_Ok in Hrun as (b & w2 & Hb & Hrun).
  unfold ret in Hrun. simplify_eq. apply in_app_iff in Hin as [Hin|Hin].
  { eapply per_ip_reports in Ha; [|done]. congruence. }
  assert (Hk : ∀ s, key_rows (subnet_challenge s)
    (List.filter (lookup_matches (subnet_challenge s)) (w_block_rules w)) w1).
  { intros s. eapply preserves_Ok; [apply per_ip_frame| |exact Ha]. by split_and!. }
  destruct (Hk (br_pattern r)) as (Hc1 & Hu1 & Hf1).
  destruct (by_subnet_reports _ _ _ _ _ _ _ _ _ _ _ _ Hc1 Hu1 Hb Hin) as (H1 & H2 & H3 & H4).
  rewrite weight_challenged in H1. rewrite (already_challenged_rows _ _ _ Hf1) in H4.
  split_and!; assumption.
Qed.

(** The scraper detector accuses only on evidence.  Each rule it reports is
    for an address over both gates (enough requests that reached the
    application, and the configured share of 404s among them), and only when
    Redis was available, the rule cache loaded, and no active allow rule
    matched the address with any User-Agent it presented in the window. *)
Lemma scraper_rules_justified {R P} `{RedisClient R} `{ReEngine P} `{Dns} uuid4 (conf : Conf) dry cr
    has_redis window (w w' : World R P) created r :
  detect_scraper_404_ratio uuid4 conf dry cr has_redis window w = (Ok created, w') → In r created →
  let ip := br_pattern r in
  let cutoff := w_now w - default (DJANGO_WAF_SCRAPER_404_WINDOW_MINUTES conf) window * minute_us in
  let rows := List.filter (λ x, reached_app x && since cutoff x) (w_request_log w) in
  let total := count_if (of_ip ip) rows in
  let n404 := count_if (λ x, of_ip ip x && bool_decide (rl_response_code x = Some 404)) rows in
  has_redis = true ∧ DJANGO_WAF_SCRAPER_404_MIN_REQUESTS conf <= total ∧
  (DJANGO_WAF_SCRAPER_404_RATIO conf <= inject_Z n404 / inject_Z total)%Q ∧
  ∃ cache w1, load_rule_cache w = (Ok cache, w1) ∧
    ∀ ua, In ua (user_agents_of cutoff ip (w_request_log w)) →
      ∃ s s', check_allow_rules conf ip ua (rc_allow_rules cache) s = (Ok None, s').
Proof.
  intros Hrun Hin. unfold detect_scraper_404_ratio, bind at 1, clock, gets in Hrun.
  destruct (w_db_up w) eqn:Hup; [|by unfold bind, db_read in Hrun; rewrite Hup in Hrun].
  rewrite (bind_Ok _ _ _ _ _ (db_read_up _ w Hup)) in Hrun.
  set (cutoff := w_now w - _) in *. set (qualifying := scraper_candidates _ _ _ _) in *.
  apply bind_inv_Ok in Hrun as (rules & w1 & Hrules & Hrun).
  assert (Ht : tables w1 = tables w).
  { eapply (preserves_Ok (λ x, tables x = tables w)); [apply allow_rules_tables|done|exact Hrules].
    intros x y -> Hx. exact Hx. }
  injection Ht as _ _ Hlog _ _ _ Hup1. rewrite Hup in Hup1.
  rewrite (bind_Ok _ _ _ _ _ (db_read_up _ w1 Hup1)), Hlog in Hrun.
  eapply (for_each_In (λ _, True)) in Hrun as ([ip [total n404]] & s1 & s2 & bs & Hq & _ & Hb & Hr); [|done..].
  destruct rules as [rules|]; [|by injection Hb as <- _].
  apply bind_inv_Ok in Hb as (ex & s3 & Hex & Hb). destruct ex; [by injection Hb as <- _|].
  eapply create_rule_matches in Hb; [|done]. apply lookup_matches_key in Hb. unfold auto_key in Hb.
  case_bool_decide; [|done]. injection Hb as _ Hpat _. rewrite Hpat. cbv zeta.
  unfold allow_rules_for_run in Hrules. destruct qualifying as [|q0 ql] eqn:Eq; [done|]. rewrite <- Eq in Hq.
  destruct has_redis; cbn [negb] in Hrules; [|done]. unfold qualifying, scraper_candidates in Hq.
  apply filter_In in Hq as [Hq Hgate]. apply in_map_iff in Hq as (ip' & [= <- <- <-] & _).
  apply andb_true_iff in Hgate as [Hmin Hratio]. apply Z.leb_le in Hmin. apply Qle_bool_iff in Hratio.
  split_and!; [done|done|done|]. unfold try_except, bind, ret in Hrules.
  destruct (load_rule_cache w) as [[cache|e] w2]; [|done]. injection Hrules as <- <-.
  exists cache, w2. split; [done|]. by eapply scraper_not_excluded.
Qed.

(** *** Witnesses: an in-memory server, logs that cross the default thresholds *)

Definition log_row (ip path : string) (verdict : Verdict) (code : Z) : RequestLog := {|
  rl_timestamp := 999 * usec; rl_ip_address := ip; rl_user_agent := "curl/8"; rl_path := path;
  rl_method := "GET"; rl_verdict := verdict; rl_matched_rule_id := None; rl_matched_rule_type := "";
  rl_anomaly_score := None; rl_response_code := Some code; rl_referer := "";
  rl_http_fingerprint := ""; rl_fingerprint_verdict := ""; rl_country_code := "";
  rl_source := MIDDLEWARE; rl_source_event_id := "" |}.

Definition log_world (rules : list BlockRule) (log : list RequestLog) : World MemRedis LiteRe :=
  {| (AutoRuleProps.sample_world rules []) with w_request_log := log |}.

#[local] Instance no_dns : Dns := {| gethostbyaddr _ := None; getaddrinfo _ := None |}.

Definition dconf : Conf := default_conf "s".

(** Thirty challenged requests from ten addresses of one subnet. *)
Definition swarm : list RequestLog :=
  concat (map (λ k, replicate 3 (log_row ("198.51.100." +:+ str_of_Z k) "/" CHALLENGED 200))
    [1; 2; 3; 4; 5; 6; 7; 8; 9; 10]).

Lemma detectors_respect_decisions_witness :
  ∃ r, In r (w_block_rules (run_all_detectors Z.of_nat dconf false false true None
                              (log_world [AutoRuleProps.sample_rule] swarm)).2) ∧
       same_decision AutoRuleProps.sample_rule r.
Proof.
  destruct (run_all_detectors Z.of_nat dconf false false true None
              (log_world [AutoRuleProps.sample_rule] swarm)) as [o w'] eqn:E.
  destruct (detectors_respect_decisions Z.of_nat dconf false false true None
              (log_world [AutoRuleProps.sample_rule] swarm) w' o eq_refl) as (_ & Hd & _).
  - apply NoDup_singleton.
  - exact E.
  - apply Hd; [left; reflexivity|reflexivity].
Defined.

Lemma subnet_floor_always_fires_witness :
  ∃ created w', detect_subnet_burst Z.of_nat dconf false false 15 (log_world [] swarm) = (Ok created, w') ∧
    has_rule (subnet_challenge "198.51.100.0/24") w'.
Proof.
  destruct (subnet_floor_always_fires Z.of_nat dconf false 15 "198.51.100.0/24" (log_world [] swarm))
    as (created & w' & Hrun & _ & Hrule).
  - split; [reflexivity|]. split; [reflexivity|apply NoDup_nil_2].
  - vm_compute. reflexivity.
  - vm_compute. discriminate.
  - exists created, w'. split; [exact Hrun|exact Hrule].
Defined.

Definition unsolved_run := detect_unsolved_challenges (P:=LiteRe) Z.of_nat dconf false false 60 None None None
  (log_world [] swarm).

Lemma subnet_escalation_justified_witness :
  match unsolved_run with
  | (Ok (r :: _), _) => br_action r = RuleAction_CHALLENGE ∧ br_pattern r = "198.51.100.0/24"
  | _ => False
  end.
Proof.
  assert (Ht : match unsolved_run with
               | (Ok (r :: _), _) => br_rule_type r = RuleType_CIDR ∧ br_pattern r = "198.51.100.0/24"
               | _ => False end) by (vm_compute; split; reflexivity).
  destruct unsolved_run as [[[|r l]|e] w'] eqn:E; [destruct Ht| |destruct Ht]. destruct Ht as [Ht Hp].
  unfold unsolved_run in E.
  destruct (subnet_escalation_justified Z.of_nat dconf false false 60 None None None (log_world [] swarm)
              w' (r :: l) r eq_refl (NoDup_nil_2) E (or_introl eq_refl) Ht) as (_ & _ & _ & Ha).
  split; [exact Ha|exact Hp].
Defined.

(** Twenty requests for pages that do not exist. *)
Definition scraper_run := detect_scraper_404_ratio Z.of_nat dconf false false true None
  (log_world [] (replicate 20 (log_row "203.0.113.9" "/x" ALLOWED 404))).

Lemma scraper_rules_justified_witness :
  match scraper_run with
  | (Ok (r :: _), _) => 20 <= count_if (of_ip (br_pattern r))
      (List.filter (λ x, reached_app x && since (1000 * usec - 1440 * minute_us) x)
         (replicate 20 (log_row "203.0.113.9" "/x" ALLOWED 404)))
  | _ => False
  end.
Proof.
  assert (Ht : match scraper_run with (Ok (r :: _), _) => True | _ => False end) by (vm_compute; exact I).
  destruct scraper_run as [[[|r l]|e] w'] eqn:E; [destruct Ht| |destruct Ht].
  unfold scraper_run in E.
  destruct (scraper_rules_justified Z.of_nat dconf false false true None
              (log_world [] (replicate 20 (log_row "203.0.113.9" "/x" ALLOWED 404)))
              w' (r :: l) r E (or_introl eq_refl)) as (_ & Hmin & _). exact Hmin.
Defined.

End DetectorsProps.
