(* ===== verification/Tasks.v ===== *)
(** * The periodic tasks ([tasks.py])

    Rule expiry, retention, IP reputation and the flush of hit counters, on
    the tables and the Redis of [World].  The Celery decorator, the log lines
    and the tasks that only delegate to another service are left out; the
    access-log importer has a file of its own.  The Django cache is outside the
    sources: [DjangoCache] is what the code calls of it. *)

From Stdlib Require Import ZArith QArith Qround Lqa Lia Ascii String Sorted.
From stdpp Require Import base tactics option list strings numbers gmap fin_maps.
From S2P Require Import Prelude PyStr IpAddress Hash PyTime Codec Regex Conf.
From S2P Require Import ClientIp Redis Models AutoRule RuleEngine Detectors.

Open Scope Z_scope.

(** [caches[alias]]: [get] of an integer, [set] without a timeout. *)
Class DjangoCache (W : Type) := {
  cache_get : string → M W (option Z);
  cache_set : string → Z → M W unit;
}.

(** What the tasks rely on: the cache is not one of the tables. *)
Class CacheApart (R P : Type) `{DjangoCache (World R P)} : Prop := {
  cache_get_apart : ∀ k (w : World R P), tables (cache_get k w).2 = tables w;
  cache_set_apart : ∀ k v (w : World R P), tables (cache_set k v w).2 = tables w;
}.

(** Django's documented dummy backend: remembers nothing. *)
Definition dummy_cache (W : Type) : DjangoCache W :=
  {| cache_get _ := ret None; cache_set _ _ := ret tt |}.

(** ** Table operations *)

Section TableOps.
Context {R P : Type}.
Abbreviation W := (World R P).

(** [qs.update(...)] on block rules: no signal, the number of rows matched. *)
Definition update_block_rules (p : BlockRule → bool) (f : BlockRule → BlockRule) : M W Z :=
  rows <- db_read w_block_rules ;;
  set_block_rules (map (λ r, if p r then f r else r) rows) ;;;
  ret (Z.of_nat (length (List.filter p rows))).

Definition update_allow_rules (p : AllowRule → bool) (f : AllowRule → AllowRule) : M W Z :=
  rows <- db_read w_allow_rules ;;
  db_write (λ w, {| w with w_allow_rules := map (λ r, if p r then f r else r) rows |}) ;;;
  ret (Z.of_nat (length (List.filter p rows))).
End TableOps.

Section Tasks.
Context {R P : Type} `{RedisClient R} `{DjangoCache (World R P)} (conf : Conf).
Abbreviation W := (World R P).

(** [_invalidate_rule_cache_redis]: the shared version, or the local cache. *)
Definition invalidate_rule_cache_redis : M W unit :=
  try_except (send (INCR RULES_VERSION_KEY) ;;; ret tt) (λ _,
    v <- cache_get RULES_VERSION_KEY ;;
    cache_set RULES_VERSION_KEY (default 0 v + 1)).

Record ExpireReport : Type := {
  expired_block_count : Z;
  expired_allow_count : Z;
  expired_count : Z;
  expired_unreviewed_count : Z;
}.

(** A quarantined or active automatic rule nobody reviewed in time. *)
Definition is_unreviewed (now : Z) (r : BlockRule) : bool :=
  bool_decide (br_source r = RuleSource_AUTO) && bool_decide (br_review_status r = PENDING_REVIEW)
  && past now (br_expires_at r).

Definition expire_rules : M W ExpireReport :=
  t <- clock ;;
  n_block <- update_block_rules (BlockRuleManager.is_expired t) (λ r, {| r with br_is_active := false |}) ;;
  n_allow <- update_allow_rules (AllowRuleManager.is_expired t) (λ r, {| r with ar_is_active := false |}) ;;
  n_unreviewed <- update_block_rules (is_unreviewed t)
                    (λ r, {| r with br_review_status := EXPIRED_UNREVIEWED |}) ;;
  let total := n_block + n_allow in
  (if 0 <? total then try_except invalidate_rule_cache_redis (λ _, ret tt) else ret tt) ;;;
  ret {| expired_block_count := n_block; expired_allow_count := n_allow; expired_count := total;
         expired_unreviewed_count := n_unreviewed |}.

Definition prune_request_logs (days : option Z) : M W Z :=
  let retention_days := default (DJANGO_WAF_LOG_RETENTION_DAYS conf) days in
  t <- clock ;;
  rows <- db_read w_request_log ;;
  let old := RequestLogManager.is_purgeable t retention_days in
  db_write (λ w, {| w with w_request_log := List.filter (λ r, negb (old r)) rows |}) ;;;
  ret (Z.of_nat (length (List.filter old rows))).

(** [status__in=[PENDING, FAILED], expires_at__lt=cutoff]. *)
Definition token_prunable (cutoff : Z) (t : ChallengeToken) : bool :=
  (bool_decide (ct_status t = ChallengeStatus_PENDING) || bool_decide (ct_status t = ChallengeStatus_FAILED))
  && (ct_expires_at t <? cutoff).

Definition prune_challenge_tokens (hours : Z) : M W Z :=
  t <- clock ;;
  rows <- db_read w_tokens ;;
  let old := token_prunable (t - hours * hour_us) in
  db_write (λ w, {| w with w_tokens := List.filter (λ r, negb (old r)) rows |}) ;;;
  ret (Z.of_nat (length (List.filter old rows))).

(** One signal per row. *)
Definition notify_each {A} (signal : M W unit) (rows : list A) : M W unit :=
  foldr (λ _ k, signal ;;; k) (ret tt) rows.

(** [prune_stale_rules]: (deleted_count, dry_run); each deletion sends
    [post_delete]. *)
Definition prune_stale_rules (days : option Z) : M W (Z * bool) :=
  let retention_days := default (DJANGO_WAF_RULE_RETENTION_DAYS conf) days in
  t <- clock ;;
  rows <- db_read w_block_rules ;;
  let stale := BlockRuleManager.is_stale t retention_days in
  if negb (DJANGO_WAF_RULE_PRUNE_ENABLED conf) then ret (0, true) else
  set_block_rules (List.filter (λ r, negb (stale r)) rows) ;;;
  notify_each on_block_rule_delete (List.filter stale rows) ;;;
  ret (Z.of_nat (length (List.filter stale rows)), false).

(** ** IP reputation *)

(** The threat score (BR-REP-002) as a fraction, before rounding. *)
Definition threat_score (total blocked challenged distinct_ua passes failures ua_threshold : Z) : Q :=
  let unsolved_rate :=
    if (0 <? challenged) && (passes =? 0) then 1%Q
    else if 0 <? challenged
    then let x := (1 - inject_Z passes / inject_Z challenged)%Q in if Qle_bool x 0 then 0%Q else x
    else 0%Q in
  let block_rate := if 0 <? total then (inject_Z blocked / inject_Z total)%Q else 0%Q in
  let challenge_fail_rate := (inject_Z failures / inject_Z (passes + failures + 1))%Q in
  let ua_ratio := (inject_Z distinct_ua / inject_Z ua_threshold)%Q in
  let ua_diversity := if Qle_bool 1 ua_ratio then 1%Q else ua_ratio in
  let score := (block_rate * (2 # 10) + unsolved_rate * (35 # 100) + challenge_fail_rate * (25 # 100)
                + ua_diversity * (2 # 10))%Q in
  if Qle_bool 1 score then 1%Q else score.

(** The values written for one address. *)
Definition reputation_row (now : Z) (rows : list RequestLog) (tokens : list ChallengeToken) (ip : string)
  : IPReputation :=
  let mine := List.filter (of_ip ip) rows in
  let total := Z.of_nat (length mine) in
  let blocked := count_if (λ r, bool_decide (rl_verdict r = BLOCKED)) mine in
  let challenged := count_if (λ r, bool_decide (rl_verdict r = CHALLENGED)) mine in
  let distinct_ua := count_distinct rl_user_agent mine in
  let passes := count_if (λ t, bool_decide (ct_ip_address t = ip) &&
                               bool_decide (ct_status t = ChallengeStatus_SOLVED)) tokens in
  let failures := count_if (λ t, bool_decide (ct_ip_address t = ip) &&
                                 (bool_decide (ct_status t = ChallengeStatus_EXPIRED)
                                  || bool_decide (ct_status t = ChallengeStatus_FAILED))) tokens in
  {| ir_ip_address := ip; ir_total_requests := total; ir_blocked_requests := blocked;
     ir_challenged_requests := challenged; ir_challenge_passes := passes;
     ir_challenge_failures := failures; ir_distinct_ua_count := distinct_ua;
     ir_threat_score := round2 (threat_score total blocked challenged distinct_ua passes failures
                                  (DJANGO_WAF_ANOMALY_THRESHOLD_DISTINCT_UAS conf));
     ir_last_seen_at := Some now; ir_window_start := Some (now - 24 * hour_us);
     ir_window_end := Some now |}.

(** [IPReputation.objects.update_or_create] on the address: (updated, created). *)
Definition upsert_reputation (row : IPReputation) : M W (Z * Z) :=
  rows <- db_read w_reputation ;;
  let same r := bool_decide (ir_ip_address r = ir_ip_address row) in
  match List.filter same rows with
  | [] => db_write (λ w, {| w with w_reputation := rows ++ [row] |}) ;;; ret (0, 1)
  | [_] => db_write (λ w, {| w with w_reputation := map (λ r, if same r then row else r) rows |}) ;;;
           ret (1, 0)
  | _ => raise MultipleObjectsReturned
  end.

Fixpoint update_reputations (now : Z) (rows : list RequestLog) (ips : list string) : M W (Z * Z) :=
  match ips with
  | [] => ret (0, 0)
  | ip :: ips =>
      tokens <- db_read w_tokens ;;
      if DJANGO_WAF_ANOMALY_THRESHOLD_DISTINCT_UAS conf =? 0 then raise (OtherError "ZeroDivisionError") else
      a <- upsert_reputation (reputation_row now rows tokens ip) ;;
      b <- update_reputations now rows ips ;;
      ret (a.1 + b.1, a.2 + b.2)
  end.

(** [update_ip_reputation]: (updated_count, created_count, ips_seen). *)
Definition update_ip_reputation : M W (Z * Z * Z) :=
  t <- clock ;;
  rows <- db_read (λ w, List.filter (since (t - 24 * hour_us)) (w_request_log w)) ;;
  let ips := groups rl_ip_address rows in
  c <- update_reputations t rows ips ;;
  ret (c.1, c.2, Z.of_nat (length ips)).

(** ** Hit counters *)

Definition rule_hits_prefix : string := "waf:rule_hits:".

Record FlushReport : Type := { flushed : Z; keys_seen : Z; errors : Z }.

(** GET and DEL in one pipeline, then [int(get_result or 0)]. *)
Definition take_counter (key : string) : M W Z :=
  vs <- on_redis (λ t, exec_pipe t [GET key; DEL key]) ;;
  match vs with
  | [RBulk s; _] =>
      if str_empty s then ret 0 else
      match py_int s with Some n => ret n | None => raise ValueError end
  | [RNil; _] => ret 0
  | _ => raise ValueError
  end.

(** [BlockRule.objects.filter(id=rule_id).update(hit_count=F + count, last_hit_at=now)]. *)
Definition persist_hits (rule_id : string) (count : Z) : M W Z :=
  match uuid_of rule_id with
  | None => raise (OtherError "ValidationError")
  | Some u =>
      t <- clock ;;
      update_block_rules (λ r, br_id r =? u)
        (λ r, {| {| r with br_hit_count := br_hit_count r + count |} with br_last_hit_at := Some t |})
  end.

(** One round: (flushed, errors). *)
Definition flush_key (key : string) : M W (Z * Z) :=
  let rule_id := str_drop (String.length rule_hits_prefix) key in
  c <- try_except (n <- take_counter key ;; ret (Some n)) (λ _, ret None) ;;
  match c with
  | None => ret (0, 1)
  | Some count =>
      if count <=? 0 then ret (0, 0) else
      u <- try_except (n <- persist_hits rule_id count ;; ret (Some n)) (λ _, ret None) ;;
      ret (match u with
           | None => (0, 1)
           | Some updated => (if updated =? 0 then 0 else 1, 0)
           end)
  end.

Fixpoint flush_keys (keys : list string) : M W (Z * Z) :=
  match keys with
  | [] => ret (0, 0)
  | key :: keys =>
      a <- flush_key key ;;
      b <- flush_keys keys ;;
      ret (a.1 + b.1, a.2 + b.2)
  end.

(** [flush_rule_hit_counts]; [has_redis]: [get_redis_connection] succeeded. *)
Definition flush_rule_hit_counts (has_redis : bool) : M W FlushReport :=
  if negb has_redis then ret {| flushed := 0; keys_seen := 0; errors := 0 |} else
  ks <- try_except (v <- send (KEYS rule_hits_prefix) ;; ret (Some v)) (λ _, ret None) ;;
  match ks with
  | Some (RKeys keys) =>
      c <- flush_keys keys ;;
      ret {| flushed := c.1; keys_seen := Z.of_nat (length keys); errors := c.2 |}
  | _ => ret {| flushed := 0; keys_seen := 0; errors := 1 |}
  end.
End Tasks.

(** ** Expiry as a function of the rows *)

Definition expire_block (now : Z) (r : BlockRule) : BlockRule :=
  let r1 := if BlockRuleManager.is_expired now r then {| r with br_is_active := false |} else r in
  if is_unreviewed now r1 then {| r1 with br_review_status := EXPIRED_UNREVIEWED |} else r1.

Definition expire_allow (now : Z) (r : AllowRule) : AllowRule :=
  if AllowRuleManager.is_expired now r then {| r with ar_is_active := false |} else r.

Lemma past_not_expired now e : past now e = negb (not_expired now e).
Proof. destruct e as [t|]; simpl; [|done]. rewrite Z.ltb_antisym, negb_involutive. done. Qed.

Lemma expire_block_live now r :
  br_is_active r && not_expired now (br_expires_at r) = true → expire_block now r = r.
Proof.
  intros Hl. apply andb_true_iff in Hl as [Ha Hn].
  assert (Hp : past now (br_expires_at r) = false) by by rewrite past_not_expired, Hn.
  unfold expire_block, BlockRuleManager.is_expired, is_unreviewed. rewrite Hp, andb_false_r.
  by rewrite Hp, andb_false_r.
Qed.

Lemma expire_block_active now r :
  br_is_active (expire_block now r) && not_expired now (br_expires_at (expire_block now r))
  = br_is_active r && not_expired now (br_expires_at r).
Proof.
  unfold expire_block. assert (Hexp : ∀ r', is_unreviewed now r' = true ∨ is_unreviewed now r' = false)
    by (intros r'; destruct (is_unreviewed now r'); auto).
  destruct (BlockRuleManager.is_expired now r) eqn:E;
    match goal with |- context [is_unreviewed now ?x] => destruct (is_unreviewed now x) end; cbn; try done.
  all: unfold BlockRuleManager.is_expired in E; rewrite past_not_expired in E; bool_hyps;
    by match goal with H : not_expired _ _ = false |- _ => rewrite H, andb_false_r end.
Qed.

Lemma active_expire now rows :
  BlockRuleManager.active now (map (expire_block now) rows) = BlockRuleManager.active now rows.
Proof.
  unfold BlockRuleManager.active. f_equal. induction rows as [|r rows IH]; [done|].
  cbn [map List.filter]. rewrite expire_block_active.
  destruct (br_is_active r && not_expired now (br_expires_at r)) eqn:E; [|done].
  by rewrite (expire_block_live _ _ E), IH.
Qed.

Lemma allow_active_expire now rows :
  AllowRuleManager.active now (map (expire_allow now) rows) = AllowRuleManager.active now rows.
Proof.
  unfold AllowRuleManager.active. induction rows as [|r rows IH]; [done|]. cbn [map List.filter].
  unfold expire_allow at 1 2 3, AllowRuleManager.is_expired. rewrite past_not_expired.
  destruct (ar_is_active r) eqn:Ea; cbn [andb]; [|by rewrite Ea].
  destruct (not_expired now (ar_expires_at r)) eqn:En; cbn [negb]; cbn; [|done].
  by rewrite Ea, En, IH.
Qed.

Section TaskLemmas.
Context {R P : Type} `{RedisClient R}.
Implicit Types w : World R P.

Lemma update_block_rules_up p f w :
  w_db_up w = true →
  update_block_rules p f w = (Ok (Z.of_nat (length (List.filter p (w_block_rules w)))),
    {| w with w_block_rules := map (λ r, if p r then f r else r) (w_block_rules w) |}).
Proof.
  intros Hup. unfold update_block_rules, set_block_rules.
  rewrite (bind_Ok _ _ _ _ _ (db_read_up _ w Hup)).
  by rewrite (bind_Ok _ _ _ _ _ (db_write_up _ w Hup)).
Qed.

Lemma update_allow_rules_up p f w :
  w_db_up w = true →
  update_allow_rules p f w = (Ok (Z.of_nat (length (List.filter p (w_allow_rules w)))),
    {| w with w_allow_rules := map (λ r, if p r then f r else r) (w_allow_rules w) |}).
Proof.
  intros Hup. unfold update_allow_rules.
  rewrite (bind_Ok _ _ _ _ _ (db_read_up _ w Hup)).
  by rewrite (bind_Ok _ _ _ _ _ (db_write_up _ w Hup)).
Qed.

Lemma notify_each_run {A} (l : list A) w :
  ∃ rd, notify_each invalidate_rule_cache l w = (Ok tt, {| w with w_redis := rd |}).
Proof.
  revert w. induction l as [|x l IH]; intros w; cbn [notify_each foldr]; [exists (w_redis w); by destruct w|].
  destruct (invalidate_eq w) as [rd Hi]. rewrite (bind_Ok _ _ _ _ _ Hi).
  destruct (IH {| w with w_redis := rd |}) as [rd' Hr]. by exists rd'.
Qed.

Context `{DjangoCache (World R P)} `{!CacheApart R P}.

Lemma invalidate_redis_tables w : tables (invalidate_rule_cache_redis w).2 = tables w.
Proof.
  unfold invalidate_rule_cache_redis, try_except, bind, ret, send, on_redis.
  destruct (exec _ _ _) as [[v|e] rd]; [done|]. set (w1 := {| w with w_redis := rd |}).
  pose proof (cache_get_apart RULES_VERSION_KEY w1) as Hg.
  destruct (cache_get RULES_VERSION_KEY w1) as [[v|e'] w2]; [|exact Hg]. cbn in Hg.
  rewrite cache_set_apart, Hg. done.
Qed.

(** The run of [expire_rules], with the database up. *)
Lemma expire_rules_run w :
  w_db_up w = true →
  ∃ rep w', expire_rules w = (Ok rep, w') ∧
    tables w' = tables {| {| w with w_block_rules := map (expire_block (w_now w)) (w_block_rules w) |}
                          with w_allow_rules := map (expire_allow (w_now w)) (w_allow_rules w) |}.
Proof.
  intros Hup. unfold expire_rules. unfold bind at 1, clock, gets.
  rewrite (bind_Ok _ _ _ _ _ (update_block_rules_up _ _ w Hup)).
  match goal with |- context [bind (update_allow_rules ?p ?f) _ ?w1] =>
    rewrite (bind_Ok _ _ _ _ _ (update_allow_rules_up p f w1 Hup)) end.
  match goal with |- context [bind (update_block_rules ?p ?f) _ ?w1] =>
    rewrite (bind_Ok _ _ _ _ _ (update_block_rules_up p f w1 Hup)) end. cbn zeta.
  match goal with |- context [bind (if _ then _ else _) _ ?x] => set (w1 := x) end.
  assert (Ht : tables w1 = tables {| {| w with w_block_rules := map (expire_block (w_now w)) (w_block_rules w) |}
                          with w_allow_rules := map (expire_allow (w_now w)) (w_allow_rules w) |}).
  { unfold w1, tables. cbn. rewrite map_map. done. }
  clearbody w1. destruct (0 <? _).
  - unfold bind, try_except. pose proof (invalidate_redis_tables w1) as Hi.
    destruct (invalidate_rule_cache_redis w1) as [[u|e] w2]; cbn in Hi;
      eexists _, w2; (split; [reflexivity|]); by rewrite Hi.
  - eexists _, w1. split; [reflexivity|done].
Qed.
End TaskLemmas.

(** ** The threat score *)

Lemma frac_nonneg a b : 0 <= a → 0 <= b → (0 <= inject_Z a / inject_Z b)%Q.
Proof.
  intros Ha Hb. unfold Qdiv. apply Qmult_le_0_compat; [|apply Qinv_le_0_compat];
    change 0%Q with (inject_Z 0); by rewrite <- Zle_Qle.
Qed.

Lemma round2_unit q : (0 <= q <= 1)%Q → 0 <= round2 q <= 100.
Proof.
  intros [H0 H1]. unfold round2. set (x := (q * 100)%Q). set (f := Qfloor x).
  assert (Hf0 : 0 <= f). { change 0 with (Qfloor 0). apply Qfloor_resp_le. unfold x. lra. }
  assert (Hf1 : f <= 100). { change 100 with (Qfloor 100). apply Qfloor_resp_le. unfold x. lra. }
  destruct (Z.eq_dec f 100) as [Heq|Hne]; [|destruct (_ ?= _)%Q; [destruct (Z.even f)|..]; lia].
  assert (Hr : (x - inject_Z f < 1 # 2)%Q).
  { rewrite Heq. unfold x. change (inject_Z 100) with 100%Q. lra. }
  rewrite Qlt_alt in Hr. rewrite Hr. lia.
Qed.

Lemma threat_score_unit total blocked challenged ua passes failures threshold :
  0 <= blocked → 0 <= ua → 0 <= passes → 0 <= failures → 0 <= threshold →
  (0 <= threat_score total blocked challenged ua passes failures threshold <= 1)%Q.
Proof.
  intros Hb Hu Hp Hf Ht. unfold threat_score.
  set (unsolved := if (0 <? challenged) && (passes =? 0) then _ else _). set (block := if 0 <? total then _ else _).
  set (failr := (inject_Z failures / _)%Q). set (ua_ratio := (inject_Z ua / inject_Z threshold)%Q).
  assert (H1 : (0 <= unsolved)%Q).
  { unfold unsolved. destruct (_ && _); [discriminate|]. destruct (0 <? challenged); [|discriminate].
    destruct (Qle_bool _ 0) eqn:E; [discriminate|]. apply Qlt_le_weak, Qnot_le_lt.
    intros Hle. apply Qle_bool_iff in Hle. congruence. }
  assert (H2 : (0 <= block)%Q).
  { unfold block. destruct (0 <? total) eqn:E; [|discriminate]. bool_hyps. apply frac_nonneg; lia. }
  assert (H3 : (0 <= failr)%Q) by (apply frac_nonneg; lia).
  assert (H4 : (0 <= ua_ratio)%Q) by (apply frac_nonneg; lia).
  clearbody unsolved block failr ua_ratio.
  set (div := if Qle_bool 1 ua_ratio then 1%Q else ua_ratio).
  assert (H5 : (0 <= div)%Q) by (unfold div; destruct (Qle_bool 1 ua_ratio); [discriminate|done]).
  clearbody div. set (score := (_ + _)%Q).
  assert (H6 : (0 <= score)%Q) by (unfold score; lra). clearbody score.
  destruct (Qle_bool 1 score) eqn:E; [split; discriminate|]. split; [done|].
  apply Qlt_le_weak, Qnot_le_lt. intros Hle. apply Qle_bool_iff in Hle. congruence.
Qed.

Lemma reputation_score_unit (conf : Conf) now rows tokens ip :
  0 <= DJANGO_WAF_ANOMALY_THRESHOLD_DISTINCT_UAS conf →
  0 <= ir_threat_score (reputation_row conf now rows tokens ip) <= 100.
Proof.
  intros Ht. cbn. apply round2_unit, threat_score_unit; try apply count_if_nonneg; try done.
  unfold count_distinct. lia.
Qed.

(** ** Upserts *)

Definition rep_ips (reps : list IPReputation) : list string := map ir_ip_address reps.

Lemma rep_lookup ip reps :
  NoDup (rep_ips reps) →
  (ip ∉ rep_ips reps ∧ List.filter (λ r, bool_decide (ir_ip_address r = ip)) reps = []) ∨
  ∃ old, List.filter (λ r, bool_decide (ir_ip_address r = ip)) reps = [old].
Proof.
  induction reps as [|r reps IH]; cbn [rep_ips map List.filter]; [left; split; [apply not_elem_of_nil|done]|].
  intros [Hni Hnd]%NoDup_cons. specialize (IH Hnd). fold (rep_ips reps) in *.
  destruct (bool_decide_reflect (ir_ip_address r = ip)) as [<-|Hne].
  - right. exists r. f_equal. destruct IH as [[_ ->]|[old Ho]]; [done|]. exfalso. apply Hni.
    assert (Hin : In old (List.filter (λ x, bool_decide (ir_ip_address x = ir_ip_address r)) reps))
      by (rewrite Ho; by left).
    apply filter_In in Hin as [Hin He]. bool_hyps. apply list_elem_of_In, in_map_iff. by exists old.
  - destruct IH as [[Hn Hf]|Ho]; [left|by right]. split; [|done].
    rewrite not_elem_of_cons. split; [congruence|done].
Qed.

(** What upserting [row] makes of the table. *)
Definition upserted (row : IPReputation) (reps reps' : list IPReputation) : Prop :=
  NoDup (rep_ips reps') ∧ In row reps' ∧
  (∀ r, ir_ip_address r ≠ ir_ip_address row → In r reps' ↔ In r reps) ∧
  (∀ ip, ip ∈ rep_ips reps' ↔ ip = ir_ip_address row ∨ ip ∈ rep_ips reps).

Section Upsert.
Context {R P : Type}.
Implicit Types w : World R P.

Lemma upsert_run row w :
  w_db_up w = true → NoDup (rep_ips (w_reputation w)) →
  ∃ u c reps', upsert_reputation row w = (Ok (u, c), {| w with w_reputation := reps' |}) ∧
    u + c = 1 ∧ 0 <= u ∧ 0 <= c ∧ upserted row (w_reputation w) reps'.
Proof.
  intros Hup Hnd. unfold upsert_reputation. rewrite (bind_Ok _ _ _ _ _ (db_read_up _ w Hup)).
  destruct (rep_lookup (ir_ip_address row) _ Hnd) as [[Hni Hf]|[old Hf]]; rewrite Hf;
    rewrite (bind_Ok _ _ _ _ _ (db_write_up _ w Hup)); eexists _, _, _; (split; [reflexivity|]);
    split_and!; try lia; unfold upserted, rep_ips in *.
  - split_and!.
    + rewrite map_app. apply NoDup_app. split_and!; [done| |apply NoDup_singleton].
      intros x Hx Hin. simpl in Hin. apply list_elem_of_singleton in Hin as ->. done.
    + apply in_app_iff. right. by left.
    + intros r Hne. rewrite in_app_iff. split; [|by left]. intros [?|[->|[]]]; done.
    + intros ip. rewrite map_app, elem_of_app. simpl. rewrite list_elem_of_singleton. tauto.
  - assert (Hold : In old (List.filter (λ r, bool_decide (ir_ip_address r = ir_ip_address row))
                             (w_reputation w))) by (rewrite Hf; by left).
    apply filter_In in Hold as [Hold Ho]. apply bool_decide_eq_true in Ho.
    assert (Hmap : map ir_ip_address (map (λ r, if bool_decide (ir_ip_address r = ir_ip_address row)
               then row else r) (w_reputation w)) = map ir_ip_address (w_reputation w)).
    { rewrite map_map. apply map_ext. intros r. by case_bool_decide. }
    rewrite Hmap. split_and!; [done| | |].
    + apply in_map_iff. exists old. rewrite bool_decide_true by done. done.
    + intros r Hne. rewrite in_map_iff. split.
      * intros (x & Hx & Hin). case_bool_decide; [congruence|by subst].
      * intros Hin. exists r. rewrite bool_decide_false by done. done.
    + intros ip. split; [by right|]. intros [->|?]; [|done]. rewrite <- Ho.
      apply list_elem_of_In, in_map_iff. by exists old.
Qed.

Lemma update_reputations_run (conf : Conf) now rows ips w :
  w_db_up w = true → DJANGO_WAF_ANOMALY_THRESHOLD_DISTINCT_UAS conf ≠ 0 →
  NoDup ips → NoDup (rep_ips (w_reputation w)) →
  ∃ u c reps', update_reputations conf now rows ips w = (Ok (u, c), {| w with w_reputation := reps' |}) ∧
    u + c = Z.of_nat (length ips) ∧ NoDup (rep_ips reps') ∧
    (∀ ip, In ip ips → In (reputation_row conf now rows (w_tokens w) ip) reps') ∧
    (∀ r, ir_ip_address r ∉ ips → In r reps' ↔ In r (w_reputation w)).
Proof.
  intros Hup Hthr. revert w Hup. induction ips as [|ip ips IH]; intros w Hup Hni Hnd.
  { exists 0, 0, (w_reputation w). cbn [update_reputations]. split; [by destruct w|]. done. }
  apply NoDup_cons in Hni as [Hip Hni]. cbn [update_reputations].
  rewrite (bind_Ok _ _ _ _ _ (db_read_up _ w Hup)). destruct (Z.eqb_spec (DJANGO_WAF_ANOMALY_THRESHOLD_DISTINCT_UAS conf) 0); [done|].
  destruct (upsert_run (reputation_row conf now rows (w_tokens w) ip) w Hup Hnd)
    as (u & c & reps1 & Hrun & Huc & Hu & Hc & Hnd1 & Hrow & Hother & _).
  rewrite (bind_Ok _ _ _ _ _ Hrun).
  destruct (IH {| w with w_reputation := reps1 |} Hup Hni Hnd1) as (u2 & c2 & reps2 & Hrun2 & Huc2 & Hnd2 & Hin2 & Ho2).
  rewrite (bind_Ok _ _ _ _ _ Hrun2). cbn in *. eexists _, _, reps2. split; [reflexivity|].
  split_and!; [lia|done| |].
  - intros ip' [<-|Hin]; [|by apply Hin2]. apply Ho2; [exact Hip|exact Hrow].
  - intros r Hr. rewrite not_elem_of_cons in Hr. destruct Hr as [Hr1 Hr2]. rewrite Ho2 by done. by apply Hother.
Qed.
End Upsert.

(** ** Where the hits go *)

(** What a counter key is worth to the flush. *)
Definition counter (now : Z) (ks : keyspace) (key : string) : Z :=
  match peek_str now ks key with
  | Some s => if str_empty s then 0 else Z.max 0 (default 0 (py_int s))
  | None => 0
  end.

Definition rule_of_key (key : string) : option Z :=
  uuid_of (str_drop (String.length rule_hits_prefix) key).

(** The hits waiting for the rule [id] under the given keys. *)
Fixpoint hits_for (now : Z) (ks : keyspace) (id : Z) (keys : list string) : Z :=
  match keys with
  | [] => 0
  | k :: keys => (if bool_decide (rule_of_key k = Some id) then counter now ks k else 0)
                 + hits_for now ks id keys
  end.

(** A rule credited with [n] hits at time [t]. *)
Definition credit (t n : Z) (r : BlockRule) : BlockRule :=
  if n <=? 0 then r
  else {| {| r with br_hit_count := br_hit_count r + n |} with br_last_hit_at := Some t |}.

Lemma credit_credit t n m r : 0 <= n → 0 <= m → credit t m (credit t n r) = credit t (n + m) r.
Proof.
  intros Hn Hm. unfold credit.
  destruct (Z.leb_spec n 0), (Z.leb_spec m 0), (Z.leb_spec (n + m) 0); try lia; try done.
  - replace n with 0 by lia. done.
  - by replace (n + m) with n by lia.
  - destruct r. cbn. f_equal. lia.
Qed.

Lemma credit_id t n r : br_id (credit t n r) = br_id r.
Proof. unfold credit. by destruct (n <=? 0). Qed.

Lemma credit_hits t n r : 0 <= n → br_hit_count (credit t n r) = br_hit_count r + n.
Proof. unfold credit. intros Hn. destruct (Z.leb_spec n 0); cbn; lia. Qed.

Lemma counter_nonneg now ks k : 0 <= counter now ks k.
Proof. unfold counter. destruct (peek_str now ks k); [|done]. destruct (str_empty _); lia. Qed.

Lemma hits_nonneg now ks id keys : 0 <= hits_for now ks id keys.
Proof.
  induction keys as [|k keys IH]; cbn; [done|]. pose proof (counter_nonneg now ks k). case_bool_decide; lia.
Qed.

Lemma hits_ext now ks ks' id keys :
  (∀ k, In k keys → ks' !! k = ks !! k) → hits_for now ks' id keys = hits_for now ks id keys.
Proof.
  induction keys as [|k keys IH]; intros Hk; cbn [hits_for]; [done|].
  rewrite IH by (intros; apply Hk; by right). unfold counter, peek_str, peek.
  by rewrite (Hk k (or_introl eq_refl)).
Qed.

Section Flush.
Context {R P : Type} `{RedisSpec R}.
Implicit Types w : World R P.

(** A counter taken: its value, and the key gone. *)
Lemma take_counter_Ok key w n w' :
  take_counter key w = (Ok n, w') →
  Z.max 0 n = counter (w_now w) (r_view (w_redis w)) key ∧
  r_view (w_redis w') = delete key (r_view (w_redis w)) ∧ w' = {| w with w_redis := w_redis w' |}.
Proof.
  unfold take_counter, bind, on_redis, exec_pipe.
  destruct (r_pipe _ _ _) as [[vs|e] rd] eqn:E; [|done]. apply pipe_documented in E.
  cbn [steps step] in E. unfold counter, peek_str.
  destruct (peek (w_now w) (r_view (w_redis w)) key) as [en|]; simplify_eq/=.
  - destruct (e_val en) as [s|z|h]; simplify_eq/=. intros Hrun.
    destruct (str_empty s); [unfold ret in Hrun; by simplify_eq/=|].
    destruct (py_int s); [|done]. unfold ret in Hrun. by simplify_eq/=.
  - unfold ret. intros Hrun. by simplify_eq/=.
Qed.

Lemma flush_key_run key w :
  ∃ f e w', flush_key key w = (Ok (f, e), w') ∧ 0 <= e ∧
    (e = 0 →
     w_block_rules w' = map (λ r, credit (w_now w)
       (if bool_decide (rule_of_key key = Some (br_id r)) then counter (w_now w) (r_view (w_redis w)) key else 0) r)
       (w_block_rules w) ∧
     r_view (w_redis w') = delete key (r_view (w_redis w)) ∧ w_now w' = w_now w).
Proof.
  unfold flush_key. unfold bind at 1, try_except at 1. unfold bind at 1.
  destruct (take_counter key w) as [[n|e] w1] eqn:Et; [|by exists 0, 1, w1].
  destruct (take_counter_Ok _ _ _ _ Et) as (Hn & Hrd & Hw1). unfold ret at 1. cbn iota beta.
  rewrite <- Hn, <- Hrd. clear Hn Hrd Et.
  assert (Hid : ∀ t c rows, c <= 0 → map (λ r, credit t (if bool_decide (rule_of_key key = Some (br_id r))
                  then Z.max 0 c else 0) r) rows = rows).
  { intros t c rows Hc. etransitivity; [|apply map_id]. apply map_ext. intros r. unfold credit.
    destruct (bool_decide _); case_match; try done; bool_hyps; lia. }
  destruct (Z.leb_spec n 0) as [Hle|Hgt].
  { exists 0, 0, w1. split; [done|]. split; [done|]. intros _. rewrite Hid by done. by rewrite Hw1. }
  unfold bind at 1, try_except, bind, persist_hits. fold (rule_of_key key).
  destruct (rule_of_key key) as [u|] eqn:Ek; [|by exists 0, 1, w1].
  unfold clock, gets. destruct (w_db_up w1) eqn:Hup.
  2: { unfold update_block_rules, bind, db_read. rewrite Hup. by exists 0, 1, w1. }
  unfold bind. rewrite (update_block_rules_up _ _ w1 Hup). cbn iota beta. unfold ret.
  eexists _, _, _. split; [reflexivity|]. split; [done|]. intros _. cbn [w_block_rules w_redis w_now].
  split_and!; [|done|by rewrite Hw1]. replace (w_block_rules w1) with (w_block_rules w) by by rewrite Hw1.
  apply map_ext. intros r. unfold credit. replace (w_now w1) with (w_now w) by by rewrite Hw1.
  destruct (Z.eqb_spec (br_id r) u) as [->|Hne].
  - rewrite bool_decide_true by done. destruct (Z.leb_spec (Z.max 0 n) 0); [lia|].
    by replace (Z.max 0 n) with n by lia.
  - rewrite bool_decide_false by congruence. done.
Qed.

Lemma flush_keys_run keys w :
  NoDup keys →
  ∃ f e w', flush_keys keys w = (Ok (f, e), w') ∧ 0 <= e ∧
    (e = 0 →
     w_block_rules w' = map (λ r, credit (w_now w)
       (hits_for (w_now w) (r_view (w_redis w)) (br_id r) keys) r) (w_block_rules w) ∧
     (∀ k, r_view (w_redis w') !! k = if bool_decide (k ∈ keys) then None else r_view (w_redis w) !! k)).
Proof.
  revert w. induction keys as [|key keys IH]; intros w Hnd.
  { exists 0, 0, w. split; [done|]. split; [done|]. intros _. split; [|done].
    symmetry. etransitivity; [|apply map_id]. by apply map_ext. }
  apply NoDup_cons in Hnd as [Hni Hnd]. cbn [flush_keys].
  destruct (flush_key_run key w) as (f1 & e1 & w1 & Hr1 & He1 & Hz1). rewrite (bind_Ok _ _ _ _ _ Hr1).
  destruct (IH w1 Hnd) as (f2 & e2 & w2 & Hr2 & He2 & Hz2). rewrite (bind_Ok _ _ _ _ _ Hr2). cbn [fst snd].
  eexists _, _, w2. split; [reflexivity|]. split; [lia|]. intros Hz.
  destruct (Hz1 ltac:(lia)) as (Hrows1 & Hrd1 & Hnow1). destruct (Hz2 ltac:(lia)) as (Hrows2 & Hrd2).
  split.
  - rewrite Hrows2, Hrows1, map_map, Hnow1. apply map_ext. intros r. rewrite credit_id.
    rewrite (hits_ext _ (r_view (w_redis w))).
    + rewrite credit_credit; [done| |apply hits_nonneg].
      destruct (bool_decide _); [apply counter_nonneg|done].
    + intros k Hk. rewrite Hrd1. apply lookup_delete_ne. intros <-. by apply list_elem_of_In in Hk.
  - intros k. rewrite Hrd2, Hrd1. destruct (decide (k = key)) as [->|Hne].
    + rewrite (bool_decide_true (key ∈ key :: keys)) by (apply elem_of_cons; by left).
      rewrite bool_decide_false by done. apply lookup_delete_eq.
    + rewrite lookup_delete_ne by done.
      rewrite (bool_decide_ext (k ∈ key :: keys) (k ∈ keys)); [done|]. rewrite elem_of_cons. naive_solver.
Qed.
End Flush.

(** The counter keys a flush sees. *)
Definition counter_keys (now : Z) (ks : keyspace) : list string :=
  List.filter (λ k, starts_with rule_hits_prefix k && bool_decide (is_Some (peek now ks k)))
    (map fst (map_to_list ks)).

Lemma counter_keys_NoDup now ks : NoDup (counter_keys now ks).
Proof. apply filter_NoDup, NoDup_fst_map_to_list. Qed.

Lemma counter_keys_spec now ks k :
  k ∈ counter_keys now ks ↔ starts_with rule_hits_prefix k = true ∧ is_Some (peek now ks k).
Proof.
  unfold counter_keys. rewrite list_elem_of_In, filter_In, andb_true_iff, bool_decide_eq_true. split; [tauto|].
  intros [Hp Hk]. split; [|done]. apply in_map_iff. unfold peek in Hk.
  destruct (ks !! k) as [e|] eqn:E; [|by destruct Hk]. exists (k, e). split; [done|].
  by apply list_elem_of_In, elem_of_map_to_list.
Qed.

(** ** Properties *)

Module TasksProps.

(** [expire_rules] with the database up always returns; every stored rule
    whose expiry has passed is inactive afterwards, a rule still awaiting
    review past its expiry is marked as never reviewed, and no other field of
    any row changes.  The rules the engine evaluates (the active, unexpired
    ones, in order) are the same before and after. *)
Lemma expire_rules_exact {R P} `{RedisClient R} `{DjangoCache (World R P)} `{!CacheApart R P}
    (w : World R P) :
  w_db_up w = true →
  ∃ rep w', expire_rules w = (Ok rep, w') ∧
    w_block_rules w' = map (expire_block (w_now w)) (w_block_rules w) ∧
    w_allow_rules w' = map (expire_allow (w_now w)) (w_allow_rules w) ∧
    Forall (λ r, br_is_active r && past (w_now w) (br_expires_at r) = false) (w_block_rules w') ∧
    Forall (λ r, ar_is_active r && past (w_now w) (ar_expires_at r) = false) (w_allow_rules w') ∧
    BlockRuleManager.active (w_now w) (w_block_rules w') = BlockRuleManager.active (w_now w) (w_block_rules w) ∧
    AllowRuleManager.active (w_now w) (w_allow_rules w') = AllowRuleManager.active (w_now w) (w_allow_rules w).
Proof.
  intros Hup. destruct (expire_rules_run w Hup) as (rep & w' & Hrun & Ht). injection Ht as Hb Ha _ _ _ _ _.
  exists rep, w'. cbn in Hb, Ha. rewrite Hb, Ha.
  split_and!; [done|done|done| | |apply active_expire|apply allow_active_expire];
    rewrite List.Forall_forall; intros r (r0 & <- & _)%in_map_iff.
  - pose proof (expire_block_active (w_now w) r0) as He. unfold expire_block in *.
    destruct (BlockRuleManager.is_expired (w_now w) r0) eqn:E; destruct (is_unreviewed _ _); cbn in *;
      try done; exact E.
  - unfold expire_allow. destruct (AllowRuleManager.is_expired (w_now w) r0) eqn:E; [done|exact E].
Qed.

(** Retention deletes no decision.  [prune_stale_rules] keeps every rule
    that is active, has no expiry or an expiry inside the retention window, is
    pending review, was confirmed or rejected, or was not generated
    automatically; it removes all the others when pruning is enabled and
    touches nothing at all when it is not. *)
Lemma pruning_keeps_decisions {R P} `{RedisClient R} (conf : Conf) days (w w' : World R P) n dry :
  prune_stale_rules conf days w = (Ok (n, dry), w') →
  let cutoff := w_now w - default (DJANGO_WAF_RULE_RETENTION_DAYS conf) days * day_us in
  let keep r := negb (bool_decide (br_source r = RuleSource_AUTO)) || br_is_active r
                || match br_expires_at r with None => true | Some t => cutoff <=? t end
                || bool_decide (br_review_status r ∈ [PENDING_REVIEW; CONFIRMED; REJECTED]) in
  dry = negb (DJANGO_WAF_RULE_PRUNE_ENABLED conf) ∧
  (if DJANGO_WAF_RULE_PRUNE_ENABLED conf
   then w_block_rules w' = List.filter keep (w_block_rules w)
   else w' = w).
Proof.
  intros Hrun cutoff keep. unfold prune_stale_rules in Hrun. unfold bind at 1, clock, gets in Hrun.
  destruct (w_db_up w) eqn:Hup; [|by unfold bind, db_read in Hrun; rewrite Hup in Hrun].
  rewrite (bind_Ok _ _ _ _ _ (db_read_up _ w Hup)) in Hrun.
  destruct (DJANGO_WAF_RULE_PRUNE_ENABLED conf); cbn [negb] in *; [|unfold ret in Hrun; by simplify_eq].
  unfold set_block_rules in Hrun. rewrite (bind_Ok _ _ _ _ _ (db_write_up _ w Hup)) in Hrun.
  apply bind_inv_Ok in Hrun as (u & w1 & Hdel & Hrun). unfold ret in Hrun. simplify_eq. split; [done|].
  match type of Hdel with notify_each _ ?l ?x = _ => destruct (notify_each_run l x) as [rd Hn] end.
  unfold on_block_rule_delete in Hdel. rewrite Hn in Hdel. injection Hdel as <- <-. cbn. apply List.filter_ext. intros r. unfold keep, BlockRuleManager.is_stale.
  rewrite !negb_andb, negb_involutive. fold cutoff. f_equal; [f_equal|].
  - destruct (br_expires_at r) as [t|]; cbn; [|done]. by rewrite Z.ltb_antisym, negb_involutive.
  - by destruct (br_review_status r); vm_compute.
Qed.

(** [update_ip_reputation] keeps one row per address: with the database up
    and a positive threshold it always returns, the addresses stay unique,
    each address of the last day has exactly the row computed from its
    requests and tokens with a score between 0.00 and 1.00, every other row is
    untouched, and the created and updated counts add up to the addresses seen. *)
Lemma reputation_upserts {R P} (conf : Conf) (w : World R P) :
  w_db_up w = true → 0 < DJANGO_WAF_ANOMALY_THRESHOLD_DISTINCT_UAS conf →
  NoDup (rep_ips (w_reputation w)) →
  let rows := List.filter (since (w_now w - 24 * hour_us)) (w_request_log w) in
  let ips := groups rl_ip_address rows in
  ∃ u c n w', update_ip_reputation conf w = (Ok (u, c, n), w') ∧
    u + c = n ∧ n = Z.of_nat (length ips) ∧ NoDup (rep_ips (w_reputation w')) ∧
    (∀ ip, In ip ips → ∃ row, row = reputation_row conf (w_now w) rows (w_tokens w) ip ∧
       In row (w_reputation w') ∧ 0 <= ir_threat_score row <= 100) ∧
    (∀ r, ir_ip_address r ∉ ips → In r (w_reputation w') ↔ In r (w_reputation w)).
Proof.
  intros Hup Hthr Hnd rows ips. unfold update_ip_reputation. unfold bind at 1, clock, gets.
  rewrite (bind_Ok _ _ _ _ _ (db_read_up _ w Hup)). fold rows. fold ips.
  destruct (update_reputations_run conf (w_now w) rows ips w Hup) as (u & c & reps & Hrun & Huc & Hnd' & Hin & Ho);
    [lia|apply NoDup_remove_dups|done|].
  rewrite (bind_Ok _ _ _ _ _ Hrun). eexists _, _, _, _. split; [reflexivity|]. cbn.
  split_and!; [done|done|done| |done]. intros ip Hip. eexists. split; [reflexivity|].
  split; [by apply Hin|]. apply reputation_score_unit. lia.
Qed.

(** C16: no hit is lost or counted twice.  [flush_rule_hit_counts] always
    returns; when it reports no error, every rule's stored count has grown by
    exactly the counters waiting for it (and its last hit is stamped if there
    were any), no counter is left in Redis, and all other keys are untouched. *)
Theorem flush_conserves_hits {R P} `{RedisSpec R} (w : World R P) :
  let now := w_now w in let ks := r_view (w_redis w) in
  ∃ rep w', flush_rule_hit_counts true w = (Ok rep, w') ∧
    (errors rep = 0 →
     keys_seen rep = Z.of_nat (length (counter_keys now ks)) ∧
     w_block_rules w' = map (λ r, credit now (hits_for now ks (br_id r) (counter_keys now ks)) r)
                          (w_block_rules w) ∧
     ∀ k, if starts_with rule_hits_prefix k then peek now (r_view (w_redis w')) k = None
          else r_view (w_redis w') !! k = ks !! k).
Proof.
  intros now ks. unfold flush_rule_hit_counts. cbn [negb].
  unfold bind at 1, try_except, bind at 1, send, on_redis, exec.
  destruct (r_exec (w_now w) (KEYS rule_hits_prefix) (w_redis w)) as [[v|e] rd] eqn:E.
  2: { cbn. eexists _, _. split; [reflexivity|]. cbn. lia. }
  apply exec_documented in E. cbn [step] in E. injection E as <- Hrd. fold now ks in Hrd. unfold ret at 1. cbn iota beta.
  fold now ks. fold (counter_keys now ks). set (w1 := {| w with w_redis := rd |}).
  destruct (flush_keys_run (counter_keys now ks) w1 (counter_keys_NoDup now ks)) as (f & e & w2 & Hrun & _ & Hz).
  rewrite (bind_Ok _ _ _ _ _ Hrun). eexists _, w2. split; [reflexivity|]. cbn [errors keys_seen snd fst].
  intros He. destruct (Hz He) as [Hrows Hview]. cbn in Hrows, Hview. rewrite <- Hrd in Hrows, Hview.
  split_and!; [done|exact Hrows|]. intros k. destruct (starts_with rule_hits_prefix k) eqn:Ep.
  - unfold peek. rewrite Hview. case_bool_decide as Hk; [done|]. rewrite counter_keys_spec in Hk.
    fold (peek now ks k). destruct (peek now ks k) eqn:Epk; [|done]. exfalso. apply Hk. split; [done|by eexists].
  - rewrite Hview, bool_decide_false; [done|]. rewrite counter_keys_spec. intros [? _]. congruence.
Qed.

(** *** Witnesses *)

#[local] Instance sample_cache : DjangoCache (World MemRedis LiteRe) := dummy_cache _.
#[local] Instance sample_cache_apart : CacheApart MemRedis LiteRe.
Proof. split; reflexivity. Qed.

(** An active rule that expired at time 5; the clock is past it. *)
Definition lapsed_rule : BlockRule := {| AutoRuleProps.sample_rule with br_is_active := true |}.

Lemma expire_rules_exact_witness :
  ∃ rep w', expire_rules (AutoRuleProps.sample_world [lapsed_rule] []) = (Ok rep, w') ∧
    map br_is_active (w_block_rules w') = [false].
Proof.
  destruct (expire_rules_exact (AutoRuleProps.sample_world [lapsed_rule] []) eq_refl)
    as (rep & w' & Hrun & Hb & _).
  exists rep, w'. split; [exact Hrun|]. rewrite Hb. vm_compute. reflexivity.
Defined.

Definition pruning_conf : Conf :=
  {| (default_conf "s") with conf_maintenance :=
       {| default_maintenance_conf with DJANGO_WAF_RULE_PRUNE_ENABLED := true |} |}.

(** One stale rule, and one the operator rejected. *)
Definition stale_world : World MemRedis LiteRe :=
  {| (AutoRuleProps.sample_world
        [AutoRuleProps.sample_rule; {| AutoRuleProps.sample_rule with br_review_status := NOT_APPLICABLE |}] [])
     with w_now := 91 * day_us |}.

Lemma pruning_keeps_decisions_witness :
  match prune_stale_rules pruning_conf None stale_world with
  | (Ok (_, dry), w') => dry = false ∧ w_block_rules w' = [AutoRuleProps.sample_rule]
  | _ => False
  end.
Proof.
  assert (Ht : match prune_stale_rules pruning_conf None stale_world with (Ok _, _) => True | _ => False end)
    by (vm_compute; exact I).
  destruct (prune_stale_rules pruning_conf None stale_world) as [[[n dry]|e] w'] eqn:E; [|destruct Ht].
  destruct (pruning_keeps_decisions pruning_conf None stale_world w' n dry E) as [Hd Hr].
  split; [exact Hd|]. etransitivity; [exact Hr|]. vm_compute. reflexivity.
Defined.

Definition visited_world : World MemRedis LiteRe :=
  DetectorsProps.log_world [] [DetectorsProps.log_row "192.0.2.1" "/" BLOCKED 403;
                               DetectorsProps.log_row "192.0.2.1" "/" ALLOWED 200].

Lemma reputation_upserts_witness :
  ∃ u c n w', update_ip_reputation (default_conf "s") visited_world = (Ok (u, c, n), w') ∧ u + c = 1 ∧
    ∃ row, In row (w_reputation w') ∧ ir_total_requests row = 2 ∧ ir_threat_score row = 11.
Proof.
  destruct (reputation_upserts (default_conf "s") visited_world eq_refl) as
    (u & c & n & w' & Hrun & Huc & Hn & _ & Hin & _).
  - reflexivity.
  - apply NoDup_nil_2.
  - exists u, c, n, w'. split; [exact Hrun|]. split; [rewrite Huc, Hn; vm_compute; reflexivity|].
    destruct (Hin "192.0.2.1") as (row & -> & Hr & _); [vm_compute; left; reflexivity|].
    eexists. split; [exact Hr|]. vm_compute. split; reflexivity.
Defined.

(** Five hits waiting for rule 7. *)
Definition hit_world : World MemRedis LiteRe :=
  {| (AutoRuleProps.sample_world [AutoRuleProps.sample_rule] []) with w_redis :=
     {| mem := {[ "waf:rule_hits:00000000-0000-0000-0000-000000000007" :=
                  {| e_val := VString "5"; e_exp := None |} ]} |} |}.

Lemma flush_conserves_hits_witness :
  match flush_rule_hit_counts true hit_world with
  | (Ok rep, w') => errors rep = 0 ∧ map br_hit_count (w_block_rules w') = [5]
  | _ => False
  end.
Proof.
  assert (Ht : match flush_rule_hit_counts true hit_world with (Ok rep, _) => errors rep = 0 | _ => False end)
    by (vm_compute; reflexivity).
  destruct (flush_conserves_hits hit_world) as (rep & w' & Hrun & Hz).
  rewrite Hrun in Ht |- *. split; [exact Ht|]. destruct (Hz Ht) as (_ & Hrows & _).
  rewrite Hrows. vm_compute. reflexivity.
Defined.

End TasksProps.
