(* ===== verification/AccessLog.v ===== *)
(** * The access-log importer ([parse_access_log] of [tasks.py])

    The nginx access log, read from a remembered offset, becomes [RequestLog]
    rows: the line pattern with its capture groups, [strptime] on nginx's time
    format, the inferred verdict, the event identity and the insertion that
    skips conflicts.  Files and the Django cache are parameters ([LogFiles],
    [DjangoCache]), as are Django's address field ([IpField]).  A line is
    modelled on octets; nginx escapes everything outside printable ASCII, so
    octets and characters coincide on its logs. *)

From Stdlib Require Import ZArith QArith Lia Ascii String.
From stdpp Require Import base tactics option list strings numbers.
From S2P Require Import Prelude PyStr IpAddress Hash PyTime Conf Redis Models.
From S2P Require Import Detectors Tasks.

Open Scope Z_scope.

(** ** Matching with captures

    The pattern is a sequence of literal characters and repeated classes.
    Python's repetition is greedy: the longest run first, then shorter ones. *)

Inductive item : Type :=
| Lit (c : ascii)
| Many (one_or_more captured : bool) (p : ascii → bool).

(** The longest run of [p] after which [k] matches; [ok]: may stop here. *)
Fixpoint greedy (p : ascii → bool) (ok : bool) (k : string → option (list string)) (s : string)
  : option (string * list string) :=
  let stop := if ok then (λ r, ("", r)) <$> k s else None in
  match s with
  | String c s' =>
      if p c then
        match greedy p true k s' with
        | Some (a, r) => Some (String c a, r)
        | None => stop
        end
      else stop
  | EmptyString => stop
  end.

(** Match the items, then [k]; the captured groups in order. *)
Fixpoint match_items (items : list item) (k : string → option (list string)) (s : string)
  : option (list string) :=
  match items with
  | [] => k s
  | Lit c :: items =>
      match s with
      | String d s' => if bool_decide (c = d) then match_items items k s' else None
      | EmptyString => None
      end
  | Many one_or_more captured p :: items =>
      '(a, r) ← greedy p (negb one_or_more) (match_items items k) s;
      Some (if captured then a :: r else r)
  end.

Definition not_space (c : ascii) : bool := negb (is_space c).
Definition not_char (d c : ascii) : bool := negb (bool_decide (c = d)).
Definition quote : ascii := "034"%char.
Definition spaces : item := Many true false is_space.

Definition log_re_head : list item :=
  [Many true true not_space; spaces; Lit "-"; spaces; Lit "-"; spaces;
   Lit "["; Many true true (not_char "]"); Lit "]"; spaces;
   Lit quote; Many true true not_space; spaces; Many true true not_space; spaces;
   Many true false not_space; Lit quote; spaces; Many true true is_digit; spaces;
   Many true false not_space].
(** The optional referer and user agent. *)
Definition log_re_tail : list item :=
  [spaces; Lit quote; Many false false (not_char quote); Lit quote; spaces;
   Lit quote; Many false true (not_char quote); Lit quote].

(** [_LOG_RE.match(line)]: groups 1 to 5, and 6 when the tail is there. *)
Definition log_re_match (line : string) : option (list string) :=
  match_items log_re_head
    (λ s, Some (default [] (match_items log_re_tail (λ _, Some []) s))) line.

(** ** The lines of a text file ([for line in fh], universal newlines)

    Without their terminators, which the caller strips. *)
Definition LF : ascii := "010"%char.
Definition CR : ascii := "013"%char.

Definition push_char (c : ascii) (ls : list string) : list string :=
  match ls with [] => [String c ""] | l :: ls => String c l :: ls end.

Fixpoint file_lines (s : string) : list string :=
  match s with
  | EmptyString => []
  | String c s' =>
      if bool_decide (c = LF) then "" :: file_lines s'
      else if bool_decide (c = CR) then
        match s' with
        | String d s'' => if bool_decide (d = LF) then "" :: file_lines s'' else "" :: file_lines s'
        | EmptyString => "" :: file_lines s'
        end
      else push_char c (file_lines s')
  end.

(** ** [datetime.strptime(s, "%d/%b/%Y:%H:%M:%S %z")] *)

(** One or two digits, within bounds ([%d %H %M %S] between literals). *)
Definition number_field (lo hi : Z) (s : string) : option (Z * string) :=
  match s with
  | String a (String b s') =>
      if is_digit a then
        let v := if is_digit b then 10 * (code a - 48) + (code b - 48) else code a - 48 in
        if (lo <=? v) && (v <=? hi) then Some (v, if is_digit b then s' else String b s') else None
      else None
  | _ => None
  end.

(** [%d] also takes a blank for the tens. *)
Definition day_field (s : string) : option (Z * string) :=
  match s with
  | String " " (String b s') =>
      if is_digit b && (1 <=? code b - 48) then Some (code b - 48, s') else None
  | _ => number_field 1 31 s
  end.

Definition month_names : list string :=
  ["jan"; "feb"; "mar"; "apr"; "may"; "jun"; "jul"; "aug"; "sep"; "oct"; "nov"; "dec"].

Fixpoint index_of (m : string) (names : list string) (i : Z) : option Z :=
  match names with
  | [] => None
  | n :: names => if bool_decide (n = m) then Some i else index_of m names (i + 1)
  end.

Definition month_field (s : string) : option (Z * string) :=
  m ← index_of (lower (str_take 3 s)) month_names 1; Some (m, str_drop 3 s).

(** Two digits below 60. *)
Definition sixty_field (s : string) : option (Z * string) :=
  '(v, s') ← take_digits 2 0 s; if v <? 60 then Some (v, s') else None.

(** Up to six digits after the point, padded to microseconds. *)
Fixpoint micro_field (n : nat) (acc : Z) (s : string) : option Z :=
  match n, s with
  | _, EmptyString => Some (acc * 10 ^ Z.of_nat n)
  | S n, String c s' => if is_digit c then micro_field n (10 * acc + (code c - 48)) s' else None
  | O, String _ _ => None
  end.

(** Seconds and fraction of an offset, up to the end of the text. *)
Definition zone_tail (colon : bool) (s : string) : option (Z * Z) :=
  if str_empty s then Some (0, 0) else
  s ← (if colon then eat ":" s else Some s);
  '(ss, s) ← sixty_field s;
  match s with
  | EmptyString => Some (ss, 0)
  | String "." (String d s') =>
      if is_digit d then us ← micro_field 5 (code d - 48) s'; Some (ss, us) else None
  | _ => None
  end.

(** [%z] up to the end of the text, in microseconds; [timezone] refuses a day
    or more. *)
Definition zone_field (s : string) : option Z :=
  if bool_decide (s = "Z") then Some 0 else
  match s with
  | String sign s =>
      '(hh, s) ← (if char_in sign "+-" then take_digits 2 0 s else None);
      let colon := starts_with ":" s in
      '(mm, s) ← sixty_field (if colon then str_drop 1 s else s);
      '(ss, us) ← zone_tail colon s;
      let off := (hh * 3600 + mm * 60 + ss) * usec + us in
      if off <? day_us then Some (if bool_decide (sign = "-"%char) then - off else off) else None
  | EmptyString => None
  end.

(** [None] is [ValueError]. *)
Definition strptime_nginx (s : string) : option Z :=
  '(d, s) ← day_field s; s ← eat "/" s;
  '(m, s) ← month_field s; s ← eat "/" s;
  '(y, s) ← take_digits 4 0 s; s ← eat ":" s;
  '(hh, s) ← number_field 0 23 s; s ← eat ":" s;
  '(mm, s) ← number_field 0 59 s; s ← eat ":" s;
  '(ss, s) ← number_field 0 61 s;
  let rest := lstrip_with is_space s in
  off ← (if bool_decide (rest = s) then None else zone_field rest);
  let days := days_of_civil (y, m, d) in
  if (1 <=? y) && bool_decide (civil_of_days days = (y, m, d)) && (ss <? 60)
  then Some (days * day_us + (hh * 3600 + mm * 60 + ss) * usec - off)
  else None.

Example strptime_examples :
  strptime_nginx "23/Mar/2026:10:00:00 +0000" = fromisoformat "2026-03-23T10:00:00+00:00" ∧
  strptime_nginx "23/mar/2026:10:00:00 +02:30" = fromisoformat "2026-03-23T07:30:00+00:00" ∧
  strptime_nginx "30/Feb/2026:10:00:00 +0000" = None ∧
  strptime_nginx "01/Jan/2026:10:00:61 +0000" = None ∧
  strptime_nginx "01/Jan/2026:10:00:00" = None ∧
  strptime_nginx "01/Jan/2026:10:00:00 +9900" = None.
Proof. by vm_compute. Qed.

(** ** One line *)

(** What the pattern and the conversions extract from a line. *)
Record LogEntry : Type := {
  le_ip : string;
  le_timestamp : string;
  le_method : string;
  le_path : string;
  le_status : Z;
  le_user_agent : string;
}.

#[export] Instance LogEntry_eq_dec : EqDecision LogEntry.
Proof. solve_decision. Defined.

(** [GenericIPAddressField]: its validator, and the form it stores. *)
Class IpField := {
  validate_ipv46_address : string → bool;
  stored_ip : string → string;
}.

(** The limit of [int()] on text ([sys.int_info.default_max_str_digits]). *)
Definition max_str_digits : nat := 4300.
Definition MAX_SMALLINT : Z := 32767.

(** [int(match.group(5))]. *)
Definition status_int (digits : string) : res Z :=
  if (max_str_digits <? String.length digits)%nat then Raise ValueError else
  match py_int digits with Some n => Ok n | None => Raise ValueError end.

(** One pass of the loop body up to the row: an exception, a skipped line, or
    an entry. *)
Definition parse_line `{IpField} (line : string) : res (option LogEntry) :=
  match log_re_match (strip line) with
  | Some (ip :: ts :: method :: path :: status :: ua) =>
      match status_int status with
      | Raise e => Raise e
      | Ok n =>
          if negb (validate_ipv46_address ip) || (MAX_SMALLINT <? n) then Ok None else
          Ok (Some {| le_ip := ip; le_timestamp := ts; le_method := str_take 16 method;
                      le_path := str_take 2048 path; le_status := n;
                      le_user_agent := str_take 1024 (default "" (head ua)) |})
      end
  | _ => Ok None
  end.

(** [_infer_verdict_from_status]. *)
Definition infer_verdict_from_status (status_code : Z) (path : string) : Verdict :=
  if status_code =? 403 then BLOCKED
  else if status_code =? 429 then THROTTLED
  else if (status_code =? 302) && str_in "/waf/challenge" path then CHALLENGED
  else ALLOWED.

(** [_build_source_event_id]. *)
Definition build_source_event_id (e : LogEntry) : string :=
  str_take 64 (hexdigest (sha256 (encode
    (le_ip e +:+ "|" +:+ le_timestamp e +:+ "|" +:+ le_method e +:+ "|" +:+ le_path e +:+ "|"
     +:+ str_of_Z (le_status e))))).

(** The row of an entry; [now] serves an unreadable timestamp. *)
Definition entry_row (now : Z) (e : LogEntry) : RequestLog :=
  {| rl_timestamp := default now (strptime_nginx (le_timestamp e)); rl_ip_address := le_ip e;
     rl_user_agent := le_user_agent e; rl_path := le_path e; rl_method := le_method e;
     rl_verdict := infer_verdict_from_status (le_status e) (le_path e);
     rl_matched_rule_id := None; rl_matched_rule_type := ""; rl_anomaly_score := None;
     rl_response_code := Some (le_status e); rl_referer := ""; rl_http_fingerprint := "";
     rl_fingerprint_verdict := ""; rl_country_code := ""; rl_source := NGINX_LOG;
     rl_source_event_id := build_source_event_id e |}.

(** ** The task *)

(** The file system: [os.path.isfile], [os.path.getsize], and [open], [seek]
    and reading to the end: the octets read, and whether the end was reached
    (an [OSError] in the middle keeps what was read before it). *)
Class LogFiles (W : Type) := {
  isfile : string → M W bool;
  getsize : string → M W Z;
  read_from : string → Z → M W (string * bool);
}.

Definition is_os_error (e : exn) : bool := bool_decide (e = OtherError "OSError").
Definition str_size (s : string) : Z := Z.of_nat (String.length s).

Record ImportReport : Type := {
  parsed_lines : Z;
  created_records : Z;
  skipped_lines : Z;
}.
Definition empty_report : ImportReport :=
  {| parsed_lines := 0; created_records := 0; skipped_lines := 0 |}.

(** The loop's variables. *)
Record ImportState : Type := {
  im_parsed : Z;
  im_skipped : Z;
  im_records : list RequestLog;
}.

(** The partial unique constraint [django_waf_rl_nginx_event_uniq]. *)
Definition event_conflict (r s : RequestLog) : bool :=
  bool_decide (rl_source r = NGINX_LOG) && bool_decide (rl_source s = NGINX_LOG)
  && bool_decide (rl_source_event_id r = rl_source_event_id s) && negb (str_empty (rl_source_event_id r)).

(** The row as the table stores it. *)
Definition stored_row `{IpField} (r : RequestLog) : RequestLog :=
  {| r with rl_ip_address := stored_ip (rl_ip_address r) |}.

(** [bulk_create(rows, ignore_conflicts=True)] on the table. *)
Definition insert_ignoring `{IpField} (rows new : list RequestLog) : list RequestLog :=
  fold_left (λ rows r, if existsb (event_conflict r) rows then rows else rows ++ [stored_row r]) new rows.

Section Task.
Context {R P : Type} `{DjangoCache (World R P)} `{LogFiles (World R P)} `{IpField} (conf : Conf).
Abbreviation W := (World R P).

Definition offset_key (path : string) : string := "django_waf:access_log_offset:" +:+ path.

(** [_parse_nginx_timestamp] reads the clock when the text is unreadable. *)
Definition build_row (e : LogEntry) : M W RequestLog :=
  match strptime_nginx (le_timestamp e) with
  | Some t => ret (entry_row t e)
  | None => t <- clock ;; ret (entry_row t e)
  end.

(** The body of [for line in fh]. *)
Definition import_line (st : ImportState) (line : string) : M W ImportState :=
  entry <- lift_res (parse_line line) ;;
  match entry with
  | None => ret {| im_parsed := im_parsed st + 1; im_skipped := im_skipped st + 1;
                   im_records := im_records st |}
  | Some e =>
      row <- build_row e ;;
      ret {| im_parsed := im_parsed st + 1; im_skipped := im_skipped st;
             im_records := im_records st ++ [row] |}
  end.

Fixpoint import_lines (lines : list string) (st : ImportState) : M W ImportState :=
  match lines with
  | [] => ret st
  | line :: lines => st <- import_line st line ;; import_lines lines st
  end.

Definition initial_state : ImportState := {| im_parsed := 0; im_skipped := 0; im_records := [] |}.

(** [except OSError]: the report so far; any other exception escapes. *)
Definition or_report {A} (rep : ImportReport) (m : M W A) (k : A → M W ImportReport) : M W ImportReport :=
  λ w, match m w with
       | (Ok a, w') => k a w'
       | (Raise e, w') => (if is_os_error e then Ok rep else Raise e, w')
       end.

(** The rows are stored, then the offset. *)
Definition store_batch (path : string) (new_offset : Z) (st : ImportState) : M W ImportReport :=
  let n := Z.of_nat (length (im_records st)) in
  let rep created := {| parsed_lines := im_parsed st; created_records := created;
                        skipped_lines := im_skipped st |} in
  or_report (rep 0)
    (if 0 <? n
     then db_write (λ w, {| w with w_request_log := insert_ignoring (w_request_log w) (im_records st) |})
     else ret tt) (λ _,
  or_report (rep n) (cache_set (offset_key path) new_offset) (λ _, ret (rep n))).

(** The [try] block. *)
Definition import_from (path : string) (stored_offset : Z) : M W ImportReport :=
  or_report empty_report (getsize path) (λ file_size,
  let offset := if file_size <? stored_offset then 0 else stored_offset in
  or_report empty_report (read_from path offset) (λ '(text, complete),
  st <- import_lines (file_lines text) initial_state ;;
  if (complete : bool) then store_batch path (offset + str_size text) st
  else ret {| parsed_lines := im_parsed st; created_records := 0; skipped_lines := im_skipped st |})).

Definition parse_access_log (log_path : option string) : M W ImportReport :=
  let path := match log_path with
              | Some p => if str_empty p then DJANGO_WAF_ACCESS_LOG_PATH conf else p
              | None => DJANGO_WAF_ACCESS_LOG_PATH conf
              end in
  if str_empty path then ret empty_report else
  found <- isfile path ;;
  if negb found then ret empty_report else
  stored_offset <- cache_get (offset_key path) ;;
  import_from path (default 0 stored_offset).
End Task.

(** ** The matcher on a well-formed line *)

Lemma greedy_app p ok k a s b r :
  str_forall p a = true → greedy p true k s = Some (b, r) → (ok = true ∨ a ≠ "") →
  greedy p ok k (a +:+ s) = Some (a +:+ b, r).
Proof.
  revert ok. induction a as [|c a IH]; cbn; intros ok Ha Hs Hok.
  - by destruct Hok as [->|].
  - apply andb_true_iff in Ha as [-> Ha]. by rewrite (IH true Ha Hs (or_introl eq_refl)).
Qed.

(** A run that the next character ends. *)
Lemma greedy_stop p ok k a c s r :
  str_forall p a = true → p c = false → k (String c s) = Some r → (ok = true ∨ a ≠ "") →
  greedy p ok k (a +:+ String c s) = Some (a, r).
Proof.
  intros Ha Hc Hk Hok. rewrite <- (str_app_nil_r a) at 2. apply greedy_app; [done| |done].
  cbn. by rewrite Hc, Hk.
Qed.

(** A run that gives its last character back. *)
Lemma greedy_back p ok k a c d s r :
  str_forall p a = true → p c = true → p d = false → k (String d s) = None →
  k (String c (String d s)) = Some r → (ok = true ∨ a ≠ "") →
  greedy p ok k (a +:+ String c (String d s)) = Some (a, r).
Proof.
  intros Ha Hc Hd Hn Hk Hok. rewrite <- (str_app_nil_r a) at 2. apply greedy_app; [done| |done].
  cbn. by rewrite Hc, Hd, Hn, Hk.
Qed.

(** ** Insertion that skips conflicts *)

Section Insert.
Context `{IpField}.
Implicit Types (rows new : list RequestLog) (r s : RequestLog).

Lemma insert_ignoring_cons rows r new :
  insert_ignoring rows (r :: new) =
  insert_ignoring (if existsb (event_conflict r) rows then rows else rows ++ [stored_row r]) new.
Proof. done. Qed.

Lemma insert_ignoring_app rows l1 l2 :
  insert_ignoring rows (l1 ++ l2) = insert_ignoring (insert_ignoring rows l1) l2.
Proof. apply fold_left_app. Qed.

Lemma event_conflict_stored r s : event_conflict r (stored_row s) = event_conflict r s.
Proof. done. Qed.

(** The table only grows, by stored forms of the new rows. *)
Lemma insert_ignoring_extends rows new :
  ∃ more, insert_ignoring rows new = rows ++ more ∧ Forall (λ r, ∃ r0, In r0 new ∧ r = stored_row r0) more.
Proof.
  revert rows. induction new as [|r new IH]; intros rows.
  { exists []. by rewrite app_nil_r. }
  rewrite insert_ignoring_cons.
  destruct (existsb _ rows).
  - destruct (IH rows) as (more & -> & Hf). exists more. split; [done|].
    eapply List.Forall_impl; [|exact Hf]. intros x (r0 & Hin & ->). exists r0. split; [by right|done].
  - destruct (IH (rows ++ [stored_row r])) as (more & -> & Hf).
    exists (stored_row r :: more). rewrite <- app_assoc. split; [done|]. constructor; [exists r; split; [by left|done]|].
    eapply List.Forall_impl; [|exact Hf]. intros x (r0 & Hin & ->). exists r0. split; [by right|done].
Qed.

Definition covers rows r : Prop := existsb (event_conflict r) rows = true.

Lemma covers_extend rows new r : covers rows r → covers (insert_ignoring rows new) r.
Proof.
  unfold covers. destruct (insert_ignoring_extends rows new) as (more & -> & _).
  rewrite existsb_app. by intros ->.
Qed.

(** A row with an event identity is present once it was inserted. *)
Lemma insert_ignoring_covers rows new r :
  In r new → event_conflict r r = true → covers (insert_ignoring rows new) r.
Proof.
  intros Hin Hr. revert rows. induction new as [|x new IH]; [done|]. intros rows.
  rewrite insert_ignoring_cons.
  destruct Hin as [->|Hin]; [|by apply IH].
  destruct (existsb (event_conflict r) rows) eqn:E; apply covers_extend; [done|].
  unfold covers. rewrite existsb_app. cbn. rewrite event_conflict_stored, Hr. by rewrite orb_true_r.
Qed.

Lemma insert_covered rows new : Forall (covers rows) new → insert_ignoring rows new = rows.
Proof. induction 1 as [|r new Hr _ IH]; [done|]. rewrite insert_ignoring_cons. unfold covers in Hr. by rewrite Hr. Qed.

Lemma insert_ignoring_twice rows new :
  Forall (λ r, event_conflict r r = true) new →
  insert_ignoring (insert_ignoring rows new) new = insert_ignoring rows new.
Proof.
  intros Hf. apply insert_covered. rewrite List.Forall_forall in *. intros r Hin.
  apply insert_ignoring_covers; auto.
Qed.
End Insert.

(** ** The loop as a function of the clock *)

Section Scan.
Context `{IpField}.

Fixpoint scan (now : Z) (lines : list string) (st : ImportState) : res ImportState :=
  match lines with
  | [] => Ok st
  | line :: lines =>
      match parse_line line with
      | Raise e => Raise e
      | Ok entry =>
          scan now lines
            {| im_parsed := im_parsed st + 1;
               im_skipped := im_skipped st + (if entry then 0 else 1);
               im_records := im_records st ++ match entry with Some e => [entry_row now e] | None => [] end |}
      end
  end.

Lemma entry_row_time now t e : strptime_nginx (le_timestamp e) = Some t → entry_row t e = entry_row now e.
Proof. intros E. unfold entry_row. by rewrite E. Qed.

Lemma build_row_run {R P} e (w : World R P) : build_row e w = (Ok (entry_row (w_now w) e), w).
Proof.
  unfold build_row. destruct (strptime_nginx (le_timestamp e)) as [t|] eqn:E; [|done].
  unfold ret. by rewrite (entry_row_time (w_now w) t e E).
Qed.

Lemma import_lines_run {R P} lines st (w : World R P) : import_lines lines st w = (scan (w_now w) lines st, w).
Proof.
  revert st. induction lines as [|l lines IH]; intros st; [done|]. cbn.
  unfold import_line, bind at 1 2, lift_res. destruct (parse_line l) as [[e|]|x]; cbn; [| |done].
  - rewrite (bind_Ok _ _ _ _ _ (build_row_run e w)). unfold ret. rewrite IH. by rewrite Z.add_0_r.
  - unfold ret. rewrite IH. by rewrite app_nil_r.
Qed.

Lemma scan_app now l1 l2 st : scan now (l1 ++ l2) st = res_bind (scan now l1 st) (scan now l2).
Proof.
  revert st. induction l1 as [|l l1 IH]; intros st; cbn; [done|]. by destruct (parse_line l) as [e|x].
Qed.

Lemma scan_total now lines st : Forall (λ l, is_Ok (parse_line l) = true) lines → ∃ st', scan now lines st = Ok st'.
Proof.
  intros Hf. revert st. induction Hf as [|l lines Hl _ IH]; intros st; cbn; [eauto|].
  by destruct (parse_line l) as [e|x].
Qed.

(** [int] is the only thing that raises. *)
Lemma parse_line_raise l e : parse_line l = Raise e → e = ValueError.
Proof.
  unfold parse_line. destruct (log_re_match (strip l)) as [[|ip [|ts [|me [|path [|status ua]]]]]|]; try done.
  unfold status_int. destruct (_ <? _)%nat; [congruence|].
  destruct (py_int status); [by destruct (_ || _)|congruence].
Qed.

Lemma scan_raises now lines st l :
  In l lines → parse_line l = Raise ValueError → scan now lines st = Raise ValueError.
Proof.
  intros Hin Hl. revert st. induction lines as [|x lines IH]; intros st; [done|]. cbn.
  destruct (parse_line x) as [e|e] eqn:Hx.
  - apply IH. destruct Hin as [->|]; [congruence|done].
  - f_equal. by apply (parse_line_raise x).
Qed.

(** What the column types of [RequestLog] require, for an imported row. *)
Definition row_fits (r : RequestLog) : Prop :=
  validate_ipv46_address (rl_ip_address r) = true ∧ (String.length (rl_method r) <= 16)%nat ∧
  (String.length (rl_path r) <= 2048)%nat ∧ (String.length (rl_user_agent r) <= 1024)%nat ∧
  (∃ n, rl_response_code r = Some n ∧ n <= MAX_SMALLINT) ∧
  rl_source r = NGINX_LOG ∧ String.length (rl_source_event_id r) = 64%nat.

Lemma str_take_length_le n s : (String.length (str_take n s) <= n)%nat.
Proof. revert s. induction n as [|n IH]; destruct s as [|c s]; cbn; try lia. specialize (IH s). lia. Qed.

Lemma str_take_all n s : (String.length s <= n)%nat → str_take n s = s.
Proof. revert s. induction n as [|n IH]; destruct s as [|c s]; cbn; intros; try done; [lia|]. by rewrite IH by lia. Qed.

Lemma event_id_length e : String.length (build_source_event_id e) = 64%nat.
Proof.
  unfold build_source_event_id.
  assert (Hl : ∀ x, String.length (hexdigest (sha256 x)) = 64%nat)
    by (intros x; rewrite hexdigest_length, sha256_length; done).
  rewrite str_take_all; [apply Hl|]. by rewrite Hl.
Qed.

Lemma Ok_Some_inj {A} (a b : A) : Ok (Some a) = Ok (Some b) → a = b.
Proof. by intros [= ->]. Qed.

Lemma Ok_inj {A} (a b : A) : Ok a = Ok b → a = b.
Proof. by intros [= ->]. Qed.

Lemma parse_line_fits now l e : parse_line l = Ok (Some e) → row_fits (entry_row now e).
Proof.
  unfold parse_line. destruct (log_re_match (strip l)) as [[|ip [|ts [|me [|path [|status ua]]]]]|]; try done.
  destruct (status_int status) as [n|x]; [|done]. destruct (_ || _) eqn:E; [done|]. intros <-%Ok_Some_inj. bool_hyps.
  split_and!; [done|apply str_take_length_le|apply str_take_length_le|apply str_take_length_le| |done|apply event_id_length].
  by exists n.
Qed.

(** Every readable line has its row. *)
Lemma scan_rows now lines st st' l e :
  scan now lines st = Ok st' → (In l lines ∧ parse_line l = Ok (Some e)) ∨ In (entry_row now e) (im_records st) →
  In (entry_row now e) (im_records st').
Proof.
  revert st. induction lines as [|x lines IH]; intros st; cbn [scan].
  { intros [= <-] [[[] _]|Hin]. done. }
  destruct (parse_line x) as [ex|] eqn:Hx; [|done]. intros Hs Hin. apply (IH _ Hs).
  destruct Hin as [[[->|Hin] Hl]|Hin]; [| by left|].
  - right. cbn. apply in_app_iff. right. rewrite Hx in Hl. apply Ok_inj in Hl as ->. by left.
  - right. cbn. apply in_app_iff. by left.
Qed.

Lemma row_fits_identity r : row_fits r → event_conflict r r = true.
Proof.
  intros (_ & _ & _ & _ & _ & Hs & Hl). unfold event_conflict. rewrite Hs.
  destruct (rl_source_event_id r); [done|]. by rewrite !bool_decide_true.
Qed.

(** Every line is counted once, as a row or as skipped, and every row fits. *)
Lemma scan_accounts now lines st st' :
  scan now lines st = Ok st' →
  im_parsed st' = im_parsed st + Z.of_nat (length lines) ∧
  im_skipped st' + Z.of_nat (length (im_records st')) =
    im_skipped st + Z.of_nat (length (im_records st)) + Z.of_nat (length lines) ∧
  (Forall row_fits (im_records st) → Forall row_fits (im_records st')).
Proof.
  revert st. induction lines as [|l lines IH]; intros st; cbn [scan length].
  { intros [= <-]. split_and!; [lia|lia|done]. }
  destruct (parse_line l) as [e|x] eqn:Hp; [|done]. intros (Hn & Hs & Hf)%IH. cbn in *.
  rewrite length_app in Hs. split_and!; [lia|destruct e; cbn in *; lia|].
  intros Hr. apply Hf. apply Forall_app. split; [done|]. destruct e as [e|]; [|done].
  constructor; [by eapply parse_line_fits|done].
Qed.
End Scan.

(** ** The task on a log that can be read *)

(** The file at [path] holds [text] and can be read. *)
Record holds_text {W} (F : LogFiles W) (path text : string) : Prop := {
  ht_isfile w : @isfile W F path w = (Ok true, w);
  ht_size w : @getsize W F path w = (Ok (str_size text), w);
  ht_read off w : @read_from W F path off w = (Ok (str_drop (Z.to_nat off) text, true), w);
}.

(** The cache leaves the tables and the clock alone. *)
Class CacheQuiet (R P : Type) `{DjangoCache (World R P)} : Prop := {
  get_quiet k (w : World R P) : tables (cache_get k w).2 = tables w ∧ w_now (cache_get k w).2 = w_now w;
  set_quiet k v (w : World R P) : tables (cache_set k v w).2 = tables w ∧ w_now (cache_set k v w).2 = w_now w;
}.

(** The rows a text adds to a table, when no line of it raises. *)
Definition rows_of `{IpField} (now : Z) (text : string) : res (list RequestLog) :=
  match scan now (file_lines text) initial_state with
  | Ok st => Ok (im_records st)
  | Raise e => Raise e
  end.

Definition add_rows `{IpField} (up : bool) (table : list RequestLog) (new : res (list RequestLog)) : list RequestLog :=
  match new with
  | Ok new => if up then insert_ignoring table new else table
  | Raise _ => table
  end.

Section Runs.
Context {R P : Type} {DC : DjangoCache (World R P)} `{IpField} {CQ : CacheQuiet R P}.
Abbreviation W := (World R P).
Implicit Types w : W.

Lemma tables_log w w' : tables w' = tables w → w_request_log w' = w_request_log w ∧ w_db_up w' = w_db_up w.
Proof. intros E. split; [exact (f_equal (λ t, t.1.1.1.1.2) E)|exact (f_equal snd E)]. Qed.

(** What the importer reads and changes of the world. *)
Definition log_view w := (w_request_log w, w_now w, w_db_up w).

Lemma cache_set_view rep1 rep2 k v w :
  log_view (or_report rep1 (cache_set k v) (λ _, ret rep2) w).2 = log_view w.
Proof.
  unfold or_report. pose proof (set_quiet k v w) as [Ht Hn].
  destruct (cache_set k v w) as [[u|e] w2]; cbn in *; destruct (tables_log _ _ Ht) as [Hl Hu];
    unfold log_view; by rewrite Hl, Hu, Hn.
Qed.

(** The table and the clock after the batch was stored. *)
Lemma store_batch_table path off st w :
  log_view (store_batch path off st w).2 =
  (if w_db_up w then insert_ignoring (w_request_log w) (im_records st) else w_request_log w,
   w_now w, w_db_up w).
Proof.
  unfold store_batch. cbv zeta. unfold or_report at 1.
  destruct (0 <? Z.of_nat (length (im_records st))) eqn:En.
  - unfold db_write. destruct (w_db_up w) eqn:Hup; cbv beta iota; [|unfold log_view; cbn; by rewrite ?Hup].
    rewrite cache_set_view. unfold log_view. cbn. by rewrite ?Hup.
  - unfold ret at 1. rewrite cache_set_view. unfold log_view.
    destruct (im_records st); [|cbn in En; done]. by destruct (w_db_up w).
Qed.

(** The remembered offset, as far as the file reaches. *)
Definition resume (text : string) (cached : option Z) : Z :=
  let stored := default 0 cached in if str_size text <? stored then 0 else stored.

Lemma import_from_table (F : LogFiles W) path text cached w :
  holds_text F path text →
  log_view (import_from path (default 0 cached) w).2 =
  (add_rows (w_db_up w) (w_request_log w) (rows_of (w_now w) (str_drop (Z.to_nat (resume text cached)) text)),
   w_now w, w_db_up w).
Proof.
  intros Hf. unfold import_from, or_report. rewrite (ht_size _ _ _ Hf). cbv beta iota zeta.
  rewrite (ht_read _ _ _ Hf). cbv beta iota zeta. fold (resume text cached).
  unfold bind. rewrite import_lines_run. unfold add_rows, rows_of.
  destruct (scan _ _ _) as [st|e]; [|done]. cbv beta iota. apply store_batch_table.
Qed.

(** What a run does to the table: one insertion of the rows of the unread part. *)
Lemma parse_access_log_table conf (F : LogFiles W) path text cached w :
  path ≠ "" → holds_text F path text → (cache_get (offset_key path) w).1 = Ok cached →
  log_view (parse_access_log conf (Some path) w).2 =
  (add_rows (w_db_up w) (w_request_log w) (rows_of (w_now w) (str_drop (Z.to_nat (resume text cached)) text)),
   w_now w, w_db_up w).
Proof.
  intros Hp Hf Hc. unfold parse_access_log. rewrite !(str_empty_false path) by done.
  unfold bind at 1. rewrite (ht_isfile _ _ _ Hf). cbv beta iota. cbn [negb].
  pose proof (get_quiet (offset_key path) w) as [Ht Hn]. unfold bind.
  destruct (cache_get (offset_key path) w) as [r w1]; cbn in *. subst r. destruct (tables_log _ _ Ht) as [Hl Hu].
  cbv beta iota. rewrite (import_from_table F path text cached w1 Hf). by rewrite Hl, Hu, Hn.
Qed.

(** The report of a run whose lines and whose writes all succeed. *)
Lemma parse_access_log_report conf (F : LogFiles W) path text cached st w :
  path ≠ "" → holds_text F path text → w_db_up w = true →
  (cache_get (offset_key path) w).1 = Ok cached → (∀ v w, (cache_set (offset_key path) v w).1 = Ok tt) →
  scan (w_now w) (file_lines (str_drop (Z.to_nat (resume text cached)) text)) initial_state = Ok st →
  (parse_access_log conf (Some path) w).1 =
  Ok {| parsed_lines := im_parsed st; created_records := Z.of_nat (length (im_records st));
        skipped_lines := im_skipped st |}.
Proof.
  intros Hp Hf Hup Hc Hs Hscan. unfold parse_access_log. rewrite !(str_empty_false path) by done.
  unfold bind at 1. rewrite (ht_isfile _ _ _ Hf). cbv beta iota. cbn [negb].
  pose proof (get_quiet (offset_key path) w) as [Ht Hn]. unfold bind at 1.
  destruct (cache_get (offset_key path) w) as [r w1]; cbn in *. subst r. destruct (tables_log _ _ Ht) as [_ Hu].
  unfold import_from, or_report at 1. rewrite (ht_size _ _ _ Hf). cbv beta iota zeta.
  unfold or_report at 1. rewrite (ht_read _ _ _ Hf). cbv beta iota zeta. fold (resume text cached).
  unfold bind. rewrite import_lines_run, Hn, Hscan. cbv beta iota.
  assert (Hset : ∀ rep1 rep2 k w2, k = offset_key path →
    (or_report rep1 (cache_set k (resume text cached + str_size (str_drop (Z.to_nat (resume text cached)) text)))
       (λ _, ret rep2) w2).1 = Ok rep2).
  { intros rep1 rep2 k w2 ->. unfold or_report. pose proof (Hs (resume text cached +
      str_size (str_drop (Z.to_nat (resume text cached)) text)) w2) as Hs2.
    destruct (cache_set _ _ w2) as [[u|e] w3]; [done|]. by cbn in Hs2. }
  unfold store_batch. cbv zeta. unfold or_report at 1.
  destruct (0 <? Z.of_nat (length (im_records st))); [|by apply Hset].
  unfold db_write. rewrite Hu, Hup. cbv beta iota. by apply Hset.
Qed.

Lemma parse_access_log_raises conf (F : LogFiles W) path text cached w :
  path ≠ "" → holds_text F path text → (cache_get (offset_key path) w).1 = Ok cached →
  scan (w_now w) (file_lines (str_drop (Z.to_nat (resume text cached)) text)) initial_state = Raise ValueError →
  (parse_access_log conf (Some path) w).1 = Raise ValueError.
Proof.
  intros Hp Hf Hc Hscan. unfold parse_access_log. rewrite !(str_empty_false path) by done.
  unfold bind at 1. rewrite (ht_isfile _ _ _ Hf). cbv beta iota. cbn [negb].
  pose proof (get_quiet (offset_key path) w) as [Ht Hn]. unfold bind at 1.
  destruct (cache_get (offset_key path) w) as [r w1]; cbn in *. subst r.
  unfold import_from, or_report at 1. rewrite (ht_size _ _ _ Hf). cbv beta iota zeta.
  unfold or_report at 1. rewrite (ht_read _ _ _ Hf). cbv beta iota zeta. fold (resume text cached).
  unfold bind. by rewrite import_lines_run, Hn, Hscan.
Qed.
End Runs.

Lemma resume_start text : str_drop (Z.to_nat (resume text None)) text = text.
Proof.
  unfold resume, str_size. cbn. destruct (Z.ltb_spec (Z.of_nat (String.length text)) 0); by destruct text.
Qed.

Lemma resume_here a b :
  str_drop (Z.to_nat (resume (a +:+ String LF b) (Some (str_size (a +:+ String LF ""))))) (a +:+ String LF b) = b.
Proof.
  unfold resume, str_size. cbn [default from_option]. unfold id. destruct (Z.ltb_spec (Z.of_nat (String.length (a +:+ String LF b)))
    (Z.of_nat (String.length (a +:+ String LF "")))) as [Hlt|].
  { rewrite !str_app_length in Hlt. cbn in Hlt. lia. }
  rewrite Nat2Z.id. replace (a +:+ String LF b) with ((a +:+ String LF "") +:+ b) by (by rewrite str_app_assoc).
  apply str_drop_app.
Qed.

(** ** Splitting a text after a line end *)

Lemma push_char_app c l1 l2 : l1 ≠ [] → push_char c (l1 ++ l2) = push_char c l1 ++ l2.
Proof. by destruct l1. Qed.

Lemma push_char_ne c ls : push_char c ls ≠ [].
Proof. by destruct ls. Qed.

Lemma file_lines_ne c s : file_lines (String c s) ≠ [].
Proof. cbn. case_all; apply push_char_ne. Qed.

Lemma file_lines_app a b :
  file_lines (a +:+ String LF b) = file_lines (a +:+ String LF "") ++ file_lines b.
Proof.
  remember (String.length a) as n eqn:En. revert a En.
  induction n as [n IH] using (well_founded_induction lt_wf). intros [|c a] ->; [done|]. cbn [append file_lines].
  assert (IHa := IH (String.length a) ltac:(cbn; lia) a eq_refl).
  destruct (bool_decide (c = LF)); [by rewrite IHa|]. destruct (bool_decide (c = CR)).
  - destruct a as [|d a]; [done|]. cbn [append] in *. destruct (bool_decide (d = LF)); [|by rewrite IHa].
    by rewrite (IH (String.length a) ltac:(cbn; lia) a eq_refl).
  - rewrite IHa. apply push_char_app. destruct a; apply file_lines_ne.
Qed.

Lemma scan_records_app `{IpField} now lines st :
  scan now lines st =
  res_bind (scan now lines initial_state) (λ s,
    Ok {| im_parsed := im_parsed st + im_parsed s; im_skipped := im_skipped st + im_skipped s;
          im_records := im_records st ++ im_records s |}).
Proof.
  revert st. induction lines as [|l lines IH]; intros st; cbn.
  { rewrite !Z.add_0_r, app_nil_r. by destruct st. }
  destruct (parse_line l) as [e|x]; cbn; [|done]. rewrite IH.
  rewrite (IH {| im_parsed := 1; im_skipped := _; im_records := _ |}).
  destruct (scan now lines initial_state) as [s|x]; cbn; [|done].
  rewrite <- app_assoc. do 2 f_equal; try lia.
Qed.

(** The rows of a text are those of its parts, cut after a line end. *)
Lemma rows_of_app `{IpField} now a b :
  rows_of now (a +:+ String LF b) =
  res_bind (rows_of now (a +:+ String LF "")) (λ r1, res_bind (rows_of now b) (λ r2, Ok (r1 ++ r2))).
Proof.
  unfold rows_of. rewrite file_lines_app, scan_app.
  destruct (scan now (file_lines (a +:+ _)) initial_state) as [st|x]; cbn; [|done].
  rewrite scan_records_app. by destruct (scan now (file_lines b) initial_state) as [s|x].
Qed.

Lemma rows_of_fit `{IpField} now text rows : rows_of now text = Ok rows → Forall row_fits rows.
Proof.
  unfold rows_of. destruct (scan _ _ _) as [st|x] eqn:E; [|done]. intros [= <-].
  destruct (scan_accounts now _ _ _ E) as (_ & _ & Hf). by apply Hf.
Qed.

(** ** Lines as nginx writes them *)

(** nginx's [combined] format:
    [$remote_addr - $remote_user [$time_local] "$request" $status
     $body_bytes_sent "$http_referer" "$http_user_agent"]. *)
Record Access : Type := {
  ac_addr : string;
  ac_time : string;
  ac_method : string;
  ac_target : string;
  ac_protocol : string;
  ac_status : Z;
  ac_bytes : string;
  ac_referer : string;
  ac_agent : string;
}.

Definition quoted (s : string) : string := String quote (s +:+ String quote "").

Definition combined_line (user : string) (a : Access) : string :=
  ac_addr a +:+ " - " +:+ user +:+ " [" +:+ ac_time a +:+ "] "
  +:+ quoted (ac_method a +:+ " " +:+ ac_target a +:+ " " +:+ ac_protocol a)
  +:+ " " +:+ str_of_Z (ac_status a) +:+ " " +:+ ac_bytes a
  +:+ " " +:+ quoted (ac_referer a) +:+ " " +:+ quoted (ac_agent a).

(** A token without blanks, and what nginx's escaping guarantees. *)
Definition token (s : string) : bool := negb (str_empty s) && str_forall not_space s.
Definition well_formed (a : Access) : bool :=
  token (ac_addr a) && negb (str_empty (ac_time a)) && str_forall (not_char "]") (ac_time a)
  && token (ac_method a) && token (ac_target a) && token (ac_protocol a)
  && (0 <=? ac_status a) && token (ac_bytes a)
  && str_forall (not_char quote) (ac_referer a) && str_forall (not_char quote) (ac_agent a).

Lemma many_stop om cap p items k a c s r :
  str_forall p a = true → p c = false → (om = false ∨ a ≠ "") →
  match_items items k (String c s) = Some r →
  match_items (Many om cap p :: items) k (a +:+ String c s) = Some (if cap then a :: r else r).
Proof.
  intros Ha Hc Hne Hk. cbn [match_items].
  rewrite (greedy_stop p (negb om) (match_items items k) a c s r Ha Hc Hk); [done|].
  destruct Hne as [->|]; [by left|by right].
Qed.

(** One blank before something else. *)
Lemma spaces_one items k c s r :
  is_space c = false → match_items items k (String c s) = Some r →
  match_items (spaces :: items) k (String " " (String c s)) = Some r.
Proof.
  intros Hc. assert (Hne : " " ≠ "") by done.
  exact (many_stop true false is_space items k " " c s r eq_refl Hc (or_intror Hne)).
Qed.

Lemma spaces_token a items k s r :
  (∃ c t, a = String c t ∧ is_space c = false) → match_items items k (a +:+ s) = Some r →
  match_items (spaces :: items) k (String " " (a +:+ s)) = Some r.
Proof. intros (c & t & -> & Hc). by apply spaces_one. Qed.

Lemma lit_one items k c s r :
  match_items items k s = Some r → match_items (Lit c :: items) k (String c s) = Some r.
Proof. intros Hk. cbn [match_items]. by rewrite bool_decide_true. Qed.

(** A run that must give its last character back to a literal. *)
Lemma many_back p c items k a d s r :
  str_forall p a = true → p c = true → p d = false → c ≠ d → a ≠ "" →
  match_items items k (String d s) = Some r →
  match_items (Many true false p :: Lit c :: items) k (a +:+ String c (String d s)) = Some r.
Proof.
  intros Ha Hc Hd Hcd Hne Hk.
  change (('(b, r0) ← greedy p false (match_items (Lit c :: items) k) (a +:+ String c (String d s));
           Some r0) = Some r).
  rewrite (greedy_back p false (match_items (Lit c :: items) k) a c d s r Ha Hc Hd);
    [done| |by apply lit_one|by right].
  cbn [match_items]. by rewrite bool_decide_false.
Qed.

Lemma token_inv s : token s = true → s ≠ "" ∧ str_forall not_space s = true ∧
  ∃ c t, s = String c t ∧ is_space c = false.
Proof.
  unfold token. destruct s as [|c t]; [done|]. intros Ht. bool_hyps. split_and!; [done|done|].
  exists c, t. split; [done|]. cbn in *. unfold not_space in *. by bool_hyps.
Qed.

(** The optional tail takes the referer and the agent. *)
Lemma tail_match referer agent :
  str_forall (not_char quote) referer = true → str_forall (not_char quote) agent = true →
  match_items log_re_tail (λ _, Some [])
    (String " " (String quote (referer +:+ String quote (String " " (String quote (agent +:+ String quote ""))))))
  = Some [agent].
Proof.
  intros Hr Ha. apply spaces_one; [done|]. apply lit_one.
  apply (many_stop false false (not_char quote) _ _ referer quote _ [agent]); [done|done|by left|].
  apply lit_one, spaces_one; [done|]. apply lit_one.
  apply (many_stop false true (not_char quote) _ _ agent quote _ []); [done|done|by left|].
  by apply lit_one.
Qed.

Lemma dec_digits_length fuel n acc :
  (String.length (dec_digits fuel n acc) <= fuel + String.length acc)%nat.
Proof.
  revert n acc. induction fuel as [|fuel IH]; intros n acc; [done|].
  change (dec_digits (S fuel) n acc) with
    (if n <? 10 then String (digit_char (n mod 10)) acc
     else dec_digits fuel (n / 10) (String (digit_char (n mod 10)) acc)).
  destruct (n <? 10); [cbn; lia|]. etrans; [apply IH|]. cbn. lia.
Qed.

(** A status that fits the column is read back. *)
Lemma status_int_str n : 0 <= n <= MAX_SMALLINT → status_int (str_of_Z n) = Ok n.
Proof.
  intros Hn. unfold status_int. rewrite py_int_str_of_Z.
  assert (Hl : (String.length (str_of_Z n) <= 16)%nat).
  { unfold str_of_Z. destruct (Z.ltb_spec n 0); [lia|].
    etrans; [apply dec_digits_length|]. cbn [String.length]. unfold dec_fuel.
    assert (Z.log2 n <= Z.log2 MAX_SMALLINT) by (apply Z.log2_le_mono; lia).
    assert (Z.log2 MAX_SMALLINT = 14) by done. lia. }
  destruct (Nat.ltb_spec max_str_digits (String.length (str_of_Z n))) as [Hlt|]; [|done].
  exfalso. apply (Nat.lt_irrefl 16). eapply Nat.lt_le_trans; [|exact Hl].
  eapply Nat.le_lt_trans; [|exact Hlt]. apply Nat.leb_le. by vm_compute.
Qed.

Lemma digits_str n : 0 <= n → str_of_Z n ≠ "" ∧ str_forall is_digit (str_of_Z n) = true ∧
  ∃ c t, str_of_Z n = String c t ∧ is_space c = false.
Proof.
  intros Hn. unfold str_of_Z. destruct (Z.ltb_spec n 0); [lia|].
  destruct (dec_digits_head (dec_fuel n) n "") as (c & s & E & Hc); [done|done|unfold dec_fuel; lia|].
  split_and!; [by rewrite E|by apply dec_digits_forall|].
  exists c, s. split; [done|]. apply is_digit_not_space in Hc. by apply negb_true_iff.
Qed.

(** The line, brought to the order the matcher reads it in. *)
Definition combined_chars (a : Access) : string :=
  ac_addr a +:+ String " " (String "-" (String " " (String "-" (String " " (String "["
  (ac_time a +:+ String "]" (String " " (String quote
  (ac_method a +:+ String " " (ac_target a +:+ String " " (ac_protocol a +:+ String quote (String " "
  (str_of_Z (ac_status a) +:+ String " " (ac_bytes a +:+ String " "
  (String quote (ac_referer a +:+ String quote (String " "
  (String quote (ac_agent a +:+ String quote ""))))))))))))))))))).

Lemma combined_line_chars a : combined_line "-" a = combined_chars a.
Proof.
  unfold combined_line, combined_chars, quoted.
  repeat (rewrite ?str_app_assoc; cbn [append]). done.
Qed.

Lemma combined_match a :
  well_formed a = true →
  log_re_match (combined_chars a) =
  Some [ac_addr a; ac_time a; ac_method a; ac_target a; str_of_Z (ac_status a); ac_agent a].
Proof.
  unfold well_formed. intros Hw. bool_hyps.
  repeat match goal with H : token _ = true |- _ => apply token_inv in H as (? & ? & ?) end.
  destruct (digits_str (ac_status a)) as (Hsn & Hsd & Hs); [done|].
  unfold log_re_match, combined_chars, log_re_head.
  refine (many_stop true true not_space _ _ _ " "%char _ [_; _; _; _; _] _ eq_refl (or_intror _) _); [done|done|].
  apply spaces_one; [done|]. apply lit_one, spaces_one; [done|]. apply lit_one, spaces_one; [done|]. apply lit_one.
  refine (many_stop true true (not_char "]") _ _ _ "]"%char _ [_; _; _; _] _ eq_refl (or_intror _) _); [done|by destruct (ac_time a)|].
  apply lit_one, spaces_one; [done|]. apply lit_one.
  refine (many_stop true true not_space _ _ _ " "%char _ [_; _; _] _ eq_refl (or_intror _) _); [done|done|].
  apply (spaces_token (ac_target a)); [done|].
  refine (many_stop true true not_space _ _ _ " "%char _ [_; _] _ eq_refl (or_intror _) _); [done|done|].
  apply (spaces_token (ac_protocol a)); [done|].
  apply many_back; [done|done|done|done|done|].
  apply spaces_token; [done|].
  refine (many_stop true true is_digit _ _ _ " "%char _ [_] _ eq_refl (or_intror _) _); [done|done|].
  apply (spaces_token (ac_bytes a)); [done|].
  refine (many_stop true false not_space _ _ _ " "%char _ _ _ eq_refl (or_intror _) _); [done|done|].
  cbn [match_items]. by rewrite tail_match.
Qed.

Lemma strip_ends c s d :
  is_space c = false → is_space d = false → strip (String c s +:+ String d "") = String c s +:+ String d "".
Proof.
  intros Hc Hd. unfold strip. cbn [append lstrip_with]. rewrite Hc.
  change (String c (s +:+ String d "")) with (String c s +:+ String d "").
  unfold rstrip_with. rewrite str_rev_app_distr. change (str_rev (String d "")) with (String d "").
  cbn [append lstrip_with]. rewrite Hd.
  change (String d (str_rev (String c s))) with (str_rev (String d "") +:+ str_rev (String c s)).
  by rewrite <- str_rev_app_distr, str_rev_involutive.
Qed.

Lemma strip_combined a : token (ac_addr a) = true → strip (combined_chars a) = combined_chars a.
Proof.
  intros (_ & _ & c & t & E & Hc)%token_inv.
  assert (Hs : ∃ s, combined_chars a = String c s +:+ String quote "").
  { unfold combined_chars. rewrite E. eexists. symmetry. cbn [append]. f_equal.
    instantiate (1 := t +:+ String " " (String "-" (String " " (String "-" (String " " (String "["
      (ac_time a +:+ String "]" (String " " (String quote (ac_method a +:+ String " " (ac_target a +:+
       String " " (ac_protocol a +:+ String quote (String " " (str_of_Z (ac_status a) +:+ String " "
      (ac_bytes a +:+ String " " (String quote (ac_referer a +:+ String quote (String " "
       (String quote (ac_agent a)))))))))))))))))))).
    repeat (rewrite ?str_app_assoc; cbn [append]). done. }
  destruct Hs as [s ->]. by apply strip_ends.
Qed.

(** ** Properties *)

Module AccessLogProps.

(** C26: The round trip with nginx.  Every line nginx writes in its [combined]
    format for an anonymous request (tokens without blanks, quotes escaped),
    from an address the column takes and with a status in range, is read back
    as exactly that request: address, time, method, target, status, and user
    agent, each cut to its column. *)
Theorem combined_line_round_trip `{IpField} a :
  well_formed a = true → validate_ipv46_address (ac_addr a) = true → ac_status a <= MAX_SMALLINT →
  parse_line (combined_line "-" a) =
  Ok (Some {| le_ip := ac_addr a; le_timestamp := ac_time a; le_method := str_take 16 (ac_method a);
              le_path := str_take 2048 (ac_target a); le_status := ac_status a;
              le_user_agent := str_take 1024 (ac_agent a) |}).
Proof.
  intros Hw Hip Hst. assert (Hw' := Hw). unfold well_formed in Hw'. bool_hyps.
  unfold parse_line. rewrite combined_line_chars, strip_combined, combined_match by done.
  rewrite status_int_str by lia. rewrite Hip. cbn [negb orb].
  destruct (Z.ltb_spec MAX_SMALLINT (ac_status a)); [lia|done].
Qed.

Section Runs.
Context {R P : Type} {DC : DjangoCache (World R P)} `{IpField} {CQ : CacheQuiet R P} (conf : Conf).
Abbreviation W := (World R P).

(** C27: Reading a log again adds nothing.  When the remembered offset is lost
    and the same file is read from its start once more, every row is refused
    as a duplicate: the request log is what the first run left. *)
Theorem reimport_adds_nothing (F : LogFiles W) path text (w : W) :
  path ≠ "" → holds_text F path text → (∀ w, (cache_get (offset_key path) w).1 = Ok None) →
  let w1 := (parse_access_log conf (Some path) w).2 in
  let w2 := (parse_access_log conf (Some path) w1).2 in
  w_request_log w2 = w_request_log w1.
Proof.
  intros Hp Hf Hc w1 w2.
  pose proof (parse_access_log_table conf F path text None w Hp Hf (Hc w)) as E1. fold w1 in E1.
  pose proof (parse_access_log_table conf F path text None w1 Hp Hf (Hc w1)) as E2. fold w2 in E2.
  unfold log_view in E1, E2. injection E1 as El1 En1 Eu1. injection E2 as El2 _ _.
  rewrite El2, En1, Eu1, El1. unfold add_rows.
  destruct (rows_of (w_now w) _) as [rows|e] eqn:Er; [|done].
  destruct (w_db_up w); [|done]. apply insert_ignoring_twice.
  apply rows_of_fit in Er. eapply List.Forall_impl; [|exact Er]. apply row_fits_identity.
Qed.

(** Reading a growing log in parts loses nothing.  A run on a log that
    ends with a line end, then a run from the remembered offset once more
    lines were appended, leave the same request log as one run over the whole
    file. *)
Lemma incremental_import (F1 F2 : LogFiles W) path a b (w : W) :
  path ≠ "" → holds_text F1 path (a +:+ String LF "") → holds_text F2 path (a +:+ String LF b) →
  is_Ok (rows_of (w_now w) (a +:+ String LF "")) = true →
  (cache_get (offset_key path) w).1 = Ok None →
  let w1 := (@parse_access_log _ _ _ F1 _ conf (Some path) w).2 in
  (cache_get (offset_key path) w1).1 = Ok (Some (str_size (a +:+ String LF ""))) →
  is_Ok (rows_of (w_now w) b) = true →
  w_request_log (@parse_access_log _ _ _ F2 _ conf (Some path) w1).2 =
  w_request_log (@parse_access_log _ _ _ F2 _ conf (Some path) w).2.
Proof.
  intros Hp Hf1 Hf2 Ha Hc w1 Hc1 Hb.
  pose proof (parse_access_log_table conf F1 path _ None w Hp Hf1 Hc) as E1. fold w1 in E1.
  pose proof (parse_access_log_table conf F2 path _ _ w1 Hp Hf2 Hc1) as E2.
  pose proof (parse_access_log_table conf F2 path _ None w Hp Hf2 Hc) as E3.
  unfold log_view in E1, E2, E3. injection E1 as El1 En1 Eu1. injection E2 as El2 _ _. injection E3 as El3 _ _.
  rewrite El2, El3, En1, Eu1, El1. rewrite resume_here. rewrite !resume_start.
  rewrite (rows_of_app _ a b).
  destruct (rows_of (w_now w) (a +:+ String LF "")) as [r1|]; [|done].
  destruct (rows_of (w_now w) b) as [r2|]; [|done]. cbn.
  destruct (w_db_up w); [|done]. symmetry. apply insert_ignoring_app.
Qed.

(** A bad line costs only itself.  When no status overruns the limit of
    [int], a run over a readable log counts every unread line once, as a row
    or as skipped; every row added fits its columns (address accepted, status
    at most 32767, texts cut to length, an identity of 64 characters) and no
    row of the table is touched; and each well-formed line is in the table
    afterwards, whatever the other lines hold. *)
Lemma bad_lines_cost_only_themselves (F : LogFiles W) path text cached (w : W) :
  path ≠ "" → holds_text F path text → w_db_up w = true →
  (cache_get (offset_key path) w).1 = Ok cached → (∀ v w, (cache_set (offset_key path) v w).1 = Ok tt) →
  let lines := file_lines (str_drop (Z.to_nat (resume text cached)) text) in
  Forall (λ l, is_Ok (parse_line l) = true) lines →
  ∃ rep w' more, parse_access_log conf (Some path) w = (Ok rep, w') ∧
    parsed_lines rep = Z.of_nat (length lines) ∧ created_records rep + skipped_lines rep = parsed_lines rep ∧
    w_request_log w' = w_request_log w ++ more ∧
    Forall (λ r, ∃ r0, row_fits r0 ∧ r = stored_row r0) more ∧
    ∀ l e, In l lines → parse_line l = Ok (Some e) → covers (w_request_log w') (entry_row (w_now w) e).
Proof.
  intros Hp Hf Hup Hc Hs lines Hok.
  destruct (scan_total (w_now w) lines initial_state Hok) as [st Hst].
  pose proof (parse_access_log_report conf F path text cached st w Hp Hf Hup Hc Hs Hst) as Hrep.
  pose proof (parse_access_log_table conf F path text cached w Hp Hf Hc) as Htab.
  destruct (parse_access_log conf (Some path) w) as [r w'] eqn:Erun. cbn [fst snd] in *. subst r.
  unfold log_view in Htab. injection Htab as El _ _. fold lines in El. unfold rows_of in El.
  fold lines in El. rewrite Hst, Hup in El. cbn in El.
  destruct (scan_accounts _ _ _ _ Hst) as (Hn & Hk & Hfit). cbn in Hn, Hk.
  destruct (insert_ignoring_extends (w_request_log w) (im_records st)) as (more & Em & Hmore).
  eexists _, w', more. split; [done|]. cbn. split_and!; [lia|lia|congruence| |].
  - specialize (Hfit (List.Forall_nil _)). rewrite List.Forall_forall in Hfit.
    eapply List.Forall_impl; [|exact Hmore]. intros r (r0 & Hin & ->). eauto.
  - intros l e Hin Hl. rewrite El. apply insert_ignoring_covers.
    + apply (scan_rows (w_now w) lines _ _ l e Hst). by left.
    + eapply row_fits_identity, parse_line_fits, Hl.
Qed.

(** One overlong status loses the batch.  If an unread line matches the
    pattern with more than 4300 digits in the place of the status, no row of
    the log is stored, in this run and in every later one while that line is
    unread, and the run does not return a report: the [except OSError] around
    the loop does not catch the [ValueError] of [int]. *)
Lemma overlong_status_loses_batch (F : LogFiles W) path text cached l (w : W) :
  path ≠ "" → holds_text F path text → (cache_get (offset_key path) w).1 = Ok cached →
  In l (file_lines (str_drop (Z.to_nat (resume text cached)) text)) →
  (∃ ip ts me pa digits ua, log_re_match (strip l) = Some (ip :: ts :: me :: pa :: digits :: ua) ∧
     (max_str_digits < String.length digits)%nat) →
  ∃ w', parse_access_log conf (Some path) w = (Raise ValueError, w') ∧ w_request_log w' = w_request_log w.
Proof.
  intros Hp Hf Hc Hin (ip & ts & me & pa & digits & ua & Hm & Hlong).
  assert (Hl : parse_line l = Raise ValueError).
  { unfold parse_line, status_int. rewrite Hm. by destruct (Nat.ltb_spec max_str_digits (String.length digits)); [|lia]. }
  pose proof (scan_raises (w_now w) _ initial_state l Hin Hl) as Hs.
  pose proof (parse_access_log_table conf F path text cached w Hp Hf Hc) as Htab.
  pose proof (parse_access_log_raises conf F path text cached w Hp Hf Hc Hs) as Hr.
  destruct (parse_access_log conf (Some path) w) as [r w'] eqn:Erun. cbn [fst snd] in *. subst r.
  exists w'. split; [done|]. injection Htab as El _ _. unfold rows_of in El. by rewrite Hs in El.
Qed.
End Runs.

(** ** The laws hold somewhere *)

Definition demo_ip_field : IpField :=
  {| validate_ipv46_address s := match ip_address s with Some _ => true | None => false end;
     stored_ip s := s |}.

(** A directory with one readable file. *)
Definition text_files (W : Type) (path text : string) : LogFiles W :=
  {| isfile p := ret (bool_decide (p = path));
     getsize p := if bool_decide (p = path) then ret (str_size text) else raise (OtherError "OSError");
     read_from p off := if bool_decide (p = path) then ret (str_drop (Z.to_nat off) text, true)
                        else raise (OtherError "OSError") |}.

Lemma text_files_hold W path text : holds_text (text_files W path text) path text.
Proof. by split; intros *; cbn; rewrite bool_decide_true. Qed.

(** A cache that holds one entry, whatever is written. *)
Definition frozen_cache (W : Type) (v : option Z) : DjangoCache W :=
  {| cache_get _ := ret v; cache_set _ _ := ret tt |}.

Lemma frozen_cache_quiet R P v : @CacheQuiet R P (frozen_cache (World R P) v).
Proof. done. Qed.

Definition demo_world : World unit unit :=
  {| w_now := 1700000000000000; w_redis := tt; w_db_up := true; w_block_rules := []; w_allow_rules := [];
     w_request_log := []; w_tokens := []; w_reputation := []; w_fresh := 0; w_concurrent := [];
     w_process_cache := None; w_process_cache_version := 0; w_ua_pattern_cache := ∅ |}.

Definition demo_access : Access :=
  {| ac_addr := "203.0.113.7"; ac_time := "23/Mar/2026:10:00:00 +0000"; ac_method := "GET";
     ac_target := "/waf/challenge/?next=/"; ac_protocol := "HTTP/1.1"; ac_status := 302; ac_bytes := "154";
     ac_referer := "-"; ac_agent := "Mozilla/5.0 (X11; Linux)" |}.
Definition demo_line : string := combined_line "-" demo_access.
Definition bad_ip_line : string := combined_line "-" {| demo_access with ac_addr := "999.1.2.3" |}.
Definition nl (s : string) : string := s +:+ String LF "".

Lemma combined_line_round_trip_witness :
  parse_line (H:=demo_ip_field) demo_line =
  Ok (Some {| le_ip := "203.0.113.7"; le_timestamp := "23/Mar/2026:10:00:00 +0000"; le_method := "GET";
              le_path := "/waf/challenge/?next=/"; le_status := 302; le_user_agent := "Mozilla/5.0 (X11; Linux)" |}).
Proof.
  assert (W : well_formed demo_access = true) by (vm_compute; reflexivity).
  assert (I : @validate_ipv46_address demo_ip_field (ac_addr demo_access) = true) by (vm_compute; reflexivity).
  assert (S : ac_status demo_access <= MAX_SMALLINT) by (apply Z.leb_le; vm_compute; reflexivity).
  exact (combined_line_round_trip (H:=demo_ip_field) demo_access W I S).
Defined.

(** What a request that does not fit the pattern becomes: an authenticated
    user, or a request line with a blank in its target, is skipped; a bare
    common-format line has no user agent; two requests of one client for one
    page in the same second become one row. *)
Example import_examples :
  parse_line (H:=demo_ip_field) (combined_line "alice" demo_access) = Ok None ∧
  parse_line (H:=demo_ip_field) bad_ip_line = Ok None ∧
  parse_line (H:=demo_ip_field) (combined_line "-" {| demo_access with ac_status := 40000 |}) = Ok None ∧
  (le_user_agent <$> match parse_line (H:=demo_ip_field)
     (str_take 90 demo_line) with Ok (Some e) => Some e | _ => None end) = Some "" ∧
  (let twice := nl demo_line +:+ nl demo_line in
   let '(r, w) := parse_access_log (H:=frozen_cache _ None) (H0:=text_files _ "/log" twice) (H2:=demo_ip_field)
                    (default_conf "k") (Some "/log") demo_world in
   r = Ok {| parsed_lines := 2; created_records := 2; skipped_lines := 0 |} ∧ length (w_request_log w) = 1%nat).
Proof. vm_compute. done. Qed.

Definition demo_text : string := nl demo_line +:+ nl bad_ip_line +:+ nl demo_line.
Definition log_path : string := "/log".

Lemma reimport_adds_nothing_witness :
  let run := parse_access_log (H:=frozen_cache _ None) (H0:=text_files _ log_path demo_text) (H2:=demo_ip_field)
               (default_conf "k") (Some log_path) in
  let w1 := (run demo_world).2 in
  length (w_request_log w1) = 1%nat ∧ w_request_log (run w1).2 = w_request_log w1.
Proof.
  intros run w1. split; [vm_compute; reflexivity|].
  apply (@reimport_adds_nothing unit unit (frozen_cache _ None) demo_ip_field (frozen_cache_quiet _ _ _)
           (default_conf "k") (text_files _ log_path demo_text) log_path demo_text demo_world).
  - discriminate.
  - apply text_files_hold.
  - reflexivity.
Defined.

Lemma bad_lines_cost_only_themselves_witness :
  let run := parse_access_log (H:=frozen_cache _ None) (H0:=text_files _ log_path demo_text) (H2:=demo_ip_field)
               (default_conf "k") (Some log_path) in
  ∃ rep w' more, run demo_world = (Ok rep, w') ∧ parsed_lines rep = 3 ∧
    created_records rep + skipped_lines rep = 3 ∧ w_request_log w' = [] ++ more.
Proof.
  pose proof (@bad_lines_cost_only_themselves unit unit (frozen_cache _ None) demo_ip_field
    (frozen_cache_quiet _ _ _) (default_conf "k") (text_files _ log_path demo_text) log_path demo_text None demo_world) as T.
  cbv zeta in T.
  specialize (T ltac:(discriminate) (text_files_hold _ _ _) eq_refl eq_refl (λ _ _, eq_refl)).
  specialize (T ltac:(repeat (apply List.Forall_cons; [vm_compute; reflexivity|]); apply List.Forall_nil)).
  destruct T as (rep & w' & more & Hr & Hn & Hk & Hw & _).
  exists rep, w', more. split; [exact Hr|]. rewrite Hk, Hn. split; [vm_compute; reflexivity|].
  split; [vm_compute; reflexivity|exact Hw].
Defined.

(** A cache that answers by the number of rows the log holds: nothing before
    the first run, the offset after it. *)
Definition after_first (off : Z) : DjangoCache (World unit unit) :=
  {| cache_get _ := λ w, (Ok (if w_request_log w then None else Some off), w); cache_set _ _ := ret tt |}.

Definition later_line : string := combined_line "-" {| demo_access with ac_time := "23/Mar/2026:10:00:09 +0000" |}.

Lemma incremental_import_witness :
  let off := str_size (nl demo_line) in
  let run text := @parse_access_log _ _ (after_first off) (text_files _ log_path text) demo_ip_field
                    (default_conf "k") (Some log_path) in
  let w1 := (run (nl demo_line) demo_world).2 in
  length (w_request_log w1) = 1%nat ∧
  w_request_log (run (demo_line +:+ String LF (nl later_line)) w1).2 =
  w_request_log (run (demo_line +:+ String LF (nl later_line)) demo_world).2.
Proof.
  intros off run w1. split; [vm_compute; reflexivity|].
  assert (Q : @CacheQuiet unit unit (after_first off)) by (split; intros; split; reflexivity).
  apply (@incremental_import unit unit (after_first off) demo_ip_field Q (default_conf "k")
           (text_files _ log_path (nl demo_line)) (text_files _ log_path (demo_line +:+ String LF (nl later_line)))
           log_path demo_line (nl later_line) demo_world).
  - discriminate.
  - apply text_files_hold.
  - apply text_files_hold.
  - vm_compute. reflexivity.
  - reflexivity.
  - vm_compute. reflexivity.
  - vm_compute. reflexivity.
Defined.

(** A line whose status has 4301 digits. *)
Definition overlong_line : string :=
  "203.0.113.7 - - [23/Mar/2026:10:00:00 +0000] " +:+ quoted "GET / HTTP/1.1" +:+ " "
  +:+ Nat.iter 4301 (String "1") " 0".

Lemma overlong_status_loses_batch_witness :
  let text := nl demo_line +:+ nl overlong_line in
  ∃ w', parse_access_log (H:=frozen_cache _ None) (H0:=text_files _ log_path text) (H2:=demo_ip_field)
          (default_conf "k") (Some log_path) demo_world = (Raise ValueError, w') ∧ w_request_log w' = [].
Proof.
  intros text.
  apply (@overlong_status_loses_batch unit unit (frozen_cache _ None) demo_ip_field
    (frozen_cache_quiet _ _ _) (default_conf "k") (text_files _ log_path text) log_path text None overlong_line demo_world).
  - discriminate.
  - apply text_files_hold.
  - reflexivity.
  - assert (E : existsb (String.eqb overlong_line)
              (file_lines (str_drop (Z.to_nat (resume text None)) text)) = true) by (vm_compute; reflexivity).
    apply existsb_exists in E as (x & Hx & ->%String.eqb_eq). exact Hx.
  - assert (E : match log_re_match (strip overlong_line) with
                | Some (_ :: _ :: _ :: _ :: digits :: _) => (max_str_digits <? String.length digits)%nat
                | _ => false end = true) by (vm_compute; reflexivity).
    destruct (log_re_match (strip overlong_line)) as [[|ip [|ts [|me [|pa [|digits ua]]]]]|]; try discriminate E.
    exists ip, ts, me, pa, digits, ua. split; [reflexivity|]. apply Nat.ltb_lt, E.
Defined.
End AccessLogProps.
