(* ===== verification/Patterns.v ===== *)
(** * Write-time validation of patterns ([services/pattern_validation.py],
      [models._validate_rule_pattern], [threat_feed._validate_pattern])

    The two catastrophic-backtracking shapes are searched by regular
    expressions without nested groups; here each is one left-to-right scan
    that remembers the innermost open parenthesis, and [quantified_group_spec]
    says the scan finds exactly what the expression describes. *)

From Stdlib Require Import ZArith Lia Ascii String.
From stdpp Require Import base tactics option list strings numbers.
From S2P Require Import Prelude PyStr Regex Conf.

Open Scope Z_scope.

Definition MAX_PATTERN_LENGTH : Z := 512.

Definition is_quantifier (c : ascii) : bool := (code c =? 43) || (code c =? 42).   (* + or star *)
Definition is_bar (c : ascii) : bool := code c =? 124.
Definition is_paren (c : ascii) : bool := (code c =? 40) || (code c =? 41).

(** Search for: an open parenthesis, text without parentheses that contains a
    [mark], a close parenthesis, a quantifier.  [st] is [None] outside an
    innermost group and [Some b] inside one, [b] telling whether it has had a
    mark.  The optional [?:] is text without parentheses. *)
Fixpoint quantified_group (mark : ascii → bool) (st : option bool) (s : string) : bool :=
  match s with
  | EmptyString => false
  | String c s =>
      if code c =? 40 then quantified_group mark (Some false) s
      else if code c =? 41 then
        (bool_decide (st = Some true) && match s with String q _ => is_quantifier q | EmptyString => false end)
        || quantified_group mark None s
      else quantified_group mark ((λ b, b || mark c) <$> st) s
  end.

(** [_NESTED_QUANTIFIER_RE.search], [_QUANTIFIED_ALTERNATION_RE.search]. *)
Definition nested_quantifier (pattern : string) : bool := quantified_group is_quantifier None pattern.
Definition quantified_alternation (pattern : string) : bool := quantified_group is_bar None pattern.

Example shapes_found :
  nested_quantifier "(a+)+" = true ∧ nested_quantifier "x(?:.*y)*" = true ∧
  nested_quantifier "(a)+b+" = false ∧ nested_quantifier "((a+)b)+" = false ∧
  quantified_alternation "(a|ab)+" = true ∧ quantified_alternation "bot|(crawl|spider)" = false.
Proof. vm_compute. done. Qed.

Section Validate.
Context {P : Type} `{ReEngine P}.

(** [validate_ua_regex_pattern]; [PatternValidationError] is a [ValueError]. *)
Definition validate_ua_regex_pattern (pattern : string) : res unit :=
  if str_empty pattern then Raise ValueError else
  if MAX_PATTERN_LENGTH <? Z.of_nat (String.length pattern) then Raise ValueError else
  match re_compile (P:=P) pattern with
  | None => Raise ValueError
  | Some _ =>
      if nested_quantifier pattern then Raise ValueError else
      if quantified_alternation pattern then Raise ValueError else Ok tt
  end.

(** [models._validate_rule_pattern], run by [full_clean]. *)
Definition validate_rule_pattern (rule_type : RuleType) (match_type : MatchType) (pattern : string)
  : res unit :=
  if negb (bool_decide (rule_type = RuleType_UA) && bool_decide (match_type = MatchType_REGEX)) then Ok tt
  else validate_ua_regex_pattern pattern.

(** [threat_feed._validate_pattern] on a string. *)
Definition validate_pattern (pattern match_type : string) : bool :=
  if str_empty pattern || (512 <? Z.of_nat (String.length pattern)) then false else
  if negb (bool_decide (match_type = "regex")) then true else
  is_Ok (validate_ua_regex_pattern pattern).

(** The search of [_fallback_validate_regex]: an open parenthesis, text up to
    the next close parenthesis that contains a quantifier, a quantifier. *)
Fixpoint str_exists (p : ascii → bool) (s : string) : bool :=
  match s with EmptyString => false | String c s => p c || str_exists p s end.
Fixpoint fallback_nested (s : string) : bool :=
  match s with
  | EmptyString => false
  | String c s' =>
      ((code c =? 40) &&
       match partition_on ")" s' with
       | (inside, Some (String q _)) => str_exists is_quantifier inside && is_quantifier q
       | _ => false
       end) || fallback_nested s'
  end.

Definition fallback_validate_regex (pattern : string) : bool :=
  if 512 <? Z.of_nat (String.length pattern) then false else
  if fallback_nested pattern then false else
  match re_compile (P:=P) pattern with None => false | Some _ => true end.

(** [_validate_pattern] where [pattern_validation] cannot be imported. *)
Definition validate_pattern_standalone (pattern match_type : string) : bool :=
  if str_empty pattern || (512 <? Z.of_nat (String.length pattern)) then false else
  if negb (bool_decide (match_type = "regex")) then true else fallback_validate_regex pattern.
End Validate.

(** ** The scan and the shape it looks for *)

Section Scan.
Variable mark : ascii → bool.

(** Text without parentheses. *)
Definition plain (s : string) : bool := str_forall (λ c, negb (is_paren c)) s.

(** The rest of an open group: up to its close parenthesis and a quantifier. *)
Definition closes (flag : bool) (s : string) : Prop :=
  ∃ b q post, s = b +:+ String ")" (String q post) ∧ plain b = true ∧ is_quantifier q = true ∧
              flag || str_exists mark b = true.

(** The expression: [( [^()]* mark [^()]* ) quantifier], anywhere. *)
Definition dangerous_group (s : string) : Prop :=
  ∃ pre rest, s = pre +:+ String "(" rest ∧ closes false rest.

Lemma closes_empty f : ¬ closes f "".
Proof. intros (b & q & post & Hs & _). by destruct b. Qed.

Lemma dangerous_cons c s : dangerous_group (String c s) ↔ (c = "("%char ∧ closes false s) ∨ dangerous_group s.
Proof.
  split.
  - intros (pre & rest & Hs & Hc). destruct pre as [|c' pre]; cbn in Hs; injection Hs as -> ->; [by left|].
    right. by exists pre, rest.
  - intros [[-> Hc]|(pre & rest & -> & Hc)]; [by exists "", s|by exists (String c pre), rest].
Qed.

Lemma closes_close f s :
  closes f (String ")" s) ↔ f = true ∧ ∃ q post, s = String q post ∧ is_quantifier q = true.
Proof.
  split.
  - intros (b & q & post & Hs & Hp & Hq & Hm). destruct b as [|c b]; cbn in Hs; injection Hs as Hs.
    + rewrite orb_false_r in Hm. eauto.
    + subst c. done.
  - intros (-> & q & post & -> & Hq). by exists "", q, post.
Qed.

Lemma closes_open f s : ¬ closes f (String "(" s).
Proof. intros (b & q & post & Hs & Hp & _). destruct b as [|c b]; cbn in Hs; [done|]. injection Hs as <- _. done. Qed.

Lemma closes_other f c s :
  is_paren c = false → closes f (String c s) ↔ closes (f || mark c) s.
Proof.
  intros Hc. split.
  - intros (b & q & post & Hs & Hp & Hq & Hm). destruct b as [|c' b]; cbn in Hs.
    + injection Hs as -> _. done.
    + injection Hs as -> ->. exists b, q, post. cbn in Hp, Hm. apply andb_true_iff in Hp as [_ Hp].
      by rewrite <- orb_assoc.
  - intros (b & q & post & -> & Hp & Hq & Hm). exists (String c b), q, post.
    split; [done|]. unfold plain in *. cbn. rewrite Hc, Hp. by rewrite orb_assoc.
Qed.

Lemma code_eq c z : code c =? z = true → c = chr z.
Proof.
  intros E. apply Z.eqb_eq in E. unfold code in E. unfold chr. rewrite <- E, Nat2Z.id.
  by rewrite ascii_nat_embedding.
Qed.

Lemma scan_spec st s :
  quantified_group mark st s = true ↔ dangerous_group s ∨ ∃ f, st = Some f ∧ closes f s.
Proof.
  revert st. induction s as [|c s IH]; intros st; cbn [quantified_group].
  { split; [done|]. intros [(pre & rest & Hs & _)|(f & _ & Hc)]; [by destruct pre|by apply closes_empty in Hc]. }
  rewrite dangerous_cons. destruct (code c =? 40) eqn:E40; [|destruct (code c =? 41) eqn:E41].
  - apply code_eq in E40 as ->. change (chr 40) with "("%char. rewrite IH. split.
    + intros [Hd|(f & [= <-] & Hc)]; auto.
    + intros [[[_ Hc]|Hd]|(f & _ & Hc)]; [eauto|auto|by apply closes_open in Hc].
  - apply code_eq in E41 as ->. change (chr 41) with ")"%char. rewrite orb_true_iff, andb_true_iff, IH, bool_decide_eq_true.
    split.
    + intros [[-> Hq]|[Hd|(f & [=] & _)]]; [|auto].
      right. exists true. split; [done|]. apply closes_close. split; [done|]. destruct s as [|q post]; [done|eauto].
    + intros [[[[=] _]|Hd]|(f & -> & Hc)]; [auto|]. apply closes_close in Hc as (-> & q & post & -> & Hq). auto.
  - assert (Hc : is_paren c = false) by (unfold is_paren; by rewrite E40, E41).
    rewrite IH. split.
    + intros [Hd|(f & Hf & Hcl)]; [auto|]. destruct st as [b|]; [|done]. injection Hf as <-.
      right. exists b. split; [done|]. by apply closes_other.
    + intros [[[-> _]|Hd]|(f & -> & Hcl)]; [done|auto|]. right. eexists. split; [reflexivity|]. by apply closes_other.
Qed.
End Scan.

Lemma quantified_group_spec mark s : quantified_group mark None s = true ↔ dangerous_group mark s.
Proof. rewrite scan_spec. split; [|auto]. intros [?|(f & [=] & _)]; done. Qed.

Module PatternsProps.

(** C21: what the validator accepts, exactly: the patterns that are non-empty, at
    most 512 characters long, accepted by the regular-expression compiler, and
    with no innermost group (text in parentheses without a parenthesis in it)
    that is followed by a plus or a star and contains a plus or a star, or a bar.
    The groups are described by the decomposition of the text, not by the scan.
    It is a check of shapes: a repetition one level further in, as in [((a+)b)+],
    is accepted ([deeper_nesting_is_accepted]). *)
Theorem validator_accepts_exactly {P} `{ReEngine P} pattern :
  validate_ua_regex_pattern (P:=P) pattern = Ok tt ↔
  pattern ≠ "" ∧ Z.of_nat (String.length pattern) <= MAX_PATTERN_LENGTH ∧
  is_Some (re_compile (P:=P) pattern) ∧
  ¬ dangerous_group is_quantifier pattern ∧ ¬ dangerous_group is_bar pattern.
Proof.
  rewrite <- !quantified_group_spec. fold (nested_quantifier pattern) (quantified_alternation pattern).
  unfold validate_ua_regex_pattern.
  destruct (str_empty pattern) eqn:Ee; [by destruct pattern; [split; [done|intros []]|]|].
  assert (pattern ≠ "") by by destruct pattern.
  destruct (Z.ltb_spec MAX_PATTERN_LENGTH (Z.of_nat (String.length pattern))); [split; [done|intros (_ & ? & _); lia]|].
  destruct (re_compile (P:=P) pattern) as [c|]; [|split; [done|intros (_ & _ & [? [=]] & _)]].
  destruct (nested_quantifier pattern), (quantified_alternation pattern); split; try done; try naive_solver.
  all: intros _; split_and!; try done; by exists c.
Qed.

(** Without the validator the feed still refuses every nested quantifier it
    refuses, and what it accepts there compiles; repeated alternations are let
    through. *)
Lemma fallback_refuses_nested_quantifiers {P} `{ReEngine P} pattern :
  fallback_validate_regex (P:=P) pattern = true →
  nested_quantifier pattern = false ∧ is_Some (re_compile (P:=P) pattern) ∧
  (validate_ua_regex_pattern (P:=P) pattern ≠ Ok tt → pattern = "" ∨ quantified_alternation pattern = true).
Proof.
  unfold fallback_validate_regex, validate_ua_regex_pattern, MAX_PATTERN_LENGTH.
  destruct (512 <? Z.of_nat (String.length pattern)); [done|].
  destruct (fallback_nested pattern) eqn:Ef; [done|].
  destruct (re_compile (P:=P) pattern) as [c|]; [intros _|done].
  assert (Hn : nested_quantifier pattern = false).
  { apply not_true_iff_false. intros Hn%quantified_group_spec. apply not_true_iff_false in Ef. apply Ef.
    destruct Hn as (pre & rest & -> & b & q & post & -> & Hp & Hq & Hm). clear -Hp Hq Hm. cbn [orb] in Hm.
    induction pre as [|d pre IH]; cbn [append fallback_nested]; [|by rewrite IH, orb_true_r].
    rewrite partition_on_app, Hm, Hq; [done|].
    by apply (str_forall_not_char (λ c, negb (is_paren c))). }
  rewrite Hn. split; [done|]. split; [by exists c|]. destruct (str_empty pattern) eqn:Ee; [by destruct pattern; [left|]|].
  destruct (quantified_alternation pattern); [by right|done].
Qed.

Example fallback_accepts_alternation :
  fallback_nested "(a|ab)+" = false ∧ quantified_alternation "(a|ab)+" = true ∧ fallback_nested "(a+)+" = true.
Proof. vm_compute. done. Qed.

(** A compiler that takes every text. *)
#[local] Instance lenient_engine : ReEngine unit := {| re_compile _ := Some tt; re_find _ _ := false |}.

(** The comment names a repeated group that contains another repeated
    expression; with a group in between it is not seen. *)
Example deeper_nesting_is_accepted :
  validate_ua_regex_pattern (P:=unit) "((a+)b)+" = Ok tt ∧
  validate_ua_regex_pattern (P:=unit) "(a+)+" ≠ Ok tt.
Proof. vm_compute. split; [reflexivity|discriminate]. Qed.

Lemma validator_accepts_exactly_witness :
  validate_ua_regex_pattern (P:=unit) "bot/[0-9]+" = Ok tt ∧ ¬ validate_ua_regex_pattern (P:=unit) "(bot|crawler)+" = Ok tt.
Proof.
  split.
  - apply validator_accepts_exactly. split_and!.
    + discriminate.
    + vm_compute. discriminate.
    + vm_compute. eexists. reflexivity.
    + rewrite <- quantified_group_spec. vm_compute. discriminate.
    + rewrite <- quantified_group_spec. vm_compute. discriminate.
  - rewrite validator_accepts_exactly. intros (_ & _ & _ & _ & Hbar). apply Hbar, quantified_group_spec.
    vm_compute. reflexivity.
Defined.

End PatternsProps.
