(* ===== verification/ThreatFeed.v ===== *)
(** * The threat feed ([services/threat_feed.py])

    [sync_feed] on the decoded response of the feed server, and the telemetry
    payload.  The HTTP client is outside the sources: what it delivered is an
    argument.  So are the Django conversions at its edge: [parse_datetime] and
    the [DecimalField], which the section takes as parameters.  A value of
    [response.json()] is an [fval]; its floats are exact rationals or one of
    the IEEE specials. *)

From Stdlib Require Import ZArith QArith Qround Lia Ascii String Sorted.
From stdpp Require Import base tactics option list strings numbers gmap.
From S2P Require Import Prelude PyStr IpAddress Hash PyTime Codec Regex Conf.
From S2P Require Import Redis Models AutoRule RuleEngine Detectors Tasks Patterns.

Open Scope Z_scope.

(** ** Decoded JSON *)

Inductive pyfloat : Type := FNum (q : Q) | FInf (negative : bool) | FNan.

Inductive fval : Type :=
| FNull
| FBool (b : bool)
| FInt (z : Z)
| FFloat (x : pyfloat)
| FStr (s : string)
| FArr (l : list fval)
| FObj (kvs : list (string * fval)).

Definition type_error {A} : res A := Raise (OtherError "TypeError").

(** [v.get(k, d)]. *)
Definition fget (v : fval) (k : string) (d : fval) : res fval :=
  match v with
  | FObj kvs => Ok (default d (snd <$> List.find (λ kv, bool_decide (kv.1 = k)) (rev kvs)))
  | _ => Raise (OtherError "AttributeError")
  end.

(** Python truth. *)
Definition ftruthy (v : fval) : bool :=
  match v with
  | FNull => false
  | FBool b => b
  | FInt z => negb (z =? 0)
  | FFloat (FNum q) => negb (Qeq_bool q 0)
  | FFloat _ => true
  | FStr s => negb (str_empty s)
  | FArr l => match l with [] => false | _ => true end
  | FObj l => match l with [] => false | _ => true end
  end.

(** [for x in v]. *)
Definition fiter (v : fval) : res (list fval) :=
  match v with
  | FArr l => Ok l
  | FObj kvs => Ok (map (λ kv, FStr kv.1) kvs)
  | FStr s => Ok (map (λ c, FStr (String c "")) (list_ascii_of_string s))
  | _ => type_error
  end.

(** ** [float(raw)] *)

(** Digits with single underscores between them: value, how many, the rest. *)
Fixpoint float_digits (acc : Z) (n : nat) (s : string) : Z * nat * string :=
  match s with
  | String c s1 =>
      if is_digit c then float_digits (10 * acc + (code c - 48)) (S n) s1
      else match s1 with
           | String d s2 =>
               if bool_decide (c = "_"%char) && is_digit d && (0 <? n)%nat
               then float_digits (10 * acc + (code d - 48)) (S n) s2
               else (acc, n, s)
           | EmptyString => (acc, n, s)
           end
  | EmptyString => (acc, n, s)
  end.

Definition pow10 (e : Z) : Q :=
  if 0 <=? e then inject_Z (10 ^ e) else (1 / inject_Z (10 ^ (- e)))%Q.

Definition take_sign (s : string) : bool * string :=
  match s with
  | String c s' =>
      if bool_decide (c = "-"%char) then (true, s') else if bool_decide (c = "+"%char) then (false, s') else (false, s)
  | EmptyString => (false, s)
  end.

(** An unsigned literal: digits, an optional fraction, an optional exponent. *)
Definition float_literal (s : string) : option Q :=
  let '(whole, n, s) := float_digits 0 0 s in
  let '(mantissa, digits, s) :=
    match s with
    | String "." s' => let '(m, k, s'') := float_digits whole 0 s' in (m, k, s'')
    | _ => (whole, O, s)
    end in
  if (n + digits =? 0)%nat then None else
  match s with
  | EmptyString => Some (inject_Z mantissa * pow10 (- Z.of_nat digits))%Q
  | String c s =>
      if negb (bool_decide (lower_char c = "e"%char)) then None else
      let '(neg, s) := take_sign s in
      let '(e, k, s) := float_digits 0 0 s in
      if (k =? 0)%nat || negb (str_empty s) then None
      else Some (inject_Z mantissa * pow10 ((if neg then - e else e) - Z.of_nat digits))%Q
  end.

Definition float_of_str (s : string) : option pyfloat :=
  let '(neg, s) := take_sign (strip s) in
  let s := lower s in
  if bool_decide (s = "nan") then Some FNan
  else if bool_decide (s = "inf") || bool_decide (s = "infinity") then Some (FInf neg)
  else (λ q, FNum (if neg then - q else q)%Q) <$> float_literal s.

Example float_examples :
  float_of_str " 0.95 " = Some (FNum (95 * pow10 (-2))%Q) ∧ float_of_str "-Inf" = Some (FInf true) ∧
  float_of_str "NaN" = Some FNan ∧ float_of_str "1e-1" = Some (FNum (1 * pow10 (-1))%Q) ∧
  float_of_str "high" = None ∧ float_of_str "1_0" = Some (FNum (10 * pow10 0)%Q) ∧ float_of_str "." = None.
Proof. vm_compute. done. Qed.

(** The least integer [float()] cannot convert. *)
Definition float_overflow : Z := 2 ^ 1024 - 2 ^ 970.

(** [_validate_confidence]: a value that does not convert is [None]. *)
Definition validate_confidence (entry : fval) : res (option pyfloat) :=
  res_bind (fget entry "confidence" (FFloat (FNum 0))) (λ raw,
    match raw with
    | FBool b => Ok (Some (FNum (if b then 1 else 0)%Q))
    | FInt z => if float_overflow <=? Z.abs z then Raise (OtherError "OverflowError")
                else Ok (Some (FNum (inject_Z z)))
    | FFloat x => Ok (Some x)
    | FStr s => Ok (float_of_str s)
    | _ => Ok None
    end).

(** [confidence < threshold or confidence > 1.0], false on a NaN. *)
Definition out_of_range (c : pyfloat) (threshold : Q) : bool :=
  match c with
  | FNum q => negb (Qle_bool threshold q) || negb (Qle_bool q 1)
  | FInf neg => true
  | FNan => false
  end.

(** ** The whitelists *)

Definition known_rule_type (s : string) : option RuleType :=
  List.find (λ t, bool_decide (RuleType_value t = s)) [RuleType_IP; RuleType_CIDR; RuleType_UA; RuleType_COMPOSITE].
Definition known_match_type (s : string) : option MatchType :=
  List.find (λ t, bool_decide (MatchType_value t = s))
    [MatchType_EXACT; MatchType_REGEX; MatchType_CONTAINS; MatchType_CIDR].
Definition known_action (s : string) : option RuleAction :=
  List.find (λ t, bool_decide (RuleAction_value t = s))
    [RuleAction_BLOCK; RuleAction_CHALLENGE; RuleAction_THROTTLE; RuleAction_LOG_ONLY].

(** [value in set]: a list or a dict does not hash. *)
Definition in_whitelist {A} (known : string → option A) (v : fval) : res (option A) :=
  match v with
  | FStr s => Ok (known s)
  | FArr _ | FObj _ => type_error
  | _ => Ok None
  end.

(** ** One entry *)

Inductive EntryKind : Type := BlockEntry (action : RuleAction) | AllowEntry (rdns_pattern : fval).

Record FeedEntry : Type := {
  fe_rule_type : RuleType;
  fe_match_type : MatchType;
  fe_pattern : string;
  fe_confidence : pyfloat;
  fe_expires_at : Z;
  fe_reporters : option fval;
  fe_kind : EntryKind;
}.

Section Feed.
Context {R P : Type} `{RedisClient R} `{ReEngine P} (uuid4 : nat → Z) (conf : Conf).
(* Django: [parse_datetime], and what a [DecimalField] and a [CharField] store. *)
Context (parse_datetime : fval → res (option Z)) (decimal_field : pyfloat → res Z) (char_field : fval → string).
Abbreviation W := (World R P).

(** [_validate_pattern]; [Ok None] skips the entry.  A list or an object of at
    most 512 elements or keys passes when it is not a regex, and then fails to
    hash, but only once it is added to the keys. *)
Definition pattern_of (pattern : fval) (match_type : MatchType) : res (option (res string)) :=
  let sized (n : nat) := if (512 <? n)%nat then Ok None else
    if bool_decide (match_type = MatchType_REGEX) then type_error else Ok (Some type_error) in
  match pattern with
  | FStr s => Ok (if validate_pattern (P:=P) s (MatchType_value match_type) then Some (Ok s) else None)
  | FArr l => sized (length l)
  | FObj kvs => sized (length (remove_dups (map fst kvs)))
  | _ => type_error
  end.

(** The validation of one entry; [Ok None] skips and counts it. *)
Definition validate_entry (now : Z) (threshold : Q) (entry : fval) : res (option FeedEntry) :=
  res_bind (validate_confidence entry) (λ c, match c with
  | None => Ok None
  | Some confidence =>
  if out_of_range confidence threshold then Ok None else
  res_bind (fget entry "rule_type" (FStr "")) (λ rule_type,
  res_bind (fget entry "pattern" (FStr "")) (λ pattern,
  if negb (ftruthy rule_type) || negb (ftruthy pattern) then Ok None else
  res_bind (in_whitelist known_rule_type rule_type) (λ rt, match rt with
  | None => Ok None
  | Some rt =>
  res_bind (fget entry "kind" (FStr "block")) (λ kind,
  res_bind (fget entry "match_type" (FStr "exact")) (λ match_type,
  res_bind (in_whitelist known_match_type match_type) (λ mt, match mt with
  | None => Ok None
  | Some mt =>
  res_bind (pattern_of pattern mt) (λ p, match p with
  | None => Ok None
  | Some p =>
  res_bind (fget entry "expires" FNull) (λ feed_expires,
  res_bind (if ftruthy feed_expires then parse_datetime feed_expires else Ok None) (λ parsed,
  let expires_at := default (now + 30 * day_us) parsed in
  let reporters := match entry with
                   | FObj kvs => snd <$> List.find (λ kv, bool_decide (kv.1 = "reporters")) (rev kvs)
                   | _ => None
                   end in
  let accept k := res_bind p (λ p, Ok (Some {| fe_rule_type := rt; fe_match_type := mt; fe_pattern := p;
                              fe_confidence := confidence; fe_expires_at := expires_at;
                              fe_reporters := reporters; fe_kind := k |})) in
  match kind with
  | FStr "allow" =>
      res_bind (fget entry "rdns_pattern" (FStr "")) (λ rdns_pattern,
      res_bind (fget entry "verify_rdns" (FBool false)) (λ verify,
      if negb (ftruthy verify) || negb (ftruthy rdns_pattern) then Ok None else accept (AllowEntry rdns_pattern)))
  | _ =>
      res_bind (fget entry "action" (FStr "block")) (λ action,
      res_bind (in_whitelist known_action action) (λ a, match a with
      | None => Ok None
      | Some a => accept (BlockEntry a)
      end))
  end))
  end)
  end)))
  end)))
  end).

(** What [PositiveIntegerField] stores of [entry.get("reporters", d)]. *)
Definition reporters_field (d : Z) (v : option fval) : res Z :=
  res_bind (match v with
            | None => Ok d
            | Some (FInt z) => Ok z
            | Some (FBool b) => Ok (if b then 1 else 0)
            | Some (FFloat (FNum q)) => Ok (Z.quot (Qnum q) (Zpos (Qden q)))
            | Some (FFloat (FInf _)) => Raise (OtherError "OverflowError")
            | Some (FFloat FNan) => Raise ValueError
            | Some (FStr s) => match py_int s with Some z => Ok z | None => Raise ValueError end
            | Some FNull => Raise IntegrityError
            | Some _ => type_error
            end) (λ z, if z <? 0 then Raise IntegrityError else Ok z).

Definition feed_name (e : FeedEntry) : string :=
  "Feed: " +:+ RuleType_value (fe_rule_type e) +:+ " " +:+ str_take 50 (fe_pattern e).

(** [source=FEED, rule_type=..., pattern=...]. *)
Definition feed_block (e : FeedEntry) (r : BlockRule) : bool :=
  bool_decide (br_source r = RuleSource_FEED) && bool_decide (br_rule_type r = fe_rule_type e)
  && bool_decide (br_pattern r = fe_pattern e).
Definition feed_allow (e : FeedEntry) (r : AllowRule) : bool :=
  bool_decide (ar_source r = RuleSource_FEED) && bool_decide (ar_rule_type r = fe_rule_type e)
  && bool_decide (ar_pattern r = fe_pattern e).

(** [.first()] under [ordering = ["name"]]. *)
Definition first_allow (rows : list AllowRule) : option AllowRule :=
  hd_error (sort_by (λ a b, str_leb (ar_name a) (ar_name b)) rows).

Definition set_allow_rules (rows : list AllowRule) : M W unit :=
  db_write (λ w, {| w with w_allow_rules := rows |}).

(** A block entry: [true] when the rule is new. *)
Definition import_block (action : RuleAction) (e : FeedEntry) : M W bool :=
  t <- clock ;;
  rows <- db_read w_block_rules ;;
  match first_row (List.filter (feed_block e) rows) with
  | Some old =>
      confidence <- lift_res (decimal_field (fe_confidence e)) ;;
      reporters <- lift_res (reporters_field (br_feed_reporters old) (fe_reporters e)) ;;
      let row := {| br_id := br_id old; br_name := br_name old; br_rule_type := br_rule_type old;
        br_match_type := fe_match_type e; br_pattern := br_pattern old; br_action := action;
        br_priority := br_priority old; br_is_active := true; br_source := br_source old;
        br_expires_at := Some (fe_expires_at e); br_hit_count := br_hit_count old;
        br_last_hit_at := br_last_hit_at old; br_confidence := confidence;
        br_feed_first_seen := br_feed_first_seen old; br_feed_reporters := reporters;
        br_notes := br_notes old; br_review_status := br_review_status old;
        br_reviewed_at := br_reviewed_at old; br_detectors := br_detectors old;
        br_created_at := br_created_at old; br_updated_at := t |} in
      set_block_rules (map (λ r, if br_id r =? br_id old then row else r) rows) ;;;
      on_block_rule_save ;;; ret false
  | None =>
      confidence <- lift_res (decimal_field (fe_confidence e)) ;;
      reporters <- lift_res (reporters_field 0 (fe_reporters e)) ;;
      id <- draw uuid4 ;;
      let row := {| br_id := id; br_name := feed_name e; br_rule_type := fe_rule_type e;
        br_match_type := fe_match_type e; br_pattern := fe_pattern e; br_action := action;
        br_priority := 100; br_is_active := true; br_source := RuleSource_FEED;
        br_expires_at := Some (fe_expires_at e); br_hit_count := 0; br_last_hit_at := None;
        br_confidence := confidence; br_feed_first_seen := Some (t / day_us);
        br_feed_reporters := reporters; br_notes := ""; br_review_status := NOT_APPLICABLE;
        br_reviewed_at := None; br_detectors := ""; br_created_at := t; br_updated_at := t |} in
      if existsb (λ r, br_id r =? id) rows then raise IntegrityError else      (* the primary key *)
      set_block_rules (rows ++ [row]) ;;;
      on_block_rule_save ;;; ret true
  end.

(** An allow entry: created inactive under quarantine, never reactivated by it. *)
Definition import_allow (rdns_pattern : fval) (e : FeedEntry) : M W bool :=
  let quarantine := DJANGO_WAF_FEED_QUARANTINE_ALLOW_RULES conf in
  t <- clock ;;
  rows <- db_read w_allow_rules ;;
  match first_allow (List.filter (feed_allow e) rows) with
  | Some old =>
      confidence <- lift_res (decimal_field (fe_confidence e)) ;;
      reporters <- lift_res (reporters_field (ar_feed_reporters old) (fe_reporters e)) ;;
      let row := {| ar_id := ar_id old; ar_name := ar_name old; ar_rule_type := ar_rule_type old;
        ar_match_type := fe_match_type e; ar_pattern := ar_pattern old; ar_verify_rdns := true;
        ar_rdns_pattern := char_field rdns_pattern;
        ar_is_active := if quarantine then ar_is_active old else true; ar_source := ar_source old;
        ar_expires_at := Some (fe_expires_at e); ar_confidence := confidence;
        ar_feed_first_seen := ar_feed_first_seen old; ar_feed_reporters := reporters;
        ar_notes := ar_notes old |} in
      set_allow_rules (map (λ r, if ar_id r =? ar_id old then row else r) rows) ;;;
      on_allow_rule_save ;;; ret false
  | None =>
      confidence <- lift_res (decimal_field (fe_confidence e)) ;;
      reporters <- lift_res (reporters_field 0 (fe_reporters e)) ;;
      id <- draw uuid4 ;;
      let row := {| ar_id := id; ar_name := feed_name e; ar_rule_type := fe_rule_type e;
        ar_match_type := fe_match_type e; ar_pattern := fe_pattern e; ar_verify_rdns := true;
        ar_rdns_pattern := char_field rdns_pattern; ar_is_active := negb quarantine;
        ar_source := RuleSource_FEED; ar_expires_at := Some (fe_expires_at e);
        ar_confidence := confidence; ar_feed_first_seen := Some (t / day_us);
        ar_feed_reporters := reporters; ar_notes := "" |} in
      if existsb (λ r, ar_id r =? id) rows then raise IntegrityError else
      set_allow_rules (rows ++ [row]) ;;;
      on_allow_rule_save ;;; ret true
  end.

(** ** The sync *)

Record SyncState : Type := {
  sy_created : Z;
  sy_updated : Z;
  sy_skipped : Z;
  sy_blocks : list (RuleType * string);    (* seen_block_keys *)
  sy_allows : list (RuleType * string);    (* seen_allow_keys *)
}.

Definition counted (created : bool) (s : SyncState) : SyncState :=
  if created then {| s with sy_created := sy_created s + 1 |} else {| s with sy_updated := sy_updated s + 1 |}.

Fixpoint import_entries (threshold : Q) (entries : list fval) (s : SyncState) : M W SyncState :=
  match entries with
  | [] => ret s
  | entry :: entries =>
      t <- clock ;;
      v <- lift_res (validate_entry t threshold entry) ;;
      match v with
      | None => import_entries threshold entries {| s with sy_skipped := sy_skipped s + 1 |}
      | Some e =>
          let key := (fe_rule_type e, fe_pattern e) in
          match fe_kind e with
          | AllowEntry rdns_pattern =>
              c <- import_allow rdns_pattern e ;;
              import_entries threshold entries (counted c {| s with sy_allows := key :: sy_allows s |})
          | BlockEntry action =>
              c <- import_block action e ;;
              import_entries threshold entries (counted c {| s with sy_blocks := key :: sy_blocks s |})
          end
      end
  end.

(** The rules of the feed that the response no longer lists. *)
Definition dropped_block (seen : list (RuleType * string)) (r : BlockRule) : bool :=
  bool_decide (br_source r = RuleSource_FEED) && br_is_active r
  && negb (bool_decide ((br_rule_type r, br_pattern r) ∈ seen)).
Definition dropped_allow (seen : list (RuleType * string)) (r : AllowRule) : bool :=
  bool_decide (ar_source r = RuleSource_FEED) && ar_is_active r
  && negb (bool_decide ((ar_rule_type r, ar_pattern r) ∈ seen)).

(** [save(update_fields=["is_active"])] of each, with its [post_save]. *)
Definition deactivate_dropped (s : SyncState) : M W Z :=
  blocks <- db_read w_block_rules ;;
  let gone := dropped_block (sy_blocks s) in
  set_block_rules (map (λ r, if gone r then {| r with br_is_active := false |} else r) blocks) ;;;
  notify_each on_block_rule_save (List.filter gone blocks) ;;;
  allows <- db_read w_allow_rules ;;
  let gone' := dropped_allow (sy_allows s) in
  set_allow_rules (map (λ r, if gone' r then {| r with ar_is_active := false |} else r) allows) ;;;
  notify_each on_allow_rule_save (List.filter gone' allows) ;;;
  ret (Z.of_nat (length (List.filter gone blocks)) + Z.of_nat (length (List.filter gone' allows))).

Record SyncResult : Type := { created : Z; updated : Z; expired : Z; skipped : Z; failed : bool }.

(** [feed_data if isinstance(feed_data, list) else feed_data.get("rules", [])], iterated. *)
Definition feed_entries (feed_data : fval) : res (list fval) :=
  res_bind (match feed_data with
            | FArr _ => Ok feed_data
            | _ => fget feed_data "rules" (FArr [])
            end) fiter.

(** [sync_feed] on what [httpx.get], [raise_for_status] and [json] gave. *)
Definition sync_feed (fetched : res fval) (min_confidence : option Q) : M W SyncResult :=
  let threshold := default (DJANGO_WAF_FEED_MIN_CONFIDENCE conf) min_confidence in
  match fetched with
  | Raise _ => ret {| created := 0; updated := 0; expired := 0; skipped := 0; failed := true |}
  | Ok feed_data =>
      entries <- lift_res (feed_entries feed_data) ;;
      s <- import_entries threshold entries
             {| sy_created := 0; sy_updated := 0; sy_skipped := 0; sy_blocks := []; sy_allows := [] |} ;;
      n <- deactivate_dropped s ;;
      ret {| created := sy_created s; updated := sy_updated s; expired := n; skipped := sy_skipped s;
             failed := false |}
  end.
End Feed.

(** ** Telemetry *)

Record UaHash : Type := { uh_sha256 : string; uh_action : RuleAction; uh_hits : Z }.
Record SubnetCount : Type := { sc_cidr : string; sc_action : Verdict; sc_hits : Z }.
Record Payload : Type := {
  pl_install_id : string;
  pl_period : string;
  pl_ua_hashes : list UaHash;
  pl_subnets : list SubnetCount;
  pl_total_requests : Z;
  pl_blocked : Z;
  pl_challenged : Z;
  pl_throttled : Z;
}.

Definition ua_hashes (rules : list BlockRule) : list UaHash :=
  map (λ r, {| uh_sha256 := hexdigest (sha256 (encode (br_pattern r))); uh_action := br_action r;
               uh_hits := br_hit_count r |})
    (List.filter (λ r, (bool_decide (br_source r = RuleSource_ADMIN) || bool_decide (br_source r = RuleSource_AUTO))
                       && bool_decide (br_rule_type r = RuleType_UA)) rules).

(** [subnet_counts]: a new subnet keeps the verdict of its first row. *)
Fixpoint count_subnet (cidr : string) (verdict : Verdict) (d : list SubnetCount) : list SubnetCount :=
  match d with
  | [] => [{| sc_cidr := cidr; sc_action := verdict; sc_hits := 1 |}]
  | c :: d => if bool_decide (sc_cidr c = cidr)
              then {| sc_cidr := sc_cidr c; sc_action := sc_action c; sc_hits := sc_hits c + 1 |} :: d
              else c :: count_subnet cidr verdict d
  end.

Definition telemetry_subnets (logs : list RequestLog) : list SubnetCount :=
  fold_left (λ d r, match get_subnet_prefix (rl_ip_address r) with
                    | Ok subnet => count_subnet subnet (rl_verdict r) d
                    | Raise _ => d
                    end) logs [].

(** [build_telemetry_payload] on the rows it queries. *)
Definition build_telemetry_payload (install_id : string) (period_start period_end : Z)
    (rules : list BlockRule) (log : list RequestLog) : Payload :=
  let logs := List.filter (λ r, (period_start <=? rl_timestamp r) && (rl_timestamp r <=? period_end)) log in
  let of_verdict v := count_if (λ r, bool_decide (rl_verdict r = v)) logs in
  {| pl_install_id := install_id;
     pl_period := isoformat period_start +:+ "/" +:+ isoformat period_end;
     pl_ua_hashes := ua_hashes rules; pl_subnets := telemetry_subnets logs;
     pl_total_requests := Z.of_nat (length logs); pl_blocked := of_verdict BLOCKED;
     pl_challenged := of_verdict CHALLENGED; pl_throttled := of_verdict THROTTLED |}.

(** ** What one entry does to the tables *)

Lemma first_allow_In rows r : first_allow rows = Some r → In r rows.
Proof.
  unfold first_allow. intros Hh. apply (sort_by_In (λ a b, str_leb (ar_name a) (ar_name b))).
  destruct (sort_by _ rows); [done|]. injection Hh as ->. by left.
Qed.

Section Outcomes.
Context {R P : Type} `{RedisClient R} `{ReEngine P} (uuid4 : nat → Z) (conf : Conf).
Context (parse_datetime : fval → res (option Z)) (decimal_field : pyfloat → res Z) (char_field : fval → string).
Implicit Types w : World R P.

(** The rest of the world: untouched by an import. *)
Definition rest (w : World R P) :=
  (w_now w, w_db_up w, w_request_log w, w_tokens w, w_reputation w, w_concurrent w).

(** What an entry of the feed does not rewrite in its allow rule. *)
Definition kept_fields (a : AllowRule) :=
  (ar_id a, ar_name a, ar_rule_type a, ar_pattern a, ar_source a, ar_feed_first_seen a, ar_notes a).

Inductive allow_outcome (e : FeedEntry) (w : World R P) (r : res bool) (w' : World R P) : Prop :=
| allow_refused ex : r = Raise ex → w_allow_rules w' = w_allow_rules w → allow_outcome e w r w'
| allow_updated old row :
    r = Ok false → In old (w_allow_rules w) → feed_allow e old = true →
    kept_fields row = kept_fields old → ar_verify_rdns row = true →
    ar_is_active row = (if DJANGO_WAF_FEED_QUARANTINE_ALLOW_RULES conf then ar_is_active old else true) →
    w_allow_rules w' = map (λ x, if ar_id x =? ar_id old then row else x) (w_allow_rules w) →
    allow_outcome e w r w'
| allow_created row :
    r = Ok true → existsb (λ x, ar_id x =? ar_id row) (w_allow_rules w) = false →
    feed_allow e row = true → ar_verify_rdns row = true →
    ar_is_active row = negb (DJANGO_WAF_FEED_QUARANTINE_ALLOW_RULES conf) →
    w_allow_rules w' = w_allow_rules w ++ [row] → allow_outcome e w r w'.

Lemma import_allow_run rdns e w r w' :
  import_allow uuid4 conf decimal_field char_field rdns e w = (r, w') →
  allow_outcome e w r w' ∧ w_block_rules w' = w_block_rules w ∧ rest w' = rest w.
Proof.
  intros Hrun. unfold import_allow, bind at 1, clock, gets in Hrun. destruct (w_db_up w) eqn:Hup.
  2: { unfold bind, db_read in Hrun. rewrite Hup in Hrun. injection Hrun as <- <-.
       split; [by eapply allow_refused|done]. }
  rewrite (bind_Ok _ _ _ _ _ (db_read_up _ w Hup)) in Hrun.
  destruct (first_allow _) as [old|] eqn:Ef; unfold bind at 1, lift_res at 1 in Hrun.
  - destruct (decimal_field _) as [c|x]; [|injection Hrun as <- <-; split; [by eapply allow_refused|done]].
    unfold bind at 1, lift_res at 1 in Hrun.
    destruct (reporters_field _ _) as [n|x]; [|injection Hrun as <- <-; split; [by eapply allow_refused|done]].
    apply first_allow_In, filter_In in Ef as [Hin Hf]. unfold set_allow_rules in Hrun.
    rewrite (bind_Ok _ _ _ _ _ (db_write_up _ w Hup)) in Hrun. unfold on_allow_rule_save in Hrun.
    match type of Hrun with context [bind invalidate_rule_cache _ ?x] => destruct (invalidate_eq x) as [rd Hi] end.
    rewrite (bind_Ok _ _ _ _ _ Hi) in Hrun. injection Hrun as <- <-. split; [|done].
    eapply allow_updated; [done|exact Hin|done|..|reflexivity]; try done.
  - destruct (decimal_field _) as [c|x]; [|injection Hrun as <- <-; split; [by eapply allow_refused|done]].
    unfold bind at 1, lift_res at 1 in Hrun.
    destruct (reporters_field _ _) as [n|x]; [|injection Hrun as <- <-; split; [by eapply allow_refused|done]].
    unfold bind at 1, draw in Hrun. cbn [w_fresh] in Hrun.
    destruct (existsb _ _) eqn:Ex; [injection Hrun as <- <-; split; [by eapply allow_refused|done]|].
    unfold set_allow_rules in Hrun. match type of Hrun with context [bind (db_write ?f) _ ?x] =>
      rewrite (bind_Ok _ _ _ _ _ (db_write_up f x Hup)) in Hrun end. unfold on_allow_rule_save in Hrun.
    match type of Hrun with context [bind invalidate_rule_cache _ ?x] => destruct (invalidate_eq x) as [rd Hi] end.
    rewrite (bind_Ok _ _ _ _ _ Hi) in Hrun. injection Hrun as <- <-. split; [|done].
    eapply allow_created; [done|..|reflexivity]; try done.
    unfold feed_allow. cbn. by rewrite !bool_decide_true.
Qed.

(** A block rule as the feed wants it. *)
Definition imported (action : RuleAction) (e : FeedEntry) (row : BlockRule) : Prop :=
  br_is_active row = true ∧ br_expires_at row = Some (fe_expires_at e) ∧ br_action row = action.

Inductive block_outcome (action : RuleAction) (e : FeedEntry) (w : World R P) (r : res bool) (w' : World R P) : Prop :=
| block_refused ex : r = Raise ex → w_block_rules w' = w_block_rules w → block_outcome action e w r w'
| block_updated old row :
    r = Ok false → In old (w_block_rules w) → feed_block e old = true →
    br_id row = br_id old → feed_block e row = true → imported action e row →
    w_block_rules w' = map (λ x, if br_id x =? br_id old then row else x) (w_block_rules w) →
    block_outcome action e w r w'
| block_created row :
    r = Ok true → existsb (λ x, br_id x =? br_id row) (w_block_rules w) = false →
    feed_block e row = true → imported action e row →
    w_block_rules w' = w_block_rules w ++ [row] → block_outcome action e w r w'.

Lemma import_block_run action e w r w' :
  import_block uuid4 decimal_field action e w = (r, w') →
  block_outcome action e w r w' ∧ w_allow_rules w' = w_allow_rules w ∧ rest w' = rest w.
Proof.
  intros Hrun. unfold import_block, bind at 1, clock, gets in Hrun. destruct (w_db_up w) eqn:Hup.
  2: { unfold bind, db_read in Hrun. rewrite Hup in Hrun. injection Hrun as <- <-.
       split; [by eapply block_refused|done]. }
  rewrite (bind_Ok _ _ _ _ _ (db_read_up _ w Hup)) in Hrun.
  destruct (first_row _) as [old|] eqn:Ef; unfold bind at 1, lift_res at 1 in Hrun.
  - destruct (decimal_field _) as [c|x]; [|injection Hrun as <- <-; split; [by eapply block_refused|done]].
    unfold bind at 1, lift_res at 1 in Hrun.
    destruct (reporters_field _ _) as [n|x]; [|injection Hrun as <- <-; split; [by eapply block_refused|done]].
    apply first_row_In, filter_In in Ef as [Hin Hf]. unfold set_block_rules in Hrun.
    rewrite (bind_Ok _ _ _ _ _ (db_write_up _ w Hup)) in Hrun. unfold on_block_rule_save in Hrun.
    match type of Hrun with context [bind invalidate_rule_cache _ ?x] => destruct (invalidate_eq x) as [rd Hi] end.
    rewrite (bind_Ok _ _ _ _ _ Hi) in Hrun. injection Hrun as <- <-. split; [|done].
    eapply block_updated; [done|exact Hin|done|..|reflexivity]; try done.
  - destruct (decimal_field _) as [c|x]; [|injection Hrun as <- <-; split; [by eapply block_refused|done]].
    unfold bind at 1, lift_res at 1 in Hrun.
    destruct (reporters_field _ _) as [n|x]; [|injection Hrun as <- <-; split; [by eapply block_refused|done]].
    unfold bind at 1, draw in Hrun. cbn [w_fresh] in Hrun.
    destruct (existsb _ _) eqn:Ex; [injection Hrun as <- <-; split; [by eapply block_refused|done]|].
    unfold set_block_rules in Hrun. match type of Hrun with context [bind (db_write ?f) _ ?x] =>
      rewrite (bind_Ok _ _ _ _ _ (db_write_up f x Hup)) in Hrun end. unfold on_block_rule_save in Hrun.
    match type of Hrun with context [bind invalidate_rule_cache _ ?x] => destruct (invalidate_eq x) as [rd Hi] end.
    rewrite (bind_Ok _ _ _ _ _ Hi) in Hrun. injection Hrun as <- <-. split; [|done].
    eapply block_created; [done|..|reflexivity]; try done.
    unfold feed_block. cbn. by rewrite !bool_decide_true.
Qed.
End Outcomes.

(** ** What a sync keeps *)

Section SyncInvariants.
Context {R P : Type} `{RedisClient R} `{ReEngine P} (uuid4 : nat → Z) (conf : Conf).
Context (parse_datetime : fval → res (option Z)) (decimal_field : pyfloat → res Z) (char_field : fval → string).
Implicit Types w : World R P.
Abbreviation import := (import_entries uuid4 conf parse_datetime decimal_field char_field).
Abbreviation sync := (sync_feed uuid4 conf parse_datetime decimal_field char_field).

(** The deactivation, with the database up. *)
Lemma deactivate_run s w :
  w_db_up w = true →
  ∃ n w', deactivate_dropped s w = (Ok n, w') ∧ rest w' = rest w ∧
    w_block_rules w' = map (λ r, if dropped_block (sy_blocks s) r then {| r with br_is_active := false |} else r)
                         (w_block_rules w) ∧
    w_allow_rules w' = map (λ r, if dropped_allow (sy_allows s) r then {| r with ar_is_active := false |} else r)
                         (w_allow_rules w).
Proof.
  intros Hup. unfold deactivate_dropped. rewrite (bind_Ok _ _ _ _ _ (db_read_up _ w Hup)).
  unfold set_block_rules, set_allow_rules. rewrite (bind_Ok _ _ _ _ _ (db_write_up _ w Hup)).
  unfold on_block_rule_save, on_allow_rule_save.
  match goal with |- context [bind (notify_each _ ?l) _ ?x] => destruct (notify_each_run l x) as [rd Hn] end.
  rewrite (bind_Ok _ _ _ _ _ Hn).
  match goal with |- context [bind (db_read ?f) _ ?x] => rewrite (bind_Ok _ _ _ _ _ (db_read_up f x Hup)) end.
  match goal with |- context [bind (db_write ?f) _ ?x] => rewrite (bind_Ok _ _ _ _ _ (db_write_up f x Hup)) end.
  match goal with |- context [bind (notify_each _ ?l) _ ?x] => destruct (notify_each_run l x) as [rd' Hn'] end.
  rewrite (bind_Ok _ _ _ _ _ Hn'). eexists _, _. split; [reflexivity|done].
Qed.

Lemma deactivate_down s w : w_db_up w = false → deactivate_dropped s w = (Raise DbError, w).
Proof. intros Hup. unfold deactivate_dropped, bind, db_read. by rewrite Hup. Qed.

(** An invariant of the two imports and the deactivation is one of the sync. *)
Variable I : World R P → Prop.
Hypothesis Hallow : ∀ rdns e, preserves I (import_allow uuid4 conf decimal_field char_field rdns e).
Hypothesis Hblock : ∀ a e, preserves I (import_block uuid4 decimal_field a e).
Hypothesis Hdrop : ∀ s, preserves I (deactivate_dropped s).

Lemma import_preserves threshold entries s : preserves I (import threshold entries s).
Proof.
  revert s. induction entries as [|entry entries IH]; intros s; cbn [import_entries]; [apply preserves_ret|].
  apply preserves_bind; [apply preserves_gets|intros t]. apply preserves_bind; [apply preserves_lift|intros [e|]]; [|done].
  destruct (fe_kind e); (apply preserves_bind; [done|intros c; done]).
Qed.

Lemma sync_preserves fetched mc : preserves I (sync fetched mc).
Proof.
  unfold sync_feed. destruct fetched as [v|x]; [|apply preserves_ret].
  apply preserves_bind; [apply preserves_lift|intros l].
  apply preserves_bind; [apply import_preserves|intros s]. apply preserves_bind; [done|intros n; apply preserves_ret].
Qed.
End SyncInvariants.

(** ** Allow rules under quarantine *)

(** An allow rule of the feed after the feed has written to it: the same rule,
    active only if it was, still checked by reverse DNS if it was. *)
Definition feed_rewrite (a0 a : AllowRule) : Prop :=
  ar_source a0 = RuleSource_FEED ∧ kept_fields a = kept_fields a0 ∧
  (ar_is_active a = true → ar_is_active a0 = true) ∧ (ar_verify_rdns a0 = true → ar_verify_rdns a = true).

(** A rule the feed has added: inactive, and with its reverse-DNS check. *)
Definition quarantined (a : AllowRule) : Prop :=
  ar_source a = RuleSource_FEED ∧ ar_is_active a = false ∧ ar_verify_rdns a = true.

(** The old rows in their places, those of the feed at most rewritten, and then
    the quarantined ones. *)
Definition contained (rows0 rows : list AllowRule) : Prop :=
  ∃ kept added, rows = kept ++ added ∧ Forall2 (λ a0 a, a = a0 ∨ feed_rewrite a0 a) rows0 kept ∧ Forall quarantined added.

Lemma feed_rewrite_trans a b c : feed_rewrite a b → (c = b ∨ feed_rewrite b c) → feed_rewrite a c.
Proof.
  intros (Hs & Hk & Ha & Hv) [->|(_ & Hk' & Ha' & Hv')]; [done|].
  split_and!; [done|by rewrite Hk'|auto|auto].
Qed.

(** A change of the rows, each in its place, that only rewrites rules of the feed. *)
Lemma contained_map rows0 rows f :
  contained rows0 rows → (∀ a, In a rows → f a = a ∨ feed_rewrite a (f a)) → contained rows0 (map f rows).
Proof.
  intros (kept & added & -> & HF & Hadded) Hf. exists (map f kept), (map f added). split; [apply map_app|]. split.
  - assert (Hf' : ∀ a, In a kept → f a = a ∨ feed_rewrite a (f a)) by (intros; apply Hf, in_app_iff; by left).
    clear Hf Hadded. induction HF as [|a0 a l0 l Ha HF IH]; [constructor|].
    cbn [map]. constructor; [|apply IH; intros x Hx; apply Hf'; by right].
    specialize (Hf' a (or_introl eq_refl)). destruct Ha as [->|Ha]; [done|].
    right. by eapply feed_rewrite_trans.
  - assert (Hf' : ∀ a, In a added → f a = a ∨ feed_rewrite a (f a)) by (intros; apply Hf, in_app_iff; by right).
    clear Hf HF. apply List.Forall_forall. intros y (a & <- & Ha)%in_map_iff.
    rewrite List.Forall_forall in Hadded. specialize (Hadded a Ha). destruct (Hf' a Ha) as [->|(Hs & Hk & Hact & Hv)]; [done|].
    destruct Hadded as (Hs' & Hina & Hver). unfold kept_fields in Hk. injection Hk as _ _ _ _ Hsrc _ _.
    split_and!; [by rewrite Hsrc| |by apply Hv]. destruct (ar_is_active (f a)); [|done]. by rewrite Hact in Hina.
Qed.

Lemma contained_add rows0 rows a : contained rows0 rows → quarantined a → contained rows0 (rows ++ [a]).
Proof.
  intros (kept & added & -> & HF & Hadded) Ha. exists kept, (added ++ [a]).
  rewrite (assoc_L (++)). split_and!; [done..|]. apply Forall_app. split; [done|by constructor].
Qed.

Lemma contained_refl rows : contained rows rows.
Proof.
  exists rows, []. rewrite app_nil_r. split_and!; [done| |constructor]. induction rows; constructor; [by left|done].
Qed.

Lemma unique_allow_id rows a b :
  NoDup (map ar_id rows) → In a rows → In b rows → ar_id a = ar_id b → a = b.
Proof.
  induction rows as [|x rows IH]; cbn; [done|]. intros [Hni Hnd]%NoDup_cons [->|Ha] [->|Hb] Hid; [done| | |auto].
  - destruct Hni. rewrite Hid. apply list_elem_of_In, in_map_iff. by exists b.
  - destruct Hni. rewrite <- Hid. apply list_elem_of_In, in_map_iff. by exists a.
Qed.

Section Quarantine.
Context {R P : Type} `{RedisClient R} `{ReEngine P} (uuid4 : nat → Z) (conf : Conf).
Context (decimal_field : pyfloat → res Z) (char_field : fval → string) (rows0 : list AllowRule).
Hypothesis Hq : DJANGO_WAF_FEED_QUARANTINE_ALLOW_RULES conf = true.
Let I (w : World R P) : Prop := NoDup (map ar_id (w_allow_rules w)) ∧ contained rows0 (w_allow_rules w).

Lemma quarantine_allow rdns e : preserves I (import_allow uuid4 conf decimal_field char_field rdns e).
Proof.
  intros w Hw. destruct (import_allow _ _ _ _ _ _ w) as [r w'] eqn:E. unfold I in *. cbn [snd].
  destruct (import_allow_run _ _ _ _ _ _ _ _ _ E) as [Ho _].
  destruct Ho as [x _ Hr|old row _ Hin Hf Hk Hv Ha Hr|row _ Hfresh Hf Hv Ha Hr]; rewrite Hr; [done| |]; destruct Hw as [Hnd Hc].
  - rewrite Hq in Ha. assert (Hid : ar_id row = ar_id old) by (unfold kept_fields in Hk; congruence). split.
    + rewrite map_map. erewrite map_ext; [exact Hnd|]. intros x. destruct (Z.eqb_spec (ar_id x) (ar_id old)); congruence.
    + apply contained_map; [done|]. intros x Hx. destruct (Z.eqb_spec (ar_id x) (ar_id old)) as [Hxo|]; [|by left].
      rewrite (unique_allow_id _ _ _ Hnd Hx Hin Hxo). right. unfold feed_allow in Hf. bool_hyps.
      split_and!; [done|done|by rewrite Ha|done].
  - rewrite Hq in Ha. split.
    + rewrite map_app. apply NoDup_app. split; [done|]. split; [|apply NoDup_singleton].
      intros i Hi Hj. cbn in Hj. apply list_elem_of_singleton in Hj as ->.
      apply list_elem_of_In, in_map_iff in Hi as (x & Hx & Hxin).
      assert (existsb (λ x, ar_id x =? ar_id row) (w_allow_rules w) = true); [|congruence].
      apply existsb_exists. exists x. split; [done|by apply Z.eqb_eq].
    + apply contained_add; [done|]. unfold feed_allow in Hf. bool_hyps. by split_and!.
Qed.

Lemma quarantine_block a e : preserves I (import_block uuid4 decimal_field a e).
Proof.
  intros w Hw. destruct (import_block _ _ _ _ w) as [r w'] eqn:E. unfold I in *. cbn [snd].
  destruct (import_block_run _ _ _ _ _ _ _ E) as (_ & -> & _). done.
Qed.

Lemma quarantine_drop s : preserves I (deactivate_dropped s).
Proof.
  intros w Hw. destruct (w_db_up w) eqn:Hup; [|by rewrite deactivate_down].
  destruct (deactivate_run s w Hup) as (n & w' & -> & _ & _ & Hr). unfold I in *. cbn [snd]. rewrite Hr.
  destruct Hw as [Hnd Hc]. split.
  - rewrite map_map. erewrite map_ext; [exact Hnd|]. intros x. by destruct (dropped_allow _ x).
  - apply contained_map; [done|]. intros x _. destruct (dropped_allow _ x) eqn:Ed; [right|by left].
    unfold dropped_allow in Ed. bool_hyps. by split_and!.
Qed.
End Quarantine.

(** ** The block rules of the feed *)

Definition feed_key (r : BlockRule) : RuleType * string := (br_rule_type r, br_pattern r).
Definition is_feed (r : BlockRule) : bool := bool_decide (br_source r = RuleSource_FEED).

(** The keys of the rows the feed keeps active. *)
Definition feed_active (rows : list BlockRule) (k : RuleType * string) : Prop :=
  ∃ r, In r rows ∧ is_feed r = true ∧ br_is_active r = true ∧ feed_key r = k.

Lemma feed_block_key e r : feed_block e r = true ↔ is_feed r = true ∧ feed_key r = (fe_rule_type e, fe_pattern e).
Proof.
  unfold feed_block, is_feed, feed_key. rewrite !andb_true_iff, !bool_decide_eq_true. split; [|by intros [-> [= -> ->]]].
  by intros [[-> ->] ->].
Qed.

Lemma replace_ids old row rows :
  br_id row = br_id old →
  map br_id (map (λ x, if br_id x =? br_id old then row else x) rows) = map br_id rows.
Proof.
  intros Hid. rewrite map_map. apply map_ext. intros x. destruct (Z.eqb_spec (br_id x) (br_id old)); congruence.
Qed.

Lemma unique_id rows a b :
  NoDup (map br_id rows) → In a rows → In b rows → br_id a = br_id b → a = b.
Proof.
  induction rows as [|x rows IH]; cbn; [done|]. intros [Hni Hnd]%NoDup_cons [->|Ha] [->|Hb] Hid; [done| | |auto].
  - destruct Hni. rewrite Hid. apply list_elem_of_In, in_map_iff. by exists b.
  - destruct Hni. rewrite <- Hid. apply list_elem_of_In, in_map_iff. by exists a.
Qed.

(** What holds of the block rules while the feed is imported. *)
Definition import_inv (rows0 : list BlockRule) (seen : list (RuleType * string)) (rows : list BlockRule) : Prop :=
  NoDup (map br_id rows) ∧ (∀ k, k ∈ seen → feed_active rows k) ∧
  List.filter (λ r, negb (is_feed r)) rows = List.filter (λ r, negb (is_feed r)) rows0.

Lemma replace_frame old row rows :
  NoDup (map br_id rows) → In old rows → is_feed old = true → is_feed row = true →
  List.filter (λ r, negb (is_feed r)) (map (λ x, if br_id x =? br_id old then row else x) rows)
  = List.filter (λ r, negb (is_feed r)) rows.
Proof.
  intros Hnd Hin Ho Hr. assert (Hall : ∀ x, In x rows → br_id x = br_id old → is_feed x = true).
  { intros x Hx Hid. by rewrite (unique_id rows x old Hnd Hx Hin Hid). }
  clear Hnd Hin. induction rows as [|x rows IH]; [done|]. cbn [map List.filter].
  rewrite IH by (intros y Hy; apply Hall; by right). destruct (Z.eqb_spec (br_id x) (br_id old)) as [Hid|]; [|done].
  rewrite Hr, (Hall x (or_introl eq_refl) Hid). done.
Qed.

Lemma import_inv_step {R P} rows0 seen action e (w : World R P) r w' :
  block_outcome action e w (Ok r) w' → import_inv rows0 seen (w_block_rules w) →
  import_inv rows0 ((fe_rule_type e, fe_pattern e) :: seen) (w_block_rules w').
Proof.
  intros Ho (Hnd & Hseen & Hframe).
  destruct Ho as [x [=]|old row _ Hin Hfo Hid Hfr [Ha _] Hrows|row _ Hnew Hfr [Ha _] Hrows]; rewrite Hrows.
  - apply feed_block_key in Hfo as [Hfo Hko], Hfr as [Hfr Hkr]. split_and!.
    + by rewrite replace_ids.
    + intros k Hk. apply elem_of_cons in Hk as [->|Hk].
      * exists row. split; [apply in_map_iff; exists old; by rewrite Z.eqb_refl|done].
      * destruct (Hseen k Hk) as (y & Hy & Hfy & Hay & Hky).
        destruct (decide (br_id y = br_id old)) as [He|Hne].
        -- exists row. rewrite (unique_id _ y old Hnd Hy Hin He) in Hky.
           split; [apply in_map_iff; exists old; by rewrite Z.eqb_refl|]. split_and!; [done..|congruence].
        -- exists y. split; [apply in_map_iff; exists y; split; [|done]; by destruct (Z.eqb_spec (br_id y) (br_id old))|done].
    + rewrite <- Hframe. by apply replace_frame.
  - apply feed_block_key in Hfr as [Hfr Hkr]. split_and!.
    + rewrite map_app. apply NoDup_app. split_and!; [done| |apply NoDup_singleton].
      intros i Hi Hin. apply list_elem_of_singleton in Hin as ->. apply list_elem_of_In, in_map_iff in Hi as (y & Hid & Hy).
      rewrite existsb_false_iff in Hnew. specialize (Hnew y Hy). bool_hyps. congruence.
    + intros k Hk. apply elem_of_cons in Hk as [->|Hk].
      * exists row. split; [apply in_app_iff; right; by left|done].
      * destruct (Hseen k Hk) as (y & Hy & ?). exists y. split; [apply in_app_iff; by left|done].
    + rewrite List.filter_app. cbn. rewrite Hfr. by rewrite app_nil_r.
Qed.

Lemma import_inv_weaken rows0 seen seen' rows :
  (∀ k, k ∈ seen' → k ∈ seen) → import_inv rows0 seen rows → import_inv rows0 seen' rows.
Proof. intros Hs (? & Hseen & ?). split_and!; [done| |done]. intros k Hk. by apply Hseen, Hs. Qed.

(** Deactivating what the feed dropped. *)
Lemma drop_feed_active rows seen k :
  feed_active (map (λ r, if dropped_block seen r then {| r with br_is_active := false |} else r) rows) k ↔
  feed_active rows k ∧ k ∈ seen.
Proof.
  split.
  - intros (r & (x & <- & Hx)%in_map_iff & Hf & Ha & Hk). destruct (dropped_block seen x) eqn:E; [done|].
    split; [by exists x|]. unfold dropped_block in E. unfold is_feed in Hf. rewrite Hf, Ha in E. cbn in E.
    apply negb_false_iff, bool_decide_eq_true in E. by rewrite <- Hk.
  - intros [(r & Hr & Hf & Ha & Hk) Hs]. exists r. split; [|done]. apply in_map_iff. exists r. split; [|done].
    unfold dropped_block. subst k. fold (feed_key r). rewrite (bool_decide_true (feed_key r ∈ seen)) by done.
    by rewrite andb_false_r.
Qed.

Lemma drop_frame rows seen :
  List.filter (λ r, negb (is_feed r))
    (map (λ r, if dropped_block seen r then {| r with br_is_active := false |} else r) rows)
  = List.filter (λ r, negb (is_feed r)) rows.
Proof.
  induction rows as [|x rows IH]; [done|]. cbn [map List.filter]. rewrite IH.
  destruct (dropped_block seen x) eqn:E; [|done]. unfold dropped_block in E. bool_hyps.
  unfold is_feed. cbn. by rewrite bool_decide_true.
Qed.

Section SyncExact.
Context {R P : Type} `{RedisClient R} `{ReEngine P} (uuid4 : nat → Z) (conf : Conf).
Context (parse_datetime : fval → res (option Z)) (decimal_field : pyfloat → res Z) (char_field : fval → string).
Implicit Types w : World R P.

(** The keys of the block entries that pass validation. *)
Fixpoint accepted_blocks (now : Z) (threshold : Q) (entries : list fval) : list (RuleType * string) :=
  match entries with
  | [] => []
  | entry :: entries =>
      match validate_entry (P:=P) parse_datetime now threshold entry with
      | Ok (Some e) =>
          match fe_kind e with
          | BlockEntry _ => (fe_rule_type e, fe_pattern e) :: accepted_blocks now threshold entries
          | AllowEntry _ => accepted_blocks now threshold entries
          end
      | _ => accepted_blocks now threshold entries
      end
  end.

Lemma counted_blocks c s : sy_blocks (counted c s) = sy_blocks s.
Proof. by destruct c. Qed.

Lemma import_Ok rows0 threshold entries s w s' w' :
  import_entries uuid4 conf parse_datetime decimal_field char_field threshold entries s w = (Ok s', w') →
  import_inv rows0 (sy_blocks s) (w_block_rules w) →
  import_inv rows0 (sy_blocks s') (w_block_rules w') ∧ rest w' = rest w ∧
  (∀ k, k ∈ sy_blocks s' ↔ k ∈ accepted_blocks (w_now w) threshold entries ∨ k ∈ sy_blocks s).
Proof.
  revert s w. induction entries as [|entry entries IH]; intros s w Hrun Hinv; cbn [import_entries accepted_blocks] in *.
  { unfold ret in Hrun. simplify_eq. split_and!; [done|done|]. intros k. rewrite elem_of_nil. tauto. }
  unfold bind at 1, clock, gets in Hrun. unfold bind at 1, lift_res in Hrun.
  destruct (validate_entry _ (w_now w) threshold entry) as [[e|]|x]; [| |done].
  2: { by apply (IH {| s with sy_skipped := sy_skipped s + 1 |}). }
  destruct (fe_kind e) as [action|rdns]; apply bind_inv_Ok in Hrun as (c & w1 & Hi & Hrun).
  - destruct (import_block_run _ _ _ _ _ _ _ Hi) as (Ho & _ & Hrest).
    apply (import_inv_step rows0 (sy_blocks s)) in Ho; [|done].
    apply IH in Hrun as (Hinv' & Hrest' & Hk); [|by rewrite counted_blocks].
    split_and!; [done|congruence|]. intros k. rewrite Hk, counted_blocks. cbn [sy_blocks].
    injection Hrest as -> _. rewrite !elem_of_cons. tauto.
  - destruct (import_allow_run _ _ _ _ _ _ _ _ _ Hi) as (_ & Hrows & Hrest). rewrite <- Hrows in Hinv.
    apply IH in Hrun as (Hinv' & Hrest' & Hk); [|by rewrite counted_blocks].
    split_and!; [done|congruence|]. intros k. rewrite Hk, counted_blocks. injection Hrest as -> _. done.
Qed.
End SyncExact.

(** A minimal entry: an address to block, with some confidence. *)
Definition ip_entry (confidence : fval) (p : string) : fval :=
  FObj [("confidence", confidence); ("rule_type", FStr "ip"); ("pattern", FStr p)].
Definition ip_block (c : pyfloat) (p : string) (t : Z) : FeedEntry := {|
  fe_rule_type := RuleType_IP; fe_match_type := MatchType_EXACT; fe_pattern := p; fe_confidence := c;
  fe_expires_at := t + 30 * day_us; fe_reporters := None; fe_kind := BlockEntry RuleAction_BLOCK |}.

(** Its pattern can be any text of at most 512 characters. *)
Lemma ip_entry_valid {P} `{ReEngine P} parse_datetime v c p t thr :
  validate_confidence (ip_entry v p) = Ok (Some c) → out_of_range c thr = false →
  p ≠ "" → Z.of_nat (String.length p) <= 512 →
  validate_entry (P:=P) parse_datetime t thr (ip_entry v p) = Ok (Some (ip_block c p t)).
Proof.
  intros Hc Ho Hp Hlen. unfold validate_entry. rewrite Hc. cbn [res_bind]. rewrite Ho.
  replace (fget (ip_entry v p) "rule_type" _) with (Ok (FStr "ip")) by reflexivity.
  replace (fget (ip_entry v p) "pattern" _) with (Ok (FStr p)) by reflexivity. cbn [res_bind ftruthy].
  destruct p as [|a p']; [done|]. cbn [str_empty negb orb in_whitelist].
  replace (known_rule_type "ip") with (Some RuleType_IP) by reflexivity. cbn [res_bind].
  replace (fget (ip_entry v (String a p')) "kind" _) with (Ok (FStr "block")) by reflexivity.
  replace (fget (ip_entry v (String a p')) "match_type" _) with (Ok (FStr "exact")) by reflexivity.
  cbn [res_bind in_whitelist].
  replace (known_match_type "exact") with (Some MatchType_EXACT) by reflexivity. cbn [res_bind pattern_of].
  unfold validate_pattern. cbn [str_empty orb].
  destruct (Z.ltb_spec 512 (Z.of_nat (String.length (String a p')))); [lia|]. reflexivity.
Qed.

(** A sync of that one entry leaves its rule active, blocking and unexpired. *)
Lemma sync_one_ip {R P} `{RedisClient R} `{ReEngine P} uuid4 (conf : Conf) parse_datetime
    decimal_field char_field p mc (w w' : World R P) r :
  Z.of_nat (String.length p) <= 512 → (default (DJANGO_WAF_FEED_MIN_CONFIDENCE conf) mc <= 1)%Q →
  sync_feed uuid4 conf parse_datetime decimal_field char_field (Ok (FArr [ip_entry (FInt 1) p])) mc w = (Ok r, w') →
  p ≠ "" →
  ∃ rule, In rule (w_block_rules w') ∧ br_is_active rule = true ∧
    br_expires_at rule = Some (w_now w + 30 * day_us) ∧ br_action rule = RuleAction_BLOCK ∧
    br_rule_type rule = RuleType_IP ∧ br_pattern rule = p.
Proof.
  intros Hlen Hthr Hrun Hp. set (e := ip_block (FNum (inject_Z 1)) p (w_now w)).
  assert (Hv : validate_entry (P:=P) parse_datetime (w_now w) (default (DJANGO_WAF_FEED_MIN_CONFIDENCE conf) mc)
                 (ip_entry (FInt 1) p) = Ok (Some e)).
  { apply ip_entry_valid; [|unfold out_of_range|done|done].
    - unfold validate_confidence. cbn [res_bind]. replace (fget _ "confidence" _) with (Ok (FInt 1)) by reflexivity.
      cbn [res_bind]. replace (float_overflow <=? Z.abs 1) with false by (vm_compute; reflexivity). done.
    - apply Qle_bool_iff in Hthr. change (inject_Z 1) with 1%Q. rewrite Hthr. done. }
  unfold sync_feed in Hrun. unfold bind at 1, lift_res in Hrun. cbn [feed_entries res_bind fiter] in Hrun.
  apply bind_inv_Ok in Hrun as (s & w1 & Hi & Hrun). apply bind_inv_Ok in Hrun as (n & w2 & Hd & Hrun).
  unfold ret in Hrun. simplify_eq. cbn [import_entries] in Hi. unfold bind at 1, clock, gets in Hi.
  unfold bind at 1, lift_res in Hi. rewrite Hv in Hi. cbn [fe_kind e ip_block] in Hi.
  apply bind_inv_Ok in Hi as (c & w3 & Hb & Hi). unfold ret in Hi. injection Hi as <- ->.
  apply import_block_run in Hb as (Ho & _ & _).
  assert (Hrow : ∃ rule, In rule (w_block_rules w1) ∧ imported RuleAction_BLOCK e rule ∧ feed_block e rule = true).
  { destruct Ho as [x [=]|old row _ Hin _ _ Hf Himp Hrows|row _ _ Hf Himp Hrows]; exists row; rewrite Hrows.
    - split; [apply in_map_iff; exists old; by rewrite Z.eqb_refl|done].
    - split; [apply in_app_iff; right; by left|done]. }
  destruct Hrow as (rule & Hin & (Ha & He & Hact) & Hf). exists rule.
  unfold feed_block in Hf. bool_hyps. split_and!; [|done..].
  destruct (w_db_up w1) eqn:Hup; [|by rewrite deactivate_down in Hd].
  destruct (deactivate_run (counted c {| sy_created := 0; sy_updated := 0; sy_skipped := 0;
    sy_blocks := [(RuleType_IP, p)]; sy_allows := [] |}) w1 Hup) as (n' & w4 & Hd' & _ & Hb & _).
  rewrite Hd' in Hd. simplify_eq. rewrite Hb, counted_blocks. apply in_map_iff. exists rule. split; [|done].
  unfold dropped_block. cbn [sy_blocks]. rewrite (bool_decide_true (_ ∈ [_])); [by rewrite andb_false_r|].
  apply list_elem_of_singleton. subst e. cbn [fe_rule_type fe_pattern ip_block] in *. congruence.
Qed.

(** ** What a subnet hides *)

(** Two address texts with the same first 24 bits (IPv4) or 48 bits (IPv6
    without a scope), or neither of them an address. *)
Definition same_subnet (s t : string) : Prop :=
  match ip_address s, ip_address t with
  | Some (IPv4 m), Some (IPv4 n) => Z.shiftr m 8 = Z.shiftr n 8
  | Some (IPv6 m None), Some (IPv6 n None) => Z.shiftr m 80 = Z.shiftr n 80
  | None, None => True
  | _, _ => s = t
  end.

Lemma land_high_bits n k b : 0 <= b → Z.land n (Z.shiftl k b) = Z.shiftl (Z.land (Z.shiftr n b) k) b.
Proof.
  intros Hb. apply Z.bits_inj'. intros i Hi. rewrite Z.land_spec, !Z.shiftl_spec, Z.land_spec by done.
  destruct (Z.ltb_spec (i - b) 0).
  - rewrite !(Z.testbit_neg_r _ (i - b)) by done. by rewrite andb_false_r.
  - rewrite Z.shiftr_spec by done. f_equal. f_equal. lia.
Qed.

Lemma octet_no_slash s n : parse_octet s = Some n → char_in "/" s = false.
Proof.
  unfold parse_octet. destruct (str_empty s); [done|]. destruct (str_forall is_digit s) eqn:E; [|done].
  intros _. by apply (str_forall_not_char is_digit).
Qed.

Lemma ipv4_no_slash s n : parse_ipv4_int s = Some n → char_in "/" s = false.
Proof.
  unfold parse_ipv4_int. destruct (split_on "." s) as [|a [|b [|c [|d [|]]]]] eqn:E; try done.
  destruct (parse_octet a) eqn:Ea; [|done]. destruct (parse_octet b) eqn:Eb; [|done].
  destruct (parse_octet c) eqn:Ec; [|done]. destruct (parse_octet d) eqn:Ed; [|done]. intros _.
  rewrite <- (join_split_on "." s), E. cbn [join]. rewrite !char_in_app.
  by rewrite !(octet_no_slash _ _ Ea), !(octet_no_slash _ _ Eb), !(octet_no_slash _ _ Ec), !(octet_no_slash _ _ Ed).
Qed.

Lemma slash_split s m : char_in "/" s = false → char_in "/" m = false →
  split_optional_netmask (s +:+ "/" +:+ m) = Some (s, Some m).
Proof.
  intros Hs Hm. unfold split_optional_netmask.
  change ("/" +:+ m) with (String "/" m). rewrite split_on_app by done. by rewrite split_on_no.
Qed.

(** The subnet of an address is printed from its high bits alone. *)
Lemma ipv4_subnet s n : parse_ipv4_int s = Some n →
  get_subnet_prefix s = Ok (print_ipv4 (Z.shiftl (Z.land (Z.shiftr n 8) (Z.ones 24)) 8) +:+ "/24").
Proof.
  intros E. unfold get_subnet_prefix, ip_address. rewrite E. cbn [ip_version Z.eqb Pos.eqb].
  unfold ip_network_of, ipv4_network. rewrite slash_split by (done || by eapply ipv4_no_slash).
  cbn [mbind option_bind]. rewrite E. cbn [mbind option_bind].
  change (prefix_from_string 4 "24") with (Some 24). cbn [mbind option_bind].
  unfold mask_network, network_str. cbv zeta. cbn [ip_version ip_int].
  change (netmask 4 24) with (Z.shiftl (Z.ones 24) 8). rewrite land_high_bits by done.
  set (h := Z.shiftl _ 8). cbn [net_addr net_prefixlen]. destruct (Z.eqb_spec h n) as [->|]; reflexivity.
Qed.

Lemma ipv6_subnet s n : ip_address s = Some (IPv6 n None) →
  get_subnet_prefix s = Ok (print_ipv6 (Z.shiftl (Z.land (Z.shiftr n 80) (Z.ones 48)) 80) +:+ "/48").
Proof.
  intros E. unfold get_subnet_prefix. rewrite E. cbn [ip_version Z.eqb Pos.eqb].
  unfold ip_address in E. destruct (parse_ipv4_int s) eqn:E4; [done|].
  assert (Hs : char_in "/" s = false) by (unfold parse_ipv6 in E; by destruct (char_in "/" s)).
  unfold ip_network_of, ipv4_network, ipv6_network. rewrite slash_split by done.
  cbn [mbind option_bind]. rewrite E4, E. cbn [mbind option_bind].
  change (prefix_from_string 6 "48") with (Some 48). cbn [mbind option_bind].
  unfold mask_network, network_str. cbv zeta. cbn [ip_version ip_int].
  change (netmask 6 48) with (Z.shiftl (Z.ones 48) 80). rewrite land_high_bits by done.
  set (h := Z.shiftl _ 80). cbn [net_addr net_prefixlen]. destruct (Z.eqb_spec h n) as [->|]; reflexivity.
Qed.

Lemma same_subnet_prefix s t : same_subnet s t → get_subnet_prefix s = get_subnet_prefix t.
Proof.
  unfold same_subnet. destruct (ip_address s) as [[m|m [sc|]]|] eqn:Es, (ip_address t) as [[n|n [sc'|]]|] eqn:Et;
    try (intros ->; congruence).
  - intros Hmn. unfold ip_address in Es, Et.
    assert (Hv : ∀ x, parse_ipv6 x ≠ Some (IPv4 m) ∧ parse_ipv6 x ≠ Some (IPv4 n)).
    { intros x. unfold parse_ipv6. destruct (char_in "/" x); [done|]. destruct (split_scope_id x) as [[a sc]|]; [|done].
      cbn [mbind option_bind]. by destruct (parse_ipv6_int a). }
    destruct (parse_ipv4_int s) as [m'|] eqn:E1; [|by destruct (Hv s)]. destruct (parse_ipv4_int t) as [n'|] eqn:E2; [|by destruct (Hv t)].
    rewrite (ipv4_subnet s m' E1), (ipv4_subnet t n' E2). by simplify_eq; rewrite Hmn.
  - intros Hmn. by rewrite (ipv6_subnet s m Es), (ipv6_subnet t n Et), Hmn.
  - intros _. unfold get_subnet_prefix. by rewrite Es, Et.
Qed.

#[export] Instance subnet_prefix_proper : Proper (same_subnet ==> eq) get_subnet_prefix.
Proof. intros s t. apply same_subnet_prefix. Qed.

(** ** Properties *)

Module ThreatFeedProps.

(** C17: what a compromised feed cannot do.  Whatever the feed delivers, and
    however the sync ends, with quarantine on every allow rule that is not the
    feed's own, and every manual and automatic block rule, is exactly as before;
    an allow rule of the feed keeps its key, is active afterwards only if it was
    active before, and keeps its reverse-DNS check; and every allow rule it adds
    is inactive and carries that check.  What it can rewrite in its own rules, an
    active one included, is how they match: the match type, the name reverse DNS
    must give, the expiry ([active_feed_rule_is_rewritten]). *)
Theorem feed_is_contained {R P} `{RedisClient R} `{ReEngine P} uuid4 (conf : Conf) parse_datetime
    decimal_field char_field fetched mc (w w' : World R P) r :
  DJANGO_WAF_FEED_QUARANTINE_ALLOW_RULES conf = true →
  NoDup (map br_id (w_block_rules w)) → NoDup (map ar_id (w_allow_rules w)) →
  sync_feed uuid4 conf parse_datetime decimal_field char_field fetched mc w = (r, w') →
  contained (w_allow_rules w) (w_allow_rules w') ∧
  List.filter (λ x, negb (is_feed x)) (w_block_rules w') = List.filter (λ x, negb (is_feed x)) (w_block_rules w).
Proof.
  intros Hq Hnd Hnda Hrun. split.
  - apply (preserves_Ok (λ w', NoDup (map ar_id (w_allow_rules w')) ∧ contained (w_allow_rules w) (w_allow_rules w')))
      in Hrun; [by destruct Hrun| |split; [done|apply contained_refl]].
    apply sync_preserves; [by apply quarantine_allow|by apply quarantine_block|by apply quarantine_drop].
  - apply (preserves_Ok (λ w', import_inv (w_block_rules w) [] (w_block_rules w'))) in Hrun; [by destruct Hrun as (_ & _ & ?)| |].
    + apply sync_preserves.
      * intros rdns e w1 Hw1. destruct (import_allow _ _ _ _ _ _ w1) as [x w2] eqn:E.
        apply import_allow_run in E as (_ & Hrows & _). cbn. by rewrite Hrows.
      * intros a e w1 Hw1. destruct (import_block _ _ _ _ w1) as [[c|x] w2] eqn:E;
          apply import_block_run in E as (Ho & _ & _); cbn [snd].
        -- eapply import_inv_weaken; [|by eapply import_inv_step]. intros k Hk. by apply elem_of_nil in Hk.
        -- by destruct Ho as [? _ ->|? ? [=]|? [=]].
      * intros s w1 Hw1. destruct (w_db_up w1) eqn:Hup; [|by rewrite deactivate_down].
        destruct (deactivate_run s w1 Hup) as (n & w2 & -> & _ & Hb & _). cbn [snd]. rewrite Hb.
        destruct Hw1 as (Hids & _ & Hf). split_and!; [|intros k Hk; by apply elem_of_nil in Hk|by rewrite drop_frame].
        rewrite map_map. erewrite map_ext; [exact Hids|]. intros x. by destruct (dropped_block _ x).
    + split_and!; [done|intros k Hk; by apply elem_of_nil in Hk|done].
Qed.

(** C18: after a sync that returns, the active block rules of the feed are
    exactly the accepted entries: every block entry of the response that
    passes validation has an active rule, and every feed rule the response no
    longer lists has been deactivated. *)
Theorem sync_mirrors_feed {R P} `{RedisClient R} `{ReEngine P} uuid4 (conf : Conf) parse_datetime
    decimal_field char_field v mc (w w' : World R P) r :
  NoDup (map br_id (w_block_rules w)) →
  sync_feed uuid4 conf parse_datetime decimal_field char_field (Ok v) mc w = (Ok r, w') →
  ∃ entries, feed_entries v = Ok entries ∧
    ∀ k, feed_active (w_block_rules w') k ↔
         k ∈ accepted_blocks (P:=P) parse_datetime (w_now w)
               (default (DJANGO_WAF_FEED_MIN_CONFIDENCE conf) mc) entries.
Proof.
  intros Hnd Hrun. unfold sync_feed in Hrun. unfold bind at 1, lift_res in Hrun.
  destruct (feed_entries v) as [entries|x]; [|done]. exists entries. split; [done|].
  apply bind_inv_Ok in Hrun as (s & w1 & Hi & Hrun). apply bind_inv_Ok in Hrun as (n & w2 & Hd & Hrun).
  unfold ret in Hrun. simplify_eq. apply (import_Ok uuid4 conf parse_datetime decimal_field char_field (w_block_rules w)) in Hi as (Hinv & _ & Hk).
  - destruct (w_db_up w1) eqn:Hup; [|by rewrite deactivate_down in Hd].
    destruct (deactivate_run s w1 Hup) as (n' & w3 & Hd' & _ & Hb & _). rewrite Hd' in Hd. simplify_eq.
    intros k. rewrite Hb, drop_feed_active, Hk. cbn [sy_blocks]. rewrite elem_of_nil.
    split; [tauto|]. intros Hin. split; [|tauto]. destruct Hinv as (_ & Hseen & _). apply Hseen, Hk. by left.
  - split_and!; [done|intros k Hk; by apply elem_of_nil in Hk|done].
Qed.

(** One bad entry stops the whole sync.  An entry whose confidence is the
    text "nan" passes the range test (no comparison with a NaN holds); the
    [DecimalField] then refuses it, the exception leaves [sync_feed], and
    nothing is imported or deactivated. *)
Lemma nan_entry_aborts_sync {R P} `{RedisClient R} `{ReEngine P} uuid4 (conf : Conf) parse_datetime
    decimal_field char_field p entries mc (w : World R P) ex :
  w_db_up w = true → p ≠ "" → Z.of_nat (String.length p) <= 512 → decimal_field FNan = Raise ex →
  let entry := ip_entry (FStr "nan") p in
  ∃ w', sync_feed uuid4 conf parse_datetime decimal_field char_field (Ok (FArr (entry :: entries))) mc w
        = (Raise ex, w') ∧ tables w' = tables w.
Proof.
  intros Hup Hp Hlen Hd entry. unfold sync_feed. unfold bind at 1, lift_res. cbn [feed_entries res_bind fiter import_entries].
  assert (Hv : ∀ t thr, validate_entry (P:=P) parse_datetime t thr entry = Ok (Some (ip_block FNan p t)))
    by (intros t thr; by apply ip_entry_valid).
  unfold bind at 1, bind at 1, clock, gets. unfold bind at 1, lift_res. rewrite Hv. cbn [fe_kind ip_block].
  unfold bind at 1. destruct (import_block uuid4 decimal_field _ _ w) as [r w1] eqn:E.
  unfold import_block, bind at 1, clock, gets in E. rewrite (bind_Ok _ _ _ _ _ (db_read_up _ w Hup)) in E.
  destruct (first_row _); unfold bind at 1, lift_res in E; cbn [fe_confidence ip_block] in E; rewrite Hd in E; simplify_eq; by exists w1.
Qed.

(** Two requests the telemetry cannot tell apart: same time and verdict, and
    addresses of one subnet. *)
Definition same_in_telemetry (a b : RequestLog) : Prop :=
  rl_timestamp a = rl_timestamp b ∧ rl_verdict a = rl_verdict b ∧ same_subnet (rl_ip_address a) (rl_ip_address b).

(** The telemetry reveals no address, path or User-Agent.  Two histories
    whose requests agree on time, verdict and subnet, and whose rules agree on
    source, type, action, hits and the SHA-256 of the pattern, give the same
    payload, whatever else differs. *)
Lemma telemetry_reveals_subnets_only id t1 t2 rules rules' log log' :
  Forall2 (λ a b, br_source a = br_source b ∧ br_rule_type a = br_rule_type b ∧ br_action a = br_action b ∧
                  br_hit_count a = br_hit_count b ∧
                  sha256 (encode (br_pattern a)) = sha256 (encode (br_pattern b))) rules rules' →
  Forall2 same_in_telemetry log log' →
  build_telemetry_payload id t1 t2 rules log = build_telemetry_payload id t1 t2 rules' log'.
Proof.
  intros Hrules Hlog. unfold build_telemetry_payload.
  set (p := λ r, (t1 <=? rl_timestamp r) && (rl_timestamp r <=? t2)).
  assert (Hf : Forall2 same_in_telemetry (List.filter p log) (List.filter p log')).
  { induction Hlog as [|a b l l' (Ht & Hv & Hs) Hl IH]; [constructor|]. cbn [List.filter].
    replace (p a) with (p b) by (unfold p; by rewrite Ht). destruct (p b); [constructor; [done|]|]; exact IH. }
  assert (Hu : ua_hashes rules = ua_hashes rules').
  { unfold ua_hashes. induction Hrules as [|a b l l' (H1 & H2 & H3 & H4 & H5) Hl IH]; [done|]. cbn. rewrite H1, H2.
    destruct (_ && _); cbn; [|exact IH]. f_equal; [by rewrite H3, H4, H5|exact IH]. }
  assert (Hc : ∀ v, count_if (λ r, bool_decide (rl_verdict r = v)) (List.filter p log)
                    = count_if (λ r, bool_decide (rl_verdict r = v)) (List.filter p log')).
  { intros v. induction Hf as [|a b l l' (_ & Hv & _) Hl IH]; [done|]. rewrite !count_if_cons, Hv, IH. done. }
  assert (Hs : telemetry_subnets (List.filter p log) = telemetry_subnets (List.filter p log')).
  { clear Hc. unfold telemetry_subnets. generalize (@nil SubnetCount). induction Hf as [|a b l l' (_ & Hv & Hsn) Hl IH]; intros d; [done|].
    cbn. rewrite Hsn, Hv. apply IH. }
  rewrite Hu, !Hc, Hs. by rewrite (Forall2_length _ _ _ Hf).
Qed.

(** *** Witnesses *)

Definition no_dates (v : fval) : res (option Z) := Ok None.
Definition hundredths (c : pyfloat) : res Z :=
  match c with FNum q => Ok (round2 q) | _ => Raise (OtherError "ValidationError") end.
Definition as_text (v : fval) : string := match v with FStr s => s | _ => "" end.

Definition feed_conf : Conf := default_conf "s".

Definition block_entry : fval :=
  FObj [("confidence", FFloat (FNum (9 # 10))); ("rule_type", FStr "ip"); ("pattern", FStr "192.0.2.9")].
Definition allow_entry : fval :=
  FObj [("kind", FStr "allow"); ("confidence", FInt 1); ("rule_type", FStr "ua"); ("pattern", FStr "Googlebot");
        ("match_type", FStr "contains"); ("verify_rdns", FBool true); ("rdns_pattern", FStr "googlebot.com")].

(** A feed rule that the response below no longer lists, and a manual rule. *)
Definition feed_world : World MemRedis LiteRe := AutoRuleProps.sample_world
  [{| {| {| AutoRuleProps.sample_rule with br_source := RuleSource_FEED |} with br_is_active := true |} with br_id := 3 |};
   {| AutoRuleProps.sample_rule with br_source := RuleSource_ADMIN |}] [].

Definition feed_run := sync_feed (R:=MemRedis) (P:=LiteRe) (λ n, 100 + Z.of_nat n) feed_conf no_dates hundredths
  as_text (Ok (FArr [block_entry; allow_entry])) None feed_world.

Lemma feed_ids_unique : NoDup (map br_id (w_block_rules feed_world)).
Proof. apply (bool_decide_unpack _). vm_compute. exact I. Qed.

(** A manual allow rule, and one the feed once delivered and an operator has
    switched on; the feed now names another domain for the second. *)
Definition crawler (id : Z) (source : RuleSource) (domain : string) : AllowRule :=
  {| ar_id := id; ar_name := "crawler"; ar_rule_type := RuleType_UA; ar_match_type := MatchType_CONTAINS;
     ar_pattern := "Googlebot"; ar_verify_rdns := true; ar_rdns_pattern := domain; ar_is_active := true;
     ar_source := source; ar_expires_at := None; ar_confidence := 100; ar_feed_first_seen := None;
     ar_feed_reporters := 0; ar_notes := "" |}.
Definition crawlers : list AllowRule :=
  [crawler 7 RuleSource_ADMIN "google.com"; crawler 8 RuleSource_FEED "google.com"].

Definition crawler_run := sync_feed (R:=MemRedis) (P:=LiteRe) (λ n, 100 + Z.of_nat n) feed_conf no_dates hundredths
  as_text (Ok (FArr [block_entry; allow_entry])) None
  {| feed_world with w_allow_rules := crawlers |}.

Lemma feed_is_contained_witness :
  contained crawlers (w_allow_rules crawler_run.2) ∧
  (∃ r, crawler_run.1 = Ok r ∧ updated r = 1) ∧
  filter (λ x, br_source x ≠ RuleSource_FEED) (w_block_rules crawler_run.2)
    = filter (λ x, br_source x ≠ RuleSource_FEED) (w_block_rules feed_world).
Proof.
  assert (E : crawler_run = (crawler_run.1, crawler_run.2)) by (destruct crawler_run; reflexivity).
  assert (Hnd : NoDup (map ar_id crawlers)) by (apply (bool_decide_unpack _); vm_compute; exact I).
  destruct (feed_is_contained (λ n, 100 + Z.of_nat n) feed_conf no_dates hundredths as_text
    (Ok (FArr [block_entry; allow_entry])) None {| feed_world with w_allow_rules := crawlers |} crawler_run.2
    crawler_run.1 eq_refl feed_ids_unique Hnd E) as [Ha _].
  split; [exact Ha|]. split; [|vm_compute; reflexivity]. eexists. split; vm_compute; reflexivity.
Defined.

(** The rule an operator has approved goes on allowing under the new domain. *)
Example active_feed_rule_is_rewritten :
  map (λ a, (ar_id a, ar_is_active a, ar_rdns_pattern a)) (w_allow_rules crawler_run.2)
  = [(7, true, "google.com"); (8, true, "googlebot.com")].
Proof. vm_compute. reflexivity. Qed.

Lemma sync_mirrors_feed_witness :
  match feed_run with
  | (Ok r, w') => expired r = 1 ∧ feed_active (w_block_rules w') (RuleType_IP, "192.0.2.9")
                  ∧ ¬ feed_active (w_block_rules w') (RuleType_IP, "192.0.2.1")
  | _ => False
  end.
Proof.
  assert (Ht : match feed_run with (Ok r, w') => expired r = 1 | _ => False end) by (vm_compute; reflexivity).
  destruct feed_run as [[r|e] w'] eqn:E; [|destruct Ht]. unfold feed_run in E.
  destruct (sync_mirrors_feed (λ n, 100 + Z.of_nat n) feed_conf no_dates hundredths as_text
    (FArr [block_entry; allow_entry]) None feed_world w' r feed_ids_unique E) as (entries & He & Hk).
  injection He as <-. split; [exact Ht|]. split.
  - apply Hk. vm_compute. left.
  - intros Hin. apply Hk in Hin. vm_compute in Hin. inversion Hin as [|? ? ? Hin']. inversion Hin'.
Defined.

Lemma nan_entry_aborts_sync_witness :
  ∃ w', sync_feed (R:=MemRedis) (P:=LiteRe) Z.of_nat feed_conf no_dates hundredths as_text
    (Ok (FArr [ip_entry (FStr "nan") "192.0.2.9"; block_entry]))
    None feed_world = (Raise (OtherError "ValidationError"), w') ∧ tables w' = tables feed_world.
Proof.
  apply (nan_entry_aborts_sync Z.of_nat feed_conf no_dates hundredths as_text "192.0.2.9" [block_entry] None feed_world
    (OtherError "ValidationError")); [reflexivity|discriminate|vm_compute; discriminate|reflexivity].
Defined.

Lemma telemetry_reveals_subnets_only_witness :
  build_telemetry_payload "id" 0 (1000 * usec) []
    [DetectorsProps.log_row "192.0.2.1" "/secret" BLOCKED 403] =
  build_telemetry_payload "id" 0 (1000 * usec) []
    [DetectorsProps.log_row "192.0.2.77" "/" BLOCKED 403].
Proof.
  apply telemetry_reveals_subnets_only; [constructor|]. constructor; [|constructor].
  split; [reflexivity|]. split; [reflexivity|]. vm_compute. reflexivity.
Defined.

End ThreatFeedProps.
