(* ===== verification/RuleTransfer.v ===== *)
(** * Rules as files and by hand (the rule commands of [management/commands])

    [django_waf_export_rules] and [django_waf_import_rules], with the JSON text
    between them; [django_waf_block], [django_waf_unblock] and
    [django_waf_prune_rules]; and the data migrations that touch rules
    ([migrations/0003], [migrations/0008]).  A command returns what it counts
    (its output lines are left out) or raises [CommandError].

    Django's field conversions of imported text are parameters
    ([FieldParsers]).  A value the model's rows cannot hold (a name that is not
    text, a rule type that is not one of the choices) makes the import raise
    [unmodelled], where Django would store it converted or as it is. *)

From Stdlib Require Import ZArith QArith Lia Ascii String Sorted Permutation.
From stdpp Require Import base tactics option list strings numbers gmap.
From S2P Require Import Prelude PyStr PyTime Codec JsonText Regex Conf Redis Models AutoRule RuleEngine.
From S2P Require Import Detectors Tasks ThreatFeed.

Open Scope Z_scope.

(** ** Stored values of the enumerations *)

Definition RuleSource_value (s : RuleSource) : string :=
  match s with RuleSource_ADMIN => "admin" | RuleSource_AUTO => "auto" | RuleSource_FEED => "feed" end.

Definition ReviewStatus_value (s : ReviewStatus) : string :=
  match s with
  | NOT_APPLICABLE => "not_applicable" | PENDING_REVIEW => "pending" | CONFIRMED => "confirmed"
  | REJECTED => "rejected" | EXPIRED_UNREVIEWED => "expired_unreviewed"
  end.

(** The member with a stored value. *)
Definition member {A} (value : A → string) (all : list A) (s : string) : option A :=
  List.find (λ a, bool_decide (value a = s)) all.

Definition rule_types : list RuleType := [RuleType_UA; RuleType_IP; RuleType_CIDR; RuleType_COMPOSITE].
Definition match_types : list MatchType := [MatchType_EXACT; MatchType_REGEX; MatchType_CONTAINS; MatchType_CIDR].
Definition actions : list RuleAction :=
  [RuleAction_BLOCK; RuleAction_CHALLENGE; RuleAction_THROTTLE; RuleAction_LOG_ONLY].
Definition review_statuses : list ReviewStatus :=
  [NOT_APPLICABLE; PENDING_REVIEW; CONFIRMED; REJECTED; EXPIRED_UNREVIEWED].

(** [date.isoformat()] of a day number, and [str()] of a decimal with two
    places, given in hundredths. *)
Definition date_isoformat (day : Z) : string :=
  let '(y, m, d) := civil_of_days day in
  pad_digits 4 y (String "-" (pad_digits 2 m (String "-" (pad_digits 2 d "")))).
Definition decimal_str (hundredths : Z) : string :=
  str_of_Z (hundredths / 100) +:+ "." +:+ pad_digits 2 (hundredths mod 100) "".

(** ** [django_waf_export_rules] *)

Definition jtime (t : option Z) : json := match t with Some t => JStr (isoformat t) | None => JNull end.

(** [_serialise_block_rule]. *)
Definition serialise_block_rule (r : BlockRule) : json := JObj [
  ("name", JStr (br_name r));
  ("rule_type", JStr (RuleType_value (br_rule_type r)));
  ("match_type", JStr (MatchType_value (br_match_type r)));
  ("pattern", JStr (br_pattern r));
  ("action", JStr (RuleAction_value (br_action r)));
  ("priority", JInt (br_priority r));
  ("is_active", JBool (br_is_active r));
  ("source", JStr (RuleSource_value (br_source r)));
  ("expires_at", jtime (br_expires_at r));
  ("confidence", JStr (decimal_str (br_confidence r)));
  ("feed_first_seen", match br_feed_first_seen r with Some d => JStr (date_isoformat d) | None => JNull end);
  ("feed_reporters", JInt (br_feed_reporters r));
  ("notes", JStr (br_notes r));
  ("review_status", JStr (ReviewStatus_value (br_review_status r)));
  ("reviewed_at", jtime (br_reviewed_at r))].

(** [_serialise_allow_rule]. *)
Definition serialise_allow_rule (r : AllowRule) : json := JObj [
  ("name", JStr (ar_name r));
  ("rule_type", JStr (RuleType_value (ar_rule_type r)));
  ("match_type", JStr (MatchType_value (ar_match_type r)));
  ("pattern", JStr (ar_pattern r));
  ("verify_rdns", JBool (ar_verify_rdns r));
  ("rdns_pattern", JStr (ar_rdns_pattern r));
  ("is_active", JBool (ar_is_active r));
  ("notes", JStr (ar_notes r))].

(** [Meta.ordering] of [AllowRule]. *)
Definition by_name : list AllowRule → list AllowRule :=
  sort_by (λ a b, str_leb (ar_name a) (ar_name b)).

Inductive RuleKind := KBlock | KAllow | KAll.

(** The payload; [source = None] is ["all"]. *)
Definition export_payload (now : Z) (kind : RuleKind) (source : option RuleSource)
    (blocks : list BlockRule) (allows : list AllowRule) : json :=
  let chosen r := match source with Some s => bool_decide (br_source r = s) | None => true end in
  JObj [("version", JInt 1); ("exported_at", JStr (isoformat now));
        ("block_rules", JArr (match kind with
           | KAllow => []
           | _ => map serialise_block_rule (sort_by meta_order (List.filter chosen blocks)) end));
        ("allow_rules", JArr (match kind with
           | KBlock => []
           | _ => map serialise_allow_rule (by_name allows) end))].

Section Exporting.
Context {R P : Type}.

(** The text the command writes to its output. *)
Definition export_rules (kind : RuleKind) (source : option RuleSource) : M (World R P) string :=
  blocks <- match kind with KAllow => ret [] | _ => db_read w_block_rules end ;;
  allows <- match kind with KBlock => ret [] | _ => db_read w_allow_rules end ;;
  t <- clock ;;
  ret (dumps_indent (export_payload t kind source blocks allows)).
End Exporting.

(** ** [django_waf_import_rules] *)

Definition CommandError : exn := OtherError "CommandError".
Definition unmodelled {A} : res A := Raise (OtherError "value outside the model").

(** Django's conversions of text: [parse_datetime] ([None] when it does not
    look like one), a [DateField] and the [DecimalField] of confidence. *)
Class FieldParsers := {
  parse_datetime : string → res (option Z);
  parse_date : string → res Z;
  parse_decimal : string → res Z;
}.

Definition text_field (v : json) : res string := match v with JStr s => Ok s | _ => unmodelled end.
Definition int_field (v : json) : res Z := match v with JInt z => Ok z | _ => unmodelled end.
Definition bool_field (v : json) : res bool := match v with JBool b => Ok b | _ => unmodelled end.
Definition choice_field {A} (value : A → string) (all : list A) (v : json) : res A :=
  res_bind (text_field v) (λ s, match member value all s with Some a => Ok a | None => unmodelled end).

(** [for entry in v]. *)
Definition jiter (v : json) : res (list json) :=
  match v with
  | JArr l => Ok l
  | JObj kvs => Ok (map (λ kv, JStr kv.1) kvs)
  | JStr s => Ok (map (λ c, JStr (String c "")) (list_ascii_of_string s))
  | _ => Raise (OtherError "TypeError")
  end.

(** A key of the sets of existing rules; only text can be a member. *)
Definition RuleKey : Type := string * string * string.
Definition block_key (r : BlockRule) : RuleKey :=
  (RuleType_value (br_rule_type r), MatchType_value (br_match_type r), br_pattern r).
Definition allow_key (r : AllowRule) : RuleKey :=
  (RuleType_value (ar_rule_type r), MatchType_value (ar_match_type r), ar_pattern r).

Definition entry_key (entry : json) : res (json * json * json) :=
  res_bind (jget entry "rule_type") (λ a, res_bind (jget entry "match_type") (λ b,
  res_bind (jget entry "pattern") (λ c, Ok (a, b, c)))).

Definition unhashable (v : json) : bool := match v with JArr _ | JObj _ => true | _ => false end.

(** [key in keys]. *)
Definition key_in (key : json * json * json) (keys : list RuleKey) : res bool :=
  let '(a, b, c) := key in
  if unhashable a || unhashable b || unhashable c then Raise (OtherError "TypeError") else
  Ok match key with
     | (JStr a, JStr b, JStr c) => bool_decide ((a, b, c) ∈ keys)
     | _ => false
     end.

Record TransferReport : Type := {
  imp_created : Z;
  imp_skipped : Z;
  imp_replaced : Z;
}.

(** Why an entry is not stored, or its new key. *)
Inductive outcome := Skipped | Created (key : option RuleKey).

Section Importing.
Context {R P : Type} `{RedisClient R} (uuid4 : nat → Z) `{FieldParsers}.
Abbreviation W := (World R P).

(** [BlockRule.objects.create(...)] with the values of an entry. *)
Definition create_block_rule (entry : json) : M W unit :=
  expires <- lift_res (jget_default entry "expires_at" JNull) ;;
  expires_at <- (if jtruthy expires
                 then lift_res (res_bind (jget entry "expires_at") (λ v, res_bind (jstr v) parse_datetime))
                 else ret None) ;;
  first_seen <- lift_res (jget_default entry "feed_first_seen" JNull) ;;
  name <- lift_res (jget entry "name") ;;
  rule_type <- lift_res (jget entry "rule_type") ;;
  match_type <- lift_res (jget entry "match_type") ;;
  pattern <- lift_res (jget entry "pattern") ;;
  action <- lift_res (jget entry "action") ;;
  priority <- lift_res (jget_default entry "priority" (JInt 100)) ;;
  is_active <- lift_res (jget_default entry "is_active" (JBool true)) ;;
  confidence <- lift_res (jget_default entry "confidence" (JStr "1.00")) ;;
  reporters <- lift_res (jget_default entry "feed_reporters" (JInt 0)) ;;
  notes <- lift_res (jget_default entry "notes" (JStr "")) ;;
  review_status <- lift_res (jget_default entry "review_status" (JStr (ReviewStatus_value NOT_APPLICABLE))) ;;
  t <- clock ;;
  id <- draw uuid4 ;;
  row <- lift_res (
    res_bind (text_field name) (λ name, res_bind (choice_field RuleType_value rule_types rule_type) (λ rule_type,
    res_bind (choice_field MatchType_value match_types match_type) (λ match_type,
    res_bind (text_field pattern) (λ pattern, res_bind (choice_field RuleAction_value actions action) (λ action,
    res_bind (int_field priority) (λ priority, res_bind (bool_field is_active) (λ is_active,
    res_bind (res_bind (text_field confidence) parse_decimal) (λ confidence,
    res_bind (if jtruthy first_seen then res_bind (res_bind (text_field first_seen) parse_date) (λ d, Ok (Some d))
              else Ok None) (λ first_seen,
    res_bind (int_field reporters) (λ reporters, res_bind (text_field notes) (λ notes,
    res_bind (choice_field ReviewStatus_value review_statuses review_status) (λ review_status,
    Ok {| br_id := id; br_name := name; br_rule_type := rule_type; br_match_type := match_type;
          br_pattern := pattern; br_action := action; br_priority := priority; br_is_active := is_active;
          br_source := RuleSource_ADMIN; br_expires_at := expires_at; br_hit_count := 0;
          br_last_hit_at := None; br_confidence := confidence; br_feed_first_seen := first_seen;
          br_feed_reporters := reporters; br_notes := notes; br_review_status := review_status;
          br_reviewed_at := None; br_detectors := ""; br_created_at := t; br_updated_at := t |}))))))))))))) ;;
  rows <- db_read w_block_rules ;;
  if existsb (λ r, br_id r =? id) rows then raise IntegrityError else
  set_block_rules (rows ++ [row]) ;;;
  on_block_rule_save.

(** [AllowRule.objects.create(...)]. *)
Definition create_allow_rule (entry : json) : M W unit :=
  name <- lift_res (jget entry "name") ;;
  rule_type <- lift_res (jget entry "rule_type") ;;
  match_type <- lift_res (jget entry "match_type") ;;
  pattern <- lift_res (jget entry "pattern") ;;
  verify_rdns <- lift_res (jget_default entry "verify_rdns" (JBool false)) ;;
  rdns_pattern <- lift_res (jget_default entry "rdns_pattern" (JStr "")) ;;
  is_active <- lift_res (jget_default entry "is_active" (JBool true)) ;;
  notes <- lift_res (jget_default entry "notes" (JStr "")) ;;
  id <- draw uuid4 ;;
  row <- lift_res (
    res_bind (text_field name) (λ name, res_bind (choice_field RuleType_value rule_types rule_type) (λ rule_type,
    res_bind (choice_field MatchType_value match_types match_type) (λ match_type,
    res_bind (text_field pattern) (λ pattern, res_bind (bool_field verify_rdns) (λ verify_rdns,
    res_bind (text_field rdns_pattern) (λ rdns_pattern, res_bind (bool_field is_active) (λ is_active,
    res_bind (text_field notes) (λ notes,
    Ok {| ar_id := id; ar_name := name; ar_rule_type := rule_type; ar_match_type := match_type;
          ar_pattern := pattern; ar_verify_rdns := verify_rdns; ar_rdns_pattern := rdns_pattern;
          ar_is_active := is_active; ar_source := RuleSource_ADMIN; ar_expires_at := None;
          ar_confidence := 100; ar_feed_first_seen := None; ar_feed_reporters := 0;
          ar_notes := notes |}))))))))) ;;
  rows <- db_read w_allow_rules ;;
  if existsb (λ r, ar_id r =? id) rows then raise IntegrityError else
  set_allow_rules (rows ++ [row]) ;;;
  on_allow_rule_save.

(** One pass of a loop over entries: [keys] are the existing ones. *)
Definition import_entry (merge dry_run : bool) (create : json → M W unit) (keys : list RuleKey) (entry : json)
  : M W outcome :=
  key <- lift_res (entry_key entry) ;;
  known <- (if merge then lift_res (key_in key keys) else ret false) ;;
  if known then ret Skipped
  else if dry_run then ret (Created None)
  else
    create entry ;;;
    match key with
    | (JStr a, JStr b, JStr c) => ret (Created (Some (a, b, c)))
    | _ => raise (OtherError "value outside the model")
    end.

(** A loop: how many were created and skipped. *)
Fixpoint import_loop (merge dry_run : bool) (create : json → M W unit) (keys : list RuleKey) (entries : list json)
  : M W (Z * Z) :=
  match entries with
  | [] => ret (0, 0)
  | entry :: entries =>
      o <- import_entry merge dry_run create keys entry ;;
      counts <- import_loop merge dry_run create
                  match o with Created (Some k) => k :: keys | _ => keys end entries ;;
      ret match o with
          | Skipped => (counts.1, counts.2 + 1)
          | Created _ => (counts.1 + 1, counts.2)
          end
  end.

(** [--replace]: the rules it deletes, and their number. *)
Definition replace_rules (dry_run : bool) : M W Z :=
  blocks <- db_read w_block_rules ;;
  allows <- db_read w_allow_rules ;;
  let admin r := bool_decide (br_source r = RuleSource_ADMIN) in
  let doomed := List.filter admin blocks in
  (if dry_run then ret tt else
     set_block_rules (List.filter (λ r, negb (admin r)) blocks) ;;;
     notify_each on_block_rule_delete doomed ;;;
     set_allow_rules [] ;;;
     notify_each on_allow_rule_delete allows) ;;;
  ret (Z.of_nat (length doomed) + Z.of_nat (length allows)).

(** The body of the transaction. *)
Definition import_body (merge replace dry_run : bool) (block_rules allow_rules : json) : M W TransferReport :=
  replaced <- (if replace then replace_rules dry_run else ret 0) ;;
  block_keys <- (if merge then rows <- db_read w_block_rules ;; ret (map block_key rows) else ret []) ;;
  allow_keys <- (if merge then rows <- db_read w_allow_rules ;; ret (map allow_key rows) else ret []) ;;
  blocks <- lift_res (jiter block_rules) ;;
  b <- import_loop merge dry_run create_block_rule block_keys blocks ;;
  allows <- lift_res (jiter allow_rules) ;;
  a <- import_loop merge dry_run create_allow_rule allow_keys allows ;;
  ret {| imp_created := b.1 + a.1; imp_skipped := b.2 + a.2; imp_replaced := replaced |}.

(** [handle], on what reading the file gave. *)
Definition import_rules (file : res string) (merge replace dry_run : bool) : M W TransferReport :=
  if merge && replace then raise CommandError else
  let merge := merge || negb replace in
  text <- match file with
          | Ok text => ret text
          | Raise e => if bool_decide (e = OtherError "OSError") then raise CommandError else raise e
          end ;;
  match loads text with
  | None => raise CommandError
  | Some payload =>
      block_rules <- lift_res (jget_default payload "block_rules" (JArr [])) ;;
      allow_rules <- lift_res (jget_default payload "allow_rules" (JArr [])) ;;
      atomic dry_run (import_body merge replace dry_run block_rules allow_rules)
  end.
End Importing.

(** ** [django_waf_block], [django_waf_unblock], [django_waf_prune_rules] *)

Section Commands.
Context {R P : Type} `{RedisClient R} (uuid4 : nat → Z).
Abbreviation W := (World R P).

(** [update_or_create(rule_type=..., pattern=..., source=ADMIN, action=...)]:
    whether the rule is new. *)
Definition manual_block (t : Z) (rule_type : RuleType) (match_type : MatchType) (pattern : string)
    (action : RuleAction) (expires_at : option Z) (reason : string) : M W bool :=
  rows <- db_read w_block_rules ;;
  let same r := bool_decide (br_rule_type r = rule_type) && bool_decide (br_pattern r = pattern)
                && bool_decide (br_source r = RuleSource_ADMIN) && bool_decide (br_action r = action) in
  match List.filter same rows with
  | [] =>
      id <- draw uuid4 ;;
      let row := {| br_id := id; br_name := "Manual block: " +:+ pattern; br_rule_type := rule_type;
        br_match_type := match_type; br_pattern := pattern; br_action := action; br_priority := 100;
        br_is_active := true; br_source := RuleSource_ADMIN; br_expires_at := expires_at; br_hit_count := 0;
        br_last_hit_at := None; br_confidence := 100; br_feed_first_seen := None; br_feed_reporters := 0;
        br_notes := reason; br_review_status := NOT_APPLICABLE; br_reviewed_at := None; br_detectors := "";
        br_created_at := t; br_updated_at := t |} in
      if existsb (λ r, br_id r =? id) rows then raise IntegrityError else
      set_block_rules (rows ++ [row]) ;;; on_block_rule_save ;;; ret true
  | [old] =>
      let row := {| br_id := br_id old; br_name := "Manual block: " +:+ pattern; br_rule_type := br_rule_type old;
        br_match_type := match_type; br_pattern := br_pattern old; br_action := br_action old;
        br_priority := br_priority old; br_is_active := true; br_source := br_source old;
        br_expires_at := expires_at; br_hit_count := br_hit_count old; br_last_hit_at := br_last_hit_at old;
        br_confidence := br_confidence old; br_feed_first_seen := br_feed_first_seen old;
        br_feed_reporters := br_feed_reporters old; br_notes := reason; br_review_status := br_review_status old;
        br_reviewed_at := br_reviewed_at old; br_detectors := br_detectors old;
        br_created_at := br_created_at old; br_updated_at := t |} in
      set_block_rules (map (λ r, if br_id r =? br_id old then row else r) rows) ;;;
      on_block_rule_save ;;; ret false
  | _ => raise MultipleObjectsReturned
  end.

Definition block_command (pattern : string) (action : RuleAction) (reason : string) (ttl_hours : option Z)
  : M W bool :=
  let pattern := strip pattern in
  let cidr := char_in "/" pattern in
  t <- clock ;;
  let expires_at := (λ h, t + h * hour_us) <$> ttl_hours in
  try_except
    (manual_block t (if cidr then RuleType_CIDR else RuleType_IP)
       (if cidr then MatchType_CIDR else MatchType_EXACT) pattern action expires_at reason)
    (λ _, raise CommandError).

(** The number of rules it took out. *)
Definition unblock_command (pattern : string) (delete : bool) : M W Z :=
  let pattern := strip pattern in
  let hit r := bool_decide (br_pattern r = pattern) && br_is_active r in
  rows <- db_read w_block_rules ;;
  let found := List.filter hit rows in
  let count := Z.of_nat (length found) in
  if count =? 0 then ret 0
  else if delete then
    set_block_rules (List.filter (λ r, negb (hit r)) rows) ;;;
    notify_each on_block_rule_delete found ;;; ret count
  else
    set_block_rules (map (λ r, if hit r then {| r with br_is_active := false |} else r) rows) ;;; ret count.

(** The number of rules that are stale, deleted with [--execute]. *)
Definition prune_command (conf : Conf) (days : option Z) (execute : bool) : M W Z :=
  let days := default (DJANGO_WAF_RULE_RETENTION_DAYS conf) days in
  if days <? 1 then raise CommandError else
  t <- clock ;;
  let stale := BlockRuleManager.is_stale t days in
  if negb execute then rows <- db_read w_block_rules ;; ret (Z.of_nat (length (List.filter stale rows)))
  else
    try_except (
      rows <- db_read w_block_rules ;;
      set_block_rules (List.filter (λ r, negb (stale r)) rows) ;;;
      notify_each on_block_rule_delete (List.filter stale rows) ;;;
      ret (Z.of_nat (length (List.filter stale rows))))
      (λ _, raise CommandError).
End Commands.

(** ** The data migrations *)

(** [order_by("-created_at")]. *)
Definition newest_first (a b : BlockRule) : bool := br_created_at b <=? br_created_at a.

Definition key_group (k : RuleType * string * RuleAction) (rows : list BlockRule) : list BlockRule :=
  List.filter (λ r, bool_decide (auto_key r = Some k)) rows.

(** [migrations/0008]: every automatic rule but the newest of its key goes. *)
Definition dedupe_auto_block_rules (rows : list BlockRule) : list BlockRule :=
  let duplicate_keys := List.filter (λ k, (1 <? length (key_group k rows))%nat)
                                    (remove_dups (omap auto_key rows)) in
  let stale_pks := flat_map (λ k, map br_id (tail (sort_by newest_first (key_group k rows)))) duplicate_keys in
  List.filter (λ r, negb (bool_decide (br_id r ∈ stale_pks))) rows.

(** [migrations/0003]: the crawlers it allows, behind reverse DNS. *)
Record SeedRow : Type := { sd_pattern : string; sd_name : string; sd_rdns : string; sd_notes : string }.

Definition SEED_ROWS : list SeedRow :=
  [{| sd_pattern := "Googlebot"; sd_name := "Verified Googlebot (rDNS-gated)";
      sd_rdns := "\.googlebot\.com$|\.google\.com$";
      sd_notes := "Seeded by django-waf per ADR-035 / BR-CHAL-001. Exempts verified "
        +:+ "Googlebot from WAF challenge scoring so it is never served the "
        +:+ "noindex challenge interstitial. rDNS verification (BR-EVAL-004) "
        +:+ "gates the match: a spoofed Googlebot UA from an IP whose PTR "
        +:+ "record does not end in .googlebot.com or .google.com falls "
        +:+ "through to normal scoring." |};
   {| sd_pattern := "bingbot"; sd_name := "Verified Bingbot (rDNS-gated)"; sd_rdns := "\.search\.msn\.com$";
      sd_notes := "Seeded by django-waf per ADR-035 / BR-CHAL-001. Exempts verified "
        +:+ "Bingbot from WAF challenge scoring so it is never served the "
        +:+ "noindex challenge interstitial. rDNS verification (BR-EVAL-004) "
        +:+ "gates the match: a spoofed Bingbot UA from an IP whose PTR record "
        +:+ "does not end in .search.msn.com falls through to normal scoring." |}].

Definition seed_matches (s : SeedRow) (r : AllowRule) : bool :=
  bool_decide (ar_rule_type r = RuleType_UA) && bool_decide (ar_pattern r = sd_pattern s).

Definition seeded (s : SeedRow) (r : AllowRule) : AllowRule :=
  {| ar_id := ar_id r; ar_name := sd_name s; ar_rule_type := ar_rule_type r; ar_match_type := MatchType_REGEX;
     ar_pattern := ar_pattern r; ar_verify_rdns := true; ar_rdns_pattern := sd_rdns s; ar_is_active := true;
     ar_source := ar_source r; ar_expires_at := ar_expires_at r; ar_confidence := ar_confidence r;
     ar_feed_first_seen := ar_feed_first_seen r; ar_feed_reporters := ar_feed_reporters r;
     ar_notes := sd_notes s |}.

Section Seed.
Context {R P : Type} (uuid4 : nat → Z).
Abbreviation W := (World R P).

(** [update_or_create(rule_type=..., pattern=..., defaults=...)] on the
    historical model, which has no signal receivers. *)
Definition seed_row (s : SeedRow) : M W unit :=
  rows <- db_read w_allow_rules ;;
  match List.filter (seed_matches s) rows with
  | [] =>
      id <- draw uuid4 ;;
      set_allow_rules (rows ++ [{| ar_id := id; ar_name := sd_name s; ar_rule_type := RuleType_UA;
        ar_match_type := MatchType_REGEX; ar_pattern := sd_pattern s; ar_verify_rdns := true;
        ar_rdns_pattern := sd_rdns s; ar_is_active := true; ar_source := RuleSource_ADMIN;
        ar_expires_at := None; ar_confidence := 100; ar_feed_first_seen := None; ar_feed_reporters := 0;
        ar_notes := sd_notes s |}])
  | [_] => set_allow_rules (map (λ r, if seed_matches s r then seeded s r else r) rows)
  | _ => raise MultipleObjectsReturned
  end.

Definition seed_verified_crawlers (allow_verified_crawlers : bool) : M W unit :=
  if negb allow_verified_crawlers then ret tt
  else foldr (λ s k, seed_row s ;;; k) (ret tt) SEED_ROWS.

Definition unseed_verified_crawlers : M W unit :=
  foldr (λ s k, rows <- db_read w_allow_rules ;;
                set_allow_rules (List.filter (λ r, negb (seed_matches s r)) rows) ;;; k) (ret tt) SEED_ROWS.
End Seed.

(** ** The text fields read back *)

(** Documented behaviour of Django's parsers on what [isoformat] and [str]
    write. *)
Class FieldParsersSpec `{FieldParsers} : Prop := {
  parse_datetime_iso t : valid_datetime t = true → parse_datetime (isoformat t) = Ok (Some t);
  parse_date_iso d : valid_datetime (d * day_us) = true → parse_date (date_isoformat d) = Ok d;
  parse_decimal_str c : 0 <= c < 1000 → parse_decimal (decimal_str c) = Ok c;
}.

Definition valid_time (t : option Z) : bool := match t with Some t => valid_datetime t | None => true end.

(** A row whose columns hold what their types allow. *)
Definition storable (r : BlockRule) : bool :=
  valid_time (br_expires_at r) && valid_time ((λ d, d * day_us) <$> br_feed_first_seen r)
  && (0 <=? br_confidence r) && (br_confidence r <? 1000).

Lemma pad_digits_length n z acc : String.length (pad_digits n z acc) = (n + String.length acc)%nat.
Proof.
  revert z acc. induction n as [|n IH]; intros z acc; [done|]. cbn [pad_digits]. rewrite IH. cbn. lia.
Qed.

Lemma isoformat_ne t : jtruthy (JStr (isoformat t)) = true.
Proof.
  cbn [jtruthy]. apply negb_true_iff, str_empty_false. unfold isoformat.
  destruct (civil_of_days _) as [[y m] d]. intros E. apply (f_equal String.length) in E.
  by rewrite pad_digits_length in E.
Qed.

Lemma date_isoformat_ne d : jtruthy (JStr (date_isoformat d)) = true.
Proof.
  cbn [jtruthy]. apply negb_true_iff, str_empty_false. unfold date_isoformat.
  destruct (civil_of_days _) as [[y m] dd]. intros E. apply (f_equal String.length) in E.
  by rewrite pad_digits_length in E.
Qed.

Lemma rule_type_reads t : choice_field RuleType_value rule_types (JStr (RuleType_value t)) = Ok t.
Proof. by destruct t. Qed.
Lemma match_type_reads t : choice_field MatchType_value match_types (JStr (MatchType_value t)) = Ok t.
Proof. by destruct t. Qed.
Lemma action_reads a : choice_field RuleAction_value actions (JStr (RuleAction_value a)) = Ok a.
Proof. by destruct a. Qed.
Lemma review_status_reads s :
  choice_field ReviewStatus_value review_statuses (JStr (ReviewStatus_value s)) = Ok s.
Proof. by destruct s. Qed.

Lemma RuleType_value_inj a b : RuleType_value a = RuleType_value b → a = b.
Proof. by destruct a, b. Qed.
Lemma MatchType_value_inj a b : MatchType_value a = MatchType_value b → a = b.
Proof. by destruct a, b. Qed.

(** The row an exported rule becomes. *)
Definition imported_block (now id : Z) (r : BlockRule) : BlockRule :=
  {| br_id := id; br_name := br_name r; br_rule_type := br_rule_type r; br_match_type := br_match_type r;
     br_pattern := br_pattern r; br_action := br_action r; br_priority := br_priority r;
     br_is_active := br_is_active r; br_source := RuleSource_ADMIN; br_expires_at := br_expires_at r;
     br_hit_count := 0; br_last_hit_at := None; br_confidence := br_confidence r;
     br_feed_first_seen := br_feed_first_seen r; br_feed_reporters := br_feed_reporters r;
     br_notes := br_notes r; br_review_status := br_review_status r; br_reviewed_at := None;
     br_detectors := ""; br_created_at := now; br_updated_at := now |}.

Definition imported_allow (id : Z) (r : AllowRule) : AllowRule :=
  {| ar_id := id; ar_name := ar_name r; ar_rule_type := ar_rule_type r; ar_match_type := ar_match_type r;
     ar_pattern := ar_pattern r; ar_verify_rdns := ar_verify_rdns r; ar_rdns_pattern := ar_rdns_pattern r;
     ar_is_active := ar_is_active r; ar_source := RuleSource_ADMIN; ar_expires_at := None;
     ar_confidence := 100; ar_feed_first_seen := None; ar_feed_reporters := 0; ar_notes := ar_notes r |}.

(** [jget] on an exported entry. *)
Lemma block_entry_gets r :
  let e := serialise_block_rule r in
  jget e "name" = Ok (JStr (br_name r)) ∧
  jget e "rule_type" = Ok (JStr (RuleType_value (br_rule_type r))) ∧
  jget e "match_type" = Ok (JStr (MatchType_value (br_match_type r))) ∧
  jget e "pattern" = Ok (JStr (br_pattern r)) ∧
  jget e "action" = Ok (JStr (RuleAction_value (br_action r))) ∧
  jget e "expires_at" = Ok (jtime (br_expires_at r)).
Proof. split_and!; reflexivity. Qed.

Lemma block_entry_defaults r d :
  let e := serialise_block_rule r in
  jget_default e "expires_at" d = Ok (jtime (br_expires_at r)) ∧
  jget_default e "feed_first_seen" d
    = Ok match br_feed_first_seen r with Some d => JStr (date_isoformat d) | None => JNull end ∧
  jget_default e "priority" d = Ok (JInt (br_priority r)) ∧
  jget_default e "is_active" d = Ok (JBool (br_is_active r)) ∧
  jget_default e "confidence" d = Ok (JStr (decimal_str (br_confidence r))) ∧
  jget_default e "feed_reporters" d = Ok (JInt (br_feed_reporters r)) ∧
  jget_default e "notes" d = Ok (JStr (br_notes r)) ∧
  jget_default e "review_status" d = Ok (JStr (ReviewStatus_value (br_review_status r))).
Proof. split_and!; reflexivity. Qed.

Section Create.
Context {R P : Type} `{RedisClient R} (uuid4 : nat → Z) `{FieldParsersSpec}.
Abbreviation W := (World R P).

Definition add_block (rd : R) (row : BlockRule) (w : W) : W :=
  {| {| {| w with w_block_rules := w_block_rules w ++ [row] |} with w_fresh := S (w_fresh w) |} with w_redis := rd |}.
Definition add_allow (rd : R) (row : AllowRule) (w : W) : W :=
  {| {| {| w with w_allow_rules := w_allow_rules w ++ [row] |} with w_fresh := S (w_fresh w) |} with w_redis := rd |}.

Lemma lift_Ok {S A B} (a : A) (k : A → M S B) : bind (lift_res (Ok a)) k = k a.
Proof. reflexivity. Qed.

Lemma jtime_reads t : valid_time t = true →
  (if jtruthy (jtime t) then lift_res (res_bind (Ok (jtime t)) (λ v, res_bind (jstr v) parse_datetime))
   else ret None) = ret t :> M W (option Z).
Proof.
  destruct t as [t|]; [|done]. intros Ht. cbn [jtime]. rewrite isoformat_ne. cbn [res_bind jstr].
  by rewrite parse_datetime_iso.
Qed.

Lemma jdate_reads d : valid_time ((λ d, d * day_us) <$> d) = true →
  let v := match d with Some d => JStr (date_isoformat d) | None => JNull end in
  (if jtruthy v then res_bind (res_bind (text_field v) parse_date) (λ d, Ok (Some d)) else Ok None) = Ok d.
Proof.
  destruct d as [d|]; [|done]. intros Hd. cbn [valid_time fmap option_fmap option_map] in Hd. cbv zeta.
  rewrite date_isoformat_ne. cbn [res_bind text_field]. by rewrite parse_date_iso.
Qed.

Lemma create_block_rule_run r (w : W) :
  storable r = true → w_db_up w = true →
  existsb (λ x, br_id x =? uuid4 (w_fresh w)) (w_block_rules w) = false →
  ∃ rd, create_block_rule uuid4 (serialise_block_rule r) w =
        (Ok tt, add_block rd (imported_block (w_now w) (uuid4 (w_fresh w)) r) w).
Proof.
  intros Hst Hup Hfresh. unfold storable in Hst. bool_hyps.
  destruct (block_entry_gets r) as (G1 & G2 & G3 & G4 & G5 & G6). cbn zeta in *.
  unfold create_block_rule.
  destruct (block_entry_defaults r JNull) as (D1 & D2 & _).
  rewrite D1, D2, G1, G2, G3, G4, G5, G6.
  destruct (block_entry_defaults r (JInt 100)) as (_ & _ & D3 & _). rewrite D3.
  destruct (block_entry_defaults r (JBool true)) as (_ & _ & _ & D4 & _). rewrite D4.
  destruct (block_entry_defaults r (JStr "1.00")) as (_ & _ & _ & _ & D5 & _). rewrite D5.
  destruct (block_entry_defaults r (JInt 0)) as (_ & _ & _ & _ & _ & D6 & _). rewrite D6.
  destruct (block_entry_defaults r (JStr "")) as (_ & _ & _ & _ & _ & _ & D7 & _). rewrite D7.
  destruct (block_entry_defaults r (JStr (ReviewStatus_value NOT_APPLICABLE))) as (_ & _ & _ & _ & _ & _ & _ & D8).
  rewrite D8.
  rewrite !lift_Ok, jtime_reads by done. clear D1 D2 D3 D4 D5 D6 D7 D8 G1 G2 G3 G4 G5 G6.
  unfold bind at 1, ret at 1. rewrite !lift_Ok. unfold bind at 1, clock, gets. unfold bind at 1, draw.
  cbn [text_field int_field bool_field res_bind].
  rewrite rule_type_reads, match_type_reads, action_reads, review_status_reads. cbn [res_bind].
  rewrite parse_decimal_str by lia. cbn [res_bind]. rewrite jdate_reads by done. cbn [res_bind].
  rewrite lift_Ok. cbv beta iota.
  rewrite (bind_Ok _ _ _ _ _ (db_read_up _ {| w with w_fresh := S (w_fresh w) |} Hup)). cbn [w_block_rules].
  rewrite Hfresh. unfold set_block_rules.
  rewrite (bind_Ok _ _ _ _ _ (db_write_up _ {| w with w_fresh := S (w_fresh w) |} Hup)).
  unfold on_block_rule_save. match goal with |- context [invalidate_rule_cache ?x] =>
    destruct (invalidate_eq x) as [rd ->] end.
  by exists rd.
Qed.

Lemma allow_entry_gets r d :
  let e := serialise_allow_rule r in
  jget e "name" = Ok (JStr (ar_name r)) ∧
  jget e "rule_type" = Ok (JStr (RuleType_value (ar_rule_type r))) ∧
  jget e "match_type" = Ok (JStr (MatchType_value (ar_match_type r))) ∧
  jget e "pattern" = Ok (JStr (ar_pattern r)) ∧
  jget_default e "verify_rdns" d = Ok (JBool (ar_verify_rdns r)) ∧
  jget_default e "rdns_pattern" d = Ok (JStr (ar_rdns_pattern r)) ∧
  jget_default e "is_active" d = Ok (JBool (ar_is_active r)) ∧
  jget_default e "notes" d = Ok (JStr (ar_notes r)).
Proof. split_and!; reflexivity. Qed.

Lemma create_allow_rule_run r (w : W) :
  w_db_up w = true →
  existsb (λ x, ar_id x =? uuid4 (w_fresh w)) (w_allow_rules w) = false →
  ∃ rd, create_allow_rule uuid4 (serialise_allow_rule r) w =
        (Ok tt, add_allow rd (imported_allow (uuid4 (w_fresh w)) r) w).
Proof.
  intros Hup Hfresh. unfold create_allow_rule.
  destruct (allow_entry_gets r (JBool false)) as (G1 & G2 & G3 & G4 & D1 & _). rewrite G1, G2, G3, G4, D1.
  destruct (allow_entry_gets r (JStr "")) as (_ & _ & _ & _ & _ & D2 & _ & D4). rewrite D2, D4.
  destruct (allow_entry_gets r (JBool true)) as (_ & _ & _ & _ & _ & _ & D3 & _). rewrite D3.
  clear G1 G2 G3 G4 D1 D2 D3 D4. rewrite !lift_Ok. unfold bind at 1, draw.
  cbn [text_field bool_field res_bind]. rewrite rule_type_reads, match_type_reads. cbn [res_bind].
  rewrite lift_Ok. cbv beta iota.
  rewrite (bind_Ok _ _ _ _ _ (db_read_up _ {| w with w_fresh := S (w_fresh w) |} Hup)). cbn [w_allow_rules].
  rewrite Hfresh. unfold set_allow_rules.
  rewrite (bind_Ok _ _ _ _ _ (db_write_up _ {| w with w_fresh := S (w_fresh w) |} Hup)).
  unfold on_allow_rule_save. match goal with |- context [invalidate_rule_cache ?x] =>
    destruct (invalidate_eq x) as [rd ->] end.
  by exists rd.
Qed.
End Create.

(** ** The loops of the import *)

Fixpoint imported_blocks (uuid4 : nat → Z) (now : Z) (n : nat) (rs : list BlockRule) : list BlockRule :=
  match rs with [] => [] | r :: rs => imported_block now (uuid4 n) r :: imported_blocks uuid4 now (S n) rs end.
Fixpoint imported_allows (uuid4 : nat → Z) (n : nat) (rs : list AllowRule) : list AllowRule :=
  match rs with [] => [] | r :: rs => imported_allow (uuid4 n) r :: imported_allows uuid4 (S n) rs end.

(** No row has an id the generator will still draw. *)
Definition ids_fresh {R P} (uuid4 : nat → Z) (w : World R P) : Prop := ∀ i, (w_fresh w <= i)%nat →
  existsb (λ x, br_id x =? uuid4 i) (w_block_rules w) = false ∧
  existsb (λ x, ar_id x =? uuid4 i) (w_allow_rules w) = false.

Section Loops.
Context {R P : Type} `{RedisClient R} (uuid4 : nat → Z) `{FieldParsersSpec}.
Context (uuid4_inj : ∀ i j, uuid4 i = uuid4 j → i = j).
Abbreviation W := (World R P).
Implicit Types w : W.

Lemma existsb_snoc {A} (p : A → bool) l x : existsb p (l ++ [x]) = existsb p l || p x.
Proof. rewrite existsb_app. cbn. by rewrite orb_false_r. Qed.

Lemma add_block_fresh rd r now w :
  ids_fresh uuid4 w → ids_fresh uuid4 (add_block rd (imported_block now (uuid4 (w_fresh w)) r) w).
Proof.
  intros Hf i Hi. cbn in *. destruct (Hf i ltac:(lia)) as [Hb Ha]. split; [|done].
  rewrite existsb_snoc, Hb. cbn. apply Z.eqb_neq. intros E%uuid4_inj. lia.
Qed.

Lemma add_allow_fresh rd r w :
  ids_fresh uuid4 w → ids_fresh uuid4 (add_allow rd (imported_allow (uuid4 (w_fresh w)) r) w).
Proof.
  intros Hf i Hi. cbn in *. destruct (Hf i ltac:(lia)) as [Hb Ha]. split; [done|].
  rewrite existsb_snoc, Ha. cbn. apply Z.eqb_neq. intros E%uuid4_inj. lia.
Qed.

(** What an import does to everything but Redis. *)
Definition rules_view w := (w_now w, w_db_up w, w_fresh w, w_block_rules w, w_allow_rules w).

Lemma import_entry_created create keys e a b c w w' :
  entry_key e = Ok (JStr a, JStr b, JStr c) → create e w = (Ok tt, w') →
  import_entry (R:=R) (P:=P) false false create keys e w = (Ok (Created (Some (a, b, c))), w').
Proof.
  intros Hk Hc. unfold import_entry. rewrite Hk, lift_Ok. unfold bind at 1, ret at 1.
  by rewrite (bind_Ok _ _ _ _ _ Hc).
Qed.

Lemma import_blocks_run rs keys w :
  Forall (λ r, storable r = true) rs → w_db_up w = true → ids_fresh uuid4 w →
  ∃ w', import_loop false false (create_block_rule uuid4) keys (map serialise_block_rule rs) w
        = (Ok (Z.of_nat (length rs), 0), w') ∧ ids_fresh uuid4 w' ∧
    rules_view w' = (w_now w, true, (w_fresh w + length rs)%nat,
      w_block_rules w ++ imported_blocks uuid4 (w_now w) (w_fresh w) rs, w_allow_rules w).
Proof.
  intros Hst. revert keys w. induction Hst as [|r rs Hr _ IH]; intros keys w Hup Hf; cbn [map import_loop].
  { exists w. split; [done|]. split; [done|]. unfold rules_view. cbn.
    by rewrite app_nil_r, Nat.add_0_r, Hup. }
  destruct (create_block_rule_run uuid4 r w Hr Hup (proj1 (Hf _ (Nat.le_refl _)))) as [rd Hc].
  set (w1 := add_block _ _ _) in Hc.
  assert (Hf1 : ids_fresh uuid4 w1) by (by apply add_block_fresh).
  destruct (IH ((RuleType_value (br_rule_type r), MatchType_value (br_match_type r), br_pattern r) :: keys)
              w1 Hup Hf1) as (w' & Hrun & Hf' & Hv).
  exists w'. split; [|split; [done|]].
  - erewrite bind_Ok by (eapply import_entry_created; [reflexivity|exact Hc]). cbv beta iota.
    rewrite (bind_Ok _ _ _ _ _ Hrun). unfold ret. cbn [fst snd length]. do 3 f_equal. lia.
  - rewrite Hv. cbn. rewrite <- app_assoc. cbn. by rewrite Nat.add_succ_r.
Qed.

Lemma import_allows_run rs keys w :
  w_db_up w = true → ids_fresh uuid4 w →
  ∃ w', import_loop false false (create_allow_rule uuid4) keys (map serialise_allow_rule rs) w
        = (Ok (Z.of_nat (length rs), 0), w') ∧
    rules_view w' = (w_now w, true, (w_fresh w + length rs)%nat, w_block_rules w,
      w_allow_rules w ++ imported_allows uuid4 (w_fresh w) rs).
Proof.
  revert keys w. induction rs as [|r rs IH]; intros keys w Hup Hf; cbn [map import_loop].
  { exists w. split; [done|]. unfold rules_view. cbn. by rewrite app_nil_r, Nat.add_0_r, Hup. }
  destruct (create_allow_rule_run uuid4 r w Hup (proj2 (Hf _ (Nat.le_refl _)))) as [rd Hc].
  set (w1 := add_allow _ _ _) in Hc.
  assert (Hf1 : ids_fresh uuid4 w1) by (by apply add_allow_fresh).
  destruct (IH ((RuleType_value (ar_rule_type r), MatchType_value (ar_match_type r), ar_pattern r) :: keys)
              w1 Hup Hf1) as (w' & Hrun & Hv).
  exists w'. split.
  - erewrite bind_Ok by (eapply import_entry_created; [reflexivity|exact Hc]). cbv beta iota.
    rewrite (bind_Ok _ _ _ _ _ Hrun). unfold ret. cbn [fst snd length]. do 3 f_equal. lia.
  - rewrite Hv. cbn. rewrite <- app_assoc. cbn. by rewrite Nat.add_succ_r.
Qed.

(** [--replace] with the database up. *)
Lemma replace_rules_run w :
  w_db_up w = true →
  ∃ w', replace_rules false w
        = (Ok (Z.of_nat (length (List.filter (λ r, bool_decide (br_source r = RuleSource_ADMIN)) (w_block_rules w)))
               + Z.of_nat (length (w_allow_rules w))), w') ∧
    rules_view w' = (w_now w, true, w_fresh w,
      List.filter (λ r, negb (bool_decide (br_source r = RuleSource_ADMIN))) (w_block_rules w), []).
Proof.
  intros Hup. unfold replace_rules. rewrite (bind_Ok _ _ _ _ _ (db_read_up _ w Hup)).
  rewrite (bind_Ok _ _ _ _ _ (db_read_up _ w Hup)). cbv beta zeta iota.
  set (doomed := List.filter (λ r, bool_decide (br_source r = RuleSource_ADMIN)) (w_block_rules w)).
  set (kept := List.filter (λ r, negb (bool_decide (br_source r = RuleSource_ADMIN))) (w_block_rules w)).
  unfold set_block_rules. set (w1 := {| w with w_block_rules := kept |}).
  assert (Hw1 : db_write (λ w, {| w with w_block_rules := kept |}) w = (Ok tt, w1)) by exact (db_write_up _ w Hup).
  destruct (notify_each_run doomed w1) as [rd1 Hn1]. set (w2 := {| w1 with w_redis := rd1 |}) in *.
  assert (Hw3 : set_allow_rules [] w2 = (Ok tt, {| w2 with w_allow_rules := [] |})) by exact (db_write_up _ w2 Hup).
  set (w3 := {| w2 with w_allow_rules := [] |}) in *.
  destruct (notify_each_run (w_allow_rules w) w3) as [rd2 Hn2].
  eexists. split.
  - erewrite bind_Ok; [reflexivity|]. rewrite (bind_Ok _ _ _ _ _ Hw1).
    unfold on_block_rule_delete, on_allow_rule_delete. rewrite (bind_Ok _ _ _ _ _ Hn1).
    rewrite (bind_Ok _ _ _ _ _ Hw3). exact Hn2.
  - unfold rules_view. cbn. by rewrite Hup.
Qed.
End Loops.


(** ** Imports of any file *)

Section AnyFile.
Context {R P : Type} `{RedisClient R} (uuid4 : nat → Z) `{FieldParsers}.
Abbreviation W := (World R P).
Implicit Types w : W.

Lemma member_value {A} (value : A → string) all s a : member value all s = Some a → value a = s.
Proof. unfold member. intros [_ E]%find_some. by apply bool_decide_eq_true in E. Qed.

Lemma choice_value {A} (value : A → string) all v a : choice_field value all v = Ok a → v = JStr (value a).
Proof.
  unfold choice_field. destruct v; cbn; try done. destruct (member value all s) eqn:E; [|done].
  intros [= ->]. f_equal. symmetry. by apply member_value in E.
Qed.

Lemma text_value v s : text_field v = Ok s → v = JStr s.
Proof. by destruct v; cbn; intros [= ->]. Qed.

Lemma lift_inv {S A} (r : res A) (s : S) a s' : lift_res r s = (Ok a, s') → r = Ok a ∧ s' = s.
Proof. unfold lift_res. by intros [= -> ->]. Qed.

Lemma res_bind_inv {A B} (r : res A) (k : A → res B) b : res_bind r k = Ok b → ∃ a, r = Ok a ∧ k a = Ok b.
Proof. destruct r; [eauto|done]. Qed.

Lemma db_read_inv {A} (f : W → A) w a w' : db_read f w = (Ok a, w') → w_db_up w = true ∧ a = f w ∧ w' = w.
Proof. unfold db_read. destruct (w_db_up w); [|done]. by intros [= -> ->]. Qed.

(** Step through the successful run of a [create]. *)
Ltac run_steps Hc :=
  repeat match type of Hc with
  | bind (lift_res _) _ _ = _ => apply bind_inv_Ok in Hc as (? & ? & [? ->]%lift_inv & Hc)
  | bind (if ?b then lift_res _ else ret None) _ ?s = _ =>
      let s1 := fresh "s" in let Hx := fresh "Hx" in
      apply bind_inv_Ok in Hc as (? & s1 & Hx & Hc);
      assert (s1 = s) as -> by (destruct b; [by apply lift_inv in Hx as [_ ->]|unfold ret in Hx; congruence]);
      clear Hx
  | bind clock _ _ = _ =>
      let Hx := fresh "Hx" in
      apply bind_inv_Ok in Hc as (? & ? & Hx & Hc); unfold clock, gets in Hx; injection Hx as <- <-
  | bind (draw _) _ _ = _ =>
      let Hx := fresh "Hx" in
      apply bind_inv_Ok in Hc as (? & ? & Hx & Hc); unfold draw in Hx; injection Hx as <- <-
  | bind (db_read _) _ ?s = _ =>
      let Hup := fresh "Hup" in
      apply bind_inv_Ok in Hc as (? & ? & [Hup [-> ->]]%db_read_inv & Hc)
  | (if ?b then raise _ else _) _ = _ => destruct b; [done|]
  end.

Lemma entry_key_of e a b c : jget e "rule_type" = Ok a → jget e "match_type" = Ok b → jget e "pattern" = Ok c →
  entry_key e = Ok (a, b, c).
Proof. unfold entry_key. by intros -> -> ->. Qed.

(** The rows an import may add: the tables grow, and hold the entry's key. *)
Lemma create_block_rule_key e w w' :
  create_block_rule uuid4 e w = (Ok tt, w') →
  ∃ row, w_block_rules w' = w_block_rules w ++ [row] ∧ w_allow_rules w' = w_allow_rules w ∧
    w_db_up w' = w_db_up w ∧
    entry_key e = Ok (JStr (block_key row).1.1, JStr (block_key row).1.2, JStr (block_key row).2).
Proof.
  unfold create_block_rule. intros Hc. run_steps Hc. cbn [w_db_up] in Hup.
  match goal with Hr : res_bind (text_field _) _ = Ok ?r |- _ => exists r; rename Hr into Hrow end.
  unfold set_block_rules in Hc. erewrite bind_Ok in Hc by (apply db_write_up; exact Hup).
  unfold on_block_rule_save in Hc.
  match type of Hc with invalidate_rule_cache ?x = _ => destruct (invalidate_eq x) as [rd Hi] end.
  rewrite Hi in Hc. injection Hc as <-. cbn. split_and!; [done|done|done|].
  repeat match type of Hrow with res_bind _ _ = Ok _ =>
    let E := fresh "E" in apply res_bind_inv in Hrow as (? & E & Hrow) end.
  injection Hrow as <-. cbn.
  repeat match goal with
  | E : choice_field _ _ _ = Ok _ |- _ => apply choice_value in E
  | E : text_field _ = Ok _ |- _ => apply text_value in E
  end. subst. by apply entry_key_of.
Qed.

Lemma create_allow_rule_key e w w' :
  create_allow_rule uuid4 e w = (Ok tt, w') →
  ∃ row, w_allow_rules w' = w_allow_rules w ++ [row] ∧ w_block_rules w' = w_block_rules w ∧
    w_db_up w' = w_db_up w ∧
    entry_key e = Ok (JStr (allow_key row).1.1, JStr (allow_key row).1.2, JStr (allow_key row).2).
Proof.
  unfold create_allow_rule. intros Hc. run_steps Hc. cbn [w_db_up] in Hup.
  match goal with Hr : res_bind (text_field _) _ = Ok ?r |- _ => exists r; rename Hr into Hrow end.
  unfold set_allow_rules in Hc. erewrite bind_Ok in Hc by (apply db_write_up; exact Hup).
  unfold on_allow_rule_save in Hc.
  match type of Hc with invalidate_rule_cache ?x = _ => destruct (invalidate_eq x) as [rd Hi] end.
  rewrite Hi in Hc. injection Hc as <-. cbn. split_and!; [done|done|done|].
  repeat match type of Hrow with res_bind _ _ = Ok _ =>
    let E := fresh "E" in apply res_bind_inv in Hrow as (? & E & Hrow) end.
  injection Hrow as <-. cbn.
  repeat match goal with
  | E : choice_field _ _ _ = Ok _ |- _ => apply choice_value in E
  | E : text_field _ = Ok _ |- _ => apply text_value in E
  end. subst. by apply entry_key_of.
Qed.

(** What a [create] promises to the loop: [tbl] lists the keys of its table. *)
Definition creates (tbl : W → list RuleKey) (create : json → M W unit) : Prop := ∀ e w w',
  create e w = (Ok tt, w') →
  ∃ k, tbl w' = tbl w ++ [k] ∧ w_db_up w' = w_db_up w ∧ entry_key e = Ok (JStr k.1.1, JStr k.1.2, JStr k.2).

Definition block_keys w : list RuleKey := map block_key (w_block_rules w).
Definition allow_keys w : list RuleKey := map allow_key (w_allow_rules w).

Lemma creates_blocks : creates block_keys (create_block_rule uuid4).
Proof.
  intros e w w' (row & Hb & _ & Hu & He)%create_block_rule_key. exists (block_key row).
  unfold block_keys. rewrite Hb, map_app. done.
Qed.
Lemma creates_allows : creates allow_keys (create_allow_rule uuid4).
Proof.
  intros e w w' (row & Hb & _ & Hu & He)%create_allow_rule_key. exists (allow_key row).
  unfold allow_keys. rewrite Hb, map_app. done.
Qed.

Definition has_key (keys : list RuleKey) (e : json) : Prop :=
  ∃ k, entry_key e = Ok (JStr k.1.1, JStr k.1.2, JStr k.2) ∧ In k keys.

Lemma key_in_true key keys : key_in key keys = Ok true →
  ∃ k : RuleKey, key = (JStr k.1.1, JStr k.1.2, JStr k.2) ∧ In k keys.
Proof.
  destruct key as [[a b] c]. unfold key_in. destruct (_ || _); [done|].
  destruct a, b, c; try done. intros [= Hk]. apply bool_decide_eq_true, list_elem_of_In in Hk.
  by eexists (_, _, _).
Qed.

Lemma key_in_known k keys : In k keys → key_in (JStr k.1.1, JStr k.1.2, JStr k.2) keys = Ok true.
Proof.
  intros Hk. destruct k as [[a b] c]. cbn. f_equal. apply bool_decide_eq_true. by apply list_elem_of_In.
Qed.

(** One pass of a real import. *)
Lemma import_entry_inv tbl create merge keys e o w w' :
  creates tbl create → (∀ k, In k keys → In k (tbl w)) →
  import_entry merge false create keys e w = (Ok o, w') →
  has_key (tbl w') e ∧ (∀ k, In k (tbl w) → In k (tbl w')) ∧ w_db_up w' = w_db_up w ∧
  match o with
  | Skipped => w' = w
  | Created None => False
  | Created (Some k) => In k (tbl w')
  end.
Proof.
  intros Hspec Hkeys Hrun. unfold import_entry in Hrun.
  apply bind_inv_Ok in Hrun as (key & ? & [Hk ->]%lift_inv & Hrun).
  apply bind_inv_Ok in Hrun as (known & w1 & Hkn & Hrun).
  assert (w1 = w) as -> by (destruct merge; [by apply lift_inv in Hkn as [_ ->]|unfold ret in Hkn; congruence]).
  destruct known.
  - destruct merge; [|unfold ret in Hkn; congruence]. apply lift_inv in Hkn as [Hin _].
    unfold ret in Hrun. injection Hrun as <- <-. apply key_in_true in Hin as (k & -> & Hin).
    split_and!; [exists k; auto|auto|done|done].
  - apply bind_inv_Ok in Hrun as ([] & w2 & Hc & Hrun).
    destruct (Hspec _ _ _ Hc) as (k & Ht & Hu & Hk'). rewrite Hk' in Hk. injection Hk as <-.
    unfold ret in Hrun. injection Hrun as <- <-.
    assert (Hin : In k (tbl w2)) by (rewrite Ht; apply in_app_iff; right; by left).
    split_and!; [by exists k| |done|by destruct k as [[a b] c]].
    intros k' Hk0. rewrite Ht. apply in_app_iff. by left.
Qed.

Lemma import_loop_covers tbl create merge keys es cs w w' :
  creates tbl create → (∀ k, In k keys → In k (tbl w)) →
  import_loop merge false create keys es w = (Ok cs, w') →
  cs.1 + cs.2 = Z.of_nat (length es) ∧ Forall (has_key (tbl w')) es ∧
  (∀ k, In k (tbl w) → In k (tbl w')) ∧ w_db_up w' = w_db_up w.
Proof.
  intros Hspec. revert keys cs w. induction es as [|e es IH]; intros keys cs w Hkeys; cbn [import_loop].
  { unfold ret. intros [= <- <-]. split_and!; [done|constructor|auto|done]. }
  intros Hrun. apply bind_inv_Ok in Hrun as (o & w1 & He & Hrun).
  destruct (import_entry_inv tbl _ _ _ _ _ _ _ Hspec Hkeys He) as (Hk & Hsub & Hu & Ho).
  apply bind_inv_Ok in Hrun as (cs1 & w2 & Hes & Hrun). unfold ret in Hrun. injection Hrun as <- <-.
  assert (Hkeys1 : ∀ k, In k match o with Created (Some k) => k :: keys | _ => keys end → In k (tbl w1)).
  { intros k Hin. destruct o as [|[k0|]]; [auto| |auto]. destruct Hin as [->|Hin]; [done|auto]. }
  destruct (IH _ _ _ Hkeys1 Hes) as (Hn & Hf & Hsub2 & Hu2).
  split_and!; [|constructor; [|done]|auto|congruence].
  - destruct o; cbn [fst snd length]; lia.
  - destruct Hk as (k & He' & Hin). exists k. auto.
Qed.

(** A loop changes the table of its [create] only. *)
Definition keeps {A} (f : W → A) (create : json → M W unit) : Prop := ∀ e w w', create e w = (Ok tt, w') → f w' = f w.

Lemma creates_blocks_only : keeps w_allow_rules (create_block_rule uuid4).
Proof. intros e w w' (row & _ & Ha & _)%create_block_rule_key. done. Qed.
Lemma creates_allows_only : keeps w_block_rules (create_allow_rule uuid4).
Proof. intros e w w' (row & _ & Ha & _)%create_allow_rule_key. done. Qed.

Lemma import_loop_frame {A} (f : W → A) create : keeps f create → ∀ merge keys es cs w w',
  import_loop merge false create keys es w = (Ok cs, w') → f w' = f w.
Proof.
  intros Hf merge keys es. revert keys. induction es as [|e es IH]; intros keys cs w w'; cbn [import_loop].
  { unfold ret. by intros [= _ <-]. }
  intros Hrun. apply bind_inv_Ok in Hrun as (o & w1 & He & Hrun).
  apply bind_inv_Ok in Hrun as (cs1 & w2 & Hes & Hrun). unfold ret in Hrun. injection Hrun as _ <-.
  rewrite (IH _ _ _ _ Hes). unfold import_entry in He.
  apply bind_inv_Ok in He as (key & ? & [_ ->]%lift_inv & He).
  apply bind_inv_Ok in He as (known & w3 & Hkn & He).
  assert (w3 = w) as -> by (destruct merge; [by apply lift_inv in Hkn as [_ ->]|unfold ret in Hkn; congruence]).
  destruct known; [unfold ret in He; by injection He as _ <-|].
  apply bind_inv_Ok in He as ([] & w4 & Hc & He). rewrite <- (Hf _ _ _ Hc).
  destruct key as [[[] []] []]; unfold ret, raise in He; by simplify_eq.
Qed.

(** Entries whose keys are all known are all skipped. *)
Lemma import_loop_known dry create keys es w :
  Forall (has_key keys) es →
  import_loop (R:=R) (P:=P) true dry create keys es w = (Ok (0, Z.of_nat (length es)), w).
Proof.
  induction 1 as [|e es (k & He & Hin) _ IH]; cbn [import_loop]; [done|].
  unfold import_entry. rewrite He, lift_Ok, key_in_known, lift_Ok by done.
  unfold bind at 1, ret at 1. rewrite (bind_Ok _ _ _ _ _ IH). unfold ret. cbn [fst snd length].
  do 3 f_equal. lia.
Qed.

(** A dry run reads only: it keeps any invariant. *)
Lemma import_loop_dry (I : W → Prop) merge create keys es : preserves I (import_loop merge true create keys es).
Proof.
  revert keys. induction es as [|e es IH]; intros keys; cbn [import_loop]; [apply preserves_ret|].
  unfold import_entry. monadic.
Qed.

Lemma import_body_dry (I : W → Prop) merge replace b a : preserves I (import_body uuid4 merge replace true b a).
Proof.
  unfold import_body, replace_rules.
  monadic; try apply on_tables_read; apply import_loop_dry.
Qed.
End AnyFile.

(** After a real import every entry's key is in its table. *)
Lemma import_body_covers {R P} `{RedisClient R} (uuid4 : nat → Z) `{FieldParsers} merge replace b a rep (w w' : World R P) :
  import_body uuid4 merge replace false b a w = (Ok rep, w') →
  ∃ bs al, jiter b = Ok bs ∧ jiter a = Ok al ∧
    Forall (has_key (block_keys w')) bs ∧ Forall (has_key (allow_keys w')) al ∧
    imp_created rep + imp_skipped rep = Z.of_nat (length bs) + Z.of_nat (length al).
Proof.
  unfold import_body. intros Hrun.
  apply bind_inv_Ok in Hrun as (n & w1 & _ & Hrun).
  apply bind_inv_Ok in Hrun as (ks1 & ? & Hk1 & Hrun).
  assert (Hks1 : (∀ k, In k ks1 → In k (block_keys w1)) ∧ x = w1).
  { destruct merge; [|unfold ret in Hk1; injection Hk1 as <- <-; done].
    apply bind_inv_Ok in Hk1 as (? & ? & [_ [-> ->]]%db_read_inv & Hk1). unfold ret in Hk1. by injection Hk1 as <- <-. }
  destruct Hks1 as [Hks1 ->].
  apply bind_inv_Ok in Hrun as (ks2 & ? & Hk2 & Hrun).
  assert (Hks2 : (∀ k, In k ks2 → In k (allow_keys w1)) ∧ x = w1).
  { destruct merge; [|unfold ret in Hk2; injection Hk2 as <- <-; done].
    apply bind_inv_Ok in Hk2 as (? & ? & [_ [-> ->]]%db_read_inv & Hk2). unfold ret in Hk2. by injection Hk2 as <- <-. }
  destruct Hks2 as [Hks2 ->].
  apply bind_inv_Ok in Hrun as (bs & ? & [Hbs ->]%lift_inv & Hrun).
  apply bind_inv_Ok in Hrun as (c1 & w2 & Hl1 & Hrun).
  apply bind_inv_Ok in Hrun as (al & ? & [Hal ->]%lift_inv & Hrun).
  apply bind_inv_Ok in Hrun as (c2 & w3 & Hl2 & Hrun). unfold ret in Hrun. injection Hrun as <- <-.
  destruct (import_loop_covers _ _ _ _ _ _ _ _ (creates_blocks uuid4) Hks1 Hl1) as (Hn1 & Hf1 & _ & _).
  pose proof (import_loop_frame _ _ (creates_blocks_only uuid4) _ _ _ _ _ _ Hl1) as Hfr1.
  assert (Hks2' : ∀ k, In k ks2 → In k (allow_keys w2)) by (unfold allow_keys in *; by rewrite Hfr1).
  destruct (import_loop_covers _ _ _ _ _ _ _ _ (creates_allows uuid4) Hks2' Hl2) as (Hn2 & Hf2 & _ & _).
  pose proof (import_loop_frame _ _ (creates_allows_only uuid4) _ _ _ _ _ _ Hl2) as Hfr2.
  exists bs, al. split_and!; [done|done| |done|cbn; lia].
  unfold block_keys in *. by rewrite Hfr2.
Qed.

Lemma with_tables_of_same {R P} (w : World R P) : with_tables_of w w = w.
Proof. by destruct w. Qed.

Lemma filter_true {A} (l : list A) : List.filter (λ _, true) l = l.
Proof. induction l as [|x l IH]; cbn; [done|]. by rewrite IH. Qed.

(** ** Parsers that meet the laws *)

Definition midnight : string := "T00:00:00+00:00".

Definition demo_parsers : FieldParsers :=
  {| parse_datetime s := Ok (fromisoformat s);
     parse_date s := match fromisoformat (s +:+ midnight) with Some t => Ok (t / day_us) | None => Raise ValueError end;
     parse_decimal s := match partition_on "." s with
       | (a, Some b) => match py_int a, take_digits 2 0 b with
                        | Some x, Some (y, "") => Ok (100 * x + y)
                        | _, _ => Raise ValueError
                        end
       | _ => Raise ValueError
       end |}.

Lemma pad_digits_app n z a b : pad_digits n z (a +:+ b) = pad_digits n z a +:+ b.
Proof. revert z a. induction n as [|n IH]; intros z a; [done|]. cbn [pad_digits]. apply (IH _ (String _ a)). Qed.

Lemma isoformat_midnight d : isoformat (d * day_us) = date_isoformat d +:+ midnight.
Proof.
  unfold isoformat, date_isoformat. rewrite Z.div_mul, Z.mod_mul by done.
  destruct (civil_of_days d) as [[y m] dd].
  change (pad_digits 2 (0 / usec / 3600) _) with (String "0" (String "0" ":00:00+00:00")).
  change (String "T" _) with midnight.
  rewrite <- pad_digits_app. cbn [append]. rewrite <- pad_digits_app. cbn [append].
  by rewrite <- pad_digits_app.
Qed.

Lemma demo_parsers_spec : @FieldParsersSpec demo_parsers.
Proof.
  split; cbn [parse_datetime parse_date parse_decimal demo_parsers].
  - intros t Ht. by rewrite fromisoformat_isoformat.
  - intros d Hd. rewrite <- isoformat_midnight, fromisoformat_isoformat by done. by rewrite Z.div_mul.
  - intros c Hc. unfold decimal_str. change ("." +:+ ?x) with (String "." x).
    rewrite partition_on_app by (by apply str_of_Z_no_char). rewrite py_int_str_of_Z.
    rewrite take_pad by (apply Z.mod_pos_bound; done). f_equal. pose proof (Z.div_mod c 100 ltac:(done)). lia.
Qed.

(** ** Deduplication *)

Lemma newest_total x y : newest_first x y = false → newest_first y x = true.
Proof. unfold newest_first. rewrite Z.leb_gt, Z.leb_le. lia. Qed.
Lemma newest_trans x y z : newest_first x y = true → newest_first y z = true → newest_first x z = true.
Proof. unfold newest_first. rewrite !Z.leb_le. lia. Qed.

Definition newest_group (k : RuleType * string * RuleAction) (rows : list BlockRule) : list BlockRule :=
  sort_by newest_first (key_group k rows).

Lemma newest_group_In k rows r : In r (newest_group k rows) ↔ In r rows ∧ auto_key r = Some k.
Proof. unfold newest_group, key_group. by rewrite sort_by_In, filter_In, bool_decide_eq_true. Qed.

Lemma NoDup_ids_inj rows r1 r2 :
  NoDup (map br_id rows) → In r1 rows → In r2 rows → br_id r1 = br_id r2 → r1 = r2.
Proof. apply NoDup_key_inj. Qed.

Lemma newest_group_NoDup k rows : NoDup (map br_id rows) → NoDup (newest_group k rows).
Proof.
  intros Hnd. unfold newest_group. rewrite (sort_by_perm newest_first). apply filter_NoDup.
  by eapply NoDup_fmap_1.
Qed.

(** What stays: the rules without a key, and the newest of each key. *)
Lemma dedupe_In rows r : NoDup (map br_id rows) →
  In r (dedupe_auto_block_rules rows) ↔
  In r rows ∧ ∀ k, auto_key r = Some k → hd_error (newest_group k rows) = Some r.
Proof.
  intros Hnd. unfold dedupe_auto_block_rules. rewrite filter_In, negb_true_iff, bool_decide_eq_false.
  rewrite list_elem_of_In, in_flat_map. split; intros [Hr Hk]; (split; [done|]).
  - intros k Ek. destruct (newest_group k rows) as [|h t] eqn:Eg.
    { assert (Hin : In r []) by (rewrite <- Eg; by apply newest_group_In). done. }
    assert (Hin : In r (h :: t)) by (rewrite <- Eg; by apply newest_group_In).
    destruct Hin as [->|Hin]; [done|]. exfalso. apply Hk. exists k. split.
    + apply filter_In. split.
      * apply list_elem_of_In, elem_of_remove_dups, list_elem_of_omap. exists r. by rewrite list_elem_of_In.
      * apply Nat.ltb_lt. rewrite <- (Permutation_length (sort_by_perm newest_first (key_group k rows))).
        fold (newest_group k rows). rewrite Eg. destruct t; [done|cbn; lia].
    + fold (newest_group k rows). rewrite Eg. by apply in_map.
  - intros (k & _ & (r' & Eid & Hin)%in_map_iff). fold (newest_group k rows) in Hin.
    destruct (newest_group k rows) as [|h t] eqn:Eg; [done|]. cbn in Hin.
    assert (Hr' : In r' rows ∧ auto_key r' = Some k) by (apply newest_group_In; rewrite Eg; by right).
    destruct Hr' as [Hr' Ek]. assert (r' = r) as -> by (by eapply NoDup_ids_inj).
    specialize (Hk k Ek). rewrite Eg in Hk. injection Hk as ->.
    pose proof (newest_group_NoDup k rows Hnd) as Hn. rewrite Eg in Hn.
    apply NoDup_cons in Hn as [Hn _]. apply Hn. by apply list_elem_of_In.
Qed.

Lemma omap_key_NoDup rows :
  NoDup rows → (∀ r1 r2 k, In r1 rows → In r2 rows → auto_key r1 = Some k → auto_key r2 = Some k → r1 = r2) →
  NoDup (omap auto_key rows).
Proof.
  induction rows as [|r rows IH]; intros Hnd Huniq; cbn; [apply NoDup_nil_2|].
  apply NoDup_cons in Hnd as [Hni Hnd].
  assert (IH' : NoDup (omap auto_key rows)) by (apply IH; [done|]; intros; eapply Huniq; eauto; by right).
  destruct (auto_key r) as [k|] eqn:Ek; [|done]. apply NoDup_cons. split; [|done].
  intros (r' & Hr' & Ek')%list_elem_of_omap. apply Hni.
  rewrite list_elem_of_In in Hr'.
  rewrite (Huniq r r' k (or_introl eq_refl) (or_intror Hr') Ek Ek'). by apply list_elem_of_In.
Qed.

Lemma group_newest k rows r : In r rows → auto_key r = Some k →
  ∃ r', hd_error (newest_group k rows) = Some r' ∧ auto_key r' = Some k ∧ In r' rows ∧
    br_created_at r <= br_created_at r'.
Proof.
  intros Hr Hk. assert (Hin : In r (newest_group k rows)) by (by apply newest_group_In).
  pose proof (sort_by_sorted newest_first newest_total newest_trans (key_group k rows)) as Hs.
  fold (newest_group k rows) in Hs. destruct (newest_group k rows) as [|h t] eqn:Eg; [done|].
  assert (Hh : In h rows ∧ auto_key h = Some k) by (apply newest_group_In; rewrite Eg; by left).
  exists h. split_and!; [done|apply Hh|apply Hh|]. destruct Hin as [->|Hin]; [lia|].
  inversion Hs as [|? ? _ Hall]; subst. rewrite List.Forall_forall in Hall. specialize (Hall _ Hin).
  unfold ordered, newest_first in Hall. by apply Z.leb_le.
Qed.

(** ** The rule cache of a worker that is up to date *)

Lemma on_redis_fst {R P A} (m : Z → M R A) (w : World R P) : (on_redis m w).1 = (m (w_now w) (w_redis w)).1.
Proof. unfold on_redis. by destruct (m _ _). Qed.

Lemma load_rule_cache_current {R P} `{RedisClient R} `{ReEngine P} c (w : World R P) :
  w_process_cache w = Some c →
  (redis_get (w_now w) RULES_VERSION_KEY (w_redis w)).1 = Ok (Some (str_of_Z (w_process_cache_version w))) →
  (load_rule_cache w).1 = Ok c.
Proof.
  intros Hc Hv. unfold load_rule_cache, get_key. unfold bind at 1, on_redis at 1.
  destruct (redis_get _ _ _) as [r rd]. cbn in Hv. subst r. cbv beta iota.
  rewrite str_empty_false by (by intros E; apply (f_equal py_int) in E; rewrite py_int_str_of_Z in E).
  rewrite py_int_str_of_Z, lift_Ok. unfold bind at 1, gets. cbn [w_process_cache w_process_cache_version].
  rewrite Hc, Z.eqb_refl. done.
Qed.

Lemma map_untouched {A} (f : A → A) l : (∀ x, In x l → f x = x) → map f l = l.
Proof. intros Hf. induction l as [|x l IH]; [done|]. cbn. rewrite Hf by (by left). f_equal. apply IH. intros; apply Hf; by right. Qed.

(** ** Properties *)

Module RuleTransferProps.

Section Props.
Context {R P : Type} `{RedisClient R} (uuid4 : nat → Z) `{FieldParsers}.
Abbreviation W := (World R P).

(** A dry run writes nothing.  Whatever the file holds and whatever the
    mode, [--dry-run] leaves the whole state as it was: tables, Redis, and the
    process caches. *)
Lemma import_dry_run_writes_nothing file merge replace (w : W) :
  (import_rules uuid4 file merge replace true w).2 = w.
Proof.
  assert (Hp : preserves (λ s, s = w) (import_rules uuid4 file merge replace true)); [|by apply Hp].
  unfold import_rules. monadic.
  match goal with |- preserves _ (atomic true (import_body _ ?m ?r true ?b ?al)) =>
    pose proof (import_body_dry uuid4 (λ s, s = w) m r b al w eq_refl) as Hb end.
  intros s ->. unfold atomic. destruct (import_body _ _ _ _ _ _ _) as [[rep|x] w']; cbn in *; subst w';
    apply with_tables_of_same.
Qed.

(** An import that fails leaves the rules alone: the transaction covers the
    deletions of [--replace] and every creation. *)
Lemma failed_import_changes_no_rule file merge replace dry_run e (w w' : W) :
  import_rules uuid4 file merge replace dry_run w = (Raise e, w') →
  w_block_rules w' = w_block_rules w ∧ w_allow_rules w' = w_allow_rules w.
Proof.
  unfold import_rules. destruct (merge && replace); [unfold raise; by intros [= _ <-]|].
  intros Hrun. destruct file as [text|x].
  2:{ revert Hrun. unfold bind. destruct (bool_decide _); unfold raise; by intros [= _ <-]. }
  unfold bind at 1, ret at 1 in Hrun. destruct (loads text) as [payload|]; [|unfold raise in Hrun; by injection Hrun as _ <-].
  unfold bind at 1, lift_res in Hrun. destruct (jget_default _ _ _) as [b|]; [|by injection Hrun as _ <-].
  unfold bind at 1 in Hrun. destruct (jget_default _ _ _) as [a|]; [|by injection Hrun as _ <-].
  unfold atomic in Hrun. destruct (import_body _ _ _ _ _ _ _) as [[rep|y] w1]; [done|].
  by injection Hrun as _ <-.
Qed.

(** The body of an import that returned. *)
Lemma import_rules_inv text merge replace rep (w w' : W) :
  import_rules uuid4 (Ok text) merge replace false w = (Ok rep, w') →
  ∃ payload b a, loads text = Some payload ∧
    jget_default payload "block_rules" (JArr []) = Ok b ∧ jget_default payload "allow_rules" (JArr []) = Ok a ∧
    import_body uuid4 (merge || negb replace) replace false b a w = (Ok rep, w').
Proof.
  unfold import_rules. destruct (merge && replace); [done|]. unfold bind at 1, ret at 1.
  destruct (loads text) as [payload|]; [|done]. intros Hrun.
  apply bind_inv_Ok in Hrun as (b & ? & [Hb ->]%lift_inv & Hrun).
  apply bind_inv_Ok in Hrun as (a & ? & [Ha ->]%lift_inv & Hrun).
  exists payload, b, a. split_and!; [done|done|done|]. unfold atomic in Hrun.
  by destruct (import_body _ _ _ _ _ _ _) as [[x|y] w1].
Qed.

(** Importing a file again adds nothing.  After an import of any file,
    in either mode, an import of the same file in the default mode creates
    nothing, skips every entry of the file, and leaves the state as it was. *)
Lemma import_again_adds_nothing text merge replace rep (w w' : W) :
  import_rules uuid4 (Ok text) merge replace false w = (Ok rep, w') → w_db_up w' = true →
  ∀ dry_run, import_rules uuid4 (Ok text) true false dry_run w' =
    (Ok {| imp_created := 0; imp_skipped := imp_created rep + imp_skipped rep; imp_replaced := 0 |}, w').
Proof.
  intros (payload & b & a & Hl & Hb & Ha & Hbody)%import_rules_inv Hup dry_run.
  destruct (import_body_covers _ _ _ _ _ _ _ _ Hbody) as (bs & al & Hbs & Hal & Hfb & Hfa & Hn).
  unfold import_rules. cbn [andb orb negb]. unfold bind at 1, ret at 1. rewrite Hl, Hb, Ha, !lift_Ok.
  assert (Hrun : import_body uuid4 true false dry_run b a w' =
    (Ok {| imp_created := 0; imp_skipped := imp_created rep + imp_skipped rep; imp_replaced := 0 |}, w')).
  { unfold import_body. unfold bind at 1, ret at 1.
    erewrite bind_Ok by (rewrite (bind_Ok _ _ _ _ _ (db_read_up _ w' Hup)); reflexivity).
    erewrite bind_Ok by (rewrite (bind_Ok _ _ _ _ _ (db_read_up _ w' Hup)); reflexivity).
    rewrite Hbs, lift_Ok. rewrite (bind_Ok _ _ _ _ _ (import_loop_known dry_run _ _ bs w' Hfb)).
    rewrite Hal, lift_Ok. rewrite (bind_Ok _ _ _ _ _ (import_loop_known dry_run _ _ al w' Hfa)).
    unfold ret. by rewrite Hn. }
  unfold atomic. rewrite Hrun. destruct dry_run; [by rewrite with_tables_of_same|done].
Qed.
End Props.

(** C28: The transfer round trip.  Exporting every rule of one site and
    importing the file with [--replace] into another gives the second site
    exactly these rules: each block rule with its name, type, pattern, action,
    priority, activity, expiry, confidence, feed data, notes and review status,
    now hand-made and without hits; each allow rule with its pattern and its
    reverse-DNS gate, but always permanent.  The automatic and feed rules the
    second site had stay, its own hand-made rules and all its allow rules are
    gone. *)
Theorem export_import_round_trip {R1 P1 R P} `{RedisClient R} (uuid4 : nat → Z) `{FieldParsersSpec}
    (site1 : World R1 P1) text (site2 : World R P) :
  (∀ i j, uuid4 i = uuid4 j → i = j) → ids_fresh uuid4 site2 → w_db_up site2 = true →
  Forall (λ r, storable r = true) (w_block_rules site1) →
  (export_rules KAll None site1).1 = Ok text →
  let blocks := sort_by meta_order (w_block_rules site1) in
  let allows := by_name (w_allow_rules site1) in
  let kept := List.filter (λ r, negb (bool_decide (br_source r = RuleSource_ADMIN))) (w_block_rules site2) in
  ∃ rep site2', import_rules uuid4 (Ok text) false true false site2 = (Ok rep, site2') ∧
    imp_created rep = Z.of_nat (length blocks) + Z.of_nat (length allows) ∧ imp_skipped rep = 0 ∧
    w_block_rules site2' = kept ++ imported_blocks uuid4 (w_now site2) (w_fresh site2) blocks ∧
    w_allow_rules site2' = imported_allows uuid4 (w_fresh site2 + length blocks) allows.
Proof.
  intros Hinj Hfresh Hup Hst Hexp blocks allows kept.
  assert (Htext : text = dumps_indent (export_payload (w_now site1) KAll None (w_block_rules site1) (w_allow_rules site1))).
  { unfold export_rules in Hexp. destruct (w_db_up site1) eqn:Hup1.
    - rewrite (bind_Ok _ _ _ _ _ (db_read_up _ site1 Hup1)), (bind_Ok _ _ _ _ _ (db_read_up _ site1 Hup1)) in Hexp.
      symmetry. exact (f_equal (λ r, match r with Ok x => x | Raise _ => text end) Hexp).
    - unfold bind, db_read in Hexp. by rewrite Hup1 in Hexp. }
  assert (Hblocks : Forall (λ r, storable r = true) blocks).
  { rewrite List.Forall_forall in *. intros r Hr. apply Hst. unfold blocks in Hr. by apply sort_by_In in Hr. }
  destruct (replace_rules_run site2 Hup) as (w1 & Hrep & Hv1).
  unfold rules_view in Hv1. injection Hv1 as Hn1 Hu1 Hf1 Hb1 Ha1.
  assert (Hfresh1 : ids_fresh uuid4 w1).
  { intros i Hi. rewrite Hf1 in Hi. destruct (Hfresh i Hi) as [Hb _]. rewrite Hb1, Ha1. split; [|done].
    rewrite existsb_false_iff in *. intros x [Hx _]%filter_In. by apply Hb. }
  destruct (import_blocks_run uuid4 Hinj blocks [] w1 Hblocks Hu1 Hfresh1) as (w2 & Hrun2 & Hfresh2 & Hv2).
  unfold rules_view in Hv2. injection Hv2 as Hn2 Hu2 Hf2 Hb2 Ha2.
  destruct (import_allows_run uuid4 Hinj allows [] w2 Hu2 Hfresh2) as (w3 & Hrun3 & Hv3).
  unfold rules_view in Hv3. injection Hv3 as Hn3 Hu3 Hf3 Hb3 Ha3.
  eexists _, w3. split_and!.
  - unfold import_rules. cbn [andb orb negb]. unfold bind at 1, ret at 1. rewrite Htext, loads_dumps_indent.
    change (jget_default _ "block_rules" _) with (Ok (JArr (map serialise_block_rule
      (sort_by meta_order (List.filter (λ _, true) (w_block_rules site1)))))).
    change (jget_default _ "allow_rules" _) with (Ok (JArr (map serialise_allow_rule allows))).
    rewrite filter_true. fold blocks. rewrite !lift_Ok. unfold atomic, import_body.
    rewrite (bind_Ok _ _ _ _ _ Hrep). unfold bind at 1, ret at 1. unfold bind at 1, ret at 1.
    cbn [jiter]. rewrite lift_Ok, (bind_Ok _ _ _ _ _ Hrun2), lift_Ok, (bind_Ok _ _ _ _ _ Hrun3).
    unfold ret. reflexivity.
  - done.
  - done.
  - rewrite Hb3, Hb2, Hb1, Hn1, Hf1. done.
  - rewrite Ha3, Ha2, Ha1, Hf2, Hf1. done.
Qed.

(** The migration makes the constraint hold.  On a table with distinct
    ids, [dedupe_auto_block_rules] leaves at most one automatic rule per
    (type, pattern, action), as the unique constraint added next requires;
    every rule that is not automatic stays; and each automatic rule is still
    represented, by a rule of its key at least as new. *)
Lemma dedupe_establishes_constraint rows :
  NoDup (map br_id rows) →
  auto_keys_unique (dedupe_auto_block_rules rows) ∧
  (∀ r, In r rows → auto_key r = None → In r (dedupe_auto_block_rules rows)) ∧
  (∀ r k, In r rows → auto_key r = Some k →
     ∃ r', In r' (dedupe_auto_block_rules rows) ∧ auto_key r' = Some k ∧ br_created_at r <= br_created_at r').
Proof.
  intros Hnd. split; [|split].
  - apply omap_key_NoDup; [apply filter_NoDup; by eapply NoDup_fmap_1|]. intros r1 r2 k H1 H2 Hk1 Hk2.
    apply dedupe_In in H1 as [Hr1 H1]; [|done]. apply dedupe_In in H2 as [Hr2 H2]; [|done].
    specialize (H1 k Hk1). specialize (H2 k Hk2). congruence.
  - intros r Hr Hk. apply dedupe_In; [done|]. split; [done|]. congruence.
  - intros r k Hr Hk. destruct (group_newest k rows r Hr Hk) as (r' & Hh & Hk' & Hr' & Hle).
    exists r'. split_and!; [|done|done]. apply dedupe_In; [done|]. split; [done|]. intros k2 Hk2.
    by assert (k2 = k) as -> by congruence.
Qed.

(** An unblocked address stays blocked in running workers.
    [django_waf_unblock] deactivates exactly the active rules of the pattern,
    but does so without the signal that announces a rule change: Redis and the
    process caches are untouched, so a worker whose rule cache was current
    still serves the rules it had. *)
Lemma unblock_is_not_announced {R P} `{RedisClient R} `{ReEngine P} (pattern : string) n (w w' : World R P) c :
  unblock_command pattern false w = (Ok n, w') →
  w_process_cache w = Some c →
  (get_key RULES_VERSION_KEY w).1 = Ok (Some (str_of_Z (w_process_cache_version w))) →
  w_block_rules w' = map (λ r, if bool_decide (br_pattern r = strip pattern) && br_is_active r
                               then {| r with br_is_active := false |} else r) (w_block_rules w) ∧
  w_redis w' = w_redis w ∧ (load_rule_cache w').1 = Ok c.
Proof.
  intros Hrun Hc Hv. assert (Hw : w' = {| w with w_block_rules := map (λ r,
    if bool_decide (br_pattern r = strip pattern) && br_is_active r
    then {| r with br_is_active := false |} else r) (w_block_rules w) |}).
  { unfold unblock_command in Hrun. apply bind_inv_Ok in Hrun as (rows & ? & [Hup [-> ->]]%db_read_inv & Hrun).
    cbv zeta in Hrun. destruct (_ =? 0) eqn:En.
    - unfold ret in Hrun. injection Hrun as _ <-. apply Z.eqb_eq in En.
      destruct (List.filter _ _) eqn:Ef; [|cbn in En; lia].
      rewrite map_untouched; [by destruct w|]. intros r Hr.
      destruct (bool_decide (br_pattern r = strip pattern) && br_is_active r) eqn:E; [|done].
      assert (Hin : In r []) by (rewrite <- Ef; by apply filter_In). done.
    - unfold set_block_rules in Hrun. rewrite (bind_Ok _ _ _ _ _ (db_write_up _ w Hup)) in Hrun.
      unfold ret in Hrun. by injection Hrun as _ <-. }
  subst w'. split; [done|]. split; [done|]. apply load_rule_cache_current; [done|].
  unfold get_key in Hv. by rewrite on_redis_fst in Hv.
Qed.

(** *** Witnesses *)

Definition rule_on (id : Z) (source : RuleSource) (action : RuleAction) (pattern : string) (created : Z) : BlockRule :=
  {| br_id := id; br_name := "r"; br_rule_type := RuleType_IP; br_match_type := MatchType_EXACT;
     br_pattern := pattern; br_action := action; br_priority := 100; br_is_active := true; br_source := source;
     br_expires_at := Some (1700000000 * usec); br_hit_count := 3; br_last_hit_at := None; br_confidence := 85;
     br_feed_first_seen := Some 19000; br_feed_reporters := 2; br_notes := "line 1"; br_review_status := PENDING_REVIEW;
     br_reviewed_at := None; br_detectors := "detect_ua_rotation"; br_created_at := created; br_updated_at := created |}.

Definition partner : AllowRule :=
  {| ar_id := 9; ar_name := "Partner"; ar_rule_type := RuleType_IP; ar_match_type := MatchType_EXACT;
     ar_pattern := "198.51.100.7"; ar_verify_rdns := false; ar_rdns_pattern := ""; ar_is_active := true;
     ar_source := RuleSource_ADMIN; ar_expires_at := Some (1600000000 * usec); ar_confidence := 100;
     ar_feed_first_seen := None; ar_feed_reporters := 0; ar_notes := "" |}.

Definition site_of (blocks : list BlockRule) (allows : list AllowRule) : World MemRedis LiteRe :=
  let w := AutoRuleProps.sample_world blocks [] in {| w with w_allow_rules := allows |}.

(** One address challenged by the detectors and blocked by hand, and an allow
    rule that expired long ago. *)
Definition old_site := site_of
  [rule_on 1 RuleSource_AUTO RuleAction_CHALLENGE "192.0.2.1" 5; rule_on 2 RuleSource_ADMIN RuleAction_BLOCK "192.0.2.1" 4]
  [partner].
Definition new_site := site_of
  [rule_on 501 RuleSource_FEED RuleAction_BLOCK "203.0.113.5" 5; rule_on 502 RuleSource_ADMIN RuleAction_BLOCK "203.0.113.6" 4] [].

Definition next_id (n : nat) : Z := 1000 + Z.of_nat n.
Definition old_export : string := match (export_rules KAll None old_site).1 with Ok t => t | Raise _ => "" end.
Definition import_demo := import_rules (R:=MemRedis) (P:=LiteRe) (H0:=demo_parsers) next_id (Ok old_export).

Lemma fresh_new_site : ids_fresh next_id new_site.
Proof.
  intros i _. split; [|reflexivity]. apply existsb_false_iff.
  intros x [<-|[<-|[]]]; apply Z.eqb_neq; unfold next_id; cbn [br_id rule_on]; lia.
Qed.

Lemma export_import_round_trip_witness :
  ∃ rep site', import_demo false true false new_site = (Ok rep, site') ∧ imp_created rep = 3 ∧
    map br_source (w_block_rules site') = [RuleSource_FEED; RuleSource_ADMIN; RuleSource_ADMIN] ∧
    map ar_expires_at (w_allow_rules site') = [None].
Proof.
  pose proof (@export_import_round_trip MemRedis LiteRe MemRedis LiteRe _ next_id demo_parsers demo_parsers_spec
    old_site old_export new_site) as T. cbv zeta in T.
  specialize (T ltac:(unfold next_id; lia) fresh_new_site eq_refl).
  specialize (T ltac:(repeat (apply List.Forall_cons; [vm_compute; reflexivity|]); apply List.Forall_nil)).
  specialize (T ltac:(vm_compute; reflexivity)).
  destruct T as (rep & site' & Hr & Hc & _ & Hb & Ha). exists rep, site'.
  split; [exact Hr|]. split; [rewrite Hc; vm_compute; reflexivity|].
  split; [rewrite Hb; vm_compute; reflexivity|rewrite Ha; vm_compute; reflexivity].
Defined.

Lemma import_again_adds_nothing_witness :
  match import_demo false false false new_site with
  | (Ok rep, w') => ∀ dry, import_demo true false dry w'
      = (Ok {| imp_created := 0; imp_skipped := imp_created rep + imp_skipped rep; imp_replaced := 0 |}, w')
  | _ => False
  end.
Proof.
  assert (Ht : match import_demo false false false new_site with (Ok rep, w') => w_db_up w' = true | _ => False end)
    by (vm_compute; reflexivity).
  destruct (import_demo false false false new_site) as [[rep|e] w'] eqn:E; [|destruct Ht].
  unfold import_demo in *. exact (import_again_adds_nothing next_id old_export false false rep new_site w' E Ht).
Defined.

(** The default mode, on the same file: its key ignores the action, so of the
    two rules of the address only the first arrives, still pending review; a
    dry run announces both. *)
Example merge_ignores_the_action :
  match import_demo true false false new_site, import_demo true false true new_site with
  | (Ok real, w'), (Ok dry, _) =>
      imp_created real = 2 ∧ imp_skipped real = 1 ∧ imp_created dry = 3 ∧
      map (λ r, (br_action r, br_source r, br_review_status r))
          (List.filter (λ r, bool_decide (br_pattern r = "192.0.2.1")) (w_block_rules w'))
      = [(RuleAction_CHALLENGE, RuleSource_ADMIN, PENDING_REVIEW)]
  | _, _ => False
  end.
Proof. vm_compute. done. Qed.

Definition duplicated : list BlockRule :=
  [rule_on 1 RuleSource_AUTO RuleAction_BLOCK "192.0.2.1" 5; rule_on 2 RuleSource_AUTO RuleAction_BLOCK "192.0.2.1" 8;
   rule_on 3 RuleSource_ADMIN RuleAction_BLOCK "192.0.2.1" 4; rule_on 4 RuleSource_ADMIN RuleAction_BLOCK "192.0.2.1" 4].

Lemma dedupe_establishes_constraint_witness :
  map br_id (dedupe_auto_block_rules duplicated) = [2; 3; 4] ∧
  auto_keys_unique (dedupe_auto_block_rules duplicated).
Proof.
  split; [vm_compute; reflexivity|].
  assert (Hnd : NoDup (map br_id duplicated)) by (apply (bool_decide_unpack _); vm_compute; exact I).
  exact (proj1 (dedupe_establishes_constraint duplicated Hnd)).
Defined.

(** A worker whose cache is current when the operator unblocks the address. *)
Definition serving : World MemRedis LiteRe :=
  {| {| {| {| old_site with w_redis := {| mem := {[RULES_VERSION_KEY := {| e_val := VString "4"; e_exp := None |}]} |} |}
     with w_process_cache := Some {| rc_version := 4; rc_allow_rules := []; rc_block_rules := [JStr "192.0.2.1"]; rc_ua_regex_set := [] |} |}
     with w_process_cache_version := 4 |} with w_allow_rules := [] |}.

Lemma unblock_is_not_announced_witness :
  match unblock_command " 192.0.2.1 " false serving with
  | (Ok n, w') => n = 2 ∧ map br_is_active (w_block_rules w') = [false; false] ∧
                  rc_block_rules <$> match (load_rule_cache w').1 with Ok c => Some c | _ => None end = Some [JStr "192.0.2.1"]
  | _ => False
  end.
Proof.
  destruct (unblock_command " 192.0.2.1 " false serving) as [[n|e] w'] eqn:E.
  2:{ assert (Hx : is_Ok (unblock_command " 192.0.2.1 " false serving).1 = true) by (vm_compute; reflexivity).
      rewrite E in Hx. discriminate Hx. }
  destruct (unblock_is_not_announced " 192.0.2.1 " n serving w' _ E eq_refl ltac:(vm_compute; reflexivity))
    as (Hb & _ & Hc).
  split; [assert (Hn : (unblock_command " 192.0.2.1 " false serving).1 = Ok 2) by (vm_compute; reflexivity);
          rewrite E in Hn; injection Hn as ->; reflexivity|].
  split; [rewrite Hb; vm_compute; reflexivity|]. rewrite Hc. reflexivity.
Defined.
End RuleTransferProps.
