(* ===== verification/FlushProbe.v ===== *)
(** * The flush probe ([services/flush_probe.py])

    One hit is recorded by the rule engine's [_record_rule_hit] and flushed by
    [flush_rule_hit_counts], for a rule that exists only inside a transaction
    that is rolled back; the real counters the flush swept up are put back.
    Producer and consumer are the definitions of [RuleEngine] and [Tasks]. *)

From Stdlib Require Import ZArith QArith Lia Ascii String.
From stdpp Require Import base tactics option list strings numbers gmap.
From S2P Require Import Prelude PyStr Codec Regex Conf Redis Models AutoRule RuleEngine Detectors Tasks.

Open Scope Z_scope.

Definition PROBE_PATTERN : string := "203.0.113.77".
Definition REDIS_HIT_PREFIX : string := "waf:rule_hits:".
Definition HIT_COUNTER_TTL_SECONDS : Z := 86400 * 2.

(** Why a probe is not alive. *)
Inductive ProbeFailure : Type :=
| NoConnection (e : exn)
| NotApplied (delta : Z)
| KeyStillPresent.

Record FlushProbeReport : Type := {
  fp_alive : bool;
  fp_flushed : Z;
  fp_keys_seen : Z;
  fp_errors : Z;
  fp_hit_count_delta : Z;
  fp_key_deleted : bool;
  fp_failure_reason : option ProbeFailure;
}.

(** [_failure_result]. *)
Definition failure_result (reason : ProbeFailure) : FlushProbeReport :=
  {| fp_alive := false; fp_flushed := 0; fp_keys_seen := 0; fp_errors := 0; fp_hit_count_delta := 0;
     fp_key_deleted := false; fp_failure_reason := Some reason |}.

(** The outcome of a call as a value, for a [finally] that inspects it. *)
Definition attempt {S A} (m : M S A) : M S (res A) := λ s, match m s with (r, s') => (Ok r, s') end.

Section Probe.
Context {R P : Type} `{RedisClient R} (uuid4 : nat → Z).
Abbreviation W := (World R P).

(** The synthetic rule. *)
Definition probe_rule (t id : Z) : BlockRule :=
  {| br_id := id; br_name := "django-waf flush probe (synthetic, rolled back)"; br_rule_type := RuleType_IP;
     br_match_type := MatchType_EXACT; br_pattern := PROBE_PATTERN; br_action := RuleAction_LOG_ONLY;
     br_priority := 100; br_is_active := false; br_source := RuleSource_ADMIN; br_expires_at := None;
     br_hit_count := 0; br_last_hit_at := None; br_confidence := 100; br_feed_first_seen := None;
     br_feed_reporters := 0; br_notes := ""; br_review_status := NOT_APPLICABLE; br_reviewed_at := None;
     br_detectors := ""; br_created_at := t; br_updated_at := t |}.

Definition create_probe_rule : M W Z :=
  t <- clock ;;
  id <- draw uuid4 ;;
  rows <- db_read w_block_rules ;;
  if existsb (λ r, br_id r =? id) rows then raise IntegrityError else
  set_block_rules (rows ++ [probe_rule t id]) ;;;
  on_block_rule_save ;;;
  ret id.

(** [_snapshot_other_keys]: a key that cannot be read is left out. *)
Fixpoint snapshot_keys (exclude_key : string) (keys : list string) : M W (list (string * string)) :=
  match keys with
  | [] => ret []
  | key :: keys =>
      if bool_decide (key = exclude_key) then snapshot_keys exclude_key keys else
      value <- try_except (v <- send (GET key) ;; ret (match v with RBulk s => Some s | _ => None end))
                 (λ _, ret None) ;;
      rest <- snapshot_keys exclude_key keys ;;
      ret (match value with Some s => (key, s) :: rest | None => rest end)
  end.

Definition snapshot_other_keys (exclude_key : string) : M W (list (string * string)) :=
  keys <- try_except (v <- send (KEYS REDIS_HIT_PREFIX) ;; ret (match v with RKeys l => l | _ => [] end))
            (λ _, ret []) ;;
  snapshot_keys exclude_key keys.

(** [_key_is_absent]. *)
Definition key_is_absent (key : string) : M W bool :=
  try_except (v <- send (GET key) ;; ret (match v with RNil => true | _ => false end)) (λ _, ret false).

(** [_cleanup_probe_key]. *)
Definition cleanup_probe_key (probe_key : option string) : M W unit :=
  match probe_key with
  | None => ret tt
  | Some key => try_except (send (DEL key) ;;; ret tt) (λ _, ret tt)
  end.

(** [_reconcile_other_keys]. *)
Fixpoint reconcile_other_keys (snapshot : list (string * string)) : M W unit :=
  match snapshot with
  | [] => ret tt
  | (key, raw_value) :: snapshot =>
      match py_int raw_value with
      | Some count =>
          if count <=? 0 then ret tt
          else try_except (send (SETEX key HIT_COUNTER_TTL_SECONDS (str_of_Z count)) ;;; ret tt) (λ _, ret tt)
      | None => ret tt
      end ;;;
      reconcile_other_keys snapshot
  end.

(** [rule.refresh_from_db()], then [rule.hit_count]. *)
Definition refreshed_hit_count (id : Z) : M W Z :=
  rows <- db_read w_block_rules ;;
  match List.find (λ r, br_id r =? id) rows with
  | Some r => ret (br_hit_count r)
  | None => raise DoesNotExist
  end.

(** Hit, flush, look: the flush's report, the delta, whether the key is gone. *)
Definition drive (id : Z) (probe_key : string) : M W (FlushReport * Z * bool) :=
  record_rule_hit (uuid_str id) ;;;
  flush_result <- flush_rule_hit_counts true ;;
  hit_count_delta <- refreshed_hit_count id ;;
  key_deleted <- key_is_absent probe_key ;;
  ret (flush_result, hit_count_delta, key_deleted).

(** The body of the transaction: the probe's key and the snapshot, as far as
    they were reached, and how it ended. *)
Definition probe_body : M W (option string * list (string * string) * res (FlushReport * Z * bool)) :=
  created <- attempt create_probe_rule ;;
  match created with
  | Raise e => ret (None, [], Raise e)
  | Ok id =>
      let probe_key := REDIS_HIT_PREFIX +:+ uuid_str id in
      snapshot <- snapshot_other_keys probe_key ;;
      outcome <- attempt (drive id probe_key) ;;
      ret (Some probe_key, snapshot, outcome)
  end.

Definition probe_report (result : FlushReport * Z * bool) : FlushProbeReport :=
  let '(flush_result, delta, key_deleted) := result in
  let failure := if negb (delta =? 1) then Some (NotApplied delta)
                 else if negb key_deleted then Some KeyStillPresent else None in
  {| fp_alive := match failure with None => true | Some _ => false end;
     fp_flushed := flushed flush_result; fp_keys_seen := keys_seen flush_result;
     fp_errors := errors flush_result; fp_hit_count_delta := delta; fp_key_deleted := key_deleted;
     fp_failure_reason := failure |}.

(** [run_flush_probe]; [connection]: what [get_redis_connection] did. *)
Definition run_flush_probe (connection : res unit) : M W FlushProbeReport :=
  match connection with
  | Raise e => ret (failure_result (NoConnection e))
  | Ok _ =>
      r <- atomic true probe_body ;;
      let '(probe_key, snapshot, outcome) := r in
      cleanup_probe_key probe_key ;;;
      reconcile_other_keys snapshot ;;;
      result <- lift_res outcome ;;
      ret (probe_report result)
  end.

(** The task [probe_flush_path]: an exception becomes a report. *)
Definition probe_flush_path (connection : res unit) : M W (FlushProbeReport + exn) :=
  try_except (r <- run_flush_probe connection ;; ret (inl r)) (λ e, ret (inr e)).
End Probe.


(** ** The tables *)

Section Rollback.
Context {R P : Type} `{RedisClient R} (uuid4 : nat → Z).
Abbreviation W := (World R P).
Implicit Types w : W.

Section Frame.
Variable I : W → Prop.
Hypothesis HI : ∀ w w', stored_rows w' = stored_rows w → I w → I w'.

Lemma send_rows c : preserves I (send c).
Proof. intros w Hw. unfold send, on_redis. destruct (exec _ _ _) as [r rd]. by apply (HI w). Qed.

#[local] Hint Resolve send_rows : waf.

Lemma cleanup_rows key : preserves I (cleanup_probe_key key).
Proof. destruct key; cbn [cleanup_probe_key]; monadic. Qed.

Lemma reconcile_rows snapshot : preserves I (reconcile_other_keys snapshot).
Proof. induction snapshot as [|[k v] l IH]; cbn [reconcile_other_keys]; monadic. Qed.
End Frame.

(** However it ends, the probe changes no row. *)
Lemma run_flush_probe_rows connection w : stored_rows (run_flush_probe uuid4 connection w).2 = stored_rows w.
Proof.
  destruct connection as [u|e]; cbn [run_flush_probe]; [|done]. unfold bind at 1.
  pose proof (atomic_rolls_back (probe_body uuid4) w) as Ha.
  destruct (atomic true (probe_body uuid4) w) as [[r|e] w1]; [|exact Ha]. cbn [snd] in Ha.
  destruct r as [[key snapshot] outcome]. rewrite <- Ha.
  set (I := λ w', stored_rows w' = stored_rows w1). enough (Hp : preserves I (cleanup_probe_key key ;;;
    reconcile_other_keys snapshot ;;; result <- lift_res outcome ;; ret (probe_report result))) by by apply Hp.
  assert (HI : ∀ w w', stored_rows w' = stored_rows w → I w → I w') by (intros ?? Hr; unfold I; congruence).
  apply preserves_bind; [by apply cleanup_rows|intros _].
  apply preserves_bind; [by apply reconcile_rows|intros _]. monadic.
Qed.
End Rollback.

(** ** A run against a working server *)

Section Healthy.
Context {P : Type} (uuid4 : nat → Z).
Abbreviation W := (World MemRedis P).
Implicit Types (w : W) (ks : keyspace).

Definition at_state w (rows : list BlockRule) ks : W :=
  {| {| w with w_block_rules := rows |} with w_redis := {| mem := ks |} |}.

Lemma at_state_id w : at_state w (w_block_rules w) (mem (w_redis w)) = w.
Proof. by destruct w as [? [] ? ? ? ? ? ? ? ? ? ? ?]. Qed.

Lemma send_mem c w rows ks :
  send c (at_state w rows ks) = match step (w_now w) c ks with
    | Some (v, ks') => (Ok v, at_state w rows ks')
    | None => (Raise RedisError, at_state w rows ks)
    end.
Proof. unfold send, on_redis, exec. cbn. by destruct (step _ _ _) as [[v ks']|]. Qed.

(** A command whose failure is caught. *)
Lemma try_send_mem {A} c (k : reply → A) d w rows ks :
  try_except (v <- send c ;; ret (k v)) (λ _, ret d) (at_state w rows ks) =
  match step (w_now w) c ks with
  | Some (v, ks') => (Ok (k v), at_state w rows ks')
  | None => (Ok d, at_state w rows ks)
  end.
Proof. unfold try_except, bind. rewrite send_mem. by destruct (step _ _ _) as [[v ks']|]. Qed.

(** The hit count of the rule [id]. *)
Definition hits_of (id : Z) (rows : list BlockRule) : option Z :=
  br_hit_count <$> List.find (λ r, br_id r =? id) rows.

Lemma hits_of_map id (f : BlockRule → BlockRule) n rows :
  (∀ r, br_id (f r) = br_id r) → (∀ r, br_id r = id → br_hit_count (f r) = br_hit_count r + n) →
  hits_of id (map f rows) = (λ h, h + n) <$> hits_of id rows.
Proof.
  intros Hid Hn. unfold hits_of. induction rows as [|r rows IH]; cbn; [done|]. rewrite Hid.
  destruct (Z.eqb_spec (br_id r) id); cbn; [|done]. by rewrite Hn.
Qed.

(** A key after the flush has visited it: gone, unless it is no string. *)
Definition taken (now : Z) ks ks' (key : string) : Prop :=
  ks' !! key = None ∨ ks' !! key = ks !! key ∧ peek_str now ks key = None.

Lemma take_counter_mem key w rows ks :
  ∃ r ks', take_counter key (at_state w rows ks) = (r, at_state w rows ks') ∧
    (∀ k, k ≠ key → ks' !! k = ks !! k) ∧ taken (w_now w) ks ks' key ∧
    counter (w_now w) ks key = match r with Ok n => Z.max 0 n | Raise _ => 0 end.
Proof.
  assert (Hgone : ∀ k, k ≠ key → delete key ks !! k = ks !! k) by (intros; by apply lookup_delete_ne).
  pose proof (lookup_delete_eq ks key) as Hdel.
  unfold take_counter, bind, on_redis, exec_pipe, taken, counter, peek_str.
  cbn [at_state w_redis w_now r_pipe mem_redis mem steps step].
  destruct (peek (w_now w) ks key) as [e|] eqn:Ep; cbn [mbind option_bind].
  2: { exists (Ok 0), (delete key ks). split_and!; [done|done|by left|done]. }
  destruct (e_val e) as [s|z|h]; cbn [mbind option_bind].
  2-3: by exists (Raise RedisError), ks; split_and!; [| |right|].
  destruct (str_empty s); [by exists (Ok 0), (delete key ks); split_and!; [| |left|]|].
  destruct (py_int s) as [n|]; [by exists (Ok n), (delete key ks); split_and!; [| |left|]|].
  by exists (Raise ValueError), (delete key ks); split_and!; [| |left|].
Qed.

Lemma flush_key_mem id key w rows ks :
  w_db_up w = true →
  ∃ c rows' ks', flush_key key (at_state w rows ks) = (Ok c, at_state w rows' ks') ∧
    hits_of id rows' = (λ h, h + if bool_decide (rule_of_key key = Some id) then counter (w_now w) ks key else 0)
                       <$> hits_of id rows ∧
    (∀ k, k ≠ key → ks' !! k = ks !! k) ∧ taken (w_now w) ks ks' key.
Proof.
  intros Hup. unfold flush_key. unfold bind at 1, try_except at 1. unfold bind at 1.
  destruct (take_counter_mem key w rows ks) as (r & ks' & -> & Hother & Htaken & Hc). rewrite Hc.
  assert (Hsame : ∀ n, n = 0 → hits_of id rows = (λ h, h + if bool_decide (rule_of_key key = Some id) then n else 0)
                                               <$> hits_of id rows).
  { intros n ->. destruct (hits_of id rows); cbn; [|done]. f_equal. case_bool_decide; lia. }
  destruct r as [n|e]; cbn [ret]; [|by eexists _, rows, ks'; split_and!; [|apply Hsame| |]].
  unfold ret at 1. cbn iota beta. destruct (Z.leb_spec n 0) as [Hle|Hgt].
  { eexists _, rows, ks'. split_and!; [done|apply Hsame; lia|done|done]. }
  unfold bind at 1, try_except, bind, persist_hits. fold (rule_of_key key).
  destruct (rule_of_key key) as [u|] eqn:Ek.
  2: { eexists _, rows, ks'. split_and!; [done| |done|done]. rewrite bool_decide_false by done.
       destruct (hits_of id rows); cbn; [|done]. f_equal. lia. }
  unfold clock, gets, bind. rewrite (update_block_rules_up _ _ (at_state w rows ks') Hup). unfold ret.
  eexists _, _, ks'. split; [reflexivity|]. split; [|done]. apply hits_of_map; intros r; cbn;
    destruct (Z.eqb_spec (br_id r) u) as [->|Hne]; try done; intros Hid; subst.
  - rewrite bool_decide_true by done. cbn. lia.
  - rewrite bool_decide_false by congruence. lia.
Qed.

Lemma taken_ext now ks1 ks2 ks' key : ks1 !! key = ks2 !! key → taken now ks1 ks' key → taken now ks2 ks' key.
Proof. unfold taken, peek_str, peek. by intros ->. Qed.

Lemma flush_keys_mem id keys w rows ks :
  w_db_up w = true → NoDup keys →
  ∃ c rows' ks', flush_keys keys (at_state w rows ks) = (Ok c, at_state w rows' ks') ∧
    hits_of id rows' = (λ h, h + hits_for (w_now w) ks id keys) <$> hits_of id rows ∧
    (∀ k, k ∉ keys → ks' !! k = ks !! k) ∧ (∀ k, k ∈ keys → taken (w_now w) ks ks' k).
Proof.
  intros Hup Hnd. revert rows ks. induction Hnd as [|key keys Hni Hnd IH]; intros rows ks.
  { eexists _, rows, ks. split; [done|]. cbn. destruct (hits_of id rows); cbn; rewrite ?Z.add_0_r; set_solver. }
  cbn [flush_keys].
  destruct (flush_key_mem id key w rows ks Hup) as (c1 & rows1 & ks1 & Hr1 & Hh1 & Ho1 & Ht1).
  destruct (IH rows1 ks1) as (c2 & rows2 & ks2 & Hr2 & Hh2 & Ho2 & Ht2).
  rewrite (bind_Ok _ _ _ _ _ Hr1), (bind_Ok _ _ _ _ _ Hr2). eexists _, rows2, ks2. split; [reflexivity|].
  rewrite Hh2, Hh1. cbn [hits_for]. rewrite (hits_ext _ ks ks1) by (intros k Hk; apply Ho1; intros ->;
    by apply Hni, list_elem_of_In).
  split_and!.
  - destruct (hits_of id rows); cbn; [|done]. f_equal. lia.
  - intros k Hk. rewrite not_elem_of_cons in Hk. destruct Hk. rewrite Ho2, Ho1 by done. done.
  - intros k [->|Hk]%elem_of_cons.
    + unfold taken. rewrite Ho2 by done. exact Ht1.
    + eapply taken_ext; [|by apply Ht2]. apply Ho1. by intros ->.
Qed.

(** The only counter that belongs to [id] decides what it gets. *)
Lemma hits_for_only now ks id key keys :
  NoDup keys → (∀ k, k ∈ keys → rule_of_key k = Some id → k = key) → rule_of_key key = Some id →
  hits_for now ks id keys = if bool_decide (key ∈ keys) then counter now ks key else 0.
Proof.
  intros Hnd Hany Hkey. induction Hnd as [|k keys Hni Hnd IH]; cbn [hits_for].
  { rewrite bool_decide_false; [done|]. apply not_elem_of_nil. }
  rewrite IH by (intros; apply Hany; [by apply elem_of_cons; right|done]). clear IH.
  destruct (decide (k = key)) as [->|Hne].
  - rewrite (bool_decide_true (rule_of_key key = _)) by done. rewrite (bool_decide_false (key ∈ keys)) by done.
    rewrite bool_decide_true by (apply elem_of_cons; by left). lia.
  - rewrite (bool_decide_false (rule_of_key k = _)) by (intros Hk; apply Hne, Hany; [apply elem_of_cons; by left|done]).
    rewrite (bool_decide_ext (key ∈ k :: keys) (key ∈ keys)); [done|]. rewrite elem_of_cons. naive_solver.
Qed.

(** What the snapshot holds. *)
Definition snapshot_of (now : Z) ks (exclude_key : string) (keys : list string) : list (string * string) :=
  omap (λ k, if bool_decide (k = exclude_key) then None else (λ s, (k, s)) <$> peek_str now ks k) keys.

Lemma snapshot_keys_mem ex keys w rows ks :
  snapshot_keys ex keys (at_state w rows ks) =
  (Ok (snapshot_of (w_now w) ks ex keys), at_state w rows ks).
Proof.
  induction keys as [|k keys IH]; cbn [snapshot_keys]; [done|]. unfold snapshot_of. cbn [omap list_omap].
  fold (snapshot_of (w_now w) ks ex keys). case_bool_decide as Hk; [exact IH|].
  unfold bind at 1. rewrite try_send_mem. cbn [step]. unfold peek_str.
  destruct (peek (w_now w) ks k) as [e|]; [destruct (e_val e) as [s|z|h] eqn:Ev|]; cbn [mbind option_bind];
    rewrite ?Ev; cbn [fmap option_fmap option_map]; unfold bind; by rewrite IH.
Qed.

Lemma snapshot_mem ex w rows ks :
  snapshot_other_keys ex (at_state w rows ks) =
  (Ok (snapshot_of (w_now w) ks ex (counter_keys (w_now w) ks)), at_state w rows ks).
Proof.
  unfold snapshot_other_keys. unfold bind at 1. rewrite try_send_mem. cbn [step].
  exact (snapshot_keys_mem ex (counter_keys (w_now w) ks) w rows ks).
Qed.

Lemma elem_of_snapshot now ks ex keys k v :
  (k, v) ∈ snapshot_of now ks ex keys ↔ k ∈ keys ∧ k ≠ ex ∧ peek_str now ks k = Some v.
Proof.
  unfold snapshot_of. rewrite list_elem_of_omap. split.
  - intros (k' & Hk' & Hv). case_bool_decide; [done|].
    destruct (peek_str now ks k') as [s|] eqn:E; cbn in Hv; [|done]. simplify_eq. done.
  - intros (Hk & Hne & Hv). exists k. split; [done|]. rewrite bool_decide_false by done. by rewrite Hv.
Qed.

Lemma snapshot_NoDup now ks ex keys : NoDup keys → NoDup (snapshot_of now ks ex keys).*1.
Proof.
  induction 1 as [|k keys Hni Hnd IH]; [apply NoDup_nil_2|]. unfold snapshot_of. cbn [omap list_omap].
  fold (snapshot_of now ks ex keys). case_bool_decide; [done|].
  destruct (peek_str now ks k); cbn; [|done]. apply NoDup_cons. split; [|done].
  rewrite list_elem_of_fmap. intros ([k' v] & -> & Hk). apply elem_of_snapshot in Hk as [Hk _]. exact (Hni Hk).
Qed.

(** What [_reconcile_other_keys] does to the keyspace. *)
Definition restored (now : Z) (raw_value : string) (old : option entry) : option entry :=
  match py_int raw_value with
  | Some count => if count <=? 0 then old else
      Some {| e_val := VString (str_of_Z count); e_exp := Some (now + HIT_COUNTER_TTL_SECONDS * second) |}
  | None => old
  end.

Lemma reconcile_mem snapshot w rows ks :
  NoDup snapshot.*1 →
  ∃ ks', reconcile_other_keys snapshot (at_state w rows ks) = (Ok tt, at_state w rows ks') ∧
    (∀ k, k ∉ snapshot.*1 → ks' !! k = ks !! k) ∧
    (∀ k v, (k, v) ∈ snapshot → ks' !! k = restored (w_now w) v (ks !! k)).
Proof.
  revert ks. induction snapshot as [|[key v] snapshot IH]; intros ks Hnd.
  { exists ks. split_and!; [done|done|]. intros k v Hk. by apply not_elem_of_nil in Hk. }
  apply NoDup_cons in Hnd as [Hni Hnd]. cbn in Hni. cbn [reconcile_other_keys].
  assert (∃ ks1, match py_int v with
    | Some count => if count <=? 0 then ret tt
        else try_except (send (SETEX key HIT_COUNTER_TTL_SECONDS (str_of_Z count)) ;;; ret tt) (λ _, ret tt)
    | None => ret tt
    end (at_state w rows ks) = (Ok tt, at_state w rows ks1) ∧
    ks1 !! key = restored (w_now w) v (ks !! key) ∧ ∀ k, k ≠ key → ks1 !! k = ks !! k) as (ks1 & Hr & Hk1 & Ho1).
  { unfold restored. destruct (py_int v) as [n|]; [|by exists ks]. destruct (n <=? 0); [by exists ks|].
    rewrite (try_send_mem _ (λ _, tt)). cbn [step Z.ltb Z.compare HIT_COUNTER_TTL_SECONDS Z.mul Pos.mul].
    eexists. split; [reflexivity|]. split; [apply lookup_insert_eq|]. intros k Hk. by apply lookup_insert_ne. }
  rewrite (bind_Ok _ _ _ _ _ Hr). destruct (IH ks1 Hnd) as (ks2 & Hr2 & Ho2 & Hk2).
  exists ks2. split; [exact Hr2|]. split.
  - intros k. cbn. rewrite not_elem_of_cons. intros [Hne Hni2]. rewrite Ho2 by done. by apply Ho1.
  - intros k v' [Hk|Hk]%elem_of_cons.
    + simplify_eq. by rewrite Ho2.
    + rewrite (Hk2 _ _ Hk). f_equal. apply Ho1. intros ->. apply Hni. apply list_elem_of_fmap. by exists (key, v').
Qed.

(** The moment the probe runs: nothing belongs to its fresh identifier yet. *)
Variables (w0 : W) (id : Z).
Abbreviation now := (w_now w0).
Abbreviation ks0 := (mem (w_redis w0)).
Hypothesis Hup : w_db_up w0 = true.
Hypothesis Hid : uuid4 (w_fresh w0) = id.
Hypothesis Hrange : 0 <= id < 2 ^ 128.
Hypothesis Hnew : Forall (λ r, br_id r ≠ id) (w_block_rules w0).
Hypothesis Hfree : ∀ k, k ∈ counter_keys now ks0 → rule_of_key k ≠ Some id.

Definition drawn : W := {| w0 with w_fresh := S (w_fresh w0) |}.
Definition probe_key : string := REDIS_HIT_PREFIX +:+ uuid_str id.

Lemma rule_of_probe_key : rule_of_key probe_key = Some id.
Proof. unfold rule_of_key, probe_key. rewrite str_drop_app. by apply uuid_of_str. Qed.

Lemma probe_key_prefix : starts_with rule_hits_prefix probe_key = true.
Proof. apply starts_with_app. Qed.

Lemma find_new rows : Forall (λ r, br_id r ≠ id) rows → hits_of id (rows ++ [probe_rule now id]) = Some 0.
Proof.
  unfold hits_of. induction 1 as [|r rows Hr _ IH]; cbn; [by rewrite Z.eqb_refl|].
  destruct (Z.eqb_spec (br_id r) id); [done|]. exact IH.
Qed.

Lemma create_probe_mem :
  ∃ ks, create_probe_rule uuid4 w0 = (Ok id, at_state drawn (w_block_rules w0 ++ [probe_rule now id]) ks) ∧
    ∀ k, k ≠ RULES_VERSION_KEY → ks !! k = ks0 !! k.
Proof.
  unfold create_probe_rule. unfold bind at 1, clock, gets. unfold bind at 1, draw. rewrite Hid.
  fold drawn. rewrite (bind_Ok _ _ _ _ _ (db_read_up _ drawn Hup)).
  assert (existsb (λ r, br_id r =? id) (w_block_rules drawn) = false) as ->.
  { apply not_true_iff_false. intros (r & Hr & He)%existsb_exists. rewrite List.Forall_forall in Hnew.
    apply Z.eqb_eq in He. by apply (Hnew r). }
  unfold set_block_rules. rewrite (bind_Ok _ _ _ _ _ (db_write_up _ drawn Hup)).
  set (rows := w_block_rules w0 ++ _).
  assert (Hs : on_block_rule_save (at_state drawn rows ks0) =
    (Ok tt, at_state drawn rows (match step now (INCR RULES_VERSION_KEY) ks0 with Some (_, ks) => ks | None => ks0 end))).
  { etransitivity; [exact (try_send_mem (INCR RULES_VERSION_KEY) (λ _, tt) tt drawn rows ks0)|].
    change (w_now drawn) with now. by destruct (step _ _ _) as [[v ks]|]. }
  eexists. split.
  - etransitivity; [|exact (bind_Ok _ (λ _, ret id) _ _ _ Hs)]. unfold at_state, drawn. by destruct w0 as [? [] ? ? ? ? ? ? ? ? ? ? ?].
  - intros k Hk. destruct (step _ _ _) as [[v ks]|] eqn:E; [|done]. by apply (step_frame _ _ _ _ _ k E).
Qed.

(** The producer writes the counter. *)
Lemma record_hit_mem rows ks :
  peek now ks probe_key = None →
  ∃ ks', record_rule_hit (uuid_str id) (at_state drawn rows ks) = (Ok tt, at_state drawn rows ks') ∧
    peek_str now ks' probe_key = Some "1" ∧ ∀ k, k ≠ probe_key → ks' !! k = ks !! k.
Proof.
  intros Hnone. unfold record_rule_hit, try_except, bind. change (rule_hits_key (uuid_str id)) with probe_key.
  rewrite send_mem. cbn [step]. change (w_now drawn) with now. rewrite Hnone, send_mem. cbn [step].
  change (w_now drawn) with now. rewrite peek_insert_eq. cbn [live e_exp].
  change (0 <? 86400 * 2) with true. eexists. split; [reflexivity|]. split.
  - unfold peek_str. rewrite peek_insert_eq. cbn [live e_exp].
    rewrite (proj2 (Z.ltb_lt _ _)) by (unfold second; lia). done.
  - intros k Hk. by rewrite !lookup_insert_ne by done.
Qed.

Lemma refreshed_mem rows ks n :
  hits_of id rows = Some n → refreshed_hit_count id (at_state drawn rows ks) = (Ok n, at_state drawn rows ks).
Proof.
  unfold hits_of, refreshed_hit_count. intros Hn.
  rewrite (bind_Ok _ _ _ _ _ (db_read_up _ (at_state drawn rows ks) Hup)). cbn [at_state w_block_rules].
  destruct (List.find _ _); [|done]. cbn in Hn. by simplify_eq.
Qed.

(** The hit goes through the real flush. *)
Lemma drive_mem rows ks :
  hits_of id rows = Some 0 → peek now ks probe_key = None →
  (∀ k, k ∈ counter_keys now ks → rule_of_key k ≠ Some id) →
  ∃ rep rows' ks', drive id probe_key (at_state drawn rows ks) = (Ok (rep, 1, true), at_state drawn rows' ks') ∧
    ks' !! probe_key = None ∧
    ∀ k, k ≠ probe_key → if starts_with rule_hits_prefix k then taken now ks ks' k else ks' !! k = ks !! k.
Proof.
  intros Hz Hnone Hany. unfold drive.
  destruct (record_hit_mem rows ks Hnone) as (ks1 & Hr1 & Hone & Hsame1). rewrite (bind_Ok _ _ _ _ _ Hr1).
  assert (Hkeys : ∀ k, k ∈ counter_keys now ks1 ↔ k = probe_key ∨ k ∈ counter_keys now ks).
  { intros k. rewrite !counter_keys_spec. destruct (decide (k = probe_key)) as [->|Hne].
    - rewrite probe_key_prefix. unfold peek_str in Hone. destruct (peek now ks1 probe_key); [|done]. naive_solver.
    - rewrite (peek_ext now ks1 ks k (Hsame1 k Hne)). naive_solver. }
  assert (Hin : probe_key ∈ counter_keys now ks1) by (apply Hkeys; by left).
  destruct (flush_keys_mem id (counter_keys now ks1) drawn rows ks1 Hup (counter_keys_NoDup now ks1))
    as (c & rows2 & ks2 & Hr2 & Hh2 & Ho2 & Ht2).
  rewrite (hits_for_only _ _ id probe_key) in Hh2; [|apply counter_keys_NoDup| |apply rule_of_probe_key].
  2: { intros k [->|Hk]%Hkeys Hr; [done|]. by destruct (Hany k Hk). }
  change (w_now drawn) with now in *. rewrite bool_decide_true in Hh2 by done.
  rewrite Hz in Hh2. unfold counter in Hh2. rewrite Hone in Hh2. change (hits_of id rows2 = Some 1) in Hh2.
  assert (Hflush : ∃ rep, flush_rule_hit_counts true (at_state drawn rows ks1) = (Ok rep, at_state drawn rows2 ks2)).
  { unfold flush_rule_hit_counts. cbn [negb]. unfold bind at 1. rewrite (try_send_mem _ Some). cbn [step].
    fold (counter_keys (w_now drawn) ks1). change (w_now drawn) with now. rewrite (bind_Ok _ _ _ _ _ Hr2). by eexists. }
  destruct Hflush as [rep Hflush]. rewrite (bind_Ok _ _ _ _ _ Hflush), (bind_Ok _ _ _ _ _ (refreshed_mem _ _ _ Hh2)).
  assert (Hdel : ks2 !! probe_key = None).
  { destruct (Ht2 _ Hin) as [Hn|[_ Hp]]; [exact Hn|]. congruence. }
  unfold bind at 1, key_is_absent. rewrite try_send_mem. cbn [step]. unfold peek. rewrite Hdel. cbn [mbind option_bind].
  exists rep, rows2, ks2. split; [done|]. split; [done|]. intros k Hne.
  destruct (starts_with rule_hits_prefix k) eqn:Ek.
  - destruct (decide (k ∈ counter_keys now ks1)) as [Hk|Hk].
    + eapply taken_ext; [by apply Hsame1|by apply Ht2].
    + right. rewrite Ho2, Hsame1 by done. split; [done|]. rewrite Hkeys, counter_keys_spec in Hk.
      unfold peek_str. destruct (peek now ks k); [|done]. naive_solver.
  - rewrite Ho2, Hsame1; [done|done|]. rewrite counter_keys_spec. intros [? _]. congruence.
Qed.

Lemma version_no_counter k : starts_with rule_hits_prefix k = true → k ≠ RULES_VERSION_KEY.
Proof. intros Hk ->. by vm_compute in Hk. Qed.

Lemma counter_keys_ext ks k :
  (∀ k, k ≠ RULES_VERSION_KEY → ks !! k = ks0 !! k) → k ∈ counter_keys now ks → k ∈ counter_keys now ks0.
Proof.
  intros Hks. rewrite !counter_keys_spec. intros [Hp Hk]. split; [done|].
  by rewrite <- (peek_ext now ks ks0 k (Hks k (version_no_counter k Hp))).
Qed.

(** A swept-up counter is worth what it was worth before. *)
Lemma counter_restored ks ks' k :
  (peek_str now ks k = None → ks' !! k = None ∨ ks' !! k = ks !! k) →
  (∀ v, peek_str now ks k = Some v → ks' !! k = restored now v None) →
  counter now ks' k = counter now ks k.
Proof.
  intros Hnone Hsome. unfold counter. destruct (peek_str now ks k) as [v|] eqn:Ev.
  - unfold peek_str, peek. rewrite (Hsome v eq_refl). unfold restored.
    destruct (py_int v) as [n|] eqn:En; cbn [mbind option_bind]; [|by destruct (str_empty v)].
    rewrite (str_empty_false v) by (intros ->; by vm_compute in En).
    destruct (Z.leb_spec n 0); cbn [mbind option_bind]; [cbn; lia|].
    unfold live. cbn [e_exp]. rewrite (proj2 (Z.ltb_lt _ _)) by (unfold HIT_COUNTER_TTL_SECONDS, second; lia).
    cbn [mbind option_bind e_val]. rewrite py_int_str_of_Z. destruct (str_empty (str_of_Z n)) eqn:Ee; cbn; [|done].
    destruct (str_of_Z n) eqn:Es; [|done]. apply (f_equal py_int) in Es. by rewrite py_int_str_of_Z in Es.
  - destruct (Hnone eq_refl) as [Hk|Hk].
    + unfold peek_str, peek. by rewrite Hk.
    + unfold peek_str in *. by rewrite (peek_ext now ks' ks k Hk), Ev.
Qed.

Lemma probe_absent : peek now ks0 probe_key = None.
Proof.
  destruct (peek now ks0 probe_key) as [e|] eqn:E; [|done]. destruct (Hfree probe_key); [|apply rule_of_probe_key].
  apply counter_keys_spec. split; [apply probe_key_prefix|]. by rewrite E.
Qed.

Lemma probe_body_mem :
  ∃ rep ksa ksc rows, probe_body uuid4 w0 =
      (Ok (Some probe_key, snapshot_of now ksa probe_key (counter_keys now ksa), Ok (rep, 1, true)),
       at_state drawn rows ksc) ∧
    (∀ k, k ≠ RULES_VERSION_KEY → ksa !! k = ks0 !! k) ∧ ksc !! probe_key = None ∧
    ∀ k, k ≠ probe_key → if starts_with rule_hits_prefix k then taken now ksa ksc k else ksc !! k = ksa !! k.
Proof.
  unfold probe_body. destruct create_probe_mem as (ksa & Hc & Hksa).
  unfold bind at 1, attempt at 1. rewrite Hc. fold probe_key.
  rewrite (bind_Ok _ _ _ _ _ (snapshot_mem probe_key drawn _ ksa)). change (w_now drawn) with now.
  destruct (drive_mem (w_block_rules w0 ++ [probe_rule now id]) ksa) as (rep & rows & ksc & Hd & Hdel & Hk).
  - by apply find_new.
  - rewrite (peek_ext now ksa ks0); [apply probe_absent|]. apply Hksa, version_no_counter, probe_key_prefix.
  - intros k Hk. by apply Hfree, (counter_keys_ext ksa).
  - exists rep, ksa, ksc, rows. unfold bind, attempt. by rewrite Hd.
Qed.

Lemma run_flush_probe_mem :
  ∃ rep ks', run_flush_probe uuid4 (Ok tt) w0 = (Ok rep, at_state drawn (w_block_rules w0) ks') ∧
    fp_alive rep = true ∧
    ∀ k, if starts_with rule_hits_prefix k then counter now ks' k = counter now ks0 k
         else k = RULES_VERSION_KEY ∨ ks' !! k = ks0 !! k.
Proof.
  unfold run_flush_probe. destruct probe_body_mem as (rep & ksa & ksc & rows & Hb & Hksa & Hdel & Hk).
  set (snap := snapshot_of now ksa probe_key (counter_keys now ksa)) in *.
  unfold bind at 1, atomic. rewrite Hb.
  change (with_tables_of w0 (at_state drawn rows ksc)) with (at_state drawn (w_block_rules w0) ksc).
  unfold bind at 1, cleanup_probe_key. rewrite (try_send_mem _ (λ _, tt)). cbn [step].
  destruct (reconcile_mem snap drawn (w_block_rules w0) (delete probe_key ksc)) as (ks' & Hr & Ho & Hin).
  { apply snapshot_NoDup, counter_keys_NoDup. }
  rewrite (bind_Ok _ _ _ _ _ Hr). cbn [lift_res bind ret]. eexists _, ks'. split; [reflexivity|]. split; [done|].
  change (w_now drawn) with now in *.
  assert (Hout : ∀ k, peek_str now ksa k = None ∨ k = probe_key → ks' !! k = delete probe_key ksc !! k).
  { intros k Hor. apply Ho. rewrite list_elem_of_fmap. intros ([k' v] & -> & (_ & Hne & Hv)%elem_of_snapshot).
    cbn in Hor. destruct Hor as [Hor| ->]; [|done]. rewrite Hv in Hor. done. }
  intros k. destruct (decide (k = probe_key)) as [->|Hne].
  { rewrite probe_key_prefix. unfold counter, peek_str. rewrite probe_absent. unfold peek.
    rewrite (Hout probe_key (or_intror eq_refl)), lookup_delete_eq. done. }
  specialize (Hk k Hne). destruct (starts_with rule_hits_prefix k) eqn:Ek.
  - transitivity (counter now ksa k).
    + apply counter_restored.
      * intros Hn. rewrite (Hout k (or_introl Hn)), lookup_delete_ne by done. destruct Hk as [Hk|[Hk _]]; auto.
      * intros v Hv. rewrite (Hin k v), lookup_delete_ne by
          (done || (apply elem_of_snapshot; rewrite counter_keys_spec; unfold peek_str in Hv;
                    destruct (peek now ksa k) eqn:Ep; [|done]; unfold peek_str; rewrite Ep; eauto)).
        destruct Hk as [->|[_ Hn]]; [done|congruence].
    + unfold counter, peek_str. by rewrite (peek_ext now ksa ks0) by (by apply Hksa, version_no_counter).
  - destruct (decide (k = RULES_VERSION_KEY)) as [->|Hv]; [by left|right]. rewrite <- (Hksa k Hv), <- Hk.
    transitivity (delete probe_key ksc !! k); [|by apply lookup_delete_ne].
    apply Ho. rewrite list_elem_of_fmap. intros ([k' v] & -> & (Hin' & _)%elem_of_snapshot).
    apply counter_keys_spec in Hin' as [Hp _]. change (starts_with rule_hits_prefix k' = false) in Ek. congruence.
Qed.
End Healthy.

(** ** Properties *)

Module FlushProbeProps.

(** The probe leaves no trace in the database, whatever Redis and the
    database do and however it ends: every table has the same rows. *)
Lemma probe_changes_no_row {R P} `{RedisClient R} (uuid4 : nat → Z) connection (w : World R P) :
  stored_rows (run_flush_probe uuid4 connection w).2 = stored_rows w.
Proof. apply run_flush_probe_rows. Qed.

(** C29: the flush path is alive.  On a working server and database, with a
    fresh identifier that no rule and no pending counter bears, one hit
    recorded by the rule engine reaches its row through the real flush and its
    key is gone: the probe reports alive.  Whatever else is pending, every
    other counter is worth exactly as much to the next flush as before, and
    no key outside the counters changes but the rules version. *)
Theorem flush_path_is_alive {P} (uuid4 : nat → Z) (w : World MemRedis P) :
  let id := uuid4 (w_fresh w) in
  w_db_up w = true → 0 <= id < 2 ^ 128 → Forall (λ r, br_id r ≠ id) (w_block_rules w) →
  (∀ k, k ∈ counter_keys (w_now w) (mem (w_redis w)) → rule_of_key k ≠ Some id) →
  ∃ rep w', run_flush_probe uuid4 (Ok tt) w = (Ok rep, w') ∧
    fp_alive rep = true ∧ fp_failure_reason rep = None ∧ stored_rows w' = stored_rows w ∧
    ∀ k, if starts_with rule_hits_prefix k
         then counter (w_now w) (mem (w_redis w')) k = counter (w_now w) (mem (w_redis w)) k
         else k = RULES_VERSION_KEY ∨ mem (w_redis w') !! k = mem (w_redis w) !! k.
Proof.
  intros id Hup Hrange Hnew Hfree.
  destruct (run_flush_probe_mem uuid4 w id Hup eq_refl Hrange Hnew Hfree) as (rep & ks' & Hrun & Hal & Hk).
  exists rep, (at_state (drawn w) (w_block_rules w) ks'). split; [exact Hrun|]. split; [exact Hal|].
  split; [|split; [done|exact Hk]].
  revert Hrun Hal. unfold run_flush_probe. intros (r & w1 & _ & Hr)%bind_inv_Ok. destruct r as [[key snapshot] outcome].
  apply bind_inv_Ok in Hr as (? & w2 & _ & Hr). apply bind_inv_Ok in Hr as (? & w3 & _ & Hr).
  apply bind_inv_Ok in Hr as (result & w4 & _ & Hr). unfold ret in Hr. injection Hr as <- _.
  destruct result as [[fr d] kd]. cbn. by destruct (negb (d =? 1)), (negb kd).
Qed.

(** *** Witness: five hits pending for rule 7; the probe draws identifier 9. *)

Definition probe_ids (n : nat) : Z := 9 + Z.of_nat n.

Lemma flush_path_is_alive_witness :
  ∃ rep w', run_flush_probe probe_ids (Ok tt) TasksProps.hit_world = (Ok rep, w') ∧ fp_alive rep = true ∧
    counter (w_now TasksProps.hit_world) (mem (w_redis w')) "waf:rule_hits:00000000-0000-0000-0000-000000000007" = 5.
Proof.
  destruct (flush_path_is_alive probe_ids TasksProps.hit_world) as (rep & w' & Hrun & Hal & _ & _ & Hk).
  - reflexivity.
  - split; [discriminate|reflexivity].
  - repeat constructor. discriminate.
  - apply Forall_forall, (bool_decide_unpack _). vm_compute. exact I.
  - exists rep, w'. split; [exact Hrun|]. split; [exact Hal|].
    etransitivity; [exact (Hk "waf:rule_hits:00000000-0000-0000-0000-000000000007")|vm_compute; reflexivity].
Defined.

(** A hit recorded between the flush and the restoration is overwritten: five
    hits were swept up, one more arrives, and five are pending afterwards. *)
Definition key_of_seven : string := "waf:rule_hits:00000000-0000-0000-0000-000000000007".

Definition late_hit : M (World MemRedis LiteRe) unit :=
  snapshot <- snapshot_other_keys "waf:rule_hits:" ;;
  flush_rule_hit_counts true ;;;
  record_rule_hit "00000000-0000-0000-0000-000000000007" ;;;
  reconcile_other_keys snapshot.

Example late_hit_is_overwritten :
  let pending w := counter (w_now w) (mem (w_redis w)) key_of_seven in
  pending TasksProps.hit_world = 5 ∧
  pending (record_rule_hit "00000000-0000-0000-0000-000000000007" TasksProps.hit_world).2 = 6 ∧
  pending (late_hit TasksProps.hit_world).2 = 5.
Proof. vm_compute. done. Qed.
End FlushProbeProps.
