(* ===== verification/DetectorProbe.v ===== *)
(** * The detector probe ([services/detector_probe.py])

    Fixture rows that cross every detector's own threshold are written inside a
    transaction that is rolled back, all detectors run over them, and each
    detector is reported alive or silent.  The detectors are those of
    [Detectors]. *)

From Stdlib Require Import ZArith QArith Lia Ascii String Sorted Permutation.
From stdpp Require Import base tactics option list list_numbers strings numbers gmap.
From S2P Require Import Prelude PyStr PyTime Codec Regex Conf Redis Models AutoRule RuleEngine RuleEngineProofs IpAddress.
From S2P Require Import Detectors.

Open Scope Z_scope.

(** ** Fixtures *)

Definition UA_ROTATION_IP : string := "192.0.2.10".
Definition UNSOLVED_CHALLENGE_IP : string := "192.0.2.50".
Definition SUBNET_BURST_SUBNET_BASE : string := "198.51.100.".
Definition CHALLENGE_FARM_IP : string := "203.0.113.10".
Definition CLOUD_SPRAY_SUBNET_BASE : string := "203.0.113.".
Definition SCRAPER_404_IP : string := "192.0.2.90".
Definition SCRAPER_404_NGINX_IP : string := "192.0.2.91".
Definition PROBE_UA : string := "django-waf-detector-probe/1.0".

(** [RequestLog(...)] with the model's defaults for what is not given. *)
Definition fixture_row (now : Z) (ip user_agent path : string) (verdict : Verdict)
    (response_code : option Z) (source : RequestLogSource) : RequestLog :=
  {| rl_timestamp := now; rl_ip_address := ip; rl_user_agent := user_agent; rl_path := path;
     rl_method := "GET"; rl_verdict := verdict; rl_matched_rule_id := None; rl_matched_rule_type := "";
     rl_anomaly_score := None; rl_response_code := response_code; rl_referer := "";
     rl_http_fingerprint := ""; rl_fingerprint_verdict := ""; rl_country_code := "";
     rl_source := source; rl_source_event_id := "" |}.

Definition rotation_ua (i : Z) : string := PROBE_UA +:+ " (ua-rotation-fixture-" +:+ str_of_Z i +:+ ")".
Definition spray_ua : string := PROBE_UA +:+ " (cloud-spray-fixture)".
Definition burst_ip (i : Z) : string := SUBNET_BURST_SUBNET_BASE +:+ str_of_Z (10 + i mod 6).
Definition spray_ip (i : Z) : string := CLOUD_SPRAY_SUBNET_BASE +:+ str_of_Z (20 + i).

Section Fixtures.
Context {R P : Type} (conf : Conf) (now : Z).
Abbreviation W := (World R P).

(** [RequestLog.objects.bulk_create(rows)] on a database that types its address
    column (PostgreSQL's [inet]): a text that is no address is refused.  SQLite
    would store it. *)
Definition typed_address (r : RequestLog) : bool :=
  match ip_address (rl_ip_address r) with Some _ => true | None => false end.

Definition bulk_create_logs (rows : list RequestLog) : M W unit :=
  if negb (forallb typed_address rows) then raise (OtherError "DataError") else
  db_write (λ w, {| w with w_request_log := w_request_log w ++ rows |}).

Definition ua_rotation_rows (distinct_ua_count : option Z) : list RequestLog :=
  map (λ i, fixture_row now UA_ROTATION_IP (rotation_ua i) "/" ALLOWED None MIDDLEWARE)
    (seqZ 0 (default (DJANGO_WAF_ANOMALY_THRESHOLD_DISTINCT_UAS conf + 1) distinct_ua_count)).

Definition subnet_burst_rows (total_requests : option Z) : list RequestLog :=
  map (λ i, fixture_row now (burst_ip i) PROBE_UA "/" ALLOWED None MIDDLEWARE)
    (seqZ 0 (default (DJANGO_WAF_ANOMALY_THRESHOLD_SUBNET_BURST_MIN_COUNT conf + 1) total_requests)).

Definition farm_reputation (challenge_failures challenge_passes : Z) : IPReputation :=
  {| ir_ip_address := CHALLENGE_FARM_IP; ir_total_requests := 20; ir_blocked_requests := 0;
     ir_challenged_requests := 20; ir_challenge_passes := challenge_passes;
     ir_challenge_failures := challenge_failures; ir_distinct_ua_count := 1; ir_threat_score := 0;
     ir_last_seen_at := Some now; ir_window_start := None; ir_window_end := None |}.

Definition build_challenge_farm_fixture (challenge_failures challenge_passes : Z) : M W unit :=
  rows <- db_read w_reputation ;;
  if existsb (λ r, bool_decide (ir_ip_address r = CHALLENGE_FARM_IP)) rows then raise IntegrityError else
  db_write (λ w, {| w with w_reputation := rows ++ [farm_reputation challenge_failures challenge_passes] |}).

Definition unsolved_challenge_rows (challenged_count : option Z) : list RequestLog :=
  map (λ i, fixture_row now UNSOLVED_CHALLENGE_IP PROBE_UA ("/fixture-path-" +:+ str_of_Z i +:+ "/")
              CHALLENGED None MIDDLEWARE)
    (seqZ 0 (default (DJANGO_WAF_UNSOLVED_MIN_CHALLENGED conf + 1) challenged_count)).

Definition cloud_spray_rows (distinct_ip_count : option Z) : list RequestLog :=
  map (λ i, fixture_row now (spray_ip i) spray_ua "/" ALLOWED None MIDDLEWARE)
    (seqZ 0 (default (DJANGO_WAF_CLOUD_SPRAY_MIN_IPS conf + 1) distinct_ip_count)).

Definition scraper_404_rows (total_requests : option Z) (include_middleware include_nginx : bool)
  : list RequestLog :=
  let n := default (DJANGO_WAF_SCRAPER_404_MIN_REQUESTS conf + 1) total_requests in
  (if include_middleware
   then map (λ i, fixture_row now SCRAPER_404_IP PROBE_UA
                    ("/scraper-404-fixture-path-" +:+ str_of_Z i +:+ "/") ALLOWED (Some 404) MIDDLEWARE)
          (seqZ 0 n)
   else []) ++
  (if include_nginx
   then map (λ i, fixture_row now SCRAPER_404_NGINX_IP PROBE_UA
                    ("/scraper-404-nginx-fixture-path-" +:+ str_of_Z i +:+ "/") ALLOWED (Some 404) NGINX_LOG)
          (seqZ 0 n)
   else []).
End Fixtures.

(** ** The report *)

Definition DETECTOR_NAMES : list string :=
  ["detect_challenge_farms"; "detect_cloud_spray"; "detect_scraper_404_ratio"; "detect_subnet_burst";
   "detect_ua_rotation"; "detect_unsolved_challenges"].

(** [DETECTOR_NAME_TO_RESULT_KEY], and the keys of the run's result in order. *)
Definition result_key (name : string) : string :=
  default "" (snd <$> List.find (λ kv, bool_decide (kv.1 = name))
    [("detect_ua_rotation", "ua_rotation_rules"); ("detect_subnet_burst", "subnet_burst_rules");
     ("detect_challenge_farms", "challenge_farm_rules");
     ("detect_unsolved_challenges", "unsolved_challenge_rules");
     ("detect_cloud_spray", "cloud_spray_rules"); ("detect_scraper_404_ratio", "scraper_404_rules")]).

Definition RESULT_KEYS : list string :=
  ["ua_rotation_rules"; "subnet_burst_rules"; "challenge_farm_rules"; "unsolved_challenge_rules";
   "cloud_spray_rules"; "scraper_404_rules"].

(** [result.get(key, 0)]. *)
Definition result_get (counts : list Z) (key : string) : Z :=
  default 0 (snd <$> List.find (λ kv, bool_decide (kv.1 = key)) (combine RESULT_KEYS counts)).

(** [_MIN_RULES_REPORTED.get(name, 1)]. *)
Definition min_rules_reported (name : string) : Z :=
  if bool_decide (name = "detect_scraper_404_ratio") then 2 else 1.

Record DetectorLine : Type := { dl_name : string; dl_alive : bool; dl_rules_reported : Z }.

Record DetectorProbeReport : Type := {
  dp_detectors : list DetectorLine;
  dp_all_alive : bool;
  dp_silent_detectors : list string;
  dp_dry_run : bool;
}.

Definition probe_line (counts : list Z) (name : string) : DetectorLine :=
  let n := result_get counts (result_key name) in
  {| dl_name := name; dl_alive := min_rules_reported name <=? n; dl_rules_reported := n |}.

Definition detector_report (dry_run : bool) (counts : list Z) : DetectorProbeReport :=
  let lines := map (probe_line counts) DETECTOR_NAMES in
  let silent := map dl_name (List.filter (λ l, negb (dl_alive l)) lines) in
  {| dp_detectors := lines; dp_all_alive := match silent with [] => true | _ => false end;
     dp_silent_detectors := silent; dp_dry_run := dry_run |}.

Section Probe.
Context {R P : Type} `{RedisClient R} `{ReEngine P} `{Dns} (uuid4 : nat → Z) (conf : Conf).
Abbreviation W := (World R P).

(** [_build_fixture_traffic]. *)
Definition build_fixture_traffic : M W unit :=
  now <- clock ;;
  bulk_create_logs (ua_rotation_rows conf now None) ;;;
  bulk_create_logs (subnet_burst_rows conf now None) ;;;
  build_challenge_farm_fixture now 11 0 ;;;
  bulk_create_logs (unsolved_challenge_rows conf now None) ;;;
  bulk_create_logs (cloud_spray_rows conf now None) ;;;
  bulk_create_logs (scraper_404_rows conf now None true true).

(** [run_detector_probe]; [has_redis] as in [run_all_detectors]. *)
Definition run_detector_probe (has_redis dry_run : bool) : M W DetectorProbeReport :=
  result <- atomic true (build_fixture_traffic ;;; run_all_detectors uuid4 conf dry_run true has_redis None) ;;
  ret (detector_report dry_run result.1).

(** The task [probe_detectors]: an exception becomes a report. *)
Definition probe_detectors (has_redis : bool) : M W (DetectorProbeReport + exn) :=
  try_except (r <- run_detector_probe has_redis true ;; ret (inl r)) (λ e, ret (inr e)).
End Probe.

(** ** Counting *)

Lemma count_if_app {A} (p : A → bool) l1 l2 : count_if p (l1 ++ l2) = count_if p l1 + count_if p l2.
Proof. unfold count_if. rewrite List.filter_app, length_app. lia. Qed.

Lemma count_if_all {A} (p : A → bool) l : (∀ x, In x l → p x = true) → count_if p l = Z.of_nat (length l).
Proof.
  induction l as [|x l IH]; intros Hp; [done|]. rewrite count_if_cons, (Hp x (or_introl eq_refl)), IH.
  - cbn [length]. lia.
  - intros y Hy. apply Hp. by right.
Qed.

Lemma NoDup_incl_length {A} (l k : list A) : NoDup l → (∀ x, In x l → In x k) → (length l <= length k)%nat.
Proof.
  intros Hnd Hin. apply submseteq_length, NoDup_submseteq; [done|]. intros x Hx.
  apply list_elem_of_In, Hin. by apply list_elem_of_In.
Qed.

(** At least the given values are seen; at most the given values are. *)
Lemma count_distinct_ge {A} (f : A → string) l ks :
  NoDup ks → (∀ k, In k ks → ∃ x, In x l ∧ f x = k) → Z.of_nat (length ks) <= count_distinct f l.
Proof.
  intros Hnd Hin. unfold count_distinct. apply inj_le, NoDup_incl_length; [done|]. intros k Hk.
  apply list_elem_of_In, elem_of_remove_dups, list_elem_of_In, in_map_iff.
  destruct (Hin k Hk) as (x & Hx & Hf). eauto.
Qed.

Lemma count_distinct_le {A} (f : A → string) l ks :
  (∀ x, In x l → In (f x) ks) → count_distinct f l <= Z.of_nat (length ks).
Proof.
  intros Hin. unfold count_distinct. apply inj_le, NoDup_incl_length; [apply NoDup_remove_dups|].
  intros k Hk. apply list_elem_of_In, elem_of_remove_dups, list_elem_of_In, in_map_iff in Hk as (x & <- & Hx). auto.
Qed.

Lemma remove_dups_NoDup_id (l : list string) : NoDup l → remove_dups l = l.
Proof.
  induction 1 as [|x l Hni Hnd IH]; [done|]. cbn [remove_dups]. destruct (decide_rel (∈) x l); [done|by rewrite IH].
Qed.

Lemma In_groups {A} (f : A → string) l k : In k (groups f l) ↔ ∃ x, In x l ∧ f x = k.
Proof.
  unfold groups. rewrite <- list_elem_of_In, elem_of_remove_dups, list_elem_of_In, in_map_iff. naive_solver.
Qed.

(** The largest entries are taken: one that fewer than [n] others reach. *)
Lemma take_largest {A} `{EqDecision A} (key : A → Z) (l : list A) n x :
  NoDup l → In x l →
  (length (List.filter (λ y, negb (bool_decide (y = x)) && (key x <=? key y)%Z) l) < n)%nat →
  In x (take n (sort_by (λ a b, key b <=? key a) l)).
Proof.
  intros Hnd Hin Hlt. set (s := sort_by _ l).
  assert (Hs : StronglySorted (ordered (λ a b, key b <=? key a)) s).
  { apply sort_by_sorted; intros *; rewrite ?Z.leb_le, ?Z.leb_gt; lia. }
  assert (Hp : Permutation s l) by apply sort_by_perm.
  assert (Hxs : In x (take n s ++ drop n s)) by (rewrite take_drop; by apply sort_by_In).
  apply in_app_iff in Hxs as [|Hd]; [done|]. exfalso.
  assert (Hnds : NoDup (take n s ++ drop n s)) by (rewrite take_drop; by rewrite Hp).
  rewrite <- (take_drop n s) in Hs. apply StronglySorted_app_inv in Hs as [_ Hord].
  assert (Hlen : length (take n s) = n).
  { rewrite length_take. assert (Hl : (0 < length (drop n s))%nat) by (destruct (drop n s); [done|cbn; lia]).
    rewrite length_drop in Hl. lia. }
  enough (Hle : (length (take n s) <= length (List.filter (λ y, negb (bool_decide (y = x)) && (key x <=? key y)%Z) l))%nat) by lia.
  apply NoDup_app in Hnds as (Hnt & Hdis & _). apply NoDup_incl_length; [done|]. intros y Hy.
  apply filter_In. split.
  - apply (sort_by_In (λ a b, key b <=? key a)). fold s. rewrite <- (take_drop n s). apply in_app_iff. by left.
  - apply andb_true_iff. split.
    + apply negb_true_iff, bool_decide_eq_false. intros ->. apply list_elem_of_In in Hy, Hd. by apply (Hdis x).
    + exact (Hord y x Hy Hd).
Qed.

(** ** Runs that find something *)

(** [m] returns, keeps [I] and adds at least [n] rules. *)
Definition finds {S B} (I : S → Prop) (m : M S (list B)) (n : nat) : Prop :=
  ∀ s, I s → ∃ l s', m s = (Ok l, s') ∧ I s' ∧ (n <= length l)%nat.

Section Finds.
Context {S : Type} (I : S → Prop).

Lemma finds_ret {B} (l : list B) n : (n <= length l)%nat → finds I (ret l) n.
Proof. intros Hn s Hs. by exists l, s. Qed.

Lemma finds_less {B} (m : M S (list B)) n n' : (n' <= n)%nat → finds I m n → finds I m n'.
Proof. intros Hn Hm s Hs. destruct (Hm s Hs) as (l & s' & ? & ? & ?). exists l, s'. split_and!; [done|done|lia]. Qed.

(** Steps that return a known kind of value. *)
Lemma finds_bind {A B} (m : M S A) (k : A → M S (list B)) (Q : A → Prop) n :
  (∀ s, I s → ∃ a s', m s = (Ok a, s') ∧ I s' ∧ Q a) → (∀ a, Q a → finds I (k a) n) → finds I (bind m k) n.
Proof. intros Hm Hk s Hs. destruct (Hm s Hs) as (a & s' & E & HI & HQ). rewrite (bind_Ok _ _ _ _ _ E). by apply Hk. Qed.

Lemma finds_app {B} (m1 m2 : M S (list B)) n1 n2 :
  finds I m1 n1 → finds I m2 n2 → finds I (a <- m1 ;; b <- m2 ;; ret (a ++ b)) (n1 + n2).
Proof.
  intros H1 H2 s Hs. destruct (H1 s Hs) as (a & s1 & E1 & HI1 & Hn1).
  destruct (H2 s1 HI1) as (b & s2 & E2 & HI2 & Hn2). rewrite (bind_Ok _ _ _ _ _ E1), (bind_Ok _ _ _ _ _ E2).
  exists (a ++ b), s2. rewrite length_app. split_and!; [done|done|lia].
Qed.

Lemma finds_for_each {A B} (l : list A) (body : A → M S (list B)) (g : A → nat) :
  (∀ x, In x l → finds I (body x) (g x)) → finds I (for_each l body) (sum_list_with g l).
Proof.
  induction l as [|x l IH]; intros Hb; cbn [for_each sum_list_with]; [by apply finds_ret|].
  apply finds_app; [apply Hb; by left|]. apply IH. intros y Hy. apply Hb. by right.
Qed.

(** One element of interest is enough. *)
Lemma finds_one_of {A B} (l : list A) (body : A → M S (list B)) x n :
  In x l → finds I (body x) n → (∀ y, In y l → finds I (body y) 0) → finds I (for_each l body) n.
Proof.
  induction l as [|y l IH]; intros Hin Hx Hall; [done|]. cbn [for_each].
  assert (Hl : ∀ z, In z l → finds I (body z) 0) by (intros z Hz; apply Hall; by right).
  destruct Hin as [->|Hin].
  - replace n with (n + 0)%nat by lia. apply finds_app; [done|].
    replace 0%nat with (sum_list_with (λ _ : A, 0%nat) l) by (clear; induction l; [done|]; by cbn).
    by apply finds_for_each.
  - change n with (0 + n)%nat. apply finds_app; [apply Hall; by left|]. by apply IH.
Qed.

(** Two of them. *)
Lemma finds_two_of {A B} (l : list A) (body : A → M S (list B)) x y :
  x ≠ y → In x l → In y l → finds I (body x) 1 → finds I (body y) 1 →
  (∀ z, In z l → finds I (body z) 0) → finds I (for_each l body) 2.
Proof.
  intros Hne Hx Hy Hbx Hby. revert Hx Hy.
  induction l as [|z l IH]; intros Hx Hy Hall; [done|]. cbn [for_each].
  assert (Hl : ∀ z, In z l → finds I (body z) 0) by (intros; apply Hall; by right).
  destruct Hx as [->|Hx], Hy as [->|Hy]; [done| | |].
  - change 2%nat with (1 + 1)%nat. apply finds_app; [done|]. by apply (finds_one_of l body y).
  - change 2%nat with (1 + 1)%nat. apply finds_app; [done|]. by apply (finds_one_of l body x).
  - change 2%nat with (0 + 2)%nat. apply finds_app; [apply Hall; by left|]. by apply IH.
Qed.
End Finds.

Section DryRun.
Context {R P : Type} `{RedisClient R} `{ReEngine P} `{Dns} (uuid4 : nat → Z) (conf : Conf).
Abbreviation W := (World R P).

(** A dry run only draws identifiers. *)
Definition fresh_at (k : nat) (w : W) : W := {| w with w_fresh := k |}.
Definition up_to_fresh (w s : W) : Prop := ∃ k, s = fresh_at k w.

Lemma up_to_fresh_refl w : up_to_fresh w w.
Proof. exists (w_fresh w). by destruct w. Qed.

(** Invariants under which a dry run's rule reports succeed. *)
Definition dry_inv (I : W → Prop) : Prop := (∀ s, I s → w_db_up s = true) ∧ (∀ s k, I s → I (fresh_at k s)).

Lemma dry_inv_fresh w : w_db_up w = true → dry_inv (up_to_fresh w).
Proof. intros Hup. split; [by intros s [k ->]|]. intros s j [k ->]. by exists j. Qed.

Lemma create_rule_finds I d name rt mt pat act expiry confidence ev :
  dry_inv I → finds I (create_rule uuid4 conf true true d name rt mt pat act expiry confidence ev) 1.
Proof.
  intros [Hup Hfr] s Hs. unfold create_rule, get_or_create_auto_rule. unfold bind at 1, bind at 1, select.
  rewrite (db_read_up _ s (Hup s Hs)). destruct (first_row _) as [row|].
  - by exists [row], s.
  - unfold clock, gets, draw, bind, ret. eexists _, (fresh_at (S (w_fresh s)) s). by split_and!; [|apply Hfr|].
Qed.

Lemma finds_read {A B} w (f : W → A) (k : A → M W (list B)) n :
  w_db_up w = true → (∀ j, f (fresh_at j w) = f w) → finds (up_to_fresh w) (k (f w)) n →
  finds (up_to_fresh w) (bind (db_read f) k) n.
Proof.
  intros Hup Hf Hk. apply (finds_bind _ _ _ (λ a, a = f w)); [|by intros a ->].
  intros s [j ->]. rewrite db_read_up by done. exists (f (fresh_at j w)), (fresh_at j w).
  split_and!; [done|by exists j|apply Hf].
Qed.

Lemma finds_clock {B} w (k : Z → M W (list B)) n :
  finds (up_to_fresh w) (k (w_now w)) n → finds (up_to_fresh w) (bind clock k) n.
Proof.
  intros Hk. apply (finds_bind _ _ _ (λ a, a = w_now w)); [|by intros a ->]. intros s [j ->].
  by exists (w_now w), (fresh_at j w); split_and!; [|exists j|].
Qed.

(** *** What makes each detector report *)

Section Detect.
Variable w : W.
Hypothesis Hup : w_db_up w = true.
Abbreviation now := (w_now w).
Abbreviation log := (w_request_log w).
Abbreviation Fin := (finds (up_to_fresh w)).

Lemma create_finds d name rt mt pat act expiry confidence ev :
  Fin (create_rule uuid4 conf true true d name rt mt pat act expiry confidence ev) 1.
Proof. apply create_rule_finds. by apply dry_inv_fresh. Qed.

Lemma create_finds_any d name rt mt pat act expiry confidence ev :
  Fin (create_rule uuid4 conf true true d name rt mt pat act expiry confidence ev) 0.
Proof. eapply finds_less, create_finds. lia. Qed.

Lemma ua_rotation_finds window ip :
  let rows := List.filter (of_ip ip) (List.filter (since (now - window * minute_us)) log) in
  0 <= DJANGO_WAF_ANOMALY_THRESHOLD_DISTINCT_UAS conf < count_distinct rl_user_agent rows →
  Fin (detect_ua_rotation uuid4 conf true true window None) 1.
Proof.
  intros rows Hn. apply finds_clock, finds_read; [done|done|]. cbn [default].
  apply (finds_one_of _ _ _ (ip, count_distinct rl_user_agent rows)).
  - unfold ua_rotation_suspects. apply filter_In. split; [|exact (proj2 (Z.ltb_lt _ _) (proj2 Hn))].
    apply in_map_iff. exists ip. split; [done|]. apply In_groups.
    destruct rows as [|r rows'] eqn:E; [unfold count_distinct in Hn; cbn in Hn; lia|].
    assert (Hr : In r (r :: rows')) by by left. rewrite <- E in Hr. unfold rows in Hr.
    apply filter_In in Hr as [Hr Hip]. unfold of_ip in Hip. bool_hyps. eauto.
  - apply create_finds.
  - intros [ip' n'] _. apply create_finds_any.
Qed.

Lemma subnet_burst_finds window s :
  let n := count_if (λ r, since (now - window * minute_us) r && in_subnet s r) log in
  0 < n → DJANGO_WAF_ANOMALY_THRESHOLD_SUBNET_BURST_MIN_COUNT conf <= n →
  Fin (detect_subnet_burst uuid4 conf true true window) 1.
Proof.
  intros n Hpos Hmin. apply finds_clock, finds_read; [done|done|].
  set (logs := map rl_ip_address _). set (counts := subnet_counts _).
  assert (Hin : In (s, n) counts).
  { assert (Hw : subnet_weight s (map (λ ip, (ip, 1)) logs) = n) by (unfold logs; by rewrite weight_ones, count_if_filter).
    exact (subnet_In s n _ Hw Hpos). }
  cbv zeta. clearbody counts. destruct counts as [|c0 counts0] eqn:Ec; [done|]. rewrite <- Ec in *. clear Ec.
  apply (finds_one_of _ _ _ (s, n)); [done| |].
  - destruct (burst _ _ n) eqn:Eb; cbn [negb]; [apply create_finds|]. exfalso.
    unfold burst in Eb. apply negb_false_iff, andb_true_iff in Eb as [Hlt _]. bool_hyps. lia.
  - intros [s' m] _. destruct (negb _); [by apply finds_ret|apply create_finds_any].
Qed.

Lemma challenge_farms_finds window rep :
  In rep (w_reputation w) → farm_suspect (now - window * hour_us) rep = true →
  Fin (detect_challenge_farms uuid4 conf true true window) 1.
Proof.
  intros Hin Hs. apply finds_clock, finds_read; [done|done|].
  apply (finds_one_of _ _ _ rep); [by apply filter_In|apply create_finds|intros; apply create_finds_any].
Qed.

Lemma unsolved_subnets_find solved_ips by_ip window :
  Fin (detect_unsolved_by_subnet uuid4 conf true true by_ip solved_ips now window) 0.
Proof.
  eapply finds_less, (finds_for_each _ _ _ (λ _, 0%nat)); [lia|]. intros [s total] _. cbv zeta.
  repeat (case_match; [by apply finds_ret|]).
  apply finds_read; [done|done|]. apply create_finds_any.
Qed.

Lemma ratio_one a b : 0 < a → a = b → (inject_Z a / inject_Z b == 1)%Q.
Proof. intros Ha <-. field. intros He. apply (inject_Z_injective a 0) in He. lia. Qed.

Lemma unsolved_finds window ip :
  let seen := List.filter (λ r, since (now - window * minute_us) r && challenged_row r) log in
  let pages := List.filter (λ r, since (now - window * minute_us) r && negb (bool_decide (rl_path r = "/"))) log in
  0 <= DJANGO_WAF_UNSOLVED_MIN_CHALLENGED conf < count_if (of_ip ip) seen →
  0 < count_if (of_ip ip) pages → (∀ r, In r pages → of_ip ip r = true → rl_referer r = "") →
  Qle_bool (DJANGO_WAF_UNSOLVED_REFERER_RATIO conf) 1 = true →
  (∀ t, In t (w_tokens w) → ct_ip_address t ≠ ip) →
  Fin (detect_unsolved_challenges uuid4 conf true true window None None None) 1.
Proof.
  intros seen pages Hn Hpos Href Hratio Htok. unfold detect_unsolved_challenges. apply finds_clock.
  apply finds_read; [done|done|]. apply finds_read; [done|done|]. apply finds_read; [done|done|].
  set (solved := solved_since _ _).
  assert (Hsolved : ip ∉ solved).
  { unfold solved, solved_since. rewrite list_elem_of_In, in_map_iff. intros (t & Ht & Hin).
    apply filter_In in Hin as [Hin _]. by apply (Htok t). }
  change 1%nat with (1 + 0)%nat. apply finds_app; [|apply unsolved_subnets_find].
  unfold detect_unsolved_per_ip. cbn [default].
  set (candidates := List.filter _ (challenged_counts _ _)).
  assert (Hin : In (ip, count_if (of_ip ip) seen) candidates).
  { apply filter_In. split; [|apply Z.leb_le; lia]. apply in_map_iff. exists ip. split; [done|].
    apply In_groups. destruct (List.filter (of_ip ip) seen) as [|r l] eqn:E.
    { unfold count_if in Hn. rewrite E in Hn. cbn in Hn. lia. }
    assert (Hr : In r (r :: l)) by by left. rewrite <- E in Hr. apply filter_In in Hr as [Hr Hip].
    unfold of_ip in Hip. bool_hyps. eauto. }
  clearbody candidates. destruct candidates as [|c cs] eqn:Ec; [done|]. rewrite <- Ec in *. clear Ec.
  apply finds_read; [done|done|]. fold pages. apply (finds_one_of _ _ _ (ip, count_if (of_ip ip) seen)); [done| |].
  - rewrite bool_decide_false by done. rewrite (proj2 (Z.eqb_neq _ _)) by lia.
    replace (count_if (λ r, of_ip ip r && str_empty (rl_referer r)) pages) with (count_if (of_ip ip) pages).
    2: { unfold count_if. do 2 f_equal. apply filter_ext_in. intros r Hr. destruct (of_ip ip r) eqn:E; [|done].
         by rewrite (Href r Hr E). }
    assert (Hq : Qle_bool (DJANGO_WAF_UNSOLVED_REFERER_RATIO conf)
                   (inject_Z (count_if (of_ip ip) pages) / inject_Z (count_if (of_ip ip) pages))%Q = true).
    { apply Qle_bool_iff. rewrite ratio_one by done. by apply Qle_bool_iff. }
    rewrite Hq. cbn [negb]. apply create_finds.
  - intros [ip' m] _. repeat (case_match; try by apply finds_ret). apply create_finds_any.
Qed.

(** The addresses of a User-Agent that sent without referer. *)
Definition spray_rows (cutoff : Z) (ua : string) (rows : list RequestLog) : list RequestLog :=
  List.filter (λ r, since cutoff r && bool_decide (rl_user_agent r = ua) && no_referer r) rows.

Lemma spray_rows_counted cutoff ua rows :
  ua ≠ "" →
  List.filter (λ r, bool_decide (rl_user_agent r = ua))
    (List.filter (λ r, since cutoff r && no_referer r && negb (str_empty (rl_user_agent r))) rows)
  = spray_rows cutoff ua rows.
Proof.
  intros Hne. unfold spray_rows. rewrite <- filter_and. apply List.filter_ext. intros r.
  case_bool_decide as E; [|by destruct (since _ _), (no_referer r), (str_empty _)].
  rewrite E, (str_empty_false _ Hne). by destruct (since _ _), (no_referer r).
Qed.

(** The User-Agents that more than [n] addresses share, and which come first. *)
Definition wider_uas (cutoff n : Z) (rows : list RequestLog) : list string :=
  List.filter (λ ua, n <=? count_distinct rl_ip_address (spray_rows cutoff ua rows))
    (groups rl_user_agent (List.filter (λ r, since cutoff r && no_referer r && negb (str_empty (rl_user_agent r))) rows)).

Lemma spray_uas_In cutoff min_ips top_n ua rows :
  let n := count_distinct rl_ip_address (spray_rows cutoff ua rows) in
  ua ≠ "" → 0 < min_ips <= n →
  (length (List.filter (λ u, negb (bool_decide (u = ua))) (wider_uas cutoff n rows)) < Z.to_nat top_n)%nat →
  In ua (spray_uas cutoff min_ips top_n rows).
Proof.
  intros n Hne Hn Hlt. unfold spray_uas. set (seen := List.filter _ rows). set (counted := map _ (groups rl_user_agent seen)).
  assert (Hcount : ∀ u c, In (u, c) counted → c = count_distinct rl_ip_address (spray_rows cutoff u rows) ∧
                                              In u (groups rl_user_agent seen)).
  { intros u c (u' & [= -> <-] & Hu)%in_map_iff. split; [|done]. unfold seen. rewrite spray_rows_counted; [done|].
    apply In_groups in Hu as (r & Hr & <-). apply filter_In in Hr as [_ Hr]. bool_hyps. by destruct (rl_user_agent r). }
  assert (Hnd : NoDup (map fst counted)).
  { unfold counted. rewrite map_map, map_id. apply NoDup_remove_dups. }
  apply in_map_iff. exists (ua, n). split; [done|]. apply (take_largest snd).
  - apply filter_NoDup. by eapply NoDup_fmap_1.
  - apply filter_In. split; [|apply Z.leb_le; lia]. apply in_map_iff. exists ua. split.
    + unfold seen. by rewrite spray_rows_counted.
    + apply In_groups. destruct (spray_rows cutoff ua rows) as [|r l] eqn:E.
      { unfold n, count_distinct in Hn. rewrite ?E in Hn. cbn in Hn. lia. }
      assert (Hr : In r (r :: l)) by by left. rewrite <- E, <- spray_rows_counted in Hr by done.
      apply filter_In in Hr as [Hr Hu]. bool_hyps. by exists r.
  - eapply Nat.le_lt_trans, Hlt. set (big := List.filter _ (List.filter _ counted)).
    replace (length big) with (length (map fst big)) by apply length_map.
    assert (Hbig : ∀ u c, In (u, c) big → In (u, c) counted ∧ (u, c) ≠ (ua, n) ∧ n <= c).
    { intros u c [Hin Hb]%filter_In. apply filter_In in Hin as [Hin _]. bool_hyps. by split_and!. }
    apply NoDup_incl_length.
    + unfold big. by do 2 apply NoDup_map_filter.
    + intros u ([u' c] & Hu & Hin)%in_map_iff. cbn in Hu. subst u'. apply Hbig in Hin as (Hin & Hneq & Hle).
      destruct (Hcount _ _ Hin) as [-> Hg]. apply filter_In. split.
      * apply filter_In. split; [exact Hg|by apply Z.leb_le].
      * apply negb_true_iff, bool_decide_eq_false. intros ->. by apply Hneq.
Qed.

Lemma ua_rule_any (b : bool) d name rt mt pat act expiry confidence ev :
  Fin (if b then create_rule uuid4 conf true true d name rt mt pat act expiry confidence ev else ret []) 0.
Proof. destruct b; [apply create_finds_any|by apply finds_ret]. Qed.

Lemma subnet_rule_any (b : bool) d name rt mt pat act expiry confidence ev :
  Fin (if b then ret [] else create_rule uuid4 conf true true d name rt mt pat act expiry confidence ev) 0.
Proof. destruct b; [by apply finds_ret|apply create_finds_any]. Qed.

Lemma cloud_spray_ua_any window ua ips : Fin (cloud_spray_ua uuid4 conf true true now window ua ips) 0.
Proof.
  change 0%nat with (0 + 0)%nat. apply finds_app; [apply ua_rule_any|].
  eapply finds_less, (finds_for_each _ _ _ (λ _, 0%nat)); [lia|]. intros [s m] _. apply subnet_rule_any.
Qed.

Lemma cloud_spray_ua_finds window ua ips s :
  2 <= subnet_weight s (map (λ ip, (ip, 1)) ips) → Fin (cloud_spray_ua uuid4 conf true true now window ua ips) 1.
Proof.
  intros Hw. change 1%nat with (0 + 1)%nat. apply finds_app; [apply ua_rule_any|].
  apply (finds_one_of _ _ _ (s, subnet_weight s (map (λ ip, (ip, 1)) ips))).
  - apply subnet_In; [done|lia].
  - rewrite (proj2 (Z.ltb_ge _ _)) by done. apply create_finds.
  - intros [s' m] _. apply subnet_rule_any.
Qed.

Lemma cloud_spray_finds window ua s :
  let cutoff := now - window * minute_us in
  let n := count_distinct rl_ip_address (spray_rows cutoff ua log) in
  let ips := suspicious_ips cutoff (DJANGO_WAF_CLOUD_SPRAY_MAX_REQUESTS_PER_IP conf) ua log in
  ua ≠ "" → 0 < DJANGO_WAF_CLOUD_SPRAY_MIN_IPS conf <= n →
  (length (List.filter (λ u, negb (bool_decide (u = ua))) (wider_uas cutoff n log))
     < Z.to_nat (DJANGO_WAF_CLOUD_SPRAY_TOP_N conf))%nat →
  DJANGO_WAF_CLOUD_SPRAY_MIN_IPS conf <= Z.of_nat (length ips) →
  2 <= subnet_weight s (map (λ ip, (ip, 1)) ips) →
  Fin (detect_cloud_spray uuid4 conf true true window) 1.
Proof.
  intros cutoff n ips Hne Hn Htop Hips Hw. apply finds_clock, finds_read; [done|done|].
  apply (finds_one_of _ _ _ ua).
  - by apply spray_uas_In.
  - apply finds_read; [done|done|]. fold ips. rewrite (proj2 (Z.ltb_ge _ _)) by done.
    by apply (cloud_spray_ua_finds window ua ips s).
  - intros ua' _. apply finds_read; [done|done|]. destruct (_ <? _); [by apply finds_ret|apply cloud_spray_ua_any].
Qed.
End Detect.

(** *** The scraper detector asks the rule engine *)

(** What the scan over the candidates keeps. *)
Definition scan_inv (t : Z) (s : W) : Prop := memo_ok s ∧ w_db_up s = true ∧ w_now s = t.

Lemma scan_dry t : dry_inv (scan_inv t).
Proof. split; [by intros s (_ & ? & _)|]. intros s k (Hm & ? & ?). by split_and!. Qed.

Lemma scan_on_redis t {A} (m : Z → M R A) : preserves (scan_inv t) (on_redis m).
Proof. intros s Hs. unfold on_redis. by destruct (m _ _). Qed.

Lemma scan_memo_only t w w' : memo_only w w' → memo_ok w' → scan_inv t w → scan_inv t w'.
Proof. intros Ho Hm (_ & ? & ?). rewrite Ho in Hm |- *. by split_and!. Qed.

Lemma scan_rule_matches t rule ip ua : preserves (scan_inv t) (rule_matches rule ip ua).
Proof.
  intros s Hs. destruct (rule_matches_refines rule ip ua s (proj1 Hs)) as (s' & -> & Hm & Ho).
  by apply (scan_memo_only t s).
Qed.

Lemma scan_rdns t rule ip : preserves (scan_inv t) (rdns_satisfied conf rule ip).
Proof.
  unfold rdns_satisfied, verify_rdns.
  repeat first [apply preserves_bind; [|intros] | apply preserves_lift | apply preserves_ret | apply scan_on_redis
               | match goal with |- preserves _ (match ?x with _ => _ end) => destruct x end].
Qed.

Lemma scan_check_allow t ip ua rules : preserves (scan_inv t) (check_allow_rules conf ip ua rules).
Proof.
  induction rules as [|rule rules IH]; cbn [check_allow_rules]; [apply preserves_ret|].
  apply preserves_bind; [apply preserves_gets|intros].
  apply preserves_bind; [apply preserves_lift|intros [|]]; [done|].
  apply preserves_bind; [apply scan_rule_matches|intros [|]]; cbn [negb]; [|done].
  apply preserves_bind; [apply scan_rdns|intros [|]]; cbn [negb]; [|done].
  apply preserves_bind; [apply preserves_lift|intros; apply preserves_ret].
Qed.

Lemma scan_excluded t ip uas rules s :
  scan_inv t s → ∃ b s', scraper_candidate_matches_allow_rule conf ip uas rules s = (Ok b, s') ∧ scan_inv t s'.
Proof.
  revert s. induction uas as [|ua uas IH]; intros s Hs; cbn [scraper_candidate_matches_allow_rule]; [by exists false, s|].
  pose proof (scan_check_allow t ip ua rules s Hs) as Hp. unfold bind, try_except.
  destruct (check_allow_rules conf ip ua rules s) as [[r|e] s1]; [|by exists true, s1].
  cbn [ret]. destruct (bool_decide _); [by exists true, s1|]. by apply IH.
Qed.

(** Rules that do not apply let the candidate through. *)
Lemma check_allow_skips t ip ua rules s :
  Forall (skipped t ip ua) rules → scan_inv t s →
  ∃ s', check_allow_rules conf ip ua rules s = (Ok None, s') ∧ scan_inv t s'.
Proof.
  intros Hf. revert s. induction Hf as [|rule rules Hr _ IH]; intros s Hs; cbn [check_allow_rules]; [by exists s|].
  unfold bind at 1, clock, gets. rewrite (proj2 (proj2 Hs)). unfold bind at 1, lift_res.
  destruct Hr as [He|[He Hr]]; rewrite He; [by apply IH|].
  destruct (rule_matches_refines rule ip ua s (proj1 Hs)) as (s1 & Hm & Hok & Ho). rewrite Hr in Hm.
  rewrite (bind_Ok _ _ _ _ _ Hm). cbn [negb]. apply IH. by apply (scan_memo_only t s).
Qed.

Lemma scan_not_excluded t ip uas rules s :
  (∀ ua, In ua uas → Forall (skipped t ip ua) rules) → scan_inv t s →
  ∃ s', scraper_candidate_matches_allow_rule conf ip uas rules s = (Ok false, s') ∧ scan_inv t s'.
Proof.
  revert s. induction uas as [|ua uas IH]; intros s Hf Hs; cbn [scraper_candidate_matches_allow_rule]; [by exists s|].
  destruct (check_allow_skips t ip ua rules s (Hf ua (or_introl eq_refl)) Hs) as (s1 & Hc & Hs1).
  unfold bind, try_except. rewrite Hc. cbn. apply IH; [|done]. intros u Hu. apply Hf. by right.
Qed.

(** The worker's copy of the rules is current. *)
Definition cache_current (c : RuleCache P) (s : W) : Prop :=
  ∃ raw, get_key RULES_VERSION_KEY s = (Ok raw, s) ∧ w_process_cache s = Some c ∧
    match raw with
    | Some v => if str_empty v then Ok 0 else match py_int v with Some n => Ok n | None => Raise ValueError end
    | None => Ok 0
    end = Ok (w_process_cache_version s).

Lemma load_current c s : cache_current c s → load_rule_cache s = (Ok c, s).
Proof.
  intros (raw & Hk & Hc & Hv). unfold load_rule_cache. rewrite (bind_Ok _ _ _ _ _ Hk).
  unfold bind at 1, lift_res. rewrite Hv. unfold bind at 1, gets. rewrite Hc, Z.eqb_refl. done.
Qed.

Lemma scraper_finds w c ip1 v1 ip2 v2 :
  let cutoff := w_now w - DJANGO_WAF_SCRAPER_404_WINDOW_MINUTES conf * minute_us in
  let candidates := scraper_candidates cutoff (DJANGO_WAF_SCRAPER_404_MIN_REQUESTS conf)
                      (DJANGO_WAF_SCRAPER_404_RATIO conf) (w_request_log w) in
  let passed ip := ∀ ua, In ua (user_agents_of cutoff ip (w_request_log w)) →
                     Forall (skipped (w_now w) ip ua) (rc_allow_rules c) in
  w_db_up w = true → memo_ok w → cache_current c w → ip1 ≠ ip2 →
  In (ip1, v1) candidates → passed ip1 → In (ip2, v2) candidates → passed ip2 →
  ∀ s, up_to_fresh w s →
  ∃ l s', detect_scraper_404_ratio uuid4 conf true true true None s = (Ok l, s') ∧ (2 <= length l)%nat.
Proof.
  intros cutoff candidates passed Hup Hmemo Hcache Hne Hin1 Hp1 Hin2 Hp2 s [k ->].
  unfold detect_scraper_404_ratio. cbn [default]. unfold bind at 1, clock, gets. cbn [fresh_at w_now]. fold cutoff.
  rewrite (bind_Ok _ _ _ _ _ (db_read_up _ (fresh_at k w) Hup)). cbn [fresh_at w_request_log]. fold candidates.
  assert (Hload : allow_rules_for_run true candidates (fresh_at k w) = (Ok (Some (rc_allow_rules c)), fresh_at k w)).
  { assert (Hcur : cache_current c (fresh_at k w)).
    { destruct Hcache as (raw & Hk & Hc & Hv). exists raw. split; [|by split].
      revert Hk. unfold get_key, on_redis. cbn [fresh_at w_now w_redis].
      destruct (redis_get _ _ _) as [r rd]. intros [= -> Hw]. apply (f_equal w_redis) in Hw. cbn in Hw. by subst rd. }
    unfold allow_rules_for_run. destruct candidates as [|x l]; [done|]. cbn [negb].
    unfold try_except. by rewrite (bind_Ok _ _ _ _ _ (load_current c _ Hcur)). }
  rewrite (bind_Ok _ _ _ _ _ Hload).
  rewrite (bind_Ok _ _ _ _ _ (db_read_up _ (fresh_at k w) Hup)). cbn [fresh_at w_request_log].
  assert (Hs : scan_inv (w_now w) (fresh_at k w)) by by split_and!.
  assert (Hbody : ∀ ip v, passed ip → finds (scan_inv (w_now w)) ((λ '(ip, (total, count_404)),
      excluded <- scraper_candidate_matches_allow_rule conf ip (user_agents_of cutoff ip (w_request_log w)) (rc_allow_rules c) ;;
      if excluded : bool then ret [] else
        create_rule uuid4 conf true true "detect_scraper_404_ratio" ("Auto: scraper 404 ratio from " +:+ ip) RuleType_IP
          MatchType_EXACT ip (if DJANGO_WAF_SCRAPER_404_ACTION_BLOCK conf then RuleAction_BLOCK else RuleAction_CHALLENGE)
          (expiry_of conf (w_now w))
          (scaled_confidence (inject_Z count_404 / inject_Z total)%Q (DJANGO_WAF_SCRAPER_404_RATIO conf)
             (1 - DJANGO_WAF_SCRAPER_404_RATIO conf)%Q)
          [("total_requests", str_of_Z total); ("count_404", str_of_Z count_404);
           ("ratio", show_num (PyFloat (inject_Z count_404 / inject_Z total)%Q));
           ("window_minutes", str_of_Z (DJANGO_WAF_SCRAPER_404_WINDOW_MINUTES conf))]) (ip, v)) 1).
  { intros ip [total n] Hp s0 Hs0. destruct (scan_not_excluded _ ip _ _ s0 Hp Hs0) as (s1 & He & Hs1).
    rewrite (bind_Ok _ _ _ _ _ He). cbn iota. by apply create_rule_finds; [apply scan_dry|]. }
  destruct (finds_two_of (scan_inv (w_now w)) candidates _ (ip1, v1) (ip2, v2) ltac:(congruence) Hin1 Hin2
              (Hbody ip1 v1 Hp1) (Hbody ip2 v2 Hp2)) with (fresh_at k w) as (l & s' & Hrun & _ & Hl); [|exact Hs|].
  - intros [ip [total n]] _ s0 Hs0. destruct (scan_excluded _ ip (user_agents_of cutoff ip (w_request_log w))
      (rc_allow_rules c) s0 Hs0) as (b & s1 & He & Hs1).
    rewrite (bind_Ok _ _ _ _ _ He). destruct b; [by exists [], s1|].
    eapply finds_less; [|by apply create_rule_finds, scan_dry|exact Hs1]. lia.
  - exists l, s'. split; [exact Hrun|exact Hl].
Qed.
End DryRun.

(** ** The fixture traffic *)

Lemma wrap_inj p q s1 s2 : p +:+ s1 +:+ q = p +:+ s2 +:+ q → s1 = s2.
Proof.
  intros [_ Hs]%str_app_inv_same_length; [|done]. pose proof (f_equal String.length Hs) as Hl.
  rewrite !str_app_length in Hl. apply str_app_inv_same_length in Hs as [Hs _]; [done|lia].
Qed.

Lemma rotation_ua_inj i j : rotation_ua i = rotation_ua j → i = j.
Proof. intros Hs. apply str_of_Z_inj. eapply (wrap_inj (PROBE_UA +:+ " (ua-rotation-fixture-") ")"). exact Hs. Qed.

Lemma spray_ip_inj i j : spray_ip i = spray_ip j → i = j.
Proof.
  intros Hs. assert (20 + i = 20 + j); [|lia]. apply str_of_Z_inj.
  apply (wrap_inj CLOUD_SPRAY_SUBNET_BASE ""). by rewrite !str_app_nil_r.
Qed.

Lemma NoDup_map_inj {A B} (f : A → B) l : (∀ x y, f x = f y → x = y) → NoDup l → NoDup (map f l).
Proof. intros Hf Hl. apply NoDup_fmap_2; [intros x y; apply Hf|done]. Qed.

(** The addresses that carry fixture rows other than the spray. *)
Definition fixed_ips : list string :=
  [UA_ROTATION_IP; UNSOLVED_CHALLENGE_IP; SCRAPER_404_IP; SCRAPER_404_NGINX_IP] ++ map burst_ip [0; 1; 2; 3; 4; 5].

Lemma burst_ip_mod i : burst_ip i = burst_ip (i mod 6).
Proof. unfold burst_ip. by rewrite Z.mod_mod by lia. Qed.

Lemma mod6_cases i : i mod 6 ∈ [0; 1; 2; 3; 4; 5].
Proof. pose proof (Z.mod_pos_bound i 6 ltac:(lia)). assert (i mod 6 = 0 ∨ i mod 6 = 1 ∨ i mod 6 = 2 ∨ i mod 6 = 3 ∨ i mod 6 = 4 ∨ i mod 6 = 5) as Hc by lia.
  rewrite !elem_of_cons. tauto. Qed.

Lemma burst_ip_In i : In (burst_ip i) (map burst_ip [0; 1; 2; 3; 4; 5]).
Proof. rewrite burst_ip_mod. apply in_map, list_elem_of_In, mod6_cases. Qed.

Lemma burst_ip_subnet i : get_subnet_prefix (burst_ip i) = Ok "198.51.100.0/24".
Proof.
  apply (bool_decide_unpack (get_subnet_prefix (burst_ip i) = Ok "198.51.100.0/24")).
  pose proof (burst_ip_In i) as Hin. revert Hin. generalize (burst_ip i). clear. intros ip Hin.
  repeat (destruct Hin as [<-|Hin]; [vm_compute; exact I|]). destruct Hin.
Qed.

Section Traffic.
Context {R P : Type} `{RedisClient R} `{ReEngine P} `{Dns} (uuid4 : nat → Z) (conf : Conf).
Abbreviation W := (World R P).

Definition fixture_logs (now : Z) : list RequestLog :=
  ua_rotation_rows conf now None ++ subnet_burst_rows conf now None ++ unsolved_challenge_rows conf now None ++
  cloud_spray_rows conf now None ++ scraper_404_rows conf now None true true.

Definition with_traffic (w : W) (rows : list RequestLog) (reps : list IPReputation) : W :=
  {| {| w with w_request_log := rows |} with w_reputation := reps |}.

Definition fixture_world (w : W) : W :=
  with_traffic w (w_request_log w ++ fixture_logs (w_now w)) (w_reputation w ++ [farm_reputation (w_now w) 11 0]).

(** The last octet of the spray fixture stays below 256 up to a minimum of 235. *)
Lemma fixtures_typed t :
  DJANGO_WAF_CLOUD_SPRAY_MIN_IPS conf <= 235 → forallb typed_address (fixture_logs t) = true.
Proof.
  intros Hmin. apply forallb_forall. intros r Hr. unfold typed_address.
  assert (Hb : ∀ i, In (burst_ip i) (map burst_ip [0; 1; 2; 3; 4; 5])) by apply burst_ip_In.
  unfold fixture_logs, scraper_404_rows, ua_rotation_rows, subnet_burst_rows, unsolved_challenge_rows,
    cloud_spray_rows in Hr. rewrite !in_app_iff, !in_map_iff in Hr.
  assert (Hspray : forallb (λ i, match ip_address (spray_ip i) with Some _ => true | None => false end) (seqZ 0 236) = true)
    by (vm_compute; reflexivity).
  destruct Hr as [(i & <- & _)|[(i & <- & _)|[(i & <- & _)|[(i & <- & Hi)|[(i & <- & _)|(i & <- & _)]]]]];
    try reflexivity; cbn [rl_ip_address fixture_row].
  - specialize (Hb i). revert Hb. generalize (burst_ip i). intros ip Hin.
    repeat (destruct Hin as [<-|Hin]; [reflexivity|]). destruct Hin.
  - rewrite forallb_forall in Hspray. apply Hspray. apply list_elem_of_In, elem_of_seqZ.
    apply list_elem_of_In, elem_of_seqZ in Hi. cbn in Hi. lia.
Qed.

Lemma bulk_create_run new w rows reps :
  forallb typed_address new = true → w_db_up w = true →
  bulk_create_logs new (with_traffic w rows reps) = (Ok tt, with_traffic w (rows ++ new) reps).
Proof. intros Hn Hup. unfold bulk_create_logs. rewrite Hn. exact (db_write_up _ (with_traffic w rows reps) Hup). Qed.

Lemma build_fixture_traffic_run w rows reps :
  DJANGO_WAF_CLOUD_SPRAY_MIN_IPS conf <= 235 → w_db_up w = true → Forall (λ r, ir_ip_address r ≠ CHALLENGE_FARM_IP) reps →
  build_fixture_traffic conf (with_traffic w rows reps) =
  (Ok tt, with_traffic w (rows ++ fixture_logs (w_now w)) (reps ++ [farm_reputation (w_now w) 11 0])).
Proof.
  intros Hmin Hup Hfarm. pose proof (fixtures_typed (w_now w) Hmin) as Hall. unfold fixture_logs in Hall.
  rewrite !forallb_app, !andb_true_iff in Hall. destruct Hall as (T1 & T2 & T3 & T4 & T5).
  unfold build_fixture_traffic. unfold bind at 1, clock, gets. cbn [with_traffic w_now].
  assert (Hf : ∀ rows, build_challenge_farm_fixture (w_now w) 11 0 (with_traffic w rows reps) =
    (Ok tt, with_traffic w rows (reps ++ [farm_reputation (w_now w) 11 0]))).
  { intros l. unfold build_challenge_farm_fixture. rewrite (bind_Ok _ _ _ _ _ (db_read_up _ (with_traffic w l reps) Hup)).
    assert (existsb (λ r, bool_decide (ir_ip_address r = CHALLENGE_FARM_IP)) reps = false) as Hno.
    { apply existsb_false_iff. intros r Hr. rewrite List.Forall_forall in Hfarm.
      apply bool_decide_eq_false. exact (Hfarm r Hr). }
    cbn [with_traffic w_reputation]. rewrite Hno. exact (db_write_up _ (with_traffic w l reps) Hup). }
  rewrite (bind_Ok _ _ _ _ _ (bulk_create_run _ w _ _ T1 Hup)), (bind_Ok _ _ _ _ _ (bulk_create_run _ w _ _ T2 Hup)),
    (bind_Ok _ _ _ _ _ (Hf _)), (bind_Ok _ _ _ _ _ (bulk_create_run _ w _ _ T3 Hup)),
    (bind_Ok _ _ _ _ _ (bulk_create_run _ w _ _ T4 Hup)), bulk_create_run by done.
  unfold fixture_logs. by rewrite <- !app_assoc.
Qed.

Lemma build_fixture_run w :
  DJANGO_WAF_CLOUD_SPRAY_MIN_IPS conf <= 235 → w_db_up w = true → Forall (λ r, ir_ip_address r ≠ CHALLENGE_FARM_IP) (w_reputation w) →
  build_fixture_traffic conf w = (Ok tt, fixture_world w).
Proof.
  intros Hmin Hup Hfarm. etransitivity; [|exact (build_fixture_traffic_run w _ _ Hmin Hup Hfarm)]. f_equal. by destruct w.
Qed.

(** Every fixture row is one of six. *)
Lemma fixture_cases t r :
  In r (fixture_logs t) →
  (∃ i, r = fixture_row t UA_ROTATION_IP (rotation_ua i) "/" ALLOWED None MIDDLEWARE) ∨
  (∃ i, r = fixture_row t (burst_ip i) PROBE_UA "/" ALLOWED None MIDDLEWARE) ∨
  (∃ i, r = fixture_row t UNSOLVED_CHALLENGE_IP PROBE_UA ("/fixture-path-" +:+ str_of_Z i +:+ "/") CHALLENGED None
              MIDDLEWARE) ∨
  (∃ i, r = fixture_row t (spray_ip i) spray_ua "/" ALLOWED None MIDDLEWARE) ∨
  (∃ path, r = fixture_row t SCRAPER_404_IP PROBE_UA path ALLOWED (Some 404) MIDDLEWARE) ∨
  (∃ path, r = fixture_row t SCRAPER_404_NGINX_IP PROBE_UA path ALLOWED (Some 404) NGINX_LOG).
Proof.
  unfold fixture_logs, scraper_404_rows. rewrite !in_app_iff. unfold ua_rotation_rows, subnet_burst_rows,
    unsolved_challenge_rows, cloud_spray_rows. rewrite !in_map_iff. naive_solver.
Qed.

(** All of them are recent, without referer, and marked by their User-Agent. *)
Lemma fixture_common t r :
  In r (fixture_logs t) →
  rl_timestamp r = t ∧ rl_referer r = "" ∧ starts_with PROBE_UA (rl_user_agent r) = true ∧
  (rl_user_agent r ≠ spray_ua → In (rl_ip_address r) fixed_ips).
Proof.
  intros Hr. split_and!.
  - destruct (fixture_cases t r Hr) as [[? ->]|[[? ->]|[[? ->]|[[? ->]|[[? ->]|[? ->]]]]]]; done.
  - destruct (fixture_cases t r Hr) as [[? ->]|[[? ->]|[[? ->]|[[? ->]|[[? ->]|[? ->]]]]]]; done.
  - destruct (fixture_cases t r Hr) as [[? ->]|[[? ->]|[[? ->]|[[? ->]|[[? ->]|[? ->]]]]]];
      cbn [rl_user_agent fixture_row]; try done; apply starts_with_app.
  - destruct (fixture_cases t r Hr) as [[? ->]|[[? ->]|[[? ->]|[[? ->]|[[? ->]|[? ->]]]]]];
      cbn [rl_user_agent rl_ip_address fixture_row]; intros Hu; try done; unfold fixed_ips;
      (rewrite in_app_iff; first [right; apply burst_ip_In | left; cbn; tauto]).
Qed.

(** The settings the fixtures are built for. *)
Record ordinary_settings : Prop := {
  os_uas : 0 <= DJANGO_WAF_ANOMALY_THRESHOLD_DISTINCT_UAS conf;
  os_burst : 0 <= DJANGO_WAF_ANOMALY_THRESHOLD_SUBNET_BURST_MIN_COUNT conf;
  os_challenged : 0 <= DJANGO_WAF_UNSOLVED_MIN_CHALLENGED conf;
  os_referer : Qle_bool (DJANGO_WAF_UNSOLVED_REFERER_RATIO conf) 1 = true;
  os_spray : 10 <= DJANGO_WAF_CLOUD_SPRAY_MIN_IPS conf <= 235;
  os_per_ip : 1 <= DJANGO_WAF_CLOUD_SPRAY_MAX_REQUESTS_PER_IP conf;
  os_scraper : 0 <= DJANGO_WAF_SCRAPER_404_MIN_REQUESTS conf;
  os_ratio : Qle_bool (DJANGO_WAF_SCRAPER_404_RATIO conf) 1 = true;
  os_window : 0 <= DJANGO_WAF_SCRAPER_404_WINDOW_MINUTES conf;
}.

(** A site where the fixtures do not collide with real rows, and where fewer
    than TOP_N User-Agents are shared by more addresses than the fixture's. *)
Record quiet_site (w : W) : Prop := {
  qs_ips : Forall (λ r, rl_ip_address r ∉ [UA_ROTATION_IP; UNSOLVED_CHALLENGE_IP; SCRAPER_404_IP; SCRAPER_404_NGINX_IP])
             (w_request_log w);
  qs_uas : Forall (λ r, starts_with PROBE_UA (rl_user_agent r) = false) (w_request_log w);
  qs_reputation : Forall (λ r, ir_ip_address r ≠ CHALLENGE_FARM_IP) (w_reputation w);
  qs_tokens : Forall (λ t, ct_ip_address t ≠ UNSOLVED_CHALLENGE_IP) (w_tokens w);
  qs_spray : Z.of_nat (length (wider_uas (w_now w - 30 * minute_us) (DJANGO_WAF_CLOUD_SPRAY_MIN_IPS conf + 1)
                                (w_request_log w))) < DJANGO_WAF_CLOUD_SPRAY_TOP_N conf;
}.

Section Site.
Variable w : W.
Hypothesis Hset : ordinary_settings.
Hypothesis Hquiet : quiet_site w.
Abbreviation now := (w_now w).
Abbreviation fixtures := (fixture_logs (w_now w)).
Abbreviation all_logs := (w_request_log w ++ fixture_logs (w_now w)).

Lemma fixture_since r m : In r fixtures → 0 <= m → since (now - m * minute_us) r = true.
Proof.
  intros (Ht & _)%fixture_common Hm. unfold since. rewrite Ht. apply Z.leb_le. unfold minute_us, usec. lia.
Qed.

(** Rows of an address of the four come from the fixtures only. *)
Lemma only_fixtures r ip :
  In r all_logs → rl_ip_address r = ip →
  ip ∈ [UA_ROTATION_IP; UNSOLVED_CHALLENGE_IP; SCRAPER_404_IP; SCRAPER_404_NGINX_IP] → In r fixtures.
Proof.
  intros [Hr|Hr]%in_app_iff Hip Hin; [|done]. pose proof (qs_ips w Hquiet) as Hq. rewrite List.Forall_forall in Hq.
  subst ip. by destruct (Hq r Hr).
Qed.

Lemma rotation_in i :
  0 <= i < DJANGO_WAF_ANOMALY_THRESHOLD_DISTINCT_UAS conf + 1 →
  In (fixture_row now UA_ROTATION_IP (rotation_ua i) "/" ALLOWED None MIDDLEWARE) all_logs.
Proof.
  intros Hi. apply in_app_iff. right. unfold fixture_logs. apply in_app_iff. left. unfold ua_rotation_rows.
  apply in_map_iff. exists i. split; [done|]. by apply list_elem_of_In, elem_of_seqZ.
Qed.

Lemma rotation_distinct :
  0 <= DJANGO_WAF_ANOMALY_THRESHOLD_DISTINCT_UAS conf <
  count_distinct rl_user_agent (List.filter (of_ip UA_ROTATION_IP)
    (List.filter (since (now - 5 * minute_us)) all_logs)).
Proof.
  pose proof (os_uas Hset) as Hthr. split; [done|]. set (n := DJANGO_WAF_ANOMALY_THRESHOLD_DISTINCT_UAS conf) in *.
  assert (Hl : Z.of_nat (length (map rotation_ua (seqZ 0 (n + 1)))) = n + 1) by (rewrite length_map, length_seqZ; lia).
  enough (n + 1 <= count_distinct rl_user_agent (List.filter (of_ip UA_ROTATION_IP)
    (List.filter (since (now - 5 * minute_us)) all_logs))) by lia.
  rewrite <- Hl. apply count_distinct_ge.
  - apply NoDup_map_inj; [apply rotation_ua_inj|apply NoDup_seqZ].
  - intros k (i & <- & Hi)%in_map_iff. apply list_elem_of_In, elem_of_seqZ in Hi.
    exists (fixture_row now UA_ROTATION_IP (rotation_ua i) "/" ALLOWED None MIDDLEWARE). split; [|done].
    apply filter_In. split; [|by apply bool_decide_eq_true]. apply filter_In. split; [by apply rotation_in|].
    unfold since. apply Z.leb_le. cbn. unfold minute_us, usec. lia.
Qed.

(** A condition that holds of [n] fixture rows is met at least [n] times. *)
Lemma count_part p l1 part l2 n :
  w_request_log w ++ fixtures = l1 ++ part ++ l2 → Z.of_nat (length part) = n →
  (∀ r, In r part → p r = true) → n <= count_if p all_logs.
Proof.
  intros -> <- Hp. rewrite !count_if_app, (count_if_all p part Hp).
  pose proof (count_if_nonneg p l1). pose proof (count_if_nonneg p l2). lia.
Qed.

Lemma burst_count :
  DJANGO_WAF_ANOMALY_THRESHOLD_SUBNET_BURST_MIN_COUNT conf + 1 <=
  count_if (λ r, since (now - 15 * minute_us) r && in_subnet "198.51.100.0/24" r) all_logs.
Proof.
  eapply (count_part _ (w_request_log w ++ ua_rotation_rows conf now None) (subnet_burst_rows conf now None)).
  - unfold fixture_logs. by rewrite <- !app_assoc.
  - unfold subnet_burst_rows. rewrite length_map, length_seqZ. cbn [default]. pose proof (os_burst Hset). lia.
  - intros r (i & <- & _)%in_map_iff. apply andb_true_iff. split.
    + unfold since. apply Z.leb_le. cbn. unfold minute_us, usec. lia.
    + unfold in_subnet. apply bool_decide_eq_true, burst_ip_subnet.
Qed.

(** *** The unsolved challenge *)

Definition unsolved_page (cutoff : Z) (r : RequestLog) : bool :=
  since cutoff r && negb (bool_decide (rl_path r = "/")).

Lemma unsolved_part p :
  (∀ i, p (fixture_row now UNSOLVED_CHALLENGE_IP PROBE_UA ("/fixture-path-" +:+ str_of_Z i +:+ "/") CHALLENGED None
             MIDDLEWARE) = true) →
  DJANGO_WAF_UNSOLVED_MIN_CHALLENGED conf + 1 <= count_if p all_logs.
Proof.
  intros Hp. eapply (count_part p (w_request_log w ++ ua_rotation_rows conf now None ++ subnet_burst_rows conf now None)
                       (unsolved_challenge_rows conf now None)).
  - unfold fixture_logs. by rewrite <- !app_assoc.
  - unfold unsolved_challenge_rows. rewrite length_map, length_seqZ. cbn [default]. pose proof (os_challenged Hset). lia.
  - intros r (i & <- & _)%in_map_iff. apply Hp.
Qed.

Lemma unsolved_seen :
  DJANGO_WAF_UNSOLVED_MIN_CHALLENGED conf <
  count_if (of_ip UNSOLVED_CHALLENGE_IP) (List.filter (λ r, since (now - 60 * minute_us) r && challenged_row r) all_logs).
Proof.
  rewrite count_if_filter. apply Z.lt_le_trans with (DJANGO_WAF_UNSOLVED_MIN_CHALLENGED conf + 1); [lia|].
  apply unsolved_part. intros i. assert (Hs : ∀ r, rl_timestamp r = now → since (now - 60 * minute_us) r = true).
  { intros r Hr. unfold since. rewrite Hr. apply Z.leb_le. unfold minute_us, usec. lia. }
  rewrite Hs by done. done.
Qed.

Lemma unsolved_pages :
  0 < count_if (of_ip UNSOLVED_CHALLENGE_IP) (List.filter (unsolved_page (now - 60 * minute_us)) all_logs).
Proof.
  rewrite count_if_filter. apply Z.lt_le_trans with (DJANGO_WAF_UNSOLVED_MIN_CHALLENGED conf + 1);
    [pose proof (os_challenged Hset); lia|].
  apply unsolved_part. intros i. assert (Hs : ∀ r, rl_timestamp r = now → since (now - 60 * minute_us) r = true).
  { intros r Hr. unfold since. rewrite Hr. apply Z.leb_le. unfold minute_us, usec. lia. }
  unfold unsolved_page. rewrite Hs by done. done.
Qed.

Lemma no_referer_of r ip :
  In r all_logs → of_ip ip r = true →
  ip ∈ [UA_ROTATION_IP; UNSOLVED_CHALLENGE_IP; SCRAPER_404_IP; SCRAPER_404_NGINX_IP] → rl_referer r = "".
Proof.
  intros Hr Hip Hin. unfold of_ip in Hip. bool_hyps. by destruct (fixture_common _ r (only_fixtures r ip Hr Hip Hin)) as (_ & ? & _).
Qed.

(** *** The cloud spray *)

Lemma no_referer_row r : rl_referer r = "" → no_referer r = true.
Proof. unfold no_referer. by intros ->. Qed.

Lemma real_rows_of_probe_ua cutoff ua :
  starts_with PROBE_UA ua = true → spray_rows cutoff ua (w_request_log w) = [].
Proof.
  intros Hua. apply filter_none. intros r Hr. pose proof (qs_uas w Hquiet) as Hq. rewrite List.Forall_forall in Hq.
  rewrite (bool_decide_false (rl_user_agent r = ua)); [by rewrite andb_false_r|].
  intros <-. by rewrite (Hq r Hr) in Hua.
Qed.

Lemma spray_rows_app cutoff ua l1 l2 : spray_rows cutoff ua (l1 ++ l2) = spray_rows cutoff ua l1 ++ spray_rows cutoff ua l2.
Proof. apply List.filter_app. Qed.

Lemma other_fixture_rows cutoff l :
  (∀ r, In r l → rl_user_agent r ≠ spray_ua) → spray_rows cutoff spray_ua l = [].
Proof.
  intros Hl. apply filter_none. intros r Hr. rewrite (bool_decide_false (rl_user_agent r = spray_ua)) by auto.
  by rewrite andb_false_r.
Qed.

Lemma spray_rows_exact :
  spray_rows (now - 30 * minute_us) spray_ua all_logs = cloud_spray_rows conf now None.
Proof.
  rewrite spray_rows_app, real_rows_of_probe_ua by done. unfold fixture_logs, scraper_404_rows.
  rewrite !spray_rows_app, !(other_fixture_rows _ (ua_rotation_rows _ _ _)), (other_fixture_rows _ (subnet_burst_rows _ _ _)),
    (other_fixture_rows _ (unsolved_challenge_rows _ _ _)), !(other_fixture_rows _ (map _ _)), !app_nil_r.
  - unfold spray_rows. apply filter_all. intros r (i & <- & _)%in_map_iff.
    unfold since. cbn [fixture_row rl_timestamp rl_user_agent]. rewrite (proj2 (Z.leb_le _ _)) by (unfold minute_us, usec; lia).
    by rewrite bool_decide_true.
  - intros r (i & <- & _)%in_map_iff. done.
  - intros r (i & <- & _)%in_map_iff. done.
  - intros r (i & <- & _)%in_map_iff. done.
  - intros r (i & <- & _)%in_map_iff. done.
  - intros r (i & <- & _)%in_map_iff. done.
Qed.

Definition spray_ips : list string := map spray_ip (seqZ 0 (DJANGO_WAF_CLOUD_SPRAY_MIN_IPS conf + 1)).

Lemma spray_row_ips : map rl_ip_address (cloud_spray_rows conf now None) = spray_ips.
Proof. unfold cloud_spray_rows, spray_ips. rewrite map_map. by apply map_ext. Qed.

Lemma spray_ips_NoDup : NoDup spray_ips.
Proof. apply NoDup_map_inj; [apply spray_ip_inj|apply NoDup_seqZ]. Qed.

Lemma spray_ips_length : Z.of_nat (length spray_ips) = DJANGO_WAF_CLOUD_SPRAY_MIN_IPS conf + 1.
Proof. unfold spray_ips. rewrite length_map, length_seqZ. pose proof (os_spray Hset). lia. Qed.

Lemma spray_distinct :
  count_distinct rl_ip_address (spray_rows (now - 30 * minute_us) spray_ua all_logs)
  = DJANGO_WAF_CLOUD_SPRAY_MIN_IPS conf + 1.
Proof.
  rewrite spray_rows_exact. unfold count_distinct. rewrite spray_row_ips.
  rewrite remove_dups_NoDup_id by apply spray_ips_NoDup. apply spray_ips_length.
Qed.

(** A value that the keys repeat at most once is counted at most once. *)
Lemma count_unique (l : list RequestLog) ip : NoDup (map rl_ip_address l) → count_if (of_ip ip) l <= 1.
Proof.
  induction l as [|r l IH]; [done|]. cbn [map]. intros [Hni Hnd]%NoDup_cons. rewrite count_if_cons.
  unfold of_ip at 1. case_bool_decide as E; [|specialize (IH Hnd); lia].
  assert (count_if (of_ip ip) l = 0); [|lia]. unfold count_if. rewrite filter_none; [done|].
  intros x Hx. apply bool_decide_eq_false. intros Hi. apply Hni. rewrite E, <- Hi. by apply list_elem_of_In, in_map.
Qed.

Lemma suspicious_exact :
  suspicious_ips (now - 30 * minute_us) (DJANGO_WAF_CLOUD_SPRAY_MAX_REQUESTS_PER_IP conf) spray_ua all_logs = spray_ips.
Proof.
  unfold suspicious_ips. fold (spray_rows (now - 30 * minute_us) spray_ua all_logs). rewrite spray_rows_exact.
  unfold groups. rewrite spray_row_ips, remove_dups_NoDup_id by apply spray_ips_NoDup. apply filter_all. intros ip _.
  apply Z.leb_le. etransitivity; [|exact (os_per_ip Hset)]. apply count_unique. rewrite spray_row_ips. apply spray_ips_NoDup.
Qed.

Lemma weight_nonneg s (ips : list string) : 0 <= subnet_weight s (map (λ ip, (ip, 1)) ips).
Proof. induction ips as [|ip ips IH]; cbn [map subnet_weight]; [lia|]. case_bool_decide; lia. Qed.

Lemma spray_weight : 2 <= subnet_weight "203.0.113.0/24" (map (λ ip, (ip, 1)) spray_ips).
Proof.
  unfold spray_ips. pose proof (os_spray Hset). rewrite seqZ_cons, seqZ_cons by lia. cbn [map subnet_weight].
  change (Z.succ 0) with 1. pose proof (weight_nonneg "203.0.113.0/24" (map spray_ip (seqZ (Z.succ 1)
    (Z.pred (Z.pred (DJANGO_WAF_CLOUD_SPRAY_MIN_IPS conf + 1)))))) as Hw.
  rewrite !bool_decide_true by (vm_compute; reflexivity). lia.
Qed.

(** The User-Agents ahead of the fixture's are those of the real log. *)
Lemma ahead_of_fixture :
  (length (List.filter (λ u, negb (bool_decide (u = spray_ua)))
     (wider_uas (now - 30 * minute_us) (DJANGO_WAF_CLOUD_SPRAY_MIN_IPS conf + 1) all_logs))
   < Z.to_nat (DJANGO_WAF_CLOUD_SPRAY_TOP_N conf))%nat.
Proof.
  pose proof (qs_spray w Hquiet) as Hq. set (real := wider_uas _ _ (w_request_log w)) in Hq.
  apply Nat.le_lt_trans with (length real); [|lia].
  apply NoDup_incl_length; [apply filter_NoDup, filter_NoDup, NoDup_remove_dups|]. intros u Hu.
  apply filter_In in Hu as [Hu Hne]. apply negb_true_iff, bool_decide_eq_false in Hne.
  apply filter_In in Hu as [Hg Hn]. apply Z.leb_le in Hn. apply In_groups in Hg as (r & Hr & Hru).
  apply filter_In in Hr as [Hr Hc].
  destruct (starts_with PROBE_UA u) eqn:Eu.
  - exfalso. rewrite spray_rows_app, real_rows_of_probe_ua in Hn by done. cbn [app] in Hn.
    assert (Hle : count_distinct rl_ip_address (spray_rows (now - 30 * minute_us) u fixtures) <= 10).
    { change 10 with (Z.of_nat (length fixed_ips)). apply count_distinct_le. intros x [Hx Hxu]%filter_In. bool_hyps.
      destruct (fixture_common _ x Hx) as (_ & _ & _ & Hf). apply Hf. congruence. }
    pose proof (os_spray Hset). lia.
  - assert (Hnone : spray_rows (now - 30 * minute_us) u fixtures = []).
    { apply filter_none. intros x Hx. destruct (fixture_common _ x Hx) as (_ & _ & Hf & _).
      rewrite (bool_decide_false (rl_user_agent x = u)); [by rewrite andb_false_r|]. intros <-. congruence. }
    rewrite spray_rows_app, Hnone, app_nil_r in Hn. apply filter_In. split; [|by apply Z.leb_le].
    apply In_groups. exists r. split; [|done]. apply filter_In. split; [|done].
    apply in_app_iff in Hr as [Hr|Hr]; [done|]. destruct (fixture_common _ r Hr) as (_ & _ & Hf & _). congruence.
Qed.

(** *** The scraper *)

Definition scraper_part (ip : string) : list RequestLog :=
  List.filter (of_ip ip) (scraper_404_rows conf now None true true).

Lemma scraper_ip_prefix base s :
  base +:+ s ∈ [SCRAPER_404_IP; SCRAPER_404_NGINX_IP] →
  starts_with base SCRAPER_404_IP = false → starts_with base SCRAPER_404_NGINX_IP = false → False.
Proof.
  rewrite !elem_of_cons, elem_of_nil. pose proof (starts_with_app base s) as Hs.
  intros [E|[E|[]]] H1' H2'; rewrite E in Hs; congruence.
Qed.

Lemma scraper_row r ip :
  ip ∈ [SCRAPER_404_IP; SCRAPER_404_NGINX_IP] → In r all_logs → of_ip ip r = true →
  reached_app r = true ∧ rl_response_code r = Some 404 ∧ rl_user_agent r = PROBE_UA ∧ In r fixtures.
Proof.
  intros Hin Hr Hip. unfold of_ip in Hip. apply bool_decide_eq_true in Hip.
  assert (Hf : In r fixtures) by (apply (only_fixtures r ip Hr Hip); set_solver).
  rewrite <- Hip in Hin. clear Hip Hr.
  destruct (fixture_cases _ r Hf) as [[i ->]|[[i ->]|[[i ->]|[[i ->]|[[path ->]|[path ->]]]]]];
    cbn [fixture_row rl_ip_address] in Hin; try by split_and!.
  - apply (bool_decide_eq_true_2 _) in Hin. by vm_compute in Hin.
  - by destruct (scraper_ip_prefix SUBNET_BURST_SUBNET_BASE _ Hin).
  - apply (bool_decide_eq_true_2 _) in Hin. by vm_compute in Hin.
  - by destruct (scraper_ip_prefix CLOUD_SPRAY_SUBNET_BASE _ Hin).
Qed.

Lemma scraper_count ip :
  ip ∈ [SCRAPER_404_IP; SCRAPER_404_NGINX_IP] →
  DJANGO_WAF_SCRAPER_404_MIN_REQUESTS conf + 1 <= count_if (of_ip ip) all_logs.
Proof.
  intros Hin. pose proof (os_scraper Hset). set (pre := w_request_log w ++ ua_rotation_rows conf now None ++
    subnet_burst_rows conf now None ++ unsolved_challenge_rows conf now None ++ cloud_spray_rows conf now None).
  set (n := DJANGO_WAF_SCRAPER_404_MIN_REQUESTS conf + 1).
  set (mw := map (λ i, fixture_row now SCRAPER_404_IP PROBE_UA
               ("/scraper-404-fixture-path-" +:+ str_of_Z i +:+ "/") ALLOWED (Some 404) MIDDLEWARE) (seqZ 0 n)).
  set (ng := map (λ i, fixture_row now SCRAPER_404_NGINX_IP PROBE_UA
               ("/scraper-404-nginx-fixture-path-" +:+ str_of_Z i +:+ "/") ALLOWED (Some 404) NGINX_LOG) (seqZ 0 n)).
  assert (Hall : all_logs = pre ++ mw ++ ng).
  { unfold fixture_logs, pre. rewrite <- !app_assoc. by change (scraper_404_rows conf now None true true) with (mw ++ ng). }
  clearbody pre. rewrite !elem_of_cons, elem_of_nil in Hin. destruct Hin as [->|[->|[]]].
  - apply (count_part _ pre mw ng); [exact Hall| |].
    + unfold mw. rewrite length_map, length_seqZ. lia.
    + intros r (i & <- & _)%in_map_iff. by apply bool_decide_eq_true.
  - apply (count_part _ (pre ++ mw) ng []); [by rewrite app_nil_r, <- app_assoc| |].
    + unfold ng. rewrite length_map, length_seqZ. lia.
    + intros r (i & <- & _)%in_map_iff. by apply bool_decide_eq_true.
Qed.

Lemma scraper_candidate ip :
  ip ∈ [SCRAPER_404_IP; SCRAPER_404_NGINX_IP] →
  ∃ v, In (ip, v) (scraper_candidates (now - DJANGO_WAF_SCRAPER_404_WINDOW_MINUTES conf * minute_us)
    (DJANGO_WAF_SCRAPER_404_MIN_REQUESTS conf) (DJANGO_WAF_SCRAPER_404_RATIO conf) all_logs).
Proof.
  intros Hin. pose proof (scraper_count ip Hin) as Hn. pose proof (os_scraper Hset) as Hmin.
  unfold scraper_candidates. set (cutoff := now - _). set (rows := List.filter _ all_logs).
  assert (Hrows : ∀ r, In r all_logs → of_ip ip r = true → In r rows).
  { intros r Hr Hip. destruct (scraper_row r ip Hin Hr Hip) as (Ha & _ & _ & Hf). apply filter_In. split; [done|].
    apply andb_true_iff. split; [done|]. apply fixture_since; [done|]. exact (os_window Hset). }
  assert (Htotal : count_if (of_ip ip) rows = count_if (of_ip ip) all_logs).
  { unfold rows. rewrite count_if_filter. unfold count_if. do 2 f_equal. apply filter_ext_in. intros r Hr.
    destruct (of_ip ip r) eqn:E; [|by rewrite andb_false_r]. specialize (Hrows r Hr E). apply filter_In in Hrows as [_ ->]. done. }
  assert (H404 : count_if (λ r, of_ip ip r && bool_decide (rl_response_code r = Some 404)) rows = count_if (of_ip ip) rows).
  { unfold count_if. do 2 f_equal. apply filter_ext_in. intros r Hr. destruct (of_ip ip r) eqn:E; [|done].
    apply filter_In in Hr as [Hr _]. destruct (scraper_row r ip Hin Hr E) as (_ & -> & _). by rewrite bool_decide_true. }
  eexists. apply filter_In. split.
  - apply in_map_iff. exists ip. split; [reflexivity|]. apply In_groups.
    destruct (List.filter (of_ip ip) all_logs) as [|r l] eqn:E; [unfold count_if in Hn; rewrite E in Hn; cbn in Hn; lia|].
    assert (Hr : In r (r :: l)) by by left. rewrite <- E in Hr. apply filter_In in Hr as [Hr Hip].
    exists r. split; [by apply Hrows|]. unfold of_ip in Hip. by bool_hyps.
  - cbn beta iota. rewrite H404, Htotal. apply andb_true_iff. split; [apply Z.leb_le; lia|].
    apply Qle_bool_iff. rewrite ratio_one; [|lia|done]. apply Qle_bool_iff. exact (os_ratio Hset).
Qed.

Lemma scraper_user_agents ip ua cutoff :
  ip ∈ [SCRAPER_404_IP; SCRAPER_404_NGINX_IP] → In ua (user_agents_of cutoff ip all_logs) → ua = PROBE_UA.
Proof.
  intros Hin Hua. apply In_groups in Hua as (r & Hr & <-). apply filter_In in Hr as [Hr Hip]. bool_hyps.
  by destruct (scraper_row r ip Hin Hr) as (_ & _ & ? & _).
Qed.

Lemma farm_fixture_suspect : farm_suspect (now - 24 * hour_us) (farm_reputation now 11 0) = true.
Proof.
  unfold farm_suspect. cbn [farm_reputation ir_last_seen_at ir_challenge_failures ir_challenge_passes].
  rewrite (proj2 (Z.leb_le _ _)) by (unfold hour_us, usec; lia). done.
Qed.
End Site.

(** The run over the fixtures, detector by detector. *)
Lemma fixture_run w c :
  ordinary_settings → quiet_site w → w_db_up w = true → memo_ok w → cache_current c w →
  (∀ ip, ip ∈ [SCRAPER_404_IP; SCRAPER_404_NGINX_IP] → Forall (skipped (w_now w) ip PROBE_UA) (rc_allow_rules c)) →
  ∃ n1 n2 n3 n4 n5 n6 total s',
    run_all_detectors uuid4 conf true true true None (fixture_world w) = (Ok ([n1; n2; n3; n4; n5; n6], total), s') ∧
    1 <= n1 ∧ 1 <= n2 ∧ 1 <= n3 ∧ 1 <= n4 ∧ 1 <= n5 ∧ 2 <= n6.
Proof.
  intros Hset Hq Hup Hmemo Hcache Hskip. set (v := fixture_world w). set (I := up_to_fresh v).
  assert (H1' : finds I (detect_ua_rotation uuid4 conf true true 5 None) 1).
  { apply (ua_rotation_finds uuid4 conf v Hup 5 UA_ROTATION_IP). exact (rotation_distinct w Hset). }
  assert (H2' : finds I (detect_subnet_burst uuid4 conf true true 15) 1).
  { pose proof (burst_count w Hset). pose proof (os_burst Hset).
    apply (subnet_burst_finds uuid4 conf v Hup 15 "198.51.100.0/24"); cbn [v fixture_world with_traffic w_now w_request_log]; lia. }
  assert (H3' : finds I (detect_challenge_farms uuid4 conf true true 24) 1).
  { apply (challenge_farms_finds uuid4 conf v Hup 24 (farm_reputation (w_now w) 11 0)); [|exact (farm_fixture_suspect w)].
    apply in_app_iff. right. by left. }
  assert (H4' : finds I (detect_unsolved_challenges uuid4 conf true true 60 None None None) 1).
  { apply (unsolved_finds uuid4 conf v Hup 60 UNSOLVED_CHALLENGE_IP); [|exact (unsolved_pages w Hset)| |exact (os_referer Hset)|].
    - split; [exact (os_challenged Hset)|exact (unsolved_seen w Hset)].
    - intros r [Hr _]%filter_In Hip. apply (no_referer_of w Hq r UNSOLVED_CHALLENGE_IP Hr Hip). set_solver.
    - intros t Ht. pose proof (qs_tokens w Hq) as Hf. rewrite List.Forall_forall in Hf. exact (Hf t Ht). }
  assert (H5' : finds I (detect_cloud_spray uuid4 conf true true 30) 1).
  { pose proof (spray_distinct w Hset Hq) as Hd. pose proof (os_spray Hset).
    apply (cloud_spray_finds uuid4 conf v Hup 30 spray_ua "203.0.113.0/24").
    - done.
    - cbn [v fixture_world with_traffic w_now w_request_log]. rewrite Hd. lia.
    - cbn [v fixture_world with_traffic w_now w_request_log]. rewrite Hd. by apply ahead_of_fixture.
    - cbn [v fixture_world with_traffic w_now w_request_log]. rewrite suspicious_exact by done.
      rewrite spray_ips_length by done. lia.
    - cbn [v fixture_world with_traffic w_now w_request_log]. rewrite suspicious_exact by done. by apply spray_weight. }
  unfold run_all_detectors. cbn [default].
  destruct (H1' v (up_to_fresh_refl v)) as (l1 & s1 & E1 & I1 & L1). rewrite (bind_Ok _ _ _ _ _ E1).
  destruct (H2' s1 I1) as (l2 & s2 & E2 & I2 & L2). rewrite (bind_Ok _ _ _ _ _ E2).
  destruct (H3' s2 I2) as (l3 & s3 & E3 & I3 & L3). rewrite (bind_Ok _ _ _ _ _ E3).
  destruct (H4' s3 I3) as (l4 & s4 & E4 & I4 & L4). rewrite (bind_Ok _ _ _ _ _ E4).
  destruct (H5' s4 I4) as (l5 & s5 & E5 & I5 & L5). rewrite (bind_Ok _ _ _ _ _ E5).
  destruct (scraper_candidate w Hset Hq SCRAPER_404_IP ltac:(set_solver)) as [v1 Hv1].
  destruct (scraper_candidate w Hset Hq SCRAPER_404_NGINX_IP ltac:(set_solver)) as [v2 Hv2].
  destruct (scraper_finds uuid4 conf v c SCRAPER_404_IP v1 SCRAPER_404_NGINX_IP v2 Hup Hmemo) with s5
    as (l6 & s6 & E6 & L6); [|discriminate|exact Hv1| |exact Hv2| |exact I5|].
  - destruct Hcache as (raw & Hk & Hc & Hver). exists raw. split; [|by split].
    revert Hk. unfold get_key, on_redis. change (w_now v) with (w_now w). change (w_redis v) with (w_redis w).
    destruct (redis_get _ _ _) as [r rd]. intros [= -> Hw]. apply (f_equal w_redis) in Hw. cbn in Hw. by subst rd.
  - intros ua Hua. rewrite (scraper_user_agents w Hset Hq SCRAPER_404_IP ua _ ltac:(set_solver) Hua). apply Hskip. set_solver.
  - intros ua Hua. rewrite (scraper_user_agents w Hset Hq SCRAPER_404_NGINX_IP ua _ ltac:(set_solver) Hua). apply Hskip. set_solver.
  - rewrite (bind_Ok _ _ _ _ _ E6). do 8 eexists. split; [reflexivity|]. cbn [map]. lia.
Qed.
End Traffic.

(** ** Properties *)

Module DetectorProbeProps.

(** However it ends, and in either mode, the probe changes no row. *)
Lemma detector_probe_changes_no_row {R P} `{RedisClient R} `{ReEngine P} `{Dns} uuid4 conf has_redis dry_run
    (w : World R P) :
  stored_rows (run_detector_probe uuid4 conf has_redis dry_run w).2 = stored_rows w.
Proof.
  unfold run_detector_probe, bind. match goal with |- context [atomic true ?m w] =>
    pose proof (atomic_rolls_back m w) as Ha; destruct (atomic true m w) as [[r|e] w'] end; exact Ha.
Qed.

(** The report of a run. *)
Lemma alive_report dry n1 n2 n3 n4 n5 n6 :
  1 <= n1 → 1 <= n2 → 1 <= n3 → 1 <= n4 → 1 <= n5 → 2 <= n6 →
  let rep := detector_report dry [n1; n2; n3; n4; n5; n6] in
  dp_all_alive rep = true ∧ dp_silent_detectors rep = [].
Proof.
  intros H1 H2 H3 H4 H5 H6. unfold detector_report, DETECTOR_NAMES. cbn [map dp_all_alive dp_silent_detectors].
  set (l := map dl_name _). enough (l = []) as -> by done. unfold l.
  assert (Hl : ∀ name n m, result_get [n1; n2; n3; n4; n5; n6] (result_key name) = n → min_rules_reported name = m →
            m <= n → probe_line [n1; n2; n3; n4; n5; n6] name = {| dl_name := name; dl_alive := true; dl_rules_reported := n |}).
  { intros name n m Hn Hm Hle. unfold probe_line. rewrite Hn, Hm. by rewrite (proj2 (Z.leb_le _ _) Hle). }
  rewrite (Hl "detect_challenge_farms" n3 1), (Hl "detect_cloud_spray" n5 1), (Hl "detect_scraper_404_ratio" n6 2),
    (Hl "detect_subnet_burst" n2 1), (Hl "detect_ua_rotation" n1 1), (Hl "detect_unsolved_challenges" n4 1); done.
Qed.

(** C30: a dry run of the probe hears every detector.  In a worker that holds a
    current copy of the rules, with Redis and the database answering, with
    ordinary settings (thresholds that are not negative, ratios of at most one,
    the minimum of the cloud spray between 10 and 235), on a site whose real rows
    do not use the fixtures' addresses or User-Agent, where fewer than TOP_N
    User-Agents are more widely shared than the fixture's and no allow rule in
    force covers the fixture, the probe reports all six detectors alive whatever
    else the tables hold, and leaves every table as it was. *)
Theorem healthy_detectors_are_alive {R P} `{RedisClient R} `{ReEngine P} `{Dns} uuid4 (conf : Conf)
    (c : RuleCache P) (w : World R P) :
  ordinary_settings conf → quiet_site conf w → w_db_up w = true → memo_ok w → cache_current c w →
  (∀ ip, ip ∈ [SCRAPER_404_IP; SCRAPER_404_NGINX_IP] → Forall (skipped (w_now w) ip PROBE_UA) (rc_allow_rules c)) →
  ∃ rep w', run_detector_probe uuid4 conf true true w = (Ok rep, w') ∧
    map dl_name (dp_detectors rep) = DETECTOR_NAMES ∧
    dp_all_alive rep = true ∧ dp_silent_detectors rep = [] ∧ stored_rows w' = stored_rows w.
Proof.
  intros Hset Hq Hup Hmemo Hcache Hskip.
  pose proof (detector_probe_changes_no_row uuid4 conf true true w) as Hrows. revert Hrows.
  unfold run_detector_probe. unfold bind at 1 3, atomic.
  rewrite (bind_Ok _ _ _ _ _ (build_fixture_run conf w (proj2 (os_spray conf Hset)) Hup (qs_reputation conf w Hq))).
  destruct (fixture_run uuid4 conf w c Hset Hq Hup Hmemo Hcache Hskip)
    as (n1 & n2 & n3 & n4 & n5 & n6 & total & s' & Hrun & L1 & L2 & L3 & L4 & L5 & L6).
  rewrite Hrun. cbn [ret fst snd]. intros Hrows. eexists _, _. split; [reflexivity|]. split; [reflexivity|].
  destruct (alive_report true n1 n2 n3 n4 n5 n6 L1 L2 L3 L4 L5 L6) as [Ha Hs]. by split_and!.
Qed.
(** *** Witness: real traffic, and a worker whose rule cache holds one allow rule *)

#[local] Instance no_dns : Dns := {| gethostbyaddr _ := None; getaddrinfo _ := None |}.

Definition partner_rule : AllowRule :=
  {| ar_id := 3; ar_name := "Partner"; ar_rule_type := RuleType_UA; ar_match_type := MatchType_EXACT;
     ar_pattern := "partner-fetcher/2"; ar_verify_rdns := false; ar_rdns_pattern := ""; ar_is_active := true;
     ar_source := RuleSource_ADMIN; ar_expires_at := None; ar_confidence := 100; ar_feed_first_seen := None;
     ar_feed_reporters := 0; ar_notes := "" |}.

Definition worker_cache : RuleCache LiteRe :=
  {| rc_version := 0; rc_allow_rules := [json_of_allow_rule partner_rule]; rc_block_rules := []; rc_ua_regex_set := [] |}.

Definition with_cache (w : World MemRedis LiteRe) : World MemRedis LiteRe :=
  {| {| w with w_process_cache := Some worker_cache |} with w_process_cache_version := 0 |}.

(** A burst, a rejected rule on one of the fixtures' patterns. *)
Definition served_site : World MemRedis LiteRe :=
  with_cache (DetectorsProps.log_world [AutoRuleProps.sample_rule] DetectorsProps.swarm).

Lemma healthy_detectors_are_alive_witness :
  ∃ rep w', run_detector_probe Z.of_nat (default_conf "s") true true served_site = (Ok rep, w') ∧
    dp_all_alive rep = true ∧ stored_rows w' = stored_rows served_site.
Proof.
  destruct (healthy_detectors_are_alive Z.of_nat (default_conf "s") worker_cache served_site)
    as (rep & w' & Hrun & _ & Ha & _ & Hr).
  - split; try (split; discriminate); reflexivity || discriminate.
  - split; try (apply (bool_decide_unpack _); vm_compute; exact I).
  - reflexivity.
  - intros p k. vm_compute. discriminate.
  - exists None. split_and!; reflexivity.
  - intros ip Hip. constructor; [|constructor]. right. split; [reflexivity|]. reflexivity.
  - exists rep, w'. split; [exact Hrun|]. split; [exact Ha|exact Hr].
Defined.

(** Five (TOP_N) User-Agents, each sent four times by 22 addresses, are nobody's
    spray, but they are wider than the fixture's 21 addresses, which are not
    looked at: the working detector is reported silent. *)
Definition shared_uas : list RequestLog :=
  flat_map (λ ua, flat_map (λ i, replicate 4 (fixture_row (999 * usec) ("10.0.0." +:+ str_of_Z i)
                                   ("app/" +:+ str_of_Z ua) "/" ALLOWED (Some 200) MIDDLEWARE)) (seqZ 1 22))
    [1; 2; 3; 4; 5].

Definition silent_on (has_redis : bool) (log : list RequestLog) : res (list string) :=
  match (run_detector_probe Z.of_nat (default_conf "s") has_redis true
           (with_cache (DetectorsProps.log_world [] log))).1 with
  | Ok rep => Ok (dp_silent_detectors rep)
  | Raise e => Raise e
  end.

Example busy_site_is_silent : silent_on true shared_uas = Ok ["detect_cloud_spray"].
Proof. vm_compute. reflexivity. Qed.

(** A minimum above 235 gives the fixture an address that is none. *)
Example wide_minimum_breaks_the_probe :
  (run_detector_probe Z.of_nat
     {| (default_conf "s") with conf_detectors :=
          {| default_detector_conf with DJANGO_WAF_CLOUD_SPRAY_MIN_IPS := 236 |} |} true true served_site).1
  = Raise (OtherError "DataError").
Proof. vm_compute. reflexivity. Qed.

(** Without Redis the scraper detector reports nothing. *)
Example outage_is_silent : silent_on false [] = Ok ["detect_scraper_404_ratio"].
Proof. vm_compute. reflexivity. Qed.
End DetectorProbeProps.
