(* ===== verification/DetectorOutcomes.v ===== *)
(** * The outcome report ([services/detector_outcomes.py])

    What the rules of each detector did in production: one scan over the
    window, accumulated per name of the rules' [detectors] field.  The ratio
    [hit_rate] is kept exact; the code rounds it to four decimals. *)

From Stdlib Require Import ZArith QArith Lia Ascii String Sorted.
From stdpp Require Import base tactics option list strings numbers gmap fin_maps.
From S2P Require Import Prelude PyStr PyTime Conf Redis Models AutoRule Detectors DetectorProbe.

Open Scope Z_scope.

(** [_split_detector_names]. *)
Definition split_detector_names (detectors_field : string) : list string :=
  List.filter (λ name, negb (str_empty name)) (split_on "," detectors_field).

(** [_DetectorAccumulator]. *)
Record Accumulator : Type := {
  ac_rules_created : Z;
  ac_rules_ever_hit : Z;
  ac_total_hits : Z;
  ac_most_recent : option Z;
}.

Definition new_accumulator : Accumulator :=
  {| ac_rules_created := 0; ac_rules_ever_hit := 0; ac_total_hits := 0; ac_most_recent := None |}.

Definition accumulate (created_at hit_count : Z) (a : Accumulator) : Accumulator :=
  {| ac_rules_created := ac_rules_created a + 1;
     ac_rules_ever_hit := if 0 <? hit_count then ac_rules_ever_hit a + 1 else ac_rules_ever_hit a;
     ac_total_hits := ac_total_hits a + hit_count;
     ac_most_recent := match ac_most_recent a with
                       | None => Some created_at
                       | Some t => if t <? created_at then Some created_at else Some t
                       end |}.

Record OutcomeLine : Type := {
  ol_rules_created : Z;
  ol_rules_ever_hit : Z;
  ol_hit_rate : Q;
  ol_total_hits : Z;
  ol_most_recent : option Z;
}.

Definition zero_line : OutcomeLine :=
  {| ol_rules_created := 0; ol_rules_ever_hit := 0; ol_hit_rate := 0; ol_total_hits := 0; ol_most_recent := None |}.

(** [_finalise]. *)
Definition finalise (accumulator : option Accumulator) : OutcomeLine :=
  match accumulator with
  | None => zero_line
  | Some a =>
      if ac_rules_created a =? 0 then zero_line else
      {| ol_rules_created := ac_rules_created a; ol_rules_ever_hit := ac_rules_ever_hit a;
         ol_hit_rate := (inject_Z (ac_rules_ever_hit a) / inject_Z (ac_rules_created a))%Q;
         ol_total_hits := ac_total_hits a; ol_most_recent := ac_most_recent a |}
  end.

(** [accumulators.setdefault(name, _DetectorAccumulator()).add(...)]. *)
Definition accumulate_name (r : BlockRule) (accs : gmap string Accumulator) (name : string)
  : gmap string Accumulator :=
  <[name := accumulate (br_created_at r) (br_hit_count r) (default new_accumulator (accs !! name))]> accs.

Definition accumulate_row (accs : gmap string Accumulator) (r : BlockRule) : gmap string Accumulator :=
  fold_left (accumulate_name r) (split_detector_names (br_detectors r)) accs.

Definition accumulators (rows : list BlockRule) : gmap string Accumulator := fold_left accumulate_row rows ∅.

Record OutcomeReport : Type := {
  or_window_days : Z;
  or_detectors : list (string * OutcomeLine);
  or_unregistered : list (string * OutcomeLine);
  or_review_outcomes : list (ReviewStatus * Z) * Z;
}.

(** [timezone.now() - timedelta(days=...)]: a [timedelta] has at most 999999999
    days, a [datetime] no year before 1. *)
Definition start_of_window (now window_days : Z) : res Z :=
  if (999999999 <? Z.abs window_days) || negb (valid_datetime (now - window_days * day_us))
  then Raise (OtherError "OverflowError") else Ok (now - window_days * day_us).

(** [report_detector_outcomes].  [auto_rule_review_outcomes] takes the same
    start from a window in hours. *)
Definition report_detector_outcomes {R P} (window_days : Z) : M (World R P) OutcomeReport :=
  if window_days <? 1 then raise ValueError else
  now <- clock ;;
  window_start <- lift_res (start_of_window now window_days) ;;
  rows <- db_read (λ w, List.filter (λ r, window_start <=? br_created_at r) (w_block_rules w)) ;;
  let accs := accumulators rows in
  let unregistered_names :=
    sort_names (List.filter (λ n, negb (bool_decide (n ∈ DETECTOR_NAMES))) (map fst (map_to_list accs))) in
  now2 <- clock ;;
  _ <- lift_res (start_of_window now2 window_days) ;;
  review <- db_read (λ w, auto_rule_review_outcomes now2 (window_days * 24) (w_block_rules w)) ;;
  ret {| or_window_days := window_days;
         or_detectors := map (λ n, (n, finalise (accs !! n))) (sort_names DETECTOR_NAMES);
         or_unregistered := map (λ n, (n, finalise (accs !! n))) unregistered_names;
         or_review_outcomes := review |}.

(** ** The reference: what a name's rules add up to *)

Definition carries (name : string) (r : BlockRule) : bool :=
  bool_decide (name ∈ split_detector_names (br_detectors r)).

Definition latest (rows : list BlockRule) : option Z :=
  match rows with [] => None | r :: rows => Some (foldr Z.max (br_created_at r) (map br_created_at rows)) end.

Definition outcome_of (name : string) (rows : list BlockRule) : OutcomeLine :=
  let rules := List.filter (carries name) rows in
  let hit := count_if (λ r, 0 <? br_hit_count r) rules in
  {| ol_rules_created := Z.of_nat (length rules); ol_rules_ever_hit := hit;
     ol_hit_rate := match rules with [] => 0 | _ => (inject_Z hit / inject_Z (Z.of_nat (length rules)))%Q end;
     ol_total_hits := foldr Z.add 0 (map br_hit_count rules); ol_most_recent := latest rules |}.

Section Fold.
Implicit Types (rows : list BlockRule) (accs : gmap string Accumulator).

Definition add_row (a : Accumulator) (r : BlockRule) : Accumulator := accumulate (br_created_at r) (br_hit_count r) a.

Lemma names_lookup r names accs n :
  NoDup names →
  fold_left (accumulate_name r) names accs !! n =
  if bool_decide (n ∈ names) then Some (add_row (default new_accumulator (accs !! n)) r) else accs !! n.
Proof.
  intros Hnd. revert accs. induction Hnd as [|m names Hni Hnd IH]; intros accs; cbn [fold_left].
  { rewrite bool_decide_false; [done|]. apply not_elem_of_nil. }
  rewrite IH. unfold accumulate_name. destruct (decide (n = m)) as [->|Hne].
  - rewrite bool_decide_false by done. rewrite bool_decide_true by (apply elem_of_cons; by left).
    by rewrite lookup_insert_eq.
  - rewrite lookup_insert_ne by done. rewrite (bool_decide_ext (n ∈ m :: names) (n ∈ names)); [done|].
    rewrite elem_of_cons. naive_solver.
Qed.

(** The rows carry each name once, as [_merge_detector_names] writes them. *)
Definition names_once (r : BlockRule) : Prop := NoDup (split_detector_names (br_detectors r)).

Lemma accumulators_lookup rows n :
  Forall names_once rows →
  accumulators rows !! n =
  match List.filter (carries n) rows with [] => None | rules => Some (fold_left add_row rules new_accumulator) end.
Proof.
  intros Hf. unfold accumulators.
  assert (Hgen : ∀ accs, fold_left accumulate_row rows accs !! n =
    match List.filter (carries n) rows with
    | [] => accs !! n
    | rules => Some (fold_left add_row rules (default new_accumulator (accs !! n)))
    end); [|by rewrite Hgen, lookup_empty].
  induction Hf as [|r rows Hr Hf IH]; intros accs; cbn [fold_left List.filter]; [done|].
  rewrite IH. unfold accumulate_row. rewrite names_lookup by done. fold (carries n r).
  destruct (carries n r); [|done]. cbn [default]. by destruct (List.filter (carries n) rows).
Qed.

Lemma fold_add rows a :
  fold_left add_row rows a = {|
    ac_rules_created := ac_rules_created a + Z.of_nat (length rows);
    ac_rules_ever_hit := ac_rules_ever_hit a + count_if (λ r, 0 <? br_hit_count r) rows;
    ac_total_hits := ac_total_hits a + foldr Z.add 0 (map br_hit_count rows);
    ac_most_recent := match ac_most_recent a with
                      | Some t => Some (foldr Z.max t (map br_created_at rows))
                      | None => latest rows
                      end |}.
Proof.
  revert a. induction rows as [|r rows IH]; intros a; cbn [fold_left].
  - destruct a as [c e h [t|]]; unfold count_if; cbn; f_equal; lia.
  - rewrite IH. unfold add_row, accumulate. rewrite count_if_cons. cbn [ac_rules_created ac_rules_ever_hit ac_total_hits ac_most_recent map foldr length latest].
    f_equal; [lia|destruct (0 <? br_hit_count r); lia|lia|].
    assert (Hmax : ∀ l x t, foldr Z.max (Z.max x t) l = Z.max x (foldr Z.max t l)).
    { clear. induction l as [|y l IH]; intros x t; cbn; [done|]. rewrite IH. lia. }
    destruct (ac_most_recent a) as [t|]; [|done].
    destruct (Z.ltb_spec t (br_created_at r)); f_equal; rewrite <- Hmax; f_equal; lia.
Qed.

Lemma finalise_exact rows n : Forall names_once rows → finalise (accumulators rows !! n) = outcome_of n rows.
Proof.
  intros Hf. rewrite accumulators_lookup by done. unfold outcome_of.
  destruct (List.filter (carries n) rows) as [|r l] eqn:E; [done|]. rewrite fold_add. unfold finalise.
  cbn [new_accumulator ac_rules_created ac_rules_ever_hit ac_total_hits ac_most_recent].
  rewrite !Z.add_0_l. destruct (Z.eqb_spec (Z.of_nat (length (r :: l))) 0); [cbn in *; lia|done].
Qed.
End Fold.

(** ** Properties *)

Module DetectorOutcomesProps.

(** C31: the report accounts for every rule.  Provided that the database
    answers, that the window is positive and begins in year 1 or later (a wider
    one is an [OverflowError]), and that no row's [detectors] field has a name
    twice (as the detectors write it; the API can write such a field, and the
    report then counts the row twice), the report only reads; each of the six
    detectors has a line, zero when it made nothing, with the number of its
    rules in the window, how many were ever hit, their hits and the latest
    creation time; every other name found in the window has such a line in the
    second section, once. *)
Theorem outcomes_account_for_every_rule {R P} days (w : World R P) :
  1 <= days → start_of_window (w_now w) days = Ok (w_now w - days * day_us) →
  w_db_up w = true → Forall names_once (w_block_rules w) →
  let rows := List.filter (λ r, w_now w - days * day_us <=? br_created_at r) (w_block_rules w) in
  ∃ rep, report_detector_outcomes days w = (Ok rep, w) ∧
    or_detectors rep = map (λ n, (n, outcome_of n rows)) DETECTOR_NAMES ∧
    (∀ n line, In (n, line) (or_unregistered rep) ↔
       n ∉ DETECTOR_NAMES ∧ line = outcome_of n rows ∧ ∃ r, In r rows ∧ carries n r = true) ∧
    NoDup (map fst (or_unregistered rep)) ∧
    or_review_outcomes rep = auto_rule_review_outcomes (w_now w) (days * 24) (w_block_rules w).
Proof.
  intros Hd Hwin Hup Honce rows. unfold report_detector_outcomes. rewrite (proj2 (Z.ltb_ge _ _)) by lia.
  unfold bind at 1, clock, gets. rewrite Hwin. unfold bind at 1, lift_res at 1. rewrite (bind_Ok _ _ _ _ _ (db_read_up _ w Hup)).
  unfold bind at 1. rewrite Hwin. unfold bind at 1, lift_res.
  rewrite (bind_Ok _ _ _ _ _ (db_read_up _ w Hup)). fold rows.
  assert (Hf : Forall names_once rows).
  { apply List.Forall_forall. intros r Hr. rewrite List.Forall_forall in Honce. apply Honce. unfold rows in Hr.
    by apply filter_In in Hr as [Hr _]. }
  set (extra := sort_names (List.filter _ _)).
  assert (Hextra : ∀ n, In n extra ↔ n ∉ DETECTOR_NAMES ∧ ∃ r, In r rows ∧ carries n r = true).
  { intros n. unfold extra, sort_names. rewrite sort_by_In, filter_In, negb_true_iff, bool_decide_eq_false, in_map_iff.
    assert (Hkey : (∃ x, x.1 = n ∧ In x (map_to_list (accumulators rows))) ↔ ∃ r, In r rows ∧ carries n r = true).
    { transitivity (is_Some (accumulators rows !! n)).
      - split.
        + intros ([k a] & <- & Hin). apply list_elem_of_In, elem_of_map_to_list in Hin. by exists a.
        + intros [a Ha]. exists (n, a). split; [done|]. by apply list_elem_of_In, elem_of_map_to_list.
      - rewrite accumulators_lookup by done. destruct (List.filter (carries n) rows) as [|r l] eqn:E.
        + split; [by intros [? ?]|]. intros (r & Hr & Hc). assert (Hin : In r (List.filter (carries n) rows)) by by apply filter_In.
          by rewrite E in Hin.
        + split; [|by eexists]. intros _. exists r. apply filter_In. rewrite E. by left. }
    rewrite Hkey. tauto. }
  eexists. split; [reflexivity|]. cbn [or_detectors or_unregistered or_review_outcomes]. split_and!; [| | |done].
  - replace (sort_names DETECTOR_NAMES) with DETECTOR_NAMES by (vm_compute; reflexivity).
    apply map_ext. intros n. by rewrite finalise_exact.
  - intros n line. rewrite in_map_iff. split.
    + intros (m & [= -> <-] & Hm). apply Hextra in Hm as [? ?]. rewrite finalise_exact by done. done.
    + intros (Hn & -> & Hc). exists n. rewrite finalise_exact by done. split; [done|]. by apply Hextra.
  - rewrite map_map. cbn [fst]. rewrite map_id. unfold extra, sort_names. rewrite sort_by_perm.
    apply filter_NoDup, NoDup_fst_map_to_list.
Qed.

(** *** Witness: a rule of two detectors and an escalation, in a window of one day *)

Definition made_by (detectors : string) (hits created : Z) : BlockRule :=
  {| {| {| AutoRuleProps.sample_rule with br_detectors := detectors |} with br_hit_count := hits |}
     with br_created_at := created |}.

Definition made_rules : list BlockRule :=
  [made_by "detect_cloud_spray,detect_ua_rotation" 3 5; made_by "detect_cloud_spray_v2" 1 6;
   made_by "challenge_escalation" 0 7].

Lemma outcomes_account_for_every_rule_witness :
  ∃ rep, report_detector_outcomes 1 (AutoRuleProps.sample_world made_rules []) =
           (Ok rep, AutoRuleProps.sample_world made_rules []) ∧
    map (λ l, ol_rules_created l.2) (or_detectors rep) = [0; 1; 0; 0; 1; 0] ∧
    In ("detect_cloud_spray_v2", outcome_of "detect_cloud_spray_v2" made_rules) (or_unregistered rep).
Proof.
  destruct (outcomes_account_for_every_rule 1 (AutoRuleProps.sample_world made_rules []))
    as (rep & Hrun & Hdet & Hun & _).
  - discriminate.
  - reflexivity.
  - reflexivity.
  - apply (bool_decide_unpack _). vm_compute. exact I.
  - exists rep. split; [exact Hrun|]. split; [rewrite Hdet; vm_compute; reflexivity|].
    apply Hun. split; [apply (bool_decide_unpack _); vm_compute; exact I|]. split; [reflexivity|].
    exists (made_by "detect_cloud_spray_v2" 1 6). split; [right; left; reflexivity|reflexivity].
Defined.

(** A rule of one detector, written twice in its field, is two rules to the
    report. *)
Example repeated_name_counts_twice :
  match (report_detector_outcomes 1 (AutoRuleProps.sample_world [made_by "detect_ua_rotation,detect_ua_rotation" 3 5] [])).1 with
  | Ok rep => option_map ol_rules_created (snd <$> List.find (λ l, String.eqb l.1 "detect_ua_rotation") (or_detectors rep))
  | Raise _ => None
  end = Some 2.
Proof. vm_compute. reflexivity. Qed.

Example wide_window_overflows :
  (report_detector_outcomes 1000000 (AutoRuleProps.sample_world made_rules [])).1 = Raise (OtherError "OverflowError").
Proof. vm_compute. reflexivity. Qed.
End DetectorOutcomesProps.
