(* ===== verification/Blocklist.v ===== *)
(** * The nginx block list ([services/blocklist_generator.py])

    Rendering of the active rules, activation of the candidate file with
    validation and rollback, and the reload.  The file system is a map from
    paths to contents; the outcome of the nginx test command, of reading the
    PID file and of sending the signal are arguments.  Failures of the file
    operations themselves are not modelled. *)

From Stdlib Require Import ZArith QArith Lia Ascii String Sorted.
From stdpp Require Import base tactics option list strings numbers gmap.
From S2P Require Import Prelude PyStr Codec Regex PyTime Conf Redis Models.
From S2P Require Import AutoRule Detectors Tasks Patterns ThreatFeed.

Open Scope Z_scope.

Definition newline : string := String (chr 10) "".
Definition backslash : ascii := "\"%char.

(** ** Rendering *)

(** [pattern.replace(quote, backslash + quote)]. *)
Fixpoint escape_quotes (s : string) : string :=
  match s with
  | EmptyString => EmptyString
  | String c s => if bool_decide (c = quote) then String backslash (String quote (escape_quotes s))
                  else String c (escape_quotes s)
  end.

Definition in_quotes (s : string) : string := String quote (s +:+ String quote "").

(** [_nginx_escape_ua]. *)
Definition nginx_escape_ua (pattern : string) (match_type : MatchType) : string :=
  let pattern := strip pattern in
  if str_empty pattern then "" else
  match match_type with
  | MatchType_EXACT => in_quotes (escape_quotes pattern)
  | MatchType_CONTAINS => in_quotes ("~*" +:+ re_escape pattern)
  | MatchType_REGEX => in_quotes ("~*" +:+ pattern)
  | MatchType_CIDR => ""
  end.

(** The keys written, first occurrence of each. *)
Fixpoint fresh_keys (seen : list string) (keys : list string) : list string :=
  match keys with
  | [] => []
  | k :: keys => if str_empty k || bool_decide (k ∈ seen) then fresh_keys seen keys
                 else k :: fresh_keys (k :: seen) keys
  end.

Definition ua_keys (rules : list BlockRule) : list string :=
  fresh_keys [] (map (λ r, nginx_escape_ua (br_pattern r) (br_match_type r)) rules).
Definition ip_keys (rules : list BlockRule) : list string :=
  fresh_keys [] (map (λ r, strip (br_pattern r)) rules).

Definition entry_line (key : string) : string := "    " +:+ key +:+ " 1;" +:+ newline.

(** [_render_ua_map], [_render_ip_geo]. *)
Definition render_ua_map (variable : string) (rules : list BlockRule) : list string :=
  [("map $http_user_agent " +:+ variable +:+ " {" +:+ newline); "    default 0;" +:+ newline]
  ++ map entry_line (ua_keys rules) ++ ["}" +:+ newline +:+ newline].
Definition render_ip_geo (variable : string) (rules : list BlockRule) : list string :=
  [("geo " +:+ variable +:+ " {" +:+ newline); "    default 0;" +:+ newline]
  ++ map entry_line (ip_keys rules) ++ ["}" +:+ newline +:+ newline].

Definition is_ua (r : BlockRule) : bool := bool_decide (br_rule_type r = RuleType_UA).
Definition is_net (r : BlockRule) : bool :=
  bool_decide (br_rule_type r = RuleType_IP) || bool_decide (br_rule_type r = RuleType_CIDR).
Definition with_action (a : RuleAction) (r : BlockRule) : bool := bool_decide (br_action r = a).

Definition banner : list string :=
  ["# Generated by django-waf, do not edit manually" +:+ newline;
   "# This file is regenerated every 5 minutes by the generate_blocklist task." +:+ newline;
   "# Declares variables only; see django_waf/conf/nginx/ for the reference" +:+ newline;
   "# enforcement snippet (block => 403, throttle => limit_req)." +:+ newline +:+ newline].

(** The lines of the candidate file. *)
Definition blocklist_lines (rules : list BlockRule) : list string :=
  banner
  ++ render_ua_map "$waf_block_ua" (List.filter (λ r, is_ua r && with_action RuleAction_BLOCK r) rules)
  ++ render_ua_map "$waf_throttle_ua" (List.filter (λ r, is_ua r && with_action RuleAction_THROTTLE r) rules)
  ++ render_ip_geo "$waf_block_ip" (List.filter (λ r, is_net r && with_action RuleAction_BLOCK r) rules)
  ++ render_ip_geo "$waf_throttle_ip" (List.filter (λ r, is_net r && with_action RuleAction_THROTTLE r) rules).

(** ** Files *)

Abbreviation files := (gmap string string).

Definition rename (src dst : string) (fs : files) : files :=
  match fs !! src with Some c => <[dst := c]> (delete src fs) | None => fs end.
Definition copy2 (src dst : string) (fs : files) : files :=
  match fs !! src with Some c => <[dst := c]> fs | None => fs end.

(** What running a command came to. *)
Inductive RunResult : Type := Exited (code : Z) | NotFound | TimedOut | RunError.

(** [_validate_nginx_config]: [None] is "could not be attempted". *)
Definition validate_nginx_config (r : RunResult) : option bool :=
  match r with
  | Exited code => Some (code =? 0)
  | NotFound => None
  | TimedOut | RunError => Some false
  end.

(** [_activate_candidate]; [test] runs the nginx test on the files in place.
    The copies and renames themselves succeed; their [OSError]s are not
    modelled. *)
Definition activate_candidate (validate : bool) (test : files → RunResult) (tmp_path dest : string)
    (fs : files) : files :=
  if negb validate then rename tmp_path dest fs else
  let last_good := dest +:+ ".last-good" in
  let had_previous := bool_decide (is_Some (fs !! dest)) in
  let fs := if had_previous then copy2 dest last_good fs else fs in
  let fs := rename tmp_path dest fs in
  match validate_nginx_config (test fs) with
  | Some false => if had_previous then rename last_good dest fs else delete dest fs
  | _ => if had_previous then delete last_good fs else fs
  end.

(** [generate_nginx_blocklist]: the rule count and the files; [mkstemp] chose
    [tmp_path]. *)
Definition generate_nginx_blocklist (conf : Conf) (test : files → RunResult) (tmp_path : string)
    (output_path : option string) (now : Z) (rows : list BlockRule) (fs : files) : Z * files :=
  let dest := match output_path with
              | Some p => if str_empty p then DJANGO_WAF_NGINX_BLOCKLIST_PATH conf else p
              | None => DJANGO_WAF_NGINX_BLOCKLIST_PATH conf
              end in
  let rules := BlockRuleManager.for_nginx now rows in
  let fs := <[tmp_path := join "" (blocklist_lines rules)]> fs in
  (Z.of_nat (length rules), activate_candidate (DJANGO_WAF_NGINX_VALIDATE conf) test tmp_path dest fs).

(** ** Reload *)

Inductive KillResult : Type := Signalled | NoProcess | NotPermitted | KillError.

(** [_reload_via_pid]; [content] is the PID file, [None] if unreadable. *)
Definition reload_via_pid (content : option string) (kill : Z → KillResult) : option bool :=
  match content with
  | None => None
  | Some text =>
      match py_int (strip text) with
      | None => None
      | Some pid =>
          match kill pid with
          | Signalled => Some true
          | NoProcess => Some false
          | NotPermitted => None
          | KillError => Some false
          end
      end
  end.

Definition reload_via_command (r : RunResult) : bool :=
  match r with Exited code => code =? 0 | _ => false end.

(** [reload_nginx]. *)
Definition reload_nginx (conf : Conf) (read_pid : string → option string) (kill : Z → KillResult)
    (run : unit → RunResult) : bool :=
  match (if str_empty (DJANGO_WAF_NGINX_PID_PATH conf) then None
         else reload_via_pid (read_pid (DJANGO_WAF_NGINX_PID_PATH conf)) kill) with
  | Some result => result
  | None => reload_via_command (run tt)
  end.

(** ** Lemmas *)

(** The escaping does not cover backslashes, nor quotes outside exact patterns:
    a pattern ending in a backslash protects its own closing quote, and a
    quote in a regular expression or substring ends the string early. *)
Definition after_quote (s : string) : string := str_drop 1 s.

Lemma fresh_keys_spec seen keys :
  NoDup (fresh_keys seen keys) ∧
  ∀ k, k ∈ fresh_keys seen keys ↔ k ∈ keys ∧ k ≠ "" ∧ k ∉ seen.
Proof.
  revert seen. induction keys as [|x keys IH]; intros seen; cbn [fresh_keys].
  { split; [apply NoDup_nil_2|]. intros k. rewrite elem_of_nil. tauto. }
  destruct (str_empty x || bool_decide (x ∈ seen)) eqn:E.
  - destruct (IH seen) as [Hnd Hk]. split; [done|]. intros k. rewrite Hk, elem_of_cons.
    split; [tauto|]. intros [[->|?] [Hne Hns]]; [|done]. exfalso. apply orb_true_iff in E as [E|E].
    + by destruct x.
    + by apply bool_decide_eq_true in E.
  - apply orb_false_iff in E as [Hx Hs]. apply bool_decide_eq_false in Hs.
    destruct (IH (x :: seen)) as [Hnd Hk]. split.
    + apply NoDup_cons. rewrite Hk, elem_of_cons. split; [tauto|done].
    + intros k. rewrite !elem_of_cons, Hk, elem_of_cons. split.
      * intros [->|(? & ? & Hn)]; [split_and!; [by left|by destruct x|done]|]. split_and!; [by right|done|tauto].
      * intros ([->|Hin] & Hne & Hns); [by left|]. destruct (decide (k = x)) as [->|]; [by left|right].
        split_and!; [done|done|]. intros [?|?]; done.
Qed.

(** ** Well-formed quotes *)

(** Text after an opening quote, up to and including the closing one, which
    must be its last character; a backslash protects the next character. *)
Fixpoint well_quoted (protected : bool) (s : string) : bool :=
  match s with
  | EmptyString => false
  | String c s =>
      if protected then well_quoted false s
      else if bool_decide (c = backslash) then well_quoted true s
      else if bool_decide (c = quote) then str_empty s
      else well_quoted false s
  end.

Definition no_backslash (s : string) : bool := negb (char_in backslash s).

Lemma well_quoted_escaped s :
  no_backslash s = true → well_quoted false (escape_quotes s +:+ String quote "") = true.
Proof.
  unfold no_backslash. induction s as [|c s IH]; intros Hb; [reflexivity|]. cbn [char_in] in Hb.
  apply negb_true_iff, orb_false_iff in Hb as [Hc Hb].
  assert (Hne : c ≠ backslash).
  { intros ->. revert Hc. vm_compute. done. }
  rewrite <- negb_true_iff in Hb. cbn [escape_quotes]. destruct (bool_decide_reflect (c = quote)) as [Hq|Hq].
  - apply (IH Hb).
  - cbn [String.append well_quoted]. rewrite !bool_decide_false by done. apply (IH Hb).
Qed.

Lemma for_nginx_In now r rows :
  In r (BlockRuleManager.for_nginx now rows) ↔
  In r rows ∧ br_is_active r = true ∧ not_expired now (br_expires_at r) = true ∧
  (is_ua r || is_net r) = true ∧ (with_action RuleAction_BLOCK r || with_action RuleAction_THROTTLE r) = true.
Proof.
  unfold BlockRuleManager.for_nginx. rewrite filter_In, active_In, andb_true_iff, !bool_decide_eq_true.
  unfold is_ua, is_net, with_action. rewrite !orb_true_iff, !bool_decide_eq_true.
  rewrite !elem_of_cons, !elem_of_nil. tauto.
Qed.

Example escapes_that_break :
  well_quoted false (after_quote (nginx_escape_ua "Mozilla\" MatchType_EXACT)) = false ∧
  well_quoted false (after_quote (nginx_escape_ua ("a" +:+ String quote "b") MatchType_REGEX)) = false ∧
  well_quoted false (after_quote (nginx_escape_ua ("a" +:+ String quote "b") MatchType_CONTAINS)) = false.
Proof. vm_compute. done. Qed.

(** What is written under an action: the keys of the live rules with it. *)
Lemma keys_exact (p : BlockRule → bool) (f : BlockRule → string) a now rows k :
  a = RuleAction_BLOCK ∨ a = RuleAction_THROTTLE → (∀ r, p r = true → is_ua r || is_net r = true) → k ≠ "" →
  k ∈ fresh_keys [] (map f (List.filter (λ r, p r && with_action a r) (BlockRuleManager.for_nginx now rows))) ↔
  ∃ r, In r rows ∧ br_is_active r = true ∧ not_expired now (br_expires_at r) = true ∧ p r = true ∧
       br_action r = a ∧ f r = k.
Proof.
  intros Ha Hp Hk. destruct (fresh_keys_spec [] (map f (List.filter (λ r, p r && with_action a r)
    (BlockRuleManager.for_nginx now rows)))) as [_ ->]. rewrite list_elem_of_In, in_map_iff, elem_of_nil.
  split.
  - intros [(r & Hf & Hr) _]. apply filter_In in Hr as [Hr Hpa]. apply for_nginx_In in Hr as (? & ? & ? & _).
    apply andb_true_iff in Hpa as [? Hpa]. unfold with_action in Hpa. apply bool_decide_eq_true in Hpa. by exists r.
  - intros (r & Hr & Hact & Hexp & Hpr & Hra & Hf). split; [|split; [done|tauto]]. exists r. split; [done|].
    apply filter_In. rewrite for_nginx_In. unfold with_action. split; [|by rewrite Hpr, bool_decide_true].
    split_and!; [done|done|done|by apply Hp|]. rewrite !orb_true_iff, !bool_decide_eq_true. destruct Ha; subst; auto.
Qed.

(** The files as nginx sees them when it tests the candidate. *)
Definition candidate_in_place (tmp_path dest : string) (fs : files) : files :=
  rename tmp_path dest (if bool_decide (is_Some (fs !! dest)) then copy2 dest (dest +:+ ".last-good") fs else fs).

Lemma last_good_ne dest : dest ≠ dest +:+ ".last-good".
Proof.
  assert (Hlen : ∀ a b, String.length (a +:+ b) = (String.length a + String.length b)%nat).
  { intros a b. induction a as [|c a IH]; [done|]. cbn. by rewrite IH. }
  intros Heq. apply (f_equal String.length) in Heq. rewrite Hlen in Heq. cbn in Heq. lia.
Qed.

(** What activation leaves of the files. *)
Lemma activate_candidate_spec validate test tmp dest fs c :
  let last_good := dest +:+ ".last-good" in
  let rejected := validate && bool_decide (validate_nginx_config (test (candidate_in_place tmp dest fs)) = Some false) in
  let fs' := activate_candidate validate test tmp dest fs in
  fs !! tmp = Some c → tmp ≠ dest → tmp ≠ last_good → (is_Some (fs !! dest) ∨ fs !! last_good = None) →
  fs' !! dest = (if rejected then fs !! dest else Some c) ∧ fs' !! tmp = None ∧
  (validate = true → fs' !! last_good = None) ∧
  ∀ k, k ≠ tmp → k ≠ dest → k ≠ last_good → fs' !! k = fs !! k.
Proof.
  intros lg rejected fs' Hc Hd Hl Hprev. pose proof (last_good_ne dest) as Hne. fold lg in Hne.
  unfold fs', rejected, activate_candidate, candidate_in_place. fold lg. destruct validate; cbn [negb andb].
  2: { unfold rename. rewrite Hc. split_and!; [by rewrite lookup_insert_eq|by rewrite lookup_insert_ne, lookup_delete_eq|done|].
       intros k H1 H2 _. by rewrite lookup_insert_ne, lookup_delete_ne. }
  destruct (bool_decide_reflect (is_Some (fs !! dest))) as [[old Hold]|Hnone].
  - unfold copy2. rewrite Hold. set (fs2 := rename tmp dest _).
    assert (E2 : fs2 = <[dest:=c]> (delete tmp (<[lg:=old]> fs))).
    { unfold fs2, rename. by rewrite lookup_insert_ne, Hc. }
    clearbody fs2. subst fs2. set (fs2 := <[dest:=c]> _). assert (Hlg : fs2 !! lg = Some old).
    { unfold fs2. by rewrite lookup_insert_ne, lookup_delete_ne, lookup_insert_eq. }
    assert (Hfs2 : fs2 !! dest = Some c) by (unfold fs2; by rewrite lookup_insert_eq).
    assert (Htmp : fs2 !! tmp = None) by (unfold fs2; by rewrite lookup_insert_ne, lookup_delete_eq).
    assert (Hk : ∀ k, k ≠ tmp → k ≠ dest → k ≠ lg → fs2 !! k = fs !! k).
    { intros k H1 H2 H3. unfold fs2. by rewrite lookup_insert_ne, lookup_delete_ne, lookup_insert_ne. }
    destruct (validate_nginx_config (test fs2)) as [[]|];
      rewrite ?bool_decide_true, ?bool_decide_false by done.
    + split_and!; [by rewrite lookup_delete_ne|by rewrite lookup_delete_ne|by rewrite lookup_delete_eq|].
      intros k H1 H2 H3. rewrite lookup_delete_ne by done. by apply Hk.
    + unfold rename. rewrite Hlg. split_and!; [by rewrite lookup_insert_eq|by rewrite lookup_insert_ne, lookup_delete_ne|
        by rewrite lookup_insert_ne, lookup_delete_eq|].
      intros k H1 H2 H3. rewrite lookup_insert_ne, lookup_delete_ne by done. by apply Hk.
    + split_and!; [by rewrite lookup_delete_ne|by rewrite lookup_delete_ne|by rewrite lookup_delete_eq|].
      intros k H1 H2 H3. rewrite lookup_delete_ne by done. by apply Hk.
  - assert (Hdn : fs !! dest = None) by (destruct (fs !! dest); [by destruct Hnone|done]).
    destruct Hprev as [?|Hlgn]; [done|]. set (fs2 := rename tmp dest _).
    assert (E2 : fs2 = <[dest:=c]> (delete tmp fs)) by (unfold fs2, rename; by rewrite Hc).
    clearbody fs2. subst fs2. set (fs2 := <[dest:=c]> _).
    assert (Htmp : fs2 !! tmp = None) by (unfold fs2; by rewrite lookup_insert_ne, lookup_delete_eq).
    assert (Hlg : fs2 !! lg = None) by (unfold fs2; by rewrite lookup_insert_ne, lookup_delete_ne).
    assert (Hk : ∀ k, k ≠ tmp → k ≠ dest → fs2 !! k = fs !! k).
    { intros k H1 H2. unfold fs2. by rewrite lookup_insert_ne, lookup_delete_ne. }
    destruct (validate_nginx_config (test fs2)) as [[]|]; rewrite ?bool_decide_true, ?bool_decide_false by done.
    + split_and!; [unfold fs2; by rewrite lookup_insert_eq|done|done|auto].
    + split_and!; [by rewrite lookup_delete_eq|by rewrite lookup_delete_ne|by rewrite lookup_delete_ne|].
      intros k H1 H2 _. rewrite lookup_delete_ne by done. auto.
    + split_and!; [unfold fs2; by rewrite lookup_insert_eq|done|done|auto].
Qed.

(** ** Properties *)

Module BlocklistProps.

(** C19: a rejected candidate never survives.  After activation the destination
    holds the candidate when the test passed, could not be run, or validation
    is off, and otherwise exactly what it held before (nothing, if there was no
    file); no temporary or rollback copy is left, and no other file changes.  The
    file operations themselves are taken to succeed. *)
Theorem activation_all_or_nothing validate test tmp dest fs c :
  let last_good := dest +:+ ".last-good" in
  let rejected := validate && bool_decide (validate_nginx_config (test (candidate_in_place tmp dest fs)) = Some false) in
  let fs' := activate_candidate validate test tmp dest fs in
  fs !! tmp = Some c → tmp ≠ dest → tmp ≠ last_good → (is_Some (fs !! dest) ∨ fs !! last_good = None) →
  fs' !! dest = (if rejected then fs !! dest else Some c) ∧ fs' !! tmp = None ∧
  (validate = true → fs' !! last_good = None) ∧
  ∀ k, k ≠ tmp → k ≠ dest → k ≠ last_good → fs' !! k = fs !! k.
Proof. apply activate_candidate_spec. Qed.

(** A section of an nginx configuration: its header, the default, one line for
    each key. *)
Definition section (header : string) (keys : list string) : list string :=
  (header +:+ " {" +:+ newline) :: ("    default 0;" +:+ newline)
  :: map (λ k, "    " +:+ k +:+ " 1;" +:+ newline) keys ++ ["}" +:+ newline +:+ newline].

(** The keys are, once each, what [key] makes of the stored rules in force of
    those types with that action; a rule it makes nothing of is left out. *)
Definition exports (now : Z) (rows : list BlockRule) (types : list RuleType) (a : RuleAction)
    (key : BlockRule → string) (keys : list string) : Prop :=
  NoDup keys ∧
  ∀ k, k ∈ keys ↔ k ≠ "" ∧ ∃ r, In r rows ∧ br_is_active r = true ∧ not_expired now (br_expires_at r) = true ∧
                    br_rule_type r ∈ types ∧ br_action r = a ∧ key r = k.

Lemma ua_exports now rows a : a = RuleAction_BLOCK ∨ a = RuleAction_THROTTLE →
  exports now rows [RuleType_UA] a (λ r, nginx_escape_ua (br_pattern r) (br_match_type r))
    (ua_keys (List.filter (λ r, is_ua r && with_action a r) (BlockRuleManager.for_nginx now rows))).
Proof.
  intros Ha. split; [apply fresh_keys_spec|]. intros k. destruct (decide (k = "")) as [->|Hk].
  { unfold ua_keys. destruct (fresh_keys_spec [] (map (λ r, nginx_escape_ua (br_pattern r) (br_match_type r))
      (List.filter (λ r, is_ua r && with_action a r) (BlockRuleManager.for_nginx now rows)))) as [_ ->]. tauto. }
  unfold ua_keys. rewrite keys_exact; [|done|by intros r ->|done]. unfold is_ua.
  setoid_rewrite bool_decide_eq_true. setoid_rewrite list_elem_of_singleton. tauto.
Qed.

Lemma ip_exports now rows a : a = RuleAction_BLOCK ∨ a = RuleAction_THROTTLE →
  exports now rows [RuleType_IP; RuleType_CIDR] a (λ r, strip (br_pattern r))
    (ip_keys (List.filter (λ r, is_net r && with_action a r) (BlockRuleManager.for_nginx now rows))).
Proof.
  intros Ha. split; [apply fresh_keys_spec|]. intros k. destruct (decide (k = "")) as [->|Hk].
  { unfold ip_keys. destruct (fresh_keys_spec [] (map (λ r, strip (br_pattern r))
      (List.filter (λ r, is_net r && with_action a r) (BlockRuleManager.for_nginx now rows)))) as [_ ->]. tauto. }
  unfold ip_keys. rewrite keys_exact; [|done|intros r ->; apply orb_true_r|done]. unfold is_net.
  setoid_rewrite orb_true_iff. setoid_rewrite bool_decide_eq_true. setoid_rewrite elem_of_cons.
  setoid_rewrite list_elem_of_singleton. tauto.
Qed.

Lemma filter_length_perm {A} (f : A → bool) l l' :
  Permutation l l' → length (List.filter f l) = length (List.filter f l').
Proof. induction 1; cbn; [done|destruct (f x); cbn; congruence|by destruct (f x), (f y)|congruence]. Qed.

Lemma for_nginx_count now rows :
  length (BlockRuleManager.for_nginx now rows) = length (List.filter (λ r, br_is_active r &&
    not_expired now (br_expires_at r) && bool_decide (br_rule_type r ∈ [RuleType_IP; RuleType_CIDR; RuleType_UA]) &&
    bool_decide (br_action r ∈ [RuleAction_BLOCK; RuleAction_THROTTLE])) rows).
Proof.
  unfold BlockRuleManager.for_nginx, BlockRuleManager.active, order_by_priority.
  rewrite (filter_length_perm _ _ _ (sort_by_perm _ _)), filter_filter. f_equal. apply filter_ext.
  intros r. by rewrite andb_assoc.
Qed.

(** The two renderers write sections. *)
Lemma blocklist_sections rules :
  blocklist_lines rules = banner
  ++ section "map $http_user_agent $waf_block_ua" (ua_keys (List.filter (λ r, is_ua r && with_action RuleAction_BLOCK r) rules))
  ++ section "map $http_user_agent $waf_throttle_ua" (ua_keys (List.filter (λ r, is_ua r && with_action RuleAction_THROTTLE r) rules))
  ++ section "geo $waf_block_ip" (ip_keys (List.filter (λ r, is_net r && with_action RuleAction_BLOCK r) rules))
  ++ section "geo $waf_throttle_ip" (ip_keys (List.filter (λ r, is_net r && with_action RuleAction_THROTTLE r) rules)).
Proof. reflexivity. Qed.

(** C20: the exported file is exact.  Unless nginx refuses it, in which case the
    file stays as it was, the destination then holds the banner and four
    sections: under [$waf_block_ua] and [$waf_throttle_ua] the escaped patterns
    of the User-Agent rules, under [$waf_block_ip] and [$waf_throttle_ip] the
    stripped patterns of the address and network rules, each with the action its
    variable names, each once, and each from a stored rule that is active and
    unexpired; nothing else, so no challenge and no log-only rule, is written.
    The count returned is that of the rules in force with such a type and action. *)
Theorem export_is_exact (conf : Conf) (test : files → RunResult) tmp path now rows (fs : files) :
  let dest := match path with
              | Some p => if str_empty p then DJANGO_WAF_NGINX_BLOCKLIST_PATH conf else p
              | None => DJANGO_WAF_NGINX_BLOCKLIST_PATH conf end in
  tmp ≠ dest → tmp ≠ dest +:+ ".last-good" → (is_Some (fs !! dest) ∨ fs !! (dest +:+ ".last-good") = None) →
  ∃ block_uas throttle_uas block_ips throttle_ips n fs',
    exports now rows [RuleType_UA] RuleAction_BLOCK (λ r, nginx_escape_ua (br_pattern r) (br_match_type r)) block_uas ∧
    exports now rows [RuleType_UA] RuleAction_THROTTLE (λ r, nginx_escape_ua (br_pattern r) (br_match_type r)) throttle_uas ∧
    exports now rows [RuleType_IP; RuleType_CIDR] RuleAction_BLOCK (λ r, strip (br_pattern r)) block_ips ∧
    exports now rows [RuleType_IP; RuleType_CIDR] RuleAction_THROTTLE (λ r, strip (br_pattern r)) throttle_ips ∧
    generate_nginx_blocklist conf test tmp path now rows fs = (n, fs') ∧
    let text := join "" (banner ++ section "map $http_user_agent $waf_block_ua" block_uas
                         ++ section "map $http_user_agent $waf_throttle_ua" throttle_uas
                         ++ section "geo $waf_block_ip" block_ips ++ section "geo $waf_throttle_ip" throttle_ips) in
    let refused := DJANGO_WAF_NGINX_VALIDATE conf && bool_decide
      (validate_nginx_config (test (candidate_in_place tmp dest (<[tmp := text]> fs))) = Some false) in
    fs' !! dest = (if refused then fs !! dest else Some text) ∧
    n = Z.of_nat (length (List.filter (λ r, br_is_active r && not_expired now (br_expires_at r) &&
          bool_decide (br_rule_type r ∈ [RuleType_IP; RuleType_CIDR; RuleType_UA]) &&
          bool_decide (br_action r ∈ [RuleAction_BLOCK; RuleAction_THROTTLE])) rows)).
Proof.
  intros dest Htd Htl Hlast. set (rules := BlockRuleManager.for_nginx now rows).
  exists (ua_keys (List.filter (λ r, is_ua r && with_action RuleAction_BLOCK r) rules)),
    (ua_keys (List.filter (λ r, is_ua r && with_action RuleAction_THROTTLE r) rules)),
    (ip_keys (List.filter (λ r, is_net r && with_action RuleAction_BLOCK r) rules)),
    (ip_keys (List.filter (λ r, is_net r && with_action RuleAction_THROTTLE r) rules)).
  eexists _, _. split; [by apply ua_exports; left|]. split; [by apply ua_exports; right|].
  split; [by apply ip_exports; left|]. split; [by apply ip_exports; right|].
  split; [reflexivity|]. cbv zeta. fold dest. split.
  - rewrite <- blocklist_sections.
    pose proof (activate_candidate_spec (DJANGO_WAF_NGINX_VALIDATE conf) test tmp dest
      (<[tmp := join "" (blocklist_lines rules)]> fs) (join "" (blocklist_lines rules))) as Hspec.
    cbv zeta in Hspec. destruct Hspec as [Hd _]; [by rewrite lookup_insert_eq|done|done|by rewrite !lookup_insert_ne|].
    etransitivity; [exact Hd|]. by rewrite lookup_insert_ne.
  - by rewrite for_nginx_count.
Qed.

(** An exact User-Agent pattern without backslashes is written as one
    well-formed quoted string, whatever quotes, braces or semicolons it holds. *)
Lemma exact_pattern_well_quoted pattern :
  strip pattern ≠ "" → no_backslash (strip pattern) = true →
  ∃ text, nginx_escape_ua pattern MatchType_EXACT = String quote text ∧ well_quoted false text = true.
Proof.
  intros Hne Hb. unfold nginx_escape_ua. destruct (str_empty (strip pattern)) eqn:E; [by destruct (strip pattern)|].
  eexists. split; [reflexivity|]. by apply well_quoted_escaped.
Qed.

(** An address pattern from the feed reaches the nginx configuration
    verbatim.  Any text of at most 512 characters (newlines, braces and
    semicolons included) in an entry of type "ip" becomes a key of
    [$waf_block_ip]: after the sync, the line written for it is that text,
    stripped, followed by " 1;". *)
Lemma feed_text_reaches_nginx {R P} `{RedisClient R} `{ReEngine P} uuid4 (conf : Conf) parse_datetime
    decimal_field char_field p mc (w w' : World R P) r :
  strip p ≠ "" → Z.of_nat (String.length p) <= 512 →
  (default (DJANGO_WAF_FEED_MIN_CONFIDENCE conf) mc <= 1)%Q →
  sync_feed uuid4 conf parse_datetime decimal_field char_field (Ok (FArr [ip_entry (FInt 1) p])) mc w = (Ok r, w') →
  In (entry_line (strip p)) (blocklist_lines (BlockRuleManager.for_nginx (w_now w) (w_block_rules w'))).
Proof.
  intros Hp Hlen Hthr Hrun.
  assert (Hkey : strip p ∈ ip_keys (List.filter (λ x, is_net x && with_action RuleAction_BLOCK x)
                   (BlockRuleManager.for_nginx (w_now w) (w_block_rules w')))).
  { apply keys_exact; [by left|intros x ->; apply orb_true_r|done|].
    destruct (sync_one_ip uuid4 conf parse_datetime decimal_field char_field p mc w w' r Hlen Hthr Hrun)
      as (rule & Hin & Ha & He & Hact & Ht & Hpat); [by intros ->|].
    exists rule. rewrite He. cbn [not_expired]. unfold is_net. rewrite Ht, Hpat, Hact.
    split_and!; try done. apply Z.ltb_lt. unfold day_us, usec. lia. }
  unfold blocklist_lines. do 3 (apply in_or_app; right). apply in_or_app. left. unfold render_ip_geo.
  apply in_or_app. right. apply in_or_app. left. apply in_map_iff. exists (strip p). split; [done|by apply list_elem_of_In].
Qed.

(** *** Witnesses *)

Definition tested (code : Z) (fs : files) : RunResult := Exited code.
Definition two_files : files := {[ "/etc/b.conf" := "old"; "/etc/x.conf.tmp" := "new" ]}.

Lemma activation_all_or_nothing_witness :
  activate_candidate true (tested 1) "/etc/x.conf.tmp" "/etc/b.conf" two_files !! "/etc/b.conf" = Some "old" ∧
  activate_candidate true (tested 1) "/etc/x.conf.tmp" "/etc/b.conf" two_files !! "/etc/x.conf.tmp" = None.
Proof.
  destruct (activation_all_or_nothing true (tested 1) "/etc/x.conf.tmp" "/etc/b.conf" two_files "new") as (H1 & H2 & _).
  - reflexivity.
  - discriminate.
  - discriminate.
  - left. exists "old". reflexivity.
  - split; [exact H1|exact H2].
Defined.

Definition live_rule : BlockRule :=
  {| {| AutoRuleProps.sample_rule with br_is_active := true |} with br_expires_at := None |}.

(** Two address rules, for blocking and throttling, and one that challenges. *)
Definition exported_rules : list BlockRule :=
  [live_rule; {| {| live_rule with br_action := RuleAction_THROTTLE |} with br_pattern := "192.0.2.7" |};
   {| {| live_rule with br_action := RuleAction_CHALLENGE |} with br_pattern := "192.0.2.8" |}].

Lemma export_is_exact_witness :
  let conf := default_conf "s" in
  (generate_nginx_blocklist conf (tested 0) "/etc/x.conf.tmp" (Some "/etc/b.conf") 0 exported_rules two_files).1 = 2 ∧
  ∃ text, (generate_nginx_blocklist conf (tested 0) "/etc/x.conf.tmp" (Some "/etc/b.conf") 0 exported_rules two_files).2
    !! "/etc/b.conf" = Some text ∧ str_in ("    192.0.2.1 1;" +:+ newline) text = true ∧ str_in "192.0.2.8" text = false.
Proof.
  intros conf.
  destruct (export_is_exact conf (tested 0) "/etc/x.conf.tmp" (Some "/etc/b.conf") 0 exported_rules two_files)
    as (bu & tu & bi & ti & n & fs' & _ & _ & _ & _ & E & Hdest & Hn);
    [discriminate|discriminate|left; exists "old"; reflexivity|].
  rewrite E. split; [exact Hn|]. cbn [snd].
  assert (Etext : fs' !! "/etc/b.conf" = (generate_nginx_blocklist conf (tested 0) "/etc/x.conf.tmp" (Some "/etc/b.conf")
    0 exported_rules two_files).2 !! "/etc/b.conf") by (rewrite E; reflexivity).
  eexists. split; [rewrite Etext; vm_compute; reflexivity|]. split; vm_compute; reflexivity.
Defined.

Lemma exact_pattern_well_quoted_witness :
  ∃ text, nginx_escape_ua (String quote "; }") MatchType_EXACT = String quote text ∧ well_quoted false text = true.
Proof. apply exact_pattern_well_quoted; [vm_compute; discriminate|vm_compute; reflexivity]. Defined.

(** A pattern that closes the block and includes a file of its choice. *)
Definition injected : string := "0.0.0.0/0 1; } include /tmp/x; geo $y {".

Lemma feed_text_reaches_nginx_witness :
  match sync_feed (R:=MemRedis) (P:=LiteRe) (λ n, 100 + Z.of_nat n) ThreatFeedProps.feed_conf ThreatFeedProps.no_dates
          ThreatFeedProps.hundredths ThreatFeedProps.as_text (Ok (FArr [ip_entry (FInt 1) injected])) None
          ThreatFeedProps.feed_world with
  | (Ok _, w') => In (entry_line injected) (blocklist_lines
                    (BlockRuleManager.for_nginx (w_now ThreatFeedProps.feed_world) (w_block_rules w')))
  | _ => False
  end.
Proof.
  assert (Ht : match sync_feed (R:=MemRedis) (P:=LiteRe) (λ n, 100 + Z.of_nat n) ThreatFeedProps.feed_conf
    ThreatFeedProps.no_dates ThreatFeedProps.hundredths ThreatFeedProps.as_text
    (Ok (FArr [ip_entry (FInt 1) injected])) None ThreatFeedProps.feed_world with (Ok _, _) => True | _ => False end)
    by (vm_compute; exact I).
  destruct (sync_feed _ _ _ _ _ _ _ _) as [[r|e] w'] eqn:E; [|destruct Ht].
  assert (Hthr : (default (DJANGO_WAF_FEED_MIN_CONFIDENCE ThreatFeedProps.feed_conf) None <= 1)%Q)
    by (vm_compute; discriminate).
  apply (feed_text_reaches_nginx (λ n, 100 + Z.of_nat n) ThreatFeedProps.feed_conf ThreatFeedProps.no_dates
    ThreatFeedProps.hundredths ThreatFeedProps.as_text injected None ThreatFeedProps.feed_world w' r); [| |exact Hthr|exact E].
  - vm_compute. discriminate.
  - vm_compute. discriminate.
Defined.

End BlocklistProps.
