(* ===== verification/Views.v ===== *)
(** * The views ([views.py])

    The challenge page, the verify endpoint that checks a solution and sets
    the pass cookie, the routed fallback of the site-password gate, and the
    dashboard with its confirm and reject actions.  Django (templates, URL
    building, the permission mixin) is the class [Pages]; what a view does to
    Redis and the tables is written out. *)

From Stdlib Require Import ZArith QArith Lia Ascii String.
From stdpp Require Import base tactics option list strings numbers gmap.
From S2P Require Import Prelude PyStr IpAddress Hash PyTime Codec Regex Conf.
From S2P Require Import ClientIp Redis Http RateLimiter Fingerprint Models AutoRule RuleEngine.
From S2P Require Import RuleEngineProofs Challenge SignedCookies Middleware Detectors.

Open Scope Z_scope.

(** ** Query strings *)

(** [urllib.parse.quote_plus]: octets outside the unreserved set become
    [%XX], a space becomes a plus sign. *)
Definition unreserved (z : Z) : bool :=
  ((48 <=? z) && (z <=? 57)) || ((65 <=? z) && (z <=? 90)) || ((97 <=? z) && (z <=? 122))
  || (z =? 95) || (z =? 46) || (z =? 45) || (z =? 126).

Definition quote_octet (z : Z) : string :=
  if unreserved z then String (chr z) ""
  else if z =? 32 then "+" else "%" +:+ upper (hex2 z).

Definition quote_plus (s : string) : string := join "" (map quote_octet (encode s)).

(** [f"{next_url}{separator}{urlencode({'form_replay': form_replay})}"]. *)
Definition with_form_replay (next_url form_replay : string) : string :=
  if str_empty form_replay then next_url else
  let separator := if char_in "?" next_url then "&" else "?" in
  next_url +:+ separator +:+ "form_replay=" +:+ quote_plus form_replay.

Example with_form_replay_examples :
  with_form_replay "/a" "x y/é" = "/a?form_replay=x+y%2F%C3%83%C2%A9" ∧
  with_form_replay "/a?b=1" "t-._~" = "/a?b=1&form_replay=t-._~" ∧ with_form_replay "/a" "" = "/a".
Proof. vm_compute. done. Qed.

(** ** The dashboard's data *)

(** The counters of the stats panel. *)
Record Stats : Type := {
  st_total : Z; st_blocked : Z; st_challenged : Z; st_throttled : Z; st_allowed : Z; st_passed : Z;
}.

Definition DASHBOARD_RANGES : list string := ["today"; "7d"; "30d"].

(** [_range_since]; midnight is that of UTC. *)
Definition range_since (now : Z) (range_param : string) : Z :=
  if bool_decide (range_param = "7d") then now - 7 * day_us
  else if bool_decide (range_param = "30d") then now - 30 * day_us
  else now - now mod day_us.

(** [_db_stats] on the rows of the log: counts by verdict. *)
Definition verdict_count (v : Verdict) (rows : list RequestLog) : Z :=
  count_if (λ r, bool_decide (rl_verdict r = v)) rows.

Definition stats_of (rows : list RequestLog) : Stats :=
  {| st_total := Z.of_nat (length rows);
     st_blocked := verdict_count BLOCKED rows; st_challenged := verdict_count CHALLENGED rows;
     st_throttled := verdict_count THROTTLED rows; st_allowed := verdict_count ALLOWED rows;
     st_passed := verdict_count PASSED rows |}.

(** The counters of the Redis hash, zero where it has none. *)
Definition stats_of_hash (raw : gmap string Z) : Stats :=
  let field k := default 0 (raw !! k) in
  {| st_total := field "total"; st_blocked := field "blocked"; st_challenged := field "challenged";
     st_throttled := field "throttled"; st_allowed := field "allowed"; st_passed := field "passed" |}.

(** [order_by("-blocked_requests")[:10]] and the like: one of the orders SQL
    allows for rows that tie. *)
Definition top {A} (key : A → Z) (n : nat) (rows : list A) : list A :=
  take n (sort_by (λ a b, key b <=? key a) rows).

(** The panels: top blocked addresses, rule effectiveness, recent automatic
    rules (undecided first, newest first). *)
Definition top_blocked (since : Z) (rows : list IPReputation) : list IPReputation :=
  top ir_blocked_requests 10
    (List.filter (λ r, match ir_last_seen_at r with Some t => since <=? t | None => false end) rows).

Definition top_rules (rows : list BlockRule) : list BlockRule :=
  top br_hit_count 10 (List.filter (λ r, br_is_active r && (0 <? br_hit_count r)) rows).

Definition default_order (rows : list BlockRule) : list BlockRule :=
  order_by_priority (sort_by (λ a b, br_created_at b <=? br_created_at a) rows).

Definition unused_rules (rows : list BlockRule) : list BlockRule :=
  take 20 (default_order (List.filter (λ r, br_is_active r && (br_hit_count r =? 0)) rows)).

Definition pending_first (r : BlockRule) : Z :=
  if bool_decide (br_review_status r = PENDING_REVIEW) then 0 else 1.

Definition recent_auto_rules (now : Z) (rows : list BlockRule) : list BlockRule :=
  sort_by (λ a b, pending_first a <=? pending_first b)
    (sort_by (λ a b, br_created_at b <=? br_created_at a)
       (List.filter (λ r, bool_decide (br_source r = RuleSource_AUTO)
                          && (now - 48 * (3600 * usec) <=? br_created_at r)) rows)).

(** ** What Django does around the views *)

Class Pages := {
  page_challenge : string → Z → string → string → string;   (* token, difficulty, next_url, post_url *)
  page_site_password : string → string → string → string;   (* error, next_url, verify_path *)
  page_dashboard : string → string → string → string → string;  (* the four panel URLs *)
  page_stats : string → string → Stats → string;
  page_top_blocked : string → list IPReputation → string;
  page_rule_effectiveness : list BlockRule → list BlockRule → string;
  page_anomalies : list BlockRule → option (list (ReviewStatus * Z) * Z) → string;
  page_row_confirmed : BlockRule → string;
  request_path : Request → string;                          (* with the script prefix *)
  build_absolute_uri : Request → string → res string;
  handle_no_permission : Request → res Response;            (* login redirect, or PermissionDenied *)
  http_method_not_allowed : Request → Response;             (* View's answer to OPTIONS and to a
                                                               method without handler *)
}.

Definition NOINDEX_ROBOTS_HEADER : string := "noindex, nofollow, noarchive".
Definition UNAVAILABLE : string := "This site is temporarily unavailable.".

(** [JsonResponse(data, status=...)]. *)
Definition json_response (status : Z) (data : json) : Response := http_response status (dumps data).
Definition json_error (status : Z) (message : string) : Response :=
  json_response status (JObj [("error", JStr message)]).

(** [request.GET.get(k)], [request.POST.get(k)]: [None] when missing. *)
Definition param (d : gmap string string) (k : string) : json :=
  match d !! k with Some s => JStr s | None => JNull end.

(** [_is_staff], [_is_superuser]: an [AttributeError] without [request.user]. *)
Definition user_test (p : User → bool) (rq : Request) : res bool :=
  match rq_user rq with
  | None => Raise (OtherError "AttributeError")
  | Some u => Ok (u_is_authenticated u && p u)
  end.
Definition is_staff : Request → res bool := user_test u_is_staff.
Definition is_superuser : Request → res bool := user_test u_is_superuser.

(** [_clean_range_param]. *)
Definition clean_range_param (rq : Request) : string :=
  let range_param := default "today" (rq_get rq !! "range") in
  if bool_decide (range_param ∈ DASHBOARD_RANGES) then range_param else "today".

Section Views.
Context {R P : Type} `{RedisClient R} `{ReEngine P} `{Dns} `{Signer} {site : Site R P} `{Pages}.
Context (token_hex : nat → string) (conf : Conf).
Abbreviation W := (World R P).

(** [View.dispatch] of a view with one handler; [NoIndexResponseMixin] adds
    its header to whatever that answers, not to an exception. *)
Definition dispatch (methods : list string) (handler : Request → M W Response) (rq : Request)
  : M W Response :=
  if bool_decide (lower (rq_method rq) ∈ methods) then handler rq
  else ret (http_method_not_allowed rq).
Definition noindex (m : M W Response) : M W Response :=
  response <- m ;; ret (set_header "X-Robots-Tag" NOINDEX_ROBOTS_HEADER response).

(** [_get_ip]. *)
Definition get_ip (rq : Request) : string :=
  let ip := resolve_client_ip conf (rq_meta rq) in if str_empty ip then "0.0.0.0" else ip.

(** [_validate_next_url]; [url_has_allowed_host_and_scheme] strips its
    argument, so a JSON value that is not a string raises there. *)
Definition validate_next_url (rq : Request) (next_param : json) : res string :=
  if negb (jtruthy next_param) then Ok "/" else
  res_bind (rq_host rq) (λ host,
  match next_param with
  | JStr s => Ok (if url_has_allowed_host_and_scheme (R:=R) (P:=P) s host (rq_is_secure rq)
                  then s else "/")
  | _ => Raise (OtherError "AttributeError")
  end).

(** [django.shortcuts.redirect] of a text: the name of a view is reversed,
    and text that is neither a name nor like a URL raises. *)
Definition resolve_url (to : string) : res string :=
  if starts_with "./" to || starts_with "../" to then Ok to else
  match reverse (R:=R) (P:=P) to with
  | Ok url => Ok url
  | Raise NoReverseMatch =>
      if negb (char_in "/" to) && negb (char_in "." to) then Raise NoReverseMatch else Ok to
  | Raise e => Raise e
  end.
Definition redirect_to (to : string) : res Response := res_bind (resolve_url to) (λ url, Ok (redirect url)).

(** ** [ChallengeView] *)

(** [conf.DJANGO_WAF_VERIFY_URL or reverse("django_waf:verify")]. *)
Definition verify_path : res string :=
  if str_empty (DJANGO_WAF_VERIFY_URL conf) then reverse (R:=R) (P:=P) "django_waf:verify"
  else Ok (DJANGO_WAF_VERIFY_URL conf).

Definition challenge_get (rq : Request) : M W Response :=
  let ip := get_ip rq in
  next_url <- lift_res (validate_next_url rq (param (rq_get rq) "next")) ;;
  if negb (has_redis (R:=R) (P:=P)) then ret (http_response 503 UNAVAILABLE) else
  let user_agent := meta_get (rq_meta rq) "HTTP_USER_AGENT" in
  challenge_token <- issue_challenge token_hex conf ip user_agent ;;
  let next_url := with_form_replay next_url (default "" (rq_get rq !! "form_replay")) in
  post_url <- lift_res (res_bind verify_path (build_absolute_uri rq)) ;;
  ret (set_header "Cache-Control" "no-store"
         (http_response 200 (page_challenge (ct_token challenge_token) (ct_difficulty challenge_token)
                               next_url post_url))).

Definition challenge_view (rq : Request) : M W Response :=
  noindex (dispatch ["get"; "head"] challenge_get rq).

(** ** [VerifyView] *)

(** The token, nonce and target of the body; [None] is the 400 of a body that
    is not JSON.  A JSON body that is not an object raises. *)
Definition parse_body (rq : Request) : res (option (json * json * json)) :=
  if str_in "application/json" (rq_content_type rq) then
    match loads (rq_body rq) with
    | None => Ok None
    | Some data =>
        res_bind (jget_default data "token" JNull) (λ token,
        res_bind (jget_default data "nonce" JNull) (λ nonce,
        res_bind (jget_default data "next" JNull) (λ next, Ok (Some (token, nonce, next)))))
    end
  else Ok (Some (param (rq_post rq) "token", param (rq_post rq) "nonce", param (rq_post rq) "next")).

(** The three exceptions of a refused solution, with their text. *)
Definition challenge_error (e : exn) : option string :=
  match e with
  | ChallengeExpiredError m | ChallengeMismatchError m | ChallengeInvalidError m => Some m
  | _ => None
  end.

(** The solve-rate limit; an error of the limiter lets the request through. *)
Definition verify_throttle (ip : string) : M W (option RateLimitResult) :=
  try_except (rate_result <- on_redis (check_verify_rate_limit conf ip) ;;
              ret (if exceeded rate_result then Some rate_result else None))
    (λ _, ret None).

Definition throttle_response (rate_result : RateLimitResult) : Response :=
  set_header "Retry-After" (retry_after_header (rl_retry_after rate_result))
    (json_error 429 "Too many verification attempts. Please retry later.").

(** A refused solution is answered with a new token, when one can be issued. *)
Definition refuse (rq : Request) (ip reason : string) : M W Response :=
  try_except
    (let user_agent := meta_get (rq_meta rq) "HTTP_USER_AGENT" in
     new_token <- issue_challenge token_hex conf ip user_agent ;;
     ret (json_response 400 (JObj [("error", JStr reason); ("new_token", JStr (ct_token new_token))])))
    (λ _, ret (json_error 400 reason)).

(** The solved flag and the fingerprint, each with its errors swallowed. *)
Definition mark_solved (ip : string) : M W unit :=
  try_except (send (SETEX (solved_key ip) 86400 "1") ;;; send (DEL (challenged_key ip)) ;;; ret tt)
    (λ _, ret tt).
Definition register_solver (rq : Request) : M W unit :=
  try_except (on_redis (register_known_fingerprint (compute_fingerprint (rq_meta rq)))) (λ _, ret tt).

(** After an accepted solution. *)
Definition admit_solver (rq : Request) (token ip next_url : string) : M W Response :=
  mark_solved ip ;;; register_solver rq ;;;
  response <- lift_res (redirect_to next_url) ;;
  t <- clock ;;
  ret (issue_pass_cookie conf t token ip (rq_is_secure rq) response).

(** The solution itself: [None] when it is accepted, else the reason. *)
Definition try_solution (token nonce ip : string) : M W (option string) :=
  try_except (verify_challenge_solution token nonce ip ;;; ret None)
    (λ e, match challenge_error e with Some reason => ret (Some reason) | None => raise e end).

Definition verify_post (rq : Request) : M W Response :=
  body <- lift_res (parse_body rq) ;;
  match body with
  | None => ret (json_error 400 "Invalid JSON in request body.")
  | Some (token, nonce, next_param) =>
      if negb (jtruthy token) || negb (jtruthy nonce) then ret (json_error 400 "Missing token or nonce.")
      else
        let ip := get_ip rq in
        next_url <- lift_res (validate_next_url rq next_param) ;;
        if negb (has_redis (R:=R) (P:=P)) then ret (json_error 503 UNAVAILABLE) else
        throttled <- verify_throttle ip ;;
        match throttled with
        | Some rate_result => ret (throttle_response rate_result)
        | None =>
            refused <- try_solution (py_str token) (py_str nonce) ip ;;
            match refused with
            | Some reason => refuse rq ip reason
            | None => admit_solver rq (py_str token) ip next_url
            end
        end
  end.

Definition verify_view (rq : Request) : M W Response := noindex (dispatch ["post"] verify_post rq).

(** ** [SitePasswordVerifyView] *)

Definition site_password_post (rq : Request) : M W Response :=
  if negb (SitePassword.is_gate_enabled conf) || SitePassword.is_misconfigured conf
  then ret (http_response 503 UNAVAILABLE) else
  let submitted := post_param rq "password" in
  let next_param := post_param rq "next" in
  correct <- lift_res (SitePassword.check_password conf submitted) ;;
  if correct then
    url <- lift_res (safe_next (R:=R) (P:=P) rq next_param) ;;
    redirect_response <- lift_res (redirect_to url) ;;
    t <- clock ;;
    ret (SitePassword.set_verified_cookie conf t rq redirect_response)
  else
    throttle <- on_redis (SitePassword.record_guess_throttle_hit_detailed conf
                            (has_redis (R:=R) (P:=P)) (get_ip rq)) ;;
    if exceeded throttle then
      ret (set_header "Retry-After" "60" (http_response 429 "Too many attempts. Please retry later."))
    else
      next_url <- lift_res (validate_next_url rq (JStr next_param)) ;;
      ret (http_response 401 (page_site_password INCORRECT_ERROR next_url (request_path rq))).

Definition site_password_verify_view (rq : Request) : M W Response :=
  noindex (dispatch ["post"] site_password_post rq).

(** ** The dashboard *)

(** [StaffRequiredMixin], [SuperuserRequiredMixin]. *)
Definition guarded (allowed : Request → res bool) (methods : list string)
    (handler : Request → M W Response) (rq : Request) : M W Response :=
  ok <- lift_res (allowed rq) ;;
  if negb ok then lift_res (handle_no_permission rq) else dispatch methods handler rq.

Definition url_of (name : string) : M W string := lift_res (reverse (R:=R) (P:=P) name).

Definition dashboard_view : Request → M W Response := guarded is_staff ["get"; "head"] (λ _,
  stats_url <- url_of "django_waf:dashboard-stats" ;;
  top_blocked_url <- url_of "django_waf:dashboard-top-blocked" ;;
  anomalies_url <- url_of "django_waf:dashboard-anomalies" ;;
  rule_effectiveness_url <- url_of "django_waf:dashboard-rule-effectiveness" ;;
  ret (http_response 200 (page_dashboard stats_url top_blocked_url anomalies_url rule_effectiveness_url))).

(** [_db_stats], [_fetch_stats]: without a Redis client the call of [get] on
    [None] raises, which is caught. *)
Definition db_stats (since : Z) : M W Stats :=
  db_read (λ w, stats_of (List.filter (λ r, since <=? rl_timestamp r) (w_request_log w))).

Definition fetch_stats (range_param : string) : M W Stats :=
  t <- clock ;;
  if negb (bool_decide (range_param = "today")) then db_stats (range_since t range_param) else
  raw <- try_except
    (if negb (has_redis (R:=R) (P:=P)) then raise (OtherError "AttributeError") else
     r <- send (HGETALL STATS_KEY) ;;
     match r with RHash h => ret (Some h) | _ => raise (OtherError "AttributeError") end)
    (λ _, ret None) ;;
  match raw with
  | Some h => ret (stats_of_hash h)
  | None => db_stats (range_since t "today")
  end.

Definition stats_panel : Request → M W Response := guarded is_staff ["get"; "head"] (λ rq,
  let range_param := clean_range_param rq in
  stats_url <- url_of "django_waf:dashboard-stats" ;;
  stats <- fetch_stats range_param ;;
  ret (http_response 200 (page_stats range_param stats_url stats))).

(** The querysets of these two panels are read by the template, after the
    [try] that builds them. *)
Definition top_blocked_panel : Request → M W Response := guarded is_staff ["get"; "head"] (λ rq,
  let range_param := clean_range_param rq in
  t <- clock ;;
  ips <- db_read (λ w, top_blocked (range_since t range_param) (w_reputation w)) ;;
  ret (http_response 200 (page_top_blocked range_param ips))).

Definition rule_effectiveness_panel : Request → M W Response := guarded is_staff ["get"; "head"] (λ _,
  top <- db_read (λ w, top_rules (w_block_rules w)) ;;
  unused <- db_read (λ w, unused_rules (w_block_rules w)) ;;
  ret (http_response 200 (page_rule_effectiveness top unused))).

(** Here the counts are read inside the [try], the rows by the template. *)
Definition anomaly_panel : Request → M W Response := guarded is_staff ["get"; "head"] (λ _,
  t <- clock ;;
  outcomes <- try_except
    (o <- db_read (λ w, auto_rule_review_outcomes t 168 (w_block_rules w)) ;; ret (Some o))
    (λ _, ret None) ;;
  match outcomes with
  | Some o =>
      rules <- db_read (λ w, recent_auto_rules t (w_block_rules w)) ;;
      ret (http_response 200 (page_anomalies rules (Some o)))
  | None => ret (http_response 200 (page_anomalies [] None))
  end).

(** [get_object_or_404(BlockRule, id=rule_id)]. *)
Definition get_rule (rule_id : Z) : M W BlockRule :=
  found <- db_read (λ w, List.find (λ r, br_id r =? rule_id) (w_block_rules w)) ;;
  match found with Some r => ret r | None => raise (OtherError "Http404") end.

(** What the two actions write: the decision columns and the time stamps. *)
Definition decide_rule (now : Z) (source : RuleSource) (expires_at : option Z) (active : bool)
    (status : ReviewStatus) (r : BlockRule) : BlockRule :=
  {| br_id := br_id r; br_name := br_name r; br_rule_type := br_rule_type r;
     br_match_type := br_match_type r; br_pattern := br_pattern r; br_action := br_action r;
     br_priority := br_priority r; br_is_active := active; br_source := source;
     br_expires_at := expires_at; br_hit_count := br_hit_count r; br_last_hit_at := br_last_hit_at r;
     br_confidence := br_confidence r; br_feed_first_seen := br_feed_first_seen r;
     br_feed_reporters := br_feed_reporters r; br_notes := br_notes r; br_review_status := status;
     br_reviewed_at := Some now; br_detectors := br_detectors r; br_created_at := br_created_at r;
     br_updated_at := now |}.
Definition confirmed (now : Z) : BlockRule → BlockRule :=
  decide_rule now RuleSource_ADMIN None true CONFIRMED.
Definition rejected (now : Z) (r : BlockRule) : BlockRule :=
  decide_rule now (br_source r) (br_expires_at r) false REJECTED r.

(** [rule.save(update_fields=...)]: the named columns of its row. *)
Definition save_rule (rule_id : Z) (change : BlockRule → BlockRule) : M W unit :=
  db_write (λ w, {| w with w_block_rules :=
    map (λ r, if br_id r =? rule_id then change r else r) (w_block_rules w) |}) ;;;
  on_block_rule_save.

Definition anomaly_confirm_view (rule_id : Z) : Request → M W Response :=
  guarded is_superuser ["post"] (λ _,
    rule <- get_rule rule_id ;; t <- clock ;;
    save_rule rule_id (confirmed t) ;;;
    ret (http_response 200 (page_row_confirmed (confirmed t rule)))).

Definition anomaly_reject_view (rule_id : Z) : Request → M W Response :=
  guarded is_superuser ["post"] (λ _,
    get_rule rule_id ;;; t <- clock ;;
    save_rule rule_id (rejected t) ;;;
    ret (http_response 200 "")).
End Views.

(** ** Lemmas *)

Section Lemmas.
Context {R P : Type} `{RedisSpec R} `{ReEngine P} `{Dns} `{Signer} {site : Site R P} `{Pages}.
Context (token_hex : nat → string) (conf : Conf).
Abbreviation W := (World R P).
Implicit Types (w : W) (rq : Request).

(** Everything but Redis is as it was. *)
Lemma redis_only_tokens w w' : redis_only w w' → w_tokens w' = w_tokens w ∧ w_now w' = w_now w.
Proof. by intros ->. Qed.

Definition only_redis {A} (m : M W A) : Prop := ∀ w, redis_only w (m w).2.

Lemma only_redis_ret {A} (a : A) : only_redis (ret a).
Proof. intros w. apply redis_only_refl. Qed.
Lemma only_redis_raise {A} e : only_redis (@raise W A e).
Proof. intros w. apply redis_only_refl. Qed.
Lemma only_redis_on {A} (m : Z → M R A) : only_redis (on_redis m).
Proof. intros w. destruct (on_redis m w) as [r w'] eqn:E. by apply on_redis_only in E. Qed.
Lemma only_redis_bind {A B} (m : M W A) (k : A → M W B) :
  only_redis m → (∀ a, only_redis (k a)) → only_redis (bind m k).
Proof.
  intros Hm Hk w. unfold bind. specialize (Hm w). destruct (m w) as [[a|e] w1]; [|done].
  eapply redis_only_trans; [exact Hm|apply Hk].
Qed.
Lemma only_redis_try {A} (m : M W A) (h : exn → M W A) :
  only_redis m → (∀ e, only_redis (h e)) → only_redis (try_except m h).
Proof.
  intros Hm Hh w. unfold try_except. specialize (Hm w). destruct (m w) as [[a|e] w1]; [done|].
  eapply redis_only_trans; [exact Hm|apply Hh].
Qed.

Hint Resolve only_redis_ret only_redis_raise only_redis_on only_redis_bind only_redis_try : waf.

Lemma mark_solved_redis ip : only_redis (mark_solved ip).
Proof. unfold mark_solved, send. auto 8 with waf. Qed.
Lemma register_solver_redis rq : only_redis (register_solver rq).
Proof. unfold register_solver. auto with waf. Qed.
Lemma verify_throttle_redis ip : only_redis (verify_throttle conf ip).
Proof. unfold verify_throttle. auto with waf. Qed.

(** These two never raise. *)
Lemma mark_solved_total ip : total (mark_solved (R:=R) (P:=P) ip).
Proof. apply total_try. done. Qed.
Lemma register_solver_total rq : total (register_solver (R:=R) (P:=P) rq).
Proof. apply total_try. done. Qed.
Lemma verify_throttle_total ip : total (verify_throttle (R:=R) (P:=P) conf ip).
Proof. apply total_try. done. Qed.

(** What an admitted solver gets: the redirect and the cookie. *)
Lemma admit_solver_run rq token ip url w :
  ∃ w', redis_only w w' ∧
    admit_solver conf rq token ip url w =
    (res_bind (redirect_to (R:=R) (P:=P) url) (λ rs,
       Ok (issue_pass_cookie conf (w_now w) token ip (rq_is_secure rq) rs)), w').
Proof.
  unfold admit_solver.
  destruct (total_inv (mark_solved ip) w (mark_solved_total ip)) as (u1 & w1 & E1).
  rewrite (bind_Ok _ _ _ _ _ E1).
  destruct (total_inv (register_solver rq) w1 (register_solver_total rq)) as (u2 & w2 & E2).
  rewrite (bind_Ok _ _ _ _ _ E2).
  pose proof (mark_solved_redis ip w) as R1. rewrite E1 in R1.
  pose proof (register_solver_redis rq w1) as R2. rewrite E2 in R2.
  pose proof (redis_only_trans _ _ _ R1 R2) as R3. exists w2. split; [exact R3|].
  unfold bind, lift_res, clock, gets, ret. destruct (redirect_to url); [|done].
  destruct (redis_only_tokens _ _ R3) as [_ Hnow]. cbn in *. by rewrite Hnow.
Qed.
(** A verification does not move the clock. *)
Definition at_time (t : Z) (w : W) : Prop := w_now w = t.

Lemma redis_at_time t {A} (m : Z → M R A) : preserves (at_time t) (on_redis m).
Proof. intros w Hw. unfold on_redis. by destruct (m _ _). Qed.
Lemma read_at_time t {A} (f : W → A) : preserves (at_time t) (db_read f).
Proof. intros w Hw. unfold db_read. by destruct (w_db_up w). Qed.
Lemma save_at_time t c : preserves (at_time t) (save_token c).
Proof. intros w Hw. unfold save_token, db_write. by destruct (w_db_up w). Qed.

Hint Resolve redis_at_time read_at_time save_at_time : waf.

Lemma verify_at_time t token nonce ip : preserves (at_time t) (verify_challenge_solution token nonce ip).
Proof.
  unfold verify_challenge_solution, check_solution, get_token, get_key, send, clock. monadic.
Qed.

(** What a POST to the verify endpoint may answer. *)
Inductive verify_answer rq w : Response → W → Prop :=
| va_bad_request m : verify_answer rq w (json_error 400 m) w
| va_unavailable : has_redis (R:=R) (P:=P) = false → verify_answer rq w (json_error 503 UNAVAILABLE) w
| va_throttled rr w1 : exceeded rr = true → redis_only w w1 → verify_answer rq w (throttle_response rr) w1
| va_refused token nonce next reason w1 w2 w3 rs :
    parse_body rq = Ok (Some (token, nonce, next)) → redis_only w w1 →
    verify_challenge_solution (py_str token) (py_str nonce) (get_ip conf rq) w1 = (Raise reason, w2) →
    (w_tokens w3 = w_tokens w2 ∨ ∃ c, w_tokens w3 = w_tokens w2 ++ [c] ∧
       ct_status c = ChallengeStatus_PENDING ∧ ct_ip_address c = get_ip conf rq) →
    rs_status rs = 400 → rs_cookies rs = [] → verify_answer rq w rs w3
| va_admitted token nonce next target url w1 w2 w3 :
    parse_body rq = Ok (Some (token, nonce, next)) →
    validate_next_url (R:=R) (P:=P) rq next = Ok target → resolve_url (R:=R) (P:=P) target = Ok url →
    redis_only w w1 →
    verify_challenge_solution (py_str token) (py_str nonce) (get_ip conf rq) w1 = (Ok true, w2) →
    redis_only w2 w3 →
    verify_answer rq w (issue_pass_cookie conf (w_now w) (py_str token) (get_ip conf rq)
                          (rq_is_secure rq) (redirect url)) w3.

Lemma verify_throttle_exceeded ip w rr w1 :
  verify_throttle conf ip w = (Ok (Some rr), w1) → exceeded rr = true.
Proof.
  unfold verify_throttle, try_except, bind. destruct (on_redis _ w) as [[r|e] w2]; [|done].
  destruct (exceeded r) eqn:E; [|done]. intros [= <- _]. done.
Qed.

Lemma verify_post_answers rq w rs w' :
  verify_post token_hex conf rq w = (Ok rs, w') → verify_answer rq w rs w'.
Proof.
  unfold verify_post. intros Hrun. apply bind_inv_Ok in Hrun as (body & w0 & Hb & Hrun).
  unfold lift_res in Hb. injection Hb as Hb <-.
  destruct body as [[[token nonce] next]|]; [|injection Hrun as <- <-; constructor].
  destruct (_ || _); [injection Hrun as <- <-; constructor|].
  apply bind_inv_Ok in Hrun as (target & w0 & Hv & Hrun). injection Hv as Hv <-.
  destruct (has_redis (R:=R) (P:=P)) eqn:Hr; cbn [negb] in Hrun; [|injection Hrun as <- <-; by constructor].
  apply bind_inv_Ok in Hrun as (th & w1 & Ht & Hrun).
  pose proof (verify_throttle_redis (get_ip conf rq) w) as Ho. rewrite Ht in Ho. cbn [snd] in Ho.
  destruct th as [rr|].
  { apply verify_throttle_exceeded in Ht. injection Hrun as <- <-. by constructor. }
  apply bind_inv_Ok in Hrun as (refused & w2 & Hs & Hrun).
  unfold try_solution, try_except, bind in Hs.
  pose proof (verify_at_time (w_now w) (py_str token) (py_str nonce) (get_ip conf rq) w1
    ltac:(unfold at_time; by rewrite Ho)) as Hnow.
  destruct (verify_challenge_solution _ _ _ w1) as [[b|e] w2'] eqn:Ev; cbn [snd] in Hnow.
  - injection Hs as <- <-. pose proof (verify_Ok_inv _ _ _ _ _ _ Ev) as [-> _].
    destruct (admit_solver_run rq (py_str token) (get_ip conf rq) target w2') as (w3 & Hw3 & E).
    rewrite E in Hrun. unfold redirect_to in Hrun. destruct (resolve_url target) as [url|] eqn:Eu; [|done].
    cbn [res_bind] in Hrun. injection Hrun as <- <-. unfold at_time in Hnow. rewrite Hnow. by eapply va_admitted.
  - destruct (challenge_error e) as [reason|]; [|done]. injection Hs as <- <-.
    unfold refuse, try_except, bind in Hrun.
    destruct (issue_challenge _ _ _ _ w2') as [[c|e'] w3] eqn:Ei; injection Hrun as <- <-;
      (eapply va_refused; [exact Hb|exact Ho|exact Ev| |done|done]);
      by apply issue_challenge_tokens in Ei.
Qed.
End Lemmas.

Section Live.
Context {P : Type} `{ReEngine P} `{Dns} `{Signer} {site : Site MemRedis P} `{Pages}.
Context (token_hex : nat → string) (conf : Conf).
Abbreviation W := (World MemRedis P).

(** The solve-rate limit touches its own key only. *)
Lemma verify_throttle_frame ip k (w : W) :
  "waf:rate:verify:" +:+ ip ≠ k →
  mem (w_redis (verify_throttle conf ip w).2) !! k = mem (w_redis w) !! k.
Proof.
  intros Hk. unfold verify_throttle, try_except, bind, on_redis, check_verify_rate_limit, bind.
  unfold check_window, bind, exec_pipe. cbn [r_pipe mem_redis].
  destruct (steps _ _ _) as [[vs ks]|] eqn:E; [|done].
  assert (Hf : ks !! k = mem (w_redis w) !! k).
  { eapply steps_frame; [exact E|]. repeat constructor; done. }
  repeat case_match; simplify_eq; cbn; try done.
  all: unfold ret, raise in *; simplify_eq; exact Hf.
Qed.
(** The page of a challenge that Django can build. *)
Lemma challenge_get_run rq next vp post (w : W) :
  has_redis (R:=MemRedis) (P:=P) = true → validate_next_url (R:=MemRedis) (P:=P) rq (param (rq_get rq) "next") = Ok next →
  verify_path (R:=MemRedis) (P:=P) conf = Ok vp → build_absolute_uri rq vp = Ok post →
  ∀ c w1, issue_challenge token_hex conf (get_ip conf rq) (meta_get (rq_meta rq) "HTTP_USER_AGENT") w = (Ok c, w1) →
  challenge_get token_hex conf rq w =
    (Ok (set_header "Cache-Control" "no-store" (http_response 200
           (page_challenge (ct_token c) (ct_difficulty c)
              (with_form_replay next (default "" (rq_get rq !! "form_replay"))) post))), w1).
Proof.
  intros Hr Hn Hv Hb c w1 Hi. unfold challenge_get, bind, lift_res. rewrite Hn, Hr. cbn [negb].
  rewrite Hi, Hv. cbn [res_bind]. by rewrite Hb.
Qed.

(** A form or JSON body with this token and nonce, and a target that passes. *)
Definition solution_request (rq : Request) (token nonce url : string) (rs : Response) : Prop :=
  ∃ next, parse_body rq = Ok (Some (JStr token, JStr nonce, next)) ∧
    validate_next_url (R:=MemRedis) (P:=P) rq next = Ok url ∧ redirect_to (R:=MemRedis) (P:=P) url = Ok rs.

Lemma verify_post_admits rq c nonce e url rs (w : W) :
  has_redis (R:=MemRedis) (P:=P) = true → w_db_up w = true →
  find_token (ct_token c) (w_tokens w) = Some c → ct_status c = ChallengeStatus_PENDING →
  w_now w <= ct_expires_at c →
  mem (w_redis w) !! challenge_key (ct_token c) = Some (ChallengeProps.challenge_entry c e) →
  digest_has_leading_zero_bits (sha256 (encode (ct_token c +:+ nonce))) (ct_difficulty c) = true →
  ct_token c ≠ "" → nonce ≠ "" → get_ip conf rq = ct_ip_address c →
  solution_request rq (ct_token c) nonce url rs →
  (verify_throttle conf (ct_ip_address c) w).1 = Ok None →
  ∃ w2, verify_post token_hex conf rq w =
    (Ok (issue_pass_cookie conf (w_now w) (ct_token c) (ct_ip_address c) (rq_is_secure rq) rs), w2).
Proof.
  intros Hr Hup Hf Hs He Hm Hpow Ht Hno Hip (next & Hb & Hv & Hto) Hth.
  assert (Hne : ∀ s, s ≠ "" → str_empty s = false) by (intros s Hs0; by destruct s).
  unfold verify_post. erewrite bind_Ok; [|unfold lift_res; by rewrite Hb]. cbv beta iota.
  cbn [jtruthy py_str]. rewrite !Hne by done. cbn [negb orb].
  erewrite bind_Ok; [|unfold lift_res; by rewrite Hv]. rewrite Hr. cbn [negb]. rewrite Hip.
  pose proof (verify_throttle_frame (ct_ip_address c) (challenge_key (ct_token c)) w ltac:(done)) as Hk.
  pose proof (verify_throttle_redis conf (ct_ip_address c) w) as Ho.
  destruct (verify_throttle conf (ct_ip_address c) w) as [r1 w1] eqn:E1. cbn [fst snd] in Hth, Hk, Ho. subst r1.
  rewrite (bind_Ok _ _ _ _ _ E1).
  assert (Hw1 : w_tokens w1 = w_tokens w ∧ w_now w1 = w_now w ∧ w_db_up w1 = w_db_up w) by by rewrite Ho.
  destruct Hw1 as (Hw1t & Hw1n & Hw1d).
  destruct (ChallengeProps.verify_accepts c nonce e w1) as (w2 & Hrun & Hn2); [by rewrite ?Hw1d, ?Hw1t, ?Hw1n, ?Hk..|].
  assert (Hts : try_solution (ct_token c) nonce (ct_ip_address c) w1 = (Ok None, w2)).
  { unfold try_solution. apply try_except_Ok. by rewrite (bind_Ok _ _ _ _ _ Hrun). }
  rewrite (bind_Ok _ _ _ _ _ Hts).
  destruct (admit_solver_run conf rq (ct_token c) (ct_ip_address c) url w2) as (w3 & _ & E3).
  rewrite E3, Hto. cbn [res_bind]. exists w3. by rewrite Hn2, Hw1n.
Qed.
End Live.

(** ** Lemmas on the dashboard actions *)

Section Actions.
Context {R P : Type} `{RedisClient R} `{ReEngine P} `{Pages}.
Abbreviation W := (World R P).
Implicit Types (w : W) (rq : Request).

Definition replace_rule (rule_id : Z) (change : BlockRule → BlockRule) (rows : list BlockRule) : list BlockRule :=
  map (λ r, if br_id r =? rule_id then change r else r) rows.

Lemma invalidate_run w :
  ∃ rd, on_block_rule_save w = (Ok tt, {| w with w_redis := rd |}).
Proof.
  unfold on_block_rule_save, invalidate_rule_cache, try_except, bind, on_redis.
  destruct (exec _ _ _) as [[?|?] rd]; by exists rd.
Qed.

Lemma guarded_inv allowed methods handler rq w rs w' :
  guarded allowed methods handler rq w = (Ok rs, w') → allowed rq = Ok true →
  lower (rq_method rq) ∈ methods → handler rq w = (Ok rs, w').
Proof.
  unfold guarded, dispatch, bind, lift_res. intros Hrun Ha Hm. rewrite Ha in Hrun. cbn [negb] in Hrun.
  by rewrite bool_decide_true in Hrun.
Qed.

(** Who is not allowed, or does not POST, changes nothing. *)
Lemma guarded_unchanged allowed methods handler rq w :
  allowed rq ≠ Ok true ∨ lower (rq_method rq) ∉ methods →
  (guarded allowed methods handler rq w).2 = w.
Proof.
  unfold guarded, dispatch, bind, lift_res. intros Hno. destruct (allowed rq) as [[|]|e] eqn:E; cbn [negb]; try done.
  rewrite bool_decide_false; [done|]. naive_solver.
Qed.

(** The effect of an action that returns. *)
Lemma action_run rule_id change (page : Z → BlockRule → Response) w rs w' :
  (rule <- get_rule rule_id ;; t <- clock ;; save_rule rule_id (change t) ;;; ret (page t rule)) w = (Ok rs, w') →
  ∃ rule, List.find (λ r, br_id r =? rule_id) (w_block_rules w) = Some rule ∧
    w_block_rules w' = replace_rule rule_id (change (w_now w)) (w_block_rules w) ∧
    w_concurrent w' = w_concurrent w.
Proof.
  unfold get_rule. intros Hrun. apply bind_inv_Ok in Hrun as (rule & w1 & Hg & Hrun).
  apply bind_inv_Ok in Hg as (found & w2 & Hd & Hf). unfold db_read in Hd.
  destruct (w_db_up w) eqn:Hup; [|done]. injection Hd as <- <-.
  destruct (List.find _ _) as [r|] eqn:Ef; [|done]. injection Hf as <- <-. exists r. split; [done|].
  unfold bind, clock, gets, save_rule, bind, db_write in Hrun. rewrite Hup in Hrun.
  match type of Hrun with context [on_block_rule_save ?s] => destruct (invalidate_run s) as [rd E] end.
  rewrite E in Hrun. injection Hrun as _ <-. done.
Qed.

Lemma replace_rule_keys rule_id change rows :
  (∀ r, auto_key (change r) = auto_key r) → auto_keys_unique rows →
  auto_keys_unique (replace_rule rule_id change rows).
Proof.
  intros Hk. unfold auto_keys_unique, replace_rule.
  replace (omap auto_key (map _ rows)) with (omap auto_key rows); [done|].
  induction rows as [|r rows IH]; [done|]. cbn [map omap list_omap]. simpl.
  destruct (br_id r =? rule_id); rewrite ?Hk; destruct (auto_key r); [f_equal| |f_equal|]; exact IH.
Qed.

Lemma replace_rule_In rule_id change rows rule :
  List.find (λ r, br_id r =? rule_id) rows = Some rule → In (change rule) (replace_rule rule_id change rows).
Proof.
  intros Hf. apply List.find_some in Hf as [Hin He]. apply in_map_iff. exists rule. by rewrite He.
Qed.
End Actions.

(** ** Properties *)

Module ViewsProps.

(** C22: a browser that solves its challenge gets in.  With the database and
    Redis up, the challenge page can be served, and it carries the token and
    the difficulty of a stored challenge; until that challenge expires, a POST
    of a nonce that meets the difficulty, from the same address and not
    throttled, is answered with the redirect to its checked target and a pass
    cookie, which the middleware accepts from any spelling of that address
    until its lifetime is over, and from no other.  (A nonce longer than its
    column, 128 characters, is stored here; PostgreSQL would refuse it.) *)
Theorem solver_gets_in {P} `{ReEngine P} `{Dns} `{Signer} (site : Site MemRedis P) `{Pages} token_hex conf
    rq (w : World MemRedis P) next vp post :
  let token := token_hex (w_fresh w) in
  let ttl := DJANGO_WAF_CHALLENGE_COOKIE_TTL conf in
  w_db_up w = true → has_redis (R:=MemRedis) (P:=P) = true → 0 < ttl →
  find_token token (w_tokens w) = None → token ≠ "" → char_in bar token = false →
  plain_ip (get_ip conf rq) = true → rq_method rq = "GET" →
  validate_next_url (R:=MemRedis) (P:=P) rq (param (rq_get rq) "next") = Ok next →
  verify_path (R:=MemRedis) (P:=P) conf = Ok vp → build_absolute_uri rq vp = Ok post →
  ∃ c page w1, challenge_view token_hex conf rq w = (Ok page, w1) ∧ rs_status page = 200 ∧
    rs_body page = page_challenge token (ct_difficulty c)
                     (with_form_replay next (default "" (rq_get rq !! "form_replay"))) post ∧
    find_token token (w_tokens w1) = Some c ∧
    ∀ dt nonce rq2 url rs, 0 <= dt <= ttl * usec →
      digest_has_leading_zero_bits (sha256 (encode (token +:+ nonce))) (ct_difficulty c) = true → nonce ≠ "" →
      rq_method rq2 = "POST" → get_ip conf rq2 = get_ip conf rq → solution_request rq2 token nonce url rs →
      let w1' := {| w1 with w_now := w_now w1 + dt |} in
      (verify_throttle conf (get_ip conf rq) w1').1 = Ok None →
      ∃ answer cookie w2, verify_view token_hex conf rq2 w1' = (Ok answer, w2) ∧
        rs_status answer = rs_status rs ∧ rs_headers answer !! "Location" = rs_headers rs !! "Location" ∧
        cookie_value "waf_pass" answer = Some cookie ∧
        ∀ later ip', validate_pass_cookie conf later cookie ip' =
          (later <=? ((w_now w + dt) / usec + ttl) * usec) &&
          bool_decide (normalise_ip (get_ip conf rq) = normalise_ip ip').
Proof.
  intros token ttl Hup Hr Httl Hfresh Hne Hbar Hip Hget Hn Hv Hb.
  destruct (ChallengeProps.issue_challenge_up token_hex conf (get_ip conf rq)
    (meta_get (rq_meta rq) "HTTP_USER_AGENT") w Hup Httl Hfresh)
    as (c & w1 & Hi & Ht & Hcip & Hs & He & Hnow & Hup1 & Hf & Hm). fold token in Ht, Hf, Hm.
  assert (Hpage := challenge_get_run token_hex conf rq next vp post w Hr Hn Hv Hb c w1 Hi).
  eexists c, _, w1. split.
  { unfold challenge_view, noindex, dispatch. rewrite Hget. cbn [bool_decide].
    rewrite bool_decide_true by (vm_compute; left).
    erewrite bind_Ok; [reflexivity|exact Hpage]. }
  rewrite Ht. split_and!; [done|done|done|].
  intros dt nonce rq2 url rs Hdt Hpow Hnn Hpost Hip2 Hsol w1' Hth. rewrite <- Ht in *.
  destruct (verify_post_admits token_hex conf rq2 c nonce _ url rs w1' Hr Hup1 Hf Hs
    ltac:(cbn; rewrite Hnow, He; lia) Hm Hpow Hne Hnn ltac:(congruence) Hsol ltac:(by rewrite Hcip)) as (w2 & Hrun).
  eexists _, _, w2. split.
  { unfold verify_view, noindex, dispatch. rewrite Hpost. rewrite bool_decide_true by (vm_compute; left).
    erewrite bind_Ok; [reflexivity|exact Hrun]. }
  cbn. split_and!; [done|by rewrite lookup_insert_ne| |].
  { unfold cookie_value. cbn. rewrite rev_app_distr. cbn. reflexivity. }
  intros later ip'. rewrite Hnow, Hcip. by apply validate_issued.
Qed.

(** The POST behind a view answer, and its header. *)
Lemma verify_view_post {R P} `{RedisSpec R} `{ReEngine P} `{Dns} `{Signer} {site : Site R P} `{Pages}
    token_hex conf rq (w w' : World R P) rs :
  rq_method rq = "POST" → verify_view token_hex conf rq w = (Ok rs, w') →
  ∃ rs0, verify_answer conf rq w rs0 w' ∧ rs = set_header "X-Robots-Tag" NOINDEX_ROBOTS_HEADER rs0.
Proof.
  intros Hm Hrun. unfold verify_view, noindex, dispatch in Hrun. rewrite Hm in Hrun.
  rewrite bool_decide_true in Hrun by (vm_compute; left).
  apply bind_inv_Ok in Hrun as (rs0 & w1 & Hp & Hrun). injection Hrun as <- <-.
  exists rs0. split; [by eapply verify_post_answers|done].
Qed.

(** C23: a pass cookie is handed out for a solution only.  If a POST to the
    verify endpoint is answered with a cookie, then the body named a token
    whose row was PENDING, unexpired and issued to the client's own address,
    with a nonce that meets its difficulty; the row is SOLVED afterwards; the
    answer is a redirect to "/" or to a target Django accepts for this host
    (no open redirect), hidden from crawlers; and the one cookie it sets is
    the signed pass of that token for that address. *)
Theorem cookie_needs_solution {R P} `{RedisSpec R} `{ReEngine P} `{Dns} `{Signer} (site : Site R P) `{Pages}
    token_hex conf rq (w w' : World R P) rs :
  rq_method rq = "POST" → verify_view token_hex conf rq w = (Ok rs, w') → rs_cookies rs ≠ [] →
  ∃ token nonce next obj difficulty w1 target url,
    parse_body rq = Ok (Some (token, nonce, next)) ∧
    find_token (py_str token) (w_tokens w) = Some obj ∧ ct_status obj = ChallengeStatus_PENDING ∧
    w_now w <= ct_expires_at obj ∧
    redis_only w w1 ∧ checked_against w1 (py_str token) obj (JStr (get_ip conf rq)) difficulty ∧
    digest_has_leading_zero_bits (sha256 (encode (py_str token +:+ py_str nonce))) difficulty = true ∧
    (∃ c, find_token (py_str token) (w_tokens w') = Some c ∧ ct_status c = ChallengeStatus_SOLVED) ∧
    (target = "/" ∨ ∃ host, rq_host rq = Ok host ∧
       url_has_allowed_host_and_scheme (R:=R) (P:=P) target host (rq_is_secure rq) = true) ∧
    resolve_url (R:=R) (P:=P) target = Ok url ∧
    rs = set_header "X-Robots-Tag" NOINDEX_ROBOTS_HEADER
           (issue_pass_cookie conf (w_now w) (py_str token) (get_ip conf rq) (rq_is_secure rq) (redirect url)).
Proof.
  intros Hm Hrun Hc. apply verify_view_post in Hrun as (rs0 & Ha & ->); [|done].
  destruct Ha as [| | | |token nonce next target url w1 w2 w3 Hb Hv Hu Ho Ev Ho2]; cbn in Hc; try done.
  pose proof (verify_Ok_inv _ _ _ _ _ _ Ev) as (_ & (obj & d & Hf & Hp & He & Hck & Hd) & c & Hfc & Hs).
  destruct (redis_only_tokens _ _ Ho) as [Ht Hn]. destruct (redis_only_tokens _ _ Ho2) as [Ht2 _].
  rewrite Ht in Hf. rewrite Hn in He. rewrite <- Ht2 in Hfc.
  exists token, nonce, next, obj, d, w1, target, url. split_and!; try done; [by exists c|].
  unfold validate_next_url in Hv. destruct (jtruthy next); [|injection Hv as <-; by left].
  destruct (rq_host rq) as [host|] eqn:Eh; [|done]. cbn [negb res_bind] in Hv.
  destruct next; try done. destruct (url_has_allowed_host_and_scheme _ _ _) eqn:Eu; injection Hv as <-; [|by left].
  right. by exists host.
Qed.

(** What a refusal costs.  A POST to the verify endpoint answered without
    a cookie is a 503 (no Redis) that changed nothing, a 429 that changed no
    row and says when to retry, or a 400; a 400 changed nothing, or moved the
    row of the submitted token alone along the token machine and added at most
    one pending challenge for the client's own address. *)
Lemma refusal_effects {R P} `{RedisSpec R} `{ReEngine P} `{Dns} `{Signer} (site : Site R P) `{Pages}
    token_hex conf rq (w w' : World R P) rs :
  rq_method rq = "POST" → NoDup (map ct_token (w_tokens w)) →
  verify_view token_hex conf rq w = (Ok rs, w') → rs_cookies rs = [] →
  (rs_status rs = 503 ∧ w' = w) ∨
  (rs_status rs = 429 ∧ redis_only w w' ∧ is_Some (rs_headers rs !! "Retry-After")) ∨
  (rs_status rs = 400 ∧
    (w' = w ∨ ∃ token nonce next rows fresh, parse_body rq = Ok (Some (token, nonce, next)) ∧
       w_tokens w' = rows ++ fresh ∧
       Forall2 (token_step (w_now w) (py_str token) (py_str nonce)) (w_tokens w) rows ∧
       (fresh = [] ∨ ∃ c, fresh = [c] ∧ ct_status c = ChallengeStatus_PENDING ∧
          ct_ip_address c = get_ip conf rq))).
Proof.
  intros Hm Hnd Hrun Hc. apply verify_view_post in Hrun as (rs0 & Ha & ->); [|done].
  destruct Ha as [m|_|rr w1 _ Ho|token nonce next reason w1 w2 w3 rs0 Hb Ho Ev Hf Hs _|]; cbn in Hc.
  - right; right. split; [done|by left].
  - by left.
  - right; left. split_and!; [done|done|]. cbn. rewrite lookup_insert_ne by done. rewrite lookup_insert_eq. by eexists.
  - right; right. split; [exact Hs|right].
    destruct (redis_only_tokens _ _ Ho) as [Ht Hn].
    apply verify_steps in Ev; [|by rewrite Ht]. rewrite Ht, Hn in Ev.
    destruct Hf as [Hf|(c & Hf & ? & ?)].
    + exists token, nonce, next, (w_tokens w2), []. rewrite app_nil_r. split_and!; try done. by left.
    + exists token, nonce, next, (w_tokens w2), [c]. split_and!; try done. right. by exists c.
  - done.
Qed.

(** A rejection is final.  When a superuser's reject request returns, the
    rule it names is stored inactive and REJECTED, and after any later detector
    run on that table, whatever the log holds and however the run ends, the
    rule is still there with its key, inactive and REJECTED. *)
Lemma rejection_is_final {R P} `{RedisClient R} `{ReEngine P} `{Dns} `{Pages} rule_id rq (w w1 : World R P) rs :
  is_superuser rq = Ok true → rq_method rq = "POST" →
  auto_keys_unique (w_block_rules w) →
  anomaly_reject_view rule_id rq w = (Ok rs, w1) →
  ∃ rule, In rule (w_block_rules w) ∧ br_id rule = rule_id ∧
    In (rejected (w_now w) rule) (w_block_rules w1) ∧
    ∀ uuid4 conf dry cr has_redis window (w2 w3 : World R P) res,
      w_block_rules w2 = w_block_rules w1 → w_concurrent w2 = [] →
      run_all_detectors uuid4 conf dry cr has_redis window w2 = (res, w3) →
      ∃ r, In r (w_block_rules w3) ∧ br_id r = rule_id ∧ auto_key r = auto_key rule ∧
        br_is_active r = false ∧ br_review_status r = REJECTED.
Proof.
  intros Hs Hm Hu Hrun.
  apply guarded_inv in Hrun; [|done|rewrite Hm; vm_compute; left].
  apply (action_run rule_id rejected (λ _ _, http_response 200 "")) in Hrun as (rule & Hf & Hrows & _).
  pose proof (List.find_some _ _ Hf) as [Hin Hid]. exists rule.
  assert (Hrej : In (rejected (w_now w) rule) (w_block_rules w1)) by (rewrite Hrows; by apply replace_rule_In).
  split_and!; [done|by apply Z.eqb_eq|exact Hrej|].
  intros uuid4 conf dry cr hr window w2 w3 res Hrows2 Hc2 Hdet.
  assert (Hp : preserves (run_inv (w_block_rules w2)) (run_all_detectors uuid4 conf dry cr hr window)).
  { apply run_preserves; [apply run_inv_tables|intros; apply create_rule_inv]. }
  assert (Hw2 : run_inv (w_block_rules w2) w2).
  { split_and!; [done| |intros r0 Hr0 _; by exists r0|done].
    rewrite Hrows2, Hrows. by apply replace_rule_keys. }
  destruct (preserves_Ok _ _ _ _ _ Hp Hw2 Hdet) as (_ & _ & Hk & _).
  destruct (Hk (rejected (w_now w) rule)) as (r & Hr & Hrid & Hrk & Hra & Hrs); [by rewrite Hrows2|done|].
  exists r. split_and!; try done. rewrite Hrid. by apply Z.eqb_eq.
Qed.

(** A confirmation enforces the rule for good, and hides it from the
    detectors.  When a superuser's confirm request returns, the rule is active,
    without expiry, CONFIRMED and of source ADMIN; the next time a detector
    writes its key, with the database up, the confirmed rule stays as it is and
    a second, automatic rule with the same key joins it. *)
Lemma confirmed_rule_is_found_again {R P} `{RedisClient R} `{ReEngine P} `{Pages} rule_id rq (w w1 : World R P) rs :
  is_superuser rq = Ok true → rq_method rq = "POST" →
  anomaly_confirm_view rule_id rq w = (Ok rs, w1) →
  ∃ rule, In rule (w_block_rules w) ∧ br_id rule = rule_id ∧
    In (confirmed (w_now w) rule) (w_block_rules w1) ∧
    ∀ uuid4 conf cr d name mt expiry confidence ev (w2 : World R P),
      w_block_rules w2 = w_block_rules w1 → calm w2 →
      ∃ l w3 r r', create_rule uuid4 conf false cr d name (br_rule_type rule) mt (br_pattern rule)
                     (br_action rule) expiry confidence ev w2 = (Ok l, w3) ∧
        In r (w_block_rules w3) ∧ same_decision (confirmed (w_now w) rule) r ∧
        In r' (w_block_rules w3) ∧ br_source r' = RuleSource_AUTO ∧
        br_rule_type r' = br_rule_type rule ∧ br_pattern r' = br_pattern rule ∧ br_action r' = br_action rule.
Proof.
  intros Hs Hm Hrun.
  apply guarded_inv in Hrun; [|done|rewrite Hm; vm_compute; left].
  apply (action_run rule_id confirmed (λ t rule, http_response 200 (page_row_confirmed (confirmed t rule))))
    in Hrun as (rule & Hf & Hrows & _).
  pose proof (List.find_some _ _ Hf) as [Hin Hid]. exists rule.
  assert (Hcon : In (confirmed (w_now w) rule) (w_block_rules w1)) by (rewrite Hrows; by apply replace_rule_In).
  split_and!; [done|by apply Z.eqb_eq|exact Hcon|].
  intros uuid4 conf cr d name mt expiry confidence ev w2 Hrows2 Hcalm.
  destruct (create_rule_calm uuid4 conf cr d name (br_rule_type rule) mt (br_pattern rule) (br_action rule)
    expiry confidence ev w2 Hcalm) as (l & w3 & E & _ & (r' & Hr' & Hl') & _).
  destruct Hcalm as (_ & Hc & Hu).
  pose proof (create_rule_inv (R:=R) (P:=P) uuid4 conf false cr (w_block_rules w2) d name (br_rule_type rule) mt
    (br_pattern rule) (br_action rule) expiry confidence ev) as Hp.
  assert (Hw2 : run_inv (w_block_rules w2) w2) by (split_and!; [done|done|intros r0 Hr0 _; by exists r0|done]).
  destruct (preserves_Ok _ _ _ _ _ Hp Hw2 E) as (_ & _ & Hk & _).
  destruct (Hk (confirmed (w_now w) rule)) as (r & Hr & Hsd); [by rewrite Hrows2|done|].
  exists l, w3, r, r'. unfold lookup_matches in Hl'. cbn in Hl'. bool_hyps. by split_and!.
Qed.

(** The panel of today does not show the log.  While Redis answers, the
    counters for "today" are those of the Redis hash, whatever the request log
    holds (the package only ever writes its field "blocked"), and with no hash
    they are all zero; the longer ranges count the rows of the log. *)
Lemma today_panel_ignores_the_log {P} `{ReEngine P} `{Dns} `{Signer} (site : Site MemRedis P) (w : World MemRedis P) :
  has_redis (R:=MemRedis) (P:=P) = true →
  (peek (w_now w) (mem (w_redis w)) STATS_KEY = None →
   ∀ log, (fetch_stats "today" {| w with w_request_log := log |}).1 = Ok (stats_of_hash ∅)) ∧
  (∀ e h, peek (w_now w) (mem (w_redis w)) STATS_KEY = Some e → e_val e = VHash h →
   ∀ log, (fetch_stats "today" {| w with w_request_log := log |}).1 = Ok (stats_of_hash h)) ∧
  (w_db_up w = true → ∀ days range, (range, days) ∈ [("7d", 7); ("30d", 30)] →
   (fetch_stats range w).1 =
   Ok (stats_of (List.filter (λ r, w_now w - days * day_us <=? rl_timestamp r) (w_request_log w)))).
Proof.
  intros Hr. unfold fetch_stats, try_except, bind, clock, gets, send, on_redis, exec. rewrite Hr.
  rewrite bool_decide_true by done. cbn [negb r_exec mem_redis step w_now w_redis]. split_and!.
  - intros -> log. done.
  - intros e h He Hh log. rewrite He, Hh. done.
  - intros Hup days range Hin. unfold db_stats, db_read.
    rewrite bool_decide_false by set_solver. cbn [negb]. rewrite Hup. set_unfold. by destruct Hin as [[= -> ->]|[[= -> ->]|[]]].
Qed.

(** Only a superuser's POST can confirm or reject: any other request leaves
    the whole state as it was. *)
Lemma only_superusers_decide {R P} `{RedisClient R} `{ReEngine P} `{Pages} rule_id rq (w : World R P) :
  is_superuser rq ≠ Ok true ∨ lower (rq_method rq) ≠ "post" →
  (anomaly_confirm_view rule_id rq w).2 = w ∧ (anomaly_reject_view rule_id rq w).2 = w.
Proof. intros Hno. split; apply guarded_unchanged; destruct Hno; [by left|right|by left|right]; set_solver. Qed.

(** ** Witnesses *)

#[local] Existing Instances MiddlewareProps.demo_site RuleEngineProps.sample_dns.
#[local] Instance demo_pages : Pages := {|
  page_challenge token difficulty next_url post_url := join " " [token; str_of_Z difficulty; next_url; post_url];
  page_site_password _ _ _ := "password"; page_dashboard _ _ _ _ := "dashboard"; page_stats _ _ _ := "stats";
  page_top_blocked _ _ := "top"; page_rule_effectiveness _ _ := "rules"; page_anomalies _ _ := "anomalies";
  page_row_confirmed _ := "confirmed"; request_path := rq_path_info;
  build_absolute_uri _ path := Ok ("https://shop.example" +:+ path);
  handle_no_permission _ := Ok (redirect "/login/"); http_method_not_allowed _ := http_response 405 "" |}.

Definition demo_conf : Conf := {| ChallengeProps.demo_conf with DJANGO_WAF_VERIFY_URL := "/waf/verify/" |}.
Definition demo_get : Request :=
  {| {| (MiddlewareProps.demo_request "Mozilla/5.0") with rq_method := "GET" |}
     with rq_get := {["next" := "/shop"]} |}.
Definition demo_post (nonce : string) : Request :=
  {| {| (MiddlewareProps.demo_request "Mozilla/5.0") with rq_method := "POST" |}
     with rq_post := {["token" := "a1"; "nonce" := nonce; "next" := "/shop"]} |}.
Definition demo_later (w : World MemRedis LiteRe) : World MemRedis LiteRe := {| w with w_now := w_now w + 5 * usec |}.
Definition demo_page := challenge_view ChallengeProps.demo_token demo_conf demo_get ChallengeProps.demo_world.
Definition demo_answer (nonce : string) :=
  verify_view ChallengeProps.demo_token demo_conf (demo_post nonce) (demo_later demo_page.2).

Lemma solver_gets_in_witness :
  ∃ answer cookie w2, demo_answer ChallengeProps.demo_nonce = (Ok answer, w2) ∧
    rs_status answer = 302 ∧ cookie_value "waf_pass" answer = Some cookie ∧
    validate_pass_cookie demo_conf (w_now ChallengeProps.demo_world) cookie "192.0.2.1" = true ∧
    validate_pass_cookie demo_conf (w_now ChallengeProps.demo_world) cookie "192.0.2.2" = false.
Proof.
  pose proof (solver_gets_in MiddlewareProps.demo_site ChallengeProps.demo_token demo_conf demo_get
    ChallengeProps.demo_world "/shop" "/waf/verify/" "https://shop.example/waf/verify/") as Hgo.
  cbv zeta in Hgo.
  do 6 (specialize (Hgo ltac:(vm_compute; done))).
  do 5 (specialize (Hgo ltac:(vm_compute; reflexivity))).
  destruct Hgo as (c & page & w1 & Hp & _ & _ & Hf & Hgo).
  assert (Hw1 : w1 = demo_page.2) by (unfold demo_page; by rewrite Hp).
  assert (Hd : ct_difficulty c = 4).
  { assert (E : ct_difficulty <$> find_token "a1" (w_tokens demo_page.2) = Some 4) by (vm_compute; reflexivity).
    rewrite <- Hw1 in E. unfold ChallengeProps.demo_token in Hf. rewrite Hf in E. by injection E. }
  rewrite Hd, Hw1 in Hgo.
  destruct (Hgo (5 * usec) ChallengeProps.demo_nonce (demo_post ChallengeProps.demo_nonce) "/shop" (redirect "/shop"))
    as (answer & cookie & w2 & Hr & Hs & _ & Hck & Hv).
  - split; vm_compute; discriminate.
  - vm_compute. reflexivity.
  - vm_compute. discriminate.
  - reflexivity.
  - vm_compute. reflexivity.
  - exists (JStr "/shop"). split_and!; vm_compute; reflexivity.
  - vm_compute. reflexivity.
  - exists answer, cookie, w2. split_and!; [exact Hr|exact Hs|exact Hck| |]; rewrite Hv; vm_compute; reflexivity.
Defined.

Lemma cookie_needs_solution_witness :
  ∃ obj, find_token "a1" (w_tokens (demo_later demo_page.2)) = Some obj ∧ ct_status obj = ChallengeStatus_PENDING.
Proof.
  assert (Ht : match demo_answer ChallengeProps.demo_nonce with
               | (Ok rs, _) => length (rs_cookies rs) = 1%nat | _ => False end) by (vm_compute; reflexivity).
  destruct (demo_answer ChallengeProps.demo_nonce) as [[rs|] w'] eqn:E; [|destruct Ht]. unfold demo_answer in E.
  destruct (cookie_needs_solution MiddlewareProps.demo_site ChallengeProps.demo_token demo_conf
    (demo_post ChallengeProps.demo_nonce) (demo_later demo_page.2) w' rs eq_refl E)
    as (token & nonce & next & obj & d & w1 & target & url & Hb & Hf & Hp & _).
  - intros Hc. by rewrite Hc in Ht.
  - vm_compute in Hb. injection Hb as <- <- <-. exists obj. split; [exact Hf|exact Hp].
Defined.

(** A wrong nonce: the token fails, and a new challenge is stored. *)
Definition refused_answer :=
  verify_view (λ _, "b2") demo_conf (demo_post "wrong") (demo_later demo_page.2).

Lemma refusal_effects_witness :
  ∃ rows c, w_tokens refused_answer.2 = rows ++ [c] ∧ ct_status c = ChallengeStatus_PENDING ∧
    Forall2 (token_step (w_now (demo_later demo_page.2)) "a1" "wrong") (w_tokens (demo_later demo_page.2)) rows.
Proof.
  assert (Ht : match refused_answer with
               | (Ok rs, w') => rs_cookies rs = [] ∧ rs_status rs = 400 ∧ length (w_tokens w') = 2%nat
               | _ => False end) by (vm_compute; split_and!; reflexivity).
  assert (Hl : length (w_tokens (demo_later demo_page.2)) = 1%nat) by (vm_compute; reflexivity).
  assert (Hu : NoDup (map ct_token (w_tokens (demo_later demo_page.2)))).
  { assert (E : map ct_token (w_tokens (demo_later demo_page.2)) = ["a1"]) by (vm_compute; reflexivity).
    rewrite E. apply NoDup_singleton. }
  destruct refused_answer as [[rs|] w'] eqn:E; [|destruct Ht]. unfold refused_answer in E.
  destruct Ht as (Hc & Hs & Hn).
  destruct (refusal_effects MiddlewareProps.demo_site (λ _, "b2") demo_conf (demo_post "wrong")
    (demo_later demo_page.2) w' rs eq_refl Hu E Hc) as [[Hs' _]|[[Hs' _]|[_ Hd]]];
    [by rewrite Hs in Hs'|by rewrite Hs in Hs'|].
  destruct Hd as [->|(token & nonce & next & rows & fresh & Hb & Hw & Hf & Hfr)]; [by rewrite Hl in Hn|].
  vm_compute in Hb. injection Hb as <- <- <-. cbn [snd].
  destruct Hfr as [->|(c & -> & Hp & _)].
  - rewrite Hw, app_nil_r in Hn. apply Forall2_length in Hf. by rewrite Hl, Hn in Hf.
  - exists rows, c. split; [exact Hw|]. split; [exact Hp|exact Hf].
Defined.

Definition superuser : User :=
  {| u_is_authenticated := true; u_is_staff := true; u_is_superuser := true; u_pk := Some "1" |}.
Definition admin_post : Request := {| (demo_post "") with rq_user := Some superuser |}.
Definition pending_rule : BlockRule :=
  decide_rule 0 RuleSource_AUTO (Some (2000 * usec)) false PENDING_REVIEW AutoRuleProps.sample_rule.
Definition review_world : World MemRedis LiteRe :=
  DetectorsProps.log_world [pending_rule] DetectorsProps.swarm.
Definition rejection := anomaly_reject_view (R:=MemRedis) (P:=LiteRe) 7 admin_post review_world.

Lemma rejection_is_final_witness :
  ∃ r, In r (w_block_rules (run_all_detectors Z.of_nat DetectorsProps.dconf false false true None rejection.2).2) ∧
    br_is_active r = false ∧ br_review_status r = REJECTED.
Proof.
  assert (Ht : match rejection with (Ok _, w') => w_concurrent w' = [] | _ => False end) by (vm_compute; reflexivity).
  destruct rejection as [[rs|] w1] eqn:E; [|destruct Ht]. unfold rejection in E. cbn [snd].
  destruct (rejection_is_final 7 admin_post review_world w1 rs eq_refl eq_refl) as (rule & _ & _ & _ & Hgo);
    [apply NoDup_singleton|exact E|].
  destruct (run_all_detectors Z.of_nat DetectorsProps.dconf false false true None w1) as [o w3] eqn:E3.
  destruct (Hgo Z.of_nat DetectorsProps.dconf false false true None w1 w3 o eq_refl Ht E3)
    as (r & Hr & _ & _ & Ha & Hst).
  exists r. split; [exact Hr|]. split; [exact Ha|exact Hst].
Defined.

Definition confirmation := anomaly_confirm_view (R:=MemRedis) (P:=LiteRe) 7 admin_post review_world.

Lemma confirmed_rule_is_found_again_witness :
  ∃ l w3 r', create_rule Z.of_nat DetectorsProps.dconf false true "detect_subnet_burst" "Auto" RuleType_IP
    MatchType_EXACT "192.0.2.1" RuleAction_BLOCK 9 100 [] confirmation.2 = (Ok l, w3) ∧
    In r' (w_block_rules w3) ∧ br_source r' = RuleSource_AUTO.
Proof.
  assert (Ht : match confirmation with (Ok _, w') => w_db_up w' = true ∧ w_concurrent w' = [] ∧
                 omap auto_key (w_block_rules w') = [] | _ => False end) by (vm_compute; split_and!; reflexivity).
  destruct confirmation as [[rs|] w1] eqn:E; [|destruct Ht]. unfold confirmation in E. cbn [snd].
  destruct (confirmed_rule_is_found_again 7 admin_post review_world w1 rs eq_refl eq_refl E)
    as (rule & Hin & _ & _ & Hgo).
  destruct Hin as [<-|[]]. destruct Ht as (Hup & Hc & Hk).
  destruct (Hgo Z.of_nat DetectorsProps.dconf true "detect_subnet_burst" "Auto" MatchType_EXACT 9 100 [] w1 eq_refl)
    as (l & w3 & r & r' & Hr & _ & _ & Hr' & Hs & _).
  - split; [exact Hup|]. split; [exact Hc|]. unfold auto_keys_unique. rewrite Hk. constructor.
  - exists l, w3, r'. split; [exact Hr|]. split; [exact Hr'|exact Hs].
Defined.

(** One blocked address and thirty challenged requests: the panel of today
    shows one blocked request and no other. *)
Definition stats_world : World MemRedis LiteRe :=
  (record_block_verdict "192.0.2.1" 300 None (DetectorsProps.log_world [] DetectorsProps.swarm)).2.

Lemma today_panel_ignores_the_log_witness :
  (fetch_stats (site:=MiddlewareProps.demo_site) "today" {| stats_world with w_request_log := DetectorsProps.swarm |}).1
  = Ok (stats_of_hash {["blocked" := 1]}) ∧
  st_challenged (stats_of_hash {["blocked" := 1]}) = 0.
Proof.
  split; [|reflexivity].
  refine (proj1 (proj2 (today_panel_ignores_the_log MiddlewareProps.demo_site stats_world eq_refl))
    {| e_val := VHash {["blocked" := 1]}; e_exp := None |} {["blocked" := 1]} _ eq_refl DetectorsProps.swarm).
  vm_compute. reflexivity.
Defined.

End ViewsProps.
