(* ===== verification/FormReplay.v ===== *)
(** * The form decorator and the challenge replay
    ([forms/decorators.py], [forms/services/replay.py])

    A flagged submission is parked in the session, its author is sent to the
    challenge with a signed reference to it, and a GET that brings the
    reference back is run as the original POST.  The session is the part of it
    this code reads: one value under its own key. *)

From Stdlib Require Import ZArith QArith Lia Ascii String.
From stdpp Require Import base tactics option list strings numbers gmap fin_maps.
From S2P Require Import Prelude PyStr IpAddress Hash PyTime Base64 Regex Conf.
From S2P Require Import ClientIp Redis Http SignedCookies Challenge FormTokens FormDefences.
From S2P Require Import FormProtection Views.

Open Scope Z_scope.

(** ** Sensitive fields *)

(** [_SENSITIVE_FIELD_RE]. *)
Definition SENSITIVE_FIELD_RE : regex :=
  alts [cats [lit "pass"; Alt (lits ["word"; "wd"]) Eps]; lit "secret";
        cats [lit "api"; Alt (one_of "_-") Eps; lit "key"]; lit "csrf"; lit "token"].

Definition is_sensitive_field (name : string) : bool := re_search SENSITIVE_FIELD_RE name.

Definition filter_sensitive_fields (data : Data) : Data :=
  filter (λ kv, is_sensitive_field kv.1 = false) data.

Example sensitive_fields :
  map is_sensitive_field ["Password2"; "user_passwd"; "compass"; "API-Key"; "apikey"; "csrfmiddlewaretoken"; "waf_token"]
  = [true; true; true; true; true; true; true] ∧
  map is_sensitive_field ["email"; "message"; "api__key"; "url"] = [false; false; false; false].
Proof. vm_compute. done. Qed.

(** ** The replay token *)

Definition REPLAY_TTL_SECONDS : Z := 60.

(** [int(time.time())]. *)
Definition epoch (now : Z) : Z := now / usec.

Definition replay_payload (form_id ip session_key : string) (expires_at : Z) : string :=
  join "|" [form_id; ip; session_key; str_of_Z expires_at].

(** [issue_replay_token]; [_sign] is the signature of the form tokens. *)
Definition issue_replay_token (conf : Conf) (now : Z) (form_id ip session_key : string) : string :=
  let payload := replay_payload form_id ip session_key (epoch now + REPLAY_TTL_SECONDS) in
  b64_encode (encode (payload +:+ "|" +:+ token_signature conf (encode payload))).

(** [hmac.compare_digest(expected, sig)] with the undecodable octets of [sig]
    replaced: a [TypeError] when there are some. *)
Definition compare_signature (expected : string) (sig : list Z) : res bool :=
  if forallb (λ b, b <? 128) sig then Ok (bool_decide (encode expected = sig))
  else Raise (OtherError "TypeError").

(** [verify_replay_token]: the form and the session key. *)
Definition verify_replay_token (conf : Conf) (now : Z) (token current_ip : string)
  : res (option (string * string)) :=
  if str_empty token then Ok None else
  match b64_decode token with
  | None => Ok None
  | Some raw =>
      match rsplit_bar raw with
      | None => Ok None
      | Some (payload, sig) =>
          res_bind (compare_signature (token_signature conf payload) sig) (λ same,
          if negb same then Ok None else
          match utf8_decode payload with
          | None => Ok None
          | Some text =>
              match split_on bar text with
              | [form_id; ip; session_key; expires_at_str] =>
                  match py_int expires_at_str with
                  | None => Ok None
                  | Some expires_at =>
                      if expires_at <? epoch now then Ok None
                      else if negb (bool_decide (ip = current_ip)) then Ok None
                      else Ok (Some (form_id, session_key))
                  end
              | _ => Ok None
              end
          end)
      end
  end.

(** ** The session *)

Record ReplayRecord : Type := {
  rr_form_id : string;
  rr_post_url : string;
  rr_data : Data;
  rr_stored_at : Z;
}.

(** The value under [_SESSION_KEY]; a missing one reads as an empty dict. *)
Inductive SessionValue : Type := Stash (records : list (string * ReplayRecord)) | NotADict.

Definition stash_get (k : string) (l : list (string * ReplayRecord)) : option ReplayRecord := assoc k l.

Fixpoint stash_put (k : string) (r : ReplayRecord) (l : list (string * ReplayRecord)) :=
  match l with
  | [] => [(k, r)]
  | (k', r') :: l => if bool_decide (k' = k) then (k, r) :: l else (k', r') :: stash_put k r l
  end.

Definition stash_pop (k : string) (l : list (string * ReplayRecord)) : list (string * ReplayRecord) :=
  List.filter (λ kr, negb (bool_decide (kr.1 = k))) l.

(** The cap: past five records, the oldest are dropped. *)
Definition older (a b : string * ReplayRecord) : bool := rr_stored_at a.2 <=? rr_stored_at b.2.
Definition cap_stash (l : list (string * ReplayRecord)) : list (string * ReplayRecord) :=
  if (length l <=? 5)%nat then l else
  foldr (λ kr, stash_pop kr.1) l (take (length l - 5) (sort_by older l)).

(** [store_in_session] with the key [token_hex] drew; [None]: the request has
    no session. *)
Definition store_in_session (now : Z) (key : string) (form_id post_url : string) (data : Data)
    (session : option SessionValue) : option string * option SessionValue :=
  match session with
  | None => (None, None)
  | Some v =>
      let stash := match v with Stash l => l | NotADict => [] end in
      let record := {| rr_form_id := form_id; rr_post_url := post_url;
                       rr_data := filter_sensitive_fields data; rr_stored_at := epoch now |} in
      (Some key, Some (Stash (cap_stash (stash_put key record stash))))
  end.

(** [fetch_from_session]. *)
Definition fetch_from_session (now : Z) (session_key : string) (session : option SessionValue)
  : option ReplayRecord :=
  match session with
  | Some (Stash l) =>
      match stash_get session_key l with
      | Some record =>
          if REPLAY_TTL_SECONDS + 60 <? epoch now - rr_stored_at record then None else Some record
      | None => None
      end
  | _ => None
  end.

(** [discard_from_session]. *)
Definition discard_from_session (session_key : string) (session : option SessionValue) : option SessionValue :=
  match session with Some (Stash l) => Some (Stash (stash_pop session_key l)) | s => s end.

(** ** The decorator *)

(** What a protected view shares: Redis and the session. *)
Record FormState (R : Type) : Type := { fst_redis : R; fst_session : option SessionValue }.
Arguments fst_redis {R}. Arguments fst_session {R}.

Section Decorator.
Context {R : Type} `{RedisClient R} (conf : Conf) (now : Z).
Context (reverse : string → res string) (request_path : Request → string) (token_hex8 : string).
Abbreviation S := (FormState R).

Definition with_redis {A} (m : M R A) : M S A := λ s,
  let '(r, rd) := m (fst_redis s) in (r, {| s with fst_redis := rd |}).

Definition REJECTED_BODY : string := "Submission rejected. Please try again.".

(** [_maybe_redirect_to_challenge]. *)
Definition maybe_redirect_to_challenge (fp : FormProtection) (rq : Request) : M S (option Response) :=
  if negb (DJANGO_WAF_FORM_CHALLENGE_ON_FLAG conf) then ret None else
  let post_url := request_path rq in
  let ip := resolve_client_ip conf (rq_meta rq) in
  s <- gets fst_session ;;
  let '(session_key, s') := store_in_session now token_hex8 (fp_form_id fp) post_url (rq_post rq) s in
  modify (λ st, {| st with fst_session := s' |}) ;;;
  match session_key with
  | None => ret None
  | Some session_key =>
      let replay_token := issue_replay_token conf now (fp_form_id fp) ip session_key in
      challenge_path <- lift_res (if str_empty (DJANGO_WAF_CHALLENGE_URL conf)
                                  then reverse "django_waf:challenge" else Ok (DJANGO_WAF_CHALLENGE_URL conf)) ;;
      ret (Some (redirect (challenge_path +:+ "?next=" +:+ quote_plus post_url
                             +:+ "&form_replay=" +:+ quote_plus replay_token)))
  end.

(** A view: it sees the request and [request.waf_form_result]. *)
Definition View : Type := Request → option FormEvaluationResult → M S Response.

(** [_handle_post]. *)
Definition handle_post (view : View) (fp : FormProtection) (rq : Request) : M S Response :=
  result <- with_redis (evaluate conf now fp rq (rq_post rq)) ;;
  match fe_verdict result with
  | FORM_BLOCKED => ret (http_response 403 REJECTED_BODY)
  | v =>
      challenge <- (if bool_decide (v = FORM_FLAGGED) then maybe_redirect_to_challenge fp rq else ret None) ;;
      match challenge with
      | Some response => ret response
      | None =>
          response <- view rq (Some result) ;;
          (if bool_decide (v = FORM_PASSED)
           then with_redis (consume_token_marker now (fe_token_payload result)) else ret tt) ;;;
          ret response
      end
  end.

(** [_try_replay]: the request as the original POST. *)
Definition try_replay (fp : FormProtection) (rq : Request) : M S (option Request) :=
  let raw_token := default "" (rq_get rq !! "form_replay") in
  payload <- lift_res (verify_replay_token conf now raw_token (resolve_client_ip conf (rq_meta rq))) ;;
  match payload with
  | None => ret None
  | Some (form_id, session_key) =>
      if negb (bool_decide (form_id = fp_form_id fp)) then ret None else
      s <- gets fst_session ;;
      match fetch_from_session now session_key s with
      | None => ret None
      | Some record =>
          if negb (bool_decide (rr_form_id record = fp_form_id fp)) then ret None else
          modify (λ st, {| st with fst_session := discard_from_session session_key (fst_session st) |}) ;;;
          ret (Some {| {| rq with rq_post := rr_data record |} with rq_method := "POST" |})
      end
  end.

(** The wrapper of [waf_protect_post]. *)
Definition waf_protect_post (view : View) (fp : FormProtection) (rq : Request) : M S Response :=
  let fall_through := if negb (bool_decide (rq_method rq = "POST")) then view rq None
                      else handle_post view fp rq in
  if bool_decide (rq_method rq = "GET") && negb (str_empty (default "" (rq_get rq !! "form_replay"))) then
    replayed <- try_replay fp rq ;;
    match replayed with
    | Some rq => handle_post view fp rq
    | None => fall_through
    end
  else fall_through.
End Decorator.

(** ** Lemmas: the stash *)

Lemma stash_get_pop k l : stash_get k (stash_pop k l) = None.
Proof.
  unfold stash_get, assoc, stash_pop. induction l as [|[k' r] l IH]; [done|]. cbn [List.filter fst].
  case_bool_decide as Hk; cbn [negb]; [exact IH|]. cbn [List.find fst]. by rewrite bool_decide_false.
Qed.

Lemma stash_get_pop_ne k k' l : k ≠ k' → stash_get k (stash_pop k' l) = stash_get k l.
Proof.
  intros Hne. unfold stash_get, assoc, stash_pop. induction l as [|[k2 r] l IH]; [done|]. cbn [List.filter fst].
  case_bool_decide as Hk; cbn [negb List.find fst].
  - subst. rewrite IH. by rewrite (bool_decide_false (k' = k)).
  - case_bool_decide; [done|exact IH].
Qed.

Lemma stash_get_In k l r : stash_get k l = Some r → In (k, r) l.
Proof.
  unfold stash_get, assoc. destruct (List.find _ l) as [[k' r']|] eqn:Ef; [|done]. intros [= ->].
  apply List.find_some in Ef as [Hin He]. cbn in He. apply bool_decide_eq_true in He. by subst.
Qed.

Lemma stash_get_keys k l : stash_get k l = None ↔ k ∉ map fst l.
Proof.
  unfold stash_get, assoc. induction l as [|[k' r] l IH]; cbn [List.find map fst].
  { split; [|done]. intros _. apply not_elem_of_nil. }
  rewrite not_elem_of_cons. case_bool_decide as Hk; [split; [done|naive_solver]|].
  rewrite IH. split; [intros ?; split; [congruence|done]|by intros [_ ?]].
Qed.

Lemma stash_put_new k r l : stash_get k l = None → stash_put k r l = l ++ [(k, r)].
Proof.
  rewrite stash_get_keys. induction l as [|[k' r'] l IH]; [done|]. cbn [map fst stash_put app].
  intros [Hne Hni]%not_elem_of_cons. rewrite bool_decide_false by congruence. by rewrite IH.
Qed.

Lemma stash_put_In k r l kr : In kr (stash_put k r l) → kr = (k, r) ∨ In kr l.
Proof.
  induction l as [|[k' r'] l IH]; cbn [stash_put]; [intros [<-|[]]; by left|].
  case_bool_decide; intros [<-|Hin]; [by left|by right; right|by right; left|].
  destruct (IH Hin); [by left|by right; right].
Qed.

Definition keys (l : list (string * ReplayRecord)) : list string := map fst l.

Lemma stash_put_keys k r l : keys (stash_put k r l) = if decide (k ∈ keys l) then keys l else keys l ++ [k].
Proof.
  unfold keys. induction l as [|[k' r'] l IH]; [done|]. cbn [stash_put map fst]. case_bool_decide as Hk.
  - subst. cbn [map fst]. rewrite decide_True by (left). done.
  - cbn [map fst]. rewrite IH. destruct (decide (k ∈ map fst l)).
    + rewrite decide_True by by right. done.
    + rewrite decide_False; [done|]. rewrite not_elem_of_cons. split; [congruence|done].
Qed.

(** Popping a list of keys. *)
Definition pop_all (ks : list string) (l : list (string * ReplayRecord)) : list (string * ReplayRecord) :=
  List.filter (λ kr, negb (bool_decide (kr.1 ∈ ks))) l.

Lemma foldr_pop (old l : list (string * ReplayRecord)) : foldr (λ kr, stash_pop kr.1) l old = pop_all (map fst old) l.
Proof.
  unfold pop_all. induction old as [|[k r] old IH]; cbn [foldr map fst].
  - symmetry. induction l as [|x l IHl]; [done|]. cbn. by rewrite IHl.
  - rewrite IH. unfold stash_pop. rewrite filter_filter. apply List.filter_ext. intros [k' r']. cbn [fst].
    rewrite <- negb_orb. f_equal. rewrite <- bool_decide_or. apply bool_decide_ext.
    rewrite elem_of_cons. tauto.
Qed.

Lemma cap_stash_In l kr : In kr (cap_stash l) → In kr l.
Proof.
  unfold cap_stash. destruct (_ <=? _)%nat; [done|]. rewrite foldr_pop. unfold pop_all. by intros [? _]%filter_In.
Qed.

Lemma pop_all_keys ks l : map fst (pop_all ks l) = List.filter (λ k, negb (bool_decide (k ∈ ks))) (map fst l).
Proof.
  unfold pop_all. induction l as [|[k r] l IH]; [done|]. cbn [List.filter map fst].
  destruct (negb _); cbn [map fst]; by rewrite IH.
Qed.

(** Removing [n] of the keys of a duplicate-free list. *)
Lemma filter_out_length ks (l : list string) :
  NoDup ks → NoDup l → (∀ k, k ∈ ks → k ∈ l) →
  (length (List.filter (λ k, negb (bool_decide (k ∈ ks))) l) + length ks = length l)%nat.
Proof.
  revert ks. induction l as [|x l IH]; intros ks Hks Hl Hsub.
  { destruct ks as [|k ks]; [done|]. by specialize (Hsub k ltac:(left)); apply not_elem_of_nil in Hsub. }
  apply NoDup_cons in Hl as [Hx Hl]. cbn [List.filter]. destruct (decide (x ∈ ks)) as [Hin|Hni].
  - rewrite bool_decide_true by done. cbn [negb].
    apply list_elem_of_split in Hin as (k1 & k2 & ->).
    assert (Hp : k1 ++ x :: k2 ≡ₚ x :: (k1 ++ k2)) by (symmetry; apply Permutation_middle).
    rewrite Hp in Hks. apply NoDup_cons in Hks as [Hx' Hks].
    rewrite (List.filter_ext_in _ (λ k, negb (bool_decide (k ∈ k1 ++ k2)))).
    + specialize (IH (k1 ++ k2) Hks Hl). rewrite Hp. cbn [length]. rewrite <- IH; [lia|].
      intros k Hk. specialize (Hsub k ltac:(rewrite Hp; by right)). apply elem_of_cons in Hsub as [->|?]; done.
    + intros a Ha. f_equal. apply bool_decide_ext. rewrite Hp, elem_of_cons. split; [|by right].
      intros [->|?]; [|done]. apply list_elem_of_In in Ha. done.
  - rewrite bool_decide_false by done. cbn [negb length]. rewrite <- (IH ks); [lia|done|done|].
    intros k Hk. specialize (Hsub k Hk). apply elem_of_cons in Hsub as [->|?]; done.
Qed.

Lemma cap_stash_length l : NoDup (map fst l) → (length (cap_stash l) <= 5)%nat ∧ NoDup (map fst (cap_stash l)).
Proof.
  intros Hnd. unfold cap_stash. destruct (Nat.leb_spec (length l) 5); [done|].
  rewrite foldr_pop. set (old := take _ _).
  assert (Hperm : map fst (sort_by older l) ≡ₚ map fst l) by (apply Permutation_map, sort_by_perm).
  assert (Hold : map fst old = take (length l - 5) (map fst (sort_by older l)))
    by (unfold old; symmetry; apply firstn_map).
  assert (Hks : NoDup (map fst old)).
  { rewrite Hold. eapply (NoDup_app _ (drop (length l - 5) _)). rewrite take_drop. by rewrite Hperm. }
  assert (Hlen : length (map fst old) = (length l - 5)%nat).
  { rewrite Hold, length_take, length_map, (Permutation_length (sort_by_perm older l)). lia. }
  assert (Hsub : ∀ k, k ∈ map fst old → k ∈ map fst l).
  { intros k. rewrite Hold, <- Hperm. intros Hk. apply elem_of_take in Hk as (i & Hi & _).
    by eapply list_elem_of_lookup_2. }
  pose proof (filter_out_length _ _ Hks Hnd Hsub) as Hc.
  rewrite <- pop_all_keys, !length_map in Hc. rewrite length_map in Hlen. split; [lia|].
  rewrite pop_all_keys. apply NoDup_ListNoDup, List.NoDup_filter. by apply NoDup_ListNoDup.
Qed.

(** The newest record survives the cap. *)
Lemma insert_by_last {A} (le : A → A → bool) x y m :
  le y x = true → insert_by le y (m ++ [x]) = insert_by le y m ++ [x].
Proof.
  intros Hle. induction m as [|z m IH]; cbn [app insert_by]; [by rewrite Hle|].
  destruct (le y z); [done|]. by rewrite IH.
Qed.

Lemma sort_by_last {A} (le : A → A → bool) x l :
  (∀ y, In y l → le y x = true) → sort_by le (l ++ [x]) = sort_by le l ++ [x].
Proof.
  unfold sort_by. induction l as [|y l IH]; intros Hle; [done|]. cbn [app foldr].
  rewrite IH by (intros z Hz; apply Hle; by right). apply insert_by_last, Hle. by left.
Qed.

Lemma stash_get_pop_all k ks l : k ∉ ks → stash_get k (pop_all ks l) = stash_get k l.
Proof.
  intros Hk. unfold pop_all, stash_get, assoc. induction l as [|[k' r] l IH]; [done|]. cbn [List.filter fst].
  destruct (decide (k' ∈ ks)) as [Hin|Hni].
  - rewrite bool_decide_true by done. cbn [negb List.find fst]. rewrite IH.
    rewrite bool_decide_false; [done|]. by intros ->.
  - rewrite bool_decide_false by done. cbn [negb List.find fst]. case_bool_decide; [done|exact IH].
Qed.

Lemma cap_stash_newest k r l :
  stash_get k l = None → (∀ kr, In kr l → rr_stored_at kr.2 <= rr_stored_at r) →
  stash_get k (cap_stash (stash_put k r l)) = Some r.
Proof.
  intros Hnew Hle. rewrite stash_put_new by done.
  assert (Hget : stash_get k (l ++ [(k, r)]) = Some r).
  { unfold stash_get, assoc in *. rewrite find_app.
    destruct (List.find _ l) as [kr|]; [done|]. cbn. by rewrite bool_decide_true. }
  unfold cap_stash. destruct (_ <=? _)%nat eqn:El; [done|]. apply Nat.leb_gt in El.
  rewrite foldr_pop, stash_get_pop_all; [done|].
  rewrite sort_by_last by (intros kr Hkr; unfold older; cbn [snd]; apply Z.leb_le, Hle, Hkr).
  pose proof (Permutation_length (sort_by_perm older l)) as Hlen. rewrite length_app in *. cbn [length] in *.
  rewrite take_app_le by lia. apply stash_get_keys in Hnew.
  intros Hin. apply Hnew. apply list_elem_of_In, in_map_iff in Hin as (kr & Hk & Hkr).
  apply list_elem_of_In, elem_of_take in Hkr as (i & Hi & _). apply list_elem_of_lookup_2 in Hi.
  apply list_elem_of_In. rewrite <- Hk. apply in_map. rewrite <- (sort_by_perm older l). by apply list_elem_of_In.
Qed.

(** ** Lemmas: the token *)

Lemma compare_signature_own conf m :
  compare_signature (token_signature conf m) (encode (token_signature conf m)) = Ok true.
Proof.
  unfold compare_signature. assert (Ha : forallb (λ b, b <? 128) (encode (token_signature conf m)) = true).
  { pose proof (token_signature_ascii conf m) as Hs. revert Hs. generalize (token_signature conf m).
    induction s as [|c s IH]; [done|]. cbn [str_forall encode]. unfold is_ascii at 1. intros [Hc Hs]%andb_true_iff.
    rewrite Hc. cbn [app forallb]. by rewrite Hc, IH. }
  rewrite Ha. by rewrite bool_decide_true.
Qed.

Lemma split_replay_payload form_id ip session_key e :
  split_on bar (replay_payload form_id ip session_key e) =
  split_on bar form_id ++ split_on bar ip ++ split_on bar session_key ++ [str_of_Z e].
Proof.
  unfold replay_payload. cbn [join]. do 3 change (?a +:+ "|" +:+ ?b) with (a +:+ String bar b).
  rewrite !split_on_app_gen. by rewrite (split_on_no bar (str_of_Z _)) by by apply str_of_Z_no_char.
Qed.

(** Reading back an issued token. *)
Lemma verify_issued conf t t' form_id ip session_key ip' :
  char_in bar form_id = false → char_in bar ip = false → char_in bar session_key = false →
  verify_replay_token conf t' (issue_replay_token conf t form_id ip session_key) ip' =
  Ok (if (epoch t' <=? epoch t + REPLAY_TTL_SECONDS) && bool_decide (ip = ip') then Some (form_id, session_key) else None).
Proof.
  intros Hf Hi Hk. unfold verify_replay_token, issue_replay_token.
  set (payload := replay_payload form_id ip session_key (epoch t + REPLAY_TTL_SECONDS)).
  rewrite encode_app. change (encode ("|" +:+ ?s)) with (124 :: encode s).
  assert (Ho : Forall octet (encode payload ++ 124 :: encode (token_signature conf (encode payload)))).
  { apply Forall_app. split; [apply encode_octets|]. constructor; [by unfold octet|apply encode_octets]. }
  rewrite b64_decode_encode by done.
  assert (Hne : str_empty (b64_encode (encode payload ++ 124 :: encode (token_signature conf (encode payload)))) = false).
  { pose proof (b64_decode_encode _ Ho) as Hd. destruct (b64_encode _); [|done].
    assert (E0 : b64_decode "" = Some []) by (vm_compute; reflexivity).
    rewrite E0 in Hd. injection Hd as Hd. by destruct (encode payload). }
  rewrite Hne, rsplit_bar_app by apply encode_hex, token_signature_hex.
  rewrite compare_signature_own. cbn [res_bind negb]. rewrite utf8_decode_encode.
  unfold payload. rewrite split_replay_payload, !split_on_no by done. cbn [app].
  rewrite py_int_str_of_Z. rewrite Z.leb_antisym.
  destruct (_ <? _); cbn [negb andb]; [done|]. by case_bool_decide.
Qed.

(** An accepted token is signed, for this address, and in time. *)
Lemma verify_replay_sound conf t token ip form_id session_key :
  verify_replay_token conf t token ip = Ok (Some (form_id, session_key)) →
  ∃ payload expires n,
    b64_decode token = Some (payload ++ 124 :: encode (token_signature conf payload)) ∧
    utf8_decode payload = Some (join "|" [form_id; ip; session_key; expires]) ∧
    py_int expires = Some n ∧ epoch t <= n.
Proof.
  unfold verify_replay_token. destruct (str_empty token); [done|].
  destruct (b64_decode token) as [raw|]; [|done]. destruct (rsplit_bar raw) as [[pl sg]|] eqn:Er; [|done].
  destruct (compare_signature _ sg) as [[|]|] eqn:Ec; try done. cbn [res_bind negb].
  destruct (utf8_decode pl) as [text|] eqn:Eu; [|done].
  destruct (split_on bar text) as [|a [|b [|c [|d [|? ?]]]]] eqn:Es; try done.
  destruct (py_int d) as [n|] eqn:En; [|done]. destruct (Z.ltb_spec n (epoch t)); [done|].
  case_bool_decide as Hb; [|done]. cbn [negb]. intros [= -> ->]. subst b.
  exists pl, d, n. apply rsplit_bar_Some in Er as ->. split_and!; try done.
  - unfold compare_signature in Ec. destruct (forallb _ sg); [|done]. injection Ec as Ec.
    apply bool_decide_eq_true in Ec. by rewrite Ec.
  - rewrite Eu. f_equal. rewrite <- (join_split_on bar text), Es. done.
Qed.

(** A reference names one record, whoever presents it and when. *)
Lemma verified_key_unique conf t1 t2 token ip1 ip2 form1 form2 key1 key2 :
  verify_replay_token conf t1 token ip1 = Ok (Some (form1, key1)) →
  verify_replay_token conf t2 token ip2 = Ok (Some (form2, key2)) → key2 = key1.
Proof.
  unfold verify_replay_token. destruct (str_empty token); [done|]. destruct (b64_decode token) as [raw|]; [|done].
  destruct (rsplit_bar raw) as [[pl sg]|]; [|done]. destruct (compare_signature _ sg) as [[|]|]; try done.
  cbn [res_bind negb]. destruct (utf8_decode pl) as [text|]; [|done].
  destruct (split_on bar text) as [|a [|b [|c [|d [|? ?]]]]]; try done. destruct (py_int d); [|done].
  destruct (_ <? epoch t1); [done|]. destruct (_ <? epoch t2); [done|].
  destruct (negb (bool_decide (b = ip1))); [done|]. destruct (negb (bool_decide (b = ip2))); [done|].
  by intros [= _ <-] [= _ <-].
Qed.

(** ** Lemmas: the session invariant *)

(** At most five records under different keys, none with a sensitive field. *)
Definition stash_ok (session : option SessionValue) : Prop :=
  match session with
  | Some (Stash l) =>
      NoDup (keys l) ∧ (length l <= 5)%nat ∧
      ∀ k r name, In (k, r) l → is_sensitive_field name = true → rr_data r !! name = None
  | _ => True
  end.

Lemma store_ok now key form_id post_url data session :
  stash_ok session → stash_ok (store_in_session now key form_id post_url data session).2.
Proof.
  destruct session as [v|]; [|done]. intros Hok. cbn [store_in_session snd]. set (record := Build_ReplayRecord _ _ _ _).
  set (l := match v with Stash l => l | NotADict => [] end).
  assert (Hl : NoDup (keys l) ∧ ∀ k r name, In (k, r) l → is_sensitive_field name = true → rr_data r !! name = None).
  { destruct v as [l0|]; [by destruct Hok as (? & _ & ?)|]. split; [constructor|by intros * []]. }
  destruct Hl as [Hnd Hclean]. destruct (cap_stash_length (stash_put key record l)) as [Hlen Hnd'].
  { fold (keys (stash_put key record l)). rewrite stash_put_keys. case_decide as Hin; [done|].
    apply NoDup_app. split_and!; [done| |apply NoDup_singleton]. intros x Hx ->%list_elem_of_singleton. done. }
  split_and!; [exact Hnd'|exact Hlen|]. intros k r name Hin Hs.
  apply cap_stash_In, stash_put_In in Hin as [[= -> ->]|Hin]; [|by eapply Hclean].
  cbn [rr_data record]. unfold filter_sensitive_fields. apply map_lookup_filter_None. right. intros x _. cbn [fst]. congruence.
Qed.

Lemma discard_ok key session : stash_ok session → stash_ok (discard_from_session key session).
Proof.
  destruct session as [[l|]|]; try done. intros (Hnd & Hlen & Hclean). cbn [discard_from_session stash_ok]. split_and!.
  - unfold keys, stash_pop in *. clear Hlen Hclean. induction l as [|[k r] l IH]; [done|].
    cbn [List.filter map fst] in *. apply NoDup_cons in Hnd as [Hk Hnd].
    case_bool_decide; cbn [negb map fst]; [by apply IH|]. constructor; [|by apply IH].
    intros Hin. apply Hk. apply list_elem_of_In, in_map_iff in Hin as (x & <- & [Hx _]%filter_In).
    by apply list_elem_of_In, in_map.
  - unfold stash_pop. etransitivity; [apply List.filter_length_le|exact Hlen].
  - intros k r name [Hin _]%filter_In. by eapply Hclean.
Qed.

Section Flow.
Context {R : Type} `{RedisClient R} (conf : Conf) (now : Z).
Context (reverse : string → res string) (request_path : Request → string) (token_hex8 : string).
Implicit Types (s : FormState R) (rq : Request) (fp : FormProtection).

(** A submission without its render token is rejected, whatever the view. *)
Lemma handle_post_without_token view fp ds rq s :
  DJANGO_WAF_FORM_PROTECTION_ENABLED conf = true → fp_defences fp = RenderTokenDefence :: ds →
  rq_post rq !! TOKEN_FIELD_NAME = None →
  ∃ s', handle_post conf now reverse request_path token_hex8 view fp rq s = (Ok (http_response 403 REJECTED_BODY), s') ∧
    fst_session s' = fst_session s.
Proof.
  intros Hen Hds Hno.
  assert (Er : render_token_evaluate conf now (context fp rq (rq_post rq) None) (fst_redis s) =
    (Ok (blocked "render_token:missing" 5), fst_redis s)).
  { unfold render_token_evaluate, data_get. cbn [ec_submitted_data context]. by rewrite Hno. }
  destruct (evaluate_blocked conf now fp rq (rq_post rq) ds _ _ _ Hen Hds Er) as (r & rd & E & Hb & _).
  unfold handle_post. erewrite bind_Ok; [|unfold with_redis; by rewrite E]. rewrite Hb. by eexists.
Qed.

(** What a successful look-up established, and what it leaves. *)
Lemma try_replay_Some fp rq s rq' s1 :
  try_replay conf now fp rq s = (Ok (Some rq'), s1) →
  ∃ session_key l record,
    verify_replay_token conf now (default "" (rq_get rq !! "form_replay")) (resolve_client_ip conf (rq_meta rq))
      = Ok (Some (fp_form_id fp, session_key)) ∧
    fst_session s = Some (Stash l) ∧ stash_get session_key l = Some record ∧
    epoch now - rr_stored_at record <= REPLAY_TTL_SECONDS + 60 ∧ rr_form_id record = fp_form_id fp ∧
    rq' = {| {| rq with rq_post := rr_data record |} with rq_method := "POST" |} ∧
    s1 = {| s with fst_session := Some (Stash (stash_pop session_key l)) |}.
Proof.
  unfold try_replay. intros E. apply bind_inv_Ok in E as (payload & s2 & Hv & E). unfold lift_res in Hv. injection Hv as Hv <-.
  destruct payload as [[form_id key]|]; [|done]. case_bool_decide as Hf; [|done]. cbn [negb] in E. subst form_id.
  unfold bind at 1, gets in E. destruct (fetch_from_session now key (fst_session s)) as [record|] eqn:Ef; [|done].
  case_bool_decide as Hr; [|done]. cbn [negb] in E. unfold bind, modify, ret in E. injection E as <- <-.
  unfold fetch_from_session in Ef. destruct (fst_session s) as [[l|]|] eqn:Es; try done.
  destruct (stash_get key l) as [rec|] eqn:Eg; [|done].
  destruct (Z.ltb_spec (REPLAY_TTL_SECONDS + 60) (epoch now - rr_stored_at rec)); [done|]. injection Ef as ->.
  exists key, l, record. split_and!; try done.
Qed.
End Flow.

(** ** Properties *)

Module FormReplayProps.

(** Parking a submission keeps the session small and clean. *)
Lemma redirect_ok {R} conf now reverse request_path key fp rq :
  preserves (λ s : FormState R, stash_ok (fst_session s))
    (maybe_redirect_to_challenge conf now reverse request_path key fp rq).
Proof.
  unfold maybe_redirect_to_challenge. destruct (DJANGO_WAF_FORM_CHALLENGE_ON_FLAG conf); [|apply preserves_ret].
  cbn [negb]. intros s Hs. unfold bind, gets.
  pose proof (store_ok now key (fp_form_id fp) (request_path rq) (rq_post rq) _ Hs) as Hst.
  destruct (store_in_session _ _ _ _ _ _) as [[k|] s']; [|exact Hst].
  unfold modify, lift_res. destruct (if str_empty _ then _ else _); exact Hst.
Qed.

(** The session holds at most five parked submissions, under different
    keys and without passwords, secrets, API keys or tokens, and a protected
    view keeps it so whatever it answers, provided the view it wraps does. *)
Lemma session_stays_small_and_clean {R} `{RedisClient R} conf now reverse request_path token_hex8
    (view : View (R:=R)) fp rq :
  let ok := λ s : FormState R, stash_ok (fst_session s) in
  (∀ rq result, preserves ok (view rq result)) →
  preserves ok (waf_protect_post conf now reverse request_path token_hex8 view fp rq).
Proof.
  intros ok Hview.
  assert (Hredis : ∀ A (m : M R A), preserves ok (with_redis m)).
  { intros A m s Hs. unfold with_redis. by destruct (m (fst_redis s)). }
  assert (Hpost : ∀ rq, preserves ok (handle_post conf now reverse request_path token_hex8 view fp rq)).
  { intros rq0. apply preserves_bind; [apply Hredis|]. intros result.
    destruct (fe_verdict result); [|apply preserves_bind|apply preserves_ret].
    all: try (apply preserves_bind; [case_bool_decide; [|apply preserves_ret]|]).
    - done.
    - intros [rs|]; [apply preserves_ret|]. apply preserves_bind; [apply Hview|].
      intros rs. apply preserves_bind; [case_bool_decide; [apply Hredis|apply preserves_ret]|]. intros; apply preserves_ret.
    - case_bool_decide; [apply redirect_ok|apply preserves_ret].
    - intros [rs|]; [apply preserves_ret|]. apply preserves_bind; [apply Hview|].
      intros rs. apply preserves_bind; [case_bool_decide; [apply Hredis|apply preserves_ret]|]. intros; apply preserves_ret. }
  assert (Hfall : ∀ rq, preserves ok (if negb (bool_decide (rq_method rq = "POST")) then view rq None
                                      else handle_post conf now reverse request_path token_hex8 view fp rq)).
  { intros rq0. destruct (negb _); [apply Hview|apply Hpost]. }
  unfold waf_protect_post. destruct (_ && _); [|apply Hfall].
  apply preserves_bind; [|intros [rq'|]; [apply Hpost|apply Hfall]].
  intros s Hs. destruct (try_replay conf now fp rq s) as [[[rq'|]|e] s1] eqn:E; cbn [snd].
  - apply try_replay_Some in E as (key & l & record & _ & Hl & _ & _ & _ & _ & ->). cbn.
    pose proof (discard_ok key (fst_session s) Hs) as Hd. by rewrite Hl in Hd.
  - unfold try_replay, bind, lift_res, gets, ret, modify in E. by repeat case_match; simplify_eq.
  - unfold try_replay, bind, lift_res, gets, ret, modify in E. by repeat case_match; simplify_eq.
Qed.

(** The sessions the package can leave behind: one without parked submissions,
    one after the redirect of a flagged submission, or one after a request to a
    protected form, whatever the request, the clock, the settings, Redis and the
    key drawn, behind a view that keeps its hands off the package's session
    entry. *)
Inductive left_by_forms {R} `{RedisClient R} : option SessionValue → Prop :=
| nothing_parked v : v = None ∨ v = Some NotADict ∨ v = Some (Stash []) → left_by_forms v
| after_redirect conf now reverse request_path key fp rq s :
    left_by_forms (fst_session s) →
    left_by_forms (fst_session (maybe_redirect_to_challenge (R:=R) conf now reverse request_path key fp rq s).2)
| after_request conf now reverse request_path key (view : View (R:=R)) fp rq s :
    left_by_forms (fst_session s) →
    (∀ rq result s, fst_session (view rq result s).2 = fst_session s) →
    left_by_forms (fst_session (waf_protect_post conf now reverse request_path key view fp rq s).2).

Lemma left_by_forms_ok {R} `{RedisClient R} v : left_by_forms (R:=R) v → stash_ok v.
Proof.
  induction 1 as [v Hv|conf now reverse request_path key fp rq s _ IH|conf now reverse request_path key view fp rq s _ IH Hview].
  - destruct Hv as [->|[->| ->]]; [done|done|]. split_and!; [constructor|cbn; lia|by intros * []].
  - by apply (redirect_ok conf now reverse request_path key fp rq).
  - apply (session_stays_small_and_clean conf now reverse request_path key view fp rq); [|exact IH].
    intros rq0 result s0 Hs0. by rewrite Hview.
Qed.

(** C24: a submission is replayed only for its author, and once.  In a session
    that only requests to protected forms have written to, when a GET is turned
    into a POST, its reference was signed with the package's key for this form
    and for the address the request comes from, and has not expired; the data are
    those of a record of this session, stored for this form less than two minutes
    and a second ago; no password, secret, API key or token is among them; and
    afterwards no request with the same reference, from whatever address, on
    whatever form and at whatever time, is turned into a POST while the session
    stays as this call left it. *)
Theorem replay_is_authorised_once {R} `{RedisClient R} conf now fp rq (s s1 : FormState R) rq' :
  left_by_forms (R:=R) (fst_session s) →
  try_replay conf now fp rq s = (Ok (Some rq'), s1) →
  (∃ payload session_key expires n l record,
    b64_decode (default "" (rq_get rq !! "form_replay")) = Some (payload ++ 124 :: encode (token_signature conf payload)) ∧
    utf8_decode payload = Some (join "|" [fp_form_id fp; resolve_client_ip conf (rq_meta rq); session_key; expires]) ∧
    py_int expires = Some n ∧ epoch now <= n ∧
    fst_session s = Some (Stash l) ∧ In (session_key, record) l ∧ rr_form_id record = fp_form_id fp ∧
    epoch now - rr_stored_at record <= 120 ∧
    rq_method rq' = "POST" ∧ rq_post rq' = rr_data record ∧
    ∀ name, is_sensitive_field name = true → rq_post rq' !! name = None) ∧
  ∀ now2 fp2 rq2 (s2 : FormState R), fst_session s2 = fst_session s1 →
    rq_get rq2 !! "form_replay" = rq_get rq !! "form_replay" →
    ∀ rq2' s3, try_replay conf now2 fp2 rq2 s2 ≠ (Ok (Some rq2'), s3).
Proof.
  intros Hok%left_by_forms_ok E. apply try_replay_Some in E as (key & l & record & Hv & Hs & Hg & Hage & Hform & -> & ->).
  pose proof (verify_replay_sound _ _ _ _ _ _ Hv) as (payload & expires & n & Hb & Hu & Hn & He).
  pose proof (stash_get_In _ _ _ Hg) as Hin. rewrite Hs in Hok. destruct Hok as (_ & _ & Hclean).
  split; [exists payload, key, expires, n, l, record; split_and!; try done; intros name; by apply (Hclean key)|].
  intros now2 fp2 rq2 s2 Hs2 Hget rq2' s3 E2.
  apply try_replay_Some in E2 as (key2 & l2 & record2 & Hv2 & Hsess & Hg2 & _). rewrite Hget in Hv2.
  assert (key2 = key) as -> by (by eapply verified_key_unique).
  rewrite Hs2 in Hsess. cbn in Hsess. injection Hsess as <-. by rewrite stash_get_pop in Hg2.
Qed.

(** C25: the challenge never leads back to the form.  When the submission of a
    form that uses the render token is parked and its author sent to the
    challenge, then bringing the reference back in time, from the same address
    and session, finds the record, removes it, and is answered with the
    rejection, whatever the view: the token field is among the sensitive
    fields that were not stored. *)
Theorem replayed_submission_is_rejected {R} `{RedisClient R} conf t1 t2 reverse request_path key key2 fp ds rq rq2
    (s0 s1 s2 : FormState R) rs (view : View (R:=R)) :
  let token := issue_replay_token conf t1 (fp_form_id fp) (resolve_client_ip conf (rq_meta rq)) key in
  DJANGO_WAF_FORM_PROTECTION_ENABLED conf = true → fp_defences fp = RenderTokenDefence :: ds →
  forallb (λ x, negb (char_in "|" x)) [fp_form_id fp; resolve_client_ip conf (rq_meta rq); key] = true →
  match fst_session s0 with
  | Some (Stash l) => stash_get key l = None ∧ ∀ kr, In kr l → rr_stored_at kr.2 <= epoch t1
  | _ => True
  end →
  maybe_redirect_to_challenge conf t1 reverse request_path key fp rq s0 = (Ok (Some rs), s1) →
  (∃ challenge_path, rs = redirect (challenge_path +:+ "?next=" +:+ quote_plus (request_path rq)
                                     +:+ "&form_replay=" +:+ quote_plus token)) ∧
  (fst_session s2 = fst_session s1 → rq_method rq2 = "GET" → rq_get rq2 !! "form_replay" = Some token →
   resolve_client_ip conf (rq_meta rq2) = resolve_client_ip conf (rq_meta rq) →
   t1 <= t2 → epoch t2 <= epoch t1 + REPLAY_TTL_SECONDS →
   ∃ s3 l, waf_protect_post conf t2 reverse request_path key2 view fp rq2 s2 = (Ok (http_response 403 REJECTED_BODY), s3) ∧
     fst_session s3 = Some (Stash l) ∧ stash_get key l = None).
Proof.
  intros token Hen Hds Hbars Hfresh E. cbn [forallb] in Hbars. rewrite !andb_true_iff, !negb_true_iff in Hbars.
  destruct Hbars as (Hb1 & Hb2 & Hb3 & _).
  unfold maybe_redirect_to_challenge in E. destruct (DJANGO_WAF_FORM_CHALLENGE_ON_FLAG conf); [|done].
  cbn [negb] in E. unfold bind at 1, gets in E. unfold store_in_session in E.
  destruct (fst_session s0) as [v|] eqn:Es0; [|done].
  set (record := Build_ReplayRecord (fp_form_id fp) (request_path rq) (filter_sensitive_fields (rq_post rq)) (epoch t1)) in *.
  set (l0 := match v with Stash l => l | NotADict => [] end) in *.
  unfold bind, modify, lift_res in E.
  destruct (if str_empty (DJANGO_WAF_CHALLENGE_URL conf) then _ else _) as [path|]; [|done].
  injection E as <- <-. split; [by exists path|].
  intros Hs2 Hm Hget Hip Ht12 Hexp. cbn in Hs2.
  assert (Hrec : stash_get key (cap_stash (stash_put key record l0)) = Some record).
  { destruct v as [l|]; [destruct Hfresh as [Hg Hle]; by apply cap_stash_newest|].
    apply cap_stash_newest; [done|by intros ? []]. }
  assert (Htry : try_replay conf t2 fp rq2 s2 =
    (Ok (Some {| {| rq2 with rq_post := rr_data record |} with rq_method := "POST" |}),
     {| s2 with fst_session := Some (Stash (stash_pop key (cap_stash (stash_put key record l0)))) |})).
  { unfold try_replay. rewrite Hget. cbn [from_option id]. unfold token. rewrite Hip.
    erewrite bind_Ok; [|unfold lift_res; by rewrite verify_issued]. cbv beta iota.
    rewrite (proj2 (Z.leb_le _ _)), bool_decide_true by done. cbn [andb].
    rewrite bool_decide_true by done. cbn [negb]. unfold bind at 1, gets. rewrite Hs2.
    cbn [fetch_from_session]. rewrite Hrec. cbn [rr_stored_at record rr_form_id].
    rewrite (proj2 (Z.ltb_ge _ _)) by (unfold REPLAY_TTL_SECONDS in *; lia).
    rewrite bool_decide_true by done. cbn [negb]. unfold bind, modify, ret. rewrite Hs2. done. }
  unfold waf_protect_post. rewrite bool_decide_true, Hget by done. cbn [from_option id].
  assert (Hne : str_empty token = false).
  { pose proof (verify_issued conf t1 t1 (fp_form_id fp) (resolve_client_ip conf (rq_meta rq)) key
      (resolve_client_ip conf (rq_meta rq)) Hb1 Hb2 Hb3) as Hv. fold token in Hv.
    rewrite (proj2 (Z.leb_le _ _)), bool_decide_true in Hv by (unfold REPLAY_TTL_SECONDS; lia || done).
    unfold verify_replay_token in Hv. by destruct (str_empty token). }
  rewrite Hne. cbn [negb andb]. rewrite (bind_Ok _ _ _ _ _ Htry).
  destruct (handle_post_without_token conf t2 reverse request_path key2 view fp ds
    {| {| rq2 with rq_post := rr_data record |} with rq_method := "POST" |}
    {| s2 with fst_session := Some (Stash (stash_pop key (cap_stash (stash_put key record l0)))) |} Hen Hds)
    as (s3 & E3 & Hs3).
  { cbn [rq_post rr_data record]. apply map_lookup_filter_None. right. intros x _. cbn [fst]. vm_compute. discriminate. }
  exists s3, (stash_pop key (cap_stash (stash_put key record l0))). split; [exact E3|].
  split; [exact Hs3|apply stash_get_pop].
Qed.

(** ** Witnesses *)

Definition replay_conf : Conf := {| (default_conf "k") with DJANGO_WAF_CHALLENGE_URL := "/waf/challenge/" |}.
Definition contact_form : FormProtection :=
  {| fp_form_id := "contact"; fp_defences := [RenderTokenDefence; HoneypotDefence; TimeTrapDefence];
     fp_weights := []; fp_skip_for_authenticated := false; fp_per_form_config := no_config |}.
Definition flagged_post : Request :=
  {| {| (SignedCookiesProps.request_with ∅) with rq_method := "POST" |}
     with rq_post := {["waf_token" := "x"; "email" := "a@b.c"; "password" := "hunter2"]} |}.
Definition session_state (session : option SessionValue) : FormState MemRedis :=
  {| fst_redis := {| mem := ∅ |}; fst_session := session |}.
Definition demo_park (now : Z) (s : FormState MemRedis) :=
  maybe_redirect_to_challenge (R:=MemRedis) replay_conf now (λ _, Raise NoReverseMatch) rq_path_info "0a0b"
    contact_form flagged_post s.
Definition parked : FormState MemRedis := (demo_park (1000 * usec) (session_state (Some (Stash [])))).2.
Definition demo_reference : string := issue_replay_token replay_conf (1000 * usec) "contact" "192.0.2.1" "0a0b".
Definition replay_get : Request :=
  {| (SignedCookiesProps.request_with ∅) with rq_get := {["form_replay" := demo_reference]} |}.
Definition accepting_view : View (R:=MemRedis) := λ _ _, ret (http_response 200 "saved").

Lemma parked_ok : stash_ok (fst_session parked).
Proof.
  change (stash_ok (store_in_session (1000 * usec) "0a0b" "contact" (rq_path_info flagged_post) (rq_post flagged_post)
                      (Some (Stash []))).2).
  apply store_ok. split_and!; [constructor|apply Nat.le_0_l|intros * []].
Qed.

Lemma parked_left : left_by_forms (R:=MemRedis) (fst_session parked).
Proof. apply after_redirect, nothing_parked. right. right. reflexivity. Qed.

Lemma replay_is_authorised_once_witness :
  ∃ rq' s1, try_replay replay_conf (1030 * usec) contact_form replay_get parked = (Ok (Some rq'), s1) ∧
    rq_post rq' !! "password" = None ∧
    ∀ rq2' s3, try_replay replay_conf (1031 * usec) contact_form replay_get s1 ≠ (Ok (Some rq2'), s3).
Proof.
  assert (Ht : match try_replay replay_conf (1030 * usec) contact_form replay_get parked with
               | (Ok (Some _), _) => True | _ => False end) by (vm_compute; exact I).
  destruct (try_replay replay_conf (1030 * usec) contact_form replay_get parked) as [[[rq'|]|] s1] eqn:E;
    [|destruct Ht|destruct Ht].
  destruct (replay_is_authorised_once replay_conf (1030 * usec) contact_form replay_get parked s1 rq' parked_left E) as [Ha Honce].
  exists rq', s1. split; [reflexivity|]. split.
  - destruct Ha as (? & ? & ? & ? & ? & ? & _ & _ & _ & _ & _ & _ & _ & _ & _ & _ & Hclean).
    apply Hclean. vm_compute. reflexivity.
  - apply Honce; reflexivity.
Defined.

Lemma session_stays_small_and_clean_witness :
  stash_ok (fst_session (waf_protect_post replay_conf (1030 * usec) (λ _, Raise NoReverseMatch) rq_path_info "0c0d"
                           accepting_view contact_form replay_get parked).2).
Proof.
  assert (Hview : ∀ rq result, preserves (λ s : FormState MemRedis, stash_ok (fst_session s)) (accepting_view rq result))
    by (intros rq result s Hs; exact Hs).
  pose proof (session_stays_small_and_clean replay_conf (1030 * usec) (λ _, Raise NoReverseMatch) rq_path_info "0c0d"
    accepting_view contact_form replay_get) as Hp.
  cbv zeta in Hp. specialize (Hp Hview).
  specialize (Hp parked). cbv beta in Hp. specialize (Hp parked_ok). exact Hp.
Defined.

Lemma replayed_submission_is_rejected_witness :
  ∃ s3, waf_protect_post replay_conf (1030 * usec) (λ _, Raise NoReverseMatch) rq_path_info "0c0d"
    accepting_view contact_form replay_get parked = (Ok (http_response 403 REJECTED_BODY), s3).
Proof.
  assert (Ht : match demo_park (1000 * usec) (session_state (Some (Stash []))) with
               | (Ok (Some _), s1) => s1 = parked | _ => False end) by (vm_compute; reflexivity).
  destruct (demo_park (1000 * usec) (session_state (Some (Stash [])))) as [[[rs|]|] s1] eqn:E;
    [|destruct Ht|destruct Ht]. unfold demo_park in E.
  destruct (replayed_submission_is_rejected replay_conf (1000 * usec) (1030 * usec) (λ _, Raise NoReverseMatch)
    rq_path_info "0a0b" "0c0d" contact_form [HoneypotDefence; TimeTrapDefence] flagged_post replay_get
    (session_state (Some (Stash []))) s1 parked rs accepting_view eq_refl eq_refl eq_refl) as [_ Hgo].
  - split; [reflexivity|intros ? []].
  - exact E.
  - destruct Hgo as (s3 & l & Hr & _).
    + rewrite Ht. reflexivity.
    + reflexivity.
    + reflexivity.
    + reflexivity.
    + vm_compute. discriminate.
    + vm_compute. discriminate.
    + exists s3. exact Hr.
Defined.

End FormReplayProps.
