(* ===== verification/Settings.v ===== *)
(** * Settings at call time ([conf.py])

    What an operator writes: dynamically typed values ([PyVal]) assigned to
    names of Django's settings object, possibly before it is configured.  Every
    [DJANGO_WAF_] name of [conf.py] is one entry of [_RESOLVERS], consulted by
    the module's [__getattr__] on each access.  [conf_of] reads the attributes
    as the typed record [Conf] the other files use; the theorems say that the
    documented defaults are the ones those files assume, that assigning one
    setting changes that setting alone (two documented chains apart), and which
    names exist. *)

From Stdlib Require Import ZArith QArith Lia Ascii String.
From stdpp Require Import base tactics option list strings numbers gmap.
From S2P Require Import Prelude PyStr Conf.

Open Scope Z_scope.

(** ** Python values of settings *)

Inductive PyVal : Type :=
| PNone
| PBool (b : bool)
| PInt (z : Z)
| PFloat (q : Q)
| PStr (s : string)
| PBytes (s : string)
| PTuple (l : list PyVal)
| PList (l : list PyVal)
| PSet (l : list PyVal)
| PDict (items : list (PyVal * PyVal))
| PObject (cls : string) (args : list (string * PyVal)).   (* an instance of another class *)

(** [bool(v)]. *)
Definition truthy (v : PyVal) : bool :=
  match v with
  | PNone => false
  | PBool b => b
  | PInt z => negb (z =? 0)
  | PFloat q => negb (Qeq_bool q 0)
  | PStr s | PBytes s => negb (str_empty s)
  | PTuple l | PList l | PSet l => match l with [] => false | _ => true end
  | PDict items => match items with [] => false | _ => true end
  | PObject _ _ => true
  end.

(** The number a value is compared as: [True == 1 == 1.0]. *)
Definition py_num (v : PyVal) : option Q :=
  match v with
  | PBool b => Some (if b then 1 else 0)%Q
  | PInt z => Some (inject_Z z)
  | PFloat q => Some q
  | _ => None
  end.

(** [v == w], for values that can be dictionary keys. *)
Fixpoint py_eqb (v w : PyVal) {struct v} : bool :=
  match py_num v, py_num w with
  | Some p, Some q => Qeq_bool p q
  | None, None =>
      match v, w with
      | PNone, PNone => true
      | PStr s, PStr t => String.eqb s t
      | PBytes s, PBytes t => String.eqb s t
      | PTuple l, PTuple m =>
          (fix go (l m : list PyVal) : bool :=
             match l, m with
             | [], [] => true
             | x :: l, y :: m => py_eqb x y && go l m
             | _, _ => false
             end) l m
      | _, _ => false
      end
  | _, _ => false
  end.

(** [hash(v)] exists. *)
Fixpoint hashable (v : PyVal) : bool :=
  match v with
  | PList _ | PSet _ | PDict _ => false
  | PTuple l => (fix go (l : list PyVal) : bool :=
                   match l with [] => true | x :: l => hashable x && go l end) l
  | _ => true
  end.

(** [d.get(key, default)]: only a dictionary has [get]. *)
Definition py_get (d key default : PyVal) : res PyVal :=
  match d with
  | PDict items =>
      if negb (hashable key) then Raise (OtherError "TypeError") else
      match List.find (λ p : PyVal * PyVal, py_eqb p.1 key) items with
      | Some p => Ok p.2
      | None => Ok default
      end
  | _ => Raise (OtherError "AttributeError")
  end.

(** [v.startswith(p)]. *)
Definition py_startswith (p : string) (v : PyVal) : res bool :=
  match v with
  | PStr s => Ok (starts_with p s)
  | PBytes _ => Raise (OtherError "TypeError")
  | _ => Raise (OtherError "AttributeError")
  end.

Definition strs (l : list string) : PyVal := PList (map PStr l).

(** ** Django's settings object *)

(** [settings.configured], and the attributes visible on it: the project's and
    those of Django's global defaults. *)
Record DjangoSettings : Type := {
  configured : bool;
  values : gmap string PyVal;
}.

(** [getattr(settings, name, default)]. *)
Definition getattr_default (s : DjangoSettings) (name : string) (default : PyVal) : PyVal :=
  match values s !! name with Some v => v | None => default end.

(** [_get_setting]. *)
Definition get_setting (s : DjangoSettings) (name : string) (default : PyVal) : PyVal :=
  if negb (configured s) then default else getattr_default s name default.

(** [settings.name = v]. *)
Definition assign (s : DjangoSettings) (name : string) (v : PyVal) : DjangoSettings :=
  {| configured := configured s; values := <[name := v]> (values s) |}.

(** ** [_RESOLVERS] *)

Definition resolver : Type := string * (DjangoSettings → PyVal).

Definition plain (name : string) (default : PyVal) : resolver :=
  (name, λ s, get_setting s name default).

(** [_ICV_CACHES_ALIAS], [_DJANGO_WAF_SITE_PASSWORD]: resolvers other ones call. *)
Definition ICV_CACHES_ALIAS (s : DjangoSettings) : PyVal :=
  get_setting s "ICV_CACHES_ALIAS" (PStr "default").
Definition resolve_SITE_PASSWORD (s : DjangoSettings) : PyVal :=
  get_setting s "DJANGO_WAF_SITE_PASSWORD" (PStr "").

(** The master switch and the signing key. *)
Definition core_resolvers : list resolver := [
  plain "DJANGO_WAF_ENABLED" (PBool true);
  plain "DJANGO_WAF_SIGNING_KEY" (PStr "")
].

(** Form protection. *)
Definition form_resolvers : list resolver := [
  plain "DJANGO_WAF_FORM_PROTECTION_ENABLED" (PBool true);
  plain "DJANGO_WAF_FORM_FLAG_THRESHOLD" (PFloat 2);
  plain "DJANGO_WAF_FORM_BLOCK_THRESHOLD" (PFloat 5);
  plain "DJANGO_WAF_FORM_CHALLENGE_ON_FLAG" (PBool true);
  plain "DJANGO_WAF_FORM_EMIT_PASSED_SIGNAL" (PBool false);
  plain "DJANGO_WAF_FORM_TOKEN_TTL" (PInt 3600);
  plain "DJANGO_WAF_FORM_HONEYPOT_FIELD_NAMES"
    (strs ["url"; "website"; "homepage"; "email_confirm"]);
  plain "DJANGO_WAF_FORM_TIME_TRAP_MIN_SECONDS" (PFloat (3 # 2));
  plain "DJANGO_WAF_FORM_TIME_TRAP_MAX_SECONDS" (PInt 3600);
  plain "DJANGO_WAF_FORM_CREDENTIAL_THROTTLE_WINDOW" (PInt 900);
  plain "DJANGO_WAF_FORM_CREDENTIAL_THROTTLE_LIMIT" (PInt 5);
  plain "DJANGO_WAF_FORM_CREDENTIAL_IP_LIMIT" (PInt 20);
  plain "DJANGO_WAF_FORM_SIGNUP_VELOCITY_WINDOW" (PInt 86400);
  plain "DJANGO_WAF_FORM_SIGNUP_VELOCITY_LIMIT" (PInt 5);
  plain "DJANGO_WAF_FORM_POW_DIFFICULTY" (PInt 12);
  plain "DJANGO_WAF_FORM_DEFENCE_WEIGHTS"
    (PDict [(PStr "honeypot", PFloat 5); (PStr "time_trap", PFloat 2); (PStr "render_token", PFloat 5);
            (PStr "ua_consistency", PFloat 2); (PStr "js_touch", PFloat (3 # 2));
            (PStr "credential_throttle", PFloat 5); (PStr "signup_velocity", PFloat 5);
            (PStr "pow_gate", PFloat 5)])
].

(** Challenges, global rate limits, logging, exemptions and Redis. *)
Definition challenge_resolvers : list resolver := [
  plain "DJANGO_WAF_CHALLENGE_DIFFICULTY" (PInt 16);
  plain "DJANGO_WAF_CHALLENGE_DIFFICULTY_DESKTOP" PNone;
  plain "DJANGO_WAF_CHALLENGE_DIFFICULTY_MOBILE" PNone;
  plain "DJANGO_WAF_CHALLENGE_URL" (PStr "");
  plain "DJANGO_WAF_VERIFY_URL" (PStr "");
  plain "DJANGO_WAF_CHALLENGE_COOKIE_TTL" (PInt 86400);
  plain "DJANGO_WAF_RATE_LIMIT_PER_MINUTE" (PInt 120);
  plain "DJANGO_WAF_RATE_LIMIT_PER_5MIN" (PInt 600);
  plain "DJANGO_WAF_RATE_LIMIT_BURST" (PInt 10);
  plain "DJANGO_WAF_LOG_SAMPLE_RATE" (PFloat (1 # 100));
  plain "DJANGO_WAF_NGINX_BLOCKLIST_PATH" (PStr "/etc/nginx/conf.d/django-waf-blocklist.conf");
  plain "DJANGO_WAF_ACCESS_LOG_PATH" (PStr "/var/log/nginx/access.log");
  plain "DJANGO_WAF_ANOMALY_THRESHOLD_DISTINCT_UAS" (PInt 20);
  plain "DJANGO_WAF_AUTO_RULE_EXPIRY_HOURS" (PInt 24);
  plain "DJANGO_WAF_EXEMPT_PATHS" (strs ["/static/"; "/media/"; "/health/"; "/favicon.ico"]);
  plain "DJANGO_WAF_EXEMPT_HOSTS" (strs []);
  plain "DJANGO_WAF_ALLOW_VERIFIED_CRAWLERS" (PBool true);
  plain "DJANGO_WAF_RDNS_FAILURE_CACHE_TTL" (PInt 300);
  plain "DJANGO_WAF_TRUST_X_FORWARDED_FOR" (PBool false);
  ("ICV_CACHES_ALIAS", ICV_CACHES_ALIAS);
  ("DJANGO_WAF_REDIS_ALIAS", λ s,
    get_setting s "DJANGO_WAF_REDIS_ALIAS" (ICV_CACHES_ALIAS s))
].

(** The threat feed, retention, nginx and GeoIP. *)
Definition feed_resolvers : list resolver := [
  plain "DJANGO_WAF_FEED_ENABLED" (PBool true);
  plain "DJANGO_WAF_FEED_URL" (PStr "https://threats.drystane.com/v1/feed.json");
  plain "DJANGO_WAF_FEED_MIN_CONFIDENCE" (PFloat (8 # 10));
  plain "DJANGO_WAF_FEED_REPORT" (PBool false);
  plain "DJANGO_WAF_FEED_REPORT_URL" (PStr "https://threats.drystane.com/v1/report");
  plain "DJANGO_WAF_FEED_API_KEY" (PStr "");
  plain "DJANGO_WAF_LOG_RETENTION_DAYS" (PInt 30);
  plain "DJANGO_WAF_RULE_RETENTION_DAYS" (PInt 90);
  plain "DJANGO_WAF_RULE_PRUNE_ENABLED" (PBool false);
  plain "DJANGO_WAF_NGINX_PID_PATH" (PStr "/run/nginx.pid");
  plain "DJANGO_WAF_NGINX_RELOAD_COMMAND" (strs ["nginx"; "-s"; "reload"]);
  plain "DJANGO_WAF_CHALLENGE_NO_REFERER" (PBool false);
  plain "DJANGO_WAF_NO_REFERER_EXEMPT_PATHS"
    (strs ["/"; "/search/"; "/robots.txt"; "/sitemap.xml"; "/favicon.ico"]);
  plain "DJANGO_WAF_GEOIP_PATH" PNone;
  plain "DJANGO_WAF_MAXMIND_LICENSE_KEY" (PStr "");
  plain "DJANGO_WAF_ALLOWED_METHODS" PNone
].

(** Scoring, cloud spray, path limits and countries. *)
Definition scoring_resolvers : list resolver := [
  plain "DJANGO_WAF_SUSPICIOUS_PATH_PATTERNS" (strs default_suspicious_paths);
  plain "DJANGO_WAF_SCORE_THRESHOLD_LOG" (PFloat 3);
  plain "DJANGO_WAF_SCORE_THRESHOLD_CHALLENGE" (PFloat 5);
  plain "DJANGO_WAF_SCORE_THRESHOLD_BLOCK" (PFloat 7);
  plain "DJANGO_WAF_CHALLENGE_ESCALATION_THRESHOLD" (PInt 10);
  plain "DJANGO_WAF_SUSPICIOUS_PATH_SCORE" (PFloat 3);
  plain "DJANGO_WAF_ESCALATION_BLOCK_TTL" (PInt 3600);
  plain "DJANGO_WAF_CLOUD_SPRAY_MIN_IPS" (PInt 20);
  plain "DJANGO_WAF_CLOUD_SPRAY_MAX_REQUESTS_PER_IP" (PInt 3);
  plain "DJANGO_WAF_CLOUD_SPRAY_TOP_N" (PInt 5);
  plain "DJANGO_WAF_CLOUD_SPRAY_UA_RULE" (PBool false);
  plain "DJANGO_WAF_RATE_LIMIT_PATHS" (PDict []);
  plain "DJANGO_WAF_BLOCKED_COUNTRIES" (strs [])
].

(** Response hooks, the API flag and the site password. *)
Definition response_resolvers : list resolver := [
  plain "DJANGO_WAF_BLOCK_RESPONSE_HANDLER" (PStr "");
  plain "DJANGO_WAF_THROTTLE_RESPONSE_HANDLER" (PStr "");
  plain "DJANGO_WAF_API_ENABLED" (PBool false);
  ("DJANGO_WAF_SITE_PASSWORD", resolve_SITE_PASSWORD);
  ("DJANGO_WAF_SITE_PASSWORD_ENABLED", λ s,
    get_setting s "DJANGO_WAF_SITE_PASSWORD_ENABLED" (PBool (truthy (resolve_SITE_PASSWORD s))));
  plain "DJANGO_WAF_SITE_PASSWORD_TTL" (PInt 43200);
  plain "DJANGO_WAF_SITE_PASSWORD_EXEMPT_PATHS"
    (strs ["/health/"; "/.well-known/"; "/robots.txt"; "/waf/challenge/"; "/waf/verify/"]);
  plain "DJANGO_WAF_SITE_PASSWORD_VERIFY_PATH" (PStr "/waf/site-password/");
  plain "DJANGO_WAF_SITE_PASSWORD_COOKIE_DOMAIN" PNone
].

(** Trusted proxies, quarantine and the trusted-user cookie. *)
Definition trust_resolvers : list resolver := [
  plain "DJANGO_WAF_TRUSTED_PROXIES" (strs []);
  plain "DJANGO_WAF_TRUSTED_UNIX_SOCKET" (PBool false);
  plain "DJANGO_WAF_FEED_QUARANTINE_ALLOW_RULES" (PBool true);
  plain "DJANGO_WAF_NGINX_VALIDATE" (PBool true);
  plain "DJANGO_WAF_NGINX_TEST_COMMAND" (strs ["nginx"; "-t"]);
  plain "DJANGO_WAF_ANOMALY_QUARANTINE_AUTO_RULES" (PBool false);
  plain "DJANGO_WAF_ANOMALY_OBSERVE_ONLY_DETECTORS" (strs []);
  plain "DJANGO_WAF_TRUSTED_COOKIE_ENABLED" (PBool false);
  plain "DJANGO_WAF_TRUSTED_COOKIE_TRUST_LEVEL" (PStr "staff");
  plain "DJANGO_WAF_TRUSTED_COOKIE_TTL" (PInt 3600);
  plain "DJANGO_WAF_TRUSTED_COOKIE_DOMAIN" PNone
].

(** Anomaly thresholds and the verify limit. *)
Definition anomaly_resolvers : list resolver := [
  plain "DJANGO_WAF_ANOMALY_THRESHOLD_SUBNET_BURST_MIN_COUNT" (PInt 30);
  plain "DJANGO_WAF_UNSOLVED_MIN_CHALLENGED" (PInt 3);
  plain "DJANGO_WAF_UNSOLVED_REFERER_RATIO" (PFloat (8 # 10));
  plain "DJANGO_WAF_UNSOLVED_SOLVE_EXEMPTION_WINDOW_HOURS" (PInt 24);
  plain "DJANGO_WAF_UNSOLVED_SUBNET_MIN_CHALLENGED" (PInt 30);
  plain "DJANGO_WAF_UNSOLVED_SUBNET_MIN_IPS" (PInt 10);
  plain "DJANGO_WAF_UNSOLVED_SUBNET_WINDOW_MINUTES" (PInt 360);
  plain "DJANGO_WAF_VERIFY_RATE_LIMIT_MAX" (PInt 20);
  plain "DJANGO_WAF_VERIFY_RATE_LIMIT_WINDOW_SECONDS" (PInt 300)
].

(** The scraper detector. *)
Definition scraper_resolvers : list resolver := [
  plain "DJANGO_WAF_SCRAPER_404_MIN_REQUESTS" (PInt 20);
  plain "DJANGO_WAF_SCRAPER_404_RATIO" (PFloat (85 # 100));
  plain "DJANGO_WAF_SCRAPER_404_WINDOW_MINUTES" (PInt 1440);
  plain "DJANGO_WAF_SCRAPER_404_ACTION_BLOCK" (PBool false)
].

(** *** The Celery beat fragment *)

Definition beat_entry (task : string) (schedule : PyVal) : PyVal :=
  PDict [(PStr "task", PStr ("django_waf.tasks." +:+ task)); (PStr "schedule", schedule)].

(** [_CELERY_BEAT_INTERVAL_ENTRIES]. *)
Definition CELERY_BEAT_INTERVAL_ENTRIES : list (PyVal * PyVal) := [
  (PStr "django-waf-generate-blocklist", beat_entry "generate_blocklist" (PFloat 300));
  (PStr "django-waf-flush-rule-hit-counts", beat_entry "flush_rule_hit_counts" (PFloat 300));
  (PStr "django-waf-detect-anomalies", beat_entry "detect_anomalies" (PFloat 900));
  (PStr "django-waf-parse-access-log", beat_entry "parse_access_log" (PFloat 600));
  (PStr "django-waf-expire-rules", beat_entry "expire_rules" (PFloat 1800));
  (PStr "django-waf-update-ip-reputation", beat_entry "update_ip_reputation" (PFloat 21600));
  (PStr "django-waf-probe-detectors", beat_entry "probe_detectors" (PFloat 3600));
  (PStr "django-waf-probe-flush-path", beat_entry "probe_flush_path" (PFloat 3600))
].

Definition crontab (fields : list (string * Z)) : PyVal :=
  PObject "celery.schedules.crontab" (map (λ p, (p.1, PInt p.2)) fields).

(** [_CELERY_BEAT_CRON_ENTRIES]: empty when Celery is not installed. *)
Definition CELERY_BEAT_CRON_ENTRIES (has_crontab : bool) : list (PyVal * PyVal) :=
  if has_crontab then [
    (PStr "django-waf-prune-request-logs",
      beat_entry "prune_request_logs" (crontab [("hour", 4); ("minute", 0)]));
    (PStr "django-waf-prune-challenge-tokens",
      beat_entry "prune_challenge_tokens" (crontab [("hour", 4); ("minute", 15)]));
    (PStr "django-waf-prune-stale-rules",
      beat_entry "prune_stale_rules" (crontab [("hour", 4); ("minute", 20)]));
    (PStr "django-waf-sync-threat-feed",
      beat_entry "sync_threat_feed" (crontab [("hour", 4); ("minute", 30)]));
    (PStr "django-waf-report-threat-telemetry",
      beat_entry "report_threat_telemetry" (crontab [("hour", 5); ("minute", 0)]));
    (PStr "django-waf-update-geoip-database",
      beat_entry "update_geoip_database" (crontab [("day_of_week", 0); ("hour", 3); ("minute", 0)]))
  ] else [].

Definition beat_resolvers (has_crontab : bool) : list resolver := [
  plain "DJANGO_WAF_CELERY_BEAT_SCHEDULE"
    (PDict (CELERY_BEAT_INTERVAL_ENTRIES ++ CELERY_BEAT_CRON_ENTRIES has_crontab))
].

Section Conf.
Context (has_crontab : bool).      (* [celery.schedules] imports *)

(** [_RESOLVERS], in the order of the file. *)
Definition RESOLVERS : list resolver :=
  core_resolvers ++ form_resolvers ++ challenge_resolvers ++ feed_resolvers ++ scoring_resolvers ++
  response_resolvers ++ beat_resolvers has_crontab ++ trust_resolvers ++ anomaly_resolvers ++
  scraper_resolvers.

(** The module's [__getattr__]. *)
Definition conf_getattr (s : DjangoSettings) (name : string) : res PyVal :=
  match List.find (λ r : resolver, String.eqb r.1 name) RESOLVERS with
  | Some r => Ok (r.2 s)
  | None => Raise (OtherError "AttributeError")
  end.

(** [conf.name] for a name of the file. *)
Definition conf_attr (s : DjangoSettings) (name : string) : PyVal :=
  match conf_getattr s name with Ok v => v | Raise _ => PNone end.
End Conf.

(** ** The attributes as the typed record

    What the code needs of a value: truth for a flag, a number, a string, a
    sequence of strings.  [None] here is a value of another type, on which the
    code that uses the setting raises. *)

Definition as_bool (v : PyVal) : option bool := Some (truthy v).
Definition as_int (v : PyVal) : option Z := match v with PInt z => Some z | _ => None end.
Definition as_num (v : PyVal) : option Q :=
  match v with PInt z => Some (inject_Z z) | PFloat q => Some q | _ => None end.
Definition as_str (v : PyVal) : option string := match v with PStr s => Some s | _ => None end.
Definition as_path (v : PyVal) : option string :=
  match v with PStr s => Some s | PNone => Some "" | _ => None end.
Definition as_opt {A} (f : PyVal → option A) (v : PyVal) : option (option A) :=
  match v with PNone => Some None | _ => Some <$> f v end.

(** The elements an iteration over [v] yields. *)
Definition elements (v : PyVal) : option (list PyVal) :=
  match v with
  | PTuple l | PList l | PSet l => Some l
  | PDict items => Some (map fst items)
  | PStr s => Some (map (λ c, PStr (String c EmptyString)) (list_ascii_of_string s))
  | PBytes s => Some (map (λ c, PInt (code c)) (list_ascii_of_string s))
  | _ => None
  end.

(** A collection of strings (and not one string). *)
Definition as_strs (v : PyVal) : option (list string) :=
  match v with
  | PTuple l | PList l | PSet l => mapM as_str l
  | PDict items => mapM as_str (map fst items)
  | _ => None
  end.

Definition as_weights (v : PyVal) : option (list (string * Q)) :=
  match v with
  | PDict items => mapM (λ p, k ← as_str p.1; q ← as_num p.2; Some (k, q)) items
  | _ => None
  end.

(** An entry of [DJANGO_WAF_RATE_LIMIT_PATHS]. *)
Definition as_path_limit (v : PyVal) : option path_limit :=
  match v with
  | PTuple [m; w] | PList [m; w] =>
      m ← as_int m; w ← as_int w; Some {| pl_max := m; pl_window := w; pl_methods := None |}
  | PTuple [m; w; ms] | PList [m; w; ms] =>
      m ← as_int m; w ← as_int w; ms ← as_strs ms;
      Some {| pl_max := m; pl_window := w; pl_methods := Some ms |}
  | _ => None
  end.

Definition as_paths (v : PyVal) : option (list (string * path_limit)) :=
  match v with
  | PDict items => mapM (λ p, k ← as_str p.1; e ← as_path_limit p.2; Some (k, e)) items
  | _ => None
  end.

Section ReadConf.
Context (attr : string → PyVal) (django : string → PyVal → PyVal).

Definition detector_conf_of : option DetectorConf :=
  x0 ← as_int (attr "DJANGO_WAF_ANOMALY_THRESHOLD_DISTINCT_UAS");
  x1 ← as_int (attr "DJANGO_WAF_AUTO_RULE_EXPIRY_HOURS");
  x2 ← as_int (attr "DJANGO_WAF_CLOUD_SPRAY_MIN_IPS");
  x3 ← as_int (attr "DJANGO_WAF_CLOUD_SPRAY_MAX_REQUESTS_PER_IP");
  x4 ← as_int (attr "DJANGO_WAF_CLOUD_SPRAY_TOP_N");
  x5 ← as_bool (attr "DJANGO_WAF_CLOUD_SPRAY_UA_RULE");
  x6 ← as_int (attr "DJANGO_WAF_ANOMALY_THRESHOLD_SUBNET_BURST_MIN_COUNT");
  x7 ← as_int (attr "DJANGO_WAF_UNSOLVED_MIN_CHALLENGED");
  x8 ← as_num (attr "DJANGO_WAF_UNSOLVED_REFERER_RATIO");
  x9 ← as_int (attr "DJANGO_WAF_UNSOLVED_SOLVE_EXEMPTION_WINDOW_HOURS");
  x10 ← as_int (attr "DJANGO_WAF_UNSOLVED_SUBNET_MIN_CHALLENGED");
  x11 ← as_int (attr "DJANGO_WAF_UNSOLVED_SUBNET_MIN_IPS");
  x12 ← as_int (attr "DJANGO_WAF_UNSOLVED_SUBNET_WINDOW_MINUTES");
  x13 ← as_int (attr "DJANGO_WAF_SCRAPER_404_MIN_REQUESTS");
  x14 ← as_num (attr "DJANGO_WAF_SCRAPER_404_RATIO");
  x15 ← as_int (attr "DJANGO_WAF_SCRAPER_404_WINDOW_MINUTES");
  x16 ← as_bool (attr "DJANGO_WAF_SCRAPER_404_ACTION_BLOCK");
  Some {| DJANGO_WAF_ANOMALY_THRESHOLD_DISTINCT_UAS := x0;
     DJANGO_WAF_AUTO_RULE_EXPIRY_HOURS := x1;
     DJANGO_WAF_CLOUD_SPRAY_MIN_IPS := x2;
     DJANGO_WAF_CLOUD_SPRAY_MAX_REQUESTS_PER_IP := x3;
     DJANGO_WAF_CLOUD_SPRAY_TOP_N := x4;
     DJANGO_WAF_CLOUD_SPRAY_UA_RULE := x5;
     DJANGO_WAF_ANOMALY_THRESHOLD_SUBNET_BURST_MIN_COUNT := x6;
     DJANGO_WAF_UNSOLVED_MIN_CHALLENGED := x7;
     DJANGO_WAF_UNSOLVED_REFERER_RATIO := x8;
     DJANGO_WAF_UNSOLVED_SOLVE_EXEMPTION_WINDOW_HOURS := x9;
     DJANGO_WAF_UNSOLVED_SUBNET_MIN_CHALLENGED := x10;
     DJANGO_WAF_UNSOLVED_SUBNET_MIN_IPS := x11;
     DJANGO_WAF_UNSOLVED_SUBNET_WINDOW_MINUTES := x12;
     DJANGO_WAF_SCRAPER_404_MIN_REQUESTS := x13;
     DJANGO_WAF_SCRAPER_404_RATIO := x14;
     DJANGO_WAF_SCRAPER_404_WINDOW_MINUTES := x15;
     DJANGO_WAF_SCRAPER_404_ACTION_BLOCK := x16 |}.

Definition maintenance_conf_of : option MaintenanceConf :=
  x0 ← as_str (attr "DJANGO_WAF_NGINX_BLOCKLIST_PATH");
  x1 ← as_str (attr "DJANGO_WAF_ACCESS_LOG_PATH");
  x2 ← as_bool (attr "DJANGO_WAF_FEED_ENABLED");
  x3 ← as_str (attr "DJANGO_WAF_FEED_URL");
  x4 ← as_num (attr "DJANGO_WAF_FEED_MIN_CONFIDENCE");
  x5 ← as_bool (attr "DJANGO_WAF_FEED_REPORT");
  x6 ← as_str (attr "DJANGO_WAF_FEED_REPORT_URL");
  x7 ← as_str (attr "DJANGO_WAF_FEED_API_KEY");
  x8 ← as_bool (attr "DJANGO_WAF_FEED_QUARANTINE_ALLOW_RULES");
  x9 ← as_int (attr "DJANGO_WAF_LOG_RETENTION_DAYS");
  x10 ← as_int (attr "DJANGO_WAF_RULE_RETENTION_DAYS");
  x11 ← as_bool (attr "DJANGO_WAF_RULE_PRUNE_ENABLED");
  x12 ← as_path (attr "DJANGO_WAF_NGINX_PID_PATH");
  x13 ← as_bool (attr "DJANGO_WAF_NGINX_VALIDATE");
  Some {| DJANGO_WAF_NGINX_BLOCKLIST_PATH := x0;
     DJANGO_WAF_ACCESS_LOG_PATH := x1;
     DJANGO_WAF_FEED_ENABLED := x2;
     DJANGO_WAF_FEED_URL := x3;
     DJANGO_WAF_FEED_MIN_CONFIDENCE := x4;
     DJANGO_WAF_FEED_REPORT := x5;
     DJANGO_WAF_FEED_REPORT_URL := x6;
     DJANGO_WAF_FEED_API_KEY := x7;
     DJANGO_WAF_FEED_QUARANTINE_ALLOW_RULES := x8;
     DJANGO_WAF_LOG_RETENTION_DAYS := x9;
     DJANGO_WAF_RULE_RETENTION_DAYS := x10;
     DJANGO_WAF_RULE_PRUNE_ENABLED := x11;
     DJANGO_WAF_NGINX_PID_PATH := x12;
     DJANGO_WAF_NGINX_VALIDATE := x13 |}.

Definition read_conf : option Conf :=
  x0 ← as_bool (attr "DJANGO_WAF_ENABLED");
  x1 ← as_str (attr "DJANGO_WAF_SIGNING_KEY");
  x2 ← as_str (django "SECRET_KEY" (PStr ""));
  x3 ← as_strs (attr "DJANGO_WAF_EXEMPT_PATHS");
  x4 ← as_strs (attr "DJANGO_WAF_EXEMPT_HOSTS");
  x5 ← as_opt as_strs (attr "DJANGO_WAF_ALLOWED_METHODS");
  x6 ← as_strs (attr "DJANGO_WAF_BLOCKED_COUNTRIES");
  x7 ← as_num (attr "DJANGO_WAF_LOG_SAMPLE_RATE");
  x8 ← as_str (attr "DJANGO_WAF_BLOCK_RESPONSE_HANDLER");
  x9 ← as_str (attr "DJANGO_WAF_THROTTLE_RESPONSE_HANDLER");
  x10 ← as_strs (attr "DJANGO_WAF_TRUSTED_PROXIES");
  x11 ← as_bool (attr "DJANGO_WAF_TRUSTED_UNIX_SOCKET");
  x12 ← as_bool (attr "DJANGO_WAF_TRUST_X_FORWARDED_FOR");
  x13 ← as_int (attr "DJANGO_WAF_RATE_LIMIT_BURST");
  x14 ← as_int (attr "DJANGO_WAF_RATE_LIMIT_PER_MINUTE");
  x15 ← as_int (attr "DJANGO_WAF_RATE_LIMIT_PER_5MIN");
  x16 ← as_paths (attr "DJANGO_WAF_RATE_LIMIT_PATHS");
  x17 ← as_int (attr "DJANGO_WAF_VERIFY_RATE_LIMIT_MAX");
  x18 ← as_int (attr "DJANGO_WAF_VERIFY_RATE_LIMIT_WINDOW_SECONDS");
  x19 ← as_int (attr "DJANGO_WAF_RDNS_FAILURE_CACHE_TTL");
  x20 ← as_bool (attr "DJANGO_WAF_CHALLENGE_NO_REFERER");
  x21 ← as_strs (attr "DJANGO_WAF_NO_REFERER_EXEMPT_PATHS");
  x22 ← as_strs (attr "DJANGO_WAF_SUSPICIOUS_PATH_PATTERNS");
  x23 ← as_num (attr "DJANGO_WAF_SUSPICIOUS_PATH_SCORE");
  x24 ← as_num (attr "DJANGO_WAF_SCORE_THRESHOLD_LOG");
  x25 ← as_num (attr "DJANGO_WAF_SCORE_THRESHOLD_CHALLENGE");
  x26 ← as_num (attr "DJANGO_WAF_SCORE_THRESHOLD_BLOCK");
  x27 ← as_int (attr "DJANGO_WAF_CHALLENGE_ESCALATION_THRESHOLD");
  x28 ← as_int (attr "DJANGO_WAF_ESCALATION_BLOCK_TTL");
  x29 ← as_int (attr "DJANGO_WAF_CHALLENGE_DIFFICULTY");
  x30 ← as_opt as_int (attr "DJANGO_WAF_CHALLENGE_DIFFICULTY_DESKTOP");
  x31 ← as_opt as_int (attr "DJANGO_WAF_CHALLENGE_DIFFICULTY_MOBILE");
  x32 ← as_int (attr "DJANGO_WAF_CHALLENGE_COOKIE_TTL");
  x33 ← as_str (attr "DJANGO_WAF_CHALLENGE_URL");
  x34 ← as_str (attr "DJANGO_WAF_VERIFY_URL");
  x35 ← as_str (attr "DJANGO_WAF_SITE_PASSWORD");
  x36 ← as_bool (attr "DJANGO_WAF_SITE_PASSWORD_ENABLED");
  x37 ← as_int (attr "DJANGO_WAF_SITE_PASSWORD_TTL");
  x38 ← as_strs (attr "DJANGO_WAF_SITE_PASSWORD_EXEMPT_PATHS");
  x39 ← as_str (attr "DJANGO_WAF_SITE_PASSWORD_VERIFY_PATH");
  x40 ← as_opt as_str (attr "DJANGO_WAF_SITE_PASSWORD_COOKIE_DOMAIN");
  x41 ← as_bool (attr "DJANGO_WAF_TRUSTED_COOKIE_ENABLED");
  x42 ← as_str (attr "DJANGO_WAF_TRUSTED_COOKIE_TRUST_LEVEL");
  x43 ← as_int (attr "DJANGO_WAF_TRUSTED_COOKIE_TTL");
  x44 ← as_opt as_str (attr "DJANGO_WAF_TRUSTED_COOKIE_DOMAIN");
  x45 ← as_opt as_str (django "SESSION_COOKIE_DOMAIN" PNone);
  x46 ← as_bool (attr "DJANGO_WAF_ANOMALY_QUARANTINE_AUTO_RULES");
  x47 ← as_strs (attr "DJANGO_WAF_ANOMALY_OBSERVE_ONLY_DETECTORS");
  x48 ← as_bool (attr "DJANGO_WAF_FORM_PROTECTION_ENABLED");
  x49 ← as_num (attr "DJANGO_WAF_FORM_FLAG_THRESHOLD");
  x50 ← as_num (attr "DJANGO_WAF_FORM_BLOCK_THRESHOLD");
  x51 ← as_bool (attr "DJANGO_WAF_FORM_CHALLENGE_ON_FLAG");
  x52 ← as_int (attr "DJANGO_WAF_FORM_TOKEN_TTL");
  x53 ← as_strs (attr "DJANGO_WAF_FORM_HONEYPOT_FIELD_NAMES");
  x54 ← as_num (attr "DJANGO_WAF_FORM_TIME_TRAP_MIN_SECONDS");
  x55 ← as_num (attr "DJANGO_WAF_FORM_TIME_TRAP_MAX_SECONDS");
  x56 ← as_int (attr "DJANGO_WAF_FORM_CREDENTIAL_THROTTLE_WINDOW");
  x57 ← as_int (attr "DJANGO_WAF_FORM_CREDENTIAL_THROTTLE_LIMIT");
  x58 ← as_int (attr "DJANGO_WAF_FORM_CREDENTIAL_IP_LIMIT");
  x59 ← as_int (attr "DJANGO_WAF_FORM_SIGNUP_VELOCITY_WINDOW");
  x60 ← as_int (attr "DJANGO_WAF_FORM_SIGNUP_VELOCITY_LIMIT");
  x61 ← as_int (attr "DJANGO_WAF_FORM_POW_DIFFICULTY");
  x62 ← as_weights (attr "DJANGO_WAF_FORM_DEFENCE_WEIGHTS");
  x63 ← as_bool (django "DEBUG" (PBool false));
  x64 ← detector_conf_of;
  x65 ← maintenance_conf_of;
  Some {| DJANGO_WAF_ENABLED := x0;
     DJANGO_WAF_SIGNING_KEY := x1;
     SECRET_KEY := x2;
     DJANGO_WAF_EXEMPT_PATHS := x3;
     DJANGO_WAF_EXEMPT_HOSTS := x4;
     DJANGO_WAF_ALLOWED_METHODS := x5;
     DJANGO_WAF_BLOCKED_COUNTRIES := x6;
     DJANGO_WAF_LOG_SAMPLE_RATE := x7;
     DJANGO_WAF_BLOCK_RESPONSE_HANDLER := x8;
     DJANGO_WAF_THROTTLE_RESPONSE_HANDLER := x9;
     DJANGO_WAF_TRUSTED_PROXIES := x10;
     DJANGO_WAF_TRUSTED_UNIX_SOCKET := x11;
     DJANGO_WAF_TRUST_X_FORWARDED_FOR := x12;
     DJANGO_WAF_RATE_LIMIT_BURST := x13;
     DJANGO_WAF_RATE_LIMIT_PER_MINUTE := x14;
     DJANGO_WAF_RATE_LIMIT_PER_5MIN := x15;
     DJANGO_WAF_RATE_LIMIT_PATHS := x16;
     DJANGO_WAF_VERIFY_RATE_LIMIT_MAX := x17;
     DJANGO_WAF_VERIFY_RATE_LIMIT_WINDOW_SECONDS := x18;
     DJANGO_WAF_RDNS_FAILURE_CACHE_TTL := x19;
     DJANGO_WAF_CHALLENGE_NO_REFERER := x20;
     DJANGO_WAF_NO_REFERER_EXEMPT_PATHS := x21;
     DJANGO_WAF_SUSPICIOUS_PATH_PATTERNS := x22;
     DJANGO_WAF_SUSPICIOUS_PATH_SCORE := x23;
     DJANGO_WAF_SCORE_THRESHOLD_LOG := x24;
     DJANGO_WAF_SCORE_THRESHOLD_CHALLENGE := x25;
     DJANGO_WAF_SCORE_THRESHOLD_BLOCK := x26;
     DJANGO_WAF_CHALLENGE_ESCALATION_THRESHOLD := x27;
     DJANGO_WAF_ESCALATION_BLOCK_TTL := x28;
     DJANGO_WAF_CHALLENGE_DIFFICULTY := x29;
     DJANGO_WAF_CHALLENGE_DIFFICULTY_DESKTOP := x30;
     DJANGO_WAF_CHALLENGE_DIFFICULTY_MOBILE := x31;
     DJANGO_WAF_CHALLENGE_COOKIE_TTL := x32;
     DJANGO_WAF_CHALLENGE_URL := x33;
     DJANGO_WAF_VERIFY_URL := x34;
     DJANGO_WAF_SITE_PASSWORD := x35;
     DJANGO_WAF_SITE_PASSWORD_ENABLED := x36;
     DJANGO_WAF_SITE_PASSWORD_TTL := x37;
     DJANGO_WAF_SITE_PASSWORD_EXEMPT_PATHS := x38;
     DJANGO_WAF_SITE_PASSWORD_VERIFY_PATH := x39;
     DJANGO_WAF_SITE_PASSWORD_COOKIE_DOMAIN := x40;
     DJANGO_WAF_TRUSTED_COOKIE_ENABLED := x41;
     DJANGO_WAF_TRUSTED_COOKIE_TRUST_LEVEL := x42;
     DJANGO_WAF_TRUSTED_COOKIE_TTL := x43;
     DJANGO_WAF_TRUSTED_COOKIE_DOMAIN := x44;
     SESSION_COOKIE_DOMAIN := x45;
     DJANGO_WAF_ANOMALY_QUARANTINE_AUTO_RULES := x46;
     DJANGO_WAF_ANOMALY_OBSERVE_ONLY_DETECTORS := x47;
     DJANGO_WAF_FORM_PROTECTION_ENABLED := x48;
     DJANGO_WAF_FORM_FLAG_THRESHOLD := x49;
     DJANGO_WAF_FORM_BLOCK_THRESHOLD := x50;
     DJANGO_WAF_FORM_CHALLENGE_ON_FLAG := x51;
     DJANGO_WAF_FORM_TOKEN_TTL := x52;
     DJANGO_WAF_FORM_HONEYPOT_FIELD_NAMES := x53;
     DJANGO_WAF_FORM_TIME_TRAP_MIN_SECONDS := x54;
     DJANGO_WAF_FORM_TIME_TRAP_MAX_SECONDS := x55;
     DJANGO_WAF_FORM_CREDENTIAL_THROTTLE_WINDOW := x56;
     DJANGO_WAF_FORM_CREDENTIAL_THROTTLE_LIMIT := x57;
     DJANGO_WAF_FORM_CREDENTIAL_IP_LIMIT := x58;
     DJANGO_WAF_FORM_SIGNUP_VELOCITY_WINDOW := x59;
     DJANGO_WAF_FORM_SIGNUP_VELOCITY_LIMIT := x60;
     DJANGO_WAF_FORM_POW_DIFFICULTY := x61;
     DJANGO_WAF_FORM_DEFENCE_WEIGHTS := x62;
     DEBUG := x63;
     conf_detectors := x64;
     conf_maintenance := x65 |}.

End ReadConf.

Definition conf_of (has_crontab : bool) (s : DjangoSettings) : option Conf :=
  read_conf (conf_attr has_crontab s) (getattr_default s).

(** ** Lemmas *)

Definition unset : DjangoSettings := {| configured := false; values := ∅ |}.

Definition agree (s s' : DjangoSettings) (names : list string) : Prop :=
  ∀ n, n ∈ names → ∀ d, get_setting s n d = get_setting s' n d.

(** The settings a name's value depends on: its own, and for two names the one
    its default is computed from. *)
Definition depends_on (name : string) : list string :=
  if String.eqb name "DJANGO_WAF_REDIS_ALIAS" then [name; "ICV_CACHES_ALIAS"]
  else if String.eqb name "DJANGO_WAF_SITE_PASSWORD_ENABLED"
  then [name; "DJANGO_WAF_SITE_PASSWORD"]
  else [name].

Definition reads_its_own (r : resolver) : Prop :=
  ∀ s s', agree s s' (depends_on r.1) → r.2 s = r.2 s'.

Lemma plain_reads_its_own name d : depends_on name = [name] → reads_its_own (plain name d).
Proof. intros Hd s s' H. unfold plain in *. cbn [fst snd] in *. apply H. rewrite Hd. set_solver. Qed.

Lemma RESOLVERS_read_their_own hc : Forall reads_its_own (RESOLVERS hc).
Proof.
  unfold RESOLVERS. rewrite !Forall_app.
  split_and!; repeat (apply List.Forall_cons || apply List.Forall_nil);
    first [ by apply plain_reads_its_own
          | intros s s' H; cbn [fst snd] in *; unfold depends_on in H; simpl in H;
            unfold ICV_CACHES_ALIAS, resolve_SITE_PASSWORD; rewrite !H by set_solver; done ].
Qed.

Lemma conf_getattr_agree hc s s' name :
  agree s s' (depends_on name) → conf_getattr hc s name = conf_getattr hc s' name.
Proof.
  intros H. unfold conf_getattr.
  destruct (List.find _ (RESOLVERS hc)) as [r|] eqn:E; [|done]. f_equal.
  apply find_some in E as [Hin Heq%String.eqb_eq].
  pose proof (RESOLVERS_read_their_own hc) as HF. rewrite List.Forall_forall in HF.
  apply (HF r Hin). by rewrite Heq.
Qed.

Lemma get_setting_assign_ne s n m v d : n ≠ m → get_setting (assign s n v) m d = get_setting s m d.
Proof. intros Hne. unfold get_setting, getattr_default, assign. simpl. by rewrite lookup_insert_ne. Qed.

Lemma get_setting_unset s n d :
  configured s = false ∨ values s !! n = None → get_setting s n d = d.
Proof.
  unfold get_setting, getattr_default. intros [->| ->]; [done|]. by destruct (configured s).
Qed.

Lemma depends_on_names hc name n :
  name ∈ map fst (RESOLVERS hc) → n ∈ depends_on name → n ∈ map fst (RESOLVERS hc).
Proof.
  unfold depends_on.
  destruct (String.eqb name "DJANGO_WAF_REDIS_ALIAS");
    [|destruct (String.eqb name "DJANGO_WAF_SITE_PASSWORD_ENABLED")];
    intros Hin Hn; repeat (apply elem_of_cons in Hn as [->|Hn]); try done; try by apply elem_of_nil in Hn.
  all: destruct hc; apply (bool_decide_unpack _); vm_compute; exact I.
Qed.

(** A name nobody assigned resolves as before the settings are configured. *)
Lemma unset_attributes_agree hc s name :
  (∀ n, n ∈ map fst (RESOLVERS hc) → configured s = false ∨ values s !! n = None) →
  conf_getattr hc s name = conf_getattr hc unset name.
Proof.
  intros H. destruct (decide (name ∈ map fst (RESOLVERS hc))) as [Hin|Hout].
  - apply conf_getattr_agree. intros n Hn d.
    rewrite (get_setting_unset s), (get_setting_unset unset); [done|by left|].
    apply H. by eapply depends_on_names.
  - unfold conf_getattr. destruct (List.find _ (RESOLVERS hc)) as [r|] eqn:E; [|done].
    apply find_some in E as [Hin <-%String.eqb_eq]. contradict Hout.
    by apply list_elem_of_In, in_map.
Qed.

Lemma read_conf_ext attr attr' django :
  (∀ n, attr n = attr' n) → read_conf attr django = read_conf attr' django.
Proof.
  intros H. unfold read_conf, detector_conf_of, maintenance_conf_of. by rewrite !H.
Qed.


(** What reading the typed record off the settings says of its fields. *)
Lemma conf_of_fields hc s conf :
  conf_of hc s = Some conf →
  let attr := conf_attr hc s in
  DJANGO_WAF_ENABLED conf = truthy (attr "DJANGO_WAF_ENABLED") ∧
  as_str (attr "DJANGO_WAF_BLOCK_RESPONSE_HANDLER") = Some (DJANGO_WAF_BLOCK_RESPONSE_HANDLER conf) ∧
  as_strs (attr "DJANGO_WAF_TRUSTED_PROXIES") = Some (DJANGO_WAF_TRUSTED_PROXIES conf) ∧
  DJANGO_WAF_TRUST_X_FORWARDED_FOR conf = truthy (attr "DJANGO_WAF_TRUST_X_FORWARDED_FOR") ∧
  as_paths (attr "DJANGO_WAF_RATE_LIMIT_PATHS") = Some (DJANGO_WAF_RATE_LIMIT_PATHS conf) ∧
  as_num (attr "DJANGO_WAF_SCORE_THRESHOLD_CHALLENGE") = Some (DJANGO_WAF_SCORE_THRESHOLD_CHALLENGE conf) ∧
  as_num (attr "DJANGO_WAF_SCORE_THRESHOLD_BLOCK") = Some (DJANGO_WAF_SCORE_THRESHOLD_BLOCK conf) ∧
  DJANGO_WAF_CHALLENGE_NO_REFERER conf = truthy (attr "DJANGO_WAF_CHALLENGE_NO_REFERER") ∧
  as_int (attr "DJANGO_WAF_CHALLENGE_DIFFICULTY") = Some (DJANGO_WAF_CHALLENGE_DIFFICULTY conf) ∧
  as_opt as_int (attr "DJANGO_WAF_CHALLENGE_DIFFICULTY_DESKTOP") =
    Some (DJANGO_WAF_CHALLENGE_DIFFICULTY_DESKTOP conf) ∧
  as_opt as_int (attr "DJANGO_WAF_CHALLENGE_DIFFICULTY_MOBILE") =
    Some (DJANGO_WAF_CHALLENGE_DIFFICULTY_MOBILE conf) ∧
  as_str (attr "DJANGO_WAF_CHALLENGE_URL") = Some (DJANGO_WAF_CHALLENGE_URL conf) ∧
  as_str (attr "DJANGO_WAF_VERIFY_URL") = Some (DJANGO_WAF_VERIFY_URL conf) ∧
  as_str (attr "DJANGO_WAF_SITE_PASSWORD") = Some (DJANGO_WAF_SITE_PASSWORD conf) ∧
  DJANGO_WAF_SITE_PASSWORD_ENABLED conf = truthy (attr "DJANGO_WAF_SITE_PASSWORD_ENABLED") ∧
  DJANGO_WAF_TRUSTED_COOKIE_ENABLED conf = truthy (attr "DJANGO_WAF_TRUSTED_COOKIE_ENABLED") ∧
  as_str (attr "DJANGO_WAF_TRUSTED_COOKIE_TRUST_LEVEL") =
    Some (DJANGO_WAF_TRUSTED_COOKIE_TRUST_LEVEL conf) ∧
  as_strs (attr "DJANGO_WAF_ANOMALY_OBSERVE_ONLY_DETECTORS") =
    Some (DJANGO_WAF_ANOMALY_OBSERVE_ONLY_DETECTORS conf).
Proof.
  intros H attr. unfold conf_of, read_conf in H. fold attr in H.
  repeat (apply bind_Some in H as (? & ? & H)).
  apply (inj Some) in H. subst conf. unfold as_bool in *.
  repeat match goal with E : Some _ = Some _ |- _ => apply (inj Some) in E end.
  cbn [DJANGO_WAF_ENABLED DJANGO_WAF_BLOCK_RESPONSE_HANDLER DJANGO_WAF_TRUSTED_PROXIES
       DJANGO_WAF_TRUST_X_FORWARDED_FOR DJANGO_WAF_RATE_LIMIT_PATHS
       DJANGO_WAF_SCORE_THRESHOLD_CHALLENGE DJANGO_WAF_SCORE_THRESHOLD_BLOCK
       DJANGO_WAF_CHALLENGE_NO_REFERER DJANGO_WAF_CHALLENGE_DIFFICULTY
       DJANGO_WAF_CHALLENGE_DIFFICULTY_DESKTOP DJANGO_WAF_CHALLENGE_DIFFICULTY_MOBILE
       DJANGO_WAF_CHALLENGE_URL DJANGO_WAF_VERIFY_URL DJANGO_WAF_SITE_PASSWORD
       DJANGO_WAF_SITE_PASSWORD_ENABLED DJANGO_WAF_TRUSTED_COOKIE_ENABLED
       DJANGO_WAF_TRUSTED_COOKIE_TRUST_LEVEL DJANGO_WAF_ANOMALY_OBSERVE_ONLY_DETECTORS].
  split_and!; solve [assumption | symmetry; assumption].
Qed.

(** ** Properties *)

Module SettingsProps.

(** Settings are resolved at call time: on configured settings, assigning
    a [DJANGO_WAF_] name is what the next access to it returns, and it changes
    no other name, except [DJANGO_WAF_SITE_PASSWORD_ENABLED], whose default
    follows the password, and [DJANGO_WAF_REDIS_ALIAS], whose default is the
    fleet-wide alias. *)
Lemma assignment_is_read_back_and_local hc s name v :
  configured s = true →
  (name ∈ map fst (RESOLVERS hc) → conf_getattr hc (assign s name v) name = Ok v) ∧
  (∀ m, name ∉ depends_on m → conf_getattr hc (assign s name v) m = conf_getattr hc s m).
Proof.
  intros Hc. split.
  - intros ([name' r] & Hr & Hin)%list_elem_of_In%in_map_iff. simpl in Hr.
    assert (Hread : Forall (λ r : resolver, ∀ s v, configured s = true →
              r.2 (assign s r.1 v) = v) (RESOLVERS hc)).
    { clear. unfold RESOLVERS. rewrite !Forall_app.
      split_and!; repeat (apply List.Forall_cons || apply List.Forall_nil);
        intros s v Hc; cbn [fst snd plain]; unfold ICV_CACHES_ALIAS, resolve_SITE_PASSWORD,
          get_setting, getattr_default, assign; cbn [configured values];
        rewrite Hc, lookup_insert_eq; done. }
    rewrite List.Forall_forall in Hread. unfold conf_getattr.
    destruct (List.find _ (RESOLVERS hc)) as [r'|] eqn:E.
    + apply find_some in E as [Hin' <-%String.eqb_eq]. f_equal. by apply Hread.
    + apply (find_none _ _ E) in Hin. simpl in Hin. by rewrite Hr, String.eqb_refl in Hin.
  - intros m Hm. apply conf_getattr_agree. intros n Hn d.
    apply get_setting_assign_ne. by intros ->.
Qed.

Lemma assignment_is_read_back_and_local_witness :
  let s := {| configured := true; values := ∅ |} in
  let s' := assign s "DJANGO_WAF_SITE_PASSWORD" (PStr "open sesame") in
  conf_getattr true s' "DJANGO_WAF_SITE_PASSWORD" = Ok (PStr "open sesame") ∧
  conf_getattr true s' "DJANGO_WAF_SITE_PASSWORD_TTL" = Ok (PInt 43200) ∧
  conf_getattr true s' "DJANGO_WAF_SITE_PASSWORD_ENABLED" = Ok (PBool true).
Proof.
  destruct (assignment_is_read_back_and_local true {| configured := true; values := ∅ |}
              "DJANGO_WAF_SITE_PASSWORD" (PStr "open sesame") eq_refl) as [Hread Hlocal].
  intros s s'. split_and!.
  - apply Hread. apply (bool_decide_unpack _). vm_compute. exact I.
  - unfold s', s. rewrite Hlocal; [vm_compute; reflexivity|].
    apply (bool_decide_unpack _). vm_compute. exact I.
  - vm_compute. reflexivity.
Defined.

(** The documented defaults are the ones the rest of the development
    assumes: a project that assigns none of the names (or whose settings are
    not configured yet) reads exactly [default_conf] for its secret key. *)
Lemma nothing_set_reads_the_defaults hc s secret :
  (∀ n, n ∈ map fst (RESOLVERS hc) → configured s = false ∨ values s !! n = None) →
  values s !! "SECRET_KEY" = Some (PStr secret) →
  values s !! "SESSION_COOKIE_DOMAIN" = None →
  values s !! "DEBUG" = None →
  conf_of hc s = Some (default_conf secret).
Proof.
  intros Hunset Hkey Hdomain Hdebug. unfold conf_of.
  rewrite (read_conf_ext _ (conf_attr hc unset)).
  2:{ intros n. unfold conf_attr. by rewrite (unset_attributes_agree hc s n Hunset). }
  unfold read_conf, getattr_default. rewrite Hkey, Hdomain, Hdebug.
  destruct hc; vm_compute; reflexivity.
Qed.

Lemma nothing_set_reads_the_defaults_witness :
  conf_of true {| configured := true; values := {["SECRET_KEY" := PStr "k"]} |} =
  Some (default_conf "k").
Proof.
  apply (nothing_set_reads_the_defaults true _ "k");
    [|reflexivity|reflexivity|reflexivity].
  intros n Hn. right. cbn [values]. apply lookup_singleton_ne. intros <-. revert Hn.
  apply (bool_decide_unpack _). vm_compute. exact I.
Defined.

(** The beat fragment names the fourteen periodic tasks when Celery is there,
    and only the eight with a plain interval when it is not. *)
Example beat_fragment_sizes :
  (length CELERY_BEAT_INTERVAL_ENTRIES, length (CELERY_BEAT_CRON_ENTRIES true),
   length (CELERY_BEAT_CRON_ENTRIES false), length (RESOLVERS true)) = (8, 6, 0, 102)%nat.
Proof. reflexivity. Qed.
End SettingsProps.
