(* ===== verification/RedisClient.v ===== *)
(** * Resolving the Redis client ([services/redis_client.py])

    A client or nothing: a cache alias that is not a django-redis backend and a
    server that cannot be reached both give [None], the first with one error
    line per process and alias, the second with a warning each time.
    django-redis and the server are parameters: what a connection attempt gives
    at each call, and the server section of [INFO]. *)

From Stdlib Require Import ZArith QArith Lia Ascii String.
From stdpp Require Import base tactics option list strings numbers gmap.
From S2P Require Import Prelude PyStr Conf Settings.

Open Scope Z_scope.

(** [MIN_REDIS_VERSION]. *)
Definition MIN_REDIS_VERSION : Z * Z * Z := (6, 0, 0).

(** Tuples of three compare lexicographically. *)
Definition version_geb (v w : Z * Z * Z) : bool :=
  let '(a, b, c) := v in let '(a', b', c') := w in
  (a' <? a) || ((a =? a') && ((b' <? b) || ((b =? b') && (c' <=? c)))).

Inductive LogLine :=
| NotRedisBackend (alias : string)        (* [logger.error] *)
| RedisUnavailable (alias : string)       (* [logger.warning] *)
| VersionUnreadable (alias : option string).

#[export] Instance LogLine_eq_dec : EqDecision LogLine.
Proof. solve_decision. Defined.

(** The module's state: [_warned_aliases], and what was logged. *)
Record RedisModule : Type := {
  warned_aliases : gset string;
  rc_log : list LogLine;
}.

Definition fresh_module : RedisModule := {| warned_aliases := ∅; rc_log := [] |}.

Definition log_line (l : LogLine) : M RedisModule unit :=
  modify (λ st, {| warned_aliases := warned_aliases st; rc_log := rc_log st ++ [l] |}).
Definition add_warned (a : string) : M RedisModule unit :=
  modify (λ st, {| warned_aliases := {[a]} ∪ warned_aliases st; rc_log := rc_log st |}).

(** [alias or default]. *)
Definition alias_or (alias : option string) (default : string) : string :=
  match alias with Some a => if str_empty a then default else a | None => default end.

(** The exceptions that mean "not a django-redis backend". *)
Definition is_backend_error (e : exn) : bool :=
  bool_decide (e ∈ [OtherError "NotImplementedError"; OtherError "ImportError"]).

Section Client.
Context {C : Type} (info : C → res PyVal) (redis_alias : string).

(** [get_redis_client]; [connect] is [get_redis_connection] at the time of the
    call, [redis_alias] the setting. *)
Definition get_redis_client (connect : string → res C) (alias : option string)
  : M RedisModule (option C) :=
  let resolved_alias := alias_or alias redis_alias in
  try_except
    (c <- lift_res (connect resolved_alias) ;; ret (Some c))
    (λ e,
      if is_backend_error e then
        warned <- gets warned_aliases ;;
        (if bool_decide (resolved_alias ∈ warned) then ret tt
         else add_warned resolved_alias ;;; log_line (NotRedisBackend resolved_alias)) ;;;
        ret None
      else log_line (RedisUnavailable resolved_alias) ;;; ret None).

(** [tuple(int(part) for part in parts)]. *)
Definition parse_version (version_str : string) : res (option (Z * Z * Z)) :=
  match firstn 3 (split_on "." version_str) with
  | [a; b; c] =>
      match py_int a, py_int b, py_int c with
      | Some a, Some b, Some c => Ok (Some (a, b, c))
      | _, _, _ => Raise ValueError
      end
  | _ => Ok None
  end.

(** The version in an [INFO] reply; a value that is not a string has no
    [split]. *)
Definition version_of_info (reply : PyVal) : res (option (Z * Z * Z)) :=
  res_bind (py_get reply (PStr "redis_version") (PStr "")) (λ v,
  match v with
  | PStr version_str => parse_version version_str
  | _ => Raise (OtherError "AttributeError")
  end).

(** [get_redis_server_version]. *)
Definition get_redis_server_version (connect : string → res C) (alias : option string)
  : M RedisModule (option (Z * Z * Z)) :=
  client <- get_redis_client connect alias ;;
  match client with
  | None => ret None
  | Some c =>
      try_except (lift_res (res_bind (info c) version_of_info))
        (λ _, log_line (VersionUnreadable alias) ;;; ret None)
  end.

(** A process resolving clients, one call after another. *)
Fixpoint resolve_all (calls : list ((string → res C) * option string))
  : M RedisModule (list (option C)) :=
  match calls with
  | [] => ret []
  | (connect, alias) :: calls =>
      c <- get_redis_client connect alias ;;
      cs <- resolve_all calls ;;
      ret (c :: cs)
  end.
End Client.

(** [is_redis_backend]: reads the settings object itself, not [conf]. *)
Definition is_redis_backend (s : DjangoSettings) (alias : option PyVal) : res bool :=
  let fallback := getattr_default s "DJANGO_WAF_REDIS_ALIAS"
                    (getattr_default s "ICV_CACHES_ALIAS" (PStr "default")) in
  let resolved_alias :=
    match alias with Some a => if truthy a then a else fallback | None => fallback end in
  let caches_setting := getattr_default s "CACHES" (PDict []) in
  res_bind (py_get caches_setting resolved_alias (PDict [])) (λ cache,
  res_bind (py_get cache (PStr "BACKEND") (PStr "")) (λ backend,
  py_startswith "django_redis.cache." backend)).

(** ** Lemmas *)

Section Lemmas.
Context {C : Type} (redis_alias : string).
Implicit Types (st : RedisModule) (connect : string → res C).

(** What one call returns and does to the module. *)
Lemma get_redis_client_spec connect alias st :
  let a := alias_or alias redis_alias in
  get_redis_client redis_alias connect alias st =
  match connect a with
  | Ok c => (Ok (Some c), st)
  | Raise e =>
      (Ok None,
       if is_backend_error e then
         if bool_decide (a ∈ warned_aliases st) then st
         else {| warned_aliases := {[a]} ∪ warned_aliases st; rc_log := rc_log st ++ [NotRedisBackend a] |}
       else {| warned_aliases := warned_aliases st; rc_log := rc_log st ++ [RedisUnavailable a] |})
  end.
Proof.
  intros a. unfold get_redis_client, try_except, bind, lift_res, ret, gets. fold a.
  destruct (connect a) as [c|e]; [done|].
  destruct (is_backend_error e); [|done].
  by case_bool_decide.
Qed.

(** Error lines for an alias. *)
Definition error_lines (a : string) (log : list LogLine) : nat :=
  length (List.filter (λ l, bool_decide (l = NotRedisBackend a)) log).

Lemma error_lines_snoc a log l :
  error_lines a (log ++ [l]) =
  (error_lines a log + if bool_decide (l = NotRedisBackend a) then 1 else 0)%nat.
Proof.
  unfold error_lines. rewrite List.filter_app, length_app. simpl.
  by destruct (bool_decide _).
Qed.

(** The log has one error line for each warned alias and none for others. *)
Definition logged_once st : Prop :=
  ∀ a, error_lines a (rc_log st) = if bool_decide (a ∈ warned_aliases st) then 1%nat else 0%nat.

Lemma get_redis_client_logged_once connect alias :
  preserves logged_once (get_redis_client redis_alias connect alias).
Proof.
  intros st Hst. rewrite get_redis_client_spec.
  destruct (connect _) as [c|e]; [done|]. simpl.
  destruct (is_backend_error e).
  - case_bool_decide as Hin; [done|]. intros b. simpl. rewrite error_lines_snoc, Hst.
    destruct (decide (b = alias_or alias redis_alias)) as [->|Hne].
    + rewrite (bool_decide_eq_false_2 _ Hin), !bool_decide_eq_true_2; [done|set_solver|done].
    + rewrite (bool_decide_eq_false_2 (NotRedisBackend _ = _)) by congruence.
      rewrite Nat.add_0_r. case_bool_decide as H1; case_bool_decide as H2; set_solver.
  - intros b. simpl. rewrite error_lines_snoc, Hst.
    rewrite (bool_decide_eq_false_2 (RedisUnavailable _ = _)) by done. lia.
Qed.

(** What a sequence of calls returns: a client where the connection gave one. *)
Definition client_of (call : (string → res C) * option string) : option C :=
  match call.1 (alias_or call.2 redis_alias) with Ok c => Some c | Raise _ => None end.

(** The call meets a cache alias that is not a django-redis backend. *)
Definition meets_wrong_backend (a : string) (call : (string → res C) * option string) : bool :=
  bool_decide (alias_or call.2 redis_alias = a) &&
  match call.1 a with Raise e => is_backend_error e | Ok _ => false end.

(** Whatever the aliases and however the connections fail, resolving never
    raises, and the aliases warned about are those met with the wrong backend. *)
Lemma resolve_all_spec (calls : list ((string → res C) * option string)) st :
  (resolve_all redis_alias calls st).1 = Ok (map client_of calls) ∧
  ∀ a, a ∈ warned_aliases (resolve_all redis_alias calls st).2 ↔
       a ∈ warned_aliases st ∨ existsb (meets_wrong_backend a) calls = true.
Proof.
  revert st. induction calls as [|[connect alias] calls IH]; intros st.
  { split; [done|]. simpl. intros a. split; [by left|intros [?|?]; done]. }
  simpl. unfold bind. rewrite get_redis_client_spec.
  set (a0 := alias_or alias redis_alias).
  assert (Hhead : ∀ a, meets_wrong_backend a (connect, alias) = true ↔
            a0 = a ∧ ∃ e, connect a = Raise e ∧ is_backend_error e = true).
  { intros a. unfold meets_wrong_backend. cbn [fst snd]. fold a0.
    rewrite andb_true_iff, bool_decide_eq_true. split.
    - intros [-> Hc]. split; [done|]. destruct (connect a); [done|eauto].
    - intros [-> (e & -> & He)]. done. }
  unfold client_of at 1. cbn [fst snd]. fold a0.
  destruct (connect a0) as [c|e] eqn:Ec;
    match goal with |- context [resolve_all redis_alias calls ?st'] =>
      destruct (IH st') as [Hr Hw]; destruct (resolve_all redis_alias calls st') as [r st''] end;
    simpl in Hr; subst r; (split; [done|]); intros a; cbn [snd] in *;
    rewrite Hw, orb_true_iff, Hhead.
  - split; [intros [?|?]; [by left|by right; right]|].
    intros [?|[(<- & e & He & _)|?]]; [by left|congruence|by right].
  - destruct (is_backend_error e) eqn:Ee; cbn [warned_aliases].
    + assert (Hadd : a ∈ warned_aliases (if bool_decide (a0 ∈ warned_aliases st) then st else
                {| warned_aliases := {[a0]} ∪ warned_aliases st;
                   rc_log := rc_log st ++ [NotRedisBackend a0] |}) ↔ a = a0 ∨ a ∈ warned_aliases st).
      { case_bool_decide; simpl; set_solver. }
      rewrite Hadd. split.
      * intros [[->|?]|?]; [right; left; eauto|by left|by right; right].
      * intros [?|[(<- & _)|?]]; [by left; right|by left; left|by right].
    + split; [intros [?|?]; [by left|by right; right]|].
      intros [?|[(<- & e2 & He & ?)|?]]; [by left|congruence|by right].
Qed.

Lemma resolve_all_logged_once (calls : list ((string → res C) * option string)) :
  preserves logged_once (resolve_all redis_alias calls).
Proof.
  induction calls as [|[connect alias] calls IH]; simpl; [apply preserves_ret|].
  apply preserves_bind; [apply get_redis_client_logged_once|]. intros c.
  apply preserves_bind; [apply IH|]. intros cs. apply preserves_ret.
Qed.

End Lemmas.

Lemma fresh_logged_once : logged_once fresh_module.
Proof. intros a. reflexivity. Qed.

(** ** Properties *)

Module RedisClientProps.

(** In one process, however often and in whatever way connections fail:
    resolving a client never raises, returns a client exactly when the
    connection gave one, and logs one error line for each alias that was met
    with a backend that is not django-redis (none for the others). *)
Lemma wrong_backend_is_logged_once {C} redis_alias
    (calls : list ((string → res C) * option string)) (a : string) :
  let '(r, st) := resolve_all redis_alias calls fresh_module in
  r = Ok (map (client_of redis_alias) calls) ∧
  error_lines a (rc_log st) =
    (if existsb (meets_wrong_backend redis_alias a) calls then 1 else 0)%nat.
Proof.
  destruct (resolve_all_spec redis_alias calls fresh_module) as [Hr Hw].
  pose proof (resolve_all_logged_once redis_alias calls _ fresh_logged_once a) as Ho.
  destruct (resolve_all redis_alias calls fresh_module) as [r st]. simpl in *.
  split; [done|]. rewrite Ho. specialize (Hw a).
  case_bool_decide as Hin.
  - apply Hw in Hin as [Hin| ->]; [set_solver|done].
  - destruct (existsb _ calls); [|done]. contradict Hin. apply Hw. by right.
Qed.

End RedisClientProps.
