(* ===== verification/Checks.v ===== *)
(** * System checks ([checks.py])

    The sixteen checks [manage.py check] runs on the settings, each as the
    function it is: which messages it returns for which dynamically typed
    values, and which values make it raise instead.  A message keeps its level,
    its id and the values its text is built from.  The theorems relate the
    checks to the code they guard: settings that pass them are well typed where
    the rate limiter needs it, bound the proof of work, and find a
    configured site password, resolvable challenge paths and an importable block
    handler (whether that handler answers is its own affair).

    Parameters: the URL configuration ([reverse]), the import machinery, the
    process environment, and the Redis connection of the version check. *)

From Stdlib Require Import ZArith QArith Lia Ascii String.
From stdpp Require Import base tactics option list strings numbers gmap.
From S2P Require Import Prelude PyStr IpAddress Hash PyTime Codec Regex Conf.
From S2P Require Import ClientIp Redis Http RateLimiter Fingerprint Models AutoRule RuleEngine.
From S2P Require Import RuleEngineProofs Challenge SignedCookies Middleware.
From S2P Require Import DetectorProbe DetectorOutcomes Settings RedisClient.

Open Scope Z_scope.

(** ** Messages *)

Inductive Level := Error | Warning.

Record CheckMessage : Type := {
  cm_level : Level;
  cm_id : string;
  cm_values : list PyVal;      (* what the text interpolates *)
}.

(** Writing an integer of more than 4300 decimal digits raises [ValueError]. *)
Definition int_max_str : Z := 10 ^ 4300.
Definition str_int_ok (z : Z) : bool := Z.abs z <? int_max_str.

(** [repr(v)] returns. *)
Fixpoint repr_ok (v : PyVal) : bool :=
  match v with
  | PInt z => str_int_ok z
  | PTuple l | PList l | PSet l =>
      (fix go (l : list PyVal) : bool :=
         match l with [] => true | x :: l => repr_ok x && go l end) l
  | PDict items =>
      (fix go (l : list (PyVal * PyVal)) : bool :=
         match l with [] => true | (k, x) :: l => repr_ok k && repr_ok x && go l end) items
  | _ => true
  end.

(** [Error(f"...", id=id)] and [Warning(...)]: the text is built on the spot. *)
Definition message (level : Level) (id : string) (vs : list PyVal) : res CheckMessage :=
  if forallb repr_ok vs then Ok {| cm_level := level; cm_id := "django_waf." +:+ id; cm_values := vs |}
  else Raise ValueError.

Definition one_message (level : Level) (id : string) (vs : list PyVal) : res (list CheckMessage) :=
  res_bind (message level id vs) (λ m, Ok [m]).

(** [messages] of a loop, in order; the first exception ends it. *)
Fixpoint collect {A} (f : A → res (list CheckMessage)) (l : list A) : res (list CheckMessage) :=
  match l with
  | [] => Ok []
  | x :: l => res_bind (f x) (λ ms, res_bind (collect f l) (λ rest, Ok (ms ++ rest)))
  end.

(** [iter(v)], [v in collection], [a < b] between numbers or strings. *)
Definition py_iter (v : PyVal) : res (list PyVal) :=
  match elements v with Some l => Ok l | None => Raise (OtherError "TypeError") end.
Definition py_in (v : PyVal) (l : list PyVal) : bool := existsb (py_eqb v) l.
Definition py_lt (v w : PyVal) : res bool :=
  match py_num v, py_num w, v, w with
  | Some p, Some q, _, _ => Ok (negb (Qle_bool q p))
  | _, _, PStr a, PStr b => Ok (negb (str_leb b a))
  | _, _, _, _ => Raise (OtherError "TypeError")
  end.

(** [list.index]. *)
Fixpoint index_of (v : PyVal) (l : list PyVal) : option nat :=
  match l with
  | [] => None
  | x :: l => if py_eqb x v then Some 0%nat else S <$> index_of v l
  end.

Section Checks.
Context (has_crontab : bool) (s : DjangoSettings).
Context (reverse : string → res string) (imports : string → bool) (environ : list string).
Abbreviation conf := (conf_attr has_crontab s).

(** [if not conf.DJANGO_WAF_ENABLED: return []]. *)
Definition when_enabled (k : res (list CheckMessage)) : res (list CheckMessage) :=
  if negb (truthy (conf "DJANGO_WAF_ENABLED")) then Ok [] else k.

(** ** E001, E002, W001, W002: the difficulty of the proof of work *)

Definition check_difficulty_field (field : string * bool) : res (list CheckMessage) :=
  let '(name, allow_none) := field in
  let value := conf name in
  match value with
  | PNone => if allow_none then Ok [] else one_message Error "E001" [PStr name; value]
  | PInt z =>
      if z <? 0 then one_message Error "E001" [PStr name; value]
      else if 28 <? z then one_message Error "E002" [PStr name; value; PInt (2 ^ z)]
      else if 24 <? z then one_message Warning "W001" [PStr name; value; PInt (2 ^ z)]
      else if (0 <? z) && (z <? 8) then one_message Warning "W002" [PStr name; value; PInt (2 ^ z)]
      else Ok []
  | _ => one_message Error "E001" [PStr name; value]
  end.

Definition difficulty_fields : list (string * bool) :=
  [("DJANGO_WAF_CHALLENGE_DIFFICULTY", false); ("DJANGO_WAF_CHALLENGE_DIFFICULTY_DESKTOP", true);
   ("DJANGO_WAF_CHALLENGE_DIFFICULTY_MOBILE", true)].

Definition check_challenge_difficulty : res (list CheckMessage) :=
  when_enabled (collect check_difficulty_field difficulty_fields).

(** ** W003, W005 *)

Definition check_signing_key : res (list CheckMessage) :=
  when_enabled
    (if negb (truthy (conf "DJANGO_WAF_SIGNING_KEY")) then one_message Warning "W003" [] else Ok []).

Definition check_feed_url_scheme : res (list CheckMessage) :=
  if negb (truthy (conf "DJANGO_WAF_FEED_ENABLED")) then Ok [] else
  let url := conf "DJANGO_WAF_FEED_URL" in
  let url := if truthy url then url else PStr "" in
  res_bind (py_startswith "https://" url) (λ https,
  if https : bool then Ok [] else one_message Warning "W005" [url]).

(** ** W004, E006: [MIDDLEWARE] *)

Definition WAF_MIDDLEWARE : string := "django_waf.middleware.WafMiddleware".
Definition AUTH_MIDDLEWARE : string := "django.contrib.auth.middleware.AuthenticationMiddleware".

Definition check_middleware_ordering : res (list CheckMessage) :=
  when_enabled
    (if truthy (conf "DJANGO_WAF_TRUSTED_COOKIE_ENABLED") then Ok [] else
     res_bind (py_iter (getattr_default s "MIDDLEWARE" (PList []))) (λ middleware,
     match index_of (PStr WAF_MIDDLEWARE) middleware with
     | None => Ok []
     | Some waf_index =>
         let late := match index_of (PStr AUTH_MIDDLEWARE) middleware with
                     | None => true
                     | Some auth_index => (waf_index <? auth_index)%nat
                     end in
         if late then one_message Warning "W004" [] else Ok []
     end)).

(** [entry.rsplit(".", 1)[-1].endswith("WafMiddleware")]. *)
Definition names_waf (entry : PyVal) : res bool :=
  match entry with
  | PStr e => Ok (ends_with "WafMiddleware" (match rsplit1 "." e with Some (_, c) => c | None => e end))
  | PBytes _ => Raise (OtherError "TypeError")
  | _ => Raise (OtherError "AttributeError")
  end.

(** [any(...)], which stops at the first true element. *)
Fixpoint py_any (f : PyVal → res bool) (l : list PyVal) : res bool :=
  match l with
  | [] => Ok false
  | x :: l => res_bind (f x) (λ b, if b : bool then Ok true else py_any f l)
  end.

Definition check_middleware_present : res (list CheckMessage) :=
  when_enabled
    (res_bind (py_iter (getattr_default s "MIDDLEWARE" (PList []))) (λ middleware,
     res_bind (py_any names_waf middleware) (λ found,
     if found : bool then Ok [] else one_message Error "E006" []))).

(** ** E007: the challenge routes *)

Definition challenge_routes : list string :=
  (if truthy (conf "DJANGO_WAF_CHALLENGE_URL") then [] else ["django_waf:challenge"]) ++
  (if truthy (conf "DJANGO_WAF_VERIFY_URL") then [] else ["django_waf:verify"]).

(** The routes [reverse] does not know; another exception of it escapes. *)
Fixpoint unresolvable (routes : list string) : res (list string) :=
  match routes with
  | [] => Ok []
  | route :: routes =>
      match reverse route with
      | Ok _ => unresolvable routes
      | Raise NoReverseMatch => res_bind (unresolvable routes) (λ l, Ok (route :: l))
      | Raise e => Raise e
      end
  end.

Definition check_challenge_urls_resolvable : res (list CheckMessage) :=
  when_enabled
    (res_bind (py_lt (conf "DJANGO_WAF_SCORE_THRESHOLD_CHALLENGE")
                     (conf "DJANGO_WAF_SCORE_THRESHOLD_BLOCK")) (λ score_band_can_challenge,
     if negb score_band_can_challenge && negb (truthy (conf "DJANGO_WAF_CHALLENGE_NO_REFERER"))
     then Ok []
     else if truthy (conf "DJANGO_WAF_CHALLENGE_URL") && truthy (conf "DJANGO_WAF_VERIFY_URL")
     then Ok []
     else
       res_bind (unresolvable challenge_routes) (λ bad,
       match bad with [] => Ok [] | _ => one_message Error "E007" (map PStr bad) end))).

(** ** E003, W006: the site password, the trust level *)

Definition check_site_password_configured : res (list CheckMessage) :=
  when_enabled
    (if negb (truthy (conf "DJANGO_WAF_SITE_PASSWORD_ENABLED")) then Ok []
     else if truthy (conf "DJANGO_WAF_SITE_PASSWORD") then Ok []
     else one_message Error "E003" []).

Definition check_trusted_cookie_trust_level : res (list CheckMessage) :=
  if negb (truthy (conf "DJANGO_WAF_TRUSTED_COOKIE_ENABLED")) then Ok [] else
  let level := conf "DJANGO_WAF_TRUSTED_COOKIE_TRUST_LEVEL" in
  if py_in level [PStr "staff"; PStr "authenticated"] then Ok []
  else one_message Warning "W006" [level].

(** ** E004, W007: the cache backend, the legacy trust of a header *)

Definition check_redis_backend : res (list CheckMessage) :=
  when_enabled
    (let alias := conf "DJANGO_WAF_REDIS_ALIAS" in
     res_bind (is_redis_backend s (Some alias)) (λ redis,
     if redis : bool then Ok [] else one_message Error "E004" [alias])).

Definition check_legacy_xff_trust : res (list CheckMessage) :=
  if negb (truthy (conf "DJANGO_WAF_TRUST_X_FORWARDED_FOR")) then Ok []
  else if truthy (conf "DJANGO_WAF_TRUSTED_PROXIES") then Ok []
  else one_message Warning "W007" [].

(** ** W008, W009: the names of the detectors *)

(** The elements of [l] that are not in [names]; an unhashable one raises. *)
Fixpoint not_in (names : list string) (l : list PyVal) : res (list PyVal) :=
  match l with
  | [] => Ok []
  | v :: l =>
      if negb (hashable v) then Raise (OtherError "TypeError") else
      res_bind (not_in names l) (λ rest,
      Ok (if py_in v (map PStr names) then rest else v :: rest))
  end.

Definition check_observe_only_detector_names : res (list CheckMessage) :=
  res_bind (py_iter (conf "DJANGO_WAF_ANOMALY_OBSERVE_ONLY_DETECTORS")) (λ l,
  res_bind (not_in DETECTOR_NAMES l) (λ unknown,
  match unknown with [] => Ok [] | _ => one_message Warning "W008" [PList unknown] end)).

Definition DETECTOR_NAME_TO_RESULT_KEY : list (string * string) :=
  [("detect_ua_rotation", "ua_rotation_rules"); ("detect_subnet_burst", "subnet_burst_rules");
   ("detect_challenge_farms", "challenge_farm_rules");
   ("detect_unsolved_challenges", "unsolved_challenge_rules");
   ("detect_cloud_spray", "cloud_spray_rules"); ("detect_scraper_404_ratio", "scraper_404_rules")].

(** [sorted(a - b)] on sets of names. *)
Definition set_difference (a b : list string) : list string :=
  sort_names (List.filter (λ n, negb (bool_decide (n ∈ b))) a).

(** The check on two given constants. *)
Definition check_wiring (names : list string) (result_keys : list (string * string))
  : res (list CheckMessage) :=
  let missing_result_key := set_difference names (map fst result_keys) in
  let missing_from_detector_names := set_difference (map fst result_keys) names in
  match missing_result_key, missing_from_detector_names with
  | [], [] => Ok []
  | _, _ => one_message Warning "W009" [strs missing_result_key; strs missing_from_detector_names]
  end.

Definition check_detector_wiring : res (list CheckMessage) :=
  check_wiring DETECTOR_NAMES DETECTOR_NAME_TO_RESULT_KEY.

(** ** W010: settings that exist in the environment only *)

Definition env_only : list string :=
  sort_names (List.filter (λ n, bool_decide (n ∈ environ) && bool_decide (values s !! n = None))
                (map fst (RESOLVERS has_crontab))).

Definition check_env_only_settings : res (list CheckMessage) :=
  match env_only with [] => Ok [] | ineffective => one_message Warning "W010" (map PStr ineffective) end.

(** ** E008: the block response handler *)

(** [import_string(dotted_path)] returns; it splits its argument first. *)
Definition import_ok (dotted_path : PyVal) : bool :=
  match dotted_path with PStr p => imports p | _ => false end.

Definition check_block_response_handler_importable : res (list CheckMessage) :=
  when_enabled
    (let dotted_path := conf "DJANGO_WAF_BLOCK_RESPONSE_HANDLER" in
     if negb (truthy dotted_path) then Ok []
     else if import_ok dotted_path then Ok []
     else one_message Error "E008" [dotted_path]).

(** ** E009: the entries of [DJANGO_WAF_RATE_LIMIT_PATHS] *)

(** [isinstance(v, int) and not isinstance(v, bool) and v > 0]. *)
Definition positive_int (v : PyVal) : bool :=
  match v with PInt z => 0 <? z | _ => false end.

(** The third item: an iterable, not a string, of at least one string, none
    of them empty. *)
Definition valid_methods (methods : PyVal) : bool :=
  match methods with
  | PStr _ | PBytes _ => false
  | _ =>
      match elements methods with
      | Some l => forallb (λ m, match m with PStr t => negb (str_empty t) | _ => false end) l
                  && negb (match l with [] => true | _ => false end)
      | None => false
      end
  end.

Definition complain (ok : bool) (prefix value : PyVal) : res (list CheckMessage) :=
  if ok then Ok [] else one_message Error "E009" [prefix; value].

Definition check_path_entry (item : PyVal * PyVal) : res (list CheckMessage) :=
  let '(prefix, entry) := item in
  match entry with
  | PTuple [max_requests; window_seconds] | PList [max_requests; window_seconds] =>
      collect (λ p : bool * PyVal, complain p.1 prefix p.2)
        [(positive_int max_requests, max_requests); (positive_int window_seconds, window_seconds)]
  | PTuple [max_requests; window_seconds; methods] | PList [max_requests; window_seconds; methods] =>
      collect (λ p : bool * PyVal, complain p.1 prefix p.2)
        [(positive_int max_requests, max_requests); (positive_int window_seconds, window_seconds);
         (valid_methods methods, methods)]
  | _ => complain false prefix entry
  end.

Definition check_rate_limit_paths : res (list CheckMessage) :=
  when_enabled
    (let rate_limit_paths := conf "DJANGO_WAF_RATE_LIMIT_PATHS" in
     if negb (truthy rate_limit_paths) then Ok [] else
     match rate_limit_paths with
     | PDict items => collect check_path_entry items
     | _ => Raise (OtherError "AttributeError")
     end).

(** ** E005: the version of the server *)

Section RedisVersion.
Context {C : Type} (info : C → res PyVal) (connect : string → res C).

(** [".".join(str(part) for part in version)]. *)
Definition version_str (v : Z * Z * Z) : string :=
  let '(a, b, c) := v in join "." [str_of_Z a; str_of_Z b; str_of_Z c].

(** An alias that is not a string names no cache. *)
Definition check_redis_version : M RedisModule (list CheckMessage) :=
  if negb (truthy (conf "DJANGO_WAF_ENABLED")) then ret [] else
  redis <- lift_res (is_redis_backend s (Some (conf "DJANGO_WAF_REDIS_ALIAS"))) ;;
  if negb redis then ret [] else
  match conf "DJANGO_WAF_REDIS_ALIAS" with
  | PStr alias =>
      version <- get_redis_server_version info alias connect (Some alias) ;;
      match version with
      | None => ret []
      | Some v =>
          if version_geb v MIN_REDIS_VERSION then ret []
          else lift_res (one_message Error "E005"
                 [PStr alias; PStr (version_str v); PStr (version_str MIN_REDIS_VERSION)])
      end
  | _ => ret []
  end.

(** The registered checks. *)
Definition registered_checks : list (M RedisModule (list CheckMessage)) :=
  map lift_res
    [check_challenge_difficulty; check_signing_key; check_feed_url_scheme; check_middleware_ordering;
     check_middleware_present; check_challenge_urls_resolvable; check_site_password_configured;
     check_trusted_cookie_trust_level; check_redis_backend; check_legacy_xff_trust;
     check_observe_only_detector_names; check_detector_wiring; check_env_only_settings;
     check_block_response_handler_importable; check_rate_limit_paths]
  ++ [check_redis_version].

(** [run_checks], one after another. *)
Fixpoint run_checks (checks : list (M RedisModule (list CheckMessage)))
  : M RedisModule (list CheckMessage) :=
  match checks with
  | [] => ret []
  | c :: checks =>
      ms <- c ;;
      rest <- run_checks checks ;;
      ret (ms ++ rest)
  end.
End RedisVersion.
End Checks.

(** ** Lemmas *)

(** A check passes: it returns, with no [Error] (the level at which
    [manage.py check] fails). *)
Definition passes (r : res (list CheckMessage)) : bool :=
  match r with
  | Ok ms => forallb (λ m, match cm_level m with Error => false | Warning => true end) ms
  | Raise _ => false
  end.

Lemma one_message_inv level id vs ms :
  one_message level id vs = Ok ms →
  ms = [{| cm_level := level; cm_id := "django_waf." +:+ id; cm_values := vs |}].
Proof. unfold one_message, message. destruct (forallb repr_ok vs); simpl; [by intros [= <-]|done]. Qed.

Lemma passes_error id vs : passes (one_message Error id vs) = false.
Proof. unfold one_message, message. by destruct (forallb repr_ok vs). Qed.

Lemma passes_collect {A} (f : A → res (list CheckMessage)) l :
  passes (collect f l) = true ↔ ∀ x, In x l → passes (f x) = true.
Proof.
  induction l as [|x l IH]; simpl; [by split|].
  destruct (f x) as [ms|e] eqn:E; simpl.
  - destruct (collect f l) as [rest|e] eqn:El; simpl.
    + rewrite forallb_app, andb_true_iff. split.
      * intros [H1 H2] y [<-|Hin]; [by rewrite E|]. by apply IH.
      * intros H. split; [specialize (H x); rewrite E in H; apply H; by left|].
        apply IH. intros y Hy. apply H. by right.
    + split; [done|]. intros H. apply IH. intros y Hy. apply H. by right.
  - split; [done|]. intros H. specialize (H x (or_introl eq_refl)). by rewrite E in H.
Qed.

(** *** E009 as a type check *)

(** What the rate limiter needs of an entry. *)
Definition well_formed_limit (e : path_limit) : Prop :=
  0 < pl_max e ∧ 0 < pl_window e ∧
  match pl_methods e with Some ms => ms ≠ [] ∧ Forall (λ m, m ≠ "") ms | None => True end.

Lemma mapM_as_str l ms : mapM as_str l = Some ms ↔ l = map PStr ms.
Proof.
  rewrite mapM_Some. split.
  - induction 1 as [|x m l ms Hx _ IH]; [done|]. simpl. rewrite IH. f_equal.
    destruct x; simpl in Hx; congruence.
  - intros ->. induction ms; simpl; by constructor.
Qed.

Lemma valid_methods_spec v :
  valid_methods v = true ↔ ∃ ms, as_strs v = Some ms ∧ ms ≠ [] ∧ Forall (λ m, m ≠ "") ms.
Proof.
  assert (Hlist : ∀ l : list PyVal,
    forallb (λ m, match m with PStr t => negb (str_empty t) | _ => false end) l
      && negb (match l with [] => true | _ => false end) = true ↔
    ∃ ms, mapM as_str l = Some ms ∧ ms ≠ [] ∧ Forall (λ m, m ≠ "") ms).
  { intros l. transitivity (∃ ms, l = map PStr ms ∧ ms ≠ [] ∧ Forall (λ m, m ≠ "") ms).
    - split.
      + rewrite andb_true_iff. intros [Hall Hne].
        assert (∃ ms, l = map PStr ms ∧ Forall (λ m, m ≠ "") ms) as (ms & -> & Hms).
        { clear Hne. induction l as [|x l IH]; [by exists []|]. simpl in Hall.
          apply andb_true_iff in Hall as [Hx Hl]. destruct (IH Hl) as (ms & -> & Hms).
          destruct x; try done. exists (s :: ms). split; [done|]. constructor; [|done].
          by intros ->. }
        exists ms. split_and!; [done| |done]. by intros ->.
      + intros (ms & -> & Hne & Hms). rewrite andb_true_iff. split; [|by destruct ms].
        apply forallb_forall. intros x (m & <- & Hm)%in_map_iff.
        rewrite List.Forall_forall in Hms. specialize (Hms m Hm). by destruct m.
    - by setoid_rewrite mapM_as_str. }
  destruct v; simpl; try (split; [done|by intros (? & ? & _)]); apply Hlist.
Qed.

Lemma positive_int_spec v : positive_int v = true ↔ ∃ z, as_int v = Some z ∧ 0 < z.
Proof.
  destruct v; simpl; try (split; [done|by intros (? & ? & _)]).
  rewrite Z.ltb_lt. split; [by exists z|]. by intros (? & [= <-] & ?).
Qed.

Lemma passes_complain ok prefix value : passes (complain ok prefix value) = ok.
Proof. destruct ok; [done|]. apply passes_error. Qed.

Lemma passes_complaints prefix (l : list (bool * PyVal)) :
  passes (collect (λ p, complain p.1 prefix p.2) l) = forallb fst l.
Proof.
  apply eq_true_iff_eq. rewrite passes_collect, forallb_forall.
  split; intros H p Hp; specialize (H p Hp); by rewrite passes_complain in *.
Qed.

Lemma path_entry_check prefix entry :
  passes (check_path_entry (prefix, entry)) = true ↔
  ∃ e, as_path_limit entry = Some e ∧ well_formed_limit e.
Proof.
  assert (Hbad : passes (complain false prefix entry) = true ↔
            ∃ e, (None : option path_limit) = Some e ∧ well_formed_limit e).
  { rewrite passes_complain. split; [done|by intros (? & ? & _)]. }
  assert (Htwo : ∀ m w, forallb fst [(positive_int m, m); (positive_int w, w)] = true ↔
            ∃ e, as_path_limit (PTuple [m; w]) = Some e ∧ well_formed_limit e).
  { intros m w. simpl. rewrite andb_true_r, andb_true_iff, !positive_int_spec. split.
    - intros [(a & -> & Ha) (b & -> & Hb)]. eexists. split; [done|]. done.
    - intros (e & He & Hmax & Hwin & _).
      apply bind_Some in He as (a & Ha & He). apply bind_Some in He as (b & Hb & He).
      injection He as <-. simpl in *. eauto 10. }
  assert (Hthree : ∀ m w ms,
            forallb fst [(positive_int m, m); (positive_int w, w); (valid_methods ms, ms)] = true ↔
            ∃ e, as_path_limit (PTuple [m; w; ms]) = Some e ∧ well_formed_limit e).
  { intros m w ms. simpl. rewrite andb_true_r, !andb_true_iff, !positive_int_spec, valid_methods_spec.
    split.
    - intros ((a & -> & Ha) & (b & -> & Hb) & (l & -> & Hl)). eexists. split; [done|].
      split_and!; [done|done|exact Hl].
    - intros (e & He & Hmax & Hwin & Hms).
      apply bind_Some in He as (a & Ha & He). apply bind_Some in He as (b & Hb & He).
      apply bind_Some in He as (l & Hl & He). injection He as <-. simpl in *. eauto 10. }
  destruct entry as [| | | | | |l|l|l| |]; try exact Hbad;
    (destruct l as [|m [|w [|ms [|? ?]]]];
       [exact Hbad|exact Hbad|unfold check_path_entry; rewrite passes_complaints; apply Htwo
       |unfold check_path_entry; rewrite passes_complaints; apply Hthree|exact Hbad]).
Qed.

Definition string_keys (items : list (PyVal * PyVal)) : Prop :=
  Forall (λ p, is_Some (as_str p.1)) items.

Lemma path_entries_check items :
  string_keys items →
  passes (collect check_path_entry items) = true ↔
  ∃ paths, as_paths (PDict items) = Some paths ∧ Forall (λ p, well_formed_limit p.2) paths.
Proof.
  intros Hkeys. rewrite passes_collect. simpl. split.
  - intros H. induction Hkeys as [|[k v] items [k' Hk] _ IH]; [by exists []|].
    destruct IH as (paths & Hpaths & Hwf); [intros x Hx; apply H; by right|].
    pose proof (H (k, v) (or_introl eq_refl)) as (e & He & Hwfe)%path_entry_check.
    exists ((k', e) :: paths). split; [|by constructor].
    simpl in *. rewrite Hk. simpl. rewrite He. simpl. by rewrite Hpaths.
  - intros (paths & Hpaths & Hwf) [k v] Hin. apply path_entry_check.
    apply mapM_Some in Hpaths. clear Hkeys. induction Hpaths as [|[k1 v1] y items paths Hy _ IH]; [done|].
    apply List.Forall_cons_iff in Hwf as [Hwf1 Hwf].
    destruct Hin as [[= <- <-]|Hin]; [|by apply IH].
    simpl in Hy. apply bind_Some in Hy as (k' & _ & Hy). apply bind_Some in Hy as (e & He & Hy).
    injection Hy as <-. eauto.
Qed.

(** *** The difficulty *)

(** A difficulty that passes: the two optional fields may be unset. *)
Definition sane_difficulty (z : Z) : Prop := 0 <= z <= 28.

Lemma pow2_ltb limit k k' z :
  0 <= z → k' = k + 1 → 2 ^ k < limit → limit <= 2 ^ k' → (2 ^ z <? limit) = bool_decide (z < k').
Proof.
  intros Hz -> Hlt Hle. case_bool_decide.
  - apply Z.ltb_lt. eapply Z.le_lt_trans; [|exact Hlt]. apply Z.pow_le_mono_r; lia.
  - apply Z.ltb_ge. etrans; [exact Hle|]. apply Z.pow_le_mono_r; lia.
Qed.

Lemma pow2_printable z : 0 <= z → str_int_ok (2 ^ z) = bool_decide (z < 14285).
Proof.
  intros Hz. unfold str_int_ok. rewrite Z.abs_eq by (apply Z.pow_nonneg; lia).
  apply (pow2_ltb int_max_str 14284 14285 z Hz eq_refl).
  - apply Z.ltb_lt. vm_compute. reflexivity.
  - apply Z.leb_le. vm_compute. reflexivity.
Qed.

Definition field_ok (value : PyVal) (allow_none : bool) : Prop :=
  (value = PNone ∧ allow_none = true) ∨ ∃ z, value = PInt z ∧ sane_difficulty z.

Lemma difficulty_field_check hc s name allow_none :
  passes (check_difficulty_field hc s (name, allow_none)) = true ↔
  field_ok (conf_attr hc s name) allow_none.
Proof.
  unfold check_difficulty_field, field_ok, sane_difficulty.
  assert (Hpair : ∀ level id z, 0 <= z < 29 →
            one_message level id [PStr name; PInt z; PInt (2 ^ z)] =
            Ok [{| cm_level := level; cm_id := "django_waf." +:+ id;
                   cm_values := [PStr name; PInt z; PInt (2 ^ z)] |}]).
  { intros level id z Hz. unfold one_message, message. cbn [forallb repr_ok].
    rewrite pow2_printable, bool_decide_eq_true_2 by lia.
    assert (str_int_ok z = true) as ->; [|done].
    assert (29 < int_max_str) by (apply Z.ltb_lt; vm_compute; reflexivity).
    unfold str_int_ok. apply Z.ltb_lt. lia. }
  destruct (conf_attr hc s name) as [|b|z| | | | | | | |] eqn:E;
    try (rewrite passes_error; split; [done|intros [[? _]|(? & ? & _)]; done]).
  - destruct allow_none; [split; [by left|done]|].
    rewrite passes_error. split; [done|intros [[_ ?]|(? & ? & _)]; done].
  - transitivity (0 <= z <= 28).
    2:{ split; [by right; exists z|]. intros [[? _]|(? & [= <-] & ?)]; [done|lia]. }
    destruct (Z.ltb_spec z 0); [rewrite passes_error; split; [done|lia]|].
    destruct (Z.ltb_spec 28 z); [rewrite passes_error; split; [done|lia]|].
    destruct (Z.ltb_spec 24 z); [rewrite Hpair by lia; split; [lia|done]|].
    destruct (_ && _) eqn:E8; [rewrite Hpair by lia|]; (split; [lia|done]).
Qed.

(** An unsolvable difficulty of 29 bits or more is reported, until its hash
    count no longer prints. *)
Lemma unsolvable_difficulty_reported hc s name allow_none z :
  conf_attr hc s name = PInt z → 28 < z →
  check_difficulty_field hc s (name, allow_none) =
  if bool_decide (z < 14285)
  then Ok [{| cm_level := Error; cm_id := "django_waf.E002";
              cm_values := [PStr name; PInt z; PInt (2 ^ z)] |}]
  else Raise ValueError.
Proof.
  intros E Hz. unfold check_difficulty_field. rewrite E.
  rewrite (proj2 (Z.ltb_ge z 0)), (proj2 (Z.ltb_lt 28 z)) by lia.
  unfold one_message, message. cbn [forallb repr_ok]. rewrite pow2_printable by lia.
  case_bool_decide as Hlt.
  - assert (str_int_ok z = true) as ->; [|done].
    assert (14285 < int_max_str) by (apply Z.ltb_lt; vm_compute; reflexivity).
    unfold str_int_ok. apply Z.ltb_lt. lia.
  - by rewrite andb_false_r.
Qed.

(** *** E007, W008, W009 *)

Lemma unresolvable_nil reverse routes :
  unresolvable reverse routes = Ok [] ↔ ∀ r, In r routes → is_Ok (reverse r) = true.
Proof.
  induction routes as [|r routes IH]; simpl; [by split|].
  destruct (reverse r) as [p|e] eqn:E.
  - rewrite IH. split; [intros H x [<-|Hx]; [by rewrite E|by apply H]|].
    intros H x Hx. apply H. by right.
  - split.
    + destruct e; simpl; try done. by destruct (unresolvable reverse routes).
    + intros H. specialize (H r (or_introl eq_refl)). by rewrite E in H.
Qed.

Lemma set_difference_nil a b : set_difference a b = [] ↔ ∀ n, n ∈ a → n ∈ b.
Proof.
  unfold set_difference. split.
  - intros H n Hn. destruct (decide (n ∈ b)) as [|Hb]; [done|].
    assert (Hin : In n (sort_names (List.filter (λ n, negb (bool_decide (n ∈ b))) a))).
    { unfold sort_names. apply sort_by_In, filter_In. split; [by apply list_elem_of_In|].
      by rewrite bool_decide_eq_false_2. }
    by rewrite H in Hin.
  - intros H. destruct (sort_names _) as [|n l] eqn:E; [done|].
    assert (Hin : In n (sort_names (List.filter (λ n, negb (bool_decide (n ∈ b))) a)))
      by (rewrite E; by left).
    unfold sort_names in Hin. apply sort_by_In, filter_In in Hin as [Hin Hb].
    apply list_elem_of_In, H in Hin. by rewrite bool_decide_eq_true_2 in Hb.
Qed.

Lemma py_in_strings n names : py_in (PStr n) (map PStr names) = bool_decide (n ∈ names).
Proof.
  unfold py_in. apply eq_true_iff_eq. rewrite existsb_exists, bool_decide_eq_true. split.
  - intros (x & (m & <- & Hm)%in_map_iff & E). simpl in E. apply String.eqb_eq in E as ->.
    by apply list_elem_of_In.
  - intros Hn. exists (PStr n). split; [by apply in_map, list_elem_of_In|]. simpl. apply String.eqb_refl.
Qed.

Lemma not_in_strings names l :
  not_in names (map PStr l) = Ok (map PStr (List.filter (λ n, negb (bool_decide (n ∈ names))) l)).
Proof.
  induction l as [|n l IH]; [done|]. simpl. rewrite IH. simpl.
  rewrite py_in_strings. by case_bool_decide.
Qed.

Lemma as_strs_elements v l :
  as_strs v = Some l → elements v = Some (map PStr l).
Proof.
  destruct v; simpl; try done; by intros ->%mapM_as_str.
Qed.

(** What the checks say of the attributes, said of the typed record. *)
Section Typed.
Context (hc : bool) (s : DjangoSettings) (conf : Conf) (Hconf : conf_of hc s = Some conf).

Lemma truthy_as_str v t : as_str v = Some t → truthy v = negb (str_empty t).
Proof. destruct v; simpl; congruence. Qed.

Lemma enabled_truthy : DJANGO_WAF_ENABLED conf = true → truthy (conf_attr hc s "DJANGO_WAF_ENABLED") = true.
Proof. intros H. apply conf_of_fields in Hconf as (He & _). congruence. Qed.

(** E003: the gate of a deployment that passes has a password. *)
Lemma site_password_check :
  DJANGO_WAF_ENABLED conf = true →
  passes (check_site_password_configured hc s) = negb (SitePassword.is_misconfigured conf).
Proof.
  intros He%enabled_truthy. pose proof (conf_of_fields _ _ _ Hconf) as Hf. cbv zeta in Hf.
  destruct Hf as (_&_&_&_&_&_&_&_&_&_&_&_&_&Hpw&Hgate&_).
  unfold check_site_password_configured, when_enabled, SitePassword.is_misconfigured.
  rewrite He, Hgate, (truthy_as_str _ _ Hpw). simpl.
  destruct (truthy (conf_attr hc s "DJANGO_WAF_SITE_PASSWORD_ENABLED")); [|done]. simpl.
  destruct (str_empty _); [apply passes_error|done].
Qed.

(** E008: the block handler of a deployment that passes imports. *)
Lemma handler_check imports :
  DJANGO_WAF_ENABLED conf = true →
  passes (check_block_response_handler_importable hc s imports) =
  str_empty (DJANGO_WAF_BLOCK_RESPONSE_HANDLER conf) || imports (DJANGO_WAF_BLOCK_RESPONSE_HANDLER conf).
Proof.
  intros He%enabled_truthy. pose proof (conf_of_fields _ _ _ Hconf) as Hf. cbv zeta in Hf.
  destruct Hf as (_&Hh&_).
  unfold check_block_response_handler_importable, when_enabled. rewrite He. cbn [negb].
  rewrite (truthy_as_str _ _ Hh), negb_involutive.
  destruct (str_empty _); [done|]. unfold import_ok.
  destruct (conf_attr hc s "DJANGO_WAF_BLOCK_RESPONSE_HANDLER"); try done.
  injection Hh as ->. destruct (imports _); [done|apply passes_error].
Qed.

(** E009: the path limits of a deployment that passes are well formed. *)
Lemma path_limits_check :
  DJANGO_WAF_ENABLED conf = true →
  passes (check_rate_limit_paths hc s) = true ↔
  Forall (λ p, well_formed_limit p.2) (DJANGO_WAF_RATE_LIMIT_PATHS conf).
Proof.
  intros He%enabled_truthy. pose proof (conf_of_fields _ _ _ Hconf) as Hf. cbv zeta in Hf.
  destruct Hf as (_&_&_&_&Hp&_).
  unfold check_rate_limit_paths, when_enabled. rewrite He. cbn [negb].
  destruct (conf_attr hc s "DJANGO_WAF_RATE_LIMIT_PATHS") as [| | | | | | | | |items|] eqn:E; try done.
  assert (Hkeys : string_keys items).
  { simpl in Hp. apply mapM_Some in Hp. clear E.
    induction Hp as [|[k v] y items paths Hy _ IH]; constructor; [|done].
    simpl in Hy. apply bind_Some in Hy as (k' & Hk & _). by exists k'. }
  destruct items as [|item items].
  - simpl in Hp. injection Hp as <-. simpl. by split.
  - cbn [truthy negb]. rewrite (path_entries_check _ Hkeys). split.
    + intros (paths & Hpaths & Hwf). rewrite Hp in Hpaths. by injection Hpaths as ->.
    + intros Hwf. by exists (DJANGO_WAF_RATE_LIMIT_PATHS conf).
Qed.

(** E007: when settings alone can produce a challenge, the routes of a
    deployment that passes resolve. *)
Lemma challenge_routes_check rev :
  DJANGO_WAF_ENABLED conf = true →
  passes (check_challenge_urls_resolvable hc s rev) = true →
  (DJANGO_WAF_SCORE_THRESHOLD_CHALLENGE conf < DJANGO_WAF_SCORE_THRESHOLD_BLOCK conf)%Q ∨
    DJANGO_WAF_CHALLENGE_NO_REFERER conf = true →
  (DJANGO_WAF_CHALLENGE_URL conf = "" → is_Ok (rev "django_waf:challenge") = true) ∧
  (DJANGO_WAF_VERIFY_URL conf = "" → is_Ok (rev "django_waf:verify") = true).
Proof.
  intros He%enabled_truthy Hpass Hissuable. pose proof (conf_of_fields _ _ _ Hconf) as Hf. cbv zeta in Hf.
  destruct Hf as (_&_&_&_&_&Hch&Hbl&Hnr&_&_&_&Hcu&Hvu&_).
  unfold check_challenge_urls_resolvable, when_enabled in Hpass. rewrite He in Hpass. cbn [negb] in Hpass.
  assert (Hlt : py_lt (conf_attr hc s "DJANGO_WAF_SCORE_THRESHOLD_CHALLENGE")
            (conf_attr hc s "DJANGO_WAF_SCORE_THRESHOLD_BLOCK") =
          Ok (negb (Qle_bool (DJANGO_WAF_SCORE_THRESHOLD_BLOCK conf)
                      (DJANGO_WAF_SCORE_THRESHOLD_CHALLENGE conf)))).
  { unfold py_lt.
    assert (Hnum : ∀ v q, as_num v = Some q → py_num v = Some q) by (intros []; done).
    by rewrite (Hnum _ _ Hch), (Hnum _ _ Hbl). }
  rewrite Hlt in Hpass. cbn [res_bind] in Hpass. rewrite <-Hnr in Hpass.
  assert (Hcan : negb (negb (Qle_bool (DJANGO_WAF_SCORE_THRESHOLD_BLOCK conf)
              (DJANGO_WAF_SCORE_THRESHOLD_CHALLENGE conf))) &&
            negb (DJANGO_WAF_CHALLENGE_NO_REFERER conf) = false).
  { destruct Hissuable as [Hq| ->]; [|by rewrite andb_false_r].
    rewrite negb_involutive. apply andb_false_intro1. apply not_true_iff_false.
    intros Hle%Qle_bool_iff. by apply Qlt_not_le in Hq. }
  rewrite Hcan in Hpass. unfold challenge_routes in Hpass.
  rewrite (truthy_as_str _ _ Hcu), (truthy_as_str _ _ Hvu) in Hpass.
  destruct (str_empty (DJANGO_WAF_CHALLENGE_URL conf)) eqn:Ec,
    (str_empty (DJANGO_WAF_VERIFY_URL conf)) eqn:Ev; cbn [negb andb app] in Hpass;
    [| | |split; intros E; rewrite E in *; done];
    match type of Hpass with context [unresolvable rev ?l] =>
      assert (Hr : unresolvable rev l = Ok [])
        by (destruct (unresolvable rev l) as [[|]|]; cbn [res_bind] in Hpass;
            [done|by rewrite passes_error in Hpass|done]) end;
    rewrite unresolvable_nil in Hr; split; intros E; try (rewrite E in *; done); apply Hr; simpl; tauto.
Qed.
End Typed.

Lemma field_ok_int v z : as_int v = Some z → field_ok v false ↔ sane_difficulty z.
Proof.
  unfold field_ok. destruct v; simpl; try done. intros [= ->]. split; [|by right; exists z].
  by intros [[? _]|(? & [= <-] & ?)].
Qed.

Lemma field_ok_opt v o : as_opt as_int v = Some o → field_ok v true ↔ from_option sane_difficulty True o.
Proof.
  unfold field_ok. destruct v; simpl; try done; intros [= <-]; simpl; [by split; [|left]|].
  split; [|by right; eexists]. by intros [[? _]|(? & [= <-] & ?)].
Qed.

(** ** Properties *)

Module ChecksProps.

(** C32: what passing checks guarantee.  For settings that read as [conf], with
    the WAF on, if E003, E007, E008 and E009 report no error, then: the
    site-password gate is not misconfigured (so it does not lock every visitor
    out); whenever the settings alone can produce a challenge (its threshold is
    below the block threshold, or requests without a Referer are challenged),
    the challenge and verify paths resolve; the block handler is unset or
    imports; and every path limit has a positive window.  No more is claimed: a
    handler that imports may still raise or return something that is no
    response, and the throttle handler is not checked at all. *)
Theorem passing_checks_guarantee {R P} `{site : Site R P} hc s conf :
  conf_of hc s = Some conf →
  DJANGO_WAF_ENABLED conf = true →
  passes (check_site_password_configured hc s) = true →
  passes (check_challenge_urls_resolvable hc s Middleware.reverse) = true →
  passes (check_block_response_handler_importable hc s (λ p, is_Ok (Middleware.import_string p))) = true →
  passes (check_rate_limit_paths hc s) = true →
  SitePassword.is_misconfigured conf = false ∧
  ((DJANGO_WAF_SCORE_THRESHOLD_CHALLENGE conf < DJANGO_WAF_SCORE_THRESHOLD_BLOCK conf)%Q ∨
     DJANGO_WAF_CHALLENGE_NO_REFERER conf = true →
   is_Ok (get_challenge_paths conf) = true) ∧
  (DJANGO_WAF_BLOCK_RESPONSE_HANDLER conf = "" ∨
   is_Ok (Middleware.import_string (DJANGO_WAF_BLOCK_RESPONSE_HANDLER conf)) = true) ∧
  path_windows_positive conf.
Proof.
  intros Hconf He H3 H7 H8 H9. split_and!.
  - rewrite (site_password_check _ _ _ Hconf He) in H3. by destruct (SitePassword.is_misconfigured conf).
  - intros Hissuable.
    destruct (challenge_routes_check _ _ _ Hconf _ He H7 Hissuable) as [Hc Hv].
    assert (Hpath : ∀ setting name, (setting = "" → is_Ok (Middleware.reverse name) = true) →
              is_Ok (if str_empty setting then Middleware.reverse name else Ok setting) = true).
    { intros [|? ?] name Hn; simpl; [by apply Hn|done]. }
    unfold get_challenge_paths. apply Hpath in Hc, Hv.
    destruct (if str_empty (DJANGO_WAF_CHALLENGE_URL conf) then _ else _); [|done].
    by destruct (if str_empty (DJANGO_WAF_VERIFY_URL conf) then _ else _).
  - rewrite (handler_check _ _ _ Hconf _ He) in H8. apply orb_true_iff in H8 as [H8|H8]; [left|by right].
    by destruct (DJANGO_WAF_BLOCK_RESPONSE_HANDLER conf).
  - apply (path_limits_check _ _ _ Hconf He) in H9. intros p e Hin.
    rewrite List.Forall_forall in H9. destruct (H9 _ Hin) as (_ & Hw & _). exact Hw.
Qed.

(** C33: E009 is exactly a type check.  For a well-formed dictionary, one of
    string prefixes, the check passes precisely when every entry reads as a
    pair or triple the rate limiter can use: a positive budget, a positive
    window and, in the third place, at least one method, none of them empty.
    The model prints integers of any size; Python refuses to print one of more
    than 4300 digits, and such a budget makes the check raise instead of
    report. *)
Theorem rate_limit_paths_check_decides_typing hc s items :
  truthy (conf_attr hc s "DJANGO_WAF_ENABLED") = true →
  conf_attr hc s "DJANGO_WAF_RATE_LIMIT_PATHS" = PDict items →
  string_keys items →
  passes (check_rate_limit_paths hc s) = true ↔
  ∃ paths, as_paths (PDict items) = Some paths ∧ Forall (λ p, well_formed_limit p.2) paths.
Proof.
  intros He Hp Hkeys. unfold check_rate_limit_paths, when_enabled. rewrite He, Hp. cbn [negb].
  destruct items as [|item items]; [|by apply path_entries_check].
  split; [|done]. intros _. by exists [].
Qed.

(** The difficulty check bounds the work a visitor can be asked for.  With
    the WAF on it passes exactly when every configured difficulty is between 0
    and 28 bits, and then so is the difficulty issued to any User-Agent. *)
Lemma difficulty_check_bounds_the_work hc s conf :
  conf_of hc s = Some conf →
  DJANGO_WAF_ENABLED conf = true →
  (passes (check_challenge_difficulty hc s) = true ↔
   sane_difficulty (DJANGO_WAF_CHALLENGE_DIFFICULTY conf) ∧
   from_option sane_difficulty True (DJANGO_WAF_CHALLENGE_DIFFICULTY_DESKTOP conf) ∧
   from_option sane_difficulty True (DJANGO_WAF_CHALLENGE_DIFFICULTY_MOBILE conf)) ∧
  (passes (check_challenge_difficulty hc s) = true →
   ∀ user_agent, 0 <= pick_difficulty conf user_agent <= 28).
Proof.
  intros Hconf He. pose proof (conf_of_fields _ _ _ Hconf) as Hf. cbv zeta in Hf.
  destruct Hf as (Hen&_&_&_&_&_&_&_&Hd&Hdd&Hdm&_).
  assert (Hiff : passes (check_challenge_difficulty hc s) = true ↔
   sane_difficulty (DJANGO_WAF_CHALLENGE_DIFFICULTY conf) ∧
   from_option sane_difficulty True (DJANGO_WAF_CHALLENGE_DIFFICULTY_DESKTOP conf) ∧
   from_option sane_difficulty True (DJANGO_WAF_CHALLENGE_DIFFICULTY_MOBILE conf)).
  { unfold check_challenge_difficulty, when_enabled. rewrite <-Hen, He. cbn [negb].
    rewrite passes_collect. unfold difficulty_fields.
    rewrite <-(field_ok_int _ _ Hd), <-(field_ok_opt _ _ Hdd), <-(field_ok_opt _ _ Hdm).
    rewrite <-!difficulty_field_check. split.
    - intros H. split_and!; apply H; simpl; tauto.
    - intros (H1 & H2 & H3) f [<-|[<-|[<-|[]]]]; done. }
  split; [exact Hiff|]. intros (H1 & H2 & H3)%Hiff ua. unfold pick_difficulty.
  destruct (is_mobile_user_agent ua);
    [destruct (DJANGO_WAF_CHALLENGE_DIFFICULTY_MOBILE conf)
    |destruct (DJANGO_WAF_CHALLENGE_DIFFICULTY_DESKTOP conf)]; done.
Qed.

(** With W007 silent the resolved address is the hardened one, except for a
    peer outside a non-empty list of trusted proxies: for it the leftmost
    entry of the header is still taken. *)
Lemma xff_warning_silent hc s conf meta :
  conf_of hc s = Some conf →
  check_legacy_xff_trust hc s = Ok [] →
  resolve_client_ip conf meta = resolve_client_ip {| conf with DJANGO_WAF_TRUST_X_FORWARDED_FOR := false |} meta ∨
  (DJANGO_WAF_TRUSTED_PROXIES conf ≠ [] ∧
   is_trusted_proxy (meta_get meta "REMOTE_ADDR") (DJANGO_WAF_TRUSTED_PROXIES conf) = false ∧
   resolve_client_ip conf meta = strip (hd "" (split_on "," (meta_get meta "HTTP_X_FORWARDED_FOR")))).
Proof.
  intros Hconf Hsilent. pose proof (conf_of_fields _ _ _ Hconf) as Hf. cbv zeta in Hf.
  destruct Hf as (_&_&Hp&Ht&_).
  unfold check_legacy_xff_trust in Hsilent. rewrite <-Ht in Hsilent.
  unfold resolve_client_ip. cbn [DJANGO_WAF_TRUSTED_PROXIES DJANGO_WAF_TRUSTED_UNIX_SOCKET
    DJANGO_WAF_TRUST_X_FORWARDED_FOR].
  destruct (is_trusted_proxy _ _ || _) eqn:Etr; [by left|].
  apply orb_false_iff in Etr as [Etr _].
  destruct (DJANGO_WAF_TRUST_X_FORWARDED_FOR conf); [|by left]. cbn [negb andb] in *.
  destruct (str_empty _); [by left|]. cbn [negb].
  destruct (is_valid_ip _); [|by left]. right. split_and!; [|done|done].
  intros Hnil. rewrite Hnil in Hp. apply as_strs_elements in Hp.
  assert (truthy (conf_attr hc s "DJANGO_WAF_TRUSTED_PROXIES") = false) as Hf.
  { destruct (conf_attr hc s "DJANGO_WAF_TRUSTED_PROXIES") as [| | | |t|t|l|l|l|l|]; simpl in *;
      try done; try (destruct t; done); destruct l; done. }
  by rewrite Hf in Hsilent.
Qed.

(** The detector-name check guards observe-only mode in both directions.
    For a list of names it is silent exactly when every name is a detector;
    and a silent check leaves no name without effect: a rule stored by a listed
    detector starts inactive and pending review. *)
Lemma observe_only_check_is_exact hc s conf :
  conf_of hc s = Some conf →
  (check_observe_only_detector_names hc s = Ok [] ↔
   ∀ name, name ∈ DJANGO_WAF_ANOMALY_OBSERVE_ONLY_DETECTORS conf → name ∈ DETECTOR_NAMES) ∧
  (check_observe_only_detector_names hc s = Ok [] →
   ∀ name, name ∈ DJANGO_WAF_ANOMALY_OBSERVE_ONLY_DETECTORS conf →
   ∃ detector, In detector DETECTOR_NAMES ∧ name = detector ∧
   ∀ rule_name match_type expiry confidence evidence,
     let df := auto_defaults conf rule_name match_type expiry detector confidence evidence in
     df_is_active df = Some false ∧ df_review_status df = Some PENDING_REVIEW).
Proof.
  intros Hconf. pose proof (conf_of_fields _ _ _ Hconf) as Hf. cbv zeta in Hf.
  destruct Hf as (_&_&_&_&_&_&_&_&_&_&_&_&_&_&_&_&_&Hobs).
  apply as_strs_elements in Hobs.
  assert (Hiff : check_observe_only_detector_names hc s = Ok [] ↔
            ∀ name, name ∈ DJANGO_WAF_ANOMALY_OBSERVE_ONLY_DETECTORS conf → name ∈ DETECTOR_NAMES).
  { unfold check_observe_only_detector_names, py_iter. rewrite Hobs. cbn [res_bind].
    rewrite not_in_strings. cbn [res_bind].
    transitivity (List.filter (λ n, negb (bool_decide (n ∈ DETECTOR_NAMES)))
                    (DJANGO_WAF_ANOMALY_OBSERVE_ONLY_DETECTORS conf) = []).
    - destruct (List.filter _ _) as [|n l] eqn:E; [by split|].
      split; [|done]. unfold one_message. by destruct (message _ _ _).
    - split.
      + intros E name Hin. destruct (decide (name ∈ DETECTOR_NAMES)) as [|Hout]; [done|].
        assert (Hin' : In name []) by
          (rewrite <-E; apply filter_In; rewrite bool_decide_eq_false_2 by done;
           split; [by apply list_elem_of_In|done]).
        done.
      + intros H. destruct (List.filter _ _) as [|n l] eqn:E; [done|].
        assert (Hin : In n (n :: l)) by by left. rewrite <-E in Hin.
        apply filter_In in Hin as [Hin Hb]. apply list_elem_of_In, H in Hin.
        by rewrite bool_decide_eq_true_2 in Hb. }
  split; [exact Hiff|]. intros Hs name Hname. exists name.
  split; [by apply list_elem_of_In, Hiff|]. split; [done|]. intros.
  unfold df, auto_defaults. cbn [df_is_active df_review_status].
  rewrite (bool_decide_eq_true_2 _ Hname), orb_true_r. done.
Qed.

(** The wiring check is silent exactly when the two constants have the same
    names. *)
Lemma wiring_check_is_exact names result_keys :
  check_wiring names result_keys = Ok [] ↔ ∀ n, n ∈ names ↔ n ∈ map fst result_keys.
Proof.
  unfold check_wiring.
  transitivity (set_difference names (map fst result_keys) = [] ∧
                set_difference (map fst result_keys) names = []).
  - destruct (set_difference names _) as [|n l];
      [destruct (set_difference _ names) as [|n l]|];
      (split; [|by intros [? ?]]); try done; unfold one_message; by destruct (message _ _ _).
  - rewrite !set_difference_nil. split.
    + intros [H1 H2] n. split; [apply H1|apply H2].
    + intros H. split; intros n; apply H.
Qed.

(** The version check flags old servers and nothing else.  With the WAF on
    and the alias a django-redis backend it reports E005 exactly when the server
    answers with a version that parses and is below 6.0.0; an unreachable
    server, a reply without a version and a version that does not parse are
    never an error, and the check does not raise. *)
Lemma version_check_flags_old_servers_only {C} (info : C → res PyVal) connect hc s alias st :
  truthy (conf_attr hc s "DJANGO_WAF_ENABLED") = true →
  conf_attr hc s "DJANGO_WAF_REDIS_ALIAS" = PStr alias →
  is_redis_backend s (Some (PStr alias)) = Ok true →
  ∃ msgs, (check_redis_version hc s info connect st).1 = Ok msgs ∧
  (msgs ≠ [] ↔ ∃ c a b d, connect alias = Ok c ∧
     res_bind (info c) version_of_info = Ok (Some (a, b, d)) ∧
     (a < 6 ∨ a = 6 ∧ (b < 0 ∨ b = 0 ∧ d < 0))) ∧
  (msgs ≠ [] → map cm_id msgs = ["django_waf.E005"]).
Proof.
  intros He Ha Hr. unfold check_redis_version. rewrite He, Ha, Hr. cbn [negb].
  unfold bind at 1, lift_res at 1. cbn [negb].
  unfold bind, get_redis_server_version, bind. rewrite get_redis_client_spec.
  assert (Halias : alias_or (Some alias) alias = alias) by (simpl; by destruct (str_empty alias)).
  rewrite Halias. destruct (connect alias) as [c|e].
  2:{ exists []. cbn. split; [done|]. split; [|done]. split; [done|]. by intros (? & ? & ? & ? & ? & _). }
  unfold try_except, lift_res.
  destruct (res_bind (info c) version_of_info) as [[[[a b] d]|]|e] eqn:Ev; cbn [fst snd].
  - destruct (version_geb (a, b, d) MIN_REDIS_VERSION) eqn:Eg.
    + exists []. split; [done|]. split; [|done]. split; [done|].
      intros (c' & a' & b' & d' & [= <-] & Hv & Hlt). rewrite Ev in Hv. simplify_eq.
      unfold version_geb, MIN_REDIS_VERSION in Eg.
      rewrite !orb_true_iff, !andb_true_iff, !orb_true_iff, !andb_true_iff, !Z.ltb_lt, !Z.eqb_eq, !Z.leb_le in Eg.
      lia.
    + unfold one_message, message. cbn [forallb repr_ok andb res_bind]. eexists. split; [done|].
      split; [|done]. split; [|done]. intros _. exists c, a, b, d. split_and!; [done|done|].
      unfold version_geb, MIN_REDIS_VERSION in Eg.
      rewrite !orb_false_iff, !andb_false_iff, !orb_false_iff, !andb_false_iff,
        !Z.ltb_ge, !Z.eqb_neq, !Z.leb_gt in Eg. lia.
  - exists []. split; [done|]. split; [|done]. split; [done|].
    intros (c' & a' & b' & d' & [= <-] & Hv & _). by rewrite Ev in Hv.
  - exists []. split; [done|]. split; [|done]. split; [done|].
    intros (c' & a' & b' & d' & [= <-] & Hv & _). by rewrite Ev in Hv.
Qed.

(** *** Witnesses *)

Definition project (extra : list (string * PyVal)) : DjangoSettings :=
  {| configured := true;
     values := list_to_map (extra ++
       [("SECRET_KEY", PStr "k");
        ("MIDDLEWARE", strs [AUTH_MIDDLEWARE; WAF_MIDDLEWARE]);
        ("CACHES", PDict [(PStr "default",
            PDict [(PStr "BACKEND", PStr "django_redis.cache.RedisCache")])])]) |}.

Definition project_settings : DjangoSettings :=
  project [("DJANGO_WAF_SITE_PASSWORD", PStr "open sesame");
           ("DJANGO_WAF_BLOCK_RESPONSE_HANDLER", PStr "app.blocked");
           ("DJANGO_WAF_CHALLENGE_DIFFICULTY_MOBILE", PInt 18);
           ("DJANGO_WAF_ANOMALY_OBSERVE_ONLY_DETECTORS", strs ["detect_cloud_spray"]);
           ("DJANGO_WAF_RATE_LIMIT_PATHS",
             PDict [(PStr "/login/", PTuple [PInt 5; PInt 300; PTuple [PStr "POST"]])])].

Definition project_conf : Conf := default (default_conf "") (conf_of true project_settings).

Lemma project_reads : conf_of true project_settings = Some project_conf.
Proof. vm_compute. reflexivity. Qed.

#[local] Instance project_site : Site MemRedis LiteRe := {|
  has_redis := true;
  reverse := λ name, Ok (if String.eqb name "django_waf:challenge" then "/waf/challenge/" else "/waf/verify/");
  import_string := λ p, if String.eqb p "app.blocked" then Ok (λ _ _, ret None)
                        else Raise (OtherError "ImportError");
  render_prompt := λ _ next_url _, next_url; url_has_allowed_host_and_scheme := λ _ _ _, true;
  random := λ _, 0%Q; get_response := λ _, ret (http_response 200 "view", None) |}.

Lemma passing_checks_guarantee_witness :
  SitePassword.is_misconfigured project_conf = false ∧
  is_Ok (get_challenge_paths project_conf) = true ∧
  path_windows_positive project_conf.
Proof.
  assert (Hen : DJANGO_WAF_ENABLED project_conf = true) by (vm_compute; reflexivity).
  destruct (passing_checks_guarantee true project_settings project_conf project_reads Hen)
    as (H1 & H2 & _ & H3); try (vm_compute; reflexivity).
  split_and!; [exact H1| |exact H3]. apply H2. left. vm_compute. reflexivity.
Defined.

Lemma rate_limit_paths_check_decides_typing_witness :
  passes (check_rate_limit_paths true project_settings) = true ∧
  passes (check_rate_limit_paths true
    (project [("DJANGO_WAF_RATE_LIMIT_PATHS", PDict [(PStr "/x/", PTuple [PInt 5; PInt 0])])])) = false.
Proof.
  split.
  - apply (rate_limit_paths_check_decides_typing true project_settings
             [(PStr "/login/", PTuple [PInt 5; PInt 300; PTuple [PStr "POST"]])]);
      [vm_compute; reflexivity|vm_compute; reflexivity|repeat constructor; by eexists|].
    eexists. split; [vm_compute; reflexivity|]. repeat constructor; done.
  - vm_compute. reflexivity.
Defined.

Lemma difficulty_check_bounds_the_work_witness :
  0 <= pick_difficulty project_conf "Mozilla/5.0 (iPhone)" <= 28.
Proof.
  assert (Hen : DJANGO_WAF_ENABLED project_conf = true) by (vm_compute; reflexivity).
  apply (difficulty_check_bounds_the_work true project_settings project_conf project_reads Hen).
  vm_compute. reflexivity.
Defined.

Lemma observe_only_check_is_exact_witness :
  check_observe_only_detector_names true project_settings = Ok [].
Proof.
  apply (observe_only_check_is_exact true project_settings project_conf project_reads).
  intros name Hname.
  assert (DJANGO_WAF_ANOMALY_OBSERVE_ONLY_DETECTORS project_conf = ["detect_cloud_spray"]) as E
    by (vm_compute; reflexivity).
  rewrite E in Hname. apply list_elem_of_In in Hname as [<-|[]].
  apply (bool_decide_unpack _). vm_compute. exact I.
Defined.

Definition old_server (c : unit) : res PyVal := Ok (PDict [(PStr "redis_version", PStr "5.0.14")]).

Lemma version_check_flags_old_servers_only_witness :
  (check_redis_version true project_settings old_server (λ _, Ok tt) fresh_module).1 =
  Ok [{| cm_level := Error; cm_id := "django_waf.E005";
         cm_values := [PStr "default"; PStr "5.0.14"; PStr "6.0.0"] |}] ∧
  ∃ msgs, (check_redis_version true project_settings old_server (λ _, Raise (OtherError "TimeoutError"))
             fresh_module).1 = Ok msgs ∧ ¬ msgs ≠ [].
Proof.
  split; [vm_compute; reflexivity|].
  destruct (version_check_flags_old_servers_only old_server (λ _, Raise (OtherError "TimeoutError"))
              true project_settings "default" fresh_module) as (msgs & Hm & Hiff & _);
    [vm_compute; reflexivity|vm_compute; reflexivity|vm_compute; reflexivity|].
  exists msgs. split; [exact Hm|]. intros (c & _ & _ & _ & Hc & _)%Hiff. discriminate Hc.
Defined.

(** *** What the checks do not see *)

(** A subclass before the authentication middleware: present for E006,
    unordered for W004. *)
Example misordered_subclass_is_not_reported :
  let s := project [("MIDDLEWARE", strs ["project.mw.TenantWafMiddleware"; AUTH_MIDDLEWARE])] in
  check_middleware_present true s = Ok [] ∧ check_middleware_ordering true s = Ok [].
Proof. split; vm_compute; reflexivity. Qed.

(** A prefix that is not a string passes E009, though no path starts with it. *)
Example rate_limit_prefix_is_not_checked :
  let s := project [("DJANGO_WAF_RATE_LIMIT_PATHS", PDict [(PInt 5, PTuple [PInt 5; PInt 300])])] in
  check_rate_limit_paths true s = Ok [] ∧ conf_of true s = None.
Proof. split; vm_compute; reflexivity. Qed.

(** A difficulty of 20000 ends the check in [ValueError]. *)
Example huge_difficulty_raises :
  check_challenge_difficulty true (project [("DJANGO_WAF_CHALLENGE_DIFFICULTY", PInt 20000)]) =
  Raise ValueError.
Proof. vm_compute. reflexivity. Qed.

(** Trusted proxies configured and the legacy flag on: no warning, and a peer
    outside the list still chooses its address. *)
Example leftmost_entry_trusted_in_silence :
  let s := project [("DJANGO_WAF_TRUST_X_FORWARDED_FOR", PBool true);
                    ("DJANGO_WAF_TRUSTED_PROXIES", strs ["10.0.0.0/8"])] in
  check_legacy_xff_trust true s = Ok [] ∧
  resolve_client_ip (default (default_conf "") (conf_of true s))
    {["REMOTE_ADDR" := "198.51.100.7"; "HTTP_X_FORWARDED_FOR" := "203.0.113.5"]} = "203.0.113.5".
Proof. split; vm_compute; reflexivity. Qed.

(** A cache whose [BACKEND] is not a string makes the backend check raise. *)
Example backend_check_can_raise :
  is_Ok (check_redis_backend true
    (project [("CACHES", PDict [(PStr "default", PDict [(PStr "BACKEND", PNone)])])])) = false.
Proof. vm_compute. reflexivity. Qed.
End ChecksProps.
