(* ===== verification/GeoIpInstall.v ===== *)
(** * Installing the GeoIP database ([services/geoip.py], [install_geoip_database])

    Download, extract, verify, rename into place, over a file system whose every
    operation can fail: the network, the archive reader, the database reader
    and the operating system are parameters ([Host]).  The main result is the
    module's promise: whatever goes wrong and wherever, the installed database
    is the old one or a file that verified, and nothing else is left behind
    (an interrupted copy across file systems apart). *)

From Stdlib Require Import ZArith Lia Ascii String.
From stdpp Require Import base tactics option list strings numbers gmap.
From S2P Require Import Prelude PyStr.

Open Scope Z_scope.

(** ** Errors *)

Definition GeoIPError : exn := OtherError "GeoIPError".
Definition GeoIPNotInstalledError : exn := OtherError "GeoIPNotInstalledError".
Definition GeoIPLicenseMissingError : exn := OtherError "GeoIPLicenseMissingError".
Definition GeoIPDownloadError : exn := OtherError "GeoIPDownloadError".

(** [except GeoIPError]: the class and its subclasses. *)
Definition is_geoip_error (e : exn) : bool :=
  bool_decide (e ∈ [GeoIPError; GeoIPNotInstalledError; GeoIPLicenseMissingError; GeoIPDownloadError]).

Definition TarError : exn := OtherError "TarError".
Definition HTTPError : exn := OtherError "HTTPError".

(** ** The host *)

(** The answer to a request: a status, the chunks of the body, and the
    exception the stream ends in, if it does. *)
Record HttpStream : Type := {
  hs_status : Z;
  hs_chunks : list string;
  hs_end : option exn;
}.

(** What [os.replace] comes to. *)
Inductive Replace := Replaced | CrossDevice | ReplaceFailed (e : exn).

Class Host := {
  geoip2_importable : bool;
  http_stream : string → res HttpStream;
  (* [tarfile]: names of the members and, for regular files, their octets and
     the exception reading them ends in *)
  tar_members : string → res (list (string * option (string * option exn)));
  (* [geoip2]: the build epoch of a file that opens and answers a look-up *)
  reader_epoch : string → res (option Z);
  (* the operating system: creating a directory, moving a file, and copying
     octets to a path, where a failure leaves some of them *)
  os_mkdir : string → option exn;
  os_replace : string → string → Replace;
  os_copy : string → string → option (string * exn);
}.

(** Files with their octets and modification times, and the clock. *)
Record Disk : Type := {
  dk_files : gmap string (string * Z);
  dk_now : Z;
}.

Definition on_files (f : gmap string (string * Z) → gmap string (string * Z)) (d : Disk) : Disk :=
  {| dk_files := f (dk_files d); dk_now := dk_now d |}.

Definition put_file (path content : string) (mtime : Z) : Disk → Disk :=
  on_files (insert path (content, mtime)).

(** A rename: the file goes, over whatever was there. *)
Definition move_file (src dst : string) : Disk → Disk :=
  on_files (λ fs, match fs !! src with Some f => <[dst := f]> (delete src fs) | None => fs end).

(** Leaving [TemporaryDirectory]: everything below it goes. *)
Definition below (dir path : string) : bool := starts_with (dir +:+ "/") path.
Definition remove_tree (dir : string) : Disk → Disk :=
  on_files (filter (λ p, below dir p.1 = false)).

Definition DOWNLOAD_URL (edition key : string) : string :=
  "https://download.maxmind.com/app/geoip_download?edition_id=" +:+ edition +:+ "&license_key=" +:+
  key +:+ "&suffix=tar.gz".
Definition DEFAULT_EDITION : string := "GeoLite2-Country".
Definition DEFAULT_OUTPUT_PATH : string := "/var/lib/django-waf/GeoLite2-Country.mmdb".

Record InstallReport : Type := {
  ir_path : string;
  ir_size_bytes : Z;
  ir_skipped : bool;
  ir_edition : string;
  ir_build_epoch : option Z;
}.

(** [explicit or ...]. *)
Definition given (explicit : option string) : option string :=
  match explicit with Some s => if str_empty s then None else Some s | None => None end.

Section Install.
Context `{Host}.

(** [check_geoip2_available]. *)
Definition check_geoip2_available : M Disk unit :=
  if geoip2_importable then ret tt else raise GeoIPNotInstalledError.

(** [resolve_license_key]; [setting] is [DJANGO_WAF_MAXMIND_LICENSE_KEY]. *)
Definition resolve_license_key (explicit : option string) (setting : string) : res string :=
  match given explicit with
  | Some key => Ok key
  | None => if str_empty setting then Raise GeoIPLicenseMissingError else Ok setting
  end.

(** [resolve_output_path]; [setting] is [DJANGO_WAF_GEOIP_PATH]. *)
Definition resolve_output_path (explicit setting : option string) : string :=
  default (default DEFAULT_OUTPUT_PATH (given setting)) (given explicit).

(** [is_database_fresh], times in seconds. *)
Definition is_database_fresh (path : string) (max_age_days : Z) (d : Disk) : bool :=
  if max_age_days <=? 0 then false else
  match dk_files d !! path with
  | None => false
  | Some (_, mtime) => dk_now d - mtime <? max_age_days * 86400
  end.

(** [_download_archive]; what arrived before a failure is on disk. *)
Definition download_archive (url target : string) : M Disk unit :=
  match http_stream url with
  | Raise e => raise (if bool_decide (e = HTTPError) then GeoIPDownloadError else e)
  | Ok r =>
      if hs_status r =? 401 then raise GeoIPDownloadError
      else if 400 <=? hs_status r then raise GeoIPDownloadError
      else
        t <- gets dk_now ;;
        modify (put_file target (join "" (hs_chunks r)) t) ;;;
        match hs_end r with
        | None => ret tt
        | Some e => raise (if bool_decide (e = HTTPError) then GeoIPDownloadError else e)
        end
  end.

(** [except tarfile.TarError]. *)
Definition wrap_tar {A} (m : M Disk A) : M Disk A :=
  try_except m (λ e, raise (if bool_decide (e = TarError) then GeoIPDownloadError else e)).

(** [open(path, "rb").read()]. *)
Definition read_file (path : string) : M Disk string :=
  f <- gets (λ d, dk_files d !! path) ;;
  match f with Some (c, _) => ret c | None => raise (OtherError "FileNotFoundError") end.

(** [dir / name]: an absolute name replaces the directory.  Names are joined,
    not resolved: [..] stays in the path. *)
Definition path_join (dir name : string) : string :=
  if starts_with "/" name then name else dir +:+ "/" +:+ name.

(** [_extract_mmdb]. *)
Definition extract_mmdb (archive_path workdir edition : string) : M Disk string :=
  wrap_tar
    (archive <- read_file archive_path ;;
     members <- lift_res (tar_members archive) ;;
     match List.filter (λ m, ends_with (edition +:+ ".mmdb") m.1) members with
     | [] => raise GeoIPDownloadError
     | member :: _ =>
         let extracted := path_join workdir (edition +:+ ".mmdb") in
         match member.2 with
         | None => raise GeoIPDownloadError
         | Some (content, failure) =>
             t <- gets dk_now ;;
             modify (put_file extracted content t) ;;;
             match failure with None => ret extracted | Some e => raise e end
         end
     end).

(** [_verify_mmdb]: [except Exception]. *)
Definition verify_mmdb (path : string) : M Disk (option Z) :=
  try_except
    (content <- read_file path ;; lift_res (reader_epoch content))
    (λ _, raise GeoIPDownloadError).

(** [_atomic_install]. *)
Definition parent (path : string) : string :=
  match rsplit1 "/" path with Some (dir, _) => dir | None => "." end.

Definition atomic_install (source destination : string) : M Disk unit :=
  match os_mkdir (parent destination) with
  | Some e => raise e
  | None =>
      match os_replace source destination with
      | Replaced => modify (move_file source destination)
      | ReplaceFailed _ => raise GeoIPError
      | CrossDevice =>
          let tmp_dest := destination +:+ ".tmp" in
          content <- read_file source ;;
          t <- gets (λ d, default 0 (snd <$> dk_files d !! source)) ;;
          match os_copy content tmp_dest with
          | Some (partial, e) => modify (put_file tmp_dest partial t) ;;; raise e
          | None =>
              modify (put_file tmp_dest content t) ;;;
              match os_replace tmp_dest destination with
              | Replaced => modify (move_file tmp_dest destination)
              | CrossDevice => raise (OtherError "OSError")
              | ReplaceFailed e => raise e
              end
          end
      end
  end.

(** [with tempfile.TemporaryDirectory()]. *)
Definition in_tempdir {A} (tmpdir : string) (m : M Disk A) : M Disk A :=
  try_finally m (modify (remove_tree tmpdir)).

(** What happens inside the temporary directory. *)
Definition fetch_and_install (tmpdir key dest_path edition : string) : M Disk InstallReport :=
  let archive_path := tmpdir +:+ "/archive.tar.gz" in
  download_archive (DOWNLOAD_URL edition key) archive_path ;;;
  mmdb_path <- extract_mmdb archive_path tmpdir edition ;;
  build_epoch <- verify_mmdb mmdb_path ;;
  content <- read_file mmdb_path ;;
  atomic_install mmdb_path dest_path ;;;
  ret {| ir_path := dest_path; ir_size_bytes := Z.of_nat (String.length content);
         ir_skipped := false; ir_edition := edition; ir_build_epoch := build_epoch |}.

(** [install_geoip_database]; [tmpdir] is the directory [mkdtemp] made. *)
Definition install_geoip_database (tmpdir license_setting : string) (path_setting : option string)
    (license_key output_path : option string) (edition : string) (if_older_than_days : Z)
  : M Disk InstallReport :=
  check_geoip2_available ;;;
  key <- lift_res (resolve_license_key license_key license_setting) ;;
  let dest_path := resolve_output_path output_path path_setting in
  fresh <- gets (is_database_fresh dest_path if_older_than_days) ;;
  if (0 <? if_older_than_days) && fresh then
    content <- read_file dest_path ;;
    ret {| ir_path := dest_path; ir_size_bytes := Z.of_nat (String.length content); ir_skipped := true;
           ir_edition := edition; ir_build_epoch := None |}
  else
    in_tempdir tmpdir
      (fetch_and_install tmpdir key dest_path edition).

(** [tasks.update_geoip_database]: [inr] is [{"skipped": True, "error": ...}]. *)
Definition update_geoip_database (tmpdir license_setting : string) (path_setting : option string)
  : M Disk (InstallReport + exn) :=
  try_except
    (r <- install_geoip_database tmpdir license_setting path_setting None None DEFAULT_EDITION 6 ;;
     ret (inl r))
    (λ e, if is_geoip_error e then ret (inr e) else raise e).
End Install.

(** ** Lemmas *)

Lemma below_app dir name : below dir (dir +:+ "/" +:+ name) = true.
Proof. unfold below. rewrite <-str_app_assoc. apply starts_with_app. Qed.

(** An edition without a slash names a file in the directory. *)
Lemma path_join_plain dir edition :
  char_in "/" edition = false → path_join dir (edition +:+ ".mmdb") = dir +:+ "/" +:+ edition +:+ ".mmdb".
Proof.
  intros Hp. unfold path_join. replace (starts_with "/" (edition +:+ ".mmdb")) with false; [done|].
  destruct edition as [|c s]; [done|]. cbn [char_in] in Hp. apply orb_false_iff in Hp as [Hc _].
  apply bool_decide_eq_false in Hc. unfold starts_with. cbn [append String.prefix]. by destruct (ascii_dec _ c).
Qed.

Section Lemmas.
Context `{Host}.
Implicit Types d : Disk.

(** The file that [dest] holds in [d] is the one it held in [d0] or verified,
    and outside the temporary directory only [dest] and its copy changed. *)
Record sound (tmpdir dest : string) (d0 d : Disk) : Prop := {
  others_kept : ∀ p, below tmpdir p = false → p ≠ dest → p ≠ dest +:+ ".tmp" →
    dk_files d !! p = dk_files d0 !! p;
  dest_sound : dk_files d !! dest = dk_files d0 !! dest ∨
    ∃ c t epoch, dk_files d !! dest = Some (c, t) ∧ reader_epoch c = Ok epoch;
}.

Lemma sound_refl tmpdir dest d : sound tmpdir dest d d.
Proof. split; [done|by left]. Qed.

Lemma sound_put tmpdir dest d0 d p c t :
  below tmpdir p = true ∨ p = dest +:+ ".tmp" → p ≠ dest →
  sound tmpdir dest d0 d → sound tmpdir dest d0 (put_file p c t d).
Proof.
  intros Hp Hne [Ho Hd]. unfold put_file, on_files.
  split; simpl; [|by rewrite lookup_insert_ne].
  intros q Hq H1 H2. rewrite lookup_insert_ne; [by apply Ho|]. intros ->. destruct Hp; congruence.
Qed.

Lemma sound_move tmpdir dest d0 d src c t :
  below tmpdir src = true ∨ src = dest +:+ ".tmp" → src ≠ dest →
  dk_files d !! src = Some (c, t) → is_Ok (reader_epoch c) = true →
  sound tmpdir dest d0 d → sound tmpdir dest d0 (move_file src dest d).
Proof.
  intros Hp Hne Hs Hv [Ho Hd]. unfold move_file, on_files. split; simpl; rewrite Hs.
  - intros q Hq H1 H2. rewrite lookup_insert_ne by done.
    rewrite lookup_delete_ne; [by apply Ho|]. intros ->. destruct Hp; congruence.
  - right. destruct (reader_epoch c) as [epoch|] eqn:E; [|done].
    exists c, t, epoch. by rewrite lookup_insert_eq.
Qed.

(** An exit of a computation: what it returned and left. *)
Lemma read_file_inv path d r d' :
  read_file path d = (r, d') →
  d' = d ∧ ∀ c, r = Ok c → ∃ t, dk_files d !! path = Some (c, t).
Proof.
  unfold read_file, bind, gets. destruct (dk_files d !! path) as [[c t]|]; intros [= <- <-].
  - split; [done|]. intros c' [= ->]. by exists t.
  - by split.
Qed.

Lemma verify_mmdb_inv path d r d' :
  verify_mmdb path d = (r, d') →
  d' = d ∧ ∀ epoch, r = Ok epoch →
    ∃ c t, dk_files d !! path = Some (c, t) ∧ reader_epoch c = Ok epoch.
Proof.
  unfold verify_mmdb, try_except, bind.
  destruct (read_file path d) as [r0 d0] eqn:E. apply read_file_inv in E as [-> Hr].
  destruct r0 as [c|e].
  - destruct (Hr c eq_refl) as [t Ht]. unfold lift_res.
    destruct (reader_epoch c) as [ep|e] eqn:Ec; intros [= <- <-]; (split; [done|]); [|done].
    intros ep' [= ->]. by exists c, t.
  - intros [= <- <-]. by split.
Qed.

Section Steps.
Context (tmpdir dest : string) (d0 : Disk) (Hdest : below tmpdir dest = false).
Abbreviation S := (sound tmpdir dest d0).

Lemma below_ne p : below tmpdir p = true → p ≠ dest.
Proof using Hdest. intros Hp ->. congruence. Qed.

Lemma put_preserves p c t : below tmpdir p = true → preserves S (modify (put_file p c t)).
Proof using Hdest.
  intros Hp. apply preserves_modify. intros d. apply sound_put; [by left|by apply below_ne].
Qed.

Lemma download_preserves url target :
  below tmpdir target = true → preserves S (download_archive url target).
Proof using Hdest.
  intros Ht. unfold download_archive. destruct (http_stream url) as [r|e]; [|apply preserves_raise].
  destruct (_ =? 401); [apply preserves_raise|]. destruct (400 <=? _); [apply preserves_raise|].
  apply preserves_bind; [apply preserves_gets|]. intros t.
  apply preserves_bind; [by apply put_preserves|]. intros _.
  destruct (hs_end r); [apply preserves_raise|apply preserves_ret].
Qed.

Lemma extract_preserves archive workdir edition :
  below tmpdir (path_join workdir (edition +:+ ".mmdb")) = true →
  preserves S (extract_mmdb archive workdir edition).
Proof using Hdest.
  intros Hx. unfold extract_mmdb, wrap_tar. apply preserves_try; [|intros e; apply preserves_raise].
  apply preserves_bind.
  { intros d Hd. destruct (read_file archive d) as [r d'] eqn:E.
    by apply read_file_inv in E as [-> _]. }
  intros c. apply preserves_bind; [apply preserves_lift|]. intros members.
  destruct (List.filter _ _) as [|member l]; [apply preserves_raise|].
  destruct member.2 as [[content failure]|]; [|apply preserves_raise].
  apply preserves_bind; [apply preserves_gets|]. intros t.
  apply preserves_bind; [by apply put_preserves|]. intros _.
  destruct failure; [apply preserves_raise|apply preserves_ret].
Qed.

(** Installing a verified file leaves a sound disk whatever the system does,
    and on success the destination holds that file. *)
Lemma atomic_install_spec src c t d r d' :
  below tmpdir src = true → src ≠ dest +:+ ".tmp" →
  dk_files d !! src = Some (c, t) → is_Ok (reader_epoch c) = true → S d →
  atomic_install src dest d = (r, d') →
  S d' ∧ (is_Ok r = true → dk_files d' !! dest = Some (c, t)).
Proof using Hdest.
  intros Hsrc Hne Hf Hv Hd. unfold atomic_install.
  assert (Htmp : dest +:+ ".tmp" ≠ dest).
  { intros E. apply (f_equal String.length) in E. rewrite str_app_length in E. simpl in E. lia. }
  destruct (os_mkdir _); [by intros [= <- <-]|].
  destruct (os_replace src dest).
  - intros [= <- <-]. split; [eapply sound_move; eauto using below_ne|].
    intros _. unfold move_file, on_files. simpl. rewrite Hf. by rewrite lookup_insert_eq.
  - unfold bind at 1. destruct (read_file src d) as [r0 d1] eqn:E.
    assert (r0 = Ok c ∧ d1 = d) as [-> ->].
    { unfold read_file, bind, gets in E. rewrite Hf in E. by injection E as <- <-. }
    unfold bind at 1, gets. rewrite Hf. cbn [fmap option_fmap option_map default snd].
    destruct (os_copy c _) as [[partial e]|].
    + intros [= <- <-]. split; [|done]. by apply sound_put; [right| |].
    + assert (Hd2 : S (put_file (dest +:+ ".tmp") c t d)) by (by apply sound_put; [right| |]).
      assert (Hf2 : dk_files (put_file (dest +:+ ".tmp") c t d) !! (dest +:+ ".tmp") = Some (c, t))
        by apply lookup_insert_eq.
      unfold bind, modify. destruct (os_replace _ dest).
      * intros [= <- <-]. split; [eapply sound_move; eauto|].
        intros _. unfold move_file at 1, on_files at 1. simpl. rewrite lookup_insert_eq.
        by rewrite lookup_insert_eq.
      * by intros [= <- <-].
      * by intros [= <- <-].
  - by intros [= <- <-].
Qed.

(** A path the extraction returned is the member's place. *)
Lemma extract_mmdb_path archive workdir edition d x d' :
  extract_mmdb archive workdir edition d = (Ok x, d') → x = path_join workdir (edition +:+ ".mmdb").
Proof.
  unfold extract_mmdb, wrap_tar, try_except. destruct (bind _ _ d) as [[y|e] d1] eqn:E; [|done].
  intros [= -> ->]. apply bind_inv_Ok in E as (c & d2 & _ & E).
  apply bind_inv_Ok in E as (members & d3 & _ & E).
  destruct (List.filter _ members) as [|m l]; [done|].
  destruct m.2 as [[content failure]|]; [|done].
  apply bind_inv_Ok in E as (t & d4 & _ & E). apply bind_inv_Ok in E as (u & d5 & _ & E).
  destruct failure; [done|]. unfold ret in E. by injection E as <- _.
Qed.

(** The work inside the temporary directory. *)
Lemma fetch_and_install_spec key edition r d :
  char_in "/" edition = false → below tmpdir (dest +:+ ".tmp") = false →
  fetch_and_install tmpdir key dest edition d0 = (r, d) →
  S d ∧ ∀ report, r = Ok report → ir_skipped report = false ∧
    ∃ c t, dk_files d !! dest = Some (c, t) ∧ reader_epoch c = Ok (ir_build_epoch report) ∧
           ir_size_bytes report = Z.of_nat (String.length c).
Proof using Hdest.
  intros Hplain Htmp. unfold fetch_and_install.
  pose proof (below_app tmpdir (edition +:+ ".mmdb")) as Hx. rewrite <- path_join_plain in Hx by done.
  unfold bind at 1.
  pose proof (download_preserves (DOWNLOAD_URL edition key) (tmpdir +:+ "/archive.tar.gz")
                (below_app tmpdir "archive.tar.gz") d0 (sound_refl _ _ _)) as H1.
  destruct (download_archive _ _ d0) as [[[]|e] d1]; [|intros [= <- <-]; by split]. simpl in H1.
  unfold bind at 1. pose proof (extract_preserves (tmpdir +:+ "/archive.tar.gz") tmpdir edition Hx d1 H1) as H2.
  destruct (extract_mmdb _ _ _ d1) as [[x|e] d2] eqn:E2; [|intros [= <- <-]; by split]. simpl in H2.
  apply extract_mmdb_path in E2 as ->.
  unfold bind at 1. destruct (verify_mmdb _ d2) as [rv d3] eqn:E3.
  apply verify_mmdb_inv in E3 as [-> Hv]. destruct rv as [epoch|e]; [|intros [= <- <-]; by split].
  destruct (Hv epoch eq_refl) as (c & t & Hf & Hep).
  unfold bind at 1. destruct (read_file _ d2) as [r4 d4] eqn:E4.
  assert (r4 = Ok c ∧ d4 = d2) as [-> ->].
  { unfold read_file, bind, gets in E4. rewrite Hf in E4. by injection E4 as <- <-. }
  unfold bind at 1. destruct (atomic_install _ dest d2) as [r5 d5] eqn:E5.
  apply (atomic_install_spec _ c t) in E5 as [H5 Hok]; [|done| |done|by rewrite Hep|done].
  2:{ intros Heq. rewrite <-Heq in Htmp. congruence. }
  destruct r5 as [[]|e]; [|intros [= <- <-]; by split].
  unfold ret. intros [= <- <-]. split; [done|]. intros report [= <-]. split; [done|].
  exists c, t. split_and!; [by apply Hok|done|done].
Qed.
End Steps.
End Lemmas.


(** After the temporary directory is removed only the destination and its copy
    can differ. *)
Lemma removed_tree_sound `{Host} tmpdir dest d0 d :
  below tmpdir dest = false →
  (∀ p, below tmpdir p = true → dk_files d0 !! p = None) →
  sound tmpdir dest d0 d →
  (∀ p, p ≠ dest → p ≠ dest +:+ ".tmp" → dk_files (remove_tree tmpdir d) !! p = dk_files d0 !! p) ∧
  dk_files (remove_tree tmpdir d) !! dest = dk_files d !! dest.
Proof.
  intros Hdest Hfresh [Ho _]. unfold remove_tree, on_files. cbn [dk_files].
  assert (Hkeep : ∀ p, below tmpdir p = false →
            filter (λ p, below tmpdir p.1 = false) (dk_files d) !! p = dk_files d !! p).
  { intros p Hp. destruct (dk_files d !! p) as [f|] eqn:E.
    - by apply map_lookup_filter_Some.
    - apply map_lookup_filter_None. by left. }
  split; [|by apply Hkeep]. intros p H1 H2. destruct (below tmpdir p) eqn:Hb.
  - rewrite (Hfresh p Hb). apply map_lookup_filter_None. right. intros f _. simpl. congruence.
  - rewrite Hkeep by done. by apply Ho.
Qed.

(** ** Properties *)

Module GeoIpInstallProps.

(** C34: installing is all or nothing.  Whatever the network, the archive, the
    database reader and the operating system do, and whether the call returns
    or raises, for an edition whose name holds no slash: every file but the destination (and, across file systems, its
    copy with the suffix [.tmp]) is as it was, the temporary directory is gone,
    and the destination is as it was or holds a file the reader accepted.  When
    the call reports an installation, the destination holds the verified file
    of the reported size and build; when it reports a skip, nothing changed. *)
Theorem install_all_or_nothing `{Host} tmpdir license_setting path_setting license_key output_path
    edition if_older_than_days d :
  let dest := resolve_output_path output_path path_setting in
  char_in "/" edition = false →
  below tmpdir dest = false → below tmpdir (dest +:+ ".tmp") = false →
  (∀ p, below tmpdir p = true → dk_files d !! p = None) →
  let '(r, d') := install_geoip_database tmpdir license_setting path_setting license_key output_path
                    edition if_older_than_days d in
  (∀ p, p ≠ dest → p ≠ dest +:+ ".tmp" → dk_files d' !! p = dk_files d !! p) ∧
  (dk_files d' !! dest = dk_files d !! dest ∨
   ∃ c t epoch, dk_files d' !! dest = Some (c, t) ∧ reader_epoch c = Ok epoch) ∧
  (∀ report, r = Ok report →
   if ir_skipped report then d' = d
   else ∃ c t, dk_files d' !! dest = Some (c, t) ∧ reader_epoch c = Ok (ir_build_epoch report) ∧
        ir_size_bytes report = Z.of_nat (String.length c)).
Proof.
  intros dest Hplain Hdest Htmp Hfresh. unfold install_geoip_database. fold dest.
  assert (Hnone : ∀ e, let '(r, d') := (@Raise InstallReport e, d) in
    (∀ p, p ≠ dest → p ≠ dest +:+ ".tmp" → dk_files d' !! p = dk_files d !! p) ∧
    (dk_files d' !! dest = dk_files d !! dest ∨
     ∃ c t epoch, dk_files d' !! dest = Some (c, t) ∧ reader_epoch c = Ok epoch) ∧
    (∀ report, r = Ok report → if ir_skipped report then d' = d
     else ∃ c t, dk_files d' !! dest = Some (c, t) ∧ reader_epoch c = Ok (ir_build_epoch report) ∧
          ir_size_bytes report = Z.of_nat (String.length c))).
  { intros e. split_and!; [done|by left|done]. }
  unfold bind at 1, check_geoip2_available. destruct geoip2_importable; [|apply Hnone].
  unfold bind at 1, ret at 1, lift_res. destruct (resolve_license_key _ _) as [key|e]; [|apply Hnone].
  unfold bind at 1, gets at 1. destruct (_ && _).
  - unfold bind. destruct (read_file dest d) as [r d1] eqn:E. apply read_file_inv in E as [-> _].
    destruct r as [c|e]; [|apply Hnone]. unfold ret. split_and!; [done|by left|]. by intros report [= <-].
  - unfold in_tempdir, try_finally.
    destruct (fetch_and_install tmpdir key dest edition d) as [r d1] eqn:E.
    apply (fetch_and_install_spec tmpdir dest d Hdest) in E as [Hs Hr]; [|done|done].
    cbn [modify].
    destruct (removed_tree_sound tmpdir dest d d1 Hdest Hfresh Hs) as [Hothers Hsame].
    unfold modify. split_and!; [done| |].
    + rewrite Hsame. apply Hs.
    + intros report Hrep. destruct (Hr report Hrep) as [-> Hex]. by rewrite Hsame.
Qed.
(** *** Witnesses *)

(** A mirror whose archive holds one database, on a machine where [/tmp] is
    another file system; a file verifies when it starts with [MMDB]. *)
Definition demo_host (body : string) (mkdir : option exn) : Host := {|
  geoip2_importable := true;
  http_stream := λ _, Ok {| hs_status := 200; hs_chunks := ["arch"; "ive"]; hs_end := None |};
  tar_members := λ octets,
    if String.eqb octets "archive"
    then Ok [("GeoLite2-Country_20260411/COPYRIGHT.txt", Some ("(c)", None));
             ("GeoLite2-Country_20260411/GeoLite2-Country.mmdb", Some (body, None))]
    else Raise TarError;
  reader_epoch := λ c, if starts_with "MMDB" c then Ok (Some 1744329600) else Raise (OtherError "InvalidDatabaseError");
  os_mkdir := λ _, mkdir;
  os_replace := λ src _, if starts_with "/tmp/" src then CrossDevice else Replaced;
  os_copy := λ _ _, None
|}.

Definition demo_disk : Disk :=
  {| dk_files := {["/var/lib/django-waf/GeoLite2-Country.mmdb" := ("MMDB old", 0)]}; dk_now := 1000000 |}.

Definition demo_install (body : string) (mkdir : option exn) :=
  install_geoip_database (H:=demo_host body mkdir) "/tmp/waf" "key" None None None DEFAULT_EDITION 6 demo_disk.

Lemma demo_fresh p : below "/tmp/waf" p = true → dk_files demo_disk !! p = None.
Proof. intros Hp. simpl. apply lookup_singleton_ne. intros <-. vm_compute in Hp. discriminate. Qed.

Lemma install_all_or_nothing_witness :
  (demo_install "garbage" None).1 = Raise GeoIPDownloadError ∧
  dk_files (demo_install "garbage" None).2 !! DEFAULT_OUTPUT_PATH = Some ("MMDB old", 0) ∧
  ∃ c t, dk_files (demo_install "MMDB new" None).2 !! DEFAULT_OUTPUT_PATH = Some (c, t) ∧
         reader_epoch (Host:=demo_host "MMDB new" None) c = Ok (Some 1744329600).
Proof.
  split_and!; [vm_compute; reflexivity|vm_compute; reflexivity|].
  pose proof (install_all_or_nothing (H:=demo_host "MMDB new" None) "/tmp/waf" "key" None None None
                DEFAULT_EDITION 6 demo_disk eq_refl eq_refl eq_refl demo_fresh) as Hall.
  fold (demo_install "MMDB new" None) in Hall.
  destruct (demo_install "MMDB new" None) as [r d'] eqn:E. destruct Hall as (_ & _ & Hr).
  assert (Hrep : ∃ report, r = Ok report ∧ ir_skipped report = false ∧
            ir_build_epoch report = Some 1744329600).
  { apply (f_equal fst) in E. vm_compute in E. simpl in E. subst r. eexists. split; [reflexivity|].
    split; reflexivity. }
  destruct Hrep as (report & -> & Hsk & Hep). specialize (Hr report eq_refl). rewrite Hsk in Hr.
  destruct Hr as (c & t & Hf & Hc & _). exists c, t. split; [exact Hf|]. rewrite Hc, Hep. reflexivity.
Defined.

(** The task turns every error of the module into a report; an error creating
    the destination's directory is not one of them and escapes. *)
Lemma update_reports_module_errors `{Host} tmpdir license_setting path_setting d e :
  (update_geoip_database tmpdir license_setting path_setting d).1 = Raise e → is_geoip_error e = false.
Proof.
  unfold update_geoip_database, try_except. destruct (bind _ _ d) as [[a|e'] d'].
  - done.
  - destruct (is_geoip_error e') eqn:E; [done|]. intros [= ->]. done.
Qed.

Example directory_error_escapes :
  (update_geoip_database (H:=demo_host "MMDB new" (Some (OtherError "PermissionError"))) "/tmp/waf" "key"
     None demo_disk).1 = Raise (OtherError "PermissionError").
Proof. vm_compute. reflexivity. Qed.

(** A database younger than six days is left alone, without a download. *)
Example fresh_database_is_skipped :
  update_geoip_database (H:=demo_host "garbage" None) "/tmp/waf" "key" None
    {| dk_files := dk_files demo_disk; dk_now := 518399 |} =
  (Ok (inl {| ir_path := DEFAULT_OUTPUT_PATH; ir_size_bytes := 8; ir_skipped := true;
              ir_edition := DEFAULT_EDITION; ir_build_epoch := None |}),
   {| dk_files := dk_files demo_disk; dk_now := 518399 |}).
Proof. vm_compute. reflexivity. Qed.
End GeoIpInstallProps.
