(* ===== verification/Logging.v ===== *)
(** * Structured log lines ([logging.py], [forms/logging.py])

    The JSON formatter of the [django_waf] loggers, and the one log entry and
    one signal of a form submission.  What a formatter or a logger is handed is
    a record of JSON values; what the form logger did is the list of its
    effects, in order.  Signal receivers are a parameter and may raise. *)

From Stdlib Require Import ZArith QArith Lia Ascii String.
From stdpp Require Import base tactics option list strings numbers gmap.
From S2P Require Import Prelude PyStr PyTime Codec Conf ClientIp Fingerprint Http FormTokens FormDefences.
From S2P Require Import FormProtection.

Open Scope Z_scope.

(** ** [WafStructuredFormatter] *)

(** A log record: its creation time, and the attributes the call site added;
    [None] is Python's [None]. *)
Record LogRecord : Type := {
  lr_created : Z;
  lr_levelname : string;
  lr_name : string;
  lr_message : string;
  lr_attributes : gmap string json;
}.

Definition OPTIONAL_FIELDS : list string :=
  ["ip"; "verdict"; "rule_id"; "anomaly_score"; "latency_ms"; "path"; "method"; "user_agent"].
Definition USER_AGENT_MAX_LENGTH : nat := 200.

(** One optional field: absent or [None] gives nothing. *)
Definition optional_field (r : LogRecord) (field : string) : list (string * json) :=
  match lr_attributes r !! field with
  | None | Some JNull => []
  | Some value =>
      [(field, if String.eqb field "user_agent"
               then JStr (str_take USER_AGENT_MAX_LENGTH (py_str value)) else value)]
  end.

Definition format_payload (r : LogRecord) : json :=
  JObj ([("timestamp", JStr (isoformat (lr_created r))); ("level", JStr (lr_levelname r));
         ("logger", JStr (lr_name r)); ("message", JStr (lr_message r))]
        ++ concat (map (optional_field r) OPTIONAL_FIELDS)).

(** [WafStructuredFormatter.format]. *)
Definition format_record (r : LogRecord) : string := dumps (format_payload r).

(** ** [log_form_submission] *)

Inductive LogLevel := INFO | WARNING | EXCEPTION.

Record SubmissionEntry : Type := {
  se_form_id : string;
  se_verdict : FormVerdict;
  se_ip : string;
  se_user_agent : string;
  se_user_id : option string;
  se_total_score : Q;
  se_defences : list (string * Outcome);      (* name, and the outcome it is about *)
}.

(** Who a signal is about. *)
Record Subject : Type := {
  sj_form_id : string;
  sj_ip : string;
  sj_user_agent : string;
  sj_user_id : option string;
}.

Inductive Signal :=
| form_submission_passed (about : Subject)
| form_submission_flagged (about : Subject) (total_score : Q) (outcomes : list Outcome)
| form_submission_blocked (about : Subject) (total_score : Q) (outcomes : list Outcome) (reason : string).

Inductive Effect :=
| Logged (level : LogLevel) (entry : SubmissionEntry)
| Sent (s : Signal)
| ReceiverRaised.            (* [logger.exception] *)

Definition emit (e : Effect) : M (list Effect) unit := modify (λ es, es ++ [e]).

(** [_name_from_reason]. *)
Definition name_from_reason (reason : string) : string :=
  if str_empty reason then "" else (partition_on ":" reason).1.

(** [_extract_ip], [_extract_user_id]; a form validated outside a request has
    none. *)
Definition submission_ip (conf : Conf) (request : option Request) : string :=
  match request with None => "" | Some rq => resolve_client_ip conf (rq_meta rq) end.
Definition submission_user_id (request : option Request) : option string :=
  match request with
  | Some rq =>
      match rq_user rq with
      | Some u => if u_is_authenticated u then Some (default "" (u_pk u)) else None
      | None => None
      end
  | None => None
  end.

(** [max(outcomes, key=score)]: the first of the highest. *)
Definition worst (outcomes : list Outcome) : option Outcome :=
  match outcomes with
  | [] => None
  | o :: os => Some (fold_left (λ best o, if Qle_bool (oc_score o) (oc_score best) then best else o) os o)
  end.

(** The reason a blocked submission is announced with. *)
Definition block_reason (outcomes : list Outcome) : string :=
  let reason := match List.find (λ o, bool_decide (oc_verdict o = block)) outcomes with
                | Some o => oc_reason o
                | None => ""
                end in
  if str_empty reason then match worst outcomes with Some o => oc_reason o | None => "" end
  else reason.

Section FormLog.
Context (conf : Conf) (emit_passed : bool) (random : Q) (receivers : Signal → option exn).

(** [signal.send]: the first receiver that raises ends it. *)
Definition send_signal (s : Signal) : M (list Effect) unit :=
  emit (Sent s) ;;; match receivers s with Some e => raise e | None => ret tt end.
Definition log_exception (_ : exn) : M (list Effect) unit := emit ReceiverRaised.

(** [_maybe_emit_passed_signal]; [emit_passed] is
    [DJANGO_WAF_FORM_EMIT_PASSED_SIGNAL]. *)
Definition maybe_emit_passed_signal (about : Subject) : M (list Effect) unit :=
  if negb emit_passed then ret tt
  else try_except (send_signal (form_submission_passed about)) log_exception.

(** [_dispatch_signal]. *)
Definition dispatch_signal (about : Subject) (result : FormEvaluationResult) : M (list Effect) unit :=
  try_except
    (match fe_verdict result with
     | FORM_PASSED => maybe_emit_passed_signal about
     | FORM_FLAGGED =>
         send_signal (form_submission_flagged about (fe_total_score result) (fe_outcomes result))
     | FORM_BLOCKED =>
         send_signal (form_submission_blocked about (fe_total_score result) (fe_outcomes result)
                        (block_reason (fe_outcomes result)))
     end)
    log_exception.

(** [log_form_submission]; [random] is what [random.random()] draws. *)
Definition log_form_submission (form_id : string) (request : option Request)
    (result : FormEvaluationResult) : M (list Effect) unit :=
  let about := {| sj_form_id := form_id; sj_ip := submission_ip conf request;
                  sj_user_agent := match request with
                                   | Some rq => meta_get (rq_meta rq) "HTTP_USER_AGENT"
                                   | None => "" end;
                  sj_user_id := submission_user_id request |} in
  if bool_decide (fe_verdict result = FORM_PASSED) && qge random (DJANGO_WAF_LOG_SAMPLE_RATE conf)
  then maybe_emit_passed_signal about
  else
    emit (Logged (match fe_verdict result with FORM_BLOCKED => WARNING | _ => INFO end)
            {| se_form_id := form_id; se_verdict := fe_verdict result; se_ip := sj_ip about;
               se_user_agent := sj_user_agent about; se_user_id := sj_user_id about;
               se_total_score := fe_total_score result;
               se_defences := map (λ o, (name_from_reason (oc_reason o), o)) (fe_outcomes result) |}) ;;;
    dispatch_signal about result.
End FormLog.

(** ** Lemmas *)

Definition printable (c : ascii) : bool := (32 <=? code c) && (code c <=? 126).

Lemma digit_printable c : is_digit c = true → printable c = true.
Proof. unfold is_digit, printable. rewrite !andb_true_iff, !Z.leb_le. lia. Qed.

Lemma escape_char_printable c : str_forall printable (escape_char c) = true.
Proof. destruct c as [[] [] [] [] [] [] [] []]; reflexivity. Qed.

Lemma jquote_printable s : str_forall printable (jquote s) = true.
Proof.
  unfold jquote. cbn [str_forall]. apply andb_true_iff. split; [done|].
  induction s as [|c s IH]; [done|]. cbn [escape]. rewrite str_app_assoc, str_forall_app.
  by rewrite escape_char_printable, IH.
Qed.

(** The text of any JSON value is printable ASCII: one line. *)
Lemma dumps_printable v : str_forall printable (dumps v) = true.
Proof.
  induction v as [|b|z|s|l IH|kvs IH] using json_nested_ind; cbn [dumps].
  - done.
  - by destruct b.
  - unfold str_of_Z. destruct (Z.ltb_spec z 0); cbn [str_forall].
    + apply andb_true_iff. split; [done|]. apply dec_digits_forall; [apply digit_printable|lia|done].
    + apply dec_digits_forall; [apply digit_printable|lia|done].
  - apply jquote_printable.
  - rewrite !str_forall_app, !andb_true_iff. split_and!; [done| |done].
    apply str_forall_join; [done|]. by apply List.Forall_map.
  - rewrite !str_forall_app, !andb_true_iff. split_and!; [done| |done].
    apply str_forall_join; [done|]. apply List.Forall_map. eapply List.Forall_impl; [|exact IH].
    intros kv Hkv. cbv beta. by rewrite !str_forall_app, jquote_printable, Hkv.
Qed.

(** The signals among the effects. *)
Definition signals (es : list Effect) : list Signal :=
  concat (map (λ e, match e with Sent s => [s] | _ => [] end) es).

(** The signal a verdict calls for. *)
Definition verdict_signals (emit_passed : bool) (about : Subject) (result : FormEvaluationResult)
  : list Signal :=
  match fe_verdict result with
  | FORM_PASSED => if emit_passed then [form_submission_passed about] else []
  | FORM_FLAGGED => [form_submission_flagged about (fe_total_score result) (fe_outcomes result)]
  | FORM_BLOCKED => [form_submission_blocked about (fe_total_score result) (fe_outcomes result)
                       (block_reason (fe_outcomes result))]
  end.

Lemma worst_In outcomes o : worst outcomes = Some o →
  In o outcomes ∧ ∀ o', In o' outcomes → (oc_score o' <= oc_score o)%Q.
Proof.
  unfold worst. destruct outcomes as [|x l]; [done|]. intros [= <-].
  revert x. induction l as [|y l IH]; intros x.
  { split; [by left|]. intros o' [<-|[]]. apply Qle_refl. }
  cbn [fold_left]. destruct (Qle_bool (oc_score y) (oc_score x)) eqn:E.
  - apply Qle_bool_iff in E. destruct (IH x) as [Hin Hmax]. split.
    + destruct Hin as [?|?]; [by left|by right; right].
    + intros o' [<-|[<-|Ho]]; [by apply Hmax; left| |by apply Hmax; right].
      eapply Qle_trans; [exact E|]. apply Hmax. by left.
  - destruct (IH y) as [Hin Hmax]. split; [by right|].
    assert (Hxy : (oc_score x <= oc_score y)%Q).
    { apply Qlt_le_weak, Qnot_le_lt. intros H. apply Qle_bool_iff in H. congruence. }
    intros o' [<-|Ho]; [|by apply Hmax]. eapply Qle_trans; [exact Hxy|]. apply Hmax. by left.
Qed.

(** A dispatch returns, sends the verdict's signal, and logs at most the
    exception of a receiver. *)
Lemma dispatch_spec emit_passed receivers about result es :
  ∃ new, dispatch_signal emit_passed receivers about result es = (Ok tt, es ++ new) ∧
    signals new = verdict_signals emit_passed about result ∧
    ∀ level entry, ¬ In (Logged level entry) new.
Proof.
  unfold dispatch_signal, verdict_signals, maybe_emit_passed_signal, send_signal, log_exception, emit,
    try_except, bind, modify, raise, ret.
  destruct (fe_verdict result); [destruct emit_passed; cbn [negb]| |];
    try (exists []; rewrite app_nil_r; split_and!; [done|done|by intros ? ? []]);
    match goal with |- context [receivers ?s] => destruct (receivers s) end;
    rewrite <-?app_assoc; eexists; (split_and!; [reflexivity|reflexivity|]);
    intros level entry Hin; simpl in Hin; naive_solver.
Qed.

(** Nothing else happens in the dispatch of a passed submission. *)
Lemma dispatch_passed emit_passed receivers about result es :
  fe_verdict result = FORM_PASSED →
  dispatch_signal emit_passed receivers about result es =
  maybe_emit_passed_signal emit_passed receivers about es.
Proof.
  intros Hp. unfold dispatch_signal. rewrite Hp.
  unfold maybe_emit_passed_signal, send_signal, log_exception, emit, try_except, bind, modify, raise, ret.
  destruct emit_passed; cbn [negb]; [|done]. by destruct (receivers _).
Qed.

Lemma block_reason_In outcomes :
  outcomes ≠ [] → ∃ o, In o outcomes ∧ block_reason outcomes = oc_reason o.
Proof.
  intros Hne. unfold block_reason.
  destruct (worst outcomes) as [w|] eqn:Ew; [|by destruct outcomes].
  apply worst_In in Ew as [Hw _].
  destruct (List.find _ outcomes) as [o|] eqn:Ef; [|by exists w].
  apply find_some in Ef as [Ho _]. destruct (str_empty (oc_reason o)); [by exists w|by exists o].
Qed.

(** ** Properties *)

Module LoggingProps.

(** A formatted record is one line of printable ASCII, and reading it back
    as JSON gives the record: its time, level, logger and message, and exactly
    the optional attributes that are present and not null, the user agent cut
    to 200 characters. *)
Lemma formatted_line_round_trip r :
  str_forall printable (format_record r) = true ∧
  loads (format_record r) = Some (format_payload r) ∧
  ∀ field value, In (field, value) (concat (map (optional_field r) OPTIONAL_FIELDS)) ↔
    In field OPTIONAL_FIELDS ∧ ∃ v, lr_attributes r !! field = Some v ∧ v ≠ JNull ∧
    value = if String.eqb field "user_agent" then JStr (str_take 200 (py_str v)) else v.
Proof.
  split_and!; [apply dumps_printable|apply loads_dumps|].
  intros field value. rewrite in_concat. split.
  - intros (l & (f & <- & Hf)%in_map_iff & Hin). unfold optional_field in Hin.
    destruct (lr_attributes r !! f) as [[]|] eqn:E; try done;
      destruct Hin as [[= <- <-]|[]]; (split; [done|]); by eexists.
  - intros (Hf & v & Hv & Hne & ->). exists (optional_field r field).
    split; [by apply in_map|]. unfold optional_field. rewrite Hv. destruct v; try done; by left.
Qed.

(** Every evaluated submission is announced exactly once, whatever the
    receivers do.  The logger always returns; the signals it sends are the one
    its verdict calls for (for a passed one, only if opted in, and also when
    sampling drops the entry); every flagged or blocked submission leaves one
    entry, a blocked one at warning level, and a blocked signal carries the
    reason of one of the outcomes. *)
Lemma submission_announced_once conf emit_passed random receivers form_id request result es :
  ∃ new about,
    log_form_submission conf emit_passed random receivers form_id request result es = (Ok tt, es ++ new) ∧
    signals new = verdict_signals emit_passed about result ∧
    sj_form_id about = form_id ∧ sj_ip about = submission_ip conf request ∧
    (fe_verdict result ≠ FORM_PASSED → ∃ level entry rest, new = Logged level entry :: rest ∧
       se_verdict entry = fe_verdict result ∧
       (fe_verdict result = FORM_BLOCKED → level = WARNING) ∧
       ∀ level' entry', ¬ In (Logged level' entry') rest) ∧
    (fe_outcomes result ≠ [] → ∃ o, In o (fe_outcomes result) ∧
       block_reason (fe_outcomes result) = oc_reason o).
Proof.
  set (about := {| sj_form_id := form_id; sj_ip := submission_ip conf request;
                   sj_user_agent := match request with
                                    | Some rq => meta_get (rq_meta rq) "HTTP_USER_AGENT"
                                    | None => "" end;
                   sj_user_id := submission_user_id request |}).
  assert (Hreason : fe_outcomes result ≠ [] → ∃ o, In o (fe_outcomes result) ∧
            block_reason (fe_outcomes result) = oc_reason o) by apply block_reason_In.
  unfold log_form_submission. fold about.
  destruct (bool_decide (fe_verdict result = FORM_PASSED) && _) eqn:Es.
  - apply andb_true_iff in Es as [Hp%bool_decide_eq_true _].
    pose proof (dispatch_spec emit_passed receivers about result es) as (new & Hd & Hs & _).
    rewrite (dispatch_passed emit_passed receivers about result es Hp) in Hd.
    exists new, about. split_and!; [done|done|done|done|done|done].
  - unfold bind, emit, modify.
    match goal with |- context [Logged ?l ?e] => set (level := l); set (entry := e) end.
    destruct (dispatch_spec emit_passed receivers about result (es ++ [Logged level entry]))
      as (new & Hd & Hs & Hl).
    exists (Logged level entry :: new), about. rewrite Hd, <-app_assoc.
    split_and!; [done|done|done|done| |done].
    intros _. exists level, entry, new. split_and!; [done|done| |done].
    unfold level. by intros ->.
Qed.

Lemma formatted_record_example :
  format_record {| lr_created := 0; lr_levelname := "INFO"; lr_name := "django_waf.middleware";
                   lr_message := "blocked"; lr_attributes := {["ip" := JStr "192.0.2.1"; "rule_id" := JNull]} |} =
  dumps (JObj [("timestamp", JStr "1970-01-01T00:00:00+00:00"); ("level", JStr "INFO");
               ("logger", JStr "django_waf.middleware"); ("message", JStr "blocked");
               ("ip", JStr "192.0.2.1")]).
Proof. vm_compute. reflexivity. Qed.
End LoggingProps.
