(* ===== verification/AdminApi.v ===== *)
(** * The admin site and the REST API ([admin.py], [api/])

    What they do to the rows: the admin actions on rules, the list filters on
    reputations and the pattern check of the rule forms; the access decisions,
    row filters and writable fields of the API.  Columns, field sets and the
    text of messages are presentation.  Django's and DRF's own machinery
    (form field conversion, permission look-up, date parsing) is a parameter. *)

From Stdlib Require Import ZArith QArith Lia Ascii String Sorted.
From stdpp Require Import base tactics option list strings numbers gmap.
From S2P Require Import Prelude PyStr PyTime Codec Regex Conf Redis Http Models AutoRule RuleEngine.
From S2P Require Import Patterns Detectors Tasks ThreatFeed RuleTransfer.

Open Scope Z_scope.

(** ** [RuleAdminFormMixin.clean_pattern] *)

Section CleanPattern.
Context {P : Type} `{ReEngine P}.

(** [self.cleaned_data.get(k) or self.data.get(k)]. *)
Definition form_value (cleaned_data data : gmap string string) (k : string) : string :=
  match cleaned_data !! k with
  | Some v => if str_empty v then default "" (data !! k) else v
  | None => default "" (data !! k)
  end.

(** The cleaned pattern; [ValueError] stands for [ValidationError]. *)
Definition clean_pattern (cleaned_data data : gmap string string) : res string :=
  let pattern := default "" (cleaned_data !! "pattern") in
  if bool_decide (form_value cleaned_data data "rule_type" = "ua") &&
     bool_decide (form_value cleaned_data data "match_type" = "regex")
  then match validate_ua_regex_pattern (P:=P) pattern with Ok _ => Ok pattern | Raise _ => Raise ValueError end
  else Ok pattern.
End CleanPattern.

(** ** Admin actions *)

Section Actions.
Context {R P : Type} `{RedisClient R}.
Abbreviation W := (World R P).

(** [queryset] is the selected rows; the result is the count of the message.
    [QuerySet.update] sends no signal. *)
Definition activate_rules (queryset : BlockRule → bool) : M W Z :=
  update_block_rules queryset (λ r, {| r with br_is_active := true |}).
Definition deactivate_rules (queryset : BlockRule → bool) : M W Z :=
  update_block_rules queryset (λ r, {| r with br_is_active := false |}).
Definition activate_allow_rules (queryset : AllowRule → bool) : M W Z :=
  update_allow_rules queryset (λ r, {| r with ar_is_active := true |}).
Definition deactivate_allow_rules (queryset : AllowRule → bool) : M W Z :=
  update_allow_rules queryset (λ r, {| r with ar_is_active := false |}).

(** [rule.save(update_fields=["expires_at"])]: one column, and [post_save]. *)
Definition save_expiry (rule : BlockRule) (expires_at : option Z) : M W unit :=
  db_write (λ w, {| w with w_block_rules :=
    map (λ r, if br_id r =? br_id rule then {| r with br_expires_at := expires_at |} else r)
      (w_block_rules w) |}) ;;;
  on_block_rule_save.

Definition extended (now : Z) (rule : BlockRule) : option Z :=
  match br_expires_at rule with
  | None => Some (now + 24 * hour_us)
  | Some t => Some (t + 24 * hour_us)
  end.

Fixpoint extend_each (rules : list BlockRule) : M W Z :=
  match rules with
  | [] => ret 0
  | rule :: rules =>
      t <- clock ;;
      save_expiry rule (extended t rule) ;;;
      n <- extend_each rules ;;
      ret (n + 1)
  end.

Definition extend_expiry (queryset : BlockRule → bool) : M W Z :=
  rows <- db_read w_block_rules ;;
  extend_each (List.filter queryset rows).
End Actions.

(** ** The manager of reputation rows ([models.py]); scores in hundredths *)

(** [IPReputationManager.high_threat]. *)
Definition high_threat (threshold : Z) (rows : list IPReputation) : list IPReputation :=
  List.filter (λ r, threshold <=? ir_threat_score r) rows.

(** [IPReputationManager.top_offenders]. *)
Definition top_offenders (limit : nat) (rows : list IPReputation) : list IPReputation :=
  firstn limit (sort_by (λ a b, ir_threat_score b <=? ir_threat_score a) rows).

(** ** List filters; the values of the query string *)

(** [ThreatTierListFilter.queryset]; scores are stored in hundredths. *)
Definition threat_tier (value : option string) (r : IPReputation) : bool :=
  if bool_decide (value = Some "high") then 700 <=? ir_threat_score r
  else if bool_decide (value = Some "medium") then (300 <=? ir_threat_score r) && (ir_threat_score r <? 700)
  else if bool_decide (value = Some "low") then ir_threat_score r <? 300
  else true.

(** [RecentActivityListFilter.queryset]. *)
Definition seen_within (now us : Z) (r : IPReputation) : bool :=
  match ir_last_seen_at r with Some t => now - us <=? t | None => false end.
Definition recent_activity (value : option string) (now : Z) (r : IPReputation) : bool :=
  if bool_decide (value = Some "hour") then seen_within now hour_us r
  else if bool_decide (value = Some "day") then seen_within now (24 * hour_us) r
  else if bool_decide (value = Some "week") then seen_within now (7 * 24 * hour_us) r
  else true.

(** [HasUnsolvedChallengesListFilter.queryset]. *)
Definition has_unsolved (value : option string) (r : IPReputation) : bool :=
  if bool_decide (value = Some "yes") then 0 <? ir_challenge_failures r
  else if bool_decide (value = Some "only")
  then (0 <? ir_challenge_failures r) && (ir_challenge_passes r =? 0)
  else true.

(** The percentages of the derived columns; [None] shows as [", "]. *)
Definition block_rate (r : IPReputation) : option Q :=
  if ir_total_requests r =? 0 then None
  else Some (inject_Z (ir_blocked_requests r) / inject_Z (ir_total_requests r) * 100)%Q.
Definition challenge_success_rate (r : IPReputation) : option Q :=
  let total := ir_challenge_passes r + ir_challenge_failures r in
  if total =? 0 then None else Some (inject_Z (ir_challenge_passes r) / inject_Z total * 100)%Q.

(** [ChallengeTokenAdmin.token_short]. *)
Definition token_short (token : string) : string := str_take 12 token +:+ "...".

(** ** The API *)

(** What DRF answers instead of running the action. *)
Inductive Refusal := ServiceUnavailable | Forbidden | NotFound.

(** [user.has_perm]. *)
Class Permissions := { has_perm : User → string → bool }.

Section Api.
Context {R P : Type} `{RedisClient R} `{Permissions}.
Context (uuid4 : nat → Z) (parse_datetime : string → res (option Z)) (to_decimal : string → option Z).
Abbreviation W := (World R P).

(** [IsWafAdmin.has_permission]; DRF's [IsAdminUser]. *)
Definition is_waf_admin (user : option User) : bool :=
  match user with
  | None => false
  | Some u =>
      if negb (u_is_authenticated u) then false
      else if u_is_superuser u then true
      else u_is_staff u && has_perm u "django_waf.change_blockrule"
  end.
Definition is_admin_user (user : option User) : bool :=
  match user with Some u => u_is_staff u | None => false end.

(** [WafApiEnabledMixin.initial]: the switch before the permissions. *)
Definition api_initial (enabled : bool) (permission : option User → bool) (user : option User)
  : option Refusal :=
  if negb enabled then Some ServiceUnavailable
  else if permission user then None else Some Forbidden.

(** [BlockRuleSerializer.Meta.read_only_fields]: what a submitted rule keeps of
    the stored one. *)
Definition merge_writable (stored submitted : BlockRule) : BlockRule :=
  {| br_id := br_id stored; br_name := br_name submitted; br_rule_type := br_rule_type submitted;
     br_match_type := br_match_type submitted; br_pattern := br_pattern submitted;
     br_action := br_action submitted; br_priority := br_priority submitted;
     br_is_active := br_is_active submitted; br_source := br_source stored;
     br_expires_at := br_expires_at submitted; br_hit_count := br_hit_count stored;
     br_last_hit_at := br_last_hit_at stored; br_confidence := br_confidence submitted;
     br_feed_first_seen := br_feed_first_seen submitted;
     br_feed_reporters := br_feed_reporters submitted; br_notes := br_notes submitted;
     br_review_status := br_review_status submitted; br_reviewed_at := br_reviewed_at stored;
     br_detectors := br_detectors submitted; br_created_at := br_created_at stored;
     br_updated_at := br_updated_at stored |}.

(** Another row has the key of an automatic rule. *)
Definition key_taken (r : BlockRule) (rows : list BlockRule) : bool :=
  match auto_key r with
  | None => false
  | Some k => existsb (λ r', negb (br_id r' =? br_id r) && bool_decide (auto_key r' = Some k)) rows
  end.

(** [perform_create]: the read-only columns take the model's defaults, so the
    source is the administrator. *)
Definition created_rule (now id : Z) (submitted : BlockRule) : BlockRule :=
  {| br_id := id; br_name := br_name submitted; br_rule_type := br_rule_type submitted;
     br_match_type := br_match_type submitted; br_pattern := br_pattern submitted;
     br_action := br_action submitted; br_priority := br_priority submitted;
     br_is_active := br_is_active submitted; br_source := RuleSource_ADMIN;
     br_expires_at := br_expires_at submitted; br_hit_count := 0; br_last_hit_at := None;
     br_confidence := br_confidence submitted; br_feed_first_seen := br_feed_first_seen submitted;
     br_feed_reporters := br_feed_reporters submitted; br_notes := br_notes submitted;
     br_review_status := br_review_status submitted; br_reviewed_at := None;
     br_detectors := br_detectors submitted; br_created_at := now; br_updated_at := now |}.

Definition api_create (enabled : bool) (user : option User) (submitted : BlockRule)
  : M W (BlockRule + Refusal) :=
  match api_initial enabled is_waf_admin user with
  | Some refusal => ret (inr refusal)
  | None =>
      id <- draw uuid4 ;;
      t <- clock ;;
      let row := created_rule t id submitted in
      rows <- db_read w_block_rules ;;
      set_block_rules (rows ++ [row]) ;;;
      on_block_rule_save ;;;
      ret (inl row)
  end.

(** [serializer.save()] on a stored rule: [auto_now], the constraint, the
    signal. *)
Definition api_update (enabled : bool) (user : option User) (rule_id : Z)
    (submitted : BlockRule → BlockRule) : M W (BlockRule + Refusal) :=
  match api_initial enabled is_waf_admin user with
  | Some refusal => ret (inr refusal)
  | None =>
      rows <- db_read w_block_rules ;;
      match List.find (λ r, br_id r =? rule_id) rows with
      | None => ret (inr NotFound)
      | Some stored =>
          t <- clock ;;
          let saved := {| (merge_writable stored (submitted stored)) with br_updated_at := t |} in
          if key_taken saved rows then raise IntegrityError else
          set_block_rules (map (λ r, if br_id r =? rule_id then saved else r) rows) ;;;
          on_block_rule_save ;;;
          ret (inl saved)
      end
  end.

Definition api_destroy (enabled : bool) (user : option User) (rule_id : Z) : M W (unit + Refusal) :=
  match api_initial enabled is_waf_admin user with
  | Some refusal => ret (inr refusal)
  | None =>
      rows <- db_read w_block_rules ;;
      match List.find (λ r, br_id r =? rule_id) rows with
      | None => ret (inr NotFound)
      | Some _ =>
          set_block_rules (List.filter (λ r, negb (br_id r =? rule_id)) rows) ;;;
          on_block_rule_delete ;;;
          ret (inl tt)
      end
  end.

(** Allow rules: every modelled column but the id is writable. *)
Definition writable_allow (id : Z) (submitted : AllowRule) : AllowRule :=
  {| ar_id := id; ar_name := ar_name submitted; ar_rule_type := ar_rule_type submitted;
     ar_match_type := ar_match_type submitted; ar_pattern := ar_pattern submitted;
     ar_verify_rdns := ar_verify_rdns submitted; ar_rdns_pattern := ar_rdns_pattern submitted;
     ar_is_active := ar_is_active submitted; ar_source := ar_source submitted;
     ar_expires_at := ar_expires_at submitted; ar_confidence := ar_confidence submitted;
     ar_feed_first_seen := ar_feed_first_seen submitted;
     ar_feed_reporters := ar_feed_reporters submitted; ar_notes := ar_notes submitted |}.

Definition api_create_allow (enabled : bool) (user : option User) (submitted : AllowRule)
  : M W (AllowRule + Refusal) :=
  match api_initial enabled is_waf_admin user with
  | Some refusal => ret (inr refusal)
  | None =>
      id <- draw uuid4 ;;
      let row := writable_allow id submitted in
      rows <- db_read w_allow_rules ;;
      db_write (λ w, {| w with w_allow_rules := rows ++ [row] |}) ;;;
      on_allow_rule_save ;;;
      ret (inl row)
  end.

Definition api_update_allow (enabled : bool) (user : option User) (rule_id : Z)
    (submitted : AllowRule → AllowRule) : M W (AllowRule + Refusal) :=
  match api_initial enabled is_waf_admin user with
  | Some refusal => ret (inr refusal)
  | None =>
      rows <- db_read w_allow_rules ;;
      match List.find (λ r, ar_id r =? rule_id) rows with
      | None => ret (inr NotFound)
      | Some stored =>
          let saved := writable_allow (ar_id stored) (submitted stored) in
          db_write (λ w, {| w with w_allow_rules :=
            map (λ r, if ar_id r =? rule_id then saved else r) rows |}) ;;;
          on_allow_rule_save ;;;
          ret (inl saved)
      end
  end.

Definition api_destroy_allow (enabled : bool) (user : option User) (rule_id : Z) : M W (unit + Refusal) :=
  match api_initial enabled is_waf_admin user with
  | Some refusal => ret (inr refusal)
  | None =>
      rows <- db_read w_allow_rules ;;
      match List.find (λ r, ar_id r =? rule_id) rows with
      | None => ret (inr NotFound)
      | Some _ =>
          db_write (λ w, {| w with w_allow_rules := List.filter (λ r, negb (ar_id r =? rule_id)) rows |}) ;;;
          on_allow_rule_delete ;;;
          ret (inl tt)
      end
  end.

(** [if value: queryset.filter(...)] on a query parameter. *)
Definition given_param (params : gmap string string) (k : string) : option string :=
  match params !! k with Some v => if str_empty v then None else Some v | None => None end.

Definition Verdict_value (v : Verdict) : string :=
  match v with
  | ALLOWED => "allowed" | BLOCKED => "blocked" | CHALLENGED => "challenged"
  | THROTTLED => "throttled" | PASSED => "passed" | LOGGED => "logged"
  end.

(** [RequestLogViewSet.get_queryset]. *)
Definition log_filter (params : gmap string string) : res (RequestLog → bool) :=
  let by_verdict r := match given_param params "verdict" with
                      | Some v => bool_decide (Verdict_value (rl_verdict r) = v) | None => true end in
  let by_ip r := match given_param params "ip_address" with
                 | Some a => bool_decide (rl_ip_address r = a) | None => true end in
  match given_param params "from_ts" with
  | None => Ok (λ r, by_verdict r && by_ip r)
  | Some from_ts =>
      res_bind (parse_datetime from_ts) (λ parsed,
      Ok (λ r, by_verdict r && by_ip r && match parsed with Some t => t <=? rl_timestamp r | None => true end))
  end.

Definition newest_log (r r' : RequestLog) : bool := rl_timestamp r' <=? rl_timestamp r.

Definition list_request_logs (enabled : bool) (user : option User) (params : gmap string string)
  : M W (list RequestLog + Refusal) :=
  match api_initial enabled is_admin_user user with
  | Some refusal => ret (inr refusal)
  | None =>
      keep <- lift_res (log_filter params) ;;
      rows <- db_read w_request_log ;;
      ret (inl (sort_by newest_log (List.filter keep rows)))
  end.

(** [IPReputationViewSet.get_queryset]: a bound that is not a number raises. *)
Definition highest_score (r r' : IPReputation) : bool := ir_threat_score r' <=? ir_threat_score r.

Definition list_reputations (enabled : bool) (user : option User) (params : gmap string string)
  : M W (list IPReputation + Refusal) :=
  match api_initial enabled is_admin_user user with
  | Some refusal => ret (inr refusal)
  | None =>
      keep <- lift_res (match given_param params "min_threat_score" with
                        | None => Ok (λ _, true)
                        | Some v => match to_decimal v with
                                    | Some m => Ok (λ r, m <=? ir_threat_score r)
                                    | None => Raise (OtherError "ValidationError")
                                    end
                        end) ;;
      rows <- db_read w_reputation ;;
      ret (inl (sort_by highest_score (List.filter keep rows)))
  end.
End Api.

Module AdminApiProps.

(** ** Scores and tiers *)

Definition unit_score (r : IPReputation) : Prop := 0 <= ir_threat_score r <= 100.

Lemma unit_score_tiers r : unit_score r →
  threat_tier (Some "high") r = false ∧ threat_tier (Some "medium") r = false ∧
  threat_tier (Some "low") r = true.
Proof.
  unfold unit_score, threat_tier. intros Hr. repeat case_bool_decide; simplify_eq.
  rewrite andb_false_iff, !Z.leb_gt, Z.ltb_lt. lia.
Qed.

(** The rows of [top_offenders] are the worst: a row left out scores no more
    than any row that is listed. *)
Lemma top_offenders_are_the_worst limit rows r r' :
  In r (top_offenders limit rows) → In r' rows → ¬ In r' (top_offenders limit rows) →
  ir_threat_score r' <= ir_threat_score r.
Proof.
  unfold top_offenders. set (le a b := ir_threat_score b <=? ir_threat_score a). intros Hr Hr' Hout.
  assert (Hs : StronglySorted (ordered le) (sort_by le rows)).
  { apply sort_by_sorted; intros *; unfold le; rewrite ?Z.leb_le, ?Z.leb_gt; lia. }
  apply (Permutation_in _ (Permutation_sym (sort_by_perm le rows))) in Hr'.
  rewrite <- (firstn_skipn limit (sort_by le rows)) in Hs, Hr'.
  apply in_app_iff in Hr' as [Hr'|Hr']; [done|].
  apply StronglySorted_app_inv in Hs as [_ Hs]. specialize (Hs _ _ Hr Hr'). by apply Z.leb_le.
Qed.

(** The scorer and the admin's tiers use different scales.  The score
    that [update_ip_reputation] writes is between 0.00 and 1.00, and with the
    other rows in that range they stay so; the list filter puts its bounds at
    7 and 3, so whatever the traffic the "high" and the "medium" tier are
    empty and the "low" tier is the whole table. *)
Lemma reputation_tiers_are_dead {R P} (conf : Conf) (w : World R P) :
  w_db_up w = true → 0 < DJANGO_WAF_ANOMALY_THRESHOLD_DISTINCT_UAS conf →
  NoDup (rep_ips (w_reputation w)) → Forall unit_score (w_reputation w) →
  ∃ c w', update_ip_reputation conf w = (Ok c, w') ∧
    NoDup (rep_ips (w_reputation w')) ∧ Forall unit_score (w_reputation w') ∧
    List.filter (threat_tier (Some "high")) (w_reputation w') = [] ∧
    List.filter (threat_tier (Some "medium")) (w_reputation w') = [] ∧
    List.filter (threat_tier (Some "low")) (w_reputation w') = w_reputation w'.
Proof.
  intros Hup Hthr Hnd Hold.
  destruct (TasksProps.reputation_upserts conf w Hup Hthr Hnd) as (u & c & n & w' & Hrun & _ & _ & Hnd' & Hin & Hout).
  assert (Hall : Forall unit_score (w_reputation w')).
  { apply Forall_forall. intros r Hr%list_elem_of_In.
    destruct (decide (ir_ip_address r ∈ groups rl_ip_address
      (List.filter (since (w_now w - 24 * hour_us)) (w_request_log w)))) as [Hseen|Hseen].
    - destruct (Hin _ (proj1 (list_elem_of_In _ _) Hseen)) as (row & Erow & Hrow & Hs).
      assert (r = row) as ->; [|exact Hs].
      eapply (NoDup_key_inj ir_ip_address); [exact Hnd'|done|done|]. by rewrite Erow.
    - apply Hout in Hr; [|done]. rewrite Forall_forall in Hold. by apply Hold, list_elem_of_In. }
  eexists _, w'. split; [exact Hrun|]. split; [done|]. split; [done|].
  split_and!; [apply filter_none|apply filter_none|apply filter_all];
    intros r Hr%list_elem_of_In; rewrite Forall_forall in Hall; by apply unit_score_tiers, Hall.
Qed.

(** ** What a change of rules tells the workers *)

Section Changes.
Context {R P : Type} `{RedisClient R}.
Implicit Types w : World R P.

(** [qs.update] of the admin's bulk actions: the rows change, Redis does not,
    and a worker whose cache is current goes on serving it. *)
Lemma bulk_update_keeps_cache `{ReEngine P} queryset f w c :
  w_db_up w = true → w_process_cache w = Some c →
  (get_key RULES_VERSION_KEY w).1 = Ok (Some (str_of_Z (w_process_cache_version w))) →
  ∃ w', update_block_rules queryset f w = (Ok (Z.of_nat (length (List.filter queryset (w_block_rules w)))), w') ∧
    w_block_rules w' = map (λ r, if queryset r then f r else r) (w_block_rules w) ∧
    w_redis w' = w_redis w ∧ (load_rule_cache w').1 = Ok c.
Proof.
  intros Hup Hc Hv. rewrite (update_block_rules_up _ _ w Hup). eexists. split; [reflexivity|].
  split_and!; [done|done|]. apply load_rule_cache_current; [done|].
  unfold get_key in Hv. by rewrite on_redis_fst in Hv.
Qed.

(** One step of [extend_expiry] on a stored row. *)
Definition extend_step (now : Z) (rule r : BlockRule) : BlockRule :=
  if br_id r =? br_id rule then {| r with br_expires_at := extended now rule |} else r.

Lemma save_expiry_run now rule w :
  w_db_up w = true →
  ∃ rd, save_expiry rule (extended now rule) w =
    (Ok tt, {| {| w with w_block_rules := map (extend_step now rule) (w_block_rules w) |} with w_redis := rd |}).
Proof.
  intros Hup. unfold save_expiry. rewrite (bind_Ok _ _ _ _ _ (db_write_up _ w Hup)).
  unfold on_block_rule_save. match goal with |- context [invalidate_rule_cache ?w1] =>
    destruct (invalidate_eq w1) as [rd ->] end. by exists rd.
Qed.

Lemma extend_each_run rules w :
  w_db_up w = true →
  ∃ rd, extend_each rules w = (Ok (Z.of_nat (length rules)),
    {| {| w with w_block_rules := map (λ r, fold_left (λ r x, extend_step (w_now w) x r) rules r)
                                      (w_block_rules w) |} with w_redis := rd |}).
Proof.
  revert w. induction rules as [|rule rules IH]; intros w Hup.
  { exists (w_redis w). cbn [fold_left]. rewrite map_id. by destruct w. }
  cbn [extend_each]. unfold bind at 1, clock, gets.
  destruct (save_expiry_run (w_now w) rule w Hup) as [rd Hs]. rewrite (bind_Ok _ _ _ _ _ Hs).
  match type of Hs with _ = (_, ?w1) => destruct (IH w1 Hup) as [rd2 Hrun] end.
  rewrite (bind_Ok _ _ _ _ _ Hrun). exists rd2. unfold ret. cbn [w_block_rules w_now w_redis length fold_left].
  rewrite map_map. do 2 f_equal. lia.
Qed.

Lemma extend_fold_other now rules r :
  br_id r ∉ map br_id rules → fold_left (λ r x, extend_step now x r) rules r = r.
Proof.
  induction rules as [|x rules IH]; [done|]. cbn. intros [Hne Hni]%not_elem_of_cons.
  unfold extend_step at 2. rewrite (proj2 (Z.eqb_neq _ _)) by done. by apply IH.
Qed.

Lemma extend_fold_once now rules r :
  NoDup (map br_id rules) → In r rules →
  fold_left (λ r x, extend_step now x r) rules r = {| r with br_expires_at := extended now r |}.
Proof.
  induction rules as [|x rules IH]; [done|]. cbn [map fold_left]. intros [Hni Hnd]%NoDup_cons [->|Hin].
  - unfold extend_step at 2. rewrite Z.eqb_refl. by apply extend_fold_other.
  - unfold extend_step at 2. rewrite (proj2 (Z.eqb_neq _ _)); [by apply IH|].
    intros E. apply Hni. rewrite <- E. apply list_elem_of_In, in_map_iff. eauto.
Qed.

(** The extension moves the expiry of exactly the selected rules, a day on
    from their own expiry, or from now when they had none. *)
Lemma extend_expiry_exact queryset w :
  w_db_up w = true → NoDup (map br_id (w_block_rules w)) →
  ∃ w', extend_expiry queryset w = (Ok (Z.of_nat (length (List.filter queryset (w_block_rules w)))), w') ∧
    w_block_rules w' = map (λ r, if queryset r then {| r with br_expires_at := extended (w_now w) r |} else r)
                         (w_block_rules w).
Proof.
  intros Hup Hnd. unfold extend_expiry. rewrite (bind_Ok _ _ _ _ _ (db_read_up _ w Hup)).
  destruct (extend_each_run (List.filter queryset (w_block_rules w)) w Hup) as [rd ->].
  eexists. split; [reflexivity|]. cbn [w_block_rules]. apply map_ext_in. intros r Hr.
  destruct (queryset r) eqn:Eq.
  - apply extend_fold_once; [|by apply filter_In]. by apply NoDup_map_filter.
  - apply extend_fold_other. rewrite list_elem_of_In, in_map_iff. intros (x & E & [Hx Hqx]%filter_In).
    rewrite (NoDup_key_inj br_id _ _ _ Hnd Hx Hr E) in Hqx. congruence.
Qed.
End Changes.

(** ** Edits through the API *)

Section Edits.
Context {R P : Type} `{RedisClient R} `{Permissions}.
Implicit Types w : World R P.

Lemma api_initial_open enabled permission user :
  api_initial enabled permission user = None ↔ enabled = true ∧ permission user = true.
Proof. unfold api_initial. destruct enabled, (permission user); cbn; naive_solver. Qed.

(** Replacing a row keeps the constraint when no other row has its key. *)
Lemma replace_keeps_unique id saved rows :
  auto_keys_unique rows → NoDup (map br_id rows) →
  (∀ r k, In r rows → br_id r ≠ id → auto_key r = Some k → auto_key saved ≠ Some k) →
  auto_keys_unique (map (λ r, if br_id r =? id then saved else r) rows).
Proof.
  unfold auto_keys_unique. induction rows as [|r rows IH]; [done|].
  cbn [map omap list_omap]. intros Hu [Hni Hnd]%NoDup_cons Hno.
  assert (Hu' : NoDup (omap auto_key rows)).
  { cbn in Hu. destruct (auto_key r); [by apply NoDup_cons in Hu as [_ ?]|done]. }
  assert (IH' := IH Hu' Hnd ltac:(intros r' k Hr'; apply Hno; by right)). clear IH.
  destruct (Z.eqb_spec (br_id r) id) as [E|E].
  - rewrite map_untouched in IH' |- *.
    2,3: intros x Hx; rewrite (proj2 (Z.eqb_neq _ _)); [done|]; intros E'; apply Hni;
         rewrite E, <- E'; apply list_elem_of_In, in_map_iff; eauto.
    destruct (auto_key saved) as [k|] eqn:Ek; [|done]. apply NoDup_cons. split; [|done].
    intros (x & Hx%list_elem_of_In & Hk)%list_elem_of_omap. apply (Hno x k); [by right| |done|done].
    intros E'. apply Hni. rewrite E, <- E'. apply list_elem_of_In, in_map_iff. eauto.
  - destruct (auto_key r) as [k|] eqn:Ek; [|done]. cbn in Hu. apply NoDup_cons in Hu as [Hk _].
    apply NoDup_cons. split; [|done].
    intros (y & (x & Ey & Hx)%list_elem_of_In%in_map_iff & Hy)%list_elem_of_omap.
    destruct (Z.eqb_spec (br_id x) id) as [E'|E']; subst y.
    + apply (Hno r k); [by left|done|done|exact Hy].
    + apply Hk, list_elem_of_omap. exists x. by rewrite list_elem_of_In.
Qed.

Lemma key_taken_false r rows x k :
  key_taken r rows = false → In x rows → br_id x ≠ br_id r → auto_key x = Some k → auto_key r ≠ Some k.
Proof.
  unfold key_taken. intros Hk Hx Hne Ex Er. rewrite Er in Hk. apply not_true_iff_false in Hk. apply Hk.
  apply existsb_exists. exists x. split; [done|]. rewrite (proj2 (Z.eqb_neq _ _)) by done.
  by rewrite bool_decide_true.
Qed.

(** The columns a client of the API never sets. *)
Definition provenance (r : BlockRule) :=
  (br_id r, br_source r, br_hit_count r, br_last_hit_at r, br_reviewed_at r, br_created_at r).

Lemma find_by_id id rows stored :
  List.find (λ r, br_id r =? id) rows = Some stored → In stored rows ∧ br_id stored = id.
Proof. intros [Hin E%Z.eqb_eq]%List.find_some. done. Qed.

(** C36: an edit through the API that returns a response stays inside its
    bounds.  It happens only with the API switched on and for an administrator
    of the firewall (a user [is_waf_admin] accepts), and a refusal changes
    nothing.  Whatever the client submits, every rule keeps its id, source,
    counters and creation time, only the addressed rule changes, and the table
    keeps unique ids and the constraint on automatic rules. *)
Theorem api_update_keeps_constraint enabled user id submitted w res w' :
  api_update (R:=R) (P:=P) enabled user id submitted w = (Ok res, w') →
  auto_keys_unique (w_block_rules w) → NoDup (map br_id (w_block_rules w)) →
  auto_keys_unique (w_block_rules w') ∧
  map provenance (w_block_rules w') = map provenance (w_block_rules w) ∧
  match res with
  | inl saved => enabled = true ∧ is_waf_admin user = true ∧ br_id saved = id ∧
      w_block_rules w' = map (λ r, if br_id r =? id then saved else r) (w_block_rules w)
  | inr _ => w' = w
  end.
Proof.
  unfold api_update. intros Hrun Hu Hnd. destruct (api_initial _ _ _) as [refusal|] eqn:Ei.
  { unfold ret in Hrun. by simplify_eq. }
  apply api_initial_open in Ei as [Hen Had].
  apply bind_inv_Ok in Hrun as (rows & w1 & [Hup [-> ->]]%db_read_inv & Hrun).
  destruct (List.find _ _) as [stored|] eqn:Ef; [|unfold ret in Hrun; by simplify_eq].
  apply find_by_id in Ef as [Hst Hid]. unfold bind at 1, clock, gets in Hrun.
  set (saved := {| (merge_writable stored (submitted stored)) with br_updated_at := w_now w |}) in Hrun.
  destruct (key_taken saved (w_block_rules w)) eqn:Ek; [done|].
  unfold set_block_rules in Hrun. rewrite (bind_Ok _ _ _ _ _ (db_write_up _ w Hup)) in Hrun.
  unfold on_block_rule_save in Hrun. match type of Hrun with context [bind invalidate_rule_cache _ ?w1] =>
    destruct (invalidate_eq w1) as [rd Hinv] end.
  rewrite (bind_Ok _ _ _ _ _ Hinv) in Hrun. unfold ret in Hrun. injection Hrun as <- <-. cbn [w_block_rules].
  assert (Hsid : br_id saved = id) by done. split_and!; [| |done|done|done|done].
  - apply replace_keeps_unique; [done|done|]. intros r k Hr Hne. rewrite <- Hsid in Hne.
    by eapply key_taken_false.
  - rewrite map_map. apply map_ext_in. intros r Hr. destruct (Z.eqb_spec (br_id r) id) as [E|]; [|done].
    assert (r = stored) as -> by (apply (NoDup_key_inj br_id _ _ _ Hnd Hr Hst); congruence). done.
Qed.

(** A rule created through the API is never an automatic one. *)
Lemma api_create_keeps_constraint (uuid4 : nat → Z) enabled user submitted w res w' :
  api_create (R:=R) (P:=P) uuid4 enabled user submitted w = (Ok res, w') →
  auto_keys_unique (w_block_rules w) → auto_keys_unique (w_block_rules w').
Proof.
  unfold api_create. intros Hrun Hu. destruct (api_initial _ _ _); [unfold ret in Hrun; by simplify_eq|].
  unfold bind at 1, draw in Hrun. unfold bind at 1, clock, gets in Hrun.
  apply bind_inv_Ok in Hrun as (rows & w1 & [Hup [-> ->]]%db_read_inv & Hrun).
  unfold set_block_rules in Hrun. rewrite (bind_Ok _ _ _ _ _ (db_write_up _ _ Hup)) in Hrun.
  unfold on_block_rule_save in Hrun. match type of Hrun with context [bind invalidate_rule_cache _ ?w1] =>
    destruct (invalidate_eq w1) as [rd Hinv] end.
  rewrite (bind_Ok _ _ _ _ _ Hinv) in Hrun. unfold ret in Hrun. injection Hrun as <- <-.
  cbn [w_block_rules]. unfold auto_keys_unique. rewrite omap_app. cbn. by rewrite app_nil_r.
Qed.
End Edits.

(** ** Listings *)

Section Listings.
Context {R P : Type} (parse_datetime : string → res (option Z)).

Lemma newest_log_sorted l : StronglySorted (ordered newest_log) (sort_by newest_log l).
Proof. apply sort_by_sorted; unfold newest_log; intros *; rewrite ?Z.leb_le, ?Z.leb_gt; lia. Qed.

(** The audit log is listed to staff only, newest first, exactly the rows
    that satisfy every filter given, and listing changes nothing. *)
Lemma request_log_listing_exact enabled user params (w : World R P) l w' :
  list_request_logs parse_datetime enabled user params w = (Ok (inl l), w') →
  enabled = true ∧ is_admin_user user = true ∧ w' = w ∧
  StronglySorted (ordered newest_log) l ∧
  ∃ keep, log_filter parse_datetime params = Ok keep ∧ Permutation l (List.filter keep (w_request_log w)).
Proof.
  unfold list_request_logs. intros Hrun. destruct (api_initial _ _ _) eqn:Ei; [done|].
  apply api_initial_open in Ei as [-> ->].
  apply bind_inv_Ok in Hrun as (keep & w1 & Hk & Hrun). unfold lift_res in Hk.
  destruct (log_filter parse_datetime params) as [keep'|e] eqn:El; [|done]. simplify_eq.
  apply bind_inv_Ok in Hrun as (rows & w2 & [Hup [-> ->]]%db_read_inv & Hrun). unfold ret in Hrun. simplify_eq.
  split_and!; [done|done|done|apply newest_log_sorted|]. exists keep. split; [done|]. apply sort_by_perm.
Qed.
End Listings.

(** *** Witnesses *)

Lemma reputation_tiers_are_dead_witness :
  ∃ c w', update_ip_reputation (default_conf "s") TasksProps.visited_world = (Ok c, w') ∧
    length (w_reputation w') = 1%nat ∧ List.filter (threat_tier (Some "high")) (w_reputation w') = [].
Proof.
  destruct (reputation_tiers_are_dead (default_conf "s") TasksProps.visited_world eq_refl eq_refl)
    as (c & w' & Hrun & _ & _ & Hhigh & _); [apply NoDup_nil_2|constructor|].
  exists c, w'. split; [exact Hrun|]. split; [|exact Hhigh].
  assert (Hl : length (w_reputation (update_ip_reputation (default_conf "s") TasksProps.visited_world).2) = 1%nat)
    by (vm_compute; reflexivity).
  by rewrite Hrun in Hl.
Defined.

(** Staff with the permission; a client that claims the rule for itself. *)
#[local] Instance sample_permissions : Permissions :=
  {| has_perm u p := bool_decide (p = "django_waf.change_blockrule") |}.
Definition editor : User :=
  {| u_is_authenticated := true; u_is_staff := true; u_is_superuser := false; u_pk := Some "7" |}.
Definition claim (r : BlockRule) : BlockRule :=
  {| {| {| {| r with br_pattern := "192.0.2.9" |} with br_source := RuleSource_AUTO |}
     with br_hit_count := 0 |} with br_id := 99 |}.
Definition one_rule : World MemRedis LiteRe :=
  AutoRuleProps.sample_world [RuleTransferProps.rule_on 4 RuleSource_ADMIN RuleAction_BLOCK "192.0.2.1" 0] [].

Lemma api_update_keeps_constraint_witness :
  match api_update true (Some editor) 4 claim one_rule with
  | (Ok (inl saved), w') => br_id saved = 4 ∧ br_pattern saved = "192.0.2.9" ∧
      map provenance (w_block_rules w') = map provenance (w_block_rules one_rule)
  | _ => False
  end.
Proof.
  assert (Hok : is_Ok (api_update true (Some editor) 4 claim one_rule).1 = true) by (vm_compute; reflexivity).
  assert (Hp : match (api_update true (Some editor) 4 claim one_rule).1 with
               | Ok (inl saved) => br_pattern saved = "192.0.2.9" | _ => False end) by (vm_compute; reflexivity).
  destruct (api_update true (Some editor) 4 claim one_rule) as [[res|e] w'] eqn:E; [|discriminate Hok].
  destruct (api_update_keeps_constraint true (Some editor) 4 claim one_rule res w' E) as (_ & Hprov & Hres);
    [constructor|apply NoDup_singleton|].
  cbn in Hp. destruct res as [saved|]; [|destruct Hp].
  destruct Hres as (_ & _ & Hid & _). split; [exact Hid|]. split; [exact Hp|exact Hprov].
Defined.

Lemma extend_expiry_example :
  map br_expires_at (w_block_rules (extend_expiry (λ r, negb (br_id r =? 5))
    (AutoRuleProps.sample_world
       [RuleTransferProps.rule_on 4 RuleSource_ADMIN RuleAction_BLOCK "192.0.2.1" 0;
        {| (RuleTransferProps.rule_on 6 RuleSource_ADMIN RuleAction_BLOCK "192.0.2.1" 0) with br_expires_at := None |};
        RuleTransferProps.rule_on 5 RuleSource_ADMIN RuleAction_BLOCK "192.0.2.1" 0] [])).2) =
  [Some (1700000000 * usec + 24 * hour_us); Some (1000 * usec + 24 * hour_us); Some (1700000000 * usec)].
Proof. vm_compute. reflexivity. Qed.
End AdminApiProps.
