(* ===== verification/Commands.v ===== *)
(** * The operator's commands and the delegating tasks
    ([management/commands/], [tasks.py], the telemetry submission of
     [services/threat_feed.py])

    The commands that run one service by hand, with what they do around it:
    argument checks, dry runs, which failures become [CommandError] and hence
    the exit status.  A command returns what it prints the numbers of.  The
    files are those of [Blocklist]; HTTP, the install-id file's permissions and
    [mkstemp] are parameters. *)

From Stdlib Require Import ZArith QArith Lia Ascii String.
From stdpp Require Import base tactics option list strings numbers gmap.
From S2P Require Import Prelude PyStr IpAddress Hash PyTime Codec Regex Conf Redis Models AutoRule RuleEngine RuleEngineProofs.
From S2P Require Import Detectors Tasks Patterns ThreatFeed RuleTransfer FlushProbe DetectorProbe DetectorOutcomes.
From S2P Require Import Blocklist GeoIpInstall.

Open Scope Z_scope.

(** [except Exception as exc: raise CommandError(...) from exc]. *)
Definition or_command_error {S A} (m : M S A) : M S A := try_except m (λ _, raise CommandError).

(** ** Pruning *)

Section Pruning.
Context {R P : Type}.
Abbreviation W := (World R P).

(** The dry run counts outside the [try]; the real run deletes inside it. *)
Definition prune_logs_command (conf : Conf) (days : option Z) (dry_run : bool) : M W Z :=
  let days := default (DJANGO_WAF_LOG_RETENTION_DAYS conf) days in
  if days <? 1 then raise CommandError else
  t <- clock ;;
  let purgeable := RequestLogManager.is_purgeable t days in
  if dry_run then rows <- db_read w_request_log ;; ret (Z.of_nat (length (List.filter purgeable rows))) else
  or_command_error (
    rows <- db_read w_request_log ;;
    db_write (λ w, {| w with w_request_log := List.filter (λ r, negb (purgeable r)) rows |}) ;;;
    ret (Z.of_nat (length (List.filter purgeable rows)))).

Definition prune_challenges_command (hours : Z) (dry_run : bool) : M W Z :=
  if hours <? 1 then raise CommandError else
  t <- clock ;;
  let purgeable := token_prunable (t - hours * hour_us) in
  if dry_run then rows <- db_read w_tokens ;; ret (Z.of_nat (length (List.filter purgeable rows))) else
  or_command_error (
    rows <- db_read w_tokens ;;
    db_write (λ w, {| w with w_tokens := List.filter (λ r, negb (purgeable r)) rows |}) ;;;
    ret (Z.of_nat (length (List.filter purgeable rows)))).
End Pruning.

(** ** Detection, reports and probes *)

Section Detection.
Context {R P : Type} `{RedisClient R} `{ReEngine P} `{Dns} (uuid4 : nat → Z) (conf : Conf).
Abbreviation W := (World R P).

(** The lines printed (a result that is not zero) and the sum. *)
Definition report_lines (counts : list Z) : list (string * Z) :=
  List.filter (λ l, negb (l.2 =? 0)) (zip RESULT_KEYS counts).

Definition detect_command (has_redis : bool) (window_minutes : option Z) (dry_run : bool)
  : M W (list (string * Z) * Z) :=
  results <- or_command_error (run_all_detectors uuid4 conf dry_run false has_redis window_minutes) ;;
  ret (report_lines results.1, foldr Z.add 0 results.1).

(** The task [detect_anomalies]. *)
Definition detect_anomalies (has_redis : bool) : M W (list Z * Z) :=
  run_all_detectors uuid4 conf false false has_redis None.

(** Only [ValueError], the refusal of the window, is a [CommandError]. *)
Definition outcomes_command (days : Z) : M W OutcomeReport :=
  try_except (report_detector_outcomes days)
    (λ e, if bool_decide (e = ValueError) then raise CommandError else raise e).

(** Both probes fail the process on a dead result. *)
Definition probe_detectors_command (has_redis exercise_writes : bool) : M W DetectorProbeReport :=
  result <- or_command_error (run_detector_probe uuid4 conf has_redis (negb exercise_writes)) ;;
  if dp_all_alive result then ret result else raise CommandError.

Definition probe_flush_path_command (connection : res unit) : M W FlushProbeReport :=
  result <- or_command_error (run_flush_probe uuid4 connection) ;;
  if fp_alive result then ret result else raise CommandError.
End Detection.

(** ** The feed *)

Section FeedCommand.
Context {R P : Type} `{RedisClient R} `{ReEngine P} (uuid4 : nat → Z) (conf : Conf).
Context (parse_datetime : fval → res (option Z)) (decimal_field : pyfloat → res Z) (char_field : fval → string).
(* [httpx.get(url)], [raise_for_status], [json]. *)
Context (fetch : string → res fval).
Abbreviation W := (World R P).

(** [a or b] on an optional text. *)
Definition text_or (a : option string) (b : string) : string :=
  match a with Some s => if str_empty s then b else s | None => b end.

Definition sync_from (feed_url : option string) (min_confidence : option Q) : M W SyncResult :=
  sync_feed uuid4 conf parse_datetime decimal_field char_field
    (fetch (text_or feed_url (DJANGO_WAF_FEED_URL conf))) min_confidence.

(** [None]: skipped.  [dry_run] is parsed and announced, and not passed on. *)
Definition sync_command (feed_url : option string) (min_confidence : option Q) (dry_run : bool)
  : M W (option SyncResult) :=
  if negb (DJANGO_WAF_FEED_ENABLED conf) && str_empty (text_or feed_url "") then ret None else
  summary <- or_command_error (sync_from feed_url min_confidence) ;;
  ret (Some summary).

(** The task [sync_threat_feed]. *)
Definition sync_threat_feed : M W (option SyncResult) :=
  if negb (DJANGO_WAF_FEED_ENABLED conf) then ret None else
  summary <- sync_from None None ;;
  ret (Some summary).
End FeedCommand.

(** ** The block list *)

Section BlocklistCommand.
Context (conf : Conf) (test : files → RunResult).
Context (read_pid : string → option string) (kill : Z → KillResult) (run : unit → RunResult).

Inductive BlocklistOutcome : Type :=
| Preview (count : Z) (text : string)
| Wrote (count : Z) (reloaded : bool).

(** [generate_nginx_blocklist] up to the failures before activation: the query
    and the directory ([access], what [makedirs] and [mkstemp] raise). *)
Definition attempt_generate (candidate : string) (output_path : option string) (access : res unit) (now : Z)
    (rows : res (list BlockRule)) : M files Z := λ fs,
  match rows, access with
  | Raise e, _ => (Raise e, fs)
  | Ok _, Raise e => (Raise e, fs)
  | Ok rows, Ok _ =>
      let r := generate_nginx_blocklist conf test candidate output_path now rows fs in (Ok r.1, r.2)
  end.

(** [_dry_run]: generate into a temporary file, print it, remove it. *)
Definition dry_run_preview (tmp_path candidate : string) (access : res unit) (now : Z)
    (rows : res (list BlockRule)) : M files BlocklistOutcome :=
  modify (insert tmp_path "") ;;;
  try_finally
    (or_command_error (
       count <- attempt_generate candidate (Some tmp_path) access now rows ;;
       content <- gets (lookup tmp_path) ;;
       match content with
       | Some text => ret (Preview count text)
       | None => raise (OtherError "OSError")
       end))
    (modify (delete tmp_path)).

Definition write_and_reload (candidate : string) (output_path : option string) (access : res unit) (now : Z)
    (rows : res (list BlockRule)) : M files BlocklistOutcome :=
  count <- or_command_error (attempt_generate candidate output_path access now rows) ;;
  ret (Wrote count (reload_nginx conf read_pid kill run)).

Definition blocklist_command (tmp_path candidate : string) (output_path : option string) (dry_run : bool)
    (access : res unit) (now : Z) (rows : res (list BlockRule)) : M files BlocklistOutcome :=
  if dry_run then dry_run_preview tmp_path candidate access now rows
  else write_and_reload candidate output_path access now rows.

(** The task [generate_blocklist]: [PermissionError] is reported; the flag says
    an error is in the report. *)
Definition PermissionError : exn := OtherError "PermissionError".
Definition generate_blocklist (candidate : string) (access : res unit) (now : Z) (rows : res (list BlockRule))
  : M files (Z * bool * bool) :=
  generated <- try_except (n <- attempt_generate candidate None access now rows ;; ret (Some n))
    (λ e, if bool_decide (e = PermissionError) then ret None else raise e) ;;
  match generated with
  | Some count => ret (count, reload_nginx conf read_pid kill run, false)
  | None => ret (0, false, true)
  end.
End BlocklistCommand.

(** ** The GeoIP database *)

Definition install_geoip_command `{Host} (tmpdir license_setting : string) (path_setting : option string)
    (license_key output_path : option string) (if_older_than : Z) : M Disk InstallReport :=
  try_except (install_geoip_database tmpdir license_setting path_setting license_key output_path
                DEFAULT_EDITION if_older_than)
    (λ e, if is_geoip_error e then raise CommandError else raise e).

(** ** Telemetry *)

(** The cached id and the file under [BASE_DIR]. *)
Record IdStore : Type := { id_cached : option string; id_file : option string }.

(** What the cache and the file system answer: [caches[...]], [cache.get], the
    read of the file, its [cache.set], the write of the file, the last
    [cache.set].  A write that fails leaves the file as it says. *)
Record IdServices : Type := {
  is_caches : res unit;
  is_get : res unit;
  is_read : res unit;
  is_set_read : res unit;
  is_write : option (exn * option string);
  is_set_new : res unit;
}.

Definition os_error (e : exn) : bool := bool_decide (e ∈ [OtherError "OSError"; PermissionError]).

Definition cache_set (answer : res unit) (install_id : string) : M IdStore unit :=
  lift_res answer ;;;
  modify (λ s, {| id_cached := Some install_id; id_file := id_file s |}).

(** The file's id.  [cache.set] is inside the [try]: its [OSError] is taken for
    one of the file's. *)
Definition read_install_id (sv : IdServices) : M IdStore (option string) :=
  file <- gets id_file ;;
  match file with
  | None => ret None
  | Some text =>
      try_except
        (lift_res (is_read sv) ;;;
         if str_empty (strip text) then ret None else
         cache_set (is_set_read sv) (strip text) ;;;
         ret (Some (strip text)))
        (λ e, if os_error e then ret None else raise e)
  end.

Definition write_install_id (sv : IdServices) (install_id : string) : M IdStore unit :=
  match is_write sv with
  | None => modify (λ s, {| id_cached := id_cached s; id_file := Some install_id |})
  | Some (e, after) =>
      modify (λ s, {| id_cached := id_cached s; id_file := after |}) ;;;
      if os_error e then ret tt else raise e
  end.

(** [get_or_create_install_id]: the cached id, else the file's, else a new
    [uuid4] written to the file if it can be. *)
Definition get_or_create_install_id (sv : IdServices) (uuid : Z) : M IdStore string :=
  lift_res (is_caches sv) ;;;
  lift_res (is_get sv) ;;;
  cached <- gets (λ s, text_or (id_cached s) "") ;;
  if negb (str_empty cached) then ret cached else
  stored <- read_install_id sv ;;
  match stored with
  | Some install_id => ret install_id
  | None =>
      write_install_id sv (uuid_str uuid) ;;;
      cache_set (is_set_new sv) (uuid_str uuid) ;;;
      ret (uuid_str uuid)
  end.

(** One POST: its URL, its headers, its body. *)
Record Post : Type := { po_url : string; po_headers : list (string * string); po_payload : Payload }.

(** [submit_telemetry]: [answer] is the status, or what [httpx.post] raised. *)
Definition submit_telemetry (conf : Conf) (answer : Post → res Z) (payload : Payload) (report_url : option string)
  : M (list Post) bool :=
  let headers := ("Content-Type", "application/json")
    :: (if str_empty (DJANGO_WAF_FEED_API_KEY conf) then []
        else [("Authorization", "Bearer " +:+ DJANGO_WAF_FEED_API_KEY conf)]) in
  let post := {| po_url := text_or report_url (DJANGO_WAF_FEED_REPORT_URL conf);
                 po_headers := headers; po_payload := payload |} in
  modify (λ sent, sent ++ [post]) ;;;
  match answer post with
  | Ok status => ret ((200 <=? status) && (status <=? 299))
  | Raise _ => ret false
  end.

Record Reporter (R P : Type) : Type := { rp_world : World R P; rp_ids : IdStore; rp_sent : list Post }.
Arguments rp_world {R P}. Arguments rp_ids {R P}. Arguments rp_sent {R P}.

(** The task [report_threat_telemetry]: [None] when reporting is disabled. *)
Definition report_threat_telemetry {R P} (conf : Conf) (sv : IdServices) (uuid : Z)
    (answer : Post → res Z) : M (Reporter R P) (option (bool * Z * Z)) := λ s,
  if negb (DJANGO_WAF_FEED_REPORT conf) then (Ok None, s) else
  let '(id, ids) := get_or_create_install_id sv uuid (rp_ids s) in
  let s := {| rp_world := rp_world s; rp_ids := ids; rp_sent := rp_sent s |} in
  match id with
  | Raise e => (Raise e, s)
  | Ok install_id =>
      if negb (w_db_up (rp_world s)) then (Raise DbError, s) else
      let now := w_now (rp_world s) in
      let payload := build_telemetry_payload install_id (now - 24 * hour_us) now
                       (w_block_rules (rp_world s)) (w_request_log (rp_world s)) in
      let '(submitted, sent) := submit_telemetry conf answer payload None (rp_sent s) in
      let s := {| rp_world := rp_world s; rp_ids := rp_ids s; rp_sent := sent |} in
      (res_bind submitted (λ b, Ok (Some (b, Z.of_nat (length (pl_ua_hashes payload)),
                                             Z.of_nat (length (pl_subnets payload))))), s)
  end.

(** ** Lemmas *)

Lemma strip_uuid_str u : strip (uuid_str u) = uuid_str u.
Proof.
  apply strip_id. unfold uuid_str. cbn [join].
  assert (Hg : ∀ n z, str_forall (λ c, negb (is_space c)) (hex_digits n z "") = true).
  { intros n z. eapply str_forall_impl; [apply hex_not_space|]. by apply hex_digits_hex. }
  rewrite !str_forall_app, !Hg. reflexivity.
Qed.

Section RunLemmas.
Context {R P : Type}.
Implicit Types w : World R P.

Lemma or_command_error_result {S A} (m : M S A) s :
  or_command_error m s = (match (m s).1 with Ok a => Ok a | Raise _ => Raise CommandError end, (m s).2).
Proof. unfold or_command_error, try_except. by destruct (m s) as [[a|e] s']. Qed.

Lemma prune_logs_runs (conf : Conf) days w :
  w_db_up w = true → 1 <= default (DJANGO_WAF_LOG_RETENTION_DAYS conf) days →
  prune_logs_command conf days false w = prune_request_logs conf days w ∧
  prune_logs_command conf days true w = ((prune_request_logs conf days w).1, w).
Proof.
  intros Hup Hd. unfold prune_logs_command, prune_request_logs.
  rewrite (proj2 (Z.ltb_ge _ _) Hd). unfold bind, clock, gets, or_command_error, try_except, ret.
  rewrite !(db_read_up _ w Hup), (db_write_up _ w Hup). done.
Qed.

Lemma prune_challenges_runs hours w :
  w_db_up w = true → 1 <= hours →
  prune_challenges_command hours false w = prune_challenge_tokens hours w ∧
  prune_challenges_command hours true w = ((prune_challenge_tokens hours w).1, w).
Proof.
  intros Hup Hh. unfold prune_challenges_command, prune_challenge_tokens.
  rewrite (proj2 (Z.ltb_ge _ _) Hh). unfold bind, clock, gets, or_command_error, try_except, ret.
  rewrite !(db_read_up _ w Hup), (db_write_up _ w Hup). done.
Qed.
End RunLemmas.

(** ** What the reporting server can tell apart *)




Module CommandsProps.

(** A dry run foretells the real one.  With the database up and a positive
    threshold, the pruning commands do exactly what the periodic tasks do, and
    their dry runs change nothing and report the count the real run then
    deletes, which is the number of rows the table loses. *)
Lemma pruning_previews_are_exact {R P} (conf : Conf) days hours (w : World R P) :
  w_db_up w = true → 1 <= default (DJANGO_WAF_LOG_RETENTION_DAYS conf) days → 1 <= hours →
  (∃ n w', prune_logs_command conf days false w = (Ok n, w') ∧ prune_request_logs conf days w = (Ok n, w') ∧
     prune_logs_command conf days true w = (Ok n, w) ∧
     Z.of_nat (length (w_request_log w)) = n + Z.of_nat (length (w_request_log w'))) ∧
  (∃ n w', prune_challenges_command hours false w = (Ok n, w') ∧ prune_challenge_tokens hours w = (Ok n, w') ∧
     prune_challenges_command hours true w = (Ok n, w) ∧
     Z.of_nat (length (w_tokens w)) = n + Z.of_nat (length (w_tokens w'))).
Proof.
  intros Hup Hd Hh. destruct (prune_logs_runs conf days w Hup Hd) as [-> ->].
  destruct (prune_challenges_runs hours w Hup Hh) as [-> ->].
  unfold prune_request_logs, prune_challenge_tokens, bind, clock, gets, ret.
  rewrite !(db_read_up _ w Hup), !(db_write_up _ w Hup).
  split; eexists _, _; (split; [reflexivity|]); (split; [reflexivity|]); (split; [reflexivity|]);
    cbn [w_request_log w_tokens]; rewrite <- Nat2Z.inj_add; f_equal; symmetry; apply filter_length.
Qed.

(** The preview of the block list leaves no file.  Whatever the rules, the
    query, the directory and nginx's test come to, with unused temporary names
    the dry run ends with exactly the files it began with; it shows the whole
    candidate and its rule count, or an empty text when the test refuses the
    configuration in place, and any earlier failure is a [CommandError]. *)
Lemma blocklist_preview_leaves_no_file conf test read_pid kill run tmp_path candidate output_path access now rows fs :
  let last_good := tmp_path +:+ ".last-good" in
  tmp_path ≠ "" → candidate ≠ tmp_path → candidate ≠ last_good →
  fs !! tmp_path = None → fs !! candidate = None → fs !! last_good = None →
  blocklist_command conf test read_pid kill run tmp_path candidate output_path true access now rows fs =
  (match rows, access with
   | Ok rows, Ok _ =>
       let rules := BlockRuleManager.for_nginx now rows in
       let text := join "" (blocklist_lines rules) in
       let in_place := candidate_in_place candidate tmp_path (<[candidate := text]> (<[tmp_path := ""]> fs)) in
       let rejected := DJANGO_WAF_NGINX_VALIDATE conf &&
                       bool_decide (validate_nginx_config (test in_place) = Some false) in
       Ok (Preview (Z.of_nat (length rules)) (if rejected then "" else text))
   | _, _ => Raise CommandError
   end, fs).
Proof.
  intros lg Hne Hct Hcl Ht Hc Hl. cbn [blocklist_command]. unfold blocklist_command, dry_run_preview, try_finally.
  unfold bind at 1, modify at 1.
  assert (Hback : ∀ e, (Raise e, delete tmp_path (<[tmp_path := ""]> fs)) = (Raise e : res BlocklistOutcome, fs)).
  { intros e. by rewrite delete_insert_id. }
  unfold or_command_error, try_except. destruct rows as [rows|e]; [|apply Hback].
  destruct access as [u|e]; [|apply Hback]. unfold bind at 1, attempt_generate.
  unfold generate_nginx_blocklist. rewrite str_empty_false by done. cbn [fst snd].
  set (rules := BlockRuleManager.for_nginx now rows). set (text := join "" (blocklist_lines rules)).
  set (fs2 := <[candidate := text]> (<[tmp_path := ""]> fs)).
  assert (Hprev : fs2 !! tmp_path = Some "") by (unfold fs2; by rewrite lookup_insert_ne, lookup_insert_eq).
  assert (Hlast : fs2 !! lg = None).
  { unfold fs2. rewrite !lookup_insert_ne; [done| |done]. apply last_good_ne. }
  destruct (activate_candidate_spec (DJANGO_WAF_NGINX_VALIDATE conf) test candidate tmp_path fs2 text)
    as (Hd & Hcand & Hlg & Ho); [unfold fs2; by rewrite lookup_insert_eq|done|done|by left; eexists|].
  set (fs3 := activate_candidate _ _ _ _ _) in *. unfold bind, gets. rewrite Hd, Hprev.
  assert (Hlg3 : fs3 !! lg = None).
  { destruct (DJANGO_WAF_NGINX_VALIDATE conf) eqn:Ev; [by apply Hlg|].
    unfold fs3, activate_candidate, rename. cbn [negb]. unfold fs2. rewrite lookup_insert_eq.
    rewrite lookup_insert_ne by apply last_good_ne. rewrite lookup_delete_ne by done. exact Hlast. }
  assert (Hfs : delete tmp_path fs3 = fs).
  { apply map_eq. intros k. destruct (decide (k = tmp_path)) as [->|Hkt]; [by rewrite lookup_delete_eq|].
    rewrite lookup_delete_ne by done. destruct (decide (k = candidate)) as [->|Hkc]; [congruence|].
    destruct (decide (k = lg)) as [->|Hkl]; [congruence|]. rewrite Ho by done. unfold fs2.
    by rewrite !lookup_insert_ne. }
  fold fs2. unfold ret, modify. destruct (_ && _); cbn; by rewrite Hfs.
Qed.

(** The exit status of the probe commands: they succeed exactly when the probe
    ran and found its subject alive, every other end is a [CommandError], and
    no row of any table changes, with [--exercise-writes] or without. *)
Lemma probe_exit_status {R P} `{RedisClient R} `{ReEngine P} `{Dns} (uuid4 : nat → Z) (conf : Conf)
    has_redis exercise_writes connection (w : World R P) :
  (let (r, w') := probe_detectors_command uuid4 conf has_redis exercise_writes w in
   stored_rows w' = stored_rows w ∧
   (∀ rep, r = Ok rep ↔ (run_detector_probe uuid4 conf has_redis (negb exercise_writes) w).1 = Ok rep ∧
                        dp_silent_detectors rep = []) ∧
   ((∃ rep, r = Ok rep) ∨ r = Raise CommandError)) ∧
  (let (r, w') := probe_flush_path_command uuid4 connection w in
   stored_rows w' = stored_rows w ∧
   (∀ rep, r = Ok rep ↔ (run_flush_probe uuid4 connection w).1 = Ok rep ∧ fp_alive rep = true) ∧
   ((∃ rep, r = Ok rep) ∨ r = Raise CommandError)).
Proof.
  split.
  - unfold probe_detectors_command, bind at 1. rewrite or_command_error_result.
    set (m := run_detector_probe uuid4 conf has_redis (negb exercise_writes)).
    assert (Hrows : stored_rows (m w).2 = stored_rows w).
    { unfold m, run_detector_probe, bind at 1. pose proof (atomic_rolls_back (build_fixture_traffic conf ;;;
        run_all_detectors uuid4 conf (negb exercise_writes) true has_redis None) w) as Ha.
      destruct (atomic _ _ w) as [[x|e] w1]; exact Ha. }
    assert (Hal : ∀ rep, (m w).1 = Ok rep → dp_all_alive rep = true ↔ dp_silent_detectors rep = []).
    { unfold m, run_detector_probe, bind at 1. destruct (atomic _ _ w) as [[x|e] w1]; [|done].
      intros rep Hrep. unfold ret in Hrep. cbn [fst] in Hrep. injection Hrep as <-. unfold detector_report. cbn [dp_all_alive dp_silent_detectors].
      by destruct (map dl_name _). }
    destruct (m w) as [[rep|e] w1]; cbn [fst snd] in *.
    2: { split; [done|]. split; [|by right]. intros rep. split; [done|]. intros [? _]; done. }
    specialize (Hal rep eq_refl). destruct (dp_all_alive rep) eqn:Ea; unfold ret, raise.
    + split; [done|]. split; [|left; by exists rep]. intros r. split; intros Hr; [|by destruct Hr].
      injection Hr as <-. split; [done|by apply Hal].
    + split; [done|]. split; [|by right]. intros r. split; [done|]. intros [Hr Hs].
      injection Hr as <-. apply Hal in Hs. done.
  - unfold probe_flush_path_command, bind at 1. rewrite or_command_error_result.
    pose proof (run_flush_probe_rows uuid4 connection w) as Hrows.
    destruct (run_flush_probe uuid4 connection w) as [[rep|e] w1]; cbn [fst snd] in *.
    2: { split; [done|]. split; [|by right]. intros rep. split; [done|]. intros [? _]; done. }
    destruct (fp_alive rep) eqn:Ea; unfold ret, raise.
    + split; [done|]. split; [|left; by exists rep]. intros r. split; intros Hr; [|by destruct Hr].
      injection Hr as <-. done.
    + split; [done|]. split; [|by right]. intros r. split; [done|]. intros [Hr Hs].
      injection Hr as <-. congruence.
Qed.

(** The cache answers and what is in the way of the file is an [OSError]. *)
Record ids_answer (sv : IdServices) : Prop := {
  ia_caches : is_caches sv = Ok tt;
  ia_get : is_get sv = Ok tt;
  ia_read : is_read sv = Ok tt ∨ ∃ e, is_read sv = Raise e ∧ os_error e = true;
  ia_set_read : is_set_read sv = Ok tt;
  ia_write : is_write sv = None ∨ ∃ e after, is_write sv = Some (e, after) ∧ os_error e = true;
  ia_set_new : is_set_new sv = Ok tt;
}.



(** With the cache answering and the file readable, the id is the cached one or
    the file's. *)
Lemma install_id_found sv uuid s id :
  ids_answer sv → is_read sv = Ok tt → str_empty id = false →
  (id_cached s = Some id ∨ (id_cached s = None ∧ ∃ text, id_file s = Some text ∧ strip text = id)) →
  (get_or_create_install_id sv uuid s).1 = Ok id.
Proof.
  intros [Hc Hg _ Hs _ _] Hr Hne Hid. unfold get_or_create_install_id, bind, lift_res, gets, ret. rewrite Hc, Hg.
  destruct Hid as [->|(-> & text & Hf & Ht)]; cbn [text_or].
  - rewrite Hne. cbn [negb]. by rewrite Hne.
  - cbn [str_empty negb]. unfold read_install_id, cache_set, bind, gets, lift_res, try_except, modify, ret.
    rewrite Hf, Hr, Hs, Ht, Hne. done.
Qed.

(** The install id is stable: a call that found none cached and could read an
    id, or write a new one, gives the id of the next calls, with the cache kept
    or lost, as long as the cache answers and the file can be read. *)
Lemma install_id_is_stable sv sv2 uuid1 uuid2 s id s' :
  get_or_create_install_id sv uuid1 s = (Ok id, s') → id_cached s = None →
  is_set_read sv = Ok tt → (is_write sv = None ∨ ∃ text, is_read sv = Ok tt ∧ id_file s = Some text ∧ str_empty (strip text) = false) →
  ids_answer sv2 → is_read sv2 = Ok tt →
  (get_or_create_install_id sv2 uuid2 {| id_cached := None; id_file := id_file s' |}).1 = Ok id ∧
  (get_or_create_install_id sv2 uuid2 s').1 = Ok id.
Proof.
  intros Hrun Hc Hs Hkept Hsv2 Hr2.
  enough (str_empty id = false ∧ id_cached s' = Some id ∧ ∃ text, id_file s' = Some text ∧ strip text = id)
    as (Hne & Hc' & Hf').
  { split; apply install_id_found; auto. }
  revert Hrun. unfold get_or_create_install_id, bind, lift_res, gets, ret. rewrite Hc.
  destruct (is_caches sv) as [[]|]; [|done]. destruct (is_get sv) as [[]|]; [|done]. cbn [text_or str_empty negb].
  unfold read_install_id, write_install_id, cache_set, bind, gets, lift_res, try_except, modify, ret, raise. rewrite Hs.
  assert (Hnew : ∀ u, strip (uuid_str u) = uuid_str u ∧ str_empty (uuid_str u) = false).
  { intros u. split; [apply strip_uuid_str|apply uuid_str_nonempty]. }
  destruct (Hnew uuid1) as [Hst Hne].
  destruct Hkept as [Hw|(text & Hr & Hf & Ht)].
  - rewrite Hw. destruct (id_file s) as [text|] eqn:Hf; [destruct (is_read sv) as [[]|e]|].
    + destruct (str_empty (strip text)) eqn:Ht.
      * destruct (is_set_new sv) as [[]|]; [|done]. intros [= <- <-]. cbn. eauto.
      * intros [= <- <-]. cbn. eauto.
    + destruct (os_error e); [|done]. destruct (is_set_new sv) as [[]|]; [|done]. intros [= <- <-]. cbn. eauto.
    + destruct (is_set_new sv) as [[]|]; [|done]. intros [= <- <-]. cbn. eauto.
  - rewrite Hf, Hr, Ht. intros [= <- <-]. cbn. eauto.
Qed.


(** *** Witnesses and examples *)

Definition quiet : World MemRedis LiteRe :=
  DetectorsProps.log_world [] [DetectorsProps.log_row "192.0.2.1" "/" BLOCKED 403].

Lemma pruning_previews_are_exact_witness :
  (∃ n w', prune_logs_command (default_conf "s") (Some 1) false {| quiet with w_now := 3 * day_us |} = (Ok n, w') ∧
     Z.of_nat (length (w_request_log quiet)) = n + Z.of_nat (length (w_request_log w'))).
Proof.
  destruct (pruning_previews_are_exact (default_conf "s") (Some 1) 1 {| quiet with w_now := 3 * day_us |} eq_refl)
    as [(n & w' & Hrun & _ & _ & Hn) _]; [reflexivity || discriminate|discriminate|].
  exists n, w'. split; [exact Hrun|exact Hn].
Defined.

(** nginx refuses the configuration for whatever reason: the preview is empty,
    and the message still counts the rules. *)
Definition preview_of (code : Z) :=
  blocklist_command (default_conf "s") (λ _, Exited code) (λ _, None) (λ _, NoProcess) (λ _, Exited 0)
    "/tmp/a.conf.tmp" "/tmp/b.conf.tmp" None true (Ok tt) 0 (Ok []) {["/etc/nginx/nginx.conf" := "x"]}.

Lemma blocklist_preview_leaves_no_file_witness :
  (preview_of 0).2 = {["/etc/nginx/nginx.conf" := "x"]} ∧
  (preview_of 1).1 = Ok (Preview 0 "").
Proof.
  split; unfold preview_of; rewrite blocklist_preview_leaves_no_file;
    [reflexivity|discriminate|discriminate|discriminate|reflexivity|reflexivity|reflexivity
    |reflexivity|discriminate|discriminate|discriminate|reflexivity|reflexivity|reflexivity].
Defined.

Definition reporter (ip path : string) : Reporter MemRedis LiteRe :=
  {| rp_world := DetectorsProps.log_world [] [DetectorsProps.log_row ip path BLOCKED 403];
     rp_ids := {| id_cached := None; id_file := None |}; rp_sent := [] |}.
Definition reporting_conf : Conf :=
  {| (default_conf "s") with conf_maintenance :=
       {| default_maintenance_conf with DJANGO_WAF_FEED_REPORT := true |} |}.
(** A read-only disk. *)
Definition read_only : IdServices :=
  {| is_caches := Ok tt; is_get := Ok tt; is_read := Ok tt; is_set_read := Ok tt;
     is_write := Some (OtherError "OSError", None); is_set_new := Ok tt |}.
Definition report_of := report_threat_telemetry (R:=MemRedis) (P:=LiteRe) reporting_conf read_only 7 (λ _, Ok 503).


(** The cache's own failures are not caught, but for an [OSError] of the
    [cache.set] inside the [try], which replaces the stored id by a new one. *)
Example cache_outage_stops_the_report :
  (report_threat_telemetry (R:=MemRedis) (P:=LiteRe) reporting_conf
     {| read_only with is_get := Raise (OtherError "ConnectionError") |} 7 (λ _, Ok 200) (reporter "192.0.2.1" "/")).1
  = Raise (OtherError "ConnectionError").
Proof. vm_compute. reflexivity. Qed.

Example cache_os_error_forgets_the_id :
  let run := get_or_create_install_id
    {| {| read_only with is_set_read := Raise (OtherError "OSError") |} with is_write := None |} 7
    {| id_cached := None; id_file := Some "stored-id" |} in
  run.1 = Ok (uuid_str 7) ∧ id_file run.2 = Some (uuid_str 7).
Proof. vm_compute. split; reflexivity. Qed.

Example one_report_is_sent : length (rp_sent (report_of (reporter "192.0.2.1" "/secret")).2) = 1%nat.
Proof. vm_compute. reflexivity. Qed.

(** [django_waf_sync_feed --dry-run] is the real run: the entry it only meant
    to announce becomes a rule. *)
Example sync_dry_run_writes :
  let run := sync_command (R:=MemRedis) (P:=LiteRe) (λ n, 100 + Z.of_nat n) ThreatFeedProps.feed_conf
    ThreatFeedProps.no_dates ThreatFeedProps.hundredths ThreatFeedProps.as_text
    (λ _, Ok (FArr [ThreatFeedProps.block_entry])) None None true ThreatFeedProps.feed_world in
  (created <$> match run.1 with Ok o => o | _ => None end) = Some 1 ∧
  map br_id (w_block_rules run.2) = [3; 7; 100].
Proof. vm_compute. split; reflexivity. Qed.
End CommandsProps.
