(* ===== verification/Handlers.v ===== *)
(** * Signal handlers ([handlers.py])

    Saving or deleting a rule advances the version of the rule cache, on Redis
    or, when the alias is not a django-redis backend, on the Django cache, and
    then tells the listeners of [rule_saved].  [Models.invalidate_rule_cache] is
    the Redis side on the services' state; here the choice of backend, the
    Django cache, the listeners and the log of blocked requests are modelled. *)

From Stdlib Require Import ZArith Lia Ascii String.
From stdpp Require Import base tactics option list strings numbers gmap.
From S2P Require Import Prelude PyStr Conf Redis Models Settings RedisClient.

Open Scope Z_scope.

(** ** The Django cache API *)

Class DjangoCache (K : Type) := {
  dc_view : K → gmap string Z;
  dc_incr : string → M K Z;
  dc_set : string → Z → M K unit;
}.

(** What the API documents: [incr] raises [ValueError] on a missing key only,
    and a call that returns did what it says. *)
Class DjangoCacheSpec (K : Type) `{DjangoCache K} : Prop := {
  incr_documented : ∀ key s n s', dc_incr key s = (Ok n, s') →
    ∃ v, dc_view s !! key = Some v ∧ n = v + 1 ∧ dc_view s' = <[key := v + 1]> (dc_view s);
  incr_missing : ∀ key s s', dc_incr key s = (Raise ValueError, s') →
    dc_view s !! key = None ∧ dc_view s' = dc_view s;
  set_documented : ∀ key v s s', dc_set key v s = (Ok tt, s') → dc_view s' = <[key := v]> (dc_view s);
}.

(** The in-process cache. *)
#[export] Instance locmem : DjangoCache (gmap string Z) := {|
  dc_view s := s;
  dc_incr key s := match s !! key with Some v => (Ok (v + 1), <[key := v + 1]> s) | None => (Raise ValueError, s) end;
  dc_set key v s := (Ok tt, <[key := v]> s);
|}.

#[export] Instance locmem_spec : DjangoCacheSpec (gmap string Z).
Proof.
  split; unfold dc_incr, dc_set, dc_view, locmem.
  - intros key s n s'. destruct (s !! key) as [v|]; [|done]. intros [= <- <-]. by exists v.
  - intros key s s'. destruct (s !! key) eqn:E; [done|]. by intros [= <-].
  - by intros key v s s' [= <-].
Qed.

(** ** Handlers *)

(** The two stores, and what was logged. *)
Record Stores (R K : Type) : Type := {
  st_redis : R;
  st_cache : K;
  st_failures : list exn;                (* [logger.exception] *)
}.
Arguments st_redis {R K} s.
Arguments st_cache {R K} s.
Arguments st_failures {R K} s.

(** The [rule_saved] a listener gets; a delete has no [created]. *)
Record RuleSaved : Type := { rs_rule : string; rs_created : option bool }.

Section Handlers.
Context {R K : Type} `{RedisClient R} `{DjangoCache K}.
Abbreviation S := (Stores R K).
(** What [get_redis_connection(alias)] raises now ([None]: a connection),
    whether the alias is a configured cache, and the time. *)
Context (connect_error : option exn) (alias_configured : bool) (now : Z).

Definition with_redis {A} (m : M R A) : M S A := λ s,
  let '(r, rd) := m (st_redis s) in
  (r, {| st_redis := rd; st_cache := st_cache s; st_failures := st_failures s |}).
Definition with_cache {A} (m : M K A) : M S A := λ s,
  let '(r, k) := m (st_cache s) in
  (r, {| st_redis := st_redis s; st_cache := k; st_failures := st_failures s |}).
Definition log_failure (e : exn) : M S unit :=
  modify (λ s, {| st_redis := st_redis s; st_cache := st_cache s; st_failures := st_failures s ++ [e] |}).

(** [_get_cache]: whether the connection is native Redis. *)
Definition get_cache : res bool :=
  match connect_error with
  | None => Ok true
  | Some e =>
      if is_backend_error e then
        if alias_configured then Ok false else Raise (OtherError "InvalidCacheBackendError")
      else Raise e
  end.

(** [_invalidate_rule_cache]. *)
Definition invalidate_version : M S unit :=
  try_except
    (is_redis <- lift_res get_cache ;;
     if is_redis : bool then with_redis (exec now (INCR RULES_VERSION_KEY)) ;;; ret tt
     else try_except (with_cache (dc_incr RULES_VERSION_KEY) ;;; ret tt)
            (λ e, if bool_decide (e = ValueError) then with_cache (dc_set RULES_VERSION_KEY 1) else raise e))
    log_failure.

(** The listeners of [rule_saved], run by [send] in turn. *)
Context (rule_saved : RuleSaved → M S unit).

(** [_emit_rule_saved]. *)
Definition emit_rule_saved (rule : string) (created : option bool) : M S unit :=
  try_except (rule_saved {| rs_rule := rule; rs_created := created |}) log_failure.

(** The receivers of [post_save] ([created] when Django says so) and of
    [post_delete], the same for both kinds of rule. *)
Definition on_rule_save (rule : string) (created : option bool) : M S unit :=
  invalidate_version ;;; emit_rule_saved rule (Some (default false created)).
Definition on_rule_delete (rule : string) : M S unit :=
  invalidate_version ;;; emit_rule_saved rule None.
End Handlers.

(** ** The log of blocked requests *)

(** What a sender passes as the rule. *)
Inductive RuleArg : Type :=
| NoRule
| RuleInstance (id text : string)
| RuleId (text : string).

(** The [extra] of the entry. *)
Record BlockedEntry : Type := {
  be_waf_event : string;
  be_ip_address : string;
  be_user_agent : string;
  be_path : string;
  be_verdict : string;
  be_rule_id : option string;
  be_rule_name : option string;
}.

Definition on_request_blocked (ip_address path : string) (rule : RuleArg) (verdict : string)
    (user_agent : option string) : BlockedEntry :=
  let '(rule_id, rule_name) :=
    match rule with
    | NoRule => (None, None)
    | RuleInstance id text => (Some id, Some text)
    | RuleId text => (Some text, None)
    end in
  {| be_waf_event := "request_blocked"; be_ip_address := ip_address;
     be_user_agent := default "" user_agent; be_path := path; be_verdict := verdict;
     be_rule_id := rule_id; be_rule_name := rule_name |}.

(** ** Properties *)

Lemma invalidate_version_total {R K} `{RedisClient R} `{DjangoCache K} connect_error alias_configured now
    (s : Stores R K) :
  ∃ s', invalidate_version connect_error alias_configured now s = (Ok tt, s').
Proof.
  destruct (total_inv (invalidate_version (R := R) (K := K) connect_error alias_configured now) s) as ([] & s' & E);
    [by apply total_try|by exists s'].
Qed.

Module HandlersProps.

(** On the Django cache the version goes up by one, from nothing as from zero,
    or the failure is on record; Redis is not touched. *)
Lemma django_version_advances {R K} `{RedisClient R} `{DjangoCacheSpec K} e now (s : Stores R K) :
  is_backend_error e = true →
  ∃ s', invalidate_version (Some e) true now s = (Ok tt, s') ∧ st_redis s' = st_redis s ∧
    ((st_failures s' = st_failures s ∧
      dc_view (st_cache s') = <[RULES_VERSION_KEY := 1 + default 0 (dc_view (st_cache s) !! RULES_VERSION_KEY)]>
                                (dc_view (st_cache s))) ∨
     ∃ failure, st_failures s' = st_failures s ++ [failure]).
Proof.
  intros He. unfold invalidate_version, get_cache. rewrite He. cbn [lift_res].
  unfold try_except, bind, lift_res, with_cache.
  destruct (dc_incr RULES_VERSION_KEY (st_cache s)) as [[n|f] k] eqn:Ei.
  - destruct (incr_documented _ _ _ _ Ei) as (v & Hv & _ & Hk). eexists. split; [reflexivity|].
    split; [done|]. left. split; [done|]. cbn [st_cache]. rewrite Hk, Hv. cbn [default from_option id].
    by rewrite Z.add_comm.
  - case_bool_decide as Hf.
    + subst f. destruct (incr_missing _ _ _ Ei) as (Hv & Hk). cbn [st_cache].
      destruct (dc_set RULES_VERSION_KEY 1 k) as [[[]|g] k2] eqn:Es.
      * eexists. split; [reflexivity|]. split; [done|]. left. split; [done|]. cbn [st_cache].
        rewrite (set_documented _ _ _ _ Es), Hk, Hv. done.
      * eexists. split; [reflexivity|]. split; [done|]. right. by exists g.
    + unfold raise. eexists. split; [reflexivity|]. split; [done|]. right. by exists f.
Qed.

(** A handler never raises, whatever the stores and the listeners do; the
    listeners run once, after the version was advanced. *)
Lemma handlers_never_raise {R K} `{RedisClient R} `{DjangoCache K} connect_error alias_configured now
    rule_saved rule created (s : Stores R K) :
  ∃ s1 s2, invalidate_version connect_error alias_configured now s = (Ok tt, s1) ∧
    on_rule_save connect_error alias_configured now rule_saved rule created s = (Ok tt, s2) ∧
    let saved := {| rs_rule := rule; rs_created := Some (default false created) |} in
    match rule_saved saved s1 with
    | (Ok _, s3) => s2 = s3
    | (Raise e, s3) => st_redis s2 = st_redis s3 ∧ st_cache s2 = st_cache s3 ∧ st_failures s2 = st_failures s3 ++ [e]
    end.
Proof.
  destruct (invalidate_version_total connect_error alias_configured now s) as (s1 & E). exists s1. unfold on_rule_save. rewrite (bind_Ok _ _ _ _ _ E). unfold emit_rule_saved, try_except. cbv zeta.
  destruct (rule_saved _ s1) as [[[]|f] s3]; eexists; (split; [done|]); split; done.
Qed.

Example cold_cache_is_seeded :
  let cold := {| st_redis := {| mem := ∅ |}; st_cache := (∅ : gmap string Z); st_failures := [] |} in
  let once := invalidate_version (Some (OtherError "ImportError")) true 0 cold in
  st_cache once.2 !! RULES_VERSION_KEY = Some 1 ∧
  st_cache (invalidate_version (Some (OtherError "ImportError")) true 0 once.2).2 !! RULES_VERSION_KEY = Some 2.
Proof. vm_compute. split; reflexivity. Qed.
End HandlersProps.
