(* ===== verification/Citations.v ===== *)
(** * The guard over business-rule citations ([scripts/check_br_citations.py])

    Every rule id cited in a file of [src/] is to be found in the specification.
    The two patterns are matched by hand-written scanners ([cite_at] is one
    match at a position; nothing in the patterns needs backtracking); the
    directories are trees of files. *)

From Stdlib Require Import ZArith Lia Ascii String.
From stdpp Require Import base tactics option list strings numbers gmap.
From S2P Require Import Prelude PyStr Regex.

Open Scope Z_scope.

(** ** The patterns *)

Definition is_upper (c : ascii) : bool := (65 <=? code c) && (code c <=? 90).
Definition is_lower (c : ascii) : bool := (97 <=? code c) && (code c <=? 122).

(** The longest prefix in a class, and the rest. *)
Fixpoint span (p : ascii → bool) (s : string) : string * string :=
  match s with
  | EmptyString => ("", "")
  | String c s' => if p c then let '(a, b) := span p s' in (String c a, b) else ("", s)
  end.

(** [CITATION_PATTERN] at the head of a text: the match and what follows. *)
Definition cite_at (s : string) : option (string * string) :=
  if negb (starts_with "BR-" s) then None else
  let '(letters, s) := span is_upper (str_drop 3 s) in
  if str_empty letters then None else
  match s with
  | String "-" s =>
      let '(digits, s) := span is_digit s in
      if str_empty digits then None else
      let id := "BR-" +:+ letters +:+ "-" +:+ digits in
      match s with
      | String c r => if is_lower c then Some (id +:+ String c "", r) else Some (id, s)
      | EmptyString => Some (id, "")
      end
  | _ => None
  end.

(** [findall]: [skip] characters are inside the last match. *)
Fixpoint findall (skip : nat) (s : string) : list string :=
  match s with
  | EmptyString => []
  | String _ rest =>
      match skip with
      | S skip => findall skip rest
      | O => match cite_at s with
             | Some (id, _) => id :: findall (pred (String.length id)) rest
             | None => findall O rest
             end
      end
  end.

(** [HEADING_PATTERN] on one line: the id, and [\b] after it. *)
Definition heading_at (line : string) : list string :=
  if negb (starts_with "### " line) then [] else
  match cite_at (str_drop 4 line) with
  | Some (id, String c _) => if is_word c then [] else [id]
  | Some (id, EmptyString) => [id]
  | None => []
  end.

Definition find_headings (text : string) : list string := flat_map heading_at (split_on "010" text).

(** ** Directories *)

(** A file is its text, or [None] when it is not UTF-8. *)
Inductive Tree : Type :=
| File (text : option string)
| Dir (entries : list (string * Tree)).

Definition EXCLUDED_DIR_NAMES : list string := ["__pycache__"; ".git"].
Definition EXCLUDED_DIR_SUFFIXES : list string := [".egg-info"; ".dist-info"].
Definition excluded (name : string) : bool :=
  bool_decide (name ∈ EXCLUDED_DIR_NAMES) || existsb (λ x, ends_with x name) EXCLUDED_DIR_SUFFIXES.

Definition is_dir (t : Tree) : bool := match t with Dir _ => true | File _ => false end.

(** [iter_src_files]: the texts of the files under a directory. *)
Fixpoint iter_src_files (t : Tree) : list (option string) :=
  match t with
  | File text => [text]
  | Dir entries =>
      flat_map (λ e, let '(name, t) := e in if is_dir t && excluded name then [] else iter_src_files t) entries
  end.

(** ** The guard *)

Definition GuardError : exn := OtherError "GuardError".
Definition UnicodeDecodeError : exn := OtherError "UnicodeDecodeError".

Definition CONTROL_RULE_IDS : list string := ["BR-UA-002"; "BR-EVAL-001"; "BR-ANOM-002b"].
Definition CONTROL_CITATION : string := "BR-UA-002".

(** [read_text]. *)
Definition read_text (text : option string) : res string :=
  match text with Some s => Ok s | None => Raise UnicodeDecodeError end.

(** The loops of the two collectors: a set grows by what each file holds. *)
Fixpoint collect (find : string → list string) (on_error : exn) (files : list (option string))
    (found : gset string) : res (gset string) :=
  match files with
  | [] => Ok found
  | file :: files =>
      match read_text file with
      | Ok text => collect find on_error files (found ∪ list_to_set (find text))
      | Raise _ => Raise on_error
      end
  end.

Definition collect_citations (src_dir : option Tree) : res (gset string) :=
  match src_dir with
  | Some (Dir entries) => collect (findall O) GuardError (iter_src_files (Dir entries)) ∅
  | _ => Raise GuardError
  end.

Definition collect_rules_and_headings (spec_files : list (option string)) : res (gset string * gset string) :=
  res_bind (collect (findall O) UnicodeDecodeError spec_files ∅) (λ rules,
  res_bind (collect find_headings UnicodeDecodeError spec_files ∅) (λ headings,
  Ok (rules, headings))).

Definition run_controls (citations rules headings : gset string) : res unit :=
  if existsb (λ id, negb (bool_decide (id ∈ rules))) CONTROL_RULE_IDS then Raise GuardError
  else if negb (bool_decide (CONTROL_CITATION ∈ citations)) then Raise GuardError
  else if bool_decide (headings = ∅) then Raise GuardError
  else Ok tt.

(** What [main] reports before it exits. *)
Record Report : Type := {
  rp_reconcile : bool;
  rp_dangling : list string;
  rp_mentioned_no_heading : list string;
}.

Definition sorted_set (s : gset string) : list string := sort_by str_leb (elements s).

(** [main]: the report, if it got there, and the exit status; an exception
    that is not a [GuardError] leaves through the interpreter, with status 1.
    [spec_files] are the Markdown files, none when there is no directory. *)
Definition main (require_spec : bool) (src_dir : option Tree) (spec_files : list (option string))
  : option Report * Z :=
  match spec_files with
  | [] => (None, if require_spec then 1 else 0)
  | _ =>
      match res_bind (collect_citations src_dir) (λ citations,
            res_bind (collect_rules_and_headings spec_files) (λ '(rules, headings),
            res_bind (run_controls citations rules headings) (λ _, Ok (citations, rules, headings)))) with
      | Raise _ => (None, 1)
      | Ok (citations, rules, headings) =>
          let dangling := sorted_set (citations ∖ rules) in
          (Some {| rp_reconcile := bool_decide (size rules = size headings); rp_dangling := dangling;
                   rp_mentioned_no_heading := sorted_set (rules ∖ headings) |},
           match dangling with [] => 0 | _ => 1 end)
      end
  end.

(** ** The scanner finds the match at every position *)

Definition head_not (p : ascii → bool) (s : string) : Prop :=
  match s with EmptyString => True | String c _ => p c = false end.

Lemma span_inv p s a b : span p s = (a, b) → s = a +:+ b ∧ str_forall p a = true ∧ head_not p b.
Proof.
  revert a b. induction s as [|c s IH]; cbn; [by intros ?? [= <- <-]|].
  intros a b. destruct (p c) eqn:Hc; [|intros [= <- <-]; by cbn].
  destruct (span p s) as [a' b']. intros [= <- <-]. destruct (IH _ _ eq_refl) as (-> & Ha & Hb).
  cbn. by rewrite Hc, Ha.
Qed.

(** A match, taken apart. *)
Definition citation (letters digits suffix : string) : string := "BR-" +:+ letters +:+ "-" +:+ digits +:+ suffix.

Definition well_formed (letters digits suffix : string) : Prop :=
  letters ≠ "" ∧ str_forall is_upper letters = true ∧ digits ≠ "" ∧ str_forall is_digit digits = true ∧
  str_forall is_lower suffix = true ∧ (String.length suffix <= 1)%nat.

Lemma cite_at_inv s id r :
  cite_at s = Some (id, r) →
  ∃ letters digits suffix, s = id +:+ r ∧ id = citation letters digits suffix ∧ well_formed letters digits suffix.
Proof.
  unfold cite_at. destruct (starts_with "BR-" s) eqn:Hs; [|done]. cbn [negb].
  apply starts_with_spec in Hs as (s0 & ->). change (str_drop 3 ("BR-" +:+ s0)) with s0.
  destruct (span is_upper s0) as [L s1] eqn:E1. apply span_inv in E1 as (-> & HL & _).
  destruct (str_empty L) eqn:EL; [done|]. destruct s1 as [|c s1]; [done|].
  destruct (decide (c = "-"%char)) as [->|Hc].
  2: { intros H. exfalso. destruct c as [[] [] [] [] [] [] [] []]; done. }
  destruct (span is_digit s1) as [D s2] eqn:E2. apply span_inv in E2 as (-> & HD & _).
  destruct (str_empty D) eqn:ED; [done|].
  assert (HL0 : L ≠ "") by by intros ->. assert (HD0 : D ≠ "") by by intros ->.
  assert (Hout : ∀ suffix r0, str_forall is_lower suffix = true → (String.length suffix <= 1)%nat →
    ∃ letters digits suffix', "BR-" +:+ L +:+ String "-" (D +:+ suffix +:+ r0)
      = ("BR-" +:+ L +:+ "-" +:+ D +:+ suffix) +:+ r0 ∧
      "BR-" +:+ L +:+ "-" +:+ D +:+ suffix = citation letters digits suffix' ∧ well_formed letters digits suffix').
  { intros suffix r0 H1 H2. exists L, D, suffix. split; [|done].
    by rewrite !str_app_assoc. }
  destruct s2 as [|c s2].
  - intros H. injection H as H1 H2. subst id r. destruct (Hout "" "" eq_refl ltac:(cbn; lia)) as (a & b & e & E & W).
    exists a, b, e. rewrite !str_app_nil_r in *. split; [exact E|exact W].
  - destruct (is_lower c) eqn:Hlc; intros H; injection H as H1 H2; subst id r.
    + destruct (Hout (String c "") s2 ltac:(cbn; by rewrite Hlc) ltac:(cbn; lia)) as (a & b & e & E & W).
      exists a, b, e. rewrite (str_app_assoc L). split; [exact E|exact W].
    + destruct (Hout "" (String c s2) eq_refl ltac:(cbn; lia)) as (a & b & e & E & W).
      exists a, b, e. rewrite str_app_nil_r in *. split; [exact E|exact W].
Qed.

(** A position inside a match starts none. *)
Fixpoint quiet (y r : string) : Prop :=
  match y with EmptyString => True | String c y' => cite_at (y +:+ r) = None ∧ quiet y' r end.

Lemma quiet_app a b r : quiet a (b +:+ r) → quiet b r → quiet (a +:+ b) r.
Proof.
  induction a as [|c a IH]; [done|]. intros [Hc Ha] Hb. cbn [append quiet]. split; [|by apply IH].
  change (String c (a +:+ b) +:+ r) with ((String c a +:+ b) +:+ r). by rewrite str_app_assoc.
Qed.

Lemma cite_at_head c s : c ≠ "B"%char → cite_at (String c s) = None.
Proof.
  intros Hc. unfold cite_at. assert (Hs : starts_with "BR-" (String c s) = false).
  { destruct (starts_with _ _) eqn:E; [|done]. apply starts_with_spec in E as (t & E). cbn in E. congruence. }
  by rewrite Hs.
Qed.

Lemma quiet_heads (p : ascii → bool) y r : p "B"%char = false → str_forall p y = true → quiet y r.
Proof.
  intros HB. induction y as [|c y IH]; [done|]. cbn. intros [Hc Hy]%andb_true_iff. split; [|by apply IH].
  apply cite_at_head. congruence.
Qed.

(** In the letters, the hyphen comes too early or no letter follows it. *)
Lemma quiet_letters L D s :
  str_forall is_upper L = true → D ≠ "" → str_forall is_digit D = true → quiet L (String "-" (D +:+ s)).
Proof.
  intros HL HD0 HD. induction L as [|c L IH]; [done|]. cbn [str_forall] in HL. apply andb_true_iff in HL as [Hc HL].
  split; [|by apply IH]. unfold cite_at.
  destruct (starts_with "BR-" _) eqn:E; [|done]. apply starts_with_spec in E as (t & E). cbn [negb].
  destruct L as [|d L]; [cbn in E; congruence|]. destruct L as [|e L].
  - cbn in E. injection E as -> -> Et. cbn [append str_drop]. destruct D as [|f D]; [done|].
    cbn [str_forall] in HD. apply andb_true_iff in HD as [Hf _]. cbn [append span].
    assert (Hu : is_upper f = false).
    { unfold is_digit, is_upper in *. bool_hyps. apply andb_false_iff. left. apply Z.leb_gt. lia. }
    by rewrite Hu.
  - exfalso. cbn in E. injection E as -> -> -> Et. cbn [str_forall] in HL. bool_hyps. discriminate.
Qed.

Lemma citation_quiet L D x r : well_formed L D x → quiet (str_drop 1 (citation L D x)) r.
Proof.
  intros (HL0 & HL & HD0 & HD & Hx & _). change (str_drop 1 (citation L D x)) with ("R-" +:+ L +:+ "-" +:+ D +:+ x).
  apply quiet_app; [by apply (quiet_heads (λ c, negb (bool_decide (c = "B"%char))))|].
  apply quiet_app.
  { rewrite !str_app_assoc. change ("-" +:+ ?z) with (String "-" z). by apply quiet_letters. }
  apply (quiet_heads (λ c, is_digit c || is_lower c || bool_decide (c = "-"%char))); [done|].
  cbn [append str_forall]. rewrite str_forall_app. apply andb_true_iff. split; [done|]. apply andb_true_iff.
  split; [eapply str_forall_impl, HD|eapply str_forall_impl, Hx]; intros c Hc; rewrite Hc; [done|by rewrite orb_true_r].
Qed.

(** The match at every position. *)
Fixpoint cites (s : string) : list string :=
  match s with
  | EmptyString => []
  | String _ rest => match cite_at s with Some (id, _) => [id] | None => [] end ++ cites rest
  end.

Lemma cites_quiet y r : quiet y r → cites (y +:+ r) = cites r.
Proof.
  induction y as [|c y IH]; [done|]. intros [Hc Hy]. change (String c y +:+ r) with (String c (y +:+ r)) in *.
  cbn [cites]. by rewrite Hc, IH.
Qed.

Lemma findall_skip y r : findall (String.length y) (y +:+ r) = findall O r.
Proof. induction y as [|c y IH]; [done|]. exact IH. Qed.

Lemma findall_cites s : findall O s = cites s.
Proof.
  remember (String.length s) as n eqn:En. revert s En. induction (lt_wf n) as [n _ IH]. intros s ->.
  destruct s as [|c s]; [done|]. cbn [findall cites]. destruct (cite_at (String c s)) as [[id r]|] eqn:E.
  - destruct (cite_at_inv _ _ _ E) as (L & D & x & Es & Eid & W).
    pose proof (citation_quiet L D x r W) as Hq. rewrite <- Eid in Hq.
    destruct id as [|d y]; [discriminate Eid|]. cbn in Es. injection Es as _ ->. cbn [String.length pred].
    cbn [str_drop] in Hq. rewrite findall_skip, (cites_quiet y r Hq). cbn [app]. f_equal.
    eapply IH; [|reflexivity]. cbn. rewrite str_app_length. lia.
  - eapply IH; [|reflexivity]. cbn. lia.
Qed.

(** ** What the collectors hold *)

(** Some file of [files] has [id] where [find] looks. *)
Definition found_in (find : string → list string) (files : list (option string)) (id : string) : Prop :=
  ∃ text, In (Some text) files ∧ In id (find text).
Definition readable (files : list (option string)) : Prop := ¬ In None files.

Lemma collect_spec find e files found :
  (readable files ∧ ∃ got, collect find e files found = Ok got ∧
     ∀ id, id ∈ got ↔ id ∈ found ∨ found_in find files id) ∨
  (¬ readable files ∧ collect find e files found = Raise e).
Proof.
  revert found. induction files as [|[text|] files IH]; intros found.
  - left. split; [by intros []|]. exists found. split; [done|]. intros id. split; [by left|].
    intros [H|(s & [] & _)]; done.
  - cbn [collect read_text]. destruct (IH (found ∪ list_to_set (find text))) as [(Hr & got & E & Hg)|(Hr & E)]; rewrite E.
    + left. split; [intros [Hn|Hn]; [discriminate|by apply Hr]|]. exists got. split; [done|]. intros id.
      rewrite Hg, elem_of_union, elem_of_list_to_set, list_elem_of_In. unfold found_in. split.
      * intros [[Hin|Hin]|(s & Hs & Hin)]; [by left|right; exists text; by split; [left|]|].
        right. exists s. by split; [right|].
      * intros [Hin|(s & [[= <-]|Hs] & Hin)]; [by do 2 left|by left; right|right; by exists s].
    + right. split; [|done]. intros Hn. apply Hr. intros H. apply Hn. by right.
  - right. split; [|done]. intros Hr. apply Hr. by left.
Qed.

Lemma empty_list_sort (s : gset string) : sorted_set s = [] ↔ s = ∅.
Proof.
  unfold sorted_set. split.
  - intros E. apply leibniz_equiv, elements_empty_iff, Permutation_nil. rewrite <- E. apply sort_by_perm.
  - intros ->. by rewrite elements_empty.
Qed.

Module CitationsProps.

(** The guard passes exactly when it has something to vouch for: every file of
    the source directory and every specification file is text, the control
    citation and the control rules are there, some heading is, and every rule id
    that stands anywhere in a source file, at whatever position, stands in the
    specification too.  It never passes by having looked at nothing. *)
Lemma guard_passes_exactly src_dir spec_files :
  (main true src_dir spec_files).2 = 0 ↔
  ∃ entries, src_dir = Some (Dir entries) ∧
    let src_files := iter_src_files (Dir entries) in
    readable src_files ∧ readable spec_files ∧
    found_in cites src_files CONTROL_CITATION ∧
    (∀ id, In id CONTROL_RULE_IDS → found_in cites spec_files id) ∧
    (∃ id, found_in find_headings spec_files id) ∧
    ∀ id, found_in cites src_files id → found_in cites spec_files id.
Proof.
  assert (Hf : ∀ files id, found_in (findall O) files id ↔ found_in cites files id)
    by (intros files id; unfold found_in; by setoid_rewrite findall_cites).
  unfold main, collect_citations, collect_rules_and_headings, run_controls.
  destruct spec_files as [|f spec]; cbn [snd].
  { split; [done|]. intros (es & _ & _ & _ & _ & Hc & _). destruct (Hc "BR-UA-002" (or_introl eq_refl)) as (? & [] & _). }
  set (specs := f :: spec) in *. destruct src_dir as [[text|entries]|]; cbn [res_bind snd];
    [split; [done|by intros (es & [=] & _)]| |split; [done|by intros (es & [=] & _)]].
  destruct (collect_spec (findall O) GuardError (iter_src_files (Dir entries)) ∅) as [(Hs & cit & -> & Hcit)|(Hs & ->)];
    cbn [res_bind snd]; [|split; [done|]; intros (es & [= <-] & Hr & _); done].
  destruct (collect_spec (findall O) UnicodeDecodeError specs ∅) as [(Hr & rules & -> & Hrules)|(Hr & ->)];
    cbn [res_bind snd]; [|split; [done|]; intros (es & _ & _ & Hr' & _); done].
  destruct (collect_spec find_headings UnicodeDecodeError specs ∅) as [(_ & heads & -> & Hheads)|(Hr' & _)];
    cbn [res_bind snd]; [|done].
  assert (Hcit' : ∀ id, id ∈ cit ↔ found_in cites (iter_src_files (Dir entries)) id)
    by (intros id; rewrite Hcit, Hf; set_solver).
  assert (Hrules' : ∀ id, id ∈ rules ↔ found_in cites specs id) by (intros id; rewrite Hrules, Hf; set_solver).
  destruct (existsb _ CONTROL_RULE_IDS) eqn:Ec; cbn [res_bind snd].
  { split; [done|]. intros (es & _ & _ & _ & _ & Hc & _). apply existsb_exists in Ec as (id & Hid & Hn).
    by rewrite bool_decide_true in Hn by by apply Hrules', Hc. }
  destruct (decide (CONTROL_CITATION ∈ cit)) as [Hcc|Hcc];
    [rewrite (bool_decide_true _ Hcc)|rewrite (bool_decide_false _ Hcc)]; cbn [negb res_bind snd].
  2: { split; [done|]. intros (es & [= <-] & _ & _ & Hc & _). by destruct Hcc; apply Hcit'. }
  destruct (decide (heads = ∅)) as [Hh|Hh]; [rewrite (bool_decide_true _ Hh)|rewrite (bool_decide_false _ Hh)];
    cbn [res_bind snd].
  { split; [done|]. intros (es & _ & _ & _ & _ & _ & (id & Hid) & _). exfalso. subst heads. set_solver. }
  destruct (sorted_set (cit ∖ rules)) as [|x l] eqn:Ed; cbn [snd].
  - apply empty_list_sort in Ed. split; [intros _|done]. exists entries. split; [done|]. split; [done|]. split; [done|].
    split; [by apply Hcit'|]. split; [|split].
    + intros id Hid. apply Hrules'. rewrite existsb_false_iff in Ec. specialize (Ec id Hid). by bool_hyps.
    + apply set_choose_L in Hh as (id & Hid). exists id. set_solver.
    + intros id Hid%Hcit'. apply Hrules'. set_solver.
  - split; [done|]. intros (es & [= <-] & _ & _ & _ & _ & _ & Hsub). exfalso.
    assert (Hne : cit ∖ rules ≠ ∅) by (intros E; apply empty_list_sort in E; congruence).
    apply Hne. set_solver.
Qed.

(** The report calls a cited rule defined when the specification only mentions
    it: no heading defines [BR-X-001], and the guard passes. *)
Definition lax_spec : list (option string) :=
  [Some ("### BR-UA-002" +:+ String "010" "BR-EVAL-001, BR-ANOM-002b; BR-X-001 has yet to be written.")].
Definition lax_src : Tree :=
  Dir [("a.py", File (Some "# BR-UA-002 and BR-X-001"));
       ("x.egg-info", Dir [("PKG-INFO", File (Some "BR-NONE-001"))])].

Example mention_is_enough :
  (main true (Some lax_src) lax_spec).2 = 0 ∧
  flat_map find_headings (omap id lax_spec) = ["BR-UA-002"].
Proof. vm_compute. split; reflexivity. Qed.
End CitationsProps.
