(* ===== verification/Schema.v ===== *)
(** * The database schema ([models.py], [migrations/], [enums.py])

    Fields, options, indexes and constraints as the declarations give them, once
    in the model classes and once as the operations of the migrations.  Replaying
    the operations from nothing gives the models; the columns so obtained are
    what the rows of the request log have to fit. *)

From Stdlib Require Import ZArith QArith Lia Ascii String.
From stdpp Require Import base tactics option list strings numbers gmap.
From S2P Require Import Prelude PyStr Hash Regex Conf Redis Http RateLimiter Fingerprint Models RuleEngine RuleEngineProofs RuleTransfer.
From S2P Require Import Middleware AccessLog.

Open Scope Z_scope.

(** ** Declarations *)

(** A keyword argument: a constant, a decimal by its text, a callable by its
    name, names, or pairs of a value and its label. *)
Inductive Lit : Type :=
| LStr (s : string)
| LInt (z : Z)
| LBool (b : bool)
| LDecimal (s : string)
| LName (s : string)
| LNames (l : list string)
| LPairs (l : list (string * string)).

#[export] Instance Lit_eq_dec : EqDecision Lit.
Proof. solve_decision. Defined.

(** A field: its class and its arguments. *)
Record Field : Type := { fd_class : string; fd_kwargs : list (string * Lit) }.

#[export] Instance Field_eq_dec : EqDecision Field.
Proof. solve_decision. Defined.

Definition field (cls : string) (kwargs : list (string * Lit)) : Field :=
  {| fd_class := cls; fd_kwargs := kwargs |}.

(** The [Q] of a partial index or constraint. *)
Inductive Cond : Type :=
| QEq (name : string) (v : Lit)
| QAnd (a b : Cond)
| QNot (a : Cond).

#[export] Instance Cond_eq_dec : EqDecision Cond.
Proof. solve_decision. Defined.

(** An [Index] or a [UniqueConstraint]. *)
Record Keyed : Type := { ky_name : string; ky_fields : list string; ky_condition : option Cond }.

#[export] Instance Keyed_eq_dec : EqDecision Keyed.
Proof. solve_decision. Defined.

Definition keyed (name : string) (fields : list string) (condition : option Cond) : Keyed :=
  {| ky_name := name; ky_fields := fields; ky_condition := condition |}.

Record ModelState : Type := {
  ms_name : string;
  ms_fields : list (string * Field);
  ms_options : list (string * Lit);
  ms_indexes : list Keyed;
  ms_constraints : list Keyed;
}.

#[export] Instance ModelState_eq_dec : EqDecision ModelState.
Proof. solve_decision. Defined.

Inductive Operation : Type :=
| CreateModel (m : ModelState)
| AddField (model_name name : string) (f : Field)
| AlterField (model_name name : string) (f : Field)
| AddIndex (model_name : string) (i : Keyed)
| AddConstraint (model_name : string) (c : Keyed)
| RunPython.                              (* rows, not the schema *)

Record Migration : Type := {
  mg_name : string;
  mg_dependencies : list string;
  mg_operations : list Operation;
}.

(** ** The values of the enumerations *)

Definition ReviewStatus_value (s : ReviewStatus) : string :=
  match s with
  | NOT_APPLICABLE => "not_applicable" | PENDING_REVIEW => "pending" | CONFIRMED => "confirmed"
  | REJECTED => "rejected" | EXPIRED_UNREVIEWED => "expired_unreviewed"
  end.

Definition Verdict_value (v : Verdict) : string :=
  match v with
  | ALLOWED => "allowed" | BLOCKED => "blocked" | CHALLENGED => "challenged"
  | THROTTLED => "throttled" | PASSED => "passed" | LOGGED => "logged"
  end.

Definition ChallengeStatus_value (s : ChallengeStatus) : string :=
  match s with
  | ChallengeStatus_PENDING => "pending" | ChallengeStatus_SOLVED => "solved"
  | ChallengeStatus_EXPIRED => "expired" | ChallengeStatus_FAILED => "failed"
  end.

Definition RequestLogSource_value (s : RequestLogSource) : string :=
  match s with MIDDLEWARE => "middleware" | NGINX_LOG => "nginx_log" end.

Definition RuleAction_choices : list (string * string) :=
  [("block", "Block"); ("challenge", "Challenge"); ("throttle", "Throttle"); ("log_only", "Log only")].

Definition RuleType_choices : list (string * string) :=
  [("ua", "User-agent"); ("ip", "IP address"); ("cidr", "CIDR range"); ("composite", "Composite")].

Definition MatchType_choices : list (string * string) :=
  [("exact", "Exact"); ("regex", "Regex"); ("contains", "Contains"); ("cidr", "CIDR")].

Definition RuleSource_choices : list (string * string) :=
  [("admin", "Admin"); ("auto", "Auto-generated"); ("feed", "Threat feed")].

Definition ReviewStatus_choices : list (string * string) :=
  [("not_applicable", "Not applicable"); ("pending", "Pending review"); ("confirmed", "Confirmed"); ("rejected", "Rejected"); ("expired_unreviewed", "Expired unreviewed")].

Definition Verdict_choices : list (string * string) :=
  [("allowed", "Allowed"); ("blocked", "Blocked"); ("challenged", "Challenged"); ("throttled", "Throttled"); ("passed", "Passed"); ("logged", "Logged")].

Definition ChallengeStatus_choices : list (string * string) :=
  [("pending", "Pending"); ("solved", "Solved"); ("expired", "Expired"); ("failed", "Failed")].

Definition RequestLogSource_choices : list (string * string) :=
  [("middleware", "Middleware"); ("nginx_log", "Nginx access log")].

Definition BaseModel_fields : list (string * Field) :=
  [("id", field "UUIDField" [("primary_key", LBool true); ("default", LName "uuid.uuid4"); ("editable", LBool false)]);
   ("created_at", field "DateTimeField" [("auto_now_add", LBool true); ("db_index", LBool true)]);
   ("updated_at", field "DateTimeField" [("auto_now", LBool true)])].

Definition MATCHED_RULE_TYPE_CHOICES : list (string * string) :=
  [("block", "Block rule"); ("allow", "Allow rule")].

Definition BlockRule_fields : list (string * Field) :=
  [("name", field "CharField" [("max_length", LInt 255); ("verbose_name", LStr "name")]);
   ("rule_type", field "CharField" [("max_length", LInt 20); ("choices", LPairs RuleType_choices); ("db_index", LBool true); ("verbose_name", LStr "rule type")]);
   ("match_type", field "CharField" [("max_length", LInt 20); ("choices", LPairs MatchType_choices); ("verbose_name", LStr "match type")]);
   ("pattern", field "CharField" [("max_length", LInt 2048); ("db_index", LBool true); ("verbose_name", LStr "pattern"); ("help_text", LStr "Value to match against (IP, CIDR, user-agent string, or regex).")]);
   ("action", field "CharField" [("max_length", LInt 20); ("choices", LPairs RuleAction_choices); ("default", LStr (RuleAction_value RuleAction_BLOCK)); ("verbose_name", LStr "action")]);
   ("priority", field "PositiveIntegerField" [("default", LInt 100); ("db_index", LBool true); ("verbose_name", LStr "priority"); ("help_text", LStr "Lower numbers are evaluated first.")]);
   ("is_active", field "BooleanField" [("default", LBool true); ("db_index", LBool true); ("verbose_name", LStr "active")]);
   ("source", field "CharField" [("max_length", LInt 20); ("choices", LPairs RuleSource_choices); ("default", LStr (RuleSource_value RuleSource_ADMIN)); ("verbose_name", LStr "source")]);
   ("expires_at", field "DateTimeField" [("null", LBool true); ("blank", LBool true); ("db_index", LBool true); ("verbose_name", LStr "expires at"); ("help_text", LStr "Leave blank for rules that never expire.")]);
   ("hit_count", field "PositiveIntegerField" [("default", LInt 0); ("verbose_name", LStr "hit count")]);
   ("last_hit_at", field "DateTimeField" [("null", LBool true); ("blank", LBool true); ("verbose_name", LStr "last hit at")]);
   ("confidence", field "DecimalField" [("max_digits", LInt 3); ("decimal_places", LInt 2); ("default", LDecimal "1.00"); ("verbose_name", LStr "confidence"); ("help_text", LStr "Confidence score from 0.00 to 1.00 (feed-sourced rules only).")]);
   ("feed_first_seen", field "DateField" [("null", LBool true); ("blank", LBool true); ("verbose_name", LStr "feed first seen")]);
   ("feed_reporters", field "PositiveIntegerField" [("default", LInt 0); ("verbose_name", LStr "feed reporters"); ("help_text", LStr "Number of sites that reported this threat to the collective feed.")]);
   ("notes", field "TextField" [("blank", LBool true); ("verbose_name", LStr "notes"); ("help_text", LStr "Populated for feed-sourced rules today. Auto-generated rules populate this with a human-readable rendering of the detection evidence (BR-ANOM-009).")]);
   ("review_status", field "CharField" [("max_length", LInt 20); ("choices", LPairs ReviewStatus_choices); ("default", LStr (ReviewStatus_value NOT_APPLICABLE)); ("db_index", LBool true); ("verbose_name", LStr "review status"); ("help_text", LStr "Review state for an auto-generated rule (BR-ANOM-010). Stays 'not applicable' for admin and feed rules, and for auto rules that were never queued for review.")]);
   ("reviewed_at", field "DateTimeField" [("null", LBool true); ("blank", LBool true); ("verbose_name", LStr "reviewed at"); ("help_text", LStr "Set when review_status transitions to confirmed or rejected.")]);
   ("detectors", field "CharField" [("max_length", LInt 255); ("blank", LBool true); ("default", LStr ""); ("db_index", LBool true); ("verbose_name", LStr "detectors"); ("help_text", LStr "Comma-separated, sorted set of anomaly detector names that have ever caused a write to this row (e.g. 'detect_cloud_spray,detect_unsolved_challenges'). Additive, never overwritten: multiple detectors can independently target the same (rule_type, pattern, source=AUTO, action) shape, most commonly a shared subnet pattern, and each detector's own write only adds its name rather than replacing the set. Blank for admin and feed-sourced rules, and for auto-generated rules created before this field existed. Lets a detector's own promotion logic recognise a rule it has itself previously written, even after another detector has since written to the same row (#97).")])].

Definition BlockRule_model : ModelState :=
  {| ms_name := "BlockRule";
     ms_fields := BaseModel_fields ++ BlockRule_fields;
     ms_options := [("db_table", LStr "django_waf_block_rule");
                    ("ordering", LNames ["priority"; "-created_at"]);
                    ("verbose_name", LStr "block rule");
                    ("verbose_name_plural", LStr "block rules")];
     ms_indexes := [keyed "django_waf_br_type_active_idx" ["rule_type"; "is_active"] None;
                    keyed "django_waf_br_src_active_idx" ["source"; "is_active"] None;
                    keyed "django_waf_br_prio_active_idx" ["priority"; "is_active"] None;
                    keyed "django_waf_br_exp_active_idx" ["expires_at"] (Some (QEq "is_active" (LBool true)));
                    keyed "django_waf_br_review_idx" ["source"; "review_status"] None];
     ms_constraints := [keyed "django_waf_br_auto_key_uniq" ["rule_type"; "pattern"; "action"] (Some (QEq "source" (LStr (RuleSource_value RuleSource_AUTO))))] |}.

Definition AllowRule_fields : list (string * Field) :=
  [("name", field "CharField" [("max_length", LInt 255); ("verbose_name", LStr "name")]);
   ("rule_type", field "CharField" [("max_length", LInt 20); ("choices", LPairs RuleType_choices); ("db_index", LBool true); ("verbose_name", LStr "rule type")]);
   ("match_type", field "CharField" [("max_length", LInt 20); ("choices", LPairs MatchType_choices); ("verbose_name", LStr "match type")]);
   ("pattern", field "CharField" [("max_length", LInt 2048); ("verbose_name", LStr "pattern"); ("help_text", LStr "Value to match against (IP, CIDR, user-agent string, or regex).")]);
   ("verify_rdns", field "BooleanField" [("default", LBool false); ("verbose_name", LStr "verify rDNS"); ("help_text", LStr "Require reverse-DNS lookup to confirm the IP belongs to a trusted network.")]);
   ("rdns_pattern", field "CharField" [("max_length", LInt 255); ("blank", LBool true); ("verbose_name", LStr "rDNS pattern"); ("help_text", LStr "Regex or suffix matched against the PTR record when verify_rdns is enabled.")]);
   ("is_active", field "BooleanField" [("default", LBool true); ("db_index", LBool true); ("verbose_name", LStr "active")]);
   ("source", field "CharField" [("max_length", LInt 20); ("choices", LPairs RuleSource_choices); ("default", LStr (RuleSource_value RuleSource_ADMIN)); ("verbose_name", LStr "source")]);
   ("expires_at", field "DateTimeField" [("null", LBool true); ("blank", LBool true); ("db_index", LBool true); ("verbose_name", LStr "expires at"); ("help_text", LStr "Leave blank for rules that never expire.")]);
   ("confidence", field "DecimalField" [("max_digits", LInt 3); ("decimal_places", LInt 2); ("default", LDecimal "1.00"); ("verbose_name", LStr "confidence"); ("help_text", LStr "Confidence score from 0.00 to 1.00 (feed-sourced rules only).")]);
   ("feed_first_seen", field "DateField" [("null", LBool true); ("blank", LBool true); ("verbose_name", LStr "feed first seen")]);
   ("feed_reporters", field "PositiveIntegerField" [("default", LInt 0); ("verbose_name", LStr "feed reporters"); ("help_text", LStr "Number of sites that reported this allowlist entry to the collective feed.")]);
   ("notes", field "TextField" [("blank", LBool true); ("verbose_name", LStr "notes")])].

Definition AllowRule_model : ModelState :=
  {| ms_name := "AllowRule";
     ms_fields := BaseModel_fields ++ AllowRule_fields;
     ms_options := [("db_table", LStr "django_waf_allow_rule");
                    ("ordering", LNames ["name"]);
                    ("verbose_name", LStr "allow rule");
                    ("verbose_name_plural", LStr "allow rules")];
     ms_indexes := [keyed "django_waf_ar_type_active_idx" ["rule_type"; "is_active"] None;
                    keyed "django_waf_ar_active_idx" ["is_active"] None;
                    keyed "django_waf_ar_src_active_idx" ["source"; "is_active"] None];
     ms_constraints := [] |}.

Definition RequestLog_fields : list (string * Field) :=
  [("timestamp", field "DateTimeField" [("db_index", LBool true); ("verbose_name", LStr "timestamp")]);
   ("ip_address", field "GenericIPAddressField" [("db_index", LBool true); ("verbose_name", LStr "IP address")]);
   ("user_agent", field "CharField" [("max_length", LInt 1024); ("blank", LBool true); ("verbose_name", LStr "user-agent")]);
   ("path", field "CharField" [("max_length", LInt 2048); ("verbose_name", LStr "path")]);
   ("method", field "CharField" [("max_length", LInt 16); ("default", LStr "GET"); ("verbose_name", LStr "method")]);
   ("verdict", field "CharField" [("max_length", LInt 20); ("choices", LPairs Verdict_choices); ("db_index", LBool true); ("verbose_name", LStr "verdict")]);
   ("matched_rule_id", field "UUIDField" [("null", LBool true); ("blank", LBool true); ("db_index", LBool true); ("verbose_name", LStr "matched rule ID")]);
   ("matched_rule_type", field "CharField" [("max_length", LInt 10); ("choices", LPairs MATCHED_RULE_TYPE_CHOICES); ("blank", LBool true); ("default", LStr ""); ("verbose_name", LStr "matched rule type"); ("help_text", LStr "Which rule table matched: 'block' = a BlockRule, 'allow' = an AllowRule. This is the source table, NOT the enforced action: a BlockRule with action=challenge produces matched_rule_type='block' and verdict='challenged'. Use the verdict column for enforcement reporting; use this column for rule-source auditing.")]);
   ("anomaly_score", field "DecimalField" [("max_digits", LInt 4); ("decimal_places", LInt 2); ("null", LBool true); ("blank", LBool true); ("verbose_name", LStr "anomaly score")]);
   ("response_code", field "PositiveSmallIntegerField" [("null", LBool true); ("blank", LBool true); ("verbose_name", LStr "response code")]);
   ("referer", field "CharField" [("max_length", LInt 2048); ("blank", LBool true); ("verbose_name", LStr "referer"); ("help_text", LStr "HTTP Referer header value, useful for identifying bot traffic sources.")]);
   ("http_fingerprint", field "CharField" [("max_length", LInt 64); ("blank", LBool true); ("db_index", LBool true); ("verbose_name", LStr "HTTP fingerprint"); ("help_text", LStr "SHA-256 hash of normalised HTTP headers: identifies real client software.")]);
   ("fingerprint_verdict", field "CharField" [("max_length", LInt 20); ("blank", LBool true); ("verbose_name", LStr "fingerprint verdict"); ("help_text", LStr "Fingerprint classification: browser, bot, suspicious, unknown.")]);
   ("country_code", field "CharField" [("max_length", LInt 2); ("blank", LBool true); ("verbose_name", LStr "country code")]);
   ("source", field "CharField" [("max_length", LInt 20); ("choices", LPairs RequestLogSource_choices); ("default", LStr (RequestLogSource_value MIDDLEWARE)); ("db_index", LBool true); ("verbose_name", LStr "source"); ("help_text", LStr "Which pipeline wrote this row. 'middleware' rows carry a real WAF verdict; 'nginx_log' rows have a verdict inferred from the access log status code (#32). The default is 'middleware' so existing and future middleware writes are correctly tagged without the middleware needing to pass source explicitly.")]);
   ("source_event_id", field "CharField" [("max_length", LInt 128); ("blank", LBool true); ("default", LStr ""); ("verbose_name", LStr "source event ID"); ("help_text", LStr "Deterministic identity for a source event, used to dedupe re-ingested nginx access-log lines (#32). Populated only for source='nginx_log' rows; middleware rows leave this blank.")])].

Definition RequestLog_model : ModelState :=
  {| ms_name := "RequestLog";
     ms_fields := BaseModel_fields ++ RequestLog_fields;
     ms_options := [("db_table", LStr "django_waf_request_log");
                    ("ordering", LNames ["-timestamp"]);
                    ("verbose_name", LStr "request log");
                    ("verbose_name_plural", LStr "request logs")];
     ms_indexes := [keyed "django_waf_rl_ts_verdict_idx" ["timestamp"; "verdict"] None;
                    keyed "django_waf_rl_ip_ts_idx" ["ip_address"; "timestamp"] None;
                    keyed "django_waf_rl_verdict_ts_idx" ["verdict"; "timestamp"] None;
                    keyed "django_waf_rl_rule_id_idx" ["matched_rule_id"] None];
     ms_constraints := [keyed "django_waf_rl_nginx_event_uniq" ["source"; "source_event_id"] (Some (QAnd (QEq "source" (LStr (RequestLogSource_value NGINX_LOG))) (QNot (QEq "source_event_id" (LStr "")))))] |}.

Definition IPReputation_fields : list (string * Field) :=
  [("ip_address", field "GenericIPAddressField" [("unique", LBool true); ("db_index", LBool true); ("verbose_name", LStr "IP address")]);
   ("total_requests", field "PositiveIntegerField" [("default", LInt 0); ("verbose_name", LStr "total requests")]);
   ("blocked_requests", field "PositiveIntegerField" [("default", LInt 0); ("verbose_name", LStr "blocked requests")]);
   ("challenged_requests", field "PositiveIntegerField" [("default", LInt 0); ("verbose_name", LStr "challenged requests")]);
   ("challenge_passes", field "PositiveIntegerField" [("default", LInt 0); ("verbose_name", LStr "challenge passes")]);
   ("challenge_failures", field "PositiveIntegerField" [("default", LInt 0); ("verbose_name", LStr "challenge failures")]);
   ("distinct_ua_count", field "PositiveIntegerField" [("default", LInt 0); ("verbose_name", LStr "distinct UA count")]);
   ("threat_score", field "DecimalField" [("max_digits", LInt 3); ("decimal_places", LInt 2); ("default", LDecimal "0.00"); ("verbose_name", LStr "threat score"); ("help_text", LStr "Normalised threat score from 0.00 (clean) to 1.00 (high threat).")]);
   ("last_seen_at", field "DateTimeField" [("null", LBool true); ("blank", LBool true); ("db_index", LBool true); ("verbose_name", LStr "last seen at")]);
   ("window_start", field "DateTimeField" [("null", LBool true); ("blank", LBool true); ("verbose_name", LStr "window start"); ("help_text", LStr "Start of the current scoring window.")]);
   ("window_end", field "DateTimeField" [("null", LBool true); ("blank", LBool true); ("verbose_name", LStr "window end"); ("help_text", LStr "End of the current scoring window.")])].

Definition IPReputation_model : ModelState :=
  {| ms_name := "IPReputation";
     ms_fields := BaseModel_fields ++ IPReputation_fields;
     ms_options := [("db_table", LStr "django_waf_ip_reputation");
                    ("ordering", LNames ["-threat_score"]);
                    ("verbose_name", LStr "IP reputation");
                    ("verbose_name_plural", LStr "IP reputations")];
     ms_indexes := [keyed "django_waf_ipr_score_idx" ["threat_score"] None;
                    keyed "django_waf_ipr_last_seen_idx" ["last_seen_at"] None;
                    keyed "django_waf_ipr_ua_count_idx" ["distinct_ua_count"] None];
     ms_constraints := [] |}.

Definition ChallengeToken_fields : list (string * Field) :=
  [("token", field "CharField" [("max_length", LInt 128); ("unique", LBool true); ("db_index", LBool true); ("verbose_name", LStr "token")]);
   ("ip_address", field "GenericIPAddressField" [("db_index", LBool true); ("verbose_name", LStr "IP address")]);
   ("difficulty", field "PositiveSmallIntegerField" [("default", LInt 4); ("verbose_name", LStr "difficulty"); ("help_text", LStr "Number of leading zero bits required in the solution hash.")]);
   ("nonce", field "CharField" [("max_length", LInt 128); ("blank", LBool true); ("verbose_name", LStr "nonce"); ("help_text", LStr "The nonce submitted by the client when solving the challenge.")]);
   ("status", field "CharField" [("max_length", LInt 20); ("choices", LPairs ChallengeStatus_choices); ("default", LStr (ChallengeStatus_value ChallengeStatus_PENDING)); ("db_index", LBool true); ("verbose_name", LStr "status")]);
   ("issued_at", field "DateTimeField" [("auto_now_add", LBool true); ("verbose_name", LStr "issued at")]);
   ("expires_at", field "DateTimeField" [("db_index", LBool true); ("verbose_name", LStr "expires at")]);
   ("solved_at", field "DateTimeField" [("null", LBool true); ("blank", LBool true); ("verbose_name", LStr "solved at")])].

Definition ChallengeToken_model : ModelState :=
  {| ms_name := "ChallengeToken";
     ms_fields := BaseModel_fields ++ ChallengeToken_fields;
     ms_options := [("db_table", LStr "django_waf_challenge_token");
                    ("ordering", LNames ["-issued_at"]);
                    ("verbose_name", LStr "challenge token");
                    ("verbose_name_plural", LStr "challenge tokens")];
     ms_indexes := [keyed "django_waf_ct_ip_status_idx" ["ip_address"; "status"] None;
                    keyed "django_waf_ct_expires_idx" ["expires_at"] None];
     ms_constraints := [] |}.

(** ** The models *)

Definition models : list ModelState :=
  [AllowRule_model; BlockRule_model; ChallengeToken_model; IPReputation_model; RequestLog_model].

(** ** The migrations *)

Definition create_AllowRule : Operation :=
  CreateModel {| ms_name := "AllowRule";
     ms_fields := [
      ("id", field "UUIDField" [("default", LName "uuid.uuid4"); ("editable", LBool false); ("primary_key", LBool true); ("serialize", LBool false)]);
      ("created_at", field "DateTimeField" [("auto_now_add", LBool true); ("db_index", LBool true)]);
      ("updated_at", field "DateTimeField" [("auto_now", LBool true)]);
      ("name", field "CharField" [("max_length", LInt 255); ("verbose_name", LStr "name")]);
      ("rule_type", field "CharField" [("choices", LPairs [("ua", "User-agent"); ("ip", "IP address"); ("cidr", "CIDR range"); ("composite", "Composite")]); ("db_index", LBool true); ("max_length", LInt 20); ("verbose_name", LStr "rule type")]);
      ("match_type", field "CharField" [("choices", LPairs [("exact", "Exact"); ("regex", "Regex"); ("contains", "Contains"); ("cidr", "CIDR")]); ("max_length", LInt 20); ("verbose_name", LStr "match type")]);
      ("pattern", field "CharField" [("help_text", LStr "Value to match against (IP, CIDR, user-agent string, or regex)."); ("max_length", LInt 2048); ("verbose_name", LStr "pattern")]);
      ("verify_rdns", field "BooleanField" [("default", LBool false); ("help_text", LStr "Require reverse-DNS lookup to confirm the IP belongs to a trusted network."); ("verbose_name", LStr "verify rDNS")]);
      ("rdns_pattern", field "CharField" [("blank", LBool true); ("help_text", LStr "Regex or suffix matched against the PTR record when verify_rdns is enabled."); ("max_length", LInt 255); ("verbose_name", LStr "rDNS pattern")]);
      ("is_active", field "BooleanField" [("db_index", LBool true); ("default", LBool true); ("verbose_name", LStr "active")]);
      ("notes", field "TextField" [("blank", LBool true); ("verbose_name", LStr "notes")])];
     ms_options := [("verbose_name", LStr "allow rule");
                    ("verbose_name_plural", LStr "allow rules");
                    ("db_table", LStr "django_waf_allow_rule");
                    ("ordering", LNames ["name"])];
     ms_indexes := [keyed "django_waf_ar_type_active_idx" ["rule_type"; "is_active"] None;
                    keyed "django_waf_ar_active_idx" ["is_active"] None];
     ms_constraints := [] |}.

Definition create_BlockRule : Operation :=
  CreateModel {| ms_name := "BlockRule";
     ms_fields := [
      ("id", field "UUIDField" [("default", LName "uuid.uuid4"); ("editable", LBool false); ("primary_key", LBool true); ("serialize", LBool false)]);
      ("created_at", field "DateTimeField" [("auto_now_add", LBool true); ("db_index", LBool true)]);
      ("updated_at", field "DateTimeField" [("auto_now", LBool true)]);
      ("name", field "CharField" [("max_length", LInt 255); ("verbose_name", LStr "name")]);
      ("rule_type", field "CharField" [("choices", LPairs [("ua", "User-agent"); ("ip", "IP address"); ("cidr", "CIDR range"); ("composite", "Composite")]); ("db_index", LBool true); ("max_length", LInt 20); ("verbose_name", LStr "rule type")]);
      ("match_type", field "CharField" [("choices", LPairs [("exact", "Exact"); ("regex", "Regex"); ("contains", "Contains"); ("cidr", "CIDR")]); ("max_length", LInt 20); ("verbose_name", LStr "match type")]);
      ("pattern", field "CharField" [("db_index", LBool true); ("help_text", LStr "Value to match against (IP, CIDR, user-agent string, or regex)."); ("max_length", LInt 2048); ("verbose_name", LStr "pattern")]);
      ("action", field "CharField" [("choices", LPairs [("block", "Block"); ("challenge", "Challenge"); ("throttle", "Throttle"); ("log_only", "Log only")]); ("default", LStr "block"); ("max_length", LInt 20); ("verbose_name", LStr "action")]);
      ("priority", field "PositiveIntegerField" [("db_index", LBool true); ("default", LInt 100); ("help_text", LStr "Lower numbers are evaluated first."); ("verbose_name", LStr "priority")]);
      ("is_active", field "BooleanField" [("db_index", LBool true); ("default", LBool true); ("verbose_name", LStr "active")]);
      ("source", field "CharField" [("choices", LPairs [("admin", "Admin"); ("auto", "Auto-generated"); ("feed", "Threat feed")]); ("default", LStr "admin"); ("max_length", LInt 20); ("verbose_name", LStr "source")]);
      ("expires_at", field "DateTimeField" [("blank", LBool true); ("db_index", LBool true); ("help_text", LStr "Leave blank for rules that never expire."); ("null", LBool true); ("verbose_name", LStr "expires at")]);
      ("hit_count", field "PositiveIntegerField" [("default", LInt 0); ("verbose_name", LStr "hit count")]);
      ("last_hit_at", field "DateTimeField" [("blank", LBool true); ("null", LBool true); ("verbose_name", LStr "last hit at")]);
      ("confidence", field "DecimalField" [("decimal_places", LInt 2); ("default", LDecimal "1.00"); ("help_text", LStr "Confidence score from 0.00 to 1.00 (feed-sourced rules only)."); ("max_digits", LInt 3); ("verbose_name", LStr "confidence")]);
      ("feed_first_seen", field "DateField" [("blank", LBool true); ("null", LBool true); ("verbose_name", LStr "feed first seen")]);
      ("feed_reporters", field "PositiveIntegerField" [("default", LInt 0); ("help_text", LStr "Number of sites that reported this threat to the collective feed."); ("verbose_name", LStr "feed reporters")]);
      ("notes", field "TextField" [("blank", LBool true); ("verbose_name", LStr "notes")])];
     ms_options := [("verbose_name", LStr "block rule");
                    ("verbose_name_plural", LStr "block rules");
                    ("db_table", LStr "django_waf_block_rule");
                    ("ordering", LNames ["priority"; "-created_at"])];
     ms_indexes := [keyed "django_waf_br_type_active_idx" ["rule_type"; "is_active"] None;
                    keyed "django_waf_br_src_active_idx" ["source"; "is_active"] None;
                    keyed "django_waf_br_prio_active_idx" ["priority"; "is_active"] None;
                    keyed "django_waf_br_exp_active_idx" ["expires_at"] (Some (QEq "is_active" (LBool true)))];
     ms_constraints := [] |}.

Definition create_ChallengeToken : Operation :=
  CreateModel {| ms_name := "ChallengeToken";
     ms_fields := [
      ("id", field "UUIDField" [("default", LName "uuid.uuid4"); ("editable", LBool false); ("primary_key", LBool true); ("serialize", LBool false)]);
      ("created_at", field "DateTimeField" [("auto_now_add", LBool true); ("db_index", LBool true)]);
      ("updated_at", field "DateTimeField" [("auto_now", LBool true)]);
      ("token", field "CharField" [("db_index", LBool true); ("max_length", LInt 128); ("unique", LBool true); ("verbose_name", LStr "token")]);
      ("ip_address", field "GenericIPAddressField" [("db_index", LBool true); ("verbose_name", LStr "IP address")]);
      ("difficulty", field "PositiveSmallIntegerField" [("default", LInt 4); ("help_text", LStr "Number of leading zero bits required in the solution hash."); ("verbose_name", LStr "difficulty")]);
      ("nonce", field "CharField" [("blank", LBool true); ("help_text", LStr "The nonce submitted by the client when solving the challenge."); ("max_length", LInt 128); ("verbose_name", LStr "nonce")]);
      ("status", field "CharField" [("choices", LPairs [("pending", "Pending"); ("solved", "Solved"); ("expired", "Expired"); ("failed", "Failed")]); ("db_index", LBool true); ("default", LStr "pending"); ("max_length", LInt 20); ("verbose_name", LStr "status")]);
      ("issued_at", field "DateTimeField" [("auto_now_add", LBool true); ("verbose_name", LStr "issued at")]);
      ("expires_at", field "DateTimeField" [("db_index", LBool true); ("verbose_name", LStr "expires at")]);
      ("solved_at", field "DateTimeField" [("blank", LBool true); ("null", LBool true); ("verbose_name", LStr "solved at")])];
     ms_options := [("verbose_name", LStr "challenge token");
                    ("verbose_name_plural", LStr "challenge tokens");
                    ("db_table", LStr "django_waf_challenge_token");
                    ("ordering", LNames ["-issued_at"])];
     ms_indexes := [keyed "django_waf_ct_ip_status_idx" ["ip_address"; "status"] None;
                    keyed "django_waf_ct_expires_idx" ["expires_at"] None];
     ms_constraints := [] |}.

Definition create_IPReputation : Operation :=
  CreateModel {| ms_name := "IPReputation";
     ms_fields := [
      ("id", field "UUIDField" [("default", LName "uuid.uuid4"); ("editable", LBool false); ("primary_key", LBool true); ("serialize", LBool false)]);
      ("created_at", field "DateTimeField" [("auto_now_add", LBool true); ("db_index", LBool true)]);
      ("updated_at", field "DateTimeField" [("auto_now", LBool true)]);
      ("ip_address", field "GenericIPAddressField" [("db_index", LBool true); ("unique", LBool true); ("verbose_name", LStr "IP address")]);
      ("total_requests", field "PositiveIntegerField" [("default", LInt 0); ("verbose_name", LStr "total requests")]);
      ("blocked_requests", field "PositiveIntegerField" [("default", LInt 0); ("verbose_name", LStr "blocked requests")]);
      ("challenged_requests", field "PositiveIntegerField" [("default", LInt 0); ("verbose_name", LStr "challenged requests")]);
      ("challenge_passes", field "PositiveIntegerField" [("default", LInt 0); ("verbose_name", LStr "challenge passes")]);
      ("challenge_failures", field "PositiveIntegerField" [("default", LInt 0); ("verbose_name", LStr "challenge failures")]);
      ("distinct_ua_count", field "PositiveIntegerField" [("default", LInt 0); ("verbose_name", LStr "distinct UA count")]);
      ("threat_score", field "DecimalField" [("decimal_places", LInt 2); ("default", LDecimal "0.00"); ("help_text", LStr "Normalised threat score from 0.00 (clean) to 1.00 (high threat)."); ("max_digits", LInt 3); ("verbose_name", LStr "threat score")]);
      ("last_seen_at", field "DateTimeField" [("blank", LBool true); ("db_index", LBool true); ("null", LBool true); ("verbose_name", LStr "last seen at")]);
      ("window_start", field "DateTimeField" [("blank", LBool true); ("help_text", LStr "Start of the current scoring window."); ("null", LBool true); ("verbose_name", LStr "window start")]);
      ("window_end", field "DateTimeField" [("blank", LBool true); ("help_text", LStr "End of the current scoring window."); ("null", LBool true); ("verbose_name", LStr "window end")])];
     ms_options := [("verbose_name", LStr "IP reputation");
                    ("verbose_name_plural", LStr "IP reputations");
                    ("db_table", LStr "django_waf_ip_reputation");
                    ("ordering", LNames ["-threat_score"])];
     ms_indexes := [keyed "django_waf_ipr_score_idx" ["threat_score"] None;
                    keyed "django_waf_ipr_last_seen_idx" ["last_seen_at"] None;
                    keyed "django_waf_ipr_ua_count_idx" ["distinct_ua_count"] None];
     ms_constraints := [] |}.

Definition create_RequestLog : Operation :=
  CreateModel {| ms_name := "RequestLog";
     ms_fields := [
      ("id", field "UUIDField" [("default", LName "uuid.uuid4"); ("editable", LBool false); ("primary_key", LBool true); ("serialize", LBool false)]);
      ("created_at", field "DateTimeField" [("auto_now_add", LBool true); ("db_index", LBool true)]);
      ("updated_at", field "DateTimeField" [("auto_now", LBool true)]);
      ("timestamp", field "DateTimeField" [("db_index", LBool true); ("verbose_name", LStr "timestamp")]);
      ("ip_address", field "GenericIPAddressField" [("db_index", LBool true); ("verbose_name", LStr "IP address")]);
      ("user_agent", field "CharField" [("blank", LBool true); ("max_length", LInt 1024); ("verbose_name", LStr "user-agent")]);
      ("path", field "CharField" [("max_length", LInt 2048); ("verbose_name", LStr "path")]);
      ("method", field "CharField" [("default", LStr "GET"); ("max_length", LInt 16); ("verbose_name", LStr "method")]);
      ("verdict", field "CharField" [("choices", LPairs [("allowed", "Allowed"); ("blocked", "Blocked"); ("challenged", "Challenged"); ("throttled", "Throttled"); ("passed", "Passed"); ("logged", "Logged")]); ("db_index", LBool true); ("max_length", LInt 20); ("verbose_name", LStr "verdict")]);
      ("matched_rule_id", field "UUIDField" [("blank", LBool true); ("db_index", LBool true); ("null", LBool true); ("verbose_name", LStr "matched rule ID")]);
      ("matched_rule_type", field "CharField" [("blank", LBool true); ("choices", LPairs [("block", "Block rule"); ("allow", "Allow rule")]); ("default", LStr ""); ("help_text", LStr "Which rule table matched — 'block' = a BlockRule, 'allow' = an AllowRule. This is the source table, NOT the enforced action: a BlockRule with action=challenge produces matched_rule_type='block' and verdict='challenged'. Use the verdict column for enforcement reporting; use this column for rule-source auditing."); ("max_length", LInt 10); ("verbose_name", LStr "matched rule type")]);
      ("anomaly_score", field "DecimalField" [("blank", LBool true); ("decimal_places", LInt 2); ("max_digits", LInt 4); ("null", LBool true); ("verbose_name", LStr "anomaly score")]);
      ("response_code", field "PositiveSmallIntegerField" [("blank", LBool true); ("null", LBool true); ("verbose_name", LStr "response code")]);
      ("referer", field "CharField" [("blank", LBool true); ("help_text", LStr "HTTP Referer header value, useful for identifying bot traffic sources."); ("max_length", LInt 2048); ("verbose_name", LStr "referer")]);
      ("http_fingerprint", field "CharField" [("blank", LBool true); ("db_index", LBool true); ("help_text", LStr "SHA-256 hash of normalised HTTP headers — identifies real client software."); ("max_length", LInt 64); ("verbose_name", LStr "HTTP fingerprint")]);
      ("fingerprint_verdict", field "CharField" [("blank", LBool true); ("help_text", LStr "Fingerprint classification: browser, bot, suspicious, unknown."); ("max_length", LInt 20); ("verbose_name", LStr "fingerprint verdict")]);
      ("country_code", field "CharField" [("blank", LBool true); ("max_length", LInt 2); ("verbose_name", LStr "country code")])];
     ms_options := [("verbose_name", LStr "request log");
                    ("verbose_name_plural", LStr "request logs");
                    ("db_table", LStr "django_waf_request_log");
                    ("ordering", LNames ["-timestamp"])];
     ms_indexes := [keyed "django_waf_rl_ts_verdict_idx" ["timestamp"; "verdict"] None;
                    keyed "django_waf_rl_ip_ts_idx" ["ip_address"; "timestamp"] None;
                    keyed "django_waf_rl_verdict_ts_idx" ["verdict"; "timestamp"] None;
                    keyed "django_waf_rl_rule_id_idx" ["matched_rule_id"] None];
     ms_constraints := [] |}.

Definition migration_0001 : Migration :=
  {| mg_name := "0001_initial"; mg_dependencies := [];
     mg_operations := [
      create_AllowRule;
      create_BlockRule;
      create_ChallengeToken;
      create_IPReputation;
      create_RequestLog] |}.

Definition migration_0002 : Migration :=
  {| mg_name := "0002_allowrule_source_and_feed_fields"; mg_dependencies := ["0001_initial"];
     mg_operations := [
      AddField "allowrule" "confidence" (field "DecimalField" [("decimal_places", LInt 2); ("default", LDecimal "1.00"); ("help_text", LStr "Confidence score from 0.00 to 1.00 (feed-sourced rules only)."); ("max_digits", LInt 3); ("verbose_name", LStr "confidence")]);
      AddField "allowrule" "expires_at" (field "DateTimeField" [("blank", LBool true); ("db_index", LBool true); ("help_text", LStr "Leave blank for rules that never expire."); ("null", LBool true); ("verbose_name", LStr "expires at")]);
      AddField "allowrule" "feed_first_seen" (field "DateField" [("blank", LBool true); ("null", LBool true); ("verbose_name", LStr "feed first seen")]);
      AddField "allowrule" "feed_reporters" (field "PositiveIntegerField" [("default", LInt 0); ("help_text", LStr "Number of sites that reported this allowlist entry to the collective feed."); ("verbose_name", LStr "feed reporters")]);
      AddField "allowrule" "source" (field "CharField" [("choices", LPairs [("admin", "Admin"); ("auto", "Auto-generated"); ("feed", "Threat feed")]); ("default", LStr "admin"); ("max_length", LInt 20); ("verbose_name", LStr "source")]);
      AddIndex "allowrule" (keyed "django_waf_ar_src_active_idx" ["source"; "is_active"] None)] |}.

Definition migration_0003 : Migration :=
  {| mg_name := "0003_seed_verified_crawlers"; mg_dependencies := ["0002_allowrule_source_and_feed_fields"];
     mg_operations := [
      RunPython] |}.

Definition migration_0004 : Migration :=
  {| mg_name := "0004_requestlog_source_and_event_id"; mg_dependencies := ["0003_seed_verified_crawlers"];
     mg_operations := [
      AddField "requestlog" "source" (field "CharField" [("choices", LPairs [("middleware", "Middleware"); ("nginx_log", "Nginx access log")]); ("db_index", LBool true); ("default", LStr "middleware"); ("help_text", LStr "Which pipeline wrote this row. 'middleware' rows carry a real WAF verdict; 'nginx_log' rows have a verdict inferred from the access log status code (#32). The default is 'middleware' so existing and future middleware writes are correctly tagged without the middleware needing to pass source explicitly."); ("max_length", LInt 20); ("verbose_name", LStr "source")]);
      AddField "requestlog" "source_event_id" (field "CharField" [("blank", LBool true); ("default", LStr ""); ("help_text", LStr "Deterministic identity for a source event, used to dedupe re-ingested nginx access-log lines (#32). Populated only for source='nginx_log' rows; middleware rows leave this blank."); ("max_length", LInt 128); ("verbose_name", LStr "source event ID")]);
      AddConstraint "requestlog" (keyed "django_waf_rl_nginx_event_uniq" ["source"; "source_event_id"] (Some (QAnd (QEq "source" (LStr "nginx_log")) (QNot (QEq "source_event_id" (LStr ""))))))] |}.

Definition migration_0005 : Migration :=
  {| mg_name := "0005_blockrule_review_status"; mg_dependencies := ["0004_requestlog_source_and_event_id"];
     mg_operations := [
      AddField "blockrule" "review_status" (field "CharField" [("choices", LPairs [("not_applicable", "Not applicable"); ("pending", "Pending review"); ("confirmed", "Confirmed"); ("rejected", "Rejected"); ("expired_unreviewed", "Expired unreviewed")]); ("db_index", LBool true); ("default", LStr "not_applicable"); ("help_text", LStr "Review state for an auto-generated rule (BR-ANOM-010). Stays 'not applicable' for admin and feed rules, and for auto rules that were never queued for review."); ("max_length", LInt 20); ("verbose_name", LStr "review status")]);
      AddField "blockrule" "reviewed_at" (field "DateTimeField" [("blank", LBool true); ("help_text", LStr "Set when review_status transitions to confirmed or rejected."); ("null", LBool true); ("verbose_name", LStr "reviewed at")]);
      AlterField "blockrule" "notes" (field "TextField" [("blank", LBool true); ("help_text", LStr "Populated for feed-sourced rules today. Auto-generated rules populate this with a human-readable rendering of the detection evidence (BR-ANOM-009)."); ("verbose_name", LStr "notes")]);
      AddIndex "blockrule" (keyed "django_waf_br_review_idx" ["source"; "review_status"] None)] |}.

Definition migration_0006 : Migration :=
  {| mg_name := "0006_blockrule_detectors"; mg_dependencies := ["0005_blockrule_review_status"];
     mg_operations := [
      AddField "blockrule" "detectors" (field "CharField" [("blank", LBool true); ("db_index", LBool true); ("default", LStr ""); ("help_text", LStr "Comma-separated, sorted set of anomaly detector names that have ever caused a write to this row (e.g. 'detect_cloud_spray,detect_unsolved_challenges'). Additive, never overwritten: multiple detectors can independently target the same (rule_type, pattern, source=AUTO, action) shape, most commonly a shared subnet pattern, and each detector's own write only adds its name rather than replacing the set. Blank for admin and feed-sourced rules, and for auto-generated rules created before this field existed. Lets a detector's own promotion logic recognise a rule it has itself previously written, even after another detector has since written to the same row (#97)."); ("max_length", LInt 255); ("verbose_name", LStr "detectors")])] |}.

Definition migration_0007 : Migration :=
  {| mg_name := "0007_alter_requestlog_http_fingerprint_and_more"; mg_dependencies := ["0006_blockrule_detectors"];
     mg_operations := [
      AlterField "requestlog" "http_fingerprint" (field "CharField" [("blank", LBool true); ("db_index", LBool true); ("help_text", LStr "SHA-256 hash of normalised HTTP headers: identifies real client software."); ("max_length", LInt 64); ("verbose_name", LStr "HTTP fingerprint")]);
      AlterField "requestlog" "matched_rule_type" (field "CharField" [("blank", LBool true); ("choices", LPairs [("block", "Block rule"); ("allow", "Allow rule")]); ("default", LStr ""); ("help_text", LStr "Which rule table matched: 'block' = a BlockRule, 'allow' = an AllowRule. This is the source table, NOT the enforced action: a BlockRule with action=challenge produces matched_rule_type='block' and verdict='challenged'. Use the verdict column for enforcement reporting; use this column for rule-source auditing."); ("max_length", LInt 10); ("verbose_name", LStr "matched rule type")])] |}.

Definition migration_0008 : Migration :=
  {| mg_name := "0008_dedupe_auto_block_rules"; mg_dependencies := ["0007_alter_requestlog_http_fingerprint_and_more"];
     mg_operations := [
      RunPython;
      AddConstraint "blockrule" (keyed "django_waf_br_auto_key_uniq" ["rule_type"; "pattern"; "action"] (Some (QEq "source" (LStr "auto"))))] |}.

Definition migrations : list Migration := [migration_0001; migration_0002; migration_0003; migration_0004; migration_0005; migration_0006; migration_0007; migration_0008].

(** ** Replaying

    What an operation does to the declared state of the project, as Django
    documents it: a name is created once, and only an existing one changes. *)

Abbreviation ProjectState := (list ModelState).

Definition named (model_name : string) (m : ModelState) : bool := bool_decide (lower (ms_name m) = model_name).
Definition has_field (name : string) (m : ModelState) : bool := bool_decide (name ∈ map fst (ms_fields m)).

Fixpoint no_dup (l : list string) : bool :=
  match l with [] => true | x :: l => negb (bool_decide (x ∈ l)) && no_dup l end.

(** The one model of a name, changed. *)
Fixpoint on_model (model_name : string) (change : ModelState → option ModelState) (st : ProjectState)
  : option ProjectState :=
  match st with
  | [] => None
  | m :: st => if named model_name m then m' ← change m; Some (m' :: st)
               else st' ← on_model model_name change st; Some (m :: st')
  end.

Definition set_field (name : string) (f : Field) (m : ModelState) : ModelState :=
  {| m with ms_fields := map (λ nf, if bool_decide (nf.1 = name) then (name, f) else nf) (ms_fields m) |}.

Definition apply_op (op : Operation) (st : ProjectState) : option ProjectState :=
  match op with
  | CreateModel m =>
      if existsb (named (lower (ms_name m))) st || negb (no_dup (map fst (ms_fields m))) then None
      else Some (st ++ [m])
  | AddField model name f =>
      on_model model (λ m, if has_field name m then None
                           else Some {| m with ms_fields := ms_fields m ++ [(name, f)] |}) st
  | AlterField model name f => on_model model (λ m, if has_field name m then Some (set_field name f m) else None) st
  | AddIndex model i => on_model model (λ m, Some {| m with ms_indexes := ms_indexes m ++ [i] |}) st
  | AddConstraint model c => on_model model (λ m, Some {| m with ms_constraints := ms_constraints m ++ [c] |}) st
  | RunPython => Some st
  end.

Fixpoint apply_ops (ops : list Operation) (st : ProjectState) : option ProjectState :=
  match ops with [] => Some st | op :: ops => st ← apply_op op st; apply_ops ops st end.

(** The migrations in turn, each after those it depends on. *)
Fixpoint replay (ms : list Migration) (applied : list string) (st : ProjectState) : option ProjectState :=
  match ms with
  | [] => Some st
  | m :: ms =>
      if forallb (λ d, bool_decide (d ∈ applied)) (mg_dependencies m)
      then st ← apply_ops (mg_operations m) st; replay ms (mg_name m :: applied) st
      else None
  end.

(** Declarations up to the order of fields, indexes and arguments; an automatic
    key is never serialised, which the models leave to Django. *)
Definition by_name {A} : list (string * A) → list (string * A) := sort_by (λ a b, str_leb a.1 b.1).
Definition by_key : list Keyed → list Keyed := sort_by (λ a b, str_leb (ky_name a) (ky_name b)).
Definition canonical_field (f : Field) : Field :=
  {| fd_class := fd_class f;
     fd_kwargs := by_name (List.filter (λ kv, negb (bool_decide (kv.1 = "serialize"))) (fd_kwargs f)) |}.
Definition canonical (m : ModelState) : ModelState :=
  {| ms_name := ms_name m; ms_fields := by_name (map (λ nf, (nf.1, canonical_field nf.2)) (ms_fields m));
     ms_options := by_name (ms_options m); ms_indexes := by_key (ms_indexes m);
     ms_constraints := by_key (ms_constraints m) |}.

(** ** The columns a row of the request log has to fit *)

(** The schema the migrations build. *)
Definition schema : ProjectState := default [] (replay migrations [] []).

Definition column (model_name name : string) : option Field :=
  m ← List.find (named model_name) schema; nf ← List.find (λ nf, bool_decide (nf.1 = name)) (ms_fields m); Some nf.2.
Definition arg (name : string) (f : Field) : option Lit :=
  snd <$> List.find (λ kv, bool_decide (kv.1 = name)) (fd_kwargs f).
Definition int_arg (name : string) (f : Field) : Z :=
  match arg name f with Some (LInt z) => z | _ => 0 end.
Definition nullable (f : Field) : bool := bool_decide (arg "null" f = Some (LBool true)).

(** A value on its way to a column. *)
Inductive Cell : Type :=
| CText (s : string)
| CSmall (z : option Z)
| CDecimal (q : option Q).

(** What a database that enforces the declared types takes: text up to
    [max_length], a small integer, a decimal with its digits before the
    point. *)
Definition cell_fits (f : Field) (c : Cell) : bool :=
  match c with
  | CText s => bool_decide (fd_class f = "CharField") && (Z.of_nat (String.length s) <=? int_arg "max_length" f)
  | CSmall None => nullable f
  | CSmall (Some z) => bool_decide (fd_class f = "PositiveSmallIntegerField") && (0 <=? z) && (z <=? 32767)
  | CDecimal None => nullable f
  | CDecimal (Some q) =>
      bool_decide (fd_class f = "DecimalField") &&
      Qle_bool 0 q && Qle_bool (q + 1) (inject_Z (10 ^ (int_arg "max_digits" f - int_arg "decimal_places" f)))
  end.

Definition row_cells (r : RequestLog) : list (string * Cell) :=
  [("user_agent", CText (rl_user_agent r)); ("path", CText (rl_path r)); ("method", CText (rl_method r));
   ("verdict", CText (Verdict_value (rl_verdict r))); ("matched_rule_type", CText (rl_matched_rule_type r));
   ("anomaly_score", CDecimal (rl_anomaly_score r)); ("response_code", CSmall (rl_response_code r));
   ("referer", CText (rl_referer r)); ("http_fingerprint", CText (rl_http_fingerprint r));
   ("fingerprint_verdict", CText (rl_fingerprint_verdict r)); ("country_code", CText (rl_country_code r));
   ("source", CText (RequestLogSource_value (rl_source r))); ("source_event_id", CText (rl_source_event_id r))].

Definition fits_columns (r : RequestLog) : bool :=
  forallb (λ nc, match column "requestlog" nc.1 with Some f => cell_fits f nc.2 | None => false end) (row_cells r).

(** The row, with the widths read off the schema. *)
Lemma fits_columns_spec r :
  fits_columns r =
    (Z.of_nat (String.length (rl_user_agent r)) <=? 1024) && ((Z.of_nat (String.length (rl_path r)) <=? 2048) &&
    ((Z.of_nat (String.length (rl_method r)) <=? 16) &&
    ((Z.of_nat (String.length (Verdict_value (rl_verdict r))) <=? 20) &&
    ((Z.of_nat (String.length (rl_matched_rule_type r)) <=? 10) &&
    (match rl_anomaly_score r with Some q => Qle_bool 0 q && Qle_bool (q + 1) 100 | None => true end &&
    (match rl_response_code r with Some z => (0 <=? z) && (z <=? 32767) | None => true end &&
    ((Z.of_nat (String.length (rl_referer r)) <=? 2048) &&
    ((Z.of_nat (String.length (rl_http_fingerprint r)) <=? 64) &&
    ((Z.of_nat (String.length (rl_fingerprint_verdict r)) <=? 20) &&
    ((Z.of_nat (String.length (rl_country_code r)) <=? 2) &&
    ((Z.of_nat (String.length (RequestLogSource_value (rl_source r))) <=? 20) &&
    ((Z.of_nat (String.length (rl_source_event_id r)) <=? 128) && true)))))))))))).
Proof.
  unfold fits_columns, row_cells. cbn [forallb fst snd].
  repeat match goal with |- context [column "requestlog" ?n] =>
    let f := eval vm_compute in (column "requestlog" n) in change (column "requestlog" n) with f end.
  cbn [cell_fits]. destruct (rl_anomaly_score r), (rl_response_code r); reflexivity.
Qed.

(** ** Replaying keeps names apart *)

Definition well_named (st : ProjectState) : Prop :=
  NoDup (map (λ m, lower (ms_name m)) st) ∧ Forall (λ m, NoDup (map fst (ms_fields m))) st.

Lemma no_dup_spec l : no_dup l = true ↔ NoDup l.
Proof.
  induction l as [|x l IH]; cbn [no_dup]; [split; [intros _; apply NoDup_nil_2|done]|].
  by rewrite andb_true_iff, negb_true_iff, bool_decide_eq_false, IH, NoDup_cons.
Qed.

(** A change of one model that keeps its name and its fields' names apart. *)
Lemma on_model_well_named model_name change st st' :
  (∀ m m', change m = Some m' → ms_name m' = ms_name m ∧
     (NoDup (map fst (ms_fields m)) → NoDup (map fst (ms_fields m')))) →
  on_model model_name change st = Some st' → well_named st → well_named st'.
Proof.
  intros Hc. assert (Hn : ∀ st st', on_model model_name change st = Some st' →
    map (λ m, lower (ms_name m)) st' = map (λ m, lower (ms_name m)) st ∧
    (Forall (λ m, NoDup (map fst (ms_fields m))) st → Forall (λ m, NoDup (map fst (ms_fields m))) st')).
  { clear st st'. induction st as [|m st IH]; intros st'; cbn [on_model]; [done|].
    destruct (named model_name m).
    - destruct (change m) as [m'|] eqn:E; [|done]. intros [= <-]. destruct (Hc _ _ E) as [Hname Hf]. cbn [map].
      rewrite Hname. split; [done|]. intros [H1 H2]%Forall_cons. constructor; [by apply Hf|done].
    - destruct (on_model model_name change st) as [st''|]; [|done]. intros [= <-].
      destruct (IH _ eq_refl) as [Hmap Hf]. cbn [map]. rewrite Hmap. split; [done|].
      intros [H1 H2]%Forall_cons. constructor; [done|by apply Hf]. }
  intros Hrun [H1 H2]. destruct (Hn _ _ Hrun) as [Hmap Hf]. split; [by rewrite Hmap|by apply Hf].
Qed.

Lemma apply_op_well_named op st st' : apply_op op st = Some st' → well_named st → well_named st'.
Proof.
  destruct op as [m|model name f|model name f|model i|model c|]; cbn [apply_op].
  - destruct (existsb _ st) eqn:Ee; [done|]. destruct (no_dup _) eqn:Ed; [|done]. apply no_dup_spec in Ed.
    cbn [orb negb]. intros [= <-] [H1 H2]. split; [|by apply Forall_app; split; [|constructor]].
    rewrite map_app. apply NoDup_app. split; [done|]. split; [|apply NoDup_singleton].
    intros x (m' & <- & Hin)%list_elem_of_In%in_map_iff. cbn. intros [Hx|[]]%list_elem_of_In.
    rewrite existsb_false_iff in Ee. specialize (Ee m' Hin). unfold named in Ee. bool_hyps. congruence.
  - apply on_model_well_named. intros m m'. unfold has_field. case_bool_decide as Hin; [done|]. intros [= <-].
    split; [done|]. intros Hnd. cbn [ms_fields]. rewrite map_app. apply NoDup_app. split; [done|].
    split; [|apply NoDup_singleton]. intros x Hx ->%list_elem_of_singleton. done.
  - apply on_model_well_named. intros m m'. destruct (has_field name m); [|done]. intros [= <-]. split; [done|].
    unfold set_field. cbn [ms_fields]. rewrite map_map.
    match goal with |- NoDup ?a → NoDup ?b => assert (Hb : b = a); [|by rewrite Hb] end.
    apply map_ext. intros [n g]. cbn. by case_bool_decide.
  - apply on_model_well_named. by intros m m' [= <-].
  - apply on_model_well_named. by intros m m' [= <-].
  - by intros [= <-].
Qed.

Lemma replay_well_named ms applied st st' : replay ms applied st = Some st' → well_named st → well_named st'.
Proof.
  assert (Hops : ∀ ops st st', apply_ops ops st = Some st' → well_named st → well_named st').
  { clear. induction ops as [|op ops IH]; intros st st'; cbn [apply_ops]; [by intros [= <-]|].
    destruct (apply_op op st) as [st1|] eqn:E; [|done]. cbn. intros Hr Hw. eapply IH; [exact Hr|].
    by eapply apply_op_well_named. }
  revert applied st. induction ms as [|m ms IH]; intros applied st; cbn [replay]; [by intros [= <-]|].
  destruct (forallb _ _); [|done]. destruct (apply_ops _ _) as [st1|] eqn:E; [|done]. cbn.
  intros Hr Hw. eapply IH; [exact Hr|]. by eapply Hops.
Qed.

(** ** What the evaluation and the importer write *)

(** Every value a computation returns. *)
Definition returns {S A} (m : M S A) (P : A → Prop) : Prop := ∀ s a s', m s = (Ok a, s') → P a.

Lemma returns_ret {S A} (a : A) (P : A → Prop) : P a → returns (@ret S A a) P.
Proof. by intros Ha s b s' [= <- <-]. Qed.

Lemma returns_bind {S A B} (m : M S A) (k : A → M S B) Q (P : B → Prop) :
  returns m Q → (∀ a, Q a → returns (k a) P) → returns (bind m k) P.
Proof.
  intros Hm Hk s b s' E. apply bind_inv_Ok in E as (a & s1 & E1 & E2). eapply Hk; [|exact E2]. by eapply Hm.
Qed.

Lemma returns_then {S A B} (m : M S A) (k : A → M S B) (P : B → Prop) : (∀ a, returns (k a) P) → returns (bind m k) P.
Proof. intros Hk. apply (returns_bind m k (λ _, True)); [done|]. intros a _. apply Hk. Qed.

(** What the log stores of a result. *)
Definition loggable (r : EvaluationResult) : Prop :=
  In (er_matched_rule_type r) [""; "block"; "allow"] ∧ ∀ q, er_anomaly_score r = Some q → (0 < q <= 25)%Q.

Lemma plain_loggable v a : loggable (plain_result v a).
Proof. split; [by left|done]. Qed.

Lemma qmin_le a b : (qmin a b <= b)%Q.
Proof.
  unfold qmin. destruct (Qle_bool a b) eqn:E; [by apply Qle_bool_iff|apply Qle_refl].
Qed.

Lemma ua_score_le ua : (score_user_agent ua <= 10)%Q.
Proof.
  unfold score_user_agent. destruct (str_empty ua); [|apply qmin_le].
  apply Qle_trans with 1%Q; [unfold qmin; cbn; by vm_compute|by vm_compute].
Qed.

Lemma fingerprint_score_le ua meta q : score_fingerprint_mismatch ua meta = Ok q → (q <= 5)%Q.
Proof.
  unfold score_fingerprint_mismatch. destruct (str_empty ua); [intros [= <-]; by vm_compute|].
  unfold res_bind. destruct (match chromium_match ua with Some _ => _ | None => _ end) as [z|]; [|done].
  intros E. injection E as <-. apply qmin_le.
Qed.

Section Results.
Context {R P : Type} `{RedisClient R} `{ReEngine P} `{Dns}.
Context (uuid4 : nat → Z) (conf : Conf).
Abbreviation W := (World R P).

Definition loggable_option (o : option EvaluationResult) : Prop := ∀ r, o = Some r → loggable r.

Lemma path_score_le path : (score_path (P:=P) conf path <= 10)%Q.
Proof.
  unfold score_path. assert (Hgen : ∀ ps q, (q <= 10)%Q → (score_path_loop (P:=P) conf path ps q <= 10)%Q).
  { induction ps as [|p ps IH]; intros q Hq; cbn [score_path_loop]; [done|].
    destruct (re_compile p) as [c|]; [|by apply IH]. destruct (re_find c path); [|by apply IH].
    destruct (qge _ 10) eqn:E; [by apply Qle_refl|]. apply IH. apply Qlt_le_weak, Qnot_le_lt. intros Hle.
    apply Qle_bool_iff in Hle. unfold qge in E. congruence. }
  apply Hgen. by vm_compute.
Qed.

Lemma gate_loggable ip r fv : loggable r → returns (S:=W) (gate_challenge_or_escalate uuid4 conf ip r fv) loggable.
Proof.
  intros Hr. unfold gate_challenge_or_escalate. apply returns_then. intros n. destruct (_ <? _); [by apply returns_ret|].
  do 2 (apply returns_then; intros ?). apply returns_ret, plain_loggable.
Qed.

Lemma allow_loggable ip ua cache : returns (S:=W) (step_allow conf ip ua cache) loggable_option.
Proof.
  unfold step_allow. apply returns_then. intros [id|]; [|by apply returns_ret]. apply returns_then. intros u.
  apply returns_ret. intros r [= <-]. split; [cbn; tauto|done].
Qed.

Lemma blocked_ip_loggable ip : returns (S:=W) (step_blocked_ip ip) loggable_option.
Proof.
  unfold step_blocked_ip. apply returns_then. intros [v|]; [|by apply returns_ret].
  destruct (str_empty v); [by apply returns_ret|]. apply returns_then. intros o. apply returns_ret.
  intros r [= <-]. split; [|done]. cbn. destruct o; tauto.
Qed.

Lemma block_rules_loggable ip ua cache fv : returns (S:=W) (step_block_rules uuid4 conf ip ua cache fv) loggable_option.
Proof.
  unfold step_block_rules. apply returns_then. intros [[id rule]|]; [|by apply returns_ret].
  apply returns_then. intros action. cbv zeta. apply returns_then. intros u.
  assert (Hr : ∀ v, loggable {| er_verdict := v; er_action := Some action; er_matched_rule_id := Some u;
    er_matched_rule_type := "block"; er_anomaly_score := None; er_retry_after := None; er_window := None |})
    by (intros v; split; [cbn; tauto|done]).
  case_bool_decide; [|apply returns_ret; by intros r [= <-]].
  eapply returns_bind; [by apply gate_loggable|]. intros r Hl. apply returns_ret. by intros ? [= <-].
Qed.

Lemma no_referer_loggable ip path referer fv : returns (S:=W) (step_no_referer uuid4 conf ip path referer fv) loggable_option.
Proof.
  unfold step_no_referer. destruct (_ && _ && _); [|by apply returns_ret].
  eapply returns_bind; [apply gate_loggable, plain_loggable|]. intros r Hl. apply returns_ret. by intros ? [= <-].
Qed.

Lemma scores_loggable ip ua path meta fv : returns (S:=W) (step_scores uuid4 conf ip ua path meta fv) loggable.
Proof.
  unfold step_scores. cbv zeta. apply (returns_bind _ _ (λ q, q <= 5)%Q).
  { unfold fingerprint_score. case_bool_decide; [apply returns_ret; by vm_compute|]. cbv zeta.
    apply returns_then. intros [|]; [apply returns_ret; by vm_compute|]. intros s q s' E.
    unfold lift_res in E. injection E as E _. by eapply fingerprint_score_le. }
  intros fp Hfp. apply (returns_bind _ _ (λ q, q <= 10)%Q).
  { unfold user_agent_score. apply returns_then. intros n. apply returns_ret. destruct (_ <? _); [apply ua_score_le|by vm_compute]. }
  intros us Hus. set (total := (us + _ + fp)%Q).
  assert (Ht : (total <= 25)%Q).
  { apply Qle_trans with (10 + 10 + 5)%Q; [|by vm_compute].
    repeat apply Qplus_le_compat; [done|apply path_score_le|done]. }
  destruct (Qle_bool total 0) eqn:E0; [apply returns_ret, plain_loggable|].
  assert (Hpos : (0 < total)%Q).
  { apply Qnot_le_lt. intros Hle%Qle_bool_iff. congruence. }
  destruct (score_to_verdict conf total) as [v a].
  assert (Hr : loggable {| er_verdict := v; er_action := a; er_matched_rule_id := None; er_matched_rule_type := "";
    er_anomaly_score := Some total; er_retry_after := None; er_window := None |})
    by (split; [by left|by intros q [= <-]]).
  case_bool_decide; [by apply gate_loggable|by apply returns_ret].
Qed.

Lemma or_else_loggable (m : M W (option EvaluationResult)) k :
  returns m loggable_option → returns k loggable → returns (or_else m k) loggable.
Proof.
  intros Hm Hk. eapply returns_bind; [exact Hm|]. intros [r|] Hr; [|done]. apply returns_ret. by apply Hr.
Qed.

Lemma evaluation_loggable ip ua path method referer meta :
  returns (S:=W) (evaluate_request uuid4 conf ip ua path method referer meta) loggable.
Proof.
  unfold evaluate_request. apply returns_then. intros fv. apply returns_then. intros cache.
  apply or_else_loggable; [apply allow_loggable|]. apply or_else_loggable; [apply blocked_ip_loggable|].
  apply or_else_loggable; [apply block_rules_loggable|]. apply or_else_loggable.
  { unfold step_rate_limit. apply returns_then. intros rr. apply returns_ret. intros r.
    destruct (exceeded rr); [|done]. intros [= <-]. split; [by left|done]. }
  apply or_else_loggable; [apply no_referer_loggable|apply scores_loggable].
Qed.
End Results.

(** ** Captures *)

(** The classes of the captured groups of a pattern. *)
Fixpoint captured_classes (items : list item) : list (ascii → bool) :=
  match items with
  | [] => []
  | Many _ true p :: items => p :: captured_classes items
  | _ :: items => captured_classes items
  end.

Lemma greedy_captures p ok k s a r :
  greedy p ok k s = Some (a, r) → str_forall p a = true ∧ ∃ s', k s' = Some r.
Proof.
  revert ok a r. induction s as [|c s IH]; intros ok a r; cbn [greedy].
  - destruct ok; [|done]. destruct (k "") eqn:E; [|done]. intros [= <- <-]. split; [done|by exists ""].
  - assert (Hstop : (if ok then (λ r, ("", r)) <$> k (String c s) else None) = Some (a, r) →
      str_forall p a = true ∧ ∃ s', k s' = Some r).
    { destruct ok; [|done]. destruct (k (String c s)) eqn:E; [|done]. intros [= <- <-]. split; [done|by eexists]. }
    destruct (p c) eqn:Hc; [|done]. destruct (greedy p true k s) as [[a' r']|] eqn:E; [|done].
    intros [= <- <-]. destruct (IH _ _ _ E) as [Ha Hk]. split; [|done]. cbn. by rewrite Hc.
Qed.

Lemma match_captures items k s gs :
  match_items items k s = Some gs →
  ∃ g1 g2 s', gs = g1 ++ g2 ∧ Forall2 (λ p g, str_forall p g = true) (captured_classes items) g1 ∧ k s' = Some g2.
Proof.
  revert s gs. induction items as [|[c|om cap p] items IH]; intros s gs; cbn [match_items captured_classes].
  - intros E. by exists [], gs, s.
  - destruct s as [|d s]; [done|]. case_bool_decide; [apply IH|done].
  - destruct (greedy _ _ _ s) as [[a r]|] eqn:E; [|done]. cbn. intros [= <-].
    apply greedy_captures in E as (Ha & s1 & Hk). apply IH in Hk as (g1 & g2 & s' & -> & HF & Hk).
    destruct cap; [exists (a :: g1), g2, s'|exists g1, g2, s']; split; [done| |done|]; split; [by constructor|done|done|done].
Qed.

Lemma int_body_nonneg pd acc s n : 0 <= acc → int_body pd acc s = Some n → 0 <= n.
Proof.
  revert pd acc. induction s as [|c s IH]; intros pd acc Hacc; cbn [int_body].
  { destruct pd; [|done]. by intros [= <-]. }
  destruct (is_digit c) eqn:Hc; [|destruct (_ && pd); [by apply IH|done]].
  apply IH. unfold is_digit in Hc. bool_hyps. lia.
Qed.

Lemma digits_nonneg s n : str_forall is_digit s = true → py_int s = Some n → 0 <= n.
Proof.
  intros Hs. unfold py_int. rewrite strip_id by (by eapply str_forall_impl, Hs; apply is_digit_not_space).
  destruct s as [|c s]; [done|]. cbn [str_forall] in Hs. apply andb_true_iff in Hs as [Hc _].
  assert (Hbody : int_body false 0 (String c s) = Some n → 0 <= n) by by apply int_body_nonneg.
  destruct c as [[] [] [] [] [] [] [] []]; try done; exact Hbody.
Qed.

Lemma parsed_status_nonneg `{IpField} l e : parse_line l = Ok (Some e) → 0 <= le_status e.
Proof.
  unfold parse_line. destruct (log_re_match (strip l)) as [gs|] eqn:E; [|done].
  unfold log_re_match in E. apply match_captures in E as (g1 & g2 & s' & -> & HF & _).
  change (captured_classes log_re_head) with [not_space; not_char "]"; not_space; not_space; is_digit] in HF.
  repeat match goal with HF : Forall2 _ (_ :: _) _ |- _ => inversion HF; clear HF; subst end.
  match goal with HF : Forall2 _ [] _ |- _ => inversion HF; clear HF; subst end. cbn [app].
  match goal with |- context [status_int ?y] => destruct (status_int y) as [n|x] eqn:En; [|done] end.
  destruct (_ || _); [done|]. intros <-%Ok_Some_inj. cbn [le_status].
  unfold status_int in En. destruct (_ <? _)%nat; [done|]. destruct (py_int _) as [z|] eqn:Ez; [|done].
  injection En as <-. by eapply digits_nonneg.
Qed.

Module SchemaProps.

(** The migrations build the models.  Replaying the operations of the eight
    migrations on an empty project, each after those it depends on, meets no
    missing and no duplicate name and ends with the five models as the classes
    declare them: the same fields with the same arguments, options, indexes and
    constraints. *)
Lemma migrations_build_the_models :
  replay migrations [] [] = Some schema ∧ map canonical schema = map canonical models ∧ well_named schema.
Proof.
  assert (Hr : replay migrations [] [] = Some schema).
  { unfold schema. destruct (replay migrations [] []) eqn:E; [done|]. vm_compute in E. discriminate E. }
  split; [exact Hr|]. split.
  - apply (bool_decide_eq_true_1 (map canonical schema = map canonical models)). vm_compute. reflexivity.
  - apply (replay_well_named _ _ _ _ Hr). split; [apply NoDup_nil_2|constructor].
Qed.

(** The values the code writes are the choices the columns declare. *)
Lemma choices_are_the_values :
  map fst RuleAction_choices = map RuleAction_value
    [RuleAction_BLOCK; RuleAction_CHALLENGE; RuleAction_THROTTLE; RuleAction_LOG_ONLY] ∧
  map fst RuleType_choices = map RuleType_value [RuleType_UA; RuleType_IP; RuleType_CIDR; RuleType_COMPOSITE] ∧
  map fst MatchType_choices = map MatchType_value
    [MatchType_EXACT; MatchType_REGEX; MatchType_CONTAINS; MatchType_CIDR] ∧
  map fst RuleSource_choices = map RuleSource_value [RuleSource_ADMIN; RuleSource_AUTO; RuleSource_FEED] ∧
  map fst ReviewStatus_choices = map ReviewStatus_value
    [NOT_APPLICABLE; PENDING_REVIEW; CONFIRMED; REJECTED; EXPIRED_UNREVIEWED] ∧
  map fst Verdict_choices = map Verdict_value [ALLOWED; BLOCKED; CHALLENGED; THROTTLED; PASSED; LOGGED].
Proof. by vm_compute. Qed.

Lemma verdict_width v : Z.of_nat (String.length (Verdict_value v)) <=? 20 = true.
Proof. by destruct v. Qed.

Lemma classified_width ua meta :
  Z.of_nat (String.length (match classify_fingerprint ua meta with Ok v => v | Raise _ => "" end)) <=? 20 = true.
Proof.
  unfold classify_fingerprint. destruct (score_fingerprint_mismatch ua meta) as [q|]; [|done]. cbn [res_bind].
  destruct (qge q 3); [done|]. destruct (qge q (3 # 2)); [done|]. destruct (str_empty ua); [done|].
  by destruct (negb _).
Qed.

Lemma taken_width n s k : Z.of_nat n <= k → Z.of_nat (String.length (str_take n s)) <=? k = true.
Proof. intros Hk. apply Z.leb_le. pose proof (str_take_length_le n s). lia. Qed.

Lemma loggable_widths r :
  loggable r →
  Z.of_nat (String.length (er_matched_rule_type r)) <=? 10 = true ∧
  match er_anomaly_score r with Some q => Qle_bool 0 q && Qle_bool (q + 1) 100 | None => true end = true.
Proof.
  intros [Ht Hq]. split; [by destruct Ht as [<-|[<-|[<-|[]]]]|]. destruct (er_anomaly_score r) as [q|]; [|done].
  destruct (Hq q eq_refl) as [H0 H25]. apply andb_true_iff. split; apply Qle_bool_iff; [by apply Qlt_le_weak|].
  apply Qle_trans with (25 + 1)%Q; [by apply Qplus_le_compat; [|apply Qle_refl]|by vm_compute].
Qed.

(** C40: what the two writers of the request log put into a row fits the columns
    of the schema, but for one value.  Whatever the request and the rules, the
    row of an evaluated request has its text within the declared lengths, its
    score within four digits and its status within a small integer, exactly when
    the method has at most 16 characters, which the middleware does not see to;
    every row of the log importer fits.  That a status has three digits and a
    country two letters is taken from what Django and MaxMind document. *)
Theorem log_rows_fit_but_for_the_method {R P} `{RedisClient R} `{ReEngine P} `{Dns} `{IpField} uuid4 conf
    ip ua path method referer meta (w w' : World R P) result rq t code country now l e :
  evaluate_request uuid4 conf ip ua path method referer meta w = (Ok result, w') →
  (String.length country <= 2)%nat → 0 <= code <= 32767 →
  parse_line l = Ok (Some e) →
  fits_columns (request_log_row rq t ip ua path result code country)
    = (Z.of_nat (String.length (rq_method rq)) <=? 16) ∧
  fits_columns (entry_row now e) = true.
Proof.
  intros Hrun Hcountry Hcode Hparse. split.
  - destruct (loggable_widths result) as [Htype Hscore]; [by eapply evaluation_loggable|].
    rewrite fits_columns_spec. cbn [request_log_row rl_user_agent rl_path rl_method rl_verdict rl_matched_rule_type
      rl_anomaly_score rl_response_code rl_referer rl_http_fingerprint rl_fingerprint_verdict rl_country_code
      rl_source rl_source_event_id].
    rewrite !taken_width, verdict_width, Htype, Hscore, classified_width by done.
    unfold compute_fingerprint. rewrite hexdigest_length, sha256_length.
    rewrite (proj2 (Z.leb_le (Z.of_nat (String.length country)) 2)), (proj2 (Z.leb_le 0 code)),
      (proj2 (Z.leb_le code 32767)) by lia.
    cbn [andb]. by destruct (_ <=? 16).
  - destruct (parse_line_fits now l e Hparse) as (_ & Hm & Hp & Hu & (n & Hn & Hle) & _ & Hid).
    pose proof (parsed_status_nonneg l e Hparse) as Hs. rewrite fits_columns_spec.
    cbn [entry_row rl_user_agent rl_path rl_method rl_verdict rl_matched_rule_type rl_anomaly_score
      rl_response_code rl_referer rl_http_fingerprint rl_fingerprint_verdict rl_country_code rl_source
      rl_source_event_id] in *.
    injection Hn as <-. unfold MAX_SMALLINT in Hle. rewrite verdict_width, Hid.
    rewrite (proj2 (Z.leb_le _ 1024)), (proj2 (Z.leb_le (Z.of_nat (String.length (le_path e))) 2048)),
      (proj2 (Z.leb_le (Z.of_nat (String.length (le_method e))) 16)), (proj2 (Z.leb_le 0 (le_status e))),
      (proj2 (Z.leb_le (le_status e) 32767)) by lia.
    done.
Qed.
(** ** Witness *)

#[local] Existing Instances RuleEngineProps.sample_dns AccessLogProps.demo_ip_field.

(** A listed address is refused, and one line of an access log is read. *)
Lemma log_rows_fit_but_for_the_method_witness :
  ∃ e,
    fits_columns (request_log_row (MiddlewareProps.demo_request "curl/8") 0 "192.0.2.1" "curl/8" "/"
      (plain_result BLOCKED (Some "block")) 403 "NL") = true ∧
    fits_columns (entry_row 0 e) = true ∧ le_ip e = "203.0.113.7".
Proof.
  assert (Hp : ∃ e, parse_line (H:=AccessLogProps.demo_ip_field) AccessLogProps.demo_line = Ok (Some e)
    ∧ le_ip e = "203.0.113.7") by (eexists; split; vm_compute; reflexivity).
  destruct Hp as (e & Hp & Hip). exists e.
  destruct (log_rows_fit_but_for_the_method Z.of_nat (default_conf "s3cret")
    "192.0.2.1" "curl/8" "/" "GET" _ _ MiddlewareProps.blocked_world _ _ (MiddlewareProps.demo_request "curl/8") 0
    403 "NL" 0 _ e (MiddlewareProps.demo_evaluated (default_conf "s3cret") (or_intror (or_introl eq_refl)))
    ltac:(cbn; lia) ltac:(lia) Hp) as [E1 E2].
  split; [rewrite E1; vm_compute; reflexivity|]. by split.
Defined.

(** A method of seventeen characters does not fit. *)
Example long_method_does_not_fit :
  fits_columns (request_log_row {| (MiddlewareProps.demo_request "curl/8") with rq_method := "UPDATEREDIRECTREF" |} 0
    "192.0.2.1" "curl/8" "/" (plain_result BLOCKED (Some "block")) 403 "") = false.
Proof. by vm_compute. Qed.
End SchemaProps.
